(* ===== verification/_CoqProject ===== *)
-Q . S2P
Prelude.v
Num.v
Types.v
Text.v
Timestamp.v
NumText.v
JsMap.v
Json.v
JsonText.v
StrategyCore.v
Risk.v
CandidateState.v
Decimals.v
ExactState.v
CandidatePolicy.v
PolicyRouter.v
MarketStructure.v
SubmissionBlocking.v
Lease.v
RuntimeOwnership.v
OperatorState.v
PilotRecords.v
PilotRepository.v
PilotTheory.v
PilotInvariants.v
PilotGuarantees.v
PilotScenarios.v
OrderRecords.v
OrderRepository.v
OrderTheory.v
OrderGuarantees.v
OrderAuthority.v
OrderScenarios.v
Effects.v
CandidateAuthority.v
ExecutionRecords.v
ExecutionHelpers.v
ExecutionService.v
ExecutionTheory.v
ExecutionTimeline.v
ExecutionInvariant.v
ExecutionGuarantees.v
ExecutionScenarios.v
OwnershipGuard.v
OwnershipFencing.v
SnapshotBinding.v
ReconciliationRecords.v
ReconciliationHelpers.v
HistoryWindows.v
PortfolioDrift.v
ReconciliationService.v
ReconciliationTheory.v
ReconciliationRules.v
ReconciliationRun.v
ReconciliationGuarantees.v
ReconciliationReports.v
ReconciliationScenarios.v
ReportReader.v
Preflight.v
PreflightTheory.v
EvidenceRecords.v
EvidenceHelpers.v
EvidenceService.v
EvidenceSums.v
EvidenceTheory.v
EvidenceRules.v
EvidenceGuarantees.v
EvidenceScenarios.v
StrategyContext.v
StrategyJson.v
Runner.v
RunnerTheory.v
RunnerGuarantees.v
RunnerScenarios.v
PortfolioSync.v
PortfolioSyncTheory.v
RunPreparation.v
RunEvidence.v
RunController.v
RunGate.v
