(* ===== verification/Prelude.v ===== *)
(** * AutoTrade Upbit: a verification library

    AutoTrade Upbit trades BTC and ETH for won on the Upbit exchange.  Every
    hour a scheduler reads candles and a ticker, a market-structure analysis
    turns them into regime, scores and levels, a decision engine proposes
    ENTER, ADD, REDUCE, EXIT or HOLD, a policy router decides whether the
    baseline proposal or that of a candidate pilot is executed, risk guards
    accept or reject the resulting order, and an execution service submits it
    under an account lease.  Confirmed fills come back as evidence from which
    the state of the candidate's current episode is recomputed;
    reconciliation settles orders whose submission is uncertain.

    ** Files and what they model

    Paths are relative to [src/src/].

    - [Prelude]: values that may be an [Error] ([outcome]), methods of a
      mutable object ([action]), safe integers, the stable sort of
      ECMAScript, tactics.
    - [Num]: JavaScript numbers, as IEEE 754 binary64 ([SpecFloat]) with one
      NaN, their arithmetic, comparisons, [Math.min], [Math.max] and
      [toFixed], and the order lemmas the bounds need.
    - [Types]: the string-literal unions of [domain/types.ts] and
      [domain/pilot-types.ts] as inductive types with their literals.
    - [Text]: the string operations and decimal digits the regular expressions
      and printers are made of, and [requireNonEmpty]; strings are lists of
      8-bit characters.
    - [Timestamp]: [parsePositionGuardCandidateTimestamp] of
      [modules/strategy/position-guard-candidate-state.ts],
      [parseStrictIsoTimestamp] of
      [modules/db/repositories/atomic-lifecycle-validation.ts], [Date.parse] of
      the ISO formats, [Date.prototype.toISOString] and
      [formatCandidatePilotUtcNanoseconds] of [modules/db/pilot-interfaces.ts].
    - [NumText]: [Number(text)], [String(number)] and [JSON.stringify].
    - [JsMap], [Json]: a JavaScript [Map] in insertion order; JSON values with
      [JSON.parse] and [JSON.stringify] of the objects the program stores;
      [JsonText]: what is printed with no numbers but counts is read back.
    - [StrategyCore]: [modules/strategy/position-guard-core.ts], the whole
      decision engine with its messages.
    - [Risk]: [modules/risk/guards.ts].
    - [CandidateState]: [modules/strategy/position-guard-candidate-state.ts],
      the episode state in binary64: validation, advance, projection.
    - [Decimals]: the exact decimals of
      [modules/execution/candidate-evidence-decimals.ts] and the order
      decimals of [modules/exchange/upbit/order-decimals.ts].
    - [ExactState]: the exact twin of the episode state, same file.
    - [CandidatePolicy]: [modules/strategy/position-guard-candidate-policy.ts].
    - [PolicyRouter]: [modules/strategy/position-guard-policy-router.ts].
    - [MarketStructure]: [modules/strategy/market-structure.ts].
    - [SubmissionBlocking]: [domain/submission-blocking-order.ts] and
      [modules/reconciliation/submission-recovery-state-machine.ts].
    - [Lease]: [modules/db/repositories/in-memory-account-execution-lease-store.ts].
    - [RuntimeOwnership]: [modules/db/runtime-ownership-interfaces.ts] and
      [modules/db/repositories/in-memory-runtime-ownership-store.ts].
    - [OperatorState]: [InMemoryOperatorStateStore] of
      [modules/db/repositories/in-memory-repositories.ts], the operator's
      commands and the automatic fault pause, with
      [composeExecutionPolicy] of [modules/execution/execution-service.ts].
    - [PilotRecords], [PilotRepository]: the records and validators of
      [modules/db/pilot-interfaces.ts] and the class
      [InMemoryCandidatePilotRepository] of
      [modules/db/repositories/in-memory-candidate-pilot-repository.ts]:
      deployments and their phases, exact states, evidence, audit events and
      bindings, over a store that can pause trading ([AtomicFaultPauseStore],
      an interface the operator store implements).  [PilotTheory] reduces its
      methods to a few effects, [PilotInvariants] and [PilotGuarantees] are
      its theorems, [PilotScenarios] runs them on a sample pilot.
    - [OrderRecords], [OrderRepository]: the records and validators of
      [modules/db/repositories/atomic-lifecycle-validation.ts] and
      [modules/db/repositories/candidate-bound-order-validation.ts], and the
      decisions, orders, events, fills, observations and risk events of
      [InMemoryExecutionRepository].  The two objects it is constructed with
      are an interface ([ExecutionEnvironment]) with laws
      ([ExecutionEnvironmentLaws]), which the pilot repository with its
      operator store implements ([pilot_environment]).  [OrderTheory],
      [OrderGuarantees] and [OrderAuthority] are its theorems,
      [OrderScenarios] runs them over the sample pilot.
    - [Effects]: asynchronous methods as programs over the calls they await,
      with JavaScript's exceptions, and their weakest preconditions over the
      history of calls.
    - [CandidateAuthority]: [modules/execution/candidate-execution-authority.ts]
      and [modules/execution/idempotency.ts].
    - [ExecutionRecords], [ExecutionHelpers], [ExecutionService]: the class of
      [modules/execution/execution-service.ts], its inputs and results
      ([modules/execution/interfaces.ts]), its pure functions and
      [submitOrderFromDecision].  [ExecutionTheory] and [ExecutionTimeline] say
      what each call may rely on, [ExecutionInvariant] shows that the service
      keeps to it, [ExecutionGuarantees] draws the conclusions and composes the
      service with the order repository, [ExecutionScenarios] runs it.
    - [OwnershipGuard]: [app/runtime-ownership-guard.ts] over an interface of
      the ownership store ([OwnershipStore], with [OwnershipStoreLaws]), which
      [OwnershipFencing] shows the in-memory store to implement; there too is
      the execution service behind the guard's fence.
    - [SnapshotBinding]:
      [modules/reconciliation/exchange-order-snapshot-binding.ts].
    - [ReconciliationRecords], [ReconciliationHelpers], [HistoryWindows],
      [ReconciliationService]: [modules/reconciliation/reconciliation-service.ts]
      with the reports of [modules/reconciliation/interfaces.ts], the sweep of
      [terminal-candidate-sweep.ts] and the readers of reports,
      [history-recovery-validation.ts] and
      [reconciliation-summary-validation.ts].  [ReconciliationTheory],
      [ReconciliationRules] and [ReconciliationRun] show what each routine does,
      [ReconciliationGuarantees] and [ReconciliationReports] are the theorems,
      [ReconciliationScenarios] runs them and collects what the code gets
      wrong.
    - [PortfolioDrift]: [modules/reconciliation/portfolio-drift.ts].
    - [EvidenceRecords], [EvidenceHelpers], [EvidenceService]:
      [modules/execution/candidate-evidence-service.ts], its results and faults,
      its pure functions and its two methods, the evidence of a finished order
      and its place in a sweep.  [EvidenceSums] (the sums over fills),
      [EvidenceTheory], [EvidenceRules] and [EvidenceGuarantees] are its
      theorems; [EvidenceScenarios] runs it over the modelled pilot repository.
    - [StrategyContext]: the tickers, candles and balances of the exchange
      (Section [ExchangeData]), [modules/strategy/position-guard-snapshot.ts]
      and [modules/strategy/position-guard-context.ts].
    - [StrategyJson], [Runner]: what is stored with a decision, and
      [modules/strategy/position-guard-runner.ts], a run of the strategy from
      the market to the submission.  [RunnerTheory] says what a run makes its
      calls for, [RunnerGuarantees] what it may order; [RunnerScenarios] runs it.
    - [PortfolioSync]: [modules/reconciliation/portfolio-sync-service.ts] and
      [modules/reconciliation/snapshot-service.ts]; [PortfolioSyncTheory] has its
      theorems and runs it.
    - [ReportReader], [Preflight]: the readers of stored reports and
      [app/scheduler-preflight.ts], the checks before a live run;
      [PreflightTheory] has their theorems and runs them.
    - [RunPreparation]: [app/candidate-btc-run-preparation.ts], the
      synchronisation and the checks before a run of the pilot's market;
      [RunEvidence] has its theorems, among them that what the modelled
      synchronisation returns is accepted, and runs it.
    - [RunController]: [app/strategy-run-controller.ts], with requests that
      interleave at their awaits as a step relation over their programs;
      [RunGate] has its theorems and runs it.

    The files call each other as the program's modules do: the router runs the
    candidate policy on the engine's decision, the policy reads the candidate
    state, the lease store asks the submission classifier, [MarketStructure]
    feeds its analysis to the engine.  Records keep the fields of the source's
    interfaces, prefixed where two interfaces share a field name, and
    functions keep the source's names; a definition that stands for part of a
    function says so.  A map or array field of a class is a field of a record
    and a method is an [action] on it, so what was assigned before a [throw]
    stays assigned.

    ** What the theorems show

    - Decisions.  The engine takes the action of a small decision table
      ([StrategyCore.decide_action_table]); its buys fit the cash and what the
      account's shares of the equity leave ([StrategyCore.buy_within_capacity]), its
      confirmed buys have an antecedent one hour earlier, its reductions are
      neither dust nor, with default settings, exits.  An analysis that finds
      a breakdown always ends in an exit ([MarketStructure.breakdown_forces_exit])
      and no unfinished candle influences it ([MarketStructure.no_lookahead]).
    - Policies.  Neither the candidate policy nor the router ever adds risk to
      the baseline decision, allowed entries and adds satisfy the registered
      conditions, and reductions always pass but in the fault pause.
    - Guards.  [Risk.risk_accepts_iff] characterises acceptance, the caps on the
      projected exposures included; an accepted
      buy is within both caps and a sell is never stopped by one.
    - Accounting.  The float projection of evidence does not depend on storage
      order, is incremental and keeps the state invariant; the exact one
      refines a ledger over the rationals
      ([ExactState.exact_projection_refines_ledger]).
    - Text.  Timestamps and canonical decimals round trip, with the exact set
      of failures; decimal arithmetic and division are exact.
    - Coordination.  A lease cannot be taken from its holder before it expires
      ([Lease.lease_exclusive]) and is granted exactly when no order blocks
      the account, where blocking has a declarative specification
      ([SubmissionBlocking.blocking_released_exactly]).  The ownership store
      implements an abstract protocol of generations and owners, and grants
      exactly the calls the protocol entitles
      ([RuntimeOwnership.store_refines_protocol]); from it its log invariant
      and the fencing of stale owners follow.
    - Operator.  The system status refines the flags that cause it
      ([OperatorState.status_refines_flags]) and a halted store makes the
      guards reject every order.
    - Pilot.  The runs are sequences of the repository's calls, the writers of
      order bindings and both halves of a fault pause that waits included, so
      that other calls may run in between.  In all of them the repository keeps
      deployments well formed; when no fault pause waits while another call
      runs, deployments move only along the graph of phases and the audit log
      replays to the state ([PilotInvariants.audit_log_replays]); the exact state is the projection
      of the stored evidence, each piece applied once; a rollback ends only
      flat and halted, and can always end; a fault pause stops trading.
    - Orders.  Every operation is all or nothing
      ([OrderGuarantees.failed_call_changes_nothing]).  The runs contain every
      writer of the class; [saveOrder], [updateOrder] and [appendOrderEvent],
      which check nothing, owe a contract to their callers (new records, updates
      of the same identity), and under it orders, events and fills stay unique
      and consistent ([OrderGuarantees.orders_stay_consistent]) and are
      append-only; a submission can
      be retried; an intent under the pilot is stored with a binding that its
      decision and deployment authorise ([OrderAuthority.candidate_intent_is_bound]);
      a confirmed absence pauses trading and releases the account of an order
      that was never known to be submitted
      ([OrderAuthority.finalized_absence_unblocks]).
    - Execution.  Whatever its dependencies answer or throw, a submission sends
      at most one order ([ExecutionGuarantees.one_order_per_call]), only after
      the lease, the stored intent, the policy checks and the last look at the
      open orders ([ExecutionGuarantees.order_follows_protocol]); an order that
      was sent is stored as submitted, rejected or uncertain, or trading is
      paused ([ExecutionGuarantees.sent_order_is_accounted_for]); the lease is
      given back only when the order is settled, errors fail closed, and the
      result says what happened.
    - Ownership.  A process that lost the runtime never regains it and its
      fence never opens again; the execution service behind the fence sends
      orders only as the current owner
      ([OwnershipFencing.order_sent_by_current_owner]).
    - Reconciliation.  Every call of a run follows an assertion of ownership
      ([ReconciliationGuarantees.reconciliation_is_fenced]).  An order is given
      up only on the evidence the policy asks for, stored only as the exchange
      showed it, marked when it stays unresolved, created once; only dry runs
      are rewritten.  What a run reports satisfies the strict readers of the
      reports ([ReconciliationReports.run_reports_are_accepted]).
    - History and drift.  The windows of successive runs cover the history down
      to the stop boundary as long as runs are no further apart than the
      lookback ([HistoryWindows.history_is_covered]); high confidence is
      characterised; a change of the portfolio that the fills explain is no
      drift, and every fill counts in exactly one interval between snapshots.
    - Evidence.  The sums over an order's fills are exact and do not depend on
      their order; a candidate's state advances only by the fills of a finished
      order that its binding and decision authorise
      ([EvidenceGuarantees.evidence_is_authorised]); every result says what was
      written, failures end in a stored fault and a pause, processing again
      changes nothing, and a sweep leaves out no order that could still advance
      the state.
    - Preflight.  The report every reconciliation stores is read back as what
      it reported ([PreflightTheory.own_report_is_read_back]), and a live run may
      start exactly under the conditions of a live run
      ([PreflightTheory.live_preflight_decides]).
    - Runs.  A run submits at most one order, last, while it holds the runtime,
      and only the one that its stored decision asks for, made of the data read
      in that run ([RunnerTheory.submitted_orders_are_decided]); its buys are the
      engine's and within the capacities of the account, its sales fractions of
      the position ([RunnerGuarantees.orders_stay_within_the_account]); an order
      is bound to the pilot's deployment exactly in the phases that trade in its
      name, as this run verified them
      ([RunnerGuarantees.pilot_orders_are_bound]).
    - Requests.  However requests interleave, one run or preview is in flight at
      a time and the flag that says so is never left behind
      ([RunGate.one_run_at_a_time]); the runner is asked only after the
      preparation or the preflight of the request let it through
      ([RunGate.runs_are_gated]); a receipt is handed on exactly under the
      conditions of a live run, for the evidence of its own synchronisation
      ([RunEvidence.receipts_are_checked]), and what that synchronisation returns
      is never refused ([RunEvidence.own_sync_is_accepted]).
    - Synchronisation.  What reconciliation compares is what was stored, built
      from one answer of the exchange
      ([PortfolioSyncTheory.reconciliation_sees_what_was_stored]); every asset
      that is held is valued, from the market or from its average price; a run
      that failed is recorded as failed; and an account that did not change shows
      no drift, whatever it was valued at
      ([PortfolioSyncTheory.unchanged_portfolio_is_no_drift]).

    Modelling found defects, each a lemma or an example of the development.
    The signed decimal reader refuses proper fractions its own printer produces
    ([Decimals.signed_decimal_roundtrip]), which blocks a candidate's evidence
    after a partial sell with such a profit
    ([ExactState.fractional_pnl_blocks_exit]); exact division drops the sign of
    a divisor ([Decimals.divide_negative_divisor]); a fault pause interleaved
    with a rollback undoes it ([PilotScenarios.fault_pause_undoes_rollback],
    [PilotScenarios.interrupted_run_loses_the_rollback]);
    an advance can be stored and then reported as failed
    ([PilotScenarios.small_profit_is_stored_and_refused]).  An order that was
    marked for recovery, found and lost again ends every later reconciliation
    ([ReconciliationScenarios.refused_remark_aborts_the_run]), a fill stored by
    a submission can conflict with the same fill read by reconciliation
    ([ReconciliationScenarios.stored_fill_conflicts]), a dry-run bid by price is
    repaired with volume one
    ([ReconciliationScenarios.bid_by_price_is_repaired_with_one]), and an
    archival window cut off by the page limit is never read again
    ([HistoryWindows.truncated_window_is_forgotten]).  What the write of the
    no-fill marker throws escapes the evidence service's own error handling
    ([EvidenceScenarios.marker_failure_escapes]).  With a scheduler interval that
    is not a whole number, which the configuration accepts, the preflight throws
    ([PreflightTheory.fractional_interval_throws]).

    ** Conventions and bounds

    A TypeScript [number] that carries a price, quantity, amount or fraction is
    a binary64 [num]; one that only ever counts (scores, versions, epoch
    milliseconds of the stores) is an integer with the source's safe-integer
    checks.  A [bigint] is an integer.  Types that the compiler enforces are
    enforced by the model's types, so run-time checks that a value has its
    declared shape ([exactOwnDataRecord], [assertExactKeys], membership in a
    literal union) are absent or always pass; [validatePositionGuardPolicySelection],
    whose argument is [unknown], takes a JSON value.  [Object.freeze] and defensive copies are the
    identity on values.

    Loops over data are structural recursions.  Where a loop has no structure
    the fuel is a bound that the proofs show is never reached: [gcd_fuel]
    (twice the binary logarithm of the divisor, which two remainder steps
    halve), [strip] (the binary
    logarithm of the number that is divided), [decimal_width] (the digits of a
    number) and [shortest_digits] (the seventeen digits that identify a
    binary64 number).  [Date_parse] covers the ISO date and date-time formats
    of ECMAScript, with zone-less times read as UTC, the zone of the program's
    hosts; the only texts parsed here are timestamps the program wrote.

    An [async] method of an in-memory store that does not await runs to its end
    before any other, so it is one action; where a method awaits between
    reading and writing ([pauseForRecoveryFault]) its parts are actions of
    their own: the runs of [PilotTheory] begin, read and finish a fault pause as
    separate steps, and theorems that need the pause to run at once assume it.

    A method that awaits calls whose answers matter is a program of [Effects]:
    its theorems quantify over every answer, so over every behaviour of its
    dependencies and everything other code does meanwhile.  [Promise.all] makes
    its calls in order, waits for all of them and throws what the first that
    failed threw; where its branches are [async] functions, each runs to its
    end before the next, so their interleavings are not covered.  What is
    thrown is an [Error] or another truthy value.  The dependencies do not throw
    the service's own error classes, an ownership assertion that fails throws an
    ownership failure, and clocks, identifiers and listeners do not throw.
    Raw answers of the exchange are JSON values.  [/market_offline/iu] folds
    ASCII letters only.  The numeric limits of reconciliation are whole numbers;
    reading the history takes at most [maxPages] pages, so its loop needs no
    other fuel.

    ** Not modelled

    The SQLite repositories implement the interfaces the in-memory ones do, in
    SQL whose meaning is the database's.  Of [InMemoryExecutionRepository], the
    lists of snapshots, runs and checkpoints are plain maps.  The scheduler and
    the application's composition are timers and wiring around the modelled
    parts.  The HTTP clients, the Telegram presentation, the research, backtest
    and operator scripts are input and output around the modelled parts. *)

From stdpp Require Import base option list strings sorting.
From Stdlib Require Import ZArith Lia.

(** ** Results of code that may throw

    A TypeScript function that can execute [throw new Error(message)] is a
    function into [outcome]: [Ret] carries its value and [Throw] the message
    of the [Error]. *)

Inductive outcome (A : Type) : Type :=
| Ret (value : A)
| Throw (message : string).
Arguments Ret {A} value.
Arguments Throw {A} message.

#[export] Instance outcome_ret : MRet outcome := @Ret.
#[export] Instance outcome_bind : MBind outcome :=
  fun A B k m => match m with Ret v => k v | Throw e => Throw e end.

(** [if (condition) throw new Error(message);] *)
Definition throw_if (condition : bool) (message : string) : outcome unit :=
  if condition then Throw message else Ret tt.

Definition returns {A} (m : outcome A) : bool :=
  match m with Ret _ => true | Throw _ => false end.

Definition throws {A} (m : outcome A) : bool := negb (returns m).

(** A [for] loop whose body may throw. *)
Fixpoint mapM_outcome {A B} (f : A -> outcome B) (l : list A) : outcome (list B) :=
  match l with
  | [] => Ret []
  | x :: l' => y ← f x; ys ← mapM_outcome f l'; Ret (y :: ys)
  end.

Fixpoint foldM_outcome {A S} (f : S -> A -> outcome S) (s : S) (l : list A) : outcome S :=
  match l with
  | [] => Ret s
  | x :: l' => s' ← f s x; foldM_outcome f s' l'
  end.

Lemma bind_Ret {A B} (m : outcome A) (k : A -> outcome B) v :
  (x ← m; k x) = Ret v <-> exists x, m = Ret x /\ k x = Ret v.
Proof.
  destruct m as [x|e]; simpl; split.
  - intros H. by exists x.
  - intros (y & Hy & H). congruence.
  - discriminate.
  - intros (y & H & _). discriminate.
Qed.

Lemma throw_if_Ret c m u : throw_if c m = Ret u <-> c = false.
Proof. destruct c, u; simpl; split; congruence. Qed.

Lemma throw_if_bind_Ret {B} c m (k : unit -> outcome B) v :
  (x ← throw_if c m; k x) = Ret v <-> c = false /\ k tt = Ret v.
Proof. destruct c; simpl; split; [discriminate|by intros [? _]|done|by intros [_ ?]]. Qed.

Lemma foldM_outcome_app {A S} (f : S -> A -> outcome S) s l1 l2 :
  foldM_outcome f s (l1 ++ l2) = (s' ← foldM_outcome f s l1; foldM_outcome f s' l2).
Proof.
  revert s. induction l1 as [|x l1 IH]; intros s; simpl; [done|].
  destruct (f s x); simpl; [apply IH | done].
Qed.

Lemma mapM_outcome_app {A B} (f : A -> outcome B) l1 l2 :
  mapM_outcome f (l1 ++ l2) =
  (r1 ← mapM_outcome f l1; r2 ← mapM_outcome f l2; Ret (r1 ++ r2)).
Proof.
  induction l1 as [|x l1 IH]; simpl.
  - by destruct (mapM_outcome f l2).
  - destruct (f x); simpl; [|done]. rewrite IH.
    destruct (mapM_outcome f l1); simpl; [|done]. by destruct (mapM_outcome f l2).
Qed.

Lemma mapM_outcome_elem {A B} (f : A -> outcome B) l r y :
  mapM_outcome f l = Ret r -> y ∈ r -> exists x, x ∈ l /\ f x = Ret y.
Proof.
  revert r. induction l as [|x l IH]; simpl; intros r.
  - intros [= <-]. by intros ?%elem_of_nil.
  - intros (y' & Hy & H)%bind_Ret. apply bind_Ret in H as (r' & Hr & [= <-]).
    intros [->|Hin]%elem_of_cons; [exists x; split; [left | done]|].
    destruct (IH _ Hr Hin) as (x' & ? & ?). exists x'. split; [by right | done].
Qed.

(** Running a body over a permutation succeeds alike, with the results
    permuted. *)
Lemma mapM_outcome_perm {A B} (f : A -> outcome B) l1 l2 r1 :
  l1 ≡ₚ l2 -> mapM_outcome f l1 = Ret r1 ->
  exists r2, mapM_outcome f l2 = Ret r2 /\ r1 ≡ₚ r2.
Proof.
  intros HP. revert r1. induction HP as [|x l1 l2 HP IH|x y l|l1 l2 l3 HP1 IH1 HP2 IH2];
    intros r1; simpl.
  - intros [= <-]. by exists [].
  - intros (v & -> & H)%bind_Ret. apply bind_Ret in H as (r & Hr & [= <-]).
    destruct (IH _ Hr) as (r2 & -> & Hr2). exists (v :: r2). split; [done|]. by rewrite Hr2.
  - destruct (f y) as [vy|], (f x) as [vx|]; simpl; try discriminate.
    destruct (mapM_outcome f l) as [r|]; simpl; [|discriminate].
    intros [= <-]. eexists. split; [done|]. apply Permutation_swap.
  - intros H. destruct (IH1 _ H) as (r2 & H2 & P2). destruct (IH2 _ H2) as (r3 & H3 & P3).
    exists r3. split; [done|]. by rewrite P2.
Qed.

(** An invariant of the body is an invariant of the loop. *)
Lemma foldM_outcome_inv {A S} (P : S -> Prop) (f : S -> A -> outcome S) l s s' :
  (forall a b b', P b -> f b a = Ret b' -> P b') ->
  P s -> foldM_outcome f s l = Ret s' -> P s'.
Proof.
  intros Hf. revert s. induction l as [|x l IH]; intros s Hs; simpl.
  - by intros [= <-].
  - intros (b & Hb & Hrest)%bind_Ret. eauto.
Qed.

(** ** Methods of a mutable object

    A method of a class is an [action] on the fields of [this]: what it
    assigned before a [throw] stays assigned. *)

Definition action (S A : Type) : Type := S -> S * outcome A.

Definition act_ret {S A} (v : A) : action S A := fun s => (s, Ret v).

Definition act_bind {S A B} (m : action S A) (k : A -> action S B) : action S B :=
  fun s => match m s with
           | (s', Ret v) => k v s'
           | (s', Throw e) => (s', Throw e)
           end.

#[export] Instance action_ret {S} : MRet (action S) := fun A => @act_ret S A.
#[export] Instance action_bind {S} : MBind (action S) := fun A B k m => @act_bind S A B m k.

(** A computation that reads no field. *)
Definition act_lift {S A} (m : outcome A) : action S A := fun s => (s, m).

(** Reading a field, and assigning fields. *)
Definition act_gets {S A} (f : S -> A) : action S A := fun s => (s, Ret (f s)).
Definition act_modify {S} (f : S -> S) : action S unit := fun s => (f s, Ret tt).

Lemma act_bind_eq {S A B} (m : action S A) (k : A -> action S B) s :
  (x ← m; k x) s = match m s with
                   | (s', Ret v) => k v s'
                   | (s', Throw e) => (s', Throw e)
                   end.
Proof. done. Qed.

Lemma act_lift_bind {S A B} (m : outcome A) (k : A -> action S B) s :
  (x ← act_lift m; k x) s = match m with Ret v => k v s | Throw e => (s, Throw e) end.
Proof. by destruct m. Qed.

Lemma act_gets_bind {S A B} (f : S -> A) (k : A -> action S B) s :
  (x ← act_gets f; k x) s = k (f s) s.
Proof. done. Qed.

Lemma act_modify_bind {S B} (f : S -> S) (k : unit -> action S B) s :
  (x ← act_modify f; k x) s = k tt (f s).
Proof. done. Qed.

(** ** Safe integers

    An integer counter or epoch time is its integer; [Number.isSafeInteger]
    and [Number.MAX_SAFE_INTEGER] bound it. *)

Definition MAX_SAFE_INTEGER : Z := 9007199254740991.

Definition isSafeInteger (value : Z) : bool :=
  ((- MAX_SAFE_INTEGER <=? value) && (value <=? MAX_SAFE_INTEGER))%Z.

(** ** Tactics

    [inv_outcome] turns an equation [code = Ret v] between a straight-line
    block of guarded statements and a value into the list of facts that every
    guard let through. *)

Ltac inv_outcome_step :=
  match goal with
  | H : Ret _ = Ret _ |- _ => injection H as H
  | H : Throw _ = Ret _ |- _ => discriminate H
  | H : Ret _ = Throw _ |- _ => discriminate H
  | H : (_ ≫= (fun _ => _)) = Ret _ |- _ =>
      first [ apply throw_if_bind_Ret in H as [? H]
            | let x := fresh "x" in
              let Hx := fresh "Hx" in
              apply bind_Ret in H as (x & Hx & H) ]
  | H : throw_if _ _ = Ret _ |- _ => apply throw_if_Ret in H
  end.

Ltac inv_outcome := repeat (inv_outcome_step; simplify_eq/=).

(** Split boolean conjunctions, disjunctions and decisions in the context. *)
Ltac destruct_bools :=
  repeat match goal with
  | H : _ && _ = true |- _ => apply andb_true_iff in H as [? ?]
  | H : _ || _ = false |- _ => apply orb_false_iff in H as [? ?]
  | H : negb _ = true |- _ => apply negb_true_iff in H
  | H : negb _ = false |- _ => apply negb_false_iff in H
  | H : bool_decide _ = true |- _ => apply bool_decide_eq_true in H
  | H : bool_decide _ = false |- _ => apply bool_decide_eq_false in H
  | H : (_ <? _)%Z = true |- _ => apply Z.ltb_lt in H
  | H : (_ <? _)%Z = false |- _ => apply Z.ltb_ge in H
  | H : (_ <=? _)%Z = true |- _ => apply Z.leb_le in H
  | H : (_ <=? _)%Z = false |- _ => apply Z.leb_gt in H
  | H : (_ =? _)%Z = true |- _ => apply Z.eqb_eq in H
  | H : (_ =? _)%Z = false |- _ => apply Z.eqb_neq in H
  end.

(** Case analysis on the first [if] or [match] scrutinee in the goal. *)
Ltac case_if :=
  match goal with
  | |- context [if ?b then _ else _] => destruct b eqn:?
  end.

Create HintDb upbit.
Create Rewrite HintDb upbit_rw.

(** ** [Array.prototype.sort]

    The ECMAScript sort is stable; on a consistent comparator its result is
    determined, and the insertion sort below computes it.  A comparator is a
    function into [comparison]: negative, zero and positive numbers of the
    JavaScript comparator are [Lt], [Eq] and [Gt]. *)

Section Sort.
Context {A : Type} (cmp : A -> A -> comparison).

Fixpoint insert_by (x : A) (l : list A) : list A :=
  match l with
  | [] => [x]
  | y :: l' => match cmp y x with
               | Gt => x :: y :: l'
               | _ => y :: insert_by x l'
               end
  end.

Definition js_sort (l : list A) : list A := foldl (fun acc x => insert_by x acc) [] l.

Lemma insert_by_perm x l : insert_by x l ≡ₚ x :: l.
Proof.
  induction l as [|y l IH]; simpl; [done|].
  destruct (cmp y x); [|by rewrite IH; apply Permutation_swap|done].
  rewrite IH. apply Permutation_swap.
Qed.

Lemma js_sort_acc_perm l acc :
  foldl (fun acc x => insert_by x acc) acc l ≡ₚ acc ++ l.
Proof.
  revert acc. induction l as [|x l IH]; intros acc; simpl.
  - by rewrite app_nil_r.
  - rewrite IH, insert_by_perm. simpl. apply Permutation_middle.
Qed.

Lemma js_sort_perm l : js_sort l ≡ₚ l.
Proof. apply js_sort_acc_perm. Qed.

Definition cmp_le (x y : A) : Prop := cmp x y ≠ Gt.

(** A comparator that is a total preorder. *)
Class ConsistentComparator : Prop := {
  cmp_antisym : forall x y, cmp y x = CompOpp (cmp x y);
  cmp_trans : forall x y z, cmp_le x y -> cmp_le y z -> cmp_le x z;
}.

Context {Hcmp : ConsistentComparator}.

Lemma cmp_total x y : cmp x y = Gt -> cmp_le y x.
Proof. unfold cmp_le. intros E. by rewrite cmp_antisym, E. Qed.

Lemma insert_by_sorted x l :
  StronglySorted cmp_le l -> StronglySorted cmp_le (insert_by x l).
Proof.
  induction 1 as [|y l Hl IH Hy]; simpl; [by repeat constructor|].
  destruct (cmp y x) eqn:E.
  1,2: constructor; [done|]; rewrite insert_by_perm; constructor; [|done];
       unfold cmp_le; congruence.
  pose proof (cmp_total _ _ E) as Hxy.
  repeat constructor; auto.
  eapply Forall_impl; [exact Hy|]. intros z Hz. by eapply cmp_trans.
Qed.

Lemma js_sort_sorted l : StronglySorted cmp_le (js_sort l).
Proof.
  unfold js_sort.
  assert (Hacc : StronglySorted cmp_le []) by constructor.
  revert Hacc. generalize (@nil A).
  induction l as [|x l IH]; intros acc Hacc; simpl; [done|].
  by apply IH, insert_by_sorted.
Qed.

(** When ties only arise between equal elements there is one sorted list of a
    multiset. *)
Lemma sorted_unique k1 k2 :
  (forall x y, x ∈ k1 -> y ∈ k1 -> cmp x y = Eq -> x = y) ->
  k1 ≡ₚ k2 -> StronglySorted cmp_le k1 -> StronglySorted cmp_le k2 -> k1 = k2.
Proof.
  revert k2. induction k1 as [|x k1 IH]; intros k2 Htie HP S1 S2.
  { by apply Permutation_nil_l in HP. }
  destruct k2 as [|y k2]; [by apply Permutation_nil_r in HP|].
  apply StronglySorted_inv in S1 as [S1 Hx].
  apply StronglySorted_inv in S2 as [S2 Hy].
  assert (x = y) as ->.
  { assert (Hxin : x ∈ y :: k2) by (rewrite <- HP; left).
    assert (Hyin : y ∈ x :: k1) by (rewrite HP; left).
    apply elem_of_cons in Hxin as [->|Hxin]; [done|].
    apply elem_of_cons in Hyin as [->|Hyin]; [done|].
    rewrite Forall_forall in Hx, Hy.
    specialize (Hx _ Hyin). specialize (Hy _ Hxin). unfold cmp_le in *.
    apply Htie; [left|by right|].
    rewrite cmp_antisym in Hy. by destruct (cmp x y). }
  f_equal. apply IH; auto.
  - intros a b Ha Hb. apply Htie; by right.
  - by apply Permutation_cons_inv in HP.
Qed.

(** The first and the last of a sorted list bound its elements. *)
Lemma sorted_head x k y :
  StronglySorted cmp_le (x :: k) -> y ∈ x :: k -> y = x \/ cmp_le x y.
Proof.
  intros [_ H]%StronglySorted_inv. rewrite Forall_forall in H.
  intros [->|Hy]%elem_of_cons; [by left | right; by apply H].
Qed.

Lemma sorted_last k z y :
  StronglySorted cmp_le k -> last k = Some z -> y ∈ k -> y = z \/ cmp_le y z.
Proof.
  induction 1 as [|x k S IH Hx]; [done|].
  destruct k as [|a k]; simpl.
  - intros [= <-] [->|Hy]%elem_of_cons; [by left|by apply not_elem_of_nil in Hy].
  - intros Hl [->|Hy]%elem_of_cons; [|by apply IH].
    right. rewrite Forall_forall in Hx. apply Hx.
    by apply last_Some_elem_of.
Qed.

(** Sorting is then insensitive to the order of its input. *)
Lemma js_sort_permutation_invariant l1 l2 :
  (forall x y, x ∈ l1 -> y ∈ l1 -> cmp x y = Eq -> x = y) ->
  l1 ≡ₚ l2 -> js_sort l1 = js_sort l2.
Proof.
  intros Htie Hperm. apply sorted_unique; try apply js_sort_sorted.
  - intros x y. rewrite !js_sort_perm. apply Htie.
  - by rewrite !js_sort_perm.
Qed.

Lemma strongly_sorted_app l1 l2 :
  StronglySorted cmp_le l1 -> StronglySorted cmp_le l2 ->
  (forall x y, x ∈ l1 -> y ∈ l2 -> cmp_le x y) -> StronglySorted cmp_le (l1 ++ l2).
Proof.
  intros S1 S2 H. induction S1 as [|x l1 S1 IH Hx]; simpl; [done|]. constructor.
  - apply IH. intros a b Ha. apply H. by right.
  - apply Forall_app. split; [done|]. apply Forall_forall. intros y Hy. apply H; [left|done].
Qed.

(** Sorting a list and a later one sorts them one after the other. *)
Lemma js_sort_app l1 l2 :
  (forall x y, x ∈ l1 ++ l2 -> y ∈ l1 ++ l2 -> cmp x y = Eq -> x = y) ->
  (forall x y, x ∈ l1 -> y ∈ l2 -> cmp x y = Lt) ->
  js_sort (l1 ++ l2) = js_sort l1 ++ js_sort l2.
Proof.
  intros Htie Hlt. apply sorted_unique.
  - intros x y. rewrite !js_sort_perm. apply Htie.
  - by rewrite !js_sort_perm.
  - apply js_sort_sorted.
  - apply strongly_sorted_app; try apply js_sort_sorted.
    intros x y. rewrite !js_sort_perm. intros Hx Hy. unfold cmp_le. by rewrite Hlt.
Qed.

End Sort.

Arguments ConsistentComparator {A} cmp.
