(* ===== verification/Num.v ===== *)
(** * Num: the JavaScript number type

    A JavaScript [number] is an IEEE 754 binary64 value.  It is modelled by the
    Standard Library's [spec_float] at precision 53 and maximal exponent 1024:
    every arithmetic operation rounds to nearest even as the language
    specifies, NaN, the infinities and the signed zeros included.  The file
    gives the operators, [Math.max]/[Math.min], [Number.isFinite], decimal
    literals and [Number(x.toFixed(d))], and the order theory the components
    use. *)

From stdpp Require Import base option list.
From Stdlib Require Import ZArith Lia.
From Stdlib Require Import Floats.SpecFloat.
From S2P Require Import Prelude.

Local Open Scope Z_scope.

Abbreviation num := spec_float.

Definition prec : Z := 53.
Definition emax : Z := 1024.

Declare Scope num_scope.
Delimit Scope num_scope with num.

Definition nadd : num -> num -> num := SFadd prec emax.
Definition nsub : num -> num -> num := SFsub prec emax.
Definition nmul : num -> num -> num := SFmul prec emax.
Definition ndiv : num -> num -> num := SFdiv prec emax.
Definition nopp : num -> num := SFopp.
(** [Math.abs] *)
Definition nabs : num -> num := SFabs.
(** [x < y], [x <= y] and [x === y]: all false when an operand is NaN. *)
Definition nltb : num -> num -> bool := SFltb.
Definition nleb : num -> num -> bool := SFleb.
Definition neqb : num -> num -> bool := SFeqb.

Infix "+" := nadd : num_scope.
Infix "-" := nsub : num_scope.
Infix "*" := nmul : num_scope.
Infix "/" := ndiv : num_scope.
Notation "- x" := (nopp x) : num_scope.
Infix "<?" := nltb : num_scope.
Infix "<=?" := nleb : num_scope.
Notation "x >? y" := (nltb y x) (only parsing) : num_scope.
Notation "x >=? y" := (nleb y x) (only parsing) : num_scope.
Infix "=?" := neqb : num_scope.

Definition NaN : num := S754_nan.
Definition PosInfinity : num := S754_infinity false.
Definition zero : num := S754_zero false.

Definition is_nan (x : num) : bool := match x with S754_nan => true | _ => false end.

(** [Number.isFinite] *)
Definition is_finite (x : num) : bool :=
  match x with S754_zero _ | S754_finite _ _ _ => true | _ => false end.

(** The double nearest to an integer. *)
Definition num_of_Z (z : Z) : num := binary_normalize prec emax z 0 false.

(** The double nearest to [±c / 10^scale]; a decimal literal of the source is
    read this way. *)
Definition num_of_digits (negative : bool) (c : Z) (scale : nat) : num :=
  match c with
  | Zpos p => ndiv (S754_finite negative p 0)
                   (S754_finite false (Z.to_pos (10 ^ Z.of_nat scale)) 0)
  | _ => S754_zero negative
  end.

Definition lit (c : Z) (scale : nat) : num := num_of_digits (c <? 0) (Z.abs c) scale.

(** [Math.max] and [Math.min] of two numbers: NaN is contagious and +0 is
    larger than -0. *)
Definition nmax (x y : num) : num :=
  match x, y with
  | S754_nan, _ | _, S754_nan => S754_nan
  | S754_zero s1, S754_zero s2 => S754_zero (s1 && s2)
  | _, _ => if nltb x y then y else x
  end.

Definition nmin (x y : num) : num :=
  match x, y with
  | S754_nan, _ | _, S754_nan => S754_nan
  | S754_zero s1, S754_zero s2 => S754_zero (s1 || s2)
  | _, _ => if nltb y x then y else x
  end.

(** [Number(x.toFixed(digits))]: the integer [n] nearest to [|x| * 10^digits],
    the larger one on a tie, read back as [n / 10^digits]; values of magnitude
    10^21 and above print in full and are unchanged. *)
Definition to_fixed_number (digits : nat) (x : num) : num :=
  match x with
  | S754_zero _ => S754_zero false
  | S754_finite s m e =>
      if nleb (num_of_Z (10 ^ 21)) (nabs x) then x
      else
        let scaled := Zpos m * 10 ^ Z.of_nat digits in
        let n := if 0 <=? e then scaled * 2 ^ e
                 else (2 * scaled + 2 ^ (- e)) / (2 * 2 ^ (- e)) in
        num_of_digits s n digits
  | _ => x
  end.

#[global] Arguments lit : simpl never.
#[global] Arguments num_of_Z : simpl never.
#[global] Arguments to_fixed_number : simpl never.

(** ** The order on numbers

    [SFcompare] of two numbers that are not NaN is the lexicographic
    comparison of an integer key. *)

Definition order_key (x : num) : Z * Z * Z :=
  match x with
  | S754_infinity true => (-2, 0, 0)
  | S754_finite true m e => (-1, - e, - Zpos m)
  | S754_zero _ | S754_nan => (0, 0, 0)
  | S754_finite false m e => (1, e, Zpos m)
  | S754_infinity false => (2, 0, 0)
  end.

Definition key_compare (k1 k2 : Z * Z * Z) : comparison :=
  let '(a1, b1, c1) := k1 in
  let '(a2, b2, c2) := k2 in
  match a1 ?= a2 with
  | Eq => match b1 ?= b2 with Eq => c1 ?= c2 | c => c end
  | c => c
  end.

Lemma SFcompare_key x y :
  is_nan x = false -> is_nan y = false ->
  SFcompare x y = Some (key_compare (order_key x) (order_key y)).
Proof.
  intros Hx Hy.
  destruct x as [[]|[]| |[] m1 e1], y as [[]|[]| |[] m2 e2];
    simpl in *; try discriminate; try reflexivity.
  all: f_equal; change (Pos.compare_cont Eq m1 m2) with (Pos.compare m1 m2).
  all: rewrite Z.compare_opp, (Z.compare_antisym e1 e2); by destruct (e1 ?= e2).
Qed.

Lemma key_compare_antisym k1 k2 : key_compare k2 k1 = CompOpp (key_compare k1 k2).
Proof.
  destruct k1 as [[a1 b1] c1], k2 as [[a2 b2] c2]; simpl.
  rewrite (Z.compare_antisym a1 a2), (Z.compare_antisym b1 b2), (Z.compare_antisym c1 c2).
  by destruct (a1 ?= a2), (b1 ?= b2), (c1 ?= c2).
Qed.

Lemma key_compare_trans k1 k2 k3 :
  key_compare k1 k2 ≠ Gt -> key_compare k2 k3 ≠ Gt -> key_compare k1 k3 ≠ Gt.
Proof.
  destruct k1 as [[a1 b1] c1], k2 as [[a2 b2] c2], k3 as [[a3 b3] c3]; simpl.
  destruct (Z.compare_spec a1 a2), (Z.compare_spec a2 a3), (Z.compare_spec a1 a3);
    try lia; try congruence;
  destruct (Z.compare_spec b1 b2), (Z.compare_spec b2 b3), (Z.compare_spec b1 b3);
    try lia; try congruence;
  destruct (Z.compare_spec c1 c2), (Z.compare_spec c2 c3), (Z.compare_spec c1 c3);
    try lia; congruence.
Qed.

Lemma nleb_key x y :
  nleb x y = true <->
  is_nan x = false /\ is_nan y = false /\ key_compare (order_key x) (order_key y) ≠ Gt.
Proof.
  unfold nleb, SFleb.
  destruct (is_nan x) eqn:Hx.
  { destruct x; try discriminate. simpl. naive_solver. }
  destruct (is_nan y) eqn:Hy.
  { destruct y; try discriminate. destruct x as [| | |]; simpl; naive_solver. }
  rewrite SFcompare_key by done.
  destruct (key_compare _ _); naive_solver.
Qed.

Lemma nltb_nleb x y :
  is_nan x = false -> is_nan y = false -> nltb x y = negb (nleb y x).
Proof.
  intros Hx Hy. unfold nltb, nleb, SFltb, SFleb.
  rewrite !SFcompare_key, key_compare_antisym by done.
  by destruct (key_compare _ _).
Qed.

Lemma nleb_refl x : is_nan x = false -> nleb x x = true.
Proof.
  intros Hx. apply nleb_key. repeat split; try done.
  destruct (order_key x) as [[a b] c]; simpl. by rewrite !Z.compare_refl.
Qed.

Lemma nleb_trans x y z : nleb x y = true -> nleb y z = true -> nleb x z = true.
Proof.
  rewrite !nleb_key. intros (?&?&H1) (?&?&H2). repeat split; try done.
  by eapply key_compare_trans.
Qed.

Lemma nleb_total x y :
  is_nan x = false -> is_nan y = false -> nleb x y = true \/ nleb y x = true.
Proof.
  intros Hx Hy. rewrite !nleb_key, (key_compare_antisym (order_key x) (order_key y)).
  destruct (key_compare (order_key x) (order_key y)); simpl; naive_solver.
Qed.

Lemma nleb_not_nan x y : nleb x y = true -> is_nan x = false /\ is_nan y = false.
Proof. rewrite nleb_key. naive_solver. Qed.

Lemma nltb_nleb_weak x y : nltb x y = true -> nleb x y = true.
Proof. unfold nltb, nleb, SFltb, SFleb. by destruct (SFcompare x y) as [[]|]. Qed.

Lemma nltb_not_nleb x y : nltb x y = true -> nleb y x = false.
Proof.
  intros H. destruct (nleb y x) eqn:E; [|done].
  destruct (nleb_not_nan _ _ E). by rewrite nltb_nleb, E in H.
Qed.

Lemma finite_not_nan x : is_finite x = true -> is_nan x = false.
Proof. by destruct x. Qed.

Lemma nltb_false_nleb x y :
  is_nan x = false -> is_nan y = false -> nltb x y = false -> nleb y x = true.
Proof. intros Hx Hy H. rewrite nltb_nleb in H by done. by apply negb_false_iff in H. Qed.

Lemma nmin_spec x y :
  is_nan x = false -> is_nan y = false ->
  (nmin x y = x /\ nleb x y = true) \/ (nmin x y = y /\ nleb y x = true).
Proof.
  intros Hx Hy. unfold nmin.
  destruct (nltb y x) eqn:E.
  - apply nltb_nleb_weak in E as E'.
    destruct x as [[]|[]| |[]], y as [[]|[]| |[]]; simpl in *; try discriminate; auto.
  - apply nltb_false_nleb in E; [|done..].
    destruct x as [[]|[]| |[]], y as [[]|[]| |[]]; simpl in *; try discriminate; auto.
Qed.

Lemma nmax_spec x y :
  is_nan x = false -> is_nan y = false ->
  (nmax x y = y /\ nleb x y = true) \/ (nmax x y = x /\ nleb y x = true).
Proof.
  intros Hx Hy. unfold nmax.
  destruct (nltb x y) eqn:E.
  - apply nltb_nleb_weak in E as E'.
    destruct x as [[]|[]| |[]], y as [[]|[]| |[]]; simpl in *; try discriminate; auto.
  - apply nltb_false_nleb in E; [|done..].
    destruct x as [[]|[]| |[]], y as [[]|[]| |[]]; simpl in *; try discriminate; auto.
Qed.

Lemma nmin_nan x y : is_nan (nmin x y) = is_nan x || is_nan y.
Proof.
  destruct (is_nan x) eqn:Hx; [by destruct x|].
  destruct (is_nan y) eqn:Hy; [by destruct x, y|].
  destruct (nmin_spec x y Hx Hy) as [[-> _]|[-> _]]; by rewrite ?Hx, ?Hy.
Qed.

Lemma nmax_nan x y : is_nan (nmax x y) = is_nan x || is_nan y.
Proof.
  destruct (is_nan x) eqn:Hx; [by destruct x|].
  destruct (is_nan y) eqn:Hy; [by destruct x, y|].
  destruct (nmax_spec x y Hx Hy) as [[-> _]|[-> _]]; by rewrite ?Hx, ?Hy.
Qed.

Lemma nmin_le_l x y : is_nan x = false -> is_nan y = false -> nleb (nmin x y) x = true.
Proof. intros Hx Hy. destruct (nmin_spec x y Hx Hy) as [[-> ?]|[-> ?]]; auto using nleb_refl. Qed.

Lemma nmin_le_r x y : is_nan x = false -> is_nan y = false -> nleb (nmin x y) y = true.
Proof. intros Hx Hy. destruct (nmin_spec x y Hx Hy) as [[-> ?]|[-> ?]]; auto using nleb_refl. Qed.

Lemma nmax_ge_l x y : is_nan x = false -> is_nan y = false -> nleb x (nmax x y) = true.
Proof. intros Hx Hy. destruct (nmax_spec x y Hx Hy) as [[-> ?]|[-> ?]]; auto using nleb_refl. Qed.

Lemma nmax_ge_r x y : is_nan x = false -> is_nan y = false -> nleb y (nmax x y) = true.
Proof. intros Hx Hy. destruct (nmax_spec x y Hx Hy) as [[-> ?]|[-> ?]]; auto using nleb_refl. Qed.

Lemma nmax_lub x y z : nleb x z = true -> nleb y z = true -> nleb (nmax x y) z = true.
Proof.
  intros Hx Hy. destruct (nleb_not_nan _ _ Hx), (nleb_not_nan _ _ Hy).
  destruct (nmax_spec x y) as [[-> ?]|[-> ?]]; auto.
Qed.

Lemma nmin_glb x y z : nleb z x = true -> nleb z y = true -> nleb z (nmin x y) = true.
Proof.
  intros Hx Hy. destruct (nleb_not_nan _ _ Hx), (nleb_not_nan _ _ Hy).
  destruct (nmin_spec x y) as [[-> ?]|[-> ?]]; auto.
Qed.

(** Clamping between two bounds. *)
Lemma clamp_bounds lo hi x :
  is_nan x = false -> nleb lo hi = true ->
  nleb lo (nmax lo (nmin hi x)) = true /\ nleb (nmax lo (nmin hi x)) hi = true.
Proof.
  intros Hx Hlh. destruct (nleb_not_nan _ _ Hlh) as [Hl Hh].
  split; [apply nmax_ge_l | apply nmax_lub]; auto using nmin_le_l.
  by rewrite nmin_nan, Hh, Hx.
Qed.

(** ** Arithmetic that cannot produce NaN

    Rounding a non-negative significand gives a number, so the operations on
    finite numbers are never NaN. *)

Lemma shr_1_nonneg r : 0 <= shr_m r -> 0 <= shr_m (shr_1 r).
Proof. destruct r as [m r' s]; simpl. destruct m as [|[]|]; simpl; lia. Qed.

Lemma iter_pos_inv {A} (P : A -> Prop) (f : A -> A) n x :
  (forall a, P a -> P (f a)) -> P x -> P (iter_pos f n x).
Proof. intros Hf. revert x. induction n; simpl; auto. Qed.

Lemma shr_nonneg r e n : 0 <= shr_m r -> 0 <= shr_m (fst (shr r e n)).
Proof.
  intros Hr. destruct n; simpl; auto.
  by apply (iter_pos_inv (fun r => 0 <= shr_m r)); [apply shr_1_nonneg|].
Qed.

Lemma shr_record_of_loc_m m l : shr_m (shr_record_of_loc m l) = m.
Proof. by destruct l as [|[]]. Qed.

Lemma round_nearest_even_nonneg m l : 0 <= m -> 0 <= round_nearest_even m l.
Proof. destruct l as [|[]]; simpl; try case_match; lia. Qed.

Lemma shr_fexp_nonneg m e l : 0 <= m -> 0 <= shr_m (fst (shr_fexp prec emax m e l)).
Proof. intros Hm. unfold shr_fexp. apply shr_nonneg. by rewrite shr_record_of_loc_m. Qed.

Lemma binary_round_aux_not_nan s m e l :
  0 <= m -> is_nan (binary_round_aux prec emax s m e l) = false.
Proof.
  intros Hm. unfold binary_round_aux.
  pose proof (shr_fexp_nonneg m e l Hm) as H1.
  destruct (shr_fexp prec emax m e l) as [r1 e1]; simpl in H1.
  pose proof (shr_fexp_nonneg _ e1 loc_Exact
                (round_nearest_even_nonneg _ (loc_of_shr_record r1) H1)) as H2.
  destruct (shr_fexp prec emax _ e1 loc_Exact) as [r2 e2]; simpl in H2.
  destruct (shr_m r2); [done| |lia]. by case_match.
Qed.

Lemma binary_round_not_nan s m e : is_nan (binary_round prec emax s m e) = false.
Proof.
  unfold binary_round. destruct (shl_align _ _ _). apply binary_round_aux_not_nan. lia.
Qed.

Lemma binary_normalize_not_nan m e s : is_nan (binary_normalize prec emax m e s) = false.
Proof. destruct m; simpl; auto using binary_round_not_nan. Qed.

Lemma num_of_Z_not_nan z : is_nan (num_of_Z z) = false.
Proof. apply binary_normalize_not_nan. Qed.

Lemma nmul_not_nan x y :
  is_finite x = true -> is_finite y = true -> is_nan (nmul x y) = false.
Proof.
  intros Hx Hy. destruct x, y; try discriminate; try done.
  apply binary_round_aux_not_nan. lia.
Qed.

Lemma nadd_not_nan x y :
  is_finite x = true -> is_nan y = false -> is_nan (nadd x y) = false.
Proof.
  intros Hx Hy. destruct x as [[]| | |], y as [[]|[]| |]; try discriminate; try done.
  all: apply binary_normalize_not_nan.
Qed.

Lemma nsub_not_nan x y :
  is_finite x = true -> is_nan y = false -> is_nan (nsub x y) = false.
Proof.
  intros Hx Hy. destruct x as [[]| | |], y as [[]|[]| |]; try discriminate; try done.
  all: apply binary_normalize_not_nan.
Qed.

Lemma nsub_not_nan_r x y :
  is_nan x = false -> is_finite y = true -> is_nan (nsub x y) = false.
Proof.
  intros Hx Hy. destruct x as [[]|[]| |], y as [[]| | |]; try discriminate; try done.
  all: apply binary_normalize_not_nan.
Qed.

(** An infinite factor is harmless as long as the other is not zero. *)
Lemma nmul_not_nan_nonzero x y :
  is_nan x = false -> is_finite y = true -> nltb zero y = true -> is_nan (nmul x y) = false.
Proof.
  intros Hx Hy Hpos. destruct x as [|[]| |], y as [| | |]; try discriminate; try done.
  all: apply binary_round_aux_not_nan; lia.
Qed.

Lemma nltb_nleb_trans x y z : nltb x y = true -> nleb y z = true -> nltb x z = true.
Proof.
  intros Hxy Hyz. pose proof (nltb_nleb_weak _ _ Hxy) as Hxy'.
  destruct (nleb_not_nan _ _ Hxy') as [Hx _], (nleb_not_nan _ _ Hyz) as [_ Hz].
  rewrite nltb_nleb by done. destruct (nleb z x) eqn:E; [|done].
  pose proof (nltb_not_nleb _ _ Hxy). by rewrite (nleb_trans y z x Hyz E) in *.
Qed.

#[export] Hint Resolve nmul_not_nan nadd_not_nan nsub_not_nan : upbit.

#[export] Hint Resolve nleb_refl nmin_le_l nmin_le_r nmax_ge_l nmax_ge_r nmax_lub nmin_glb
  nltb_nleb_weak finite_not_nan : upbit.

Example lit_0_15 : lit 15 2 = S754_finite false 5404319552844595 (-55).
Proof. reflexivity. Qed.
Example add_0_1_0_2 : (lit 1 1 + lit 2 1)%num = S754_finite false 5404319552844596 (-54).
Proof. vm_compute. reflexivity. Qed.
Example to_fixed_1_005 : to_fixed_number 2 (lit 1005 3) = lit 1 0.
Proof. vm_compute. reflexivity. Qed.
