(* ===== verification/Types.v ===== *)
(** * Types: the string unions of the domain

    Each TypeScript string-literal union is an inductive type with the source's
    constructors, in a Module of its own because several unions share literals
    (both [EntryPath] and [Weakening] have [NONE]).  [to_string] gives back the
    literal, for the template strings of the source. *)

From stdpp Require Import base list strings.
From S2P Require Import Prelude.

Local Open Scope string_scope.

Module Asset.
Inductive SupportedAsset : Set :=
| BTC | ETH.
Definition to_string (x : SupportedAsset) : string :=
  match x with
  | BTC => "BTC"
  | ETH => "ETH"
  end.
#[export] Instance SupportedAsset_eq_dec : EqDecision SupportedAsset.
Proof. solve_decision. Defined.
End Asset.
Export (hints) Asset.
Abbreviation SupportedAsset := Asset.SupportedAsset.

Module Market.
Inductive SupportedMarket : Set :=
| KRW_BTC | KRW_ETH.
Definition to_string (x : SupportedMarket) : string :=
  match x with
  | KRW_BTC => "KRW-BTC"
  | KRW_ETH => "KRW-ETH"
  end.
#[export] Instance SupportedMarket_eq_dec : EqDecision SupportedMarket.
Proof. solve_decision. Defined.
End Market.
Export (hints) Market.
Abbreviation SupportedMarket := Market.SupportedMarket.

Module Mode.
Inductive ExecutionMode : Set :=
| DRY_RUN | LIVE.
Definition to_string (x : ExecutionMode) : string :=
  match x with
  | DRY_RUN => "DRY_RUN"
  | LIVE => "LIVE"
  end.
#[export] Instance ExecutionMode_eq_dec : EqDecision ExecutionMode.
Proof. solve_decision. Defined.
End Mode.
Export (hints) Mode.
Abbreviation ExecutionMode := Mode.ExecutionMode.

Module Gate.
Inductive LiveExecutionGate : Set :=
| DISABLED | ENABLED.
Definition to_string (x : LiveExecutionGate) : string :=
  match x with
  | DISABLED => "DISABLED"
  | ENABLED => "ENABLED"
  end.
#[export] Instance LiveExecutionGate_eq_dec : EqDecision LiveExecutionGate.
Proof. solve_decision. Defined.
End Gate.
Export (hints) Gate.
Abbreviation LiveExecutionGate := Gate.LiveExecutionGate.

Module SysStatus.
Inductive SystemStatus : Set :=
| BOOTING | RUNNING | PAUSED | KILL_SWITCHED | DEGRADED.
Definition to_string (x : SystemStatus) : string :=
  match x with
  | BOOTING => "BOOTING"
  | RUNNING => "RUNNING"
  | PAUSED => "PAUSED"
  | KILL_SWITCHED => "KILL_SWITCHED"
  | DEGRADED => "DEGRADED"
  end.
#[export] Instance SystemStatus_eq_dec : EqDecision SystemStatus.
Proof. solve_decision. Defined.
End SysStatus.
Export (hints) SysStatus.
Abbreviation SystemStatus := SysStatus.SystemStatus.

Module Action.
Inductive StrategyDecisionAction : Set :=
| ENTER | ADD | REDUCE | EXIT | HOLD.
Definition to_string (x : StrategyDecisionAction) : string :=
  match x with
  | ENTER => "ENTER"
  | ADD => "ADD"
  | REDUCE => "REDUCE"
  | EXIT => "EXIT"
  | HOLD => "HOLD"
  end.
#[export] Instance StrategyDecisionAction_eq_dec : EqDecision StrategyDecisionAction.
Proof. solve_decision. Defined.
End Action.
Export (hints) Action.
Abbreviation StrategyDecisionAction := Action.StrategyDecisionAction.

Module Side.
Inductive OrderSide : Set :=
| bid | ask.
Definition to_string (x : OrderSide) : string :=
  match x with
  | bid => "bid"
  | ask => "ask"
  end.
#[export] Instance OrderSide_eq_dec : EqDecision OrderSide.
Proof. solve_decision. Defined.
End Side.
Export (hints) Side.
Abbreviation OrderSide := Side.OrderSide.

Module OrderStatus.
Inductive OrderLifecycleStatus : Set :=
| INTENT_CREATED | RISK_REJECTED | PERSISTED | SUBMITTING | OPEN |
  PARTIALLY_FILLED | FILLED | CANCEL_REQUESTED | CANCELED | REJECTED | FAILED
  | RECONCILIATION_REQUIRED.
Definition to_string (x : OrderLifecycleStatus) : string :=
  match x with
  | INTENT_CREATED => "INTENT_CREATED"
  | RISK_REJECTED => "RISK_REJECTED"
  | PERSISTED => "PERSISTED"
  | SUBMITTING => "SUBMITTING"
  | OPEN => "OPEN"
  | PARTIALLY_FILLED => "PARTIALLY_FILLED"
  | FILLED => "FILLED"
  | CANCEL_REQUESTED => "CANCEL_REQUESTED"
  | CANCELED => "CANCELED"
  | REJECTED => "REJECTED"
  | FAILED => "FAILED"
  | RECONCILIATION_REQUIRED => "RECONCILIATION_REQUIRED"
  end.
#[export] Instance OrderLifecycleStatus_eq_dec : EqDecision OrderLifecycleStatus.
Proof. solve_decision. Defined.
End OrderStatus.
Export (hints) OrderStatus.
Abbreviation OrderLifecycleStatus := OrderStatus.OrderLifecycleStatus.

Module OrdType.
Inductive OrderType : Set :=
| limit | price | market | best.
Definition to_string (x : OrderType) : string :=
  match x with
  | limit => "limit"
  | price => "price"
  | market => "market"
  | best => "best"
  end.
#[export] Instance OrderType_eq_dec : EqDecision OrderType.
Proof. solve_decision. Defined.
End OrdType.
Export (hints) OrdType.
Abbreviation OrderType := OrdType.OrderType.

Module RiskLevelEvent.
Inductive RiskEventLevel : Set :=
| INFO | WARN | BLOCK.
Definition to_string (x : RiskEventLevel) : string :=
  match x with
  | INFO => "INFO"
  | WARN => "WARN"
  | BLOCK => "BLOCK"
  end.
#[export] Instance RiskEventLevel_eq_dec : EqDecision RiskEventLevel.
Proof. solve_decision. Defined.
End RiskLevelEvent.
Export (hints) RiskLevelEvent.
Abbreviation RiskEventLevel := RiskLevelEvent.RiskEventLevel.

Module RiskRule.
Inductive RiskRuleCode : Set :=
| GLOBAL_KILL_SWITCH | EXECUTION_PAUSED | SYSTEM_DEGRADED |
  PER_ASSET_MAX_ALLOCATION | TOTAL_EXPOSURE_CAP | STALE_PRICE_GUARD |
  DUPLICATE_ORDER_GUARD | MINIMUM_ORDER_VALUE_GUARD | LIVE_EXECUTION_DISABLED
  | UNSUPPORTED_MARKET | UNSUPPORTED_ORDER_TYPE | EXCHANGE_MIN_TOTAL_GUARD |
  EXCHANGE_MAX_TOTAL_GUARD | MARKET_OFFLINE | EXCHANGE_ORDER_CHANCE_FAILED |
  EXCHANGE_ORDER_TEST_FAILED | ORDER_RECOVERY_REQUIRED |
  BALANCE_DRIFT_DETECTED | POSITION_DRIFT_DETECTED |
  POSITION_GUARD_PILOT_UNCERTAIN_ORDER | ACCOUNT_EXECUTION_LEASE_BLOCKED.
Definition to_string (x : RiskRuleCode) : string :=
  match x with
  | GLOBAL_KILL_SWITCH => "GLOBAL_KILL_SWITCH"
  | EXECUTION_PAUSED => "EXECUTION_PAUSED"
  | SYSTEM_DEGRADED => "SYSTEM_DEGRADED"
  | PER_ASSET_MAX_ALLOCATION => "PER_ASSET_MAX_ALLOCATION"
  | TOTAL_EXPOSURE_CAP => "TOTAL_EXPOSURE_CAP"
  | STALE_PRICE_GUARD => "STALE_PRICE_GUARD"
  | DUPLICATE_ORDER_GUARD => "DUPLICATE_ORDER_GUARD"
  | MINIMUM_ORDER_VALUE_GUARD => "MINIMUM_ORDER_VALUE_GUARD"
  | LIVE_EXECUTION_DISABLED => "LIVE_EXECUTION_DISABLED"
  | UNSUPPORTED_MARKET => "UNSUPPORTED_MARKET"
  | UNSUPPORTED_ORDER_TYPE => "UNSUPPORTED_ORDER_TYPE"
  | EXCHANGE_MIN_TOTAL_GUARD => "EXCHANGE_MIN_TOTAL_GUARD"
  | EXCHANGE_MAX_TOTAL_GUARD => "EXCHANGE_MAX_TOTAL_GUARD"
  | MARKET_OFFLINE => "MARKET_OFFLINE"
  | EXCHANGE_ORDER_CHANCE_FAILED => "EXCHANGE_ORDER_CHANCE_FAILED"
  | EXCHANGE_ORDER_TEST_FAILED => "EXCHANGE_ORDER_TEST_FAILED"
  | ORDER_RECOVERY_REQUIRED => "ORDER_RECOVERY_REQUIRED"
  | BALANCE_DRIFT_DETECTED => "BALANCE_DRIFT_DETECTED"
  | POSITION_DRIFT_DETECTED => "POSITION_DRIFT_DETECTED"
  | POSITION_GUARD_PILOT_UNCERTAIN_ORDER => "POSITION_GUARD_PILOT_UNCERTAIN_ORDER"
  | ACCOUNT_EXECUTION_LEASE_BLOCKED => "ACCOUNT_EXECUTION_LEASE_BLOCKED"
  end.
#[export] Instance RiskRuleCode_eq_dec : EqDecision RiskRuleCode.
Proof. solve_decision. Defined.
End RiskRule.
Export (hints) RiskRule.
Abbreviation RiskRuleCode := RiskRule.RiskRuleCode.

Module Regime.
Inductive StrategyMarketRegime : Set :=
| BULL_TREND | PULLBACK_IN_UPTREND | EARLY_RECOVERY | RECLAIM_ATTEMPT | RANGE
  | WEAK_DOWNTREND | BREAKDOWN_RISK.
Definition to_string (x : StrategyMarketRegime) : string :=
  match x with
  | BULL_TREND => "BULL_TREND"
  | PULLBACK_IN_UPTREND => "PULLBACK_IN_UPTREND"
  | EARLY_RECOVERY => "EARLY_RECOVERY"
  | RECLAIM_ATTEMPT => "RECLAIM_ATTEMPT"
  | RANGE => "RANGE"
  | WEAK_DOWNTREND => "WEAK_DOWNTREND"
  | BREAKDOWN_RISK => "BREAKDOWN_RISK"
  end.
#[export] Instance StrategyMarketRegime_eq_dec : EqDecision StrategyMarketRegime.
Proof. solve_decision. Defined.
End Regime.
Export (hints) Regime.
Abbreviation StrategyMarketRegime := Regime.StrategyMarketRegime.

Module RiskLevel.
Inductive StrategyRiskLevel : Set :=
| LOW | MODERATE | ELEVATED | HIGH.
Definition to_string (x : StrategyRiskLevel) : string :=
  match x with
  | LOW => "LOW"
  | MODERATE => "MODERATE"
  | ELEVATED => "ELEVATED"
  | HIGH => "HIGH"
  end.
#[export] Instance StrategyRiskLevel_eq_dec : EqDecision StrategyRiskLevel.
Proof. solve_decision. Defined.
End RiskLevel.
Export (hints) RiskLevel.
Abbreviation StrategyRiskLevel := RiskLevel.StrategyRiskLevel.

Module Invalidation.
Inductive StrategyInvalidationState : Set :=
| CLEAR | UNCLEAR | BROKEN.
Definition to_string (x : StrategyInvalidationState) : string :=
  match x with
  | CLEAR => "CLEAR"
  | UNCLEAR => "UNCLEAR"
  | BROKEN => "BROKEN"
  end.
#[export] Instance StrategyInvalidationState_eq_dec : EqDecision StrategyInvalidationState.
Proof. solve_decision. Defined.
End Invalidation.
Export (hints) Invalidation.
Abbreviation StrategyInvalidationState := Invalidation.StrategyInvalidationState.

Module EntryPath.
Inductive StrategyEntryPath : Set :=
| PULLBACK | RECLAIM | BREAKOUT_HOLD | NONE.
Definition to_string (x : StrategyEntryPath) : string :=
  match x with
  | PULLBACK => "PULLBACK"
  | RECLAIM => "RECLAIM"
  | BREAKOUT_HOLD => "BREAKOUT_HOLD"
  | NONE => "NONE"
  end.
#[export] Instance StrategyEntryPath_eq_dec : EqDecision StrategyEntryPath.
Proof. solve_decision. Defined.
End EntryPath.
Export (hints) EntryPath.
Abbreviation StrategyEntryPath := EntryPath.StrategyEntryPath.

Module Weakening.
Inductive StrategyWeakeningStage : Set :=
| NONE | SOFT | CLEAR | FAILURE.
Definition to_string (x : StrategyWeakeningStage) : string :=
  match x with
  | NONE => "NONE"
  | SOFT => "SOFT"
  | CLEAR => "CLEAR"
  | FAILURE => "FAILURE"
  end.
#[export] Instance StrategyWeakeningStage_eq_dec : EqDecision StrategyWeakeningStage.
Proof. solve_decision. Defined.
End Weakening.
Export (hints) Weakening.
Abbreviation StrategyWeakeningStage := Weakening.StrategyWeakeningStage.

Module Bucket.
Inductive StrategySignalQualityBucket : Set :=
| HIGH | MEDIUM | BORDERLINE | LOW.
Definition to_string (x : StrategySignalQualityBucket) : string :=
  match x with
  | HIGH => "HIGH"
  | MEDIUM => "MEDIUM"
  | BORDERLINE => "BORDERLINE"
  | LOW => "LOW"
  end.
#[export] Instance StrategySignalQualityBucket_eq_dec : EqDecision StrategySignalQualityBucket.
Proof. solve_decision. Defined.
End Bucket.
Export (hints) Bucket.
Abbreviation StrategySignalQualityBucket := Bucket.StrategySignalQualityBucket.

Module Disposition.
Inductive StrategyExecutionDisposition : Set :=
| IMMEDIATE | DEFERRED_CONFIRMATION | EXECUTED_AFTER_CONFIRMATION | SKIPPED.
Definition to_string (x : StrategyExecutionDisposition) : string :=
  match x with
  | IMMEDIATE => "IMMEDIATE"
  | DEFERRED_CONFIRMATION => "DEFERRED_CONFIRMATION"
  | EXECUTED_AFTER_CONFIRMATION => "EXECUTED_AFTER_CONFIRMATION"
  | SKIPPED => "SKIPPED"
  end.
#[export] Instance StrategyExecutionDisposition_eq_dec : EqDecision StrategyExecutionDisposition.
Proof. solve_decision. Defined.
End Disposition.
Export (hints) Disposition.
Abbreviation StrategyExecutionDisposition := Disposition.StrategyExecutionDisposition.

Module Timeframe.
Inductive SupportedStrategyTimeframe : Set :=
| H1 | H4 | D1.
Definition to_string (x : SupportedStrategyTimeframe) : string :=
  match x with
  | H1 => "1h"
  | H4 => "4h"
  | D1 => "1d"
  end.
#[export] Instance SupportedStrategyTimeframe_eq_dec : EqDecision SupportedStrategyTimeframe.
Proof. solve_decision. Defined.
End Timeframe.
Export (hints) Timeframe.
Abbreviation SupportedStrategyTimeframe := Timeframe.SupportedStrategyTimeframe.

Module Trend.
Inductive StrategyTrendDirection : Set :=
| UP | DOWN | FLAT.
Definition to_string (x : StrategyTrendDirection) : string :=
  match x with
  | UP => "UP"
  | DOWN => "DOWN"
  | FLAT => "FLAT"
  end.
#[export] Instance StrategyTrendDirection_eq_dec : EqDecision StrategyTrendDirection.
Proof. solve_decision. Defined.
End Trend.
Export (hints) Trend.
Abbreviation StrategyTrendDirection := Trend.StrategyTrendDirection.

Module Location.
Inductive StrategyRangeLocation : Set :=
| LOWER | MIDDLE | UPPER.
Definition to_string (x : StrategyRangeLocation) : string :=
  match x with
  | LOWER => "LOWER"
  | MIDDLE => "MIDDLE"
  | UPPER => "UPPER"
  end.
#[export] Instance StrategyRangeLocation_eq_dec : EqDecision StrategyRangeLocation.
Proof. solve_decision. Defined.
End Location.
Export (hints) Location.
Abbreviation StrategyRangeLocation := Location.StrategyRangeLocation.

Module Phase.
Inductive PositionGuardPilotPhase : Set :=
| DISABLED | PENDING_FLAT | ACTIVE | PAUSED_FAULT | DRAINING.
Definition to_string (x : PositionGuardPilotPhase) : string :=
  match x with
  | DISABLED => "DISABLED"
  | PENDING_FLAT => "PENDING_FLAT"
  | ACTIVE => "ACTIVE"
  | PAUSED_FAULT => "PAUSED_FAULT"
  | DRAINING => "DRAINING"
  end.
#[export] Instance PositionGuardPilotPhase_eq_dec : EqDecision PositionGuardPilotPhase.
Proof. solve_decision. Defined.
End Phase.
Export (hints) Phase.
Abbreviation PositionGuardPilotPhase := Phase.PositionGuardPilotPhase.

(** [domain/types.ts]: [getMarketForAsset] and [getAssetForMarket] *)
Definition getMarketForAsset (asset : SupportedAsset) : SupportedMarket :=
  if bool_decide (asset = Asset.BTC) then Market.KRW_BTC else Market.KRW_ETH.

Definition getAssetForMarket (market : SupportedMarket) : SupportedAsset :=
  if bool_decide (market = Market.KRW_BTC) then Asset.BTC else Asset.ETH.

Lemma getAssetForMarket_getMarketForAsset asset :
  getAssetForMarket (getMarketForAsset asset) = asset.
Proof. by destruct asset. Qed.

(** [a || b] and [a && b] over decidable equalities read as in the source. *)
Declare Scope js_scope.
Delimit Scope js_scope with js.
Notation "x === y" := (bool_decide (x = y)) (at level 70, no associativity) : js_scope.
Notation "x !== y" := (negb (bool_decide (x = y))) (at level 70, no associativity) : js_scope.

(** [list.includes(x)] *)
Definition includes {A} `{EqDecision A} (l : list A) (x : A) : bool :=
  existsb (fun y => bool_decide (y = x)) l.

Lemma includes_true {A} `{EqDecision A} (l : list A) x : includes l x = true <-> x ∈ l.
Proof.
  unfold includes. rewrite existsb_exists. split.
  - intros (y & Hy & ->%bool_decide_eq_true). by apply list_elem_of_In.
  - intros H. exists x. rewrite <- list_elem_of_In. by rewrite bool_decide_eq_true.
Qed.
