(* ===== verification/Text.v ===== *)
(** * Text: strings, digits and decimal notation

    The string operations of the language the source uses: digit classes and
    their values, fixed-width and plain decimal printing ([padStart],
    [toString]), [split] at a dot, [trim], [toLowerCase], and the ordering of
    strings by code units. Strings are sequences of 8-bit characters; the
    identifiers, numerals and timestamps of the program are ASCII. *)

From stdpp Require Import base option list strings.
From Stdlib Require Import ZArith Lia Ascii.
From S2P Require Import Prelude.

Local Open Scope Z_scope.

(** ** Digits *)

Definition is_digit (c : ascii) : bool :=
  let n := Z.of_N (N_of_ascii c) in (48 <=? n) && (n <=? 57).

Definition digit_value (c : ascii) : Z := Z.of_N (N_of_ascii c) - 48.

Definition digit_char (d : Z) : ascii := ascii_of_N (Z.to_N (48 + d)).

Fixpoint string_forallb (p : ascii -> bool) (s : string) : bool :=
  match s with
  | EmptyString => true
  | String c s' => p c && string_forallb p s'
  end.

Definition all_digits : string -> bool := string_forallb is_digit.

(** The integer a digit string denotes: [BigInt(s)], or [Number(s)] when it is
    small enough to be exact. *)
Fixpoint digits_value_from (acc : Z) (s : string) : Z :=
  match s with
  | EmptyString => acc
  | String c s' => digits_value_from (10 * acc + digit_value c) s'
  end.

Definition digits_value : string -> Z := digits_value_from 0.

(** The last [n] decimal digits of [z]. *)
Fixpoint digits_fixed (n : nat) (z : Z) : string :=
  match n with
  | O => EmptyString
  | S n' => (digits_fixed n' (z / 10) ++ String (digit_char (z mod 10)) EmptyString)%string
  end.

(** The number of decimal digits of [z] (one for zero). *)
Fixpoint decimal_width_fuel (fuel : nat) (z : Z) : nat :=
  match fuel with
  | O => 1
  | S fuel' => if z <? 10 then 1 else S (decimal_width_fuel fuel' (z / 10))
  end.

Definition decimal_width (z : Z) : nat := decimal_width_fuel (Z.to_nat (Z.log2 z)) z.

(** [n.toString()] of a non-negative integer. *)
Definition nonneg_to_string (z : Z) : string := digits_fixed (decimal_width z) z.

(** [n.toString()] of an integer. *)
Definition Z_to_string (z : Z) : string :=
  if z <? 0 then String "-" (nonneg_to_string (- z)) else nonneg_to_string z.

(** Split off the first [n] characters. *)
Fixpoint take_chars (n : nat) (s : string) : option (string * string) :=
  match n with
  | O => Some (EmptyString, s)
  | S n' => match s with
            | EmptyString => None
            | String c s' => '(a, r) ← take_chars n' s'; Some (String c a, r)
            end
  end.

(** A group of exactly [n] digits: the regular expression [\d{n}]. *)
Definition take_digits (n : nat) (s : string) : option (string * string) :=
  '(a, r) ← take_chars n s; if all_digits a then Some (a, r) else None.

(** The longest prefix of digits: [\d*]. *)
Fixpoint span_digits (s : string) : string * string :=
  match s with
  | EmptyString => (EmptyString, EmptyString)
  | String c s' => if is_digit c
                   then let '(a, r) := span_digits s' in (String c a, r)
                   else (EmptyString, s)
  end.

Definition take_char (c : ascii) (s : string) : option string :=
  match s with
  | String c' s' => if Ascii.eqb c c' then Some s' else None
  | EmptyString => None
  end.

(** [s.split(".")] read as [whole, fractional = ""] *)
Fixpoint split_dot (s : string) : string * string :=
  match s with
  | EmptyString => (EmptyString, EmptyString)
  | String "." s' => (EmptyString, s')
  | String c s' => let '(a, r) := split_dot s' in (String c a, r)
  end.

(** [s.padEnd(n, "0")] for a string of at most [n] characters. *)
Fixpoint zeros (n : nat) : string :=
  match n with O => EmptyString | S n' => String "0" (zeros n') end.

Definition padEnd0 (n : nat) (s : string) : string := (s ++ zeros (n - String.length s))%string.
Definition padStart0 (n : nat) (s : string) : string := (zeros (n - String.length s) ++ s)%string.

(** ** Decimal numerals

    A single zero, or digits that do not start with zero, followed by an
    optional dot and at least one digit: the whole digits and the digits after
    the dot. *)

Definition starts_nonzero (w : string) : bool :=
  match w with String c _ => negb (Ascii.eqb c "0") | EmptyString => false end.

Definition canonical_whole (w : string) : bool :=
  all_digits w && (bool_decide (w = "0"%string) || starts_nonzero w).

Definition match_decimal (s : string) : option (string * option string) :=
  let '(w, r) := span_digits s in
  if canonical_whole w then
    if bool_decide (r = EmptyString) then Some (w, None)
    else f ← take_char "." r;
         if all_digits f && negb (bool_decide (f = EmptyString)) then Some (w, Some f) else None
  else None.

Definition is_space (c : ascii) : bool :=
  let n := Z.of_N (N_of_ascii c) in
  ((9 <=? n) && (n <=? 13)) || (n =? 32) || (n =? 160).

Fixpoint trim_start (s : string) : string :=
  match s with
  | String c s' => if is_space c then trim_start s' else s
  | EmptyString => EmptyString
  end.

(** [value.trim() === ""] *)
Definition is_blank (s : string) : bool := string_forallb is_space s.

(** [requireNonEmpty] of modules/db/pilot-interfaces.ts *)
Definition requireNonEmpty (value label : string) : outcome unit :=
  throw_if (is_blank value) (label ++ " must be a non-empty string.")%string.

Definition char_to_lower (c : ascii) : ascii :=
  let n := N_of_ascii c in
  if ((65 <=? n) && (n <=? 90))%N then ascii_of_N (n + 32) else c.

Fixpoint toLowerCase (s : string) : string :=
  match s with
  | EmptyString => EmptyString
  | String c s' => String (char_to_lower c) (toLowerCase s')
  end.

(** ** The order of strings

    [left < right] compares code units. *)

Definition string_compare : string -> string -> comparison := String.compare.
Definition string_ltb (s t : string) : bool :=
  match string_compare s t with Lt => true | _ => false end.
Definition string_leb (s t : string) : bool :=
  match string_compare s t with Gt => false | _ => true end.

Lemma string_compare_antisym s t : string_compare t s = CompOpp (string_compare s t).
Proof. apply String.compare_antisym. Qed.

Lemma string_compare_Eq s t : string_compare s t = Eq <-> s = t.
Proof.
  split; [apply String.compare_eq_iff|]. intros <-. unfold string_compare.
  induction s as [|c s IH]; simpl; [done|]. unfold Ascii.compare. by rewrite N.compare_refl.
Qed.

Lemma string_compare_refl s : string_compare s s = Eq.
Proof. by apply string_compare_Eq. Qed.

Lemma string_compare_le_trans s t u :
  string_compare s t ≠ Gt -> string_compare t u ≠ Gt -> string_compare s u ≠ Gt.
Proof.
  unfold string_compare. revert t u.
  induction s as [|a s IH]; intros [|b t] [|c u]; simpl; try done.
  unfold Ascii.compare.
  destruct (N.compare_spec (N_of_ascii a) (N_of_ascii b)) as [E1|L1|L1]; [| |done];
  destruct (N.compare_spec (N_of_ascii b) (N_of_ascii c)) as [E2|L2|L2]; try done;
  destruct (N.compare_spec (N_of_ascii a) (N_of_ascii c)); try done; try lia.
  apply IH.
Qed.

(** ** Printing and reading digits *)

Lemma digit_char_value d : 0 <= d < 10 -> digit_value (digit_char d) = d.
Proof.
  intros Hd. unfold digit_value, digit_char.
  rewrite N_ascii_embedding by lia. lia.
Qed.

Lemma digit_value_bounds c : is_digit c = true -> 0 <= digit_value c <= 9.
Proof. unfold is_digit, digit_value. intros H. destruct_bools. lia. Qed.

Lemma is_digit_digit_char d : 0 <= d < 10 -> is_digit (digit_char d) = true.
Proof.
  intros Hd. unfold is_digit, digit_char. rewrite N_ascii_embedding by lia.
  apply andb_true_iff; split; apply Z.leb_le; lia.
Qed.

Lemma string_forallb_app p s t :
  string_forallb p (s ++ t) = string_forallb p s && string_forallb p t.
Proof. induction s as [|c s IH]; simpl; [done|]. by rewrite IH, andb_assoc. Qed.

Lemma digits_value_from_app acc s t :
  digits_value_from acc (s ++ t) = digits_value_from (digits_value_from acc s) t.
Proof. revert acc. induction s as [|c s IH]; intros acc; simpl; [done|]. apply IH. Qed.

Lemma length_string_app s t : String.length (s ++ t) = (String.length s + String.length t)%nat.
Proof. induction s as [|c s IH]; simpl; [done|]. by rewrite IH. Qed.

Lemma string_app_cons c (s t : string) : (String c s ++ t)%string = String c (s ++ t).
Proof. done. Qed.

Lemma string_app_assoc (s t u : string) : (s ++ t ++ u = (s ++ t) ++ u)%string.
Proof. induction s as [|c s IH]; [done|]. by rewrite !string_app_cons, IH. Qed.

Lemma string_app_nil_r (s : string) : (s ++ "")%string = s.
Proof. induction s as [|c s IH]; [done|]. by rewrite string_app_cons, IH. Qed.

Lemma digits_fixed_digits n z : all_digits (digits_fixed n z) = true.
Proof.
  revert z. induction n as [|n IH]; intros z; simpl; [done|].
  unfold all_digits in *. rewrite string_forallb_app, IH. simpl.
  by rewrite is_digit_digit_char by (apply Z.mod_pos_bound; lia).
Qed.

Lemma length_digits_fixed n z : String.length (digits_fixed n z) = n.
Proof.
  revert z. induction n as [|n IH]; intros z; simpl; [done|].
  rewrite length_string_app, IH. simpl. lia.
Qed.

Lemma digits_value_fixed n z :
  0 <= z < 10 ^ Z.of_nat n -> digits_value (digits_fixed n z) = z.
Proof.
  revert z. induction n as [|n IH]; intros z Hz.
  { simpl in *. unfold digits_value. simpl. lia. }
  simpl. unfold digits_value in *. rewrite digits_value_from_app.
  rewrite IH. 2: { rewrite Nat2Z.inj_succ, Z.pow_succ_r in Hz by lia.
                   split; [apply Z.div_pos; lia | apply Z.div_lt_upper_bound; lia]. }
  simpl. rewrite digit_char_value by (apply Z.mod_pos_bound; lia).
  pose proof (Z.div_mod z 10). lia.
Qed.

Lemma take_chars_app n s r : String.length s = n -> take_chars n (s ++ r) = Some (s, r).
Proof.
  intros <-. induction s as [|c s IH]; simpl; [done|]. by rewrite IH.
Qed.

Lemma take_digits_fixed n z r : take_digits n (digits_fixed n z ++ r) = Some (digits_fixed n z, r).
Proof.
  unfold take_digits. rewrite take_chars_app by apply length_digits_fixed.
  simpl. by rewrite digits_fixed_digits.
Qed.

Definition starts_with_digit (s : string) : bool :=
  match s with String c _ => is_digit c | EmptyString => false end.

Lemma span_digits_app s r :
  all_digits s = true -> starts_with_digit r = false -> span_digits (s ++ r) = (s, r).
Proof.
  intros Hs Hr. induction s as [|c s IH]; simpl in *.
  - destruct r as [|c r]; simpl in *; [done|]. by rewrite Hr.
  - apply andb_true_iff in Hs as [-> Hs]. by rewrite IH.
Qed.

Lemma digits_value_from_bounds s acc :
  all_digits s = true -> 0 <= acc ->
  acc * 10 ^ Z.of_nat (String.length s) <= digits_value_from acc s
    < (acc + 1) * 10 ^ Z.of_nat (String.length s).
Proof.
  revert acc. induction s as [|c s IH]; intros acc Hs Hacc;
    cbn [digits_value_from String.length]; [simpl; lia|].
  cbn in Hs.
  apply andb_true_iff in Hs as [Hc Hs].
  pose proof (digit_value_bounds c Hc).
  specialize (IH (10 * acc + digit_value c) Hs).
  rewrite Nat2Z.inj_succ, Z.pow_succ_r by lia. nia.
Qed.

Lemma digits_value_bounds s :
  all_digits s = true -> 0 <= digits_value s < 10 ^ Z.of_nat (String.length s).
Proof. intros Hs. pose proof (digits_value_from_bounds s 0 Hs). unfold digits_value. lia. Qed.

Lemma decimal_width_bound z : 0 <= z -> z < 10 ^ Z.of_nat (decimal_width z).
Proof.
  intros Hz. unfold decimal_width.
  assert (Hlog : z < 2 ^ Z.of_nat (S (Z.to_nat (Z.log2 z)))).
  { destruct (decide (z = 0)) as [->|]; [simpl; lia|].
    rewrite Nat2Z.inj_succ, Z2Nat.id by apply Z.log2_nonneg.
    apply Z.log2_spec; lia. }
  revert Hlog. generalize (Z.to_nat (Z.log2 z)). intros fuel. revert z Hz.
  induction fuel as [|fuel IH]; intros z Hz Hlog; cbn [decimal_width_fuel].
  - simpl in *. lia.
  - destruct (Z.ltb_spec z 10) as [|Hge]; [simpl; lia|].
    rewrite Nat2Z.inj_succ, Z.pow_succ_r in Hlog |- * by lia.
    assert (z / 10 < 10 ^ Z.of_nat (decimal_width_fuel fuel (z / 10))).
    { apply IH; [apply Z.div_pos; lia|]. apply Z.div_lt_upper_bound; lia. }
    pose proof (Z.div_mod z 10). pose proof (Z.mod_pos_bound z 10). lia.
Qed.

Lemma digits_value_nonneg_to_string z : 0 <= z -> digits_value (nonneg_to_string z) = z.
Proof.
  intros Hz. apply digits_value_fixed. split; [done|]. by apply decimal_width_bound.
Qed.

#[export] Hint Rewrite string_compare_refl length_digits_fixed digits_fixed_digits
  length_string_app : upbit_rw.

Lemma take_digits_app n s r :
  all_digits s = true -> String.length s = n -> take_digits n (s ++ r) = Some (s, r).
Proof. intros Hs Hn. unfold take_digits. rewrite take_chars_app by done. simpl. by rewrite Hs. Qed.

Lemma take_chars_inv n s a r :
  take_chars n s = Some (a, r) -> String.length a = n /\ s = (a ++ r)%string.
Proof.
  revert s a r. induction n as [|n IH]; intros s a r; simpl; [by intros [= <- <-]|].
  destruct s as [|c s]; [done|]. intros ([a' r'] & Hrec & [= <- <-])%bind_Some.
  destruct (IH _ _ _ Hrec) as [<- ->]. done.
Qed.

Lemma take_digits_inv n s a r :
  take_digits n s = Some (a, r) ->
  all_digits a = true /\ String.length a = n /\ s = (a ++ r)%string.
Proof.
  unfold take_digits. intros ([a' r'] & Hc & Hd)%bind_Some.
  destruct (all_digits a') eqn:E; simplify_eq. by destruct (take_chars_inv _ _ _ _ Hc).
Qed.

Lemma take_char_inv c s r : take_char c s = Some r -> s = String c r.
Proof.
  destruct s as [|c' s]; [done|]. unfold take_char.
  destruct (Ascii.eqb_spec c c'); [congruence|done].
Qed.

Lemma take_char_app c r : take_char c (String c EmptyString ++ r) = Some r.
Proof. rewrite string_app_cons. simpl. by rewrite Ascii.eqb_refl. Qed.

Lemma take_char_digit_fixed n z r c :
  is_digit c = false -> take_char c (digits_fixed (S n) z ++ r) = None.
Proof.
  intros Hc. destruct (digits_fixed (S n) z) as [|d s] eqn:E.
  { pose proof (length_digits_fixed (S n) z) as H. by rewrite E in H. }
  pose proof (digits_fixed_digits (S n) z) as H. rewrite E in H.
  apply andb_true_iff in H as [Hd _].
  rewrite string_app_cons. simpl. destruct (Ascii.eqb_spec c d); [congruence|done].
Qed.

Lemma length_zeros n : String.length (zeros n) = n.
Proof. induction n as [|n IH]; simpl; [done|]. by rewrite IH. Qed.

Lemma zeros_digits n : all_digits (zeros n) = true.
Proof. by induction n. Qed.

Lemma digits_value_zeros n s : digits_value (zeros n ++ s) = digits_value s.
Proof.
  unfold digits_value. rewrite digits_value_from_app. f_equal.
  induction n as [|n IH]; simpl; [done|]. exact IH.
Qed.

Lemma digits_value_padStart0 n s : digits_value (padStart0 n s) = digits_value s.
Proof. apply digits_value_zeros. Qed.

Lemma padStart0_digits n s : all_digits s = true -> all_digits (padStart0 n s) = true.
Proof.
  intros Hs. unfold padStart0, all_digits in *. rewrite string_forallb_app.
  by rewrite Hs, andb_true_r; apply zeros_digits.
Qed.

Lemma length_padStart0 n s :
  (String.length s <= n)%nat -> String.length (padStart0 n s) = n.
Proof. intros H. unfold padStart0. rewrite length_string_app, length_zeros. lia. Qed.

Lemma decimal_width_le z n : 0 <= z < 10 ^ Z.of_nat (S n) -> (decimal_width z <= S n)%nat.
Proof.
  unfold decimal_width. generalize (Z.to_nat (Z.log2 z)). intros fuel.
  revert z n. induction fuel as [|fuel IH]; intros z n Hz; cbn [decimal_width_fuel]; [lia|].
  destruct (Z.ltb_spec z 10); [lia|].
  destruct n as [|n]; [simpl in *; lia|].
  apply le_n_S, IH. rewrite Nat2Z.inj_succ, Z.pow_succ_r in Hz by lia.
  split; [apply Z.div_pos; lia | apply Z.div_lt_upper_bound; lia].
Qed.

Lemma nonneg_to_string_digits z : all_digits (nonneg_to_string z) = true.
Proof. apply digits_fixed_digits. Qed.

Lemma length_nonneg_to_string z n :
  0 <= z < 10 ^ Z.of_nat (S n) -> (String.length (nonneg_to_string z) <= S n)%nat.
Proof. intros H. unfold nonneg_to_string. rewrite length_digits_fixed. by apply decimal_width_le. Qed.

#[export] Hint Rewrite take_char_app take_digits_fixed : upbit_rw.
#[export] Hint Rewrite <- string_app_assoc : upbit_rw.
#[global] Arguments take_digits : simpl never.
#[global] Arguments take_char : simpl never.
#[global] Arguments digits_fixed : simpl never.
#[global] Arguments digits_value : simpl never.

(** ** Canonical numerals *)

Lemma digits_fixed_app a b z :
  digits_fixed (a + b) z = (digits_fixed a (z / 10 ^ Z.of_nat b) ++ digits_fixed b z)%string.
Proof.
  revert z. induction b as [|b IH]; intros z.
  - rewrite Nat.add_0_r, Z.div_1_r. change (digits_fixed 0 z) with EmptyString.
    by rewrite string_app_nil_r.
  - rewrite Nat.add_succ_r. unfold digits_fixed; fold digits_fixed.
    rewrite IH, string_app_assoc, Nat2Z.inj_succ, Z.pow_succ_r by lia.
    by rewrite Z.div_div by lia.
Qed.

Lemma digits_fixed_1 z : digits_fixed 1 z = String (digit_char (z mod 10)) EmptyString.
Proof. reflexivity. Qed.

Lemma digits_fixed_mod n z w :
  z mod 10 ^ Z.of_nat n = w mod 10 ^ Z.of_nat n -> digits_fixed n z = digits_fixed n w.
Proof.
  revert z w. induction n as [|n IH]; intros z w H; [done|].
  unfold digits_fixed; fold digits_fixed.
  rewrite Nat2Z.inj_succ, Z.pow_succ_r in H by lia.
  assert (Hp : 0 < 10 ^ Z.of_nat n) by lia.
  rewrite !Z.rem_mul_r in H by lia.
  pose proof (Z.mod_pos_bound z 10 ltac:(lia)). pose proof (Z.mod_pos_bound w 10 ltac:(lia)).
  rewrite (IH (z / 10) (w / 10)) by lia. by replace (w mod 10) with (z mod 10) by lia.
Qed.

Lemma digit_char_of_value c : is_digit c = true -> digit_char (digit_value c) = c.
Proof.
  unfold is_digit, digit_char, digit_value. intros H. destruct_bools.
  replace (48 + (Z.of_N (N_of_ascii c) - 48)) with (Z.of_N (N_of_ascii c)) by lia.
  rewrite N2Z.id. apply ascii_N_embedding.
Qed.

Lemma digits_value_app s t :
  digits_value (s ++ t) = digits_value s * 10 ^ Z.of_nat (String.length t) + digits_value t.
Proof.
  unfold digits_value. rewrite digits_value_from_app.
  generalize (digits_value_from 0 s). intros acc.
  assert (H : forall u acc, digits_value_from acc u
    = acc * 10 ^ Z.of_nat (String.length u) + digits_value_from 0 u).
  { clear. induction u as [|c u IH]; intros acc; cbn [digits_value_from String.length]; [lia|].
    rewrite IH, (IH (10 * 0 + _)), Nat2Z.inj_succ, Z.pow_succ_r by lia. lia. }
  apply H.
Qed.

(** A digit string is determined by its length and its value. *)
Lemma digits_fixed_value s :
  all_digits s = true -> digits_fixed (String.length s) (digits_value s) = s.
Proof.
  induction s as [|c s IH]; intros Hs; [done|].
  unfold all_digits in Hs. cbn [string_forallb] in Hs. destruct_bools.
  change (String c s) with (String c EmptyString ++ s)%string at 2.
  rewrite digits_value_app. change (String.length (String c s)) with (1 + String.length s)%nat.
  rewrite digits_fixed_app. pose proof (digits_value_bounds s ltac:(done)) as Hb.
  rewrite Z.div_add_l, Z.div_small, Z.add_0_r by lia.
  rewrite (digits_fixed_mod (String.length s) (_ + digits_value s) (digits_value s)), IH;
    [|done | by rewrite Z.add_comm, Z_mod_plus_full].
  f_equal. unfold digits_fixed, digits_value. cbn [digits_value_from].
  pose proof (digit_value_bounds c ltac:(done)).
  rewrite Z.mod_small by lia. change (10 * 0 + digit_value c) with (digit_value c).
  rewrite digit_char_of_value by done. done.
Qed.

Lemma decimal_width_pos z : (1 <= decimal_width z)%nat.
Proof. unfold decimal_width. destruct (Z.to_nat _); cbn [decimal_width_fuel]; [lia|]. case_if; lia. Qed.

Lemma decimal_width_lower z :
  0 < z -> 10 ^ (Z.of_nat (decimal_width z) - 1) <= z.
Proof.
  unfold decimal_width. generalize (Z.to_nat (Z.log2 z)). intros fuel. revert z.
  induction fuel as [|fuel IH]; intros z Hz; cbn [decimal_width_fuel]; [simpl; lia|].
  destruct (Z.ltb_spec z 10); [simpl; lia|].
  assert (Hq : 0 < z / 10) by (apply Z.div_str_pos; lia).
  specialize (IH _ Hq).
  assert (Hw : (1 <= decimal_width_fuel fuel (z / 10))%nat).
  { destruct fuel; cbn [decimal_width_fuel]; [lia|]. case_if; lia. }
  rewrite Nat2Z.inj_succ.
  replace (Z.succ (Z.of_nat (decimal_width_fuel fuel (z / 10))) - 1)
    with (Z.succ (Z.of_nat (decimal_width_fuel fuel (z / 10)) - 1)) by lia.
  rewrite Z.pow_succ_r by lia. pose proof (Z.div_mod z 10). pose proof (Z.mod_pos_bound z 10). lia.
Qed.

Lemma decimal_width_unique z n :
  0 <= z < 10 ^ Z.of_nat n -> (1 <= n)%nat -> (n = 1%nat \/ 10 ^ (Z.of_nat n - 1) <= z) ->
  decimal_width z = n.
Proof.
  intros Hz Hn Hlow. destruct n as [|n]; [lia|]. pose proof (decimal_width_le z n Hz).
  pose proof (decimal_width_pos z). destruct Hlow as [Hone|Hlow]; [lia|].
  pose proof (decimal_width_bound z ltac:(lia)) as Hb.
  destruct (decide (decimal_width z < S n)%nat) as [Hlt|]; [|lia].
  assert (10 ^ Z.of_nat (decimal_width z) <= 10 ^ (Z.of_nat (S n) - 1))
    by (apply Z.pow_le_mono_r; lia).
  lia.
Qed.

Lemma starts_nonzero_value w :
  all_digits w = true -> starts_nonzero w = true ->
  10 ^ (Z.of_nat (String.length w) - 1) <= digits_value w.
Proof.
  destruct w as [|c w]; [done|]. unfold all_digits. cbn [string_forallb starts_nonzero].
  intros H Hc. destruct_bools.
  change (String c w) with (String c EmptyString ++ w)%string. rewrite digits_value_app.
  rewrite string_app_cons. change ("" ++ w)%string with w.
  cbn [String.length]. rewrite Nat2Z.inj_succ.
  replace (Z.succ (Z.of_nat (String.length w)) - 1) with (Z.of_nat (String.length w)) by lia.
  pose proof (digits_value_bounds w ltac:(done)).
  assert (1 <= digits_value (String c EmptyString)).
  { unfold digits_value. cbn [digits_value_from]. pose proof (digit_value_bounds c ltac:(done)).
    destruct (decide (digit_value c = 0)) as [E|]; [|lia].
    apply (f_equal digit_char) in E. rewrite digit_char_of_value in E by done. by subst c. }
  nia.
Qed.

(** A canonical whole part is the text of its value. *)
Lemma nonneg_to_string_value w :
  canonical_whole w = true -> nonneg_to_string (digits_value w) = w.
Proof.
  unfold canonical_whole. intros [Hd Hw]%andb_true_iff. apply orb_true_iff in Hw as [->%bool_decide_eq_true|Hw];
    [reflexivity|].
  unfold nonneg_to_string. rewrite (decimal_width_unique _ (String.length w)).
  - by apply digits_fixed_value.
  - by apply digits_value_bounds.
  - destruct w; simpl in *; [done | lia].
  - right. by apply starts_nonzero_value.
Qed.

Lemma digits_fixed_S_head n z :
  10 ^ Z.of_nat n <= z < 10 ^ Z.of_nat (S n) -> starts_nonzero (digits_fixed (S n) z) = true.
Proof.
  intros Hz. change (S n) with (1 + n)%nat. rewrite digits_fixed_app.
  rewrite digits_fixed_1.
  rewrite string_app_cons. cbn [starts_nonzero].
  rewrite Nat2Z.inj_succ, Z.pow_succ_r in Hz by lia.
  assert (Hq : 1 <= z / 10 ^ Z.of_nat n < 10).
  { split; [apply Z.div_le_lower_bound; lia | apply Z.div_lt_upper_bound; lia]. }
  rewrite Z.mod_small by lia.
  apply negb_true_iff, Ascii.eqb_neq. intros E. apply (f_equal digit_value) in E.
  rewrite digit_char_value in E by lia. change (digit_value "0") with 0 in E. lia.
Qed.

Lemma canonical_whole_to_string z : 0 <= z -> canonical_whole (nonneg_to_string z) = true.
Proof.
  intros Hz. unfold canonical_whole. rewrite nonneg_to_string_digits. simpl.
  destruct (decide (z = 0)) as [->|]; [reflexivity|].
  apply orb_true_iff. right. unfold nonneg_to_string.
  pose proof (decimal_width_pos z). pose proof (decimal_width_lower z ltac:(lia)).
  pose proof (decimal_width_bound z Hz). destruct (decimal_width z) as [|k]; [lia|].
  apply digits_fixed_S_head. replace (Z.of_nat k) with (Z.of_nat (S k) - 1) by lia. done.
Qed.

(** The number of digits of a quotient by a power of ten. *)
Lemma decimal_width_div z n :
  0 <= z -> decimal_width (z / 10 ^ Z.of_nat n) = Nat.max 1 (decimal_width z - n).
Proof.
  intros Hz. pose proof (decimal_width_bound z Hz) as Hb. pose proof (decimal_width_pos z).
  assert (Hp : 0 < 10 ^ Z.of_nat n) by lia.
  assert (Hq : 0 <= z / 10 ^ Z.of_nat n) by (apply Z.div_pos; lia).
  apply decimal_width_unique; [split; [done|]| lia |].
  - apply Z.div_lt_upper_bound; [done|]. rewrite <- Z.pow_add_r by lia.
    eapply Z.lt_le_trans; [exact Hb|]. apply Z.pow_le_mono_r; lia.
  - destruct (decide (decimal_width z <= S n)%nat); [left; lia|]. right.
    pose proof (decimal_width_lower z) as Hl.
    assert (0 < z). { destruct (decide (z = 0)) as [->|]; [|lia].
      exfalso. change (decimal_width 0) with 1%nat in *. lia. }
    apply Z.div_le_lower_bound; [done|]. rewrite <- Z.pow_add_r by lia.
    etransitivity; [|apply Hl; done]. apply Z.pow_le_mono_r; lia.
Qed.

Lemma padStart0_to_string n z :
  0 <= z -> padStart0 n (nonneg_to_string z) = digits_fixed (Nat.max n (decimal_width z)) z.
Proof.
  intros Hz. unfold padStart0, nonneg_to_string. rewrite length_digits_fixed.
  replace (Nat.max n (decimal_width z)) with ((n - decimal_width z) + decimal_width z)%nat by lia.
  rewrite digits_fixed_app. f_equal.
  pose proof (decimal_width_bound z Hz). rewrite Z.div_small by lia.
  induction (n - decimal_width z)%nat as [|k IH]; [done|].
  cbn [zeros]. change (S k) with (1 + k)%nat. rewrite digits_fixed_app, Z.div_0_l by lia.
  rewrite <- IH. done.
Qed.
