(* ===== verification/Timestamp.v ===== *)
(** * Timestamp: ISO instants as epoch nanoseconds

    [parsePositionGuardCandidateTimestamp] of
    modules/strategy/position-guard-candidate-state.ts, the canonical UTC
    printer of modules/db/pilot-interfaces.ts, and the [Date.parse] they and
    the strategy use.  [Date_parse] follows the ECMAScript date-time string
    format on a host whose zone is UTC; strings outside that format give NaN
    ([None]).  The main results: the parser accepts exactly what the printer
    writes and returns the instant printed. *)

From stdpp Require Import base option list strings.
From Stdlib Require Import ZArith Lia Ascii.
From S2P Require Import Prelude Text.

Local Open Scope Z_scope.

(** ** The proleptic Gregorian calendar *)

Definition is_leap (year : Z) : bool :=
  (year mod 4 =? 0) && (negb (year mod 100 =? 0) || (year mod 400 =? 0)).

(** Days from the epoch to the first of January of a year. *)
Definition day_from_year (y : Z) : Z :=
  365 * (y - 1970) + (y - 1969) / 4 - (y - 1901) / 100 + (y - 1601) / 400.

(** Days in the year before the first of a month (1 to 12). *)
Definition days_before_month (leap : bool) (month : Z) : Z :=
  let l := if leap then 1 else 0 in
  match month with
  | 1 => 0 | 2 => 31 | 3 => 59 + l | 4 => 90 + l | 5 => 120 + l | 6 => 151 + l
  | 7 => 181 + l | 8 => 212 + l | 9 => 243 + l | 10 => 273 + l | 11 => 304 + l
  | _ => 334 + l
  end.

(** Day number of a civil date: [MakeDay]. *)
Definition make_day (year month day : Z) : Z :=
  day_from_year year + days_before_month (is_leap year) month + (day - 1).

Definition make_time (hour minute second ms : Z) : Z :=
  ((hour * 60 + minute) * 60 + second) * 1000 + ms.

Definition ms_per_day : Z := 86400000.

(** ** [Date.parse] *)

Definition parse_date (s : string) : option (Z * Z * Z * string) :=
  '(y, r) ← take_digits 4 s;
  let year := digits_value y in
  match take_char "-" r with
  | None => Some (year, 1, 1, r)
  | Some r =>
      '(mo, r) ← take_digits 2 r;
      let month := digits_value mo in
      if (month <? 1) || (12 <? month) then None else
      match take_char "-" r with
      | None => Some (year, month, 1, r)
      | Some r =>
          '(d, r) ← take_digits 2 r;
          let day := digits_value d in
          if (day <? 1) || (31 <? day) then None else Some (year, month, day, r)
      end
  end.

(** Seconds and the millisecond part of a fraction. *)
Definition parse_seconds (s : string) : option (Z * Z * string) :=
  match take_char ":" s with
  | None => Some (0, 0, s)
  | Some r =>
      '(sec, r) ← take_digits 2 r;
      match take_char "." r with
      | None => Some (digits_value sec, 0, r)
      | Some r =>
          let '(frac, r) := span_digits r in
          if bool_decide (frac = EmptyString) then None
          else '(ms, _) ← take_chars 3 (padEnd0 3 frac);
               Some (digits_value sec, digits_value ms, r)
      end
  end.

(** The zone suffix as a signed number of minutes; none means UTC. *)
Definition parse_zone (s : string) : option Z :=
  match s with
  | EmptyString => Some 0
  | String c r =>
      if Ascii.eqb c "Z" then if bool_decide (r = EmptyString) then Some 0 else None
      else if Ascii.eqb c "+" || Ascii.eqb c "-" then
        '(h, r) ← take_digits 2 r;
        r ← take_char ":" r;
        '(m, r) ← take_digits 2 r;
        if bool_decide (r = EmptyString) && (digits_value h <=? 23) && (digits_value m <=? 59)
        then Some ((if Ascii.eqb c "-" then -1 else 1) * (digits_value h * 60 + digits_value m))
        else None
      else None
  end.

Definition Date_parse (s : string) : option Z :=
  '(year, month, day, r) ← parse_date s;
  match take_char "T" r with
  | None => if bool_decide (r = EmptyString) then Some (make_day year month day * ms_per_day)
            else None
  | Some r =>
      '(h, r) ← take_digits 2 r;
      r ← take_char ":" r;
      '(mi, r) ← take_digits 2 r;
      '(sec, ms, r) ← parse_seconds r;
      zone ← parse_zone r;
      let hour := digits_value h in
      let minute := digits_value mi in
      if ((hour <=? 23) && (minute <=? 59) && (sec <=? 59))
         || ((hour =? 24) && (minute =? 0) && (sec =? 0) && (ms =? 0))
      then Some (make_day year month day * ms_per_day + make_time hour minute sec ms
                 - zone * 60000)
      else None
  end.

(** ** The explicit-zone timestamp of the candidate pilot *)

Record iso_match := {
  m_year : string; m_month : string; m_day : string;
  m_hour : string; m_minute : string; m_second : string;
  m_fraction : option string;
  m_timezone : string;
}.

(** The zone group [Z|[+-]\d{2}:\d{2}], at the end of the input. *)
Definition match_timezone (s : string) : option string :=
  if bool_decide (s = "Z"%string) then Some s
  else match s with
       | String c r =>
           if Ascii.eqb c "+" || Ascii.eqb c "-" then
             '(_, r) ← take_digits 2 r;
             r ← take_char ":" r;
             '(_, r) ← take_digits 2 r;
             if bool_decide (r = EmptyString) then Some s else None
           else None
       | EmptyString => None
       end.

(** [EXPLICIT_ISO_TIMESTAMP.exec(value)] *)
Definition exec_iso (value : string) : option iso_match :=
  '(y, r) ← take_digits 4 value;
  r ← take_char "-" r;
  '(mo, r) ← take_digits 2 r;
  r ← take_char "-" r;
  '(d, r) ← take_digits 2 r;
  r ← take_char "T" r;
  '(h, r) ← take_digits 2 r;
  r ← take_char ":" r;
  '(mi, r) ← take_digits 2 r;
  r ← take_char ":" r;
  '(s, r) ← take_digits 2 r;
  '(f, r) ← match take_char "." r with
            | None => Some (None, r)
            | Some r =>
                let '(f, r) := span_digits r in
                if (1 <=? String.length f)%nat && (String.length f <=? 9)%nat
                then Some (Some f, r) else None
            end;
  tz ← match_timezone r;
  Some {| m_year := y; m_month := mo; m_day := d; m_hour := h; m_minute := mi;
          m_second := s; m_fraction := f; m_timezone := tz |}.

Definition daysInMonth (year month : Z) : Z :=
  if month =? 2 then
    let leapYear := (year mod 4 =? 0) && (negb (year mod 100 =? 0) || (year mod 400 =? 0)) in
    if leapYear then 29 else 28
  else if (month =? 4) || (month =? 6) || (month =? 9) || (month =? 11) then 30 else 31.

(** [timezone.slice(1, 3)] and [timezone.slice(4, 6)] as numbers. *)
Definition offset_hour (timezone : string) : Z := digits_value (String.substring 1 2 timezone).
Definition offset_minute (timezone : string) : Z := digits_value (String.substring 4 2 timezone).

Definition isValidTimezone (timezone : string) : bool :=
  if bool_decide (timezone = "Z"%string) then true
  else let offsetHour := offset_hour timezone in
       let offsetMinute := offset_minute timezone in
       (offsetMinute <=? 59) && ((offsetHour <? 14) || ((offsetHour =? 14) && (offsetMinute =? 0))).

Definition invalidTimestamp (value label : string) : string :=
  ("Invalid PositionGuard candidate " ++ label ++ ": " ++ value)%string.

Definition whole_second (m : iso_match) : string :=
  (m_year m ++ "-" ++ m_month m ++ "-" ++ m_day m ++ "T" ++
   m_hour m ++ ":" ++ m_minute m ++ ":" ++ m_second m ++ m_timezone m)%string.

Definition NANOSECONDS_PER_MILLISECOND : Z := 1000000.

(** The range guards on the groups of a match. *)
Definition iso_out_of_range (m : iso_match) : bool :=
  let year := digits_value (m_year m) in
  let month := digits_value (m_month m) in
  let day := digits_value (m_day m) in
  (month <? 1) || (12 <? month) || (day <? 1) || (daysInMonth year month <? day)
  || (23 <? digits_value (m_hour m)) || (59 <? digits_value (m_minute m))
  || (59 <? digits_value (m_second m)) || negb (isValidTimezone (m_timezone m)).

Definition fraction_nanoseconds (fraction : option string) : Z :=
  digits_value (padEnd0 9 (default EmptyString fraction)).

Definition parsePositionGuardCandidateTimestamp (value label : string) : outcome Z :=
  match exec_iso value with
  | None => Throw (invalidTimestamp value label)
  | Some m =>
      _ ← throw_if (iso_out_of_range m) (invalidTimestamp value label);
      match Date_parse (whole_second m) with
      | None => Throw (invalidTimestamp value label)
      | Some epochMilliseconds =>
          Ret (epochMilliseconds * NANOSECONDS_PER_MILLISECOND
               + fraction_nanoseconds (m_fraction m))
      end
  end.

(** ** The strict timestamp of the lifecycle validators

    [parseStrictIsoTimestamp] of
    modules/db/repositories/atomic-lifecycle-validation.ts matches the same
    expression, with looser bounds on the zone. *)

(** [Date.UTC] reads the years 0 to 99 as 1900 to 1999. *)
Definition utc_year (year : Z) : Z :=
  if (0 <=? year) && (year <=? 99) then 1900 + year else year.

(** [new Date(Date.UTC(year, month, 0)).getUTCDate()] of a month in range *)
Definition utc_daysInMonth (year month : Z) : Z := daysInMonth (utc_year year) month.

Definition strict_offset_hour (timezone : string) : Z :=
  if bool_decide (timezone = "Z"%string) then 0 else offset_hour timezone.
Definition strict_offset_minute (timezone : string) : Z :=
  if bool_decide (timezone = "Z"%string) then 0 else offset_minute timezone.

Definition strict_out_of_range (m : iso_match) : bool :=
  let year := digits_value (m_year m) in
  let month := digits_value (m_month m) in
  let day := digits_value (m_day m) in
  (month <? 1) || (12 <? month) || (day <? 1) || (utc_daysInMonth year month <? day)
  || (23 <? digits_value (m_hour m)) || (59 <? digits_value (m_minute m))
  || (59 <? digits_value (m_second m)) || (23 <? strict_offset_hour (m_timezone m))
  || (59 <? strict_offset_minute (m_timezone m)).

Definition parseStrictIsoTimestamp (input label : string) : outcome Z :=
  match exec_iso input with
  | None => Throw (label ++ " must be an ISO-8601 timestamp with explicit timezone.")%string
  | Some m =>
      _ ← throw_if (strict_out_of_range m) (label ++ " must be a valid ISO-8601 timestamp.")%string;
      match Date_parse (whole_second m) with
      | None => Throw (label ++ " must be a valid ISO-8601 timestamp.")%string
      | Some wholeSecondTimestamp =>
          Ret (wholeSecondTimestamp * 1000000 + fraction_nanoseconds (m_fraction m))
      end
  end.

(** ** The canonical UTC printer *)

(** The year a day number falls in: an estimate from the mean year length,
    corrected by at most one. *)
Definition year_from_day (d : Z) : Z :=
  let y := 1970 + (400 * d + 200) / 146097 in
  if d <? day_from_year y then y - 1
  else if day_from_year (y + 1) <=? d then y + 1 else y.

Fixpoint month_search (leap : bool) (fuel : nat) (month doy : Z) : Z :=
  match fuel with
  | O => month
  | S fuel' => if days_before_month leap month <=? doy then month
               else month_search leap fuel' (month - 1) doy
  end.

(** Year, month and day of a day number. *)
Definition civil_from_day (d : Z) : Z * Z * Z :=
  let year := year_from_day d in
  let doy := d - day_from_year year in
  let leap := is_leap year in
  let month := month_search leap 11 12 doy in
  (year, month, doy - days_before_month leap month + 1).

(** [new Date(ms).toISOString().slice(0, 19)] for a year of four digits. *)
Definition iso_seconds (epochSeconds : Z) : string :=
  let '(year, month, day) := civil_from_day (epochSeconds / 86400) in
  let t := epochSeconds mod 86400 in
  (digits_fixed 4 year ++ "-" ++ digits_fixed 2 month ++ "-" ++ digits_fixed 2 day ++ "T" ++
   digits_fixed 2 (t / 3600) ++ ":" ++ digits_fixed 2 (t / 60 mod 60) ++ ":" ++
   digits_fixed 2 (t mod 60))%string.

(** The last second whose ISO year has four digits. *)
Definition last_four_digit_second : Z := make_day 9999 12 31 * 86400 + 86399.

Definition formatCandidatePilotUtcNanoseconds (epochNanoseconds : Z) : outcome string :=
  let nanosecondsPerSecond := 1000000000 in
  let maximumDateMilliseconds := 8640000000000000 in
  _ ← throw_if (epochNanoseconds <? 0)
        "Candidate intent fault occurrence cannot precede the Unix epoch.";
  let wholeSeconds := epochNanoseconds / nanosecondsPerSecond in
  let fractionalNanoseconds := epochNanoseconds mod nanosecondsPerSecond in
  let wholeMilliseconds := wholeSeconds * 1000 in
  _ ← throw_if (maximumDateMilliseconds <? wholeMilliseconds)
        "Candidate intent fault occurrence exceeds the supported UTC range.";
  _ ← throw_if (last_four_digit_second <? wholeSeconds)
        "Candidate intent fault occurrence exceeds the supported canonical UTC range.";
  Ret (iso_seconds wholeSeconds ++ "." ++ padStart0 9 (nonneg_to_string fractionalNanoseconds)
       ++ "Z")%string.

(** [new Date(ms).toISOString()] for a year of four digits. *)
Definition toISOString (ms : Z) : string :=
  (iso_seconds (ms / 1000) ++ ("." ++ digits_fixed 3 (ms mod 1000)) ++ "Z")%string.

Example iso_now : toISOString 1787281704756 = "2026-08-21T03:08:24.756Z"%string.
Proof. vm_compute. reflexivity. Qed.
Example strict_far_zone :
  parseStrictIsoTimestamp "1970-01-02T00:00:00+23:59" "x" = Ret 60000000000.
Proof. vm_compute. reflexivity. Qed.
Example parse_epoch :
  parsePositionGuardCandidateTimestamp "1970-01-01T00:00:00Z" "x" = Ret 0.
Proof. vm_compute. reflexivity. Qed.
Example parse_kst :
  parsePositionGuardCandidateTimestamp "2026-08-21T12:08:24.756+09:00" "x"
  = Ret 1787281704756000000.
Proof. vm_compute. reflexivity. Qed.
Example format_kst :
  formatCandidatePilotUtcNanoseconds 1787281704756000000
  = Ret "2026-08-21T03:08:24.756000000Z"%string.
Proof. vm_compute. reflexivity. Qed.
(** ** The printer is inverted by the parser *)

Lemma year_from_day_spec d :
  day_from_year (year_from_day d) <= d < day_from_year (year_from_day d + 1).
Proof.
  unfold year_from_day.
  set (y := 1970 + (400 * d + 200) / 146097).
  assert (Hy : day_from_year (y - 1) <= d < day_from_year (y + 2)).
  { subst y. unfold day_from_year. Z.to_euclidean_division_equations. lia. }
  destruct (Z.ltb_spec d (day_from_year y)).
  { replace (y - 1 + 1) with y by lia. lia. }
  destruct (Z.leb_spec (day_from_year (y + 1)) d); [|lia].
  replace (y + 1 + 1) with (y + 2) by lia. lia.
Qed.

Lemma year_length y :
  day_from_year (y + 1) - day_from_year y = if is_leap y then 366 else 365.
Proof.
  unfold day_from_year, is_leap.
  destruct (Z.eqb_spec (y mod 4) 0), (Z.eqb_spec (y mod 100) 0), (Z.eqb_spec (y mod 400) 0);
    simpl; Z.to_euclidean_division_equations; lia.
Qed.

Lemma day_from_year_mono y1 y2 : y1 <= y2 -> day_from_year y1 <= day_from_year y2.
Proof. unfold day_from_year. intros. Z.to_euclidean_division_equations. lia. Qed.

Lemma year_from_day_range d :
  0 <= d <= make_day 9999 12 31 -> 1970 <= year_from_day d <= 9999.
Proof.
  intros Hd. pose proof (year_from_day_spec d) as Hy.
  change (make_day 9999 12 31) with 2932896 in Hd.
  split.
  - destruct (Z.le_gt_cases 1970 (year_from_day d)) as [|H]; [done|].
    pose proof (day_from_year_mono (year_from_day d + 1) 1970 ltac:(lia)) as Hm.
    change (day_from_year 1970) with 0 in Hm. lia.
  - destruct (Z.le_gt_cases (year_from_day d) 9999) as [|H]; [done|].
    pose proof (day_from_year_mono 10000 (year_from_day d) ltac:(lia)) as Hm.
    change (day_from_year 10000) with 2932897 in Hm. lia.
Qed.

Lemma month_search_spec (leap : bool) doy :
  0 <= doy < (if leap then 366 else 365) ->
  let month := month_search leap 11 12 doy in
  1 <= month <= 12 /\
  days_before_month leap month <= doy /\
  doy - days_before_month leap month + 1
    <= (if month =? 2 then (if leap then 29 else 28)
        else if (month =? 4) || (month =? 6) || (month =? 9) || (month =? 11) then 30 else 31).
Proof.
  intros Hdoy month. subst month. destruct leap; simpl;
  repeat match goal with
  | |- context [Z.leb ?x doy] => destruct (Z.leb_spec x doy); [simpl; lia|]
  end; simpl; lia.
Qed.

Lemma daysInMonth_31 y mo : daysInMonth y mo <= 31.
Proof. unfold daysInMonth. repeat case_if; lia. Qed.

(** ** The instant a matched timestamp denotes *)

(** A group of exactly [n] digits. *)
Definition digit_group (n : nat) (s : string) : Prop :=
  all_digits s = true /\ String.length s = n.

Record iso_wf (m : iso_match) : Prop := {
  wf_year : digit_group 4 (m_year m);
  wf_month : digit_group 2 (m_month m);
  wf_day : digit_group 2 (m_day m);
  wf_hour : digit_group 2 (m_hour m);
  wf_minute : digit_group 2 (m_minute m);
  wf_second : digit_group 2 (m_second m);
  wf_timezone : m_timezone m = "Z"%string \/
    exists c h mi, (c = "+"%char \/ c = "-"%char) /\ digit_group 2 h /\ digit_group 2 mi /\
      m_timezone m = (String c EmptyString ++ h ++ ":" ++ mi)%string;
}.

Lemma match_timezone_inv s tz :
  match_timezone s = Some tz ->
  tz = "Z"%string \/
  exists c h mi, (c = "+"%char \/ c = "-"%char) /\ digit_group 2 h /\ digit_group 2 mi /\
    tz = (String c EmptyString ++ h ++ ":" ++ mi)%string.
Proof.
  unfold match_timezone. case_bool_decide as E; [intros [= <-]; by left|].
  destruct s as [|c r]; [done|].
  destruct (Ascii.eqb_spec c "+"), (Ascii.eqb_spec c "-"); simpl; try done;
  intros ([h r1] & (? & ? & ->)%take_digits_inv & (r2 & ->%take_char_inv &
          ([mi r3] & (? & ? & ->)%take_digits_inv & Hend)%bind_Some)%bind_Some)%bind_Some;
  cbn in Hend; case_bool_decide; simplify_eq; right; eexists _, h, mi;
  rewrite string_app_nil_r; refine (conj _ (conj _ (conj _ eq_refl))); unfold digit_group; auto.
Qed.

Lemma exec_iso_wf value m : exec_iso value = Some m -> iso_wf m.
Proof.
  unfold exec_iso. intros H.
  repeat match goal with
  | H : (_ ≫= _) = Some _ |- _ => apply bind_Some in H as (? & ? & ?)
  | H : (let '(_, _) := ?x in _) = _ |- _ => destruct x
  | H : take_digits _ _ = Some _ |- _ => apply take_digits_inv in H as (? & ? & _)
  | H : match_timezone _ = Some _ |- _ => apply match_timezone_inv in H
  end.
  simplify_eq. by constructor.
Qed.

(** Offset of a zone suffix in minutes. *)
Definition zone_minutes (tz : string) : Z :=
  if bool_decide (tz = "Z"%string) then 0
  else (if bool_decide (String.substring 0 1 tz = "-"%string) then -1 else 1)
       * (offset_hour tz * 60 + offset_minute tz).

Definition instant_of_match (m : iso_match) : Z :=
  (make_day (digits_value (m_year m)) (digits_value (m_month m)) (digits_value (m_day m)) * 86400
   + digits_value (m_hour m) * 3600 + digits_value (m_minute m) * 60 + digits_value (m_second m)
   - zone_minutes (m_timezone m) * 60) * 1000000000
  + fraction_nanoseconds (m_fraction m).

Lemma digit_group_2 s : digit_group 2 s -> exists a b, s = String a (String b EmptyString) /\
  is_digit a = true /\ is_digit b = true.
Proof.
  intros [Hd Hl]. destruct s as [|a [|b [|]]]; try discriminate.
  apply andb_true_iff in Hd as [Ha Hb]. apply andb_true_iff in Hb as [Hb _].
  by exists a, b.
Qed.

Lemma take_digits_2 a b r :
  is_digit a = true -> is_digit b = true ->
  take_digits 2 (String a (String b r)) = Some (String a (String b EmptyString), r).
Proof.
  intros Ha Hb. apply (take_digits_app 2 (String a (String b EmptyString)) r); [|done].
  unfold all_digits. simpl. by rewrite Ha, Hb.
Qed.

(** An offset below a day. *)
Definition zone_in_range (tz : string) : bool :=
  bool_decide (tz = "Z"%string) || ((offset_hour tz <=? 23) && (offset_minute tz <=? 59)).

Lemma isValidTimezone_in_range tz : isValidTimezone tz = true -> zone_in_range tz = true.
Proof.
  unfold isValidTimezone, zone_in_range. case_bool_decide; [done|]. simpl.
  intros [-> Hh]%andb_true_iff. rewrite andb_true_r. apply Z.leb_le.
  apply orb_true_iff in Hh as [Hh|Hh]; destruct_bools; lia.
Qed.

Lemma parse_zone_in_range m :
  iso_wf m -> zone_in_range (m_timezone m) = true ->
  take_char "." (m_timezone m) = None /\
  parse_zone (m_timezone m) = Some (zone_minutes (m_timezone m)).
Proof.
  intros Hwf Hv.
  destruct (wf_timezone _ Hwf) as [-> | (c & h & mi & Hc & Hh & Hm & Htz)]; [done|].
  rewrite Htz in *. clear Htz.
  destruct (digit_group_2 _ Hh) as (h1 & h2 & -> & Hh1 & Hh2).
  destruct (digit_group_2 _ Hm) as (m1 & m2 & -> & Hm1 & Hm2).
  unfold zone_in_range, zone_minutes, offset_hour, offset_minute in *.
  change (String c "" ++ String h1 (String h2 "") ++ ":" ++ String m1 (String m2 ""))%string
    with (String c (String h1 (String h2 (String ":" (String m1 (String m2 "")))))) in *.
  assert (Hz : forall r, String c (String h1 r) ≠ "Z"%string) by done.
  rewrite bool_decide_eq_false_2 in Hv |- * by apply Hz. cbn in Hv |- *.
  set (H2 := digits_value (String h1 (String h2 ""))) in *.
  set (M2 := digits_value (String m1 (String m2 ""))) in *.
  apply andb_true_iff in Hv as [Ehr Emr].
  split; [by destruct Hc as [-> | ->]|].
  destruct Hc as [-> | ->]; cbn; rewrite take_digits_2 by done; cbn;
    change (take_char ":" (String ":" (String m1 (String m2 EmptyString))))
      with (Some (String m1 (String m2 EmptyString))); cbn;
    rewrite take_digits_2 by done; cbn; fold H2 M2; by rewrite Ehr, Emr.
Qed.

(** [Date.parse] of the whole second of a match whose fields are in range. *)
Lemma Date_parse_fields m :
  iso_wf m -> 1 <= digits_value (m_month m) <= 12 -> 1 <= digits_value (m_day m) <= 31 ->
  digits_value (m_hour m) <= 23 -> digits_value (m_minute m) <= 59 ->
  digits_value (m_second m) <= 59 -> zone_in_range (m_timezone m) = true ->
  Date_parse (whole_second m) =
  Some (make_day (digits_value (m_year m)) (digits_value (m_month m)) (digits_value (m_day m))
          * ms_per_day
        + make_time (digits_value (m_hour m)) (digits_value (m_minute m))
            (digits_value (m_second m)) 0
        - zone_minutes (m_timezone m) * 60000).
Proof.
  intros Hwf. intros. destruct (parse_zone_in_range m Hwf) as [Hdot Hzone]; [done|].
  destruct Hwf as [[Hy ?] [Hmo ?] [Hd ?] [Hh ?] [Hmi ?] [Hs ?] _].
  unfold Date_parse, whole_second, parse_date, parse_seconds.
  repeat (rewrite ?take_digits_app by done; cbn; rewrite ?take_char_app; cbn;
          rewrite ?(proj2 (Z.ltb_ge _ _)) by lia; cbn).
  rewrite Hdot. cbn. rewrite Hzone. cbn.
  rewrite !(proj2 (Z.leb_le _ _)) by lia. done.
Qed.

Lemma iso_in_range_fields m :
  iso_out_of_range m = false ->
  1 <= digits_value (m_month m) <= 12 /\
  1 <= digits_value (m_day m) <= daysInMonth (digits_value (m_year m)) (digits_value (m_month m)) /\
  digits_value (m_hour m) <= 23 /\ digits_value (m_minute m) <= 59 /\
  digits_value (m_second m) <= 59 /\ isValidTimezone (m_timezone m) = true.
Proof. unfold iso_out_of_range. cbv zeta. intros. destruct_bools. split_and!; done || lia. Qed.

(** The body, with the arithmetic of [Date.parse] carried out. *)
Lemma parse_eq value label :
  parsePositionGuardCandidateTimestamp value label =
  match exec_iso value with
  | None => Throw (invalidTimestamp value label)
  | Some m => if iso_out_of_range m then Throw (invalidTimestamp value label)
              else Ret (instant_of_match m)
  end.
Proof.
  unfold parsePositionGuardCandidateTimestamp.
  destruct (exec_iso value) as [m|] eqn:Hm; [|done].
  destruct (iso_out_of_range m) eqn:Hr; [done|]. cbn.
  apply iso_in_range_fields in Hr as (? & ? & ? & ? & ? & ?).
  pose proof (daysInMonth_31 (digits_value (m_year m)) (digits_value (m_month m))).
  rewrite Date_parse_fields by (eauto using exec_iso_wf, isValidTimezone_in_range || lia).
  f_equal. unfold instant_of_match, NANOSECONDS_PER_MILLISECOND, ms_per_day, make_time. lia.
Qed.

(** The timestamp parser, on every string: it throws exactly when the
    regular expression does not match or a field is out of range (so the guard
    on a NaN from [Date.parse] is never taken), and otherwise returns the
    nanosecond instant that the civil date, the time, the offset and the
    fraction denote. *)
Theorem parse_spec value label :
  parsePositionGuardCandidateTimestamp value label =
  match exec_iso value with
  | None => Throw (invalidTimestamp value label)
  | Some m => if iso_out_of_range m then Throw (invalidTimestamp value label)
              else Ret (instant_of_match m)
  end.
Proof. apply parse_eq. Qed.

(** ** The strict parser reads the same instants *)

Lemma strict_in_range_fields m :
  strict_out_of_range m = false ->
  1 <= digits_value (m_month m) <= 12 /\
  1 <= digits_value (m_day m)
    <= utc_daysInMonth (digits_value (m_year m)) (digits_value (m_month m)) /\
  digits_value (m_hour m) <= 23 /\ digits_value (m_minute m) <= 59 /\
  digits_value (m_second m) <= 59 /\ zone_in_range (m_timezone m) = true.
Proof.
  unfold strict_out_of_range, strict_offset_hour, strict_offset_minute, zone_in_range.
  cbv zeta. intros. destruct_bools. split_and!; try lia.
  case_bool_decide; [done|]. simpl. apply andb_true_iff. split; apply Z.leb_le; lia.
Qed.

Lemma strict_eq value label :
  parseStrictIsoTimestamp value label =
  match exec_iso value with
  | None => Throw (label ++ " must be an ISO-8601 timestamp with explicit timezone.")%string
  | Some m => if strict_out_of_range m
              then Throw (label ++ " must be a valid ISO-8601 timestamp.")%string
              else Ret (instant_of_match m)
  end.
Proof.
  unfold parseStrictIsoTimestamp.
  destruct (exec_iso value) as [m|] eqn:Hm; [|done].
  destruct (strict_out_of_range m) eqn:Hr; [done|]. cbn.
  apply strict_in_range_fields in Hr as (? & ? & ? & ? & ? & ?).
  pose proof (daysInMonth_31 (utc_year (digits_value (m_year m))) (digits_value (m_month m))).
  unfold utc_daysInMonth in *.
  rewrite Date_parse_fields by (eauto using exec_iso_wf || lia).
  f_equal. unfold instant_of_match, ms_per_day, make_time. lia.
Qed.

(** The label only shows in the message. *)
Lemma strict_label value label label' t :
  parseStrictIsoTimestamp value label = Ret t -> parseStrictIsoTimestamp value label' = Ret t.
Proof. rewrite !strict_eq. by destruct (exec_iso value) as [m|]; [destruct (strict_out_of_range m)|]. Qed.

Lemma timestamp_relabel value label label' t :
  parsePositionGuardCandidateTimestamp value label = Ret t ->
  parsePositionGuardCandidateTimestamp value label' = Ret t.
Proof. rewrite !parse_eq. by destruct (exec_iso value) as [m|]; [destruct (iso_out_of_range m)|]. Qed.

(** The first two-digit century is 1900 to 1999 for [Date.UTC]: only the leap
    day of year zero is lost. *)
Lemma utc_daysInMonth_eq y mo :
  0 <= y -> y <> 0 \/ mo <> 2 -> utc_daysInMonth y mo = daysInMonth y mo.
Proof.
  intros Hy Hz. unfold utc_daysInMonth, utc_year, daysInMonth.
  destruct (Z.leb_spec 0 y), (Z.leb_spec y 99); simpl; try done || lia.
  destruct (Z.eqb_spec mo 2); [|done].
  replace ((1900 + y) mod 4) with (y mod 4) by (Z.to_euclidean_division_equations; lia).
  rewrite (Z.mod_small y 100) by lia.
  replace ((1900 + y) mod 100) with y by (Z.to_euclidean_division_equations; lia).
  by destruct (Z.eqb_spec y 0); [lia|].
Qed.

Lemma utc_daysInMonth_le y mo : 0 <= y -> utc_daysInMonth y mo <= daysInMonth y mo.
Proof.
  intros Hy. destruct (Z.eq_dec y 0) as [->|]; [|rewrite utc_daysInMonth_eq by lia; lia].
  destruct (Z.eq_dec mo 2) as [->|]; [done|]. rewrite utc_daysInMonth_eq by lia. lia.
Qed.

Lemma utc_daysInMonth_lost y mo d :
  0 <= y -> utc_daysInMonth y mo < d <= daysInMonth y mo -> y = 0 /\ mo = 2 /\ d = 29.
Proof.
  intros Hy Hd. destruct (Z.eq_dec y 0) as [->|]; [|rewrite utc_daysInMonth_eq in Hd; lia].
  destruct (Z.eq_dec mo 2) as [->|]; [|rewrite utc_daysInMonth_eq in Hd; lia].
  change (utc_daysInMonth 0 2) with 28 in Hd. change (daysInMonth 0 2) with 29 in Hd. lia.
Qed.

Lemma iso_in_range_of m :
  1 <= digits_value (m_month m) <= 12 ->
  1 <= digits_value (m_day m) <= daysInMonth (digits_value (m_year m)) (digits_value (m_month m)) ->
  digits_value (m_hour m) <= 23 -> digits_value (m_minute m) <= 59 ->
  digits_value (m_second m) <= 59 -> iso_out_of_range m = negb (isValidTimezone (m_timezone m)).
Proof.
  intros. unfold iso_out_of_range. cbv zeta.
  by rewrite !(proj2 (Z.ltb_ge _ _)) by lia.
Qed.

Lemma strict_in_range_of m :
  1 <= digits_value (m_month m) <= 12 ->
  1 <= digits_value (m_day m) ->
  digits_value (m_hour m) <= 23 -> digits_value (m_minute m) <= 59 ->
  digits_value (m_second m) <= 59 -> zone_in_range (m_timezone m) = true ->
  strict_out_of_range m =
  (utc_daysInMonth (digits_value (m_year m)) (digits_value (m_month m)) <? digits_value (m_day m)).
Proof.
  unfold strict_out_of_range, strict_offset_hour, strict_offset_minute, zone_in_range.
  cbv zeta. intros Hmo Hd Hh Hmi Hs Hz.
  assert (Hoff : (23 <? (if bool_decide (m_timezone m = "Z"%string) then 0
                         else offset_hour (m_timezone m))) = false /\
                 (59 <? (if bool_decide (m_timezone m = "Z"%string) then 0
                         else offset_minute (m_timezone m))) = false).
  { case_bool_decide; [done|]. simpl in Hz. destruct_bools. split; apply Z.ltb_ge; lia. }
  destruct Hoff as [-> ->]. rewrite !orb_false_r.
  do 3 rewrite (proj2 (Z.ltb_ge _ _)) by lia. simpl.
  destruct (Z.ltb_spec (utc_daysInMonth (digits_value (m_year m)) (digits_value (m_month m)))
              (digits_value (m_day m))); simpl; [done|].
  by rewrite !(proj2 (Z.ltb_ge _ _)) by lia.
Qed.

(** The text of the twenty-ninth of February of year zero. *)
Definition leap_day_zero (value : string) : Prop :=
  exists m, exec_iso value = Some m /\
    digits_value (m_year m) = 0 /\ digits_value (m_month m) = 2 /\ digits_value (m_day m) = 29.

(** A zone the candidate parser refuses: an offset of fourteen hours or more. *)
Definition far_zone (value : string) : Prop :=
  exists m, exec_iso value = Some m /\ isValidTimezone (m_timezone m) = false.

(** The two timestamp parsers of the program agree: a text the candidate
    parser reads is read as the same instant by the strict parser of the
    lifecycle validators, but for the leap day of year zero, and a text the
    strict parser reads is read as the same instant by the candidate parser,
    but for zones of fourteen hours or more. *)
Theorem strict_parser_agrees value label label' t :
  (parsePositionGuardCandidateTimestamp value label = Ret t ->
     parseStrictIsoTimestamp value label' = Ret t \/ leap_day_zero value) /\
  (parseStrictIsoTimestamp value label' = Ret t ->
     parsePositionGuardCandidateTimestamp value label = Ret t \/ far_zone value).
Proof.
  rewrite parse_eq, strict_eq.
  destruct (exec_iso value) as [m|] eqn:Hm; [|done].
  pose proof (exec_iso_wf _ _ Hm) as Hwf.
  pose proof (proj1 (digits_value_bounds _ (proj1 (wf_year _ Hwf)))) as Hy. split.
  - destruct (iso_out_of_range m) eqn:Hi; [done|]. intros [= <-].
    apply iso_in_range_fields in Hi as (? & ? & ? & ? & ? & ?).
    rewrite strict_in_range_of by (lia || auto using isValidTimezone_in_range).
    destruct (Z.ltb_spec (utc_daysInMonth (digits_value (m_year m)) (digits_value (m_month m)))
                (digits_value (m_day m))); [right | by left].
    exists m. split; [done|]. apply utc_daysInMonth_lost; lia.
  - destruct (strict_out_of_range m) eqn:Hs; [done|]. intros [= <-].
    apply strict_in_range_fields in Hs as (? & ? & ? & ? & ? & ?).
    pose proof (utc_daysInMonth_le (digits_value (m_year m)) (digits_value (m_month m)) Hy).
    rewrite iso_in_range_of by lia.
    destruct (isValidTimezone (m_timezone m)) eqn:Hz; [by left | right; by exists m].
Qed.

(** ** Printing *)

(** The text of an instant given by its digit groups. *)
Definition utc_text (y mo d h mi s : Z) (f : string) : string :=
  (digits_fixed 4 y ++ "-" ++ digits_fixed 2 mo ++ "-" ++ digits_fixed 2 d ++ "T" ++
   digits_fixed 2 h ++ ":" ++ digits_fixed 2 mi ++ ":" ++ digits_fixed 2 s ++ f ++ "Z")%string.

#[local] Arguments Nat.leb : simpl never.

Lemma exec_iso_utc_text y mo d h mi s f :
  all_digits f = true -> (1 <= String.length f <= 9)%nat ->
  exec_iso (utc_text y mo d h mi s ("." ++ f)) =
  Some {| m_year := digits_fixed 4 y; m_month := digits_fixed 2 mo; m_day := digits_fixed 2 d;
          m_hour := digits_fixed 2 h; m_minute := digits_fixed 2 mi;
          m_second := digits_fixed 2 s; m_fraction := Some f; m_timezone := "Z" |}.
Proof.
  intros Hf Hlen. unfold exec_iso, utc_text.
  repeat (rewrite ?take_digits_fixed; cbn; rewrite ?take_char_app; cbn).
  rewrite <- string_app_assoc, take_char_app, span_digits_app by done.
  rewrite (proj2 (Nat.leb_le 1 _)), (proj2 (Nat.leb_le _ 9)) by lia.
  reflexivity.
Qed.

Lemma daysInMonth_leap y mo :
  daysInMonth y mo =
  if mo =? 2 then (if is_leap y then 29 else 28)
  else if (mo =? 4) || (mo =? 6) || (mo =? 9) || (mo =? 11) then 30 else 31.
Proof. done. Qed.

(** The digit groups printed for a civil date are in range, and [make_day]
    recovers the day number. *)
Lemma civil_from_day_spec d y mo dd :
  0 <= d <= make_day 9999 12 31 -> civil_from_day d = (y, mo, dd) ->
  1970 <= y <= 9999 /\ 1 <= mo <= 12 /\ 1 <= dd <= daysInMonth y mo /\ make_day y mo dd = d.
Proof.
  intros Hd. unfold civil_from_day. cbv zeta.
  pose proof (year_from_day_range d Hd).
  pose proof (year_from_day_spec d) as Hy.
  pose proof (year_length (year_from_day d)) as Hlen.
  generalize dependent (year_from_day d). intros year ? Hy Hlen.
  pose proof (month_search_spec (is_leap year) (d - day_from_year year)) as Hspec.
  cbv zeta in Hspec. revert Hspec.
  generalize (month_search (is_leap year) 11 12 (d - day_from_year year)).
  intros month Hspec [= <- <- <-].
  destruct Hspec as (Hm & Hlo & Hhi); [destruct (is_leap year); lia|].
  rewrite daysInMonth_leap. unfold make_day. split_and!; lia.
Qed.

(** Every second up to the last of year 9999 prints as its digit groups. *)
Lemma iso_seconds_text ws f :
  0 <= ws <= last_four_digit_second ->
  exists y mo d h mi s,
    (iso_seconds ws ++ f ++ "Z" = utc_text y mo d h mi s f)%string /\
    1970 <= y <= 9999 /\ 1 <= mo <= 12 /\ 1 <= d <= daysInMonth y mo /\
    0 <= h <= 23 /\ 0 <= mi <= 59 /\ 0 <= s <= 59 /\
    make_day y mo d * ms_per_day + make_time h mi s 0 = ws * 1000.
Proof.
  intros Hws. unfold iso_seconds.
  destruct (civil_from_day (ws / 86400)) as [[y mo] d] eqn:E.
  pose proof (Z.mod_pos_bound ws 86400 ltac:(lia)).
  assert (Hday : 0 <= ws / 86400 <= make_day 9999 12 31).
  { change last_four_digit_second with (make_day 9999 12 31 * 86400 + 86399) in Hws.
    change (make_day 9999 12 31) with 2932896 in *. Z.to_euclidean_division_equations. lia. }
  destruct (civil_from_day_spec _ _ _ _ Hday E) as (? & ? & ? & Hmk).
  exists y, mo, d, (ws mod 86400 / 3600), (ws mod 86400 / 60 mod 60), (ws mod 86400 mod 60).
  split_and!; try lia; [|Z.to_euclidean_division_equations; lia..|].
  - unfold utc_text. by rewrite <- !string_app_assoc.
  - rewrite Hmk. unfold ms_per_day, make_time. Z.to_euclidean_division_equations. lia.
Qed.

Lemma iso_in_range y mo d h mi s f :
  0 <= y <= 9999 -> 1 <= mo <= 12 -> 1 <= d <= daysInMonth y mo ->
  0 <= h <= 23 -> 0 <= mi <= 59 -> 0 <= s <= 59 ->
  iso_out_of_range
    {| m_year := digits_fixed 4 y; m_month := digits_fixed 2 mo; m_day := digits_fixed 2 d;
       m_hour := digits_fixed 2 h; m_minute := digits_fixed 2 mi;
       m_second := digits_fixed 2 s; m_fraction := f; m_timezone := "Z" |} = false.
Proof.
  intros. pose proof (daysInMonth_31 y mo).
  unfold iso_out_of_range; simpl. rewrite !digits_value_fixed by (simpl; lia).
  repeat (apply orb_false_intro); try (apply Z.ltb_ge; lia). reflexivity.
Qed.

(** A canonical UTC text with a fraction is a match in range of its instant. *)
Lemma utc_text_instant ws f :
  0 <= ws <= last_four_digit_second -> all_digits f = true -> (1 <= String.length f <= 9)%nat ->
  exists m, exec_iso (iso_seconds ws ++ ("." ++ f) ++ "Z") = Some m /\
    iso_out_of_range m = false /\ strict_out_of_range m = false /\
    instant_of_match m = ws * 1000000000 + fraction_nanoseconds (Some f).
Proof.
  intros Hws Hf Hlen.
  destruct (iso_seconds_text ws ("." ++ f) Hws) as (y & mo & d & h & mi & s & -> & ? & ? & ? & ? & ? & ? & Heq).
  eexists. split; [by apply exec_iso_utc_text|].
  pose proof (daysInMonth_31 y mo). split_and!.
  - by rewrite iso_in_range by lia.
  - rewrite strict_in_range_of; simpl; rewrite ?digits_value_fixed by (simpl; lia); try lia; [|done].
    apply Z.ltb_ge. rewrite utc_daysInMonth_eq by lia. lia.
  - unfold instant_of_match; simpl. rewrite !digits_value_fixed by (simpl; lia).
    unfold ms_per_day, make_time in Heq. change (zone_minutes "Z") with 0. lia.
Qed.

(** The parser reads back the instant of a canonical UTC text. *)
Lemma parse_utc_text ws nanos label :
  0 <= ws <= last_four_digit_second -> 0 <= nanos < 1000000000 ->
  parsePositionGuardCandidateTimestamp
    (iso_seconds ws ++ ("." ++ padStart0 9 (nonneg_to_string nanos)) ++ "Z") label
  = Ret (ws * 1000000000 + nanos).
Proof.
  intros Hws Hn. set (f := padStart0 9 (nonneg_to_string nanos)).
  assert (Hf : all_digits f = true) by apply padStart0_digits, nonneg_to_string_digits.
  assert (Hlen : String.length f = 9%nat) by (apply length_padStart0, length_nonneg_to_string; simpl; lia).
  destruct (utc_text_instant ws f) as (m & Hm & Hi & _ & Ht); [done..|lia|].
  rewrite parse_eq, Hm, Hi, Ht. unfold fraction_nanoseconds, padEnd0; simpl. rewrite Hlen. simpl.
  rewrite string_app_nil_r. unfold f.
  by rewrite digits_value_padStart0, digits_value_nonneg_to_string by lia.
Qed.

Lemma strict_parser_agrees_witness :
  parseStrictIsoTimestamp "2026-08-21T12:08:24.756+09:00" "occurredAt" = Ret 1787281704756000000.
Proof.
  destruct (proj1 (strict_parser_agrees "2026-08-21T12:08:24.756+09:00" "at" "occurredAt"
                     1787281704756000000) ltac:(vm_compute; reflexivity))
    as [H|(m & Hm & Hy & _)]; [exact H|].
  exfalso. vm_compute in Hm. injection Hm as <-. vm_compute in Hy. discriminate Hy.
Defined.

(** [toISOString] of a clock between the epoch and the end of year 9999 is
    read back by both parsers. *)
Definition clock_in_range (ms : Z) : Prop := 0 <= ms <= last_four_digit_second * 1000 + 999.

Lemma parse_toISOString ms label :
  clock_in_range ms ->
  parsePositionGuardCandidateTimestamp (toISOString ms) label = Ret (ms * 1000000) /\
  parseStrictIsoTimestamp (toISOString ms) label = Ret (ms * 1000000).
Proof.
  intros Hms. unfold clock_in_range in Hms.
  pose proof (Z.mod_pos_bound ms 1000 ltac:(lia)). pose proof (Z.div_mod ms 1000 ltac:(lia)).
  assert (Hdig : all_digits (digits_fixed 3 (ms mod 1000)) = true) by apply digits_fixed_digits.
  assert (Hlen : String.length (digits_fixed 3 (ms mod 1000)) = 3%nat) by apply length_digits_fixed.
  destruct (utc_text_instant (ms / 1000) (digits_fixed 3 (ms mod 1000)))
    as (m & Hm & Hi & Hs & Ht); [|done|lia|].
  { change last_four_digit_second with 253402300799 in *.
    Z.to_euclidean_division_equations. lia. }
  rewrite parse_eq, strict_eq. unfold toISOString. rewrite Hm, Hi, Hs, Ht.
  assert (fraction_nanoseconds (Some (digits_fixed 3 (ms mod 1000))) = ms mod 1000 * 1000000) as ->.
  { unfold fraction_nanoseconds, padEnd0. cbn -[digits_fixed Z.modulo Nat.sub zeros].
    rewrite Hlen, digits_value_app, digits_value_fixed by (simpl; lia).
    change (10 ^ Z.of_nat (String.length (zeros (9 - 3)))) with 1000000.
    change (digits_value (zeros (9 - 3))) with 0. lia. }
  split; f_equal; lia.
Qed.

Lemma format_parse ns :
  (0 <= ns < (last_four_digit_second + 1) * 1000000000 ->
     exists s, formatCandidatePilotUtcNanoseconds ns = Ret s /\
       forall label, parsePositionGuardCandidateTimestamp s label = Ret ns) /\
  (ns < 0 \/ (last_four_digit_second + 1) * 1000000000 <= ns ->
     throws (formatCandidatePilotUtcNanoseconds ns) = true).
Proof.
  assert (Hlast : last_four_digit_second = 253402300799) by reflexivity.
  rewrite Hlast. pose proof (Z.mod_pos_bound ns 1000000000 ltac:(lia)) as Hmod.
  pose proof (Z.div_mod ns 1000000000 ltac:(lia)) as Hdiv.
  unfold formatCandidatePilotUtcNanoseconds. rewrite Hlast. split.
  - intros Hns. rewrite (proj2 (Z.ltb_ge _ _)) by lia. cbn.
    rewrite (proj2 (Z.ltb_ge _ _)) by lia. cbn.
    rewrite (proj2 (Z.ltb_ge _ _)) by lia. cbn.
    eexists. split; [reflexivity|]. intros label.
    pose proof (parse_utc_text (ns / 1000000000) (ns mod 1000000000) label) as HP.
    rewrite <- string_app_assoc in HP.
    etransitivity; [apply HP; rewrite ?Hlast; lia|]. f_equal. lia.
  - intros Hns. destruct (Z.ltb_spec ns 0); [done|]. cbn.
    destruct (Z.ltb_spec 8640000000000000 (ns / 1000000000 * 1000)); [done|]. cbn.
    by rewrite (proj2 (Z.ltb_lt _ _)) by lia.
Qed.

(** Whatever is printed is read back. *)
Lemma format_parse_back ns s label :
  formatCandidatePilotUtcNanoseconds ns = Ret s ->
  parsePositionGuardCandidateTimestamp s label = Ret ns.
Proof.
  intros H. destruct (format_parse ns) as [Hin Hout].
  destruct (decide (0 <= ns < (last_four_digit_second + 1) * 1000000000)) as [Hr|Hr].
  - destruct (Hin Hr) as (s' & Hs & Hp). rewrite H in Hs. by simplify_eq.
  - rewrite H in Hout. discriminate Hout. lia.
Qed.

(** [formatCandidatePilotUtcNanoseconds] succeeds exactly on the instants
    from the epoch to the end of year 9999, and the parser reads the printed
    text back as the same nanosecond. *)
Theorem format_parse_roundtrip ns :
  (0 <= ns < (last_four_digit_second + 1) * 1000000000 ->
     exists s, formatCandidatePilotUtcNanoseconds ns = Ret s /\
       forall label, parsePositionGuardCandidateTimestamp s label = Ret ns) /\
  (ns < 0 \/ (last_four_digit_second + 1) * 1000000000 <= ns ->
     throws (formatCandidatePilotUtcNanoseconds ns) = true).
Proof. apply format_parse. Qed.

Lemma format_parse_roundtrip_witness :
  formatCandidatePilotUtcNanoseconds 1784607600000000042 = Ret "2026-07-21T04:20:00.000000042Z"%string /\
  forall label, parsePositionGuardCandidateTimestamp "2026-07-21T04:20:00.000000042Z" label
                = Ret 1784607600000000042.
Proof.
  destruct (proj1 (format_parse_roundtrip 1784607600000000042) ltac:(vm_compute; split; congruence))
    as (s & Hs & Hp).
  assert (Hc : formatCandidatePilotUtcNanoseconds 1784607600000000042
               = Ret "2026-07-21T04:20:00.000000042Z"%string) by (vm_compute; reflexivity).
  rewrite Hc in Hs. injection Hs as <-. split; [exact Hc | exact Hp].
Defined.
