(* ===== verification/NumText.v ===== *)
(** * NumText: numbers as text

    [Number(string)], [String(number)] and [JSON.stringify], as the language
    defines them: reading rounds the decimal value to the nearest double and
    printing gives the shortest digits that read back. *)

From stdpp Require Import base option list strings.
From Stdlib Require Import ZArith Lia Ascii.
From Stdlib Require Import Floats.SpecFloat.
From S2P Require Import Prelude Num Text.

Local Open Scope Z_scope.

(** The double nearest to [± s * 10^exponent]. *)
Definition num_of_scaled (negative : bool) (s exponent : Z) : num :=
  if 0 <=? exponent
  then match s * 10 ^ exponent with
       | Zpos p => binary_round prec emax negative p 0
       | _ => S754_zero negative
       end
  else num_of_digits negative s (Z.to_nat (- exponent)).

(** ** [Number(text)] *)

(** An optional sign. *)
Definition take_sign (s : string) : bool * string :=
  match s with
  | String "-" r => (true, r)
  | String "+" r => (false, r)
  | _ => (false, s)
  end.

(** An optional exponent part: [e], a sign and digits, up to the end. *)
Definition parse_exponent (s : string) : option Z :=
  match s with
  | EmptyString => Some 0
  | String c r =>
      if Ascii.eqb c "e" || Ascii.eqb c "E" then
        let '(neg, r) := take_sign r in
        if all_digits r && negb (bool_decide (r = EmptyString))
        then Some (if neg then - digits_value r else digits_value r) else None
      else None
  end.

(** [StrUnsignedDecimalLiteral] *)
Definition parse_unsigned (negative : bool) (s : string) : option num :=
  if bool_decide (s = "Infinity"%string) then Some (S754_infinity negative)
  else
    let '(whole, r) := span_digits s in
    let '(fractional, r) := match take_char "." r with
                            | Some r => span_digits r
                            | None => (EmptyString, r)
                            end in
    if bool_decide (whole = EmptyString) && bool_decide (fractional = EmptyString) then None
    else e ← parse_exponent r;
         Some (num_of_scaled negative (digits_value (whole ++ fractional))
                 (e - Z.of_nat (String.length fractional))).

Definition hex_value (c : ascii) : option Z :=
  let n := Z.of_N (N_of_ascii c) in
  if (48 <=? n) && (n <=? 57) then Some (n - 48)
  else if (97 <=? n) && (n <=? 102) then Some (n - 87)
  else if (65 <=? n) && (n <=? 70) then Some (n - 55)
  else None.

Fixpoint parse_radix (radix acc : Z) (s : string) : option Z :=
  match s with
  | EmptyString => Some acc
  | String c r => d ← hex_value c;
                  if d <? radix then parse_radix radix (radix * acc + d) r else None
  end.

Fixpoint string_rev_onto (s acc : string) : string :=
  match s with EmptyString => acc | String c s' => string_rev_onto s' (String c acc) end.

Definition trim (s : string) : string :=
  string_rev_onto (trim_start (string_rev_onto (trim_start s) EmptyString)) EmptyString.

Definition radix_of (c : ascii) : option Z :=
  if Ascii.eqb c "x" || Ascii.eqb c "X" then Some 16
  else if Ascii.eqb c "o" || Ascii.eqb c "O" then Some 8
  else if Ascii.eqb c "b" || Ascii.eqb c "B" then Some 2
  else None.

(** A prefixed literal [0x..], [0o..] or [0b..]. *)
Definition parse_prefixed (s : string) : option (option Z) :=
  match s with
  | String "0" (String c r) =>
      radix ← radix_of c;
      Some (if bool_decide (r = EmptyString) then None else parse_radix radix 0 r)
  | _ => None
  end.

(** [Number(s)] *)
Definition Number_of_string (text : string) : num :=
  let s := trim text in
  if bool_decide (s = EmptyString) then zero
  else match parse_prefixed s with
       | Some r => from_option num_of_Z NaN r
       | None => let '(neg, r) := take_sign s in default NaN (parse_unsigned neg r)
       end.

(** ** [String(x)] *)

#[export] Instance spec_float_eq_dec : EqDecision spec_float.
Proof. solve_decision. Defined.

(** [x < 10^n] for a positive finite [m * 2^e]. *)
Definition below_pow10 (m e n : Z) : bool :=
  m * 2 ^ (Z.max 0 e) * 10 ^ (Z.max 0 (- n)) <? 10 ^ (Z.max 0 n) * 2 ^ (Z.max 0 (- e)).

(** The least [n] from a start with [x < 10^n]. *)
Fixpoint decimal_exponent (fuel : nat) (m e n : Z) : Z :=
  match fuel with
  | O => n
  | S fuel' => if below_pow10 m e n then n else decimal_exponent fuel' m e (n + 1)
  end.

(** Search the shortest [k]-digit significand [s] with [s * 10^(n-k)] reading
    back as [x], the closest one when two do; returns [(s, k, n)]. *)
Fixpoint shortest_digits (fuel : nat) (x : num) (m e n k : Z) : Z * Z * Z :=
  let up := m * 2 ^ (Z.max 0 e) * 10 ^ (Z.max 0 (k - n)) in
  let down := 2 ^ (Z.max 0 (- e)) * 10 ^ (Z.max 0 (n - k)) in
  let s := up / down in
  match fuel with
  | O => (s, k, n)
  | S fuel' =>
      let reads t := bool_decide (num_of_scaled false t (n - k) = x) in
      let next := if s + 1 =? 10 ^ k then (10 ^ (k - 1), k, n + 1) else (s + 1, k, n) in
      let nearer_low := 2 * (up - s * down) <=? down in
      if reads s && (nearer_low || negb (reads (s + 1))) then (s, k, n)
      else if reads (s + 1) then next
      else shortest_digits fuel' x m e n (k + 1)
  end.

Definition exponent_text (n : Z) : string :=
  ("e" ++ (if (n - 1 <? 0)%Z then "-" else "+") ++ nonneg_to_string (Z.abs (n - 1)))%string.

Definition digits_text (s k n : Z) : string :=
  let ds := digits_fixed (Z.to_nat k) s in
  if (k <=? n) && (n <=? 21) then (ds ++ zeros (Z.to_nat (n - k)))%string
  else if (0 <? n) && (n <=? 21) then
    (String.substring 0 (Z.to_nat n) ds ++ "." ++
     String.substring (Z.to_nat n) (Z.to_nat (k - n)) ds)%string
  else if (-6 <? n) && (n <=? 0) then ("0." ++ zeros (Z.to_nat (- n)) ++ ds)%string
  else if k =? 1 then (ds ++ exponent_text n)%string
  else (String.substring 0 1 ds ++ "." ++ String.substring 1 (Z.to_nat (k - 1)) ds
        ++ exponent_text n)%string.

(** [Number::toString] *)
Definition num_to_string (x : num) : string :=
  match x with
  | S754_nan => "NaN"
  | S754_zero _ => "0"
  | S754_infinity s => if s then "-Infinity" else "Infinity"
  | S754_finite s m e =>
      let log2 := Zdigits2 (Zpos m) - 1 + e in
      let n := decimal_exponent 8 (Zpos m) e (log2 * 30103 / 100000 - 2) in
      let '(sig, k, n) := shortest_digits 18 (S754_finite false m e) (Zpos m) e n 1 in
      ((if s then "-" else "") ++ digits_text sig k n)%string
  end.

(** ** [JSON.stringify] *)

Inductive json : Type :=
| JNull
| JBool (b : bool)
| JNum (n : num)
| JInt (z : Z)
| JStr (s : string)
| JArr (l : list json)
| JObj (fields : list (string * json)).

Definition quote : string := String (ascii_of_N 34) EmptyString.

Definition hex_digit (n : Z) : string :=
  String (ascii_of_N (Z.to_N (if n <? 10 then 48 + n else 87 + n))) EmptyString.

Definition escape_char (c : ascii) : string :=
  let n := Z.of_N (N_of_ascii c) in
  let backslash := String (ascii_of_N 92) EmptyString in
  if n =? 34 then (backslash ++ quote)%string
  else if n =? 92 then (backslash ++ backslash)%string
  else if n =? 8 then (backslash ++ "b")%string
  else if n =? 9 then (backslash ++ "t")%string
  else if n =? 10 then (backslash ++ "n")%string
  else if n =? 12 then (backslash ++ "f")%string
  else if n =? 13 then (backslash ++ "r")%string
  else if n <? 32 then (backslash ++ "u00" ++ hex_digit (n / 16) ++ hex_digit (n mod 16))%string
  else String c EmptyString.

Fixpoint escape (s : string) : string :=
  match s with
  | EmptyString => EmptyString
  | String c s' => (escape_char c ++ escape s')%string
  end.

Definition quoted (s : string) : string := (quote ++ escape s ++ quote)%string.

Fixpoint join (sep : string) (l : list string) : string :=
  match l with
  | [] => EmptyString
  | [x] => x
  | x :: l' => (x ++ sep ++ join sep l')%string
  end.

Fixpoint stringify (j : json) : string :=
  match j with
  | JNull => "null"
  | JBool b => if b then "true" else "false"
  | JNum n => if is_finite n then num_to_string n else "null"
  | JInt z => Z_to_string z
  | JStr s => quoted s
  | JArr l => ("[" ++ join "," (map stringify l) ++ "]")%string
  | JObj fields =>
      ("{" ++ join "," (map (fun '(k, v) => (quoted k ++ ":" ++ stringify v)%string) fields)
       ++ "}")%string
  end.

Example print_0_1 : num_to_string (lit 1 1) = "0.1"%string.
Proof. vm_compute. reflexivity. Qed.
Example print_sum : num_to_string (lit 1 1 + lit 2 1)%num = "0.30000000000000004"%string.
Proof. vm_compute. reflexivity. Qed.
Example print_1e21 : num_to_string (num_of_Z (10 ^ 21)) = "1e+21"%string.
Proof. vm_compute. reflexivity. Qed.
Example print_small : num_to_string (lit 15 8) = "1.5e-7"%string.
Proof. vm_compute. reflexivity. Qed.
Example print_int : num_to_string (num_of_Z (-123456789)) = "-123456789"%string.
Proof. vm_compute. reflexivity. Qed.
Example print_5e324 : num_to_string (S754_finite false 1 (-1074)) = "5e-324"%string.
Proof. vm_compute. reflexivity. Qed.
Example print_max : num_to_string (S754_finite false 9007199254740991 971) = "1.7976931348623157e+308"%string.
Proof. vm_compute. reflexivity. Qed.
Example read_1_50 : Number_of_string " 1.50 " = lit 15 1.
Proof. vm_compute. reflexivity. Qed.
Example read_hex : Number_of_string "0xff" = num_of_Z 255.
Proof. vm_compute. reflexivity. Qed.
Example read_exp : Number_of_string "-1.5e3" = num_of_Z (-1500).
Proof. vm_compute. reflexivity. Qed.
Example read_bad : Number_of_string "1.2.3" = NaN.
Proof. vm_compute. reflexivity. Qed.
