(* ===== verification/JsMap.v ===== *)
(** * JsMap: the Map of the language

    A [Map] iterates in the order its keys were first set; setting a key again
    replaces its value in place.  It is a list of bindings in that order. *)

From stdpp Require Import base option list.
From S2P Require Import Prelude.

Abbreviation jsmap K A := (list (K * A)).

Section JsMap.
Context {K A : Type} `{EqDecision K}.

(** [map.get(key)] *)
Fixpoint map_get (key : K) (m : jsmap K A) : option A :=
  match m with
  | [] => None
  | (k, v) :: m' => if bool_decide (k = key) then Some v else map_get key m'
  end.

(** [map.set(key, value)] *)
Fixpoint map_set (key : K) (value : A) (m : jsmap K A) : jsmap K A :=
  match m with
  | [] => [(key, value)]
  | (k, v) :: m' => if bool_decide (k = key) then (k, value) :: m' else (k, v) :: map_set key value m'
  end.

(** [[...map.values()]] *)
Definition map_values (m : jsmap K A) : list A := snd <$> m.

(** The keys are distinct. *)
Definition map_wf (m : jsmap K A) : Prop := NoDup (fst <$> m).

Lemma map_get_set key value m : map_get key (map_set key value m) = Some value.
Proof.
  induction m as [|[k v] m IH]; simpl; [by rewrite bool_decide_eq_true_2|].
  case_bool_decide; simpl; [by rewrite bool_decide_eq_true_2|by rewrite bool_decide_eq_false_2].
Qed.

Lemma map_get_set_ne key key' value m :
  key' <> key -> map_get key' (map_set key value m) = map_get key' m.
Proof.
  intros Hne. induction m as [|[k v] m IH]; simpl.
  - by rewrite bool_decide_eq_false_2 by congruence.
  - case_bool_decide; simpl; [subst; by rewrite !bool_decide_eq_false_2 by congruence|].
    by case_bool_decide.
Qed.

Lemma map_get_set_cases key key' value m :
  map_get key' (map_set key value m) = if decide (key' = key) then Some value else map_get key' m.
Proof. destruct (decide (key' = key)) as [->|]; [apply map_get_set | by apply map_get_set_ne]. Qed.

Lemma map_get_elem key m v : map_get key m = Some v -> (key, v) ∈ m.
Proof.
  induction m as [|[k v'] m IH]; simpl; [done|].
  case_bool_decide; [intros [= ->]; subst; left | intros Hv; right; auto].
Qed.

Lemma map_get_value key m v : map_get key m = Some v -> v ∈ map_values m.
Proof. intros H%map_get_elem. apply list_elem_of_fmap. by exists (key, v). Qed.

Lemma map_elem_get key m v : map_wf m -> (key, v) ∈ m -> map_get key m = Some v.
Proof.
  unfold map_wf. induction m as [|[k v'] m IH]; simpl; [by intros _ ?%elem_of_nil|].
  intros [Hk Hm]%NoDup_cons [[= -> ->]|Hin]%elem_of_cons; [by rewrite bool_decide_eq_true_2|].
  case_bool_decide as E; [|by apply IH]. subst. exfalso. apply Hk.
  apply list_elem_of_fmap. by exists (key, v).
Qed.

Lemma map_set_keys key value m :
  fst <$> map_set key value m = (fst <$> m) \/
  (map_get key m = None /\ fst <$> map_set key value m = (fst <$> m) ++ [key]).
Proof.
  induction m as [|[k v] m IH]; cbn [map_set map_get]; [by right|].
  case_bool_decide; rewrite !fmap_cons; [by left|].
  destruct IH as [->|[? ->]]; [by left | by right].
Qed.

Lemma map_get_none key m : map_get key m = None <-> key ∉ (fst <$> m).
Proof.
  induction m as [|[k v] m IH]; simpl; [split; [intros _ ?%elem_of_nil; done | done]|].
  rewrite not_elem_of_cons. case_bool_decide; [naive_solver|]. rewrite IH. naive_solver.
Qed.

Lemma map_set_wf key value m : map_wf m -> map_wf (map_set key value m).
Proof.
  unfold map_wf. intros Hm. destruct (map_set_keys key value m) as [-> | [Hn ->]]; [done|].
  apply NoDup_app. split_and!; [done| |apply NoDup_singleton].
  intros k Hk ->%list_elem_of_singleton. by apply map_get_none in Hn.
Qed.

Lemma map_set_elem key value m k v :
  (k, v) ∈ map_set key value m -> (k, v) = (key, value) \/ (k, v) ∈ m.
Proof.
  induction m as [|[k' v'] m IH]; simpl.
  - intros [->|[]%elem_of_nil]%elem_of_cons. by left.
  - case_bool_decide; intros [->|Hin]%elem_of_cons; subst.
    + by left.
    + right. by right.
    + right. left.
    + destruct (IH Hin) as [|]; [by left | right; by right].
Qed.

(** A new key is appended. *)
Lemma map_set_new key value m : map_get key m = None -> map_set key value m = m ++ [(key, value)].
Proof.
  induction m as [|[k v] m IH]; simpl; [done|]. case_bool_decide; [done|]. intros. by rewrite IH.
Qed.

End JsMap.
