(* ===== verification/Json.v ===== *)
(** * Json: [JSON.parse]

    The grammar of JSON over texts.  A text is the sequence of its UTF-8 bytes;
    an escaped code unit is encoded as such, surrogate pairs combined.  A
    repeated key keeps its first place and its last value.  [None] is a syntax
    error.  The reader inverts the printer's strings, so the fields of the
    audit payloads can be read back. *)

From stdpp Require Import base option list strings.
From Stdlib Require Import ZArith Lia Ascii.
From Stdlib Require Import Floats.SpecFloat.
From S2P Require Import Prelude Num Text NumText JsMap.

Local Open Scope Z_scope.

Definition code (c : ascii) : Z := Z.of_N (N_of_ascii c).
Definition byte_char (n : Z) : ascii := ascii_of_N (Z.to_N n).

Definition is_json_space (c : ascii) : bool :=
  (code c =? 32) || (code c =? 9) || (code c =? 10) || (code c =? 13).

Fixpoint skip_space (s : string) : string :=
  match s with
  | String c r => if is_json_space c then skip_space r else s
  | EmptyString => s
  end.

(** ** Strings *)

Inductive unit16 : Set :=
| Raw (c : ascii)
| Escaped (n : Z).

Definition hex4 (a b c d : ascii) : option Z :=
  a ← hex_value a; b ← hex_value b; c ← hex_value c; d ← hex_value d;
  Some (((a * 16 + b) * 16 + c) * 16 + d).

(** The escapes of one character. *)
Definition simple_escape (c : ascii) : option ascii :=
  let n := code c in
  if (n =? 34) || (n =? 92) || (n =? 47) then Some c
  else if n =? 98 then Some (byte_char 8)
  else if n =? 116 then Some (byte_char 9)
  else if n =? 110 then Some (byte_char 10)
  else if n =? 102 then Some (byte_char 12)
  else if n =? 114 then Some (byte_char 13)
  else None.

(** The units up to the closing quote, and what follows it. *)
Fixpoint parse_units (s : string) : option (list unit16 * string) :=
  match s with
  | EmptyString => None
  | String c r =>
      if code c =? 34 then Some ([], r)
      else if code c =? 92 then
        match r with
        | String e r' =>
            if code e =? 117 then
              match r' with
              | String h1 (String h2 (String h3 (String h4 r''))) =>
                  n ← hex4 h1 h2 h3 h4;
                  '(us, rest) ← parse_units r'';
                  Some (Escaped n :: us, rest)
              | _ => None
              end
            else
              x ← simple_escape e;
              '(us, rest) ← parse_units r';
              Some (Raw x :: us, rest)
        | EmptyString => None
        end
      else if code c <? 32 then None
      else '(us, rest) ← parse_units r; Some (Raw c :: us, rest)
  end.

Definition utf8 (n : Z) : string :=
  if n <? 128 then String (byte_char n) EmptyString
  else if n <? 2048 then
    String (byte_char (192 + n / 64)) (String (byte_char (128 + n mod 64)) EmptyString)
  else if n <? 65536 then
    String (byte_char (224 + n / 4096)) (String (byte_char (128 + n / 64 mod 64))
      (String (byte_char (128 + n mod 64)) EmptyString))
  else
    String (byte_char (240 + n / 262144)) (String (byte_char (128 + n / 4096 mod 64))
      (String (byte_char (128 + n / 64 mod 64)) (String (byte_char (128 + n mod 64)) EmptyString))).

Definition is_high (n : Z) : bool := (55296 <=? n) && (n <=? 56319).
Definition is_low (n : Z) : bool := (56320 <=? n) && (n <=? 57343).

Fixpoint encode_units (us : list unit16) : string :=
  match us with
  | [] => EmptyString
  | Raw c :: us' => String c (encode_units us')
  | Escaped n :: us' =>
      match us' with
      | Escaped n' :: us'' =>
          if is_high n && is_low n'
          then (utf8 (65536 + (n - 55296) * 1024 + (n' - 56320)) ++ encode_units us'')%string
          else (utf8 n ++ encode_units us')%string
      | _ => (utf8 n ++ encode_units us')%string
      end
  end.

Definition parse_string (s : string) : option (string * string) :=
  '(us, r) ← parse_units s; Some (encode_units us, r).

(** ** Numbers *)

Definition number_whole (s : string) : option (string * string) :=
  match s with
  | String "0" r => Some ("0"%string, r)
  | _ => let '(w, r) := span_digits s in
         if bool_decide (w = EmptyString) then None else Some (w, r)
  end.

Definition number_fraction (s : string) : option (string * string) :=
  match take_char "." s with
  | None => Some (EmptyString, s)
  | Some r => let '(f, r) := span_digits r in
              if bool_decide (f = EmptyString) then None else Some (String "." f, r)
  end.

Definition number_exponent (s : string) : option (string * string) :=
  match s with
  | String c r =>
      if Ascii.eqb c "e" || Ascii.eqb c "E" then
        let '(sign, r) := match r with
                          | String g r' => if Ascii.eqb g "+" || Ascii.eqb g "-"
                                           then (String g EmptyString, r') else (EmptyString, r)
                          | EmptyString => (EmptyString, r)
                          end in
        let '(d, r) := span_digits r in
        if bool_decide (d = EmptyString) then None else Some ((String "e" sign ++ d)%string, r)
      else Some (EmptyString, s)
  | EmptyString => Some (EmptyString, s)
  end.

Definition parse_number (s : string) : option (num * string) :=
  let '(sign, r) := match take_char "-" s with
                    | Some r => ("-"%string, r)
                    | None => (EmptyString, s)
                    end in
  '(w, r) ← number_whole r;
  '(f, r) ← number_fraction r;
  '(e, r) ← number_exponent r;
  Some (Number_of_string (sign ++ w ++ f ++ e), r).

(** ** Values *)

Fixpoint take_word (w s : string) : option string :=
  match w with
  | EmptyString => Some s
  | String c w' => r ← take_char c s; take_word w' r
  end.

Definition parse_word (w : string) (j : json) (s : string) : option (json * string) :=
  r ← take_word w s; Some (j, r).

Fixpoint parse_value (fuel : nat) (s : string) : option (json * string) :=
  match fuel with
  | O => None
  | S fuel =>
      match skip_space s with
      | EmptyString => None
      | String c r as s' =>
          if code c =? 34 then '(t, r) ← parse_string r; Some (JStr t, r)
          else if code c =? 123 then
            match take_char "}" (skip_space r) with
            | Some r => Some (JObj [], r)
            | None => parse_members fuel [] r
            end
          else if code c =? 91 then
            match take_char "]" (skip_space r) with
            | Some r => Some (JArr [], r)
            | None => parse_elements fuel [] r
            end
          else if code c =? 116 then parse_word "true" (JBool true) s'
          else if code c =? 102 then parse_word "false" (JBool false) s'
          else if code c =? 110 then parse_word "null" JNull s'
          else '(n, r) ← parse_number s'; Some (JNum n, r)
      end
  end
with parse_members (fuel : nat) (fields : jsmap string json) (s : string)
    : option (json * string) :=
  match fuel with
  | O => None
  | S fuel =>
      r ← take_char (byte_char 34) (skip_space s);
      '(key, r) ← parse_string r;
      r ← take_char ":" (skip_space r);
      '(v, r) ← parse_value fuel r;
      let fields := map_set key v fields in
      match take_char "," (skip_space r) with
      | Some r => parse_members fuel fields r
      | None => r ← take_char "}" (skip_space r); Some (JObj fields, r)
      end
  end
with parse_elements (fuel : nat) (items : list json) (s : string) : option (json * string) :=
  match fuel with
  | O => None
  | S fuel =>
      '(v, r) ← parse_value fuel s;
      let items := items ++ [v] in
      match take_char "," (skip_space r) with
      | Some r => parse_elements fuel items r
      | None => r ← take_char "]" (skip_space r); Some (JArr items, r)
      end
  end.

(** Two nested calls consume a character at least. *)
Definition JSON_parse (text : string) : option json :=
  '(j, r) ← parse_value (2 * String.length text + 2) text;
  if bool_decide (skip_space r = EmptyString) then Some j else None.

(** ** Reading values *)

(** The integer a number is, [Number.isInteger]. *)
Definition num_integer (x : num) : option Z :=
  match x with
  | S754_zero _ => Some 0
  | S754_finite negative m e =>
      let sign := if negative then -1 else 1 in
      if 0 <=? e then Some (sign * (Zpos m * 2 ^ e))
      else if Zpos m mod 2 ^ (- e) =? 0 then Some (sign * (Zpos m / 2 ^ (- e))) else None
  | _ => None
  end.

Definition json_integer (j : json) : option Z :=
  match j with JNum n => num_integer n | JInt z => Some z | _ => None end.

Definition json_string (j : json) : option string :=
  match j with JStr s => Some s | _ => None end.

(** The object has exactly the keys; a parsed object has each key once. *)
Definition exact_keys (fields : jsmap string json) (keys : list string) : bool :=
  (length fields =? length keys)%nat
  && forallb (fun k => bool_decide (k ∈ keys)) (fst <$> fields)
  && forallb (fun k => bool_decide (is_Some (map_get k fields))) keys.

Example parse_nested :
  JSON_parse ("{ " ++ quoted "a" ++ ": [1, -2.5e1, true], " ++ quoted "b" ++ ": {}, "
              ++ quoted "a" ++ ": null }")
  = Some (JObj [("a"%string, JNull); ("b"%string, JObj [])]).
Proof. vm_compute. reflexivity. Qed.
Example parse_garbage : JSON_parse "{} x" = None /\ JSON_parse "01" = None /\ JSON_parse "" = None.
Proof. split_and!; vm_compute; reflexivity. Qed.

(** ** The reader inverts the printer on strings *)

(** What [parse_units] makes of an escaped character. *)
Definition unit_of (c : ascii) : unit16 :=
  let n := code c in
  if (n <? 32) && negb ((n =? 8) || (n =? 9) || (n =? 10) || (n =? 12) || (n =? 13))
  then Escaped n else Raw c.

Lemma parse_units_escape_char c s :
  parse_units (escape_char c ++ s) = '(us, r) ← parse_units s; Some (unit_of c :: us, r).
Proof. destruct c as [[] [] [] [] [] [] [] []]; reflexivity. Qed.

Fixpoint units_of (s : string) : list unit16 :=
  match s with
  | EmptyString => []
  | String c s' => unit_of c :: units_of s'
  end.

Lemma parse_units_escape s r : parse_units (escape s ++ quote ++ r) = Some (units_of s, r).
Proof.
  induction s as [|c s IH]; cbn [escape units_of]; [done|].
  by rewrite <- string_app_assoc, parse_units_escape_char, IH.
Qed.

Lemma encode_units_of s : encode_units (units_of s) = s.
Proof.
  induction s as [|c s IH]; [done|]. cbn [units_of].
  assert (Hc : unit_of c = Raw c \/ (unit_of c = Escaped (code c) /\ code c < 32)).
  { unfold unit_of. cbv zeta. destruct (Z.ltb_spec (code c) 32); simpl; [|by left].
    destruct (_ || _); [by left | by right]. }
  destruct Hc as [-> | [-> Hlt]]; cbn [encode_units]; [by rewrite IH|].
  assert (Hu : utf8 (code c) = String c EmptyString).
  { unfold utf8. rewrite (proj2 (Z.ltb_lt _ _)) by lia. unfold byte_char, code.
    by rewrite N2Z.id, ascii_N_embedding. }
  assert (Hh : is_high (code c) = false) by (unfold is_high; apply andb_false_iff; left; apply Z.leb_gt; lia).
  rewrite Hh, Hu, IH. by destruct (units_of s) as [|[]].
Qed.

Lemma parse_string_quoted s r : parse_string (escape s ++ quote ++ r) = Some (s, r).
Proof. unfold parse_string. rewrite parse_units_escape. simpl. by rewrite encode_units_of. Qed.

Definition string_member (f : string * string) : string :=
  (quoted (fst f) ++ ":" ++ quoted (snd f))%string.

Definition string_object (fields : list (string * string)) : json :=
  JObj ((fun f => (fst f, JStr (snd f))) <$> fields).

Lemma stringify_string_object fields :
  stringify (string_object fields) = ("{" ++ join "," (string_member <$> fields) ++ "}")%string.
Proof.
  unfold string_object. cbn [stringify]. do 3 f_equal. rewrite <- list_fmap_compose.
  by apply list_fmap_ext.
Qed.

Lemma take_char_head c r : take_char c (String c r) = Some r.
Proof. unfold take_char. by rewrite Ascii.eqb_refl. Qed.

(** The cases of the readers that an object of strings meets. *)
Lemma parse_value_string fuel r :
  parse_value (S fuel) (String (byte_char 34) r) = '(t, r) ← parse_string r; Some (JStr t, r).
Proof. reflexivity. Qed.

Lemma parse_value_brace fuel r :
  parse_value (S fuel) (String "{" r) =
  match take_char "}" (skip_space r) with
  | Some r => Some (JObj [], r)
  | None => parse_members fuel [] r
  end.
Proof. reflexivity. Qed.

Lemma parse_members_eq fuel fields s :
  parse_members (S fuel) fields s =
  (r ← take_char (byte_char 34) (skip_space s);
   '(key, r) ← parse_string r;
   r ← take_char ":" (skip_space r);
   '(v, r) ← parse_value fuel r;
   let fields := map_set key v fields in
   match take_char "," (skip_space r) with
   | Some r => parse_members fuel fields r
   | None => r ← take_char "}" (skip_space r); Some (JObj fields, r)
   end).
Proof. reflexivity. Qed.

Lemma quoted_app v r : (quoted v ++ r)%string = String (byte_char 34) (escape v ++ quote ++ r).
Proof. unfold quoted. by rewrite <- !string_app_assoc. Qed.

(** One member, and then the comma or the end. *)
Lemma parse_members_step fuel acc k v r :
  parse_members (S (S fuel)) acc (quoted k ++ ":" ++ quoted v ++ r) =
  let fields := map_set k (JStr v) acc in
  match take_char "," (skip_space r) with
  | Some r => parse_members (S fuel) fields r
  | None => r ← take_char "}" (skip_space r); Some (JObj fields, r)
  end.
Proof.
  rewrite parse_members_eq, quoted_app.
  change (skip_space (String (byte_char 34) ?r)) with (String (byte_char 34) r).
  rewrite take_char_head. cbn [mbind option_bind]. rewrite parse_string_quoted.
  cbn [mbind option_bind].
  change (skip_space (":" ++ ?r)) with (String ":" r).
  rewrite take_char_head. cbn [mbind option_bind].
  rewrite quoted_app, parse_value_string, parse_string_quoted. reflexivity.
Qed.

Lemma join_cons sep x y l : join sep (x :: y :: l) = (x ++ sep ++ join sep (y :: l))%string.
Proof. reflexivity. Qed.

Definition string_field (f : string * string) : string * json := (fst f, JStr (snd f)).

Lemma parse_members_strings fields f0 acc fuel r :
  map_wf (acc ++ (string_field <$> f0 :: fields)) ->
  parse_members (S (S (length fields + fuel))) acc
    (join "," (string_member <$> f0 :: fields) ++ "}" ++ r)
  = Some (JObj (acc ++ (string_field <$> f0 :: fields)), r).
Proof.
  revert f0 acc. induction fields as [|f1 fields IH]; intros [k v] acc Hwf.
  all: assert (Hnew : map_get k acc = None) by
    (apply map_get_none; unfold map_wf in Hwf; rewrite fmap_app in Hwf;
     apply NoDup_app in Hwf as (_ & Hdis & _); intros Hk; apply (Hdis k Hk); left).
  - cbn [fmap list_fmap join length Nat.add]. unfold string_member. cbn [fst snd].
    rewrite <- !string_app_assoc, parse_members_step. cbv zeta.
    by rewrite map_set_new by done.
  - rewrite 2!(fmap_cons string_member), join_cons, <- (fmap_cons string_member).
    change (string_member (k, v)) with (quoted k ++ ":" ++ quoted v)%string.
    rewrite <- !string_app_assoc. cbn [length Nat.add]. rewrite parse_members_step. cbv zeta.
    rewrite map_set_new by done.
    change (skip_space ("," ++ ?r)) with (String "," r). rewrite take_char_head.
    rewrite IH; rewrite <- app_assoc; [done|]. exact Hwf.
Qed.

(** [JSON.parse] of the printed text of an object of strings. *)
Lemma JSON_parse_string_object fields :
  NoDup (fst <$> fields) -> JSON_parse (stringify (string_object fields)) = Some (string_object fields).
Proof.
  intros Hnd. rewrite stringify_string_object.
  destruct fields as [|f0 fields]; [reflexivity|].
  assert (Hlen : (length fields <= String.length (join "," (string_member <$> f0 :: fields)))%nat).
  { clear Hnd. revert f0. induction fields as [|f1 fields IH]; intros f0; [simpl; lia|].
    rewrite 2!fmap_cons, join_cons, <- fmap_cons, !length_string_app. specialize (IH f1).
    cbn [length]. simpl String.length at 2. lia. }
  unfold JSON_parse. set (text := join "," (string_member <$> f0 :: fields)) in *.
  assert (Hfuel : exists fuel, (2 * String.length ("{" ++ text ++ "}") + 2)%nat
                               = S (S (S (length fields + fuel)))).
  { rewrite !length_string_app. simpl.
    eexists (2 * String.length text + 3 - length fields)%nat. lia. }
  destruct Hfuel as [fuel ->].
  assert (Htext : exists t, text = String (byte_char 34) t).
  { unfold text. rewrite fmap_cons. unfold string_member at 1. destruct fields; cbn [join];
      rewrite ?fmap_cons; cbn [fmap list_fmap join]; rewrite <- ?string_app_assoc, quoted_app; by eexists. }
  change ("{" ++ text ++ "}")%string with (String "{" (text ++ "}")).
  pose proof (parse_members_strings fields f0 [] fuel EmptyString) as HP.
  change ("}" ++ "")%string with "}"%string in HP. fold text in HP.
  destruct Htext as [t ->]. cbn [String.append] in *.
  rewrite parse_value_brace.
  change (take_char "}" (skip_space (String (byte_char 34) ?r))) with (@None string).
  cbv iota. rewrite HP; [reflexivity|].
  unfold map_wf. cbn [app]. by rewrite <- list_fmap_compose.
Qed.
