(* ===== verification/JsonText.v ===== *)
(** * JsonText: reading back what was printed

    A whole number below 2^53 is a number of its own, its digits read as that
    number, and the number is read as that integer again.  So [JSON.parse]
    inverts [JSON.stringify]: a value whose numbers are counts and whose objects
    have distinct keys is read back as it was printed, each count as the number
    it is.  The program stores its snapshots and reports as such texts,
    quantities as strings. *)

From Stdlib Require Import ZArith Lia Ascii.
From Stdlib Require Import Floats.SpecFloat.
From stdpp Require Import base option list strings.
From S2P Require Import Prelude Num Text NumText JsMap Json.

Local Open Scope Z_scope.

(** ** Rounding integers *)

(** The binary digits of a positive number. *)
Lemma digits2_bounds m :
  2 ^ (Zpos (digits2_pos m) - 1) <= Zpos m < 2 ^ Zpos (digits2_pos m).
Proof.
  assert (Hs : forall p, 2 ^ Zpos (Pos.succ p) = 2 * 2 ^ Zpos p)
    by (intros p; rewrite Pos2Z.inj_succ; apply Z.pow_succ_r; lia).
  assert (Hs' : forall p, 2 ^ (Zpos (Pos.succ p) - 1) = 2 * 2 ^ (Zpos p - 1)).
  { intros p. rewrite Pos2Z.inj_succ. replace (Z.succ (Zpos p) - 1) with (Z.succ (Zpos p - 1)) by lia.
    apply Z.pow_succ_r. lia. }
  induction m as [m IH|m IH|]; cbn [digits2_pos]; rewrite ?Hs, ?Hs'; lia || (cbn; lia).
Qed.

Lemma digits2_unique m d : 0 <= d -> 2 ^ (d - 1) <= Zpos m < 2 ^ d -> Zpos (digits2_pos m) = d.
Proof.
  intros Hd [Hl Hu]. pose proof (digits2_bounds m) as [Hl' Hu'].
  destruct (Z.lt_trichotomy (Zpos (digits2_pos m)) d) as [H|[H|H]]; [|done|]; exfalso.
  - assert (2 ^ Zpos (digits2_pos m) <= 2 ^ (d - 1)) by (apply Z.pow_le_mono_r; lia). lia.
  - assert (2 ^ d <= 2 ^ (Zpos (digits2_pos m) - 1)) by (apply Z.pow_le_mono_r; lia). lia.
Qed.

(** Rounding a significand of exactly [prec] digits changes nothing. *)
Lemma shr_fexp_exact m e :
  Zpos (digits2_pos m) = prec -> emin prec emax <= e ->
  shr_fexp prec emax (Zpos m) e loc_Exact = (shr_record_of_loc (Zpos m) loc_Exact, e).
Proof.
  intros Hd He. unfold shr_fexp, fexp. cbn [Zdigits2]. rewrite Hd, Z.max_l by lia.
  replace (prec + e - prec - e) with 0 by lia. done.
Qed.

Lemma binary_round_aux_exact s m e :
  Zpos (digits2_pos m) = prec -> emin prec emax <= e <= emax - prec ->
  binary_round_aux prec emax s (Zpos m) e loc_Exact = S754_finite s m e.
Proof.
  intros Hd He. unfold binary_round_aux. rewrite shr_fexp_exact by lia.
  cbn [shr_record_of_loc shr_m loc_of_shr_record shr_r shr_s round_nearest_even].
  rewrite shr_fexp_exact by lia. cbn [shr_record_of_loc shr_m fst snd].
  rewrite (proj2 (Z.leb_le _ _)) by lia. done.
Qed.

(** An integer of at most [prec] digits is kept. *)
Lemma num_of_Z_exact m :
  Zpos m < 2 ^ prec ->
  exists k, 0 <= k < prec /\
    num_of_Z (Zpos m) = S754_finite false (Z.to_pos (Zpos m * 2 ^ k)) (- k).
Proof.
  intros Hm. set (d := Zpos (digits2_pos m)). pose proof (digits2_bounds m) as [Hl Hu]. fold d in Hl, Hu.
  assert (Hd : 1 <= d <= prec).
  { split; [unfold d; lia|]. destruct (Z.le_gt_cases d prec) as [H|H]; [done|]. exfalso.
    assert (2 ^ prec <= 2 ^ (d - 1)) by (apply Z.pow_le_mono_r; lia). lia. }
  exists (prec - d). split; [lia|].
  unfold num_of_Z, binary_normalize, binary_round. fold d. rewrite Z.add_0_r.
  assert (Hf : fexp prec emax d = d - prec) by (unfold fexp, emin, prec, emax in *; lia).
  rewrite Hf. unfold shl_align. rewrite Z.sub_0_r.
  replace (- (prec - d)) with (d - prec) by lia.
  destruct (d - prec) as [|p|p] eqn:E; [|lia|].
  - replace (prec - d) with 0 by lia. change (2 ^ 0) with 1. rewrite Z.mul_1_r. cbn [Z.to_pos].
    apply binary_round_aux_exact; [fold d; lia|unfold emin, prec, emax; lia].
  - assert (Hp : prec - d = Zpos p) by lia. rewrite Hp.
    assert (Hsh : Zpos (shift_pos p m) = Zpos m * 2 ^ Zpos p)
      by (rewrite shift_pos_correct; change (Z.pow_pos 2 p) with (2 ^ Zpos p); lia).
    assert (Hdig : Zpos (digits2_pos (shift_pos p m)) = prec).
    { apply digits2_unique; [unfold prec; lia|]. rewrite Hsh. rewrite Z.pow_sub_r in Hl by lia.
      replace prec with (d + Zpos p) by lia. split.
      - replace (d + Zpos p - 1) with ((d - 1) + Zpos p) by lia. rewrite Z.pow_add_r by lia.
        apply Z.mul_le_mono_nonneg_r; [apply Z.pow_nonneg; lia|]. rewrite Z.pow_sub_r by lia. lia.
      - rewrite Z.pow_add_r by lia. apply Z.mul_lt_mono_pos_r; [apply Z.pow_pos_nonneg; lia|lia]. }
    rewrite binary_round_aux_exact by (done || (unfold emin, prec, emax in *; lia)).
    f_equal. rewrite <- Hsh. reflexivity.
Qed.

Lemma num_of_Z_integer z : 0 <= z -> z < 2 ^ prec -> num_integer (num_of_Z z) = Some z.
Proof.
  intros Hz Hp. destruct z as [|m|m]; [done| |lia].
  destruct (num_of_Z_exact m Hp) as (k & Hk & ->). unfold num_integer.
  assert (Hpow : 0 < 2 ^ k) by (apply Z.pow_pos_nonneg; lia).
  rewrite Z2Pos.id by (apply Z.mul_pos_pos; lia). rewrite Z.opp_involutive.
  destruct (0 <=? - k) eqn:E.
  - apply Z.leb_le in E. replace k with 0 by lia. f_equal. cbn [Z.opp]. change (2 ^ 0) with 1. lia.
  - rewrite Z.mod_mul, Z.div_mul by lia. done.
Qed.

(** ** Reading digits *)

Lemma string_rev_onto_app s t acc :
  string_rev_onto (s ++ t) acc = string_rev_onto t (string_rev_onto s acc).
Proof. revert acc. induction s as [|c s IH]; intros acc; cbn; [done|apply IH]. Qed.

Lemma string_rev_onto_acc s acc :
  string_rev_onto s acc = (string_rev_onto s EmptyString ++ acc)%string.
Proof.
  revert acc. induction s as [|c s IH]; intros acc; cbn; [done|].
  rewrite IH, (IH (String c EmptyString)). by rewrite <- string_app_assoc.
Qed.

Lemma string_rev_involutive s : string_rev_onto (string_rev_onto s EmptyString) EmptyString = s.
Proof.
  induction s as [|c s IH]; [done|]. cbn. rewrite (string_rev_onto_acc s (String c EmptyString)), string_rev_onto_app. cbn. by rewrite IH.
Qed.

Lemma string_forallb_rev p s acc :
  string_forallb p (string_rev_onto s acc) = string_forallb p s && string_forallb p acc.
Proof.
  revert acc. induction s as [|c s IH]; intros acc; cbn; [done|]. rewrite IH. cbn.
  by destruct (p c), (string_forallb p s).
Qed.

Lemma trim_start_digits s : all_digits s = true -> trim_start s = s.
Proof.
  destruct s as [|c s]; [done|]. intros H. cbn in H. apply andb_true_iff in H as [H _]. cbn [trim_start].
  destruct c as [[] [] [] [] [] [] [] []]; done.
Qed.

Lemma trim_digits s : all_digits s = true -> trim s = s.
Proof.
  intros H. unfold trim. rewrite (trim_start_digits s), trim_start_digits by
    (done || (unfold all_digits in *; by rewrite string_forallb_rev, H)).
  apply string_rev_involutive.
Qed.

Lemma span_all_digits s : all_digits s = true -> span_digits s = (s, EmptyString).
Proof. intros H. rewrite <- (string_app_nil_r s) at 1. by apply span_digits_app. Qed.

Lemma num_of_scaled_Z z : 0 <= z -> num_of_scaled false z 0 = num_of_Z z.
Proof.
  intros Hz. unfold num_of_scaled. cbn [Z.leb Z.compare]. rewrite Z.mul_1_r. by destruct z.
Qed.

Lemma Number_of_digits z : 0 <= z -> Number_of_string (nonneg_to_string z) = num_of_Z z.
Proof.
  intros Hz. pose proof (nonneg_to_string_digits z) as Hd. pose proof (canonical_whole_to_string z Hz) as Hc.
  unfold Number_of_string. rewrite trim_digits by done.
  assert (Hne : nonneg_to_string z ≠ EmptyString) by (intros E; rewrite E in Hc; discriminate).
  rewrite bool_decide_eq_false_2 by done.
  pose proof (digits_value_nonneg_to_string z Hz) as Hv.
  destruct (nonneg_to_string z) as [|c s] eqn:E; [done|].
  assert (Hp : parse_prefixed (String c s) = None).
  { unfold canonical_whole in Hc. cbn in Hc. destruct s as [|c' s]; [by destruct c as [[] [] [] [] [] [] [] []]|].
    destruct c as [[] [] [] [] [] [] [] []]; try done. exfalso.
    rewrite bool_decide_eq_false_2 in Hc by done. by rewrite andb_false_r in Hc. }
  rewrite Hp.
  assert (Hs : take_sign (String c s) = (false, String c s))
    by (cbn in Hd; destruct c as [[] [] [] [] [] [] [] []]; done).
  rewrite Hs. cbv beta iota. unfold parse_unsigned.
  rewrite bool_decide_eq_false_2 by (intros [= -> ->]; discriminate).
  rewrite span_all_digits by done. cbv beta iota. change (take_char "." EmptyString) with (@None string).
  cbv beta iota.
  rewrite bool_decide_eq_false_2 by done. cbn [andb parse_exponent mbind option_bind default].
  rewrite string_app_nil_r, Hv. by apply num_of_scaled_Z.
Qed.

(** ** Plain values *)

Local Open Scope nat_scope.

(** A non-negative safe integer. *)
Definition is_count (z : Z) : bool := ((0 <=? z) && (z <=? MAX_SAFE_INTEGER))%Z.

(** A value whose numbers, if any, are counts. *)
Fixpoint plain (j : json) : bool :=
  match j with
  | JNull | JBool _ | JStr _ => true
  | JNum _ => false
  | JInt z => is_count z
  | JArr l => forallb plain l
  | JObj fields =>
      bool_decide (NoDup (fst <$> fields)) && forallb (fun f => plain (snd f)) fields
  end.

(** The value as it is read: its counts are numbers. *)
Fixpoint reread (j : json) : json :=
  match j with
  | JInt z => JNum (num_of_Z z)
  | JArr l => JArr (map reread l)
  | JObj fields => JObj (map (fun f => (fst f, reread (snd f))) fields)
  | _ => j
  end.

(** A value without numbers. *)
Fixpoint textual (j : json) : bool :=
  match j with
  | JNull | JBool _ | JStr _ => true
  | JNum _ | JInt _ => false
  | JArr l => forallb textual l
  | JObj fields =>
      bool_decide (NoDup (fst <$> fields)) && forallb (fun f => textual (snd f)) fields
  end.

Abbreviation reread_member := (fun f : string * json => (fst f, reread (snd f))).

(** The calls its reader makes. *)
Fixpoint reads (j : json) : nat :=
  match j with
  | JArr l => S (sum_list (map (fun x => S (reads x)) l))
  | JObj fields => S (sum_list (map (fun f => S (reads (snd f))) fields))
  | _ => 1
  end.

(** ** The printed text *)

Definition member_text (f : string * json) : string :=
  (quoted (fst f) ++ ":" ++ stringify (snd f))%string.

Lemma stringify_object fields :
  stringify (JObj fields) = ("{" ++ join "," (member_text <$> fields) ++ "}")%string.
Proof.
  cbn [stringify]. do 3 f_equal. apply list_fmap_ext. by intros i [k v] _.
Qed.

(** It begins with no space and no bracket that closes. *)
Definition opens (c : ascii) : Prop :=
  is_json_space c = false /\ c ≠ "]"%char /\ c ≠ "}"%char.

Lemma digits_open z : (0 <= z)%Z ->
  exists c s, nonneg_to_string z = String c s /\ is_digit c = true.
Proof.
  intros Hz. pose proof (nonneg_to_string_digits z) as Hd. pose proof (canonical_whole_to_string z Hz) as Hc.
  destruct (nonneg_to_string z) as [|c s]; [discriminate|]. exists c, s. split; [done|].
  cbn in Hd. by apply andb_true_iff in Hd as [? _].
Qed.

Lemma count_text z : is_count z = true -> Z_to_string z = nonneg_to_string z.
Proof. unfold is_count, Z_to_string. intros H. destruct_bools. by rewrite (proj2 (Z.ltb_ge _ _)). Qed.

Lemma stringify_opens j :
  plain j = true -> exists c s, stringify j = String c s /\ opens c.
Proof.
  assert (Hc : forall c, In c ["n"; "t"; "f"; byte_char 34; "["; "{"]%char -> opens c).
  { intros c Hin. cbn in Hin. unfold opens. by destruct Hin as [<-|[<-|[<-|[<-|[<-|[<-|[]]]]]]]. }
  destruct j as [|b|n|z|s|l|fields]; intros H; try discriminate; [..|rewrite stringify_object].
  - eexists _, _. split; [reflexivity|]. apply Hc. cbn. auto.
  - destruct b; eexists _, _; (split; [reflexivity|]); apply Hc; cbn; auto.
  - cbn [stringify]. rewrite count_text by done. cbn in H. unfold is_count in H. destruct_bools.
    destruct (digits_open z) as (c & s & -> & Hd); [done|]. exists c, s. split; [done|].
    by destruct c as [[] [] [] [] [] [] [] []].
  - eexists _, _. split; [reflexivity|]. apply Hc. cbn. auto 10.
  - eexists _, _. split; [reflexivity|]. apply Hc. cbn. auto 10.
  - eexists _, _. split; [reflexivity|]. apply Hc. cbn. auto 10.
Qed.

Lemma skip_opens c s : opens c -> skip_space (String c s) = String c s.
Proof. intros [H _]. cbn. by rewrite H. Qed.

Lemma take_other c c' s : c ≠ c' -> take_char c' (String c s) = None.
Proof. intros H. unfold take_char. rewrite (proj2 (Ascii.eqb_neq _ _)); [done|congruence]. Qed.

Lemma join_length_sep l : l ≠ [] ->
  sum_list (map (fun x => S (String.length x)) l) = S (String.length (join "," l)).
Proof.
  induction l as [|x [|y l] IH]; [done|intros _; cbn; lia|]. intros _.
  rewrite join_cons, !length_string_app. specialize (IH ltac:(done)).
  change (sum_list (map (fun x => S (String.length x)) (x :: y :: l)))
    with (S (String.length x) + sum_list (map (fun x => S (String.length x)) (y :: l))).
  rewrite IH. simpl (String.length ","). lia.
Qed.

(** ** Reading it *)

(** What follows a value: no digit, no dot, no exponent. *)
Definition ends (r : string) : Prop :=
  match r with
  | EmptyString => True
  | String c _ => In c [","; "]"; "}"]%char
  end.

(** A text that begins with a comma or a bracket. *)
Ltac ends_text := cbn; repeat first [left; reflexivity | right].

(** A text that any reader of values with enough fuel reads as the value. *)
Definition read_back (j : json) : Prop := forall fuel r,
  reads j <= fuel -> ends r -> parse_value fuel (stringify j ++ r)%string = Some (reread j, r).

Lemma parse_value_bracket fuel r :
  parse_value (S fuel) (String "[" r) =
  match take_char "]" (skip_space r) with
  | Some r => Some (JArr [], r)
  | None => parse_elements fuel [] r
  end.
Proof. reflexivity. Qed.

Lemma parse_elements_eq fuel items s :
  parse_elements (S fuel) items s =
  ('(v, r) ← parse_value fuel s;
   let items := (items ++ [v])%list in
   match take_char "," (skip_space r) with
   | Some r => parse_elements fuel items r
   | None => r ← take_char "]" (skip_space r); Some (JArr items, r)
   end).
Proof. reflexivity. Qed.

Lemma elements_read_back l : forall x items fuel r,
  Forall read_back (x :: l) ->
  sum_list (map (fun y => S (reads y)) (x :: l)) <= fuel ->
  parse_elements fuel items (join "," (stringify <$> x :: l) ++ "]" ++ r)
  = Some (JArr (items ++ map reread (x :: l)), r).
Proof.
  induction l as [|y l IH]; intros x items fuel r Hl Hf; destruct fuel as [|fuel]; simpl in Hf;
    try lia; apply Forall_cons in Hl as [Hx Hl].
  - rewrite parse_elements_eq. cbn [fmap list_fmap join]. rewrite Hx by (lia || ends_text).
    reflexivity.
  - rewrite parse_elements_eq, 2!fmap_cons, join_cons, <- fmap_cons, <- !string_app_assoc.
    rewrite Hx by (lia || ends_text). cbn [mbind option_bind]. cbv zeta.
    change (skip_space ("," ++ ?t)) with (String "," t). rewrite take_char_head.
    rewrite IH; [by rewrite <- app_assoc|done|]. simpl. lia.
Qed.

(** One member of an object, and then the comma or the end. *)
Lemma member_read_back fuel acc k v r :
  read_back v -> reads v <= fuel -> ends r ->
  parse_members (S fuel) acc (member_text (k, v) ++ r) =
  let fields := map_set k (reread v) acc in
  match take_char "," (skip_space r) with
  | Some r => parse_members fuel fields r
  | None => r ← take_char "}" (skip_space r); Some (JObj fields, r)
  end.
Proof.
  intros Hv Hf Hr. unfold member_text. cbn [fst snd].
  rewrite <- !string_app_assoc, parse_members_eq, quoted_app.
  change (skip_space (String (byte_char 34) ?r)) with (String (byte_char 34) r).
  rewrite take_char_head. cbn [mbind option_bind]. rewrite parse_string_quoted.
  cbn [mbind option_bind].
  change (skip_space (":" ++ ?r)) with (String ":" r).
  rewrite take_char_head. cbn [mbind option_bind]. by rewrite Hv.
Qed.

Lemma members_read_back fields : forall f acc fuel r,
  Forall (fun f => read_back (snd f)) (f :: fields) -> map_wf (acc ++ f :: fields) ->
  sum_list (map (fun f => S (reads (snd f))) (f :: fields)) <= fuel ->
  parse_members fuel (map reread_member acc) (join "," (member_text <$> f :: fields) ++ "}" ++ r)
  = Some (JObj (map reread_member (acc ++ f :: fields)), r).
Proof.
  induction fields as [|f1 fields IH]; intros [k v] acc fuel r Hl Hwf Hf;
    destruct fuel as [|fuel]; simpl in Hf; try lia;
    apply Forall_cons in Hl as [Hx Hl]; cbn [snd] in Hx.
  all: assert (Hnew : map_get k (map reread_member acc) = None) by
    (apply map_get_none; unfold map_wf in Hwf; rewrite fmap_app in Hwf;
     apply NoDup_app in Hwf as (_ & Hdis & _); intros Hk; apply (Hdis k); [|left];
     change (map reread_member acc) with (reread_member <$> acc) in Hk;
     by rewrite <- list_fmap_compose in Hk).
  all: assert (Hset : map_set k (reread v) (map reread_member acc) = map reread_member (acc ++ [(k, v)]))
    by (rewrite map_set_new by done; by rewrite map_app).
  - cbn [fmap list_fmap join]. rewrite member_read_back by (done || lia || ends_text). cbv zeta.
    by rewrite Hset.
  - rewrite 2!fmap_cons, join_cons, <- fmap_cons, <- !string_app_assoc.
    rewrite member_read_back by (done || lia || ends_text). cbv zeta. rewrite Hset.
    change (skip_space ("," ++ ?t)) with (String "," t). rewrite take_char_head.
    rewrite IH; rewrite <- ?app_assoc; [done|done|exact Hwf|simpl; lia].
Qed.

(** A count is read as the number it is. *)
Lemma count_read_back z : is_count z = true -> read_back (JInt z).
Proof.
  intros Hz fuel r Hf Hr. destruct fuel as [|fuel]; [cbn in Hf; lia|].
  cbn [stringify reread]. rewrite count_text by done. unfold is_count in Hz. destruct_bools.
  pose proof (nonneg_to_string_digits z) as Hd.
  pose proof (canonical_whole_to_string z ltac:(done)) as Hc.
  rewrite <- (Number_of_digits z) by done.
  assert (Hnum : parse_number (nonneg_to_string z ++ r)
                 = Some (Number_of_string (nonneg_to_string z), r)).
  { assert (Hw : number_whole (nonneg_to_string z ++ r) = Some (nonneg_to_string z, r)).
    { assert (Hnd : starts_with_digit r = false)
        by (destruct r as [|c r]; [done|]; cbn in Hr; by destruct Hr as [<-|[<-|[<-|[]]]]).
      unfold canonical_whole in Hc. apply andb_true_iff in Hc as [_ Hc].
      apply orb_true_iff in Hc as [Hc%bool_decide_eq_true|Hc]; [by rewrite Hc|].
      destruct (nonneg_to_string z) as [|c s] eqn:E; [discriminate|].
      pose proof (span_digits_app _ r Hd Hnd) as Hspan. unfold number_whole. rewrite Hspan.
      change ((String c s ++ r)%string) with (String c (s ++ r)). cbv beta iota.
      destruct c as [[] [] [] [] [] [] [] []]; cbn in Hc; try discriminate Hc;
        by rewrite bool_decide_eq_false_2 by done. }
    unfold parse_number.
    assert (Hm : take_char "-" (nonneg_to_string z ++ r) = None).
    { destruct (digits_open z) as (c & s & -> & Hdig); [done|]. apply take_other.
      intros ->. discriminate Hdig. }
    rewrite Hm. cbv beta iota. rewrite Hw. cbn [mbind option_bind].
    assert (Hfr : number_fraction r = Some (EmptyString, r))
      by (destruct r as [|c r]; [done|]; cbn in Hr; by destruct Hr as [<-|[<-|[<-|[]]]]).
    assert (Hex : number_exponent r = Some (EmptyString, r))
      by (destruct r as [|c r]; [done|]; cbn in Hr; by destruct Hr as [<-|[<-|[<-|[]]]]).
    rewrite Hfr. cbn [mbind option_bind]. rewrite Hex. cbn [mbind option_bind].
    do 3 f_equal. change (EmptyString ++ nonneg_to_string z ++ EmptyString ++ EmptyString)%string
      with (nonneg_to_string z ++ EmptyString)%string. apply string_app_nil_r. }
  destruct (digits_open z) as (c & s & Hs & Hdig); [done|]. rewrite Hs in Hnum |- *.
  change ((String c s ++ r)%string) with (String c (s ++ r)) in Hnum |- *.
  cbn [parse_value].
  assert (Hsp : skip_space (String c (s ++ r)) = String c (s ++ r))
    by (apply skip_opens; destruct c as [[] [] [] [] [] [] [] []]; done).
  rewrite Hsp. 
  destruct c as [[] [] [] [] [] [] [] []]; try discriminate Hdig; cbn [code N_of_ascii];
    cbv iota; rewrite Hnum; reflexivity.
Qed.

Lemma plain_leaf j : plain j = true -> reads j = 1 -> read_back j.
Proof.
  intros Hj Hr. destruct j as [|b|n|z|s|l|fields]; try discriminate; [| |by apply count_read_back|..];
    intros fuel r Hf _; (destruct fuel as [|fuel]; [cbn in Hf; lia|]).
  - reflexivity.
  - by destruct b.
  - cbn [stringify]. by rewrite quoted_app, parse_value_string, parse_string_quoted.
  - destruct l; [reflexivity|cbn in Hr; lia].
  - destruct fields; [reflexivity|cbn in Hr; lia].
Qed.

Lemma opens_skip c s c' :
  opens c -> c ≠ c' -> take_char c' (skip_space (String c s)) = None.
Proof. intros Ho Hc. rewrite skip_opens by done. by apply take_other. Qed.

Lemma plain_array l :
  forallb plain l = true -> Forall read_back l -> read_back (JArr l).
Proof.
  intros Ht Hl fuel r Hf Hr. destruct l as [|x l]; [by apply (plain_leaf (JArr []))|].
  destruct fuel as [|fuel]; [cbn in Hf; lia|]. cbn [reads] in Hf.
  cbn in Ht. apply andb_true_iff in Ht as [Hx _]. destruct (stringify_opens x Hx) as (c & s & Hs & Ho).
  cbn [stringify]. rewrite <- !string_app_assoc.
  change ("[" ++ ?t)%string with (String "[" t). rewrite parse_value_bracket.
  change (map stringify (x :: l)) with (stringify <$> x :: l).
  assert (Hj : exists t, join "," (stringify <$> x :: l) = String c t).
  { destruct l; cbn [fmap list_fmap join]; rewrite Hs; by eexists. }
  pose proof (elements_read_back l x [] fuel r Hl ltac:(lia)) as HP.
  destruct Hj as [t Ht]. rewrite Ht in HP |- *.
  change (String ?a t ++ ?x)%string with (String a (t ++ x)%string) in HP |- *.
  rewrite opens_skip by (done || apply Ho). exact HP.
Qed.

Lemma plain_object fields :
  NoDup (fst <$> fields) -> Forall (fun f => read_back (snd f)) fields -> read_back (JObj fields).
Proof.
  intros Hnd Hl fuel r Hf Hr. destruct fields as [|[k v] fields]; [by apply (plain_leaf (JObj []))|].
  destruct fuel as [|fuel]; [cbn in Hf; lia|]. cbn [reads] in Hf.
  rewrite stringify_object, <- !string_app_assoc.
  change ("{" ++ ?t)%string with (String "{" t). rewrite parse_value_brace.
  assert (Hj : exists t, join "," (member_text <$> (k, v) :: fields) = String (byte_char 34) t).
  { destruct fields; cbn [fmap list_fmap join]; unfold member_text at 1; cbn [fst];
      rewrite <- ?string_app_assoc, quoted_app; by eexists. }
  pose proof (members_read_back fields (k, v) [] fuel r Hl Hnd ltac:(lia)) as HP.
  destruct Hj as [t Ht]. rewrite Ht in HP |- *.
  change (String ?a t ++ ?x)%string with (String a (t ++ x)%string) in HP |- *.
  exact HP.
Qed.

Lemma plain_read_back j : plain j = true -> read_back j.
Proof.
  intros Hj. revert j Hj. fix IH 1. intros j Hj.
  destruct j as [|b|n|z|s|l|fields]; try discriminate; try by apply plain_leaf.
  - apply plain_array; [exact Hj|]. cbn in Hj. induction l as [|x l IHl]; [constructor|].
    cbn in Hj. apply andb_true_iff in Hj as [Hx Hl]. constructor; [by apply IH|by apply IHl].
  - cbn in Hj. apply andb_true_iff in Hj as [Hnd%bool_decide_eq_true Hf].
    apply plain_object; [done|]. clear Hnd. induction fields as [|[k x] fields IHf]; [constructor|].
    cbn in Hf. apply andb_true_iff in Hf as [Hx Hf]. constructor; [by apply IH|by apply IHf].
Qed.

(** Its text is long enough for the reader. *)
Lemma reads_bound j : plain j = true -> reads j <= 2 * String.length (stringify j).
Proof.
  revert j. fix IH 1. intros j Hj.
  destruct j as [|b|n|z|s|l|fields]; try discriminate; [cbn; lia|destruct b; cbn; lia| | | |].
  - destruct (stringify_opens (JInt z) Hj) as (c & s & -> & _). cbn. lia.
  - cbn [stringify reads]. unfold quoted. rewrite !length_string_app. simpl (String.length quote). lia.
  - assert (Hsum : sum_list (map (fun x => S (reads x)) l)
                   <= 2 * sum_list (map (fun x => S (String.length x)) (map stringify l))).
    { cbn in Hj. induction l as [|x l IHl]; [done|]. cbn in Hj. apply andb_true_iff in Hj as [Hx Hl].
      pose proof (IH x Hx). specialize (IHl Hl). simpl. lia. }
    cbn [stringify reads]. rewrite !length_string_app.
    change (String.length "[") with 1. change (String.length "]") with 1.
    destruct l as [|x l]; [cbn in *; lia|]. rewrite join_length_sep in Hsum by done. lia.
  - cbn in Hj. apply andb_true_iff in Hj as [_ Hf].
    assert (Hsum : sum_list (map (fun f => S (reads (snd f))) fields)
                   <= 2 * sum_list (map (fun x => S (String.length x)) (member_text <$> fields))).
    { induction fields as [|[k x] fields IHf]; [done|].
      cbn in Hf. apply andb_true_iff in Hf as [Hx Hf]. pose proof (IH x Hx). specialize (IHf Hf).
      assert (Hm : String.length (stringify x) <= String.length (member_text (k, x))).
      { unfold member_text. cbn [fst snd]. rewrite !length_string_app. lia. }
      change (member_text <$> (k, x) :: fields) with (member_text (k, x) :: (member_text <$> fields)).
      clear IH. cbn [map sum_list_with id snd] in *. unfold id in *. lia. }
    rewrite stringify_object. cbn [reads]. rewrite !length_string_app.
    change (String.length "{") with 1. change (String.length "}") with 1.
    destruct fields as [|f fields]; [cbn in *; lia|]. rewrite join_length_sep in Hsum by done. lia.
Qed.

(** [JSON.parse] inverts [JSON.stringify]. *)
Lemma JSON_parse_plain j : plain j = true -> JSON_parse (stringify j) = Some (reread j).
Proof.
  intros Hj. unfold JSON_parse. pose proof (reads_bound j Hj) as Hb.
  pose proof (plain_read_back j Hj (2 * String.length (stringify j) + 2) EmptyString ltac:(lia) I) as H.
  rewrite string_app_nil_r in H. by rewrite H.
Qed.

Lemma textual_plain j : textual j = true -> plain j = true /\ reread j = j.
Proof.
  revert j. fix IH 1. intros j Hj. destruct j as [|b|n|z|s|l|fields]; try discriminate; try done.
  - cbn in Hj. cbn [plain reread]. induction l as [|x l IHl]; [done|].
    cbn in Hj. apply andb_true_iff in Hj as [Hx Hl]. destruct (IH x Hx) as [Hp He].
    destruct (IHl Hl) as [Hps Hes]. injection Hes as Hes. cbn. by rewrite Hp, Hps, He, Hes.
  - cbn in Hj. apply andb_true_iff in Hj as [Hnd Hf]. cbn [plain reread]. rewrite Hnd. clear Hnd.
    induction fields as [|[k x] fields IHf]; [done|].
    cbn in Hf. apply andb_true_iff in Hf as [Hx Hf]. destruct (IH x Hx) as [Hp He].
    destruct (IHf Hf) as [Hps Hes]. injection Hes as Hes. cbn. cbn in Hps. by rewrite Hp, Hps, He, Hes.
Qed.

(** Without numbers it is the same value. *)
Lemma JSON_parse_textual j : textual j = true -> JSON_parse (stringify j) = Some j.
Proof. intros [Hp He]%textual_plain. by rewrite JSON_parse_plain, He. Qed.
