(* ===== verification/StrategyCore.v ===== *)
(** * StrategyCore: the PositionGuard decision engine

    modules/strategy/position-guard-core.ts: the settings, the structure
    analysis it consumes, the scores and thresholds, the exposure guardrails
    and [decidePositionGuardCore], which turns a context into one of ENTER,
    ADD, REDUCE, EXIT and HOLD with a size.  Prices, quantities, KRW amounts
    and fractions are doubles; the scores, which the analysis builds by adding
    small integers, are integers. *)

From stdpp Require Import base option list strings.
From Stdlib Require Import ZArith Lia.
From S2P Require Import Prelude Num Types Text NumText Timestamp.

Local Open Scope Z_scope.

(** ** Data *)

Record PositionGuardStrategySettings := {
  minimumTradeValueKrw : num;
  entryAllocation : num;
  addAllocation : num;
  reduceFraction : num;
  perAssetMaxAllocation : num;
  strongTrendPerAssetMaxAllocation : num;
  totalPortfolioMaxExposure : num;
}.

Record PositionGuardStructureAnalysis := {
  regime : StrategyMarketRegime;
  riskLevel : StrategyRiskLevel;
  invalidationState : StrategyInvalidationState;
  invalidationLevel : option num;
  pullbackZone : bool;
  reclaimStructure : bool;
  breakoutHoldStructure : bool;
  upperRangeChase : bool;
  currentPrice : num;
  entryPath : StrategyEntryPath;
  trendAlignmentScore : Z;
  recoveryQualityScore : Z;
  breakdownPressureScore : Z;
  weakeningStage : StrategyWeakeningStage;
  breakdown1d : bool;
  breakdown4h : bool;
  failedReclaim : bool;
  bearishMomentumExpansion : bool;
  volumeRecovery : bool;
  macdImproving : bool;
  rsiRecovery : bool;
  atrShock : bool;
  averageEntryPrice : num;
  pnlPct : num;
  oneHourLocation : option StrategyRangeLocation;
  fourHourLocation : option StrategyRangeLocation;
}.

Record PreviousPositionGuardDecision := {
  prev_action : StrategyDecisionAction;
  prev_executionDisposition : StrategyExecutionDisposition;
  prev_entryPath : StrategyEntryPath;
  prev_qualityBucket : StrategySignalQualityBucket;
  prev_createdAt : string;
}.

Record RecentExitContext := {
  exit_createdAt : option string;
  hoursSinceExit : option num;
  realizedPnl : option num;
}.

Record PortfolioValues := {
  totalEquityKrw : num;
  assetMarketValueKrw : num;
  totalExposureKrw : num;
}.

Record PositionGuardStrategyContext := {
  asset : SupportedAsset;
  market : SupportedMarket;
  generatedAt : string;
  availableKrw : num;
  positionQuantity : num;
  ctx_averageEntryPrice : num;
  portfolio : PortfolioValues;
  latestDecision : option PreviousPositionGuardDecision;
  recentExit : RecentExitContext;
  settings : PositionGuardStrategySettings;
  analysis : PositionGuardStructureAnalysis;
}.

Record SignalQuality := {
  score : Z;
  bucket : StrategySignalQualityBucket;
  confirmationRequired : bool;
  confirmationSatisfied : bool;
  reentryPenaltyApplied : bool;
}.

Record ExposureGuardrails := {
  eg_perAssetMaxAllocation : num;
  eg_totalPortfolioMaxExposure : num;
  remainingAssetCapacity : num;
  remainingPortfolioCapacity : num;
}.

Record Diagnostics := {
  dg_regime : StrategyMarketRegime;
  dg_riskLevel : StrategyRiskLevel;
  dg_invalidationState : StrategyInvalidationState;
  dg_invalidationLevel : option num;
  dg_entryPath : StrategyEntryPath;
  dg_trendAlignmentScore : Z;
  dg_recoveryQualityScore : Z;
  dg_breakdownPressureScore : Z;
  dg_weakeningStage : StrategyWeakeningStage;
  dg_upperRangeChase : bool;
  dg_pullbackZone : bool;
  dg_reclaimStructure : bool;
  dg_breakoutHoldStructure : bool;
}.

Record PositionGuardEngineDecision := {
  action : StrategyDecisionAction;
  summary : string;
  reasons : list string;
  targetNotionalKrw : num;
  targetQuantityFraction : option num;
  referencePrice : num;
  executionDisposition : StrategyExecutionDisposition;
  signalQuality : SignalQuality;
  exposureGuardrails : ExposureGuardrails;
  diagnostics : Diagnostics;
}.

Definition POSITION_GUARD_STRATEGY_KEY : string := "position_guard.paper_core.v1".

Definition DEFAULT_POSITION_GUARD_STRATEGY_SETTINGS : PositionGuardStrategySettings := {|
  minimumTradeValueKrw := lit 5000 0;
  entryAllocation := lit 30 2;
  addAllocation := lit 18 2;
  reduceFraction := lit 33 2;
  perAssetMaxAllocation := lit 45 2;
  strongTrendPerAssetMaxAllocation := lit 60 2;
  totalPortfolioMaxExposure := lit 75 2;
|}.

Definition ENTRY_STRONG_THRESHOLD : Z := 8.
Definition ENTRY_BORDERLINE_THRESHOLD : Z := 6.
Definition ADD_STRONG_THRESHOLD : Z := 8.
Definition ADD_BORDERLINE_THRESHOLD : Z := 6.
Definition REDUCE_THRESHOLD : Z := 4.
Definition HEALTHY_HOLD_REDUCE_THRESHOLD : Z := 5.
Definition RECENT_EXIT_PENALTY_HOURS : num := lit 24 0.
Definition RECENT_LOSS_EXIT_PENALTY_HOURS : num := lit 12 0.
Definition HOURLY_CONFIRMATION_WINDOW_MS : Z := 60 * 60 * 1000.

(** The buying actions, the type ["ENTER" | "ADD"]. *)
Inductive BuyAction := BuyEnter | BuyAdd.
Definition buy_action (a : BuyAction) : StrategyDecisionAction :=
  match a with BuyEnter => Action.ENTER | BuyAdd => Action.ADD end.

Local Open Scope js_scope.
Local Open Scope bool_scope.

Definition located (l : option StrategyRangeLocation) (x : StrategyRangeLocation) : bool :=
  l === Some x.

(** ** Predicates on the analysis *)

Definition isImmediateExitRequired (a : PositionGuardStructureAnalysis) : bool :=
  (invalidationState a === Invalidation.BROKEN)
  || breakdown1d a
  || (breakdown4h a && bearishMomentumExpansion a).

Definition hasConstructivePullbackQuality (a : PositionGuardStructureAnalysis) : bool :=
  pullbackZone a &&
  (located (oneHourLocation a) Location.LOWER
   || located (fourHourLocation a) Location.LOWER
   || (located (oneHourLocation a) Location.MIDDLE && volumeRecovery a)).

Definition isHealthyHoldState (a : PositionGuardStructureAnalysis) : bool :=
  (invalidationState a === Invalidation.CLEAR)
  && negb (failedReclaim a)
  && negb (bearishMomentumExpansion a)
  && (regime a !== Regime.WEAK_DOWNTREND).

Definition hasIndependentReduceEvidence (a : PositionGuardStructureAnalysis) : bool :=
  failedReclaim a
  || breakdown4h a
  || (2 <=? breakdownPressureScore a)
  || atrShock a
  || upperRangeChase a
  || (regime a === Regime.WEAK_DOWNTREND)
  || (weakeningStage a === Weakening.CLEAR)
  || (weakeningStage a === Weakening.FAILURE).

Definition isConstructiveBullishCandidate (a : PositionGuardStructureAnalysis) : bool :=
  (invalidationState a === Invalidation.CLEAR)
  && negb (upperRangeChase a)
  && negb (breakdown1d a)
  && negb (breakdown4h a)
  && (hasConstructivePullbackQuality a || reclaimStructure a || breakoutHoldStructure a)
  && ((regime a === Regime.BULL_TREND)
      || (regime a === Regime.PULLBACK_IN_UPTREND)
      || (regime a === Regime.EARLY_RECOVERY)
      || (regime a === Regime.RECLAIM_ATTEMPT)).

Definition isConstructiveAddCandidate (a : PositionGuardStructureAnalysis) : bool :=
  isConstructiveBullishCandidate a
  && isHealthyHoldState a
  && (breakdownPressureScore a <=? 1)
  && (3 <=? trendAlignmentScore a)
  && ((entryPath a === EntryPath.RECLAIM)
      || (entryPath a === EntryPath.BREAKOUT_HOLD)
      || ((entryPath a === EntryPath.PULLBACK) && (2 <=? recoveryQualityScore a))).

Definition two_percent : num := lit 2 2.

Definition hasProfitableWeakDowntrendDeterioration (a : PositionGuardStructureAnalysis) : bool :=
  (regime a === Regime.WEAK_DOWNTREND)
  && nleb two_percent (pnlPct a)
  && (failedReclaim a
      || bearishMomentumExpansion a
      || atrShock a
      || (2 <=? breakdownPressureScore a)
      || (weakeningStage a !== Weakening.NONE)).

Definition hasProfitableBreakdownRiskDeterioration (a : PositionGuardStructureAnalysis) : bool :=
  (regime a === Regime.BREAKDOWN_RISK)
  && nleb two_percent (pnlPct a)
  && ((2 <=? breakdownPressureScore a)
      || failedReclaim a
      || bearishMomentumExpansion a
      || atrShock a
      || (weakeningStage a !== Weakening.NONE)).

Definition hasProfitableRangeProtectionEvidence (a : PositionGuardStructureAnalysis) : bool :=
  (regime a === Regime.RANGE)
  && nleb two_percent (pnlPct a)
  && (weakeningStage a === Weakening.SOFT)
  && (failedReclaim a
      || bearishMomentumExpansion a
      || atrShock a
      || upperRangeChase a
      || (1 <=? breakdownPressureScore a)).

(** ** Scores and thresholds *)

(** [if (condition) score += points;] *)
Definition points (condition : bool) (p : Z) : Z := if condition then p else 0.

Definition computeBullishScore (a : PositionGuardStructureAnalysis) : Z :=
  (if (regime a === Regime.BULL_TREND) || (regime a === Regime.PULLBACK_IN_UPTREND) then 3
   else if regime a === Regime.EARLY_RECOVERY then 2
   else if regime a === Regime.RECLAIM_ATTEMPT then 1 else 0)
  + points (invalidationState a === Invalidation.CLEAR) 2
  + (if hasConstructivePullbackQuality a then 1 else if pullbackZone a then -1 else 0)
  + points (reclaimStructure a) 2
  + points (breakoutHoldStructure a) 2
  + points (volumeRecovery a) 1
  + points (macdImproving a) 1
  + points (rsiRecovery a) 1
  + points (upperRangeChase a) (-2)
  + points (breakdown4h a) (-3)
  + points (breakdown1d a) (-4)
  + points (4 <=? trendAlignmentScore a) 1
  + points (4 <=? recoveryQualityScore a) 1
  + points (entryPath a === EntryPath.NONE) (-1)
  + points (3 <=? breakdownPressureScore a) (-1).

Definition computeWeaknessScore (a : PositionGuardStructureAnalysis) : Z :=
  points (failedReclaim a) 2
  + points (bearishMomentumExpansion a) 2
  + points (breakdown4h a) 2
  + points (regime a === Regime.WEAK_DOWNTREND) 1
  + points (atrShock a) 1
  + points (upperRangeChase a) 1.

Record Thresholds := { strong : Z; borderline : Z }.

Definition getBullishThresholds (act : BuyAction) (a : PositionGuardStructureAnalysis) : Thresholds :=
  let strong0 := match act with BuyEnter => ENTRY_STRONG_THRESHOLD
                              | BuyAdd => ADD_STRONG_THRESHOLD end in
  let borderline0 := match act with BuyEnter => ENTRY_BORDERLINE_THRESHOLD
                                  | BuyAdd => ADD_BORDERLINE_THRESHOLD end in
  let adding := match act with BuyAdd => true | BuyEnter => false end in
  let shift :=
    if (entryPath a === EntryPath.RECLAIM) && (3 <=? recoveryQualityScore a)
       && (3 <=? trendAlignmentScore a) then -1
    else if entryPath a === EntryPath.BREAKOUT_HOLD then
      1 + points (located (oneHourLocation a) Location.UPPER) 1
    else if entryPath a === EntryPath.PULLBACK then
      points adding 1
      + points (negb (located (oneHourLocation a) Location.LOWER)
                && negb (located (fourHourLocation a) Location.LOWER)) 1
    else 0 in
  let shift := shift + points ((2 <=? breakdownPressureScore a) && adding) 1 in
  let strong := strong0 + shift in
  let borderline := borderline0 + shift in
  {| strong := strong; borderline := Z.min borderline (strong - 1) |}.

Definition getReentryPenalty (c : PositionGuardStrategyContext) : Z :=
  let a := analysis c in
  match hoursSinceExit (recentExit c) with
  | None => 0
  | Some hours =>
      if nltb zero (positionQuantity c) || nltb RECENT_EXIT_PENALTY_HOURS hours then 0
      else
        let penalty := 1
          + points (nleb hours RECENT_LOSS_EXIT_PENALTY_HOURS
                    && nleb (default zero (realizedPnl (recentExit c))) zero) 1
          + points (reclaimStructure a && (3 <=? recoveryQualityScore a)) (-1) in
        Z.max 0 penalty
  end.

Definition toQualityBucket (s : Z) : StrategySignalQualityBucket :=
  if 8 <=? s then Bucket.HIGH
  else if 6 <=? s then Bucket.MEDIUM
  else if 4 <=? s then Bucket.BORDERLINE
  else Bucket.LOW.

(** ** Sizes *)

Definition roundMoney (value : num) : num := to_fixed_number 6 value.
Definition roundQuantity (value : num) : num := to_fixed_number 12 value.

Definition getRequestedQuantity (quantity : num) (fraction : option num) : option num :=
  match fraction with
  | None => None
  | Some f => Some (roundQuantity (nmul quantity f))
  end.

Definition getEffectivePerAssetMaxAllocation
    (s : PositionGuardStrategySettings) (a : PositionGuardStructureAnalysis) : num :=
  if (invalidationState a === Invalidation.CLEAR)
     && negb (upperRangeChase a)
     && (breakdownPressureScore a <=? 1)
     && (4 <=? trendAlignmentScore a)
     && (4 <=? recoveryQualityScore a)
     && ((regime a === Regime.BULL_TREND) || (regime a === Regime.PULLBACK_IN_UPTREND)
         || (entryPath a === EntryPath.RECLAIM))
  then nmax (perAssetMaxAllocation s) (strongTrendPerAssetMaxAllocation s)
  else perAssetMaxAllocation s.

Definition buildExposureGuardrails (c : PositionGuardStrategyContext) : ExposureGuardrails :=
  let totalEquity := nmax (totalEquityKrw (portfolio c)) (availableKrw c) in
  let perAsset := getEffectivePerAssetMaxAllocation (settings c) (analysis c) in
  let perAssetLimitValue := nmul totalEquity perAsset in
  let totalExposureLimitValue := nmul totalEquity (totalPortfolioMaxExposure (settings c)) in
  {| eg_perAssetMaxAllocation := perAsset;
     eg_totalPortfolioMaxExposure := totalPortfolioMaxExposure (settings c);
     remainingAssetCapacity :=
       nmax zero (nsub perAssetLimitValue (assetMarketValueKrw (portfolio c)));
     remainingPortfolioCapacity :=
       nmax zero (nsub totalExposureLimitValue (totalExposureKrw (portfolio c))) |}.

Definition buildDiagnostics (a : PositionGuardStructureAnalysis) : Diagnostics := {|
  dg_regime := regime a;
  dg_riskLevel := riskLevel a;
  dg_invalidationState := invalidationState a;
  dg_invalidationLevel := invalidationLevel a;
  dg_entryPath := entryPath a;
  dg_trendAlignmentScore := trendAlignmentScore a;
  dg_recoveryQualityScore := recoveryQualityScore a;
  dg_breakdownPressureScore := breakdownPressureScore a;
  dg_weakeningStage := weakeningStage a;
  dg_upperRangeChase := upperRangeChase a;
  dg_pullbackZone := pullbackZone a;
  dg_reclaimStructure := reclaimStructure a;
  dg_breakoutHoldStructure := breakoutHoldStructure a;
|}.

Definition hasBullishRiskCapacity (c : PositionGuardStrategyContext) (g : ExposureGuardrails) : bool :=
  nleb (minimumTradeValueKrw (settings c)) (availableKrw c)
  && nleb (minimumTradeValueKrw (settings c)) (remainingAssetCapacity g)
  && nleb (minimumTradeValueKrw (settings c)) (remainingPortfolioCapacity g).

Definition getBullishAllocationMultiplier
    (act : BuyAction) (a : PositionGuardStructureAnalysis) (d : StrategyExecutionDisposition) : num :=
  let m := match act with BuyEnter => lit 72 2 | BuyAdd => lit 48 2 end in
  let m := if entryPath a === EntryPath.RECLAIM then nadd m (lit 16 2)
           else if entryPath a === EntryPath.BREAKOUT_HOLD then nadd m (lit 12 2)
           else if (entryPath a === EntryPath.PULLBACK)
                   && (located (oneHourLocation a) Location.LOWER
                       || located (fourHourLocation a) Location.LOWER)
           then nadd m (lit 8 2) else m in
  let m := if 4 <=? trendAlignmentScore a then nadd m (lit 8 2)
           else if trendAlignmentScore a <=? 2 then nsub m (lit 5 2) else m in
  let m := if 4 <=? recoveryQualityScore a then nadd m (lit 8 2)
           else if recoveryQualityScore a <=? 1 then nsub m (lit 8 2) else m in
  let m := if d === Disposition.EXECUTED_AFTER_CONFIRMATION then nsub m (lit 8 2) else m in
  let m := if d === Disposition.DEFERRED_CONFIRMATION then nsub m (lit 18 2) else m in
  match act with
  | BuyEnter => nmax (lit 35 2) (nmin (lit 1 0) m)
  | BuyAdd => nmax (lit 25 2) (nmin (lit 9 1) m)
  end.

Definition getGraduatedReduceFraction (weaknessScore : Z) (base : num) : num :=
  if 7 <=? weaknessScore then nmin (lit 9 1) (nmul base (lit 175 2))
  else if 5 <=? weaknessScore then nmin (lit 75 2) (nmul base (lit 12 1))
  else nmax (lit 2 1) (nmul base (lit 65 2)).

(** ** Hourly confirmation *)

(** Truncation of an instant to its UTC hour: [setUTCMinutes(0, 0, 0)]. *)
Definition toHourlyBucketMs (value : string) : option Z :=
  match Date_parse value with
  | None => None
  | Some timestamp => Some (timestamp - timestamp mod 3600000)
  end.

Definition isImmediatePreviousHourlyDecision (previousCreatedAt currentGeneratedAt : string) : bool :=
  match toHourlyBucketMs previousCreatedAt, toHourlyBucketMs currentGeneratedAt with
  | Some previousBucket, Some currentBucket =>
      currentBucket - previousBucket =? HOURLY_CONFIRMATION_WINDOW_MS
  | _, _ => false
  end.

Definition hasPendingBullishConfirmation
    (c : PositionGuardStrategyContext) (act : BuyAction) (path : StrategyEntryPath)
    (quality : StrategySignalQualityBucket) : bool :=
  match latestDecision c with
  | None => false
  | Some latest =>
      if (prev_action latest !== buy_action act)
         || (prev_executionDisposition latest !== Disposition.DEFERRED_CONFIRMATION)
      then false
      else (prev_entryPath latest === path)
           && (prev_qualityBucket latest === quality)
           && isImmediatePreviousHourlyDecision (prev_createdAt latest) (generatedAt c)
  end.

(** ** Reduction plans *)

Record StructuredReducePlan := {
  plan_reduceFraction : num;
  plan_qualityBucket : StrategySignalQualityBucket;
  plan_reasons : list string;
}.

Definition hasMinimumReduceOrderValue (c : PositionGuardStrategyContext) (fraction : num) : bool :=
  match getRequestedQuantity (positionQuantity c) (Some fraction) with
  | None => false
  | Some requestedQuantity =>
      nleb (minimumTradeValueKrw (settings c)) (nmul requestedQuantity (currentPrice (analysis c)))
  end.

Definition buildStructuredReducePlan
    (c : PositionGuardStrategyContext) (fraction : num) (quality : StrategySignalQualityBucket)
    (why : list string) : option StructuredReducePlan :=
  if negb (hasMinimumReduceOrderValue c fraction) then None
  else Some {| plan_reduceFraction := fraction; plan_qualityBucket := quality;
               plan_reasons := why |}.

Definition getDefensiveExposureReducePlan
    (c : PositionGuardStrategyContext) (weaknessScore : Z) : option StructuredReducePlan :=
  let a := analysis c in
  let base := reduceFraction (settings c) in
  if hasProfitableWeakDowntrendDeterioration a then
    buildStructuredReducePlan c
      (nmin (lit 45 2) (nmax (lit 25 2) (nmul base (lit 9 1))))
      (if 4 <=? weaknessScore then Bucket.MEDIUM else Bucket.BORDERLINE)
      ["Weak downtrend exposure is profitable and has independent deterioration, so the position shifts to defensive reduction."%string]
  else if hasProfitableBreakdownRiskDeterioration a then
    buildStructuredReducePlan c
      (nmin (lit 55 2) (nmax (lit 3 1) base))
      (if 5 <=? weaknessScore then Bucket.MEDIUM else Bucket.BORDERLINE)
      ["Breakdown risk exposure is profitable and elevated, so exposure is reduced before full invalidation is reached."%string]
  else if hasProfitableRangeProtectionEvidence a then
    buildStructuredReducePlan c
      (nmin (lit 28 2) (nmax (lit 15 2) (nmul base (lit 5 1))))
      Bucket.BORDERLINE
      ["Profitable range exposure has soft deterioration, so a modest reduction protects open gains."%string]
  else None.

Definition legacyReduceThreshold (a : PositionGuardStructureAnalysis) : Z :=
  let base := if isHealthyHoldState a then HEALTHY_HOLD_REDUCE_THRESHOLD else REDUCE_THRESHOLD in
  if weakeningStage a === Weakening.CLEAR then Z.max 3 (base - 1) else base.

Definition getLegacyStructuredReducePlan
    (c : PositionGuardStrategyContext) (weaknessScore : Z) : option StructuredReducePlan :=
  let a := analysis c in
  let base := reduceFraction (settings c) in
  let hasProfitBuffer := nleb two_percent (pnlPct a) in
  let hasIndependentEvidence := hasIndependentReduceEvidence a in
  if weakeningStage a === Weakening.SOFT then
    if negb hasProfitBuffer || negb hasIndependentEvidence then None
    else buildStructuredReducePlan c
           (nmin (lit 35 2) (nmax (lit 15 2) (nmul base (lit 5 1))))
           Bucket.BORDERLINE
           ["Weakening is still soft, so any reduction stays modest and mainly protects open gains."%string]
  else if (weakeningStage a === Weakening.NONE) && negb hasIndependentEvidence then None
  else if weaknessScore <? legacyReduceThreshold a then None
  else buildStructuredReducePlan c
         (getGraduatedReduceFraction weaknessScore base)
         (if 7 <=? weaknessScore then Bucket.HIGH
          else if 5 <=? weaknessScore then Bucket.MEDIUM else Bucket.BORDERLINE)
         [(if weakeningStage a === Weakening.CLEAR
           then "Weakening has become clear enough that a larger staged reduction is now justified."
           else "Weakening evidence cleared the reduce hysteresis threshold.")%string].

Definition getStructuredReducePlan
    (c : PositionGuardStrategyContext) (weaknessScore : Z) : option StructuredReducePlan :=
  match getDefensiveExposureReducePlan c weaknessScore,
        getLegacyStructuredReducePlan c weaknessScore with
  | None, legacyPlan => legacyPlan
  | Some defensivePlan, None => Some defensivePlan
  | Some defensivePlan, Some legacyPlan =>
      if nltb (plan_reduceFraction legacyPlan) (plan_reduceFraction defensivePlan)
      then Some defensivePlan else Some legacyPlan
  end.

(** ** Decisions *)

Local Open Scope string_scope.

Definition regime_reason (a : PositionGuardStructureAnalysis) : string :=
  "Regime is " ++ Regime.to_string (regime a) ++ ".".

Definition getEntryPathReason (path : StrategyEntryPath) : string :=
  match path with
  | EntryPath.RECLAIM => "Reclaim structure is intact."
  | EntryPath.BREAKOUT_HOLD => "Breakout-hold structure is intact."
  | EntryPath.PULLBACK => "Constructive pullback structure is available."
  | EntryPath.NONE => "No constructive entry path is active."
  end.

Definition asset_name (c : PositionGuardStrategyContext) : string := Asset.to_string (asset c).

Definition holdDecision
    (c : PositionGuardStrategyContext) (why : list string) (s : Z)
    (quality : StrategySignalQualityBucket) (reentry : bool) (g : ExposureGuardrails)
    : PositionGuardEngineDecision := {|
  action := Action.HOLD;
  summary := if nltb zero (positionQuantity c)
             then asset_name c ++ " stays on hold while the existing position remains valid."
             else asset_name c ++ " stays on hold because entry quality is not strong enough yet.";
  reasons := why;
  targetNotionalKrw := zero;
  targetQuantityFraction := None;
  referencePrice := currentPrice (analysis c);
  executionDisposition := Disposition.SKIPPED;
  signalQuality := {| score := s; bucket := quality; confirmationRequired := false;
                      confirmationSatisfied := false; reentryPenaltyApplied := reentry |};
  exposureGuardrails := g;
  diagnostics := buildDiagnostics (analysis c);
|}.

Definition flatNoPositionExitHoldDecision
    (c : PositionGuardStrategyContext) (reentry : bool) (g : ExposureGuardrails)
    : PositionGuardEngineDecision := {|
  action := Action.HOLD;
  summary := "No position is open for " ++ asset_name c
             ++ ", so the strategy holds flat instead of emitting an exit.";
  reasons := [regime_reason (analysis c);
    "No position is open, so bearish exit evidence is treated as flat-state risk avoidance rather than a sell order.";
    "Higher-timeframe support has broken or invalidation is already broken."];
  targetNotionalKrw := zero;
  targetQuantityFraction := None;
  referencePrice := currentPrice (analysis c);
  executionDisposition := Disposition.SKIPPED;
  signalQuality := {| score := 0; bucket := Bucket.LOW; confirmationRequired := false;
                      confirmationSatisfied := false; reentryPenaltyApplied := reentry |};
  exposureGuardrails := g;
  diagnostics := buildDiagnostics (analysis c);
|}.

Definition bullishDecision
    (c : PositionGuardStrategyContext) (act : BuyAction) (d : StrategyExecutionDisposition)
    (quality : StrategySignalQualityBucket) (bullishScore : Z) (reentry satisfied : bool)
    (g : ExposureGuardrails) : PositionGuardEngineDecision :=
  let a := analysis c in
  let budgetBase := nmax (totalEquityKrw (portfolio c)) (availableKrw c) in
  let baseNotional := nmul budgetBase (match act with
                                       | BuyEnter => entryAllocation (settings c)
                                       | BuyAdd => addAllocation (settings c)
                                       end) in
  let target :=
    nmax zero
      (nmin (nmin (nmin (nmul baseNotional (getBullishAllocationMultiplier act a d))
                        (availableKrw c))
                  (remainingAssetCapacity g))
            (remainingPortfolioCapacity g)) in
  let deferred := d === Disposition.DEFERRED_CONFIRMATION in
  let act_name := toLowerCase (Action.to_string (buy_action act)) in
  {| action := buy_action act;
     summary := if deferred
                then asset_name c ++ " " ++ act_name
                     ++ " setup is deferred pending one additional hourly confirmation."
                else asset_name c ++ " " ++ act_name ++ " is allowed by constructive structure.";
     reasons := [regime_reason a;
       if deferred
       then "Bullish structure is valid but borderline, so one additional hourly confirmation is required."
       else "Constructive structure is strong enough to act.";
       getEntryPathReason (entryPath a)];
     targetNotionalKrw := target;
     targetQuantityFraction := None;
     referencePrice := currentPrice a;
     executionDisposition := d;
     signalQuality := {| score := bullishScore; bucket := quality;
                         confirmationRequired := (deferred || satisfied)%bool;
                         confirmationSatisfied := satisfied;
                         reentryPenaltyApplied := reentry |};
     exposureGuardrails := g;
     diagnostics := buildDiagnostics a |}.

(** The threshold ladder shared by fresh entries and adds: a strong score acts
    at once, a borderline one acts when the previous hour deferred the same
    setup and is deferred otherwise. *)
Definition thresholdDecision
    (c : PositionGuardStrategyContext) (act : BuyAction) (bullishScore : Z)
    (quality : StrategySignalQualityBucket) (reentry : bool) (g : ExposureGuardrails)
    (otherwise : PositionGuardEngineDecision) : PositionGuardEngineDecision :=
  let thresholds := getBullishThresholds act (analysis c) in
  if (strong thresholds <=? bullishScore)%Z then
    bullishDecision c act Disposition.IMMEDIATE quality bullishScore reentry false g
  else if (borderline thresholds <=? bullishScore)%Z then
    let satisfied := hasPendingBullishConfirmation c act (entryPath (analysis c)) quality in
    bullishDecision c act
      (if satisfied then Disposition.EXECUTED_AFTER_CONFIRMATION
       else Disposition.DEFERRED_CONFIRMATION)
      quality bullishScore reentry satisfied g
  else otherwise.

Definition decideFlatPositionAction
    (c : PositionGuardStrategyContext) (bullishScore : Z) (quality : StrategySignalQualityBucket)
    (reentry : bool) (g : ExposureGuardrails) : PositionGuardEngineDecision :=
  let a := analysis c in
  let hold why := holdDecision c why bullishScore quality reentry g in
  if negb (isConstructiveBullishCandidate a) then
    hold [regime_reason a;
          if upperRangeChase a then "Price is too extended for a no-chase entry."
          else "Bullish structure is not strong enough to justify a fresh entry."]
  else if negb (hasBullishRiskCapacity c g) then
    hold [regime_reason a; "Exposure guardrails leave no room for additional risk right now."]
  else
    thresholdDecision c BuyEnter bullishScore quality reentry g
      (hold [regime_reason a;
             if reentry
             then "Recent exit caution slightly raised the entry threshold and the recovery quality is not strong enough yet."
             else "Bullish score did not clear the entry hysteresis threshold."]).

Definition decideAddOrHoldAction
    (c : PositionGuardStrategyContext) (bullishScore : Z) (quality : StrategySignalQualityBucket)
    (reentry : bool) (g : ExposureGuardrails) : PositionGuardEngineDecision :=
  let a := analysis c in
  let hold why := holdDecision c why bullishScore quality reentry g in
  if negb (isConstructiveAddCandidate a) then
    hold [regime_reason a;
          if weakeningStage a === Weakening.SOFT
          then "Existing position is still valid, but mild weakening means add quality is not strong enough yet."
          else "Existing position remains valid, but add quality needs stronger trend alignment and recovery structure."]
  else if negb (hasBullishRiskCapacity c g) then
    hold [regime_reason a; "Exposure guardrails leave no room for an additional add."]
  else
    thresholdDecision c BuyAdd bullishScore quality reentry g
      (hold [regime_reason a;
             "Existing hold remains valid, but add quality did not clear the stricter add threshold."]).

Definition decideReduceAction
    (c : PositionGuardStrategyContext) (g : ExposureGuardrails) (reentry : bool)
    : option PositionGuardEngineDecision :=
  let a := analysis c in
  let weaknessScore := computeWeaknessScore a in
  match getStructuredReducePlan c weaknessScore with
  | None => None
  | Some reducePlan => Some {|
      action := Action.REDUCE;
      summary := asset_name c ++ " reduction is allowed because weakening is now sufficiently clear.";
      reasons := regime_reason a
                 :: ("Weakening stage is " ++ Weakening.to_string (weakeningStage a) ++ ".")
                 :: plan_reasons reducePlan;
      targetNotionalKrw := zero;
      targetQuantityFraction := Some (plan_reduceFraction reducePlan);
      referencePrice := currentPrice a;
      executionDisposition := Disposition.IMMEDIATE;
      signalQuality := {| score := weaknessScore; bucket := plan_qualityBucket reducePlan;
                          confirmationRequired := false; confirmationSatisfied := false;
                          reentryPenaltyApplied := reentry |};
      exposureGuardrails := g;
      diagnostics := buildDiagnostics a |}
  end.

Definition exitRequiredDecision
    (c : PositionGuardStrategyContext) (reentry : bool) (g : ExposureGuardrails)
    : PositionGuardEngineDecision := {|
  action := Action.EXIT;
  summary := asset_name c ++ " exit is required because invalidation has failed.";
  reasons := [regime_reason (analysis c);
    "Higher-timeframe support has broken or invalidation is already broken.";
    "Invalidation-first exit remains immediate and unchanged."];
  targetNotionalKrw := zero;
  targetQuantityFraction := Some (lit 1 0);
  referencePrice := currentPrice (analysis c);
  executionDisposition := Disposition.IMMEDIATE;
  signalQuality := {| score := 0; bucket := Bucket.LOW; confirmationRequired := false;
                      confirmationSatisfied := false; reentryPenaltyApplied := reentry |};
  exposureGuardrails := g;
  diagnostics := buildDiagnostics (analysis c);
|}.

Definition decidePositionGuardCore (c : PositionGuardStrategyContext) : PositionGuardEngineDecision :=
  let a := analysis c in
  let quantity := positionQuantity c in
  let bullishScore := (computeBullishScore a - getReentryPenalty c)%Z in
  let reentry := negb (computeBullishScore a =? bullishScore)%Z in
  let quality := toQualityBucket bullishScore in
  let g := buildExposureGuardrails c in
  if nleb quantity zero then
    if isImmediateExitRequired a then flatNoPositionExitHoldDecision c reentry g
    else decideFlatPositionAction c bullishScore quality reentry g
  else if isImmediateExitRequired a then exitRequiredDecision c reentry g
  else match decideReduceAction c g reentry with
       | Some reduceDecision => reduceDecision
       | None => decideAddOrHoldAction c bullishScore quality reentry g
       end.

(** ** The order-facing decision *)

Record StrategyDecision := {
  sd_strategyKey : string;
  sd_market : SupportedMarket;
  sd_action : StrategyDecisionAction;
  sd_reasonCodes : list string;
  sd_referencePrice : num;
  sd_requestedNotionalKrw : option num;
  sd_requestedQuantity : option num;
  sd_metadata : list (string * json);
}.

Definition opt_num_json (x : option num) : json := from_option JNum JNull x.

Definition diagnostics_json (d : Diagnostics) : json := JObj [
  ("regime", JStr (Regime.to_string (dg_regime d)));
  ("riskLevel", JStr (RiskLevel.to_string (dg_riskLevel d)));
  ("invalidationState", JStr (Invalidation.to_string (dg_invalidationState d)));
  ("invalidationLevel", opt_num_json (dg_invalidationLevel d));
  ("entryPath", JStr (EntryPath.to_string (dg_entryPath d)));
  ("trendAlignmentScore", JInt (dg_trendAlignmentScore d));
  ("recoveryQualityScore", JInt (dg_recoveryQualityScore d));
  ("breakdownPressureScore", JInt (dg_breakdownPressureScore d));
  ("weakeningStage", JStr (Weakening.to_string (dg_weakeningStage d)));
  ("upperRangeChase", JBool (dg_upperRangeChase d));
  ("pullbackZone", JBool (dg_pullbackZone d));
  ("reclaimStructure", JBool (dg_reclaimStructure d));
  ("breakoutHoldStructure", JBool (dg_breakoutHoldStructure d))].

Definition guardrails_json (g : ExposureGuardrails) : json := JObj [
  ("perAssetMaxAllocation", JNum (eg_perAssetMaxAllocation g));
  ("totalPortfolioMaxExposure", JNum (eg_totalPortfolioMaxExposure g));
  ("remainingAssetCapacity", JNum (remainingAssetCapacity g));
  ("remainingPortfolioCapacity", JNum (remainingPortfolioCapacity g))].

Definition toStrategyDecision
    (c : PositionGuardStrategyContext) (d : PositionGuardEngineDecision) : StrategyDecision :=
  let requestedQuantity := getRequestedQuantity (positionQuantity c) (targetQuantityFraction d) in
  let q := signalQuality d in
  {| sd_strategyKey := POSITION_GUARD_STRATEGY_KEY;
     sd_market := market c;
     sd_action := action d;
     sd_reasonCodes := [toLowerCase (Action.to_string (action d));
       toLowerCase (Disposition.to_string (executionDisposition d));
       toLowerCase (EntryPath.to_string (dg_entryPath (diagnostics d)));
       toLowerCase (Bucket.to_string (bucket q))];
     sd_referencePrice := referencePrice d;
     sd_requestedNotionalKrw :=
       if ((action d === Action.ENTER) || (action d === Action.ADD))%bool
       then Some (roundMoney (targetNotionalKrw d)) else None;
     sd_requestedQuantity :=
       if ((action d === Action.REDUCE) || (action d === Action.EXIT))%bool
       then requestedQuantity else None;
     sd_metadata := [
       ("summary", JStr (summary d));
       ("reasonsJson", JStr (stringify (JArr (map JStr (reasons d)))));
       ("executionDisposition", JStr (Disposition.to_string (executionDisposition d)));
       ("signalQualityBucket", JStr (Bucket.to_string (bucket q)));
       ("signalQualityScore", JInt (score q));
       ("confirmationRequired", JBool (confirmationRequired q));
       ("confirmationSatisfied", JBool (confirmationSatisfied q));
       ("reentryPenaltyApplied", JBool (reentryPenaltyApplied q));
       ("diagnosticsJson", JStr (stringify (diagnostics_json (diagnostics d))));
       ("exposureGuardrailsJson", JStr (stringify (guardrails_json (exposureGuardrails d))));
       ("sourceEngine", JStr "PositionGuard_PaperTrade")] |}.

(** [PositionGuardCoreStrategy.decide] *)
Definition decide_strategy (c : PositionGuardStrategyContext) : StrategyDecision :=
  toStrategyDecision c (decidePositionGuardCore c).

Local Close Scope string_scope.

#[global] Arguments computeBullishScore : simpl never.
#[global] Arguments computeWeaknessScore : simpl never.
#[global] Arguments getBullishThresholds : simpl never.
#[global] Arguments getReentryPenalty : simpl never.
#[global] Arguments getBullishAllocationMultiplier : simpl never.

(** ** Abstract view of the decision

    Which action is taken, as a decision table over the predicates of the
    analysis, with the texts and the sizes left out. *)

Definition bullish_score (c : PositionGuardStrategyContext) : Z :=
  computeBullishScore (analysis c) - getReentryPenalty c.

Definition is_flat (c : PositionGuardStrategyContext) : bool := nleb (positionQuantity c) zero.

Definition reduce_plan (c : PositionGuardStrategyContext) : option StructuredReducePlan :=
  getStructuredReducePlan c (computeWeaknessScore (analysis c)).

Definition may_buy (c : PositionGuardStrategyContext) (act : BuyAction) : bool :=
  match act with
  | BuyEnter => isConstructiveBullishCandidate (analysis c)
  | BuyAdd => isConstructiveAddCandidate (analysis c)
  end
  && hasBullishRiskCapacity c (buildExposureGuardrails c)
  && (borderline (getBullishThresholds act (analysis c)) <=? bullish_score c).

Definition action_table (c : PositionGuardStrategyContext) : StrategyDecisionAction :=
  if isImmediateExitRequired (analysis c)
  then (if is_flat c then Action.HOLD else Action.EXIT)
  else if is_flat c
  then (if may_buy c BuyEnter then Action.ENTER else Action.HOLD)
  else match reduce_plan c with
       | Some _ => Action.REDUCE
       | None => if may_buy c BuyAdd then Action.ADD else Action.HOLD
       end.

Lemma bullish_score_eq c :
  bullish_score c = computeBullishScore (analysis c) - getReentryPenalty c.
Proof. unfold bullish_score. reflexivity. Qed.

Lemma borderline_below_strong act a :
  borderline (getBullishThresholds act a) < strong (getBullishThresholds act a).
Proof. unfold getBullishThresholds; simpl. lia. Qed.

(** What [thresholdDecision] returns, by the score. *)
Lemma thresholdDecision_spec c act s quality reentry g otherwise :
  let d := thresholdDecision c act s quality reentry g otherwise in
  let t := getBullishThresholds act (analysis c) in
  (borderline t <= s /\
     exists disp satisfied,
       d = bullishDecision c act disp quality s reentry satisfied g /\
       (disp = Disposition.EXECUTED_AFTER_CONFIRMATION ->
          hasPendingBullishConfirmation c act (entryPath (analysis c)) quality = true /\
          satisfied = true) /\
       (disp = Disposition.IMMEDIATE -> strong t <= s)) \/
  (s < borderline t /\ d = otherwise).
Proof.
  cbv zeta. unfold thresholdDecision. cbv zeta. pose proof (borderline_below_strong act (analysis c)).
  destruct (Z.leb_spec (strong (getBullishThresholds act (analysis c))) s).
  { left. split; [lia|]. eexists _, _. split; [reflexivity|]. split; [done|]. by intros _. }
  destruct (Z.leb_spec (borderline (getBullishThresholds act (analysis c))) s);
    [left; split; [lia|]|by right].
  destruct (hasPendingBullishConfirmation _ _ _ _); eexists _, _; split_and!; try reflexivity; done.
Qed.

(** C5: the engine takes the action of the decision table: exits before
    reductions before additions on an open position, entries only from flat,
    buys only for a constructive candidate with capacity whose score reaches
    the borderline threshold. *)
Theorem decide_action_table c : action (decidePositionGuardCore c) = action_table c.
Proof.
  unfold decidePositionGuardCore, action_table, may_buy, is_flat, reduce_plan, bullish_score.
  cbv zeta.
  destruct (nleb (positionQuantity c) zero), (isImmediateExitRequired (analysis c)); try done.
  - unfold decideFlatPositionAction.
    destruct (isConstructiveBullishCandidate (analysis c)); [|done].
    destruct (hasBullishRiskCapacity c _); [|done]. cbn [negb andb].
    match goal with |- context [thresholdDecision ?c ?a ?s ?q ?r ?g ?o] =>
      destruct (thresholdDecision_spec c a s q r g o) as [(Hle & ? & ? & -> & _) | [Hlt ->]] end.
    + by rewrite (proj2 (Z.leb_le _ _) Hle).
    + by rewrite (proj2 (Z.leb_gt _ _) Hlt).
  - unfold decideReduceAction. destruct (getStructuredReducePlan c _); [done|].
    unfold decideAddOrHoldAction.
    destruct (isConstructiveAddCandidate (analysis c)); [|done].
    destruct (hasBullishRiskCapacity c _); [|done]. cbn [negb andb].
    match goal with |- context [thresholdDecision ?c ?a ?s ?q ?r ?g ?o] =>
      destruct (thresholdDecision_spec c a s q r g o) as [(Hle & ? & ? & -> & _) | [Hlt ->]] end.
    + by rewrite (proj2 (Z.leb_le _ _) Hle).
    + by rewrite (proj2 (Z.leb_gt _ _) Hlt).
Qed.

(** ** Sizes *)

(** The shape of every decision: buys carry a notional and no fraction, sells a
    fraction and no notional, holds neither, and only buys can be deferred. *)
Definition decision_shape (d : PositionGuardEngineDecision) : Prop :=
  match action d with
  | Action.ENTER | Action.ADD =>
      targetQuantityFraction d = None /\ executionDisposition d ≠ Disposition.SKIPPED
  | Action.REDUCE | Action.EXIT =>
      is_Some (targetQuantityFraction d) /\ targetNotionalKrw d = zero /\
      executionDisposition d = Disposition.IMMEDIATE
  | Action.HOLD =>
      targetQuantityFraction d = None /\ targetNotionalKrw d = zero /\
      executionDisposition d = Disposition.SKIPPED
  end.

Inductive decision_origin (c : PositionGuardStrategyContext) : PositionGuardEngineDecision -> Prop :=
| origin_hold why s q r : decision_origin c (holdDecision c why s q r (buildExposureGuardrails c))
| origin_flat_exit r : decision_origin c (flatNoPositionExitHoldDecision c r (buildExposureGuardrails c))
| origin_exit r :
    is_flat c = false ->
    decision_origin c (exitRequiredDecision c r (buildExposureGuardrails c))
| origin_reduce d r :
    is_flat c = false ->
    decideReduceAction c (buildExposureGuardrails c) r = Some d -> decision_origin c d
| origin_buy act disp satisfied r :
    hasBullishRiskCapacity c (buildExposureGuardrails c) = true ->
    (disp = Disposition.EXECUTED_AFTER_CONFIRMATION ->
       hasPendingBullishConfirmation c act (entryPath (analysis c))
         (toQualityBucket (bullish_score c)) = true) ->
    disp ≠ Disposition.SKIPPED ->
    decision_origin c (bullishDecision c act disp (toQualityBucket (bullish_score c))
                         (bullish_score c) r satisfied (buildExposureGuardrails c)).

Lemma thresholdDecision_origin c act r otherwise :
  hasBullishRiskCapacity c (buildExposureGuardrails c) = true ->
  decision_origin c otherwise ->
  decision_origin c (thresholdDecision c act (bullish_score c) (toQualityBucket (bullish_score c))
                       r (buildExposureGuardrails c) otherwise).
Proof.
  intros Hcap Ho. unfold thresholdDecision. cbv zeta.
  destruct (_ <=? bullish_score c); [refine (origin_buy _ _ _ _ _ Hcap _ _); discriminate|].
  destruct (_ <=? bullish_score c); [|exact Ho].
  destruct (hasPendingBullishConfirmation _ _ _ _) eqn:E;
    refine (origin_buy _ _ _ _ _ Hcap _ _); first [intros _; exact E | discriminate].
Qed.

Lemma decide_origin c : decision_origin c (decidePositionGuardCore c).
Proof.
  unfold decidePositionGuardCore. cbv zeta.
  rewrite <- bullish_score_eq.
  destruct (nleb (positionQuantity c) zero) eqn:Hq.
  - destruct (isImmediateExitRequired _); [apply origin_flat_exit|].
    unfold decideFlatPositionAction. cbv zeta.
    destruct (negb (isConstructiveBullishCandidate _)); [apply origin_hold|].
    destruct (negb (hasBullishRiskCapacity _ _)) eqn:Hcap; [apply origin_hold|].
    apply thresholdDecision_origin; [by apply negb_false_iff | apply origin_hold].
  - destruct (isImmediateExitRequired _); [by apply origin_exit|].
    destruct (decideReduceAction _ _ _) eqn:Hr; [by eapply origin_reduce|].
    unfold decideAddOrHoldAction. cbv zeta.
    destruct (negb (isConstructiveAddCandidate _)); [apply origin_hold|].
    destruct (negb (hasBullishRiskCapacity _ _)) eqn:Hcap; [apply origin_hold|].
    apply thresholdDecision_origin; [by apply negb_false_iff | apply origin_hold].
Qed.

Lemma decideReduceAction_Some c g r d :
  decideReduceAction c g r = Some d ->
  exists plan, reduce_plan c = Some plan /\ action d = Action.REDUCE /\
    targetQuantityFraction d = Some (plan_reduceFraction plan) /\
    targetNotionalKrw d = zero /\ executionDisposition d = Disposition.IMMEDIATE.
Proof.
  unfold decideReduceAction, reduce_plan.
  destruct (getStructuredReducePlan _ _) as [plan|]; [|done]. intros [= <-]. by exists plan.
Qed.

(** Every decision is well formed. *)
Lemma decide_shape c : decision_shape (decidePositionGuardCore c).
Proof.
  destruct (decide_origin c) as [| |r _|d r _ Hr|[] disp sat r _ _ Hd]; unfold decision_shape; simpl;
    try done.
  apply decideReduceAction_Some in Hr as (plan & _ & -> & -> & -> & ->). eauto.
Qed.

(** *** Buys *)

Definition multiplier_bounds (act : BuyAction) : num * num :=
  match act with BuyEnter => (lit 35 2, lit 1 0) | BuyAdd => (lit 25 2, lit 9 1) end.

Definition multiplier_of_flags
    (act : BuyAction) (path : StrategyEntryPath) (lower : bool) (trend recovery : comparison)
    (executed deferred : bool) : num :=
  let m := match act with BuyEnter => lit 72 2 | BuyAdd => lit 48 2 end in
  let m := if path === EntryPath.RECLAIM then nadd m (lit 16 2)
           else if path === EntryPath.BREAKOUT_HOLD then nadd m (lit 12 2)
           else if (path === EntryPath.PULLBACK) && lower then nadd m (lit 8 2) else m in
  let m := match trend with Gt => nadd m (lit 8 2) | Lt => nsub m (lit 5 2) | Eq => m end in
  let m := match recovery with Gt => nadd m (lit 8 2) | Lt => nsub m (lit 8 2) | Eq => m end in
  let m := if executed then nsub m (lit 8 2) else m in
  if deferred then nsub m (lit 18 2) else m.

Lemma multiplier_of_flags_not_nan act path lower trend recovery executed deferred :
  is_nan (multiplier_of_flags act path lower trend recovery executed deferred) = false.
Proof. by destruct act, path, lower, trend, recovery, executed, deferred; vm_compute. Qed.

Lemma multiplier_within_bounds act a d :
  nleb (fst (multiplier_bounds act)) (getBullishAllocationMultiplier act a d) = true /\
  nleb (getBullishAllocationMultiplier act a d) (snd (multiplier_bounds act)) = true.
Proof.
  set (band := fun lo hi x => if hi <=? x then Gt else if x <=? lo then Lt else Eq).
  set (m := multiplier_of_flags act (entryPath a)
              (located (oneHourLocation a) Location.LOWER || located (fourHourLocation a) Location.LOWER)
              (band 2 4 (trendAlignmentScore a)) (band 1 4 (recoveryQualityScore a))
              (d === Disposition.EXECUTED_AFTER_CONFIRMATION)
              (d === Disposition.DEFERRED_CONFIRMATION)).
  assert (Hm : getBullishAllocationMultiplier act a d =
               match act with
               | BuyEnter => nmax (lit 35 2) (nmin (lit 1 0) m)
               | BuyAdd => nmax (lit 25 2) (nmin (lit 9 1) m) end).
  { unfold m, multiplier_of_flags, getBullishAllocationMultiplier, band.
    destruct (4 <=? trendAlignmentScore a), (trendAlignmentScore a <=? 2),
             (4 <=? recoveryQualityScore a), (recoveryQualityScore a <=? 1); reflexivity. }
  rewrite Hm. destruct act; apply clamp_bounds; try apply multiplier_of_flags_not_nan; reflexivity.
Qed.

(** The allocation multiplier of a buy stays within its clamp: 0.35 to 1
    for an entry, 0.25 to 0.9 for an add, whatever the analysis. *)
Lemma multiplier_clamped act a d :
  nleb (fst (multiplier_bounds act)) (getBullishAllocationMultiplier act a d) = true /\
  nleb (getBullishAllocationMultiplier act a d) (snd (multiplier_bounds act)) = true.
Proof. apply multiplier_within_bounds. Qed.

(** A context whose amounts are numbers and whose minimum trade value is not
    negative. *)
Definition sound_amounts (c : PositionGuardStrategyContext) : bool :=
  is_finite (totalEquityKrw (portfolio c))
  && is_finite (availableKrw c)
  && is_finite (entryAllocation (settings c))
  && is_finite (addAllocation (settings c))
  && nleb zero (minimumTradeValueKrw (settings c)).

Lemma multiplier_pos_finite act a d :
  is_finite (getBullishAllocationMultiplier act a d) = true /\
  nltb zero (getBullishAllocationMultiplier act a d) = true.
Proof.
  destruct (multiplier_within_bounds act a d) as [Hlo Hhi]. split.
  - generalize dependent (getBullishAllocationMultiplier act a d). intros m Hlo Hhi.
    destruct m as [|[]| |]; try done; destruct act; vm_compute in Hlo, Hhi; discriminate.
  - eapply nltb_nleb_trans; [|exact Hlo]. by destruct act.
Qed.

Lemma buy_target_bounds c act d q s r sat :
  sound_amounts c = true ->
  hasBullishRiskCapacity c (buildExposureGuardrails c) = true ->
  let g := buildExposureGuardrails c in
  let t := targetNotionalKrw (bullishDecision c act d q s r sat g) in
  nleb zero t = true /\ nleb t (availableKrw c) = true /\
  nleb t (remainingAssetCapacity g) = true /\ nleb t (remainingPortfolioCapacity g) = true.
Proof.
  unfold sound_amounts, hasBullishRiskCapacity. intros Hs Hcap. destruct_bools. cbv zeta.
  set (g := buildExposureGuardrails c) in *. cbn [targetNotionalKrw bullishDecision].
  destruct (multiplier_pos_finite act (analysis c) d) as [Hmf Hmp].
  match goal with |- context [nmul (nmul ?b ?al) ?m] => set (base := nmul (nmul b al) m) end.
  assert (Hbase : is_nan base = false).
  { apply nmul_not_nan_nonzero; [|done..].
    assert (Hbudget : is_finite (nmax (totalEquityKrw (portfolio c)) (availableKrw c)) = true).
    { destruct (nmax_spec (totalEquityKrw (portfolio c)) (availableKrw c)) as [[-> _]|[-> _]];
        auto with upbit. }
    apply nmul_not_nan; [done | by destruct act]. }
  assert (Hmin : nleb zero (minimumTradeValueKrw (settings c)) = true) by assumption.
  assert (Ha : nleb zero (availableKrw c) = true) by (eapply nleb_trans; [exact Hmin|assumption]).
  assert (Hb : nleb zero (remainingAssetCapacity g) = true) by (eapply nleb_trans; [exact Hmin|assumption]).
  assert (Hc : nleb zero (remainingPortfolioCapacity g) = true) by (eapply nleb_trans; [exact Hmin|assumption]).
  destruct (nleb_not_nan _ _ Ha) as [_ Hna], (nleb_not_nan _ _ Hb) as [_ Hnb],
           (nleb_not_nan _ _ Hc) as [_ Hnc].
  set (m1 := nmin base (availableKrw c)). set (m2 := nmin m1 (remainingAssetCapacity g)).
  set (m3 := nmin m2 (remainingPortfolioCapacity g)).
  assert (Hn1 : is_nan m1 = false) by (unfold m1; by rewrite nmin_nan, Hbase, Hna).
  assert (Hn2 : is_nan m2 = false) by (unfold m2; by rewrite nmin_nan, Hn1, Hnb).
  assert (Hn3 : is_nan m3 = false) by (unfold m3; by rewrite nmin_nan, Hn2, Hnc).
  split_and!.
  - by apply nmax_ge_l.
  - apply nmax_lub; [done|]. eapply nleb_trans; [by apply nmin_le_l|].
    eapply nleb_trans; [by apply nmin_le_l|]. by apply nmin_le_r.
  - apply nmax_lub; [done|]. eapply nleb_trans; [by apply nmin_le_l|]. by apply nmin_le_r.
  - apply nmax_lub; [done|]. by apply nmin_le_r.
Qed.

(** A buy is sized between zero and each of the available KRW, the
    remaining capacity of the asset and the remaining capacity of the
    portfolio. *)
Lemma buy_capacity c :
  sound_amounts c = true ->
  action (decidePositionGuardCore c) = Action.ENTER \/
  action (decidePositionGuardCore c) = Action.ADD ->
  let t := targetNotionalKrw (decidePositionGuardCore c) in
  let g := exposureGuardrails (decidePositionGuardCore c) in
  nleb zero t = true /\ nleb t (availableKrw c) = true /\
  nleb t (remainingAssetCapacity g) = true /\ nleb t (remainingPortfolioCapacity g) = true.
Proof.
  intros Hs Hact. revert Hact.
  destruct (decide_origin c) as [| |r _|d r _ Hr|act disp sat r Hcap _ _];
    try (intros [?|?]; discriminate).
  - apply decideReduceAction_Some in Hr as (plan & _ & -> & _). intros [?|?]; discriminate.
  - intros _. exact (buy_target_bounds c act disp _ _ r sat Hs Hcap).
Qed.

(** An amount between zero and each of the available KRW, what is left of the
    asset's share of the equity after its present market value, and what is
    left of the portfolio's share after the present total exposure; the equity
    is the larger of the reported total and the available KRW. *)
Definition within_account (c : PositionGuardStrategyContext) (t : num) : Prop :=
  let equity := nmax (totalEquityKrw (portfolio c)) (availableKrw c) in
  let share := getEffectivePerAssetMaxAllocation (settings c) (analysis c) in
  nleb zero t = true /\ nleb t (availableKrw c) = true /\
  nleb t (nmax zero (nsub (nmul equity share) (assetMarketValueKrw (portfolio c)))) = true /\
  nleb t (nmax zero (nsub (nmul equity (totalPortfolioMaxExposure (settings c)))
                          (totalExposureKrw (portfolio c)))) = true.

Lemma buy_sized c :
  sound_amounts c = true ->
  action (decidePositionGuardCore c) = Action.ENTER \/
  action (decidePositionGuardCore c) = Action.ADD ->
  within_account c (targetNotionalKrw (decidePositionGuardCore c)).
Proof.
  intros Hs Hact. pose proof (buy_capacity c Hs Hact) as H. cbv zeta in H.
  assert (Hg : exposureGuardrails (decidePositionGuardCore c) = buildExposureGuardrails c).
  { destruct (decide_origin c) as [| |r _|d r _ Hr|act disp sat r Hcap _ _]; try done.
    unfold decideReduceAction in Hr. destruct (getStructuredReducePlan _ _); [|done].
    by injection Hr as <-. }
  rewrite Hg in H. exact H.
Qed.

(** C29: a buy is sized between zero and each of the available KRW, what is
    left of the asset's share of the equity after its present market value,
    and what is left of the portfolio's share after the present total
    exposure; the equity is the larger of the reported total and the available
    KRW.  This holds when the equity, the available KRW and the two allocation
    settings are finite and the minimum trade value is not negative. *)
Theorem buy_within_capacity c :
  sound_amounts c = true ->
  action (decidePositionGuardCore c) = Action.ENTER \/
  action (decidePositionGuardCore c) = Action.ADD ->
  within_account c (targetNotionalKrw (decidePositionGuardCore c)).
Proof. apply buy_sized. Qed.

(** A buy executed after confirmation answers a decision of exactly one
    hour bucket earlier, deferred, for the same action, entry path and quality
    bucket. *)
Theorem confirmation_has_antecedent c :
  executionDisposition (decidePositionGuardCore c) = Disposition.EXECUTED_AFTER_CONFIRMATION ->
  exists latest p n,
    latestDecision c = Some latest /\
    prev_action latest = action (decidePositionGuardCore c) /\
    prev_executionDisposition latest = Disposition.DEFERRED_CONFIRMATION /\
    prev_entryPath latest = entryPath (analysis c) /\
    prev_qualityBucket latest = bucket (signalQuality (decidePositionGuardCore c)) /\
    toHourlyBucketMs (prev_createdAt latest) = Some p /\
    toHourlyBucketMs (generatedAt c) = Some n /\ n - p = 3600000.
Proof.
  destruct (decide_origin c) as [| |r _|d r _ Hr|act disp sat r _ Hpend _]; simpl; try done.
  - apply decideReduceAction_Some in Hr as (plan & _ & _ & _ & _ & ->). done.
  - intros Hd. specialize (Hpend Hd). unfold hasPendingBullishConfirmation in Hpend.
    destruct (latestDecision c) as [latest|]; [|done].
    destruct (_ || _) eqn:Hg; [done|]. destruct_bools.
    unfold isImmediatePreviousHourlyDecision in *.
    destruct (toHourlyBucketMs (prev_createdAt latest)) as [p|] eqn:Ep; [|done].
    destruct (toHourlyBucketMs (generatedAt c)) as [n|] eqn:En; [|done].
    destruct_bools. exists latest, p, n. split_and!; try done.
Qed.

(** *** Reductions *)

Lemma buildStructuredReducePlan_Some c f q why plan :
  buildStructuredReducePlan c f q why = Some plan ->
  plan_reduceFraction plan = f /\ hasMinimumReduceOrderValue c f = true.
Proof.
  unfold buildStructuredReducePlan. destruct (hasMinimumReduceOrderValue c f) eqn:E; [|done].
  by intros [= <-].
Qed.

(** The fraction of a plan is one of the fractions the rules compute. *)
Definition defensive_fractions (base : num) : list num :=
  [nmin (lit 45 2) (nmax (lit 25 2) (nmul base (lit 9 1)));
   nmin (lit 55 2) (nmax (lit 3 1) base);
   nmin (lit 28 2) (nmax (lit 15 2) (nmul base (lit 5 1)))].

Definition legacy_fractions (base : num) : list num :=
  [nmin (lit 35 2) (nmax (lit 15 2) (nmul base (lit 5 1)));
   nmin (lit 9 1) (nmul base (lit 175 2));
   nmin (lit 75 2) (nmul base (lit 12 1));
   nmax (lit 2 1) (nmul base (lit 65 2))].

(** Membership of a term that occurs syntactically. *)
Ltac in_list :=
  lazymatch goal with
  | |- ?x ∈ ?y :: _ => first [constr_eq x y; left | right; in_list]
  end.

Ltac plan_case :=
  lazymatch goal with
  | |- None = Some _ -> _ => discriminate
  | |- buildStructuredReducePlan _ _ _ _ = Some _ -> _ =>
      intros (-> & ?)%buildStructuredReducePlan_Some; split; [in_list | assumption]
  | |- (if ?b then _ else _) = Some _ -> _ => destruct b; plan_case
  end.

Lemma defensive_plan_Some c s plan :
  getDefensiveExposureReducePlan c s = Some plan ->
  plan_reduceFraction plan ∈ defensive_fractions (reduceFraction (settings c)) /\
  hasMinimumReduceOrderValue c (plan_reduceFraction plan) = true.
Proof. unfold getDefensiveExposureReducePlan, defensive_fractions. cbv zeta. plan_case. Qed.

Lemma graduated_fraction s base :
  getGraduatedReduceFraction s base ∈ legacy_fractions base.
Proof.
  unfold getGraduatedReduceFraction, legacy_fractions.
  destruct (7 <=? s); [in_list|]. destruct (5 <=? s); in_list.
Qed.

Lemma legacy_plan_Some c s plan :
  getLegacyStructuredReducePlan c s = Some plan ->
  plan_reduceFraction plan ∈ legacy_fractions (reduceFraction (settings c)) /\
  hasMinimumReduceOrderValue c (plan_reduceFraction plan) = true.
Proof.
  unfold getLegacyStructuredReducePlan. cbv zeta.
  destruct (_ === Weakening.SOFT); [destruct (_ || _); [discriminate|]|].
  { intros (-> & ?)%buildStructuredReducePlan_Some. split; [|assumption].
    unfold legacy_fractions. in_list. }
  destruct (_ && _); [discriminate|]. destruct (s <? _); [discriminate|].
  intros (-> & ?)%buildStructuredReducePlan_Some. split; [apply graduated_fraction | assumption].
Qed.

Lemma reduce_plan_Some c plan :
  reduce_plan c = Some plan ->
  plan_reduceFraction plan
    ∈ defensive_fractions (reduceFraction (settings c)) ++ legacy_fractions (reduceFraction (settings c)) /\
  hasMinimumReduceOrderValue c (plan_reduceFraction plan) = true.
Proof.
  unfold reduce_plan, getStructuredReducePlan. rewrite elem_of_app.
  destruct (getDefensiveExposureReducePlan _ _) as [p1|] eqn:H1;
  destruct (getLegacyStructuredReducePlan _ _) as [p2|] eqn:H2;
  try destruct (nltb _ _); intros [= <-];
  first [apply defensive_plan_Some in H1 as [? ?]; split; [left|]; assumption
        |apply legacy_plan_Some in H2 as [? ?]; split; [right|]; assumption].
Qed.

Lemma reduce_decision_plan c :
  action (decidePositionGuardCore c) = Action.REDUCE ->
  exists plan, reduce_plan c = Some plan /\
    targetQuantityFraction (decidePositionGuardCore c) = Some (plan_reduceFraction plan).
Proof.
  destruct (decide_origin c) as [| |r _|d r _ Hr|[] disp sat r _ _ _]; try done.
  intros _. apply decideReduceAction_Some in Hr as (plan & ? & _ & ? & _). eauto.
Qed.

(** A reduction is never dust: the quantity handed to the order path,
    rounded to twelve decimals, is worth at least the minimum trade value at
    the current price. *)
Theorem reduce_order_not_dust c :
  sd_action (decide_strategy c) = Action.REDUCE ->
  exists q, sd_requestedQuantity (decide_strategy c) = Some q /\
    sd_requestedNotionalKrw (decide_strategy c) = None /\
    nleb (minimumTradeValueKrw (settings c)) (nmul q (currentPrice (analysis c))) = true.
Proof.
  unfold decide_strategy, toStrategyDecision. cbn.
  intros Hact. destruct (reduce_decision_plan c Hact) as (plan & Hp & Hf).
  rewrite Hact, Hf. cbn. eexists. split; [reflexivity|]. split; [done|].
  apply reduce_plan_Some in Hp as [_ Hp]. exact Hp.
Qed.

(** With the default settings a reduction sells between 15% and 60% of the
    position, so it never closes it. *)
Theorem default_reduce_fraction c :
  settings c = DEFAULT_POSITION_GUARD_STRATEGY_SETTINGS ->
  action (decidePositionGuardCore c) = Action.REDUCE ->
  exists f, targetQuantityFraction (decidePositionGuardCore c) = Some f /\
    nleb (lit 15 2) f = true /\ nleb f (lit 60 2) = true.
Proof.
  intros Hset Hact. destruct (reduce_decision_plan c Hact) as (plan & Hp & ->).
  eexists. split; [reflexivity|]. apply reduce_plan_Some in Hp as [Hin _].
  rewrite Hset in Hin. generalize dependent (plan_reduceFraction plan). intros f Hin.
  repeat (apply elem_of_cons in Hin as [->|Hin]; [by split; vm_compute|]).
  by apply elem_of_nil in Hin.
Qed.

(** ** Concrete contexts *)

Definition sample_analysis : PositionGuardStructureAnalysis := {|
  regime := Regime.BULL_TREND; riskLevel := RiskLevel.LOW;
  invalidationState := Invalidation.CLEAR; invalidationLevel := Some (lit 90000000 0);
  pullbackZone := false; reclaimStructure := true; breakoutHoldStructure := false;
  upperRangeChase := false; currentPrice := lit 100000000 0; entryPath := EntryPath.RECLAIM;
  trendAlignmentScore := 5; recoveryQualityScore := 4; breakdownPressureScore := 0;
  weakeningStage := Weakening.NONE; breakdown1d := false; breakdown4h := false;
  failedReclaim := false; bearishMomentumExpansion := false; volumeRecovery := true;
  macdImproving := true; rsiRecovery := true; atrShock := false;
  averageEntryPrice := zero; pnlPct := zero;
  oneHourLocation := Some Location.MIDDLE; fourHourLocation := Some Location.MIDDLE;
|}.

Definition sample_context : PositionGuardStrategyContext := {|
  asset := Asset.BTC; market := Market.KRW_BTC; generatedAt := "2026-08-21T04:08:24.756Z";
  availableKrw := lit 1000000 0; positionQuantity := zero; ctx_averageEntryPrice := zero;
  portfolio := {| totalEquityKrw := lit 1000000 0; assetMarketValueKrw := zero;
                  totalExposureKrw := zero |};
  latestDecision := None;
  recentExit := {| exit_createdAt := None; hoursSinceExit := None; realizedPnl := None |};
  settings := DEFAULT_POSITION_GUARD_STRATEGY_SETTINGS;
  analysis := sample_analysis;
|}.

(** A borderline breakout, deferred the hour before. *)
Definition sample_confirmation : PositionGuardStrategyContext := {|
  asset := Asset.BTC; market := Market.KRW_BTC; generatedAt := "2026-08-21T04:00:05Z";
  availableKrw := lit 1000000 0; positionQuantity := zero; ctx_averageEntryPrice := zero;
  portfolio := portfolio sample_context;
  latestDecision := Some {| prev_action := Action.ENTER;
    prev_executionDisposition := Disposition.DEFERRED_CONFIRMATION;
    prev_entryPath := EntryPath.BREAKOUT_HOLD; prev_qualityBucket := Bucket.HIGH;
    prev_createdAt := "2026-08-21T12:59:59.999+09:00" |};
  recentExit := recentExit sample_context;
  settings := DEFAULT_POSITION_GUARD_STRATEGY_SETTINGS;
  analysis := {|
    regime := Regime.EARLY_RECOVERY; riskLevel := RiskLevel.LOW;
    invalidationState := Invalidation.CLEAR; invalidationLevel := None;
    pullbackZone := false; reclaimStructure := false; breakoutHoldStructure := true;
    upperRangeChase := false; currentPrice := lit 100000000 0; entryPath := EntryPath.BREAKOUT_HOLD;
    trendAlignmentScore := 3; recoveryQualityScore := 4; breakdownPressureScore := 0;
    weakeningStage := Weakening.NONE; breakdown1d := false; breakdown4h := false;
    failedReclaim := false; bearishMomentumExpansion := false; volumeRecovery := true;
    macdImproving := false; rsiRecovery := false; atrShock := false;
    averageEntryPrice := zero; pnlPct := zero;
    oneHourLocation := Some Location.MIDDLE; fourHourLocation := Some Location.MIDDLE |};
|}.

(** A profitable position in a weak downtrend. *)
Definition sample_reduce : PositionGuardStrategyContext := {|
  asset := Asset.BTC; market := Market.KRW_BTC; generatedAt := "2026-08-21T04:00:05Z";
  availableKrw := lit 100000 0; positionQuantity := lit 1 2; ctx_averageEntryPrice := lit 90000000 0;
  portfolio := portfolio sample_context; latestDecision := None;
  recentExit := recentExit sample_context;
  settings := DEFAULT_POSITION_GUARD_STRATEGY_SETTINGS;
  analysis := {|
    regime := Regime.WEAK_DOWNTREND; riskLevel := RiskLevel.MODERATE;
    invalidationState := Invalidation.CLEAR; invalidationLevel := None;
    pullbackZone := false; reclaimStructure := false; breakoutHoldStructure := false;
    upperRangeChase := false; currentPrice := lit 100000000 0; entryPath := EntryPath.NONE;
    trendAlignmentScore := 1; recoveryQualityScore := 0; breakdownPressureScore := 2;
    weakeningStage := Weakening.SOFT; breakdown1d := false; breakdown4h := false;
    failedReclaim := true; bearishMomentumExpansion := false; volumeRecovery := false;
    macdImproving := false; rsiRecovery := false; atrShock := false;
    averageEntryPrice := lit 90000000 0; pnlPct := lit 11 2;
    oneHourLocation := None; fourHourLocation := None |};
|}.

Lemma buy_within_capacity_witness :
  targetNotionalKrw (decidePositionGuardCore sample_context) = lit 300000 0 /\
  nleb (targetNotionalKrw (decidePositionGuardCore sample_context)) (lit 1000000 0) = true.
Proof.
  split; [vm_compute; reflexivity|].
  exact (proj1 (proj2 (buy_within_capacity sample_context eq_refl (or_introl eq_refl)))).
Defined.

Lemma confirmation_has_antecedent_witness :
  exists latest p n, latestDecision sample_confirmation = Some latest /\
    toHourlyBucketMs (prev_createdAt latest) = Some p /\
    toHourlyBucketMs (generatedAt sample_confirmation) = Some n /\ n - p = 3600000.
Proof.
  destruct (confirmation_has_antecedent sample_confirmation) as (l & p & n & H1 & _ & _ & _ & _ & H2);
    [vm_compute; reflexivity|].
  exists l, p, n. exact (conj H1 H2).
Defined.

Lemma reduce_order_not_dust_witness :
  exists q, sd_requestedQuantity (decide_strategy sample_reduce) = Some q /\
    nleb (lit 5000 0) (nmul q (lit 100000000 0)) = true.
Proof.
  destruct (reduce_order_not_dust sample_reduce) as (q & H1 & _ & H2); [vm_compute; reflexivity|].
  exists q. exact (conj H1 H2).
Defined.

Lemma default_reduce_fraction_witness :
  exists f, targetQuantityFraction (decidePositionGuardCore sample_reduce) = Some f /\
    nleb f (lit 60 2) = true.
Proof.
  destruct (default_reduce_fraction sample_reduce) as (f & H1 & _ & H2);
    [reflexivity | vm_compute; reflexivity |].
  exists f. exact (conj H1 H2).
Defined.
