(* ===== verification/Risk.v ===== *)
(** * Risk: the pre-trade risk guards

    modules/risk/guards.ts: [evaluateRiskGuards] collects, in a fixed order,
    every rule a requested order breaks; the order is accepted when none is. *)

From stdpp Require Import base option list strings.
From Stdlib Require Import ZArith Lia.
From S2P Require Import Prelude Num Types Text NumText Timestamp.

(** ** Data *)

Record ExecutionPolicy := {
  executionMode : ExecutionMode;
  liveExecutionGate : LiveExecutionGate;
  globalKillSwitch : bool;
  maxAllocationByAsset : SupportedAsset -> num;
  totalExposureCap : num;
  stalePriceThresholdMs : num;
  minimumOrderValueKrw : num;
}.

Record PriceSnapshot := {
  ps_market : SupportedMarket;
  tradePrice : num;
  capturedAt : string;
}.

Record PortfolioExposureSnapshot := {
  totalEquityKrw : num;
  totalExposureKrw : num;
  assetExposureKrw : SupportedAsset -> num;
}.

(** The fields of an order record the guards receive. *)
Record OpenOrder := {
  order_market : SupportedMarket;
  order_side : OrderSide;
  order_ordType : OrderType;
  order_price : option string;
  order_volume : option string;
  order_status : OrderLifecycleStatus;
  order_identifier : string;
  order_idempotencyKey : string;
}.

Record RiskEvaluationContext := {
  policy : ExecutionPolicy;
  systemStatus : SystemStatus;
  market : SupportedMarket;
  priceSnapshot : option PriceSnapshot;
  portfolio : PortfolioExposureSnapshot;
  openOrders : list OpenOrder;
  requestedSide : OrderSide;
  requestedIdempotencyKey : string;
  requestedPrice : option string;
  requestedVolume : option string;
  requestedNotionalKrw : option num;
  requestedQuantity : option num;
  now : string;
}.

Record TriggeredRule := {
  code : RiskRuleCode;
  level : RiskEventLevel;
  message : string;
}.

Record RiskEvaluationResult := {
  accepted : bool;
  triggeredRules : list TriggeredRule;
}.

(** ** Operations *)

Local Open Scope js_scope.
Local Open Scope string_scope.
Local Open Scope bool_scope.

Definition ACTIVE_DUPLICATE_STATUSES : list OrderLifecycleStatus :=
  [OrderStatus.INTENT_CREATED; OrderStatus.PERSISTED; OrderStatus.SUBMITTING; OrderStatus.OPEN;
   OrderStatus.PARTIALLY_FILLED; OrderStatus.CANCEL_REQUESTED; OrderStatus.RECONCILIATION_REQUIRED].

Definition block (c : RiskRuleCode) (m : string) : TriggeredRule :=
  {| code := c; level := RiskLevelEvent.BLOCK; message := m |}.

(** [value ? String(Number(value)) : null]: the empty string is falsy. *)
Definition normalizeOptionalNumberString (value : option string) : option string :=
  match value with
  | None => None
  | Some s => if s === "" then None else Some (num_to_string (Number_of_string s))
  end.

Definition matchesRequestShape (o : OpenOrder) (c : RiskEvaluationContext) : bool :=
  (order_market o === market c)
  && (order_side o === requestedSide c)
  && (normalizeOptionalNumberString (order_price o)
      === normalizeOptionalNumberString (requestedPrice c))
  && (normalizeOptionalNumberString (order_volume o)
      === normalizeOptionalNumberString (requestedVolume c)).

Definition hasDuplicateOpenOrder (c : RiskEvaluationContext) : bool :=
  existsb (fun o =>
    if negb (includes ACTIVE_DUPLICATE_STATUSES (order_status o)) then false
    else (order_idempotencyKey o === requestedIdempotencyKey c) || matchesRequestShape o c)
    (openOrders c).

(** [Date.parse(s)] as a number. *)
Definition date_number (s : string) : num := from_option num_of_Z NaN (Date_parse s).

(** [if (condition) triggeredRules.push(block(code, message));] *)
Definition push_if (condition : bool) (c : RiskRuleCode) (m : string) : list TriggeredRule :=
  if condition then [block c m] else [].

Definition stale_price_rules (c : RiskEvaluationContext) : list TriggeredRule :=
  match priceSnapshot c with
  | None => [block RiskRule.STALE_PRICE_GUARD "No price snapshot is available for risk evaluation."]
  | Some snapshot =>
      let ageMs := nsub (date_number (now c)) (date_number (capturedAt snapshot)) in
      push_if (negb (is_finite ageMs) || nltb (stalePriceThresholdMs (policy c)) (nabs ageMs))
        RiskRule.STALE_PRICE_GUARD "Price snapshot is stale or outside the allowed clock skew."
  end.

Definition exposure_rules (c : RiskEvaluationContext) : list TriggeredRule :=
  match requestedNotionalKrw c with
  | None => []
  | Some notional =>
      let asset := getAssetForMarket (market c) in
      let exposureDeltaKrw := if requestedSide c === Side.ask then nopp notional else notional in
      let projectedAssetExposure :=
        nmax zero (nadd (assetExposureKrw (portfolio c) asset) exposureDeltaKrw) in
      let projectedTotalExposure :=
        nmax zero (nadd (totalExposureKrw (portfolio c)) exposureDeltaKrw) in
      if nltb zero exposureDeltaKrw then
        let assetExposureCap :=
          nmul (totalEquityKrw (portfolio c)) (maxAllocationByAsset (policy c) asset) in
        let totalCap := nmul (totalEquityKrw (portfolio c)) (totalExposureCap (policy c)) in
        push_if (nltb assetExposureCap projectedAssetExposure) RiskRule.PER_ASSET_MAX_ALLOCATION
          ("Projected " ++ Asset.to_string asset ++ " exposure exceeds configured max allocation.")
        ++ push_if (nltb totalCap projectedTotalExposure) RiskRule.TOTAL_EXPOSURE_CAP
          "Projected total exposure exceeds configured cap."
      else []
  end%list.

Definition evaluateRiskGuards (c : RiskEvaluationContext) : RiskEvaluationResult :=
  let p := policy c in
  let triggered :=
    (push_if (globalKillSwitch p || (systemStatus c === SysStatus.KILL_SWITCHED))
      RiskRule.GLOBAL_KILL_SWITCH "Global kill switch is active."
    ++ push_if (systemStatus c === SysStatus.PAUSED)
      RiskRule.EXECUTION_PAUSED "Execution is paused by operator state."
    ++ push_if (systemStatus c === SysStatus.DEGRADED)
      RiskRule.SYSTEM_DEGRADED
      "Execution is blocked while the system is DEGRADED pending operator review."
    ++ push_if ((executionMode p === Mode.LIVE) && (liveExecutionGate p === Gate.DISABLED))
      RiskRule.LIVE_EXECUTION_DISABLED
      "LIVE mode is requested but live execution gate is disabled."
    ++ stale_price_rules c
    ++ push_if (match requestedNotionalKrw c with
                | Some notional => nltb notional (minimumOrderValueKrw p)
                | None => false end)
      RiskRule.MINIMUM_ORDER_VALUE_GUARD "Requested order value is below the configured minimum."
    ++ push_if (hasDuplicateOpenOrder c)
      RiskRule.DUPLICATE_ORDER_GUARD "A matching active order already exists."
    ++ exposure_rules c)%list in
  {| accepted := match triggered with [] => true | _ => false end; triggeredRules := triggered |}.

(** ** What acceptance means *)

Local Close Scope string_scope.

(** The system may trade at all. *)
Definition execution_open (c : RiskEvaluationContext) : Prop :=
  globalKillSwitch (policy c) = false /\
  (systemStatus c = SysStatus.BOOTING \/ systemStatus c = SysStatus.RUNNING) /\
  (executionMode (policy c) = Mode.LIVE -> liveExecutionGate (policy c) = Gate.ENABLED).

(** A price exists and both clocks read as instants no further apart than the
    threshold. *)
Definition price_fresh (c : RiskEvaluationContext) : Prop :=
  exists snapshot t1 t2,
    priceSnapshot c = Some snapshot /\
    Date_parse (now c) = Some t1 /\ Date_parse (capturedAt snapshot) = Some t2 /\
    let age := nsub (num_of_Z t1) (num_of_Z t2) in
    is_finite age = true /\ nltb (stalePriceThresholdMs (policy c)) (nabs age) = false.

(** No live order carries the requested key or asks for the same thing. *)
Definition no_live_duplicate (c : RiskEvaluationContext) : Prop :=
  forall o, o ∈ openOrders c ->
    order_status o ∈ ACTIVE_DUPLICATE_STATUSES ->
    order_idempotencyKey o ≠ requestedIdempotencyKey c /\
    ~ (order_market o = market c /\ order_side o = requestedSide c /\
       normalizeOptionalNumberString (order_price o)
         = normalizeOptionalNumberString (requestedPrice c) /\
       normalizeOptionalNumberString (order_volume o)
         = normalizeOptionalNumberString (requestedVolume c)).

(** An order that adds exposure leaves neither the asset's exposure above its
    share of the equity nor the total exposure above the total share.  A sell
    counts with the opposite sign, and a comparison with NaN exceeds nothing. *)
Definition within_caps (c : RiskEvaluationContext) : Prop :=
  forall n, requestedNotionalKrw c = Some n ->
    let added := match requestedSide c with Side.bid => n | Side.ask => nopp n end in
    let asset := getAssetForMarket (market c) in
    let equity := totalEquityKrw (portfolio c) in
    nltb zero added = true ->
    nltb (nmul equity (maxAllocationByAsset (policy c) asset))
         (nmax zero (nadd (assetExposureKrw (portfolio c) asset) added)) = false /\
    nltb (nmul equity (totalExposureCap (policy c)))
         (nmax zero (nadd (totalExposureKrw (portfolio c)) added)) = false.

Lemma push_if_nil b c m : push_if b c m = [] <-> b = false.
Proof. by destruct b. Qed.

Lemma matchesRequestShape_true o c :
  matchesRequestShape o c = true <->
  order_market o = market c /\ order_side o = requestedSide c /\
  normalizeOptionalNumberString (order_price o)
    = normalizeOptionalNumberString (requestedPrice c) /\
  normalizeOptionalNumberString (order_volume o)
    = normalizeOptionalNumberString (requestedVolume c).
Proof. unfold matchesRequestShape. rewrite !andb_true_iff, !bool_decide_eq_true. tauto. Qed.

Lemma hasDuplicateOpenOrder_false c : hasDuplicateOpenOrder c = false <-> no_live_duplicate c.
Proof.
  unfold no_live_duplicate. rewrite <- not_true_iff_false.
  unfold hasDuplicateOpenOrder. rewrite existsb_exists. split.
  - intros Hn o Ho Hs. split; [intros Hk|intros Hm]; apply Hn; exists o;
      (split; [by apply list_elem_of_In|]);
      rewrite (proj2 (includes_true _ _) Hs); simpl; apply orb_true_iff.
    + left. by apply bool_decide_eq_true.
    + right. by apply matchesRequestShape_true.
  - intros Hd (o & Ho%list_elem_of_In & H).
    destruct (includes ACTIVE_DUPLICATE_STATUSES (order_status o)) eqn:Hs; [|done].
    apply includes_true in Hs. destruct (Hd o Ho Hs) as [Hk Hm]. simpl in H.
    apply orb_true_iff in H as [H|H]; [by apply bool_decide_eq_true in H|].
    by apply matchesRequestShape_true in H.
Qed.

Lemma date_number_finite s t :
  is_finite (nsub (date_number s) (date_number t)) = true ->
  exists a b, Date_parse s = Some a /\ Date_parse t = Some b.
Proof.
  unfold date_number. destruct (Date_parse s) as [a|], (Date_parse t) as [b|]; simpl; eauto.
  all: try discriminate; destruct (num_of_Z _) as [| | |]; discriminate.
Qed.

Lemma stale_price_rules_nil c : stale_price_rules c = [] <-> price_fresh c.
Proof.
  unfold stale_price_rules, price_fresh. destruct (priceSnapshot c) as [s|].
  2: { split; [discriminate|]. intros (? & ? & ? & ? & _). discriminate. }
  rewrite push_if_nil. split.
  - intros H. destruct_bools.
    destruct (date_number_finite _ _ ltac:(eassumption)) as (a & b & Ha & Hb).
    exists s, a, b. unfold date_number in *. rewrite Ha, Hb in *. by split_and!.
  - intros (s' & a & b & [= <-] & Ha & Hb & Hf & Hlt). unfold date_number.
    rewrite Ha, Hb. simpl. by rewrite Hf, Hlt.
Qed.

Lemma accepted_nil c : accepted (evaluateRiskGuards c) = true <-> triggeredRules (evaluateRiskGuards c) = [].
Proof. simpl. by destruct (_ ++ _). Qed.

Lemma exposure_rules_nil c : exposure_rules c = [] <-> within_caps c.
Proof.
  unfold exposure_rules, within_caps. destruct (requestedNotionalKrw c) as [n|].
  2: { split; [|done]. intros _ n. discriminate. }
  assert (Hs : (if requestedSide c === Side.ask then nopp n else n)
               = match requestedSide c with Side.bid => n | Side.ask => nopp n end)
    by (by destruct (requestedSide c)).
  rewrite Hs. cbv zeta. destruct (nltb zero _) eqn:E.
  - rewrite app_nil, !push_if_nil. split; [intros H m [= <-] _; exact H|].
    intros H. by apply (H n).
  - split; [|done]. intros _ m [= <-] Hlt. congruence.
Qed.

Lemma accepts_iff c :
  accepted (evaluateRiskGuards c) = true <->
  execution_open c /\ price_fresh c /\
  (forall n, requestedNotionalKrw c = Some n -> nltb n (minimumOrderValueKrw (policy c)) = false) /\
  no_live_duplicate c /\ within_caps c.
Proof.
  rewrite accepted_nil. unfold evaluateRiskGuards, execution_open. cbn [triggeredRules].
  rewrite !app_nil, !push_if_nil, stale_price_rules_nil, hasDuplicateOpenOrder_false,
    exposure_rules_nil.
  rewrite orb_false_iff, andb_false_iff, !bool_decide_eq_false.
  assert (Hmin : (match requestedNotionalKrw c with
                  | Some n => nltb n (minimumOrderValueKrw (policy c)) | None => false end) = false
    <-> (forall n, requestedNotionalKrw c = Some n -> nltb n (minimumOrderValueKrw (policy c)) = false)).
  { destruct (requestedNotionalKrw c); naive_solver. }
  rewrite Hmin.
  destruct (systemStatus c), (executionMode (policy c)), (liveExecutionGate (policy c)); naive_solver.
Qed.

(** C8: the guards accept an order exactly when execution is open, the price
    is fresh, the order is not below the minimum value, no live order
    duplicates it, and, when it adds exposure, the exposure of its asset and
    the total exposure it would leave stay within their shares of the equity. *)
Theorem risk_accepts_iff c :
  accepted (evaluateRiskGuards c) = true <->
  execution_open c /\ price_fresh c /\
  (forall n, requestedNotionalKrw c = Some n -> nltb n (minimumOrderValueKrw (policy c)) = false) /\
  no_live_duplicate c /\ within_caps c.
Proof. apply accepts_iff. Qed.

Lemma exposure_rules_codes c r :
  r ∈ exposure_rules c ->
  exists n, requestedNotionalKrw c = Some n /\
    nltb zero (if requestedSide c === Side.ask then nopp n else n) = true.
Proof.
  unfold exposure_rules. destruct (requestedNotionalKrw c) as [n|]; [|by intros ?%elem_of_nil].
  destruct (nltb zero _) eqn:E; [eauto | by intros ?%elem_of_nil].
Qed.

Lemma nopp_nonneg n : nleb zero n = true -> nltb zero (nopp n) = false.
Proof. destruct n as [[]|[]| |[] m e]; done. Qed.

(** Reducing exposure is never stopped by an exposure cap: a sell of a
    non-negative value triggers neither the per-asset nor the total cap,
    however large the exposures. *)
Theorem sell_never_capped c n :
  requestedSide c = Side.ask -> requestedNotionalKrw c = Some n -> nleb zero n = true ->
  forall r, r ∈ triggeredRules (evaluateRiskGuards c) ->
    code r ≠ RiskRule.PER_ASSET_MAX_ALLOCATION /\ code r ≠ RiskRule.TOTAL_EXPOSURE_CAP.
Proof.
  intros Hs Hn Hpos r. unfold evaluateRiskGuards. cbn [triggeredRules].
  assert (Hpush : forall b k m, r ∈ push_if b k m -> code r = k).
  { intros [] k m H; [|by apply elem_of_nil in H].
    apply elem_of_cons in H as [->|H]; [done|by apply elem_of_nil in H]. }
  rewrite !elem_of_app.
  intros [H|[H|[H|[H|[H|[H|[H|H]]]]]]]; try (rewrite (Hpush _ _ _ H); done).
  - unfold stale_price_rules in H. destruct (priceSnapshot c).
    + by rewrite (Hpush _ _ _ H).
    + apply elem_of_cons in H as [->|H]; [done|by apply elem_of_nil in H].
  - apply exposure_rules_codes in H as (n' & Hn' & Hlt). rewrite Hs in Hlt.
    rewrite bool_decide_eq_true_2 in Hlt by done. simplify_eq.
    by rewrite nopp_nonneg in Hlt.
Qed.

(** An accepted buy keeps both exposures within their caps, whenever the
    sums and the caps are numbers. *)
Theorem accepted_buy_within_caps c n :
  accepted (evaluateRiskGuards c) = true ->
  requestedSide c = Side.bid -> requestedNotionalKrw c = Some n -> nltb zero n = true ->
  let asset := getAssetForMarket (market c) in
  let assetExposure := nadd (assetExposureKrw (portfolio c) asset) n in
  let totalExposure := nadd (totalExposureKrw (portfolio c)) n in
  let assetCap := nmul (totalEquityKrw (portfolio c)) (maxAllocationByAsset (policy c) asset) in
  let totalCap := nmul (totalEquityKrw (portfolio c)) (totalExposureCap (policy c)) in
  (is_nan assetExposure = false -> is_nan assetCap = false -> nleb assetExposure assetCap = true) /\
  (is_nan totalExposure = false -> is_nan totalCap = false -> nleb totalExposure totalCap = true).
Proof.
  intros Hacc Hside Hn Hpos. cbv zeta.
  apply accepted_nil in Hacc. unfold evaluateRiskGuards in Hacc. cbn [triggeredRules] in Hacc.
  rewrite !app_nil in Hacc. destruct Hacc as (_ & _ & _ & _ & _ & _ & _ & Hexp).
  unfold exposure_rules in Hexp. rewrite Hn, Hside in Hexp.
  rewrite bool_decide_eq_false_2 in Hexp by done. rewrite Hpos in Hexp.
  rewrite app_nil, !push_if_nil in Hexp. destruct Hexp as [Ha Ht].
  assert (Hcap : forall x cap, is_nan x = false -> is_nan cap = false ->
            nltb cap (nmax zero x) = false -> nleb x cap = true).
  { intros x cap Hx Hc Hlt. assert (Hm : is_nan (nmax zero x) = false) by (by rewrite nmax_nan, Hx).
    rewrite nltb_nleb in Hlt by done. apply negb_false_iff in Hlt.
    eapply nleb_trans; [|exact Hlt]. by apply nmax_ge_r. }
  split; intros ? ?; by apply Hcap.
Qed.

(** ** Concrete contexts *)

Definition sample_request (side : OrderSide) (exposure : num) : RiskEvaluationContext := {|
  policy := {| executionMode := Mode.LIVE; liveExecutionGate := Gate.ENABLED;
               globalKillSwitch := false;
               maxAllocationByAsset := fun _ => lit 45 2; totalExposureCap := lit 75 2;
               stalePriceThresholdMs := lit 60000 0; minimumOrderValueKrw := lit 5000 0 |};
  systemStatus := SysStatus.RUNNING; market := Market.KRW_BTC;
  priceSnapshot := Some {| ps_market := Market.KRW_BTC; tradePrice := lit 100000000 0;
                           capturedAt := "2026-08-21T04:00:00.000Z" |};
  portfolio := {| totalEquityKrw := lit 1000000 0; totalExposureKrw := exposure;
                  assetExposureKrw := fun _ => exposure |};
  openOrders := [{| order_market := Market.KRW_BTC; order_side := Side.bid;
                    order_ordType := OrdType.price; order_price := Some "20000.0"%string;
                    order_volume := None; order_status := OrderStatus.OPEN;
                    order_identifier := "pg-1"; order_idempotencyKey := "k1" |}];
  requestedSide := side; requestedIdempotencyKey := "k2"; requestedPrice := Some "10000"%string;
  requestedVolume := None; requestedNotionalKrw := Some (lit 10000 0);
  requestedQuantity := None; now := "2026-08-21T13:00:30+09:00";
|}.

(** The resting order of the sample asks for the same thing spelled
    differently. *)
Example duplicate_by_value :
  map code (triggeredRules (evaluateRiskGuards
    {| policy := policy (sample_request Side.bid zero); systemStatus := SysStatus.RUNNING;
       market := Market.KRW_BTC; priceSnapshot := priceSnapshot (sample_request Side.bid zero);
       portfolio := portfolio (sample_request Side.bid zero);
       openOrders := openOrders (sample_request Side.bid zero);
       requestedSide := Side.bid; requestedIdempotencyKey := "k2";
       requestedPrice := Some "2e4"%string; requestedVolume := Some ""%string;
       requestedNotionalKrw := Some (lit 20000 0); requestedQuantity := None;
       now := "2026-08-21T13:00:30+09:00" |})) = [RiskRule.DUPLICATE_ORDER_GUARD].
Proof. vm_compute. reflexivity. Qed.

Lemma sell_never_capped_witness :
  accepted (evaluateRiskGuards (sample_request Side.ask (lit 5000000 0))) = true /\
  forall r, r ∈ triggeredRules (evaluateRiskGuards (sample_request Side.ask (lit 5000000 0))) ->
    code r ≠ RiskRule.PER_ASSET_MAX_ALLOCATION /\ code r ≠ RiskRule.TOTAL_EXPOSURE_CAP.
Proof.
  split; [vm_compute; reflexivity|].
  exact (sell_never_capped (sample_request Side.ask (lit 5000000 0)) (lit 10000 0)
           eq_refl eq_refl eq_refl).
Defined.

Lemma accepted_buy_within_caps_witness :
  nleb (nadd (lit 300000 0) (lit 10000 0)) (nmul (lit 1000000 0) (lit 45 2)) = true.
Proof.
  refine (proj1 (accepted_buy_within_caps (sample_request Side.bid (lit 300000 0)) (lit 10000 0)
                   _ eq_refl eq_refl eq_refl) _ _); vm_compute; reflexivity.
Defined.
