(* ===== verification/CandidateState.v ===== *)
(** * CandidateState: the candidate pilot's episode state

    modules/strategy/position-guard-candidate-state.ts: the episode ledger the
    candidate policy reads (add count, cost basis, inventory, realized PnL,
    last full exit, chronology cursor), the validators of a state and of an
    execution evidence, one advance by an evidence, and the projection of a
    set of evidence in chronological order.

    Amounts are doubles.  The two counters are integers: the model's states are
    those whose [currentEpisodeAddCount] and [stateVersion] are integers, and
    keeps the range checks.  Records are typed, so the checks that a JavaScript
    object has exactly the declared own data properties and that an enumeration
    field holds one of its literals hold by construction. *)

From stdpp Require Import base option list strings gmap.
From Stdlib Require Import ZArith Lia.
From S2P Require Import Prelude Num Types Text NumText Timestamp.

Local Open Scope Z_scope.

(** ** Data *)

Definition POSITION_GUARD_CANDIDATE_QUANTITY_TOLERANCE : num := lit 1 12.

Inductive PositionGuardCandidateDecimal : Type :=
| DecimalText (s : string)
| DecimalNumber (n : num).

Record PositionGuardCandidateState := {
  currentEpisodeAddCount : Z;
  currentEpisodeCostBasisKrw : num;
  currentEpisodeInventoryQuantity : num;
  currentEpisodeRealizedPnlKrw : num;
  lastFullExitAt : option string;
  lastFullExitRealizedPnlKrw : option num;
  lastEntryPath : option StrategyEntryPath;
  lastEvidenceAt : option string;
  lastEvidenceId : option string;
  stateVersion : Z;
}.

(** [Extract<StrategyDecisionAction, "ENTER" | "ADD" | "REDUCE" | "EXIT">] *)
Module Exec.
Inductive ExecutedAction : Set := ENTER | ADD | REDUCE | EXIT.
#[export] Instance ExecutedAction_eq_dec : EqDecision ExecutedAction.
Proof. solve_decision. Defined.
Definition to_action (a : ExecutedAction) : StrategyDecisionAction :=
  match a with
  | ENTER => Action.ENTER | ADD => Action.ADD | REDUCE => Action.REDUCE | EXIT => Action.EXIT
  end.
End Exec.
Export (hints) Exec.
Abbreviation ExecutedAction := Exec.ExecutedAction.

Module Terminal.
Inductive TerminalStatus : Set := FILLED | CANCELED.
#[export] Instance TerminalStatus_eq_dec : EqDecision TerminalStatus.
Proof. solve_decision. Defined.
End Terminal.
Export (hints) Terminal.
Abbreviation TerminalStatus := Terminal.TerminalStatus.

(** [PositionGuardCandidateExecutionEvidence], over the type of its amounts:
    the decimals a caller gives, or the numbers of the normalized evidence. *)
Record Evidence (D : Type) := {
  evidenceId : string;
  executedAt : string;
  ev_action : ExecutedAction;
  ev_entryPath : StrategyEntryPath;
  terminalStatus : TerminalStatus;
  executedQuantity : D;
  grossQuoteValueKrw : D;
  confirmedFeeKrw : D;
  remainingQuantity : D;
}.
Arguments evidenceId {D} _.
Arguments executedAt {D} _.
Arguments ev_action {D} _.
Arguments ev_entryPath {D} _.
Arguments terminalStatus {D} _.
Arguments executedQuantity {D} _.
Arguments grossQuoteValueKrw {D} _.
Arguments confirmedFeeKrw {D} _.
Arguments remainingQuantity {D} _.

Definition PositionGuardCandidateExecutionEvidence : Type := Evidence PositionGuardCandidateDecimal.
Definition NormalizedPositionGuardCandidateExecutionEvidence : Type := Evidence num.

Definition createEmptyPositionGuardCandidateState : PositionGuardCandidateState := {|
  currentEpisodeAddCount := 0;
  currentEpisodeCostBasisKrw := zero;
  currentEpisodeInventoryQuantity := zero;
  currentEpisodeRealizedPnlKrw := zero;
  lastFullExitAt := None;
  lastFullExitRealizedPnlKrw := None;
  lastEntryPath := None;
  lastEvidenceAt := None;
  lastEvidenceId := None;
  stateVersion := 0;
|}.

(** ** Validation *)

Local Open Scope js_scope.
Local Open Scope string_scope.
Local Open Scope bool_scope.


(** [a === b] of numbers, and [a !== b]. *)
Definition is_zero (x : num) : bool := neqb x zero.

Definition isBuyAction (a : ExecutedAction) : bool := (a === Exec.ENTER) || (a === Exec.ADD).

Definition isPristineCandidateState (s : PositionGuardCandidateState) : bool :=
  (currentEpisodeAddCount s =? 0)%Z
  && is_zero (currentEpisodeCostBasisKrw s)
  && is_zero (currentEpisodeInventoryQuantity s)
  && is_zero (currentEpisodeRealizedPnlKrw s)
  && (lastFullExitAt s === None)
  && (lastFullExitRealizedPnlKrw s === None)
  && (lastEntryPath s === None)
  && (stateVersion s =? 0)%Z.

Definition minimumReachableStateVersion (s : PositionGuardCandidateState) : Z :=
  ((if lastFullExitAt s === None then 0 else 2)
   + (if nltb POSITION_GUARD_CANDIDATE_QUANTITY_TOLERANCE (currentEpisodeInventoryQuantity s)
      then 1 + currentEpisodeAddCount s
           + (if negb (is_zero (currentEpisodeRealizedPnlKrw s)) then 1 else 0)
      else 0))%Z.

Definition validateFullExitMetadata (s : PositionGuardCandidateState) : outcome unit :=
  _ ← match lastFullExitAt s with
      | Some at_ => parsePositionGuardCandidateTimestamp at_ "state lastFullExitAt"
      | None => Ret 0%Z
      end;
  _ ← throw_if (match lastFullExitRealizedPnlKrw s with
                | Some pnl => negb (is_finite pnl) | None => false end)
        "PositionGuard candidate state lastFullExitRealizedPnlKrw must be finite or null.";
  throw_if (negb (Bool.eqb (lastFullExitAt s === None) (lastFullExitRealizedPnlKrw s === None)))
    "PositionGuard candidate state full-exit metadata must be either both null or both non-null.".

Definition validateCursor (s : PositionGuardCandidateState) : outcome unit :=
  _ ← throw_if (match lastEvidenceId s with Some i => is_blank i | None => false end)
        "PositionGuard candidate state lastEvidenceId must be a non-empty string or null.";
  _ ← throw_if (negb (Bool.eqb (lastEvidenceAt s !== None) (lastEvidenceId s !== None)))
        "PositionGuard candidate state cursor metadata must be either both null or both non-null.";
  match lastEvidenceAt s with
  | None =>
      throw_if (negb (isPristineCandidateState s))
        "PositionGuard candidate state may use a null cursor only when the state is empty."
  | Some at_ =>
      cursor ← parsePositionGuardCandidateTimestamp at_ "state lastEvidenceAt";
      _ ← throw_if (stateVersion s =? 0)%Z
            "PositionGuard candidate state with a cursor must have a positive stateVersion.";
      match lastFullExitAt s with
      | None => Ret tt
      | Some exit_at =>
          exit_epoch ← parsePositionGuardCandidateTimestamp exit_at "state lastFullExitAt";
          throw_if (cursor <? exit_epoch)%Z
            "PositionGuard candidate state full-exit metadata cannot be after its chronology cursor."
      end
  end.

(** The part of [validateStateSnapshot] that tells a flat from an open
    episode. *)
Definition validateEpisode (s : PositionGuardCandidateState) : outcome unit :=
  if nleb (currentEpisodeInventoryQuantity s) POSITION_GUARD_CANDIDATE_QUANTITY_TOLERANCE then
    _ ← throw_if (negb (is_zero (currentEpisodeInventoryQuantity s)))
          "Flat PositionGuard candidate state must normalize inventory quantity to zero.";
    _ ← throw_if (negb (is_zero (currentEpisodeCostBasisKrw s))
                  || negb (currentEpisodeAddCount s =? 0)%Z
                  || negb (is_zero (currentEpisodeRealizedPnlKrw s)))
          "Flat PositionGuard candidate state must have zero cost basis, add count, and realized PnL.";
    throw_if ((lastEvidenceAt s !== None) && (lastFullExitAt s === None))
      "Flat PositionGuard candidate state with a cursor requires full-exit metadata."
  else
    throw_if (nleb (currentEpisodeCostBasisKrw s) zero || (lastEntryPath s === None))
      "Open PositionGuard candidate state requires positive cost basis and entry path.".

Definition validateStateSnapshot (s : PositionGuardCandidateState) : outcome unit :=
  _ ← throw_if (currentEpisodeAddCount s <? 0)%Z
        "PositionGuard candidate state currentEpisodeAddCount must be a non-negative integer.";
  _ ← throw_if (negb (is_finite (currentEpisodeInventoryQuantity s))
                || nltb (currentEpisodeInventoryQuantity s) zero)
        "PositionGuard candidate state currentEpisodeInventoryQuantity must be finite and non-negative.";
  _ ← throw_if (negb (is_finite (currentEpisodeCostBasisKrw s))
                || nltb (currentEpisodeCostBasisKrw s) zero)
        "PositionGuard candidate state currentEpisodeCostBasisKrw must be finite and non-negative.";
  _ ← throw_if (negb (is_finite (currentEpisodeRealizedPnlKrw s)))
        "PositionGuard candidate state currentEpisodeRealizedPnlKrw must be finite.";
  _ ← throw_if ((MAX_SAFE_INTEGER <? stateVersion s) || (stateVersion s <? 0))%Z
        "PositionGuard candidate state stateVersion must be a non-negative safe integer.";
  _ ← validateFullExitMetadata s;
  _ ← throw_if ((lastFullExitAt s !== None) && (lastEntryPath s === None))
        "Completed PositionGuard candidate state requires lastEntryPath.";
  _ ← validateCursor s;
  _ ← validateEpisode s;
  throw_if (stateVersion s <? minimumReachableStateVersion s)%Z
    "PositionGuard candidate state stateVersion is below the minimum implied by its persisted episode state.".

Definition validatePositionGuardCandidateState (s : PositionGuardCandidateState) : outcome unit :=
  validateStateSnapshot s.

(** ** Evidence *)

(** The regular expression of [parseCandidateDecimal]. *)
Definition plain_decimal (s : string) : bool :=
  match match_decimal s with Some _ => true | None => false end.

Definition parseCandidateDecimal (value : PositionGuardCandidateDecimal) (label : string) : outcome num :=
  match value with
  | DecimalNumber n =>
      _ ← throw_if (negb (is_finite n) || nltb n zero)
            ("PositionGuard candidate evidence " ++ label ++ " must be finite and non-negative.");
      Ret (if is_zero n then zero else n)
  | DecimalText s =>
      _ ← throw_if (negb (plain_decimal s))
            ("PositionGuard candidate evidence " ++ label ++ " must be a non-negative decimal string.");
      _ ← throw_if (negb (is_finite (Number_of_string s)))
            ("PositionGuard candidate evidence " ++ label ++ " must be finite and non-negative.");
      Ret (Number_of_string s)
  end.

Definition normalizeExecutionEvidence (e : PositionGuardCandidateExecutionEvidence)
    : outcome NormalizedPositionGuardCandidateExecutionEvidence :=
  executed ← parseCandidateDecimal (executedQuantity e) "executedQuantity";
  gross ← parseCandidateDecimal (grossQuoteValueKrw e) "grossQuoteValueKrw";
  fee ← parseCandidateDecimal (confirmedFeeKrw e) "confirmedFeeKrw";
  remaining ← parseCandidateDecimal (remainingQuantity e) "remainingQuantity";
  Ret {| evidenceId := evidenceId e; executedAt := executedAt e; ev_action := ev_action e;
         ev_entryPath := ev_entryPath e; terminalStatus := terminalStatus e;
         executedQuantity := executed; grossQuoteValueKrw := gross;
         confirmedFeeKrw := fee; remainingQuantity := remaining |}.

Definition check_amount (field : string) (value : num) : outcome unit :=
  throw_if (negb (is_finite value) || nltb value zero)
    ("PositionGuard candidate evidence " ++ field ++ " must be finite and non-negative.").

Definition validateExecutionEvidence (e : NormalizedPositionGuardCandidateExecutionEvidence)
    : outcome unit :=
  _ ← throw_if (is_blank (evidenceId e))
        "PositionGuard candidate evidenceId must be a non-empty string.";
  _ ← parsePositionGuardCandidateTimestamp (executedAt e) "evidence executedAt";
  _ ← check_amount "executedQuantity" (executedQuantity e);
  _ ← check_amount "grossQuoteValueKrw" (grossQuoteValueKrw e);
  _ ← check_amount "confirmedFeeKrw" (confirmedFeeKrw e);
  _ ← check_amount "remainingQuantity" (remainingQuantity e);
  if is_zero (executedQuantity e) then
    _ ← throw_if (terminalStatus e !== Terminal.CANCELED)
          "Terminal no-fill PositionGuard candidate evidence must be CANCELED.";
    throw_if (negb (is_zero (grossQuoteValueKrw e)) || negb (is_zero (confirmedFeeKrw e)))
      "Terminal no-fill PositionGuard candidate evidence must have zero value and fee."
  else
    _ ← throw_if (nleb (grossQuoteValueKrw e) zero)
          "PositionGuard candidate evidence must have a positive quote value for a non-zero fill.";
    throw_if (negb (is_finite (ndiv (grossQuoteValueKrw e) (executedQuantity e))))
      "PositionGuard candidate evidence implied execution price must be finite.".

(** ** Advancing by one evidence *)

Definition assertResidualMatches (expected actual : num) (id : string) : outcome unit :=
  throw_if (nltb POSITION_GUARD_CANDIDATE_QUANTITY_TOLERANCE (nabs (nsub expected actual)))
    ("PositionGuard candidate evidence " ++ id
     ++ " remainingQuantity contradicts the episode residual.").

Definition assertNoFillEvidenceMatchesState
    (s : PositionGuardCandidateState) (e : NormalizedPositionGuardCandidateExecutionEvidence)
    : outcome unit :=
  assertResidualMatches (currentEpisodeInventoryQuantity s) (remainingQuantity e) (evidenceId e).

Definition assertNonZeroFillLifecycle
    (s : PositionGuardCandidateState) (e : NormalizedPositionGuardCandidateExecutionEvidence)
    : outcome unit :=
  if isBuyAction (ev_action e) then
    _ ← throw_if ((ev_action e === Exec.ENTER) && negb (is_zero (currentEpisodeInventoryQuantity s)))
          "PositionGuard candidate ENTER evidence requires a flat episode.";
    throw_if ((ev_action e === Exec.ADD)
              && nleb (currentEpisodeInventoryQuantity s) POSITION_GUARD_CANDIDATE_QUANTITY_TOLERANCE)
      "PositionGuard candidate ADD evidence requires an open episode."
  else
    _ ← throw_if (nleb (currentEpisodeInventoryQuantity s) POSITION_GUARD_CANDIDATE_QUANTITY_TOLERANCE)
          "PositionGuard candidate sell evidence requires an open episode.";
    throw_if (nltb (nadd (currentEpisodeInventoryQuantity s) POSITION_GUARD_CANDIDATE_QUANTITY_TOLERANCE)
                   (executedQuantity e))
      "PositionGuard candidate sell evidence exceeds episode inventory.".

(** The order of [(epochNanoseconds, evidenceId)] keys. *)
Definition compare_keys (k1 k2 : Z * string) : comparison :=
  match (fst k1 ?= fst k2)%Z with
  | Eq => string_compare (snd k1) (snd k2)
  | c => c
  end.

(** [evidence.evidenceId <= state.lastEvidenceId!]; against [null] the language
    compares numbers. *)
Definition id_not_after (id : string) (last : option string) : bool :=
  match last with
  | Some i => string_leb id i
  | None => nleb (Number_of_string id) zero
  end.

Definition assertEvidenceAfterStateCursor
    (s : PositionGuardCandidateState) (e : NormalizedPositionGuardCandidateExecutionEvidence)
    : outcome unit :=
  match lastEvidenceAt s with
  | None => Ret tt
  | Some at_ =>
      cursorEpoch ← parsePositionGuardCandidateTimestamp at_ "state lastEvidenceAt";
      evidenceEpoch ← parsePositionGuardCandidateTimestamp (executedAt e) "evidence executedAt";
      throw_if ((evidenceEpoch <? cursorEpoch)%Z
                || ((evidenceEpoch =? cursorEpoch)%Z
                    && id_not_after (evidenceId e) (lastEvidenceId s)))
        "PositionGuard candidate evidence must be ordered after the state chronology cursor by epoch nanoseconds and evidenceId."
  end.

(** The state after a fill: the fields each branch assigns. *)
Definition after_buy
    (s : PositionGuardCandidateState) (e : NormalizedPositionGuardCandidateExecutionEvidence)
    : PositionGuardCandidateState := {|
  currentEpisodeAddCount :=
    (if ev_action e === Exec.ADD then currentEpisodeAddCount s + 1 else currentEpisodeAddCount s)%Z;
  currentEpisodeCostBasisKrw :=
    nadd (currentEpisodeCostBasisKrw s) (nadd (grossQuoteValueKrw e) (confirmedFeeKrw e));
  currentEpisodeInventoryQuantity := nadd (currentEpisodeInventoryQuantity s) (executedQuantity e);
  currentEpisodeRealizedPnlKrw := currentEpisodeRealizedPnlKrw s;
  lastFullExitAt := lastFullExitAt s;
  lastFullExitRealizedPnlKrw := lastFullExitRealizedPnlKrw s;
  lastEntryPath := if ev_action e === Exec.ENTER then Some (ev_entryPath e) else lastEntryPath s;
  lastEvidenceAt := Some (executedAt e);
  lastEvidenceId := Some (evidenceId e);
  stateVersion := stateVersion s + 1;
|}.

Definition after_full_exit
    (s : PositionGuardCandidateState) (e : NormalizedPositionGuardCandidateExecutionEvidence)
    (realizedPnl : num) : PositionGuardCandidateState := {|
  currentEpisodeAddCount := 0;
  currentEpisodeCostBasisKrw := zero;
  currentEpisodeInventoryQuantity := zero;
  currentEpisodeRealizedPnlKrw := zero;
  lastFullExitAt := Some (executedAt e);
  lastFullExitRealizedPnlKrw := Some realizedPnl;
  lastEntryPath := lastEntryPath s;
  lastEvidenceAt := Some (executedAt e);
  lastEvidenceId := Some (evidenceId e);
  stateVersion := stateVersion s + 1;
|}.

Definition after_partial_sell
    (s : PositionGuardCandidateState) (e : NormalizedPositionGuardCandidateExecutionEvidence)
    (expectedRemaining removedCost realizedPnl : num) : PositionGuardCandidateState := {|
  currentEpisodeAddCount := currentEpisodeAddCount s;
  currentEpisodeCostBasisKrw := nsub (currentEpisodeCostBasisKrw s) removedCost;
  currentEpisodeInventoryQuantity := expectedRemaining;
  currentEpisodeRealizedPnlKrw := realizedPnl;
  lastFullExitAt := lastFullExitAt s;
  lastFullExitRealizedPnlKrw := lastFullExitRealizedPnlKrw s;
  lastEntryPath := lastEntryPath s;
  lastEvidenceAt := Some (executedAt e);
  lastEvidenceId := Some (evidenceId e);
  stateVersion := stateVersion s + 1;
|}.

Definition advanceValidatedPositionGuardCandidateState
    (s : PositionGuardCandidateState) (e : NormalizedPositionGuardCandidateExecutionEvidence)
    : outcome PositionGuardCandidateState :=
  _ ← assertEvidenceAfterStateCursor s e;
  if is_zero (executedQuantity e) then
    _ ← assertNoFillEvidenceMatchesState s e;
    Ret s
  else
    _ ← assertNonZeroFillLifecycle s e;
    next ←
      (if isBuyAction (ev_action e) then
         let next := after_buy s e in
         _ ← assertResidualMatches (currentEpisodeInventoryQuantity next) (remainingQuantity e)
               (evidenceId e);
         Ret next
       else
         let expectedRemaining := nsub (currentEpisodeInventoryQuantity s) (executedQuantity e) in
         let closesEpisode := nleb expectedRemaining POSITION_GUARD_CANDIDATE_QUANTITY_TOLERANCE in
         _ ← assertResidualMatches (if closesEpisode then zero else expectedRemaining)
               (remainingQuantity e) (evidenceId e);
         let removedCost :=
           if closesEpisode then currentEpisodeCostBasisKrw s
           else nmul (currentEpisodeCostBasisKrw s)
                  (ndiv (executedQuantity e) (currentEpisodeInventoryQuantity s)) in
         let realizedPnl :=
           nsub (nsub (nadd (currentEpisodeRealizedPnlKrw s) (grossQuoteValueKrw e))
                      (confirmedFeeKrw e)) removedCost in
         if closesEpisode then Ret (after_full_exit s e realizedPnl)
         else Ret (after_partial_sell s e expectedRemaining removedCost realizedPnl));
    _ ← validateStateSnapshot next;
    Ret next.

Definition advancePositionGuardCandidateState
    (s : PositionGuardCandidateState) (e : PositionGuardCandidateExecutionEvidence)
    : outcome PositionGuardCandidateState :=
  _ ← validateStateSnapshot s;
  n ← normalizeExecutionEvidence e;
  _ ← validateExecutionEvidence n;
  advanceValidatedPositionGuardCandidateState s n.

(** ** Projecting a set of evidence *)

(** An evidence with the instant it was executed at. *)
Record Timed := {
  evidence : NormalizedPositionGuardCandidateExecutionEvidence;
  epochNanoseconds : Z;
}.

Definition timed_key (t : Timed) : Z * string := (epochNanoseconds t, evidenceId (evidence t)).

(** The mapping of the evidence array, which threads the set of ids seen. *)
Fixpoint collectEvidence (evidenceIds : gset string)
    (items : list PositionGuardCandidateExecutionEvidence) : outcome (list Timed) :=
  match items with
  | [] => Ret []
  | item :: rest =>
      snapshot ← normalizeExecutionEvidence item;
      _ ← validateExecutionEvidence snapshot;
      _ ← throw_if (bool_decide (evidenceId snapshot ∈ evidenceIds))
            ("Duplicate PositionGuard candidate evidenceId " ++ evidenceId snapshot ++ ".");
      epoch ← parsePositionGuardCandidateTimestamp (executedAt snapshot) "evidence executedAt";
      timed ← collectEvidence ({[evidenceId snapshot]} ∪ evidenceIds) rest;
      Ret ({| evidence := snapshot; epochNanoseconds := epoch |} :: timed)
  end.

Definition initial_ids (s : PositionGuardCandidateState) : gset string :=
  match lastEvidenceId s with Some i => {[i]} | None => ∅ end.

Definition compare_timed (t1 t2 : Timed) : comparison := compare_keys (timed_key t1) (timed_key t2).

Definition advance_timed (s : PositionGuardCandidateState) (t : Timed)
    : outcome PositionGuardCandidateState :=
  advanceValidatedPositionGuardCandidateState s (evidence t).

Definition projectPositionGuardCandidateState
    (initialState : PositionGuardCandidateState)
    (items : list PositionGuardCandidateExecutionEvidence) : outcome PositionGuardCandidateState :=
  _ ← validateStateSnapshot initialState;
  ordered ← collectEvidence (initial_ids initialState) items;
  foldM_outcome advance_timed initialState (js_sort compare_timed ordered).

Local Close Scope string_scope.

(** ** The abstract state

    What a validated state says of the episode. *)

Definition flat_episode (s : PositionGuardCandidateState) : Prop :=
  is_zero (currentEpisodeInventoryQuantity s) = true /\
  is_zero (currentEpisodeCostBasisKrw s) = true /\
  is_zero (currentEpisodeRealizedPnlKrw s) = true /\
  currentEpisodeAddCount s = 0.

Definition open_episode (s : PositionGuardCandidateState) : Prop :=
  nltb POSITION_GUARD_CANDIDATE_QUANTITY_TOLERANCE (currentEpisodeInventoryQuantity s) = true /\
  nltb zero (currentEpisodeCostBasisKrw s) = true /\
  is_finite (currentEpisodeRealizedPnlKrw s) = true /\
  is_Some (lastEntryPath s) /\ 0 <= currentEpisodeAddCount s < stateVersion s.

(** The chronology cursor of a state. *)
Definition cursor_key (s : PositionGuardCandidateState) : option (Z * string) :=
  match lastEvidenceAt s, lastEvidenceId s with
  | Some at_, Some i =>
      match parsePositionGuardCandidateTimestamp at_ "state lastEvidenceAt" with
      | Ret epoch => Some (epoch, i)
      | Throw _ => None
      end
  | _, _ => None
  end.

(** [after_cursor s k]: the key [k] is strictly later than the cursor. *)
Definition after_cursor (s : PositionGuardCandidateState) (k : Z * string) : Prop :=
  match cursor_key s with
  | None => True
  | Some c => compare_keys c k = Lt
  end.

(** The two halves of each metadata pair come together, and no full exit is
    later than the cursor. *)
Definition exit_before_cursor (s : PositionGuardCandidateState) : Prop :=
  (lastEvidenceAt s = None <-> lastEvidenceId s = None) /\
  (lastFullExitAt s = None <-> lastFullExitRealizedPnlKrw s = None) /\
  forall at_, lastFullExitAt s = Some at_ ->
    exists e c i, parsePositionGuardCandidateTimestamp at_ "state lastFullExitAt" = Ret e /\
      cursor_key s = Some (c, i) /\ e <= c.

#[global] Arguments parsePositionGuardCandidateTimestamp : simpl never.
#[global] Arguments validateStateSnapshot : simpl never.

Lemma bool_eqb_None {A B} `{EqDecision A, EqDecision B} (x : option A) (y : option B) :
  Bool.eqb (x === None) (y === None) = true -> (x = None <-> y = None).
Proof.
  intros H%eqb_prop. by rewrite <- (bool_decide_eq_true (x = None)), <- (bool_decide_eq_true (y = None)), H.
Qed.

Lemma parse_deterministic value l1 l2 v1 v2 :
  parsePositionGuardCandidateTimestamp value l1 = Ret v1 ->
  parsePositionGuardCandidateTimestamp value l2 = Ret v2 -> v1 = v2.
Proof. intros H1%(timestamp_relabel _ _ l2) H2. congruence. Qed.

Lemma finite_nonneg x : is_finite x = true -> nltb x zero = false -> nleb zero x = true.
Proof.
  intros Hf Hlt. rewrite nltb_nleb in Hlt by auto with upbit. by apply negb_false_iff.
Qed.

Lemma validateEpisode_spec s u :
  is_finite (currentEpisodeInventoryQuantity s) = true ->
  is_finite (currentEpisodeCostBasisKrw s) = true ->
  validateEpisode s = Ret u ->
  flat_episode s \/
  (nltb POSITION_GUARD_CANDIDATE_QUANTITY_TOLERANCE (currentEpisodeInventoryQuantity s) = true /\
   nltb zero (currentEpisodeCostBasisKrw s) = true /\ is_Some (lastEntryPath s)).
Proof.
  intros Hq Hc. unfold validateEpisode, flat_episode.
  destruct (nleb _ POSITION_GUARD_CANDIDATE_QUANTITY_TOLERANCE) eqn:E; intros H; inv_outcome.
  - left. destruct_bools. auto.
  - right. destruct_bools. split_and!.
    + rewrite nltb_nleb by auto with upbit. by rewrite E.
    + rewrite nltb_nleb by auto with upbit. by apply negb_true_iff.
    + destruct (lastEntryPath s); [eauto|done].
Qed.

Lemma validateCursor_spec s u :
  validateCursor s = Ret u ->
  (lastEvidenceAt s = None <-> lastEvidenceId s = None) /\
  forall at_, lastFullExitAt s = Some at_ ->
    exists e c i, parsePositionGuardCandidateTimestamp at_ "state lastFullExitAt" = Ret e /\
      cursor_key s = Some (c, i) /\ e <= c.
Proof.
  unfold validateCursor. intros H. inv_outcome. destruct_bools.
  assert (Hiff : lastEvidenceAt s = None <-> lastEvidenceId s = None).
  { apply bool_eqb_None. by destruct (lastEvidenceAt s), (lastEvidenceId s). }
  split; [exact Hiff|]. intros at_ Hat. unfold cursor_key.
  destruct (lastEvidenceAt s) as [a|].
  - destruct (lastEvidenceId s) as [i|]; [|by pose proof (proj2 Hiff eq_refl)].
    inv_outcome. rewrite Hat in *. inv_outcome. destruct_bools.
    match goal with Hp : parsePositionGuardCandidateTimestamp at_ _ = Ret ?e |- _ => exists e end.
    match goal with Hp : parsePositionGuardCandidateTimestamp a _ = Ret ?c |- _ =>
      exists c, i; rewrite Hp end.
    auto.
  - inv_outcome. destruct_bools. unfold isPristineCandidateState in *. destruct_bools. congruence.
Qed.

Lemma validateFullExitMetadata_spec s u :
  validateFullExitMetadata s = Ret u ->
  (lastFullExitAt s = None <-> lastFullExitRealizedPnlKrw s = None).
Proof.
  unfold validateFullExitMetadata. intros H. inv_outcome. destruct_bools.
  by apply bool_eqb_None.
Qed.

(** A validated state is a flat or an open episode: its inventory is zero
    together with cost basis, realized PnL and add count, or it exceeds the
    tolerance with a positive cost basis and an entry path, and fewer adds than
    versions; its metadata pairs agree and its last full exit is not later than
    its cursor. *)
Theorem validated_episode s u :
  validatePositionGuardCandidateState s = Ret u ->
  (flat_episode s \/ open_episode s) /\ exit_before_cursor s /\
  0 <= stateVersion s <= MAX_SAFE_INTEGER.
Proof.
  unfold validatePositionGuardCandidateState, validateStateSnapshot. intros H. inv_outcome.
  destruct_bools.
  match goal with Hc : validateCursor s = Ret _ |- _ => apply validateCursor_spec in Hc as [? ?] end.
  match goal with Hc : validateFullExitMetadata s = Ret _ |- _ =>
    apply validateFullExitMetadata_spec in Hc end.
  assert (Hm : exit_before_cursor s) by (split; [assumption | split; assumption]).
  assert (Hv : 0 <= stateVersion s <= MAX_SAFE_INTEGER) by lia.
  split; [|split; [exact Hm | exact Hv]].
  match goal with He : validateEpisode s = Ret _ |- _ =>
    destruct (validateEpisode_spec s _ ltac:(assumption) ltac:(assumption) He)
      as [Hflat|(Hq & Hcost & Hp)] end.
  - left. exact Hflat.
  - right. unfold minimumReachableStateVersion in *. rewrite Hq in *.
    split; [exact Hq|]. split; [exact Hcost|]. split; [assumption|]. split; [exact Hp|].
    repeat match goal with Hm : context [if ?b then _ else _] |- _ => destruct b end; lia.
Qed.

(** ** Chronology *)

Lemma compare_keys_antisym k1 k2 : compare_keys k2 k1 = CompOpp (compare_keys k1 k2).
Proof.
  unfold compare_keys. rewrite (Z.compare_antisym (fst k1) (fst k2)), string_compare_antisym.
  by destruct (_ ?= _).
Qed.

Lemma compare_keys_trans k1 k2 k3 :
  compare_keys k1 k2 ≠ Gt -> compare_keys k2 k3 ≠ Gt -> compare_keys k1 k3 ≠ Gt.
Proof.
  unfold compare_keys.
  destruct (Z.compare_spec (fst k1) (fst k2)), (Z.compare_spec (fst k2) (fst k3)),
           (Z.compare_spec (fst k1) (fst k3)); try lia; try congruence.
  apply string_compare_le_trans.
Qed.

Lemma compare_keys_Eq k1 k2 : compare_keys k1 k2 = Eq -> k1 = k2.
Proof.
  destruct k1 as [e1 i1], k2 as [e2 i2]. unfold compare_keys; simpl.
  destruct (Z.compare_spec e1 e2); try done. intros ->%string_compare_Eq. congruence.
Qed.

#[export] Instance compare_timed_consistent : ConsistentComparator compare_timed.
Proof.
  split; unfold cmp_le, compare_timed; intros.
  - apply compare_keys_antisym.
  - by eapply compare_keys_trans.
Qed.

Lemma string_leb_false a b : string_leb a b = false <-> string_compare b a = Lt.
Proof.
  unfold string_leb. rewrite (string_compare_antisym a b). by destruct (string_compare a b).
Qed.

Lemma assert_after_cursor s e u epoch label :
  assertEvidenceAfterStateCursor s e = Ret u ->
  parsePositionGuardCandidateTimestamp (executedAt e) label = Ret epoch ->
  after_cursor s (epoch, evidenceId e).
Proof.
  unfold assertEvidenceAfterStateCursor, after_cursor, cursor_key.
  destruct (lastEvidenceAt s) as [at_|]; [|done].
  destruct (lastEvidenceId s) as [i|]; [|done].
  intros H Hp. inv_outcome.
  match goal with Hc : parsePositionGuardCandidateTimestamp at_ _ = Ret ?c |- _ => rename Hc into Hcur end.
  rewrite Hcur.
  match goal with He : parsePositionGuardCandidateTimestamp (executedAt e) "evidence executedAt" = _ |- _ =>
    rewrite (parse_deterministic _ _ _ _ _ He Hp) in * end.
  destruct_bools. unfold compare_keys; simpl.
  destruct (Z.compare_spec x epoch) as [->|Hlt|Hgt]; [|done|lia].
  match goal with Hb : _ && _ = false |- _ => rewrite Z.eqb_refl in Hb end.
  by apply string_leb_false.
Qed.

(** What one advance does to the cursor, the version and the validity of a
    state. *)
Lemma advance_cases s e s' :
  advanceValidatedPositionGuardCandidateState s e = Ret s' ->
  (exists u, assertEvidenceAfterStateCursor s e = Ret u) /\
  ((is_zero (executedQuantity e) = true /\ s' = s) \/
   (is_zero (executedQuantity e) = false /\ (exists u, validateStateSnapshot s' = Ret u) /\
    lastEvidenceAt s' = Some (executedAt e) /\ lastEvidenceId s' = Some (evidenceId e) /\
    stateVersion s' = stateVersion s + 1)).
Proof.
  unfold advanceValidatedPositionGuardCandidateState. intros (u & Hu & H)%bind_Ret.
  split; [eauto|].
  destruct (is_zero (executedQuantity e)); [left | right].
  - apply bind_Ret in H as (? & _ & [= <-]). done.
  - split; [done|]. apply bind_Ret in H as (? & _ & H).
    apply bind_Ret in H as (next & Hnext & H).
    apply bind_Ret in H as (? & Hv & [= <-]). split; [eauto|]. clear Hv.
    destruct (isBuyAction (ev_action e)); apply bind_Ret in Hnext as (? & _ & Hnext);
      [|destruct (nleb _ POSITION_GUARD_CANDIDATE_QUANTITY_TOLERANCE)];
      injection Hnext as <-; done.
Qed.

(** An advance by an evidence with a fill moves the chronology cursor
    strictly forward, to the evidence, and counts one version; a no-fill
    evidence leaves the whole state as it is. *)
Theorem advance_chronology s e s' :
  advancePositionGuardCandidateState s e = Ret s' ->
  exists n epoch,
    normalizeExecutionEvidence e = Ret n /\
    parsePositionGuardCandidateTimestamp (executedAt e) "evidence executedAt" = Ret epoch /\
    after_cursor s (epoch, evidenceId e) /\
    if is_zero (executedQuantity n) then s' = s
    else cursor_key s' = Some (epoch, evidenceId e) /\ stateVersion s' = stateVersion s + 1.
Proof.
  unfold advancePositionGuardCandidateState. intros H.
  apply bind_Ret in H as (? & _ & H). apply bind_Ret in H as (n & Hn & H).
  apply bind_Ret in H as (? & Hv & H). exists n.
  assert (Hids : evidenceId n = evidenceId e /\ executedAt n = executedAt e).
  { unfold normalizeExecutionEvidence in Hn. by inv_outcome. }
  destruct Hids as [Hid Hat].
  unfold validateExecutionEvidence in Hv. apply bind_Ret in Hv as (? & _ & Hv).
  apply bind_Ret in Hv as (epoch & Hep & _). rewrite Hat in Hep.
  exists epoch. split; [done|]. split; [done|].
  apply advance_cases in H as [(u & Hu) Hcases]. split.
  - rewrite <- Hid. eapply assert_after_cursor; [exact Hu|]. rewrite Hat. exact Hep.
  - destruct Hcases as [[-> ->]|(-> & _ & Ha & Hi & Hver)]; [done|].
    split; [|exact Hver]. unfold cursor_key. rewrite Ha, Hi, Hat, Hid.
    by rewrite (timestamp_relabel _ _ "state lastEvidenceAt"%string _ Hep).
Qed.

(** ** Projection *)

(** The work on one array element, without the duplicate check. *)
Definition time_item (item : PositionGuardCandidateExecutionEvidence) : outcome Timed :=
  snapshot ← normalizeExecutionEvidence item;
  _ ← validateExecutionEvidence snapshot;
  epoch ← parsePositionGuardCandidateTimestamp (executedAt snapshot) "evidence executedAt";
  Ret {| evidence := snapshot; epochNanoseconds := epoch |}.

Definition timed_id (t : Timed) : string := evidenceId (evidence t).

Lemma collectEvidence_spec items seen ts :
  collectEvidence seen items = Ret ts <->
  mapM_outcome time_item items = Ret ts /\ NoDup (timed_id <$> ts) /\
  (forall t, t ∈ ts -> timed_id t ∉ seen).
Proof.
  revert seen ts. induction items as [|item items IH]; intros seen ts; cbn [collectEvidence mapM_outcome].
  { split; [|by intros (? & _)]. intros [= <-].
    split_and!; [done | constructor | by intros t ?%elem_of_nil]. }
  unfold time_item at 2.
  destruct (normalizeExecutionEvidence item) as [n|]; simpl; [|split; [done | by intros (? & _)]].
  destruct (validateExecutionEvidence n); simpl; [|split; [done | by intros (? & _)]].
  destruct (parsePositionGuardCandidateTimestamp (executedAt n) _) as [epoch|]; simpl.
  2: { split; [|by intros (? & _)]. by case_bool_decide. }
  case_bool_decide as Hin; simpl.
  - split; [done|]. intros (H & _ & Hseen). apply bind_Ret in H as (ts' & _ & [= <-]).
    destruct (Hseen {| evidence := n; epochNanoseconds := epoch |}); [left | done].
  - split.
    + intros (ts' & (Hm & Hnd & Hs)%IH & [= <-])%bind_Ret. rewrite Hm. simpl.
      split; [done|]. split.
      * constructor; [|done]. intros (t & Ht & Htin)%list_elem_of_fmap.
        apply (Hs t Htin), elem_of_union_l, elem_of_singleton. by rewrite <- Ht.
      * intros t [->|Ht]%elem_of_cons; [done|]. intros Hin'. by apply (Hs t Ht), elem_of_union_r.
    + intros (H & Hnd & Hs). apply bind_Ret in H as (ts' & Hm & [= <-]).
      rewrite fmap_cons in Hnd. apply NoDup_cons in Hnd as [Hni Hnd].
      apply bind_Ret. exists ts'. split; [|done]. apply IH. split; [done|]. split; [done|].
      intros t Ht. rewrite elem_of_union, elem_of_singleton. intros [Heq|Hold].
      * apply Hni. change (timed_id {| evidence := n; epochNanoseconds := epoch |}) with (evidenceId n).
        rewrite <- Heq. apply list_elem_of_fmap. by exists t.
      * by apply (Hs t); [right|].
Qed.

(** Evidence with distinct ids has distinct keys. *)
Lemma nodup_ids_ties ts :
  NoDup (timed_id <$> ts) ->
  forall x y, x ∈ ts -> y ∈ ts -> compare_timed x y = Eq -> x = y.
Proof.
  intros Hnd x y Hx Hy Heq%compare_keys_Eq.
  assert (Hid : timed_id x = timed_id y) by (unfold timed_key in Heq; unfold timed_id; congruence).
  apply list_elem_of_lookup in Hx as [i Hi]. apply list_elem_of_lookup in Hy as [j Hj].
  assert (i = j) as ->; [|congruence].
  apply (NoDup_lookup _ i j (timed_id x) Hnd).
  - by rewrite list_lookup_fmap, Hi.
  - rewrite list_lookup_fmap, Hj. simpl. congruence.
Qed.

(** The projection does not depend on the order in which the evidence is
    stored: permuting the input changes neither success nor the state. *)
Theorem project_order_independent s items1 items2 s' :
  items1 ≡ₚ items2 ->
  projectPositionGuardCandidateState s items1 = Ret s' ->
  projectPositionGuardCandidateState s items2 = Ret s'.
Proof.
  unfold projectPositionGuardCandidateState. intros HP H.
  apply bind_Ret in H as (u & -> & H). apply bind_Ret in H as (ts & Hc & H). simpl.
  apply collectEvidence_spec in Hc as (Hm & Hnd & Hs).
  destruct (mapM_outcome_perm _ _ _ _ HP Hm) as (ts2 & Hm2 & HP2).
  apply bind_Ret. exists ts2. split.
  - apply collectEvidence_spec. split; [done|]. split.
    + by rewrite <- HP2.
    + intros t. rewrite <- HP2. apply Hs.
  - rewrite <- (js_sort_permutation_invariant compare_timed ts ts2); [done| |done].
    by apply nodup_ids_ties.
Qed.

Definition filled (t : Timed) : bool := negb (is_zero (executedQuantity (evidence t))).

Fixpoint count_filled (ts : list Timed) : Z :=
  match ts with
  | [] => 0
  | t :: ts' => (if filled t then 1 else 0) + count_filled ts'
  end.

Lemma count_filled_perm ts1 ts2 : ts1 ≡ₚ ts2 -> count_filled ts1 = count_filled ts2.
Proof. induction 1; simpl; lia. Qed.

Lemma fold_versions ts s s' :
  foldM_outcome advance_timed s ts = Ret s' -> stateVersion s' = stateVersion s + count_filled ts.
Proof.
  revert s. induction ts as [|t ts IH]; intros s; cbn [foldM_outcome count_filled].
  - intros [= <-]. lia.
  - intros (s1 & H1 & H)%bind_Ret. rewrite (IH _ H). unfold advance_timed, filled in *.
    apply advance_cases in H1 as [_ [[-> ->]|(-> & _ & _ & _ & ->)]]; simpl; lia.
Qed.

(** A valid state stays valid through the projection. *)
Lemma fold_valid ts s s' :
  (exists u, validateStateSnapshot s = Ret u) ->
  foldM_outcome advance_timed s ts = Ret s' -> exists u, validateStateSnapshot s' = Ret u.
Proof.
  apply (foldM_outcome_inv (fun s => exists u, validateStateSnapshot s = Ret u)).
  intros t b b' Hb H. apply advance_cases in H as [_ [[_ ->]|(_ & Hv & _)]]; assumption.
Qed.

(** A projection yields a valid state whose version is the initial one
    plus the number of evidence with a fill. *)
Theorem project_valid_version s items s' :
  projectPositionGuardCandidateState s items = Ret s' ->
  (exists u, validatePositionGuardCandidateState s' = Ret u) /\
  exists ts, mapM_outcome time_item items = Ret ts /\
    stateVersion s' = stateVersion s + count_filled ts.
Proof.
  unfold projectPositionGuardCandidateState. intros H.
  apply bind_Ret in H as (u & Hv & H). apply bind_Ret in H as (ts & Hc & H).
  apply collectEvidence_spec in Hc as (Hm & _). split.
  - eapply fold_valid; [|exact H]. by exists u.
  - exists ts. split; [done|]. rewrite (fold_versions _ _ _ H).
    by rewrite (count_filled_perm _ _ (js_sort_perm compare_timed ts)).
Qed.

(** The id of the cursor is that of the initial state or of an evidence. *)
Lemma fold_last_id ts s s' :
  foldM_outcome advance_timed s ts = Ret s' ->
  lastEvidenceId s' = lastEvidenceId s \/ exists t, t ∈ ts /\ lastEvidenceId s' = Some (timed_id t).
Proof.
  revert s. induction ts as [|t ts IH]; intros s; cbn [foldM_outcome].
  - intros [= <-]. by left.
  - intros (s1 & H1 & H)%bind_Ret.
    destruct (IH _ H) as [->|(t' & Ht' & ->)].
    + apply advance_cases in H1 as [_ [[_ ->]|(_ & _ & _ & -> & _)]]; [by left|].
      right. exists t. split; [left | done].
    + right. exists t'. split; [by right | done].
Qed.

Lemma initial_ids_elem s i : i ∈ initial_ids s <-> lastEvidenceId s = Some i.
Proof.
  unfold initial_ids. destruct (lastEvidenceId s) as [j|].
  - rewrite elem_of_singleton. split; congruence.
  - rewrite elem_of_empty. split; [done | discriminate].
Qed.

(** [later items1 items2]: every evidence of the second list is strictly after
    every one of the first. *)
Definition later (items1 items2 : list PositionGuardCandidateExecutionEvidence) : Prop :=
  forall a b ta tb, a ∈ items1 -> b ∈ items2 ->
    time_item a = Ret ta -> time_item b = Ret tb -> compare_timed ta tb = Lt.

(** Projection is incremental: projecting all the evidence at once gives
    the state obtained by projecting the earlier evidence and then, from its
    state, the later evidence. *)
Theorem project_incremental s items1 items2 s' :
  later items1 items2 ->
  projectPositionGuardCandidateState s (items1 ++ items2) = Ret s' ->
  exists s1, projectPositionGuardCandidateState s items1 = Ret s1 /\
    projectPositionGuardCandidateState s1 items2 = Ret s'.
Proof.
  unfold projectPositionGuardCandidateState. intros Hlater H.
  apply bind_Ret in H as (u & Hv & H). apply bind_Ret in H as (ts & Hc & H).
  apply collectEvidence_spec in Hc as (Hm & Hnd & Hseen).
  rewrite mapM_outcome_app in Hm. apply bind_Ret in Hm as (ts1 & Hm1 & Hm).
  apply bind_Ret in Hm as (ts2 & Hm2 & [= <-]).
  assert (Hlt : forall x y, x ∈ ts1 -> y ∈ ts2 -> compare_timed x y = Lt).
  { intros x y Hx Hy.
    destruct (mapM_outcome_elem _ _ _ _ Hm1 Hx) as (a & Ha & Hta).
    destruct (mapM_outcome_elem _ _ _ _ Hm2 Hy) as (b & Hb & Htb). eauto. }
  rewrite (js_sort_app compare_timed) in H by (done || by apply nodup_ids_ties).
  rewrite foldM_outcome_app in H. apply bind_Ret in H as (s1 & H1 & H2).
  rewrite fmap_app in Hnd. apply NoDup_app in Hnd as (Hnd1 & Hdisj & Hnd2).
  exists s1. split.
  - rewrite Hv. simpl. apply bind_Ret. exists ts1. split; [|exact H1].
    apply collectEvidence_spec. split_and!; [done..|]. intros t Ht. apply Hseen, elem_of_app. by left.
  - destruct (fold_valid _ _ _ (ex_intro _ u Hv) H1) as [u1 ->]. simpl.
    apply bind_Ret. exists ts2. split; [|exact H2].
    apply collectEvidence_spec. split_and!; [done..|].
    intros t Ht Hid%initial_ids_elem.
    destruct (fold_last_id _ _ _ H1) as [Heq|(t1 & Ht1 & Heq)]; rewrite Hid in Heq.
    + apply (Hseen t); [apply elem_of_app; by right|]. by apply initial_ids_elem.
    + rewrite js_sort_perm in Ht1. injection Heq as Heq.
      apply (Hdisj (timed_id t1)); [apply list_elem_of_fmap; by exists t1|].
      rewrite <- Heq. apply list_elem_of_fmap. by exists t.
Qed.

(** ** A concrete pilot *)

Definition sample_enter : PositionGuardCandidateExecutionEvidence := {|
  evidenceId := "order-1"; executedAt := "2026-08-21T04:00:00Z"; ev_action := Exec.ENTER;
  ev_entryPath := EntryPath.RECLAIM; terminalStatus := Terminal.FILLED;
  executedQuantity := DecimalText "0.01"; grossQuoteValueKrw := DecimalText "1000000";
  confirmedFeeKrw := DecimalText "500"; remainingQuantity := DecimalText "0.01" |}.

Definition sample_exit : PositionGuardCandidateExecutionEvidence := {|
  evidenceId := "order-2"; executedAt := "2026-08-21T14:00:00.5+09:00"; ev_action := Exec.EXIT;
  ev_entryPath := EntryPath.NONE; terminalStatus := Terminal.FILLED;
  executedQuantity := DecimalNumber (lit 1 2); grossQuoteValueKrw := DecimalText "1100000";
  confirmedFeeKrw := DecimalText "550"; remainingQuantity := DecimalText "0" |}.

Definition sample_state (items : list PositionGuardCandidateExecutionEvidence) : PositionGuardCandidateState :=
  match projectPositionGuardCandidateState createEmptyPositionGuardCandidateState items with
  | Ret s => s
  | Throw _ => createEmptyPositionGuardCandidateState
  end.

Example sample_round_trip :
  lastFullExitRealizedPnlKrw (sample_state [sample_exit; sample_enter]) = Some (lit 98950 0).
Proof. vm_compute. reflexivity. Qed.

Lemma validated_episode_witness :
  open_episode (sample_state [sample_enter]) \/ flat_episode (sample_state [sample_enter]).
Proof.
  destruct (validated_episode (sample_state [sample_enter]) tt ltac:(vm_compute; reflexivity))
    as [[H|H] _]; [by right | by left].
Defined.

Lemma advance_chronology_witness :
  stateVersion (sample_state [sample_enter]) = 1 /\
  exists n epoch, normalizeExecutionEvidence sample_enter = Ret n /\
    cursor_key (sample_state [sample_enter]) = Some (epoch, "order-1"%string).
Proof.
  split; [vm_compute; reflexivity|].
  destruct (advance_chronology createEmptyPositionGuardCandidateState sample_enter
              (sample_state [sample_enter]) ltac:(vm_compute; reflexivity)) as (n & epoch & Hn & _ & _ & H).
  exists n, epoch. split; [exact Hn|]. vm_compute in Hn. injection Hn as <-.
  vm_compute in H. exact (proj1 H).
Defined.

Lemma project_order_independent_witness :
  projectPositionGuardCandidateState createEmptyPositionGuardCandidateState [sample_exit; sample_enter]
  = Ret (sample_state [sample_enter; sample_exit]).
Proof.
  apply (project_order_independent _ [sample_enter; sample_exit]); [apply Permutation_swap|].
  vm_compute. reflexivity.
Defined.

Lemma project_valid_version_witness :
  exists ts, mapM_outcome time_item [sample_enter; sample_exit] = Ret ts /\
    stateVersion (sample_state [sample_enter; sample_exit]) = 0 + count_filled ts.
Proof.
  exact (proj2 (project_valid_version createEmptyPositionGuardCandidateState [sample_enter; sample_exit]
                  (sample_state [sample_enter; sample_exit]) ltac:(vm_compute; reflexivity))).
Defined.

Lemma project_incremental_witness :
  exists s1,
    projectPositionGuardCandidateState createEmptyPositionGuardCandidateState [sample_enter] = Ret s1 /\
    projectPositionGuardCandidateState s1 [sample_exit] = Ret (sample_state [sample_enter; sample_exit]).
Proof.
  apply (project_incremental createEmptyPositionGuardCandidateState [sample_enter] [sample_exit]).
  - intros a b ta tb Ha Hb. apply list_elem_of_singleton in Ha as ->.
    apply list_elem_of_singleton in Hb as ->. vm_compute.
    intros [= <-] [= <-]. reflexivity.
  - vm_compute. reflexivity.
Defined.
