(* ===== verification/Decimals.v ===== *)
(** * Decimals: exact decimal arithmetic

    modules/execution/candidate-evidence-decimals.ts (the decimal half) and
    modules/exchange/upbit/order-decimals.ts: decimals as a BigInt coefficient
    and a number of decimal places, their canonical text, comparison and the
    four operations.  BigInt [/] and [%] truncate: [Z.quot] and [Z.rem].  The
    number of places, which is never negative, is a natural number.

    [dec_value] gives a decimal its rational value; the operations are proved
    exact with respect to it. *)

From stdpp Require Import base option list strings.
From Stdlib Require Import ZArith Znumtheory Zpow_facts QArith Lia Ascii.
From S2P Require Import Prelude Num Text NumText.

Local Open Scope Z_scope.

Record ExactDecimal := {
  coefficient : Z;
  scale : nat;
}.

#[export] Instance ExactDecimal_eq_dec : EqDecision ExactDecimal.
Proof. solve_decision. Defined.

(** [10n ** BigInt(n)] *)
Definition pow10 (n : nat) : Z := 10 ^ Z.of_nat n.

(** [normalizeExactDecimal]'s loop: drop trailing zeros of the fraction. *)
Fixpoint normalize_loop (c : Z) (s : nat) : ExactDecimal :=
  match s with
  | O => {| coefficient := c; scale := O |}
  | S s' => if Z.rem c 10 =? 0 then normalize_loop (Z.quot c 10) s'
            else {| coefficient := c; scale := s |}
  end.

Definition normalizeExactDecimal (value : ExactDecimal) : ExactDecimal :=
  normalize_loop (coefficient value) (scale value).

(** ** Canonical text *)

Fixpoint ends_with_zero (s : string) : bool :=
  match s with
  | EmptyString => false
  | String c EmptyString => Ascii.eqb c "0"
  | String _ s' => ends_with_zero s'
  end.

(** [CANONICAL_NON_NEGATIVE]: a canonical whole part, then nothing or a dot and
    digits the last of which is not zero. *)
Definition CANONICAL_NON_NEGATIVE (s : string) : bool :=
  match match_decimal s with
  | Some (_, None) => true
  | Some (_, Some f) => negb (ends_with_zero f)
  | None => false
  end.

(** [CANONICAL_SIGNED]: ["0"], or such a numeral whose whole part starts with a
    digit other than zero, with or without a minus sign. *)
Definition CANONICAL_SIGNED (s : string) : bool :=
  bool_decide (s = "0"%string)
  || (CANONICAL_NON_NEGATIVE s && starts_nonzero s)
  || match take_char "-" s with
     | Some r => CANONICAL_NON_NEGATIVE r && starts_nonzero r
     | None => false
     end.

Definition parseCanonicalDecimal (value : string) : ExactDecimal :=
  let negative := match take_char "-" value with Some _ => true | None => false end in
  let unsigned := default value (take_char "-" value) in
  let '(whole, fractional) := split_dot unsigned in
  normalizeExactDecimal
    {| coefficient := (if negative then -1 else 1) * digits_value (whole ++ fractional);
       scale := String.length fractional |}.

Definition parseCanonicalNonNegativeDecimal (value label : string) : outcome ExactDecimal :=
  _ ← throw_if (negb (CANONICAL_NON_NEGATIVE value))
        (label ++ " must be a canonical non-negative decimal string.")%string;
  Ret (parseCanonicalDecimal value).

Definition parseCanonicalSignedDecimal (value label : string) : outcome ExactDecimal :=
  _ ← throw_if (negb (CANONICAL_SIGNED value))
        (label ++ " must be a canonical signed decimal string.")%string;
  Ret (parseCanonicalDecimal value).

(** [s.slice(0, -n)] and [s.slice(-n)] for [0 < n <= s.length]. *)
Definition slice_init (n : nat) (s : string) : string :=
  String.substring 0 (String.length s - n) s.
Definition slice_last (n : nat) (s : string) : string :=
  String.substring (String.length s - n) n s.

Definition formatExactDecimal (value : ExactDecimal) : string :=
  let normalized := normalizeExactDecimal value in
  let sign := if coefficient normalized <? 0 then "-"%string else EmptyString in
  let digits := nonneg_to_string (Z.abs (coefficient normalized)) in
  match scale normalized with
  | O => (sign ++ digits)%string
  | S _ as sc =>
      let padded := padStart0 (sc + 1) digits in
      (sign ++ slice_init sc padded ++ "." ++ slice_last sc padded)%string
  end.

Definition canonicalNonNegativeDecimal (value label : string) : outcome string :=
  d ← parseCanonicalNonNegativeDecimal value label; Ret (formatExactDecimal d).

Definition canonicalSignedDecimal (value label : string) : outcome string :=
  d ← parseCanonicalSignedDecimal value label; Ret (formatExactDecimal d).

(** ** Comparison and arithmetic *)

Definition compareExactDecimals (left right : ExactDecimal) : Z :=
  let sc := Nat.max (scale left) (scale right) in
  let leftCoefficient := coefficient left * pow10 (sc - scale left) in
  let rightCoefficient := coefficient right * pow10 (sc - scale right) in
  if leftCoefficient <? rightCoefficient then -1
  else if rightCoefficient <? leftCoefficient then 1 else 0.

Definition addExactDecimals (left right : ExactDecimal) : ExactDecimal :=
  let sc := Nat.max (scale left) (scale right) in
  normalizeExactDecimal
    {| coefficient := coefficient left * pow10 (sc - scale left)
                      + coefficient right * pow10 (sc - scale right);
       scale := sc |}.

Definition subtractExactDecimals (left right : ExactDecimal) : ExactDecimal :=
  let sc := Nat.max (scale left) (scale right) in
  normalizeExactDecimal
    {| coefficient := coefficient left * pow10 (sc - scale left)
                      - coefficient right * pow10 (sc - scale right);
       scale := sc |}.

Definition multiplyExactDecimals (left right : ExactDecimal) : ExactDecimal :=
  normalizeExactDecimal
    {| coefficient := coefficient left * coefficient right;
       scale := scale left + scale right |}.

(** [while (b !== 0n) { remainder = a % b; a = b; b = remainder; }] *)
Fixpoint gcd_loop (fuel : nat) (a b : Z) : Z :=
  match fuel with
  | O => a
  | S fuel' => if b =? 0 then a else gcd_loop fuel' b (Z.rem a b)
  end.

(** Two rounds at least halve [b]. *)
Definition gcd_fuel (b : Z) : nat := S (2 * S (Z.to_nat (Z.log2 b))).

Definition greatestCommonDivisor (left right : Z) : Z :=
  let a := gcd_loop (gcd_fuel right) left right in
  if a =? 0 then 1 else a.

(** [while (denominator % p === 0n) { denominator /= p; count += 1; }] *)
Fixpoint strip_loop (fuel : nat) (p denominator : Z) (count : nat) : Z * nat :=
  match fuel with
  | O => (denominator, count)
  | S fuel' => if Z.rem denominator p =? 0
               then strip_loop fuel' p (Z.quot denominator p) (S count)
               else (denominator, count)
  end.

Definition strip (p denominator : Z) : Z * nat :=
  strip_loop (S (Z.to_nat (Z.log2 (Z.abs denominator)))) p denominator 0.

Definition divideExactDecimals (left right : ExactDecimal) (label : string) : outcome ExactDecimal :=
  _ ← throw_if (coefficient right =? 0) (label ++ " cannot divide by zero.")%string;
  let numerator := coefficient left * pow10 (scale right - scale left) in
  let denominator := coefficient right * pow10 (scale left - scale right) in
  let divisor := greatestCommonDivisor (Z.abs numerator) (Z.abs denominator) in
  let numerator := Z.quot numerator divisor in
  let denominator := Z.quot denominator divisor in
  let '(denominator, twos) := strip 2 denominator in
  let '(denominator, fives) := strip 5 denominator in
  _ ← throw_if (negb (denominator =? 1) && negb (denominator =? -1))
        (label ++ " does not have a terminating exact decimal representation.")%string;
  let sc := Nat.max twos fives in
  let numerator := if (twos <? sc)%nat then numerator * 2 ^ Z.of_nat (sc - twos) else numerator in
  let numerator := if (fives <? sc)%nat then numerator * 5 ^ Z.of_nat (sc - fives) else numerator in
  Ret (normalizeExactDecimal {| coefficient := numerator; scale := sc |}).

Definition absDecimal (value : ExactDecimal) : ExactDecimal :=
  if coefficient value <? 0
  then {| coefficient := - coefficient value; scale := scale value |} else value.

(** ** Order decimals *)

Definition UPBIT_ORDER_DECIMAL_PLACES : nat := 8.

Fixpoint strip_leading_zeros (s : string) : string :=
  match s with
  | String "0" ((String _ _) as s') => strip_leading_zeros s'
  | _ => s
  end.

Fixpoint strip_trailing_zeros (s : string) : string :=
  match s with
  | EmptyString => EmptyString
  | String c s' =>
      let r := strip_trailing_zeros s' in
      if Ascii.eqb c "0" && bool_decide (r = EmptyString) then EmptyString else String c r
  end.

(** Digits, then an optional dot and at least one digit: whole and fraction. *)
Definition match_digits_dot (s : string) : option (string * string) :=
  let '(w, r) := span_digits s in
  if bool_decide (w = EmptyString) then None
  else if bool_decide (r = EmptyString) then Some (w, EmptyString)
  else f ← take_char "." r;
       if all_digits f && negb (bool_decide (f = EmptyString)) then Some (w, f) else None.

Definition canonicalizeUpbitOrderDecimal (value label : string) : outcome string :=
  match match_digits_dot value with
  | None => Throw (label ++ " must be a non-negative decimal string.")%string
  | Some (integerPart, fractionalPart) =>
      let integer := strip_leading_zeros integerPart in
      let fractional :=
        strip_trailing_zeros (String.substring 0 UPBIT_ORDER_DECIMAL_PLACES fractionalPart) in
      Ret (if (0 <? String.length fractional)%nat then (integer ++ "." ++ fractional)%string
           else integer)
  end.

Definition serializeUpbitOrderDecimal (value : num) (label : string) : outcome string :=
  _ ← throw_if (negb (is_finite value) || nltb value zero)
        (label ++ " must be a finite non-negative number.")%string;
  canonicalizeUpbitOrderDecimal (num_to_string value) label.

Example divide_1_8 : divideExactDecimals {| coefficient := 1; scale := 0 |}
  {| coefficient := 8; scale := 0 |} "x" = Ret {| coefficient := 125; scale := 3 |}.
Proof. vm_compute. reflexivity. Qed.
Example format_12_50 : formatExactDecimal {| coefficient := -1250; scale := 4 |} = "-0.125"%string.
Proof. vm_compute. reflexivity. Qed.
Example order_decimal : canonicalizeUpbitOrderDecimal "0012.3400056789" "x" = Ret "12.34000567"%string.
Proof. vm_compute. reflexivity. Qed.
Example order_decimal_small : throws (serializeUpbitOrderDecimal (lit 1 7) "x") = true.
Proof. vm_compute. reflexivity. Qed.

(** ** Values

    The rational a decimal denotes. *)

Definition dec_value (d : ExactDecimal) : Q := coefficient d # Z.to_pos (pow10 (scale d)).

(** No trailing zero in the fraction. *)
Definition normal (d : ExactDecimal) : Prop :=
  scale d = O \/ Z.rem (coefficient d) 10 ≠ 0.

Lemma pow10_pos n : 0 < pow10 n.
Proof. unfold pow10. lia. Qed.

Lemma pow10_add a b : pow10 (a + b) = pow10 a * pow10 b.
Proof. unfold pow10. rewrite Nat2Z.inj_add. apply Z.pow_add_r; lia. Qed.

Lemma pow10_S n : pow10 (S n) = 10 * pow10 n.
Proof. unfold pow10. rewrite Nat2Z.inj_succ. apply Z.pow_succ_r. lia. Qed.

#[local] Hint Resolve pow10_pos : upbit.

Lemma dec_value_eq a b :
  (dec_value a == dec_value b)%Q <->
  coefficient a * pow10 (scale b) = coefficient b * pow10 (scale a).
Proof. unfold dec_value, Qeq; simpl. by rewrite !Z2Pos.id by apply pow10_pos. Qed.

Lemma dec_value_lt a b :
  (dec_value a < dec_value b)%Q <->
  coefficient a * pow10 (scale b) < coefficient b * pow10 (scale a).
Proof. unfold dec_value, Qlt; simpl. by rewrite !Z2Pos.id by apply pow10_pos. Qed.

Lemma dec_value_rescale c s k :
  (dec_value {| coefficient := c * pow10 k; scale := s + k |}
   == dec_value {| coefficient := c; scale := s |})%Q.
Proof. apply dec_value_eq; simpl. rewrite pow10_add. lia. Qed.

Lemma quot10 c : Z.rem c 10 = 0 -> c = 10 * Z.quot c 10.
Proof. intros H. pose proof (Z.quot_rem c 10 ltac:(lia)). lia. Qed.

Lemma normalize_loop_value c s :
  (dec_value (normalize_loop c s) == dec_value {| coefficient := c; scale := s |})%Q.
Proof.
  revert c. induction s as [|s IH]; intros c; cbn [normalize_loop]; [reflexivity|].
  destruct (Z.eqb_spec (Z.rem c 10) 0) as [H|]; [|reflexivity].
  rewrite IH. apply dec_value_eq; simpl. rewrite pow10_S. rewrite (quot10 c H) at 2. lia.
Qed.

Lemma normalize_loop_normal c s : normal (normalize_loop c s).
Proof.
  revert c. induction s as [|s IH]; intros c; cbn [normalize_loop]; [by left|].
  destruct (Z.eqb_spec (Z.rem c 10) 0); [apply IH | by right].
Qed.

Lemma normalize_value d : (dec_value (normalizeExactDecimal d) == dec_value d)%Q.
Proof. destruct d. apply normalize_loop_value. Qed.

Lemma normalize_normal d : normal (normalizeExactDecimal d).
Proof. apply normalize_loop_normal. Qed.

Lemma normalize_id d : normal d -> normalizeExactDecimal d = d.
Proof.
  destruct d as [c s]. unfold normal, normalizeExactDecimal; simpl.
  intros [->|Hr]; [done|]. destruct s; [done|]. cbn [normalize_loop].
  by rewrite (proj2 (Z.eqb_neq _ _) Hr).
Qed.

(** A normal decimal is determined by its value. *)
Lemma normal_unique a b : normal a -> normal b -> (dec_value a == dec_value b)%Q -> a = b.
Proof.
  intros Ha Hb Heq. apply dec_value_eq in Heq.
  assert (Haux : forall x y, normal y -> (scale x < scale y)%nat ->
            coefficient x * pow10 (scale y) = coefficient y * pow10 (scale x) -> False).
  { intros x y Hy Hlt E. destruct Hy as [Hy|Hy]; [lia|]. apply Hy.
    replace (scale y) with (scale x + S (scale y - S (scale x)))%nat in E by lia.
    rewrite pow10_add, pow10_S in E. pose proof (pow10_pos (scale x)).
    assert (E' : coefficient y = coefficient x * pow10 (scale y - S (scale x)) * 10) by nia.
    rewrite E'. apply Z.rem_mul. lia. }
  destruct (Nat.lt_trichotomy (scale a) (scale b)) as [Hlt|[Hs|Hlt]].
  - exfalso. eauto.
  - destruct a as [ca sa], b as [cb sb]; simpl in *. subst sb.
    pose proof (pow10_pos sa). f_equal. nia.
  - exfalso. symmetry in Heq. eauto.
Qed.

Lemma align_eq (a b : nat) : pow10 (Nat.max a b) = pow10 a * pow10 (Nat.max a b - a).
Proof. rewrite <- pow10_add. f_equal. lia. Qed.

Lemma align_eq_r (a b : nat) : pow10 (Nat.max a b) = pow10 b * pow10 (Nat.max a b - b).
Proof. rewrite <- pow10_add. f_equal. lia. Qed.

Lemma align_arith ca cb x y p q m :
  m = x * p -> m = y * q -> (ca * p + cb * q) * (x * y) = (ca * y + cb * x) * m.
Proof.
  intros H1 H2. rewrite (Z.mul_add_distr_r _ _ m).
  replace (ca * y * m) with (ca * y * (x * p)) by congruence.
  replace (cb * x * m) with (cb * x * (y * q)) by congruence. ring.
Qed.

Lemma add_value a b : (dec_value (addExactDecimals a b) == dec_value a + dec_value b)%Q.
Proof.
  unfold addExactDecimals. rewrite normalize_value. unfold dec_value, Qeq, Qplus; simpl.
  rewrite Pos2Z.inj_mul, !Z2Pos.id by apply pow10_pos.
  apply align_arith; [apply align_eq | apply align_eq_r].
Qed.

Lemma sub_value a b : (dec_value (subtractExactDecimals a b) == dec_value a - dec_value b)%Q.
Proof.
  unfold subtractExactDecimals. rewrite normalize_value.
  unfold dec_value, Qeq, Qminus, Qplus, Qopp; simpl.
  rewrite Pos2Z.inj_mul, !Z2Pos.id by apply pow10_pos.
  rewrite <- Z.add_opp_r, <- Z.mul_opp_l.
  apply align_arith; [apply align_eq | apply align_eq_r].
Qed.

Lemma mul_value a b : (dec_value (multiplyExactDecimals a b) == dec_value a * dec_value b)%Q.
Proof.
  unfold multiplyExactDecimals. rewrite normalize_value. unfold dec_value, Qeq, Qmult; simpl.
  rewrite Pos2Z.inj_mul, !Z2Pos.id by apply pow10_pos. by rewrite pow10_add.
Qed.

Lemma add_normal a b : normal (addExactDecimals a b).
Proof. apply normalize_normal. Qed.
Lemma sub_normal a b : normal (subtractExactDecimals a b).
Proof. apply normalize_normal. Qed.
Lemma mul_normal a b : normal (multiplyExactDecimals a b).
Proof. apply normalize_normal. Qed.

(** [-1], [0] or [1] as the values compare. *)
Definition sign_of (c : comparison) : Z := match c with Lt => -1 | Eq => 0 | Gt => 1 end.

Lemma compare_value a b :
  compareExactDecimals a b = sign_of (dec_value a ?= dec_value b)%Q.
Proof.
  unfold compareExactDecimals, Qcompare, dec_value. simpl. rewrite !Z2Pos.id by apply pow10_pos.
  set (p := pow10 (Nat.max (scale a) (scale b) - scale a)).
  set (q := pow10 (Nat.max (scale a) (scale b) - scale b)).
  pose proof (align_eq (scale a) (scale b)) as E1. pose proof (align_eq_r (scale a) (scale b)) as E2.
  fold p in E1. fold q in E2. set (m := pow10 (Nat.max (scale a) (scale b))) in *.
  assert (Hp : 0 < p) by apply pow10_pos. assert (Hq : 0 < q) by apply pow10_pos.
  assert (Hx : 0 < pow10 (scale a)) by apply pow10_pos.
  assert (Hy : 0 < pow10 (scale b)) by apply pow10_pos.
  set (x := pow10 (scale a)) in *. set (y := pow10 (scale b)) in *.
  set (ca := coefficient a). set (cb := coefficient b).
  assert (E : (ca * y ?= cb * x) = (ca * p ?= cb * q)).
  { rewrite (Zmult_compare_compat_r (ca * y) (cb * x) (p * q)) by lia.
    rewrite (Zmult_compare_compat_r (ca * p) (cb * q) m) by (subst m; nia).
    f_equal; [rewrite E2 at 1 | rewrite E1 at 1]; ring. }
  rewrite E. destruct (Z.compare_spec (ca * p) (cb * q)) as [H|H|H].
  - rewrite H, Z.ltb_irrefl. done.
  - by rewrite (proj2 (Z.ltb_lt _ _) H).
  - rewrite (proj2 (Z.ltb_ge _ _)) by lia. by rewrite (proj2 (Z.ltb_lt _ _) H).
Qed.

(** ** Division *)

Lemma gcd_loop_spec k fuel a b :
  0 <= a -> 0 <= b < 2 ^ Z.of_nat k -> (2 * k + 1 <= fuel)%nat -> gcd_loop fuel a b = Z.gcd a b.
Proof.
  revert fuel a b. induction k as [|k IH]; intros fuel a b Ha Hb Hf.
  - assert (b = 0) as -> by (simpl in Hb; lia). destruct fuel; [lia|].
    simpl. rewrite Z.gcd_0_r. lia.
  - destruct fuel as [|[|fuel]]; [lia..|]. cbn [gcd_loop].
    destruct (Z.eqb_spec b 0) as [->|Hb0]; [rewrite Z.gcd_0_r; lia|].
    rewrite Z.rem_mod_nonneg by lia. pose proof (Z.mod_pos_bound a b ltac:(lia)).
    destruct (Z.eqb_spec (a mod b) 0) as [Hr|Hr].
    + rewrite Z.gcd_comm, <- Z.gcd_mod, Hr, Z.gcd_0_l by lia. lia.
    + rewrite Z.rem_mod_nonneg by lia. pose proof (Z.mod_pos_bound b (a mod b) ltac:(lia)).
      rewrite IH; [|lia| |lia].
      * rewrite (Z.gcd_comm (a mod b)), Z.gcd_mod, Z.gcd_comm, (Z.gcd_comm b), Z.gcd_mod by lia.
        apply Z.gcd_comm.
      * rewrite Nat2Z.inj_succ, Z.pow_succ_r in Hb by lia.
        pose proof (Z.div_mod b (a mod b) ltac:(lia)).
        assert (1 <= b / (a mod b)) by (apply Z.div_le_lower_bound; lia). nia.
Qed.

Lemma greatestCommonDivisor_spec a b :
  0 <= a -> 0 < b -> greatestCommonDivisor a b = Z.gcd a b.
Proof.
  intros Ha Hb. unfold greatestCommonDivisor, gcd_fuel.
  rewrite (gcd_loop_spec (S (Z.to_nat (Z.log2 b)))); [|done| |lia].
  - assert (Z.gcd a b ≠ 0) by (intros H%Z.gcd_eq_0_r; lia).
    by rewrite (proj2 (Z.eqb_neq _ _)).
  - rewrite Nat2Z.inj_succ, Z2Nat.id by apply Z.log2_nonneg.
    pose proof (Z.log2_spec b Hb). lia.
Qed.

Lemma strip_loop_spec fuel p d count d' n :
  2 <= p -> 0 < d < 2 ^ Z.of_nat fuel -> strip_loop fuel p d count = (d', n) ->
  (count <= n)%nat /\ d = p ^ Z.of_nat (n - count) * d' /\ 0 < d' /\ ~ (p | d').
Proof.
  intros Hp. revert d count. induction fuel as [|fuel IH]; intros d count Hd; cbn [strip_loop].
  { simpl in Hd. lia. }
  rewrite Z.rem_mod_nonneg by lia.
  destruct (Z.eqb_spec (d mod p) 0) as [Hr|Hr].
  - rewrite Z.quot_div_nonneg by lia. apply Z.div_exact in Hr; [|lia].
    intros H. rewrite Nat2Z.inj_succ, Z.pow_succ_r in Hd by lia.
    apply IH in H as (Hn & Hd' & Hpos & Hnd); [|nia].
    split; [lia|]. split; [|done]. rewrite Hr, Hd' at 1.
    replace (n - count)%nat with (S (n - S count)) by lia.
    rewrite Nat2Z.inj_succ, Z.pow_succ_r by lia. ring.
  - intros [= <- <-]. split; [lia|]. rewrite Nat.sub_diag. split; [simpl; lia|].
    split; [lia|]. intros Hdiv%Z.mod_divide; lia.
Qed.

Lemma strip_spec p d d' n :
  2 <= p -> 0 < d -> strip p d = (d', n) ->
  d = p ^ Z.of_nat n * d' /\ 0 < d' /\ ~ (p | d').
Proof.
  intros Hp Hd H. apply strip_loop_spec in H as (_ & H1 & H2); [|done|].
  - by rewrite Nat.sub_0_r in H1.
  - split; [done|]. rewrite Z.abs_eq, Nat2Z.inj_succ, Z2Nat.id by (lia || apply Z.log2_nonneg).
    apply Z.log2_spec. done.
Qed.

Lemma prime_5 : prime 5.
Proof.
  apply prime_intro; [lia|]. intros n Hn. apply Zgcd_1_rel_prime.
  assert (n = 1 \/ n = 2 \/ n = 3 \/ n = 4) as [->|[->|[->| ->]]] by lia; reflexivity.
Qed.

(** A number coprime to 2 and 5 that divides a power of ten is 1. *)
Lemma divides_pow10_one m s : 0 < m -> ~ (2 | m) -> ~ (5 | m) -> (m | pow10 s) -> m = 1.
Proof.
  intros Hm H2 H5 Hdiv.
  assert (Hr : rel_prime m 10).
  { change 10 with (2 * 5). apply rel_prime_mult; apply rel_prime_sym.
    - apply prime_rel_prime; [apply prime_2 | done].
    - apply prime_rel_prime; [apply prime_5 | done]. }
  assert (Hrp : rel_prime m (pow10 s)) by (apply rel_prime_Zpower_r; [lia | done]).
  destruct Hrp as [_ _ Hgcd]. specialize (Hgcd m ltac:(apply Z.divide_refl) Hdiv).
  apply Z.divide_1_r_nonneg in Hgcd; lia.
Qed.

(** The numerator and denominator of a quotient brought to one scale. *)
Lemma quotient_parts (l r : ExactDecimal) :
  coefficient l * pow10 (scale r - scale l) * (coefficient r * pow10 (scale l))
  = coefficient l * pow10 (scale r) * (coefficient r * pow10 (scale l - scale r)).
Proof.
  destruct (Nat.le_ge_cases (scale l) (scale r)) as [H|H].
  - replace (scale l - scale r)%nat with O by lia. change (pow10 0) with 1.
    replace (pow10 (scale r)) with (pow10 (scale r - scale l) * pow10 (scale l));
      [ring | rewrite <- pow10_add; f_equal; lia].
  - replace (scale r - scale l)%nat with O by lia. change (pow10 0) with 1.
    replace (pow10 (scale l)) with (pow10 (scale l - scale r) * pow10 (scale r));
      [ring | rewrite <- pow10_add; f_equal; lia].
Qed.

(** [d] is the quotient of [l] by [r]. *)
Definition is_quotient (l r d : ExactDecimal) : Prop :=
  (dec_value d * dec_value r == dec_value l)%Q.

Lemma is_quotient_parts l r d :
  0 < coefficient r ->
  is_quotient l r d <->
  coefficient d * (coefficient r * pow10 (scale l - scale r))
  = coefficient l * pow10 (scale r - scale l) * pow10 (scale d).
Proof.
  intros Hr. unfold is_quotient, dec_value, Qeq, Qmult; simpl.
  rewrite Pos2Z.inj_mul, !Z2Pos.id by apply pow10_pos.
  pose proof (quotient_parts l r) as E.
  pose proof (pow10_pos (scale l)). pose proof (pow10_pos (scale r)).
  pose proof (pow10_pos (scale l - scale r)). pose proof (pow10_pos (scale d)).
  set (N := coefficient l * pow10 (scale r - scale l)) in *.
  set (D := coefficient r * pow10 (scale l - scale r)) in *.
  assert (HD : 0 < D) by (unfold D; nia). split; intros H'.
  - apply (Z.mul_reg_r _ _ (coefficient r * pow10 (scale l))); [nia|].
    replace (N * pow10 (scale d) * (coefficient r * pow10 (scale l)))
      with (N * (coefficient r * pow10 (scale l)) * pow10 (scale d)) by ring.
    rewrite E. replace (coefficient l * pow10 (scale r) * D * pow10 (scale d))
      with (coefficient l * (pow10 (scale d) * pow10 (scale r)) * D) by ring.
    rewrite <- H'. ring.
  - apply (Z.mul_reg_r _ _ D); [lia|].
    replace (coefficient d * coefficient r * pow10 (scale l) * D)
      with (coefficient d * D * (coefficient r * pow10 (scale l))) by ring.
    rewrite H'. replace (N * pow10 (scale d) * (coefficient r * pow10 (scale l)))
      with (N * (coefficient r * pow10 (scale l)) * pow10 (scale d)) by ring.
    rewrite E. ring.
Qed.

(** The denominator left when its twos and fives are taken out. *)
Lemma strip_both m m1 t m2 f :
  0 < m -> strip 2 m = (m1, t) -> strip 5 m1 = (m2, f) ->
  m = 2 ^ Z.of_nat t * (5 ^ Z.of_nat f * m2) /\ 0 < m2 /\ ~ (2 | m2) /\ ~ (5 | m2).
Proof.
  intros Hm H2 H5. apply strip_spec in H2 as (E2 & P2 & N2); [|lia..].
  apply strip_spec in H5 as (E5 & P5 & N5); [|lia..].
  rewrite E2, E5 at 1. split_and!; try done.
  intros Hd. apply N2. rewrite E5. by apply Z.divide_mul_r.
Qed.

Lemma scaled_numerator n t f :
  (let sc := Nat.max t f in
   let n := if (t <? sc)%nat then n * 2 ^ Z.of_nat (sc - t) else n in
   if (f <? sc)%nat then n * 5 ^ Z.of_nat (sc - f) else n)
  * (2 ^ Z.of_nat t * 5 ^ Z.of_nat f) = n * pow10 (Nat.max t f).
Proof.
  cbv zeta. unfold pow10. change 10 with (2 * 5). rewrite Z.pow_mul_l.
  assert (Hp : forall b k, 0 < b -> (k <= Nat.max t f)%nat ->
            b ^ Z.of_nat (Nat.max t f) = b ^ Z.of_nat k * b ^ Z.of_nat (Nat.max t f - k)).
  { intros b k Hb Hk. rewrite <- Z.pow_add_r by lia. f_equal. lia. }
  rewrite (Hp 2 t), (Hp 5 f) by lia.
  destruct (Nat.ltb_spec t (Nat.max t f)), (Nat.ltb_spec f (Nat.max t f));
    try ring; try lia.
  - replace (Nat.max t f - f)%nat with O by lia. change (Z.of_nat 0) with 0. rewrite !Z.pow_0_r. ring.
  - replace (Nat.max t f - t)%nat with O by lia. change (Z.of_nat 0) with 0. rewrite !Z.pow_0_r. ring.
  - replace (Nat.max t f - f)%nat with O by lia. replace (Nat.max t f - t)%nat with O by lia.
    change (Z.of_nat 0) with 0. rewrite !Z.pow_0_r. ring.
Qed.

#[global] Arguments strip : simpl never.
#[global] Arguments normalizeExactDecimal : simpl never.
#[global] Arguments greatestCommonDivisor : simpl never.

(** What division computes: the fraction in lowest terms decides. *)
Lemma divide_cases l r label :
  0 < coefficient r ->
  exists n m, 0 < m /\ rel_prime m n /\
    (forall d, is_quotient l r d <-> coefficient d * m = n * pow10 (scale d)) /\
    ((exists d, divideExactDecimals l r label = Ret d /\ normal d /\ is_quotient l r d) \/
     ((exists e, divideExactDecimals l r label = Throw e) /\
      exists m2, 0 < m2 /\ m2 ≠ 1 /\ (m2 | m) /\ ~ (2 | m2) /\ ~ (5 | m2))).
Proof.
  intros Hr. unfold divideExactDecimals. rewrite (proj2 (Z.eqb_neq _ _)) by lia. cbn -[Nat.max Nat.ltb].
  pose proof (pow10_pos (scale l - scale r)).
  set (N := coefficient l * pow10 (scale r - scale l)).
  set (D := coefficient r * pow10 (scale l - scale r)).
  assert (HD : 0 < D) by (unfold D; nia).
  rewrite (Z.abs_eq D) by lia. rewrite greatestCommonDivisor_spec by lia.
  rewrite Z.gcd_abs_l. set (g := Z.gcd N D).
  assert (Hg : 0 < g). { pose proof (Z.gcd_nonneg N D). assert (g ≠ 0) by (intros Hz%Z.gcd_eq_0_r; lia). unfold g in *. lia. }
  destruct (Z.gcd_divide_l N D) as [n Hn]. destruct (Z.gcd_divide_r N D) as [m Hm].
  fold g in Hn, Hm. assert (Hmp : 0 < m) by nia.
  rewrite Hn, Hm, !Z.quot_mul by lia.
  assert (Hrel : rel_prime m n).
  { apply rel_prime_sym, Zgcd_1_rel_prime.
    apply (Z.mul_reg_r _ _ g); [lia|]. rewrite Z.mul_1_l, <- Z.gcd_mul_mono_r_nonneg by lia.
    by rewrite <- Hn, <- Hm. }
  assert (Hq : forall d, is_quotient l r d <-> coefficient d * m = n * pow10 (scale d)).
  { intros d. rewrite is_quotient_parts by done. fold N D. rewrite Hn, Hm. split; intros E.
    - apply (Z.mul_reg_r _ _ g); [lia|]. rewrite <- Z.mul_assoc, E. ring.
    - rewrite Z.mul_assoc, E. ring. }
  exists n, m. split; [done|]. split; [done|]. split; [exact Hq|].
  destruct (strip 2 m) as [m1 t] eqn:E2. destruct (strip 5 m1) as [m2 f] eqn:E5.
  destruct (strip_both _ _ _ _ _ Hmp E2 E5) as (Em & Hm2 & Hn2 & Hn5).
  destruct (Z.eqb_spec m2 1) as [->|Hne]; cbn -[Nat.max Nat.ltb].
  - left. eexists. split; [reflexivity|]. split; [apply normalize_normal|].
    unfold is_quotient. rewrite normalize_value. apply Hq. cbn [coefficient scale].
    rewrite Em, Z.mul_1_r. apply scaled_numerator.
  - right. rewrite (proj2 (Z.eqb_neq m2 (-1))) by lia. cbn. split; [by eexists|].
    exists m2. split_and!; try done. rewrite Em. do 2 apply Z.divide_mul_r. apply Z.divide_refl.
Qed.

(** Division by a positive decimal is exact: a result is the quotient, in
    normal form, and there is a result exactly when the quotient has a
    terminating decimal expansion. *)
Theorem divide_exact l r label :
  0 < coefficient r ->
  (forall d, divideExactDecimals l r label = Ret d -> normal d /\ is_quotient l r d) /\
  (returns (divideExactDecimals l r label) = true <-> exists d, is_quotient l r d).
Proof.
  intros Hr. destruct (divide_cases l r label Hr) as (n & m & Hm & Hrel & Hq & [Hok|Hthrow]).
  - destruct Hok as (d & -> & Hd & Hqd). split; [by intros ? [= <-]|]. split; [eauto | done].
  - destruct Hthrow as ([e ->] & m2 & Hm2 & Hne & Hdiv & H2 & H5). split; [done|].
    split; [done|]. intros (d & Hd%Hq). exfalso. apply Hne.
    apply (divides_pow10_one m2 (scale d)); [done..|].
    etransitivity; [exact Hdiv|]. apply (Gauss m n); [|done].
    exists (coefficient d). lia.
Qed.

(** Addition, subtraction, multiplication and comparison of exact decimals
    are those of the rationals, and their results are in normal form. *)
Theorem arithmetic_exact a b :
  (dec_value (addExactDecimals a b) == dec_value a + dec_value b)%Q /\
  (dec_value (subtractExactDecimals a b) == dec_value a - dec_value b)%Q /\
  (dec_value (multiplyExactDecimals a b) == dec_value a * dec_value b)%Q /\
  compareExactDecimals a b = sign_of (dec_value a ?= dec_value b)%Q /\
  normal (addExactDecimals a b) /\ normal (subtractExactDecimals a b) /\
  normal (multiplyExactDecimals a b).
Proof.
  split_and!; auto using add_value, sub_value, mul_value, compare_value,
    add_normal, sub_normal, mul_normal.
Qed.

(** The sign of a negative divisor is lost: the loop leaves the denominator at
    [-1], which is accepted without negating the numerator. *)
Lemma divide_negative_divisor :
  divideExactDecimals {| coefficient := 1; scale := 0 |} {| coefficient := -2; scale := 0 |} "x"
  = Ret {| coefficient := 5; scale := 1 |}.
Proof. vm_compute. reflexivity. Qed.

(** ** Reading and printing *)

Lemma substring_app_l a b : String.substring 0 (String.length a) (a ++ b) = a.
Proof. induction a as [|c a IH]; [by destruct b|]. rewrite string_app_cons. simpl. by rewrite IH. Qed.

Lemma substring_all b : String.substring 0 (String.length b) b = b.
Proof. induction b as [|c b IH]; simpl; [done|]. by rewrite IH. Qed.

Lemma substring_app_r a b : String.substring (String.length a) (String.length b) (a ++ b) = b.
Proof.
  induction a as [|c a IH]; [apply substring_all|]. rewrite string_app_cons. simpl. exact IH.
Qed.

Lemma slices a b n :
  String.length b = n -> slice_init n (a ++ b) = a /\ slice_last n (a ++ b) = b.
Proof.
  intros <-. unfold slice_init, slice_last. rewrite length_string_app.
  replace (String.length a + String.length b - String.length b)%nat with (String.length a) by lia.
  split; [apply substring_app_l | apply substring_app_r].
Qed.

(** The text of a non-negative decimal in normal form. *)
Definition plain_text (d : ExactDecimal) : string :=
  match scale d with
  | O => nonneg_to_string (coefficient d)
  | S _ => (nonneg_to_string (coefficient d / pow10 (scale d)) ++ "."
            ++ digits_fixed (scale d) (coefficient d))%string
  end.

Lemma plain_text_padded c s :
  0 <= c -> (0 < s)%nat ->
  let padded := padStart0 (s + 1) (nonneg_to_string c) in
  slice_init s padded = nonneg_to_string (c / pow10 s) /\ slice_last s padded = digits_fixed s c.
Proof.
  intros Hc Hs. cbv zeta. rewrite padStart0_to_string by done.
  replace (Nat.max (s + 1) (decimal_width c)) with (Nat.max 1 (decimal_width c - s) + s)%nat by lia.
  rewrite digits_fixed_app. rewrite <- decimal_width_div by done.
  apply slices. apply length_digits_fixed.
Qed.

Lemma format_plain d :
  normal d ->
  formatExactDecimal d =
  ((if (coefficient d <? 0)%Z then "-" else EmptyString)
   ++ plain_text {| coefficient := Z.abs (coefficient d); scale := scale d |})%string.
Proof.
  intros Hn. unfold formatExactDecimal, plain_text. rewrite normalize_id by done.
  cbn [scale coefficient]. destruct (scale d) as [|s] eqn:Es; [done|].
  destruct (plain_text_padded (Z.abs (coefficient d)) (S s)) as [-> ->]; [lia..|]. done.
Qed.

Lemma ends_with_zero_fixed n z :
  ends_with_zero (digits_fixed (S n) z) = (z mod 10 =? 0).
Proof.
  assert (Hend : forall s c, ends_with_zero (s ++ String c EmptyString) = Ascii.eqb c "0").
  { induction s as [|c' s IH]; intros c; [done|]. rewrite string_app_cons. simpl.
    destruct (s ++ String c "")%string eqn:E; [|rewrite <- E; apply IH].
    apply (f_equal String.length) in E. rewrite length_string_app in E. simpl in E. lia. }
  unfold digits_fixed; fold digits_fixed. rewrite Hend.
  pose proof (Z.mod_pos_bound z 10 ltac:(lia)) as Hb.
  destruct (Z.eqb_spec (z mod 10) 0) as [->|Hne]; [done|].
  apply Ascii.eqb_neq. intros E. apply (f_equal digit_value) in E.
  rewrite digit_char_value in E by lia. done.
Qed.

Lemma match_decimal_whole w : canonical_whole w = true -> match_decimal w = Some (w, None).
Proof.
  intros Hw. unfold match_decimal. rewrite <- (string_app_nil_r w) at 1.
  rewrite span_digits_app; [|by apply andb_true_iff in Hw as [? _]|done]. by rewrite Hw.
Qed.

Lemma match_decimal_dot w f :
  canonical_whole w = true -> all_digits f = true -> f ≠ EmptyString ->
  match_decimal (w ++ "." ++ f) = Some (w, Some f).
Proof.
  intros Hw Hf Hne. unfold match_decimal. rewrite string_app_cons. change ("" ++ f)%string with f.
  rewrite span_digits_app; [|by apply andb_true_iff in Hw as [? _]|done]. rewrite Hw.
  rewrite bool_decide_eq_false_2 by done. unfold take_char. rewrite Ascii.eqb_refl. simpl.
  rewrite Hf, bool_decide_eq_false_2 by done. done.
Qed.

Lemma split_dot_no_dot w : all_digits w = true -> split_dot w = (w, EmptyString).
Proof.
  unfold all_digits. induction w as [|c w IH]; [done|]. cbn [string_forallb]. intros H. destruct_bools.
  destruct c as [[][][][][][][][]]; try discriminate; simpl; by rewrite IH.
Qed.

Lemma split_dot_app w f : all_digits w = true -> split_dot (w ++ "." ++ f) = (w, f).
Proof.
  unfold all_digits. induction w as [|c w IH]; [done|]. cbn [string_forallb]. intros H. destruct_bools.
  rewrite string_app_cons. destruct c as [[][][][][][][][]]; try discriminate; simpl; by rewrite IH.
Qed.

Lemma digits_no_minus w : all_digits w = true -> take_char "-" w = None.
Proof.
  destruct w as [|c w]; [done|]. unfold all_digits. cbn [string_forallb]. intros H. destruct_bools.
  unfold take_char. destruct (Ascii.eqb_spec "-" c); [by subst|done].
Qed.

Lemma digits_no_minus_app w r :
  all_digits w = true -> w ≠ EmptyString -> take_char "-" (w ++ r) = None.
Proof.
  destruct w as [|c w]; [done|]. unfold all_digits. cbn [string_forallb]. intros H _. destruct_bools.
  rewrite string_app_cons. unfold take_char. destruct (Ascii.eqb_spec "-" c); [by subst|done].
Qed.

Lemma canonical_whole_digits w : canonical_whole w = true -> all_digits w = true /\ w ≠ EmptyString.
Proof.
  unfold canonical_whole. intros [Hd H]%andb_true_iff. split; [done|]. intros ->. discriminate.
Qed.

(** Reading the text of a decimal in normal form. *)
Lemma parse_plain_text d :
  normal d -> 0 <= coefficient d ->
  CANONICAL_NON_NEGATIVE (plain_text d) = true /\
  take_char "-" (plain_text d) = None /\
  parseCanonicalDecimal (plain_text d) = d /\
  starts_nonzero (plain_text d) = starts_nonzero (nonneg_to_string (coefficient d / pow10 (scale d))).
Proof.
  intros Hn Hc. unfold plain_text, CANONICAL_NON_NEGATIVE, parseCanonicalDecimal.
  destruct d as [c s]; cbn [coefficient scale] in *. destruct s as [|s].
  - pose proof (canonical_whole_to_string c Hc) as Hw.
    destruct (canonical_whole_digits _ Hw) as [Hd Hne].
    rewrite match_decimal_whole, digits_no_minus by done. cbn [default].
    rewrite split_dot_no_dot, string_app_nil_r, digits_value_nonneg_to_string by done.
    change (pow10 0) with 1. rewrite Z.div_1_r, Z.mul_1_l. done.
  - pose proof (pow10_pos (S s)). assert (Hq : 0 <= c / pow10 (S s)) by (apply Z.div_pos; lia).
    pose proof (canonical_whole_to_string _ Hq) as Hw.
    destruct (canonical_whole_digits _ Hw) as [Hd Hne].
    assert (Hf : all_digits (digits_fixed (S s) c) = true) by apply digits_fixed_digits.
    assert (Hfne : digits_fixed (S s) c ≠ EmptyString).
    { intros E. pose proof (length_digits_fixed (S s) c) as HL. by rewrite E in HL. }
    rewrite match_decimal_dot, digits_no_minus_app by done. cbn [default].
    rewrite split_dot_app by done. rewrite ends_with_zero_fixed.
    destruct Hn as [Hn|Hn]; [done|]. cbn [coefficient] in Hn. rewrite Z.rem_mod_nonneg in Hn by lia.
    split; [by apply negb_true_iff, Z.eqb_neq|]. split; [done|]. split.
    + rewrite length_digits_fixed, digits_value_app, length_digits_fixed.
      rewrite digits_value_nonneg_to_string by done.
      rewrite (digits_fixed_mod (S s) c (c mod 10 ^ Z.of_nat (S s))) by (by rewrite Z.mod_mod by lia).
      rewrite digits_value_fixed by (apply Z.mod_pos_bound; lia).
      fold (pow10 (S s)). pose proof (Z.div_mod c (pow10 (S s)) ltac:(lia)).
      replace (_ * _ + _) with c by lia. rewrite Z.mul_1_l. apply normalize_id. right. cbn.
      by rewrite Z.rem_mod_nonneg by lia.
    + destruct (nonneg_to_string (c / pow10 (S s))); [done|]. by rewrite string_app_cons.
Qed.

Lemma match_decimal_inv s w o :
  match_decimal s = Some (w, o) ->
  canonical_whole w = true /\
  match o with
  | None => s = w
  | Some f => s = (w ++ "." ++ f)%string /\ all_digits f = true /\ f ≠ EmptyString
  end.
Proof.
  unfold match_decimal.
  assert (Hspan : forall t a r, span_digits t = (a, r) -> t = (a ++ r)%string).
  { induction t as [|c t IH]; intros a r; simpl; [by intros [= <- <-]|].
    destruct (is_digit c); [|by intros [= <- <-]].
    destruct (span_digits t) as [a' r'] eqn:E. intros [= <- <-]. rewrite string_app_cons.
    by rewrite <- (IH a' r'). }
  destruct (span_digits s) as [a r] eqn:E. apply Hspan in E.
  destruct (canonical_whole a) eqn:Hw; [|done].
  case_bool_decide as Hr.
  - intros [= <- <-]. split; [done|]. by rewrite E, Hr, string_app_nil_r.
  - intros (f & Hf%take_char_inv & H)%bind_Some. destruct (all_digits f) eqn:Hd; [|done].
    case_bool_decide; [done|]. simplify_eq/=. by split_and!.
Qed.

(** Every canonical text is the text of the decimal it reads as. *)
Lemma canonical_is_plain_text s :
  CANONICAL_NON_NEGATIVE s = true ->
  let d := parseCanonicalDecimal s in
  normal d /\ 0 <= coefficient d /\ plain_text d = s.
Proof.
  unfold CANONICAL_NON_NEGATIVE, parseCanonicalDecimal. cbv zeta.
  destruct (match_decimal s) as [[w o]|] eqn:Hm; [|done].
  apply match_decimal_inv in Hm as [Hw Ho].
  destruct (canonical_whole_digits _ Hw) as [Hd Hne].
  pose proof (digits_value_bounds w Hd) as Hwb. destruct o as [f|].
  - destruct Ho as (-> & Hf & Hfne). intros Hz%negb_true_iff.
    rewrite digits_no_minus_app by done. cbn [default].
    rewrite split_dot_app, Z.mul_1_l by done. rewrite digits_value_app.
    pose proof (digits_value_bounds f Hf) as Hfb.
    destruct (String.length f) as [|n] eqn:El; [by destruct f|].
    assert (Hff : digits_fixed (S n) (digits_value f) = f) by (rewrite <- El; by apply digits_fixed_value).
    assert (Hmod : (digits_value w * 10 ^ Z.of_nat (S n) + digits_value f) mod 10 ≠ 0).
    { rewrite <- Hff, ends_with_zero_fixed in Hz. apply Z.eqb_neq in Hz.
      rewrite Nat2Z.inj_succ, Z.pow_succ_r by lia.
      replace (digits_value w * (10 * 10 ^ Z.of_nat n) + digits_value f)
        with (digits_value f + digits_value w * 10 ^ Z.of_nat n * 10) by ring.
      by rewrite Z_mod_plus_full. }
    rewrite normalize_id by (right; cbn; rewrite Z.rem_mod_nonneg by lia; exact Hmod).
    cbn [coefficient]. split; [right; cbn; by rewrite Z.rem_mod_nonneg by lia|].
    split; [lia|]. unfold plain_text, pow10. cbn [coefficient scale].
    rewrite Z.div_add_l, Z.div_small, Z.add_0_r by lia. rewrite nonneg_to_string_value by done.
    rewrite (digits_fixed_mod (S n) (_ + digits_value f) (digits_value f)), Hff; [done|].
    by rewrite Z.add_comm, Z_mod_plus_full.
  - subst s. intros _. rewrite digits_no_minus by done. cbn [default].
    rewrite split_dot_no_dot, string_app_nil_r, Z.mul_1_l by done.
    change (String.length "") with O. change (normalizeExactDecimal ?x) with x.
    split; [by left|]. split; [cbn; lia|]. unfold plain_text; cbn [scale coefficient].
    by apply nonneg_to_string_value.
Qed.

Lemma starts_nonzero_to_string z : 0 <= z -> starts_nonzero (nonneg_to_string z) = negb (z =? 0).
Proof.
  intros Hz. pose proof (canonical_whole_to_string z Hz) as Hw. unfold canonical_whole in Hw.
  apply andb_true_iff in Hw as [_ Hw]. destruct (Z.eqb_spec z 0) as [->|Hne]; [done|].
  apply orb_true_iff in Hw as [Hw%bool_decide_eq_true| ->]; [|done].
  apply (f_equal digits_value) in Hw. rewrite digits_value_nonneg_to_string in Hw by done.
  by change (digits_value "0") with 0 in Hw.
Qed.

Lemma format_nonneg d : normal d -> 0 <= coefficient d -> formatExactDecimal d = plain_text d.
Proof.
  intros Hn Hc. rewrite format_plain by done. rewrite (proj2 (Z.ltb_ge _ _)) by lia.
  destruct d as [c s]. cbn in *. by rewrite Z.abs_eq.
Qed.

(** Reading back what is printed, used below as rewriting facts. *)
Lemma parse_format_nonneg d label :
  normal d -> 0 <= coefficient d ->
  parseCanonicalNonNegativeDecimal (formatExactDecimal d) label = Ret d.
Proof.
  intros Hn Hc. rewrite format_nonneg by done.
  destruct (parse_plain_text d Hn Hc) as (H1 & _ & H2 & _).
  unfold parseCanonicalNonNegativeDecimal. by rewrite H1, H2.
Qed.

Lemma parse_nonneg_Ret s label d :
  parseCanonicalNonNegativeDecimal s label = Ret d ->
  normal d /\ 0 <= coefficient d /\ formatExactDecimal d = s.
Proof.
  unfold parseCanonicalNonNegativeDecimal. intros H. inv_outcome.
  match goal with Hb : negb _ = false |- _ => apply negb_false_iff in Hb as Hc end.
  destruct (canonical_is_plain_text s Hc) as (Hn & Hnn & Ht). split_and!; [done..|].
  by rewrite format_nonneg.
Qed.

(** Printing and reading canonical non-negative decimals are inverse: the
    text of a decimal in normal form reads back as that decimal, and an
    accepted text is the text of what it reads as, so two accepted texts with
    one value are the same string. *)
Theorem nonneg_decimal_roundtrip label :
  (forall d, normal d -> 0 <= coefficient d ->
     parseCanonicalNonNegativeDecimal (formatExactDecimal d) label = Ret d) /\
  (forall s d, parseCanonicalNonNegativeDecimal s label = Ret d -> formatExactDecimal d = s).
Proof.
  split; [intros d; apply parse_format_nonneg|]. intros s d H. by apply parse_nonneg_Ret in H as (_ & _ & ?).
Qed.

Lemma nonneg_decimal_roundtrip_witness :
  parseCanonicalNonNegativeDecimal (formatExactDecimal {| coefficient := 1005; scale := 3 |}) "x"
  = Ret {| coefficient := 1005; scale := 3 |}.
Proof.
  apply (proj1 (nonneg_decimal_roundtrip "x")); [right; vm_compute; discriminate | vm_compute; discriminate].
Defined.

Lemma divide_exact_witness :
  is_quotient {| coefficient := 1; scale := 0 |} {| coefficient := 8; scale := 0 |}
    {| coefficient := 125; scale := 3 |}.
Proof.
  apply (proj1 (divide_exact {| coefficient := 1; scale := 0 |} {| coefficient := 8; scale := 0 |} "x"
                  ltac:(vm_compute; reflexivity))).
  vm_compute. reflexivity.
Defined.

(** A proper fraction that is not zero. *)
Definition proper_fraction (d : ExactDecimal) : bool :=
  negb (coefficient d =? 0) && (Z.abs (coefficient d) <? pow10 (scale d)).

Lemma normal_abs d : normal d -> normal {| coefficient := Z.abs (coefficient d); scale := scale d |}.
Proof.
  unfold normal; cbn. intros [?|H]; [by left|]. right. intros E. apply H.
  destruct (Z.abs_spec (coefficient d)) as [[_ Ea]|[_ Ea]]; rewrite Ea in E; [done|].
  rewrite Z.rem_opp_l in E by lia. lia.
Qed.

Lemma starts_nonzero_plain d :
  normal d -> 0 <= coefficient d ->
  starts_nonzero (plain_text d) = negb (coefficient d <? pow10 (scale d)).
Proof.
  intros Hn Hc. destruct (parse_plain_text d Hn Hc) as (_ & _ & _ & ->).
  pose proof (pow10_pos (scale d)).
  rewrite starts_nonzero_to_string by (apply Z.div_pos; lia). f_equal.
  destruct (Z.ltb_spec (coefficient d) (pow10 (scale d))) as [Hlt|Hge].
  - by rewrite Z.div_small.
  - apply Z.eqb_neq. assert (1 <= coefficient d / pow10 (scale d)) by (apply Z.div_le_lower_bound; lia).
    lia.
Qed.

Lemma parse_negative_text t d :
  take_char "-" t = None -> parseCanonicalDecimal t = d ->
  parseCanonicalDecimal (String "-" t)
  = normalizeExactDecimal {| coefficient := - coefficient d; scale := scale d |}.
Proof.
  intros Hminus Hparse. unfold parseCanonicalDecimal in *. rewrite Hminus in Hparse.
  change (take_char "-" (String "-" t)) with (Some t). cbn [default from_option] in *.
  change (id t) with t in *. destruct (split_dot t) as [w f].
  apply normal_unique; [apply normalize_normal..|]. rewrite !normalize_value.
  apply (f_equal dec_value) in Hparse.
  assert (Hq : (dec_value {| coefficient := 1 * digits_value (w ++ f); scale := String.length f |}
                == dec_value d)%Q) by (rewrite <- Hparse; symmetry; apply normalize_value).
  apply dec_value_eq in Hq. apply dec_value_eq. cbn [coefficient scale] in *. lia.
Qed.

(** Without the regular expression, reading inverts printing everywhere. *)
Lemma parse_format d : normal d -> parseCanonicalDecimal (formatExactDecimal d) = d.
Proof.
  intros Hn. set (a := {| coefficient := Z.abs (coefficient d); scale := scale d |}).
  assert (Ha : normal a) by by apply normal_abs.
  destruct (parse_plain_text a Ha ltac:(cbn; lia)) as (_ & Hminus & Hparse & _).
  rewrite format_plain by done. fold a. destruct (Z.ltb_spec (coefficient d) 0) as [Hneg|Hpos].
  - rewrite string_app_cons. change ("" ++ plain_text a)%string with (plain_text a).
    rewrite (parse_negative_text _ a) by done. destruct d as [c s]. cbn in *.
    rewrite Z.abs_neq, Z.opp_involutive by lia. by apply normalize_id.
  - change (EmptyString ++ plain_text a)%string with (plain_text a). rewrite Hparse.
    destruct d; cbn in *. unfold a; cbn. by rewrite Z.abs_eq.
Qed.

(** The signed regular expression on printed text. *)
Lemma signed_canonical_format d :
  normal d -> CANONICAL_SIGNED (formatExactDecimal d) = negb (proper_fraction d).
Proof.
  intros Hn. set (a := {| coefficient := Z.abs (coefficient d); scale := scale d |}).
  assert (Ha : normal a) by by apply normal_abs.
  assert (Hc : 0 <= coefficient a) by (cbn; lia).
  destruct (parse_plain_text a Ha Hc) as (Hcan & Hminus & Hparse & _).
  pose proof (starts_nonzero_plain a Ha Hc) as Hstart. cbn [a coefficient scale] in Hstart.
  rewrite format_plain by done. fold a. unfold CANONICAL_SIGNED, proper_fraction.
  destruct (Z.ltb_spec (coefficient d) 0) as [Hneg|Hpos].
  - rewrite string_app_cons. change ("" ++ plain_text a)%string with (plain_text a).
    change (CANONICAL_NON_NEGATIVE (String "-" (plain_text a))) with false.
    change (take_char "-" (String "-" (plain_text a))) with (Some (plain_text a)).
    rewrite bool_decide_eq_false_2 by done. cbn [orb andb]. rewrite Hcan, Hstart.
    by rewrite (proj2 (Z.eqb_neq _ _)) by lia.
  - change (EmptyString ++ plain_text a)%string with (plain_text a).
    rewrite Hcan, Hminus, Hstart. cbn [andb]. rewrite orb_false_r.
    destruct (Z.eqb_spec (coefficient d) 0) as [Hz|Hz].
    + assert (Hs : scale d = O) by (destruct Hn as [?|Hr]; [done|]; by rewrite Hz in Hr).
      unfold a. rewrite Hs, Hz. reflexivity.
    + cbn [negb andb]. destruct (Z.abs (coefficient d) <? pow10 (scale d)) eqn:Hlt;
        [|by rewrite orb_true_r].
      rewrite bool_decide_eq_false_2; [done|]. intros E. rewrite E in Hparse.
      change (parseCanonicalDecimal "0") with {| coefficient := 0; scale := O |} in Hparse.
      apply (f_equal coefficient) in Hparse. cbn in Hparse. lia.
Qed.

(** The signed reader inverts the printer exactly outside the open unit
    interval: it throws on the printed text of every proper fraction, such as
    a realized PnL of half a won, although the printer produces that text. *)
Theorem signed_decimal_roundtrip d label :
  normal d ->
  parseCanonicalSignedDecimal (formatExactDecimal d) label =
  if proper_fraction d then Throw (label ++ " must be a canonical signed decimal string.")
  else Ret d.
Proof.
  intros Hn. unfold parseCanonicalSignedDecimal.
  rewrite signed_canonical_format, parse_format by done. by destruct (proper_fraction d).
Qed.

Lemma signed_decimal_roundtrip_witness :
  parseCanonicalSignedDecimal "-1.25" "x" = Ret {| coefficient := -125; scale := 2 |} /\
  parseCanonicalSignedDecimal "-0.5" "x"
  = Throw "x must be a canonical signed decimal string."%string.
Proof.
  split.
  - assert (Hn : normal {| coefficient := -125; scale := 2 |}) by (right; vm_compute; discriminate).
    pose proof (signed_decimal_roundtrip _ "x" Hn) as H. vm_compute in H |- *. exact H.
  - assert (Hn : normal {| coefficient := -5; scale := 1 |}) by (right; vm_compute; discriminate).
    pose proof (signed_decimal_roundtrip _ "x" Hn) as H. vm_compute in H |- *. exact H.
Defined.
