(* ===== verification/ExactState.v ===== *)
(** * ExactState: the exact candidate ledger

    modules/execution/candidate-evidence-decimals.ts (the state half): the
    candidate state with its amounts as canonical decimal strings, one advance
    by an execution evidence, and the projection of all evidence in
    chronological order.

    The abstract specification is a [ledger] over the rationals; the projection
    is proved to refine it. *)

From stdpp Require Import base option list strings.
From Stdlib Require Import ZArith QArith Lqa Lia.
From S2P Require Import Prelude Num Types Text NumText Timestamp CandidateState Decimals.

Local Open Scope Z_scope.

(** ** Data *)

Record ExactCandidateState := {
  currentEpisodeAddCount : Z;
  currentEpisodeCostBasisKrw : string;
  currentEpisodeInventoryQuantity : string;
  currentEpisodeRealizedPnlKrw : string;
  lastFullExitAt : option string;
  lastFullExitRealizedPnlKrw : option string;
  lastEntryPath : option StrategyEntryPath;
  lastEvidenceAt : option string;
  lastEvidenceId : option string;
  stateVersion : Z;
}.

Definition EXACT_CANDIDATE_QUANTITY_TOLERANCE : string := "0.000000000001".
Definition QUANTITY_TOLERANCE : ExactDecimal :=
  parseCanonicalDecimal EXACT_CANDIDATE_QUANTITY_TOLERANCE.

#[export] Instance ExactCandidateState_eq_dec : EqDecision ExactCandidateState.
Proof. solve_decision. Defined.

Definition createExactEmptyCandidateState : ExactCandidateState := {|
  currentEpisodeAddCount := 0;
  currentEpisodeCostBasisKrw := "0";
  currentEpisodeInventoryQuantity := "0";
  currentEpisodeRealizedPnlKrw := "0";
  lastFullExitAt := None;
  lastFullExitRealizedPnlKrw := None;
  lastEntryPath := None;
  lastEvidenceAt := None;
  lastEvidenceId := None;
  stateVersion := 0;
|}.

Definition parseCandidateEvidenceTimestamp (value label : string) : outcome Z :=
  parsePositionGuardCandidateTimestamp value label.

Definition compareDeterministicIdentifiers (left right : string) : comparison :=
  string_compare left right.

(** ** Operations *)

Local Open Scope js_scope.
Local Open Scope bool_scope.

(** [canonicalNonNegativeDecimal] of an evidence field, which must be a string. *)
Definition canonicalEvidenceDecimal (value : PositionGuardCandidateDecimal) (label : string)
    : outcome string :=
  match value with
  | DecimalText s => canonicalNonNegativeDecimal s label
  | DecimalNumber _ =>
      Throw (label ++ " must be a canonical non-negative decimal string.")%string
  end.

Definition deriveExactRemainingQuantity
    (currentQuantity : string) (action : ExecutedAction) (executedQuantity : string)
    : outcome string :=
  current ← parseCanonicalNonNegativeDecimal currentQuantity "candidate exact inventory quantity";
  executed ← parseCanonicalNonNegativeDecimal executedQuantity "candidate executed quantity";
  if isBuyAction action then Ret (formatExactDecimal (addExactDecimals current executed))
  else
    _ ← throw_if (0 <? compareExactDecimals executed (addExactDecimals current QUANTITY_TOLERANCE))
          "Terminal sell evidence exceeds exact candidate inventory.";
    let remaining := subtractExactDecimals current executed in
    Ret (if compareExactDecimals (absDecimal remaining) QUANTITY_TOLERANCE <=? 0
         then "0"%string else formatExactDecimal remaining).

Definition assertExactChronology (s : ExactCandidateState) (e : PositionGuardCandidateExecutionEvidence)
    : outcome unit :=
  match lastEvidenceAt s with
  | None => Ret tt
  | Some at_ =>
      cursor ← parsePositionGuardCandidateTimestamp at_ "candidate state lastEvidenceAt";
      next ← parsePositionGuardCandidateTimestamp (executedAt e) "candidate evidence executedAt";
      throw_if ((next <? cursor)
                || ((next =? cursor) && id_not_after (evidenceId e) (lastEvidenceId s)))
        "Candidate evidence must be in exact persisted chronology order."
  end.

(** The fields every fill updates, over those a branch computes. *)
Definition after_fill (s : ExactCandidateState) (e : PositionGuardCandidateExecutionEvidence)
    (adds : Z) (cost inventory pnl : string) (exit : option (string * string))
    (path : option StrategyEntryPath) : ExactCandidateState := {|
  currentEpisodeAddCount := adds;
  currentEpisodeCostBasisKrw := cost;
  currentEpisodeInventoryQuantity := inventory;
  currentEpisodeRealizedPnlKrw := pnl;
  lastFullExitAt := match exit with Some (at_, _) => Some at_ | None => lastFullExitAt s end;
  lastFullExitRealizedPnlKrw :=
    match exit with Some (_, p) => Some p | None => lastFullExitRealizedPnlKrw s end;
  lastEntryPath := path;
  lastEvidenceAt := Some (executedAt e);
  lastEvidenceId := Some (evidenceId e);
  stateVersion := stateVersion s + 1;
|}.

(** The buy branch. *)
Definition exact_buy (s : ExactCandidateState) (e : PositionGuardCandidateExecutionEvidence)
    (expectedRemaining : string) (currentCost gross fee : ExactDecimal)
    : outcome ExactCandidateState :=
  let flat := currentEpisodeInventoryQuantity s === "0"%string in
  _ ← throw_if ((ev_action e === Exec.ENTER) && negb flat)
        "Candidate ENTER evidence requires an exact flat episode.";
  _ ← throw_if ((ev_action e === Exec.ADD) && flat)
        "Candidate ADD evidence requires an exact open episode.";
  Ret (after_fill s e
         (if ev_action e === Exec.ADD then currentEpisodeAddCount s + 1 else currentEpisodeAddCount s)
         (formatExactDecimal (addExactDecimals currentCost (addExactDecimals gross fee)))
         expectedRemaining (currentEpisodeRealizedPnlKrw s) None
         (if ev_action e === Exec.ENTER then Some (ev_entryPath e) else lastEntryPath s)).

(** The sell branch. *)
Definition exact_sell (s : ExactCandidateState) (e : PositionGuardCandidateExecutionEvidence)
    (expectedRemaining : string) (currentCost currentQuantity currentPnl executed gross fee : ExactDecimal)
    : outcome ExactCandidateState :=
  _ ← throw_if (currentEpisodeInventoryQuantity s === "0"%string)
        "Candidate sell evidence requires an exact open episode.";
  let closes := expectedRemaining === "0"%string in
  removedCost ←
    (if closes then Ret currentCost
     else divideExactDecimals (multiplyExactDecimals currentCost executed) currentQuantity
            "candidate proportional cost allocation");
  let realized :=
    subtractExactDecimals (addExactDecimals currentPnl (subtractExactDecimals gross fee)) removedCost in
  Ret (if closes
       then after_fill s e 0 "0" "0" "0" (Some (executedAt e, formatExactDecimal realized))
              (lastEntryPath s)
       else after_fill s e (currentEpisodeAddCount s)
              (formatExactDecimal (subtractExactDecimals currentCost removedCost))
              expectedRemaining (formatExactDecimal realized) None (lastEntryPath s)).

Definition advanceExactCandidateState
    (s : ExactCandidateState) (e : PositionGuardCandidateExecutionEvidence)
    : outcome ExactCandidateState :=
  executedText ← canonicalEvidenceDecimal (executedQuantity e) "candidate evidence executedQuantity";
  grossText ← canonicalEvidenceDecimal (grossQuoteValueKrw e) "candidate evidence grossQuoteValueKrw";
  feeText ← canonicalEvidenceDecimal (confirmedFeeKrw e) "candidate evidence confirmedFeeKrw";
  remainingText ← canonicalEvidenceDecimal (remainingQuantity e) "candidate evidence remainingQuantity";
  _ ← assertExactChronology s e;
  if executedText === "0"%string then
    _ ← throw_if (remainingText !== currentEpisodeInventoryQuantity s)
          "Terminal no-fill candidate evidence contradicts exact inventory.";
    Ret s
  else
    expectedRemaining ←
      deriveExactRemainingQuantity (currentEpisodeInventoryQuantity s) (ev_action e) executedText;
    _ ← throw_if (expectedRemaining !== remainingText)
          ("Candidate evidence " ++ evidenceId e ++ " remainingQuantity contradicts exact inventory.")%string;
    currentCost ← parseCanonicalNonNegativeDecimal (currentEpisodeCostBasisKrw s) "candidate exact cost basis";
    currentQuantity ← parseCanonicalNonNegativeDecimal (currentEpisodeInventoryQuantity s) "candidate exact inventory";
    currentPnl ← parseCanonicalSignedDecimal (currentEpisodeRealizedPnlKrw s) "candidate exact realized pnl";
    executed ← parseCanonicalNonNegativeDecimal executedText "candidate executed quantity";
    gross ← parseCanonicalNonNegativeDecimal grossText "candidate gross quote value";
    fee ← parseCanonicalNonNegativeDecimal feeText "candidate confirmed fee";
    if isBuyAction (ev_action e)
    then exact_buy s e expectedRemaining currentCost gross fee
    else exact_sell s e expectedRemaining currentCost currentQuantity currentPnl executed gross fee.

(** An evidence with its instant, as the projection sorts them. *)
Definition TimedEvidence : Type := Z * PositionGuardCandidateExecutionEvidence.

Definition time_evidence (e : PositionGuardCandidateExecutionEvidence) : outcome TimedEvidence :=
  epoch ← parsePositionGuardCandidateTimestamp (executedAt e) "candidate evidence executedAt";
  Ret (epoch, e).

Definition compare_evidence (left right : TimedEvidence) : comparison :=
  match (fst left ?= fst right)%Z with
  | Eq => compareDeterministicIdentifiers (evidenceId (snd left)) (evidenceId (snd right))
  | c => c
  end.

Definition ordered_evidence (items : list PositionGuardCandidateExecutionEvidence)
    : outcome (list PositionGuardCandidateExecutionEvidence) :=
  timed ← mapM_outcome time_evidence items;
  Ret (snd <$> js_sort compare_evidence timed).

Definition projectExactCandidateState (items : list PositionGuardCandidateExecutionEvidence)
    : outcome ExactCandidateState :=
  ordered ← ordered_evidence items;
  foldM_outcome advanceExactCandidateState createExactEmptyCandidateState ordered.

(** ** The abstract ledger

    Quantities and amounts as rationals.  [l_outlay] is the cash put into the
    open episode and not yet taken out: gross plus fee of its buys less gross
    minus fee of its sells. *)

Record ledger := {
  l_quantity : Q;
  l_outlay : Q;
  l_adds : Z;
  l_exitPnl : option Q;
  l_fills : Z;
}.

Definition empty_ledger : ledger :=
  {| l_quantity := 0; l_outlay := 0; l_adds := 0; l_exitPnl := None; l_fills := 0 |}.

(** The rational a decimal text denotes. *)
Definition text_value (s : string) : Q := dec_value (parseCanonicalDecimal s).

Definition amount (d : PositionGuardCandidateDecimal) : Q :=
  match d with DecimalText s => text_value s | DecimalNumber _ => 0 end.

Definition is_zero_text (d : PositionGuardCandidateDecimal) : bool :=
  match d with DecimalText s => s === "0"%string | DecimalNumber _ => false end.

Definition ledger_step (l : ledger) (e : PositionGuardCandidateExecutionEvidence) : ledger :=
  let q := amount (executedQuantity e) in
  let gross := amount (grossQuoteValueKrw e) in
  let fee := amount (confirmedFeeKrw e) in
  if is_zero_text (executedQuantity e) then l
  else if isBuyAction (ev_action e) then
    {| l_quantity := (l_quantity l + q)%Q; l_outlay := (l_outlay l + (gross + fee))%Q;
       l_adds := (if ev_action e === Exec.ADD then l_adds l + 1 else l_adds l)%Z;
       l_exitPnl := l_exitPnl l; l_fills := (l_fills l + 1)%Z |}
  else if is_zero_text (remainingQuantity e) then
    {| l_quantity := 0; l_outlay := 0; l_adds := 0;
       l_exitPnl := Some ((gross - fee) - l_outlay l)%Q; l_fills := (l_fills l + 1)%Z |}
  else
    {| l_quantity := (l_quantity l - q)%Q; l_outlay := (l_outlay l - (gross - fee))%Q;
       l_adds := l_adds l; l_exitPnl := l_exitPnl l; l_fills := (l_fills l + 1)%Z |}.

(** Equality of the two exit results. *)
Definition same_exit (p : option string) (q : option Q) : Prop :=
  match p, q with
  | None, None => True
  | Some s, Some v => (text_value s == v)%Q
  | _, _ => False
  end.

(** The text of a non-negative amount. *)
Definition amount_text (s : string) : Prop := CANONICAL_NON_NEGATIVE s = true.

Record refines (s : ExactCandidateState) (l : ledger) : Prop := {
  ref_quantity : (text_value (currentEpisodeInventoryQuantity s) == l_quantity l)%Q;
  ref_outlay : (text_value (currentEpisodeCostBasisKrw s)
                - text_value (currentEpisodeRealizedPnlKrw s) == l_outlay l)%Q;
  ref_adds : currentEpisodeAddCount s = l_adds l;
  ref_exit : same_exit (lastFullExitRealizedPnlKrw s) (l_exitPnl l);
  ref_fills : stateVersion s = l_fills l;
  ref_inventory_text : amount_text (currentEpisodeInventoryQuantity s);
  ref_cost_text : amount_text (currentEpisodeCostBasisKrw s);
  ref_flat : currentEpisodeInventoryQuantity s = "0"%string ->
    currentEpisodeCostBasisKrw s = "0"%string /\
    currentEpisodeRealizedPnlKrw s = "0"%string /\ currentEpisodeAddCount s = 0;
}.

(** ** Texts and values *)

Lemma amount_text_parse t label :
  amount_text t ->
  exists d, parseCanonicalNonNegativeDecimal t label = Ret d /\ d = parseCanonicalDecimal t /\
    normal d /\ 0 <= coefficient d.
Proof.
  intros Ht. exists (parseCanonicalDecimal t). unfold parseCanonicalNonNegativeDecimal.
  rewrite Ht. destruct (canonical_is_plain_text t Ht) as (? & ? & _). done.
Qed.

Lemma parse_amount t label d :
  parseCanonicalNonNegativeDecimal t label = Ret d ->
  amount_text t /\ d = parseCanonicalDecimal t /\ normal d /\ 0 <= coefficient d.
Proof.
  intros H. destruct (parse_nonneg_Ret _ _ _ H) as (Hn & Hc & _).
  unfold parseCanonicalNonNegativeDecimal in H. inv_outcome. split_and!; try done.
  by apply negb_false_iff.
Qed.

Lemma canonicalEvidenceDecimal_Ret v label t :
  canonicalEvidenceDecimal v label = Ret t -> v = DecimalText t /\ amount_text t.
Proof.
  destruct v as [s|]; [|done]. unfold canonicalEvidenceDecimal, canonicalNonNegativeDecimal.
  intros (d & Hd & [= <-])%bind_Ret. destruct (parse_nonneg_Ret _ _ _ Hd) as (_ & _ & ->).
  split; [done|]. by apply parse_amount in Hd as [? _].
Qed.

Lemma text_value_format d : normal d -> text_value (formatExactDecimal d) = dec_value d.
Proof. intros Hn. unfold text_value. by rewrite parse_format. Qed.

Lemma amount_text_format d : normal d -> 0 <= coefficient d -> amount_text (formatExactDecimal d).
Proof.
  intros Hn Hc. unfold amount_text. rewrite format_nonneg by done.
  by destruct (parse_plain_text d Hn Hc) as [? _].
Qed.

Lemma amount_text_zero t : amount_text t -> coefficient (parseCanonicalDecimal t) = 0 -> t = "0"%string.
Proof.
  intros Ht Hz. destruct (canonical_is_plain_text t Ht) as (Hn & _ & Hp).
  rewrite <- Hp. destruct Hn as [Hs|Hr]; [|by rewrite Hz in Hr].
  unfold plain_text. rewrite Hs, Hz. reflexivity.
Qed.

Lemma dec_value_nonneg d : (0 <= dec_value d)%Q <-> 0 <= coefficient d.
Proof. unfold Qle, dec_value; simpl. lia. Qed.

Lemma dec_value_pos d : (0 < dec_value d)%Q <-> 0 < coefficient d.
Proof. unfold Qlt, dec_value; simpl. lia. Qed.

Lemma amount_text_nonneg t : amount_text t -> (0 <= text_value t)%Q.
Proof.
  intros Ht. destruct (canonical_is_plain_text t Ht) as (_ & Hc & _). by apply dec_value_nonneg.
Qed.

Lemma amount_text_pos t : amount_text t -> t ≠ "0"%string -> (0 < text_value t)%Q.
Proof.
  intros Ht Hne. destruct (canonical_is_plain_text t Ht) as (_ & Hc & _). apply dec_value_pos.
  destruct (decide (coefficient (parseCanonicalDecimal t) = 0)) as [Hz|]; [|lia].
  exfalso. by apply Hne, amount_text_zero.
Qed.

Lemma text_value_0 : (text_value "0" == 0)%Q.
Proof. reflexivity. Qed.

Lemma compare_le a b : (compareExactDecimals a b <=? 0) = true <-> (dec_value a <= dec_value b)%Q.
Proof.
  rewrite compare_value, Z.leb_le, Qle_alt. by destruct (_ ?= _)%Q.
Qed.

Lemma compare_gt a b : (0 <? compareExactDecimals a b) = false <-> (dec_value a <= dec_value b)%Q.
Proof.
  rewrite compare_value, Z.ltb_ge, Qle_alt. by destruct (_ ?= _)%Q.
Qed.

Lemma abs_value d : (0 <= dec_value d -> dec_value (absDecimal d) == dec_value d)%Q /\
  (dec_value d <= 0 -> dec_value (absDecimal d) == - dec_value d)%Q.
Proof.
  unfold absDecimal. destruct (Z.ltb_spec (coefficient d) 0) as [Hlt|Hge].
  - split; [|intros _; unfold dec_value, Qeq, Qopp; simpl; lia].
    intros Hd%dec_value_nonneg. lia.
  - split; [done|]. unfold Qle, dec_value, Qeq, Qopp; simpl. intros Hd. nia.
Qed.

Definition tolerance : Q := dec_value QUANTITY_TOLERANCE.

Lemma tolerance_pos : (0 < tolerance)%Q.
Proof. reflexivity. Qed.

(** The quantity left after a fill. *)
Lemma derive_spec cur act exe rem :
  deriveExactRemainingQuantity cur act exe = Ret rem -> exe ≠ "0"%string ->
  amount_text cur /\ amount_text exe /\ amount_text rem /\
  (isBuyAction act = true -> (text_value rem == text_value cur + text_value exe)%Q /\ rem ≠ "0"%string) /\
  (isBuyAction act = false ->
     (text_value exe <= text_value cur + tolerance)%Q /\
     (rem ≠ "0"%string -> (text_value rem == text_value cur - text_value exe)%Q) /\
     (rem = "0"%string -> (text_value cur - text_value exe <= tolerance)%Q)).
Proof.
  unfold deriveExactRemainingQuantity. intros H Hne.
  apply bind_Ret in H as (c & Hc & H). apply bind_Ret in H as (x & Hx & H).
  apply parse_amount in Hc as (Hct & -> & Hcn & Hc0). apply parse_amount in Hx as (Hxt & -> & Hxn & Hx0).
  pose proof (amount_text_pos exe Hxt Hne) as Hpos. pose proof (amount_text_nonneg cur Hct) as Hcur.
  unfold text_value at 1 in Hpos. unfold text_value at 1 in Hcur.
  set (c := parseCanonicalDecimal cur) in *. set (x := parseCanonicalDecimal exe) in *.
  destruct (isBuyAction act).
  - injection H as <-. pose proof (add_value c x) as Hv.
    assert (H0 : 0 < coefficient (addExactDecimals c x)) by (apply dec_value_pos; rewrite Hv; lra).
    split_and!; try done.
    + apply amount_text_format; [apply add_normal | lia].
    + intros _. rewrite text_value_format by apply add_normal. split; [exact Hv|].
      intros E. apply (f_equal parseCanonicalDecimal) in E. rewrite parse_format in E by apply add_normal.
      rewrite E in H0. vm_compute in H0. discriminate.
  - apply throw_if_bind_Ret in H as [Hle H]. injection H as <-.
    apply compare_gt in Hle. rewrite add_value in Hle. fold tolerance in Hle.
    pose proof (sub_value c x) as Hv. destruct (abs_value (subtractExactDecimals c x)) as [Ha1 Ha2].
    pose proof tolerance_pos as Htol.
    destruct (compareExactDecimals (absDecimal (subtractExactDecimals c x)) QUANTITY_TOLERANCE <=? 0) eqn:E.
    + apply compare_le in E. fold tolerance in E. split_and!; try done.
      intros _. split; [exact Hle|]. split; [done|]. intros _. fold c x.
      change (text_value cur) with (dec_value c). change (text_value exe) with (dec_value x).
      destruct (Qlt_le_dec (dec_value (subtractExactDecimals c x)) 0) as [Hneg|Hnn];
        [rewrite Hv in Hneg; lra|]. rewrite (Ha1 Hnn), Hv in E. exact E.
    + assert (Hgt : (tolerance < dec_value (absDecimal (subtractExactDecimals c x)))%Q).
      { apply Qnot_le_lt. intros Hle'. apply compare_le in Hle'. by rewrite Hle' in E. }
      assert (Hr : (tolerance < dec_value (subtractExactDecimals c x))%Q).
      { destruct (Qlt_le_dec (dec_value (subtractExactDecimals c x)) 0) as [Hneg|Hnn].
        - rewrite (Ha2 (Qlt_le_weak _ _ Hneg)), Hv in Hgt. rewrite Hv in Hneg. lra.
        - by rewrite (Ha1 Hnn) in Hgt. }
      assert (H0 : 0 < coefficient (subtractExactDecimals c x)) by (apply dec_value_pos; lra).
      split_and!; try done.
      * apply amount_text_format; [apply sub_normal | lia].
      * intros _. rewrite text_value_format by apply sub_normal.
        split; [exact Hle|]. split; [intros _; exact Hv|].
        intros E'. apply (f_equal parseCanonicalDecimal) in E'. rewrite parse_format in E' by apply sub_normal.
        rewrite E' in H0. vm_compute in H0. discriminate.
Qed.

(** ** One advance *)

Lemma parse_signed_Ret t label d :
  parseCanonicalSignedDecimal t label = Ret d -> d = parseCanonicalDecimal t.
Proof. unfold parseCanonicalSignedDecimal. intros H. by inv_outcome. Qed.

(** The texts of an evidence. *)
Definition evidence_texts (e : PositionGuardCandidateExecutionEvidence) (q g f r : string) : Prop :=
  executedQuantity e = DecimalText q /\ grossQuoteValueKrw e = DecimalText g /\
  confirmedFeeKrw e = DecimalText f /\ remainingQuantity e = DecimalText r /\
  amount_text q /\ amount_text g /\ amount_text f /\ amount_text r.

Lemma advance_inv s e s' :
  advanceExactCandidateState s e = Ret s' ->
  exists q g f r, evidence_texts e q g f r /\
    (exists u, assertExactChronology s e = Ret u) /\
    ((q = "0"%string /\ s' = s /\ r = currentEpisodeInventoryQuantity s) \/
     (q ≠ "0"%string /\
      deriveExactRemainingQuantity (currentEpisodeInventoryQuantity s) (ev_action e) q = Ret r /\
      amount_text (currentEpisodeCostBasisKrw s) /\
      let cost := parseCanonicalDecimal (currentEpisodeCostBasisKrw s) in
      let quantity := parseCanonicalDecimal (currentEpisodeInventoryQuantity s) in
      let pnl := parseCanonicalDecimal (currentEpisodeRealizedPnlKrw s) in
      let gross := parseCanonicalDecimal g in
      let fee := parseCanonicalDecimal f in
      if isBuyAction (ev_action e) then exact_buy s e r cost gross fee = Ret s'
      else exact_sell s e r cost quantity pnl (parseCanonicalDecimal q) gross fee = Ret s')).
Proof.
  unfold advanceExactCandidateState. intros H.
  apply bind_Ret in H as (q & Hq & H). apply bind_Ret in H as (g & Hg & H).
  apply bind_Ret in H as (f & Hf & H). apply bind_Ret in H as (r & Hr & H).
  apply bind_Ret in H as (u & Hu & H).
  apply canonicalEvidenceDecimal_Ret in Hq as [Eq Tq], Hg as [Eg Tg], Hf as [Ef Tf], Hr as [Er Tr].
  exists q, g, f, r. split; [repeat (split; [assumption|]); assumption|]. split; [by exists u|].
  case_bool_decide as Hz.
  - apply throw_if_bind_Ret in H as [Hc H]. injection H as <-. left.
    apply negb_false_iff, bool_decide_eq_true in Hc. done.
  - right. split; [exact Hz|].
    apply bind_Ret in H as (rem & Hrem & H). apply throw_if_bind_Ret in H as [Hc H].
    apply negb_false_iff, bool_decide_eq_true in Hc as ->.
    apply bind_Ret in H as (c & Hcost & H). apply bind_Ret in H as (n & Hinv & H).
    apply bind_Ret in H as (p & Hpnl & H). apply bind_Ret in H as (x & Hx & H).
    apply bind_Ret in H as (gd & Hgd & H). apply bind_Ret in H as (fd & Hfd & H).
    apply parse_amount in Hcost as (Tc & -> & _), Hinv as (_ & -> & _), Hx as (_ & -> & _),
      Hgd as (_ & -> & _), Hfd as (_ & -> & _). apply parse_signed_Ret in Hpnl as ->.
    split; [exact Hrem|]. split; [exact Tc|]. cbv zeta.
    by destruct (isBuyAction (ev_action e)).
Qed.

Lemma is_zero_text_false t : t ≠ "0"%string -> is_zero_text (DecimalText t) = false.
Proof. intros H. by apply bool_decide_eq_false. Qed.

Lemma exact_buy_refines s e l q g f r s' :
  refines s l -> evidence_texts e q g f r -> q ≠ "0"%string ->
  isBuyAction (ev_action e) = true ->
  deriveExactRemainingQuantity (currentEpisodeInventoryQuantity s) (ev_action e) q = Ret r ->
  exact_buy s e r (parseCanonicalDecimal (currentEpisodeCostBasisKrw s))
    (parseCanonicalDecimal g) (parseCanonicalDecimal f) = Ret s' ->
  refines s' (ledger_step l e).
Proof.
  intros [Rq Ro Ra Re Rf Ri Rc Rz] (Eq & Eg & Ef & Er & Tq & Tg & Tf & Tr) Hq Hbuy Hd H.
  destruct (derive_spec _ _ _ _ Hd Hq) as (_ & _ & _ & Hb & _). destruct (Hb Hbuy) as [Hrem Hrne].
  unfold exact_buy in H. apply throw_if_bind_Ret in H as [_ H]. apply throw_if_bind_Ret in H as [_ H].
  injection H as <-. unfold ledger_step. rewrite Hbuy, Eq, Eg, Ef, is_zero_text_false by done. cbn [amount].
  set (cd := parseCanonicalDecimal (currentEpisodeCostBasisKrw s)).
  set (gd := parseCanonicalDecimal g). set (fd := parseCanonicalDecimal f).
  assert (Hv : (dec_value (addExactDecimals cd (addExactDecimals gd fd))
                == dec_value cd + (dec_value gd + dec_value fd))%Q) by (by rewrite !add_value).
  pose proof (amount_text_nonneg _ Tg) as Hg0. pose proof (amount_text_nonneg _ Tf) as Hf0.
  pose proof (amount_text_nonneg _ Rc) as Hc0.
  unfold text_value in Hg0, Hf0, Hc0. fold gd in Hg0. fold fd in Hf0. fold cd in Hc0.
  constructor; cbn; try assumption.
  - by rewrite Hrem, Rq.
  - rewrite text_value_format, Hv by apply add_normal. rewrite <- Ro.
    change (text_value (currentEpisodeCostBasisKrw s)) with (dec_value cd).
    change (text_value g) with (dec_value gd). change (text_value f) with (dec_value fd). lra.
  - by rewrite Ra.
  - by rewrite Rf.
  - apply amount_text_format; [apply add_normal|]. apply dec_value_nonneg. rewrite Hv. lra.
  - done.
Qed.

(** The cost a sell removes, and that what is left stays an amount. *)
Lemma removed_cost_spec cost quantity executed label removed :
  0 < coefficient quantity -> 0 <= coefficient cost ->
  (dec_value executed <= dec_value quantity)%Q ->
  divideExactDecimals (multiplyExactDecimals cost executed) quantity label = Ret removed ->
  (dec_value removed * dec_value quantity == dec_value cost * dec_value executed)%Q /\
  0 <= coefficient (subtractExactDecimals cost removed).
Proof.
  intros Hq Hc Hle Hd.
  destruct (divide_cases (multiplyExactDecimals cost executed) quantity label Hq)
    as (n & m & _ & _ & _ & [(d & Hd' & _ & Hquot)|[[? Hd'] _]]); rewrite Hd in Hd'; [|done].
  injection Hd' as <-. unfold is_quotient in Hquot. rewrite mul_value in Hquot.
  split; [exact Hquot|]. apply dec_value_nonneg. rewrite sub_value.
  apply dec_value_pos in Hq. apply dec_value_nonneg in Hc.
  set (C := dec_value cost) in *. set (X := dec_value executed) in *.
  set (N := dec_value quantity) in *. set (R := dec_value removed) in *.
  assert (Hprod : (0 <= C * (N - X))%Q) by (apply Qmult_le_0_compat; lra).
  destruct (Qlt_le_dec (C - R) 0) as [Hneg|Hnn]; [exfalso|exact Hnn]. nra.
Qed.

Lemma exact_sell_refines s e l q g f r s' :
  refines s l -> evidence_texts e q g f r -> q ≠ "0"%string ->
  isBuyAction (ev_action e) = false ->
  deriveExactRemainingQuantity (currentEpisodeInventoryQuantity s) (ev_action e) q = Ret r ->
  exact_sell s e r (parseCanonicalDecimal (currentEpisodeCostBasisKrw s))
    (parseCanonicalDecimal (currentEpisodeInventoryQuantity s))
    (parseCanonicalDecimal (currentEpisodeRealizedPnlKrw s))
    (parseCanonicalDecimal q) (parseCanonicalDecimal g) (parseCanonicalDecimal f) = Ret s' ->
  refines s' (ledger_step l e).
Proof.
  intros [Rq Ro Ra Re Rf Ri Rc Rz] (Eq & Eg & Ef & Er & Tq & Tg & Tf & Tr) Hq Hsell Hd H.
  destruct (derive_spec _ _ _ _ Hd Hq) as (_ & _ & _ & _ & Hs). destruct (Hs Hsell) as (_ & Hrem & _).
  unfold exact_sell in H. apply throw_if_bind_Ret in H as [Hopen H].
  apply bool_decide_eq_false in Hopen. apply bind_Ret in H as (removed & Hremoved & H).
  unfold ledger_step. rewrite Hsell, Eq, Eg, Ef, Er, is_zero_text_false by done. cbn [amount is_zero_text].
  set (cd := parseCanonicalDecimal (currentEpisodeCostBasisKrw s)) in *.
  set (nd := parseCanonicalDecimal (currentEpisodeInventoryQuantity s)) in *.
  set (pd := parseCanonicalDecimal (currentEpisodeRealizedPnlKrw s)) in *.
  set (gd := parseCanonicalDecimal g) in *. set (fd := parseCanonicalDecimal f) in *.
  set (realized := subtractExactDecimals (addExactDecimals pd (subtractExactDecimals gd fd)) removed) in *.
  assert (Hreal : (dec_value realized
                   == dec_value pd + (dec_value gd - dec_value fd) - dec_value removed)%Q).
  { unfold realized. by rewrite sub_value, add_value, sub_value. }
  assert (Hrn : normal realized) by apply sub_normal.
  change (text_value (currentEpisodeCostBasisKrw s)) with (dec_value cd) in Ro.
  change (text_value (currentEpisodeRealizedPnlKrw s)) with (dec_value pd) in Ro.
  case_bool_decide as Hclose.
  - injection Hremoved as <-. injection H as <-. constructor; cbn; try done.
    + rewrite text_value_format by done. rewrite Hreal, <- Ro.
      change (text_value g) with (dec_value gd). change (text_value f) with (dec_value fd). lra.
    + by rewrite Rf.
  - injection H as <-. specialize (Hrem Hclose).
    destruct (canonical_is_plain_text _ Rc) as (_ & Hc0 & _). fold cd in Hc0.
    pose proof (amount_text_pos _ Ri Hopen) as Hnpos. pose proof (amount_text_pos _ Tr Hclose) as Hrpos.
    destruct (removed_cost_spec cd nd (parseCanonicalDecimal q) "candidate proportional cost allocation" removed) as [_ Hleft].
    { by apply dec_value_pos. } { done. }
    { change (text_value q <= text_value (currentEpisodeInventoryQuantity s))%Q. lra. }
    { exact Hremoved. }
    constructor; cbn; try done.
    + by rewrite Hrem, Rq.
    + rewrite !text_value_format by (done || apply sub_normal). rewrite sub_value, Hreal, <- Ro.
      change (text_value g) with (dec_value gd). change (text_value f) with (dec_value fd). lra.
    + by rewrite Rf.
    + apply amount_text_format; [apply sub_normal | done].
Qed.

Lemma advance_refines s e l s' :
  refines s l -> advanceExactCandidateState s e = Ret s' -> refines s' (ledger_step l e).
Proof.
  intros HR H. destruct (advance_inv _ _ _ H) as (q & g & f & r & He & _ & [(Hz & -> & _)|(Hq & Hd & _ & Hb)]).
  - destruct He as (Eq & _). unfold ledger_step. rewrite Eq. subst q. exact HR.
  - destruct (isBuyAction (ev_action e)) eqn:Hact; [eapply exact_buy_refines | eapply exact_sell_refines]; eassumption.
Qed.

Lemma fold_refines es s l s' :
  refines s l -> foldM_outcome advanceExactCandidateState s es = Ret s' ->
  refines s' (foldl ledger_step l es).
Proof.
  revert s l. induction es as [|e es IH]; intros s l HR; cbn [foldM_outcome foldl].
  - by intros [= <-].
  - intros (s1 & H1 & H)%bind_Ret. eapply IH; [|exact H]. by eapply advance_refines.
Qed.

Lemma empty_refines : refines createExactEmptyCandidateState empty_ledger.
Proof. by constructor. Qed.

(** C14: the exact projection refines the rational ledger: whenever it yields a
    state, its inventory, its cost basis less realized PnL, its add count, its
    last full-exit PnL and its version are those the ledger computes from the
    evidence in chronological order, so no won is lost or created by the
    proportional cost allocation; and a flat state has no cost, PnL or adds. *)
Theorem exact_projection_refines_ledger items ordered s :
  ordered_evidence items = Ret ordered ->
  projectExactCandidateState items = Ret s ->
  refines s (foldl ledger_step empty_ledger ordered).
Proof.
  intros Ho H. unfold projectExactCandidateState in H. rewrite Ho in H. simpl in H.
  eapply fold_refines; [apply empty_refines | exact H].
Qed.

(** A partial sell leaves the average cost of the inventory unchanged:
    cost over quantity is the same before and after, exactly. *)
Theorem partial_sell_keeps_average_cost s e l s' :
  refines s l -> advanceExactCandidateState s e = Ret s' ->
  isBuyAction (ev_action e) = false -> currentEpisodeInventoryQuantity s' ≠ "0"%string ->
  (text_value (currentEpisodeCostBasisKrw s') * text_value (currentEpisodeInventoryQuantity s)
   == text_value (currentEpisodeCostBasisKrw s) * text_value (currentEpisodeInventoryQuantity s'))%Q.
Proof.
  intros HR H Hsell Hopen'.
  destruct (advance_inv _ _ _ H) as (q & g & f & r & He & _ & [(_ & -> & _)|(Hq & Hd & Hct & Hb)]);
    [reflexivity|].
  rewrite Hsell in Hb. destruct He as (_ & _ & _ & _ & _ & _ & _ & Tr).
  destruct (derive_spec _ _ _ _ Hd Hq) as (Ti & Tq & _ & _ & Hs).
  destruct (Hs Hsell) as (_ & Hrem & _).
  unfold exact_sell in Hb. apply throw_if_bind_Ret in Hb as [Hopen Hb].
  apply bool_decide_eq_false in Hopen. apply bind_Ret in Hb as (removed & Hremoved & Hb).
  case_bool_decide as Hclose; injection Hb as <-; cbn in Hopen' |- *; [done|].
  specialize (Hrem Hclose). destruct (canonical_is_plain_text _ Hct) as (_ & Hc0 & _).
  pose proof (amount_text_pos _ Ti Hopen) as Hnpos. pose proof (amount_text_pos _ Tr Hclose) as Hrpos.
  assert (Hle : (text_value q <= text_value (currentEpisodeInventoryQuantity s))%Q) by lra.
  destruct (removed_cost_spec _ _ _ _ _ (proj1 (dec_value_pos _) Hnpos) Hc0 Hle Hremoved) as [Hquot _].
  rewrite text_value_format by apply sub_normal. rewrite sub_value, Hrem. unfold text_value in *.
  nra.
Qed.

(** ** Order of the evidence *)

#[export] Instance compare_evidence_consistent : ConsistentComparator compare_evidence.
Proof.
  split; unfold cmp_le; intros x y; [|intros z].
  - exact (compare_keys_antisym (fst x, evidenceId (snd x)) (fst y, evidenceId (snd y))).
  - exact (compare_keys_trans (fst x, evidenceId (snd x)) (fst y, evidenceId (snd y))
             (fst z, evidenceId (snd z))).
Qed.

(** The exact projection does not depend on the order in which evidence
    with distinct identifiers is stored. *)
Theorem exact_project_order_independent items1 items2 s :
  (forall a b, a ∈ items1 -> b ∈ items1 -> evidenceId a = evidenceId b -> a = b) ->
  items1 ≡ₚ items2 ->
  projectExactCandidateState items1 = Ret s -> projectExactCandidateState items2 = Ret s.
Proof.
  unfold projectExactCandidateState, ordered_evidence. intros Hids HP H.
  apply bind_Ret in H as (ord & Ho & H). apply bind_Ret in Ho as (ts & Hts & [= <-]).
  destruct (mapM_outcome_perm _ _ _ _ HP Hts) as (ts2 & -> & HP2). simpl.
  rewrite <- (js_sort_permutation_invariant compare_evidence ts ts2); [exact H| |exact HP2].
  intros x y Hx Hy Heq.
  apply (compare_keys_Eq (fst x, evidenceId (snd x)) (fst y, evidenceId (snd y))) in Heq.
  injection Heq as He Hid.
  assert (Hsnd : forall t, t ∈ ts -> snd t ∈ items1).
  { intros t Ht. destruct (mapM_outcome_elem _ _ _ _ Hts Ht) as (e & Hin & Hte).
    unfold time_evidence in Hte. by apply bind_Ret in Hte as (? & _ & [= <-]). }
  destruct x as [ex x], y as [ey y]. cbn in *. f_equal; [done|].
  apply Hids; [exact (Hsnd _ Hx) | exact (Hsnd _ Hy) | exact Hid].
Qed.

(** ** Concrete episodes *)

Definition fill (id at_ : string) (act : ExecutedAction) (q g f r : string)
    : PositionGuardCandidateExecutionEvidence := {|
  evidenceId := id; executedAt := at_; ev_action := act; ev_entryPath := EntryPath.RECLAIM;
  terminalStatus := Terminal.FILLED; executedQuantity := DecimalText q;
  grossQuoteValueKrw := DecimalText g; confirmedFeeKrw := DecimalText f;
  remainingQuantity := DecimalText r |}.

(** Enter, reduce by a quarter, exit. *)
Definition episode (reduce_gross : string) : list PositionGuardCandidateExecutionEvidence :=
  [fill "o1" "2026-08-21T04:00:00Z" Exec.ENTER "0.04" "4000000" "2000" "0.04";
   fill "o2" "2026-08-21T05:00:00Z" Exec.REDUCE "0.01" reduce_gross "500" "0.03";
   fill "o3" "2026-08-21T06:00:00Z" Exec.EXIT "0.03" "3300000" "1650" "0"].

Definition projected (items : list PositionGuardCandidateExecutionEvidence) : ExactCandidateState :=
  match projectExactCandidateState items with
  | Ret s => s | Throw _ => createExactEmptyCandidateState end.

Example episode_pnl :
  lastFullExitRealizedPnlKrw (projected (episode "1100000")) = Some "395850"%string.
Proof. vm_compute. reflexivity. Qed.

(** A reduction that realizes half a won leaves a state no later evidence can
    advance. *)
Lemma fractional_pnl_blocks_exit :
  currentEpisodeRealizedPnlKrw (projected (take 2 (episode "1001000.5"))) = "0.5"%string /\
  projectExactCandidateState (episode "1001000.5")
  = Throw "candidate exact realized pnl must be a canonical signed decimal string."%string.
Proof. split; vm_compute; reflexivity. Qed.

Lemma exact_projection_refines_ledger_witness :
  refines (projected (episode "1100000"))
    (foldl ledger_step empty_ledger (episode "1100000")).
Proof.
  apply (exact_projection_refines_ledger (reverse (episode "1100000"))); vm_compute; reflexivity.
Defined.

Lemma partial_sell_keeps_average_cost_witness :
  (text_value (currentEpisodeCostBasisKrw (projected (take 2 (episode "1100000")))) * (4 # 100)
   == 4002000 * (3 # 100))%Q.
Proof.
  pose proof (partial_sell_keeps_average_cost (projected (take 1 (episode "1100000")))
    (fill "o2" "2026-08-21T05:00:00Z" Exec.REDUCE "0.01" "1100000" "500" "0.03")
    (foldl ledger_step empty_ledger (take 1 (episode "1100000")))
    (projected (take 2 (episode "1100000")))) as H.
  assert (HR : refines (projected (take 1 (episode "1100000")))
                 (foldl ledger_step empty_ledger (take 1 (episode "1100000")))).
  { constructor; vm_compute; try reflexivity; try discriminate. }
  specialize (H HR ltac:(vm_compute; reflexivity) eq_refl ltac:(vm_compute; discriminate)).
  vm_compute in H |- *. exact H.
Defined.

Lemma exact_project_order_independent_witness :
  projectExactCandidateState (reverse (episode "1100000")) = Ret (projected (episode "1100000")).
Proof.
  apply (exact_project_order_independent (episode "1100000")).
  - intros a b Ha Hb. unfold episode in Ha, Hb.
    repeat (apply elem_of_cons in Ha as [->|Ha]); [..|by apply elem_of_nil in Ha];
      (repeat (apply elem_of_cons in Hb as [->|Hb]); [..|by apply elem_of_nil in Hb]);
      cbn; first [reflexivity | discriminate].
  - symmetry. apply reverse_Permutation.
  - vm_compute. reflexivity.
Defined.
