(* ===== verification/CandidatePolicy.v ===== *)
(** * CandidatePolicy: the registered candidate policies

    modules/strategy/position-guard-candidate-policy.ts: the authority
    constants, the input validators and [evaluatePositionGuardCandidate], which
    lets a decision of the engine through, suppresses it to HOLD or overrides
    it with EXIT.

    Enumeration and boolean fields are typed, and the scores are integers, so
    the checks that such a field holds a literal of its enumeration, a boolean
    or a finite score hold by construction; the finiteness checks of amounts
    are modelled. Cloning and freezing a decision is the identity on values. *)

From stdpp Require Import base option list strings.
From Stdlib Require Import ZArith Lia.
From S2P Require Import Prelude Num Types Text Timestamp StrategyCore CandidateState.

Local Open Scope Z_scope.

(** ** Data *)

Module PolicyId.
Inductive PositionGuardRegisteredCandidatePolicyId : Set :=
| COMBINED_CONSERVATIVE | COMBINED_MINUS_EARLY_THESIS_FAILURE | COMBINED_MINUS_COOLDOWN_CONTROL.
Definition to_string (x : PositionGuardRegisteredCandidatePolicyId) : string :=
  match x with
  | COMBINED_CONSERVATIVE => "COMBINED_CONSERVATIVE"
  | COMBINED_MINUS_EARLY_THESIS_FAILURE => "COMBINED_MINUS_EARLY_THESIS_FAILURE"
  | COMBINED_MINUS_COOLDOWN_CONTROL => "COMBINED_MINUS_COOLDOWN_CONTROL"
  end.
End PolicyId.

Module Outcome.
Inductive PositionGuardCandidateOutcome : Set := ALLOW | SUPPRESS | OVERRIDE_EXIT.
#[export] Instance outcome_eq_dec : EqDecision PositionGuardCandidateOutcome.
Proof. solve_decision. Defined.
End Outcome.
Export (hints) Outcome.

Module Precedence.
Inductive PositionGuardCandidatePrecedence : Set :=
| PRESERVE_RISK_REDUCTION | EARLY_THESIS_FAILURE | COOLDOWN_CONTROL | HTF_TREND_GATE
| ADD_LIMITED | NO_INTERVENTION.
End Precedence.

Module Reason.
Inductive PositionGuardCandidateReason : Set :=
| CONDITIONS_MET | RISK_REDUCING_DECISION_PRESERVED | FAILED_RECLAIM_THESIS | BEARISH_LOSS_THESIS
| NON_POSITIVE_EXIT_12H_COOLDOWN | SAME_ENTRY_PATH_24H_COOLDOWN | HTF_BREAKDOWN
| TREND_ALIGNMENT_BELOW_3 | WEAKENING_PRESENT | REGIME_NOT_ENTRY_TREND | POSITION_AT_LOSS
| EPISODE_ADD_LIMIT_REACHED | ATR_SHOCK | TREND_ALIGNMENT_BELOW_4 | RECOVERY_QUALITY_BELOW_3
| REGIME_NOT_CORE_TREND | NO_INTERVENTION.
Definition to_string (x : PositionGuardCandidateReason) : string :=
  match x with
  | CONDITIONS_MET => "CONDITIONS_MET"
  | RISK_REDUCING_DECISION_PRESERVED => "RISK_REDUCING_DECISION_PRESERVED"
  | FAILED_RECLAIM_THESIS => "FAILED_RECLAIM_THESIS"
  | BEARISH_LOSS_THESIS => "BEARISH_LOSS_THESIS"
  | NON_POSITIVE_EXIT_12H_COOLDOWN => "NON_POSITIVE_EXIT_12H_COOLDOWN"
  | SAME_ENTRY_PATH_24H_COOLDOWN => "SAME_ENTRY_PATH_24H_COOLDOWN"
  | HTF_BREAKDOWN => "HTF_BREAKDOWN"
  | TREND_ALIGNMENT_BELOW_3 => "TREND_ALIGNMENT_BELOW_3"
  | WEAKENING_PRESENT => "WEAKENING_PRESENT"
  | REGIME_NOT_ENTRY_TREND => "REGIME_NOT_ENTRY_TREND"
  | POSITION_AT_LOSS => "POSITION_AT_LOSS"
  | EPISODE_ADD_LIMIT_REACHED => "EPISODE_ADD_LIMIT_REACHED"
  | ATR_SHOCK => "ATR_SHOCK"
  | TREND_ALIGNMENT_BELOW_4 => "TREND_ALIGNMENT_BELOW_4"
  | RECOVERY_QUALITY_BELOW_3 => "RECOVERY_QUALITY_BELOW_3"
  | REGIME_NOT_CORE_TREND => "REGIME_NOT_CORE_TREND"
  | NO_INTERVENTION => "NO_INTERVENTION"
  end.
End Reason.

Module Part.
Inductive PositionGuardCandidateComponent : Set :=
| HTF_TREND_GATE | EARLY_THESIS_FAILURE | ADD_LIMITED | COOLDOWN_CONTROL.
#[export] Instance component_eq_dec : EqDecision PositionGuardCandidateComponent.
Proof. solve_decision. Defined.
End Part.
Export (hints) Part.

Abbreviation PolicyId := PolicyId.PositionGuardRegisteredCandidatePolicyId.
Abbreviation CandidateReason := Reason.PositionGuardCandidateReason.
Abbreviation CandidateComponent := Part.PositionGuardCandidateComponent.

Definition POSITION_GUARD_CANDIDATE_POLICY_VERSION : string :=
  "PCS-2026-001.DEPLOYMENT_READINESS_V1".

Definition authority_quantityTolerance : num := lit 1 12.
Definition htf_minimumTrendAlignmentScore : Z := 3.
Definition htf_allowedRegimes : list StrategyMarketRegime :=
  [Regime.BULL_TREND; Regime.PULLBACK_IN_UPTREND; Regime.EARLY_RECOVERY].
Definition maximumFailedReclaimRecoveryQualityScore : Z := 1.
Definition minimumBearishBreakdownPressureScore : Z := 2.
Definition maxAddsPerEpisode : Z := 1.
Definition add_minimumTrendAlignmentScore : Z := 4.
Definition add_minimumRecoveryQualityScore : Z := 3.
Definition add_allowedRegimes : list StrategyMarketRegime :=
  [Regime.BULL_TREND; Regime.PULLBACK_IN_UPTREND].
Definition nonPositiveExitHours : Z := 12.
Definition sameEntryPathHours : Z := 24.
Definition NANOSECONDS_PER_HOUR : Z := 3600000000000.

Definition POLICY_COMPONENTS (p : PolicyId) : list CandidateComponent :=
  match p with
  | PolicyId.COMBINED_CONSERVATIVE =>
      [Part.HTF_TREND_GATE; Part.EARLY_THESIS_FAILURE; Part.ADD_LIMITED; Part.COOLDOWN_CONTROL]
  | PolicyId.COMBINED_MINUS_EARLY_THESIS_FAILURE =>
      [Part.HTF_TREND_GATE; Part.ADD_LIMITED; Part.COOLDOWN_CONTROL]
  | PolicyId.COMBINED_MINUS_COOLDOWN_CONTROL =>
      [Part.HTF_TREND_GATE; Part.EARLY_THESIS_FAILURE; Part.ADD_LIMITED]
  end.

Record CandidateInput := {
  policyId : PolicyId;
  in_generatedAt : string;
  decision : PositionGuardEngineDecision;
  in_positionQuantity : num;
  in_averageEntryPrice : num;
  candidateState : PositionGuardCandidateState;
  in_analysis : PositionGuardStructureAnalysis;
}.

Record PositionGuardCandidateEvaluation := {
  ev_policyId : PolicyId;
  ev_policyVersion : string;
  ev_generatedAt : string;
  originalAction : StrategyDecisionAction;
  effectiveAction : StrategyDecisionAction;
  ev_outcome : Outcome.PositionGuardCandidateOutcome;
  ev_reason : CandidateReason;
  ev_precedence : Precedence.PositionGuardCandidatePrecedence;
  effectiveDecision : PositionGuardEngineDecision;
}.

(** ** Validation *)

Local Open Scope js_scope.
Local Open Scope string_scope.
Local Open Scope bool_scope.

Definition requireFiniteNumber (value : num) (label : string) : outcome unit :=
  throw_if (negb (is_finite value)) ("PositionGuard candidate " ++ label ++ " must be finite.").

Definition requireNullableFiniteNumber (value : option num) (label : string) : outcome unit :=
  match value with None => Ret tt | Some v => requireFiniteNumber v label end.

Definition validateStructureDiagnostics (d : Diagnostics) (label : string) : outcome unit :=
  requireNullableFiniteNumber (dg_invalidationLevel d) (label ++ " invalidationLevel").

Definition validateDecision (d : PositionGuardEngineDecision) : outcome unit :=
  _ ← requireFiniteNumber (targetNotionalKrw d) "decision targetNotionalKrw";
  _ ← requireNullableFiniteNumber (targetQuantityFraction d) "decision targetQuantityFraction";
  _ ← requireFiniteNumber (referencePrice d) "decision referencePrice";
  let g := exposureGuardrails d in
  _ ← requireFiniteNumber (eg_perAssetMaxAllocation g) "decision exposureGuardrails perAssetMaxAllocation";
  _ ← requireFiniteNumber (eg_totalPortfolioMaxExposure g)
        "decision exposureGuardrails totalPortfolioMaxExposure";
  _ ← requireFiniteNumber (remainingAssetCapacity g)
        "decision exposureGuardrails remainingAssetCapacity";
  _ ← requireFiniteNumber (remainingPortfolioCapacity g)
        "decision exposureGuardrails remainingPortfolioCapacity";
  validateStructureDiagnostics (diagnostics d) "decision diagnostics".

Definition validateAnalysis (a : PositionGuardStructureAnalysis) : outcome unit :=
  _ ← requireNullableFiniteNumber (invalidationLevel a) "analysis invalidationLevel";
  _ ← requireFiniteNumber (currentPrice a) "analysis currentPrice";
  _ ← requireFiniteNumber (averageEntryPrice a) "analysis averageEntryPrice";
  requireFiniteNumber (pnlPct a) "analysis pnlPct".

Definition validateInput (i : CandidateInput) : outcome unit :=
  _ ← parsePositionGuardCandidateTimestamp (in_generatedAt i) "generatedAt";
  _ ← throw_if (negb (is_finite (in_positionQuantity i)) || nltb (in_positionQuantity i) zero)
        "PositionGuard candidate positionQuantity must be finite and non-negative.";
  _ ← throw_if (negb (is_finite (in_averageEntryPrice i)) || nltb (in_averageEntryPrice i) zero)
        "PositionGuard candidate averageEntryPrice must be finite and non-negative.";
  _ ← validatePositionGuardCandidateState (candidateState i);
  _ ← validateDecision (decision i);
  validateAnalysis (in_analysis i).

(** ** The components *)

Definition hasComponent (l : list CandidateComponent) (c : CandidateComponent) : bool := includes l c.

Definition isAllowedRegime (r : StrategyMarketRegime) (l : list StrategyMarketRegime) : bool :=
  includes l r.

Definition getEarlyFailureReason (i : CandidateInput) : option CandidateReason :=
  let a := in_analysis i in
  if (action (decision i) !== Action.HOLD) && (action (decision i) !== Action.ADD) then None
  else if nleb (in_positionQuantity i) authority_quantityTolerance then None
  else if failedReclaim a
          && ((weakeningStage a === Weakening.CLEAR) || (weakeningStage a === Weakening.FAILURE))
          && (recoveryQualityScore a <=? maximumFailedReclaimRecoveryQualityScore)%Z
  then Some Reason.FAILED_RECLAIM_THESIS
  else if (minimumBearishBreakdownPressureScore <=? breakdownPressureScore a)%Z
          && bearishMomentumExpansion a && nltb (pnlPct a) zero
  then Some Reason.BEARISH_LOSS_THESIS
  else None.

Definition getCooldownReason (i : CandidateInput) : outcome (option CandidateReason) :=
  match lastFullExitAt (candidateState i) with
  | None => Ret None
  | Some exit_at =>
      if action (decision i) !== Action.ENTER then Ret None
      else
        generated ← parsePositionGuardCandidateTimestamp (in_generatedAt i) "generatedAt";
        exited ← parsePositionGuardCandidateTimestamp exit_at "lastFullExitAt";
        let elapsed := (generated - exited)%Z in
        _ ← throw_if (elapsed <? 0)%Z
              "PositionGuard candidate generatedAt must not be before lastFullExitAt.";
        Ret (if (match lastFullExitRealizedPnlKrw (candidateState i) with
                 | Some pnl => nleb pnl zero | None => false end)
                && (elapsed <? nonPositiveExitHours * NANOSECONDS_PER_HOUR)%Z
             then Some Reason.NON_POSITIVE_EXIT_12H_COOLDOWN
             else if (lastEntryPath (candidateState i) === Some (entryPath (in_analysis i)))
                     && (elapsed <? sameEntryPathHours * NANOSECONDS_PER_HOUR)%Z
             then Some Reason.SAME_ENTRY_PATH_24H_COOLDOWN
             else None)
  end.

Definition getHtfTrendGateReason (i : CandidateInput) : option CandidateReason :=
  let a := in_analysis i in
  if action (decision i) !== Action.ENTER then None
  else if breakdown1d a || breakdown4h a then Some Reason.HTF_BREAKDOWN
  else if (trendAlignmentScore a <? htf_minimumTrendAlignmentScore)%Z
  then Some Reason.TREND_ALIGNMENT_BELOW_3
  else if weakeningStage a !== Weakening.NONE then Some Reason.WEAKENING_PRESENT
  else if negb (isAllowedRegime (regime a) htf_allowedRegimes)
  then Some Reason.REGIME_NOT_ENTRY_TREND
  else None.

Definition getAddLimitReason (i : CandidateInput) : option CandidateReason :=
  let a := in_analysis i in
  if action (decision i) !== Action.ADD then None
  else if nltb (currentPrice a) (in_averageEntryPrice i) then Some Reason.POSITION_AT_LOSS
  else if (maxAddsPerEpisode <=? currentEpisodeAddCount (candidateState i))%Z
  then Some Reason.EPISODE_ADD_LIMIT_REACHED
  else if atrShock a then Some Reason.ATR_SHOCK
  else if weakeningStage a !== Weakening.NONE then Some Reason.WEAKENING_PRESENT
  else if (trendAlignmentScore a <? add_minimumTrendAlignmentScore)%Z
  then Some Reason.TREND_ALIGNMENT_BELOW_4
  else if (recoveryQualityScore a <? add_minimumRecoveryQualityScore)%Z
  then Some Reason.RECOVERY_QUALITY_BELOW_3
  else if negb (isAllowedRegime (regime a) add_allowedRegimes)
  then Some Reason.REGIME_NOT_CORE_TREND
  else None.

(** ** The effective decision *)

(** A decision with its action and sizes replaced and the rest kept. *)
Definition replace_action (d : PositionGuardEngineDecision) (act : StrategyDecisionAction)
    (text : string) (why : string) (fraction : option num) (disposition : StrategyExecutionDisposition)
    : PositionGuardEngineDecision := {|
  action := act;
  summary := text;
  reasons := [why];
  targetNotionalKrw := zero;
  targetQuantityFraction := fraction;
  referencePrice := referencePrice d;
  executionDisposition := disposition;
  signalQuality := signalQuality d;
  exposureGuardrails := exposureGuardrails d;
  diagnostics := diagnostics d;
|}.

Definition holdDecision (d : PositionGuardEngineDecision) (r : CandidateReason)
    : PositionGuardEngineDecision :=
  replace_action d Action.HOLD
    ("Candidate policy suppressed " ++ Action.to_string (action d) ++ " because "
     ++ Reason.to_string r ++ ".")
    (Reason.to_string r) None Disposition.SKIPPED.

Definition exitDecision (d : PositionGuardEngineDecision) (r : CandidateReason)
    : PositionGuardEngineDecision :=
  replace_action d Action.EXIT
    ("Candidate policy requires EXIT because " ++ Reason.to_string r ++ ".")
    (Reason.to_string r) (Some (lit 1 0)) Disposition.IMMEDIATE.

Definition evaluation (i : CandidateInput) (o : Outcome.PositionGuardCandidateOutcome)
    (r : CandidateReason) (p : Precedence.PositionGuardCandidatePrecedence)
    (d : PositionGuardEngineDecision) : PositionGuardCandidateEvaluation := {|
  ev_policyId := policyId i;
  ev_policyVersion := POSITION_GUARD_CANDIDATE_POLICY_VERSION;
  ev_generatedAt := in_generatedAt i;
  originalAction := action (decision i);
  effectiveAction := action d;
  ev_outcome := o;
  ev_reason := r;
  ev_precedence := p;
  effectiveDecision := d;
|}.

(** The decision with every component: early failure before cooldown before
    trend gate before add limit. *)
Definition evaluatePositionGuardCandidate (i : CandidateInput)
    : outcome PositionGuardCandidateEvaluation :=
  _ ← validateInput i;
  let act := action (decision i) in
  let components := POLICY_COMPONENTS (policyId i) in
  if (act === Action.EXIT) || (act === Action.REDUCE) then
    Ret (evaluation i Outcome.ALLOW Reason.RISK_REDUCING_DECISION_PRESERVED
           Precedence.PRESERVE_RISK_REDUCTION (decision i))
  else
    match (if hasComponent components Part.EARLY_THESIS_FAILURE
           then getEarlyFailureReason i else None) with
    | Some earlyFailure =>
        Ret (evaluation i Outcome.OVERRIDE_EXIT earlyFailure Precedence.EARLY_THESIS_FAILURE
               (exitDecision (decision i) earlyFailure))
    | None =>
        cooldown ← (if hasComponent components Part.COOLDOWN_CONTROL
                    then getCooldownReason i else Ret None);
        match cooldown with
        | Some c =>
            Ret (evaluation i Outcome.SUPPRESS c Precedence.COOLDOWN_CONTROL
                   (holdDecision (decision i) c))
        | None =>
            match (if hasComponent components Part.HTF_TREND_GATE
                   then getHtfTrendGateReason i else None) with
            | Some htf =>
                Ret (evaluation i Outcome.SUPPRESS htf Precedence.HTF_TREND_GATE
                       (holdDecision (decision i) htf))
            | None =>
                if hasComponent components Part.ADD_LIMITED then
                  match getAddLimitReason i with
                  | Some add =>
                      Ret (evaluation i Outcome.SUPPRESS add Precedence.ADD_LIMITED
                             (holdDecision (decision i) add))
                  | None =>
                      Ret (if act === Action.ADD
                           then evaluation i Outcome.ALLOW Reason.CONDITIONS_MET
                                  Precedence.ADD_LIMITED (decision i)
                           else evaluation i Outcome.ALLOW Reason.NO_INTERVENTION
                                  Precedence.NO_INTERVENTION (decision i))
                  end
                else Ret (evaluation i Outcome.ALLOW Reason.NO_INTERVENTION
                            Precedence.NO_INTERVENTION (decision i))
            end
        end
    end.

Local Close Scope string_scope.

(** ** What the policies guarantee *)

(** The ways an evaluation can end, one per row of the precedence. *)
Inductive evaluation_case (i : CandidateInput) : PositionGuardCandidateEvaluation -> Prop :=
| case_preserved r p :
    action (decision i) = Action.EXIT \/ action (decision i) = Action.REDUCE ->
    evaluation_case i (evaluation i Outcome.ALLOW r p (decision i))
| case_override r :
    hasComponent (POLICY_COMPONENTS (policyId i)) Part.EARLY_THESIS_FAILURE = true ->
    getEarlyFailureReason i = Some r ->
    evaluation_case i (evaluation i Outcome.OVERRIDE_EXIT r Precedence.EARLY_THESIS_FAILURE
                         (exitDecision (decision i) r))
| case_cooldown r :
    getCooldownReason i = Ret (Some r) ->
    evaluation_case i (evaluation i Outcome.SUPPRESS r Precedence.COOLDOWN_CONTROL
                         (holdDecision (decision i) r))
| case_htf r :
    getHtfTrendGateReason i = Some r ->
    evaluation_case i (evaluation i Outcome.SUPPRESS r Precedence.HTF_TREND_GATE
                         (holdDecision (decision i) r))
| case_add r :
    getAddLimitReason i = Some r ->
    evaluation_case i (evaluation i Outcome.SUPPRESS r Precedence.ADD_LIMITED
                         (holdDecision (decision i) r))
| case_allowed r p :
    (hasComponent (POLICY_COMPONENTS (policyId i)) Part.EARLY_THESIS_FAILURE = true ->
       getEarlyFailureReason i = None) ->
    (hasComponent (POLICY_COMPONENTS (policyId i)) Part.COOLDOWN_CONTROL = true ->
       getCooldownReason i = Ret None) ->
    getHtfTrendGateReason i = None -> getAddLimitReason i = None ->
    evaluation_case i (evaluation i Outcome.ALLOW r p (decision i)).

Lemma component_htf p : hasComponent (POLICY_COMPONENTS p) Part.HTF_TREND_GATE = true.
Proof. by destruct p. Qed.
Lemma component_add p : hasComponent (POLICY_COMPONENTS p) Part.ADD_LIMITED = true.
Proof. by destruct p. Qed.

Lemma evaluate_cases i e :
  evaluatePositionGuardCandidate i = Ret e -> evaluation_case i e.
Proof.
  unfold evaluatePositionGuardCandidate. rewrite component_htf, component_add.
  intros (u & _ & H)%bind_Ret.
  destruct (_ || _) eqn:Hact.
  { injection H as <-. apply case_preserved. apply orb_true_iff in Hact.
    by rewrite !bool_decide_eq_true in Hact. }
  destruct (hasComponent _ Part.EARLY_THESIS_FAILURE) eqn:Hearly;
    [destruct (getEarlyFailureReason i) as [r|] eqn:Er|].
  { injection H as <-. by apply case_override. }
  all: apply bind_Ret in H as (cool & Hcool & H); destruct cool as [c|].
  1,3: injection H as <-; apply case_cooldown;
       destruct (hasComponent _ Part.COOLDOWN_CONTROL); [exact Hcool | discriminate].
  all: destruct (getHtfTrendGateReason i) as [h|] eqn:Eh; [injection H as <-; by apply case_htf|].
  all: destruct (getAddLimitReason i) as [a|] eqn:Ea; [injection H as <-; by apply case_add|].
  all: assert (Hc : hasComponent (POLICY_COMPONENTS (policyId i)) Part.COOLDOWN_CONTROL = true ->
                 getCooldownReason i = Ret None) by (intros Hcc; by rewrite Hcc in Hcool).
  all: injection H as <-; destruct (action (decision i) === Action.ADD);
       (apply case_allowed; [congruence | exact Hc | exact Eh | exact Ea]).
Qed.

Lemma htf_enter i r : getHtfTrendGateReason i = Some r -> action (decision i) = Action.ENTER.
Proof.
  unfold getHtfTrendGateReason. destruct (_ !== _) eqn:E; [discriminate|]. intros _.
  by apply negb_false_iff, bool_decide_eq_true in E.
Qed.

Lemma add_add i r : getAddLimitReason i = Some r -> action (decision i) = Action.ADD.
Proof.
  unfold getAddLimitReason. destruct (_ !== _) eqn:E; [discriminate|]. intros _.
  by apply negb_false_iff, bool_decide_eq_true in E.
Qed.

Lemma cooldown_enter i r : getCooldownReason i = Ret (Some r) -> action (decision i) = Action.ENTER.
Proof.
  unfold getCooldownReason. destruct (lastFullExitAt _); [|discriminate].
  destruct (_ !== _) eqn:E; [discriminate|]. intros _.
  by apply negb_false_iff, bool_decide_eq_true in E.
Qed.

Lemma early_spec i r :
  getEarlyFailureReason i = Some r ->
  (action (decision i) = Action.HOLD \/ action (decision i) = Action.ADD) /\
  nleb (in_positionQuantity i) authority_quantityTolerance = false.
Proof.
  unfold getEarlyFailureReason. destruct (_ && _) eqn:E; [discriminate|].
  destruct (nleb _ _); [discriminate|]. intros _. split; [|done].
  apply andb_false_iff in E. by rewrite !negb_false_iff, !bool_decide_eq_true in E.
Qed.

(** C16: a candidate policy never adds risk: an allowed decision is passed
    unchanged; a suppressed one was a buy and becomes a HOLD with no size; an
    override turns a HOLD or ADD on an open position into a full EXIT; and
    reductions and exits are always allowed. *)
Theorem candidate_never_adds_risk i e :
  evaluatePositionGuardCandidate i = Ret e ->
  match ev_outcome e with
  | Outcome.ALLOW => effectiveDecision e = decision i
  | Outcome.SUPPRESS =>
      (originalAction e = Action.ENTER \/ originalAction e = Action.ADD) /\
      effectiveAction e = Action.HOLD /\
      targetNotionalKrw (effectiveDecision e) = zero /\
      targetQuantityFraction (effectiveDecision e) = None
  | Outcome.OVERRIDE_EXIT =>
      (originalAction e = Action.HOLD \/ originalAction e = Action.ADD) /\
      nleb (in_positionQuantity i) authority_quantityTolerance = false /\
      effectiveAction e = Action.EXIT /\
      targetQuantityFraction (effectiveDecision e) = Some (lit 1 0)
  end /\
  (originalAction e = Action.EXIT \/ originalAction e = Action.REDUCE ->
     ev_outcome e = Outcome.ALLOW) /\
  effectiveAction e = action (effectiveDecision e).
Proof.
  intros H. destruct (evaluate_cases i e H) as [r p Hr|r _ Hr|r Hr|r Hr|r Hr|r p _ _ _ _]; cbn.
  - done.
  - apply early_spec in Hr as [Hact Hq]. split; [done|]. split; [|done].
    destruct Hact as [->| ->]; intros [?|?]; discriminate.
  - apply cooldown_enter in Hr. rewrite Hr. split; [auto|]. split; [intros [?|?]; discriminate|done].
  - apply htf_enter in Hr. rewrite Hr. split; [auto|]. split; [intros [?|?]; discriminate|done].
  - apply add_add in Hr. rewrite Hr. split; [auto|]. split; [intros [?|?]; discriminate|done].
  - done.
Qed.

(** An allowed entry of the conservative policy is in an entry trend with
    no breakdown and no weakening, and out of cooldown: at least 12 hours after
    a full exit that did not profit and at least 24 hours after a full exit of
    an episode entered by the same path. *)
Theorem allowed_entry_conditions i e :
  policyId i = PolicyId.COMBINED_CONSERVATIVE ->
  evaluatePositionGuardCandidate i = Ret e ->
  ev_outcome e = Outcome.ALLOW -> originalAction e = Action.ENTER ->
  let a := in_analysis i in
  breakdown1d a = false /\ breakdown4h a = false /\ 3 <= trendAlignmentScore a /\
  weakeningStage a = Weakening.NONE /\ regime a ∈ htf_allowedRegimes /\
  forall exit_at, lastFullExitAt (candidateState i) = Some exit_at ->
    exists now exited,
      parsePositionGuardCandidateTimestamp (in_generatedAt i) "generatedAt" = Ret now /\
      parsePositionGuardCandidateTimestamp exit_at "lastFullExitAt" = Ret exited /\
      exited <= now /\
      (forall pnl, lastFullExitRealizedPnlKrw (candidateState i) = Some pnl ->
         nleb pnl zero = true -> 12 * 3600000000000 <= now - exited) /\
      (lastEntryPath (candidateState i) = Some (entryPath a) -> 24 * 3600000000000 <= now - exited).
Proof.
  intros Hp H Ho Hact. cbv zeta.
  destruct (evaluate_cases i e H) as [r p Hr|r _ Hr|r Hr|r Hr|r Hr|r p _ Hcool Hhtf _]; try discriminate Ho;
    cbn in Hact; [rewrite Hact in Hr; destruct Hr; discriminate|].
  rewrite Hp in Hcool. specialize (Hcool eq_refl).
  unfold getHtfTrendGateReason in Hhtf. rewrite Hact in Hhtf. cbn [negb bool_decide] in Hhtf.
  change (Action.ENTER !== Action.ENTER) with false in Hhtf. cbv iota in Hhtf.
  destruct (breakdown1d (in_analysis i) || breakdown4h (in_analysis i)) eqn:Hb; [discriminate|].
  destruct (trendAlignmentScore (in_analysis i) <? htf_minimumTrendAlignmentScore) eqn:Ht; [discriminate|].
  destruct (weakeningStage (in_analysis i) !== Weakening.NONE) eqn:Hw; [discriminate|].
  destruct (negb (isAllowedRegime _ _)) eqn:Hreg; [discriminate|].
  apply orb_false_iff in Hb as [Hb1 Hb4]. apply Z.ltb_ge in Ht.
  apply negb_false_iff, bool_decide_eq_true in Hw. apply negb_false_iff, includes_true in Hreg.
  split; [exact Hb1|]. split; [exact Hb4|]. split; [exact Ht|]. split; [exact Hw|]. split; [exact Hreg|].
  intros exit_at Hexit. unfold getCooldownReason in Hcool. rewrite Hexit, Hact in Hcool.
  change (Action.ENTER !== Action.ENTER) with false in Hcool. cbv iota in Hcool.
  apply bind_Ret in Hcool as (now & Hnow & Hcool). apply bind_Ret in Hcool as (exited & Hexited & Hcool).
  cbv zeta in Hcool. apply throw_if_bind_Ret in Hcool as [Hel%Z.ltb_ge Hcool].
  exists now, exited. split; [exact Hnow|]. split; [exact Hexited|]. split; [lia|].
  destruct (_ && _) eqn:H12 in Hcool; [discriminate|].
  destruct (_ && _) eqn:H24 in Hcool; [discriminate|]. split.
  - intros pnl Hpnl Hle. rewrite Hpnl, Hle in H12. apply Z.ltb_ge in H12.
    unfold nonPositiveExitHours, NANOSECONDS_PER_HOUR in H12. lia.
  - intros Hpath. rewrite bool_decide_eq_true_2 in H24 by done. apply Z.ltb_ge in H24.
    unfold sameEntryPathHours, NANOSECONDS_PER_HOUR in H24. lia.
Qed.

(** An allowed add is the first of its episode, not below the average
    entry price, without shock or weakening, in a core trend with the required
    scores, and is not an early thesis failure. *)
Theorem allowed_add_conditions i e :
  evaluatePositionGuardCandidate i = Ret e ->
  ev_outcome e = Outcome.ALLOW -> originalAction e = Action.ADD ->
  let a := in_analysis i in
  currentEpisodeAddCount (candidateState i) < 1 /\
  nltb (currentPrice a) (in_averageEntryPrice i) = false /\ atrShock a = false /\
  weakeningStage a = Weakening.NONE /\ 4 <= trendAlignmentScore a /\ 3 <= recoveryQualityScore a /\
  (regime a = Regime.BULL_TREND \/ regime a = Regime.PULLBACK_IN_UPTREND).
Proof.
  intros H Ho Hact. cbv zeta.
  destruct (evaluate_cases i e H) as [r p Hr|r _ Hr|r Hr|r Hr|r Hr|r p _ _ _ Hadd]; try discriminate Ho;
    cbn in Hact; [rewrite Hact in Hr; destruct Hr; discriminate|].
  unfold getAddLimitReason in Hadd. rewrite Hact in Hadd.
  change (Action.ADD !== Action.ADD) with false in Hadd. cbv iota in Hadd.
  destruct (nltb (currentPrice (in_analysis i)) (in_averageEntryPrice i)) eqn:Hloss; [discriminate|].
  destruct (maxAddsPerEpisode <=? _) eqn:Hadds; [discriminate|].
  destruct (atrShock (in_analysis i)) eqn:Hatr; [discriminate|].
  destruct (weakeningStage (in_analysis i) !== Weakening.NONE) eqn:Hw; [discriminate|].
  destruct (trendAlignmentScore (in_analysis i) <? add_minimumTrendAlignmentScore) eqn:Ht; [discriminate|].
  destruct (recoveryQualityScore (in_analysis i) <? add_minimumRecoveryQualityScore) eqn:Hrec; [discriminate|].
  destruct (negb (isAllowedRegime _ _)) eqn:Hreg; [discriminate|].
  apply Z.leb_gt in Hadds. apply Z.ltb_ge in Ht, Hrec.
  apply negb_false_iff, bool_decide_eq_true in Hw. apply negb_false_iff, includes_true in Hreg.
  unfold maxAddsPerEpisode, add_minimumTrendAlignmentScore, add_minimumRecoveryQualityScore in *.
  unfold add_allowedRegimes in Hreg. rewrite !elem_of_cons, elem_of_nil in Hreg.
  split; [lia|]. split; [reflexivity|]. split; [reflexivity|]. split; [exact Hw|].
  split; [lia|]. split; [lia|]. tauto.
Qed.

(** A valid input: the validators accept it. *)
Definition valid_input (i : CandidateInput) : Prop := exists u, validateInput i = Ret u.

Lemma validateInput_timestamp i u :
  validateInput i = Ret u ->
  exists t, parsePositionGuardCandidateTimestamp (in_generatedAt i) "generatedAt" = Ret t.
Proof. unfold validateInput. intros (t & Ht & _)%bind_Ret. eauto. Qed.

(** The instant of a full exit never lies in the future. *)
Definition exit_not_in_future (i : CandidateInput) : Prop :=
  forall exit_at now exited, lastFullExitAt (candidateState i) = Some exit_at ->
    parsePositionGuardCandidateTimestamp (in_generatedAt i) "generatedAt" = Ret now ->
    parsePositionGuardCandidateTimestamp exit_at "lastFullExitAt" = Ret exited -> exited <= now.

Lemma valid_exit_parses i u exit_at :
  validateInput i = Ret u -> lastFullExitAt (candidateState i) = Some exit_at ->
  exists t, parsePositionGuardCandidateTimestamp exit_at "lastFullExitAt" = Ret t.
Proof.
  unfold validateInput, validatePositionGuardCandidateState. intros H Hexit.
  apply bind_Ret in H as (? & _ & H). apply throw_if_bind_Ret in H as [_ H].
  apply throw_if_bind_Ret in H as [_ H]. apply bind_Ret in H as (v & Hv & _).
  unfold validateStateSnapshot, validateFullExitMetadata in Hv. rewrite Hexit in Hv.
  do 5 (apply throw_if_bind_Ret in Hv as [_ Hv]).
  apply bind_Ret in Hv as (? & Hm & _). apply bind_Ret in Hm as (t & Ht & _).
  exists t. by eapply timestamp_relabel.
Qed.

(** On a valid input whose last full exit is not in the future the policy
    always gives an evaluation, for every registered policy. *)
Theorem evaluation_total i :
  valid_input i -> exit_not_in_future i ->
  exists e, evaluatePositionGuardCandidate i = Ret e.
Proof.
  intros [u Hu] Hfuture. unfold evaluatePositionGuardCandidate. rewrite Hu.
  rewrite component_htf, component_add. simpl.
  assert (Hcool : exists r, getCooldownReason i = Ret r).
  { unfold getCooldownReason. destruct (lastFullExitAt (candidateState i)) as [x|] eqn:Hx; [|eauto].
    destruct (_ !== _); [eauto|].
    destruct (validateInput_timestamp i u Hu) as [now Hnow].
    destruct (valid_exit_parses i u x Hu Hx) as [exited Hexited].
    rewrite Hnow, Hexited. simpl. pose proof (Hfuture x now exited Hx Hnow Hexited).
    rewrite (proj2 (Z.ltb_ge (now - exited) 0)) by lia. simpl. eauto. }
  destruct Hcool as [r Hr].
  destruct (_ || _); [eauto|].
  destruct (if hasComponent _ Part.EARLY_THESIS_FAILURE then getEarlyFailureReason i else None); [eauto|].
  assert (Hsel : exists r', (if hasComponent (POLICY_COMPONENTS (policyId i)) Part.COOLDOWN_CONTROL
                             then getCooldownReason i else Ret None) = Ret r').
  { destruct (hasComponent _ Part.COOLDOWN_CONTROL); eauto. }
  destruct Hsel as [r' ->]. simpl.
  destruct r'; [eauto|]. destruct (getHtfTrendGateReason i); [eauto|].
  destruct (getAddLimitReason i); eauto.
Qed.

(** ** Concrete inputs *)

Definition sample_input (p : PolicyId) (c : PositionGuardStrategyContext)
    (s : PositionGuardCandidateState) : CandidateInput := {|
  policyId := p; in_generatedAt := generatedAt c; decision := decidePositionGuardCore c;
  in_positionQuantity := positionQuantity c; in_averageEntryPrice := ctx_averageEntryPrice c;
  candidateState := s; in_analysis := analysis c |}.

Definition entry_input : CandidateInput :=
  sample_input PolicyId.COMBINED_CONSERVATIVE sample_context
    (sample_state [sample_enter; sample_exit]).

Definition evaluated (i : CandidateInput) : PositionGuardCandidateEvaluation :=
  match evaluatePositionGuardCandidate i with
  | Ret e => e
  | Throw _ => evaluation i Outcome.SUPPRESS Reason.NO_INTERVENTION Precedence.NO_INTERVENTION (decision i)
  end.

(** Minutes before the sample context the pilot had not yet exited. *)
Example sample_future_exit : throws (evaluatePositionGuardCandidate entry_input) = true.
Proof. vm_compute. reflexivity. Qed.

(** The same context two days later, out of every cooldown. *)
Definition later_context : PositionGuardStrategyContext := {|
  asset := Asset.BTC; market := Market.KRW_BTC; generatedAt := "2026-08-23T05:00:00.5Z";
  availableKrw := availableKrw sample_context; positionQuantity := zero;
  ctx_averageEntryPrice := zero; portfolio := portfolio sample_context; latestDecision := None;
  recentExit := recentExit sample_context; settings := settings sample_context;
  analysis := analysis sample_context |}.

Definition later_input : CandidateInput :=
  sample_input PolicyId.COMBINED_CONSERVATIVE later_context (sample_state [sample_enter; sample_exit]).

(** A strong add on an open position. *)
Definition add_context : PositionGuardStrategyContext := {|
  asset := Asset.BTC; market := Market.KRW_BTC; generatedAt := "2026-08-21T04:30:00Z";
  availableKrw := lit 1000000 0; positionQuantity := lit 1 2;
  ctx_averageEntryPrice := lit 90000000 0; portfolio := portfolio sample_context;
  latestDecision := None; recentExit := recentExit sample_context;
  settings := settings sample_context; analysis := analysis sample_context |}.

Definition add_input : CandidateInput :=
  sample_input PolicyId.COMBINED_CONSERVATIVE add_context (sample_state [sample_enter]).

Lemma candidate_never_adds_risk_witness :
  effectiveDecision (evaluated later_input) = decidePositionGuardCore later_context.
Proof.
  assert (H : evaluatePositionGuardCandidate later_input = Ret (evaluated later_input))
    by (vm_compute; reflexivity).
  assert (Ho : ev_outcome (evaluated later_input) = Outcome.ALLOW) by (vm_compute; reflexivity).
  pose proof (candidate_never_adds_risk later_input (evaluated later_input) H) as Hc.
  rewrite Ho in Hc. destruct Hc as [Hc _]. exact Hc.
Defined.

Lemma allowed_entry_conditions_witness :
  regime (in_analysis later_input) ∈ htf_allowedRegimes /\
  trendAlignmentScore (in_analysis later_input) = 5.
Proof.
  destruct (allowed_entry_conditions later_input (evaluated later_input) eq_refl)
    as (_ & _ & _ & _ & H & _); [vm_compute; reflexivity..|].
  exact (conj H eq_refl).
Defined.

Lemma allowed_add_conditions_witness :
  currentEpisodeAddCount (candidateState add_input) < 1 /\
  originalAction (evaluated add_input) = Action.ADD.
Proof.
  split; [|vm_compute; reflexivity].
  apply (allowed_add_conditions add_input (evaluated add_input)); vm_compute; reflexivity.
Defined.

Lemma evaluation_total_witness :
  exists e, evaluatePositionGuardCandidate later_input = Ret e.
Proof.
  apply (evaluation_total later_input).
  - exists tt. vm_compute. reflexivity.
  - intros x now exited Hx Hnow Hexited. vm_compute in Hx. injection Hx as <-.
    vm_compute in Hnow, Hexited. injection Hnow as <-. injection Hexited as <-. lia.
Defined.
