(* ===== verification/PolicyRouter.v ===== *)
(** * PolicyRouter: from the baseline decision to the executed one

    modules/strategy/position-guard-policy-router.ts: the policy selection,
    validated as an exact object, the pilot phase gates, and the route that
    says which decision is executed, if any.

    The selection reaches the validator as an unknown value; it is modelled as
    a JSON value, an object being a list of distinct own data properties.
    Freezing is the identity on values. *)

From stdpp Require Import base option list strings.
From Stdlib Require Import ZArith Lia.
From S2P Require Import Prelude Num Types Text NumText StrategyCore CandidateState.
From S2P Require Import CandidatePolicy.

Local Open Scope Z_scope.

(** ** Data *)

Module Route.
Inductive PositionGuardPolicyRouteReason : Set :=
| BASELINE_SELECTION | ETH_BASELINE | PILOT_DISABLED | PENDING_FLAT_NEW_RISK_SUPPRESSED
| PENDING_FLAT_RISK_REDUCTION_PRESERVED | PENDING_FLAT_BASELINE_HOLD_PRESERVED
| DRAINING_NEW_RISK_SUPPRESSED | DRAINING_RISK_REDUCTION_PRESERVED
| DRAINING_BASELINE_HOLD_PRESERVED | PAUSED_FAULT_BLOCKED | CANDIDATE_ALLOWED
| CANDIDATE_SUPPRESSED | CANDIDATE_EARLY_THESIS_FAILURE.
#[export] Instance route_reason_eq_dec : EqDecision PositionGuardPolicyRouteReason.
Proof. solve_decision. Defined.
End Route.
Export (hints) Route.
Abbreviation RouteReason := Route.PositionGuardPolicyRouteReason.

(** A validated selection. *)
Inductive PositionGuardPolicySelection : Set :=
| SelectBaseline
| SelectBtcCandidatePilot.

(** The selection field of a result. *)
Inductive SelectionName : Set := BASELINE | BTC_COMBINED_CONSERVATIVE_PILOT_V1.

Record PositionGuardPolicyRouteInput := {
  ri_market : SupportedMarket;
  ri_generatedAt : string;
  ri_baselineDecision : PositionGuardEngineDecision;
  ri_selection : json;
  ri_pilotPhase : PositionGuardPilotPhase;
  ri_candidateState : option PositionGuardCandidateState;
  ri_positionQuantity : num;
  ri_averageEntryPrice : num;
  ri_analysis : PositionGuardStructureAnalysis;
}.

(** [executionBlocked] is [false] with an execution decision and [true]
    without one. *)
Record PositionGuardPolicyRouteResult := {
  rr_baselineDecision : PositionGuardEngineDecision;
  rr_effectiveDecision : PositionGuardEngineDecision;
  rr_selection : SelectionName;
  rr_pilotPhase : PositionGuardPilotPhase;
  rr_candidateEvaluation : option PositionGuardCandidateEvaluation;
  rr_reasonCode : RouteReason;
  rr_stateVersion : option Z;
  executionBlocked : bool;
  executionDecision : option PositionGuardEngineDecision;
}.

(** ** The selection *)

Local Open Scope js_scope.
Local Open Scope string_scope.
Local Open Scope bool_scope.

Definition BASELINE_SELECTION_KEYS : list string := ["kind"; "pilotId"].
Definition CANDIDATE_SELECTION_KEYS : list string :=
  ["kind"; "pilotId"; "market"; "policyId"; "policyVersion"; "liveOperatorConfirmed"].

Fixpoint property (fields : list (string * json)) (key : string) : option json :=
  match fields with
  | [] => None
  | (k, v) :: rest => if k === key then Some v else property rest key
  end.

(** The values of [keys], in order, when the object has exactly these
    properties. *)
Definition exactSelectionProperties (value : json) (keys : list string) : option (list json) :=
  match value with
  | JObj fields =>
      if negb (Nat.eqb (length fields) (length keys))
         || existsb (fun name => negb (includes keys name)) (map fst fields)
      then None
      else mapM (property fields) keys
  | _ => None
  end.

Definition is_str (j : json) (s : string) : bool :=
  match j with JStr t => t === s | _ => false end.
Definition is_null (j : json) : bool := match j with JNull => true | _ => false end.
Definition is_true_json (j : json) : bool := match j with JBool b => b | _ => false end.

Definition invalid_selection : string := "Invalid PositionGuard policy selection.".

Definition validatePositionGuardPolicySelection (selection : json)
    : outcome PositionGuardPolicySelection :=
  match exactSelectionProperties selection BASELINE_SELECTION_KEYS with
  | Some values =>
      match values with
      | [kind; pilotId] =>
          if is_str kind "BASELINE" && is_null pilotId then Ret SelectBaseline
          else Throw invalid_selection
      | _ => Throw invalid_selection
      end
  | None =>
      match exactSelectionProperties selection CANDIDATE_SELECTION_KEYS with
      | Some [kind; pilotId; mkt; policy; version; confirmed] =>
          if is_str kind "BTC_CANDIDATE_PILOT"
             && is_str pilotId "BTC_COMBINED_CONSERVATIVE_PILOT_V1"
             && is_str mkt "KRW-BTC"
             && is_str policy "COMBINED_CONSERVATIVE"
             && is_str version "PCS-2026-001.DEPLOYMENT_READINESS_V1"
             && is_true_json confirmed
          then Ret SelectBtcCandidatePilot
          else Throw invalid_selection
      | _ => Throw invalid_selection
      end
  end.

(** ** Routes *)

Definition isRiskReducing (d : PositionGuardEngineDecision) : bool :=
  (action d === Action.REDUCE) || (action d === Action.EXIT).

Definition candidateReasonCode (e : PositionGuardCandidateEvaluation) : RouteReason :=
  if ev_outcome e === Outcome.OVERRIDE_EXIT then Route.CANDIDATE_EARLY_THESIS_FAILURE
  else if ev_outcome e === Outcome.SUPPRESS then Route.CANDIDATE_SUPPRESSED
  else Route.CANDIDATE_ALLOWED.

Definition suppressedDecision (d : PositionGuardEngineDecision) (reasonCode : string)
    : PositionGuardEngineDecision :=
  replace_action d Action.HOLD
    ("PositionGuard route suppressed " ++ Action.to_string (action d) ++ " because "
     ++ reasonCode ++ ".")
    reasonCode None Disposition.SKIPPED.

Definition routeResult (i : PositionGuardPolicyRouteInput) (effective : PositionGuardEngineDecision)
    (selection : SelectionName) (e : option PositionGuardCandidateEvaluation)
    (reasonCode : RouteReason) (version : option Z) (blocked : bool)
    : PositionGuardPolicyRouteResult := {|
  rr_baselineDecision := ri_baselineDecision i;
  rr_effectiveDecision := effective;
  rr_selection := selection;
  rr_pilotPhase := ri_pilotPhase i;
  rr_candidateEvaluation := e;
  rr_reasonCode := reasonCode;
  rr_stateVersion := version;
  executionBlocked := blocked;
  executionDecision := if blocked then None else Some effective;
|}.

Definition candidate_version (i : PositionGuardPolicyRouteInput) : option Z :=
  stateVersion <$> ri_candidateState i.

Definition baselineRoute (i : PositionGuardPolicyRouteInput) (reasonCode : RouteReason)
    : PositionGuardPolicyRouteResult :=
  routeResult i (ri_baselineDecision i) BASELINE None reasonCode None false.

(** The two phases with a gate. *)
Inductive GatePhase : Set := GatePendingFlat | GateDraining.

Definition gate_name (p : GatePhase) : string :=
  match p with GatePendingFlat => "PENDING_FLAT" | GateDraining => "DRAINING" end.

Definition gate_reason (p : GatePhase) (pending draining : RouteReason) : RouteReason :=
  match p with GatePendingFlat => pending | GateDraining => draining end.

Definition phaseGateRoute (i : PositionGuardPolicyRouteInput) (phase : GatePhase)
    : PositionGuardPolicyRouteResult :=
  let pilot effective reasonCode :=
    routeResult i effective BTC_COMBINED_CONSERVATIVE_PILOT_V1 None reasonCode (candidate_version i) false in
  if action (ri_baselineDecision i) === Action.HOLD then
    pilot (ri_baselineDecision i)
      (gate_reason phase Route.PENDING_FLAT_BASELINE_HOLD_PRESERVED
         Route.DRAINING_BASELINE_HOLD_PRESERVED)
  else if isRiskReducing (ri_baselineDecision i) then
    pilot (ri_baselineDecision i)
      (gate_reason phase Route.PENDING_FLAT_RISK_REDUCTION_PRESERVED
         Route.DRAINING_RISK_REDUCTION_PRESERVED)
  else
    pilot (suppressedDecision (ri_baselineDecision i) (gate_name phase ++ "_NEW_RISK_SUPPRESSED"))
      (gate_reason phase Route.PENDING_FLAT_NEW_RISK_SUPPRESSED Route.DRAINING_NEW_RISK_SUPPRESSED).

Definition blockedRoute (i : PositionGuardPolicyRouteInput) : PositionGuardPolicyRouteResult :=
  routeResult i (suppressedDecision (ri_baselineDecision i) "PAUSED_FAULT_BLOCKED")
    BTC_COMBINED_CONSERVATIVE_PILOT_V1 None Route.PAUSED_FAULT_BLOCKED (candidate_version i) true.

Definition activeCandidateRoute (i : PositionGuardPolicyRouteInput)
    : outcome PositionGuardPolicyRouteResult :=
  match ri_candidateState i with
  | None => Throw "An ACTIVE PositionGuard pilot requires persisted candidate state."
  | Some state =>
      e ← evaluatePositionGuardCandidate
            {| policyId := PolicyId.COMBINED_CONSERVATIVE;
               in_generatedAt := ri_generatedAt i;
               decision := ri_baselineDecision i;
               in_positionQuantity := ri_positionQuantity i;
               in_averageEntryPrice := ri_averageEntryPrice i;
               candidateState := state;
               in_analysis := ri_analysis i |};
      Ret (routeResult i (effectiveDecision e) BTC_COMBINED_CONSERVATIVE_PILOT_V1 (Some e)
             (candidateReasonCode e) (Some (stateVersion state)) false)
  end.

Definition routePositionGuardPolicy (i : PositionGuardPolicyRouteInput)
    : outcome PositionGuardPolicyRouteResult :=
  selection ← validatePositionGuardPolicySelection (ri_selection i);
  match selection with
  | SelectBaseline => Ret (baselineRoute i Route.BASELINE_SELECTION)
  | SelectBtcCandidatePilot =>
      if ri_market i === Market.KRW_ETH then Ret (baselineRoute i Route.ETH_BASELINE)
      else
        match ri_pilotPhase i with
        | Phase.DISABLED => Ret (baselineRoute i Route.PILOT_DISABLED)
        | Phase.PENDING_FLAT => Ret (phaseGateRoute i GatePendingFlat)
        | Phase.DRAINING => Ret (phaseGateRoute i GateDraining)
        | Phase.PAUSED_FAULT => Ret (blockedRoute i)
        | Phase.ACTIVE => activeCandidateRoute i
        end
  end.

Local Close Scope string_scope.

(** ** What routing guarantees *)

Definition is_buy (d : PositionGuardEngineDecision) : Prop :=
  action d = Action.ENTER \/ action d = Action.ADD.

Definition pilot_selected (i : PositionGuardPolicyRouteInput) : Prop :=
  validatePositionGuardPolicySelection (ri_selection i) = Ret SelectBtcCandidatePilot /\
  ri_market i = Market.KRW_BTC.

(** What an evaluation does to the decision, for the pilot's policy. *)
Lemma active_decision i r :
  activeCandidateRoute i = Ret r ->
  executionBlocked r = false /\ executionDecision r = Some (rr_effectiveDecision r) /\
  (rr_effectiveDecision r = ri_baselineDecision i \/
   (isRiskReducing (ri_baselineDecision i) = false /\
    (action (rr_effectiveDecision r) = Action.HOLD \/ action (rr_effectiveDecision r) = Action.EXIT))).
Proof.
  unfold activeCandidateRoute. destruct (ri_candidateState i) as [s|]; [|done].
  intros (e & He & [= <-])%bind_Ret. cbn. split; [done|]. split; [done|].
  assert (Hnr : forall a, (a = Action.HOLD \/ a = Action.ENTER \/ a = Action.ADD) ->
            action (ri_baselineDecision i) = a -> isRiskReducing (ri_baselineDecision i) = false).
  { intros a Ha Hact. unfold isRiskReducing. rewrite Hact. by destruct Ha as [->|[->| ->]]. }
  destruct (evaluate_cases _ _ He) as [r p _|r _ Hr|r Hr|r Hr|r Hr|r p _ _ _ _]; cbn; auto; right.
  - apply early_spec in Hr as [Hact _]. cbn in Hact. split; [|by right].
    destruct Hact as [Hact|Hact]; eapply Hnr; [|exact Hact| |exact Hact]; auto.
  - apply cooldown_enter in Hr. cbn in Hr. split; [|by left]. eapply Hnr; [|exact Hr]; auto.
  - apply htf_enter in Hr. cbn in Hr. split; [|by left]. eapply Hnr; [|exact Hr]; auto.
  - apply add_add in Hr. cbn in Hr. split; [|by left]. eapply Hnr; [|exact Hr]; auto.
Qed.

Lemma gate_decision i p :
  let r := phaseGateRoute i p in
  executionBlocked r = false /\ executionDecision r = Some (rr_effectiveDecision r) /\
  (is_buy (ri_baselineDecision i) -> action (rr_effectiveDecision r) = Action.HOLD) /\
  (~ is_buy (ri_baselineDecision i) -> rr_effectiveDecision r = ri_baselineDecision i).
Proof.
  cbv zeta. unfold phaseGateRoute, isRiskReducing, is_buy.
  destruct (action (ri_baselineDecision i)) eqn:Ha; cbn; rewrite ?Ha; cbn;
    (split; [done|]); (split; [done|]);
    (split; [intros [?|?]; done | intros Hn; first [reflexivity | exfalso; apply Hn; auto]]).
Qed.

(** The cases of a route. *)
Lemma route_cases i r :
  routePositionGuardPolicy i = Ret r ->
  (~ pilot_selected i /\ exists c, r = baselineRoute i c) \/
  (pilot_selected i /\
   match ri_pilotPhase i with
   | Phase.DISABLED => r = baselineRoute i Route.PILOT_DISABLED
   | Phase.PENDING_FLAT => r = phaseGateRoute i GatePendingFlat
   | Phase.DRAINING => r = phaseGateRoute i GateDraining
   | Phase.PAUSED_FAULT => r = blockedRoute i
   | Phase.ACTIVE => activeCandidateRoute i = Ret r
   end).
Proof.
  unfold routePositionGuardPolicy, pilot_selected. intros (sel & Hsel & H)%bind_Ret. rewrite Hsel.
  destruct sel; [left; split; [intros [? _]; discriminate|]; injection H as <-; eauto|].
  case_bool_decide as Hm.
  - left. split; [intros [_ Hb]; congruence|]. injection H as <-. eauto.
  - right. split; [split; [done|]; by destruct (ri_market i)|].
    destruct (ri_pilotPhase i); congruence.
Qed.

Lemma gate_never_buys i p d : executionDecision (phaseGateRoute i p) = Some d -> ~ is_buy d.
Proof.
  destruct (gate_decision i p) as (_ & -> & Hh & Hk). intros [= <-] Hbuy.
  destruct (decide (action (ri_baselineDecision i) = Action.ENTER \/
                    action (ri_baselineDecision i) = Action.ADD)) as [Hb|Hb].
  - specialize (Hh Hb). destruct Hbuy as [Hb'|Hb']; congruence.
  - apply Hb. by rewrite (Hk Hb) in Hbuy.
Qed.

(** C10: routing never adds risk: the only buy it can execute is the baseline's
    own, and only when no phase gate applies. *)
Theorem route_never_adds_risk i r d :
  routePositionGuardPolicy i = Ret r -> executionDecision r = Some d -> is_buy d ->
  d = ri_baselineDecision i /\
  (pilot_selected i -> ri_pilotPhase i = Phase.DISABLED \/ ri_pilotPhase i = Phase.ACTIVE).
Proof.
  intros H Hd Hbuy. destruct (route_cases i r H) as [(Hno & c & ->)|[Hp Hr]].
  { injection Hd as <-. done. }
  destruct (ri_pilotPhase i); try subst r.
  - injection Hd as <-. auto.
  - by apply gate_never_buys in Hd.
  - destruct (active_decision i r Hr) as (_ & Hex & Hcase). rewrite Hex in Hd. injection Hd as <-.
    split; [|auto]. destruct Hcase as [Hcase|[_ [Ha|Ha]]]; [done|..]; destruct Hbuy; congruence.
  - discriminate Hd.
  - by apply gate_never_buys in Hd.
Qed.

(** A fault pause of the selected pilot executes nothing, whatever the
    baseline decided; in every other phase, and without the pilot, a baseline
    decision to reduce or exit is executed unchanged, and nothing is blocked. *)
Theorem risk_reduction_executes i r :
  routePositionGuardPolicy i = Ret r ->
  (pilot_selected i /\ ri_pilotPhase i = Phase.PAUSED_FAULT ->
     executionBlocked r = true /\ executionDecision r = None) /\
  (~ (pilot_selected i /\ ri_pilotPhase i = Phase.PAUSED_FAULT) ->
     executionBlocked r = false /\
     (action (ri_baselineDecision i) = Action.REDUCE \/ action (ri_baselineDecision i) = Action.EXIT ->
      executionDecision r = Some (ri_baselineDecision i))).
Proof.
  intros H. assert (Hnb : action (ri_baselineDecision i) = Action.REDUCE \/
    action (ri_baselineDecision i) = Action.EXIT ->
    ~ is_buy (ri_baselineDecision i) /\ isRiskReducing (ri_baselineDecision i) = true).
  { unfold is_buy, isRiskReducing. intros [-> | ->]; split; try done; intros [?|?]; done. }
  destruct (route_cases i r H) as [(Hno & c & ->)|[Hp Hr]]; [split; [tauto|done]|].
  destruct (ri_pilotPhase i) eqn:Hphase; try subst r; (split; [intros [_ Hf]; done|intros Hnf]).
  - done.
  - destruct (gate_decision i GatePendingFlat) as (-> & -> & _ & Hk).
    split; [done|]. intros [Hb _]%Hnb. by rewrite Hk.
  - destruct (active_decision i r Hr) as (-> & -> & Hcase). split; [done|]. intros [_ Hred]%Hnb.
    destruct Hcase as [-> |[Hn _]]; [done|congruence].
  - tauto.
  - destruct (gate_decision i GateDraining) as (-> & -> & _ & Hk).
    split; [done|]. intros [Hb _]%Hnb. by rewrite Hk.
Qed.

(** ** The accepted selections *)

Definition baseline_fields : list (string * json) :=
  [("kind", JStr "BASELINE"); ("pilotId", JNull)]%string.

Definition pilot_fields : list (string * json) :=
  [("kind", JStr "BTC_CANDIDATE_PILOT"); ("pilotId", JStr "BTC_COMBINED_CONSERVATIVE_PILOT_V1");
   ("market", JStr "KRW-BTC"); ("policyId", JStr "COMBINED_CONSERVATIVE");
   ("policyVersion", JStr "PCS-2026-001.DEPLOYMENT_READINESS_V1");
   ("liveOperatorConfirmed", JBool true)]%string.

Lemma property_elem fields k v : property fields k = Some v -> (k, v) ∈ fields.
Proof.
  induction fields as [|[k' v'] fields IH]; simpl; [done|].
  case_bool_decide as Hk; [intros [= <-]; subst; left | intros H; right; auto].
Qed.

Lemma property_nodup fields k v :
  NoDup (fst <$> fields) -> (k, v) ∈ fields -> property fields k = Some v.
Proof.
  induction fields as [|[k' v'] fields IH]; simpl; [by intros _ ?%elem_of_nil|].
  rewrite NoDup_cons. intros [Hni Hnd] [Heq|Hin]%elem_of_cons.
  - injection Heq as <- <-. by rewrite bool_decide_eq_true_2.
  - case_bool_decide as Hk; [|by apply IH]. subst k'. destruct Hni.
    apply list_elem_of_fmap. by exists (k, v).
Qed.

Lemma mapM_property_inv fields keys vs :
  mapM (property fields) keys = Some vs -> forall kv, kv ∈ zip keys vs -> kv ∈ fields.
Proof.
  intros H%mapM_Some kv. induction H as [|k v keys vs Hkv H IH]; simpl; [by intros ?%elem_of_nil|].
  intros [->|Hin]%elem_of_cons; [by apply property_elem | auto].
Qed.

(** An object has exactly the properties [keys] with values [vs]. *)
Lemma exact_properties_inv fields keys vs :
  NoDup keys -> exactSelectionProperties (JObj fields) keys = Some vs -> zip keys vs ≡ₚ fields.
Proof.
  unfold exactSelectionProperties. intros Hnd. destruct (_ || _) eqn:Hc; [done|]. intros Hm.
  apply orb_false_iff in Hc as [Hlen _]. apply negb_false_iff, Nat.eqb_eq in Hlen.
  pose proof (length_mapM _ _ _ Hm) as Hl.
  apply submseteq_length_Permutation.
  - apply NoDup_submseteq; [|by eapply mapM_property_inv].
    apply (NoDup_fmap_1 fst). by rewrite fst_zip by lia.
  - rewrite length_zip_with. lia.
Qed.

Lemma exact_properties fields keys vs :
  length keys = length vs -> NoDup keys -> fields ≡ₚ zip keys vs ->
  exactSelectionProperties (JObj fields) keys = Some vs.
Proof.
  intros Hl Hnd HP. unfold exactSelectionProperties.
  assert (Hnames : (fst <$> fields) ≡ₚ keys) by (rewrite HP, fst_zip by lia; done).
  assert (Hlen : length fields = length keys).
  { rewrite <- (Permutation_length Hnames). by rewrite length_fmap. }
  rewrite Hlen, Nat.eqb_refl. simpl.
  assert (Hex : existsb (fun name => negb (includes keys name)) (map fst fields) = false).
  { apply not_true_iff_false. rewrite existsb_exists. intros (n & Hn & Hb).
    apply negb_true_iff in Hb. apply not_true_iff_false in Hb. apply Hb, includes_true.
    rewrite <- Hnames. by apply list_elem_of_In. }
  rewrite Hex. apply mapM_Some. apply Forall2_same_length_lookup_2; [done|].
  intros n k v Hk Hv. apply property_nodup; [by rewrite Hnames|].
  rewrite HP. apply list_elem_of_lookup. exists n. apply lookup_zip_with_Some. eauto.
Qed.

Lemma is_str_true j s : is_str j s = true -> j = JStr s.
Proof. destruct j; try done. simpl. by intros ->%bool_decide_eq_true. Qed.
Lemma is_null_true j : is_null j = true -> j = JNull.
Proof. by destruct j. Qed.
Lemma is_true_json_true j : is_true_json j = true -> j = JBool true.
Proof. destruct j; try done. by intros [= ->]. Qed.

(** Of all objects the validator accepts exactly the baseline selection
    and the one candidate pilot, confirmed by the live operator, whatever the
    order of their properties; every other value throws. *)
Theorem selection_accepts_exactly selection s :
  validatePositionGuardPolicySelection selection = Ret s <->
  exists fields, selection = JObj fields /\
    fields ≡ₚ match s with SelectBaseline => baseline_fields | SelectBtcCandidatePilot => pilot_fields end.
Proof.
  assert (Hb : NoDup BASELINE_SELECTION_KEYS) by (apply (bool_decide_eq_true_1 _); reflexivity).
  assert (Hc : NoDup CANDIDATE_SELECTION_KEYS) by (apply (bool_decide_eq_true_1 _); reflexivity).
  split.
  - unfold validatePositionGuardPolicySelection. destruct selection as [| | | | | |fields]; try done.
    intros H. exists fields. split; [done|].
    destruct (exactSelectionProperties (JObj fields) BASELINE_SELECTION_KEYS) as [vs|] eqn:E.
    + apply exact_properties_inv in E; [|done]. destruct vs as [|k [|p [|]]]; try done.
      destruct (_ && _) eqn:Hv; [|done]. injection H as <-.
      apply andb_true_iff in Hv as [->%is_str_true ->%is_null_true]. by rewrite <- E.
    + destruct (exactSelectionProperties (JObj fields) CANDIDATE_SELECTION_KEYS) as [vs|] eqn:E2; [|done].
      apply exact_properties_inv in E2; [|done].
      destruct vs as [|k [|p [|mk [|po [|ve [|co [|]]]]]]]; try done.
      destruct (_ && _) eqn:Hv; [|done]. injection H as <-.
      repeat (apply andb_true_iff in Hv as [Hv ?]).
      repeat match goal with
        | Hs : is_str _ _ = true |- _ => apply is_str_true in Hs; subst
        | Hs : is_true_json _ = true |- _ => apply is_true_json_true in Hs; subst
        end.
      by rewrite <- E2.
  - intros (fields & -> & HP). unfold validatePositionGuardPolicySelection. destruct s.
    + by rewrite (exact_properties fields BASELINE_SELECTION_KEYS [JStr "BASELINE"; JNull]).
    + assert (Hnone : exactSelectionProperties (JObj fields) BASELINE_SELECTION_KEYS = None).
      { unfold exactSelectionProperties. by rewrite (Permutation_length HP). }
      rewrite Hnone, (exact_properties fields CANDIDATE_SELECTION_KEYS (snd <$> pilot_fields)); done.
Qed.

(** ** Concrete routes *)

Definition sample_route (phase : PositionGuardPilotPhase) (c : PositionGuardStrategyContext)
    (s : option PositionGuardCandidateState) : PositionGuardPolicyRouteInput := {|
  ri_market := market c; ri_generatedAt := generatedAt c;
  ri_baselineDecision := decidePositionGuardCore c; ri_selection := JObj pilot_fields;
  ri_pilotPhase := phase; ri_candidateState := s; ri_positionQuantity := positionQuantity c;
  ri_averageEntryPrice := ctx_averageEntryPrice c; ri_analysis := analysis c |}.

Definition routed (i : PositionGuardPolicyRouteInput) : PositionGuardPolicyRouteResult :=
  match routePositionGuardPolicy i with Ret r => r | Throw _ => blockedRoute i end.

Definition active_route : PositionGuardPolicyRouteInput :=
  sample_route Phase.ACTIVE later_context (Some (sample_state [sample_enter; sample_exit])).

Example gate_holds_entry :
  action (rr_effectiveDecision (routed (sample_route Phase.DRAINING later_context None))) = Action.HOLD.
Proof. vm_compute. reflexivity. Qed.

Lemma route_never_adds_risk_witness :
  exists d, executionDecision (routed active_route) = Some d /\ is_buy d /\
    d = decidePositionGuardCore later_context.
Proof.
  destruct (executionDecision (routed active_route)) as [d|] eqn:E; [|vm_compute in E; discriminate E].
  assert (Hbuy : is_buy d).
  { left. vm_compute in E. injection E as <-. reflexivity. }
  exists d. split; [reflexivity|]. split; [exact Hbuy|].
  apply (route_never_adds_risk active_route (routed active_route) d); [vm_compute; reflexivity | exact E | exact Hbuy].
Defined.

Lemma risk_reduction_executes_witness :
  executionDecision (routed (sample_route Phase.DRAINING sample_reduce None))
  = Some (decidePositionGuardCore sample_reduce) /\
  executionDecision (routed (sample_route Phase.PAUSED_FAULT sample_reduce None)) = None.
Proof.
  split.
  - apply (risk_reduction_executes (sample_route Phase.DRAINING sample_reduce None)
             (routed (sample_route Phase.DRAINING sample_reduce None)));
      [vm_compute; reflexivity | intros [_ H]; discriminate H | left; vm_compute; reflexivity].
  - apply (risk_reduction_executes (sample_route Phase.PAUSED_FAULT sample_reduce None)
             (routed (sample_route Phase.PAUSED_FAULT sample_reduce None)));
      [vm_compute; reflexivity | split; [split; vm_compute; reflexivity | reflexivity]].
Defined.
