(* ===== verification/MarketStructure.v ===== *)
(** * MarketStructure: from candles to the structure analysis

    modules/strategy/market-structure.ts: the completed candles a decision may
    use, the indicators of one timeframe (EMA, ATR, RSI, MACD, volume ratio,
    swings), the structure predicates and scores, and
    [analyzePositionGuardMarketStructure], whose result feeds the decision
    engine.  Prices and indicators are doubles, scores and counts integers.

    Array reads past the end, which the source guards with [??], do not occur
    at the indices its loops use; the loops are folds over the array. *)

From stdpp Require Import base option list strings.
From Stdlib Require Import ZArith Lia.
From S2P Require Import Prelude Num Types Text Timestamp StrategyCore.

Local Open Scope Z_scope.

(** ** Data *)

Record StrategyMarketCandle := {
  candle_market : SupportedMarket;
  candle_timeframe : SupportedStrategyTimeframe;
  openTime : string;
  closeTime : string;
  openPrice : num;
  highPrice : num;
  lowPrice : num;
  closePrice : num;
  volume : num;
  quoteVolume : num;
}.

Record StrategyMarketTicker := {
  ticker_tradePrice : num;
  tradeTimeUtc : option string;
  tradeTimeKst : option string;
  exchangeTimestampMs : option num;
  ticker_fetchedAt : option string;
}.

(** [Record<SupportedStrategyTimeframe, A>] *)
Record PerTimeframe (A : Type) := { h1 : A; h4 : A; d1 : A }.
Arguments h1 {A} _.
Arguments h4 {A} _.
Arguments d1 {A} _.

Definition at_timeframe {A} (r : PerTimeframe A) (t : SupportedStrategyTimeframe) : A :=
  match t with Timeframe.H1 => h1 r | Timeframe.H4 => h4 r | Timeframe.D1 => d1 r end.

Record PositionGuardMarketSnapshot := {
  snap_asset : SupportedAsset;
  snap_market : SupportedMarket;
  ticker : StrategyMarketTicker;
  candles : PerTimeframe (list StrategyMarketCandle);
  snap_fetchedAt : string;
}.

Record TimeframeIndicatorState := {
  ema20 : option num;
  ema50 : option num;
  ema200 : option num;
  atr14 : option num;
  rsi14 : option num;
  macdLine : option num;
  macdSignal : option num;
  macdHistogram : option num;
  previousMacdHistogram : option num;
  volumeRatio : option num;
}.

Record TimeframeStructure := {
  timeframe : SupportedStrategyTimeframe;
  trend : StrategyTrendDirection;
  rangeHigh : num;
  rangeLow : num;
  previousRangeLow : num;
  previousRangeHigh : num;
  location : StrategyRangeLocation;
  changePct : num;
  latestClose : num;
  previousClose : num;
  swingHigh : num;
  swingLow : num;
  support : num;
  resistance : num;
  indicators : TimeframeIndicatorState;
  aboveEma20 : bool;
  aboveEma50 : bool;
  aboveEma200 : bool;
  emaStackBullish : bool;
  emaStackBearish : bool;
  macdHistogramImproving : bool;
  rsiOverbought : bool;
  rsiOversold : bool;
}.

Abbreviation Timeframes := (PerTimeframe TimeframeStructure).

Record PositionGuardMarketStructureAnalysis := {
  structure_analysis : PositionGuardStructureAnalysis;
  ms_asset : SupportedAsset;
  ms_market : SupportedMarket;
  timeframes : Timeframes;
  bearishTrendCount : Z;
  bullishTrendCount : Z;
  lowerLocationCount : Z;
  upperLocationCount : Z;
  reclaimLevel : option num;
}.

Definition LOOKBACK (t : SupportedStrategyTimeframe) : nat :=
  match t with Timeframe.H1 => 24 | Timeframe.H4 => 24 | Timeframe.D1 => 30 end.
Definition TREND_THRESHOLD (t : SupportedStrategyTimeframe) : num :=
  match t with Timeframe.H1 => lit 15 3 | Timeframe.H4 => lit 25 3 | Timeframe.D1 => lit 3 2 end.
Definition SWING_LOOKBACK (t : SupportedStrategyTimeframe) : nat :=
  match t with Timeframe.H1 => 18 | Timeframe.H4 => 18 | Timeframe.D1 => 20 end.

(** ** Arithmetic on series *)

Local Open Scope js_scope.
Local Open Scope bool_scope.

(** [l.slice(-n)] for [0 < n], or for an empty list. *)
Definition last_n {A} (n : nat) (l : list A) : list A := drop (length l - n) l.

(** [l[l.length - 1 - n]] *)
Definition nth_last {A} (n : nat) (l : list A) : option A := reverse l !! n.

Definition NegInfinity : num := SpecFloat.S754_infinity true.

(** [Math.max(...values)] and [Math.min(...values)] *)
Definition max_of (values : list num) : num := foldl nmax NegInfinity values.
Definition min_of (values : list num) : num := foldl nmin PosInfinity values.

Definition num_of_nat (n : nat) : num := num_of_Z (Z.of_nat n).

Definition average (values : list num) : num :=
  match values with
  | [] => zero
  | _ => ndiv (foldl nadd zero values) (num_of_nat (length values))
  end.

Definition ema_multiplier (period : nat) : num := ndiv (lit 2 0) (num_of_nat (period + 1)).

(** [(value - ema) * multiplier + ema] *)
Definition ema_step (period : nat) (ema value : num) : num :=
  nadd (nmul (nsub value ema) (ema_multiplier period)) ema.

Definition calculateEma (values : list num) (period : nat) : option num :=
  if (length values <? period)%nat then None
  else Some (foldl (ema_step period) (average (take period values)) (drop period values)).

(** The running values of a fold. *)
Fixpoint scan {A B} (f : A -> B -> A) (a : A) (l : list B) : list A :=
  match l with
  | [] => [a]
  | b :: l' => a :: scan f (f a b) l'
  end.

Definition calculateEmaSeries (values : list num) (period : nat) : list (option num) :=
  if (length values <? period)%nat then map (fun _ => None) values
  else replicate (period - 1) None
       ++ map Some (scan (ema_step period) (average (take period values)) (drop period values)).

Definition true_range (previous candle : StrategyMarketCandle) : num :=
  nmax (nmax (nsub (highPrice candle) (lowPrice candle))
             (nabs (nsub (highPrice candle) (closePrice previous))))
       (nabs (nsub (lowPrice candle) (closePrice previous))).

Definition true_ranges (cs : list StrategyMarketCandle) : list num :=
  zip_with true_range cs (tail cs).

(** [(average * (period - 1) + value) / period] *)
Definition wilder_step (period : nat) (avg value : num) : num :=
  ndiv (nadd (nmul avg (num_of_nat (period - 1))) value) (num_of_nat period).

Definition calculateAtr (cs : list StrategyMarketCandle) (period : nat) : option num :=
  if (length cs <=? period)%nat then None
  else
    let trueRanges := true_ranges cs in
    if (length trueRanges <? period)%nat then None
    else Some (foldl (wilder_step period) (average (take period trueRanges)) (drop period trueRanges)).

(** The changes from one value to the next. *)
Definition changes (values : list num) : list num :=
  zip_with (fun previous value => nsub value previous) values (tail values).

Definition calculateRsi (values : list num) (period : nat) : option num :=
  if (length values <=? period)%nat then None
  else
    let first := take period (changes values) in
    let rest := drop period (changes values) in
    let '(gains, losses) :=
      foldl (fun '(gains, losses) change =>
               if nleb zero change then (nadd gains change, losses)
               else (gains, nadd losses (nabs change))) (zero, zero) first in
    let '(averageGain, averageLoss) :=
      foldl (fun '(gain, loss) change =>
               (wilder_step period gain (nmax change zero),
                wilder_step period loss (nmax (nopp change) zero)))
            (ndiv gains (num_of_nat period), ndiv losses (num_of_nat period)) rest in
    if neqb averageLoss zero then Some (lit 100 0)
    else
      let relativeStrength := ndiv averageGain averageLoss in
      Some (nsub (lit 100 0) (ndiv (lit 100 0) (nadd (lit 1 0) relativeStrength))).

Record Macd := {
  line : option num;
  signal : option num;
  histogram : option num;
  previousHistogram : option num;
}.

Definition no_macd : Macd :=
  {| line := None; signal := None; histogram := None; previousHistogram := None |}.

(** [x !== null && y !== null ? x - y : null] *)
Definition difference (x y : option num) : option num :=
  match x, y with Some a, Some b => Some (nsub a b) | _, _ => None end.

(** [series.filter((value) => value !== null)] *)
Definition present {A} (l : list (option A)) : list A := omap id l.

Definition calculateMacd (values : list num) : Macd :=
  if (length values <? 35)%nat then no_macd
  else
    let macdSeries :=
      present (zip_with difference (calculateEmaSeries values 12) (calculateEmaSeries values 26)) in
    let signalSeries := present (calculateEmaSeries macdSeries 9) in
    if (length macdSeries =? 0)%nat || (length signalSeries =? 0)%nat then no_macd
    else
      {| line := nth_last 0 macdSeries;
         signal := nth_last 0 signalSeries;
         histogram := difference (nth_last 0 macdSeries) (nth_last 0 signalSeries);
         previousHistogram := difference (nth_last 1 macdSeries) (nth_last 1 signalSeries) |}.

Definition calculateVolumeRatio (cs : list StrategyMarketCandle) (period : nat) : option num :=
  if (length cs <? 2)%nat then None
  else
    match nth_last 0 cs with
    | None => None
    | Some latest =>
        let baseline :=
          map volume (drop (length cs - 1 - period) (take (length cs - 1) cs)) in
        if (length baseline =? 0)%nat then None
        else if nleb (average baseline) zero then None
        else Some (ndiv (volume latest) (average baseline))
    end.

Definition getHigh (cs : list StrategyMarketCandle) (fallback : num) : num :=
  match cs with
  | [] => fallback
  | first :: _ => foldl (fun highest c => nmax highest (highPrice c)) (highPrice first) cs
  end.

Definition getLow (cs : list StrategyMarketCandle) (fallback : num) : num :=
  match cs with
  | [] => fallback
  | first :: _ => foldl (fun lowest c => nmin lowest (lowPrice c)) (lowPrice first) cs
  end.

(** One round of the pivot search, at [index]. *)
Definition pivot_step (cs : list StrategyMarketCandle) (pivots : option num * option num) (index : nat)
    : option num * option num :=
  match cs !! index with
  | None => pivots
  | Some current =>
      let window := take 5 (drop (index - 2) cs) in
      (if neqb (highPrice current) (max_of (map highPrice window))
       then Some (highPrice current) else fst pivots,
       if neqb (lowPrice current) (min_of (map lowPrice window))
       then Some (lowPrice current) else snd pivots)
  end.

(** [(swingHigh, swingLow)] *)
Definition findSwings (cs : list StrategyMarketCandle) (fallback : num) : num * num :=
  if (length cs <? 5)%nat then (getHigh cs fallback, getLow cs fallback)
  else
    let '(pivotHigh, pivotLow) :=
      foldl (pivot_step cs) (None, None) (seq 2 (length cs - 4)) in
    (default (getHigh cs fallback) pivotHigh, default (getLow cs fallback) pivotLow).

(** ** One timeframe *)

Definition classifyTrend (t : SupportedStrategyTimeframe) (change latest : num) (e20 e50 : option num)
    : StrategyTrendDirection :=
  let above20 := match e20 with Some e => nleb e latest | None => false end in
  let above50 := match e50 with Some e => nleb e latest | None => false end in
  let no50 := e50 === None in
  if nleb (TREND_THRESHOLD t) change && above20 && (no50 || above50) then Trend.UP
  else if nleb change (nopp (TREND_THRESHOLD t)) && negb above20 && (no50 || negb above50)
  then Trend.DOWN
  else Trend.FLAT.

Definition classifyLocation (price low high : num) : StrategyRangeLocation :=
  let width := nsub high low in
  if nleb width zero then Location.MIDDLE
  else
    let placement := ndiv (nsub price low) width in
    if nleb placement (lit 33 2) then Location.LOWER
    else if nleb (lit 67 2) placement then Location.UPPER
    else Location.MIDDLE.

(** [x !== null ? p(x) : false] *)
Definition when_some {A} (x : option A) (p : A -> bool) : bool :=
  match x with Some a => p a | None => false end.

Definition analyzeTimeframe (t : SupportedStrategyTimeframe) (cs : list StrategyMarketCandle)
    (price : num) : TimeframeStructure :=
  let recent := last_n (Nat.min (length cs) (LOOKBACK t)) cs in
  let prior := if (1 <? length recent)%nat then take (length recent - 1) recent else recent in
  let closes := map closePrice cs in
  let latest := default price (closePrice <$> nth_last 0 recent) in
  let previous := default latest (closePrice <$> nth_last 1 recent) in
  let first := default price (closePrice <$> head recent) in
  let change := if nltb zero first then ndiv (nsub latest first) first else zero in
  let e20 := calculateEma closes 20 in
  let e50 := calculateEma closes 50 in
  let e200 := calculateEma closes 200 in
  let rsi := calculateRsi closes 14 in
  let macd := calculateMacd closes in
  let '(high, low) := findSwings (last_n (SWING_LOOKBACK t) cs) price in
  {| timeframe := t;
     trend := classifyTrend t change latest e20 e50;
     rangeHigh := getHigh recent price;
     rangeLow := getLow recent price;
     previousRangeHigh := getHigh prior price;
     previousRangeLow := getLow prior price;
     location := classifyLocation latest low high;
     changePct := change;
     latestClose := latest;
     previousClose := previous;
     swingHigh := high;
     swingLow := low;
     support := low;
     resistance := high;
     indicators := {| ema20 := e20; ema50 := e50; ema200 := e200;
                      atr14 := calculateAtr cs 14; rsi14 := rsi;
                      macdLine := line macd; macdSignal := signal macd;
                      macdHistogram := histogram macd;
                      previousMacdHistogram := previousHistogram macd;
                      volumeRatio := calculateVolumeRatio cs 20 |};
     aboveEma20 := when_some e20 (fun e => nleb e latest);
     aboveEma50 := when_some e50 (fun e => nleb e latest);
     aboveEma200 := when_some e200 (fun e => nleb e latest);
     emaStackBullish := match e20, e50, e200 with
                        | Some a, Some b, Some c => nleb b a && nleb c b
                        | _, _, _ => false end;
     emaStackBearish := match e20, e50, e200 with
                        | Some a, Some b, Some c => nleb a b && nleb b c
                        | _, _, _ => false end;
     macdHistogramImproving := match histogram macd, previousHistogram macd with
                               | Some h, Some p => nltb p h
                               | _, _ => false end;
     rsiOverbought := when_some rsi (fun r => nleb (lit 70 0) r);
     rsiOversold := when_some rsi (fun r => nleb r (lit 35 0)) |}.

(** ** The candles a decision may use *)

(** The string ends with [Z] or a numeric zone offset. *)
Fixpoint has_zone (value : string) : bool :=
  match match_timezone value with
  | Some _ => true
  | None => match value with
            | EmptyString => false
            | String _ rest => has_zone rest
            end
  end.

Definition toUtcMs (value : string) : option Z :=
  Date_parse (if has_zone value then value else (value ++ "Z")%string).

Definition getSnapshotDecisionCutoffMs (s : PositionGuardMarketSnapshot) : option num :=
  let t := ticker s in
  let tradeTimeMs := match tradeTimeUtc t with
                     | Some u => if u === ""%string then None else toUtcMs u
                     | None => None
                     end in
  let byTime := num_of_Z <$> match tradeTimeMs with
                             | Some ms => Some ms
                             | None => toUtcMs (default (snap_fetchedAt s) (ticker_fetchedAt t))
                             end in
  match exchangeTimestampMs t with
  | Some ms => if is_finite ms then Some ms else byTime
  | None => byTime
  end.

(** The candle closed no later than the cutoff. *)
Definition completed_by (cutoff : num) (c : StrategyMarketCandle) : bool :=
  match toUtcMs (closeTime c) with
  | Some closeMs => nleb (num_of_Z closeMs) cutoff
  | None => false
  end.

Definition getDecisionCandles (s : PositionGuardMarketSnapshot) (t : SupportedStrategyTimeframe)
    : list StrategyMarketCandle :=
  let cs := at_timeframe (candles s) t in
  match getSnapshotDecisionCutoffMs s with
  | None => cs
  | Some cutoff =>
      let completed := List.filter (completed_by cutoff) cs in
      if (Nat.min (LOOKBACK t) 5 <=? length completed)%nat then completed else cs
  end.

(** ** Predicates on structures *)

Definition atr_of (s : TimeframeStructure) : option num := atr14 (indicators s).

Definition getLevelBuffer (level : num) (atr : option num) (atrMultiplier : num) : num :=
  let atrBuffer := match atr with
                   | Some a => if nltb zero a then nmul a atrMultiplier else zero
                   | None => zero end in
  nmax (nmul level (lit 25 4)) atrBuffer.

Definition usable_level (level : num) : bool := is_finite level && negb (nleb level zero).

Definition isCloseBelowLevel (s : TimeframeStructure) (level atrMultiplier : num) : bool :=
  if negb (usable_level level) then false
  else nleb (latestClose s) (nsub level (getLevelBuffer level (atr_of s) atrMultiplier)).

Definition isSustainedCloseBelowLevel (s : TimeframeStructure) (level : num) : bool :=
  let buffer := getLevelBuffer level (atr_of s) (lit 5 2) in
  nleb (previousClose s) (nsub level buffer) && nleb (latestClose s) (nsub level buffer).

Definition isFailedReclaimBelowLevel (s : TimeframeStructure) (level : num) : bool :=
  if negb (usable_level level) then false
  else
    let buffer := getLevelBuffer level (atr_of s) (lit 8 2) in
    nleb (nsub level buffer) (previousClose s) && nleb (latestClose s) (nsub level buffer).

Definition isConfirmedBreakdown (s lower : TimeframeStructure) (level : num) : bool :=
  isCloseBelowLevel s level (lit 2 1)
  || isSustainedCloseBelowLevel s level
  || isFailedReclaimBelowLevel lower level.

Definition isInvalidationBroken (tfs : Timeframes) (level : num) : bool :=
  isCloseBelowLevel (h4 tfs) level (lit 2 1)
  || isCloseBelowLevel (d1 tfs) level (lit 15 2)
  || isFailedReclaimBelowLevel (h1 tfs) level.

(** [[a, b].filter((v) => Number.isFinite(v) && v > 0)] and its maximum. *)
Definition highest_positive (a b : num) : option num :=
  match List.filter (fun v => is_finite v && nltb zero v) [a; b] with
  | [] => None
  | levels => Some (max_of levels)
  end.

Definition getInvalidationLevel (tfs : Timeframes) : option num :=
  highest_positive (support (h4 tfs)) (support (d1 tfs)).

Definition getReclaimLevel (oneHour fourHour : TimeframeStructure) : option num :=
  highest_positive (nmin (previousRangeHigh oneHour) (resistance fourHour)) (support fourHour).

Definition isFreshReclaim (oneHour fourHour : TimeframeStructure) : bool :=
  match getReclaimLevel oneHour fourHour with
  | None => false
  | Some level =>
      let buffer := nmax (nmul level (lit 1 3)) (nmul (default zero (atr_of oneHour)) (lit 5 2)) in
      let extensionLimit :=
        nmax (getLevelBuffer level (atr_of oneHour) (lit 22 1)) (nmul level (lit 25 3)) in
      nleb (previousClose oneHour) (nadd level buffer)
      && nleb (nadd level buffer) (latestClose oneHour)
      && nleb (latestClose oneHour) (nadd level extensionLimit)
      && aboveEma20 oneHour
  end.

Definition isBreakoutHold (oneHour fourHour : TimeframeStructure) : bool :=
  let holdLevel := nmin (previousRangeHigh oneHour) (resistance oneHour) in
  let buffer := nmax (nmul holdLevel (lit 1 3)) (nmul (default zero (atr_of oneHour)) (lit 5 2)) in
  let extensionLimit :=
    nmax (getLevelBuffer holdLevel (atr_of oneHour) (lit 2 0)) (nmul holdLevel (lit 2 2)) in
  nltb zero holdLevel
  && nleb (nsub holdLevel buffer) (previousClose oneHour)
  && nleb (nsub holdLevel buffer) (latestClose oneHour)
  && nleb (latestClose oneHour) (nadd holdLevel extensionLimit)
  && aboveEma20 oneHour
  && ((trend fourHour !== Trend.DOWN) || aboveEma20 fourHour).

Definition isRsiRecovery (s : TimeframeStructure) : bool :=
  match rsi14 (indicators s) with
  | Some rsi => nleb (lit 40 0) rsi && nleb rsi (lit 64 0) && macdHistogramImproving s
  | None => false
  end.

Definition isConstructiveVolumeRecovery (oneHour fourHour : TimeframeStructure) : bool :=
  let oneHourRatio := default zero (volumeRatio (indicators oneHour)) in
  let fourHourRatio := default zero (volumeRatio (indicators fourHour)) in
  (nleb (lit 1005 3) oneHourRatio && nltb (previousClose oneHour) (latestClose oneHour))
  || (nleb (lit 1 0) fourHourRatio && nleb (previousClose fourHour) (latestClose fourHour)
      && aboveEma20 fourHour).

Definition isBearishMomentumExpansion (tfs : Timeframes) : bool :=
  nltb (default zero (macdHistogram (indicators (h1 tfs)))) zero
  && negb (macdHistogramImproving (h1 tfs))
  && nltb (default zero (macdHistogram (indicators (h4 tfs)))) zero
  && negb (macdHistogramImproving (h4 tfs)).

Definition isAtrShock (s : TimeframeStructure) : bool :=
  match atr_of s with
  | None => false
  | Some atr =>
      nltb zero atr
      && nleb (nmul atr (lit 12 1)) (nabs (nsub (latestClose s) (previousClose s)))
      && nleb (latestClose s) (nsub (support s) (getLevelBuffer (support s) (Some atr) (lit 15 2)))
  end.

Definition isUpperRangeChase (tfs : Timeframes) (price : num) (hasReclaimQuality : bool) : bool :=
  let oneHour := h1 tfs in
  let resistanceBuffer := getLevelBuffer (resistance oneHour) (atr_of oneHour) (lit 25 2) in
  let higherTimeframeExtension :=
    (location (h4 tfs) === Location.UPPER) && (location (d1 tfs) === Location.UPPER) in
  let localExtension :=
    (location oneHour === Location.UPPER)
    && nleb (nadd (resistance oneHour) resistanceBuffer) price
    && nleb (lit 66 0) (default zero (rsi14 (indicators oneHour))) in
  if hasReclaimQuality then higherTimeframeExtension && localExtension
  else higherTimeframeExtension || localExtension
       || ((location oneHour === Location.UPPER)
           && nltb (nmul (default price (ema20 (indicators oneHour))) (lit 102 2)) price).

(** ** Scores and classes *)

Definition getEntryPath (pullback reclaim breakoutHold : bool) : StrategyEntryPath :=
  if reclaim then EntryPath.RECLAIM
  else if breakoutHold then EntryPath.BREAKOUT_HOLD
  else if pullback then EntryPath.PULLBACK
  else EntryPath.NONE.

Definition getTrendAlignmentScore (tfs : Timeframes) : Z :=
  (if emaStackBullish (d1 tfs) then 2
   else points ((trend (d1 tfs) === Trend.UP) || aboveEma20 (d1 tfs)) 1)
  + (if emaStackBullish (h4 tfs) then 2
     else points ((trend (h4 tfs) === Trend.UP) || aboveEma20 (h4 tfs)) 1)
  + points (trend (h1 tfs) === Trend.UP) 1.

Definition getRecoveryQualityScore (tfs : Timeframes)
    (pullback reclaim breakoutHold volumeRec macdImp rsiRec : bool) : Z :=
  points reclaim 2 + points breakoutHold 2
  + points (pullback && ((location (h1 tfs) === Location.LOWER)
                         || (location (h4 tfs) === Location.LOWER))) 1
  + points volumeRec 1 + points macdImp 1 + points rsiRec 1.

Definition getBreakdownPressureScore (tfs : Timeframes) (b4h b1d failed bearish shock : bool) : Z :=
  points b1d 3 + points b4h 2 + points failed 2 + points bearish 1 + points shock 1
  + points (trend (d1 tfs) === Trend.DOWN) 1.

Definition getWeakeningStage (pressure : Z) (invalidationFailed : bool) : StrategyWeakeningStage :=
  if invalidationFailed then Weakening.FAILURE
  else if 4 <=? pressure then Weakening.CLEAR
  else if 2 <=? pressure then Weakening.SOFT
  else Weakening.NONE.

Definition count_true (l : list bool) : Z := Z.of_nat (length (List.filter id l)).

Definition classifyRegime (tfs : Timeframes)
    (b4h b1d reclaim breakoutHold macdImp rsiRec failed : bool) : StrategyMarketRegime :=
  let oneHour := h1 tfs in
  let fourHour := h4 tfs in
  let oneDay := d1 tfs in
  let recoverySignalCount :=
    count_true [reclaim || breakoutHold; macdImp; rsiRec; aboveEma20 fourHour;
                location oneDay !== Location.LOWER] in
  if b1d || failed || (b4h && (trend oneDay === Trend.DOWN))
     || (emaStackBearish oneDay && isCloseBelowLevel oneDay (support oneDay) (lit 15 2))
  then Regime.BREAKDOWN_RISK
  else if emaStackBullish oneDay && emaStackBullish fourHour
          && (trend oneDay !== Trend.DOWN) && (trend fourHour !== Trend.DOWN)
  then (if (location fourHour !== Location.UPPER)
           && (nleb (latestClose fourHour)
                 (nmul (default (latestClose fourHour) (ema20 (indicators fourHour))) (lit 102 2))
               || (location oneHour !== Location.UPPER))
        then Regime.PULLBACK_IN_UPTREND else Regime.BULL_TREND)
  else if (4 <=? recoverySignalCount) && negb (emaStackBearish oneDay) && negb b4h
          && nleb (support fourHour) (latestClose oneHour)
  then Regime.EARLY_RECOVERY
  else if (3 <=? recoverySignalCount) && negb b4h && nleb (support fourHour) (latestClose oneHour)
  then Regime.RECLAIM_ATTEMPT
  else if (trend oneDay === Trend.FLAT) && (trend fourHour !== Trend.DOWN)
          && negb (emaStackBearish oneDay) && (location oneDay !== Location.LOWER)
  then Regime.RANGE
  else Regime.WEAK_DOWNTREND.

(** ** The analysis *)

Definition count_timeframes (tfs : Timeframes) (p : TimeframeStructure -> bool) : Z :=
  count_true [p (h1 tfs); p (h4 tfs); p (d1 tfs)].

(** The structure analysis of three analysed timeframes at a price. *)
Definition analyze_timeframes (asset_ : SupportedAsset) (market_ : SupportedMarket)
    (tfs : Timeframes) (price averageEntry : num) : PositionGuardMarketStructureAnalysis :=
  let reclaimStructure := isFreshReclaim (h1 tfs) (h4 tfs) in
  let breakoutHoldStructure := isBreakoutHold (h1 tfs) (h4 tfs) in
  let failedReclaim := isFailedReclaimBelowLevel (h1 tfs) (support (h4 tfs))
                       || isFailedReclaimBelowLevel (h4 tfs) (support (d1 tfs)) in
  let breakdown4h := isConfirmedBreakdown (h4 tfs) (h1 tfs) (support (h4 tfs)) in
  let breakdown1d := isConfirmedBreakdown (d1 tfs) (h4 tfs) (support (d1 tfs)) in
  let pullbackZone :=
    negb breakdown4h && negb breakdown1d && negb failedReclaim
    && ((location (h4 tfs) === Location.LOWER)
        || ((location (h4 tfs) === Location.MIDDLE) && negb breakoutHoldStructure)
        || ((location (h1 tfs) === Location.LOWER) && (trend (h4 tfs) !== Trend.DOWN))) in
  let upperRangeChase := isUpperRangeChase tfs price (reclaimStructure || breakoutHoldStructure) in
  let volumeRecovery := isConstructiveVolumeRecovery (h1 tfs) (h4 tfs) in
  let macdImproving := macdHistogramImproving (h1 tfs) || macdHistogramImproving (h4 tfs) in
  let rsiRecovery := isRsiRecovery (h1 tfs) || isRsiRecovery (h4 tfs) in
  let bearishMomentumExpansion := isBearishMomentumExpansion tfs in
  let atrShock := isAtrShock (h1 tfs) || isAtrShock (h4 tfs) in
  let breakdownPressureScore :=
    getBreakdownPressureScore tfs breakdown4h breakdown1d failedReclaim bearishMomentumExpansion
      atrShock in
  let regime := classifyRegime tfs breakdown4h breakdown1d reclaimStructure breakoutHoldStructure
                  macdImproving rsiRecovery failedReclaim in
  let invalidationLevel := getInvalidationLevel tfs in
  let invalidationState :=
    match invalidationLevel with
    | None => Invalidation.UNCLEAR
    | Some level => if isInvalidationBroken tfs level then Invalidation.BROKEN else Invalidation.CLEAR
    end in
  {| structure_analysis := {|
       regime := regime;
       riskLevel :=
         if breakdown1d || (regime === Regime.BREAKDOWN_RISK) then RiskLevel.HIGH
         else if breakdown4h || failedReclaim || atrShock || bearishMomentumExpansion
         then RiskLevel.ELEVATED
         else if (regime === Regime.WEAK_DOWNTREND) || (regime === Regime.RECLAIM_ATTEMPT)
         then RiskLevel.MODERATE
         else RiskLevel.LOW;
       invalidationState := invalidationState;
       invalidationLevel := invalidationLevel;
       pullbackZone := pullbackZone;
       reclaimStructure := reclaimStructure;
       breakoutHoldStructure := breakoutHoldStructure;
       upperRangeChase := upperRangeChase;
       currentPrice := price;
       entryPath := getEntryPath pullbackZone reclaimStructure breakoutHoldStructure;
       trendAlignmentScore := getTrendAlignmentScore tfs;
       recoveryQualityScore :=
         getRecoveryQualityScore tfs pullbackZone reclaimStructure breakoutHoldStructure
           volumeRecovery macdImproving rsiRecovery;
       breakdownPressureScore := breakdownPressureScore;
       weakeningStage :=
         getWeakeningStage breakdownPressureScore
           (breakdown1d || (invalidationState === Invalidation.BROKEN));
       breakdown1d := breakdown1d;
       breakdown4h := breakdown4h;
       failedReclaim := failedReclaim;
       bearishMomentumExpansion := bearishMomentumExpansion;
       volumeRecovery := volumeRecovery;
       macdImproving := macdImproving;
       rsiRecovery := rsiRecovery;
       atrShock := atrShock;
       averageEntryPrice := averageEntry;
       pnlPct := if nltb zero averageEntry then ndiv (nsub price averageEntry) averageEntry else zero;
       oneHourLocation := Some (location (h1 tfs));
       fourHourLocation := Some (location (h4 tfs)) |};
     ms_asset := asset_;
     ms_market := market_;
     timeframes := tfs;
     bearishTrendCount := count_timeframes tfs (fun t => trend t === Trend.DOWN);
     bullishTrendCount := count_timeframes tfs (fun t => trend t === Trend.UP);
     lowerLocationCount := count_timeframes tfs (fun t => location t === Location.LOWER);
     upperLocationCount := count_timeframes tfs (fun t => location t === Location.UPPER);
     reclaimLevel := getReclaimLevel (h1 tfs) (h4 tfs) |}.

Definition analyze_at (s : PositionGuardMarketSnapshot) (t : SupportedStrategyTimeframe)
    : TimeframeStructure :=
  analyzeTimeframe t (getDecisionCandles s t) (ticker_tradePrice (ticker s)).

Definition analyzePositionGuardMarketStructure (s : PositionGuardMarketSnapshot) (averageEntry : num)
    : PositionGuardMarketStructureAnalysis :=
  analyze_timeframes (snap_asset s) (snap_market s)
    {| h1 := analyze_at s Timeframe.H1; h4 := analyze_at s Timeframe.H4;
       d1 := analyze_at s Timeframe.D1 |}
    (ticker_tradePrice (ticker s)) averageEntry.

#[global] Arguments isConfirmedBreakdown : simpl never.
#[global] Arguments isFailedReclaimBelowLevel : simpl never.
#[global] Arguments isInvalidationBroken : simpl never.
#[global] Arguments isFreshReclaim : simpl never.
#[global] Arguments isBreakoutHold : simpl never.
#[global] Arguments classifyRegime : simpl never.
#[global] Arguments getInvalidationLevel : simpl never.
#[global] Arguments calculateEma : simpl never.

(** ** Indicators *)

Lemma last_scan {A B} (f : A -> B -> A) a l : last (scan f a l) = Some (foldl f a l).
Proof.
  revert a. induction l as [|b l IH]; intros a; [done|].
  cbn [scan foldl]. rewrite <- IH. by destruct l.
Qed.

Lemma length_scan {A B} (f : A -> B -> A) a l : length (scan f a l) = S (length l).
Proof. revert a. induction l as [|b l IH]; intros a; simpl; [done|]. by rewrite IH. Qed.

Lemma last_map_Some {A} (l : list A) : last (map Some l) = Some <$> last l.
Proof.
  induction l as [|x l IH]; [done|]. destruct l as [|y l]; [done|].
  change (last (map Some (x :: y :: l))) with (last (map Some (y :: l))). by rewrite IH.
Qed.

(** The two EMA routines agree: the last value of the series that feeds
    the MACD is the EMA computed directly, both absent below the period, and
    the series has one entry per value. *)
Theorem ema_series_last values period :
  (1 <= period)%nat -> (1 <= length values)%nat ->
  last (calculateEmaSeries values period) = Some (calculateEma values period) /\
  length (calculateEmaSeries values period) = length values.
Proof.
  intros Hp Hv. unfold calculateEmaSeries, calculateEma.
  destruct (Nat.ltb_spec (length values) period) as [Hlt|Hge].
  - split; [|apply length_map]. clear Hlt. induction values as [|v vs IH]; [simpl in Hv; lia|].
    destruct vs as [|w vs]; [done|]. simpl in *. apply IH. lia.
  - split.
    + rewrite last_app, last_map_Some, last_scan. done.
    + rewrite length_app, length_replicate, length_map, length_scan, length_drop. lia.
Qed.

(** [Math.max] and [Math.min] return one of their arguments. *)
Lemma nmax_either x y : nmax x y = x \/ nmax x y = y.
Proof.
  destruct x as [[]|[]| |[] m1 e1], y as [[]|[]| |[] m2 e2]; cbn; auto; case_if; auto.
Qed.

Lemma nmin_either x y : nmin x y = x \/ nmin x y = y.
Proof.
  destruct x as [[]|[]| |[] m1 e1], y as [[]|[]| |[] m2 e2]; cbn; auto; case_if; auto.
Qed.

Lemma fold_high_elem cs acc :
  foldl (fun highest c => nmax highest (highPrice c)) acc cs ∈ acc :: (highPrice <$> cs).
Proof.
  revert acc. induction cs as [|c cs IH]; intros acc; cbn [foldl]; [left|].
  rewrite fmap_cons. specialize (IH (nmax acc (highPrice c))).
  apply elem_of_cons in IH as [->|IH]; [|by do 2 right].
  destruct (nmax_either acc (highPrice c)) as [-> | ->]; [left | right; left].
Qed.

Lemma fold_high_ub cs acc x :
  is_nan acc = false -> Forall (fun c => is_nan (highPrice c) = false) cs ->
  x ∈ acc :: (highPrice <$> cs) ->
  nleb x (foldl (fun highest c => nmax highest (highPrice c)) acc cs) = true.
Proof.
  intros Hacc Hcs. revert acc Hacc x. induction Hcs as [|c cs Hc Hcs IH]; intros acc Hacc x; cbn [foldl].
  - intros [->|Hx]%elem_of_cons; [by apply nleb_refl | by apply elem_of_nil in Hx].
  - assert (Hm : is_nan (nmax acc (highPrice c)) = false) by (by rewrite nmax_nan, Hacc, Hc).
    rewrite fmap_cons. intros [->|[->|Hx]%elem_of_cons]%elem_of_cons.
    + eapply nleb_trans; [by apply (nmax_ge_l acc (highPrice c))|]. apply IH; [done | left].
    + eapply nleb_trans; [by apply (nmax_ge_r acc (highPrice c))|]. apply IH; [done | left].
    + apply IH; [done | by right].
Qed.

(** The range high of a non-empty window of numbers is its maximum: it is
    the high of one of the candles and no candle is higher. *)
Lemma range_high_is_maximum cs fallback :
  cs ≠ [] -> Forall (fun c => is_nan (highPrice c) = false) cs ->
  getHigh cs fallback ∈ (highPrice <$> cs) /\
  forall c, c ∈ cs -> nleb (highPrice c) (getHigh cs fallback) = true.
Proof.
  intros Hne Hcs. destruct cs as [|c0 cs]; [done|]. unfold getHigh.
  pose proof Hcs as Hcs'. apply Forall_cons in Hcs' as [H0 _]. split.
  - pose proof (fold_high_elem (c0 :: cs) (highPrice c0)) as H.
    apply elem_of_cons in H as [->|H]; [rewrite fmap_cons; left | exact H].
  - intros c Hc. apply fold_high_ub; [done..|]. right. apply list_elem_of_fmap. by exists c.
Qed.

(** ** Scores and consistency *)

Ltac points_bounds :=
  unfold points; repeat match goal with |- context [if ?b then _ else _] => destruct b end; lia.

(** Every analysis of the market is internally consistent: its scores are
    in range; a confirmed daily breakdown or failed reclaim is a breakdown-risk
    regime of high risk; a broken invalidation level or daily breakdown is the
    failure stage; a pullback zone excludes every breakdown; and the entry path
    names a structure that holds. *)
Theorem analysis_consistent s averageEntry :
  let a := structure_analysis (analyzePositionGuardMarketStructure s averageEntry) in
  0 <= trendAlignmentScore a <= 5 /\ 0 <= recoveryQualityScore a <= 8 /\
  0 <= breakdownPressureScore a <= 10 /\
  (breakdown1d a || failedReclaim a = true ->
     regime a = Regime.BREAKDOWN_RISK /\ riskLevel a = RiskLevel.HIGH) /\
  (breakdown1d a = true \/ invalidationState a = Invalidation.BROKEN <->
     weakeningStage a = Weakening.FAILURE) /\
  (pullbackZone a = true ->
     breakdown1d a = false /\ breakdown4h a = false /\ failedReclaim a = false) /\
  match entryPath a with
  | EntryPath.RECLAIM => reclaimStructure a = true
  | EntryPath.BREAKOUT_HOLD => breakoutHoldStructure a = true
  | EntryPath.PULLBACK => pullbackZone a = true
  | EntryPath.NONE => pullbackZone a || reclaimStructure a || breakoutHoldStructure a = false
  end.
Proof.
  unfold analyzePositionGuardMarketStructure. cbv zeta.
  generalize {| h1 := analyze_at s Timeframe.H1; h4 := analyze_at s Timeframe.H4;
                d1 := analyze_at s Timeframe.D1 |}. intros tfs. generalize (ticker_tradePrice (ticker s)).
  intros price. unfold analyze_timeframes. cbv zeta.
  cbn [structure_analysis trendAlignmentScore recoveryQualityScore breakdownPressureScore breakdown1d
       failedReclaim regime riskLevel invalidationState weakeningStage pullbackZone breakdown4h
       entryPath reclaimStructure breakoutHoldStructure].
  generalize (isConfirmedBreakdown (h4 tfs) (h1 tfs) (support (h4 tfs)))
    (isConfirmedBreakdown (d1 tfs) (h4 tfs) (support (d1 tfs)))
    (isFailedReclaimBelowLevel (h1 tfs) (support (h4 tfs))
     || isFailedReclaimBelowLevel (h4 tfs) (support (d1 tfs))).
  intros b4h b1d failed.
  set (state := match getInvalidationLevel tfs with None => _ | Some _ => _ end).
  split; [unfold getTrendAlignmentScore; points_bounds|].
  split; [unfold getRecoveryQualityScore; points_bounds|].
  split; [unfold getBreakdownPressureScore; points_bounds|].
  split.
  { intros H. assert (Hr : forall r bh m rs, classifyRegime tfs b4h b1d r bh m rs failed = Regime.BREAKDOWN_RISK).
    { intros. unfold classifyRegime. by rewrite H. }
    rewrite Hr. split; [done|]. by rewrite orb_true_r. }
  split.
  { unfold getWeakeningStage. destruct b1d; [split; auto|]. cbn [orb].
    destruct (decide (state = Invalidation.BROKEN)) as [E|E].
    - rewrite bool_decide_eq_true_2 by exact E. split; auto.
    - rewrite bool_decide_eq_false_2 by exact E. split; [intros [?|?]; done|].
      destruct (4 <=? _); [done|]. by destruct (2 <=? _). }
  split.
  { intros H. repeat (apply andb_true_iff in H as [H ?]). destruct_bools. auto. }
  unfold getEntryPath. destruct (isFreshReclaim (h1 tfs) (h4 tfs)); [done|].
  destruct (isBreakoutHold (h1 tfs) (h4 tfs)); [done|].
  by destruct (negb b4h && negb b1d && negb failed && _).
Qed.

(** A confirmed daily breakdown or a broken invalidation level found in the
    market leads the engine, whatever the scores and settings, to exit an open
    position and to hold a flat one. *)
Theorem breakdown_forces_exit s c :
  analysis c = structure_analysis
                 (analyzePositionGuardMarketStructure s (ctx_averageEntryPrice c)) ->
  breakdown1d (analysis c) = true \/ invalidationState (analysis c) = Invalidation.BROKEN ->
  action (decidePositionGuardCore c) = (if is_flat c then Action.HOLD else Action.EXIT) /\
  weakeningStage (analysis c) = Weakening.FAILURE.
Proof.
  intros Ha Hb.
  assert (Hexit : isImmediateExitRequired (analysis c) = true).
  { unfold isImmediateExitRequired. destruct Hb as [->| ->]; [|done]. by rewrite orb_true_r. }
  split.
  - unfold decidePositionGuardCore. cbv zeta. rewrite Hexit. unfold is_flat.
    by destruct (nleb (positionQuantity c) zero).
  - rewrite Ha in *. unfold analyzePositionGuardMarketStructure, analyze_timeframes in *.
    cbv zeta in *. cbn [structure_analysis weakeningStage breakdown1d invalidationState] in *.
    unfold getWeakeningStage.
    destruct Hb as [-> | ->]; [done|]. by rewrite orb_true_r.
Qed.

(** ** No look-ahead *)

(** The candles that closed by the cutoff. *)
Definition completed_candles (cutoff : num) (cs : list StrategyMarketCandle) : list StrategyMarketCandle :=
  List.filter (completed_by cutoff) cs.

Lemma decision_candles_completed s t cutoff :
  getSnapshotDecisionCutoffMs s = Some cutoff ->
  (5 <= length (completed_candles cutoff (at_timeframe (candles s) t)))%nat ->
  getDecisionCandles s t = completed_candles cutoff (at_timeframe (candles s) t).
Proof.
  intros Hc Hlen. unfold getDecisionCandles. rewrite Hc. fold (completed_candles cutoff (at_timeframe (candles s) t)).
  rewrite (proj2 (Nat.leb_le _ _)); [done|]. pose proof (Nat.le_min_r (LOOKBACK t) 5). lia.
Qed.

(** C40: no look-ahead: with at least five completed candles per timeframe the
    analysis is a function of the ticker and of the candles that closed by the
    decision cutoff; a candle still forming, whatever its prices, cannot change
    it. *)
Theorem no_lookahead s1 s2 cutoff averageEntry :
  snap_asset s1 = snap_asset s2 -> snap_market s1 = snap_market s2 -> ticker s1 = ticker s2 ->
  getSnapshotDecisionCutoffMs s1 = Some cutoff -> getSnapshotDecisionCutoffMs s2 = Some cutoff ->
  (forall t, completed_candles cutoff (at_timeframe (candles s1) t)
             = completed_candles cutoff (at_timeframe (candles s2) t) /\
             (5 <= length (completed_candles cutoff (at_timeframe (candles s1) t)))%nat) ->
  analyzePositionGuardMarketStructure s1 averageEntry
  = analyzePositionGuardMarketStructure s2 averageEntry.
Proof.
  intros Ha Hm Ht Hc1 Hc2 Hcs.
  assert (Hat : forall t, analyze_at s1 t = analyze_at s2 t).
  { intros t. destruct (Hcs t) as [Heq Hlen]. unfold analyze_at.
    rewrite (decision_candles_completed s1 t cutoff Hc1 Hlen).
    rewrite (decision_candles_completed s2 t cutoff Hc2) by (rewrite <- Heq; exact Hlen).
    by rewrite Heq, Ht. }
  unfold analyzePositionGuardMarketStructure. by rewrite Ha, Hm, Ht, !Hat.
Qed.

(** ** A concrete market *)

Definition flat_candle (close_at : string) (price : num) : StrategyMarketCandle := {|
  candle_market := Market.KRW_BTC; candle_timeframe := Timeframe.H1;
  openTime := close_at; closeTime := close_at; openPrice := price; highPrice := price;
  lowPrice := price; closePrice := price; volume := lit 1 0; quoteVolume := price |}.

Definition hourly (prices : list (string * Z)) : list StrategyMarketCandle :=
  map (fun '(h, p) => flat_candle ("2026-08-21T" ++ h ++ ":00:00Z")%string (num_of_Z p)) prices.

(** A falling market: the last close is far below the support of the window. *)
Definition falling : list StrategyMarketCandle :=
  hourly [("00", 100); ("01", 101); ("02", 99); ("03", 101); ("04", 100); ("05", 100); ("06", 90)]%string.

Definition falling_snapshot (extra : list StrategyMarketCandle) : PositionGuardMarketSnapshot := {|
  snap_asset := Asset.BTC; snap_market := Market.KRW_BTC;
  ticker := {| ticker_tradePrice := lit 90 0; tradeTimeUtc := Some "2026-08-21T06:30:00"%string;
               tradeTimeKst := None; exchangeTimestampMs := None; ticker_fetchedAt := None |};
  candles := {| h1 := falling ++ extra; h4 := falling; d1 := falling |};
  snap_fetchedAt := "2026-08-21T06:30:01Z" |}.

Definition falling_context : PositionGuardStrategyContext := {|
  asset := Asset.BTC; market := Market.KRW_BTC; generatedAt := "2026-08-21T06:30:01Z";
  availableKrw := lit 1000000 0; positionQuantity := lit 1 2; ctx_averageEntryPrice := lit 100 0;
  portfolio := portfolio sample_context; latestDecision := None;
  recentExit := recentExit sample_context; settings := settings sample_context;
  analysis := structure_analysis (analyzePositionGuardMarketStructure (falling_snapshot []) (lit 100 0)) |}.

Example falling_support : support (analyze_at (falling_snapshot []) Timeframe.D1) = num_of_Z 99.
Proof. vm_compute. reflexivity. Qed.

Lemma ema_series_last_witness :
  last (calculateEmaSeries [lit 1 0; lit 2 0; lit 3 0] 2)
  = Some (calculateEma [lit 1 0; lit 2 0; lit 3 0] 2).
Proof. apply (ema_series_last [lit 1 0; lit 2 0; lit 3 0] 2); cbn; lia. Defined.

Lemma range_high_is_maximum_witness :
  getHigh falling zero ∈ (highPrice <$> falling) /\ getHigh falling zero = num_of_Z 101.
Proof.
  split; [|vm_compute; reflexivity].
  apply (range_high_is_maximum falling zero); [discriminate|].
  repeat constructor.
Defined.

Lemma breakdown_forces_exit_witness :
  action (decidePositionGuardCore falling_context) = Action.EXIT.
Proof.
  assert (Hb : breakdown1d (analysis falling_context) = true) by (vm_compute; reflexivity).
  assert (Hf : is_flat falling_context = false) by (vm_compute; reflexivity).
  pose proof (breakdown_forces_exit (falling_snapshot []) falling_context eq_refl (or_introl Hb)) as H.
  rewrite Hf in H. destruct H as [H _]. exact H.
Defined.

Lemma no_lookahead_witness :
  analyzePositionGuardMarketStructure (falling_snapshot []) zero
  = analyzePositionGuardMarketStructure
      (falling_snapshot (hourly [("07", 500)]%string)) zero.
Proof.
  set (forming := hourly [("07", 500)]%string).
  assert (H1 : getSnapshotDecisionCutoffMs (falling_snapshot []) = Some (num_of_Z 1787293800000))
    by (vm_compute; reflexivity).
  assert (H2 : getSnapshotDecisionCutoffMs (falling_snapshot forming) = Some (num_of_Z 1787293800000))
    by (vm_compute; reflexivity).
  refine (no_lookahead (falling_snapshot []) (falling_snapshot forming) _ zero
            eq_refl eq_refl eq_refl H1 H2 _).
  intros []; split; vm_compute; first [reflexivity | lia].
Defined.
