(* ===== verification/SubmissionBlocking.v ===== *)
(** * SubmissionBlocking: which orders keep an account from submitting

    [domain/submission-blocking-order.ts] (the classification of one order by
    its persisted evidence) and
    [modules/reconciliation/submission-recovery-state-machine.ts] (the bounded
    absence evaluation that lets reconciliation declare an order absent).
    Epoch times are the integers the records hold. *)

From Stdlib Require Import ZArith Lia.
From stdpp Require Import base option list strings sorting.
From S2P Require Import Prelude Types Text ExactState.

Local Open Scope string_scope.
Local Open Scope Z_scope.
Local Open Scope js_scope.
Local Open Scope bool_scope.

(** ** Data *)

Module Recovery.
Inductive RecoveryOutcome : Set :=
| FOUND | NOT_FOUND | TRANSIENT_FAILURE.
#[export] Instance RecoveryOutcome_eq_dec : EqDecision RecoveryOutcome.
Proof. solve_decision. Defined.
End Recovery.
Export (hints) Recovery.

Module EventSource.
Inductive OrderEventSource : Set :=
| LOCAL | EXCHANGE | RECONCILIATION | TELEGRAM.
#[export] Instance OrderEventSource_eq_dec : EqDecision OrderEventSource.
Proof. solve_decision. Defined.
End EventSource.
Export (hints) EventSource.

Module BlockingReason.
Inductive SubmissionBlockingReasonCode : Set :=
| ACTIVE_SUBMISSION_LIFECYCLE | UNRESOLVED_POTENTIALLY_DISPATCHED
| DEFINITIVE_PRE_SEND_TERMINAL | EXCHANGE_REJECTION_CONFIRMED
| BOUNDED_ABSENCE_CONFIRMED | RESOLVED_TERMINAL.
#[export] Instance SubmissionBlockingReasonCode_eq_dec :
  EqDecision SubmissionBlockingReasonCode.
Proof. solve_decision. Defined.
End BlockingReason.
Export (hints) BlockingReason.

(** [OrderSubmissionRecoveryObservationRecord], [domain/pilot-types.ts] *)
Record OrderSubmissionRecoveryObservationRecord := {
  obs_id : string;
  obs_orderId : string;
  obs_outcome : Recovery.RecoveryOutcome;
  obs_observedAt : string;
  obs_observedAtEpochMs : Z;
  obs_detailJson : string;
  obs_createdAt : string;
}.

(** The fields of [OrderRecord] the classification picks. *)
Record OrderEvidence := {
  order_id : string;
  order_status : OrderLifecycleStatus;
  order_failureCode : option string;
  order_upbitUuid : option string;
  order_exchangeResponseJson : option string;
}.

(** The fields of [OrderEventRecord] it picks. *)
Record EventEvidence := {
  event_eventType : string;
  event_eventSource : EventSource.OrderEventSource;
  event_createdAt : string;
}.

(** The observations are [Pick]ed to their outcome and time. *)
Record ObservationEvidence := {
  seen_outcome : Recovery.RecoveryOutcome;
  seen_observedAtEpochMs : Z;
}.

Definition pick_observation (o : OrderSubmissionRecoveryObservationRecord) : ObservationEvidence :=
  {| seen_outcome := obs_outcome o; seen_observedAtEpochMs := obs_observedAtEpochMs o |}.

Record SubmissionBlockingOrderEvidence := {
  evidence_order : OrderEvidence;
  evidence_events : list EventEvidence;
  evidence_recoveryObservations : list ObservationEvidence;
}.

Record SubmissionBlockingClassification := {
  blocking : bool;
  reasonCode : BlockingReason.SubmissionBlockingReasonCode;
  blocking_reason : string;
}.

(** ** Tables *)

Definition SUBMISSION_BLOCKING_CANDIDATE_STATUSES : list OrderLifecycleStatus :=
  [OrderStatus.INTENT_CREATED; OrderStatus.PERSISTED; OrderStatus.SUBMITTING;
   OrderStatus.OPEN; OrderStatus.PARTIALLY_FILLED; OrderStatus.CANCEL_REQUESTED;
   OrderStatus.RECONCILIATION_REQUIRED; OrderStatus.FAILED; OrderStatus.REJECTED].

Definition ACTIVE_SUBMISSION_STATUSES : list OrderLifecycleStatus :=
  [OrderStatus.INTENT_CREATED; OrderStatus.PERSISTED; OrderStatus.SUBMITTING;
   OrderStatus.OPEN; OrderStatus.PARTIALLY_FILLED; OrderStatus.CANCEL_REQUESTED;
   OrderStatus.RECONCILIATION_REQUIRED].

Definition DISPATCH_EVIDENCE_EVENTS : list string :=
  ["ORDER_SUBMITTED"; "ORDER_FILLED"; "ORDER_CANCELED"; "ORDER_REJECTED";
   "RECONCILIATION_RECOVERY_REQUIRED"; "RECONCILIATION_STATUS_UPDATED";
   "RECONCILIATION_IDENTIFIER_RECOVERY_OBSERVED"].

Definition UNCERTAIN_FAILURE_CODES : list string :=
  ["EXCHANGE_SUBMISSION_FAILED"; "RECONCILIATION_REQUIRED"; "SUBMISSION_RESPONSE_UNCERTAIN"].

(** ** Classification *)

Definition classification (b : bool) (code : BlockingReason.SubmissionBlockingReasonCode)
    (text : string) : SubmissionBlockingClassification :=
  {| blocking := b; reasonCode := code; blocking_reason := text |}.

Definition has_outcome (o : Recovery.RecoveryOutcome) (item : ObservationEvidence) : bool :=
  seen_outcome item === o.

Definition has_event (name : string) (item : EventEvidence) : bool :=
  event_eventType item === name.

Definition has_sourced_event (name : string) (source : EventSource.OrderEventSource)
    (item : EventEvidence) : bool :=
  has_event name item && (event_eventSource item === source).

Definition foundObserved (observations : list ObservationEvidence) : bool :=
  existsb (has_outcome Recovery.FOUND) observations.

(** [(left, right) => left - right] *)
Definition compare_epochs (left right : Z) : comparison := (left ?= right).

Definition notFoundEpochs (observations : list ObservationEvidence) : list Z :=
  js_sort compare_epochs
    (seen_observedAtEpochMs <$> List.filter (has_outcome Recovery.NOT_FOUND) observations).

Definition boundedAbsenceObserved (observations : list ObservationEvidence) : bool :=
  let epochs := notFoundEpochs observations in
  (2 <=? Z.of_nat (length epochs)) &&
  match last epochs, head epochs with
  | Some latest, Some first => first <? latest
  | _, _ => false
  end.

(** A regular expression without anchors finds its literal anywhere. *)
Fixpoint contains (needle s : string) : bool :=
  String.prefix needle s ||
  match s with
  | EmptyString => false
  | String _ s' => contains needle s'
  end.

Definition uncertain_failure (code : string) : bool :=
  includes UNCERTAIN_FAILURE_CODES code ||
  (contains "UNCERTAIN" code || contains "RECONCILIATION" code).

Definition hasDispatchEvidence (evidence : SubmissionBlockingOrderEvidence) : bool :=
  let order := evidence_order evidence in
  (order_upbitUuid order !== None)
  || (order_exchangeResponseJson order !== None)
  || foundObserved (evidence_recoveryObservations evidence)
  || existsb (fun item => includes DISPATCH_EVIDENCE_EVENTS (event_eventType item))
       (evidence_events evidence)
  || match order_failureCode order with
     | Some code => uncertain_failure code
     | None => false
     end.

Definition absence_authority (evidence : SubmissionBlockingOrderEvidence) : bool :=
  let order := evidence_order evidence in
  (order_status order === OrderStatus.FAILED)
  && (order_failureCode order === Some "ORDER_SUBMISSION_ABSENCE_CONFIRMED")
  && existsb (has_sourced_event "RECONCILIATION_IDENTIFIER_ABSENCE_CONFIRMED"
                EventSource.RECONCILIATION) (evidence_events evidence)
  && boundedAbsenceObserved (evidence_recoveryObservations evidence)
  && negb (foundObserved (evidence_recoveryObservations evidence))
  && negb (existsb (has_event "ORDER_SUBMITTED") (evidence_events evidence))
  && (order_upbitUuid order === None).

Definition rejection_authority (evidence : SubmissionBlockingOrderEvidence) : bool :=
  let order := evidence_order evidence in
  (order_status order === OrderStatus.REJECTED)
  && (order_failureCode order === Some "EXCHANGE_ORDER_REJECTED")
  && existsb (has_sourced_event "ORDER_REJECTED" EventSource.EXCHANGE) (evidence_events evidence)
  && negb (foundObserved (evidence_recoveryObservations evidence))
  && negb (existsb (has_event "ORDER_SUBMITTED") (evidence_events evidence))
  && negb (existsb (has_event "RECONCILIATION_RECOVERY_REQUIRED") (evidence_events evidence))
  && (order_upbitUuid order === None).

Definition classifySubmissionBlockingOrder (evidence : SubmissionBlockingOrderEvidence)
    : SubmissionBlockingClassification :=
  let order := evidence_order evidence in
  let name := order_id order in
  let status := OrderStatus.to_string (order_status order) in
  if includes ACTIVE_SUBMISSION_STATUSES (order_status order) then
    classification true BlockingReason.ACTIVE_SUBMISSION_LIFECYCLE
      ("Order " ++ name ++ " remains in submission-blocking lifecycle " ++ status ++ ".")
  else if (order_status order !== OrderStatus.FAILED)
       && (order_status order !== OrderStatus.REJECTED) then
    classification false BlockingReason.RESOLVED_TERMINAL
      ("Order " ++ name ++ " is terminal and resolved.")
  else if absence_authority evidence then
    classification false BlockingReason.BOUNDED_ABSENCE_CONFIRMED
      ("Order " ++ name ++ " has durable bounded exchange-absence authority.")
  else if rejection_authority evidence then
    classification false BlockingReason.EXCHANGE_REJECTION_CONFIRMED
      ("Order " ++ name ++ " has a definitive persisted exchange rejection.")
  else if negb (hasDispatchEvidence evidence) then
    classification false BlockingReason.DEFINITIVE_PRE_SEND_TERMINAL
      ("Order " ++ name ++ " terminated before any persisted exchange-dispatch evidence.")
  else
    classification true BlockingReason.UNRESOLVED_POTENTIALLY_DISPATCHED
      ("Order " ++ name ++ " is " ++ status
         ++ " with unresolved persisted exchange-dispatch evidence.").

(** ** Bounded absence *)

Record BoundedAbsencePolicy := {
  minimumNotFoundObservations : Z;
  minimumElapsedMs : Z;
}.

Record BoundedAbsenceEvaluation := {
  notFoundObservationCount : Z;
  elapsedMs : Z;
  absence_confirmed : bool;
}.

(** [modules/reconciliation/reconciliation-service.ts] hands the evaluation a
    policy it has validated; without a configured one it takes the default. *)
Definition DEFAULT_IDENTIFIER_RECOVERY_POLICY : BoundedAbsencePolicy :=
  {| minimumNotFoundObservations := 2; minimumElapsedMs := 60000 |}.

Definition validateIdentifierRecoveryPolicy (policy : BoundedAbsencePolicy)
    : outcome BoundedAbsencePolicy :=
  throw_if (negb (isSafeInteger (minimumNotFoundObservations policy))
            || (minimumNotFoundObservations policy <? 2))
    "Identifier recovery requires at least two persisted not-found observations.";;
  throw_if (negb (isSafeInteger (minimumElapsedMs policy)) || (minimumElapsedMs policy <=? 0))
    "Identifier recovery requires a positive persisted elapsed-time bound.";;
  Ret policy.

Definition isPotentiallyDispatchedRecoveryStatus (status : OrderLifecycleStatus) : bool :=
  (status === OrderStatus.SUBMITTING) || (status === OrderStatus.RECONCILIATION_REQUIRED)
  || (status === OrderStatus.FAILED) || (status === OrderStatus.REJECTED).

Definition compare_observations (left right : OrderSubmissionRecoveryObservationRecord)
    : comparison :=
  match (obs_observedAtEpochMs left ?= obs_observedAtEpochMs right) with
  | Eq => compareDeterministicIdentifiers (obs_id left) (obs_id right)
  | c => c
  end.

Definition absence (observations : list OrderSubmissionRecoveryObservationRecord)
    : list OrderSubmissionRecoveryObservationRecord :=
  js_sort compare_observations
    (List.filter (fun o => obs_outcome o === Recovery.NOT_FOUND) observations).

Definition evaluateBoundedAbsence (observations : list OrderSubmissionRecoveryObservationRecord)
    (policy : BoundedAbsencePolicy) : BoundedAbsenceEvaluation :=
  let hasDurableFoundEvidence :=
    existsb (fun o => obs_outcome o === Recovery.FOUND) observations in
  let ordered := absence observations in
  let elapsed :=
    match head ordered, last ordered with
    | Some first, Some latest => obs_observedAtEpochMs latest - obs_observedAtEpochMs first
    | _, _ => 0
    end in
  {| notFoundObservationCount := Z.of_nat (length ordered);
     elapsedMs := elapsed;
     absence_confirmed :=
       negb hasDurableFoundEvidence
       && (minimumNotFoundObservations policy <=? Z.of_nat (length ordered))
       && (minimumElapsedMs policy <=? elapsed) |}.

(** ** Lemmas: the ordered observation times *)

Arguments js_sort : simpl never.
Arguments boundedAbsenceObserved : simpl never.
Arguments absence_authority : simpl never.
Arguments rejection_authority : simpl never.
Arguments hasDispatchEvidence : simpl never.
Arguments uncertain_failure : simpl never.

#[export] Instance compare_epochs_consistent : ConsistentComparator compare_epochs.
Proof.
  split.
  - intros x y. unfold compare_epochs. by rewrite Z.compare_antisym.
  - intros x y z. unfold cmp_le, compare_epochs. rewrite !Z.compare_le_iff. lia.
Qed.

#[export] Instance compare_observations_consistent :
  ConsistentComparator compare_observations.
Proof.
  split.
  - intros x y. unfold compare_observations.
    rewrite (Z.compare_antisym (obs_observedAtEpochMs x)).
    destruct (_ ?= _)%Z; [apply string_compare_antisym|done..].
  - intros x y z. unfold cmp_le, compare_observations.
    destruct (Z.compare_spec (obs_observedAtEpochMs x) (obs_observedAtEpochMs y)),
             (Z.compare_spec (obs_observedAtEpochMs y) (obs_observedAtEpochMs z)),
             (Z.compare_spec (obs_observedAtEpochMs x) (obs_observedAtEpochMs z));
      try done; try lia. apply string_compare_le_trans.
Qed.

Lemma notFoundEpochs_elem observations t :
  t ∈ notFoundEpochs observations <->
  exists o, o ∈ observations /\ seen_outcome o = Recovery.NOT_FOUND
            /\ seen_observedAtEpochMs o = t.
Proof.
  unfold notFoundEpochs. rewrite js_sort_perm, list_elem_of_fmap. split.
  - intros (o & -> & Ho). apply list_elem_of_In, filter_In in Ho as [Ho Hf].
    unfold has_outcome in Hf. destruct_bools. exists o. by rewrite list_elem_of_In.
  - intros (o & Ho & Hf & <-). exists o. split; [done|].
    apply list_elem_of_In, filter_In. rewrite <- list_elem_of_In.
    unfold has_outcome. by rewrite bool_decide_eq_true.
Qed.

(** The span of a sorted list of times is zero or positive, and positive only
    when two of its times differ. *)
Lemma boundedAbsenceObserved_spec observations :
  boundedAbsenceObserved observations = true <->
  exists t1 t2, t1 ∈ notFoundEpochs observations /\ t2 ∈ notFoundEpochs observations
                /\ t1 < t2.
Proof.
  unfold boundedAbsenceObserved.
  pose proof (js_sort_sorted compare_epochs
    (seen_observedAtEpochMs <$> List.filter (has_outcome Recovery.NOT_FOUND) observations))
    as S. fold (notFoundEpochs observations) in S.
  destruct (notFoundEpochs observations) as [|t0 k] eqn:E; simpl head.
  { simpl. split; [done|]. intros (t1 & t2 & H%not_elem_of_nil & _). done. }
  destruct (last (t0 :: k)) as [t9|] eqn:El; [|by apply last_None in El].
  cbn [head]. rewrite andb_true_iff, Z.ltb_lt, Z.leb_le. split.
  - intros [_ Hlt]. exists t0, t9. split; [left|]. split; [|done].
    by apply last_Some_elem_of.
  - intros (t1 & t2 & H1 & H2 & Hlt).
    pose proof (sorted_head _ _ _ _ S H1) as B1. pose proof (sorted_last _ _ _ _ S El H2) as B2.
    unfold cmp_le, compare_epochs in *. rewrite !Z.compare_le_iff in *.
    split; [|lia]. destruct k as [|t' k]; [|simpl; lia].
    apply elem_of_cons in H1 as [->|H1%not_elem_of_nil], H2 as [->|H2%not_elem_of_nil];
      try done. lia.
Qed.

Lemma filter_pick observations :
  seen_observedAtEpochMs <$>
    List.filter (has_outcome Recovery.NOT_FOUND) (pick_observation <$> observations)
  = obs_observedAtEpochMs <$>
    List.filter (fun o => obs_outcome o === Recovery.NOT_FOUND) observations.
Proof.
  induction observations as [|o l IH]; [done|].
  rewrite fmap_cons. cbn [List.filter]. unfold has_outcome at 1. cbn [seen_outcome pick_observation].
  destruct (obs_outcome o === Recovery.NOT_FOUND); [|exact IH].
  rewrite !fmap_cons. by f_equal.
Qed.

Lemma fmap_sorted k :
  StronglySorted (cmp_le compare_observations) k ->
  StronglySorted (cmp_le compare_epochs) (obs_observedAtEpochMs <$> k).
Proof.
  induction 1 as [|o k S IH Ho]; simpl; constructor; [done|].
  rewrite Forall_fmap. eapply Forall_impl; [exact Ho|]. intros o'.
  unfold cmp_le, compare_observations, compare_epochs. simpl.
  by destruct (_ ?= _)%Z.
Qed.

(** Reconciliation and the classifier sort the same times. *)
Lemma epochs_of_absence observations :
  notFoundEpochs (pick_observation <$> observations)
  = obs_observedAtEpochMs <$> absence observations.
Proof.
  unfold notFoundEpochs. apply (sorted_unique compare_epochs).
  - intros x y _ _. unfold compare_epochs. by apply Z.compare_eq.
  - rewrite js_sort_perm, filter_pick. apply fmap_Permutation. symmetry. apply js_sort_perm.
  - apply (js_sort_sorted compare_epochs).
  - apply fmap_sorted, (js_sort_sorted compare_observations).
Qed.

Lemma foundObserved_pick observations :
  foundObserved (pick_observation <$> observations)
  = existsb (fun o => obs_outcome o === Recovery.FOUND) observations.
Proof.
  induction observations as [|o l IH]; [done|]. unfold foundObserved in *.
  rewrite fmap_cons. cbn [existsb]. by rewrite IH.
Qed.

(** The evaluation in terms of the times the classifier looks at. *)
Lemma evaluateBoundedAbsence_elapsed observations policy :
  elapsedMs (evaluateBoundedAbsence observations policy)
  = match head (notFoundEpochs (pick_observation <$> observations)),
          last (notFoundEpochs (pick_observation <$> observations)) with
    | Some first, Some latest => latest - first
    | _, _ => 0
    end.
Proof.
  rewrite epochs_of_absence. unfold evaluateBoundedAbsence. cbn [elapsedMs].
  rewrite fmap_last. destruct (absence observations) as [|o k]; simpl head; [done|].
  by destruct (last (o :: k)).
Qed.

Lemma validated_policy_bounds policy p :
  validateIdentifierRecoveryPolicy policy = Ret p ->
  p = policy /\ 2 <= minimumNotFoundObservations policy /\ 1 <= minimumElapsedMs policy.
Proof.
  unfold validateIdentifierRecoveryPolicy. intros H. inv_outcome. destruct_bools.
  repeat split; lia.
Qed.

Lemma confirmed_bounded_absence observations policy :
  2 <= minimumNotFoundObservations policy -> 1 <= minimumElapsedMs policy ->
  absence_confirmed (evaluateBoundedAbsence observations policy) = true ->
  boundedAbsenceObserved (pick_observation <$> observations) = true
  /\ foundObserved (pick_observation <$> observations) = false.
Proof.
  intros Hn He Hc. pose proof (evaluateBoundedAbsence_elapsed observations policy) as Hel.
  unfold evaluateBoundedAbsence in Hc, Hel. cbn [absence_confirmed elapsedMs] in Hc, Hel.
  rewrite Hel in Hc. clear Hel. rewrite foundObserved_pick. destruct_bools.
  split; [|done]. unfold boundedAbsenceObserved.
  destruct (head _) as [first|], (last _) as [latest|]; try lia.
  rewrite andb_true_iff, Z.leb_le, Z.ltb_lt. split; [|lia].
  rewrite epochs_of_absence, length_fmap. lia.
Qed.

Lemma weakest_policy_agrees observations :
  absence_confirmed (evaluateBoundedAbsence observations
    {| minimumNotFoundObservations := 2; minimumElapsedMs := 1 |})
  = boundedAbsenceObserved (pick_observation <$> observations)
    && negb (foundObserved (pick_observation <$> observations)).
Proof.
  pose proof (evaluateBoundedAbsence_elapsed observations
    {| minimumNotFoundObservations := 2; minimumElapsedMs := 1 |}) as Hel.
  unfold evaluateBoundedAbsence in *. cbn [absence_confirmed elapsedMs
    minimumNotFoundObservations minimumElapsedMs] in *. rewrite Hel.
  rewrite foundObserved_pick. unfold boundedAbsenceObserved.
  rewrite <- (length_fmap obs_observedAtEpochMs (absence observations)), <- epochs_of_absence.
  set (n := negb _). set (c := (2 <=? _)).
  assert (E : forall a b, (1 <=? b - a) = (a <? b)).
  { intros a b. apply eq_true_iff_eq. rewrite Z.leb_le, Z.ltb_lt. lia. }
  clear Hel.
  destruct (head (notFoundEpochs _)), (last (notFoundEpochs _)); rewrite ?E; destruct n, c;
    by rewrite ?andb_true_r, ?andb_false_r.
Qed.

(** ** When an order stops blocking *)

Section Specification.
Variable evidence : SubmissionBlockingOrderEvidence.

Let order := evidence_order evidence.
Let events := evidence_events evidence.
Let observations := evidence_recoveryObservations evidence.

Definition never_found : Prop :=
  forall o, o ∈ observations -> seen_outcome o ≠ Recovery.FOUND.

Definition no_event (name : string) : Prop :=
  forall ev, ev ∈ events -> event_eventType ev ≠ name.

(** Looked for twice, at different times, and not found. *)
Definition twice_absent : Prop :=
  exists o1 o2, o1 ∈ observations /\ o2 ∈ observations
    /\ seen_outcome o1 = Recovery.NOT_FOUND /\ seen_outcome o2 = Recovery.NOT_FOUND
    /\ seen_observedAtEpochMs o1 < seen_observedAtEpochMs o2.

Definition recorded (name : string) (source : EventSource.OrderEventSource) : Prop :=
  exists ev, ev ∈ events /\ event_eventType ev = name /\ event_eventSource ev = source.

Definition never_dispatched : Prop :=
  order_upbitUuid order = None /\ order_exchangeResponseJson order = None /\ never_found
  /\ (forall name, name ∈ DISPATCH_EVIDENCE_EVENTS -> no_event name)
  /\ (forall code, order_failureCode order = Some code -> uncertain_failure code = false).

Inductive released : Prop :=
| released_resolved :
    order_status order ∈ [OrderStatus.RISK_REJECTED; OrderStatus.FILLED; OrderStatus.CANCELED] ->
    released
| released_absent :
    order_status order = OrderStatus.FAILED ->
    order_failureCode order = Some "ORDER_SUBMISSION_ABSENCE_CONFIRMED" ->
    order_upbitUuid order = None -> never_found -> no_event "ORDER_SUBMITTED" ->
    recorded "RECONCILIATION_IDENTIFIER_ABSENCE_CONFIRMED" EventSource.RECONCILIATION ->
    twice_absent -> released
| released_rejected :
    order_status order = OrderStatus.REJECTED ->
    order_failureCode order = Some "EXCHANGE_ORDER_REJECTED" ->
    order_upbitUuid order = None -> never_found -> no_event "ORDER_SUBMITTED" ->
    recorded "ORDER_REJECTED" EventSource.EXCHANGE ->
    no_event "RECONCILIATION_RECOVERY_REQUIRED" -> released
| released_undispatched :
    order_status order ∈ [OrderStatus.FAILED; OrderStatus.REJECTED] ->
    never_dispatched -> released.

Lemma existsb_false {A} (f : A -> bool) l :
  existsb f l = false <-> forall x, x ∈ l -> f x = false.
Proof.
  rewrite <- not_true_iff_false, existsb_exists. split.
  - intros H x Hx. apply not_true_iff_false. intros Hf. apply H. exists x.
    by rewrite <- list_elem_of_In.
  - intros H (x & Hx & Hf). rewrite <- list_elem_of_In in Hx. by rewrite H in Hf.
Qed.

Lemma foundObserved_false : foundObserved observations = false <-> never_found.
Proof.
  unfold foundObserved, never_found. rewrite existsb_false. unfold has_outcome.
  by setoid_rewrite bool_decide_eq_false.
Qed.

Lemma has_event_false name : existsb (has_event name) events = false <-> no_event name.
Proof.
  unfold no_event. rewrite existsb_false. unfold has_event.
  by setoid_rewrite bool_decide_eq_false.
Qed.

Lemma has_sourced_event_true name source :
  existsb (has_sourced_event name source) events = true <-> recorded name source.
Proof.
  unfold recorded. rewrite existsb_exists. unfold has_sourced_event, has_event.
  setoid_rewrite <- list_elem_of_In.
  by setoid_rewrite andb_true_iff; setoid_rewrite bool_decide_eq_true.
Qed.

Lemma boundedAbsenceObserved_twice :
  boundedAbsenceObserved observations = true <-> twice_absent.
Proof.
  rewrite boundedAbsenceObserved_spec. unfold twice_absent. split.
  - intros (t1 & t2 & (o1 & ? & ? & <-)%notFoundEpochs_elem
                    & (o2 & ? & ? & <-)%notFoundEpochs_elem & Hlt).
    by exists o1, o2.
  - intros (o1 & o2 & ? & ? & ? & ? & Hlt).
    exists (seen_observedAtEpochMs o1), (seen_observedAtEpochMs o2).
    rewrite !notFoundEpochs_elem. split_and!; [by exists o1|by exists o2|done].
Qed.

Lemma hasDispatchEvidence_false : hasDispatchEvidence evidence = false <-> never_dispatched.
Proof.
  unfold hasDispatchEvidence, never_dispatched. fold order events observations.
  rewrite !orb_false_iff, !negb_false_iff, !bool_decide_eq_true, foundObserved_false,
    existsb_false.
  assert (Hev : (forall x, x ∈ events -> includes DISPATCH_EVIDENCE_EVENTS (event_eventType x) = false)
     <-> (forall name, name ∈ DISPATCH_EVIDENCE_EVENTS -> no_event name)).
  { unfold no_event. setoid_rewrite <- not_true_iff_false. setoid_rewrite includes_true.
    split; [intros H name Hn ev Hev <-|intros H ev Hev Hn]; [by apply (H ev)|by apply (H _ Hn ev)]. }
  rewrite Hev. destruct (order_failureCode order) as [code|].
  - split; [|intuition].
    intros [[[[? ?] ?] ?] Hc]. split_and!; try done. by intros ? [= <-].
  - split; [|intuition]. by intros [[[[? ?] ?] ?] _].
Qed.

Lemma absence_authority_true :
  absence_authority evidence = true <->
  order_status order = OrderStatus.FAILED
  /\ order_failureCode order = Some "ORDER_SUBMISSION_ABSENCE_CONFIRMED"
  /\ order_upbitUuid order = None /\ never_found /\ no_event "ORDER_SUBMITTED"
  /\ recorded "RECONCILIATION_IDENTIFIER_ABSENCE_CONFIRMED" EventSource.RECONCILIATION
  /\ twice_absent.
Proof.
  unfold absence_authority. fold order events observations.
  rewrite !andb_true_iff, !negb_true_iff, !bool_decide_eq_true, has_sourced_event_true,
    boundedAbsenceObserved_twice, foundObserved_false, has_event_false. tauto.
Qed.

Lemma rejection_authority_true :
  rejection_authority evidence = true <->
  order_status order = OrderStatus.REJECTED
  /\ order_failureCode order = Some "EXCHANGE_ORDER_REJECTED"
  /\ order_upbitUuid order = None /\ never_found /\ no_event "ORDER_SUBMITTED"
  /\ recorded "ORDER_REJECTED" EventSource.EXCHANGE
  /\ no_event "RECONCILIATION_RECOVERY_REQUIRED".
Proof.
  unfold rejection_authority. fold order events observations.
  rewrite !andb_true_iff, !negb_true_iff, !bool_decide_eq_true, has_sourced_event_true,
    foundObserved_false, !has_event_false. tauto.
Qed.

Lemma released_inactive :
  released -> includes ACTIVE_SUBMISSION_STATUSES (order_status order) = false.
Proof.
  intros [Hs|Hs|Hs|Hs _]; rewrite <- ?includes_true in Hs; revert Hs;
    by destruct (order_status order).
Qed.

(** Beyond the active and the resolved statuses there are two. *)
Lemma status_failed_or_rejected :
  ((order_status order !== OrderStatus.FAILED)
   && (order_status order !== OrderStatus.REJECTED)) = false ->
  order_status order ∈ [OrderStatus.FAILED; OrderStatus.REJECTED]
  /\ ~ order_status order ∈ [OrderStatus.RISK_REJECTED; OrderStatus.FILLED; OrderStatus.CANCELED].
Proof.
  rewrite <- !includes_true. by destruct (order_status order).
Qed.

Lemma status_resolved :
  includes ACTIVE_SUBMISSION_STATUSES (order_status order) = false ->
  ((order_status order !== OrderStatus.FAILED)
   && (order_status order !== OrderStatus.REJECTED)) = true ->
  order_status order ∈ [OrderStatus.RISK_REJECTED; OrderStatus.FILLED; OrderStatus.CANCELED].
Proof. rewrite <- !includes_true. by destruct (order_status order). Qed.

Lemma released_spec :
  blocking (classifySubmissionBlockingOrder evidence) = false <-> released.
Proof.
  unfold classifySubmissionBlockingOrder. fold order.
  destruct (includes ACTIVE_SUBMISSION_STATUSES (order_status order)) eqn:Ha.
  { split; [done|]. intros H%released_inactive. congruence. }
  destruct (_ && _) eqn:Hst.
  { split; [|done]. intros _. by apply released_resolved, status_resolved. }
  apply status_failed_or_rejected in Hst as [Hst Hnot].
  destruct (absence_authority evidence) eqn:Eabs.
  { apply absence_authority_true in Eabs. split; [|done]. intros _. apply released_absent; tauto. }
  destruct (rejection_authority evidence) eqn:Erej.
  { apply rejection_authority_true in Erej. split; [|done]. intros _. apply released_rejected; tauto. }
  apply not_true_iff_false in Eabs, Erej.
  rewrite absence_authority_true in Eabs. rewrite rejection_authority_true in Erej.
  destruct (hasDispatchEvidence evidence) eqn:Ed; cbn [negb]; cbv iota.
  - split; [done|]. intros [Hs| | |_ Hd]; [done|tauto|tauto|].
    apply hasDispatchEvidence_false in Hd. congruence.
  - split; [|done]. intros _. apply released_undispatched; [done|].
    by apply hasDispatchEvidence_false.
Qed.

End Specification.

(** ** Theorems *)

(** C17: an order stops blocking its account's submissions exactly when its
    lifecycle is resolved, when its absence was observed twice at different
    times and recorded by reconciliation, when the exchange's rejection was
    recorded, or when nothing persisted points at a dispatch; a FOUND
    observation or an [ORDER_SUBMITTED] event rules all but the first out. *)
Theorem blocking_released_exactly evidence :
  blocking (classifySubmissionBlockingOrder evidence) = false <-> released evidence.
Proof. exact (released_spec evidence). Qed.

(** The classification reads the events and observations as sets. *)
Lemma blocking_order_independent order ev1 ev2 ob1 ob2 :
  ev1 ≡ₚ ev2 -> ob1 ≡ₚ ob2 ->
  blocking (classifySubmissionBlockingOrder (Build_SubmissionBlockingOrderEvidence order ev1 ob1))
  = blocking (classifySubmissionBlockingOrder (Build_SubmissionBlockingOrderEvidence order ev2 ob2)).
Proof.
  assert (H : forall ev1 ev2 ob1 ob2, ev1 ≡ₚ ev2 -> ob1 ≡ₚ ob2 ->
    released (Build_SubmissionBlockingOrderEvidence order ev1 ob1) ->
    released (Build_SubmissionBlockingOrderEvidence order ev2 ob2)).
  { clear. intros ev1 ev2 ob1 ob2 He Ho.
    intros [?|? ? ? Hn Hs Hr Ht|? ? ? Hn Hs Hr Ht|? Hd];
      [by apply released_resolved|apply released_absent|apply released_rejected
      |apply released_undispatched]; try done;
      unfold never_dispatched, never_found, no_event, recorded, twice_absent in *; cbn in *;
      try setoid_rewrite <- He; try setoid_rewrite <- Ho; done. }
  intros He Ho. apply eq_true_iff_eq. rewrite <- !not_false_iff_true, !released_spec.
  split; intros Hn Hr; apply Hn; by eapply H; [symmetry..|].
Qed.

(** A confirmed absence, finalised on its evidence, is an authority. *)
Lemma confirmed_absence_authority evidence observations policy p :
  validateIdentifierRecoveryPolicy policy = Ret p ->
  absence_confirmed (evaluateBoundedAbsence observations p) = true ->
  order_status (evidence_order evidence) = OrderStatus.FAILED ->
  order_failureCode (evidence_order evidence) = Some "ORDER_SUBMISSION_ABSENCE_CONFIRMED" ->
  order_upbitUuid (evidence_order evidence) = None ->
  evidence_recoveryObservations evidence = pick_observation <$> observations ->
  no_event evidence "ORDER_SUBMITTED" ->
  recorded evidence "RECONCILIATION_IDENTIFIER_ABSENCE_CONFIRMED" EventSource.RECONCILIATION ->
  classifySubmissionBlockingOrder evidence
  = classification false BlockingReason.BOUNDED_ABSENCE_CONFIRMED
      ("Order " ++ order_id (evidence_order evidence)
       ++ " has durable bounded exchange-absence authority.").
Proof.
  intros (-> & Hn & He)%validated_policy_bounds Hc Hst Hcode Huuid Hobs Hsub Hrec.
  apply (confirmed_bounded_absence _ _ Hn He) in Hc as [Hb Hf].
  assert (Habs : absence_authority evidence = true).
  { apply absence_authority_true. rewrite <- Hobs in Hb, Hf.
    apply boundedAbsenceObserved_twice in Hb. apply foundObserved_false in Hf. tauto. }
  unfold classifySubmissionBlockingOrder. by rewrite Habs, Hst.
Qed.

(** When reconciliation, under any policy it accepts, confirms that an
    order is absent from the exchange and finalises it as failed, the
    classifier lets the account submit again on that evidence, provided the
    order carries no exchange uuid and no [ORDER_SUBMITTED] event; an order
    that has one of them keeps blocking. *)
Theorem confirmed_absence_releases evidence observations policy p :
  validateIdentifierRecoveryPolicy policy = Ret p ->
  absence_confirmed (evaluateBoundedAbsence observations p) = true ->
  order_status (evidence_order evidence) = OrderStatus.FAILED ->
  order_failureCode (evidence_order evidence) = Some "ORDER_SUBMISSION_ABSENCE_CONFIRMED" ->
  order_upbitUuid (evidence_order evidence) = None ->
  evidence_recoveryObservations evidence = pick_observation <$> observations ->
  no_event evidence "ORDER_SUBMITTED" ->
  recorded evidence "RECONCILIATION_IDENTIFIER_ABSENCE_CONFIRMED" EventSource.RECONCILIATION ->
  blocking (classifySubmissionBlockingOrder evidence) = false
  /\ reasonCode (classifySubmissionBlockingOrder evidence)
     = BlockingReason.BOUNDED_ABSENCE_CONFIRMED.
Proof. intros. by erewrite confirmed_absence_authority. Qed.

Definition absent_order : OrderEvidence :=
  {| order_id := "order-1"; order_status := OrderStatus.FAILED;
     order_failureCode := Some "ORDER_SUBMISSION_ABSENCE_CONFIRMED";
     order_upbitUuid := None; order_exchangeResponseJson := None |}.

Definition absent_observation (id : string) (t : Z) : OrderSubmissionRecoveryObservationRecord :=
  {| obs_id := id; obs_orderId := "order-1"; obs_outcome := Recovery.NOT_FOUND;
     obs_observedAt := ""; obs_observedAtEpochMs := t; obs_detailJson := "{}";
     obs_createdAt := "" |}.

Definition absent_observations : list OrderSubmissionRecoveryObservationRecord :=
  [absent_observation "b" 160000; absent_observation "a" 100000].

Definition absent_evidence : SubmissionBlockingOrderEvidence :=
  {| evidence_order := absent_order;
     evidence_events :=
       [{| event_eventType := "ORDER_PERSISTED"; event_eventSource := EventSource.LOCAL;
           event_createdAt := "" |};
        {| event_eventType := "RECONCILIATION_RECOVERY_REQUIRED";
           event_eventSource := EventSource.RECONCILIATION; event_createdAt := "" |};
        {| event_eventType := "RECONCILIATION_IDENTIFIER_ABSENCE_CONFIRMED";
           event_eventSource := EventSource.RECONCILIATION; event_createdAt := "" |}];
     evidence_recoveryObservations := pick_observation <$> absent_observations |}.

Lemma confirmed_absence_releases_witness :
  blocking (classifySubmissionBlockingOrder absent_evidence) = false
  /\ reasonCode (classifySubmissionBlockingOrder absent_evidence)
     = BlockingReason.BOUNDED_ABSENCE_CONFIRMED.
Proof.
  apply (confirmed_absence_releases absent_evidence absent_observations
           DEFAULT_IDENTIFIER_RECOVERY_POLICY DEFAULT_IDENTIFIER_RECOVERY_POLICY);
    [reflexivity..| |].
  - intros ev Hev. cbn in Hev. by repeat (apply elem_of_cons in Hev as [->|Hev]; [done|]);
      apply not_elem_of_nil in Hev.
  - eexists. split; [right; right; left|done].
Defined.

(** A recorded submission, a FOUND lookup or a lone absence keep it blocked. *)
Example absent_once_blocks :
  blocking (classifySubmissionBlockingOrder
    {| evidence_order := absent_order; evidence_events := evidence_events absent_evidence;
       evidence_recoveryObservations := [pick_observation (absent_observation "a" 5);
                                         pick_observation (absent_observation "b" 5)] |}) = true.
Proof. reflexivity. Qed.

Example found_blocks :
  blocking (classifySubmissionBlockingOrder
    {| evidence_order := absent_order; evidence_events := evidence_events absent_evidence;
       evidence_recoveryObservations :=
         {| seen_outcome := Recovery.FOUND; seen_observedAtEpochMs := 1 |}
         :: evidence_recoveryObservations absent_evidence |}) = true.
Proof. reflexivity. Qed.
