(* ===== verification/Lease.v ===== *)
(** * Lease: one submitter per exchange account

    [modules/db/repositories/in-memory-account-execution-lease-store.ts] with
    [validateLeaseWindow] of [modules/db/pilot-interfaces.ts] and the lease
    record of [domain/pilot-types.ts].  The store is a map from the account to
    its lease; the order evidence the store asks its constructor's callback
    for is an argument, because it can be different at every call. *)

From Stdlib Require Import ZArith Lia.
From stdpp Require Import base option list strings gmap relations.
From S2P Require Import Prelude Types Text SubmissionBlocking.

Local Open Scope string_scope.
Local Open Scope Z_scope.
Local Open Scope js_scope.
Local Open Scope bool_scope.

(** ** Data *)

Module Purpose.
Inductive LeasePurpose : Set :=
| ORDER_SUBMISSION.
End Purpose.

Record AccountExecutionLeaseRecord := {
  lease_exchangeAccountId : string;
  lease_ownerToken : string;
  lease_purpose : Purpose.LeasePurpose;
  lease_acquiredAtEpochMs : Z;
  lease_expiresAtEpochMs : Z;
}.

Record AcquireAccountExecutionLeaseInput := {
  acquire_exchangeAccountId : string;
  acquire_ownerToken : string;
  acquire_purpose : Purpose.LeasePurpose;
  acquire_acquiredAtEpochMs : Z;
  acquire_expiresAtEpochMs : Z;
}.

Record RenewAccountExecutionLeaseInput := {
  renew_exchangeAccountId : string;
  renew_ownerToken : string;
  renew_renewedAtEpochMs : Z;
  renew_expiresAtEpochMs : Z;
}.

(** [private readonly leases = new Map] *)
Abbreviation leases := (gmap string AccountExecutionLeaseRecord).

(** ** Operations *)

Definition validateLeaseWindow (ownerToken : string) (atEpochMs expiresAtEpochMs : Z)
    : outcome unit :=
  requireNonEmpty ownerToken "ownerToken";;
  throw_if (negb (isSafeInteger atEpochMs) || (atEpochMs <? 0))
    "Account execution lease time must be a non-negative safe integer.";;
  throw_if (negb (isSafeInteger expiresAtEpochMs) || (expiresAtEpochMs <=? atEpochMs))
    "Account execution lease expiry must be a safe integer after its operation time.".

Definition getLease (exchangeAccountId : string)
    : action leases (option AccountExecutionLeaseRecord) :=
  act_gets (fun s => s !! exchangeAccountId).

Definition granted (input : AcquireAccountExecutionLeaseInput) : AccountExecutionLeaseRecord :=
  {| lease_exchangeAccountId := acquire_exchangeAccountId input;
     lease_ownerToken := acquire_ownerToken input;
     lease_purpose := acquire_purpose input;
     lease_acquiredAtEpochMs := acquire_acquiredAtEpochMs input;
     lease_expiresAtEpochMs := acquire_expiresAtEpochMs input |}.

Definition acquireLease (listOrderEvidence : string -> list SubmissionBlockingOrderEvidence)
    (input : AcquireAccountExecutionLeaseInput)
    : action leases (option AccountExecutionLeaseRecord) :=
  act_lift (validateLeaseWindow (acquire_ownerToken input)
              (acquire_acquiredAtEpochMs input) (acquire_expiresAtEpochMs input));;
  current ← act_gets (fun s => s !! acquire_exchangeAccountId input);
  if existsb (fun evidence => blocking (classifySubmissionBlockingOrder evidence))
       (listOrderEvidence (acquire_exchangeAccountId input))
  then act_ret None
  else if match current with
          | Some lease => acquire_acquiredAtEpochMs input <? lease_expiresAtEpochMs lease
          | None => false
          end
  then act_ret None
  else act_modify (<[ acquire_exchangeAccountId input := granted input ]>);;
       act_ret (Some (granted input)).

Definition with_expiry (lease : AccountExecutionLeaseRecord) (expiresAtEpochMs : Z)
    : AccountExecutionLeaseRecord :=
  {| lease_exchangeAccountId := lease_exchangeAccountId lease;
     lease_ownerToken := lease_ownerToken lease;
     lease_purpose := lease_purpose lease;
     lease_acquiredAtEpochMs := lease_acquiredAtEpochMs lease;
     lease_expiresAtEpochMs := expiresAtEpochMs |}.

Definition renewLease (input : RenewAccountExecutionLeaseInput)
    : action leases (option AccountExecutionLeaseRecord) :=
  act_lift (validateLeaseWindow (renew_ownerToken input)
              (renew_renewedAtEpochMs input) (renew_expiresAtEpochMs input));;
  current ← act_gets (fun s => s !! renew_exchangeAccountId input);
  match current with
  | None => act_ret None
  | Some lease =>
      if (lease_ownerToken lease !== renew_ownerToken input)
         || (lease_expiresAtEpochMs lease <=? renew_renewedAtEpochMs input)
         || (renew_expiresAtEpochMs input <=? lease_expiresAtEpochMs lease)
      then act_ret None
      else
        let renewed := with_expiry lease (renew_expiresAtEpochMs input) in
        act_modify (<[ renew_exchangeAccountId input := renewed ]>);;
        act_ret (Some renewed)
  end.

Definition releaseLease (exchangeAccountId ownerToken : string) : action leases bool :=
  current ← act_gets (fun s => s !! exchangeAccountId);
  match current with
  | None => act_ret false
  | Some lease =>
      if lease_ownerToken lease !== ownerToken then act_ret false
      else act_modify (delete exchangeAccountId);; act_ret true
  end.

(** ** Interleavings

    A store is used by any number of callers; what happens to it is a
    sequence of calls.  A call that throws still leaves its fields. *)

Inductive call : Type :=
| Acquire (evidence : string -> list SubmissionBlockingOrderEvidence)
    (input : AcquireAccountExecutionLeaseInput)
| Renew (input : RenewAccountExecutionLeaseInput)
| Release (exchangeAccountId ownerToken : string).

Definition perform (c : call) (s : leases) : leases :=
  match c with
  | Acquire evidence input => fst (acquireLease evidence input s)
  | Renew input => fst (renewLease input s)
  | Release account token => fst (releaseLease account token s)
  end.

Definition performs (cs : list call) (s : leases) : leases :=
  foldl (fun s c => perform c s) s cs.

Inductive lease_step : leases -> leases -> Prop :=
| lease_call c s : lease_step s (perform c s).

Definition reachable (s : leases) : Prop := rtc lease_step ∅ s.

(** ** Lemmas *)

Lemma acquireLease_eq evidence input s :
  acquireLease evidence input s =
  match validateLeaseWindow (acquire_ownerToken input)
          (acquire_acquiredAtEpochMs input) (acquire_expiresAtEpochMs input) with
  | Throw e => (s, Throw e)
  | Ret _ =>
      if existsb (fun evidence => blocking (classifySubmissionBlockingOrder evidence))
           (evidence (acquire_exchangeAccountId input))
         || match s !! acquire_exchangeAccountId input with
            | Some lease => acquire_acquiredAtEpochMs input <? lease_expiresAtEpochMs lease
            | None => false
            end
      then (s, Ret None)
      else (<[ acquire_exchangeAccountId input := granted input ]> s, Ret (Some (granted input)))
  end.
Proof.
  unfold acquireLease. rewrite act_lift_bind. destruct (validateLeaseWindow _ _ _); [|done].
  rewrite act_gets_bind. destruct (existsb _ _); [done|]. cbn [orb].
  by destruct (match s !! _ with Some _ => _ | None => _ end).
Qed.

Lemma renewLease_eq input s :
  renewLease input s =
  match validateLeaseWindow (renew_ownerToken input)
          (renew_renewedAtEpochMs input) (renew_expiresAtEpochMs input) with
  | Throw e => (s, Throw e)
  | Ret _ =>
      match s !! renew_exchangeAccountId input with
      | None => (s, Ret None)
      | Some lease =>
          if (lease_ownerToken lease !== renew_ownerToken input)
             || (lease_expiresAtEpochMs lease <=? renew_renewedAtEpochMs input)
             || (renew_expiresAtEpochMs input <=? lease_expiresAtEpochMs lease)
          then (s, Ret None)
          else let renewed := with_expiry lease (renew_expiresAtEpochMs input) in
               (<[ renew_exchangeAccountId input := renewed ]> s, Ret (Some renewed))
      end
  end.
Proof.
  unfold renewLease. rewrite act_lift_bind. destruct (validateLeaseWindow _ _ _); [|done].
  rewrite act_gets_bind. destruct (s !! _); [|done]. by destruct (_ || _).
Qed.

Lemma releaseLease_eq account token s :
  releaseLease account token s =
  match s !! account with
  | None => (s, Ret false)
  | Some lease => if lease_ownerToken lease !== token then (s, Ret false)
                  else (delete account s, Ret true)
  end.
Proof.
  unfold releaseLease. rewrite act_gets_bind. destruct (s !! account); [|done].
  by destruct (_ !== _).
Qed.

(** What a lease in the store looks like. *)
Record lease_wf (account : string) (lease : AccountExecutionLeaseRecord) : Prop := {
  wf_account : lease_exchangeAccountId lease = account;
  wf_token : is_blank (lease_ownerToken lease) = false;
  wf_acquired : 0 <= lease_acquiredAtEpochMs lease;
  wf_window : lease_acquiredAtEpochMs lease < lease_expiresAtEpochMs lease;
  wf_safe : lease_expiresAtEpochMs lease <= MAX_SAFE_INTEGER;
}.

Definition store_wf (s : leases) : Prop := map_Forall lease_wf s.

Lemma validateLeaseWindow_Ret token t e u :
  validateLeaseWindow token t e = Ret u ->
  is_blank token = false /\ 0 <= t < e /\ e <= MAX_SAFE_INTEGER.
Proof.
  unfold validateLeaseWindow, requireNonEmpty, isSafeInteger. intros H.
  inv_outcome. destruct_bools. split_and!; [done|lia..].
Qed.

Lemma perform_wf c s : store_wf s -> store_wf (perform c s).
Proof.
  intros Hs. destruct c as [evidence input|input|account token]; cbn [perform].
  - rewrite acquireLease_eq. destruct (validateLeaseWindow _ _ _) eqn:Hv; [|done].
    apply validateLeaseWindow_Ret in Hv as (? & ? & ?).
    destruct (_ || _); [done|]. apply map_Forall_insert_2; [|done]. split; cbn; (done || lia).
  - rewrite renewLease_eq. destruct (validateLeaseWindow _ _ _) eqn:Hv; [|done].
    apply validateLeaseWindow_Ret in Hv as (? & ? & ?).
    destruct (s !! _) as [lease|] eqn:El; [|done]. apply Hs in El. destruct El.
    destruct (_ || _) eqn:Eg; [done|]. destruct_bools.
    apply map_Forall_insert_2; [|done]. split; cbn; (done || lia).
  - rewrite releaseLease_eq. destruct (s !! _); [|done]. destruct (_ !== _); [done|].
    by apply map_Forall_delete.
Qed.

Lemma reachable_wf s : reachable s -> store_wf s.
Proof.
  unfold reachable. intros H. remember (∅ : leases) as s0 eqn:E0.
  assert (H0 : store_wf s0) by (subst; apply map_Forall_empty). clear E0.
  induction H as [s|s s1 s2 Hstep _ IH]; [done|]. apply IH.
  destruct Hstep. by apply perform_wf.
Qed.

(** A call made for someone who is not the holder, before the lease expires. *)
Definition foreign (account token : string) (expiry : Z) (c : call) : Prop :=
  match c with
  | Acquire _ input =>
      acquire_exchangeAccountId input = account -> acquire_acquiredAtEpochMs input < expiry
  | Renew input => renew_exchangeAccountId input = account -> renew_ownerToken input ≠ token
  | Release account' token' => account' = account -> token' ≠ token
  end.

Lemma perform_foreign account lease c s :
  s !! account = Some lease ->
  foreign account (lease_ownerToken lease) (lease_expiresAtEpochMs lease) c ->
  perform c s !! account = Some lease.
Proof.
  intros Hs Hc. destruct c as [evidence input|input|account' token]; cbn [perform foreign] in *.
  - rewrite acquireLease_eq. destruct (validateLeaseWindow _ _ _); [|done].
    destruct (decide (acquire_exchangeAccountId input = account)) as [E|E].
    + rewrite E, Hs. specialize (Hc E). apply Z.ltb_lt in Hc. by rewrite Hc, orb_true_r.
    + destruct (_ || _); [done|]. cbn. by rewrite lookup_insert_ne.
  - rewrite renewLease_eq. destruct (validateLeaseWindow _ _ _); [|done].
    destruct (decide (renew_exchangeAccountId input = account)) as [E|E].
    + rewrite E, Hs. rewrite (bool_decide_eq_false_2 _ (not_eq_sym (Hc E))). done.
    + destruct (s !! renew_exchangeAccountId input); [|done]. destruct (_ || _); [done|].
      cbn. by rewrite lookup_insert_ne.
  - rewrite releaseLease_eq. destruct (decide (account' = account)) as [->|E].
    + rewrite Hs. rewrite (bool_decide_eq_false_2 _ (not_eq_sym (Hc eq_refl))). done.
    + destruct (s !! account'); [|done]. destruct (_ !== _); [done|].
      cbn. by rewrite lookup_delete_ne.
Qed.

Lemma performs_foreign account lease cs s :
  s !! account = Some lease ->
  Forall (foreign account (lease_ownerToken lease) (lease_expiresAtEpochMs lease)) cs ->
  performs cs s !! account = Some lease.
Proof.
  intros Hs Hcs. revert s Hs. induction Hcs as [|c cs Hc _ IH]; intros s Hs; [done|].
  apply IH. by apply perform_foreign.
Qed.

Lemma validateLeaseWindow_spec token t e :
  validateLeaseWindow token t e = Ret tt <->
  is_blank token = false /\ 0 <= t < e /\ e <= MAX_SAFE_INTEGER.
Proof.
  split; [apply validateLeaseWindow_Ret|]. intros (Hb & Ht & He).
  unfold validateLeaseWindow, requireNonEmpty, isSafeInteger. rewrite Hb. cbn [throw_if mbind outcome_bind].
  assert (E : forall x, 0 <= x <= MAX_SAFE_INTEGER ->
            (- MAX_SAFE_INTEGER <=? x) && (x <=? MAX_SAFE_INTEGER) = true).
  { intros x Hx. apply andb_true_iff. rewrite !Z.leb_le.
    assert (0 <= MAX_SAFE_INTEGER) by done. lia. }
  rewrite !E by lia. rewrite (proj2 (Z.ltb_ge t 0)), (proj2 (Z.leb_gt e t)) by lia. done.
Qed.

Lemma acquire_returns evidence input s l :
  snd (acquireLease evidence input s) = Ret (Some l) ->
  acquireLease evidence input s
  = (<[ acquire_exchangeAccountId input := granted input ]> s, Ret (Some (granted input)))
  /\ l = granted input.
Proof.
  rewrite acquireLease_eq. destruct (validateLeaseWindow _ _ _); [|done].
  destruct (_ || _); [done|]. by intros [= <-].
Qed.

Lemma acquire_grants evidence input s l :
  snd (acquireLease evidence input s) = Ret (Some l) <->
  is_blank (acquire_ownerToken input) = false
  /\ 0 <= acquire_acquiredAtEpochMs input < acquire_expiresAtEpochMs input
  /\ acquire_expiresAtEpochMs input <= MAX_SAFE_INTEGER
  /\ (forall e, e ∈ evidence (acquire_exchangeAccountId input) -> released e)
  /\ (forall lease, s !! acquire_exchangeAccountId input = Some lease ->
        lease_expiresAtEpochMs lease <= acquire_acquiredAtEpochMs input)
  /\ l = granted input.
Proof.
  rewrite acquireLease_eq. pose proof (validateLeaseWindow_spec (acquire_ownerToken input)
    (acquire_acquiredAtEpochMs input) (acquire_expiresAtEpochMs input)) as Hv.
  destruct (validateLeaseWindow _ _ _) as [[]|].
  2:{ split; [done|]. intros (H1 & H2 & H3 & _). by assert (Throw message = Ret tt) by tauto. }
  destruct Hv as [Hv _]. specialize (Hv eq_refl) as (H1 & H2 & H3).
  assert (Hblock : existsb (fun e => blocking (classifySubmissionBlockingOrder e))
      (evidence (acquire_exchangeAccountId input)) = false
    <-> forall e, e ∈ evidence (acquire_exchangeAccountId input) -> released e).
  { rewrite existsb_false. by setoid_rewrite released_spec. }
  assert (Hlive : match s !! acquire_exchangeAccountId input with
      | Some lease => acquire_acquiredAtEpochMs input <? lease_expiresAtEpochMs lease
      | None => false end = false
    <-> forall lease, s !! acquire_exchangeAccountId input = Some lease ->
        lease_expiresAtEpochMs lease <= acquire_acquiredAtEpochMs input).
  { destruct (s !! _) as [lease|]; [|done]. rewrite Z.ltb_ge. split; [by intros ? ? [= <-]|eauto]. }
  rewrite <- Hblock, <- Hlive.
  destruct (existsb _ _), (match s !! _ with Some _ => _ | None => _ end); cbn; naive_solver.
Qed.

(** ** Theorems *)

(** An acquisition is granted exactly when its token and window are
    valid, no order of the account blocks submissions, and no lease of the
    account outlives the acquisition time; the lease granted is the one asked
    for. *)
Theorem acquire_grants_exactly evidence input s l :
  snd (acquireLease evidence input s) = Ret (Some l) <->
  is_blank (acquire_ownerToken input) = false
  /\ 0 <= acquire_acquiredAtEpochMs input < acquire_expiresAtEpochMs input
  /\ acquire_expiresAtEpochMs input <= MAX_SAFE_INTEGER
  /\ (forall e, e ∈ evidence (acquire_exchangeAccountId input) -> released e)
  /\ (forall lease, s !! acquire_exchangeAccountId input = Some lease ->
        lease_expiresAtEpochMs lease <= acquire_acquiredAtEpochMs input)
  /\ l = granted input.
Proof. exact (acquire_grants evidence input s l). Qed.

(** C11: mutual exclusion.  Between the grant of a lease and its expiry, no
    interleaving of other callers' acquisitions, renewals and releases moves
    it: it stays in the store, none of their acquisitions is granted, and its
    owner can still renew or release it. *)
Theorem lease_exclusive evidence input s s' lease cs :
  acquireLease evidence input s = (s', Ret (Some lease)) ->
  Forall (foreign (acquire_exchangeAccountId input) (lease_ownerToken lease)
            (lease_expiresAtEpochMs lease)) cs ->
  snd (getLease (acquire_exchangeAccountId input) (performs cs s')) = Ret (Some lease)
  /\ (forall evidence' input' l,
        acquire_exchangeAccountId input' = acquire_exchangeAccountId input ->
        acquire_acquiredAtEpochMs input' < lease_expiresAtEpochMs lease ->
        snd (acquireLease evidence' input' (performs cs s')) ≠ Ret (Some l))
  /\ (forall t e,
        0 <= t < lease_expiresAtEpochMs lease ->
        lease_expiresAtEpochMs lease < e <= MAX_SAFE_INTEGER ->
        snd (renewLease (Build_RenewAccountExecutionLeaseInput
               (acquire_exchangeAccountId input) (lease_ownerToken lease) t e)
             (performs cs s')) = Ret (Some (with_expiry lease e)))
  /\ snd (releaseLease (acquire_exchangeAccountId input) (lease_ownerToken lease)
            (performs cs s')) = Ret true.
Proof.
  intros Ha Hcs. pose proof (f_equal snd Ha) as Hg. cbn in Hg.
  pose proof (proj1 (acquire_grants _ _ _ _) Hg) as Hspec.
  destruct (acquire_returns _ _ _ _ Hg) as [Ha' ->]. rewrite Ha in Ha'. injection Ha' as ->.
  assert (Hin : performs cs (<[acquire_exchangeAccountId input := granted input]> s)
                  !! acquire_exchangeAccountId input = Some (granted input)).
  { apply performs_foreign; [apply lookup_insert_eq|done]. }
  split_and!.
  - unfold getLease, act_gets. cbn. by rewrite Hin.
  - intros evidence' input' l Hacc Ht Hl. apply acquire_grants in Hl as (_ & _ & _ & _ & Hl & _).
    rewrite Hacc in Hl. specialize (Hl _ Hin). lia.
  - intros t e Ht He. rewrite renewLease_eq. cbn [renew_ownerToken renew_renewedAtEpochMs
      renew_expiresAtEpochMs renew_exchangeAccountId].
    rewrite (proj2 (validateLeaseWindow_spec _ t e)) by (cbn in *; intuition lia).
    rewrite Hin, (bool_decide_eq_true_2 _ eq_refl).
    rewrite (proj2 (Z.leb_gt _ t)), (proj2 (Z.leb_gt e _)) by lia. done.
  - rewrite releaseLease_eq, Hin, (bool_decide_eq_true_2 _ eq_refl). done.
Qed.

Definition sample_input : AcquireAccountExecutionLeaseInput :=
  {| acquire_exchangeAccountId := "account"; acquire_ownerToken := "worker-a";
     acquire_purpose := Purpose.ORDER_SUBMISSION;
     acquire_acquiredAtEpochMs := 1000; acquire_expiresAtEpochMs := 31000 |}.

Definition rival_calls : list call :=
  [Acquire (fun _ => []) {| acquire_exchangeAccountId := "account";
     acquire_ownerToken := "worker-b"; acquire_purpose := Purpose.ORDER_SUBMISSION;
     acquire_acquiredAtEpochMs := 30999; acquire_expiresAtEpochMs := 61000 |};
   Release "account" "worker-b";
   Renew {| renew_exchangeAccountId := "account"; renew_ownerToken := "worker-b";
            renew_renewedAtEpochMs := 2000; renew_expiresAtEpochMs := 90000 |};
   Release "other" "worker-a"].

Lemma lease_exclusive_witness :
  snd (getLease "account" (performs rival_calls (<["account" := granted sample_input]> ∅)))
  = Ret (Some (granted sample_input)).
Proof.
  refine (proj1 (lease_exclusive (fun _ => []) sample_input ∅
                   (<["account" := granted sample_input]> ∅) (granted sample_input)
                   rival_calls _ _)).
  - vm_compute. reflexivity.
  - repeat constructor; cbn; (done || lia).
Defined.

(** Without the foreign calls' restriction the lease can move: its owner may
    release it, and anyone may acquire it once it has expired. *)
Example expired_is_taken :
  snd (acquireLease (fun _ => []) {| acquire_exchangeAccountId := "account";
         acquire_ownerToken := "worker-b"; acquire_purpose := Purpose.ORDER_SUBMISSION;
         acquire_acquiredAtEpochMs := 31000; acquire_expiresAtEpochMs := 61000 |}
       (<["account" := granted sample_input]> ∅)) ≠ Ret None.
Proof. vm_compute. discriminate. Qed.
