(* ===== verification/RuntimeOwnership.v ===== *)
(** * RuntimeOwnership: which process owns the runtime

    [domain/runtime-ownership.ts], the validators of
    [modules/db/runtime-ownership-interfaces.ts] and
    [modules/db/repositories/in-memory-runtime-ownership-store.ts]: a record of
    the current owner with a generation number that fences older owners off,
    and an append-only event log.  The store's methods are actions on its
    fields, so a [throw] of [appendEvent] leaves the assignments made before
    it.  The records are typed, which is what [assertExactKeys] checks. *)

From Stdlib Require Import ZArith Lia Ascii.
From stdpp Require Import base option list strings sorting relations.
From S2P Require Import Prelude Types Text.

Local Open Scope string_scope.
Local Open Scope Z_scope.
Local Open Scope js_scope.
Local Open Scope bool_scope.

(** ** Data *)

Module OwnershipEvent.
Inductive RuntimeOwnershipEventType : Set :=
| ACQUIRED | TAKEN_OVER | RELEASED | LOST.
#[export] Instance RuntimeOwnershipEventType_eq_dec : EqDecision RuntimeOwnershipEventType.
Proof. solve_decision. Defined.
End OwnershipEvent.
Export (hints) OwnershipEvent.

Record RuntimeOwnershipRecord := {
  own_ownerToken : string;
  own_generation : Z;
  own_executionMode : ExecutionMode;
  own_acquiredAtEpochMs : Z;
  own_heartbeatAtEpochMs : Z;
  own_expiresAtEpochMs : Z;
}.

Record RuntimeOwnershipAcquisition := {
  acquisition_record : RuntimeOwnershipRecord;
  acquisition_takeover : bool;
}.

Record RuntimeOwnershipEventRecord := {
  oev_id : Z;
  oev_generation : Z;
  oev_eventType : OwnershipEvent.RuntimeOwnershipEventType;
  oev_executionMode : ExecutionMode;
  oev_reasonCode : string;
  oev_eventAtEpochMs : Z;
}.

Record ExecutionStateView := {
  view_exchangeAccountId : string;
  view_executionMode : ExecutionMode;
  view_liveExecutionGate : LiveExecutionGate;
  view_systemStatus : SystemStatus;
  view_killSwitchActive : bool;
}.

Record PersistedRuntimeExecutionAuthority := {
  auth_runtimeOwnership : RuntimeOwnershipRecord;
  auth_executionState : option ExecutionStateView;
}.

Record AcquireRuntimeOwnershipInput := {
  ao_ownerToken : string;
  ao_executionMode : ExecutionMode;
  ao_acquiredAtEpochMs : Z;
  ao_expiresAtEpochMs : Z;
}.

Record RenewRuntimeOwnershipInput := {
  ro_ownerToken : string;
  ro_generation : Z;
  ro_heartbeatAtEpochMs : Z;
  ro_expiresAtEpochMs : Z;
}.

Record ReleaseRuntimeOwnershipInput := {
  rel_ownerToken : string;
  rel_generation : Z;
  rel_releasedAtEpochMs : Z;
}.

Record RecordRuntimeOwnershipLostInput := {
  lost_ownerToken : string;
  lost_generation : Z;
  lost_lostAtEpochMs : Z;
  lost_reasonCode : string;
}.

(** ** Validators *)

Definition is_lower (c : ascii) : bool :=
  let n := N_of_ascii c in ((97 <=? n) && (n <=? 122))%N.
Definition is_upper (c : ascii) : bool :=
  let n := N_of_ascii c in ((65 <=? n) && (n <=? 90))%N.
Definition is_hex (c : ascii) : bool :=
  let n := N_of_ascii c in is_digit c || ((97 <=? n) && (n <=? 102))%N.

(** [[A-Za-z0-9_-]] *)
Definition is_token_char (c : ascii) : bool :=
  is_lower c || is_upper c || is_digit c || (c === "_"%char) || (c === "-"%char).

(** [[A-Z0-9_]] *)
Definition is_code_char (c : ascii) : bool := is_upper c || is_digit c || (c === "_"%char).

Definition OWNER_TOKEN_PATTERN (s : string) : bool :=
  (String.length s =? 64)%nat && string_forallb is_token_char s.

Definition SCOPE_KEY_PATTERN (s : string) : bool :=
  (String.length s =? 64)%nat && string_forallb is_hex s.

Definition REASON_CODE_PATTERN (s : string) : bool :=
  match s with
  | String c rest =>
      is_upper c && string_forallb is_code_char rest && (String.length rest <=? 63)%nat
  | EmptyString => false
  end.

Definition EXECUTION_MODES : list ExecutionMode := [Mode.DRY_RUN; Mode.LIVE].

Definition EVENT_TYPES : list OwnershipEvent.RuntimeOwnershipEventType :=
  [OwnershipEvent.ACQUIRED; OwnershipEvent.TAKEN_OVER; OwnershipEvent.RELEASED;
   OwnershipEvent.LOST].

Definition validatePositiveSafeInteger (value : Z) (label : string) : outcome unit :=
  throw_if (negb (isSafeInteger value) || (value <? 1))
    (label ++ " must be a positive safe integer.").

Definition validateEpochMs (value : Z) (label : string) : outcome unit :=
  throw_if (negb (isSafeInteger value) || (value <? 0))
    ("Runtime ownership " ++ label ++ " must be a non-negative safe integer.").

Definition validateReasonCode (reasonCode : string) : outcome unit :=
  throw_if (negb (REASON_CODE_PATTERN reasonCode))
    "Runtime ownership reason code must be 1-64 uppercase code characters.".

Definition validateExecutionMode (executionMode : ExecutionMode) : outcome unit :=
  throw_if (negb (includes EXECUTION_MODES executionMode))
    "Runtime ownership execution mode must be DRY_RUN or LIVE.".

Definition validateOwnerToken (ownerToken : string) : outcome unit :=
  throw_if (negb (OWNER_TOKEN_PATTERN ownerToken))
    "Runtime ownership owner token must be exactly 64 token-safe characters.".

Definition validateRuntimeOwnershipScopeKey (scopeKey : string) : outcome unit :=
  throw_if (negb (SCOPE_KEY_PATTERN scopeKey))
    "Runtime ownership scope key must be exactly 64 lowercase hexadecimal characters.".

Definition validateGeneration (generation : Z) : outcome unit :=
  validatePositiveSafeInteger generation "Runtime ownership generation".

Definition assertNoTimestampRollback (candidateEpochMs floorEpochMs : Z) : outcome unit :=
  throw_if (candidateEpochMs <? floorEpochMs)
    "Runtime ownership timestamp rollback is not permitted.".

Definition validateRuntimeOwnershipEventLimit (limit : Z) : outcome unit :=
  validatePositiveSafeInteger limit "Runtime ownership event limit".

Definition validateRuntimeOwnershipEventRecord (event : RuntimeOwnershipEventRecord)
    : outcome unit :=
  validatePositiveSafeInteger (oev_id event) "Runtime ownership event id";;
  validateGeneration (oev_generation event);;
  throw_if (negb (includes EVENT_TYPES (oev_eventType event)))
    "Runtime ownership event type is invalid.";;
  validateExecutionMode (oev_executionMode event);;
  validateReasonCode (oev_reasonCode event);;
  validateEpochMs (oev_eventAtEpochMs event) "eventAtEpochMs".

Definition validateRuntimeOwnershipRecord (record : RuntimeOwnershipRecord) : outcome unit :=
  validateOwnerToken (own_ownerToken record);;
  validateGeneration (own_generation record);;
  validateExecutionMode (own_executionMode record);;
  validateEpochMs (own_acquiredAtEpochMs record) "acquiredAtEpochMs";;
  validateEpochMs (own_heartbeatAtEpochMs record) "heartbeatAtEpochMs";;
  validateEpochMs (own_expiresAtEpochMs record) "expiresAtEpochMs";;
  throw_if (own_heartbeatAtEpochMs record <? own_acquiredAtEpochMs record)
    "Runtime ownership heartbeat timestamp cannot precede acquisition.";;
  throw_if (own_expiresAtEpochMs record <=? own_heartbeatAtEpochMs record)
    "Runtime ownership expiry must be after heartbeat time.".

Definition validateAcquireRuntimeOwnershipInput (input : AcquireRuntimeOwnershipInput)
    : outcome unit :=
  validateOwnerToken (ao_ownerToken input);;
  validateExecutionMode (ao_executionMode input);;
  validateEpochMs (ao_acquiredAtEpochMs input) "acquiredAtEpochMs";;
  validateEpochMs (ao_expiresAtEpochMs input) "expiresAtEpochMs";;
  throw_if (ao_expiresAtEpochMs input <=? ao_acquiredAtEpochMs input)
    "Runtime ownership expiry must be after acquisition time.".

Definition validateRenewRuntimeOwnershipInput (input : RenewRuntimeOwnershipInput)
    : outcome unit :=
  validateOwnerToken (ro_ownerToken input);;
  validateGeneration (ro_generation input);;
  validateEpochMs (ro_heartbeatAtEpochMs input) "heartbeatAtEpochMs";;
  validateEpochMs (ro_expiresAtEpochMs input) "expiresAtEpochMs";;
  throw_if (ro_expiresAtEpochMs input <=? ro_heartbeatAtEpochMs input)
    "Runtime ownership expiry must be after heartbeat time.".

Definition validateReleaseRuntimeOwnershipInput (input : ReleaseRuntimeOwnershipInput)
    : outcome unit :=
  validateOwnerToken (rel_ownerToken input);;
  validateGeneration (rel_generation input);;
  validateEpochMs (rel_releasedAtEpochMs input) "releasedAtEpochMs".

Definition validateRecordRuntimeOwnershipLostInput (input : RecordRuntimeOwnershipLostInput)
    : outcome unit :=
  validateOwnerToken (lost_ownerToken input);;
  validateGeneration (lost_generation input);;
  validateEpochMs (lost_lostAtEpochMs input) "lostAtEpochMs";;
  validateReasonCode (lost_reasonCode input).

(** ** The store *)

Record InMemoryRuntimeOwnershipStore := {
  current : option RuntimeOwnershipRecord;
  events : list RuntimeOwnershipEventRecord;
  nextEventId : Z;
}.

Abbreviation store := InMemoryRuntimeOwnershipStore.

(** [new InMemoryRuntimeOwnershipStore(scopeKey)] *)
Definition new_store (scopeKey : string) : outcome store :=
  validateRuntimeOwnershipScopeKey scopeKey;;
  Ret {| current := None; events := []; nextEventId := 1 |}.

Definition set_current (record : option RuntimeOwnershipRecord) (s : store) : store :=
  {| current := record; events := events s; nextEventId := nextEventId s |}.

Definition push_event (event : RuntimeOwnershipEventRecord) (s : store) : store :=
  {| current := current s; events := events s ++ [event]; nextEventId := nextEventId s + 1 |}.

(** [if (current !== null) validateRuntimeOwnershipRecord(current)] *)
Definition validate_current (record : option RuntimeOwnershipRecord) : outcome unit :=
  match record with
  | Some r => validateRuntimeOwnershipRecord r
  | None => Ret tt
  end.

Definition getCurrent : action store (option RuntimeOwnershipRecord) :=
  record ← act_gets current;
  act_lift (validate_current record);;
  act_ret record.

Definition getCurrentExecutionAuthority (exchangeAccountId : string)
    : action store (option PersistedRuntimeExecutionAuthority) :=
  record ← act_gets current;
  act_lift (validate_current record);;
  act_ret (match record with
           | Some r => Some {| auth_runtimeOwnership := r; auth_executionState := None |}
           | None => None
           end).

(** The two loops over the log validate what they read. *)
Definition max_over (f : RuntimeOwnershipEventRecord -> Z) (start : Z)
    (log : list RuntimeOwnershipEventRecord) : outcome Z :=
  foldM_outcome
    (fun maximum event =>
       validateRuntimeOwnershipEventRecord event;;
       Ret (Z.max maximum (f event)))
    start log.

Definition maximumEventTimestamp : action store Z :=
  log ← act_gets events;
  act_lift (max_over oev_eventAtEpochMs 0 log).

Definition appendEvent (generation : Z) (eventType : OwnershipEvent.RuntimeOwnershipEventType)
    (executionMode : ExecutionMode) (reasonCode : string) (eventAtEpochMs : Z)
    : action store unit :=
  id ← act_gets nextEventId;
  act_lift (throw_if (negb (isSafeInteger id)) "Runtime ownership event id overflow.");;
  let record := {| oev_id := id; oev_generation := generation; oev_eventType := eventType;
                   oev_executionMode := executionMode; oev_reasonCode := reasonCode;
                   oev_eventAtEpochMs := eventAtEpochMs |} in
  act_lift (validateRuntimeOwnershipEventRecord record);;
  act_modify (push_event record).

Definition acquireAfterProcessLock (input : AcquireRuntimeOwnershipInput)
    : action store RuntimeOwnershipAcquisition :=
  act_lift (validateAcquireRuntimeOwnershipInput input);;
  previous ← act_gets current;
  act_lift (validate_current previous);;
  maximum ← maximumEventTimestamp;
  let chronologyFloor :=
    Z.max (match previous with Some r => own_heartbeatAtEpochMs r | None => 0 end) maximum in
  act_lift (assertNoTimestampRollback (ao_acquiredAtEpochMs input) chronologyFloor);;
  log ← act_gets events;
  maximumGeneration ← act_lift (max_over oev_generation
    (match previous with Some r => own_generation r | None => 0 end) log);
  act_lift (throw_if (MAX_SAFE_INTEGER <=? maximumGeneration)
    "Runtime ownership generation overflow.");;
  let record := {| own_ownerToken := ao_ownerToken input;
                   own_generation := maximumGeneration + 1;
                   own_executionMode := ao_executionMode input;
                   own_acquiredAtEpochMs := ao_acquiredAtEpochMs input;
                   own_heartbeatAtEpochMs := ao_acquiredAtEpochMs input;
                   own_expiresAtEpochMs := ao_expiresAtEpochMs input |} in
  act_lift (validateRuntimeOwnershipRecord record);;
  let takeover := match previous with Some _ => true | None => false end in
  act_modify (set_current (Some record));;
  appendEvent (own_generation record)
    (if takeover then OwnershipEvent.TAKEN_OVER else OwnershipEvent.ACQUIRED)
    (own_executionMode record) "PROCESS_LOCK_ACQUIRED" (ao_acquiredAtEpochMs input);;
  act_ret {| acquisition_record := record; acquisition_takeover := takeover |}.

Definition renew (input : RenewRuntimeOwnershipInput)
    : action store (option RuntimeOwnershipRecord) :=
  act_lift (validateRenewRuntimeOwnershipInput input);;
  previous ← act_gets current;
  match previous with
  | None => act_ret None
  | Some record =>
      act_lift (validateRuntimeOwnershipRecord record);;
      if (own_ownerToken record !== ro_ownerToken input)
         || (own_generation record !== ro_generation input)
      then act_ret None
      else
        maximum ← maximumEventTimestamp;
        act_lift (assertNoTimestampRollback (ro_heartbeatAtEpochMs input)
                    (Z.max (own_heartbeatAtEpochMs record) maximum));;
        if (ro_heartbeatAtEpochMs input === own_heartbeatAtEpochMs record)
           || (own_expiresAtEpochMs record <=? ro_heartbeatAtEpochMs input)
           || (ro_expiresAtEpochMs input <=? own_expiresAtEpochMs record)
        then act_ret None
        else
          let renewed := {| own_ownerToken := own_ownerToken record;
                            own_generation := own_generation record;
                            own_executionMode := own_executionMode record;
                            own_acquiredAtEpochMs := own_acquiredAtEpochMs record;
                            own_heartbeatAtEpochMs := ro_heartbeatAtEpochMs input;
                            own_expiresAtEpochMs := ro_expiresAtEpochMs input |} in
          act_lift (validateRuntimeOwnershipRecord renewed);;
          act_modify (set_current (Some renewed));;
          act_ret (Some renewed)
  end.

Definition release (input : ReleaseRuntimeOwnershipInput) : action store bool :=
  act_lift (validateReleaseRuntimeOwnershipInput input);;
  previous ← act_gets current;
  match previous with
  | None => act_ret false
  | Some record =>
      act_lift (validateRuntimeOwnershipRecord record);;
      if (own_ownerToken record !== rel_ownerToken input)
         || (own_generation record !== rel_generation input)
      then act_ret false
      else
        maximum ← maximumEventTimestamp;
        act_lift (assertNoTimestampRollback (rel_releasedAtEpochMs input)
                    (Z.max (own_heartbeatAtEpochMs record) maximum));;
        if own_expiresAtEpochMs record <=? rel_releasedAtEpochMs input then act_ret false
        else
          appendEvent (own_generation record) OwnershipEvent.RELEASED
            (own_executionMode record) "CLEAN_RELEASE" (rel_releasedAtEpochMs input);;
          act_modify (set_current None);;
          act_ret true
  end.

Definition recordLost (input : RecordRuntimeOwnershipLostInput) : action store bool :=
  act_lift (validateRecordRuntimeOwnershipLostInput input);;
  previous ← act_gets current;
  match previous with
  | None => act_ret false
  | Some record =>
      act_lift (validateRuntimeOwnershipRecord record);;
      if (own_ownerToken record !== lost_ownerToken input)
         || (own_generation record !== lost_generation input)
      then act_ret false
      else
        maximum ← maximumEventTimestamp;
        act_lift (assertNoTimestampRollback (lost_lostAtEpochMs input)
                    (Z.max (own_heartbeatAtEpochMs record) maximum));;
        appendEvent (own_generation record) OwnershipEvent.LOST
          (own_executionMode record) (lost_reasonCode input) (lost_lostAtEpochMs input);;
        act_ret true
  end.

(** [events.slice(-limit).reverse()], validating each event *)
Definition listRecentEvents (limit : Z) : action store (list RuntimeOwnershipEventRecord) :=
  act_lift (validateRuntimeOwnershipEventLimit limit);;
  log ← act_gets events;
  act_lift (mapM_outcome
    (fun event => validateRuntimeOwnershipEventRecord event;; Ret event)
    (reverse (drop (length log - Z.to_nat limit) log))).

(** ** The protocol the store implements

    What a call may do to the fields, without the guards' order and the error
    values: the abstract transition system of generations, times and log. *)

Definition log_max (f : RuntimeOwnershipEventRecord -> Z) (start : Z)
    (log : list RuntimeOwnershipEventRecord) : Z :=
  foldl (fun m e => Z.max m (f e)) start log.

(** The highest generation ever used, and the latest time ever recorded. *)
Definition high (s : store) : Z :=
  log_max oev_generation (match current s with Some r => own_generation r | None => 0 end)
    (events s).

Definition latest (s : store) : Z :=
  Z.max (match current s with Some r => own_heartbeatAtEpochMs r | None => 0 end)
    (log_max oev_eventAtEpochMs 0 (events s)).

Definition valid_record (r : RuntimeOwnershipRecord) : Prop :=
  validateRuntimeOwnershipRecord r = Ret tt.

Definition valid_event (e : RuntimeOwnershipEventRecord) : Prop :=
  validateRuntimeOwnershipEventRecord e = Ret tt.

(** The next entry of the log. *)
Definition logs (s : store) (g : Z) (t : Z) (e : RuntimeOwnershipEventRecord) : Prop :=
  valid_event e /\ oev_id e = nextEventId s /\ oev_generation e = g /\ oev_eventAtEpochMs e = t.

Definition fresh (s : store) (r : RuntimeOwnershipRecord) : Prop :=
  valid_record r /\ own_generation r = high s + 1 /\ latest s <= own_heartbeatAtEpochMs r.

(** Calls of the store's mutating methods. *)
Inductive call : Type :=
| CallAcquire (input : AcquireRuntimeOwnershipInput)
| CallRenew (input : RenewRuntimeOwnershipInput)
| CallRelease (input : ReleaseRuntimeOwnershipInput)
| CallLost (input : RecordRuntimeOwnershipLostInput).

Definition perform (c : call) (s : store) : store :=
  match c with
  | CallAcquire input => fst (acquireAfterProcessLock input s)
  | CallRenew input => fst (renew input s)
  | CallRelease input => fst (release input s)
  | CallLost input => fst (recordLost input s)
  end.

(** The call was answered with a success: a record, or [true]. *)
Definition granted (c : call) (s : store) : bool :=
  match c with
  | CallAcquire input => match snd (acquireAfterProcessLock input s) with Ret _ => true | _ => false end
  | CallRenew input => match snd (renew input s) with Ret (Some _) => true | _ => false end
  | CallRelease input => match snd (release input s) with Ret true => true | _ => false end
  | CallLost input => match snd (recordLost input s) with Ret true => true | _ => false end
  end.

(** The caller presents the token and the generation of the current owner. *)
Definition presents (token : string) (generation : Z) (s : store) (r : RuntimeOwnershipRecord) : Prop :=
  current s = Some r /\ own_ownerToken r = token /\ own_generation r = generation.

(** [protocol_step c s b s']: from [s] the call [c] may lead to [s'], answered
    with a success when [b] is [true]. *)
Inductive protocol_step : call -> store -> bool -> store -> Prop :=
| step_refused c s : protocol_step c s false s
| step_acquire input s r e :
    own_ownerToken r = ao_ownerToken input ->
    own_heartbeatAtEpochMs r = ao_acquiredAtEpochMs input ->
    own_expiresAtEpochMs r = ao_expiresAtEpochMs input ->
    fresh s r -> logs s (own_generation r) (ao_acquiredAtEpochMs input) e ->
    oev_eventType e = match current s with
                      | Some _ => OwnershipEvent.TAKEN_OVER
                      | None => OwnershipEvent.ACQUIRED end ->
    protocol_step (CallAcquire input) s true (push_event e (set_current (Some r) s))
| step_acquire_unlogged input s r :
    own_ownerToken r = ao_ownerToken input ->
    fresh s r -> MAX_SAFE_INTEGER < nextEventId s \/ nextEventId s < 1 ->
    protocol_step (CallAcquire input) s false (set_current (Some r) s)
| step_renew input s r r' :
    presents (ro_ownerToken input) (ro_generation input) s r -> valid_record r' ->
    own_ownerToken r' = own_ownerToken r -> own_generation r' = own_generation r ->
    own_heartbeatAtEpochMs r' = ro_heartbeatAtEpochMs input ->
    own_expiresAtEpochMs r' = ro_expiresAtEpochMs input ->
    latest s <= own_heartbeatAtEpochMs r' ->
    own_heartbeatAtEpochMs r' < own_expiresAtEpochMs r < own_expiresAtEpochMs r' ->
    protocol_step (CallRenew input) s true (set_current (Some r') s)
| step_release input s r e :
    presents (rel_ownerToken input) (rel_generation input) s r ->
    logs s (own_generation r) (rel_releasedAtEpochMs input) e ->
    oev_eventType e = OwnershipEvent.RELEASED ->
    latest s <= rel_releasedAtEpochMs input < own_expiresAtEpochMs r ->
    protocol_step (CallRelease input) s true (set_current None (push_event e s))
| step_lost input s r e :
    presents (lost_ownerToken input) (lost_generation input) s r ->
    logs s (own_generation r) (lost_lostAtEpochMs input) e ->
    oev_eventType e = OwnershipEvent.LOST -> latest s <= lost_lostAtEpochMs input ->
    protocol_step (CallLost input) s true (push_event e s).

(** The calls that have a right to be granted: a well-formed request, by the
    current owner where the method has one, at a time that does not go back,
    inside the lease, while the counters last. *)
Definition entitled (c : call) (s : store) : Prop :=
  match c with
  | CallAcquire input =>
      OWNER_TOKEN_PATTERN (ao_ownerToken input) = true /\
      0 <= ao_acquiredAtEpochMs input < ao_expiresAtEpochMs input /\
      ao_expiresAtEpochMs input <= MAX_SAFE_INTEGER /\
      latest s <= ao_acquiredAtEpochMs input /\ high s < MAX_SAFE_INTEGER /\
      nextEventId s <= MAX_SAFE_INTEGER
  | CallRenew input =>
      exists r, presents (ro_ownerToken input) (ro_generation input) s r /\
        latest s <= ro_heartbeatAtEpochMs input /\
        own_heartbeatAtEpochMs r < ro_heartbeatAtEpochMs input < own_expiresAtEpochMs r /\
        own_expiresAtEpochMs r < ro_expiresAtEpochMs input <= MAX_SAFE_INTEGER
  | CallRelease input =>
      exists r, presents (rel_ownerToken input) (rel_generation input) s r /\
        latest s <= rel_releasedAtEpochMs input < own_expiresAtEpochMs r /\
        nextEventId s <= MAX_SAFE_INTEGER
  | CallLost input =>
      exists r, presents (lost_ownerToken input) (lost_generation input) s r /\
        REASON_CODE_PATTERN (lost_reasonCode input) = true /\
        latest s <= lost_lostAtEpochMs input <= MAX_SAFE_INTEGER /\
        nextEventId s <= MAX_SAFE_INTEGER
  end.

Definition performs (cs : list call) (s : store) : store :=
  foldl (fun s c => perform c s) s cs.

Inductive call_step : store -> store -> Prop :=
| call_performed c s : call_step s (perform c s).

Definition reachable (s : store) : Prop :=
  exists scopeKey s0, new_store scopeKey = Ret s0 /\ rtc call_step s0 s.

(** ** Lemmas *)

Arguments validateRuntimeOwnershipRecord : simpl never.
Arguments validateRuntimeOwnershipEventRecord : simpl never.
Arguments validateAcquireRuntimeOwnershipInput : simpl never.
Arguments validateRenewRuntimeOwnershipInput : simpl never.
Arguments validateReleaseRuntimeOwnershipInput : simpl never.
Arguments validateRecordRuntimeOwnershipLostInput : simpl never.
Arguments assertNoTimestampRollback : simpl never.
Arguments isSafeInteger : simpl never.

Lemma log_max_start f a log : a <= log_max f a log.
Proof.
  revert a. induction log as [|e log IH]; intros a; simpl; [lia|].
  specialize (IH (Z.max a (f e))). lia.
Qed.

Lemma log_max_elem f a log e : e ∈ log -> f e <= log_max f a log.
Proof.
  revert a. induction log as [|x log IH]; intros a; [by intros ?%not_elem_of_nil|].
  intros [->|He]%elem_of_cons; simpl; [|by apply IH].
  pose proof (log_max_start f (Z.max a (f x)) log). lia.
Qed.

Lemma log_max_app f a l1 l2 : log_max f a (l1 ++ l2) = log_max f (log_max f a l1) l2.
Proof. apply foldl_app. Qed.

Lemma log_max_le f a log m : a <= m -> (forall e, e ∈ log -> f e <= m) -> log_max f a log <= m.
Proof.
  revert a. induction log as [|x log IH]; intros a Ha Hm; simpl; [done|].
  apply IH; [|intros e He; apply Hm; by right]. pose proof (Hm x (list_elem_of_here _ _)). lia.
Qed.

Lemma max_over_Ret f a log m : max_over f a log = Ret m -> m = log_max f a log.
Proof.
  revert a. induction log as [|e log IH]; intros a; cbn; [by intros [= <-]|].
  destruct (validateRuntimeOwnershipEventRecord e); cbn; [apply IH|done].
Qed.

Lemma max_over_valid f a log :
  Forall valid_event log -> max_over f a log = Ret (log_max f a log).
Proof.
  intros H. revert a. induction H as [|e log He _ IH]; intros a; cbn; [done|].
  rewrite He. cbn. apply IH.
Qed.

Arguments log_max : simpl never.

(** [appendEvent] either logs or throws without an effect. *)
Lemma appendEvent_eq g ty m rc t s :
  let e := {| oev_id := nextEventId s; oev_generation := g; oev_eventType := ty;
              oev_executionMode := m; oev_reasonCode := rc; oev_eventAtEpochMs := t |} in
  appendEvent g ty m rc t s =
  match throw_if (negb (isSafeInteger (nextEventId s))) "Runtime ownership event id overflow." with
  | Throw msg => (s, Throw msg)
  | Ret _ => match validateRuntimeOwnershipEventRecord e with
             | Throw msg => (s, Throw msg)
             | Ret _ => (push_event e s, Ret tt)
             end
  end.
Proof.
  unfold appendEvent. rewrite act_gets_bind, act_lift_bind.
  destruct (throw_if _ _); [|done]. rewrite act_lift_bind.
  by destruct (validateRuntimeOwnershipEventRecord _).
Qed.

Lemma appendEvent_cases g ty m rc t s :
  (exists e, appendEvent g ty m rc t s = (push_event e s, Ret tt)
             /\ logs s g t e /\ oev_eventType e = ty)
  \/ (exists msg, appendEvent g ty m rc t s = (s, Throw msg)).
Proof.
  rewrite appendEvent_eq. destruct (throw_if _ _); [|by right; eexists].
  destruct (validateRuntimeOwnershipEventRecord _) as [[]|] eqn:Hv; [|by right; eexists].
  left. eexists. split; [done|]. by repeat split.
Qed.

Lemma maximumEventTimestamp_bind {B} (k : Z -> action store B) s :
  (m ← maximumEventTimestamp; k m) s =
  match max_over oev_eventAtEpochMs 0 (events s) with
  | Ret m => k m s
  | Throw e => (s, Throw e)
  end.
Proof. rewrite act_bind_eq. unfold maximumEventTimestamp. rewrite act_gets_bind. by destruct (max_over _ _ _). Qed.

(** Peel the next statement off a method body; where it throws, nothing
    happened yet. *)
Ltac nothing_happened := first [ by right; right; eexists | by right; left ].

Ltac method_step :=
  match goal with
  | |- context [(act_gets _ ≫= _) _] => rewrite act_gets_bind
  | |- context [(act_lift ?m ≫= _) _] =>
      rewrite act_lift_bind; destruct m eqn:?; [|nothing_happened]
  | |- context [(maximumEventTimestamp ≫= _) _] =>
      rewrite maximumEventTimestamp_bind;
      destruct (max_over oev_eventAtEpochMs 0 _) eqn:?; [|nothing_happened]
  | |- context [(if ?c then act_ret _ else _) _] => destruct c eqn:?; [nothing_happened|]
  end.

Lemma assertNoTimestampRollback_Ret t floor u :
  assertNoTimestampRollback t floor = Ret u <-> floor <= t.
Proof. unfold assertNoTimestampRollback. by rewrite throw_if_Ret, Z.ltb_ge. Qed.

Lemma valid_record_ret r u : validateRuntimeOwnershipRecord r = Ret u -> valid_record r.
Proof. by destruct u. Qed.

(** The rollback guard's floor is the latest time. *)
Lemma latest_guard s m t u :
  max_over oev_eventAtEpochMs 0 (events s) = Ret m ->
  assertNoTimestampRollback t
    (Z.max (match current s with Some r => own_heartbeatAtEpochMs r | None => 0 end) m) = Ret u ->
  latest s <= t.
Proof. intros ->%max_over_Ret Ht%assertNoTimestampRollback_Ret. exact Ht. Qed.

Lemma isSafeInteger_true z : isSafeInteger z = true <-> - MAX_SAFE_INTEGER <= z <= MAX_SAFE_INTEGER.
Proof. unfold isSafeInteger. by rewrite andb_true_iff, !Z.leb_le. Qed.

Lemma validatePositiveSafeInteger_spec z label :
  validatePositiveSafeInteger z label = Ret tt <-> 1 <= z <= MAX_SAFE_INTEGER.
Proof.
  unfold validatePositiveSafeInteger.
  rewrite throw_if_Ret, orb_false_iff, negb_false_iff, isSafeInteger_true, Z.ltb_ge.
  unfold MAX_SAFE_INTEGER. lia.
Qed.

Lemma validateEpochMs_spec z label :
  validateEpochMs z label = Ret tt <-> 0 <= z <= MAX_SAFE_INTEGER.
Proof.
  unfold validateEpochMs.
  rewrite throw_if_Ret, orb_false_iff, negb_false_iff, isSafeInteger_true, Z.ltb_ge.
  unfold MAX_SAFE_INTEGER. lia.
Qed.

Lemma seq_Ret {A} (m : outcome unit) (k : outcome A) v :
  (m;; k) = Ret v <-> m = Ret tt /\ k = Ret v.
Proof. destruct m as [[]|]; cbn; naive_solver. Qed.

Lemma valid_record_spec r :
  valid_record r <->
  OWNER_TOKEN_PATTERN (own_ownerToken r) = true /\ 1 <= own_generation r <= MAX_SAFE_INTEGER
  /\ 0 <= own_acquiredAtEpochMs r <= own_heartbeatAtEpochMs r
  /\ own_heartbeatAtEpochMs r < own_expiresAtEpochMs r <= MAX_SAFE_INTEGER.
Proof.
  unfold valid_record, validateRuntimeOwnershipRecord, validateGeneration, validateOwnerToken.
  rewrite !seq_Ret, !throw_if_Ret, validatePositiveSafeInteger_spec, !validateEpochMs_spec,
    negb_false_iff, Z.ltb_ge, Z.leb_gt.
  destruct (own_executionMode r); cbn; intuition (try reflexivity; try lia).
Qed.

Lemma valid_event_spec e :
  valid_event e <->
  1 <= oev_id e <= MAX_SAFE_INTEGER /\ 1 <= oev_generation e <= MAX_SAFE_INTEGER
  /\ REASON_CODE_PATTERN (oev_reasonCode e) = true
  /\ 0 <= oev_eventAtEpochMs e <= MAX_SAFE_INTEGER.
Proof.
  unfold valid_event, validateRuntimeOwnershipEventRecord, validateGeneration, validateReasonCode.
  rewrite !seq_Ret, !throw_if_Ret, !validatePositiveSafeInteger_spec, !validateEpochMs_spec,
    !negb_false_iff.
  destruct (oev_executionMode e), (oev_eventType e); cbn; intuition (try reflexivity; try lia).
Qed.

(** Logging fails only when the identifier counter has run out. *)
Lemma appendEvent_valid g ty m rc t s :
  REASON_CODE_PATTERN rc = true -> 1 <= g <= MAX_SAFE_INTEGER -> 0 <= t <= MAX_SAFE_INTEGER ->
  1 <= nextEventId s <= MAX_SAFE_INTEGER ->
  exists e, appendEvent g ty m rc t s = (push_event e s, Ret tt)
            /\ logs s g t e /\ oev_eventType e = ty.
Proof.
  intros Hrc Hg Ht Hid. rewrite appendEvent_eq.
  rewrite (proj2 (isSafeInteger_true _)) by lia. cbn [negb throw_if].
  set (e := Build_RuntimeOwnershipEventRecord _ _ _ _ _ _).
  assert (He : valid_event e) by (apply valid_event_spec; cbn; auto).
  rewrite He. exists e. by repeat split.
Qed.

Lemma appendEvent_invalid g ty m rc t s :
  ~ 1 <= nextEventId s <= MAX_SAFE_INTEGER ->
  exists msg, appendEvent g ty m rc t s = (s, Throw msg).
Proof.
  intros Hid. destruct (appendEvent_cases g ty m rc t s) as [(e & _ & Hl & _)|H]; [|done].
  destruct Hl as (Hv%valid_event_spec & Hn & _). rewrite Hn in Hv. tauto.
Qed.

(** An acquisition installs the next generation and logs it; if the identifier
    counter has run out it throws after installing it; otherwise it throws
    without an effect. *)
Lemma acquire_cases input s :
  let takeover := match current s with Some _ => true | None => false end in
  (exists r e,
     acquireAfterProcessLock input s
     = (push_event e (set_current (Some r) s), Ret (Build_RuntimeOwnershipAcquisition r takeover))
     /\ fresh s r /\ own_ownerToken r = ao_ownerToken input
     /\ own_heartbeatAtEpochMs r = ao_acquiredAtEpochMs input
     /\ own_expiresAtEpochMs r = ao_expiresAtEpochMs input
     /\ logs s (own_generation r) (ao_acquiredAtEpochMs input) e
     /\ oev_eventType e = if takeover then OwnershipEvent.TAKEN_OVER else OwnershipEvent.ACQUIRED)
  \/ (exists r msg, acquireAfterProcessLock input s = (set_current (Some r) s, Throw msg)
                    /\ fresh s r /\ own_ownerToken r = ao_ownerToken input /\ (MAX_SAFE_INTEGER < nextEventId s \/ nextEventId s < 1))
  \/ (exists msg, acquireAfterProcessLock input s = (s, Throw msg)).
Proof.
  cbv zeta. unfold acquireAfterProcessLock. do 8 method_step.
  rewrite act_lift_bind. set (r := Build_RuntimeOwnershipRecord _ _ _ _ _ _).
  destruct (validateRuntimeOwnershipRecord r) as [[]|] eqn:Hr; [|nothing_happened].
  rewrite act_modify_bind, act_bind_eq.
  assert (Hfresh : fresh s r).
  { split_and!; [done| |by eapply latest_guard].
    match goal with H : max_over oev_generation _ _ = Ret _ |- _ => apply max_over_Ret in H end.
    by subst. }
  pose proof (proj1 (valid_record_spec r) Hr) as (? & Hg & Ht & ?).
  destruct (decide (1 <= nextEventId s <= MAX_SAFE_INTEGER)) as [Hid|Hid].
  - left. exists r.
    edestruct (appendEvent_valid (own_generation r)
      (if match current s with Some _ => true | None => false end
       then OwnershipEvent.TAKEN_OVER else OwnershipEvent.ACQUIRED)
      (own_executionMode r) "PROCESS_LOCK_ACQUIRED" (ao_acquiredAtEpochMs input)
      (set_current (Some r) s)) as (e & -> & Hlogs & Hty); [done|done|cbn in *; lia|done|].
    exists e. split; [done|]. by destruct (current s).
  - right; left. exists r.
    edestruct appendEvent_invalid as [msg ->]; [exact Hid|]. exists msg.
    split_and!; [done|done|done|lia].
Qed.

(** The other methods change something only for the current owner, and then
    they return it. *)
Lemma renew_cases input s :
  (exists r r', renew input s = (set_current (Some r') s, Ret (Some r'))
     /\ current s = Some r
     /\ own_ownerToken r = ro_ownerToken input /\ own_generation r = ro_generation input
     /\ valid_record r' /\ own_ownerToken r' = own_ownerToken r
     /\ own_generation r' = own_generation r
     /\ own_heartbeatAtEpochMs r' = ro_heartbeatAtEpochMs input
     /\ own_expiresAtEpochMs r' = ro_expiresAtEpochMs input
     /\ latest s <= own_heartbeatAtEpochMs r'
     /\ own_heartbeatAtEpochMs r' < own_expiresAtEpochMs r < own_expiresAtEpochMs r')
  \/ renew input s = (s, Ret None)
  \/ (exists msg, renew input s = (s, Throw msg)).
Proof.
  unfold renew. do 2 method_step. destruct (current s) as [r|] eqn:Er; [|by right; left].
  do 5 method_step.
  rewrite act_lift_bind. set (r' := Build_RuntimeOwnershipRecord _ _ _ _ _ _).
  destruct (validateRuntimeOwnershipRecord r') as [[]|] eqn:Hr; [|nothing_happened].
  destruct_bools. left. exists r, r'.
  split_and!; try done. eapply latest_guard; [done|]. by rewrite Er.
Qed.

Lemma release_cases input s :
  (exists r e, release input s = (set_current None (push_event e s), Ret true)
     /\ current s = Some r
     /\ own_ownerToken r = rel_ownerToken input /\ own_generation r = rel_generation input
     /\ logs s (own_generation r) (rel_releasedAtEpochMs input) e
     /\ oev_eventType e = OwnershipEvent.RELEASED
     /\ latest s <= rel_releasedAtEpochMs input < own_expiresAtEpochMs r)
  \/ release input s = (s, Ret false)
  \/ (exists msg, release input s = (s, Throw msg)).
Proof.
  unfold release. do 2 method_step. destruct (current s) as [r|] eqn:Er; [|by right; left].
  do 5 method_step. rewrite act_bind_eq.
  destruct (appendEvent_cases (own_generation r) OwnershipEvent.RELEASED
    (own_executionMode r) "CLEAN_RELEASE" (rel_releasedAtEpochMs input) s)
    as [(e & -> & ? & ?)|[msg ->]]; [|nothing_happened].
  destruct_bools. left. exists r, e.
  split_and!; try done. eapply latest_guard; [done|]. by rewrite Er.
Qed.

Lemma recordLost_cases input s :
  (exists r e, recordLost input s = (push_event e s, Ret true)
     /\ current s = Some r
     /\ own_ownerToken r = lost_ownerToken input /\ own_generation r = lost_generation input
     /\ logs s (own_generation r) (lost_lostAtEpochMs input) e
     /\ oev_eventType e = OwnershipEvent.LOST
     /\ latest s <= lost_lostAtEpochMs input)
  \/ recordLost input s = (s, Ret false)
  \/ (exists msg, recordLost input s = (s, Throw msg)).
Proof.
  unfold recordLost. do 2 method_step. destruct (current s) as [r|] eqn:Er; [|by right; left].
  do 4 method_step. rewrite act_bind_eq.
  destruct (appendEvent_cases (own_generation r) OwnershipEvent.LOST
    (own_executionMode r) (lost_reasonCode input) (lost_lostAtEpochMs input) s)
    as [(e & -> & ? & ?)|[msg ->]]; [|nothing_happened].
  destruct_bools. left. exists r, e.
  split_and!; try done. eapply latest_guard; [done|]. by rewrite Er.
Qed.

(** ** Refinement *)

Lemma perform_protocol c s : protocol_step c s (granted c s) (perform c s).
Proof.
  destruct c as [input|input|input|input]; cbn [perform granted].
  - destruct (acquire_cases input s)
      as [(r & e & -> & ? & ? & ? & ? & ? & Hty)|[(r & msg & -> & ? & ? & ?)|[msg ->]]];
      cbn [fst snd].
    + apply step_acquire; [done..|]. rewrite Hty. by destruct (current s).
    + by apply step_acquire_unlogged.
    + apply step_refused.
  - destruct (renew_cases input s)
      as [(r & r' & -> & ? & ? & ? & ? & ? & ? & ? & ? & ? & ?)|[->|[msg ->]]]; cbn [fst snd];
      [by apply (step_renew _ _ r)|apply step_refused..].
  - destruct (release_cases input s)
      as [(r & e & -> & ? & ? & ? & ? & ? & ?)|[->|[msg ->]]]; cbn [fst snd];
      [by apply (step_release _ _ r)|apply step_refused..].
  - destruct (recordLost_cases input s)
      as [(r & e & -> & ? & ? & ? & ? & ? & ?)|[->|[msg ->]]]; cbn [fst snd];
      [by apply (step_lost _ _ r)|apply step_refused..].
Qed.

Lemma strongly_sorted_snoc {A} (R : A -> A -> Prop) l y :
  StronglySorted R l -> (forall x, x ∈ l -> R x y) -> StronglySorted R (l ++ [y]).
Proof.
  induction 1 as [|x l S IH Hx]; intros Hy; simpl; [by repeat constructor|].
  constructor; [apply IH; intros z Hz; apply Hy; by right|].
  apply Forall_app. split; [done|]. apply Forall_singleton, Hy. left.
Qed.

(** What every reachable store satisfies: entries are numbered from one
    without a gap, their times and generations never go back, and the current
    owner has the highest generation. *)
Definition earlier (e1 e2 : RuntimeOwnershipEventRecord) : Prop :=
  oev_eventAtEpochMs e1 <= oev_eventAtEpochMs e2 /\ oev_generation e1 <= oev_generation e2.

Record log_wf (s : store) : Prop := {
  wf_ids : forall i e, events s !! i = Some e -> oev_id e = Z.of_nat i + 1;
  wf_next : nextEventId s = Z.of_nat (length (events s)) + 1;
  wf_order : StronglySorted earlier (events s);
  wf_valid : Forall valid_event (events s);
  wf_current : forall r, current s = Some r ->
    valid_record r /\ forall e, e ∈ events s -> oev_generation e <= own_generation r;
}.

Lemma high_event s e : e ∈ events s -> oev_generation e <= high s.
Proof. apply log_max_elem. Qed.

Lemma latest_event s e : e ∈ events s -> oev_eventAtEpochMs e <= latest s.
Proof.
  intros He. unfold latest. pose proof (log_max_elem oev_eventAtEpochMs 0 _ _ He). lia.
Qed.

Lemma high_current s r : current s = Some r -> own_generation r <= high s.
Proof. intros E. unfold high. rewrite E. apply log_max_start. Qed.

Lemma log_wf_push s e r' g t :
  log_wf s -> logs s g t e -> latest s <= t ->
  (forall x, x ∈ events s -> oev_generation x <= g) ->
  (forall r, r' = Some r -> valid_record r /\ g <= own_generation r) ->
  log_wf (set_current r' (push_event e s)).
Proof.
  intros W (Hv & Hid & Hg & Ht) Hlate Hgens Hr'. split; cbn.
  - intros i x Hi. apply lookup_snoc_Some in Hi as [[_ Hi]|[-> ->]]; [by apply (wf_ids s W)|].
    rewrite Hid. by apply wf_next.
  - rewrite length_app, (wf_next s W). cbn [length]. lia.
  - apply strongly_sorted_snoc; [by apply wf_order|]. intros x Hx. split.
    + pose proof (latest_event _ _ Hx). lia.
    + rewrite Hg. by apply Hgens.
  - apply Forall_app. split; [by apply wf_valid|]. by apply Forall_singleton.
  - intros r Er. destruct (Hr' r Er) as [? Hle]. split; [done|].
    intros x [Hx| ->%list_elem_of_singleton]%elem_of_app; [|by rewrite Hg].
    pose proof (Hgens _ Hx). lia.
Qed.

Lemma protocol_step_wf c s b s' : log_wf s -> protocol_step c s b s' -> log_wf s'.
Proof.
  intros W. destruct 1 as [|i s r e _ Hat _ (Hr & Hg & Hl) He _|i s r _ (Hr & Hg & _) _
    |i s r r' (Hc & _) Hr _ Hg _ _ _ _|i s r e (Hc & _) He _ Ht|i s r e (Hc & _) He _ Ht].
  - done.
  - assert (Hgens : forall x, x ∈ events s -> oev_generation x <= own_generation r).
    { intros x Hx. pose proof (high_event _ _ Hx). lia. }
    rewrite Hat in Hl. refine (log_wf_push s e (Some r) _ _ W He Hl Hgens _).
    intros ? [= <-]. split; [done|lia].
  - destruct W. split; cbn; try done. intros ? [= <-]. split; [done|].
    intros x Hx. pose proof (high_event _ _ Hx). lia.
  - destruct W as [? ? ? ? Wc]. split; cbn; try done. intros ? [= <-]. split; [done|].
    intros x Hx. rewrite Hg. by apply (Wc r).
  - refine (log_wf_push s e None _ _ W He _ _ _); [lia| |done].
    by apply (wf_current s W r).
  - assert (E : push_event e s = set_current (Some r) (push_event e s))
      by (unfold set_current, push_event; cbn; by rewrite Hc).
    rewrite E. destruct (wf_current s W r Hc). refine (log_wf_push s e (Some r) _ _ W He Ht _ _);
      [done|]. intros ? [= <-]. split; [done|lia].
Qed.

Lemma reachable_log_wf s : reachable s -> log_wf s.
Proof.
  intros (key & s0 & Hnew & Hsteps). unfold new_store in Hnew. inv_outcome.
  match type of Hsteps with rtc _ ?init _ => assert (W : log_wf init) end.
  { split; cbn; try done. constructor. }
  revert W. induction Hsteps as [|? ? ? [c s1] _ IH]; [done|].
  intros W. apply IH. by eapply protocol_step_wf, perform_protocol.
Qed.

(** ** Who is granted what *)

Lemma max_over_wf f a s :
  log_wf s -> max_over f a (events s) = Ret (log_max f a (events s)).
Proof.
  intros W. pose proof (wf_valid s W) as Hv. unfold max_over. revert a Hv.
  induction (events s) as [|e log IH]; intros a Hv; [done|].
  apply Forall_cons in Hv as [He Hv]. cbn [foldM_outcome log_max foldl].
  unfold valid_event in He. rewrite He. by apply IH.
Qed.

Lemma latest_bounds s r :
  log_wf s -> current s = Some r -> own_heartbeatAtEpochMs r <= latest s /\ 0 <= latest s.
Proof.
  intros W Hc. unfold latest. rewrite Hc. pose proof (log_max_start oev_eventAtEpochMs 0 (events s)).
  lia.
Qed.

Lemma validate_current_wf s : log_wf s -> validate_current (current s) = Ret tt.
Proof.
  intros W. destruct (current s) as [r|] eqn:Hc; [|done]. by apply (wf_current s W r).
Qed.

Lemma acquire_input_spec input :
  validateAcquireRuntimeOwnershipInput input = Ret tt <->
  OWNER_TOKEN_PATTERN (ao_ownerToken input) = true /\
  0 <= ao_acquiredAtEpochMs input < ao_expiresAtEpochMs input /\
  ao_expiresAtEpochMs input <= MAX_SAFE_INTEGER.
Proof.
  unfold validateAcquireRuntimeOwnershipInput, validateOwnerToken.
  rewrite !seq_Ret, !throw_if_Ret, !validateEpochMs_spec, negb_false_iff, Z.leb_gt.
  destruct (ao_executionMode input); cbn; intuition (try reflexivity; try lia).
Qed.

Lemma renew_input_spec input :
  validateRenewRuntimeOwnershipInput input = Ret tt <->
  OWNER_TOKEN_PATTERN (ro_ownerToken input) = true /\ 1 <= ro_generation input <= MAX_SAFE_INTEGER /\
  0 <= ro_heartbeatAtEpochMs input < ro_expiresAtEpochMs input /\
  ro_expiresAtEpochMs input <= MAX_SAFE_INTEGER.
Proof.
  unfold validateRenewRuntimeOwnershipInput, validateOwnerToken, validateGeneration.
  rewrite !seq_Ret, !throw_if_Ret, validatePositiveSafeInteger_spec, !validateEpochMs_spec,
    negb_false_iff, Z.leb_gt. intuition lia.
Qed.

Lemma release_input_spec input :
  validateReleaseRuntimeOwnershipInput input = Ret tt <->
  OWNER_TOKEN_PATTERN (rel_ownerToken input) = true /\
  1 <= rel_generation input <= MAX_SAFE_INTEGER /\
  0 <= rel_releasedAtEpochMs input <= MAX_SAFE_INTEGER.
Proof.
  unfold validateReleaseRuntimeOwnershipInput, validateOwnerToken, validateGeneration.
  rewrite !seq_Ret, !throw_if_Ret, validatePositiveSafeInteger_spec, !validateEpochMs_spec,
    negb_false_iff. intuition lia.
Qed.

Lemma lost_input_spec input :
  validateRecordRuntimeOwnershipLostInput input = Ret tt <->
  OWNER_TOKEN_PATTERN (lost_ownerToken input) = true /\
  1 <= lost_generation input <= MAX_SAFE_INTEGER /\
  0 <= lost_lostAtEpochMs input <= MAX_SAFE_INTEGER /\
  REASON_CODE_PATTERN (lost_reasonCode input) = true.
Proof.
  unfold validateRecordRuntimeOwnershipLostInput, validateOwnerToken, validateGeneration,
    validateReasonCode.
  rewrite !seq_Ret, !throw_if_Ret, validatePositiveSafeInteger_spec, !validateEpochMs_spec,
    !negb_false_iff. intuition lia.
Qed.

(** The guard against times that go back, in a store whose current owner is
    known. *)
Lemma rollback_guard s r t :
  log_wf s -> current s = Some r ->
  assertNoTimestampRollback t
    (Z.max (own_heartbeatAtEpochMs r) (log_max oev_eventAtEpochMs 0 (events s)))
  = if decide (latest s <= t) then Ret tt
    else Throw "Runtime ownership timestamp rollback is not permitted.".
Proof.
  intros W Hc. unfold assertNoTimestampRollback, throw_if, latest. rewrite Hc.
  case_decide; [rewrite (proj2 (Z.ltb_ge _ _)) by lia|rewrite (proj2 (Z.ltb_lt _ _)) by lia]; done.
Qed.

Lemma not_owner_test r token generation :
  (own_ownerToken r !== token) || (own_generation r !== generation) = false <->
  own_ownerToken r = token /\ own_generation r = generation.
Proof. rewrite orb_false_iff, !negb_false_iff, !bool_decide_eq_true. done. Qed.

Lemma throw_not_Ret {A} e (v : A) : Throw e = Ret v -> False.
Proof. discriminate. Qed.

(** Destruct a check of the method; the case where it fails is closed by what
    an entitled call satisfies. *)
Ltac refused :=
  cbn; split; [discriminate|]; intros (? & (? & ? & ?) & ?); simplify_eq; destruct_and?; exfalso;
  repeat match goal with
    | H : Throw _ = Ret _ <-> _ |- _ => refine (throw_not_Ret _ _ (proj2 H _)); clear H
    end;
  try split_and!; solve [done|lia|intuition (congruence || lia)].

Lemma renew_granted input s :
  log_wf s -> granted (CallRenew input) s = true <-> entitled (CallRenew input) s.
Proof.
  intros W. cbn [granted entitled]. unfold renew, presents. rewrite act_lift_bind.
  destruct (current s) as [r|] eqn:Hc.
  2: { destruct (validateRenewRuntimeOwnershipInput input) as [[]|]; [|refused].
       rewrite act_gets_bind, Hc. refused. }
  destruct (wf_current s W r Hc) as [Hr _]. pose proof (proj1 (valid_record_spec r) Hr) as Hrv.
  destruct (latest_bounds s r W Hc). pose proof (renew_input_spec input) as Hspec.
  destruct (validateRenewRuntimeOwnershipInput input) as [[]|]; [|refused].
  rewrite act_gets_bind, Hc, act_lift_bind. unfold valid_record in Hr. rewrite Hr.
  pose proof (not_owner_test r (ro_ownerToken input) (ro_generation input)) as Ht.
  destruct (_ || _); [refused|].
  rewrite maximumEventTimestamp_bind, (max_over_wf _ _ _ W), act_lift_bind, (rollback_guard s r) by done.
  case_decide; [|refused].
  destruct (_ || _ || _) eqn:Hlate.
  { rewrite !orb_true_iff, bool_decide_eq_true, !Z.leb_le in Hlate. refused. }
  rewrite !orb_false_iff, bool_decide_eq_false, !Z.leb_gt in Hlate.
  rewrite act_lift_bind. set (r' := Build_RuntimeOwnershipRecord _ _ _ _ _ _).
  assert (Hr' : valid_record r').
  { apply valid_record_spec. subst r'. cbn [own_ownerToken own_generation own_acquiredAtEpochMs
      own_heartbeatAtEpochMs own_expiresAtEpochMs].
    pose proof (proj1 Hspec eq_refl). pose proof (proj1 Ht eq_refl). destruct_and!. split_and!; solve [done|lia]. }
  unfold valid_record in Hr'. rewrite Hr', act_modify_bind. cbn. split; [|done]. intros _.
  pose proof (proj1 Hspec eq_refl). pose proof (proj1 Ht eq_refl). destruct_and!. exists r. split_and!; solve [done|lia].
Qed.

Lemma release_granted input s :
  log_wf s -> granted (CallRelease input) s = true <-> entitled (CallRelease input) s.
Proof.
  intros W. cbn [granted entitled]. unfold release, presents. rewrite act_lift_bind.
  destruct (current s) as [r|] eqn:Hc.
  2: { destruct (validateReleaseRuntimeOwnershipInput input) as [[]|]; [|refused].
       rewrite act_gets_bind, Hc. refused. }
  destruct (wf_current s W r Hc) as [Hr _]. pose proof (proj1 (valid_record_spec r) Hr) as Hrv.
  destruct (latest_bounds s r W Hc). pose proof (release_input_spec input) as Hspec.
  destruct (validateReleaseRuntimeOwnershipInput input) as [[]|]; [|refused].
  rewrite act_gets_bind, Hc, act_lift_bind. unfold valid_record in Hr. rewrite Hr.
  pose proof (not_owner_test r (rel_ownerToken input) (rel_generation input)) as Ht.
  destruct (_ || _); [refused|].
  rewrite maximumEventTimestamp_bind, (max_over_wf _ _ _ W), act_lift_bind, (rollback_guard s r) by done.
  case_decide; [|refused].
  destruct (_ <=? _) eqn:Hlate; [apply Z.leb_le in Hlate; refused|apply Z.leb_gt in Hlate].
  rewrite act_bind_eq. pose proof (proj1 Hspec eq_refl). pose proof (proj1 Ht eq_refl). destruct_and!.
  destruct (decide (nextEventId s <= MAX_SAFE_INTEGER)).
  - edestruct (appendEvent_valid (own_generation r) OwnershipEvent.RELEASED (own_executionMode r)
      "CLEAN_RELEASE" (rel_releasedAtEpochMs input) s) as (e & -> & _);
      [done|lia|lia|rewrite (wf_next s W); split; [lia|by rewrite <- (wf_next s W)]|].
    cbn. split; [|done]. intros _. exists r. split_and!; solve [done|lia].
  - edestruct appendEvent_invalid as [msg ->]; [|refused]. lia.
Qed.

Lemma lost_granted input s :
  log_wf s -> granted (CallLost input) s = true <-> entitled (CallLost input) s.
Proof.
  intros W. cbn [granted entitled]. unfold recordLost, presents. rewrite act_lift_bind.
  destruct (current s) as [r|] eqn:Hc.
  2: { destruct (validateRecordRuntimeOwnershipLostInput input) as [[]|]; [|refused].
       rewrite act_gets_bind, Hc. refused. }
  destruct (wf_current s W r Hc) as [Hr _]. pose proof (proj1 (valid_record_spec r) Hr) as Hrv.
  destruct (latest_bounds s r W Hc). pose proof (lost_input_spec input) as Hspec.
  destruct (validateRecordRuntimeOwnershipLostInput input) as [[]|]; [|refused].
  rewrite act_gets_bind, Hc, act_lift_bind. unfold valid_record in Hr. rewrite Hr.
  pose proof (not_owner_test r (lost_ownerToken input) (lost_generation input)) as Ht.
  destruct (_ || _); [refused|].
  rewrite maximumEventTimestamp_bind, (max_over_wf _ _ _ W), act_lift_bind, (rollback_guard s r) by done.
  case_decide; [|refused].
  rewrite act_bind_eq. pose proof (proj1 Hspec eq_refl). pose proof (proj1 Ht eq_refl). destruct_and!.
  destruct (decide (nextEventId s <= MAX_SAFE_INTEGER)).
  - edestruct (appendEvent_valid (own_generation r) OwnershipEvent.LOST (own_executionMode r)
      (lost_reasonCode input) (lost_lostAtEpochMs input) s) as (e & -> & _);
      [done|lia|lia|rewrite (wf_next s W); split; [lia|by rewrite <- (wf_next s W)]|].
    cbn. split; [|done]. intros _. exists r. split_and!; solve [done|lia].
  - edestruct appendEvent_invalid as [msg ->]; [|refused]. lia.
Qed.

Lemma high_nonneg s : log_wf s -> 0 <= high s.
Proof.
  intros W. unfold high. destruct (current s) as [r|] eqn:Hc; [|apply log_max_start].
  destruct (wf_current s W r Hc) as [(_ & ? & _)%valid_record_spec _].
  pose proof (log_max_start oev_generation (own_generation r) (events s)). lia.
Qed.

Lemma acquire_granted input s :
  log_wf s -> granted (CallAcquire input) s = true <-> entitled (CallAcquire input) s.
Proof.
  intros W. cbn [granted entitled]. unfold acquireAfterProcessLock. rewrite act_lift_bind.
  pose proof (acquire_input_spec input) as Hspec.
  destruct (validateAcquireRuntimeOwnershipInput input) as [[]|].
  2: { cbn. split; [discriminate|]. intros (? & ? & ? & _). exfalso.
       refine (throw_not_Ret _ _ (proj2 Hspec _)). split_and!; solve [done|lia]. }
  rewrite act_gets_bind, act_lift_bind, (validate_current_wf _ W), maximumEventTimestamp_bind,
    (max_over_wf _ _ _ W), act_lift_bind.
  change (Z.max (match current s with Some r => own_heartbeatAtEpochMs r | None => 0 end)
            (log_max oev_eventAtEpochMs 0 (events s))) with (latest s).
  unfold assertNoTimestampRollback, throw_if at 1. destruct (_ <? latest s) eqn:Hlate.
  { apply Z.ltb_lt in Hlate. cbn. split; [discriminate|lia]. }
  apply Z.ltb_ge in Hlate.
  rewrite act_gets_bind, act_lift_bind, (max_over_wf _ _ _ W), act_lift_bind.
  fold (high s). unfold throw_if at 1. destruct (MAX_SAFE_INTEGER <=? high s) eqn:Hhigh.
  { apply Z.leb_le in Hhigh. cbn. split; [discriminate|lia]. }
  apply Z.leb_gt in Hhigh. pose proof (high_nonneg s W). destruct (proj1 Hspec eq_refl) as (? & ? & ?).
  rewrite act_lift_bind. set (r := Build_RuntimeOwnershipRecord _ _ _ _ _ _).
  assert (Hr : valid_record r).
  { apply valid_record_spec. subst r. cbn [own_ownerToken own_generation own_acquiredAtEpochMs
      own_heartbeatAtEpochMs own_expiresAtEpochMs]. split_and!; solve [done|lia]. }
  unfold valid_record in Hr. rewrite Hr, act_modify_bind, act_bind_eq.
  destruct (decide (nextEventId s <= MAX_SAFE_INTEGER)).
  - edestruct (appendEvent_valid (own_generation r)
      (if match current s with Some _ => true | None => false end
       then OwnershipEvent.TAKEN_OVER else OwnershipEvent.ACQUIRED)
      (own_executionMode r) "PROCESS_LOCK_ACQUIRED" (ao_acquiredAtEpochMs input)
      (set_current (Some r) s)) as (e & -> & _);
      [done|cbn in *; lia|lia|cbn; rewrite (wf_next s W) in *; lia|].
    cbn. split; [intros _; split_and!; solve [done|lia]|done].
  - edestruct appendEvent_invalid as [msg ->]; [cbn; lia|]. cbn. split; [discriminate|lia].
Qed.

Lemma granted_entitled c s : log_wf s -> granted c s = true <-> entitled c s.
Proof.
  destruct c; [apply acquire_granted|apply renew_granted|apply release_granted|apply lost_granted].
Qed.

(** ** Fencing *)

(** Everything the store knows is at generation [g] or above. *)
Definition beyond (g : Z) (s : store) : Prop :=
  g <= high s /\ forall r, current s = Some r -> g <= own_generation r.

Lemma high_push s e r : 
  high (push_event e (set_current r s))
  = Z.max (log_max oev_generation (match r with Some r => own_generation r | None => 0 end)
             (events s)) (oev_generation e).
Proof. unfold high. cbn. by rewrite log_max_app. Qed.

Lemma beyond_step g c s b s' : beyond g s -> protocol_step c s b s' -> beyond g s'.
Proof.
  intros [Hh Hc].
  destruct 1 as [|i s r e _ _ _ (Hr & Hg & _) (_ & _ & He & _) _|i s r _ (Hr & Hg & _) _
    |i s r r' (Hcur & _) _ _ Hgen _ _ _ _|i s r e (Hcur & _) (_ & _ & He & _) _ _
    |i s r e (Hcur & _) (_ & _ & He & _) _ _].
  - done.
  - split; [rewrite high_push; lia|]. cbn. intros ? [= <-]. lia.
  - split; [|cbn; intros ? [= <-]; lia].
    pose proof (high_current (set_current (Some r) s) r eq_refl). lia.
  - specialize (Hc r Hcur). split; [|cbn; intros ? [= <-]; lia].
    pose proof (high_current (set_current (Some r') s) r' eq_refl). lia.
  - specialize (Hc r Hcur). split; [|done].
    assert (oev_generation e <= high (set_current None (push_event e s))); [|lia].
    apply high_event. cbn. apply elem_of_app. right. left.
  - specialize (Hc r Hcur). split; [|cbn; by intros ? [= <-]%(eq_trans (eq_sym Hcur))].
    assert (oev_generation e <= high (push_event e s)); [|lia].
    apply high_event. cbn. apply elem_of_app. right. left.
Qed.

Lemma beyond_performs g cs s : beyond g s -> beyond g (performs cs s).
Proof.
  revert s. induction cs as [|c cs IH]; intros s H; [done|].
  apply IH. eapply beyond_step; [done|apply perform_protocol].
Qed.

Lemma acquire_generation input s s' a :
  acquireAfterProcessLock input s = (s', Ret a) ->
  own_generation (acquisition_record a) = high s + 1
  /\ current s' = Some (acquisition_record a)
  /\ beyond (own_generation (acquisition_record a)) s'.
Proof.
  destruct (acquire_cases input s)
    as [(r & e & -> & (_ & Hg & _) & _ & _ & _ & (_ & _ & He & _) & _)
       |[(r & msg & -> & _)|[msg ->]]]; [|done..].
  intros [= <- <-]. cbn. split_and!; [done|done|]. split; [rewrite high_push; lia|].
  cbn. by intros ? [= <-].
Qed.

(** A holder of an older generation can change nothing any more. *)
Lemma stale_refused g s :
  beyond (g + 1) s ->
  (forall input, ro_generation input = g ->
     fst (renew input s) = s /\ forall r, snd (renew input s) ≠ Ret (Some r))
  /\ (forall input, rel_generation input = g ->
     fst (release input s) = s /\ snd (release input s) ≠ Ret true)
  /\ (forall input, lost_generation input = g ->
     fst (recordLost input s) = s /\ snd (recordLost input s) ≠ Ret true).
Proof.
  intros [_ Hc]. split_and!; intros input Hg.
  - destruct (renew_cases input s) as [(r & r' & _ & Er & _ & Hr & _)|[->|[msg ->]]];
      [specialize (Hc _ Er); lia|done..].
  - destruct (release_cases input s) as [(r & e & _ & Er & _ & Hr & _)|[->|[msg ->]]];
      [specialize (Hc _ Er); lia|done..].
  - destruct (recordLost_cases input s) as [(r & e & _ & Er & _ & Hr & _)|[->|[msg ->]]];
      [specialize (Hc _ Er); lia|done..].
Qed.

(** ** Theorems *)

(** C28: the ownership store implements the abstract protocol.  Whatever the
    call, it is a step the protocol has for that call and that answer: a
    refused call changes nothing (except an acquisition whose event identifier
    overflowed), an acquisition installs the caller's token at the next
    generation, and a renewal, a release and a loss report take effect only
    for a caller that presents the token and the generation of the current
    owner, a renewal and a release before its expiry, at a time no earlier
    than any recorded.  In every reachable store exactly the entitled calls
    are answered with a success. *)
Theorem store_refines_protocol c s :
  protocol_step c s (granted c s) (perform c s) /\
  (reachable s -> granted c s = true <-> entitled c s).
Proof. split; [apply perform_protocol|]. intros H. by apply granted_entitled, reachable_log_wf. Qed.

(** In every reachable store the log is numbered 1, 2, 3, ... without a
    gap, its times and generations never decrease, and the current owner has
    the highest generation in it. *)
Theorem ownership_log_invariant s : reachable s -> log_wf s.
Proof. exact (reachable_log_wf s). Qed.

(** C12: Fencing.  Of two acquisitions the later has the greater generation,
    and from then on, whatever else is called, a renewal, release or loss
    report with the earlier generation is refused and changes nothing. *)
Theorem ownership_fencing input1 s s1 a1 cs input2 s2 a2 cs' :
  acquireAfterProcessLock input1 s = (s1, Ret a1) ->
  acquireAfterProcessLock input2 (performs cs s1) = (s2, Ret a2) ->
  let g := own_generation (acquisition_record a1) in
  let later := performs cs' s2 in
  g < own_generation (acquisition_record a2)
  /\ (forall input, ro_generation input = g ->
        fst (renew input later) = later /\ forall r, snd (renew input later) ≠ Ret (Some r))
  /\ (forall input, rel_generation input = g ->
        fst (release input later) = later /\ snd (release input later) ≠ Ret true)
  /\ (forall input, lost_generation input = g ->
        fst (recordLost input later) = later /\ snd (recordLost input later) ≠ Ret true).
Proof.
  intros H1 H2 g later. apply acquire_generation in H1 as (_ & _ & B1).
  apply (beyond_performs _ cs) in B1. apply acquire_generation in H2 as (G2 & _ & B2).
  destruct B1 as [B1 _]. subst g later. split; [lia|]. apply stale_refused.
  apply (beyond_performs _ cs') in B2 as [Bh Bc]. split; [lia|].
  intros r Hr. specialize (Bc r Hr). lia.
Qed.

Definition token_a : string :=
  "AAAAAAAAAAAAAAAAAAAAAAAAAAAAAAAAAAAAAAAAAAAAAAAAAAAAAAAAAAAAAAAA".
Definition token_b : string :=
  "b_b-b0b_b-b0b_b-b0b_b-b0b_b-b0b_b-b0b_b-b0b_b-b0b_b-b0b_b-b0b_b-".
Definition scope : string :=
  "0123456789abcdef0123456789abcdef0123456789abcdef0123456789abcdef".

Definition empty_store : store := {| current := None; events := []; nextEventId := 1 |}.

Definition acquire_at (token : string) (t : Z) : AcquireRuntimeOwnershipInput :=
  {| ao_ownerToken := token; ao_executionMode := Mode.DRY_RUN;
     ao_acquiredAtEpochMs := t; ao_expiresAtEpochMs := t + 30000 |}.

Definition calls_of_a : list call :=
  [CallRenew {| ro_ownerToken := token_a; ro_generation := 1;
                ro_heartbeatAtEpochMs := 11000; ro_expiresAtEpochMs := 41000 |};
   CallLost {| lost_ownerToken := token_a; lost_generation := 1; lost_lostAtEpochMs := 12000;
               lost_reasonCode := "HEARTBEAT_TIMEOUT" |}].

Lemma ownership_log_invariant_witness :
  log_wf (performs (CallAcquire (acquire_at token_a 10000) :: calls_of_a) empty_store).
Proof.
  apply ownership_log_invariant. exists scope, empty_store. split; [vm_compute; reflexivity|].
  cbn [performs foldl calls_of_a].
  eapply rtc_l; [apply call_performed|]. eapply rtc_l; [apply call_performed|].
  eapply rtc_l; [apply call_performed|]. apply rtc_refl.
Defined.

Definition first_acquired : store * outcome RuntimeOwnershipAcquisition :=
  Eval vm_compute in acquireAfterProcessLock (acquire_at token_a 10000) empty_store.

Lemma store_refines_protocol_witness :
  let s := fst first_acquired in
  let renewal t := CallRenew {| ro_ownerToken := token_a; ro_generation := 1;
                ro_heartbeatAtEpochMs := t; ro_expiresAtEpochMs := 60000 |} in
  (granted (renewal 11000) s = true <-> entitled (renewal 11000) s) /\
  granted (renewal 11000) s = true /\ granted (renewal 50000) s = false.
Proof.
  cbv zeta. split; [|split; vm_compute; reflexivity].
  apply store_refines_protocol. exists scope, empty_store. split; [vm_compute; reflexivity|].
  apply rtc_once. exact (call_performed (CallAcquire (acquire_at token_a 10000)) empty_store).
Defined.

Definition second_acquired : store * outcome RuntimeOwnershipAcquisition :=
  Eval vm_compute in
    acquireAfterProcessLock (acquire_at token_b 50000) (performs calls_of_a (fst first_acquired)).

Definition acquired (m : outcome RuntimeOwnershipAcquisition) : RuntimeOwnershipAcquisition :=
  match m with
  | Ret a => a
  | Throw _ => Build_RuntimeOwnershipAcquisition
      (Build_RuntimeOwnershipRecord "" 0 Mode.DRY_RUN 0 0 0) false
  end.

Lemma ownership_fencing_witness :
  fst (release {| rel_ownerToken := token_a; rel_generation := 1; rel_releasedAtEpochMs := 51000 |}
         (fst second_acquired)) = fst second_acquired.
Proof.
  refine (proj1 (proj1 (proj2 (proj2
    (ownership_fencing (acquire_at token_a 10000) empty_store (fst first_acquired)
       (acquired (snd first_acquired)) calls_of_a (acquire_at token_b 50000)
       (fst second_acquired) (acquired (snd second_acquired)) [] _ _))) _ _));
    vm_compute; reflexivity.
Defined.

(** The events logged by the two acquisitions and the loss. *)
Example logged :
  (fun e => (oev_id e, oev_generation e, oev_eventType e)) <$> events (fst second_acquired)
  = [(1, 1, OwnershipEvent.ACQUIRED); (2, 1, OwnershipEvent.LOST);
     (3, 2, OwnershipEvent.TAKEN_OVER)].
Proof. reflexivity. Qed.
