(* ===== verification/OperatorState.v ===== *)
(** * OperatorState: pause, kill switch, degradation

    [InMemoryOperatorStateStore] of
    [modules/db/repositories/in-memory-repositories.ts] with the fault-pause
    validators of [modules/db/repositories/atomic-lifecycle-validation.ts] and
    the rollback authority of [modules/db/pilot-interfaces.ts]: one execution
    state, changed by the operator's commands and by automatic fault pauses,
    with a log of the transitions, newest first.  [new Date()] is an argument
    in epoch milliseconds.  [composeExecutionPolicy] of
    [modules/execution/execution-service.ts] is the policy the risk guards see
    of a state. *)

From Stdlib Require Import ZArith Lia.
From stdpp Require Import base option list strings.
From S2P Require Import Prelude Num Types Text Timestamp Risk.

Local Open Scope string_scope.
Local Open Scope js_scope.
Local Open Scope bool_scope.

(** ** Data *)

(** [ExecutionStateRecord], [domain/types.ts] *)
Record ExecutionStateRecord := {
  es_id : string;
  es_exchangeAccountId : string;
  es_executionMode : ExecutionMode;
  es_liveExecutionGate : LiveExecutionGate;
  es_systemStatus : SystemStatus;
  es_killSwitchActive : bool;
  es_pauseReason : option string;
  es_degradedReason : option string;
  es_degradedAt : option string;
  es_updatedAt : string;
}.

Module Command.
Inductive ExecutionStateTransitionCommand : Set :=
| BOOTSTRAP | AUTOMATIC_PAUSE | Pause | Resume | Killswitch | SET_EXECUTION_MODE
| SET_LIVE_EXECUTION_GATE | MARK_DEGRADED | CLEAR_DEGRADED.
#[export] Instance ExecutionStateTransitionCommand_eq_dec :
  EqDecision ExecutionStateTransitionCommand.
Proof. solve_decision. Defined.
End Command.
Export (hints) Command.
Abbreviation TransitionCommand := Command.ExecutionStateTransitionCommand.

Record ExecutionStateTransitionRecord := {
  tr_id : string;
  tr_exchangeAccountId : string;
  tr_command : TransitionCommand;
  tr_fromExecutionMode : option ExecutionMode;
  tr_toExecutionMode : ExecutionMode;
  tr_fromLiveExecutionGate : option LiveExecutionGate;
  tr_toLiveExecutionGate : LiveExecutionGate;
  tr_fromSystemStatus : option SystemStatus;
  tr_toSystemStatus : SystemStatus;
  tr_fromKillSwitchActive : option bool;
  tr_toKillSwitchActive : bool;
  tr_reason : option string;
  tr_createdAt : string;
}.

(** [FaultPauseInput], [modules/db/interfaces.ts] *)
Record FaultPauseInput := {
  fp_exchangeAccountId : string;
  fp_faultId : string;
  fp_reason : string;
  fp_occurredAt : string;
  fp_transitionAt : option string;
}.

(** The fields of the class. *)
Record InMemoryOperatorStateStore := {
  state : ExecutionStateRecord;
  transitions : list ExecutionStateTransitionRecord;
}.

(** [constructor(state)] *)
Definition new_operator_store (s : ExecutionStateRecord) : InMemoryOperatorStateStore := {|
  state := s;
  transitions := [{|
    tr_id := "execution_state_transition_bootstrap";
    tr_exchangeAccountId := es_exchangeAccountId s;
    tr_command := Command.BOOTSTRAP;
    tr_fromExecutionMode := None;
    tr_toExecutionMode := es_executionMode s;
    tr_fromLiveExecutionGate := None;
    tr_toLiveExecutionGate := es_liveExecutionGate s;
    tr_fromSystemStatus := None;
    tr_toSystemStatus := es_systemStatus s;
    tr_fromKillSwitchActive := None;
    tr_toKillSwitchActive := es_killSwitchActive s;
    tr_reason := Some "bootstrap_seed";
    tr_createdAt := es_updatedAt s;
  |}];
|}.

(** ** Fault-pause validators *)

Definition validateFaultPauseInput (input : FaultPauseInput) : outcome unit :=
  _ ← throw_if ((fp_exchangeAccountId input === "") || is_blank (fp_faultId input)
                || is_blank (fp_reason input))
        "Automatic fault pauses require non-empty account, faultId, and reason.";
  _ ← parseStrictIsoTimestamp (fp_occurredAt input) "occurredAt";
  match fp_transitionAt input with
  | None => Ret tt
  | Some at_ =>
      occurredAt ← parseStrictIsoTimestamp (fp_occurredAt input) "occurredAt";
      transitionAt ← parseStrictIsoTimestamp at_ "transitionAt";
      throw_if (transitionAt <? occurredAt)%Z
        "Automatic fault pause transitionAt cannot predate fault occurrence."
  end.

Definition validateFaultPauseTimestamp (input : FaultPauseInput) (current : ExecutionStateRecord)
    : outcome string :=
  let requestedTransitionAt := default (fp_occurredAt input) (fp_transitionAt input) in
  requestedEpoch ← parseStrictIsoTimestamp requestedTransitionAt "transitionAt";
  currentEpoch ← parseStrictIsoTimestamp (es_updatedAt current) "current updatedAt";
  _ ← throw_if ((fp_transitionAt input === None) && (requestedEpoch <? currentEpoch)%Z)
        "Automatic fault pause occurredAt cannot predate current execution state.";
  Ret (if (requestedEpoch <? currentEpoch)%Z then es_updatedAt current else requestedTransitionAt).

Definition deriveFaultPauseTransitionAt (occurredAt currentUpdatedAt : string) : outcome string :=
  occurredAtEpoch ← parseStrictIsoTimestamp occurredAt "occurredAt";
  currentEpoch ← parseStrictIsoTimestamp currentUpdatedAt "current updatedAt";
  Ret (if (occurredAtEpoch <? currentEpoch)%Z then currentUpdatedAt else occurredAt).

Definition faultPauseTransitionMatchesOccurrence (input : FaultPauseInput) (transitionAt : string)
    : bool :=
  match fp_transitionAt input with
  | None => transitionAt === fp_occurredAt input
  | Some _ =>
      match parseStrictIsoTimestamp transitionAt "persisted transition createdAt",
            parseStrictIsoTimestamp (fp_occurredAt input) "occurredAt" with
      | Ret t, Ret o => (o <=? t)%Z
      | _, _ => false
      end
  end.

Definition formatFaultPauseReason (input : FaultPauseInput) : string :=
  "faultId=" ++ fp_faultId input ++ "; reason=" ++ fp_reason input.

(** ** Status resolution *)

(** A nullable text in a condition: null and the empty text are false. *)
Definition truthy (value : option string) : bool :=
  match value with Some s => negb (s === "") | None => false end.

Definition resolveResumedSystemStatus (s : ExecutionStateRecord) : SystemStatus :=
  if es_killSwitchActive s then SysStatus.KILL_SWITCHED
  else if truthy (es_degradedReason s) || truthy (es_degradedAt s) then SysStatus.DEGRADED
  else SysStatus.RUNNING.

Definition resolveSystemStatusForDegradation (s : ExecutionStateRecord) : SystemStatus :=
  if es_killSwitchActive s || (es_systemStatus s === SysStatus.KILL_SWITCHED)
  then SysStatus.KILL_SWITCHED
  else if es_systemStatus s === SysStatus.PAUSED then SysStatus.PAUSED
  else SysStatus.DEGRADED.

(** ** The store *)

Abbreviation store_action := (action InMemoryOperatorStateStore).

Definition transition_id (count : nat) : string :=
  "execution_state_transition_" ++ Z_to_string (Z.of_nat count).

Definition transition_of (fromState toState : ExecutionStateRecord) (command : TransitionCommand)
    (reason : option string) (id : string) : ExecutionStateTransitionRecord := {|
  tr_id := id;
  tr_exchangeAccountId := es_exchangeAccountId toState;
  tr_command := command;
  tr_fromExecutionMode := Some (es_executionMode fromState);
  tr_toExecutionMode := es_executionMode toState;
  tr_fromLiveExecutionGate := Some (es_liveExecutionGate fromState);
  tr_toLiveExecutionGate := es_liveExecutionGate toState;
  tr_fromSystemStatus := Some (es_systemStatus fromState);
  tr_toSystemStatus := es_systemStatus toState;
  tr_fromKillSwitchActive := Some (es_killSwitchActive fromState);
  tr_toKillSwitchActive := es_killSwitchActive toState;
  tr_reason := reason;
  tr_createdAt := es_updatedAt toState;
|}.

(** The default identifier counts the transitions. *)
Definition recordTransition (fromState toState : ExecutionStateRecord) (command : TransitionCommand)
    (reason : option string) (id : option string) : store_action unit :=
  act_modify (fun s => {|
    state := state s;
    transitions :=
      transition_of fromState toState command reason
        (default (transition_id (S (length (transitions s)))) id) :: transitions s;
  |}).

Definition set_state (next : ExecutionStateRecord) (s : InMemoryOperatorStateStore)
    : InMemoryOperatorStateStore :=
  {| state := next; transitions := transitions s |}.

(** [this.state = next; this.recordTransition(previous, this.state, ...);
    return this.state] *)
Definition assign_and_record (next : ExecutionStateRecord) (command : TransitionCommand)
    (reason : option string) (id : option string) : store_action ExecutionStateRecord :=
  previous ← act_gets state;
  _ ← act_modify (set_state next);
  _ ← recordTransition previous next command reason id;
  act_gets state.

Definition with_status (s : ExecutionStateRecord) (status : SystemStatus) (killSwitch : bool)
    (pauseReason : option string) (updatedAt : string) : ExecutionStateRecord := {|
  es_id := es_id s;
  es_exchangeAccountId := es_exchangeAccountId s;
  es_executionMode := es_executionMode s;
  es_liveExecutionGate := es_liveExecutionGate s;
  es_systemStatus := status;
  es_killSwitchActive := killSwitch;
  es_pauseReason := pauseReason;
  es_degradedReason := es_degradedReason s;
  es_degradedAt := es_degradedAt s;
  es_updatedAt := updatedAt;
|}.

Definition with_settings (s : ExecutionStateRecord) (mode : ExecutionMode)
    (gate : LiveExecutionGate) (updatedAt : string) : ExecutionStateRecord := {|
  es_id := es_id s;
  es_exchangeAccountId := es_exchangeAccountId s;
  es_executionMode := mode;
  es_liveExecutionGate := gate;
  es_systemStatus := es_systemStatus s;
  es_killSwitchActive := es_killSwitchActive s;
  es_pauseReason := es_pauseReason s;
  es_degradedReason := es_degradedReason s;
  es_degradedAt := es_degradedAt s;
  es_updatedAt := updatedAt;
|}.

Definition with_degradation (s : ExecutionStateRecord) (status : SystemStatus)
    (reason at_ : option string) (updatedAt : string) : ExecutionStateRecord := {|
  es_id := es_id s;
  es_exchangeAccountId := es_exchangeAccountId s;
  es_executionMode := es_executionMode s;
  es_liveExecutionGate := es_liveExecutionGate s;
  es_systemStatus := status;
  es_killSwitchActive := es_killSwitchActive s;
  es_pauseReason := es_pauseReason s;
  es_degradedReason := reason;
  es_degradedAt := at_;
  es_updatedAt := updatedAt;
|}.

(** [value ?? fallback] between nullable texts *)
Definition nullish (value fallback : option string) : option string :=
  match value with Some v => Some v | None => fallback end.

Definition getState : store_action ExecutionStateRecord := act_gets state.

(** [this.transitions.slice(0, limit)] for a limit that is not negative *)
Definition listTransitions (limit : nat) : store_action (list ExecutionStateTransitionRecord) :=
  act_gets (fun s => take limit (transitions s)).

Definition find_transition (id : string) (log : list ExecutionStateTransitionRecord)
    : option ExecutionStateTransitionRecord :=
  List.find (fun t => tr_id t === id) log.

Definition getTransitionById (id : string) : store_action (option ExecutionStateTransitionRecord) :=
  act_gets (fun s => find_transition id (transitions s)).

(** [PAUSED] or [KILL_SWITCHED] *)
Definition halted (status : SystemStatus) : bool :=
  (status === SysStatus.PAUSED) || (status === SysStatus.KILL_SWITCHED).

(** The retry of a recorded pause is accepted. *)
Definition same_fault_pause (input : FaultPauseInput) (existing : ExecutionStateTransitionRecord)
    (current : ExecutionStateRecord) : bool :=
  (tr_command existing === Command.AUTOMATIC_PAUSE)
  && (tr_exchangeAccountId existing === fp_exchangeAccountId input)
  && (tr_reason existing === Some (formatFaultPauseReason input))
  && faultPauseTransitionMatchesOccurrence input (tr_createdAt existing)
  && halted (es_systemStatus current).

Definition applyFaultPauseAtomically (input : FaultPauseInput) : store_action ExecutionStateRecord :=
  _ ← act_lift (validateFaultPauseInput input);
  current ← act_gets state;
  _ ← act_lift (throw_if (fp_exchangeAccountId input !== es_exchangeAccountId current)
        ("Fault " ++ fp_faultId input ++ " is for a different exchange account."));
  let reason := formatFaultPauseReason input in
  existing ← getTransitionById (fp_faultId input);
  match existing with
  | Some existing =>
      if same_fault_pause input existing current then act_ret current
      else act_lift (Throw ("Conflicting duplicate automatic pause " ++ fp_faultId input ++ "."))
  | None =>
      transitionAt ← act_lift (validateFaultPauseTimestamp input current);
      let preservesKillSwitch :=
        es_killSwitchActive current || (es_systemStatus current === SysStatus.KILL_SWITCHED) in
      assign_and_record
        (with_status current
           (if preservesKillSwitch then SysStatus.KILL_SWITCHED else SysStatus.PAUSED)
           (es_killSwitchActive current)
           (if preservesKillSwitch then es_pauseReason current else Some reason) transitionAt)
        Command.AUTOMATIC_PAUSE (Some reason) (Some (fp_faultId input))
  end.

Definition pauseForFault (input : FaultPauseInput) : store_action ExecutionStateRecord :=
  applyFaultPauseAtomically input.

Definition pause (reason : option string) (clock : Z) : store_action ExecutionStateRecord :=
  current ← act_gets state;
  assign_and_record
    (with_status current
       (if es_killSwitchActive current then SysStatus.KILL_SWITCHED else SysStatus.PAUSED)
       (es_killSwitchActive current) (nullish reason (es_pauseReason current)) (toISOString clock))
    Command.Pause (nullish reason (nullish reason (es_pauseReason current))) None.

Definition resume (clock : Z) : store_action ExecutionStateRecord :=
  current ← act_gets state;
  assign_and_record
    (with_status current (resolveResumedSystemStatus current) (es_killSwitchActive current) None
       (toISOString clock))
    Command.Resume None None.

Definition activateKillSwitch (reason : option string) (clock : Z)
    : store_action ExecutionStateRecord :=
  current ← act_gets state;
  assign_and_record
    (with_status current SysStatus.KILL_SWITCHED true
       (nullish reason (es_pauseReason current)) (toISOString clock))
    Command.Killswitch (nullish reason (nullish reason (es_pauseReason current))) None.

Definition setExecutionMode (mode : ExecutionMode) (clock : Z)
    : store_action ExecutionStateRecord :=
  current ← act_gets state;
  assign_and_record (with_settings current mode (es_liveExecutionGate current) (toISOString clock))
    Command.SET_EXECUTION_MODE (Some (Mode.to_string mode)) None.

Definition setLiveExecutionGate (gate : LiveExecutionGate) (clock : Z)
    : store_action ExecutionStateRecord :=
  current ← act_gets state;
  assign_and_record (with_settings current (es_executionMode current) gate (toISOString clock))
    Command.SET_LIVE_EXECUTION_GATE (Some (Gate.to_string gate)) None.

(** The clock is read once for [degradedAt] and once for [updatedAt]. *)
Definition markDegraded (reason : option string) (clock clock' : Z)
    : store_action ExecutionStateRecord :=
  current ← act_gets state;
  let degradedReason :=
    default "startup_portfolio_drift_detected" (nullish reason (es_degradedReason current)) in
  let degradedAt := default (toISOString clock) (es_degradedAt current) in
  assign_and_record
    (with_degradation current (resolveSystemStatusForDegradation current) (Some degradedReason)
       (Some degradedAt) (toISOString clock'))
    Command.MARK_DEGRADED (Some degradedReason) None.

Definition clearDegraded (reason : option string) (clock : Z)
    : store_action ExecutionStateRecord :=
  current ← act_gets state;
  assign_and_record
    (with_degradation current
       (if es_systemStatus current === SysStatus.DEGRADED then SysStatus.RUNNING
        else es_systemStatus current)
       None None (toISOString clock))
    Command.CLEAR_DEGRADED (Some (default "startup_recovery_clean" reason)) None.

(** ** The rollback authority *)

(** [CandidatePilotRollbackOperatorState], [modules/db/pilot-interfaces.ts] *)
Record CandidatePilotRollbackOperatorState := {
  ros_id : string;
  ros_exchangeAccountId : string;
  ros_systemStatus : SystemStatus;
  ros_updatedAt : string;
}.

Definition validateCandidatePilotRollbackOperatorState
    (value : CandidatePilotRollbackOperatorState) : outcome CandidatePilotRollbackOperatorState :=
  _ ← requireNonEmpty (ros_id value) "candidate pilot rollback execution state id";
  _ ← requireNonEmpty (ros_exchangeAccountId value)
        "candidate pilot rollback execution state exchangeAccountId";
  _ ← throw_if (negb (halted (ros_systemStatus value)))
        "Candidate pilot rollback expected operator state must be PAUSED or KILL_SWITCHED.";
  _ ← parsePositionGuardCandidateTimestamp (ros_updatedAt value)
        "candidate pilot rollback expected operator state updatedAt";
  Ret value.

Definition matchesCandidatePilotRollbackOperatorState (current : ExecutionStateRecord)
    (expected : CandidatePilotRollbackOperatorState) (deploymentExchangeAccountId : string) : bool :=
  (ros_exchangeAccountId expected === deploymentExchangeAccountId)
  && (es_id current === ros_id expected)
  && (es_exchangeAccountId current === ros_exchangeAccountId expected)
  && (es_systemStatus current === ros_systemStatus expected)
  && (es_updatedAt current === ros_updatedAt expected)
  && halted (es_systemStatus current).

(** The operation acts on the fields [R] of its caller while the operator
    state [this] stands still; no authority is [None]. *)
Definition runWithCandidatePilotRollbackAuthority {R A} (this : InMemoryOperatorStateStore)
    (expected : CandidatePilotRollbackOperatorState) (operation : action R A) : action R (option A) :=
  authority ← act_lift (validateCandidatePilotRollbackOperatorState expected);
  if negb (matchesCandidatePilotRollbackOperatorState (state this) authority
             (ros_exchangeAccountId authority))
  then act_ret None
  else value ← operation; act_ret (Some value).

(** ** The policy of a state *)

Module SendPath.
Inductive ExecutionSendPath : Set := DRY_RUN_ADAPTER | LIVE_ADAPTER.
#[export] Instance ExecutionSendPath_eq_dec : EqDecision ExecutionSendPath.
Proof. solve_decision. Defined.
End SendPath.
Export (hints) SendPath.

(** [ExecutionRiskLimits], [domain/types.ts] *)
Record ExecutionRiskLimits := {
  limit_maxAllocationByAsset : SupportedAsset -> num;
  limit_totalExposureCap : num;
  limit_stalePriceThresholdMs : num;
  limit_minimumOrderValueKrw : num;
}.

Definition executionModeForAdapter (sendPath : SendPath.ExecutionSendPath) : ExecutionMode :=
  if sendPath === SendPath.LIVE_ADAPTER then Mode.LIVE else Mode.DRY_RUN.

Definition composeExecutionPolicy (s : ExecutionStateRecord) (riskLimits : ExecutionRiskLimits)
    (sendPath : SendPath.ExecutionSendPath) : ExecutionPolicy := {|
  executionMode := executionModeForAdapter sendPath;
  liveExecutionGate :=
    if sendPath === SendPath.LIVE_ADAPTER then Gate.ENABLED else Gate.DISABLED;
  globalKillSwitch := es_killSwitchActive s;
  maxAllocationByAsset := limit_maxAllocationByAsset riskLimits;
  totalExposureCap := limit_totalExposureCap riskLimits;
  stalePriceThresholdMs := limit_stalePriceThresholdMs riskLimits;
  minimumOrderValueKrw := limit_minimumOrderValueKrw riskLimits;
|}.

(** ** Calls and runs *)

Inductive operator_call : Set :=
| CallFaultPause (input : FaultPauseInput)
| CallPause (reason : option string) (clock : Z)
| CallResume (clock : Z)
| CallKillSwitch (reason : option string) (clock : Z)
| CallSetMode (mode : ExecutionMode) (clock : Z)
| CallSetGate (gate : LiveExecutionGate) (clock : Z)
| CallMarkDegraded (reason : option string) (clock clock' : Z)
| CallClearDegraded (reason : option string) (clock : Z).

Definition perform (c : operator_call) : store_action ExecutionStateRecord :=
  match c with
  | CallFaultPause input => pauseForFault input
  | CallPause reason clock => pause reason clock
  | CallResume clock => resume clock
  | CallKillSwitch reason clock => activateKillSwitch reason clock
  | CallSetMode mode clock => setExecutionMode mode clock
  | CallSetGate gate clock => setLiveExecutionGate gate clock
  | CallMarkDegraded reason clock clock' => markDegraded reason clock clock'
  | CallClearDegraded reason clock => clearDegraded reason clock
  end.

(** A caller that catches what a call throws and goes on. *)
Definition run (calls : list operator_call) (s : InMemoryOperatorStateStore)
    : InMemoryOperatorStateStore :=
  foldl (fun s c => fst (perform c s)) s calls.

(** The calls of a run that returned. *)
Fixpoint returned_calls (calls : list operator_call) (s : InMemoryOperatorStateStore)
    : list operator_call :=
  match calls with
  | [] => []
  | c :: calls' =>
      let '(s', r) := perform c s in
      (if returns r then [c] else []) ++ returned_calls calls' s'
  end.

(** ** The specification of the status

    Four flags with a priority: the kill switch, the pause, the degradation,
    and whether the process is still booting. *)

Record Flags := {
  f_killed : bool;
  f_paused : bool;
  f_degraded : bool;
  f_booting : bool;
}.

Definition status_of (f : Flags) : SystemStatus :=
  if f_killed f then SysStatus.KILL_SWITCHED
  else if f_paused f then SysStatus.PAUSED
  else if f_degraded f then SysStatus.DEGRADED
  else if f_booting f then SysStatus.BOOTING
  else SysStatus.RUNNING.

Definition flag_step (f : Flags) (c : operator_call) : Flags :=
  match c with
  | CallFaultPause _ | CallPause _ _ =>
      {| f_killed := f_killed f; f_paused := true; f_degraded := f_degraded f; f_booting := false |}
  | CallResume _ =>
      {| f_killed := f_killed f; f_paused := false; f_degraded := f_degraded f; f_booting := false |}
  | CallKillSwitch _ _ =>
      {| f_killed := true; f_paused := f_paused f; f_degraded := f_degraded f; f_booting := false |}
  | CallSetMode _ _ | CallSetGate _ _ => f
  | CallMarkDegraded _ _ _ =>
      {| f_killed := f_killed f; f_paused := f_paused f; f_degraded := true; f_booting := false |}
  | CallClearDegraded _ _ =>
      {| f_killed := f_killed f; f_paused := f_paused f; f_degraded := false;
         f_booting := f_booting f && negb (f_degraded f) |}
  end.

(** A state record shows the flags; [degradedAt] is a time when it is there. *)
Record represents (s : ExecutionStateRecord) (f : Flags) : Prop := {
  rep_killed : es_killSwitchActive s = f_killed f;
  rep_status : es_systemStatus s = status_of f;
  rep_degraded : truthy (es_degradedReason s) || truthy (es_degradedAt s) = f_degraded f;
  rep_degradedAt : es_degradedAt s <> Some "";
}.

(** ** What one call does *)

Lemma assign_and_record_eq next command reason id s :
  assign_and_record next command reason id s =
  ({| state := next;
      transitions := transition_of (state s) next command reason
        (default (transition_id (S (length (transitions s)))) id) :: transitions s |}, Ret next).
Proof. done. Qed.

(** The state a successful fault pause leaves. *)
Definition fault_paused (input : FaultPauseInput) (current : ExecutionStateRecord)
    (transitionAt : string) : ExecutionStateRecord :=
  let preservesKillSwitch :=
    es_killSwitchActive current || (es_systemStatus current === SysStatus.KILL_SWITCHED) in
  with_status current
    (if preservesKillSwitch then SysStatus.KILL_SWITCHED else SysStatus.PAUSED)
    (es_killSwitchActive current)
    (if preservesKillSwitch then es_pauseReason current else Some (formatFaultPauseReason input))
    transitionAt.

Definition push_transition (next : ExecutionStateRecord) (command : TransitionCommand)
    (reason : option string) (id : string) (s : InMemoryOperatorStateStore)
    : InMemoryOperatorStateStore :=
  {| state := next; transitions := transition_of (state s) next command reason id :: transitions s |}.

(** A fault pause is refused without effect, is the accepted retry of a
    recorded one, or is applied and recorded under its own identifier. *)
Lemma applyFaultPause_cases input s :
  (exists msg, applyFaultPauseAtomically input s = (s, Throw msg)) \/
  (exists existing, find_transition (fp_faultId input) (transitions s) = Some existing /\
     same_fault_pause input existing (state s) = true /\
     applyFaultPauseAtomically input s = (s, Ret (state s))) \/
  (exists at_, validateFaultPauseInput input = Ret tt /\
     fp_exchangeAccountId input = es_exchangeAccountId (state s) /\
     find_transition (fp_faultId input) (transitions s) = None /\
     validateFaultPauseTimestamp input (state s) = Ret at_ /\
     let next := fault_paused input (state s) at_ in
     applyFaultPauseAtomically input s =
       (push_transition next Command.AUTOMATIC_PAUSE (Some (formatFaultPauseReason input))
          (fp_faultId input) s, Ret next)).
Proof.
  unfold applyFaultPauseAtomically. rewrite act_lift_bind.
  destruct (validateFaultPauseInput input) as [[]|] eqn:Hv; [|left; eauto].
  rewrite act_gets_bind. cbv beta zeta. rewrite act_lift_bind.
  case_bool_decide as Ha; [|left; cbn; eauto].
  cbn [negb throw_if]. unfold getTransitionById. rewrite act_gets_bind. cbv beta.
  destruct (find_transition _ _) as [existing|] eqn:Hf.
  - destruct (same_fault_pause input existing (state s)) eqn:Hs; [|left; cbn; eauto].
    right. left. by exists existing.
  - cbv beta zeta. rewrite act_lift_bind.
    destruct (validateFaultPauseTimestamp input (state s)) as [at_|] eqn:Ht; [|left; eauto].
    right. right. exists at_. split_and!; try done.
Qed.

(** Any other command always succeeds and records itself under the count. *)
Lemma perform_command c s :
  match c with
  | CallFaultPause _ => True
  | _ => exists next command reason,
      perform c s =
      (push_transition next command reason (transition_id (S (length (transitions s)))) s, Ret next)
      /\ command <> Command.BOOTSTRAP
      /\ es_exchangeAccountId next = es_exchangeAccountId (state s)
  end.
Proof.
  destruct c; [done|..]; eexists _, _, _;
    unfold perform, pause, resume, activateKillSwitch, setExecutionMode, setLiveExecutionGate,
      markDegraded, clearDegraded;
    rewrite act_gets_bind; cbv beta zeta; (split; [apply assign_and_record_eq | done]).
Qed.

(** Every call leaves the store alone or records one transition to the state
    it returns. *)
Lemma perform_cases c s :
  (exists msg, perform c s = (s, Throw msg)) \/
  perform c s = (s, Ret (state s)) \/
  (exists next command reason id,
     perform c s = (push_transition next command reason id s, Ret next) /\
     command <> Command.BOOTSTRAP /\ es_exchangeAccountId next = es_exchangeAccountId (state s)).
Proof.
  pose proof (perform_command c s) as Hc.
  destruct c as [input| | | | | | |];
    [|right; right; destruct Hc as (? & ? & ? & ?); eauto 8 ..].
  cbn [perform]. unfold pauseForFault.
  destruct (applyFaultPause_cases input s)
    as [[msg ->]|[(existing & _ & _ & ->)|(at_ & _ & _ & _ & _ & ->)]]; [eauto..|].
  right. right. by repeat eexists.
Qed.

(** ** The status follows the flags *)

Ltac open_call :=
  unfold perform, pause, resume, activateKillSwitch, setExecutionMode, setLiveExecutionGate,
    markDegraded, clearDegraded;
  rewrite act_gets_bind; cbv beta zeta; rewrite assign_and_record_eq; cbn [fst snd returns state].

Lemma toISOString_nonempty ms : toISOString ms <> "".
Proof.
  unfold toISOString. intros H. apply (f_equal String.length) in H.
  rewrite !length_string_app in H. simpl in H. lia.
Qed.

Lemma degradedAt_nonempty clock old :
  old <> Some "" -> Some (default (toISOString clock) old) <> Some "".
Proof. destruct old; [done|]. intros _ H. injection H as H. by apply toISOString_nonempty in H. Qed.

Lemma truthy_true v : truthy v = true <-> exists s, v = Some s /\ s <> "".
Proof.
  destruct v as [s|]; simpl; [|naive_solver]. rewrite negb_true_iff, bool_decide_eq_false.
  naive_solver.
Qed.

(** A degradation that is marked has a truthy time. *)
Lemma marked_degraded reason clock old :
  old <> Some "" ->
  truthy (Some reason) || truthy (Some (default (toISOString clock) old)) = true.
Proof.
  intros Hold. apply orb_true_iff. right. apply truthy_true. eexists. split; [done|].
  intros E. eapply degradedAt_nonempty; [exact Hold|]. by rewrite E.
Qed.

Lemma represents_kill s f :
  represents s f -> es_killSwitchActive s || (es_systemStatus s === SysStatus.KILL_SWITCHED)
                    = f_killed f.
Proof.
  intros [-> -> _ _]. destruct f as [[] [] [] []]; reflexivity.
Qed.

Lemma represents_halted s f :
  represents s f -> halted (es_systemStatus s) = f_killed f || f_paused f.
Proof. intros [_ -> _ _]. destruct f as [[] [] [] []]; reflexivity. Qed.

Lemma fault_paused_flags input s f at_ :
  represents s f ->
  represents (fault_paused input s at_) (flag_step f (CallFaultPause input)).
Proof.
  intros Hr. pose proof (represents_kill s f Hr) as Hk. destruct Hr as [Hr1 _ Hr3 Hr4].
  unfold fault_paused. cbv zeta. rewrite Hk.
  constructor; cbn; auto; by destruct f as [[] [] [] []].
Qed.

Lemma retried_pause_flags input s f :
  represents s f -> halted (es_systemStatus s) = true ->
  represents s (flag_step f (CallFaultPause input)).
Proof.
  intros Hr Hh. rewrite (represents_halted s f Hr) in Hh.
  destruct Hr as [Hr1 Hr2 Hr3 Hr4]. constructor; cbn; auto. rewrite Hr2.
  by destruct f as [[] [] [] []].
Qed.

Lemma perform_flags c s f :
  represents (state s) f ->
  represents (state (fst (perform c s))) (if returns (snd (perform c s)) then flag_step f c else f).
Proof.
  intros Hr. destruct c as [input|reason clock|clock|reason clock|mode clock|gate clock
                           |reason clock clock'|reason clock].
  { cbn [perform]. unfold pauseForFault.
    destruct (applyFaultPause_cases input s)
      as [[msg ->]|[(existing & _ & Hsame & ->)|(at_ & _ & _ & _ & _ & ->)]].
    - done.
    - apply andb_true_iff in Hsame as [_ Hh]. by apply retried_pause_flags.
    - by apply fault_paused_flags. }
  all: open_call; destruct Hr as [Hk Hs Hd Ha]; destruct f as [k p d b]; cbn in *.
  - constructor; cbn; auto. rewrite Hk. by destruct k.
  - constructor; cbn; auto. unfold resolveResumedSystemStatus. rewrite Hk, Hd. by destruct k, d, b.
  - constructor; cbn; auto.
  - by constructor.
  - by constructor.
  - constructor; cbn -[default toISOString truthy].
    + done.
    + unfold resolveSystemStatusForDegradation. rewrite Hk, Hs. by destruct k, p, d, b.
    + by apply marked_degraded.
    + by apply degradedAt_nonempty.
  - constructor; cbn; auto. rewrite Hs. by destruct k, p, d, b.
Qed.

(** The operator store implements the priority of its flags: along any
    run of commands and fault pauses, the system status is KILL_SWITCHED if the
    kill switch was ever set, else PAUSED if a pause was not yet resumed, else
    DEGRADED if a degradation was not yet cleared, else BOOTING or RUNNING,
    where exactly the calls that returned count. *)
Theorem status_refines_flags calls s f :
  represents (state s) f ->
  represents (state (run calls s)) (foldl flag_step f (returned_calls calls s)).
Proof.
  revert s f. induction calls as [|c calls IH]; intros s f Hr; [done|].
  pose proof (perform_flags c s f Hr) as H. cbn [run foldl returned_calls].
  destruct (perform c s) as [s' r]. cbn [fst snd] in *.
  destruct (returns r); cbn [app foldl]; by apply IH.
Qed.

Definition booting_state : ExecutionStateRecord := {|
  es_id := "state"; es_exchangeAccountId := "primary"; es_executionMode := Mode.DRY_RUN;
  es_liveExecutionGate := Gate.DISABLED; es_systemStatus := SysStatus.BOOTING;
  es_killSwitchActive := false; es_pauseReason := None; es_degradedReason := None;
  es_degradedAt := None; es_updatedAt := "2026-08-21T00:00:00.000Z";
|}.

Definition no_flags : Flags :=
  {| f_killed := false; f_paused := false; f_degraded := false; f_booting := true |}.

Lemma booting_represents : represents booting_state no_flags.
Proof. by constructor. Qed.

Definition incident : list operator_call :=
  [CallPause None 1787281704756; CallMarkDegraded None 1787281704757 1787281704758;
   CallFaultPause {| fp_exchangeAccountId := "primary"; fp_faultId := "fault-1";
                     fp_reason := "stale"; fp_occurredAt := "2026-08-20T00:00:00Z";
                     fp_transitionAt := None |};
   CallResume 1787281704760].

Lemma status_refines_flags_witness :
  represents (state (run incident (new_operator_store booting_state)))
    {| f_killed := false; f_paused := false; f_degraded := true; f_booting := false |} /\
  es_systemStatus (state (run incident (new_operator_store booting_state))) = SysStatus.DEGRADED.
Proof.
  split; [|vm_compute; reflexivity].
  exact (status_refines_flags incident (new_operator_store booting_state) no_flags
           booting_represents).
Defined.

(** ** No order while halted *)

Definition is_resume (c : operator_call) : bool :=
  match c with CallResume _ => true | _ => false end.

Lemma halted_true status :
  halted status = true <-> status = SysStatus.PAUSED \/ status = SysStatus.KILL_SWITCHED.
Proof. unfold halted. by rewrite orb_true_iff, !bool_decide_eq_true. Qed.

Lemma perform_halted c s :
  halted (es_systemStatus (state s)) = true -> is_resume c = false ->
  halted (es_systemStatus (state (fst (perform c s)))) = true.
Proof.
  intros Hh Hc. destruct c as [input|reason clock|clock|reason clock|mode clock|gate clock
                           |reason clock clock'|reason clock]; try done.
  { cbn [perform]. unfold pauseForFault.
    destruct (applyFaultPause_cases input s)
      as [[msg ->]|[(existing & _ & _ & ->)|(at_ & _ & _ & _ & _ & ->)]]; [done..|].
    cbn. by destruct (_ || _). }
  all: open_call; cbn; try done.
  - by destruct (es_killSwitchActive _).
  - unfold resolveSystemStatusForDegradation.
    apply halted_true in Hh as [-> | ->]; by destruct (es_killSwitchActive _).
  - by apply halted_true in Hh as [-> | ->].
Qed.

Lemma perform_killed c s :
  es_killSwitchActive (state s) = true -> es_killSwitchActive (state (fst (perform c s))) = true.
Proof.
  intros Hk. destruct c as [input| | | | | | |].
  { cbn [perform]. unfold pauseForFault.
    destruct (applyFaultPause_cases input s)
      as [[msg ->]|[(existing & _ & _ & ->)|(at_ & _ & _ & _ & _ & ->)]]; done. }
  all: by open_call.
Qed.

Lemma run_invariant (P : InMemoryOperatorStateStore -> Prop) calls s :
  (forall c s, c ∈ calls -> P s -> P (fst (perform c s))) -> P s -> P (run calls s).
Proof.
  revert s. induction calls as [|c calls IH]; intros s HP Hs; [done|].
  cbn [run foldl]. apply IH; [intros c' s' Hc'; apply HP; by right|]. apply HP; [left|done].
Qed.

(** Once the kill switch is set, or while a pause is not resumed, the risk
    guards accept no order: whatever further commands and fault pauses reach
    the store, an order whose policy and status are those of the store is
    rejected. *)
Theorem halted_store_rejects_orders calls s limits sendPath c :
  es_killSwitchActive (state s) = true \/
    (halted (es_systemStatus (state s)) = true /\ forall r, r ∈ calls -> is_resume r = false) ->
  policy c = composeExecutionPolicy (state (run calls s)) limits sendPath ->
  systemStatus c = es_systemStatus (state (run calls s)) ->
  accepted (evaluateRiskGuards c) = false.
Proof.
  intros Hs Hp Hc. apply not_true_iff_false. intros (Hopen & _)%accepts_iff.
  destruct Hopen as (Hkill & Hstatus & _). rewrite Hp in Hkill. rewrite Hc in Hstatus.
  cbn in Hkill. destruct Hs as [Hs|[Hs Hr]].
  - rewrite (run_invariant (fun s => es_killSwitchActive (state s) = true)) in Hkill;
      eauto using perform_killed. done.
  - assert (Hh : halted (es_systemStatus (state (run calls s))) = true).
    { apply (run_invariant (fun s => halted (es_systemStatus (state s)) = true)); [|done].
      intros r s' Hin Hh. apply perform_halted; auto. }
    apply halted_true in Hh as [Hh|Hh]; rewrite Hh in Hstatus; by destruct Hstatus.
Qed.

Definition sample_limits : ExecutionRiskLimits := {|
  limit_maxAllocationByAsset _ := num_of_Z 1; limit_totalExposureCap := num_of_Z 1;
  limit_stalePriceThresholdMs := num_of_Z 60000; limit_minimumOrderValueKrw := num_of_Z 5000;
|}.

Definition order_under (s : ExecutionStateRecord) : RiskEvaluationContext :=
  let r := sample_request Side.bid zero in
  {| policy := composeExecutionPolicy s sample_limits SendPath.DRY_RUN_ADAPTER;
     systemStatus := es_systemStatus s; market := market r; priceSnapshot := priceSnapshot r;
     portfolio := portfolio r; openOrders := openOrders r; requestedSide := requestedSide r;
     requestedIdempotencyKey := requestedIdempotencyKey r; requestedPrice := requestedPrice r;
     requestedVolume := requestedVolume r; requestedNotionalKrw := requestedNotionalKrw r;
     requestedQuantity := requestedQuantity r; now := now r |}.

Lemma halted_store_rejects_orders_witness :
  accepted (evaluateRiskGuards (order_under booting_state)) = true /\
  accepted (evaluateRiskGuards (order_under (state (run [CallClearDegraded None 1787281704759]
    (run [CallPause None 1787281704756] (new_operator_store booting_state)))))) = false.
Proof.
  split; [vm_compute; reflexivity|].
  apply (halted_store_rejects_orders [CallClearDegraded None 1787281704759]
           (run [CallPause None 1787281704756] (new_operator_store booting_state))
           sample_limits SendPath.DRY_RUN_ADAPTER); [right; split| |].
  - vm_compute. reflexivity.
  - intros r [-> | []%elem_of_nil]%elem_of_cons. reflexivity.
  - reflexivity.
  - reflexivity.
Defined.

(** ** The log *)

Definition to_view (t : ExecutionStateTransitionRecord)
    : ExecutionMode * LiveExecutionGate * SystemStatus * bool :=
  (tr_toExecutionMode t, tr_toLiveExecutionGate t, tr_toSystemStatus t, tr_toKillSwitchActive t).

Definition from_view (t : ExecutionStateTransitionRecord)
    : option (ExecutionMode * LiveExecutionGate * SystemStatus * bool) :=
  mode ← tr_fromExecutionMode t;
  gate ← tr_fromLiveExecutionGate t;
  status ← tr_fromSystemStatus t;
  killSwitch ← tr_fromKillSwitchActive t;
  Some (mode, gate, status, killSwitch).

Definition state_view (s : ExecutionStateRecord)
    : ExecutionMode * LiveExecutionGate * SystemStatus * bool :=
  (es_executionMode s, es_liveExecutionGate s, es_systemStatus s, es_killSwitchActive s).

(** Newest first: each entry starts where the one before it ended, and the
    oldest is the bootstrap. *)
Fixpoint chained (log : list ExecutionStateTransitionRecord) : Prop :=
  match log with
  | [] => False
  | [t] => tr_command t = Command.BOOTSTRAP /\ from_view t = None
  | t :: ((t' :: _) as log') =>
      tr_command t <> Command.BOOTSTRAP /\ from_view t = Some (to_view t') /\ chained log'
  end.

Record log_wf (s : InMemoryOperatorStateStore) : Prop := {
  wf_chained : chained (transitions s);
  wf_head : exists t, head (transitions s) = Some t /\
    to_view t = state_view (state s) /\ tr_createdAt t = es_updatedAt (state s);
  wf_account : forall t, t ∈ transitions s ->
    tr_exchangeAccountId t = es_exchangeAccountId (state s);
}.

Lemma new_operator_store_log s : log_wf (new_operator_store s).
Proof.
  constructor; cbn.
  - by split.
  - by eexists.
  - by intros t [-> | []%elem_of_nil]%elem_of_cons.
Qed.

Lemma perform_log c s : log_wf s -> log_wf (fst (perform c s)).
Proof.
  intros Hwf. destruct (perform_cases c s)
    as [[msg ->]|[->|(next & command & reason & id & -> & Hc & Ha)]]; [done..|].
  destruct Hwf as [Hch (t & Ht & Hv & _) Hacc]. cbn [fst].
  unfold push_transition. destruct (transitions s) as [|t' log] eqn:Hlog; [done|].
  injection Ht as ->. constructor; cbn [transitions state].
  - split_and!; [done| |done]. rewrite Hv. reflexivity.
  - by eexists.
  - intros u [-> | Hu]%elem_of_cons; [done|]. rewrite Ha. by apply Hacc.
Qed.

(** The transition log is complete and linked: from its construction on,
    after any calls, the newest entry of the log ends in the current mode, gate,
    status and kill switch at the time of the last update, every entry starts
    where the one before it ended, the oldest is the bootstrap, and all entries
    are of the store's account. *)
Theorem transition_log_linked s0 calls : log_wf (run calls (new_operator_store s0)).
Proof. apply run_invariant; [intros; by apply perform_log | apply new_operator_store_log]. Qed.

(** ** Fault pauses are applied once *)

(** The identifiers the store hands out itself. *)
Definition numbered (id : string) : Prop := exists n, id = transition_id n.

Lemma find_transition_push next command reason id id' s :
  id <> id' ->
  find_transition id (transitions (push_transition next command reason id' s))
  = find_transition id (transitions s).
Proof. intros Hid. cbn. by rewrite bool_decide_eq_false_2 by done. Qed.

Lemma find_transition_some id log t :
  find_transition id log = Some t -> t ∈ log /\ tr_id t = id.
Proof.
  unfold find_transition. intros [Hin Hb]%List.find_some.
  split; [by apply list_elem_of_In | by apply bool_decide_eq_true in Hb].
Qed.

(** A recorded fault stays what its identifier finds. *)
Lemma perform_keeps_fault id t c s :
  ~ numbered id -> find_transition id (transitions s) = Some t ->
  find_transition id (transitions (fst (perform c s))) = Some t.
Proof.
  intros Hid Hf. pose proof (perform_command c s) as Hc.
  destruct c as [input| | | | | | |];
    [|destruct Hc as (? & ? & ? & -> & _); cbn [fst];
      rewrite find_transition_push; [done | intros ->; apply Hid; by eexists] ..].
  cbn [perform]. unfold pauseForFault.
  destruct (applyFaultPause_cases input s)
    as [[msg ->]|[(existing & _ & _ & ->)|(at_ & _ & _ & Hnone & _ & ->)]]; [done..|].
  cbn [fst]. rewrite find_transition_push; [done|]. intros ->. congruence.
Qed.

(** The chosen time of a pause matches its occurrence. *)
Lemma chosen_time_matches input current at_ :
  validateFaultPauseInput input = Ret tt ->
  validateFaultPauseTimestamp input current = Ret at_ ->
  faultPauseTransitionMatchesOccurrence input at_ = true.
Proof.
  unfold validateFaultPauseInput, validateFaultPauseTimestamp,
    faultPauseTransitionMatchesOccurrence.
  intros Hi Ht. destruct (fp_transitionAt input) as [at'|]; cbn [default from_option id] in *.
  - inv_outcome. destruct_bools.
    repeat match goal with
    | H : parseStrictIsoTimestamp ?v ?l = Ret _, H' : parseStrictIsoTimestamp ?v ?l' = Ret _ |- _ =>
        apply (strict_label _ _ l) in H'; rewrite H in H'; injection H' as <-
    end.
    case_if; destruct_bools;
      repeat match goal with
      | H : parseStrictIsoTimestamp ?v _ = Ret _ |- context [parseStrictIsoTimestamp ?v ?l] =>
          rewrite (strict_label _ _ l _ H)
      end; apply Z.leb_le; lia.
  - inv_outcome.
    match goal with H : (_ <? _)%Z = false |- _ => rewrite H end. by apply bool_decide_eq_true.
Qed.

(** The fault is recorded and its retry is recognised. *)
Definition fault_recorded (input : FaultPauseInput) (s : InMemoryOperatorStateStore) : Prop :=
  validateFaultPauseInput input = Ret tt /\
  fp_exchangeAccountId input = es_exchangeAccountId (state s) /\
  exists t, find_transition (fp_faultId input) (transitions s) = Some t /\
    tr_command t = Command.AUTOMATIC_PAUSE /\
    tr_exchangeAccountId t = fp_exchangeAccountId input /\
    tr_reason t = Some (formatFaultPauseReason input) /\
    faultPauseTransitionMatchesOccurrence input (tr_createdAt t) = true.

Lemma pause_records_fault input s s' st :
  pauseForFault input s = (s', Ret st) -> fault_recorded input s'.
Proof.
  unfold pauseForFault. intros H.
  destruct (applyFaultPause_cases input s)
    as [[msg E]|[(t & Hf & Hsame & E)|(at_ & Hv & Ha & Hnone & Ht & E)]]; rewrite E in H.
  - discriminate.
  - injection H as <- _. unfold applyFaultPauseAtomically in E. rewrite act_lift_bind in E.
    destruct (validateFaultPauseInput input) as [[]|] eqn:Hv; [|discriminate].
    unfold same_fault_pause in Hsame. destruct_bools. split_and!; [done| |by exists t].
    rewrite act_gets_bind in E. cbv beta zeta in E. rewrite act_lift_bind in E.
    destruct (fp_exchangeAccountId input === es_exchangeAccountId (state s)) eqn:Ha;
      [by apply bool_decide_eq_true in Ha | discriminate].
  - injection H as <- _. split_and!; [done|done|]. eexists.
    cbn. rewrite bool_decide_eq_true_2 by done. split_and!; try done.
    by eapply chosen_time_matches.
Qed.

Lemma perform_account c s :
  es_exchangeAccountId (state (fst (perform c s))) = es_exchangeAccountId (state s).
Proof.
  by destruct (perform_cases c s) as [[msg ->]|[->|(next & command & reason & id & -> & _ & ?)]].
Qed.

Lemma perform_fault_recorded input c s :
  ~ numbered (fp_faultId input) -> fault_recorded input s ->
  fault_recorded input (fst (perform c s)).
Proof.
  intros Hid (Hv & Ha & t & Hf & Ht). split_and!; [done|by rewrite perform_account|].
  exists t. split; [by apply perform_keeps_fault | done].
Qed.

Lemma recorded_fault_retry input s :
  fault_recorded input s ->
  pauseForFault input s =
  (s, if halted (es_systemStatus (state s)) then Ret (state s)
      else Throw ("Conflicting duplicate automatic pause " ++ fp_faultId input ++ ".")).
Proof.
  intros (Hv & Ha & t & Hf & Hcmd & Hacc & Hr & Hm).
  unfold pauseForFault, applyFaultPauseAtomically. rewrite act_lift_bind, Hv.
  rewrite act_gets_bind. cbv beta zeta. rewrite act_lift_bind.
  rewrite bool_decide_eq_true_2 by done. cbn [negb throw_if].
  unfold getTransitionById. rewrite act_gets_bind. cbv beta. rewrite Hf.
  unfold same_fault_pause. rewrite Hcmd, Hacc, Hr, Hm, !bool_decide_eq_true_2 by done. simpl.
  by destruct (halted _).
Qed.

(** An automatic fault pause takes effect at most once: after it was
    applied, and whatever calls came since, submitting the same fault again
    never changes the store; it returns the current state while the system is
    still halted and is refused as a duplicate once the operator has resumed.
    The fault must not be named like the entries the store numbers itself. *)
Theorem fault_pause_at_most_once input s s' st calls :
  ~ numbered (fp_faultId input) ->
  pauseForFault input s = (s', Ret st) ->
  pauseForFault input (run calls s') =
  (run calls s',
   if halted (es_systemStatus (state (run calls s'))) then Ret (state (run calls s'))
   else Throw ("Conflicting duplicate automatic pause " ++ fp_faultId input ++ ".")).
Proof.
  intros Hid Hp%pause_records_fault. apply recorded_fault_retry.
  apply run_invariant; [|done]. intros c r _. by apply perform_fault_recorded.
Qed.

Definition stale_fault : FaultPauseInput := {|
  fp_exchangeAccountId := "primary"; fp_faultId := "fault-1"; fp_reason := "stale";
  fp_occurredAt := "2026-08-21T01:00:00Z"; fp_transitionAt := None |}.

Lemma fault_pause_at_most_once_witness :
  let s := fst (pauseForFault stale_fault (new_operator_store booting_state)) in
  es_systemStatus (state s) = SysStatus.PAUSED /\
  snd (pauseForFault stale_fault (run [CallResume 1787281704760] s))
  = Throw "Conflicting duplicate automatic pause fault-1.".
Proof.
  intros s. split; [vm_compute; reflexivity|].
  unshelve epose proof (fault_pause_at_most_once stale_fault (new_operator_store booting_state) s
    (state s) [CallResume 1787281704760] _ _) as H.
  - intros [n Hn]. discriminate Hn.
  - vm_compute. reflexivity.
  - rewrite H. vm_compute. reflexivity.
Defined.
