(* ===== verification/PilotRecords.v ===== *)
(** * PilotRecords: the candidate pilot's records and their validators

    The records of [domain/pilot-types.ts] and the functions of
    [modules/db/pilot-interfaces.ts] that both pilot repositories call: what a
    valid deployment, evidence, binding, rollback and fault is, and the audit
    events of rollbacks and faults.  Literal identity fields are texts, so the
    guards on them are the source's; a phase or an action has its type.
    SHA-256 of the platform's crypto module is a parameter. *)

From Stdlib Require Import ZArith Lia Ascii.
From stdpp Require Import base option list strings.
From S2P Require Import Prelude Num Types Text Timestamp NumText JsMap Json CandidateState.
From S2P Require Import Decimals ExactState OperatorState.

Local Open Scope string_scope.
Local Open Scope js_scope.
Local Open Scope bool_scope.

(** ** Data *)

Record PositionGuardPilotDeploymentRecord := {
  dep_id : string;
  dep_exchangeAccountId : string;
  dep_pilotId : string;
  dep_market : string;
  dep_policyId : string;
  dep_policyVersion : string;
  dep_phase : PositionGuardPilotPhase;
  dep_activationAt : option string;
  dep_activationEpochNs : option Z;
  dep_createdAt : string;
  dep_updatedAt : string;
}.

#[export] Instance PositionGuardPilotDeploymentRecord_eq_dec :
  EqDecision PositionGuardPilotDeploymentRecord.
Proof. solve_decision. Defined.

Module Audit.
Inductive PositionGuardPilotAuditEventType : Set :=
| DEPLOYMENT_CREATED | STATE_ADVANCED | PHASE_TRANSITION | FAULT_PAUSED | ROLLBACK_STARTED
| ROLLBACK_COMPLETED.
Definition to_string (x : PositionGuardPilotAuditEventType) : string :=
  match x with
  | DEPLOYMENT_CREATED => "DEPLOYMENT_CREATED"
  | STATE_ADVANCED => "STATE_ADVANCED"
  | PHASE_TRANSITION => "PHASE_TRANSITION"
  | FAULT_PAUSED => "FAULT_PAUSED"
  | ROLLBACK_STARTED => "ROLLBACK_STARTED"
  | ROLLBACK_COMPLETED => "ROLLBACK_COMPLETED"
  end.
#[export] Instance PositionGuardPilotAuditEventType_eq_dec :
  EqDecision PositionGuardPilotAuditEventType.
Proof. solve_decision. Defined.
End Audit.
Export (hints) Audit.

Record PositionGuardPilotAuditEventRecord := {
  audit_id : string;
  audit_deploymentId : string;
  audit_eventType : Audit.PositionGuardPilotAuditEventType;
  audit_fromPhase : option PositionGuardPilotPhase;
  audit_toPhase : option PositionGuardPilotPhase;
  audit_stateVersion : Z;
  audit_payloadJson : string;
  audit_createdAt : string;
}.

#[export] Instance PositionGuardPilotAuditEventRecord_eq_dec :
  EqDecision PositionGuardPilotAuditEventRecord.
Proof. solve_decision. Defined.

Module Material.
Inductive CandidateMaterialVersion : Set := LEGACY_APPROXIMATE_V1 | EXACT_V2.
Definition to_string (x : CandidateMaterialVersion) : string :=
  match x with
  | LEGACY_APPROXIMATE_V1 => "LEGACY_APPROXIMATE_V1"
  | EXACT_V2 => "EXACT_V2"
  end.
#[export] Instance CandidateMaterialVersion_eq_dec : EqDecision CandidateMaterialVersion.
Proof. solve_decision. Defined.
End Material.
Export (hints) Material.

Record CandidateEvidenceRecord := {
  rec_evidence : PositionGuardCandidateExecutionEvidence;
  rec_materialHash : string;
  rec_materialVersion : Material.CandidateMaterialVersion;
}.

Record CreateCandidatePilotDeploymentInput := {
  create_deployment : PositionGuardPilotDeploymentRecord;
  create_initialState : PositionGuardCandidateState;
}.

(** The literal type ["PENDING_FLAT"] *)
Inductive PendingFlat : Set := PENDING_FLAT.
Definition literal_phase (p : PendingFlat) : PositionGuardPilotPhase := Phase.PENDING_FLAT.

Record ActivateCandidatePilotDeploymentInput := {
  activate_deploymentId : string;
  activate_expectedPhase : PendingFlat;
  activate_expectedUpdatedAt : string;
  activate_activationAt : string;
  activate_activationEpochNs : Z;
}.

Record CandidatePilotRollbackInput := {
  rb_deploymentId : string;
  rb_expectedPhase : PositionGuardPilotPhase;
  rb_expectedUpdatedAt : string;
  rb_expectedStateVersion : Z;
  rb_expectedOperatorState : CandidatePilotRollbackOperatorState;
  rb_transitionAt : string;
  rb_transitionEpochNs : Z;
}.

Record AdvanceCandidatePilotStateInput := {
  adv_deploymentId : string;
  adv_expectedStateVersion : Z;
  adv_evidence : PositionGuardCandidateExecutionEvidence;
}.

(** The reason code is one of a union of texts, of which only non-blankness
    and two members are looked at. *)
Record PauseCandidatePilotForRecoveryFaultInput := {
  fault_deploymentId : string;
  fault_exchangeAccountId : string;
  fault_faultId : string;
  fault_reasonCode : string;
  fault_provenanceJson : string;
  fault_occurredAt : string;
}.

Module FaultStage.
Inductive CandidateIntentFaultStage : Set :=
| DUPLICATE | DERIVATION | PERSISTENCE | FINAL_REVALIDATION.
Definition to_string (x : CandidateIntentFaultStage) : string :=
  match x with
  | DUPLICATE => "DUPLICATE"
  | DERIVATION => "DERIVATION"
  | PERSISTENCE => "PERSISTENCE"
  | FINAL_REVALIDATION => "FINAL_REVALIDATION"
  end.
#[export] Instance CandidateIntentFaultStage_eq_dec : EqDecision CandidateIntentFaultStage.
Proof. solve_decision. Defined.
End FaultStage.
Export (hints) FaultStage.

(** A recovery fault with the intent it stopped. *)
Record PauseCandidateIntentFaultInput := {
  intent_fault : PauseCandidatePilotForRecoveryFaultInput;
  intent_stage : FaultStage.CandidateIntentFaultStage;
  intent_strategyDecisionId : string;
  intent_orderId : string;
  intent_bindingId : string;
}.

Record CandidateExecutionBindingRecord := {
  bind_id : string;
  bind_deploymentId : string;
  bind_strategyDecisionId : string;
  bind_orderId : string;
  bind_exchangeAccountId : string;
  bind_activationAt : string;
  bind_activationEpochNs : Z;
  bind_market : string;
  bind_strategyKey : string;
  bind_policyId : string;
  bind_policyVersion : string;
  bind_executionMode : ExecutionMode;
  bind_ordType : OrderType;
  bind_action : ExecutedAction;
  bind_side : OrderSide;
  bind_intendedQuantity : option string;
  bind_intendedNotionalKrw : option string;
  bind_boundPrice : option string;
  bind_boundVolume : option string;
  bind_boundTimeInForce : option string;
  bind_boundSmpType : option string;
  bind_materialVersion : string;
  bind_orderMaterialHash : string;
  bind_createdAt : string;
}.

#[export] Instance CandidateExecutionBindingRecord_eq_dec :
  EqDecision CandidateExecutionBindingRecord.
Proof. solve_decision. Defined.

(** ** The deployment *)

Definition PILOT_ID : string := "BTC_COMBINED_CONSERVATIVE_PILOT_V1".

Definition active_phase (p : PositionGuardPilotPhase) : bool :=
  (p === Phase.ACTIVE) || (p === Phase.DRAINING).

Definition validateActivation (deployment : PositionGuardPilotDeploymentRecord) : outcome unit :=
  match dep_activationAt deployment, dep_activationEpochNs deployment with
  | Some at_, Some epoch =>
      activationEpochNs ← parsePositionGuardCandidateTimestamp at_ "deployment activationAt";
      throw_if ((activationEpochNs <? 0)%Z || negb (activationEpochNs =? epoch)%Z)
        "Candidate pilot deployment activation epoch does not match its timestamp."
  | None, None => Ret tt
  | _, _ =>
      Throw "Candidate pilot deployment activation timestamp and epoch must be persisted together."
  end.

Definition validateCandidatePilotDeployment (deployment : PositionGuardPilotDeploymentRecord)
    : outcome PositionGuardPilotDeploymentRecord :=
  _ ← requireNonEmpty (dep_id deployment) "deployment id";
  _ ← requireNonEmpty (dep_exchangeAccountId deployment) "deployment exchangeAccountId";
  _ ← throw_if ((dep_pilotId deployment !== PILOT_ID)
                || (dep_market deployment !== "KRW-BTC")
                || (dep_policyId deployment !== "COMBINED_CONSERVATIVE")
                || (dep_policyVersion deployment !== "PCS-2026-001.DEPLOYMENT_READINESS_V1"))
        "Candidate pilot deployment must use the exact approved identity.";
  createdAt ← parsePositionGuardCandidateTimestamp (dep_createdAt deployment) "deployment createdAt";
  updatedAt ← parsePositionGuardCandidateTimestamp (dep_updatedAt deployment) "deployment updatedAt";
  _ ← throw_if (updatedAt <? createdAt)%Z
        "Candidate pilot deployment updatedAt cannot precede createdAt.";
  _ ← validateActivation deployment;
  _ ← throw_if (active_phase (dep_phase deployment) && (dep_activationAt deployment === None))
        "Active candidate pilot deployments require a persisted activation instant.";
  Ret deployment.

(** ** Rollbacks *)

Definition validateCandidatePilotRollbackInput (input : CandidatePilotRollbackInput)
    : outcome CandidatePilotRollbackInput :=
  _ ← requireNonEmpty (rb_deploymentId input) "candidate pilot rollback deploymentId";
  _ ← parsePositionGuardCandidateTimestamp (rb_expectedUpdatedAt input)
        "candidate pilot rollback expectedUpdatedAt";
  _ ← throw_if (negb (isSafeInteger (rb_expectedStateVersion input))
                || (rb_expectedStateVersion input <? 0)%Z)
        "Candidate pilot rollback expected state version must be a non-negative safe integer.";
  _ ← validateCandidatePilotRollbackOperatorState (rb_expectedOperatorState input);
  transitionEpochNs ← parsePositionGuardCandidateTimestamp (rb_transitionAt input)
        "candidate pilot rollback transitionAt";
  _ ← throw_if ((transitionEpochNs <? 0)%Z || negb (transitionEpochNs =? rb_transitionEpochNs input)%Z)
        "Candidate pilot rollback transition epoch does not match its timestamp.";
  Ret input.

Definition validateCandidatePilotRollbackChronology (transitionEpochNs : Z)
    (deployment : PositionGuardPilotDeploymentRecord) (state : ExactCandidateState) : outcome unit :=
  deploymentCreatedAt ← parsePositionGuardCandidateTimestamp (dep_createdAt deployment)
        "candidate deployment createdAt";
  deploymentUpdatedAt ← parsePositionGuardCandidateTimestamp (dep_updatedAt deployment)
        "candidate deployment updatedAt";
  _ ← throw_if ((dep_phase deployment === Phase.DRAINING)
                && (transitionEpochNs <=? deploymentUpdatedAt)%Z)
        "Candidate pilot rollback completion from DRAINING must occur strictly after the prior transition.";
  _ ← throw_if ((transitionEpochNs <? deploymentCreatedAt)%Z
                || (transitionEpochNs <? deploymentUpdatedAt)%Z)
        "Candidate pilot rollback cannot precede persisted deployment chronology.";
  match lastEvidenceAt state with
  | None => Ret tt
  | Some at_ =>
      last ← parsePositionGuardCandidateTimestamp at_ "candidate state lastEvidenceAt";
      throw_if (transitionEpochNs <? last)%Z
        "Candidate pilot rollback cannot precede persisted candidate evidence chronology."
  end.

Definition isExactCandidateStateRollbackFlat (state : ExactCandidateState) : bool :=
  (currentEpisodeAddCount state =? 0)%Z
  && (currentEpisodeCostBasisKrw state === "0")
  && (currentEpisodeInventoryQuantity state === "0")
  && (currentEpisodeRealizedPnlKrw state === "0").

Definition buildCandidatePilotRollbackAuditEvent (rollback : CandidatePilotRollbackInput)
    (eventType : Audit.PositionGuardPilotAuditEventType) (fromPhase toPhase : PositionGuardPilotPhase)
    (stateVersion : Z) : PositionGuardPilotAuditEventRecord := {|
  audit_id := rb_deploymentId rollback ++ ":" ++ toLowerCase (Audit.to_string eventType) ++ ":"
              ++ Z_to_string (rb_transitionEpochNs rollback);
  audit_deploymentId := rb_deploymentId rollback;
  audit_eventType := eventType;
  audit_fromPhase := Some fromPhase;
  audit_toPhase := Some toPhase;
  audit_stateVersion := stateVersion;
  audit_payloadJson := stringify (JObj [("transitionAt", JStr (rb_transitionAt rollback))]);
  audit_createdAt := rb_transitionAt rollback;
|}.

(** ** Recovery faults *)

Definition validateCandidatePilotRecoveryFaultInput
    (input : PauseCandidatePilotForRecoveryFaultInput) : outcome unit :=
  _ ← requireNonEmpty (fault_deploymentId input) "candidate recovery fault deploymentId";
  _ ← requireNonEmpty (fault_exchangeAccountId input) "candidate recovery fault exchangeAccountId";
  _ ← requireNonEmpty (fault_faultId input) "candidate recovery fault faultId";
  _ ← requireNonEmpty (fault_reasonCode input) "candidate recovery fault reasonCode";
  _ ← parsePositionGuardCandidateTimestamp (fault_occurredAt input)
        "candidate recovery fault occurredAt";
  match JSON_parse (fault_provenanceJson input) with
  | None => Throw "Candidate recovery fault provenanceJson must be valid JSON."
  | Some (JObj _) => Ret tt
  | Some _ => Throw "Candidate recovery fault provenanceJson must contain an object."
  end.

Definition validateCandidatePilotRecoveryFaultChronology (occurredAt : string)
    (deployment : PositionGuardPilotDeploymentRecord) (latestAuditAt : option string)
    : outcome unit :=
  occurredAtEpoch ← parsePositionGuardCandidateTimestamp occurredAt
        "candidate recovery fault occurredAt";
  deploymentUpdatedAtEpoch ← parsePositionGuardCandidateTimestamp (dep_updatedAt deployment)
        "deployment updatedAt";
  latestAuditEpoch ← match latestAuditAt with
                     | None => Ret None
                     | Some at_ =>
                         e ← parsePositionGuardCandidateTimestamp at_ "candidate audit createdAt";
                         Ret (Some e)
                     end;
  let before (strict : Z -> Z -> bool) (latest : option Z) :=
    match latest with Some e => strict occurredAtEpoch e | None => false end in
  _ ← throw_if ((dep_phase deployment === Phase.DRAINING)
                && ((occurredAtEpoch <=? deploymentUpdatedAtEpoch)%Z
                    || before Z.leb latestAuditEpoch))
        "Candidate recovery fault from DRAINING must occur strictly after deployment and audit chronology.";
  throw_if ((occurredAtEpoch <? deploymentUpdatedAtEpoch)%Z || before Z.ltb latestAuditEpoch)
    "Candidate recovery fault cannot precede deployment chronology.".

Definition candidatePilotRecoveryFaultReason (input : PauseCandidatePilotForRecoveryFaultInput)
    : string :=
  "candidate_pilot_recovery:" ++ fault_reasonCode input ++ "; provenance="
  ++ fault_provenanceJson input.

Definition buildCandidatePilotRecoveryFaultAuditEvent
    (fault : PauseCandidatePilotForRecoveryFaultInput) (fromPhase : PositionGuardPilotPhase)
    (stateVersion : Z) : PositionGuardPilotAuditEventRecord := {|
  audit_id := fault_faultId fault;
  audit_deploymentId := fault_deploymentId fault;
  audit_eventType := Audit.FAULT_PAUSED;
  audit_fromPhase := Some fromPhase;
  audit_toPhase := Some Phase.PAUSED_FAULT;
  audit_stateVersion := stateVersion;
  audit_payloadJson :=
    stringify (JObj [("reasonCode", JStr (fault_reasonCode fault));
                     ("provenanceJson", JStr (fault_provenanceJson fault))]);
  audit_createdAt := fault_occurredAt fault;
|}.

Definition with_occurredAt (fault : PauseCandidatePilotForRecoveryFaultInput) (occurredAt : string)
    : PauseCandidatePilotForRecoveryFaultInput := {|
  fault_deploymentId := fault_deploymentId fault;
  fault_exchangeAccountId := fault_exchangeAccountId fault;
  fault_faultId := fault_faultId fault;
  fault_reasonCode := fault_reasonCode fault;
  fault_provenanceJson := fault_provenanceJson fault;
  fault_occurredAt := occurredAt;
|}.

(** ** Intent faults *)

Definition CANDIDATE_INTENT_FAULT_PROVENANCE_KEYS : list string :=
  ["schemaVersion"; "stage"; "deploymentId"; "exchangeAccountId"; "strategyDecisionId"; "orderId";
   "bindingId"; "market"; "action"; "side"; "ordType"; "price"; "volume"; "expectedPhase";
   "expectedDeploymentUpdatedAt"; "expectedStateVersion"].

Definition CANDIDATE_INTENT_FAULT_STAGES : list string :=
  ["DUPLICATE"; "DERIVATION"; "PERSISTENCE"; "FINAL_REVALIDATION"].
Definition EVIDENCE_ACTIONS : list string := ["ENTER"; "ADD"; "REDUCE"; "EXIT"].
Definition ORDER_TYPES : list string := ["limit"; "price"; "market"; "best"].

(** [exactOwnDataRecord] of a parsed value *)
Definition exactJsonRecord (value : json) (label : string) (keys : list string)
    : outcome (jsmap string json) :=
  match value with
  | JObj fields =>
      _ ← throw_if (negb (exact_keys fields keys))
            (label ++ " must have exactly own data properties: " ++ join ", " keys ++ ".");
      Ret fields
  | _ => Throw (label ++ " must be an object with exactly own data properties.")
  end.

Definition field_is (fields : jsmap string json) (key value : string) : bool :=
  (map_get key fields ≫= json_string) === Some value.

(** A field that is one of some texts. *)
Definition field_in (fields : jsmap string json) (key : string) (values : list string) : bool :=
  existsb (field_is fields key) values.

Definition validateProvenanceDecimal (fields : jsmap string json) (key : string) : outcome unit :=
  let label := "candidate intent fault " ++ key in
  match map_get key fields with
  | Some JNull => Ret tt
  | Some (JStr s) => _ ← canonicalNonNegativeDecimal s label; Ret tt
  | _ => Throw (label ++ " must be a canonical non-negative decimal string.")
  end.

(** The checks on the parsed provenance. *)
Definition validateIntentProvenance (input : PauseCandidateIntentFaultInput)
    (provenance : jsmap string json) : outcome unit :=
  let fault := intent_fault input in
  let matches := field_is provenance in
  _ ← throw_if (negb (matches "schemaVersion" "CANDIDATE_INTENT_FAULT_V1"))
        "Candidate intent fault provenance schema is invalid.";
  _ ← throw_if (negb (field_in provenance "stage" CANDIDATE_INTENT_FAULT_STAGES))
        "Candidate intent fault provenance stage is invalid.";
  _ ← throw_if (negb (matches "stage" (FaultStage.to_string (intent_stage input)))
                || negb (matches "deploymentId" (fault_deploymentId fault))
                || negb (matches "exchangeAccountId" (fault_exchangeAccountId fault))
                || negb (matches "strategyDecisionId" (intent_strategyDecisionId input))
                || negb (matches "orderId" (intent_orderId input))
                || negb (matches "bindingId" (intent_bindingId input)))
        "Candidate intent fault provenance identity does not match the request.";
  _ ← throw_if (negb (matches "market" "KRW-BTC")
                || negb (field_in provenance "action" EVIDENCE_ACTIONS)
                || negb (field_in provenance "side" ["bid"; "ask"])
                || negb (field_in provenance "ordType" ORDER_TYPES)
                || negb (field_in provenance "expectedPhase" ["ACTIVE"; "DRAINING"])
                || negb match map_get "expectedStateVersion" provenance ≫= json_integer with
                        | Some version => isSafeInteger version && (0 <=? version)%Z
                        | None => false
                        end)
        "Candidate intent fault provenance material is invalid.";
  expectedUpdatedAt ←
    match map_get "expectedDeploymentUpdatedAt" provenance with
    | Some (JStr s) => Ret s
    | _ => Throw "Candidate intent fault expected deployment timestamp is invalid."
    end;
  _ ← parsePositionGuardCandidateTimestamp expectedUpdatedAt
        "candidate intent fault expectedDeploymentUpdatedAt";
  _ ← validateProvenanceDecimal provenance "price";
  validateProvenanceDecimal provenance "volume".

(** The latest of some persisted times. *)
Definition latest_epoch (label : string) (times : list string) : outcome (option Z) :=
  foldM_outcome
    (fun latest timestamp =>
       epoch ← parsePositionGuardCandidateTimestamp timestamp label;
       Ret (match latest with
            | Some l => if (l <? epoch)%Z then Some epoch else Some l
            | None => Some epoch
            end))
    None times.

Section Hash.
(** [createHash("sha256").update(text, "utf8").digest("hex")] *)
Context (sha256 : string -> string).

Definition validateCandidateIntentFaultInput (input : PauseCandidateIntentFaultInput)
    : outcome PauseCandidatePilotForRecoveryFaultInput :=
  let fault := intent_fault input in
  _ ← requireNonEmpty (fault_deploymentId fault) "candidate intent fault deploymentId";
  _ ← requireNonEmpty (fault_exchangeAccountId fault) "candidate intent fault exchangeAccountId";
  _ ← requireNonEmpty (intent_strategyDecisionId input) "candidate intent fault strategyDecisionId";
  _ ← requireNonEmpty (intent_orderId input) "candidate intent fault orderId";
  _ ← requireNonEmpty (intent_bindingId input) "candidate intent fault bindingId";
  _ ← requireNonEmpty (fault_faultId fault) "candidate intent fault faultId";
  let expectedReasonCode :=
    if intent_stage input === FaultStage.PERSISTENCE then "ACTIVATION_CAS_CONFLICT"
    else "IDENTITY_MISMATCH" in
  _ ← throw_if (fault_reasonCode fault !== expectedReasonCode)
        "Candidate intent fault reason does not match its stage.";
  _ ← parsePositionGuardCandidateTimestamp (fault_occurredAt fault)
        "candidate intent fault occurredAt";
  parsed ← match JSON_parse (fault_provenanceJson fault) with
           | Some value => Ret value
           | None => Throw "Candidate intent fault provenanceJson must be valid JSON."
           end;
  provenance ← exactJsonRecord parsed "candidate intent fault provenance"
                 CANDIDATE_INTENT_FAULT_PROVENANCE_KEYS;
  _ ← validateIntentProvenance input provenance;
  _ ← throw_if (fault_faultId fault !== "candidate-intent:" ++ sha256 (fault_provenanceJson fault))
        "Candidate intent fault ID does not match the deterministic provenance hash.";
  Ret fault.

Definition resolveCandidateIntentFaultOccurrence (input : PauseCandidateIntentFaultInput)
    (persistedChronology : list string) : outcome PauseCandidatePilotForRecoveryFaultInput :=
  fault ← validateCandidateIntentFaultInput input;
  attemptedEpoch ← parsePositionGuardCandidateTimestamp (fault_occurredAt fault)
        "candidate intent fault attempted occurredAt";
  latestPersistedEpoch ← latest_epoch "candidate intent fault persisted chronology"
        persistedChronology;
  let effectiveEpoch :=
    match latestPersistedEpoch with
    | Some latest => if (attemptedEpoch <=? latest)%Z then (latest + 1)%Z else attemptedEpoch
    | None => attemptedEpoch
    end in
  occurredAt ← formatCandidatePilotUtcNanoseconds effectiveEpoch;
  Ret (with_occurredAt fault occurredAt).

(** ** Evidence material *)

Record CandidateEvidenceMaterial := {
  material_hash : string;
  material_epochNanoseconds : Z;
  material_evidence : PositionGuardCandidateExecutionEvidence;
  material_materialVersion : Material.CandidateMaterialVersion;
}.

Definition terminal_text (t : TerminalStatus) : string :=
  match t with Terminal.FILLED => "FILLED" | Terminal.CANCELED => "CANCELED" end.

(** The text that is hashed. *)
Definition evidence_canonical (deploymentId : string) (e : PositionGuardCandidateExecutionEvidence)
    (epochNanoseconds : Z) (executed gross fee remaining : string) : string :=
  stringify (JObj
    [("schemaVersion", JInt 2); ("materialVersion", JStr "EXACT_V2");
     ("deploymentId", JStr deploymentId); ("evidenceId", JStr (evidenceId e));
     ("executedAt", JStr (executedAt e));
     ("executedAtEpochNs", JStr (Z_to_string epochNanoseconds));
     ("action", JStr (Action.to_string (Exec.to_action (ev_action e))));
     ("entryPath", JStr (EntryPath.to_string (ev_entryPath e)));
     ("terminalStatus", JStr (terminal_text (terminalStatus e)));
     ("executedQuantity", JStr executed); ("grossQuoteValueKrw", JStr gross);
     ("confirmedFeeKrw", JStr fee); ("remainingQuantity", JStr remaining)]).

Definition with_amounts (e : PositionGuardCandidateExecutionEvidence)
    (executed gross fee remaining : string) : PositionGuardCandidateExecutionEvidence := {|
  evidenceId := evidenceId e;
  executedAt := executedAt e;
  ev_action := ev_action e;
  ev_entryPath := ev_entryPath e;
  terminalStatus := terminalStatus e;
  executedQuantity := DecimalText executed;
  grossQuoteValueKrw := DecimalText gross;
  confirmedFeeKrw := DecimalText fee;
  remainingQuantity := DecimalText remaining;
|}.

Definition candidateEvidenceMaterial (deploymentId : string)
    (evidence : PositionGuardCandidateExecutionEvidence) : outcome CandidateEvidenceMaterial :=
  _ ← requireNonEmpty deploymentId "deploymentId";
  executed ← canonicalEvidenceDecimal (executedQuantity evidence) "executedQuantity";
  gross ← canonicalEvidenceDecimal (grossQuoteValueKrw evidence) "grossQuoteValueKrw";
  fee ← canonicalEvidenceDecimal (confirmedFeeKrw evidence) "confirmedFeeKrw";
  remaining ← canonicalEvidenceDecimal (remainingQuantity evidence) "remainingQuantity";
  let snapshot := with_amounts evidence executed gross fee remaining in
  _ ← requireNonEmpty (evidenceId snapshot) "evidenceId";
  _ ← (if executed === "0"
       then throw_if ((terminalStatus snapshot !== Terminal.CANCELED) || (gross !== "0")
                      || (fee !== "0"))
              "Candidate no-fill evidence must be canceled with zero value and fee."
       else throw_if (gross === "0")
              "Candidate filled evidence must have a finite positive quote value.");
  epochNanoseconds ← parsePositionGuardCandidateTimestamp (executedAt snapshot)
        "evidence executedAt";
  _ ← throw_if (epochNanoseconds <? 0)%Z
        "Candidate evidence executedAt cannot be before the Unix epoch.";
  Ret {| material_hash :=
           sha256 (evidence_canonical deploymentId snapshot epochNanoseconds
                     executed gross fee remaining);
         material_epochNanoseconds := epochNanoseconds;
         material_evidence := snapshot;
         material_materialVersion := Material.EXACT_V2 |}.

(** ** Execution bindings *)

Definition json_nullable (value : option string) : json :=
  match value with Some s => JStr s | None => JNull end.

Definition binding_canonical (b : CandidateExecutionBindingRecord) : string :=
  stringify (JObj
    [("schemaVersion", JInt 2); ("materialVersion", JStr (bind_materialVersion b));
     ("id", JStr (bind_id b)); ("deploymentId", JStr (bind_deploymentId b));
     ("strategyDecisionId", JStr (bind_strategyDecisionId b));
     ("orderId", JStr (bind_orderId b));
     ("exchangeAccountId", JStr (bind_exchangeAccountId b));
     ("activationAt", JStr (bind_activationAt b));
     ("activationEpochNs", JStr (Z_to_string (bind_activationEpochNs b)));
     ("market", JStr (bind_market b)); ("strategyKey", JStr (bind_strategyKey b));
     ("policyId", JStr (bind_policyId b)); ("policyVersion", JStr (bind_policyVersion b));
     ("executionMode", JStr (Mode.to_string (bind_executionMode b)));
     ("ordType", JStr (OrdType.to_string (bind_ordType b)));
     ("action", JStr (Action.to_string (Exec.to_action (bind_action b))));
     ("side", JStr (Side.to_string (bind_side b)));
     ("intendedQuantity", json_nullable (bind_intendedQuantity b));
     ("intendedNotionalKrw", json_nullable (bind_intendedNotionalKrw b));
     ("boundPrice", json_nullable (bind_boundPrice b));
     ("boundVolume", json_nullable (bind_boundVolume b));
     ("boundTimeInForce", json_nullable (bind_boundTimeInForce b));
     ("boundSmpType", json_nullable (bind_boundSmpType b));
     ("createdAt", JStr (bind_createdAt b))]).

Definition candidateExecutionBindingMaterialHash (b : CandidateExecutionBindingRecord) : string :=
  sha256 (binding_canonical b).

Definition is_lower_hex (c : ascii) : bool :=
  let n := Z.of_N (N_of_ascii c) in is_digit c || ((97 <=? n) && (n <=? 102))%Z.

(** [^[a-f0-9]{64}$] *)
Definition is_sha256_text (s : string) : bool :=
  (String.length s =? 64)%nat && string_forallb is_lower_hex s.

Definition validateOptionalDecimal (value : option string) (label : string) : outcome unit :=
  match value with
  | None => Ret tt
  | Some s => _ ← canonicalNonNegativeDecimal s label; Ret tt
  end.

Definition null_or_in (value : option string) (values : list string) : bool :=
  match value with None => true | Some s => includes values s end.

Definition validateCandidateExecutionBinding (b : CandidateExecutionBindingRecord)
    : outcome CandidateExecutionBindingRecord :=
  let label := "candidate execution binding identity" in
  _ ← requireNonEmpty (bind_id b) label;
  _ ← requireNonEmpty (bind_deploymentId b) label;
  _ ← requireNonEmpty (bind_strategyDecisionId b) label;
  _ ← requireNonEmpty (bind_orderId b) label;
  _ ← requireNonEmpty (bind_exchangeAccountId b) label;
  _ ← throw_if ((bind_market b !== "KRW-BTC")
                || (bind_strategyKey b !== "position_guard.paper_core.v1")
                || (bind_policyId b !== "COMBINED_CONSERVATIVE")
                || (bind_policyVersion b !== "PCS-2026-001.DEPLOYMENT_READINESS_V1"))
        "Candidate execution binding has an invalid persisted provenance identity.";
  activationEpochNs ← parsePositionGuardCandidateTimestamp (bind_activationAt b)
        "binding activationAt";
  _ ← throw_if ((activationEpochNs <? 0)%Z || negb (activationEpochNs =? bind_activationEpochNs b)%Z)
        "Candidate execution binding activation epoch does not match its timestamp.";
  createdAt ← parsePositionGuardCandidateTimestamp (bind_createdAt b) "binding createdAt";
  _ ← validateOptionalDecimal (bind_intendedQuantity b) "binding intendedQuantity";
  _ ← validateOptionalDecimal (bind_intendedNotionalKrw b) "binding intendedNotionalKrw";
  _ ← validateOptionalDecimal (bind_boundPrice b) "binding boundPrice";
  _ ← validateOptionalDecimal (bind_boundVolume b) "binding boundVolume";
  _ ← throw_if (negb (null_or_in (bind_boundTimeInForce b) ["ioc"; "fok"; "post_only"]))
        "Candidate execution binding boundTimeInForce is invalid.";
  _ ← throw_if (negb (null_or_in (bind_boundSmpType b) ["cancel_maker"; "cancel_taker"; "reduce"]))
        "Candidate execution binding boundSmpType is invalid.";
  _ ← throw_if ((bind_materialVersion b !== "BINDING_V2")
                || negb (is_sha256_text (bind_orderMaterialHash b)))
        "Candidate execution binding material version or hash is invalid.";
  _ ← throw_if (createdAt <=? activationEpochNs)%Z
        "Candidate execution binding must be created after its activation instant.";
  _ ← throw_if (candidateExecutionBindingMaterialHash b !== bind_orderMaterialHash b)
        "Candidate execution binding material hash does not match its persisted shape.";
  Ret b.

End Hash.

(** ** The routing state *)

Definition finiteRoutingNumber (value label : string) : outcome num :=
  let result := Number_of_string value in
  _ ← throw_if (negb (is_finite result))
        (label ++ " cannot be represented as a finite routing number.");
  Ret result.

(** The exact state as the binary64 state the candidate policy reads. *)
Definition toPositionGuardCandidateRoutingState (exact : ExactCandidateState)
    : outcome PositionGuardCandidateState :=
  let amount (canonical : string -> string -> outcome string) (value label : string) :=
    text ← canonical value label; finiteRoutingNumber text label in
  costBasis ← amount canonicalNonNegativeDecimal (currentEpisodeCostBasisKrw exact)
                "candidate exact cost basis";
  inventory ← amount canonicalNonNegativeDecimal (currentEpisodeInventoryQuantity exact)
                "candidate exact inventory quantity";
  pnl ← amount canonicalSignedDecimal (currentEpisodeRealizedPnlKrw exact)
          "candidate exact realized pnl";
  exitPnl ← match lastFullExitRealizedPnlKrw exact with
            | None => Ret None
            | Some value =>
                n ← amount canonicalSignedDecimal value "candidate exact full-exit pnl"; Ret (Some n)
            end;
  let result := CandidateState.Build_PositionGuardCandidateState
    (currentEpisodeAddCount exact) costBasis inventory pnl (lastFullExitAt exact) exitPnl
    (lastEntryPath exact) (lastEvidenceAt exact) (lastEvidenceId exact) (stateVersion exact) in
  _ ← validatePositionGuardCandidateState result;
  Ret result.
