(* ===== verification/PilotRepository.v ===== *)
(** * PilotRepository: the candidate pilot's repository and phase machine

    [modules/db/repositories/in-memory-candidate-pilot-repository.ts]: the
    deployments with their phase, the exact state and the evidence it is
    projected from, the audit log, and the execution bindings of orders.  The
    methods are actions on the fields of the class; the store of operator
    state it was constructed with is one of them, through the interface the
    source declares for it ([InMemoryAtomicFaultPauseStore]), because the
    operator's commands change it too.

    The three promise queues of the class order calls of one kind.  What runs
    between two [await]s is one action: every method is a single action, except
    the fault pauses, whose three segments can be interleaved with the other
    methods. *)

From Stdlib Require Import ZArith Lia.
From stdpp Require Import base option list strings gmap relations.
From S2P Require Import Prelude Num Types Text Timestamp NumText JsMap CandidateState.
From S2P Require Import ExactState OperatorState PilotRecords.

Local Open Scope string_scope.
Local Open Scope js_scope.
Local Open Scope bool_scope.

(** ** The operator store the repository is given *)

(** [InMemoryAtomicFaultPauseStore], [modules/db/pilot-interfaces.ts] *)
Class AtomicFaultPauseStore (T : Type) := {
  store_getState : T -> ExecutionStateRecord;
  store_getTransitionById : string -> T -> option ExecutionStateTransitionRecord;
  store_applyFaultPauseAtomically : FaultPauseInput -> action T ExecutionStateRecord;
  store_runWithCandidatePilotRollbackAuthority : forall {R A : Type},
    T -> CandidatePilotRollbackOperatorState -> action R A -> action R (option A);
}.

#[export] Instance InMemoryOperatorStateStore_fault_pause :
    AtomicFaultPauseStore InMemoryOperatorStateStore := {|
  store_getState := state;
  store_getTransitionById id s := find_transition id (transitions s);
  store_applyFaultPauseAtomically := applyFaultPauseAtomically;
  store_runWithCandidatePilotRollbackAuthority R A := runWithCandidatePilotRollbackAuthority;
|}.

(** ** Data *)

Record StoredEvidence := {
  stored_record : CandidateEvidenceRecord;
  stored_epochNanoseconds : Z;
}.

(** The fields of the class, over the operator store it holds. *)
Record InMemoryCandidatePilotRepository (T : Type) := {
  deployments : jsmap string PositionGuardPilotDeploymentRecord;
  exactStates : gmap string ExactCandidateState;
  evidence : gmap string (list StoredEvidence);
  auditEvents : gmap string (list PositionGuardPilotAuditEventRecord);
  bindingsByOrderId : jsmap string CandidateExecutionBindingRecord;
  atomicFaultPauseStore : option T;
}.
Arguments deployments {T} _.
Arguments exactStates {T} _.
Arguments evidence {T} _.
Arguments auditEvents {T} _.
Arguments bindingsByOrderId {T} _.
Arguments atomicFaultPauseStore {T} _.

(** [constructor(atomicFaultPauseStore?)] *)
Definition new_repository {T} (store : option T) : InMemoryCandidatePilotRepository T := {|
  deployments := []; exactStates := ∅; evidence := ∅; auditEvents := ∅; bindingsByOrderId := [];
  atomicFaultPauseStore := store;
|}.

Record AdvanceCandidatePilotStateResult := {
  advance_state : PositionGuardCandidateState;
  advance_evidence : PositionGuardCandidateExecutionEvidence;
  advance_duplicate : bool;
}.

Record PauseCandidatePilotForRecoveryFaultResult := {
  paused_deployment : PositionGuardPilotDeploymentRecord;
  paused_executionState : ExecutionStateRecord;
  paused_auditEvent : PositionGuardPilotAuditEventRecord;
  paused_duplicate : bool;
}.

Module Init.
Inductive InitializationOutcome : Set := CREATED | EXISTING.
End Init.

Record CandidatePilotDeploymentInitializationResult := {
  init_outcome : Init.InitializationOutcome;
  init_deployment : PositionGuardPilotDeploymentRecord;
  init_exactState : ExactCandidateState;
  init_evidenceRecords : list CandidateEvidenceRecord;
  init_auditEvents : list PositionGuardPilotAuditEventRecord;
}.

Record CandidatePilotRecoveryIdentity := {
  identity_exchangeAccountId : string;
  identity_pilotId : string;
  identity_market : string;
  identity_policyId : string;
  identity_policyVersion : string;
}.

(** ** Predicates and pure helpers *)

Definition sameBootstrapIdentity (left right : PositionGuardPilotDeploymentRecord) : bool :=
  (dep_exchangeAccountId left === dep_exchangeAccountId right)
  && (dep_pilotId left === dep_pilotId right)
  && (dep_market left === dep_market right)
  && (dep_policyId left === dep_policyId right)
  && (dep_policyVersion left === dep_policyVersion right).

Definition isFaultPausablePhase (phase : PositionGuardPilotPhase) : bool :=
  (phase === Phase.PENDING_FLAT) || (phase === Phase.ACTIVE) || (phase === Phase.DRAINING).

Definition isRollbackCompletablePhase (phase : PositionGuardPilotPhase) : bool :=
  (phase === Phase.PENDING_FLAT) || (phase === Phase.ACTIVE) || (phase === Phase.DRAINING).

(** Equal texts of the two records are equal records. *)
Definition sameAuditEvent (left right : PositionGuardPilotAuditEventRecord) : bool :=
  left === right.

Definition sameBinding (left right : CandidateExecutionBindingRecord) : bool := left === right.

Definition isPristineInitialState (s : PositionGuardCandidateState) : bool :=
  (CandidateState.currentEpisodeAddCount s =? 0)%Z
  && is_zero (CandidateState.currentEpisodeCostBasisKrw s)
  && is_zero (CandidateState.currentEpisodeInventoryQuantity s)
  && is_zero (CandidateState.currentEpisodeRealizedPnlKrw s)
  && (CandidateState.lastFullExitAt s === None)
  && match CandidateState.lastFullExitRealizedPnlKrw s with None => true | Some _ => false end
  && (CandidateState.lastEntryPath s === None)
  && (CandidateState.lastEvidenceAt s === None)
  && (CandidateState.lastEvidenceId s === None)
  && (CandidateState.stateVersion s =? 0)%Z.

Definition validateInitialDeployment (input : CreateCandidatePilotDeploymentInput)
    : outcome PositionGuardPilotDeploymentRecord :=
  deployment ← validateCandidatePilotDeployment (create_deployment input);
  _ ← validatePositionGuardCandidateState (create_initialState input);
  _ ← throw_if (negb (isPristineInitialState (create_initialState input)))
        "Candidate pilot deployment initial state must be pristine.";
  Ret deployment.

Definition validateActivationInput (input : ActivateCandidatePilotDeploymentInput)
    (deployment : PositionGuardPilotDeploymentRecord) : outcome unit :=
  activation ← parsePositionGuardCandidateTimestamp (activate_activationAt input)
        "deployment activationAt";
  _ ← throw_if ((activation <? 0)%Z || negb (activation =? activate_activationEpochNs input)%Z)
        "Candidate deployment activation epoch does not match its timestamp.";
  createdAt ← parsePositionGuardCandidateTimestamp (dep_createdAt deployment)
        "deployment createdAt";
  if (activation <? createdAt)%Z then
    Throw "Candidate deployment activation cannot precede persisted deployment chronology."
  else
    updatedAt ← parsePositionGuardCandidateTimestamp (dep_updatedAt deployment)
          "deployment updatedAt";
    throw_if (activation <? updatedAt)%Z
      "Candidate deployment activation cannot precede persisted deployment chronology.".

Definition with_phase (d : PositionGuardPilotDeploymentRecord) (phase : PositionGuardPilotPhase)
    (updatedAt : string) : PositionGuardPilotDeploymentRecord := {|
  dep_id := dep_id d;
  dep_exchangeAccountId := dep_exchangeAccountId d;
  dep_pilotId := dep_pilotId d;
  dep_market := dep_market d;
  dep_policyId := dep_policyId d;
  dep_policyVersion := dep_policyVersion d;
  dep_phase := phase;
  dep_activationAt := dep_activationAt d;
  dep_activationEpochNs := dep_activationEpochNs d;
  dep_createdAt := dep_createdAt d;
  dep_updatedAt := updatedAt;
|}.

(** The deployment [activateDeployment] writes. *)
Definition activated (d : PositionGuardPilotDeploymentRecord)
    (input : ActivateCandidatePilotDeploymentInput) : PositionGuardPilotDeploymentRecord := {|
  dep_id := dep_id d;
  dep_exchangeAccountId := dep_exchangeAccountId d;
  dep_pilotId := dep_pilotId d;
  dep_market := dep_market d;
  dep_policyId := dep_policyId d;
  dep_policyVersion := dep_policyVersion d;
  dep_phase := Phase.ACTIVE;
  dep_activationAt := Some (activate_activationAt input);
  dep_activationEpochNs := Some (activate_activationEpochNs input);
  dep_createdAt := dep_createdAt d;
  dep_updatedAt := activate_activationAt input;
|}.

Definition created_event (d : PositionGuardPilotDeploymentRecord)
    : PositionGuardPilotAuditEventRecord := {|
  audit_id := dep_id d ++ ":created";
  audit_deploymentId := dep_id d;
  audit_eventType := Audit.DEPLOYMENT_CREATED;
  audit_fromPhase := None;
  audit_toPhase := Some (dep_phase d);
  audit_stateVersion := 0;
  audit_payloadJson :=
    stringify (JObj [("pilotId", JStr (dep_pilotId d)); ("market", JStr (dep_market d));
                     ("policyId", JStr (dep_policyId d));
                     ("policyVersion", JStr (dep_policyVersion d))]);
  audit_createdAt := dep_createdAt d;
|}.

Definition activation_event (d : PositionGuardPilotDeploymentRecord)
    (input : ActivateCandidatePilotDeploymentInput) (version : Z)
    : PositionGuardPilotAuditEventRecord := {|
  audit_id := dep_id d ++ ":activation:" ++ Z_to_string (activate_activationEpochNs input);
  audit_deploymentId := dep_id d;
  audit_eventType := Audit.PHASE_TRANSITION;
  audit_fromPhase := Some (dep_phase d);
  audit_toPhase := Some Phase.ACTIVE;
  audit_stateVersion := version;
  audit_payloadJson :=
    stringify (JObj [("activationAt", JStr (activate_activationAt input));
                     ("activationEpochNs", JStr (Z_to_string (activate_activationEpochNs input)))]);
  audit_createdAt := activate_activationAt input;
|}.

Definition advanced_event (d : PositionGuardPilotDeploymentRecord) (deploymentId : string)
    (material : CandidateEvidenceMaterial) (fromVersion toVersion : Z)
    : PositionGuardPilotAuditEventRecord := {|
  audit_id := deploymentId ++ ":evidence:" ++ evidenceId (material_evidence material);
  audit_deploymentId := deploymentId;
  audit_eventType := Audit.STATE_ADVANCED;
  audit_fromPhase := Some (dep_phase d);
  audit_toPhase := Some (dep_phase d);
  audit_stateVersion := toVersion;
  audit_payloadJson :=
    stringify (JObj [("evidenceId", JStr (evidenceId (material_evidence material)));
                     ("materialHash", JStr (material_hash material));
                     ("materialVersion",
                       JStr (Material.to_string (material_materialVersion material)));
                     ("fromStateVersion", JInt fromVersion); ("toStateVersion", JInt toVersion)]);
  audit_createdAt := executedAt (material_evidence material);
|}.

Definition store_material (m : CandidateEvidenceMaterial) : StoredEvidence := {|
  stored_record := {|
    rec_evidence := material_evidence m;
    rec_materialHash := material_hash m;
    rec_materialVersion := material_materialVersion m |};
  stored_epochNanoseconds := material_epochNanoseconds m;
|}.

Definition stored_evidence (item : StoredEvidence) : PositionGuardCandidateExecutionEvidence :=
  rec_evidence (stored_record item).

(** Texts are UTF-8 bytes. *)
Definition compareSqliteBinaryText (left right : string) : comparison := string_compare left right.

Definition compare_stored (left right : StoredEvidence) : comparison :=
  match (stored_epochNanoseconds left ?= stored_epochNanoseconds right)%Z with
  | Eq => compareSqliteBinaryText (evidenceId (stored_evidence left))
            (evidenceId (stored_evidence right))
  | c => c
  end.

Definition orderedEvidence (records : list StoredEvidence) : list StoredEvidence :=
  js_sort compare_stored records.

(** The records after the one with an identifier. *)
Fixpoint cursorAfter (records : list StoredEvidence) (id : string)
    : outcome (list StoredEvidence) :=
  match records with
  | [] => Throw ("Candidate evidence cursor " ++ id ++ " does not exist.")
  | item :: rest =>
      if evidenceId (stored_evidence item) === id then Ret rest else cursorAfter rest id
  end.

(** The last event, the earlier one on equal times. *)
Definition latest_audit (events : list PositionGuardPilotAuditEventRecord)
    : outcome (option PositionGuardPilotAuditEventRecord) :=
  foldM_outcome
    (fun latest event =>
       match latest with
       | None => Ret (Some event)
       | Some l =>
           eventAt ← parsePositionGuardCandidateTimestamp (audit_createdAt event)
                 "candidate audit createdAt";
           latestAt ← parsePositionGuardCandidateTimestamp (audit_createdAt l)
                 "candidate audit createdAt";
           Ret (Some (if (latestAt <? eventAt)%Z then event else l))
       end)
    None events.

(** ** The methods *)

Section Repository.
(** SHA-256 in hexadecimal, and [String.prototype.localeCompare]. *)
Context (sha256 : string -> string) (localeCompare : string -> string -> comparison).
Context {T : Type} {HT : AtomicFaultPauseStore T}.

Abbreviation repository := (InMemoryCandidatePilotRepository T).

(** [this.field.set(key, value)] of each map *)
Definition set_deployment (d : PositionGuardPilotDeploymentRecord) (r : repository) : repository := {|
  deployments := map_set (dep_id d) d (deployments r); exactStates := exactStates r;
  evidence := evidence r; auditEvents := auditEvents r;
  bindingsByOrderId := bindingsByOrderId r; atomicFaultPauseStore := atomicFaultPauseStore r |}.

Definition set_exact_state (id : string) (s : ExactCandidateState) (r : repository) : repository := {|
  deployments := deployments r; exactStates := <[ id := s ]> (exactStates r);
  evidence := evidence r; auditEvents := auditEvents r;
  bindingsByOrderId := bindingsByOrderId r; atomicFaultPauseStore := atomicFaultPauseStore r |}.

Definition set_evidence (id : string) (l : list StoredEvidence) (r : repository) : repository := {|
  deployments := deployments r; exactStates := exactStates r;
  evidence := <[ id := l ]> (evidence r); auditEvents := auditEvents r;
  bindingsByOrderId := bindingsByOrderId r; atomicFaultPauseStore := atomicFaultPauseStore r |}.

Definition set_audit (id : string) (l : list PositionGuardPilotAuditEventRecord) (r : repository)
    : repository := {|
  deployments := deployments r; exactStates := exactStates r;
  evidence := evidence r; auditEvents := <[ id := l ]> (auditEvents r);
  bindingsByOrderId := bindingsByOrderId r; atomicFaultPauseStore := atomicFaultPauseStore r |}.

Definition set_binding (b : CandidateExecutionBindingRecord) (r : repository) : repository := {|
  deployments := deployments r; exactStates := exactStates r;
  evidence := evidence r; auditEvents := auditEvents r;
  bindingsByOrderId := map_set (bind_orderId b) b (bindingsByOrderId r);
  atomicFaultPauseStore := atomicFaultPauseStore r |}.

Definition set_store (t : T) (r : repository) : repository := {|
  deployments := deployments r; exactStates := exactStates r;
  evidence := evidence r; auditEvents := auditEvents r;
  bindingsByOrderId := bindingsByOrderId r; atomicFaultPauseStore := Some t |}.

(** [this.auditEvents.get(id) ?? []] and the same for the evidence *)
Definition audit_of (id : string) (r : repository) : list PositionGuardPilotAuditEventRecord :=
  default [] (auditEvents r !! id).
Definition evidence_of (id : string) (r : repository) : list StoredEvidence :=
  default [] (evidence r !! id).

(** [this.auditEvents.set(id, [...(this.auditEvents.get(id) ?? []), event])] *)
Definition append_audit (id : string) (event : PositionGuardPilotAuditEventRecord) (r : repository)
    : repository :=
  set_audit id (audit_of id r ++ [event])%list r.

(** *** Creation *)

Definition sameAccountPilot (deployment candidate : PositionGuardPilotDeploymentRecord) : bool :=
  (dep_exchangeAccountId candidate === dep_exchangeAccountId deployment)
  && (dep_pilotId candidate === dep_pilotId deployment).

Definition insertDeploymentWithInitialState (deployment : PositionGuardPilotDeploymentRecord)
    : action repository unit :=
  _ ← act_modify (set_deployment deployment);
  _ ← act_modify (set_exact_state (dep_id deployment) createExactEmptyCandidateState);
  _ ← act_modify (set_evidence (dep_id deployment) []);
  act_modify (set_audit (dep_id deployment) [created_event deployment]).

Definition createDeploymentWithInitialState (input : CreateCandidatePilotDeploymentInput)
    : action repository PositionGuardPilotDeploymentRecord :=
  deployment ← act_lift (validateInitialDeployment input);
  known ← act_gets deployments;
  _ ← act_lift (throw_if (bool_decide (is_Some (map_get (dep_id deployment) known)))
        ("Candidate pilot deployment " ++ dep_id deployment ++ " already exists."));
  _ ← act_lift (throw_if (existsb (sameAccountPilot deployment) (map_values known))
        ("Candidate pilot deployment already exists for account "
         ++ dep_exchangeAccountId deployment ++ "."));
  _ ← insertDeploymentWithInitialState deployment;
  act_ret deployment.

(** Sorting compares times only when there are two events or more. *)
Definition sorted_audit (events : list PositionGuardPilotAuditEventRecord)
    : outcome (list PositionGuardPilotAuditEventRecord) :=
  match events with
  | [] | [_] => Ret events
  | _ =>
      timed ← mapM_outcome
        (fun event =>
           epoch ← parsePositionGuardCandidateTimestamp (audit_createdAt event) "audit createdAt";
           Ret (epoch, event)) events;
      Ret (snd <$> js_sort
             (fun left right : Z * PositionGuardPilotAuditEventRecord =>
                match (fst left ?= fst right)%Z with
                | Eq => localeCompare (audit_id (snd left)) (audit_id (snd right))
                | c => c
                end) timed)
  end.

Definition bootstrapAuthority (out : Init.InitializationOutcome)
    (deployment : PositionGuardPilotDeploymentRecord)
    : action repository CandidatePilotDeploymentInitializationResult :=
  states ← act_gets exactStates;
  match states !! dep_id deployment with
  | None => act_lift (Throw ("Candidate pilot deployment " ++ dep_id deployment
                             ++ " is missing exact state authority."))
  | Some exactState =>
      records ← act_gets (evidence_of (dep_id deployment));
      events ← act_gets (audit_of (dep_id deployment));
      sorted ← act_lift (sorted_audit events);
      act_ret {| init_outcome := out; init_deployment := deployment;
                 init_exactState := exactState;
                 init_evidenceRecords := stored_record <$> orderedEvidence records;
                 init_auditEvents := sorted |}
  end.

Definition initializeDeploymentWithInitialState (input : CreateCandidatePilotDeploymentInput)
    : action repository CandidatePilotDeploymentInitializationResult :=
  deployment ← act_lift (validateInitialDeployment input);
  _ ← act_lift (throw_if ((dep_phase deployment !== Phase.PENDING_FLAT)
                          || (dep_activationAt deployment !== None)
                          || (dep_activationEpochNs deployment !== None))
        "Candidate pilot deployment initialization requires PENDING_FLAT without activation authority.");
  known ← act_gets deployments;
  let existingById := map_get (dep_id deployment) known in
  _ ← act_lift (throw_if match existingById with
                         | Some existing => negb (sameBootstrapIdentity existing deployment)
                         | None => false
                         end
        ("Candidate pilot deployment " ++ dep_id deployment ++ " identity collision."));
  let existing := match existingById with
                  | Some existing => Some existing
                  | None => List.find (sameAccountPilot deployment) (map_values known)
                  end in
  match existing with
  | Some existing => bootstrapAuthority Init.EXISTING existing
  | None =>
      _ ← insertDeploymentWithInitialState deployment;
      created ← act_gets (fun r => map_get (dep_id deployment) (deployments r));
      match created with
      | None => act_lift (Throw ("Candidate pilot deployment " ++ dep_id deployment
                                 ++ " was not persisted."))
      | Some created => bootstrapAuthority Init.CREATED created
      end
  end.

(** *** Reading *)

Definition getDeployment (deploymentId : string)
    : action repository (option PositionGuardPilotDeploymentRecord) :=
  act_gets (fun r => map_get deploymentId (deployments r)).

(** [left.createdAt.localeCompare(right.createdAt) || left.id.localeCompare(right.id)] *)
Definition compare_created (left right : PositionGuardPilotDeploymentRecord) : comparison :=
  match localeCompare (dep_createdAt left) (dep_createdAt right) with
  | Eq => localeCompare (dep_id left) (dep_id right)
  | c => c
  end.

Definition getDeploymentForExchangeAccount (exchangeAccountId : string)
    : action repository (option PositionGuardPilotDeploymentRecord) :=
  act_gets (fun r =>
    head (js_sort compare_created
      (List.filter (fun candidate => dep_exchangeAccountId candidate === exchangeAccountId)
         (map_values (deployments r))))).

Definition findDeploymentsForRecoveryIdentity (identity : CandidatePilotRecoveryIdentity)
    : action repository (list PositionGuardPilotDeploymentRecord) :=
  known ← act_gets deployments;
  act_lift (mapM_outcome validateCandidatePilotDeployment
    (take 2 (js_sort compare_created
      (List.filter (fun candidate =>
           (dep_exchangeAccountId candidate === identity_exchangeAccountId identity)
           && (dep_pilotId candidate === identity_pilotId identity)
           && (dep_market candidate === identity_market identity)
           && (dep_policyId candidate === identity_policyId identity)
           && (dep_policyVersion candidate === identity_policyVersion identity))
         (map_values known))))).

Definition getCandidateState (deploymentId : string)
    : action repository (option PositionGuardCandidateState) :=
  states ← act_gets exactStates;
  match states !! deploymentId with
  | None => act_ret None
  | Some s => routing ← act_lift (toPositionGuardCandidateRoutingState s); act_ret (Some routing)
  end.

Definition getExactState (deploymentId : string) : action repository (option ExactCandidateState) :=
  act_gets (fun r => exactStates r !! deploymentId).

Definition listEvidenceAfter (deploymentId : string) (afterEvidenceId : option string)
    : action repository (list PositionGuardCandidateExecutionEvidence) :=
  all ← act_gets (evidence_of deploymentId);
  let records := orderedEvidence all in
  rest ← act_lift match afterEvidenceId with
                  | None => Ret records
                  | Some id => cursorAfter records id
                  end;
  act_ret (stored_evidence <$> rest).

Definition listEvidenceRecords (deploymentId : string)
    : action repository (list CandidateEvidenceRecord) :=
  act_gets (fun r => stored_record <$> orderedEvidence (evidence_of deploymentId r)).

Definition find_stored (id : string) (records : list StoredEvidence) : option StoredEvidence :=
  List.find (fun item => evidenceId (stored_evidence item) === id) records.

Definition getEvidenceRecord (deploymentId id : string)
    : action repository (option CandidateEvidenceRecord) :=
  act_gets (fun r => stored_record <$> find_stored id (evidence_of deploymentId r)).

Definition listAuditEvents (deploymentId : string)
    : action repository (list PositionGuardPilotAuditEventRecord) :=
  events ← act_gets (audit_of deploymentId);
  act_lift (sorted_audit events).

(** *** Activation *)

Definition activateDeployment (input : ActivateCandidatePilotDeploymentInput)
    : action repository (option PositionGuardPilotDeploymentRecord) :=
  found ← act_gets (fun r => map_get (activate_deploymentId input) (deployments r));
  match found with
  | None => act_ret None
  | Some deployment =>
      if (dep_phase deployment !== literal_phase (activate_expectedPhase input))
         || (dep_updatedAt deployment !== activate_expectedUpdatedAt input)
         || (dep_activationAt deployment !== None)
         || (dep_activationEpochNs deployment !== None)
      then act_ret None
      else
        _ ← act_lift (validateActivationInput input deployment);
        let next := activated deployment input in
        _ ← act_modify (set_deployment next);
        version ← act_gets (fun r => from_option stateVersion 0%Z (exactStates r !! dep_id next));
        _ ← act_modify (append_audit (dep_id next) (activation_event deployment input version));
        act_ret (Some next)
  end.

(** *** Rollback *)

(** What both rollback operations do under the operator's authority, once
    their own guards passed. *)
Definition apply_rollback (rollback : CandidatePilotRollbackInput)
    (deployment : PositionGuardPilotDeploymentRecord) (s : ExactCandidateState)
    (toPhase : PositionGuardPilotPhase) (eventType : Audit.PositionGuardPilotAuditEventType)
    : action repository (option PositionGuardPilotDeploymentRecord) :=
  let next := with_phase deployment toPhase (rb_transitionAt rollback) in
  let audit := buildCandidatePilotRollbackAuditEvent rollback eventType (dep_phase deployment)
                 (dep_phase next) (stateVersion s) in
  _ ← act_modify (set_deployment next);
  _ ← act_modify (append_audit (dep_id next) audit);
  valid ← act_lift (validateCandidatePilotDeployment next);
  act_ret (Some valid).

(** The guard the two operations share: the caller's expectations hold. *)
Definition rollback_expected (rollback : CandidatePilotRollbackInput)
    (deployment : PositionGuardPilotDeploymentRecord) (s : ExactCandidateState) : bool :=
  (dep_exchangeAccountId deployment
     === ros_exchangeAccountId (rb_expectedOperatorState rollback))
  && (dep_updatedAt deployment === rb_expectedUpdatedAt rollback)
  && (stateVersion s =? rb_expectedStateVersion rollback)%Z.

Definition start_rollback_operation (rollback : CandidatePilotRollbackInput)
    : action repository (option PositionGuardPilotDeploymentRecord) :=
  found ← act_gets (fun r => map_get (rb_deploymentId rollback) (deployments r));
  states ← act_gets exactStates;
  match found, states !! rb_deploymentId rollback with
  | Some deployment, Some s =>
      if (rb_expectedPhase rollback !== Phase.ACTIVE) || (dep_phase deployment !== Phase.ACTIVE)
         || negb (rollback_expected rollback deployment s)
      then act_ret None
      else
        _ ← act_lift (validateCandidatePilotRollbackChronology (rb_transitionEpochNs rollback)
                        deployment s);
        apply_rollback rollback deployment s Phase.DRAINING Audit.ROLLBACK_STARTED
  | _, _ => act_ret None
  end.

Definition complete_rollback_operation (rollback : CandidatePilotRollbackInput)
    : action repository (option PositionGuardPilotDeploymentRecord) :=
  found ← act_gets (fun r => map_get (rb_deploymentId rollback) (deployments r));
  states ← act_gets exactStates;
  match found, states !! rb_deploymentId rollback with
  | Some deployment, Some s =>
      if negb (isRollbackCompletablePhase (rb_expectedPhase rollback))
         || (dep_phase deployment !== rb_expectedPhase rollback)
         || negb (rollback_expected rollback deployment s)
      then act_ret None
      else
        _ ← act_lift (validateCandidatePilotRollbackChronology (rb_transitionEpochNs rollback)
                        deployment s);
        _ ← act_lift (throw_if (negb (isExactCandidateStateRollbackFlat s))
              "Candidate pilot rollback completion requires an exact flat current episode state.");
        apply_rollback rollback deployment s Phase.DISABLED Audit.ROLLBACK_COMPLETED
  | _, _ => act_ret None
  end.

(** Run an operation under the authority of the operator state, if there is a
    store; [authority?.authorityMatched ? authority.value : null]. *)
Definition under_authority (rollback : CandidatePilotRollbackInput)
    (operation : action repository (option PositionGuardPilotDeploymentRecord))
    : action repository (option PositionGuardPilotDeploymentRecord) :=
  store ← act_gets atomicFaultPauseStore;
  match store with
  | None => act_ret None
  | Some t =>
      authority ← store_runWithCandidatePilotRollbackAuthority t
                    (rb_expectedOperatorState rollback) operation;
      act_ret match authority with Some value => value | None => None end
  end.

Definition startRollback (input : CandidatePilotRollbackInput)
    : action repository (option PositionGuardPilotDeploymentRecord) :=
  rollback ← act_lift (validateCandidatePilotRollbackInput input);
  under_authority rollback (start_rollback_operation rollback).

Definition completeRollback (input : CandidatePilotRollbackInput)
    : action repository (option PositionGuardPilotDeploymentRecord) :=
  rollback ← act_lift (validateCandidatePilotRollbackInput input);
  under_authority rollback (complete_rollback_operation rollback).

(** *** Evidence *)

Definition routing_result (s : ExactCandidateState) (m : CandidateEvidenceMaterial) (dup : bool)
    : action repository AdvanceCandidatePilotStateResult :=
  routing ← act_lift (toPositionGuardCandidateRoutingState s);
  act_ret {| advance_state := routing; advance_evidence := material_evidence m;
             advance_duplicate := dup |}.

Definition advanceStateWithEvidence (input : AdvanceCandidatePilotStateInput)
    : action repository AdvanceCandidatePilotStateResult :=
  let id := adv_deploymentId input in
  _ ← act_lift (throw_if (negb (isSafeInteger (adv_expectedStateVersion input))
                          || (adv_expectedStateVersion input <? 0)%Z)
        "Candidate pilot expected state version must be a non-negative safe integer.");
  found ← act_gets (fun r => map_get id (deployments r));
  states ← act_gets exactStates;
  match found, states !! id with
  | Some deployment, Some currentState =>
      material ← act_lift (candidateEvidenceMaterial sha256 id (adv_evidence input));
      records ← act_gets (evidence_of id);
      match find_stored (evidenceId (material_evidence material)) records with
      | Some duplicate =>
          _ ← act_lift (throw_if
                ((rec_materialHash (stored_record duplicate) !== material_hash material)
                 || (rec_materialVersion (stored_record duplicate)
                       !== material_materialVersion material))
                ("Conflicting duplicate candidate evidence "
                 ++ evidenceId (material_evidence material) ++ "."));
          routing_result currentState material true
      | None =>
          _ ← act_lift (throw_if
                (negb (stateVersion currentState =? adv_expectedStateVersion input)%Z)
                ("Candidate state version mismatch: expected "
                 ++ Z_to_string (adv_expectedStateVersion input) ++ ", persisted "
                 ++ Z_to_string (stateVersion currentState) ++ "."));
          let nextRecords := (records ++ [store_material material])%list in
          nextState ← act_lift (projectExactCandidateState (stored_evidence <$> nextRecords));
          _ ← act_lift (throw_if
                (negb (stateVersion nextState =? stateVersion currentState + 1)%Z)
                "Candidate evidence replay did not advance the exact state by one version.");
          events ← act_gets (audit_of id);
          let nextAudit := (events ++ [advanced_event deployment id material
                                        (stateVersion currentState) (stateVersion nextState)])%list in
          _ ← act_modify (set_exact_state id nextState);
          _ ← act_modify (set_evidence id nextRecords);
          _ ← act_modify (set_audit id nextAudit);
          routing_result nextState material false
      end
  | _, _ => act_lift (Throw ("Candidate state " ++ id
                             ++ " does not exist or is legacy approximate."))
  end.

(** *** Recovery faults *)

(** An action on the operator store the repository holds. *)
Definition on_store {A} (f : action T A) (t : T) : action repository A :=
  fun r => let '(t', out) := f t in (set_store t' r, out).

(** What a fault pause read before its first [await]. *)
Record FaultSnapshot := {
  snap_deployment : PositionGuardPilotDeploymentRecord;
  snap_state : ExactCandidateState;
  snap_existingAudit : option PositionGuardPilotAuditEventRecord;
  snap_existingTransition : option ExecutionStateTransitionRecord;
}.

Definition no_store : string :=
  "In-memory candidate recovery faults require an atomic fault-pause store.".

Definition require_store : action repository T :=
  store ← act_gets atomicFaultPauseStore;
  act_lift match store with Some t => Ret t | None => Throw no_store end.

(** Up to [await this.atomicFaultPauseStore.getTransitionById(...)]. *)
Definition fault_begin (input : PauseCandidatePilotForRecoveryFaultInput)
    : action repository FaultSnapshot :=
  t ← require_store;
  found ← act_gets (fun r => map_get (fault_deploymentId input) (deployments r));
  states ← act_gets exactStates;
  events ← act_gets (audit_of (fault_deploymentId input));
  act_lift
    match found, states !! fault_deploymentId input with
    | Some deployment, Some s =>
        if dep_exchangeAccountId deployment === fault_exchangeAccountId input
        then Ret {| snap_deployment := deployment; snap_state := s;
                    snap_existingAudit :=
                      List.find (fun event => audit_id event === fault_faultId input) events;
                    snap_existingTransition := store_getTransitionById (fault_faultId input) t |}
        else Throw "Candidate recovery fault deployment provenance does not match persisted state."
    | _, _ =>
        Throw "Candidate recovery fault deployment provenance does not match persisted state."
    end.

(** [await this.atomicFaultPauseStore.getState()] *)
Definition fault_read_state : action repository ExecutionStateRecord :=
  t ← require_store; act_ret (store_getState t).

Definition recovery_pause (input effective : PauseCandidatePilotForRecoveryFaultInput)
    (transitionAt : string) : FaultPauseInput := {|
  fp_exchangeAccountId := fault_exchangeAccountId input;
  fp_faultId := fault_faultId input;
  fp_reason := candidatePilotRecoveryFaultReason effective;
  fp_occurredAt := fault_occurredAt effective;
  fp_transitionAt := Some transitionAt;
|}.

(** The branch of a fault that is already recorded. *)
Definition fault_duplicate (input effective : PauseCandidatePilotForRecoveryFaultInput)
    (snap : FaultSnapshot) (executionState : ExecutionStateRecord)
    : outcome PauseCandidatePilotForRecoveryFaultResult :=
  let partial := "Conflicting partial candidate recovery fault " ++ fault_faultId input ++ "." in
  let conflict := "Conflicting duplicate candidate recovery fault " ++ fault_faultId input ++ "." in
  match snap_existingAudit snap, snap_existingTransition snap with
  | Some existingAudit, Some existingTransition =>
      if (dep_phase (snap_deployment snap) !== Phase.PAUSED_FAULT)
         || (dep_updatedAt (snap_deployment snap) !== fault_occurredAt effective)
         || negb (halted (es_systemStatus executionState))
      then Throw partial
      else
        match audit_fromPhase existingAudit with
        | None => Throw conflict
        | Some from =>
            if negb (isFaultPausablePhase from) then Throw conflict
            else
              let expectedAudit := buildCandidatePilotRecoveryFaultAuditEvent effective from
                                     (stateVersion (snap_state snap)) in
              let expectedReason := "faultId=" ++ fault_faultId input ++ "; reason="
                                    ++ candidatePilotRecoveryFaultReason effective in
              if negb (sameAuditEvent existingAudit expectedAudit)
                 || (tr_command existingTransition !== Command.AUTOMATIC_PAUSE)
                 || (tr_exchangeAccountId existingTransition !== fault_exchangeAccountId input)
                 || (tr_reason existingTransition !== Some expectedReason)
              then Throw conflict
              else Ret {| paused_deployment := snap_deployment snap;
                          paused_executionState := executionState;
                          paused_auditEvent := existingAudit;
                          paused_duplicate := true |}
        end
  | _, _ => Throw partial
  end.

(** After the two [await]s. *)
Definition fault_finish (input : PauseCandidatePilotForRecoveryFaultInput)
    (candidateIntentInput : option PauseCandidateIntentFaultInput)
    (snap : FaultSnapshot) (executionState : ExecutionStateRecord)
    : action repository PauseCandidatePilotForRecoveryFaultResult :=
  let deployment := snap_deployment snap in
  events ← act_gets (audit_of (fault_deploymentId input));
  latestAudit ← act_lift (latest_audit events);
  effective ← act_lift
    match candidateIntentInput, snap_existingAudit snap with
    | None, _ => Ret input
    | Some _, Some existing => Ret (with_occurredAt input (audit_createdAt existing))
    | Some intent, None =>
        resolveCandidateIntentFaultOccurrence sha256 intent
          (dep_updatedAt deployment :: option_list (audit_createdAt <$> latestAudit))
    end;
  transitionAt ← act_lift (deriveFaultPauseTransitionAt (fault_occurredAt effective)
                             (es_updatedAt executionState));
  if bool_decide (is_Some (snap_existingAudit snap))
     || bool_decide (is_Some (snap_existingTransition snap))
  then act_lift (fault_duplicate input effective snap executionState)
  else
    _ ← act_lift (throw_if (negb (isFaultPausablePhase (dep_phase deployment)))
          ("Candidate recovery fault cannot pause phase "
           ++ Phase.to_string (dep_phase deployment) ++ "."));
    _ ← act_lift (validateCandidatePilotRecoveryFaultChronology (fault_occurredAt effective)
                    deployment (audit_createdAt <$> latestAudit));
    let auditEvent := buildCandidatePilotRecoveryFaultAuditEvent effective (dep_phase deployment)
                        (stateVersion (snap_state snap)) in
    t ← require_store;
    nextExecutionState ← on_store (store_applyFaultPauseAtomically
                                     (recovery_pause input effective transitionAt)) t;
    let pausedDeployment := with_phase deployment Phase.PAUSED_FAULT (fault_occurredAt effective) in
    _ ← act_modify (set_deployment pausedDeployment);
    _ ← act_modify (append_audit (fault_deploymentId input) auditEvent);
    act_ret {| paused_deployment := pausedDeployment; paused_executionState := nextExecutionState;
               paused_auditEvent := auditEvent; paused_duplicate := false |}.

(** The three segments without anything in between. *)
Definition pauseForRecoveryFaultSerialized (input : PauseCandidatePilotForRecoveryFaultInput)
    (candidateIntentInput : option PauseCandidateIntentFaultInput)
    : action repository PauseCandidatePilotForRecoveryFaultResult :=
  snap ← fault_begin input;
  executionState ← fault_read_state;
  fault_finish input candidateIntentInput snap executionState.

Definition pauseForRecoveryFault (input : PauseCandidatePilotForRecoveryFaultInput)
    : action repository PauseCandidatePilotForRecoveryFaultResult :=
  _ ← act_lift (validateCandidatePilotRecoveryFaultInput input);
  _ ← require_store;
  pauseForRecoveryFaultSerialized input None.

Definition pauseForCandidateIntentFault (input : PauseCandidateIntentFaultInput)
    : action repository PauseCandidatePilotForRecoveryFaultResult :=
  fault ← act_lift (validateCandidateIntentFaultInput sha256 input);
  _ ← require_store;
  pauseForRecoveryFaultSerialized fault (Some input).

(** *** Execution bindings *)

Definition find_binding (id : string) (bindings : jsmap string CandidateExecutionBindingRecord)
    : option CandidateExecutionBindingRecord :=
  List.find (fun candidate => bind_id candidate === id) (map_values bindings).

Definition createExecutionBinding (input : CandidateExecutionBindingRecord)
    : action repository CandidateExecutionBindingRecord :=
  binding ← act_lift (validateCandidateExecutionBinding sha256 input);
  found ← act_gets (fun r => map_get (bind_deploymentId binding) (deployments r));
  _ ← act_lift
    match found with
    | Some deployment =>
        _ ← throw_if (dep_exchangeAccountId deployment !== bind_exchangeAccountId binding)
              "Candidate execution binding deployment does not match its exchange account.";
        throw_if (negb (active_phase (dep_phase deployment))
                  || (dep_activationAt deployment !== Some (bind_activationAt binding))
                  || (dep_activationEpochNs deployment !== Some (bind_activationEpochNs binding)))
          "Candidate execution binding must use the persisted active deployment instant."
    | None => Throw "Candidate execution binding deployment does not match its exchange account."
    end;
  bindings ← act_gets bindingsByOrderId;
  match map_get (bind_orderId binding) bindings with
  | Some existing =>
      _ ← act_lift (throw_if (negb (sameBinding existing binding))
            ("Conflicting candidate execution binding for order " ++ bind_orderId binding ++ "."));
      act_ret existing
  | None =>
      _ ← act_lift (throw_if (bool_decide (is_Some (find_binding (bind_id binding) bindings)))
            ("Conflicting candidate execution binding id " ++ bind_id binding ++ "."));
      _ ← act_modify (set_binding binding);
      act_ret binding
  end.

(** [PreparedInMemoryCandidateBoundOrderIntent]: what the capability captured. *)
Record PreparedBinding := {
  prep_binding : CandidateExecutionBindingRecord;
  prep_deployment : option PositionGuardPilotDeploymentRecord;
  prep_exactState : option ExactCandidateState;
  prep_existingByOrder : option CandidateExecutionBindingRecord;
  prep_existingById : option CandidateExecutionBindingRecord;
}.

Definition prepareCandidateBoundOrderIntent (input : CandidateExecutionBindingRecord)
    : action repository PreparedBinding :=
  binding ← act_lift (validateCandidateExecutionBinding sha256 input);
  act_gets (fun r => {|
    prep_binding := binding;
    prep_deployment := map_get (bind_deploymentId binding) (deployments r);
    prep_exactState := exactStates r !! bind_deploymentId binding;
    prep_existingByOrder := map_get (bind_orderId binding) (bindingsByOrderId r);
    prep_existingById := find_binding (bind_id binding) (bindingsByOrderId r);
  |}).

(** [commitBinding()], over the flag [used] it closes over. *)
Definition commitBinding (p : PreparedBinding) : action (bool * repository) unit :=
  used ← act_gets fst;
  _ ← act_lift (throw_if used
        "Candidate-bound binding commit capability is single-use and was already used.");
  _ ← act_modify (fun '(_, r) => (true, r));
  r ← act_gets snd;
  let binding := prep_binding p in
  let currentByOrder := map_get (bind_orderId binding) (bindingsByOrderId r) in
  let currentById := find_binding (bind_id binding) (bindingsByOrderId r) in
  _ ← act_lift (throw_if
        ((map_get (bind_deploymentId binding) (deployments r) !== prep_deployment p)
         || (exactStates r !! bind_deploymentId binding !== prep_exactState p)
         || (currentByOrder !== prep_existingByOrder p)
         || (currentById !== prep_existingById p))
        "Candidate-bound order authority changed before binding commit.");
  match currentByOrder, currentById with
  | None, None => act_modify (fun '(used, r) => (used, set_binding binding r))
  | Some byOrder, Some byId =>
      act_lift (throw_if (negb (sameBinding byOrder binding) || negb (sameBinding byId binding))
        "Candidate-bound order binding conflicts with prepared authority.")
  | _, _ => act_lift (Throw "Candidate-bound order binding conflicts with prepared authority.")
  end.

Definition getExecutionBindingForOrder (orderId : string)
    : action repository (option CandidateExecutionBindingRecord) :=
  act_gets (fun r => map_get orderId (bindingsByOrderId r)).

End Repository.
