(* ===== verification/PilotTheory.v ===== *)
(** * PilotTheory: what the pilot repository promises

    The effects the methods of [PilotRepository] can have, as a step relation;
    that every method, and every run of methods and operator commands, is a
    sequence of effects; and the invariants of the repository by induction on
    them. *)

From Stdlib Require Import ZArith Lia.
From stdpp Require Import base option list strings gmap relations.
From S2P Require Import Prelude Num Types Text Timestamp NumText JsMap CandidateState.
From S2P Require Import ExactState OperatorState PilotRecords PilotRepository.

Local Open Scope string_scope.
Local Open Scope js_scope.
Local Open Scope bool_scope.

(** ** Laws of the operator store *)

Class AtomicFaultPauseLaws (T : Type) {HT : AtomicFaultPauseStore T} : Prop := {
  (** A fault pause that returns has halted the store and is recorded. *)
  law_pause_returns : forall input t t' s,
    store_applyFaultPauseAtomically input t = (t', Ret s) ->
    s = store_getState t' /\ halted (es_systemStatus s) = true /\
    exists tr, store_getTransitionById (fp_faultId input) t' = Some tr /\
      tr_command tr = Command.AUTOMATIC_PAUSE /\
      tr_exchangeAccountId tr = fp_exchangeAccountId input /\
      tr_reason tr = Some (formatFaultPauseReason input);
  (** One that throws has changed nothing. *)
  law_pause_throws : forall input t t' m,
    store_applyFaultPauseAtomically input t = (t', Throw m) -> t' = t;
  (** An expectation that is valid and met runs the operation. *)
  law_authority_grants : forall (R A : Type) t expected (operation : action R A) r,
    validateCandidatePilotRollbackOperatorState expected = Ret expected ->
    matchesCandidatePilotRollbackOperatorState (store_getState t) expected
      (ros_exchangeAccountId expected) = true ->
    store_runWithCandidatePilotRollbackAuthority t expected operation r =
    (let '(r', out) := operation r in
     (r', match out with Ret v => Ret (Some v) | Throw m => Throw m end));
  (** An operation runs only under a halted state of the expected account;
      otherwise nothing happens. *)
  law_authority : forall (R A : Type) t expected (operation : action R A) r,
    let result := store_runWithCandidatePilotRollbackAuthority t expected operation r in
    (fst result = r /\ forall v, snd result <> Ret (Some v)) \/
    (halted (es_systemStatus (store_getState t)) = true /\
     es_exchangeAccountId (store_getState t) = ros_exchangeAccountId expected /\
     result = (let '(r', out) := operation r in
               (r', match out with Ret v => Ret (Some v) | Throw m => Throw m end)));
}.

Lemma same_fault_pause_true input t s :
  same_fault_pause input t s = true ->
  tr_command t = Command.AUTOMATIC_PAUSE /\ tr_exchangeAccountId t = fp_exchangeAccountId input /\
  tr_reason t = Some (formatFaultPauseReason input) /\
  halted (es_systemStatus s) = true.
Proof. unfold same_fault_pause. intros. by destruct_bools. Qed.

Lemma fault_paused_halted input s at_ : halted (es_systemStatus (fault_paused input s at_)) = true.
Proof. unfold fault_paused. cbn. by destruct (_ || _). Qed.

#[export] Instance InMemoryOperatorStateStore_laws :
  AtomicFaultPauseLaws InMemoryOperatorStateStore.
Proof.
  constructor.
  - intros input t t' s. cbn [store_applyFaultPauseAtomically
      InMemoryOperatorStateStore_fault_pause].
    destruct (applyFaultPause_cases input t)
      as [[msg ->]|[(existing & Hf & Hs & ->)|(at_ & _ & Ha & _ & _ & ->)]]; [done| |].
    + intros [= <- <-]. apply same_fault_pause_true in Hs as (? & ? & ? & ?).
      split_and!; [done..|]. by exists existing.
    + intros H. injection H as <- <-. split_and!; [done|apply fault_paused_halted|].
      eexists. cbn. rewrite bool_decide_eq_true_2 by done. split_and!; try done.
  - intros input t t' m. cbn [store_applyFaultPauseAtomically
      InMemoryOperatorStateStore_fault_pause].
    destruct (applyFaultPause_cases input t)
      as [[msg ->]|[(existing & Hf & Hs & ->)|(at_ & _ & _ & _ & _ & ->)]]; [|done..].
    by intros [= <- _].
  - intros R A t expected operation r Hv Hm. cbn [store_runWithCandidatePilotRollbackAuthority
      InMemoryOperatorStateStore_fault_pause store_getState] in *.
    unfold runWithCandidatePilotRollbackAuthority. rewrite act_lift_bind, Hv, Hm. cbn [negb].
    rewrite act_bind_eq. by destruct (operation r) as [r' [v|m]].
  - intros R A t expected operation r. cbn [store_runWithCandidatePilotRollbackAuthority
      InMemoryOperatorStateStore_fault_pause]. unfold runWithCandidatePilotRollbackAuthority.
    cbv zeta. rewrite act_lift_bind.
    destruct (validateCandidatePilotRollbackOperatorState expected) as [a|] eqn:Hv; [|by left].
    assert (a = expected) as ->.
    { unfold validateCandidatePilotRollbackOperatorState in Hv. by inv_outcome. }
    destruct (matchesCandidatePilotRollbackOperatorState _ _ _) eqn:Hm; [|by left].
    right. unfold matchesCandidatePilotRollbackOperatorState in Hm. destruct_bools.
    split_and!; [done..|]. cbn [negb]. rewrite act_bind_eq.
    by destruct (operation r) as [r' [v|m]].
Qed.

(** ** Valid deployments *)

Definition valid (d : PositionGuardPilotDeploymentRecord) : Prop :=
  validateCandidatePilotDeployment d = Ret d.

Lemma validate_deployment_same d d' : validateCandidatePilotDeployment d = Ret d' -> d' = d /\ valid d.
Proof.
  unfold valid. intros H. assert (d' = d) as ->; [|done].
  unfold validateCandidatePilotDeployment in H. by inv_outcome.
Qed.

(** What the validator checks, on the instants. *)
Record valid_spec (d : PositionGuardPilotDeploymentRecord) : Prop := {
  vs_id : is_blank (dep_id d) = false;
  vs_account : is_blank (dep_exchangeAccountId d) = false;
  vs_pilot : dep_pilotId d = PILOT_ID;
  vs_market : dep_market d = "KRW-BTC";
  vs_policy : dep_policyId d = "COMBINED_CONSERVATIVE";
  vs_version : dep_policyVersion d = "PCS-2026-001.DEPLOYMENT_READINESS_V1";
  vs_times : exists c u,
    parsePositionGuardCandidateTimestamp (dep_createdAt d) "deployment createdAt" = Ret c /\
    parsePositionGuardCandidateTimestamp (dep_updatedAt d) "deployment updatedAt" = Ret u /\
    (c <= u)%Z;
  vs_activation : validateActivation d = Ret tt;
  vs_active : active_phase (dep_phase d) = true -> dep_activationAt d <> None;
}.

Lemma valid_iff d : valid d <-> valid_spec d.
Proof.
  unfold valid, validateCandidatePilotDeployment, requireNonEmpty. split.
  - intros H. inv_outcome. destruct_bools.
    constructor; try done; [eexists _, _; eauto | by destruct x1 |].
    intros Ha Hn. rewrite Ha, Hn in *. by destruct x1.
  - intros [-> -> -> -> -> -> (c & u & -> & -> & Hle) Hact Hn]. cbn.
    rewrite (proj2 (Z.ltb_ge _ _)) by lia. cbn. rewrite Hact. cbn.
    destruct (active_phase (dep_phase d)) eqn:Ha; [|done].
    specialize (Hn eq_refl). rewrite bool_decide_eq_false_2 by done. done.
Qed.

(** ** The phase graph *)

(** The transitions of the pilot: activation, drain, completion of a rollback,
    and the fault pause.  DISABLED and PAUSED_FAULT have none. *)
Definition edge (p q : PositionGuardPilotPhase) : bool :=
  match p, q with
  | Phase.PENDING_FLAT, (Phase.ACTIVE | Phase.DISABLED | Phase.PAUSED_FAULT)
  | Phase.ACTIVE, (Phase.DRAINING | Phase.DISABLED | Phase.PAUSED_FAULT)
  | Phase.DRAINING, (Phase.DISABLED | Phase.PAUSED_FAULT) => true
  | _, _ => false
  end.

Lemma edge_disabled p : isRollbackCompletablePhase p = true -> edge p Phase.DISABLED = true.
Proof. by destruct p. Qed.
Lemma edge_paused p : isFaultPausablePhase p = true -> edge p Phase.PAUSED_FAULT = true.
Proof. by destruct p. Qed.

(** A deployment moves along an edge: its identity and creation stay, an
    activation stays, time does not go back, and it stays valid. *)
Record moves (d next : PositionGuardPilotDeploymentRecord) : Prop := {
  mv_id : dep_id next = dep_id d;
  mv_account : dep_exchangeAccountId next = dep_exchangeAccountId d;
  mv_pilot : dep_pilotId next = dep_pilotId d;
  mv_created : dep_createdAt next = dep_createdAt d;
  mv_edge : edge (dep_phase d) (dep_phase next) = true;
  mv_activation : dep_activationAt d <> None ->
    dep_activationAt next = dep_activationAt d /\
    dep_activationEpochNs next = dep_activationEpochNs d;
  mv_time : forall u u' l l',
    parsePositionGuardCandidateTimestamp (dep_updatedAt d) l = Ret u ->
    parsePositionGuardCandidateTimestamp (dep_updatedAt next) l' = Ret u' -> (u <= u')%Z;
  mv_valid : valid d -> valid next;
}.

(** The event a transition to a phase is logged as. *)
Definition transition_event (target : PositionGuardPilotPhase)
    : Audit.PositionGuardPilotAuditEventType :=
  match target with
  | Phase.DRAINING => Audit.ROLLBACK_STARTED
  | Phase.DISABLED => Audit.ROLLBACK_COMPLETED
  | Phase.PAUSED_FAULT => Audit.FAULT_PAUSED
  | _ => Audit.PHASE_TRANSITION
  end.

(** The audit event of a move. *)
Record move_event (d next : PositionGuardPilotDeploymentRecord) (version : Z)
    (e : PositionGuardPilotAuditEventRecord) : Prop := {
  me_deployment : audit_deploymentId e = dep_id d;
  me_from : audit_fromPhase e = Some (dep_phase d);
  me_to : audit_toPhase e = Some (dep_phase next);
  me_version : audit_stateVersion e = version;
  me_time : audit_createdAt e = dep_updatedAt next;
  me_type : audit_eventType e = transition_event (dep_phase next);
}.

Section Effects.
Context (sha256 : string -> string) (localeCompare : string -> string -> comparison).
Context {T : Type} {HT : AtomicFaultPauseStore T} {HL : AtomicFaultPauseLaws T}.

Abbreviation repository := (InMemoryCandidatePilotRepository T).

Definition version_of (id : string) (r : repository) : Z :=
  from_option stateVersion 0%Z (exactStates r !! id).

Inductive effect (r : repository) : repository -> Prop :=
| effect_store t : effect r (set_store t r)
| effect_insert d :
    valid d -> map_get (dep_id d) (deployments r) = None ->
    existsb (sameAccountPilot d) (map_values (deployments r)) = false ->
    effect r (set_audit (dep_id d) [created_event d] (set_evidence (dep_id d) []
      (set_exact_state (dep_id d) createExactEmptyCandidateState (set_deployment d r))))
| effect_move d next e :
    map_get (dep_id d) (deployments r) = Some d -> moves d next ->
    move_event d next (version_of (dep_id d) r) e ->
    effect r (append_audit (dep_id d) e (set_deployment next r))
| effect_advance d ev m s s' :
    map_get (dep_id d) (deployments r) = Some d -> exactStates r !! dep_id d = Some s ->
    candidateEvidenceMaterial sha256 (dep_id d) ev = Ret m ->
    find_stored (evidenceId (material_evidence m)) (evidence_of (dep_id d) r) = None ->
    projectExactCandidateState
      (stored_evidence <$> (evidence_of (dep_id d) r ++ [store_material m])%list) = Ret s' ->
    stateVersion s' = (stateVersion s + 1)%Z ->
    effect r (set_audit (dep_id d)
      (audit_of (dep_id d) r
         ++ [advanced_event d (dep_id d) m (stateVersion s) (stateVersion s')])%list
      (set_evidence (dep_id d) (evidence_of (dep_id d) r ++ [store_material m])%list
        (set_exact_state (dep_id d) s' r)))
| effect_binding b d :
    validateCandidateExecutionBinding sha256 b = Ret b ->
    map_get (bind_deploymentId b) (deployments r) = Some d ->
    dep_exchangeAccountId d = bind_exchangeAccountId b -> active_phase (dep_phase d) = true ->
    dep_activationAt d = Some (bind_activationAt b) ->
    dep_activationEpochNs d = Some (bind_activationEpochNs b) ->
    map_get (bind_orderId b) (bindingsByOrderId r) = None ->
    find_binding (bind_id b) (bindingsByOrderId r) = None ->
    effect r (set_binding b r).

Abbreviation effects := (rtc effect).

(** The deployments are stored under their identifiers. *)
Definition keyed (r : repository) : Prop :=
  map_wf (deployments r) /\
  forall id d, map_get id (deployments r) = Some d -> dep_id d = id.

Lemma effect_keyed r r' : effect r r' -> keyed r -> keyed r'.
Proof.
  intros He [Hwf Hk].
  assert (Hset : forall d, map_wf (map_set (dep_id d) d (deployments r)) /\
                 forall id d', map_get id (map_set (dep_id d) d (deployments r)) = Some d' ->
                   dep_id d' = id).
  { intros d. split; [by apply map_set_wf|]. intros id d'. rewrite map_get_set_cases.
    destruct (decide (id = dep_id d)) as [->|]; [by intros [= <-] | apply Hk]. }
  destruct He; try (by split); cbn; apply Hset.
Qed.

Lemma effects_keyed r r' : effects r r' -> keyed r -> keyed r'.
Proof. induction 1; eauto using effect_keyed. Qed.

(** *** Every method is a sequence of effects *)

Lemma effects_none r : effects r r.
Proof. apply rtc_refl. Qed.

(** Step through a method: a guard that fails or an early return leaves the
    repository as it is. *)
Ltac unchanged := cbn [fst snd act_ret act_lift throw_if]; first [apply rtc_refl | done].

Ltac method_step :=
  cbv beta iota zeta;
  match goal with
  | |- context [(act_gets _ ≫= _) _] => rewrite act_gets_bind
  | |- context [(act_lift ?m ≫= _) _] =>
      rewrite act_lift_bind; destruct m eqn:?; [|unchanged]
  | |- context [(act_modify _ ≫= _) _] => rewrite act_modify_bind
  end.

Lemma createDeployment_effects input r :
  effects r (fst (createDeploymentWithInitialState input r)).
Proof.
  unfold createDeploymentWithInitialState, insertDeploymentWithInitialState.
  repeat method_step. rewrite act_bind_eq. repeat method_step.
  unfold validateInitialDeployment in *. inv_outcome.
  match goal with H : validateCandidatePilotDeployment _ = Ret _ |- _ =>
    apply validate_deployment_same in H as [-> Hv] end.
  destruct_bools. apply rtc_once. cbn [fst act_ret act_modify]. apply effect_insert; [done| |done].
  apply eq_None_not_Some. done.
Qed.

Lemma bootstrapAuthority_unchanged out d (r : repository) : fst (bootstrapAuthority localeCompare out d r) = r.
Proof.
  unfold bootstrapAuthority. method_step. cbv beta.
  destruct (exactStates r !! dep_id d); [|done]. by repeat method_step.
Qed.

Lemma initializeDeployment_effects input (r : repository) :
  effects r (fst (initializeDeploymentWithInitialState localeCompare input r)).
Proof.
  unfold initializeDeploymentWithInitialState, insertDeploymentWithInitialState.
  repeat method_step.
  unfold validateInitialDeployment in *. inv_outcome.
  match goal with H : validateCandidatePilotDeployment _ = Ret _ |- _ =>
    apply validate_deployment_same in H as [-> Hv] end.
  destruct (map_get _ (deployments r)) as [existing|] eqn:Hd.
  { rewrite bootstrapAuthority_unchanged. apply rtc_refl. }
  destruct (List.find _ _) as [existing|] eqn:Hf.
  { rewrite bootstrapAuthority_unchanged. apply rtc_refl. }
  rewrite act_bind_eq. repeat method_step. cbn [act_modify fst snd].
  assert (Hnew : existsb (sameAccountPilot (create_deployment input)) (map_values (deployments r)) = false).
  { apply not_true_iff_false. intros (d & Hin & Hs)%existsb_exists.
    by rewrite (List.find_none _ _ Hf d Hin) in Hs. }
  apply rtc_once. match goal with |- effect _ (fst (?m _)) => idtac end.
  rewrite act_gets_bind. cbn [set_audit set_evidence set_exact_state set_deployment deployments].
  rewrite map_get_set. rewrite bootstrapAuthority_unchanged. by apply effect_insert.
Qed.

(** The time guard of an activation. *)
Lemma validateActivationInput_spec input d :
  validateActivationInput input d = Ret tt ->
  parsePositionGuardCandidateTimestamp (activate_activationAt input) "deployment activationAt"
    = Ret (activate_activationEpochNs input) /\ (0 <= activate_activationEpochNs input)%Z /\
  exists c u,
    parsePositionGuardCandidateTimestamp (dep_createdAt d) "deployment createdAt" = Ret c /\
    parsePositionGuardCandidateTimestamp (dep_updatedAt d) "deployment updatedAt" = Ret u /\
    (c <= activate_activationEpochNs input)%Z /\ (u <= activate_activationEpochNs input)%Z.
Proof.
  unfold validateActivationInput. intros H. inv_outcome. destruct_bools.
  match type of H with (if ?b then _ else _) = _ => destruct b eqn:E; [done|] end.
  inv_outcome. destruct_bools. subst.
  split_and!; [done|done|]. eexists _, _. eauto.
Qed.

Lemma activated_moves input d :
  dep_phase d = Phase.PENDING_FLAT -> dep_activationAt d = None ->
  validateActivationInput input d = Ret tt -> moves d (activated d input).
Proof.
  intros Hp Hn (Ht & H0 & c & u & Hc & Hu & Hle & Hle')%validateActivationInput_spec.
  constructor; try done.
  - cbn. by rewrite Hp.
  - intros u0 u' l l' Hu0 Hu'. cbn in Hu'. rewrite (timestamp_relabel _ _ _ _ Ht) in Hu'.
    rewrite (timestamp_relabel _ _ _ _ Hu) in Hu0. by simplify_eq.
  - intros Hv%valid_iff. apply valid_iff. destruct Hv. constructor; try done.
    + exists c, (activate_activationEpochNs input). cbn.
      by rewrite Hc, (timestamp_relabel _ _ _ _ Ht).
    + unfold validateActivation. cbn. rewrite Ht. cbn.
      by rewrite (proj2 (Z.ltb_ge _ _)), Z.eqb_refl by lia.
Qed.

Lemma keyed_id r id d : keyed r -> map_get id (deployments r) = Some d -> id = dep_id d.
Proof. intros [_ Hk] H. symmetry. by apply Hk. Qed.

Lemma activateDeployment_effects input r :
  keyed r -> effects r (fst (activateDeployment input r)).
Proof.
  intros Hk. unfold activateDeployment. method_step. cbv beta.
  destruct (map_get _ _) as [d|] eqn:Hd; [|unchanged].
  pose proof (keyed_id _ _ _ Hk Hd) as Hid. rewrite Hid in Hd.
  destruct (_ || _) eqn:Hg; [unchanged|]. destruct_bools.
  repeat method_step. cbn [fst act_ret]. apply rtc_once.
  match goal with H : validateActivationInput _ _ = Ret ?u |- _ => destruct u end.
  apply (effect_move _ d); [done| |].
  - apply activated_moves; try done; by destruct (activate_expectedPhase input).
  - by constructor.
Qed.

(** The time guard of a rollback. *)
Lemma rollback_chronology_spec at_ d s :
  validateCandidatePilotRollbackChronology at_ d s = Ret tt ->
  exists c u,
    parsePositionGuardCandidateTimestamp (dep_createdAt d) "candidate deployment createdAt" = Ret c /\
    parsePositionGuardCandidateTimestamp (dep_updatedAt d) "candidate deployment updatedAt" = Ret u /\
    (c <= at_)%Z /\ (u <= at_)%Z.
Proof.
  unfold validateCandidatePilotRollbackChronology. intros H. inv_outcome. destruct_bools.
  eexists _, _. eauto.
Qed.

Lemma rollback_input_spec input rollback :
  validateCandidatePilotRollbackInput input = Ret rollback ->
  rollback = input /\ (0 <= rb_transitionEpochNs input)%Z /\
  forall l, parsePositionGuardCandidateTimestamp (rb_transitionAt input) l
            = Ret (rb_transitionEpochNs input).
Proof.
  unfold validateCandidatePilotRollbackInput. intros H. inv_outcome. destruct_bools. subst.
  split_and!; [done|lia|]. intros l. by eapply timestamp_relabel.
Qed.

(** A move of the phase to a time that is not before the last update; a
    drain needs a deployment that is active already. *)
Lemma with_phase_moves d phase at_ t u lu :
  edge (dep_phase d) phase = true ->
  (forall l, parsePositionGuardCandidateTimestamp at_ l = Ret t) ->
  parsePositionGuardCandidateTimestamp (dep_updatedAt d) lu = Ret u -> (u <= t)%Z ->
  (active_phase phase = true -> active_phase (dep_phase d) = true) ->
  moves d (with_phase d phase at_).
Proof.
  intros He Ht Hu Hut Ha. constructor; try done.
  - intros u0 u' l l' Hu0 Hu'. cbn in Hu'. rewrite Ht in Hu'.
    rewrite (timestamp_relabel _ _ _ _ Hu) in Hu0. by simplify_eq.
  - intros Hv%valid_iff. apply valid_iff. destruct Hv. constructor; try done.
    + destruct vs_times0 as (c & u' & Hc & Hu' & Hle). exists c, t. cbn. rewrite Hc, Ht.
      rewrite (timestamp_relabel _ _ _ _ Hu) in Hu'. simplify_eq. split_and!; [done..|lia].
    + cbn. intros Hp. by apply vs_active0, Ha.
Qed.

Lemma apply_rollback_effects rollback d s phase ty r :
  map_get (dep_id d) (deployments r) = Some d -> exactStates r !! dep_id d = Some s ->
  rb_deploymentId rollback = dep_id d -> moves d (with_phase d phase (rb_transitionAt rollback)) ->
  ty = transition_event phase ->
  effects r (fst (apply_rollback rollback d s phase ty r)).
Proof.
  intros Hd Hs Hid Hm Hty. unfold apply_rollback. do 2 method_step. rewrite act_lift_bind.
  assert (effect r (append_audit (dep_id (with_phase d phase (rb_transitionAt rollback)))
    (buildCandidatePilotRollbackAuditEvent rollback ty (dep_phase d) phase (stateVersion s))
    (set_deployment (with_phase d phase (rb_transitionAt rollback)) r))) as He.
  { apply (effect_move _ d); [done..|]. constructor; cbn; try done. unfold version_of. by rewrite Hs. }
  destruct (validateCandidatePilotDeployment _); by apply rtc_once.
Qed.

Lemma start_rollback_effects rollback r :
  keyed r -> validateCandidatePilotRollbackInput rollback = Ret rollback ->
  effects r (fst (start_rollback_operation rollback r)).
Proof.
  intros Hk (_ & H0 & Ht)%rollback_input_spec. unfold start_rollback_operation. do 2 method_step.
  cbv beta. destruct (map_get _ _) as [d|] eqn:Hd; [|unchanged].
  destruct (exactStates r !! _) as [s|] eqn:Hs; [|unchanged].
  pose proof (keyed_id _ _ _ Hk Hd) as Hid. rewrite Hid in Hd, Hs.
  destruct (_ || _) eqn:Hg; [unchanged|]. destruct_bools.
  method_step. match goal with H : _ = Ret ?u |- _ => destruct u end.
  match goal with H : validateCandidatePilotRollbackChronology _ _ _ = _ |- _ =>
    apply rollback_chronology_spec in H as (c & u & Hc & Hu & ? & ?) end.
  apply apply_rollback_effects; [done|done|done| |done].
  eapply with_phase_moves; eauto; try by match goal with H : dep_phase d = _ |- _ => rewrite H end.
Qed.

Lemma complete_rollback_effects rollback r :
  keyed r -> validateCandidatePilotRollbackInput rollback = Ret rollback ->
  effects r (fst (complete_rollback_operation rollback r)).
Proof.
  intros Hk (_ & H0 & Ht)%rollback_input_spec. unfold complete_rollback_operation.
  do 2 method_step. cbv beta. destruct (map_get _ _) as [d|] eqn:Hd; [|unchanged].
  destruct (exactStates r !! _) as [s|] eqn:Hs; [|unchanged].
  pose proof (keyed_id _ _ _ Hk Hd) as Hid. rewrite Hid in Hd, Hs.
  destruct (_ || _) eqn:Hg; [unchanged|]. destruct_bools.
  do 2 method_step.
  match goal with H : validateCandidatePilotRollbackChronology _ _ _ = Ret ?u |- _ => destruct u;
    apply rollback_chronology_spec in H as (c & u' & Hc & Hu & ? & ?) end.
  apply apply_rollback_effects; [done|done|done| |done].
  eapply with_phase_moves; eauto; [|done].
  apply edge_disabled. by match goal with H : dep_phase d = _ |- _ => rewrite H end.
Qed.

Lemma under_authority_effects rollback operation r :
  effects r (fst (operation r)) -> effects r (fst (under_authority rollback operation r)).
Proof.
  intros Ho. unfold under_authority. method_step. cbv beta.
  destruct (atomicFaultPauseStore r) as [t|]; [|unchanged].
  rewrite act_bind_eq.
  pose proof (law_authority _ _ t (rb_expectedOperatorState rollback) operation r) as H. cbv zeta in H.
  destruct (store_runWithCandidatePilotRollbackAuthority _ _ _ _) as [r' out]. cbn [fst snd] in H.
  destruct H as [[-> _]|(_ & _ & H)]; [by destruct out|].
  destruct (operation r) as [r'' out']. injection H as -> ->. by destruct out'.
Qed.

Lemma startRollback_effects input r : keyed r -> effects r (fst (startRollback input r)).
Proof.
  intros Hk. unfold startRollback. method_step.
  match goal with H : validateCandidatePilotRollbackInput _ = _ |- _ =>
    pose proof (rollback_input_spec _ _ H) as (-> & _) end.
  by apply under_authority_effects, start_rollback_effects.
Qed.

Lemma completeRollback_effects input r : keyed r -> effects r (fst (completeRollback input r)).
Proof.
  intros Hk. unfold completeRollback. method_step.
  match goal with H : validateCandidatePilotRollbackInput _ = _ |- _ =>
    pose proof (rollback_input_spec _ _ H) as (-> & _) end.
  by apply under_authority_effects, complete_rollback_effects.
Qed.

Lemma advance_effects input r : keyed r -> effects r (fst (advanceStateWithEvidence sha256 input r)).
Proof.
  intros Hk. unfold advanceStateWithEvidence. do 3 method_step. cbv beta zeta.
  destruct (map_get _ _) as [d|] eqn:Hd; [|unchanged].
  destruct (exactStates r !! _) as [s|] eqn:Hs; [|unchanged].
  pose proof (keyed_id _ _ _ Hk Hd) as Hid. rewrite Hid in *.
  do 2 method_step. cbv beta. destruct (find_stored _ _) as [dup|] eqn:Hf.
  { unfold routing_result. by repeat method_step. }
  do 4 method_step. cbv beta zeta. do 3 method_step. unfold routing_result.
  match goal with |- effects _ (fst (_ ?r')) => assert (effect r r') as He end.
  { eapply effect_advance; eauto. repeat match goal with H : throw_if _ _ = Ret _ |- _ => apply throw_if_Ret in H end. destruct_bools. lia. }
  rewrite act_lift_bind. destruct (toPositionGuardCandidateRoutingState _); by apply rtc_once.
Qed.

(** *** Fault pauses *)

Lemma require_store_bind {A} (k : T -> action repository A) r :
  (t ← require_store; k t) r =
  match atomicFaultPauseStore r with Some t => k t r | None => (r, Throw no_store) end.
Proof.
  unfold require_store. rewrite act_bind_eq, act_gets_bind. by destruct (atomicFaultPauseStore r).
Qed.

Lemma on_store_bind {A B} (f : action T A) t (k : A -> action repository B) r :
  (x ← on_store f t; k x) r =
  match f t with
  | (t', Ret v) => k v (set_store t' r)
  | (t', Throw e) => (set_store t' r, Throw e)
  end.
Proof. rewrite act_bind_eq. unfold on_store. by destruct (f t) as [t' [v|e]]. Qed.

(** The first segment changes nothing; what it read is the current state. *)
Record fresh (input : PauseCandidatePilotForRecoveryFaultInput) (snap : FaultSnapshot)
    (r : repository) : Prop := {
  fresh_deployment : map_get (fault_deploymentId input) (deployments r) = Some (snap_deployment snap);
  fresh_state : exactStates r !! fault_deploymentId input = Some (snap_state snap);
  fresh_account : dep_exchangeAccountId (snap_deployment snap) = fault_exchangeAccountId input;
  fresh_audit : snap_existingAudit snap =
    List.find (fun event => audit_id event === fault_faultId input)
      (audit_of (fault_deploymentId input) r);
  fresh_transition : exists t, atomicFaultPauseStore r = Some t /\
    snap_existingTransition snap = store_getTransitionById (fault_faultId input) t;
}.

Lemma fault_begin_spec input r :
  (exists msg, fault_begin input r = (r, Throw msg)) \/
  (exists snap, fault_begin input r = (r, Ret snap) /\ fresh input snap r).
Proof.
  unfold fault_begin. rewrite require_store_bind.
  destruct (atomicFaultPauseStore r) as [t|] eqn:Ht; [|by left; eexists].
  repeat (rewrite act_gets_bind; cbv beta). unfold act_lift.
  destruct (map_get _ _) as [d|] eqn:Hd; [|by left; eexists].
  destruct (exactStates r !! _) as [s|] eqn:Hs; [|by left; eexists].
  case_bool_decide as Ha; [|by left; eexists].
  right. eexists. split; [done|]. constructor; try done. by exists t.
Qed.

Lemma validate_intent_fault intent fault :
  validateCandidateIntentFaultInput sha256 intent = Ret fault -> fault = intent_fault intent.
Proof. unfold validateCandidateIntentFaultInput. intros H. by inv_outcome. Qed.

Lemma resolve_occurrence_same intent times fault :
  resolveCandidateIntentFaultOccurrence sha256 intent times = Ret fault ->
  exists at_, fault = with_occurredAt (intent_fault intent) at_.
Proof.
  unfold resolveCandidateIntentFaultOccurrence. intros H. inv_outcome.
  match goal with H : validateCandidateIntentFaultInput _ _ = _ |- _ =>
    apply validate_intent_fault in H as -> end.
  by eexists.
Qed.

Lemma fault_chronology_spec at_ d latest :
  validateCandidatePilotRecoveryFaultChronology at_ d latest = Ret tt ->
  exists t u,
    parsePositionGuardCandidateTimestamp at_ "candidate recovery fault occurredAt" = Ret t /\
    parsePositionGuardCandidateTimestamp (dep_updatedAt d) "deployment updatedAt" = Ret u /\
    (u <= t)%Z.
Proof.
  unfold validateCandidatePilotRecoveryFaultChronology. intros H. inv_outcome. destruct_bools.
  eexists _, _. eauto.
Qed.

Definition intent_matches (input : PauseCandidatePilotForRecoveryFaultInput)
    (intent : option PauseCandidateIntentFaultInput) : Prop :=
  match intent with Some i => intent_fault i = input | None => True end.

(** The last segment, on whatever was read before: it throws and leaves the
    repository as it is, or it answers a duplicate without an effect, or it
    pauses both the operator state and the deployment that was read. *)
Lemma fault_finish_any input intent snap st r t :
  atomicFaultPauseStore r = Some t -> intent_matches input intent ->
  (exists msg, fault_finish sha256 input intent snap st r = (r, Throw msg)) \/
  (exists result, fault_finish sha256 input intent snap st r = (r, Ret result) /\
     paused_duplicate result = true) \/
  (exists effective t' s at_ result,
     let d := snap_deployment snap in
     let next := with_phase d Phase.PAUSED_FAULT (fault_occurredAt effective) in
     let e := buildCandidatePilotRecoveryFaultAuditEvent effective (dep_phase d)
                (stateVersion (snap_state snap)) in
     store_applyFaultPauseAtomically (recovery_pause input effective at_) t = (t', Ret s) /\
     moves d next /\
     paused_deployment result = next /\ paused_executionState result = s /\
     paused_auditEvent result = e /\ paused_duplicate result = false /\
     (effective = input \/ exists at', effective = with_occurredAt input at') /\
     fault_finish sha256 input intent snap st r =
       (append_audit (fault_deploymentId input) e (set_deployment next (set_store t' r)), Ret result)).
Proof.
  intros Ht Hi. unfold fault_finish. rewrite act_gets_bind. cbv beta zeta.
  rewrite act_lift_bind. destruct (latest_audit _) as [latest|]; [|by left; eexists].
  rewrite act_lift_bind.
  destruct (match intent with Some _ => _ | None => _ end) as [effective|] eqn:Heff;
    [|by left; eexists].
  assert (He : effective = input \/ exists at', effective = with_occurredAt input at').
  { destruct intent as [i|]; [|left; congruence]. right. cbn in Hi.
    destruct (snap_existingAudit snap); [injection Heff as <-; by eexists|].
    apply resolve_occurrence_same in Heff as [at' ->]. exists at'. by rewrite Hi. }
  rewrite act_lift_bind. destruct (deriveFaultPauseTransitionAt _ _) as [at_|]; [|by left; eexists].
  destruct (_ || _).
  { unfold act_lift. destruct (fault_duplicate input effective snap st) as [result|] eqn:Hdup;
      [|by left; eexists].
    right. left. exists result. split; [done|]. unfold fault_duplicate in Hdup.
    repeat match type of Hdup with
    | match ?x with Some _ => _ | None => _ end = _ => destruct x; [|done]
    | (if ?x then _ else _) = _ => destruct x; [done|]
    end. by injection Hdup as <-. }
  rewrite act_lift_bind. destruct (isFaultPausablePhase _) eqn:Hp; [|by left; eexists].
  cbn [negb throw_if]. rewrite act_lift_bind.
  destruct (validateCandidatePilotRecoveryFaultChronology _ _ _) as [[]|] eqn:Hc; [|by left; eexists].
  rewrite require_store_bind, Ht, on_store_bind.
  destruct (store_applyFaultPauseAtomically _ t) as [t' [s|msg]] eqn:Hap.
  2: { left. apply law_pause_throws in Hap as ->. eexists. f_equal. destruct r. cbn in Ht. by subst. }
  apply fault_chronology_spec in Hc as (tt' & u & Hat & Hu & Hle).
  right. right. exists effective, t', s, at_. eexists. split_and!; try done; try reflexivity.
  eapply with_phase_moves; eauto using edge_paused; [|done]. intros l. by eapply timestamp_relabel.
Qed.

(** Where what was read is still current, the event is that of the move. *)
Lemma fault_finish_event input snap r effective :
  fresh input snap r -> keyed r ->
  (effective = input \/ exists at', effective = with_occurredAt input at') ->
  let d := snap_deployment snap in
  move_event d (with_phase d Phase.PAUSED_FAULT (fault_occurredAt effective))
    (version_of (dep_id d) r)
    (buildCandidatePilotRecoveryFaultAuditEvent effective (dep_phase d)
       (stateVersion (snap_state snap))).
Proof.
  intros [Hd Hs _ _ _] Hk He. pose proof (keyed_id _ _ _ Hk Hd) as Hid.
  constructor; try done.
  - cbn. destruct He as [-> | [at' ->]]; by rewrite <- Hid.
  - unfold version_of. by rewrite <- Hid, Hs.
Qed.

Lemma fault_finish_cases input intent snap st r t :
  atomicFaultPauseStore r = Some t -> fresh input snap r -> keyed r -> intent_matches input intent ->
  (exists msg, fault_finish sha256 input intent snap st r = (r, Throw msg)) \/
  (exists result, fault_finish sha256 input intent snap st r = (r, Ret result) /\
     paused_duplicate result = true) \/
  (exists effective t' s at_ result,
     let d := snap_deployment snap in
     let next := with_phase d Phase.PAUSED_FAULT (fault_occurredAt effective) in
     let e := buildCandidatePilotRecoveryFaultAuditEvent effective (dep_phase d)
                (stateVersion (snap_state snap)) in
     store_applyFaultPauseAtomically (recovery_pause input effective at_) t = (t', Ret s) /\
     moves d next /\ move_event d next (version_of (dep_id d) r) e /\
     paused_deployment result = next /\ paused_executionState result = s /\
     paused_auditEvent result = e /\ paused_duplicate result = false /\
     (effective = input \/ exists at', effective = with_occurredAt input at') /\
     fault_finish sha256 input intent snap st r =
       (append_audit (fault_deploymentId input) e (set_deployment next (set_store t' r)), Ret result)).
Proof.
  intros Ht Hf Hk Hi.
  destruct (fault_finish_any input intent snap st r t Ht Hi)
    as [H|[H|(effective & t' & s & at_ & result & H)]]; [by left|by right; left|].
  right. right. exists effective, t', s, at_, result. cbv zeta in *.
  destruct H as (? & ? & ? & ? & ? & ? & He & ?).
  split_and!; try done. by apply (fault_finish_event input).
Qed.

Lemma fault_serialized_effects input intent r :
  keyed r -> intent_matches input intent ->
  effects r (fst (pauseForRecoveryFaultSerialized sha256 input intent r)).
Proof.
  intros Hk Hi. unfold pauseForRecoveryFaultSerialized. rewrite act_bind_eq.
  destruct (fault_begin_spec input r) as [[msg ->]|(snap & -> & Hf)]; [apply rtc_refl|].
  unfold fault_read_state. rewrite act_bind_eq, require_store_bind.
  destruct (fresh_transition _ _ _ Hf) as (t & Ht & _). rewrite Ht. cbn [act_ret].
  destruct (fault_finish_cases input intent snap (store_getState t) r t Ht Hf Hk Hi)
    as [[msg ->]|[(result & -> & _)|(eff & t' & s & at_ & result & H)]]; [apply rtc_refl..|].
  cbv zeta in H. destruct H as (_ & Hm & He & _ & _ & _ & _ & _ & ->). cbn [fst].
  destruct Hf as [Hd _ _ _ _]. pose proof (keyed_id _ _ _ Hk Hd) as Hid.
  eapply rtc_l; [apply (effect_store _ t')|]. apply rtc_once. rewrite Hid in *.
  by apply (effect_move _ (snap_deployment snap)).
Qed.

Lemma pauseForRecoveryFault_effects input r :
  keyed r -> effects r (fst (pauseForRecoveryFault sha256 input r)).
Proof.
  intros Hk. unfold pauseForRecoveryFault. rewrite act_lift_bind.
  destruct (validateCandidatePilotRecoveryFaultInput input); [|apply rtc_refl].
  rewrite require_store_bind. destruct (atomicFaultPauseStore r); [|apply rtc_refl].
  by apply fault_serialized_effects.
Qed.

Lemma pauseForCandidateIntentFault_effects input r :
  keyed r -> effects r (fst (pauseForCandidateIntentFault sha256 input r)).
Proof.
  intros Hk. unfold pauseForCandidateIntentFault. rewrite act_lift_bind.
  destruct (validateCandidateIntentFaultInput _ _) eqn:Hv; [|apply rtc_refl].
  apply validate_intent_fault in Hv as ->.
  rewrite require_store_bind. destruct (atomicFaultPauseStore r); [|apply rtc_refl].
  by apply fault_serialized_effects.
Qed.
(** *** Bindings *)

Lemma validate_binding_same b b' :
  validateCandidateExecutionBinding sha256 b = Ret b' -> b' = b.
Proof. unfold validateCandidateExecutionBinding. intros H. by inv_outcome. Qed.

Lemma createExecutionBinding_effects input r :
  effects r (fst (createExecutionBinding sha256 input r)).
Proof.
  unfold createExecutionBinding. rewrite act_lift_bind.
  destruct (validateCandidateExecutionBinding _ _) as [b|] eqn:Hv; [|apply rtc_refl].
  pose proof (validate_binding_same _ _ Hv) as ->.
  rewrite act_gets_bind. cbv beta. rewrite act_lift_bind.
  destruct (map_get (bind_deploymentId input) _) as [d|] eqn:Hd; [|apply rtc_refl].
  destruct (throw_if (dep_exchangeAccountId d !== _) _) as [[]|] eqn:Ha; [|apply rtc_refl].
  cbn [mbind outcome_bind].
  destruct (throw_if _ _) as [[]|] eqn:Hg in |- *; [|apply rtc_refl].
  apply throw_if_Ret in Ha, Hg. destruct_bools.
  rewrite act_gets_bind. cbv beta.
  destruct (map_get (bind_orderId input) _) as [existing|] eqn:He.
  { rewrite act_lift_bind. by destruct (throw_if _ _). }
  rewrite act_lift_bind. destruct (throw_if _ _) as [[]|] eqn:Hn in |- *; [|apply rtc_refl].
  apply throw_if_Ret in Hn. destruct_bools. apply eq_None_not_Some in Hn.
  rewrite act_modify_bind. apply rtc_once. by eapply effect_binding.
Qed.

(** *** The binding of an order intent *)

(** [persistCandidateBoundOrderIntent] prepares the binding and commits it
    before anything else runs; what is checked in between is its own. *)
Definition prepare_and_commit (input : CandidateExecutionBindingRecord) (r : repository) : repository :=
  match snd (prepareCandidateBoundOrderIntent sha256 input r) with
  | Ret prepared => snd (fst (commitBinding prepared (false, r)))
  | Throw _ => r
  end.

(** *** What a call can do when others run while it waits *)

(** A fault pause that finishes writes the deployment it read, and a commit
    writes its binding, whatever the deployment has become. *)
Inductive late_effect (r : repository) : repository -> Prop :=
| late_pause d0 d at_ e :
    map_get (dep_id d0) (deployments r) = Some d ->
    dep_exchangeAccountId d0 = dep_exchangeAccountId d -> dep_pilotId d0 = dep_pilotId d ->
    valid (with_phase d0 Phase.PAUSED_FAULT at_) ->
    late_effect r (append_audit (dep_id d0) e
      (set_deployment (with_phase d0 Phase.PAUSED_FAULT at_) r))
| late_binding b :
    validateCandidateExecutionBinding sha256 b = Ret b ->
    map_get (bind_orderId b) (bindingsByOrderId r) = None ->
    late_effect r (set_binding b r).

Definition step (r r' : repository) : Prop := effect r r' \/ late_effect r r'.
Abbreviation steps := (rtc step).

Lemma effects_steps r r' : effects r r' -> steps r r'.
Proof. induction 1; [apply rtc_refl|]. eapply rtc_l; [by left|done]. Qed.

Lemma step_keyed r r' : step r r' -> keyed r -> keyed r'.
Proof.
  intros [He|He]; [by apply effect_keyed|]. intros [Hwf Hk]. destruct He as [d0 d at_ e Hd _ _ _|]; [|by split].
  split; cbn; [by apply map_set_wf|]. intros id d'. rewrite map_get_set_cases.
  destruct (decide _) as [->|]; [by intros [= <-]|apply Hk].
Qed.

Lemma steps_keyed r r' : steps r r' -> keyed r -> keyed r'.
Proof. induction 1; eauto using step_keyed. Qed.

Lemma prepare_and_commit_steps input r : steps r (prepare_and_commit input r).
Proof.
  unfold prepare_and_commit, prepareCandidateBoundOrderIntent. rewrite act_lift_bind.
  destruct (validateCandidateExecutionBinding _ _) as [b|] eqn:Hv; [|apply rtc_refl].
  pose proof (validate_binding_same _ _ Hv) as ->. cbn [act_gets snd].
  unfold commitBinding. rewrite act_gets_bind. cbv beta. rewrite act_lift_bind. cbn [throw_if fst].
  rewrite act_modify_bind, act_gets_bind. cbv beta zeta. cbn [snd prep_binding].
  rewrite act_lift_bind. destruct (throw_if _ _); [|apply rtc_refl].
  destruct (map_get (bind_orderId input) _) eqn:Hn, (find_binding _ _); try apply rtc_refl.
  apply rtc_once. right. by apply late_binding.
Qed.

(** *** Runs *)

(** A fault pause between its [await]s: what it read, and the operator state
    once that was read too. *)
Record FaultRun := {
  fr_input : PauseCandidatePilotForRecoveryFaultInput;
  fr_intent : option PauseCandidateIntentFaultInput;
  fr_snap : FaultSnapshot;
  fr_state : option ExecutionStateRecord;
}.

(** Fault pauses are serialized: at most one is under way. *)
Record pilot_run := {
  run_repository : repository;
  run_fault : option FaultRun;
}.

Inductive pilot_call : Type :=
| CallCreate (input : CreateCandidatePilotDeploymentInput)
| CallInitialize (input : CreateCandidatePilotDeploymentInput)
| CallActivate (input : ActivateCandidatePilotDeploymentInput)
| CallStartRollback (input : CandidatePilotRollbackInput)
| CallCompleteRollback (input : CandidatePilotRollbackInput)
| CallAdvance (input : AdvanceCandidatePilotStateInput)
| CallRecoveryFault (input : PauseCandidatePilotForRecoveryFaultInput)
| CallIntentFault (input : PauseCandidateIntentFaultInput)
| CallBind (input : CandidateExecutionBindingRecord)
| CallOperator (command : T -> T)
(* the three segments of a fault pause that others interrupt *)
| CallFaultBegin (input : PauseCandidatePilotForRecoveryFaultInput + PauseCandidateIntentFaultInput)
| CallFaultRead
| CallFaultFinish
| CallCommit (input : CandidateExecutionBindingRecord).

(** The repository after a call that nothing interrupts, whatever it returned;
    the operator's own commands change the shared store. *)
Definition after_call (c : pilot_call) (r : repository) : repository :=
  match c with
  | CallCreate input => fst (createDeploymentWithInitialState input r)
  | CallInitialize input => fst (initializeDeploymentWithInitialState localeCompare input r)
  | CallActivate input => fst (activateDeployment input r)
  | CallStartRollback input => fst (startRollback input r)
  | CallCompleteRollback input => fst (completeRollback input r)
  | CallAdvance input => fst (advanceStateWithEvidence sha256 input r)
  | CallRecoveryFault input => fst (pauseForRecoveryFault sha256 input r)
  | CallIntentFault input => fst (pauseForCandidateIntentFault sha256 input r)
  | CallBind input => fst (createExecutionBinding sha256 input r)
  | CallOperator command =>
      match atomicFaultPauseStore r with Some t => set_store (command t) r | None => r end
  | CallCommit input => prepare_and_commit input r
  | CallFaultBegin _ | CallFaultRead | CallFaultFinish => r
  end.

(** The checks of a fault pause, and its first segment. *)
Definition fault_start (input : PauseCandidatePilotForRecoveryFaultInput + PauseCandidateIntentFaultInput)
    : action repository FaultRun :=
  '(fault, intent) ← act_lift
    match input with
    | inl fault => _ ← validateCandidatePilotRecoveryFaultInput fault; Ret (fault, None)
    | inr intent => fault ← validateCandidateIntentFaultInput sha256 intent; Ret (fault, Some intent)
    end;
  _ ← require_store;
  snap ← fault_begin fault;
  act_ret {| fr_input := fault; fr_intent := intent; fr_snap := snap; fr_state := None |}.

(** A fault pause waits while another is under way. *)
Definition run_call (c : pilot_call) (s : pilot_run) : pilot_run :=
  let r := run_repository s in
  match c, run_fault s with
  | CallFaultBegin input, None =>
      match fault_start input r with
      | (r', Ret p) => {| run_repository := r'; run_fault := Some p |}
      | (r', Throw _) => {| run_repository := r'; run_fault := None |}
      end
  | CallFaultRead, Some p =>
      match fault_read_state r with
      | (r', Ret st) =>
          {| run_repository := r';
             run_fault := Some {| fr_input := fr_input p; fr_intent := fr_intent p;
                                  fr_snap := fr_snap p; fr_state := Some st |} |}
      | (r', Throw _) => {| run_repository := r'; run_fault := None |}
      end
  | CallFaultFinish, Some p =>
      match fr_state p with
      | Some st => {| run_repository :=
                        fst (fault_finish sha256 (fr_input p) (fr_intent p) (fr_snap p) st r);
                      run_fault := None |}
      | None => s
      end
  | (CallRecoveryFault _ | CallIntentFault _), Some _ => s
  | _, _ => {| run_repository := after_call c r; run_fault := run_fault s |}
  end.

Definition run_pilot (calls : list pilot_call) (s : pilot_run) : pilot_run :=
  foldl (fun s c => run_call c s) s calls.

Definition run_calls (calls : list pilot_call) (r : repository) : repository :=
  run_repository (run_pilot calls {| run_repository := r; run_fault := None |}).

(** Nothing runs while a fault pause waits, and bindings are those of
    [createExecutionBinding]. *)
Definition uninterrupted (c : pilot_call) : bool :=
  match c with
  | CallFaultBegin _ | CallFaultRead | CallFaultFinish | CallCommit _ => false
  | _ => true
  end.

Lemma after_call_effects c r : keyed r -> uninterrupted c = true -> effects r (after_call c r).
Proof.
  destruct c; cbn [after_call]; intros Hk Hu; try discriminate Hu;
    auto using createDeployment_effects, initializeDeployment_effects, activateDeployment_effects,
      startRollback_effects, completeRollback_effects, advance_effects,
      pauseForRecoveryFault_effects, pauseForCandidateIntentFault_effects,
      createExecutionBinding_effects.
  destruct (atomicFaultPauseStore r); [|apply rtc_refl]. apply rtc_once, effect_store.
Qed.

Lemma after_call_steps c r : keyed r -> steps r (after_call c r).
Proof.
  intros Hk. destruct (uninterrupted c) eqn:Hu; [by apply effects_steps, after_call_effects|].
  destruct c; try discriminate Hu; try apply rtc_refl. apply prepare_and_commit_steps.
Qed.

(** What a fault pause that waits has read: a valid version of a deployment that
    is still stored. *)
Definition read_before (p : FaultRun) (r : repository) : Prop :=
  let d0 := snap_deployment (fr_snap p) in
  intent_matches (fr_input p) (fr_intent p) /\ valid d0 /\ dep_id d0 = fault_deploymentId (fr_input p) /\
  exists d, map_get (dep_id d0) (deployments r) = Some d /\
    dep_exchangeAccountId d0 = dep_exchangeAccountId d /\ dep_pilotId d0 = dep_pilotId d.

Record run_ok (s : pilot_run) : Prop := {
  ro_keyed : keyed (run_repository s);
  ro_valid : forall id d, map_get id (deployments (run_repository s)) = Some d -> valid d;
  ro_fault : forall p, run_fault s = Some p -> read_before p (run_repository s);
}.

(** A stored deployment stays stored, under its account and pilot, and valid. *)
Lemma step_stored r r' id d :
  step r r' -> keyed r -> map_get id (deployments r) = Some d ->
  exists d', map_get id (deployments r') = Some d' /\
    dep_exchangeAccountId d' = dep_exchangeAccountId d /\ dep_pilotId d' = dep_pilotId d.
Proof.
  intros Hs Hk Hd. destruct Hs as [He|He].
  - destruct He as [t|d1 Hval Hnone Hno|d1 next e Hd1 Hm Hev|d1 ev m s s' Hd1|b d1 Hb]; cbn; try by exists d.
    + exists d. rewrite map_get_set_ne; [done|]. intros ->. congruence.
    + rewrite map_get_set_cases, (mv_id _ _ Hm). destruct (decide (id = dep_id d1)) as [->|]; [|by exists d].
      simplify_eq. exists next. by rewrite (mv_account _ _ Hm), (mv_pilot _ _ Hm).
  - destruct He as [d0 d1 at_ e Hd1 Ha Hp _|]; cbn; [|by exists d].
    rewrite map_get_set_cases. destruct (decide _) as [->|]; [|by exists d].
    cbn in Hd. simplify_eq. eexists. split; [done|]. by cbn.
Qed.

Lemma step_valid r r' :
  step r r' -> (forall id d, map_get id (deployments r) = Some d -> valid d) ->
  forall id d, map_get id (deployments r') = Some d -> valid d.
Proof.
  intros Hs Hv id d'. destruct Hs as [He|He].
  - destruct He as [t|d1 Hval Hnone Hno|d1 next e Hd1 Hm Hev|d1 ev m s s' Hd1|b d1 Hb]; cbn; try apply Hv.
    + rewrite map_get_set_cases. destruct (decide _); [by intros [= <-]|apply Hv].
    + rewrite map_get_set_cases. destruct (decide _); [|apply Hv]. intros [= <-].
      eapply mv_valid; [done|]. by eapply Hv.
  - destruct He as [d0 d1 at_ e Hd1 _ _ Hval|]; cbn; [|apply Hv].
    rewrite map_get_set_cases. destruct (decide _); [by intros [= <-]|apply Hv].
Qed.

Lemma run_ok_steps s r' :
  run_ok s -> steps (run_repository s) r' ->
  run_ok {| run_repository := r'; run_fault := run_fault s |}.
Proof.
  destruct s as [r f]. cbn. intros Hok Hs. induction Hs as [r|r r1 r' H1 _ IH]; [done|].
  apply IH. destruct Hok as [Hk Hv Hf]. cbn in *. split; cbn; [by eapply step_keyed|by eapply step_valid|].
  intros p Hp. destruct (Hf p Hp) as (? & ? & ? & d & Hd & Ha & Hpi).
  destruct (step_stored _ _ _ _ H1 Hk Hd) as (d' & Hd' & Ha' & Hp').
  split_and!; [done..|]. exists d'. split_and!; [done|congruence..].
Qed.

Lemma fault_start_spec input r :
  (exists msg, fault_start input r = (r, Throw msg)) \/
  (exists p, fault_start input r = (r, Ret p) /\ intent_matches (fr_input p) (fr_intent p) /\
     fr_state p = None /\ fresh (fr_input p) (fr_snap p) r).
Proof.
  unfold fault_start. rewrite act_lift_bind.
  destruct (match input with inl _ => _ | inr _ => _ end) as [[fault intent]|] eqn:Hin; [|by left; eexists].
  rewrite require_store_bind. destruct (atomicFaultPauseStore r) as [t|] eqn:Ht; [|by left; eexists].
  rewrite act_bind_eq. destruct (fault_begin_spec fault r) as [[msg ->]|(snap & -> & Hf)]; [by left; eexists|].
  right. eexists. split; [done|]. cbn. split_and!; [|done|done].
  destruct input as [f|i]; inv_outcome; [done|]. cbn. symmetry. by apply validate_intent_fault.
Qed.

Lemma fault_finish_steps p st r :
  read_before p r -> steps r (fst (fault_finish sha256 (fr_input p) (fr_intent p) (fr_snap p) st r)).
Proof.
  intros (Hi & Hval & Hid & d & Hd & Ha & Hp).
  destruct (atomicFaultPauseStore r) as [t|] eqn:Ht.
  - destruct (fault_finish_any (fr_input p) (fr_intent p) (fr_snap p) st r t Ht Hi)
      as [[msg ->]|[(result & -> & _)|(eff & t' & s & at_ & result & H)]]; [apply rtc_refl..|].
    cbv zeta in H. destruct H as (_ & Hm & _ & _ & _ & _ & _ & ->). cbn [fst].
    eapply rtc_l; [left; apply (effect_store _ t')|]. apply rtc_once. right. rewrite <- Hid.
    eapply late_pause; try done. by eapply mv_valid.
  - enough (fst (fault_finish sha256 (fr_input p) (fr_intent p) (fr_snap p) st r) = r) as -> by apply rtc_refl.
    unfold fault_finish. rewrite act_gets_bind. cbv beta zeta. rewrite act_lift_bind.
    destruct (latest_audit _); [|done]. rewrite act_lift_bind.
    destruct (match fr_intent p with Some _ => _ | None => _ end); [|done].
    rewrite act_lift_bind. destruct (deriveFaultPauseTransitionAt _ _); [|done].
    destruct (_ || _); [unfold act_lift; by destruct (fault_duplicate _ _ _ _)|].
    rewrite act_lift_bind. destruct (throw_if _ _) in |- *; [|done].
    rewrite act_lift_bind. destruct (validateCandidatePilotRecoveryFaultChronology _ _ _); [|done].
    by rewrite require_store_bind, Ht.
Qed.

Lemma fault_read_state_same r : fst (fault_read_state r) = r.
Proof.
  unfold fault_read_state. rewrite require_store_bind. by destruct (atomicFaultPauseStore r).
Qed.

Lemma run_call_steps c s :
  run_ok s -> steps (run_repository s) (run_repository (run_call c s)) /\ run_ok (run_call c s).
Proof.
  intros Hok. pose proof Hok as [Hk Hv Hf].
  assert (Hplain : steps (run_repository s) (after_call c (run_repository s)) /\
    run_ok {| run_repository := after_call c (run_repository s); run_fault := run_fault s |}).
  { pose proof (after_call_steps c _ Hk) as H. split; [exact H|by apply run_ok_steps]. }
  assert (Hforget : forall r', steps (run_repository s) r' ->
    run_ok {| run_repository := r'; run_fault := None |}).
  { intros r' H. destruct (run_ok_steps s r' Hok H) as [? ? _]. by split. }
  unfold run_call. destruct c, (run_fault s) as [p|] eqn:Hp; try exact Hplain;
    try (split; [apply rtc_refl|done]).
  - destruct (fault_start_spec input (run_repository s)) as [[msg ->]|(p & -> & Hi & _ & Hfresh)];
      (split; [apply rtc_refl|]); [apply Hforget, rtc_refl|].
    split; [done..|]. intros p' [= <-]. pose proof Hfresh as [Hd _ _ _ _].
    pose proof (keyed_id _ _ _ Hk Hd) as Hid.
    split_and!; [done|by eapply Hv|done|]. eexists. rewrite <- Hid. by split_and!.
  - pose proof (fault_read_state_same (run_repository s)) as Hs.
    destruct (fault_read_state _) as [r' [st|msg]]; cbn in Hs; subst r';
      (split; [apply rtc_refl|]); [|apply Hforget, rtc_refl].
    split; [done..|]. intros p' [= <-]. exact (Hf p eq_refl).
  - destruct (fr_state p) as [st|]; [|by split; [apply rtc_refl|]].
    pose proof (fault_finish_steps p st _ (Hf p eq_refl)) as H. split; [exact H|by apply Hforget].
Qed.

Lemma run_pilot_steps calls s :
  run_ok s -> steps (run_repository s) (run_repository (run_pilot calls s)) /\ run_ok (run_pilot calls s).
Proof.
  revert s. induction calls as [|c calls IH]; intros s Hok; [by split; [apply rtc_refl|]|].
  destruct (run_call_steps c s Hok) as [H1 Hok1]. destruct (IH _ Hok1) as [H2 Hok2].
  split; [|exact Hok2]. etrans; [exact H1|exact H2].
Qed.

Lemma run_calls_effects calls r :
  keyed r -> Forall (fun c => uninterrupted c = true) calls -> effects r (run_calls calls r).
Proof.
  unfold run_calls. revert r. induction calls as [|c calls IH]; intros r Hk; [intros _; apply rtc_refl|].
  intros [Hu Hall]%Forall_cons. cbn. pose proof (after_call_effects c r Hk Hu) as He.
  assert (run_call c {| run_repository := r; run_fault := None |}
    = {| run_repository := after_call c r; run_fault := None |}) as -> by (by destruct c).
  etrans; [exact He|]. apply IH; [by eapply effects_keyed|done].
Qed.

Lemma new_repository_keyed (store : option T) : keyed (new_repository store).
Proof. split; [apply NoDup_nil_2 | done]. Qed.

(** An invariant of the effects holds after every run that nothing interrupts,
    one of the steps after every run. *)
Lemma effects_invariant (P : repository -> Prop) r r' :
  (forall r r', keyed r -> effect r r' -> P r -> P r') -> keyed r -> effects r r' -> P r -> P r'.
Proof.
  intros Hstep Hk He HP. revert Hk HP. induction He as [|r1 r2 r3 H12 _ IH]; [done|].
  intros Hk HP. apply IH; eauto using effect_keyed.
Qed.

Lemma steps_invariant (P : repository -> Prop) r r' :
  (forall r r', keyed r -> step r r' -> P r -> P r') -> keyed r -> steps r r' -> P r -> P r'.
Proof.
  intros Hstep Hk He HP. revert Hk HP. induction He as [|r1 r2 r3 H12 _ IH]; [done|].
  intros Hk HP. apply IH; eauto using step_keyed.
Qed.

Lemma new_run_ok (store : option T) :
  run_ok {| run_repository := new_repository store; run_fault := None |}.
Proof. split; [apply new_repository_keyed|done..]. Qed.

Lemma pilot_run_invariant (P : repository -> Prop) calls store :
  (forall r r', keyed r -> step r r' -> P r -> P r') -> P (new_repository store) ->
  P (run_calls calls (new_repository store)).
Proof.
  intros Hstep H0. eapply steps_invariant; [exact Hstep|apply new_repository_keyed| |exact H0].
  apply (run_pilot_steps calls _ (new_run_ok store)).
Qed.

Lemma uninterrupted_run_invariant (P : repository -> Prop) calls store :
  Forall (fun c => uninterrupted c = true) calls ->
  (forall r r', keyed r -> effect r r' -> P r -> P r') -> P (new_repository store) ->
  P (run_calls calls (new_repository store)).
Proof.
  intros Hu Hstep H0. eapply effects_invariant; eauto using run_calls_effects, new_repository_keyed.
Qed.

End Effects.
