(* ===== verification/PilotInvariants.v ===== *)
(** * PilotInvariants: what holds of every reachable pilot repository

    Invariants of the repository by induction on the effects of
    [PilotTheory]: its deployments are valid and unique, their phases follow
    the phase graph, the exact state is the projection of the stored evidence,
    and the audit log replays to the current phase and version. *)

From Stdlib Require Import ZArith Lia.
From stdpp Require Import base option list strings gmap relations.
From S2P Require Import Prelude Num Types Text Timestamp NumText JsMap CandidateState.
From S2P Require Import ExactState OperatorState PilotRecords PilotRepository PilotTheory.

Local Open Scope string_scope.
Local Open Scope js_scope.
Local Open Scope bool_scope.

Section Invariants.
Context (sha256 : string -> string) (localeCompare : string -> string -> comparison).
Context {T : Type} {HT : AtomicFaultPauseStore T} {HL : AtomicFaultPauseLaws T}.

Abbreviation repository := (InMemoryCandidatePilotRepository T).
Abbreviation runs calls store := (run_calls sha256 localeCompare calls (new_repository store)).

(** The maps after an effect, as lookups. *)
Lemma lookup_audit_append id id' e (r : repository) :
  audit_of id' (append_audit id e r) =
  if decide (id' = id) then (audit_of id r ++ [e])%list else audit_of id' r.
Proof.
  unfold append_audit, audit_of. cbn. destruct (decide (id' = id)) as [->|];
    [by rewrite lookup_insert_eq | by rewrite lookup_insert_ne by congruence].
Qed.

(** ** Deployments *)

Record deployments_ok (r : repository) : Prop := {
  ok_keyed : keyed r;
  ok_valid : forall id d, map_get id (deployments r) = Some d -> valid d;
  ok_unique : forall id id' d d',
    map_get id (deployments r) = Some d -> map_get id' (deployments r) = Some d' ->
    dep_exchangeAccountId d = dep_exchangeAccountId d' -> dep_pilotId d = dep_pilotId d' ->
    id = id';
}.

Lemma no_same_account d (r : repository) id d' :
  existsb (sameAccountPilot d) (map_values (deployments r)) = false ->
  map_get id (deployments r) = Some d' ->
  dep_exchangeAccountId d' = dep_exchangeAccountId d -> dep_pilotId d' = dep_pilotId d -> False.
Proof.
  intros He Hd Ha Hp. apply not_true_iff_false in He. apply He, existsb_exists.
  exists d'. split; [by apply list_elem_of_In, (map_get_value id)|].
  unfold sameAccountPilot. by rewrite !bool_decide_eq_true_2 by done.
Qed.

Lemma deployments_ok_effect (r r' : repository) :
  keyed r -> effect sha256 r r' -> deployments_ok r -> deployments_ok r'.
Proof.
  intros Hk He [_ Hv Hu]. pose proof (effect_keyed _ _ _ He Hk) as Hk'.
  destruct He as [t|d Hval Hnone Hno|d next e Hd Hm Hev|d ev m s s' Hd|b d Hb];
    cbn [deployments set_store set_audit set_evidence set_exact_state set_deployment set_binding
         append_audit] in *; constructor; cbn; try done.
  - intros id d'. rewrite map_get_set_cases.
    destruct (decide (id = dep_id d)) as [->|]; [by intros [= <-] | apply Hv].
  - intros id id' d1 d2. rewrite !map_get_set_cases.
    destruct (decide (id = dep_id d)) as [->|], (decide (id' = dep_id d)) as [->|]; try done.
    + intros [= <-] H2 Ha Hp. exfalso. by eapply no_same_account.
    + intros H1 [= <-] Ha Hp. exfalso. by eapply no_same_account.
    + apply Hu.
  - intros id d'. rewrite map_get_set_cases. rewrite (mv_id _ _ Hm).
    destruct (decide (id = dep_id d)) as [->|]; [|apply Hv].
    intros [= <-]. by eapply mv_valid, Hv.
  - intros id id' d1 d2. rewrite !map_get_set_cases, (mv_id _ _ Hm).
    pose proof (mv_account _ _ Hm) as Hacc. pose proof (mv_pilot _ _ Hm) as Hpil.
    destruct (decide (id = dep_id d)) as [->|], (decide (id' = dep_id d)) as [->|]; try done.
    + intros [= <-] H2. rewrite Hacc, Hpil. by apply Hu.
    + intros H1 [= <-]. rewrite Hacc, Hpil. by apply Hu.
    + apply Hu.
Qed.

Lemma deployments_ok_step (r r' : repository) :
  keyed r -> step sha256 r r' -> deployments_ok r -> deployments_ok r'.
Proof.
  intros Hk Hs Hok. pose proof (step_keyed _ _ _ Hs Hk) as Hk'.
  pose proof (step_valid _ _ _ Hs (ok_valid _ Hok)) as Hv'.
  destruct Hs as [He|He]; [exact (deployments_ok_effect _ _ Hk He Hok)|].
  destruct Hok as [_ _ Hu]. destruct He as [d0 d at_ e Hd Ha Hp _|b Hb]; split; try done.
  intros id id' d1 d2. cbn. rewrite !map_get_set_cases. cbn [dep_id with_phase].
  destruct (decide (id = dep_id d0)) as [->|], (decide (id' = dep_id d0)) as [->|]; try done.
  - intros [= <-] H2. cbn. rewrite Ha, Hp. by apply Hu.
  - intros H1 [= <-]. cbn. rewrite Ha, Hp. by apply Hu.
  - apply Hu.
Qed.

Lemma runs_deployments_ok calls (store : option T) : deployments_ok (runs calls store).
Proof.
  apply (pilot_run_invariant sha256 localeCompare deployments_ok); [apply deployments_ok_step|].
  constructor; [apply new_repository_keyed|done..].
Qed.

(** The deployments of a pilot repository are well-formed: after any calls
    each is stored under its own identifier, passes
    [validateCandidatePilotDeployment] (approved identity, ordered times, an
    activation instant wherever the phase needs one), and an account has at
    most one deployment of a pilot. *)
Theorem deployments_well_formed calls (store : option T) : deployments_ok (runs calls store).
Proof. apply runs_deployments_ok. Qed.

(** ** Phases *)

(** A later version of a deployment: its phase is further along the graph and
    what may not change has not. *)
Record later_version (d d' : PositionGuardPilotDeploymentRecord) : Prop := {
  lv_phase : rtc (fun p q => edge p q = true) (dep_phase d) (dep_phase d');
  lv_account : dep_exchangeAccountId d' = dep_exchangeAccountId d;
  lv_created : dep_createdAt d' = dep_createdAt d;
  lv_activation : dep_activationAt d <> None ->
    dep_activationAt d' = dep_activationAt d /\
    dep_activationEpochNs d' = dep_activationEpochNs d;
  lv_terminal : dep_phase d = Phase.DISABLED \/ dep_phase d = Phase.PAUSED_FAULT -> d' = d;
}.

Lemma later_version_refl d : later_version d d.
Proof. by constructor; [apply rtc_refl|..]. Qed.

Lemma later_version_move d d' next :
  later_version d d' -> moves d' next -> later_version d next.
Proof.
  intros [Hp Ha Hc Hact Ht] [_ Ha' _ Hc' He Hact' _ _]. constructor.
  - eapply rtc_r; [exact Hp | exact He].
  - congruence.
  - congruence.
  - intros Hn. destruct (Hact Hn) as [H1 H2]. rewrite <- H1 in Hn.
    destruct (Hact' Hn) as [H3 H4]. split; congruence.
  - intros H. rewrite (Ht H) in He. by destruct H as [H|H]; rewrite H in He.
Qed.

Lemma later_version_effect id d (r r' : repository) :
  keyed r -> effect sha256 r r' ->
  (exists d', map_get id (deployments r) = Some d' /\ later_version d d') ->
  exists d', map_get id (deployments r') = Some d' /\ later_version d d'.
Proof.
  intros Hk He (d' & Hd' & Hl).
  destruct He as [t|d1 Hval Hnone Hno|d1 next e Hd Hm Hev|d1 ev m s s' Hd|b d1 Hb];
    cbn [deployments set_store set_audit set_evidence set_exact_state set_deployment set_binding
         append_audit]; try by exists d'.
  - exists d'. split; [|done]. rewrite map_get_set_ne; [done|]. intros ->. congruence.
  - rewrite map_get_set_cases, (mv_id _ _ Hm). destruct (decide (id = dep_id d1)) as [->|].
    + simplify_eq. exists next. split; [done|]. by eapply later_version_move.
    + by exists d'.
Qed.

(** Phases only move along the pilot's graph: from any reachable repository, as
    long as no fault pause waits while other calls run, a deployment goes from
    PENDING_FLAT to ACTIVE to DRAINING, or from any of these to DISABLED or
    PAUSED_FAULT, which are final: such a deployment never changes again.  Its
    account, its creation time and, once set, its activation instant never
    change.  ([PilotScenarios.fault_pause_undoes_rollback]: a fault pause that
    waits can overwrite DISABLED.) *)
Theorem phase_follows_graph calls calls' (store : option T) id d :
  Forall (fun c => uninterrupted c = true) calls' ->
  map_get id (deployments (runs calls store)) = Some d ->
  exists d', map_get id (deployments (run_calls sha256 localeCompare calls' (runs calls store)))
             = Some d' /\ later_version d d'.
Proof.
  intros Hu Hd. set (r := runs calls store) in *.
  pose proof (ok_keyed _ (runs_deployments_ok calls store)) as Hk.
  apply (effects_invariant sha256 (fun r : repository => exists d', map_get id (deployments r) = Some d' /\
    later_version d d') r); [apply later_version_effect|done| |].
  - by apply run_calls_effects.
  - exists d. split; [done|apply later_version_refl].
Qed.

(** ** Exact states are projections *)

Record sourced (r : repository) (id : string) (s : ExactCandidateState) : Prop := {
  src_projection : projectExactCandidateState (stored_evidence <$> evidence_of id r) = Ret s;
  src_version : stateVersion s = Z.of_nat (length (evidence_of id r));
  src_ids : NoDup ((fun item => evidenceId (stored_evidence item)) <$> evidence_of id r);
  src_material : forall item, item ∈ evidence_of id r ->
    exists ev m, candidateEvidenceMaterial sha256 id ev = Ret m /\ item = store_material m;
}.

Definition states_sourced (r : repository) : Prop :=
  forall id d, map_get id (deployments r) = Some d ->
    exists s, exactStates r !! id = Some s /\ sourced r id s.

Lemma find_stored_none id records :
  find_stored id records = None -> id ∉ ((fun item => evidenceId (stored_evidence item)) <$> records).
Proof.
  intros Hf (item & -> & Hin)%list_elem_of_fmap.
  pose proof (List.find_none _ _ Hf item) as H. cbn in H.
  rewrite bool_decide_eq_true_2 in H by done. discriminate H. by apply list_elem_of_In.
Qed.

Lemma sourced_same (r r' : repository) id s :
  evidence_of id r' = evidence_of id r -> sourced r id s -> sourced r' id s.
Proof. intros He [H1 H2 H3 H4]. constructor; by rewrite He. Qed.

Lemma states_sourced_effect (r r' : repository) :
  keyed r -> effect sha256 r r' -> states_sourced r -> states_sourced r'.
Proof.
  intros Hk He Hs id d'.
  destruct He as [t|d Hval Hnone Hno|d next e Hd Hm Hev|d ev m s s' Hd Hst Hmat Hf Hp Hv|b d Hb];
    cbn [deployments exactStates set_store set_audit set_evidence set_exact_state set_deployment
         set_binding append_audit].
  - intros Hd. destruct (Hs _ _ Hd) as (s & Hst & Hsrc). exists s. split; [done|].
    refine (sourced_same _ _ _ _ _ Hsrc); reflexivity.
  - rewrite map_get_set_cases. destruct (decide (id = dep_id d)) as [->|Hne]; intros Hd.
    + eexists. rewrite lookup_insert_eq. split; [done|].
      assert (evidence_of (dep_id d) (set_audit (dep_id d) [created_event d] (set_evidence (dep_id d) []
        (set_exact_state (dep_id d) createExactEmptyCandidateState (set_deployment d r)))) = []) as Hev.
      { unfold evidence_of. cbn. by rewrite lookup_insert_eq. }
      constructor; rewrite Hev; [done..|apply NoDup_nil_2|by intros ? ?%elem_of_nil].
    + destruct (Hs _ _ Hd) as (s & Hst & Hsrc). exists s. rewrite lookup_insert_ne by congruence.
      split; [done|]. refine (sourced_same _ _ _ _ _ Hsrc). unfold evidence_of. cbn.
      by rewrite lookup_insert_ne by congruence.
  - rewrite map_get_set_cases, (mv_id _ _ Hm).
    assert (map_get id (deployments r) <> None -> exists s, exactStates r !! id = Some s /\
      sourced (append_audit (dep_id d) e (set_deployment next r)) id s) as Hgo.
    { intros Hn. destruct (map_get id (deployments r)) as [d0|] eqn:Hd0; [|done].
      destruct (Hs _ _ Hd0) as (s & Hst & Hsrc). exists s. split; [done|]. refine (sourced_same _ _ _ _ _ Hsrc); reflexivity. }
    destruct (decide (id = dep_id d)) as [->|Hne]; intros Hd'; apply Hgo; congruence.
  - intros Hd'. destruct (Hs _ _ Hd') as (s0 & Hst0 & Hsrc).
    destruct (decide (id = dep_id d)) as [->|Hne].
    + simplify_eq. eexists. rewrite lookup_insert_eq. split; [done|].
      match goal with |- sourced ?r' _ _ => assert (evidence_of (dep_id d) r' =
        (evidence_of (dep_id d) r ++ [store_material m])%list) as Hev end.
      { unfold evidence_of at 1. cbn. by rewrite lookup_insert_eq. }
      destruct Hsrc as [H1 H2 H3 H4]. constructor; rewrite Hev.
      * done.
      * rewrite length_app. cbn. lia.
      * rewrite fmap_app. apply NoDup_app. split_and!; [done| |apply NoDup_singleton].
        intros i Hi ->%list_elem_of_singleton. by eapply find_stored_none.
      * intros item [Hi | ->%list_elem_of_singleton]%elem_of_app; [by apply H4 | by eexists _, _].
    + exists s0. rewrite lookup_insert_ne by congruence. split; [done|].
      refine (sourced_same _ _ _ _ _ Hsrc). unfold evidence_of. cbn.
      by rewrite lookup_insert_ne by congruence.
  - intros Hd. destruct (Hs _ _ Hd) as (s & Hst & Hsrc). exists s. split; [done|].
    refine (sourced_same _ _ _ _ _ Hsrc); reflexivity.
Qed.

Lemma states_sourced_step (r r' : repository) :
  keyed r -> step sha256 r r' -> states_sourced r -> states_sourced r'.
Proof.
  intros Hk [He|He] Hs; [by eapply states_sourced_effect|].
  destruct He as [d0 d at_ e Hd _ _ _|b Hb]; intros id d'.
  - cbn. rewrite map_get_set_cases. cbn [dep_id with_phase]. intros Hd'.
    assert (Hstored : exists d1, map_get id (deployments r) = Some d1).
    { destruct (decide (id = dep_id d0)) as [->|]; eauto. }
    destruct Hstored as [d1 Hd1]. destruct (Hs _ _ Hd1) as (s & Hst & Hsrc). exists s.
    split; [done|]. refine (sourced_same _ _ _ _ _ Hsrc); reflexivity.
  - intros Hd'. destruct (Hs _ _ Hd') as (s & Hst & Hsrc). exists s.
    split; [done|]. refine (sourced_same _ _ _ _ _ Hsrc); reflexivity.
Qed.

Lemma runs_states_sourced calls (store : option T) : states_sourced (runs calls store).
Proof.
  apply (pilot_run_invariant sha256 localeCompare states_sourced); [apply states_sourced_step|].
  done.
Qed.

(** C33: the exact state is event-sourced: after any calls every deployment has
    a state, it is the projection of the evidence stored for the deployment,
    its version is the number of these evidences, their identifiers are
    distinct, and each is the canonical material of some evidence, stored with
    its hash and instant. *)
Theorem state_is_projection_of_evidence calls (store : option T) :
  states_sourced (runs calls store).
Proof. apply runs_states_sourced. Qed.

(** ** The audit log replays *)

(** One event applied to a phase and a version: an advance counts the version
    up in place, any other event moves along an edge and has its type. *)
Definition replay_step (current : option (PositionGuardPilotPhase * Z))
    (e : PositionGuardPilotAuditEventRecord) : option (PositionGuardPilotPhase * Z) :=
  '(p, v) ← current;
  q ← audit_toPhase e;
  if bool_decide (audit_fromPhase e = Some p) then
    if bool_decide (audit_eventType e = Audit.STATE_ADVANCED)
    then if bool_decide (q = p) && (audit_stateVersion e =? v + 1)%Z
         then Some (p, (v + 1)%Z) else None
    else if edge p q && (audit_stateVersion e =? v)%Z
            && bool_decide (audit_eventType e = transition_event q)
         then Some (q, v) else None
  else None.

Definition replay (events : list PositionGuardPilotAuditEventRecord)
    : option (PositionGuardPilotPhase * Z) :=
  match events with
  | created :: rest =>
      if bool_decide (audit_eventType created = Audit.DEPLOYMENT_CREATED)
         && bool_decide (audit_fromPhase created = None) && (audit_stateVersion created =? 0)%Z
      then foldl replay_step ((fun q => (q, 0%Z)) <$> audit_toPhase created) rest
      else None
  | [] => None
  end.

Lemma replay_app events e p v :
  replay events = Some (p, v) -> replay (events ++ [e]) = replay_step (Some (p, v)) e.
Proof.
  destruct events as [|c rest]; [done|]. cbn [replay app]. destruct (_ && _); [|done].
  intros H. by rewrite foldl_app, H.
Qed.

Lemma transition_event_not_advance q : transition_event q <> Audit.STATE_ADVANCED.
Proof. by destruct q. Qed.

Lemma replay_move d next v e :
  moves d next -> move_event d next v e ->
  replay_step (Some (dep_phase d, v)) e = Some (dep_phase next, v).
Proof.
  intros Hm [_ Hf Ht Hv _ Hty]. cbn. rewrite Ht. cbn. rewrite Hf, Hty, Hv.
  rewrite bool_decide_eq_true_2 by done.
  rewrite bool_decide_eq_false_2 by apply transition_event_not_advance.
  by rewrite (mv_edge _ _ Hm), Z.eqb_refl, bool_decide_eq_true_2 by done.
Qed.

Definition audit_replays (r : repository) : Prop :=
  forall id d, map_get id (deployments r) = Some d ->
    replay (audit_of id r) = Some (dep_phase d, version_of id r).

Lemma audit_replays_effect (r r' : repository) :
  keyed r -> effect sha256 r r' -> audit_replays r -> audit_replays r'.
Proof.
  intros Hk He Ha id d'.
  destruct He as [t|d Hval Hnone Hno|d next e Hd Hm Hev|d ev m s s' Hd Hst Hmat Hf Hp Hv|b d Hb];
    [by apply Ha| | | |by apply Ha].
  - cbn. rewrite map_get_set_cases. destruct (decide (id = dep_id d)) as [->|Hne]; intros Hd.
    + simplify_eq. unfold audit_of, version_of. cbn. by rewrite !lookup_insert_eq.
    + unfold audit_of, version_of. cbn. rewrite !lookup_insert_ne by congruence. by apply Ha.
  - cbn [append_audit set_audit deployments set_deployment].
    rewrite map_get_set_cases, (mv_id _ _ Hm), lookup_audit_append.
    destruct (decide (id = dep_id d)) as [->|Hne]; [|apply Ha].
    intros [= <-]. erewrite replay_app by (by apply Ha). by apply replay_move.
  - cbn [set_audit set_evidence set_exact_state deployments]. intros Hd'.
    destruct (decide (id = dep_id d)) as [->|Hne].
    + simplify_eq. unfold audit_of, version_of. cbn. rewrite !lookup_insert_eq. cbn.
      pose proof (Ha _ _ Hd) as Hr. unfold version_of in Hr. rewrite Hst in Hr. cbn in Hr.
      erewrite replay_app by exact Hr. cbn. rewrite !bool_decide_eq_true_2 by done.
      by rewrite Hv, Z.eqb_refl.
    + unfold audit_of, version_of. cbn. rewrite !lookup_insert_ne by congruence. by apply Ha.
Qed.

(** The audit log tells the whole story: after any calls of which none runs
    while a fault pause waits, replaying the audit events of a deployment
    (creation, then advances that count the version up by one and transitions
    along the phase graph, each starting in the phase the one before it left)
    ends in the deployment's current phase and the version of its current
    state.  (A fault pause that waits can overwrite a later phase and log its
    own: [PilotScenarios.fault_pause_undoes_rollback].) *)
Theorem audit_log_replays calls (store : option T) :
  Forall (fun c => uninterrupted c = true) calls -> audit_replays (runs calls store).
Proof.
  intros Hu. apply (uninterrupted_run_invariant sha256 localeCompare audit_replays);
    [done|apply audit_replays_effect|done].
Qed.

(** ** Bindings *)

(** The deployment a binding names has its account and was activated at the
    instant the binding carries. *)
Definition bound_to (deployment : option PositionGuardPilotDeploymentRecord)
    (b : CandidateExecutionBindingRecord) : Prop :=
  exists d, deployment = Some d /\ dep_exchangeAccountId d = bind_exchangeAccountId b /\
    dep_activationAt d = Some (bind_activationAt b) /\
    dep_activationEpochNs d = Some (bind_activationEpochNs b).

Record bindings_ok (r : repository) : Prop := {
  bo_wf : map_wf (bindingsByOrderId r);
  bo_key : forall order b, map_get order (bindingsByOrderId r) = Some b -> bind_orderId b = order;
  bo_valid : forall order b, map_get order (bindingsByOrderId r) = Some b ->
    validateCandidateExecutionBinding sha256 b = Ret b;
  bo_bound : forall order b, map_get order (bindingsByOrderId r) = Some b ->
    bound_to (map_get (bind_deploymentId b) (deployments r)) b;
  bo_unique : forall order order' b b', map_get order (bindingsByOrderId r) = Some b ->
    map_get order' (bindingsByOrderId r) = Some b' -> bind_id b = bind_id b' -> b = b';
}.

(** Deployments that still serve every binding they served. *)
Lemma bindings_ok_deployments (r r' : repository) :
  bindingsByOrderId r' = bindingsByOrderId r ->
  (forall id b, bound_to (map_get id (deployments r)) b -> bound_to (map_get id (deployments r')) b) ->
  bindings_ok r -> bindings_ok r'.
Proof.
  intros Hb Hd [Hwf Hk Hv Hbound Hu]. split; rewrite Hb; try done.
  intros order b Hin. by apply Hd, (Hbound order).
Qed.

Lemma find_binding_none id bindings order b :
  find_binding id bindings = None -> map_get order bindings = Some b -> bind_id b <> id.
Proof.
  intros Hf Hb%map_get_value Hid. unfold find_binding in Hf.
  eapply List.find_none in Hf; [|by apply list_elem_of_In].
  by apply bool_decide_eq_false in Hf.
Qed.

Lemma bindings_ok_effect (r r' : repository) :
  keyed r -> effect sha256 r r' -> bindings_ok r -> bindings_ok r'.
Proof.
  intros Hk He Ho.
  destruct He as [t|d Hval Hnone Hno|d next e Hd Hm Hev|d ev m s s' Hd Hst Hmat Hf Hp Hv
                 |b d Hval Hd Hacc Hact Hat Hep Hno Hid].
  - by apply (bindings_ok_deployments r).
  - apply (bindings_ok_deployments r); [done| |exact Ho]. cbn. intros id b (d' & Hd' & H).
    rewrite map_get_set_ne by congruence. by exists d'.
  - apply (bindings_ok_deployments r); [done| |exact Ho].
    cbn. intros id b (d' & Hd' & Hacc & Hat & Hep). rewrite map_get_set_cases, (mv_id _ _ Hm).
    destruct (decide (id = dep_id d)) as [->|]; [|by exists d'].
    rewrite Hd in Hd'. injection Hd' as <-. exists next. split; [done|].
    destruct (mv_activation _ _ Hm) as [-> ->]; [by rewrite Hat|].
    by rewrite (mv_account _ _ Hm).
  - by apply (bindings_ok_deployments r).
  - destruct Ho as [Hwf Hkey Hvalid Hbound Huniq].
    assert (Hcases : forall order b', map_get order (bindingsByOrderId (set_binding b r)) = Some b' ->
      order = bind_orderId b /\ b' = b \/ map_get order (bindingsByOrderId r) = Some b').
    { cbn. intros order b'. rewrite map_get_set_cases.
      destruct (decide (order = bind_orderId b)); [intros [= <-]; by left | by right]. }
    split.
    + by apply map_set_wf.
    + intros order b' [[-> ->]|H]%Hcases; [done|by apply Hkey].
    + intros order b' [[-> ->]|H]%Hcases; [done|by apply (Hvalid order)].
    + intros order b' [[-> ->]|H]%Hcases; [by exists d|by apply (Hbound order)].
    + intros order order' b1 b2 [[-> ->]|H1]%Hcases [[-> ->]|H2]%Hcases Heq; [done| | |by eauto].
      * by destruct (find_binding_none _ _ _ _ Hid H2).
      * by destruct (find_binding_none _ _ _ _ Hid H1).
Qed.

(** The bindings of [createExecutionBinding] can be traced to their
    deployment: after any calls of which none runs while a fault pause waits,
    each stored binding is kept under its own order, passes the validation of
    its hash and chronology, names a stored deployment of the same account that
    was activated at the instant the binding carries (whatever phase the
    deployment is in by now), and no two bindings share an identifier.  (The
    bindings of order intents are those of
    [OrderAuthority.candidate_intent_is_bound].) *)
Theorem bindings_reference_activation calls (store : option T) :
  Forall (fun c => uninterrupted c = true) calls -> bindings_ok (runs calls store).
Proof.
  intros Hu. apply (uninterrupted_run_invariant sha256 localeCompare bindings_ok);
    [done|apply bindings_ok_effect|].
  split; [apply NoDup_nil_2|done..].
Qed.

End Invariants.
