(* ===== verification/PilotGuarantees.v ===== *)
(** * PilotGuarantees: what single operations of the pilot repository promise

    When a rollback completes and that it always can, that advancing by the
    same evidence twice counts once, what a fault pause leaves behind, when an
    intent fault is dated, that bindings agree with their deployment, and two
    schedules on which the code does not do what it means to. *)

From Stdlib Require Import ZArith Lia.
From stdpp Require Import base option list strings gmap relations.
From S2P Require Import Prelude Num Types Text Timestamp NumText JsMap Json Risk.
From S2P Require Import CandidateState ExactState OperatorState PilotRecords PilotRepository.
From S2P Require Import PilotTheory PilotInvariants.

Local Open Scope string_scope.
Local Open Scope js_scope.
Local Open Scope bool_scope.

Section Guarantees.
Context (sha256 : string -> string) (localeCompare : string -> string -> comparison).
Context {T : Type} {HT : AtomicFaultPauseStore T} {HL : AtomicFaultPauseLaws T}.

Abbreviation repository := (InMemoryCandidatePilotRepository T).
Abbreviation runs calls store := (run_calls sha256 localeCompare calls (new_repository store)).

(** ** Rollbacks *)

(** A rollback that returned a deployment ran under authority. *)
Lemma under_authority_Some rollback operation (r r' : repository) d :
  under_authority rollback operation r = (r', Ret (Some d)) ->
  exists t, atomicFaultPauseStore r = Some t /\
    halted (es_systemStatus (store_getState t)) = true /\
    es_exchangeAccountId (store_getState t) = ros_exchangeAccountId (rb_expectedOperatorState rollback) /\
    operation r = (r', Ret (Some d)).
Proof.
  unfold under_authority. rewrite act_gets_bind. cbv beta.
  destruct (atomicFaultPauseStore r) as [t|]; [|done]. rewrite act_bind_eq.
  pose proof (law_authority _ _ t (rb_expectedOperatorState rollback) operation r) as H. cbv zeta in H.
  destruct (store_runWithCandidatePilotRollbackAuthority _ _ _ _) as [r1 out]. cbn [fst snd] in H.
  destruct H as [[-> Hn]|(Hh & Ha & H)].
  - destruct out as [[v|]|]; intros Hr; [by destruct (Hn v)|discriminate Hr..].
  - destruct (operation r) as [r2 [v|m]]; injection H as -> ->; [|done].
    intros Hr. injection Hr as -> ->. by exists t.
Qed.

(** What a completion that returned found and left. *)
Lemma complete_rollback_Some rollback (r r' : repository) d' :
  complete_rollback_operation rollback r = (r', Ret (Some d')) ->
  exists d s,
    map_get (rb_deploymentId rollback) (deployments r) = Some d /\
    exactStates r !! rb_deploymentId rollback = Some s /\
    isRollbackCompletablePhase (dep_phase d) = true /\ dep_phase d = rb_expectedPhase rollback /\
    rollback_expected rollback d s = true /\ isExactCandidateStateRollbackFlat s = true /\
    d' = with_phase d Phase.DISABLED (rb_transitionAt rollback) /\
    deployments r' = map_set (dep_id d) d' (deployments r) /\ exactStates r' = exactStates r.
Proof.
  unfold complete_rollback_operation. rewrite act_gets_bind. cbv beta. rewrite act_gets_bind.
  cbv beta. destruct (map_get _ _) as [d|]; [|done].
  destruct (exactStates r !! _) as [s|]; [|done].
  destruct (_ || _) eqn:Hg; [done|]. destruct_bools. rewrite act_lift_bind.
  destruct (validateCandidatePilotRollbackChronology _ _ _); [|done]. rewrite act_lift_bind.
  destruct (isExactCandidateStateRollbackFlat s) eqn:Hflat; [|done]. cbn [negb throw_if].
  unfold apply_rollback. rewrite !act_modify_bind. rewrite act_lift_bind.
  destruct (validateCandidatePilotDeployment _) as [v|] eqn:Hv; [|done].
  apply validate_deployment_same in Hv as [-> _].
  intros Heq. injection Heq as <- <-. exists d, s. split_and!; try done.
  match goal with H : dep_phase d = _ |- _ => by rewrite H end.
Qed.

(** A pilot is only disabled when it is flat and the operator has stopped
    trading: if [completeRollback] returns a deployment, the operator state is
    PAUSED or KILL_SWITCHED and of the deployment's account, the deployment had
    not already reached a final phase, its exact state has no inventory, cost,
    profit or adds in the current episode, and it is DISABLED now. *)
Theorem disabled_only_when_flat_and_halted input (r r' : repository) d' :
  keyed r -> completeRollback input r = (r', Ret (Some d')) ->
  exists t d s,
    atomicFaultPauseStore r = Some t /\ halted (es_systemStatus (store_getState t)) = true /\
    map_get (rb_deploymentId input) (deployments r) = Some d /\
    es_exchangeAccountId (store_getState t) = dep_exchangeAccountId d /\
    (dep_phase d = Phase.PENDING_FLAT \/ dep_phase d = Phase.ACTIVE \/ dep_phase d = Phase.DRAINING) /\
    exactStates r !! rb_deploymentId input = Some s /\
    currentEpisodeInventoryQuantity s = "0" /\ currentEpisodeCostBasisKrw s = "0" /\
    currentEpisodeRealizedPnlKrw s = "0" /\ currentEpisodeAddCount s = 0%Z /\
    map_get (rb_deploymentId input) (deployments r') = Some d' /\ dep_phase d' = Phase.DISABLED.
Proof.
  intros Hk. unfold completeRollback. rewrite act_lift_bind.
  destruct (validateCandidatePilotRollbackInput input) as [rollback|] eqn:Hv; [|done].
  pose proof (rollback_input_spec _ _ Hv) as (-> & _).
  intros (t & Ht & Hh & Ha & Ho)%under_authority_Some.
  apply complete_rollback_Some in Ho
    as (d & s & Hd & Hs & Hp & _ & He & Hflat & -> & Hdep & _).
  unfold rollback_expected in He. unfold isExactCandidateStateRollbackFlat in Hflat. destruct_bools.
  pose proof (keyed_id _ _ _ Hk Hd) as Hid.
  exists t, d, s. split_and!; try done.
  - congruence.
  - destruct (dep_phase d); naive_solver.
  - rewrite Hdep, Hid. apply map_get_set.
Qed.

(** ** A rollback can always complete *)

Definition before_end (ns : Z) : Prop := (ns + 1 < (last_four_digit_second + 1) * 1000000000)%Z.

(** The request an operator makes of what the stores show. *)
Definition rollback_request (d : PositionGuardPilotDeploymentRecord) (s : ExactCandidateState)
    (current : ExecutionStateRecord) (transitionAt : string) (epoch : Z)
    : CandidatePilotRollbackInput := {|
  rb_deploymentId := dep_id d;
  rb_expectedPhase := dep_phase d;
  rb_expectedUpdatedAt := dep_updatedAt d;
  rb_expectedStateVersion := stateVersion s;
  rb_expectedOperatorState := {|
    ros_id := es_id current; ros_exchangeAccountId := es_exchangeAccountId current;
    ros_systemStatus := es_systemStatus current; ros_updatedAt := es_updatedAt current |};
  rb_transitionAt := transitionAt;
  rb_transitionEpochNs := epoch;
|}.

(** The operator state can serve as an authority for an account. *)
Record operator_ready (current : ExecutionStateRecord) (account : string) : Prop := {
  ready_halted : halted (es_systemStatus current) = true;
  ready_account : es_exchangeAccountId current = account;
  ready_id : is_blank (es_id current) = false;
  ready_time : exists t, parsePositionGuardCandidateTimestamp (es_updatedAt current)
    "candidate pilot rollback expected operator state updatedAt" = Ret t;
}.

(** Both times the chronology looks at, and a later one. *)
Lemma later_instant d s u :
  parsePositionGuardCandidateTimestamp (dep_updatedAt d) "candidate deployment updatedAt" = Ret u ->
  (0 <= u)%Z -> before_end u ->
  (forall at_, lastEvidenceAt s = Some at_ -> exists e,
     parsePositionGuardCandidateTimestamp at_ "candidate state lastEvidenceAt" = Ret e /\
     before_end e) ->
  valid d ->
  exists epoch at_,
    (0 <= epoch)%Z /\ (forall l, parsePositionGuardCandidateTimestamp at_ l = Ret epoch) /\
    (u < epoch)%Z /\ validateCandidatePilotRollbackChronology epoch d s = Ret tt.
Proof.
  intros Hu H0 Hend He [_ _ _ _ _ _ (c & u' & Hc & Hu' & Hle) _ _]%valid_iff.
  rewrite (timestamp_relabel _ _ _ _ Hu) in Hu'. injection Hu' as <-.
  assert (exists e, (lastEvidenceAt s = None /\ e = u \/ exists at_, lastEvidenceAt s = Some at_ /\
    parsePositionGuardCandidateTimestamp at_ "candidate state lastEvidenceAt" = Ret e) /\ before_end e)
    as (e & Hlast & Hee).
  { destruct (lastEvidenceAt s) as [at_|]; [|exists u; auto].
    destruct (He _ eq_refl) as (e & Hp & Hb). exists e. split; [|done]. right. by exists at_. }
  unfold before_end in *.
  destruct (proj1 (format_parse (Z.max u e + 1)) ltac:(lia)) as (at_ & _ & Hat).
  exists (Z.max u e + 1)%Z, at_. split_and!; [lia|done|lia|].
  unfold validateCandidatePilotRollbackChronology.
  rewrite (timestamp_relabel _ _ _ _ Hc). cbn. rewrite Hu. cbn.
  rewrite (proj2 (Z.leb_gt _ _)), andb_false_r by lia. cbn.
  rewrite !(proj2 (Z.ltb_ge _ _)) by lia. cbn.
  destruct Hlast as [[-> _]|(at' & -> & Hp)]; [done|]. rewrite Hp. cbn.
  by rewrite (proj2 (Z.ltb_ge _ _)) by lia.
Qed.

(** C35: a flat pilot can always be taken out of service: in any reachable
    repository, for a deployment that is PENDING_FLAT, ACTIVE or DRAINING and
    whose exact state is flat, once the operator has paused or killed trading
    of its account there is a rollback request on which [completeRollback]
    returns the deployment as DISABLED and stores it.  The times must leave
    room before the end of year 9999. *)
Theorem rollback_can_complete calls (store : option T) id d s t u :
  let r := runs calls store in
  map_get id (deployments r) = Some d -> exactStates r !! id = Some s ->
  isRollbackCompletablePhase (dep_phase d) = true -> isExactCandidateStateRollbackFlat s = true ->
  atomicFaultPauseStore r = Some t -> operator_ready (store_getState t) (dep_exchangeAccountId d) ->
  (stateVersion s <= MAX_SAFE_INTEGER)%Z ->
  parsePositionGuardCandidateTimestamp (dep_updatedAt d) "candidate deployment updatedAt" = Ret u ->
  (0 <= u)%Z -> before_end u ->
  (forall at_, lastEvidenceAt s = Some at_ -> exists e,
     parsePositionGuardCandidateTimestamp at_ "candidate state lastEvidenceAt" = Ret e /\
     before_end e) ->
  exists input r' d',
    completeRollback input r = (r', Ret (Some d')) /\ dep_phase d' = Phase.DISABLED /\
    map_get id (deployments r') = Some d'.
Proof.
  intros r Hd Hs Hp Hflat Ht [Hh Ha Hid Htime] Hver Hu H0 Hend He.
  pose proof (runs_deployments_ok sha256 localeCompare calls store : deployments_ok r) as [Hk Hv _].
  pose proof (Hv _ _ Hd : valid d) as Hval.
  pose proof (runs_states_sourced sha256 localeCompare calls store : states_sourced sha256 r) as Hsrc.
  destruct (Hsrc _ _ Hd) as (s' & Hs' & Hsr). rewrite Hs in Hs'. injection Hs' as <-.
  pose proof (src_version _ _ _ _ Hsr) as Hver'.
  destruct (later_instant d s u Hu H0 Hend He Hval) as (epoch & at_ & Hpos & Hat & Hlt & Hchr).
  pose proof (keyed_id _ _ _ Hk Hd) as ->.
  pose proof (proj1 (valid_iff d) Hval) as Hvs.
  set (input := rollback_request d s (store_getState t) at_ epoch).
  set (next := with_phase d Phase.DISABLED at_).
  assert (Hexp : validateCandidatePilotRollbackOperatorState (rb_expectedOperatorState input)
                 = Ret (rb_expectedOperatorState input)).
  { unfold validateCandidatePilotRollbackOperatorState, requireNonEmpty.
    cbn -[is_blank halted]. rewrite Hid. cbn -[is_blank halted].
    rewrite Ha, (vs_account _ Hvs). cbn -[halted]. rewrite Hh. cbn. by destruct Htime as [x ->]. }
  assert (Hin : validateCandidatePilotRollbackInput input = Ret input).
  { unfold validateCandidatePilotRollbackInput, requireNonEmpty.
    change (rb_deploymentId input) with (dep_id d). rewrite (vs_id _ Hvs).
    cbn [throw_if mbind outcome_bind]. change (rb_expectedUpdatedAt input) with (dep_updatedAt d).
    rewrite (timestamp_relabel _ _ _ _ Hu). cbn [mbind outcome_bind].
    change (rb_expectedStateVersion input) with (stateVersion s).
    assert (isSafeInteger (stateVersion s) = true) as ->.
    { unfold isSafeInteger, MAX_SAFE_INTEGER in *. apply andb_true_iff. split; apply Z.leb_le; lia. }
    rewrite (proj2 (Z.ltb_ge _ _)) by lia. cbn [negb orb throw_if mbind outcome_bind].
    rewrite Hexp. cbn [mbind outcome_bind]. change (rb_transitionAt input) with at_.
    change (rb_transitionEpochNs input) with epoch. rewrite Hat. cbn [mbind outcome_bind].
    by rewrite (proj2 (Z.ltb_ge _ _)), Z.eqb_refl by lia. }
  assert (Hmatch : matchesCandidatePilotRollbackOperatorState (store_getState t)
    (rb_expectedOperatorState input) (ros_exchangeAccountId (rb_expectedOperatorState input)) = true).
  { unfold matchesCandidatePilotRollbackOperatorState. cbn -[halted].
    by rewrite !bool_decide_eq_true_2, Hh by done. }
  assert (Hnext : valid next).
  { eapply mv_valid; [|exact Hval]. eapply with_phase_moves; eauto using edge_disabled; [lia|done]. }
  assert (Hop : complete_rollback_operation input r =
    (append_audit (dep_id next) (buildCandidatePilotRollbackAuditEvent input Audit.ROLLBACK_COMPLETED
       (dep_phase d) Phase.DISABLED (stateVersion s)) (set_deployment next r), Ret (Some next))).
  { unfold complete_rollback_operation. rewrite act_gets_bind. cbv beta. rewrite act_gets_bind.
    cbv beta. change (rb_deploymentId input) with (dep_id d). rewrite Hd, Hs.
    change (rb_expectedPhase input) with (dep_phase d). rewrite Hp.
    assert (rollback_expected input d s = true) as ->.
    { unfold rollback_expected. cbn. by rewrite !bool_decide_eq_true_2, Z.eqb_refl by done. }
    rewrite bool_decide_eq_true_2 by done. cbn [negb orb]. rewrite act_lift_bind.
    change (rb_transitionEpochNs input) with epoch. rewrite Hchr.
    rewrite act_lift_bind, Hflat. cbn [negb throw_if]. unfold apply_rollback.
    rewrite !act_modify_bind, act_lift_bind. change (rb_transitionAt input) with at_. fold next.
    rewrite Hnext. reflexivity. }
  exists input. eexists _, next. split_and!; [|done|].
  - unfold completeRollback. rewrite act_lift_bind, Hin. unfold under_authority.
    rewrite act_gets_bind. cbv beta. rewrite Ht, act_bind_eq.
    rewrite law_authority_grants by done. rewrite Hop. reflexivity.
  - cbn. apply map_get_set.
Qed.

(** ** The same evidence counts once *)

(** The evidence list of a deployment only grows at its end. *)
Definition grown (id : string) (r0 r : repository) : Prop :=
  exists more, evidence_of id r = (evidence_of id r0 ++ more)%list.

Lemma effect_grows (r r' : repository) id d :
  effect sha256 r r' -> map_get id (deployments r) = Some d ->
  (exists d', map_get id (deployments r') = Some d') /\ grown id r r'.
Proof.
  intros He Hd.
  assert (Hsame : (exists d', map_get id (deployments r) = Some d') /\ exists more : list StoredEvidence,
    evidence_of id r = (evidence_of id r ++ more)%list).
  { split; [by exists d|]. exists []. by rewrite app_nil_r. }
  destruct He as [t|d1 Hval Hnone Hno|d1 next e Hd1 Hm Hev|d1 ev m s s' Hd1 Hst Hmat Hf Hp Hv|b d1 Hb];
    [exact Hsame| | | |exact Hsame].
  - assert (id <> dep_id d1) by congruence. split.
    + exists d. cbn. by rewrite map_get_set_ne.
    + exists []. rewrite app_nil_r. unfold evidence_of. cbn. by rewrite lookup_insert_ne.
  - split; [|apply Hsame]. cbn. rewrite map_get_set_cases.
    destruct (decide (id = dep_id next)); [by exists next | by exists d].
  - split; [by exists d|]. unfold grown, evidence_of at 1. cbn.
    destruct (decide (id = dep_id d1)) as [->|Hne].
    + rewrite lookup_insert_eq. by exists [store_material m].
    + rewrite lookup_insert_ne by done. exists []. by rewrite app_nil_r.
Qed.

Lemma step_grows (r r' : repository) id d :
  step sha256 r r' -> map_get id (deployments r) = Some d ->
  (exists d', map_get id (deployments r') = Some d') /\ grown id r r'.
Proof.
  intros [He|He]; [by apply effect_grows|]. intros Hd.
  split; [|exists []; rewrite app_nil_r; by destruct He].
  destruct He as [d0 d1 at_ e Hd1|]; cbn; [|by exists d].
  rewrite map_get_set_cases. destruct (decide _); by eexists.
Qed.

Lemma steps_grow (r r' : repository) id d :
  rtc (step sha256) r r' -> map_get id (deployments r) = Some d ->
  (exists d', map_get id (deployments r') = Some d') /\ grown id r r'.
Proof.
  intros He. revert d. induction He as [r|r1 r2 r3 H12 _ IH]; intros d Hd.
  - split; [by exists d|]. exists []. by rewrite app_nil_r.
  - destruct (step_grows _ _ _ _ H12 Hd) as [[d2 Hd2] [m1 Hm1]].
    destruct (IH _ Hd2) as [Hd3 [m2 Hm2]]. split; [done|]. exists (m1 ++ m2)%list.
    by rewrite Hm2, Hm1, app_assoc.
Qed.

(** What an advance that returned was: a duplicate, or an appended record. *)
Lemma pilot_advance_cases input (r r' : repository) result :
  advanceStateWithEvidence sha256 input r = (r', Ret result) ->
  exists d s m,
    map_get (adv_deploymentId input) (deployments r) = Some d /\
    exactStates r !! adv_deploymentId input = Some s /\
    candidateEvidenceMaterial sha256 (adv_deploymentId input) (adv_evidence input) = Ret m /\
    advance_evidence result = material_evidence m /\
    ((advance_duplicate result = true /\ r' = r /\ exists item,
        find_stored (evidenceId (material_evidence m)) (evidence_of (adv_deploymentId input) r)
          = Some item /\
        rec_materialHash (stored_record item) = material_hash m /\
        rec_materialVersion (stored_record item) = material_materialVersion m) \/
     (advance_duplicate result = false /\
        find_stored (evidenceId (material_evidence m)) (evidence_of (adv_deploymentId input) r)
          = None /\
        map_get (adv_deploymentId input) (deployments r') = Some d /\
        evidence_of (adv_deploymentId input) r' =
          (evidence_of (adv_deploymentId input) r ++ [store_material m])%list)).
Proof.
  unfold advanceStateWithEvidence. cbv zeta. rewrite act_lift_bind.
  destruct (throw_if _ _) eqn:Hver; [|done]. rewrite act_gets_bind. cbv beta.
  rewrite act_gets_bind. cbv beta.
  destruct (map_get _ _) as [d|] eqn:Hd; [|done].
  destruct (exactStates r !! _) as [s|] eqn:Hs; [|done].
  rewrite act_lift_bind. destruct (candidateEvidenceMaterial _ _ _) as [m|] eqn:Hm; [|done].
  rewrite act_gets_bind. cbv beta.
  destruct (find_stored _ _) as [item|] eqn:Hf.
  - rewrite act_lift_bind. destruct (throw_if (_ || _) _) as [[]|] eqn:Hc in |- *; [|done].
    unfold routing_result. rewrite act_lift_bind.
    destruct (toPositionGuardCandidateRoutingState s); [|done]. intros Heq. injection Heq as <- <-.
    exists d, s, m. split_and!; [done..|]. left. apply throw_if_Ret in Hc. destruct_bools.
    split_and!; [done..|]. by exists item.
  - rewrite act_lift_bind. destruct (throw_if (negb _) _) eqn:Hcas in |- *; [|done].
    rewrite act_lift_bind. destruct (projectExactCandidateState _) as [s'|] eqn:Hp; [|done].
    rewrite act_lift_bind. destruct (throw_if (negb _) _) eqn:Hone in |- *; [|done].
    rewrite act_gets_bind. cbv beta zeta. rewrite !act_modify_bind.
    unfold routing_result. rewrite act_lift_bind.
    destruct (toPositionGuardCandidateRoutingState s'); [|done]. intros Heq.
    injection Heq as <- <-. exists d, s, m. split_and!; [done..|]. right.
    split_and!; [done..|]. unfold evidence_of at 1. cbn. by rewrite lookup_insert_eq.
Qed.

Lemma find_stored_app id l more item :
  find_stored id l = Some item -> find_stored id (l ++ more)%list = Some item.
Proof.
  unfold find_stored. induction l as [|x l IH]; [done|]. cbn. by destruct (bool_decide _).
Qed.

Lemma find_stored_last id l m :
  find_stored id l = None -> evidenceId (material_evidence m) = id ->
  find_stored id (l ++ [store_material m])%list = Some (store_material m).
Proof.
  unfold find_stored. intros Hl Hid. induction l as [|x l IH]; cbn in *.
  - unfold stored_evidence. cbn. by rewrite bool_decide_eq_true_2.
  - destruct (bool_decide _); [done|]. by apply IH.
Qed.

(** A recorded evidence, submitted again with any expected version. *)
Lemma advance_recorded input (r : repository) d item m :
  keyed r -> states_sourced sha256 r ->
  map_get (adv_deploymentId input) (deployments r) = Some d ->
  candidateEvidenceMaterial sha256 (adv_deploymentId input) (adv_evidence input) = Ret m ->
  find_stored (evidenceId (material_evidence m)) (evidence_of (adv_deploymentId input) r) = Some item ->
  rec_materialHash (stored_record item) = material_hash m ->
  rec_materialVersion (stored_record item) = material_materialVersion m ->
  fst (advanceStateWithEvidence sha256 input r) = r /\
  forall result, snd (advanceStateWithEvidence sha256 input r) = Ret result ->
    advance_duplicate result = true /\ advance_evidence result = material_evidence m.
Proof.
  intros Hk Hsrc Hd Hm Hf Hh Hv. destruct (Hsrc _ _ Hd) as (s & Hs & _).
  unfold advanceStateWithEvidence. cbv zeta. rewrite act_lift_bind.
  destruct (throw_if _ _) eqn:Hver; [|done]. rewrite act_gets_bind. cbv beta.
  rewrite act_gets_bind. cbv beta. rewrite Hd, Hs, act_lift_bind, Hm, act_gets_bind. cbv beta.
  rewrite Hf, act_lift_bind, Hh, Hv, !bool_decide_eq_true_2 by done. cbn [negb orb throw_if].
  unfold routing_result. rewrite act_lift_bind.
  destruct (toPositionGuardCandidateRoutingState s); [|done]. split; [done|].
  intros result Heq. by injection Heq as <-.
Qed.

(** Evidence is applied at most once: when [advanceStateWithEvidence] has
    accepted an evidence in a reachable repository, then after any further calls
    the same evidence, with whatever expected version, changes nothing, and an
    answer reports it as a duplicate of the canonical evidence.  A fault pause
    may be under way all along. *)
Theorem evidence_applied_once calls calls' (store : option T) input result version r' :
  let s := run_pilot sha256 localeCompare calls
             {| run_repository := new_repository store; run_fault := None |} in
  advanceStateWithEvidence sha256 input (run_repository s) = (r', Ret result) ->
  let again := {| adv_deploymentId := adv_deploymentId input; adv_expectedStateVersion := version;
                  adv_evidence := adv_evidence input |} in
  let r'' := run_repository (run_pilot sha256 localeCompare calls'
               {| run_repository := r'; run_fault := run_fault s |}) in
  fst (advanceStateWithEvidence sha256 again r'') = r'' /\
  forall result', snd (advanceStateWithEvidence sha256 again r'') = Ret result' ->
    advance_duplicate result' = true /\ advance_evidence result' = advance_evidence result.
Proof.
  intros s0 Ha again r''. set (r := run_repository s0) in *.
  destruct (run_pilot_steps sha256 localeCompare calls _ (new_run_ok store)) as [_ Hok]. fold s0 in Hok.
  pose proof (ro_keyed _ Hok : keyed r) as Hk.
  pose proof (advance_effects sha256 input r Hk) as He1. rewrite Ha in He1. cbn [fst] in He1.
  apply effects_steps in He1. pose proof (steps_keyed _ _ _ He1 Hk) as Hk'.
  destruct (run_pilot_steps sha256 localeCompare calls' _ (run_ok_steps _ _ _ Hok He1)) as [He2 _].
  cbn [run_repository] in He2. fold r'' in He2.
  assert (Hs2 : states_sourced sha256 r'').
  { apply (steps_invariant sha256 (states_sourced sha256) r' r'');
      [apply states_sourced_step|done|done|].
    apply (steps_invariant sha256 (states_sourced sha256) r r');
      [apply states_sourced_step|done|done|]. exact (runs_states_sourced sha256 localeCompare calls store). }
  apply pilot_advance_cases in Ha as (d & s & m & Hd & _ & Hm & -> & Hcase).
  assert (exists d' item, map_get (adv_deploymentId input) (deployments r') = Some d' /\
    find_stored (evidenceId (material_evidence m)) (evidence_of (adv_deploymentId input) r') = Some item /\
    rec_materialHash (stored_record item) = material_hash m /\
    rec_materialVersion (stored_record item) = material_materialVersion m) as (d' & item & Hd' & Hf & ? & ?).
  { destruct Hcase as [(_ & -> & item & Hf & Hh & Hv)|(_ & Hf & Hd' & Hev)]; [by exists d, item|].
    exists d, (store_material m). rewrite Hev. split_and!; [done|by apply find_stored_last|done..]. }
  destruct (steps_grow _ _ _ _ He2 Hd') as [[d2 Hd2] [more Hmore]].
  apply (advance_recorded again r'' d2 item m); try done.
  - by eapply steps_keyed.
  - cbn [again adv_deploymentId]. rewrite Hmore. by apply find_stored_app.
Qed.

(** ** Fault pauses *)

Lemma map_get_append_audit id e (r : repository) id' :
  map_get id' (deployments (append_audit id e r)) = map_get id' (deployments r).
Proof. done. Qed.

(** A serialized fault pause that returned. *)
Lemma fault_serialized_returns input intent (r r' : repository) result :
  keyed r -> intent_matches input intent ->
  pauseForRecoveryFaultSerialized sha256 input intent r = (r', Ret result) ->
  map_get (fault_deploymentId input) (deployments r') = Some (paused_deployment result) /\
  dep_phase (paused_deployment result) = Phase.PAUSED_FAULT /\
  paused_auditEvent result ∈ audit_of (fault_deploymentId input) r' /\
  audit_id (paused_auditEvent result) = fault_faultId input /\
  exists t, atomicFaultPauseStore r' = Some t /\
    paused_executionState result = store_getState t /\
    halted (es_systemStatus (store_getState t)) = true.
Proof.
  intros Hk Hi. unfold pauseForRecoveryFaultSerialized. rewrite act_bind_eq.
  destruct (fault_begin_spec input r) as [[msg ->]|(snap & -> & Hf)]; [done|].
  unfold fault_read_state. rewrite act_bind_eq, require_store_bind.
  destruct (fresh_transition _ _ _ Hf) as (t & Ht & _). rewrite Ht. cbn [act_ret].
  intros Hfin.
  pose proof (fault_finish_cases sha256 input intent snap (store_getState t) r t Ht Hf Hk Hi) as Hc.
  destruct Hc as [[msg Hc]|[(result' & Hc & Hdup)|(eff & t' & s & at_ & result' & Hc)]].
  - by rewrite Hc in Hfin.
  - rewrite Hc in Hfin. injection Hfin as <- <-.
    unfold fault_finish in Hc. rewrite act_gets_bind in Hc. cbv beta zeta in Hc.
    rewrite act_lift_bind in Hc. destruct (latest_audit _) as [latest|]; [|done].
    rewrite act_lift_bind in Hc. destruct (match intent with Some _ => _ | None => _ end) as [eff|]; [|done].
    rewrite act_lift_bind in Hc. destruct (deriveFaultPauseTransitionAt _ _) as [at_|]; [|done].
    destruct (_ || _) eqn:Hrec.
    2: { exfalso. rewrite act_lift_bind in Hc. destruct (throw_if _ _); [|done].
         rewrite act_lift_bind in Hc. destruct (validateCandidatePilotRecoveryFaultChronology _ _ _); [|done].
         rewrite require_store_bind, Ht, on_store_bind in Hc.
         destruct (store_applyFaultPauseAtomically _ t) as [t' [s|m]]; [|done].
         rewrite !act_modify_bind in Hc. injection Hc as _ Hc. by rewrite <- Hc in Hdup. }
    injection Hc as Hc. unfold fault_duplicate in Hc.
    destruct (snap_existingAudit snap) as [a|] eqn:Ha; [|done].
    destruct (snap_existingTransition snap) as [tr|]; [|done].
    destruct (_ || _) eqn:Hg in Hc; [done|]. destruct_bools.
    destruct (audit_fromPhase a) as [from|]; [|done]. destruct (negb _) in Hc; [done|].
    destruct (_ || _) eqn:Hg2 in Hc; [done|]. injection Hc as <-. cbn.
    destruct Hf as [Hd Hs Hacc Haud _]. rewrite Ha in Haud.
    symmetry in Haud. apply List.find_some in Haud as [Hin Hid].
    apply bool_decide_eq_true in Hid. split_and!; [done|done| |done|].
    + by apply list_elem_of_In.
    + by exists t.
  - cbv zeta in Hc. destruct Hc as (Hap & Hm & He & Hd & Hs & Hau & _ & Heff & Hc).
    rewrite Hc in Hfin. injection Hfin as <- <-.
    pose proof (fresh_deployment _ _ _ Hf) as Hdep. pose proof (keyed_id _ _ _ Hk Hdep) as Hid.
    pose proof (law_pause_returns _ _ _ _ Hap) as (-> & Hh & _).
    rewrite Hd, Hs, Hau, map_get_append_audit, lookup_audit_append. split_and!; [|done| | |].
    + cbn [deployments set_deployment]. rewrite Hid. apply map_get_set.
    + rewrite decide_True by done. apply elem_of_app. right. by apply list_elem_of_singleton.
    + cbn. by destruct Heff as [-> | [at' ->]].
    + by exists t'.
Qed.

(** C34: a fault stops everything: when a recovery fault or an intent fault
    returns, in a reachable repository, the deployment is PAUSED_FAULT, the
    fault's audit event is in its log, the operator state is the one returned
    and is PAUSED or KILL_SWITCHED, and the risk guards accept no order under
    that state. *)
Theorem fault_pause_stops_trading calls (store : option T) call r' result limits sendPath c :
  let r := runs calls store in
  match call with
  | inl fault => pauseForRecoveryFault sha256 fault r
  | inr intent => pauseForCandidateIntentFault sha256 intent r
  end = (r', Ret result) ->
  let fault := match call with inl fault => fault | inr intent => intent_fault intent end in
  policy c = composeExecutionPolicy (paused_executionState result) limits sendPath ->
  systemStatus c = es_systemStatus (paused_executionState result) ->
  map_get (fault_deploymentId fault) (deployments r') = Some (paused_deployment result) /\
  dep_phase (paused_deployment result) = Phase.PAUSED_FAULT /\
  paused_auditEvent result ∈ audit_of (fault_deploymentId fault) r' /\
  audit_id (paused_auditEvent result) = fault_faultId fault /\
  (exists t, atomicFaultPauseStore r' = Some t /\ paused_executionState result = store_getState t) /\
  accepted (evaluateRiskGuards c) = false.
Proof.
  intros r Hcall fault Hp Hst.
  pose proof (ok_keyed _ (runs_deployments_ok sha256 localeCompare calls store : deployments_ok r)) as Hk.
  assert (exists intent, intent_matches fault intent /\
    pauseForRecoveryFaultSerialized sha256 fault intent r = (r', Ret result)) as (intent & Hi & Hser).
  { destruct call as [f|i]; cbn [fault] in *.
    - exists None. split; [done|]. unfold pauseForRecoveryFault in Hcall.
      rewrite act_lift_bind in Hcall. destruct (validateCandidatePilotRecoveryFaultInput f); [|done].
      rewrite require_store_bind in Hcall. by destruct (atomicFaultPauseStore r).
    - exists (Some i). split; [done|]. unfold pauseForCandidateIntentFault in Hcall.
      rewrite act_lift_bind in Hcall.
      destruct (validateCandidateIntentFaultInput sha256 i) as [f|] eqn:Hv; [|done].
      apply validate_intent_fault in Hv as ->.
      rewrite require_store_bind in Hcall. by destruct (atomicFaultPauseStore r). }
  destruct (fault_serialized_returns _ _ _ _ _ Hk Hi Hser) as (H1 & H2 & H3 & H4 & t & Ht & Hs & Hh).
  split_and!; [done..|by exists t|].
  apply not_true_iff_false. intros (Hopen & _)%accepts_iff.
  destruct Hopen as (_ & Hopen & _). rewrite Hst, Hs in Hopen.
  apply halted_true in Hh as [Hh|Hh]; rewrite Hh in Hopen; by destruct Hopen.
Qed.

(** ** The date of an intent fault *)

Lemma latest_epoch_bound label times l at_ :
  latest_epoch label times = Ret l -> at_ ∈ times ->
  exists t m, parsePositionGuardCandidateTimestamp at_ label = Ret t /\ l = Some m /\ (t <= m)%Z.
Proof.
  unfold latest_epoch. generalize (@None Z) as acc.
  induction times as [|x times IH]; intros acc Hf Hin; [by apply elem_of_nil in Hin|].
  cbn [foldM_outcome] in Hf. apply bind_Ret in Hf as (acc' & Hstep & Hf).
  apply bind_Ret in Hstep as (t & Ht & Hacc). injection Hacc as Hacc.
  assert (Hmono : forall ts a b m, foldM_outcome (fun latest timestamp =>
      epoch ← parsePositionGuardCandidateTimestamp timestamp label;
      Ret (match latest with
           | Some l => if (l <? epoch)%Z then Some epoch else Some l
           | None => Some epoch end)) (Some a) ts = Ret b -> (m <= a)%Z ->
      exists k, b = Some k /\ (m <= k)%Z).
  { clear. induction ts as [|y ts IH]; intros a b m; cbn [foldM_outcome].
    - intros [= <-] Hm. by exists a.
    - intros (acc & (e & _ & [= <-])%bind_Ret & Hf)%bind_Ret Hm.
      destruct (Z.ltb_spec a e); eapply IH; eauto; lia. }
  apply elem_of_cons in Hin as [->|Hin]; [|by eapply IH].
  assert (exists a, acc' = Some a /\ (t <= a)%Z) as (a & -> & Hle).
  { subst acc'. destruct acc as [z|]; [|by exists t].
    destruct (Z.ltb_spec z t); [exists t | exists z]; split; done || lia. }
  destruct (Hmono _ _ _ t Hf Hle) as (k & -> & Hk). by exists t, k.
Qed.

(** The latest epoch is that of one of the times. *)
Lemma latest_epoch_attained label times m :
  latest_epoch label times = Ret (Some m) ->
  exists at_, at_ ∈ times /\ parsePositionGuardCandidateTimestamp at_ label = Ret m.
Proof.
  unfold latest_epoch. intros Hf.
  assert (Hgen : forall acc, foldM_outcome (fun latest timestamp =>
      epoch ← parsePositionGuardCandidateTimestamp timestamp label;
      Ret (match latest with
           | Some l => if (l <? epoch)%Z then Some epoch else Some l
           | None => Some epoch end)) acc times = Ret (Some m) ->
    acc = Some m \/ exists at_, at_ ∈ times /\ parsePositionGuardCandidateTimestamp at_ label = Ret m).
  { clear Hf. induction times as [|x times IH]; intros acc; cbn [foldM_outcome].
    - intros [= ->]. by left.
    - intros (acc' & (t & Ht & Hacc)%bind_Ret & Hf)%bind_Ret. injection Hacc as <-.
      destruct (IH _ Hf) as [Hm|(at_ & Hin & Hp)]; [|right; exists at_; split; [by right|done]].
      assert (acc = Some m \/ t = m) as [-> | ->].
      { destruct acc as [z|]; [|right; congruence].
        destruct (z <? t)%Z; [right; congruence | left; congruence]. }
      + by left.
      + right. exists x. split; [left|done]. }
  destruct (Hgen None Hf) as [?|?]; [done|done].
Qed.

(** An intent fault is dated after everything persisted: the occurrence
    [resolveCandidateIntentFaultOccurrence] returns keeps the fault's identity,
    is strictly after every persisted time it was given, is not before the
    attempted time, and is the attempted time unless that was too early. *)
Theorem intent_fault_dated_after_chronology intent times fault attempted :
  resolveCandidateIntentFaultOccurrence sha256 intent times = Ret fault ->
  parsePositionGuardCandidateTimestamp (fault_occurredAt (intent_fault intent)) "attempted"
    = Ret attempted ->
  fault_faultId fault = fault_faultId (intent_fault intent) /\
  exists at_, (forall l, parsePositionGuardCandidateTimestamp (fault_occurredAt fault) l = Ret at_) /\
    (attempted <= at_)%Z /\
    (forall time, time ∈ times -> exists t,
       parsePositionGuardCandidateTimestamp time "persisted" = Ret t /\ (t < at_)%Z) /\
    (at_ = attempted \/ exists time t, time ∈ times /\
       parsePositionGuardCandidateTimestamp time "persisted" = Ret t /\ at_ = (t + 1)%Z).
Proof.
  unfold resolveCandidateIntentFaultOccurrence.
  intros (f & Hv & (a & Ha & (latest & Hl & (text & Hfmt & [= <-])%bind_Ret)%bind_Ret)%bind_Ret)%bind_Ret.
  intros Hatt. apply validate_intent_fault in Hv as ->.
  apply (timestamp_relabel _ _ "attempted") in Ha. rewrite Hatt in Ha. injection Ha as <-.
  split; [done|]. set (at_ := match latest with Some l => _ | None => _ end) in Hfmt.
  exists at_. split_and!.
  - intros l. by apply format_parse_back.
  - subst at_. destruct latest as [l|]; [|done]. destruct (Z.leb_spec attempted l); lia.
  - intros time Hin. destruct (latest_epoch_bound _ _ _ _ Hl Hin) as (t & m & Ht & -> & Hm).
    exists t. split; [by eapply timestamp_relabel|]. subst at_. destruct (Z.leb_spec attempted m); lia.
  - subst at_. destruct latest as [m|]; [|by left].
    destruct (Z.leb_spec attempted m); [right|by left].
    destruct (latest_epoch_attained _ _ _ Hl) as (time & Hin & Ht).
    exists time, m. split_and!; [done|by eapply timestamp_relabel|done].
Qed.

End Guarantees.
