(* ===== verification/PilotScenarios.v ===== *)
(** * PilotScenarios: a pilot's life on concrete inputs

    The theorems about the pilot repository applied to the in-memory operator
    store and a sample deployment, and two schedules on which the repository
    does not do what it means to.  SHA-256 is instantiated by a checksum that
    is as long and as deterministic, [localeCompare] by the order of bytes. *)

From Stdlib Require Import ZArith Lia Ascii.
From stdpp Require Import base option list strings gmap relations.
From S2P Require Import Prelude Num Types Text Timestamp NumText JsMap Json Risk.
From S2P Require Import CandidateState ExactState OperatorState PilotRecords PilotRepository.
From S2P Require Import PilotTheory PilotInvariants PilotGuarantees.

Local Open Scope string_scope.
Local Open Scope js_scope.
Local Open Scope bool_scope.

(** ** The sample world *)

Definition hex_digit (n : Z) : ascii :=
  ascii_of_N (Z.to_N (if (n <? 10)%Z then 48 + n else 87 + n)).

Fixpoint hex_text (width : nat) (n : Z) : string :=
  match width with
  | O => ""
  | S w => hex_text w (n / 16) ++ String (hex_digit (n mod 16)) ""
  end.

(** A text as a number in base 31, modulo a prime. *)
Fixpoint checksum (acc : Z) (s : string) : Z :=
  match s with
  | EmptyString => acc
  | String c s' => checksum ((acc * 31 + Z.of_N (N_of_ascii c) + 1) mod 65521) s'
  end.

Definition sample_sha256 (text : string) : string := hex_text 64 (checksum 0 text).

Abbreviation sample_repository := (InMemoryCandidatePilotRepository InMemoryOperatorStateStore).
Abbreviation sample_call := (pilot_call (T := InMemoryOperatorStateStore)).
Abbreviation sample_run :=
  (run_calls (T := InMemoryOperatorStateStore) sample_sha256 string_compare).

Definition sample_deployment : PositionGuardPilotDeploymentRecord := {|
  dep_id := "pilot-1"; dep_exchangeAccountId := "primary"; dep_pilotId := PILOT_ID;
  dep_market := "KRW-BTC"; dep_policyId := "COMBINED_CONSERVATIVE";
  dep_policyVersion := "PCS-2026-001.DEPLOYMENT_READINESS_V1"; dep_phase := Phase.PENDING_FLAT;
  dep_activationAt := None; dep_activationEpochNs := None;
  dep_createdAt := "2026-08-21T00:00:00Z"; dep_updatedAt := "2026-08-21T00:00:00Z";
|}.

Definition create_sample : sample_call :=
  CallInitialize {| create_deployment := sample_deployment;
                    create_initialState := createEmptyPositionGuardCandidateState |}.

Definition activation_ns : Z := 1787274000000000000.

Definition activate_sample : sample_call :=
  CallActivate {| activate_deploymentId := "pilot-1"; activate_expectedPhase := PENDING_FLAT;
                  activate_expectedUpdatedAt := "2026-08-21T00:00:00Z";
                  activate_activationAt := "2026-08-21T01:00:00Z";
                  activate_activationEpochNs := activation_ns |}.

Definition fill_input (version : Z) (e : PositionGuardCandidateExecutionEvidence)
    : AdvanceCandidatePilotStateInput :=
  {| adv_deploymentId := "pilot-1"; adv_expectedStateVersion := version; adv_evidence := e |}.

(** Operator commands, on the shared store. *)
Definition operator (c : operator_call) : sample_call := CallOperator (fun s => fst (perform c s)).

Definition store : option InMemoryOperatorStateStore := Some (new_operator_store booting_state).

Definition opening : list sample_call := [create_sample; activate_sample].

Definition enter : PositionGuardCandidateExecutionEvidence :=
  fill "o1" "2026-08-21T04:00:00Z" Exec.ENTER "0.04" "4000000" "2000" "0.04".

Definition deployed (r : sample_repository) : option PositionGuardPilotPhase :=
  dep_phase <$> map_get "pilot-1" (deployments r).

Lemma opening_is_active : deployed (sample_run opening (new_repository store)) = Some Phase.ACTIVE.
Proof. vm_compute. reflexivity. Qed.

(** ** The invariants on the sample *)

Definition accepted_calls : list sample_call :=
  opening ++ [CallAdvance (fill_input 0 enter)].

Lemma deployments_well_formed_witness :
  deployments_ok (sample_run accepted_calls (new_repository store)).
Proof. exact (deployments_well_formed sample_sha256 string_compare accepted_calls store). Defined.

Lemma phase_follows_graph_witness :
  deployed (sample_run [create_sample] (new_repository store)) = Some Phase.PENDING_FLAT /\
  exists d', map_get "pilot-1" (deployments
    (sample_run [activate_sample] (sample_run [create_sample] (new_repository store)))) = Some d' /\
    later_version sample_deployment d'.
Proof.
  split; [vm_compute; reflexivity|].
  apply (phase_follows_graph sample_sha256 string_compare [create_sample] [activate_sample] store
           "pilot-1" sample_deployment).
  - repeat constructor.
  - vm_compute. reflexivity.
Defined.

Lemma state_is_projection_of_evidence_witness :
  (stateVersion <$> exactStates (sample_run accepted_calls (new_repository store)) !! "pilot-1")
  = Some 1%Z /\
  states_sourced sample_sha256 (sample_run accepted_calls (new_repository store)).
Proof.
  split; [vm_compute; reflexivity|].
  exact (state_is_projection_of_evidence sample_sha256 string_compare accepted_calls store).
Defined.

Lemma audit_log_replays_witness :
  length (audit_of "pilot-1" (sample_run accepted_calls (new_repository store))) = 3%nat /\
  audit_replays (sample_run accepted_calls (new_repository store)).
Proof.
  split; [vm_compute; reflexivity|].
  apply (audit_log_replays sample_sha256 string_compare accepted_calls store). repeat constructor.
Defined.

Definition binding_with (hash : string) : CandidateExecutionBindingRecord := {|
  bind_id := "binding-1"; bind_deploymentId := "pilot-1"; bind_strategyDecisionId := "decision-1";
  bind_orderId := "order-1"; bind_exchangeAccountId := "primary";
  bind_activationAt := "2026-08-21T01:00:00Z"; bind_activationEpochNs := activation_ns;
  bind_market := "KRW-BTC"; bind_strategyKey := "position_guard.paper_core.v1";
  bind_policyId := "COMBINED_CONSERVATIVE";
  bind_policyVersion := "PCS-2026-001.DEPLOYMENT_READINESS_V1"; bind_executionMode := Mode.DRY_RUN;
  bind_ordType := OrdType.price; bind_action := Exec.ENTER; bind_side := Side.bid;
  bind_intendedQuantity := None; bind_intendedNotionalKrw := Some "4000000";
  bind_boundPrice := Some "4000000"; bind_boundVolume := None; bind_boundTimeInForce := None;
  bind_boundSmpType := None; bind_materialVersion := "BINDING_V2"; bind_orderMaterialHash := hash;
  bind_createdAt := "2026-08-21T03:59:00Z";
|}.

(** The hash does not cover itself. *)
Definition sample_binding : CandidateExecutionBindingRecord :=
  binding_with (candidateExecutionBindingMaterialHash sample_sha256 (binding_with "")).

Lemma bindings_reference_activation_witness :
  let r := sample_run (opening ++ [CallBind sample_binding]) (new_repository store) in
  map_get "order-1" (bindingsByOrderId r) = Some sample_binding /\ bindings_ok sample_sha256 r.
Proof.
  split; [vm_compute; reflexivity|].
  apply (bindings_reference_activation sample_sha256 string_compare
           (opening ++ [CallBind sample_binding]) store). repeat constructor.
Defined.

(** ** A rollback *)

(** Two hours after the activation. *)
Definition pause_trading : sample_call := operator (CallPause None 1787281200000).

Definition before_rollback : sample_repository :=
  sample_run (opening ++ [pause_trading]) (new_repository store).

Definition active_deployment : PositionGuardPilotDeploymentRecord :=
  default sample_deployment (map_get "pilot-1" (deployments before_rollback)).

Definition paused_state : ExecutionStateRecord :=
  from_option state booting_state (atomicFaultPauseStore before_rollback).

Definition sample_rollback : CandidatePilotRollbackInput :=
  rollback_request active_deployment createExactEmptyCandidateState paused_state
    "2026-08-21T03:00:01Z" 1787281201000000000.

Lemma disabled_only_when_flat_and_halted_witness :
  exists r' d',
    completeRollback sample_rollback before_rollback = (r', Ret (Some d')) /\
    map_get "pilot-1" (deployments r') = Some d' /\ dep_phase d' = Phase.DISABLED.
Proof.
  assert (Hk : keyed before_rollback)
    by exact (ok_keyed _ (runs_deployments_ok sample_sha256 string_compare _ store)).
  set (next := with_phase active_deployment Phase.DISABLED "2026-08-21T03:00:01Z").
  exists (fst (completeRollback sample_rollback before_rollback)), next.
  assert (Hc : completeRollback sample_rollback before_rollback
    = (fst (completeRollback sample_rollback before_rollback), Ret (Some next)))
    by (vm_compute; reflexivity).
  destruct (disabled_only_when_flat_and_halted sample_rollback before_rollback _ next Hk Hc)
    as (t & d & s & H).
  split; [exact Hc|]. exact (proj2 (proj2 (proj2 (proj2 (proj2 (proj2 (proj2 (proj2 (proj2 (proj2 H)))))))))).
Defined.

Lemma rollback_can_complete_witness :
  exists input r' d',
    completeRollback input before_rollback = (r', Ret (Some d')) /\
    dep_phase d' = Phase.DISABLED /\ map_get "pilot-1" (deployments r') = Some d'.
Proof.
  apply (rollback_can_complete sample_sha256 string_compare (opening ++ [pause_trading]) store
           "pilot-1" active_deployment createExactEmptyCandidateState
           (default (new_operator_store booting_state) (atomicFaultPauseStore before_rollback))
           activation_ns).
  - vm_compute. reflexivity.
  - vm_compute. reflexivity.
  - reflexivity.
  - reflexivity.
  - vm_compute. reflexivity.
  - constructor; [vm_compute; reflexivity..|]. exists 1787281200000000000%Z. vm_compute. reflexivity.
  - reflexivity || discriminate.
  - vm_compute. reflexivity.
  - discriminate.
  - reflexivity.
  - discriminate.
Defined.

(** ** Evidence *)

Lemma evidence_applied_once_witness :
  let r := sample_run opening (new_repository store) in
  let r' := fst (advanceStateWithEvidence sample_sha256 (fill_input 0 enter) r) in
  fst (advanceStateWithEvidence sample_sha256 (fill_input 5 enter) r') = r'.
Proof.
  cbv zeta. set (r := sample_run opening (new_repository store)).
  destruct (advanceStateWithEvidence sample_sha256 (fill_input 0 enter) r) as [r' out] eqn:H.
  assert (Hr : returns out = true).
  { change out with (snd (r', out)). rewrite <- H. vm_compute. reflexivity. }
  destruct out as [result|m]; [|discriminate Hr].
  pose proof (evidence_applied_once sample_sha256 string_compare opening [] store
                (fill_input 0 enter) result 5 r') as Honce.
  cbv beta zeta in Honce. destruct (Honce H) as [Hsame _]. exact Hsame.
Defined.

(** ** Faults *)

Definition sample_fault : PauseCandidatePilotForRecoveryFaultInput := {|
  fault_deploymentId := "pilot-1"; fault_exchangeAccountId := "primary"; fault_faultId := "fault-1";
  fault_reasonCode := "REPLAY_MISMATCH"; fault_provenanceJson := "{}";
  fault_occurredAt := "2026-08-21T05:00:00Z";
|}.

Lemma fault_pause_stops_trading_witness :
  exists r' result,
    pauseForRecoveryFault sample_sha256 sample_fault (sample_run opening (new_repository store))
      = (r', Ret result) /\
    accepted (evaluateRiskGuards (order_under (paused_executionState result))) = false.
Proof.
  destruct (pauseForRecoveryFault sample_sha256 sample_fault
              (sample_run opening (new_repository store))) as [r' out] eqn:H.
  assert (Hr : returns out = true).
  { change out with (snd (r', out)). rewrite <- H. vm_compute. reflexivity. }
  destruct out as [result|m]; [|discriminate Hr].
  exists r', result. split; [reflexivity|].
  pose proof (fault_pause_stops_trading sample_sha256 string_compare opening store (inl sample_fault)
    r' result sample_limits SendPath.DRY_RUN_ADAPTER
    (order_under (paused_executionState result))) as Hstops.
  cbv beta zeta iota in Hstops.
  destruct (Hstops H eq_refl eq_refl) as (_ & _ & _ & _ & _ & Hrejected). exact Hrejected.
Defined.

Definition sample_provenance : string :=
  stringify (JObj
    [("schemaVersion", JStr "CANDIDATE_INTENT_FAULT_V1"); ("stage", JStr "PERSISTENCE");
     ("deploymentId", JStr "pilot-1"); ("exchangeAccountId", JStr "primary");
     ("strategyDecisionId", JStr "decision-1"); ("orderId", JStr "order-1");
     ("bindingId", JStr "binding-1"); ("market", JStr "KRW-BTC"); ("action", JStr "ENTER");
     ("side", JStr "bid"); ("ordType", JStr "price"); ("price", JStr "4000000");
     ("volume", JNull); ("expectedPhase", JStr "ACTIVE");
     ("expectedDeploymentUpdatedAt", JStr "2026-08-21T01:00:00Z");
     ("expectedStateVersion", JInt 0)]).

Definition sample_intent_fault : PauseCandidateIntentFaultInput := {|
  intent_fault := {|
    fault_deploymentId := "pilot-1"; fault_exchangeAccountId := "primary";
    fault_faultId := "candidate-intent:" ++ sample_sha256 sample_provenance;
    fault_reasonCode := "ACTIVATION_CAS_CONFLICT"; fault_provenanceJson := sample_provenance;
    fault_occurredAt := "2026-08-21T00:30:00Z" |};
  intent_stage := FaultStage.PERSISTENCE; intent_strategyDecisionId := "decision-1";
  intent_orderId := "order-1"; intent_bindingId := "binding-1";
|}.

(** An attempt half an hour before the activation is dated one nanosecond after it. *)
Lemma intent_fault_dated_after_chronology_witness :
  exists fault at_,
    resolveCandidateIntentFaultOccurrence sample_sha256 sample_intent_fault ["2026-08-21T01:00:00Z"]
      = Ret fault /\
    fault_occurredAt fault = "2026-08-21T01:00:00.000000001Z" /\
    (1787272200000000000 <= at_)%Z.
Proof.
  assert (Hat : match resolveCandidateIntentFaultOccurrence sample_sha256 sample_intent_fault
                        ["2026-08-21T01:00:00Z"] with
                | Ret fault => Some (fault_occurredAt fault) | Throw _ => None end
                = Some "2026-08-21T01:00:00.000000001Z") by (vm_compute; reflexivity).
  assert (Ha : parsePositionGuardCandidateTimestamp
      (fault_occurredAt (intent_fault sample_intent_fault)) "attempted" = Ret 1787272200000000000%Z)
    by (vm_compute; reflexivity).
  destruct (resolveCandidateIntentFaultOccurrence sample_sha256 sample_intent_fault
              ["2026-08-21T01:00:00Z"]) as [fault|m] eqn:H; [|discriminate Hat].
  destruct (intent_fault_dated_after_chronology sample_sha256 sample_intent_fault _ fault _ H Ha)
    as (_ & at_ & _ & Hle & _).
  exists fault, at_. split; [reflexivity|]. split; [|exact Hle]. injection Hat as Hat. exact Hat.
Defined.

(** ** A fault pause interleaved with a rollback

    The queues of the repository order fault pauses among themselves and
    rollbacks among themselves, not one kind with the other.  A fault pause
    that read the deployment before a rollback disabled it and writes after it
    undoes the rollback: the final phase DISABLED is left, and the audit log no
    longer replays. *)

Definition rollback_during_fault : action sample_repository
    (option PositionGuardPilotDeploymentRecord * PauseCandidatePilotForRecoveryFaultResult) :=
  snap ← fault_begin sample_fault;
  disabled ← completeRollback sample_rollback;
  executionState ← fault_read_state;
  result ← fault_finish sample_sha256 sample_fault None snap executionState;
  act_ret (disabled, result).

Lemma fault_pause_undoes_rollback :
  let '(r', out) := rollback_during_fault before_rollback in
  (match out with
   | Ret (Some disabled, result) =>
       Some (dep_phase disabled, dep_phase (paused_deployment result))
   | _ => None end) = Some (Phase.DISABLED, Phase.PAUSED_FAULT) /\
  deployed r' = Some Phase.PAUSED_FAULT /\
  edge Phase.DISABLED Phase.PAUSED_FAULT = false /\
  replay (audit_of "pilot-1" r') = None.
Proof. vm_compute. auto. Qed.

(** The same as a run whose calls interrupt the fault pause: what the
    invariants of all runs say still holds of it. *)
Definition interrupted_calls : list sample_call :=
  [CallFaultBegin (inl sample_fault); CallCompleteRollback sample_rollback; CallFaultRead;
   CallFaultFinish].

Example interrupted_run_loses_the_rollback :
  let r := sample_run interrupted_calls before_rollback in
  deployed r = Some Phase.PAUSED_FAULT /\ replay (audit_of "pilot-1" r) = None /\
  deployed (sample_run (firstn 2 interrupted_calls) before_rollback) = Some Phase.DISABLED.
Proof. vm_compute. auto. Qed.

(** ** An advance that is stored and then reported as failed

    A reduction with a profit below one won advances the exact state, the
    evidence and the audit log, and only then [toPositionGuardCandidateRoutingState]
    refuses the profit it has just printed. *)

Definition small_profit : PositionGuardCandidateExecutionEvidence :=
  fill "o2" "2026-08-21T05:00:00Z" Exec.REDUCE "0.01" "1001000.5" "500" "0.03".

Lemma small_profit_is_stored_and_refused :
  let r := sample_run accepted_calls (new_repository store) in
  let '(r', out) := advanceStateWithEvidence sample_sha256 (fill_input 1 small_profit) r in
  out = Throw "candidate exact realized pnl must be a canonical signed decimal string." /\
  stateVersion <$> exactStates r' !! "pilot-1" = Some 2%Z /\
  length (evidence_of "pilot-1" r') = 2%nat /\
  length (audit_of "pilot-1" r') = 4%nat.
Proof. vm_compute. auto. Qed.
