(* ===== verification/OrderRecords.v ===== *)
(** * OrderRecords: orders, their evidence, and what may be persisted

    The records of [domain/types.ts] that make up an order's life, the
    functions of [modules/db/repositories/atomic-lifecycle-validation.ts] that
    both execution repositories call before they write, and those of
    [modules/db/repositories/candidate-bound-order-validation.ts], which tie an
    order of the candidate to its decision, binding and deployment.

    [recordsEqual] compares the own properties of two records one by one; all
    of them are texts, null or booleans, so it is equality of records. *)

From Stdlib Require Import ZArith Lia Ascii.
From stdpp Require Import base option list strings.
From S2P Require Import Prelude Num Types Text Timestamp NumText CandidateState Decimals.
From S2P Require Import ExactState SubmissionBlocking PilotRecords.

Local Open Scope string_scope.
Local Open Scope js_scope.
Local Open Scope bool_scope.

(** ** Data *)

Module Tif.
Inductive TimeInForce : Set := ioc | fok | post_only.
Definition to_string (x : TimeInForce) : string :=
  match x with ioc => "ioc" | fok => "fok" | post_only => "post_only" end.
#[export] Instance TimeInForce_eq_dec : EqDecision TimeInForce.
Proof. solve_decision. Defined.
End Tif.
Export (hints) Tif.

Module Smp.
Inductive UpbitSelfMatchPrevention : Set := cancel_maker | cancel_taker | reduce.
Definition to_string (x : UpbitSelfMatchPrevention) : string :=
  match x with
  | cancel_maker => "cancel_maker" | cancel_taker => "cancel_taker" | reduce => "reduce"
  end.
#[export] Instance UpbitSelfMatchPrevention_eq_dec : EqDecision UpbitSelfMatchPrevention.
Proof. solve_decision. Defined.
End Smp.
Export (hints) Smp.

Module Origin.
Inductive OrderOrigin : Set := STRATEGY | OPERATOR | RECOVERY.
#[export] Instance OrderOrigin_eq_dec : EqDecision OrderOrigin.
Proof. solve_decision. Defined.
End Origin.
Export (hints) Origin.

Module Decided.
Inductive StrategyDecisionStatus : Set :=
| READY | PENDING_CONFIRMATION | BLOCKED_BY_RISK | NO_ACTION | DATA_STALE.
#[export] Instance StrategyDecisionStatus_eq_dec : EqDecision StrategyDecisionStatus.
Proof. solve_decision. Defined.
End Decided.
Export (hints) Decided.

Module FeeProvenance.
Inductive FillFeeProvenance : Set :=
| EXCHANGE_FILL_CONFIRMED | ORDER_LEVEL_UNALLOCATED | ORDER_LEVEL_ALLOCATED | MISSING
| LEGACY_UNVERIFIED | SIMULATED.
#[export] Instance FillFeeProvenance_eq_dec : EqDecision FillFeeProvenance.
Proof. solve_decision. Defined.
End FeeProvenance.
Export (hints) FeeProvenance.

Module TimeProvenance.
Inductive FillExecutionTimestampProvenance : Set :=
| EXCHANGE_FILL_CONFIRMED | RECONCILIATION_OBSERVED_AT_FALLBACK | ORDER_UPDATED_AT_FALLBACK
| LOCAL_SYNTHETIC | LEGACY_UNVERIFIED.
#[export] Instance FillExecutionTimestampProvenance_eq_dec :
  EqDecision FillExecutionTimestampProvenance.
Proof. solve_decision. Defined.
End TimeProvenance.
Export (hints) TimeProvenance.

Record OrderRecord := {
  ord_id : string;
  ord_strategyDecisionId : option string;
  ord_exchangeAccountId : string;
  ord_market : SupportedMarket;
  ord_side : OrderSide;
  ord_ordType : OrderType;
  ord_volume : option string;
  ord_price : option string;
  ord_timeInForce : option Tif.TimeInForce;
  ord_smpType : option Smp.UpbitSelfMatchPrevention;
  ord_identifier : string;
  ord_idempotencyKey : string;
  ord_origin : Origin.OrderOrigin;
  ord_requestedAt : string;
  ord_upbitUuid : option string;
  ord_status : OrderLifecycleStatus;
  ord_executionMode : ExecutionMode;
  ord_exchangeResponseJson : option string;
  ord_failureCode : option string;
  ord_failureMessage : option string;
  ord_createdAt : string;
  ord_updatedAt : string;
}.

#[export] Instance OrderRecord_eq_dec : EqDecision OrderRecord.
Proof. solve_decision. Defined.

Record OrderEventRecord := {
  oe_id : string;
  oe_orderId : string;
  oe_eventType : string;
  oe_eventSource : EventSource.OrderEventSource;
  oe_payloadJson : string;
  oe_createdAt : string;
}.

#[export] Instance OrderEventRecord_eq_dec : EqDecision OrderEventRecord.
Proof. solve_decision. Defined.

(** The three optional properties: absent is [None], which
    [normalizeFillFeeProvenance] replaces.  A null epoch and an absent one are
    treated alike everywhere. *)
Record FillRecord := {
  fill_id : string;
  fill_orderId : string;
  fill_exchangeFillId : string;
  fill_market : SupportedMarket;
  fill_side : OrderSide;
  fill_price : string;
  fill_volume : string;
  fill_feeCurrency : option string;
  fill_feeAmount : option string;
  fill_feeProvenance : option FeeProvenance.FillFeeProvenance;
  fill_executionTimestampProvenance : option TimeProvenance.FillExecutionTimestampProvenance;
  fill_executionEpochNs : option string;
  fill_filledAt : string;
  fill_rawPayloadJson : string;
}.

#[export] Instance FillRecord_eq_dec : EqDecision FillRecord.
Proof. solve_decision. Defined.

Record RiskEventRecord := {
  re_id : string;
  re_exchangeAccountId : string;
  re_strategyDecisionId : option string;
  re_orderId : option string;
  re_level : RiskEventLevel;
  re_ruleCode : RiskRuleCode;
  re_message : string;
  re_payloadJson : string;
  re_createdAt : string;
}.

#[export] Instance RiskEventRecord_eq_dec : EqDecision RiskEventRecord.
Proof. solve_decision. Defined.

Record StrategyDecisionRecord := {
  sd_id : string;
  sd_exchangeAccountId : string;
  sd_strategyKey : string;
  sd_market : SupportedMarket;
  sd_action : StrategyDecisionAction;
  sd_status : Decided.StrategyDecisionStatus;
  sd_decisionBasisJson : string;
  sd_intendedNotionalKrw : option string;
  sd_intendedQuantity : option string;
  sd_referencePrice : option string;
  sd_createdAt : string;
}.

#[export] Instance StrategyDecisionRecord_eq_dec : EqDecision StrategyDecisionRecord.
Proof. solve_decision. Defined.

(** ** Inputs of the repository, [modules/db/interfaces.ts] *)

Record PersistOrderIntentInput := {
  intent_order : OrderRecord;
  intent_event : OrderEventRecord;
}.

(** ["ACTIVE" | "DRAINING"] *)
Inductive BoundPhase : Set := BOUND_ACTIVE | BOUND_DRAINING.
Definition bound_phase (p : BoundPhase) : PositionGuardPilotPhase :=
  match p with BOUND_ACTIVE => Phase.ACTIVE | BOUND_DRAINING => Phase.DRAINING end.
#[export] Instance BoundPhase_eq_dec : EqDecision BoundPhase.
Proof. solve_decision. Defined.

Record PersistCandidateBoundOrderIntentRequest := {
  req_order : OrderRecord;
  req_event : OrderEventRecord;
  req_binding : CandidateExecutionBindingRecord;
  req_expectedPhase : BoundPhase;
  req_expectedDeploymentUpdatedAt : string;
  req_expectedStateVersion : Z;
}.

(** The request with what the repositories persisted. *)
Record PersistCandidateBoundOrderIntentInput := {
  agg_request : PersistCandidateBoundOrderIntentRequest;
  agg_decision : StrategyDecisionRecord;
  agg_deployment : PositionGuardPilotDeploymentRecord;
  agg_exactStateVersion : Z;
}.

Record PersistExchangeSubmissionInput := {
  sub_order : OrderRecord;
  sub_event : OrderEventRecord;
  sub_fills : list FillRecord;
  sub_terminalEvent : option OrderEventRecord;
}.

Record PersistReconciledExchangeSnapshotInput := {
  snap_expectedOrder : OrderRecord;
  snap_order : OrderRecord;
  snap_event : option OrderEventRecord;
  snap_fills : list FillRecord;
}.

Record PersistReconciliationRecoveryInput := {
  rec_expectedOrder : OrderRecord;
  rec_order : OrderRecord;
  rec_event : OrderEventRecord;
  rec_riskEvent : RiskEventRecord;
}.

Record PersistUncertainSubmissionInput := {
  unc_order : OrderRecord;
  unc_event : OrderEventRecord;
  unc_riskEvent : RiskEventRecord;
}.

(** ** Orders and events *)

Definition validateOrderEvent (order : OrderRecord) (event : OrderEventRecord) (type : string)
    (source : EventSource.OrderEventSource) : outcome unit :=
  throw_if ((oe_orderId event !== ord_id order) || (oe_eventType event !== type)
            || (oe_eventSource event !== source))
    ("Order event " ++ oe_id event ++ " is not canonical for order " ++ ord_id order ++ ".").

Definition eventSourceForExecutionMode (mode : ExecutionMode) : EventSource.OrderEventSource :=
  if mode === Mode.DRY_RUN then EventSource.LOCAL else EventSource.EXCHANGE.

Definition validateOrderIntentInput (input : PersistOrderIntentInput) : outcome unit :=
  _ ← throw_if (ord_status (intent_order input) !== OrderStatus.PERSISTED)
        "Order intent must have PERSISTED status.";
  validateOrderEvent (intent_order input) (intent_event input) "ORDER_PERSISTED" EventSource.LOCAL.

(** [IMMUTABLE_ORDER_IDENTITY_FIELDS], with whether each differs. *)
Definition changed_identity_fields (existing next : OrderRecord) : list (string * bool) :=
  [("strategyDecisionId", ord_strategyDecisionId existing !== ord_strategyDecisionId next);
   ("exchangeAccountId", ord_exchangeAccountId existing !== ord_exchangeAccountId next);
   ("market", ord_market existing !== ord_market next);
   ("side", ord_side existing !== ord_side next);
   ("ordType", ord_ordType existing !== ord_ordType next);
   ("volume", ord_volume existing !== ord_volume next);
   ("price", ord_price existing !== ord_price next);
   ("timeInForce", ord_timeInForce existing !== ord_timeInForce next);
   ("smpType", ord_smpType existing !== ord_smpType next);
   ("identifier", ord_identifier existing !== ord_identifier next);
   ("idempotencyKey", ord_idempotencyKey existing !== ord_idempotencyKey next);
   ("origin", ord_origin existing !== ord_origin next);
   ("requestedAt", ord_requestedAt existing !== ord_requestedAt next);
   ("executionMode", ord_executionMode existing !== ord_executionMode next);
   ("createdAt", ord_createdAt existing !== ord_createdAt next)].

Definition validateOrderIdentity (existing next : OrderRecord) : outcome unit :=
  _ ← throw_if (ord_id existing !== ord_id next) "Order identity cannot change id.";
  foldM_outcome
    (fun _ '(field, changed) =>
       throw_if changed ("Order " ++ ord_id next ++ " cannot change immutable " ++ field ++ "."))
    tt (changed_identity_fields existing next).

Definition validateNewOrderUniqueness (existingOrders : list OrderRecord) (next : OrderRecord)
    : outcome unit :=
  foldM_outcome
    (fun _ existing =>
       _ ← throw_if (ord_id existing === ord_id next)
             ("Conflicting duplicate order id " ++ ord_id next ++ ".");
       _ ← throw_if (ord_identifier existing === ord_identifier next)
             ("Conflicting duplicate order identifier " ++ ord_identifier next ++ ".");
       throw_if ((ord_exchangeAccountId existing === ord_exchangeAccountId next)
                 && (ord_idempotencyKey existing === ord_idempotencyKey next))
         ("Conflicting duplicate order idempotency key " ++ ord_idempotencyKey next ++ "."))
    tt existingOrders.

Definition assertSameAccount (existing next : OrderRecord) : outcome unit :=
  throw_if (ord_exchangeAccountId existing !== ord_exchangeAccountId next)
    ("Order " ++ ord_id next ++ " cannot change exchange account.").

(** [assertNoConflictingRecord], with the identifier of the next record. *)
Definition assertNoConflictingRecord {A} `{EqDecision A} (existing : option A) (next : A)
    (label id : string) : outcome unit :=
  throw_if (match existing with Some e => e !== next | None => false end)
    ("Conflicting duplicate " ++ label ++ " " ++ id ++ ".").

Inductive Completion : Set := APPLY | RETRY.

(** ** Fills *)

Definition normalizeFillFeeProvenance (record : FillRecord) : FillRecord := {|
  fill_id := fill_id record;
  fill_orderId := fill_orderId record;
  fill_exchangeFillId := fill_exchangeFillId record;
  fill_market := fill_market record;
  fill_side := fill_side record;
  fill_price := fill_price record;
  fill_volume := fill_volume record;
  fill_feeCurrency := fill_feeCurrency record;
  fill_feeAmount := fill_feeAmount record;
  fill_feeProvenance :=
    Some (default FeeProvenance.LEGACY_UNVERIFIED (fill_feeProvenance record));
  fill_executionTimestampProvenance :=
    Some (default TimeProvenance.LEGACY_UNVERIFIED (fill_executionTimestampProvenance record));
  fill_executionEpochNs := fill_executionEpochNs record;
  fill_filledAt := fill_filledAt record;
  fill_rawPayloadJson := fill_rawPayloadJson record;
|}.

(** The separator of composed identities. *)
Definition NUL : string := String "000" "".

Definition fillIdentity (fill : FillRecord) : string :=
  fill_id fill ++ NUL ++ fill_orderId fill ++ NUL ++ fill_exchangeFillId fill.

Definition fillExchangeIdentity (fill : FillRecord) : string :=
  fill_orderId fill ++ NUL ++ fill_exchangeFillId fill.

(** The loop over the fills with its two sets. *)
Fixpoint validateFills_from (order : OrderRecord) (ids exchangeIdentities : list string)
    (fills : list FillRecord) : outcome unit :=
  match fills with
  | [] => Ret tt
  | fill :: rest =>
      let exchangeIdentity := fillExchangeIdentity fill in
      _ ← throw_if ((fill_orderId fill !== ord_id order) || (fill_market fill !== ord_market order)
                    || (fill_side fill !== ord_side order) || includes ids (fill_id fill)
                    || includes exchangeIdentities exchangeIdentity)
            ("Fill " ++ fill_id fill ++ " is invalid for order " ++ ord_id order ++ ".");
      validateFills_from order (fill_id fill :: ids) (exchangeIdentity :: exchangeIdentities) rest
  end.

Definition validateFills (order : OrderRecord) (fills : list FillRecord) : outcome unit :=
  validateFills_from order [] [] fills.

(** [^\d+(?:\.\d+)?$] *)
Definition plain_decimal (s : string) : bool :=
  match span_digits s with
  | ("", _) => false
  | (_, "") => true
  | (_, String c rest) => (c =? ".")%char && negb (rest === "") && all_digits rest
  end.

Definition validateExactDecimal (value label : string) (allowZero : bool) : outcome unit :=
  _ ← throw_if (negb (plain_decimal value))
        (label ++ " must be a plain non-negative decimal string.");
  throw_if (negb allowZero && string_forallb (fun c => negb (is_digit c) || (c =? "0")%char) value)
    (label ++ " must be greater than zero.").

Definition validateFillForOrder (order : OrderRecord) (fill : FillRecord) : outcome unit :=
  _ ← throw_if ((fill_orderId fill !== ord_id order) || (fill_market fill !== ord_market order)
                || (fill_side fill !== ord_side order))
        ("Fill " ++ fill_id fill ++ " identity does not match order " ++ ord_id order ++ ".");
  _ ← validateExactDecimal (fill_price fill) "fill price" false;
  _ ← validateExactDecimal (fill_volume fill) "fill volume" false;
  _ ← match fill_feeAmount fill with
      | Some fee => validateExactDecimal fee "fill fee amount" true
      | None => Ret tt
      end;
  throw_if match fill_executionEpochNs fill with
           | Some epoch => (epoch === "") || negb (all_digits epoch)
           | None => false
           end
    ("Fill " ++ fill_id fill ++ " executionEpochNs must be an exact non-negative integer string.").

Inductive FillReplay : Set := INSERT | PRESERVE.
#[export] Instance FillReplay_eq_dec : EqDecision FillReplay.
Proof. solve_decision. Defined.

(** A fill under another identifier. *)
Definition with_fill_id (id : string) (f : FillRecord) : FillRecord := {|
  fill_id := id;
  fill_orderId := fill_orderId f;
  fill_exchangeFillId := fill_exchangeFillId f;
  fill_market := fill_market f;
  fill_side := fill_side f;
  fill_price := fill_price f;
  fill_volume := fill_volume f;
  fill_feeCurrency := fill_feeCurrency f;
  fill_feeAmount := fill_feeAmount f;
  fill_feeProvenance := fill_feeProvenance f;
  fill_executionTimestampProvenance := fill_executionTimestampProvenance f;
  fill_executionEpochNs := fill_executionEpochNs f;
  fill_filledAt := fill_filledAt f;
  fill_rawPayloadJson := fill_rawPayloadJson f;
|}.

(** The rest of two fills is equal when they are equal under one identifier. *)
Definition resolveImmutableFillReplay (existing : option FillRecord) (next : FillRecord)
    : outcome FillReplay :=
  match existing with
  | None => Ret INSERT
  | Some existing =>
      _ ← throw_if ((fillExchangeIdentity existing !== fillExchangeIdentity next)
                    || ((fill_id existing === fill_id next)
                        && (fill_orderId existing !== fill_orderId next)))
            ("Conflicting fill identity " ++ fill_id next ++ ".");
      _ ← throw_if (with_fill_id "" existing !== with_fill_id "" next)
            ("Conflicting duplicate fill " ++ fill_exchangeFillId next ++ ".");
      Ret PRESERVE
  end.

Definition same_fill (fill candidate : FillRecord) : bool :=
  (fill_id candidate === fill_id fill)
  || ((fill_orderId candidate === fill_orderId fill)
      && (fill_exchangeFillId candidate === fill_exchangeFillId fill)).

Definition findStoredFill (fills : list FillRecord) (fill : FillRecord)
    : outcome (option FillRecord) :=
  match List.filter (same_fill fill) fills with
  | [] => Ret None
  | [stored] => Ret (Some stored)
  | _ => Throw ("Conflicting fill identity " ++ fill_id fill ++ ".")
  end.

(** [new Map(records.map(...)).get(key)]: the last record of a key. *)
Definition last_by {A} (identity : A -> string) (key : string) (records : list A) : option A :=
  last (List.filter (fun r => identity r === key) records).

Definition recordsEqualSet (left right : list FillRecord) : bool :=
  (length left =? length right)%nat
  && bool_decide (NoDup (fillIdentity <$> right))
  && forallb (fun record =>
       match last_by fillIdentity (fillIdentity record) right with
       | Some matching => record === matching
       | None => false
       end) left.

(** ** Submissions *)

Definition validateExchangeSubmissionInput (input : PersistExchangeSubmissionInput) : outcome unit :=
  let order := sub_order input in
  let event := sub_event input in
  let fills := sub_fills input in
  let expectedEventSource := eventSourceForExecutionMode (ord_executionMode order) in
  _ ← throw_if match sub_terminalEvent input with
               | Some terminal => oe_id terminal === oe_id event
               | None => false
               end
        "Submission and terminal order events must use distinct ids.";
  _ ← match ord_status order with
      | OrderStatus.OPEN =>
          throw_if (negb (length fills =? 0)%nat) "OPEN exchange submissions must not contain fills."
      | OrderStatus.PARTIALLY_FILLED | OrderStatus.FILLED =>
          throw_if (length fills =? 0)%nat
            (OrderStatus.to_string (ord_status order)
             ++ " exchange submissions require at least one fill.")
      | OrderStatus.REJECTED =>
          throw_if (negb (length fills =? 0)%nat)
            "REJECTED exchange submissions must not contain fills."
      | status => Throw ("Exchange submission has unsupported status "
                         ++ OrderStatus.to_string status ++ ".")
      end;
  _ ← validateOrderEvent order event
        (if ord_status order === OrderStatus.REJECTED then "ORDER_REJECTED" else "ORDER_SUBMITTED")
        expectedEventSource;
  _ ← match sub_terminalEvent input with
      | Some terminal =>
          _ ← throw_if (ord_status order !== OrderStatus.FILLED)
                "Terminal submission events require a FILLED order.";
          validateOrderEvent order terminal "ORDER_FILLED" expectedEventSource
      | None =>
          throw_if (ord_status order === OrderStatus.FILLED)
            "FILLED exchange submissions require terminal order evidence."
      end;
  validateFills order fills.

Definition before_submission (status : OrderLifecycleStatus) : bool :=
  (status === OrderStatus.PERSISTED) || (status === OrderStatus.SUBMITTING).

Definition has_type (type : string) (event : OrderEventRecord) : bool := oe_eventType event === type.

Definition is_submission_event (event : OrderEventRecord) : bool :=
  has_type "ORDER_SUBMITTED" event || has_type "ORDER_REJECTED" event.

(** Exactly the one expected record. *)
Definition only {A} `{EqDecision A} (records : list A) (expected : A) : bool :=
  match records with [record] => record === expected | _ => false end.

Definition validateExchangeSubmissionCompletion (currentOrder nextOrder : OrderRecord)
    (input : PersistExchangeSubmissionInput) (existingEvents : list OrderEventRecord)
    (existingFills : list FillRecord) : outcome Completion :=
  _ ← validateOrderIdentity currentOrder nextOrder;
  let submissionEvents := List.filter is_submission_event existingEvents in
  let terminalEvents := List.filter (has_type "ORDER_FILLED") existingEvents in
  if before_submission (ord_status currentOrder) then
    if (length submissionEvents =? 0)%nat && (length terminalEvents =? 0)%nat
       && (length existingFills =? 0)%nat
    then Ret APPLY
    else Throw ("Corrupt partial exchange submission children for order " ++ ord_id nextOrder ++ ".")
  else if (currentOrder === nextOrder) && only submissionEvents (sub_event input)
          && match sub_terminalEvent input with
             | None => (length terminalEvents =? 0)%nat
             | Some terminal => only terminalEvents terminal
             end
          && recordsEqualSet existingFills (sub_fills input)
  then Ret RETRY
  else Throw ("Conflicting exchange submission for order " ++ ord_id nextOrder ++ ".").

(** ** Uncertain submissions and recoveries *)

(** The risk event is one of the order. *)
Definition links_order (riskEvent : RiskEventRecord) (order : OrderRecord) : bool :=
  (re_orderId riskEvent === Some (ord_id order))
  && (re_exchangeAccountId riskEvent === ord_exchangeAccountId order)
  && (re_strategyDecisionId riskEvent === ord_strategyDecisionId order).

Definition validateUncertainSubmissionInput (input : PersistUncertainSubmissionInput)
    : outcome unit :=
  let order := unc_order input in
  let riskEvent := unc_riskEvent input in
  _ ← throw_if (ord_status order !== OrderStatus.RECONCILIATION_REQUIRED)
        "Uncertain submission must have RECONCILIATION_REQUIRED status.";
  _ ← throw_if (ord_failureCode order !== Some "RECONCILIATION_REQUIRED")
        "Uncertain submission must use RECONCILIATION_REQUIRED failureCode.";
  _ ← validateOrderEvent order (unc_event input) "RECONCILIATION_RECOVERY_REQUIRED"
        (eventSourceForExecutionMode (ord_executionMode order));
  throw_if ((re_level riskEvent !== RiskLevelEvent.BLOCK)
            || (re_ruleCode riskEvent !== RiskRule.POSITION_GUARD_PILOT_UNCERTAIN_ORDER)
            || negb (links_order riskEvent order))
    "Uncertain submission risk event must exactly link the blocked order.".

Definition has_rule (code : RiskRuleCode) (event : RiskEventRecord) : bool :=
  re_ruleCode event === code.

Definition validateUncertainSubmissionCompletion (currentOrder nextOrder : OrderRecord)
    (input : PersistUncertainSubmissionInput) (existingEvents : list OrderEventRecord)
    (existingRiskEvents : list RiskEventRecord) : outcome Completion :=
  _ ← validateOrderIdentity currentOrder nextOrder;
  let recoveryEvents := List.filter (has_type "RECONCILIATION_RECOVERY_REQUIRED") existingEvents in
  let uncertainRiskEvents :=
    List.filter (has_rule RiskRule.POSITION_GUARD_PILOT_UNCERTAIN_ORDER) existingRiskEvents in
  if before_submission (ord_status currentOrder) then
    if (length recoveryEvents =? 0)%nat && (length uncertainRiskEvents =? 0)%nat
    then Ret APPLY
    else Throw ("Corrupt partial uncertain submission children for order " ++ ord_id nextOrder ++ ".")
  else if (currentOrder === nextOrder) && only recoveryEvents (unc_event input)
          && only uncertainRiskEvents (unc_riskEvent input)
  then Ret RETRY
  else Throw ("Conflicting uncertain submission for order " ++ ord_id nextOrder ++ ".").

Definition validateReconciliationRecoveryInput (input : PersistReconciliationRecoveryInput)
    : outcome unit :=
  let order := rec_order input in
  let riskEvent := rec_riskEvent input in
  _ ← validateOrderIdentity (rec_expectedOrder input) order;
  _ ← throw_if ((ord_status order !== OrderStatus.RECONCILIATION_REQUIRED)
                || (ord_failureCode order !== Some "RECONCILIATION_REQUIRED"))
        "Reconciliation recovery must set RECONCILIATION_REQUIRED status and failureCode.";
  _ ← validateOrderEvent order (rec_event input) "RECONCILIATION_RECOVERY_REQUIRED"
        EventSource.RECONCILIATION;
  throw_if ((re_level riskEvent !== RiskLevelEvent.WARN)
            || (re_ruleCode riskEvent !== RiskRule.ORDER_RECOVERY_REQUIRED)
            || negb (links_order riskEvent order))
    "Reconciliation recovery risk event must exactly link the blocked order.".

Definition validateReconciliationRecoveryCompletion (currentOrder nextOrder : OrderRecord)
    (input : PersistReconciliationRecoveryInput) (existingEvents : list OrderEventRecord)
    (existingRiskEvents : list RiskEventRecord) : outcome Completion :=
  _ ← validateOrderIdentity currentOrder nextOrder;
  let recoveryEvents := List.filter (has_type "RECONCILIATION_RECOVERY_REQUIRED") existingEvents in
  let recoveryRiskEvents := List.filter (has_rule RiskRule.ORDER_RECOVERY_REQUIRED) existingRiskEvents in
  if currentOrder !== nextOrder then
    if (length recoveryEvents =? 0)%nat && (length recoveryRiskEvents =? 0)%nat
    then Ret APPLY
    else Throw ("Corrupt partial reconciliation recovery children for order "
                ++ ord_id nextOrder ++ ".")
  else if only recoveryEvents (rec_event input) && only recoveryRiskEvents (rec_riskEvent input)
  then Ret RETRY
  else Throw ("Conflicting reconciliation recovery for order " ++ ord_id nextOrder ++ ".").

(** ** Reconciled snapshots *)

Fixpoint validateSnapshotFills (order : OrderRecord) (ids exchangeIdentities : list string)
    (fills : list FillRecord) : outcome unit :=
  match fills with
  | [] => Ret tt
  | fill :: rest =>
      _ ← validateFillForOrder order fill;
      let exchangeIdentity := fillExchangeIdentity fill in
      _ ← throw_if (includes ids (fill_id fill) || includes exchangeIdentities exchangeIdentity)
            ("Duplicate fill identity " ++ fill_id fill ++ " in reconciled order "
             ++ ord_id order ++ ".");
      validateSnapshotFills order (fill_id fill :: ids) (exchangeIdentity :: exchangeIdentities) rest
  end.

Definition validateReconciledExchangeSnapshotInput (input : PersistReconciledExchangeSnapshotInput)
    : outcome unit :=
  let order := snap_order input in
  _ ← validateOrderIdentity (snap_expectedOrder input) order;
  _ ← throw_if (negb (Bool.eqb (snap_expectedOrder input !== order)
                        (bool_decide (is_Some (snap_event input)))))
        "Reconciled order changes require exactly one reconciliation event.";
  _ ← match snap_event input with
      | Some event =>
          throw_if ((oe_orderId event !== ord_id order)
                    || (oe_eventType event !== "RECONCILIATION_STATUS_UPDATED")
                    || (oe_eventSource event !== EventSource.RECONCILIATION))
            ("Reconciliation event " ++ oe_id event ++ " is invalid for order "
             ++ ord_id order ++ ".")
      | None => Ret tt
      end;
  validateSnapshotFills order [] [] (snap_fills input).

(** ** Orders bound to a candidate deployment *)

(** [validateOptionalDecimal] of [candidate-bound-order-validation.ts] *)
Definition validateCanonicalDecimal (value : option string) (label : string) : outcome unit :=
  match value with
  | None => Ret tt
  | Some s =>
      canonical ← canonicalNonNegativeDecimal s label;
      throw_if (canonical !== s) (label ++ " must be canonical.")
  end.

Definition validatePositiveDecimal (value label : string) : outcome unit :=
  canonical ← canonicalNonNegativeDecimal value (label ++ " value");
  throw_if ((canonical !== value) || (canonical === "0"))
    (label ++ " requires a canonical positive decimal.").

Definition isCandidateAction (action : StrategyDecisionAction) : bool :=
  (action === Action.ENTER) || (action === Action.ADD) || (action === Action.REDUCE)
  || (action === Action.EXIT).

Definition is_entry (action : StrategyDecisionAction) : bool :=
  (action === Action.ENTER) || (action === Action.ADD).

Definition validateStateVersion (value : Z) (label : string) : outcome unit :=
  throw_if (negb (isSafeInteger value) || (value <? 0)%Z)
    ("Candidate-bound " ++ label ++ " must be a non-negative safe integer.").

Definition parseCandidatePilotTimestamp (value label : string) : outcome Z :=
  parsePositionGuardCandidateTimestamp value label.

Definition decision_mismatch (d : StrategyDecisionRecord) (order : OrderRecord)
    (b : CandidateExecutionBindingRecord) : bool :=
  is_blank (sd_id d)
  || (sd_status d !== Decided.READY)
  || (sd_strategyKey d !== "position_guard.paper_core.v1")
  || (sd_market d !== Market.KRW_BTC)
  || negb (isCandidateAction (sd_action d))
  || (Some (sd_id d) !== ord_strategyDecisionId order)
  || (sd_id d !== bind_strategyDecisionId b)
  || (sd_exchangeAccountId d !== ord_exchangeAccountId order)
  || (sd_exchangeAccountId d !== bind_exchangeAccountId b)
  || (sd_market d !== ord_market order)
  || (Market.to_string (sd_market d) !== bind_market b)
  || (sd_strategyKey d !== bind_strategyKey b)
  || (sd_action d !== Exec.to_action (bind_action b))
  || (sd_intendedQuantity d !== bind_intendedQuantity b)
  || (sd_intendedNotionalKrw d !== bind_intendedNotionalKrw b).

Definition validateDecision (d : StrategyDecisionRecord) (order : OrderRecord)
    (b : CandidateExecutionBindingRecord) : outcome unit :=
  _ ← throw_if (decision_mismatch d order b)
        "Candidate-bound order intent does not match its persisted READY strategy decision.";
  _ ← validateCanonicalDecimal (sd_intendedQuantity d) "decision intendedQuantity";
  _ ← validateCanonicalDecimal (sd_intendedNotionalKrw d) "decision intendedNotionalKrw";
  _ ← validateCanonicalDecimal (sd_referencePrice d) "decision referencePrice";
  decisionCreatedAt ← parseCandidatePilotTimestamp (sd_createdAt d)
        "candidate-bound decision createdAt";
  bindingCreatedAt ← parseCandidatePilotTimestamp (bind_createdAt b)
        "candidate-bound binding createdAt";
  requestedAt ← parseCandidatePilotTimestamp (ord_requestedAt order)
        "candidate-bound order requestedAt";
  _ ← throw_if ((bindingCreatedAt <? decisionCreatedAt)%Z || (requestedAt <=? bindingCreatedAt)%Z)
        "Candidate decision and binding chronology must satisfy decision <= binding < request.";
  let expectedSide := if is_entry (sd_action d) then Side.bid else Side.ask in
  _ ← throw_if ((ord_side order !== expectedSide) || (bind_side b !== expectedSide))
        "Candidate-bound order side does not match its strategy action.";
  if expectedSide === Side.bid then
    throw_if ((sd_intendedNotionalKrw d === None)
              || (ord_price order !== sd_intendedNotionalKrw d))
      "Candidate entry order does not match its intended notional."
  else
    throw_if ((sd_intendedQuantity d === None) || (ord_volume order !== sd_intendedQuantity d))
      "Candidate exit order does not match its intended quantity.".

Definition validateDeployment (input : PersistCandidateBoundOrderIntentInput)
    (d : PositionGuardPilotDeploymentRecord) (b : CandidateExecutionBindingRecord) : outcome unit :=
  let request := agg_request input in
  throw_if ((dep_id d !== bind_deploymentId b)
            || (dep_exchangeAccountId d !== bind_exchangeAccountId b)
            || (dep_pilotId d !== PILOT_ID)
            || (dep_market d !== bind_market b)
            || (dep_policyId d !== bind_policyId b)
            || (dep_policyVersion d !== bind_policyVersion b)
            || (dep_phase d !== bound_phase (req_expectedPhase request))
            || (dep_updatedAt d !== req_expectedDeploymentUpdatedAt request)
            || (dep_activationAt d === None)
            || (dep_activationEpochNs d === None)
            || (dep_activationAt d !== Some (bind_activationAt b))
            || (dep_activationEpochNs d !== Some (bind_activationEpochNs b)))
    "Candidate-bound order intent does not match its persisted deployment authority.".

Definition validateOrderBinding (order : OrderRecord) (b : CandidateExecutionBindingRecord)
    : outcome unit :=
  _ ← throw_if ((ord_id order !== bind_orderId b)
                || (ord_exchangeAccountId order !== bind_exchangeAccountId b)
                || (Market.to_string (ord_market order) !== bind_market b)
                || (ord_executionMode order !== bind_executionMode b)
                || (ord_ordType order !== bind_ordType b)
                || (ord_side order !== bind_side b)
                || (ord_price order !== bind_boundPrice b)
                || (ord_volume order !== bind_boundVolume b)
                || ((Tif.to_string <$> ord_timeInForce order) !== bind_boundTimeInForce b)
                || ((Smp.to_string <$> ord_smpType order) !== bind_boundSmpType b))
        "Candidate execution binding does not match immutable order material.";
  _ ← validateCanonicalDecimal (ord_price order) "order price";
  validateCanonicalDecimal (ord_volume order) "order volume".

Definition validateCandidateOrderShape (phase : BoundPhase) (d : StrategyDecisionRecord)
    (order : OrderRecord) : outcome unit :=
  let isEntry := is_entry (sd_action d) in
  _ ← throw_if ((phase === BOUND_DRAINING) && isEntry)
        "DRAINING candidate deployments allow only REDUCE or EXIT orders.";
  if isEntry then
    match ord_price order with
    | Some price =>
        _ ← throw_if ((ord_side order !== Side.bid) || (ord_ordType order !== OrdType.price)
                      || (Some price !== sd_intendedNotionalKrw d)
                      || (sd_intendedQuantity d !== None) || (ord_volume order !== None)
                      || (ord_timeInForce order !== None) || (ord_smpType order !== None))
              "Candidate entry order shape is invalid.";
        validatePositiveDecimal price "Candidate entry order shape"
    | None => Throw "Candidate entry order shape is invalid."
    end
  else
    match ord_volume order with
    | Some volume =>
        _ ← throw_if ((ord_side order !== Side.ask) || (ord_ordType order !== OrdType.market)
                      || (sd_intendedNotionalKrw d !== None) || (ord_price order !== None)
                      || (Some volume !== sd_intendedQuantity d)
                      || (ord_timeInForce order !== None) || (ord_smpType order !== None))
              "Candidate exit order shape is invalid.";
        validatePositiveDecimal volume "Candidate exit order shape"
    | None => Throw "Candidate exit order shape is invalid."
    end.

Definition validateImmutableRequest (order : OrderRecord) (event : OrderEventRecord)
    (b : CandidateExecutionBindingRecord) : outcome unit :=
  _ ← throw_if ((ord_origin order !== Origin.STRATEGY) || (ord_upbitUuid order !== None)
                || (ord_exchangeResponseJson order !== None) || (ord_failureCode order !== None)
                || (ord_failureMessage order !== None))
        "Candidate-bound order intent must be a pristine local strategy order.";
  _ ← throw_if ((ord_requestedAt order !== ord_createdAt order)
                || (ord_requestedAt order !== ord_updatedAt order)
                || (oe_createdAt event !== ord_requestedAt order))
        "Candidate-bound order timestamps must share the immutable request instant.";
  bindingCreatedAt ← parseCandidatePilotTimestamp (bind_createdAt b) "binding createdAt";
  requestedAt ← parseCandidatePilotTimestamp (ord_requestedAt order) "order requestedAt";
  throw_if (negb (requestedAt =? bindingCreatedAt + 1)%Z)
    "Candidate order requestedAt must be the exact nanosecond successor of binding createdAt.".

Section Hash.
Context (sha256 : string -> string).

Definition validateCandidateBoundOrderIntentRequestShape
    (value : PersistCandidateBoundOrderIntentRequest)
    : outcome PersistCandidateBoundOrderIntentRequest :=
  _ ← validateCandidateExecutionBinding sha256 (req_binding value); Ret value.

Definition validateCandidateBoundOrderIntent (value : PersistCandidateBoundOrderIntentInput)
    : outcome PersistCandidateBoundOrderIntentInput :=
  let request := agg_request value in
  let order := req_order request in
  let event := req_event request in
  _ ← validateOrderIntentInput {| intent_order := order; intent_event := event |};
  binding ← validateCandidateExecutionBinding sha256 (req_binding request);
  deployment ← validateCandidatePilotDeployment (agg_deployment value);
  _ ← validateStateVersion (agg_exactStateVersion value) "exact state version";
  _ ← validateStateVersion (req_expectedStateVersion request) "expected state version";
  _ ← throw_if (negb (agg_exactStateVersion value =? req_expectedStateVersion request)%Z)
        "Candidate-bound order intent exact state version has changed.";
  _ ← parseCandidatePilotTimestamp (req_expectedDeploymentUpdatedAt request)
        "candidate-bound expected deployment updatedAt";
  _ ← validateDecision (agg_decision value) order binding;
  _ ← validateDeployment value deployment binding;
  _ ← validateOrderBinding order binding;
  _ ← validateCandidateOrderShape (req_expectedPhase request) (agg_decision value) order;
  _ ← validateImmutableRequest order event binding;
  Ret value.

(** *** The last look before the submission *)

Record CandidateFinalBoundOrderIntentProjectionInput := {
  persistedOrder : OrderRecord;
  expectedOrder : OrderRecord;
  persistedEvent : OrderEventRecord;
  expectedEvent : OrderEventRecord;
  persistedDecision : StrategyDecisionRecord;
  expectedDecision : StrategyDecisionRecord;
  persistedBinding : CandidateExecutionBindingRecord;
  expectedBinding : CandidateExecutionBindingRecord;
}.

Definition assertExactRecordMatch {A} `{EqDecision A} (persisted expected : A) (label : string)
    : outcome unit :=
  throw_if (persisted !== expected) (label ++ " changed before submission.").

Definition with_order_status (o : OrderRecord) (status : OrderLifecycleStatus) : OrderRecord := {|
  ord_id := ord_id o;
  ord_strategyDecisionId := ord_strategyDecisionId o;
  ord_exchangeAccountId := ord_exchangeAccountId o;
  ord_market := ord_market o;
  ord_side := ord_side o;
  ord_ordType := ord_ordType o;
  ord_volume := ord_volume o;
  ord_price := ord_price o;
  ord_timeInForce := ord_timeInForce o;
  ord_smpType := ord_smpType o;
  ord_identifier := ord_identifier o;
  ord_idempotencyKey := ord_idempotencyKey o;
  ord_origin := ord_origin o;
  ord_requestedAt := ord_requestedAt o;
  ord_upbitUuid := ord_upbitUuid o;
  ord_status := status;
  ord_executionMode := ord_executionMode o;
  ord_exchangeResponseJson := ord_exchangeResponseJson o;
  ord_failureCode := ord_failureCode o;
  ord_failureMessage := ord_failureMessage o;
  ord_createdAt := ord_createdAt o;
  ord_updatedAt := ord_updatedAt o;
|}.

Definition projectCandidateFinalBoundOrderIntent
    (input : CandidateFinalBoundOrderIntentProjectionInput)
    : outcome (OrderRecord * OrderEventRecord * StrategyDecisionRecord
               * CandidateExecutionBindingRecord) :=
  binding ← validateCandidateExecutionBinding sha256 (persistedBinding input);
  expected ← validateCandidateExecutionBinding sha256 (expectedBinding input);
  _ ← assertExactRecordMatch (persistedOrder input) (expectedOrder input) "candidate final order";
  _ ← assertExactRecordMatch (persistedEvent input) (expectedEvent input) "candidate final event";
  _ ← assertExactRecordMatch (persistedDecision input) (expectedDecision input)
        "candidate final decision";
  _ ← assertExactRecordMatch binding expected "candidate final binding";
  _ ← throw_if (ord_status (persistedOrder input) !== OrderStatus.SUBMITTING)
        "Candidate final order must remain exactly SUBMITTING before projection.";
  Ret (with_order_status (persistedOrder input) OrderStatus.PERSISTED, persistedEvent input,
       persistedDecision input, binding).

End Hash.
