(* ===== verification/OrderRepository.v ===== *)
(** * OrderRepository: the orders, their events and fills

    [InMemoryExecutionRepository] of
    [modules/db/repositories/in-memory-repositories.ts], the part that holds
    decisions, orders, order events, fills, recovery observations and risk
    events.  Its balance and position snapshots, reconciliation and scheduler
    runs, checkpoints and notifications are lists of their own that none of
    these operations reads.

    The two objects it is constructed with (the operator store that pauses
    trading, and the pilot repository that commits a binding) are its
    environment: one state, because they share the operator store. *)

From Stdlib Require Import ZArith Lia.
From stdpp Require Import base option list strings gmap.
From S2P Require Import Prelude Num Types Text Timestamp NumText JsMap CandidateState.
From S2P Require Import ExactState SubmissionBlocking OperatorState PilotRecords PilotRepository.
From S2P Require Import OrderRecords.

Local Open Scope string_scope.
Local Open Scope js_scope.
Local Open Scope bool_scope.

#[export] Instance OrderSubmissionRecoveryObservationRecord_eq_dec :
  EqDecision OrderSubmissionRecoveryObservationRecord.
Proof. solve_decision. Defined.

(** ** The environment *)

(** [PreparedInMemoryCandidateBoundOrderIntent], [modules/db/interfaces.ts] *)
Record PreparedIntent (E : Type) := {
  pi_deployment : option PositionGuardPilotDeploymentRecord;
  pi_exactStateVersion : option Z;
  pi_existingBindingByOrderId : option CandidateExecutionBindingRecord;
  pi_existingBindingById : option CandidateExecutionBindingRecord;
  pi_commitBinding : action E unit;
}.
Arguments pi_deployment {E} _.
Arguments pi_exactStateVersion {E} _.
Arguments pi_existingBindingByOrderId {E} _.
Arguments pi_existingBindingById {E} _.
Arguments pi_commitBinding {E} _.

(** [Pick<InMemoryOperatorStateStore, "applyFaultPauseAtomically">] and
    [InMemoryCandidateBoundOrderStore], each of them optional. *)
Class ExecutionEnvironment (E : Type) := {
  env_has_fault_pause : E -> bool;
  env_applyFaultPauseAtomically : FaultPauseInput -> action E ExecutionStateRecord;
  env_has_bound_orders : E -> bool;
  env_prepareCandidateBoundOrderIntent :
    CandidateExecutionBindingRecord -> action E (PreparedIntent E);
}.

(** The pilot repository with the operator store it shares; a capability is
    prepared unused and used at most once per call. *)
Definition pilot_environment {T} {HT : AtomicFaultPauseStore T} (sha256 : string -> string) :
    ExecutionEnvironment (InMemoryCandidatePilotRepository T) := {|
  env_has_fault_pause r := bool_decide (is_Some (atomicFaultPauseStore r));
  env_applyFaultPauseAtomically input :=
    t ← require_store; on_store (store_applyFaultPauseAtomically input) t;
  env_has_bound_orders _ := true;
  env_prepareCandidateBoundOrderIntent binding :=
    p ← prepareCandidateBoundOrderIntent sha256 binding;
    act_ret {| pi_deployment := prep_deployment p;
               pi_exactStateVersion := stateVersion <$> prep_exactState p;
               pi_existingBindingByOrderId := prep_existingByOrder p;
               pi_existingBindingById := prep_existingById p;
               pi_commitBinding := fun r =>
                 let '((_, r'), out) := commitBinding p (false, r) in (r', out) |};
|}.

(** ** State *)

Record InMemoryExecutionRepository (E : Type) := {
  strategyDecisions : list StrategyDecisionRecord;
  orders : list OrderRecord;
  orderEvents : list OrderEventRecord;
  fills : list FillRecord;
  orderSubmissionRecoveryObservations : list OrderSubmissionRecoveryObservationRecord;
  riskEvents : list RiskEventRecord;
  environment : E;
}.
Arguments strategyDecisions {E} _.
Arguments orders {E} _.
Arguments orderEvents {E} _.
Arguments fills {E} _.
Arguments orderSubmissionRecoveryObservations {E} _.
Arguments riskEvents {E} _.
Arguments environment {E} _.

Definition new_execution_repository {E} (env : E) : InMemoryExecutionRepository E := {|
  strategyDecisions := []; orders := []; orderEvents := []; fills := [];
  orderSubmissionRecoveryObservations := []; riskEvents := []; environment := env |}.

(** ** Lookups *)

Definition find_order (id : string) (l : list OrderRecord) : option OrderRecord :=
  List.find (fun candidate => ord_id candidate === id) l.
Definition find_event (id : string) (l : list OrderEventRecord) : option OrderEventRecord :=
  List.find (fun candidate => oe_id candidate === id) l.
Definition find_risk_event (id : string) (l : list RiskEventRecord) : option RiskEventRecord :=
  List.find (fun candidate => re_id candidate === id) l.
Definition find_decision (id : option string) (l : list StrategyDecisionRecord)
    : option StrategyDecisionRecord :=
  List.find (fun candidate => Some (sd_id candidate) === id) l.

Definition events_of_order (id : string) (l : list OrderEventRecord) : list OrderEventRecord :=
  List.filter (fun candidate => oe_orderId candidate === id) l.
Definition fills_of_order (id : string) (l : list FillRecord) : list FillRecord :=
  List.filter (fun candidate => fill_orderId candidate === id) l.
Definition risk_events_of_order (id : string) (l : list RiskEventRecord) : list RiskEventRecord :=
  List.filter (fun candidate => re_orderId candidate === Some id) l.

(** [orders.map((candidate) => candidate.id === order.id ? order : candidate)] *)
Definition replace_order (order : OrderRecord) (l : list OrderRecord) : list OrderRecord :=
  map (fun candidate => if ord_id candidate === ord_id order then order else candidate) l.

(** [orders[index] = order] at the first record of its identifier. *)
Fixpoint assign_order (order : OrderRecord) (l : list OrderRecord) : list OrderRecord :=
  match l with
  | [] => [order]
  | candidate :: rest =>
      if ord_id candidate === ord_id order then order :: rest
      else candidate :: assign_order order rest
  end.

Definition ACTIVE_ORDER_STATUSES : list OrderLifecycleStatus :=
  [OrderStatus.INTENT_CREATED; OrderStatus.PERSISTED; OrderStatus.SUBMITTING; OrderStatus.OPEN;
   OrderStatus.PARTIALLY_FILLED; OrderStatus.CANCEL_REQUESTED; OrderStatus.RECONCILIATION_REQUIRED].

(** What the classification picks of the persisted evidence. *)
Definition blocking_evidence (order : OrderRecord) (events : list OrderEventRecord)
    (observations : list OrderSubmissionRecoveryObservationRecord)
    : SubmissionBlockingOrderEvidence := {|
  evidence_order := {|
    order_id := ord_id order; order_status := ord_status order;
    order_failureCode := ord_failureCode order; order_upbitUuid := ord_upbitUuid order;
    order_exchangeResponseJson := ord_exchangeResponseJson order |};
  evidence_events :=
    (fun e => {| event_eventType := oe_eventType e; event_eventSource := oe_eventSource e;
                 event_createdAt := oe_createdAt e |})
    <$> events_of_order (ord_id order) events;
  evidence_recoveryObservations :=
    pick_observation <$> List.filter (fun o => obs_orderId o === ord_id order) observations;
|}.

Definition take_limit {A} (limit : option nat) (l : list A) : list A :=
  match limit with Some n => take n l | None => l end.

(** ** Results *)

Module Persisted.
Inductive PersistOutcome : Set := APPLIED | DUPLICATE | CONFLICT.
#[export] Instance PersistOutcome_eq_dec : EqDecision PersistOutcome.
Proof. solve_decision. Defined.
End Persisted.
Export (hints) Persisted.

Record PersistReconciledExchangeSnapshotResult := {
  snap_outcome : Persisted.PersistOutcome;
  snap_insertedFillCount : nat;
}.

Record FinalizeBoundedSubmissionAbsenceInput := {
  fin_orderId : string;
  fin_expectedStatus : OrderLifecycleStatus;
  fin_expectedUpdatedAt : string;
  fin_failedAt : string;
  fin_failureCode : string;
  fin_failureMessage : string;
  fin_event : OrderEventRecord;
  fin_faultPause : FaultPauseInput;
}.

Record PersistCandidateProjectionFaultInput := {
  proj_orderId : string;
  proj_event : OrderEventRecord;
  proj_faultPause : FaultPauseInput;
}.

(** The order a confirmed absence fails. *)
Definition failed_order (o : OrderRecord) (input : FinalizeBoundedSubmissionAbsenceInput)
    : OrderRecord := {|
  ord_id := ord_id o;
  ord_strategyDecisionId := ord_strategyDecisionId o;
  ord_exchangeAccountId := ord_exchangeAccountId o;
  ord_market := ord_market o;
  ord_side := ord_side o;
  ord_ordType := ord_ordType o;
  ord_volume := ord_volume o;
  ord_price := ord_price o;
  ord_timeInForce := ord_timeInForce o;
  ord_smpType := ord_smpType o;
  ord_identifier := ord_identifier o;
  ord_idempotencyKey := ord_idempotencyKey o;
  ord_origin := ord_origin o;
  ord_requestedAt := ord_requestedAt o;
  ord_upbitUuid := ord_upbitUuid o;
  ord_status := OrderStatus.FAILED;
  ord_executionMode := ord_executionMode o;
  ord_exchangeResponseJson := ord_exchangeResponseJson o;
  ord_failureCode := Some (fin_failureCode input);
  ord_failureMessage := Some (fin_failureMessage input);
  ord_createdAt := ord_createdAt o;
  ord_updatedAt := fin_failedAt input;
|}.

(** ** The methods *)

Section Repository.
(** SHA-256 in hexadecimal, and [String.prototype.localeCompare]. *)
Context (sha256 : string -> string) (localeCompare : string -> string -> comparison).
Context {E : Type} {HE : ExecutionEnvironment E}.

Abbreviation repository := (InMemoryExecutionRepository E).

(** [this.orders = nextOrders; this.orderEvents = ...; this.fills = ...;
    this.riskEvents = ...] *)
Definition assign (nextOrders : list OrderRecord) (nextEvents : list OrderEventRecord)
    (nextFills : list FillRecord) (nextRisks : list RiskEventRecord) (r : repository)
    : repository := {|
  strategyDecisions := strategyDecisions r; orders := nextOrders; orderEvents := nextEvents;
  fills := nextFills;
  orderSubmissionRecoveryObservations := orderSubmissionRecoveryObservations r;
  riskEvents := nextRisks; environment := environment r |}.

Definition set_orders (l : list OrderRecord) (r : repository) : repository :=
  assign l (orderEvents r) (fills r) (riskEvents r) r.
Definition set_events (l : list OrderEventRecord) (r : repository) : repository :=
  assign (orders r) l (fills r) (riskEvents r) r.
Definition set_fills (l : list FillRecord) (r : repository) : repository :=
  assign (orders r) (orderEvents r) l (riskEvents r) r.
Definition set_risk_events (l : list RiskEventRecord) (r : repository) : repository :=
  assign (orders r) (orderEvents r) (fills r) l r.

Definition set_decisions (l : list StrategyDecisionRecord) (r : repository) : repository := {|
  strategyDecisions := l; orders := orders r; orderEvents := orderEvents r; fills := fills r;
  orderSubmissionRecoveryObservations := orderSubmissionRecoveryObservations r;
  riskEvents := riskEvents r; environment := environment r |}.

Definition set_observations (l : list OrderSubmissionRecoveryObservationRecord) (r : repository)
    : repository := {|
  strategyDecisions := strategyDecisions r; orders := orders r; orderEvents := orderEvents r;
  fills := fills r; orderSubmissionRecoveryObservations := l; riskEvents := riskEvents r;
  environment := environment r |}.

Definition set_environment (env : E) (r : repository) : repository := {|
  strategyDecisions := strategyDecisions r; orders := orders r; orderEvents := orderEvents r;
  fills := fills r; orderSubmissionRecoveryObservations := orderSubmissionRecoveryObservations r;
  riskEvents := riskEvents r; environment := env |}.

(** A method of an object of the environment. *)
Definition on_environment {A} (f : action E A) : action repository A :=
  fun r => let '(env, out) := f (environment r) in (set_environment env r, out).

(** *** Unchecked writes *)

Definition saveStrategyDecision (record : StrategyDecisionRecord) : action repository unit :=
  act_modify (fun r => set_decisions (strategyDecisions r ++ [record])%list r).

Definition saveOrder (record : OrderRecord) : action repository unit :=
  act_modify (fun r => set_orders (orders r ++ [record])%list r).

Definition updateOrder (record : OrderRecord) : action repository unit :=
  act_modify (fun r => set_orders (assign_order record (orders r)) r).

Definition appendOrderEvent (record : OrderEventRecord) : action repository unit :=
  act_modify (fun r => set_events (orderEvents r ++ [record])%list r).

Definition saveRiskEvent (record : RiskEventRecord) : action repository unit :=
  act_modify (fun r => set_risk_events (riskEvents r ++ [record])%list r).

(** *** The intent of an order *)

Definition persistOrderIntent (input : PersistOrderIntentInput) : action repository unit :=
  let order := intent_order input in
  let event := intent_event input in
  _ ← act_lift (validateOrderIntentInput input);
  existingOrder ← act_gets (fun r => find_order (ord_id order) (orders r));
  existingEvent ← act_gets (fun r => find_event (oe_id event) (orderEvents r));
  match existingOrder with
  | Some existing =>
      act_lift (throw_if ((existing !== order) || (existingEvent !== Some event))
        ("Conflicting duplicate order intent " ++ ord_id order ++ "."))
  | None =>
      _ ← act_lift (throw_if (bool_decide (is_Some existingEvent))
            ("Conflicting duplicate order event " ++ oe_id event ++ "."));
      known ← act_gets orders;
      _ ← act_lift (validateNewOrderUniqueness known order);
      act_modify (fun r => assign (orders r ++ [order])%list (orderEvents r ++ [event])%list
                             (fills r) (riskEvents r) r)
  end.

(** What of a candidate-bound intent is already there. *)
Record ExistingIntent := {
  known_order : option OrderRecord;
  known_orderEvents : list OrderEventRecord;
  known_eventById : option OrderEventRecord;
  known_bindingByOrder : option CandidateExecutionBindingRecord;
  known_bindingById : option CandidateExecutionBindingRecord;
}.

(** [existing && !recordsEqual(existing, record)] *)
Definition conflicts {A} `{EqDecision A} (existing : option A) (record : A) : bool :=
  match existing with Some e => e !== record | None => false end.

(** The guards on what is already there; whether it is a retry. *)
Definition classify_existing (input : PersistCandidateBoundOrderIntentRequest)
    (ordersById : list OrderRecord) (eventsById : list OrderEventRecord) (k : ExistingIntent)
    : outcome bool :=
  let order := req_order input in
  let event := req_event input in
  let binding := req_binding input in
  _ ← throw_if (1 <? length ordersById)%nat
        ("Conflicting duplicate candidate-bound order id " ++ ord_id order ++ ".");
  _ ← throw_if (1 <? length eventsById)%nat
        ("Conflicting duplicate candidate-bound order event id " ++ oe_id event ++ ".");
  _ ← throw_if (conflicts (known_eventById k) event)
        ("Conflicting candidate-bound order event " ++ oe_id event ++ ".");
  _ ← throw_if (conflicts (known_bindingByOrder k) binding)
        ("Conflicting candidate-bound binding for order " ++ ord_id order ++ ".");
  _ ← throw_if (conflicts (known_bindingById k) binding)
        ("Conflicting candidate-bound binding id " ++ bind_id binding ++ ".");
  if (known_order k === None) && (length (known_orderEvents k) =? 0)%nat
     && (known_eventById k === None) && (known_bindingByOrder k === None)
     && (known_bindingById k === None)
  then Ret false
  else
    _ ← throw_if ((known_order k !== Some order) || negb (only (known_orderEvents k) event)
                  || (known_eventById k === None) || (known_bindingByOrder k !== Some binding)
                  || (known_bindingById k !== Some binding))
          ("Dangling partial candidate-bound order intent " ++ ord_id order ++ ".");
    Ret true.

Definition persistCandidateBoundOrderIntent (input : PersistCandidateBoundOrderIntentRequest)
    : action repository unit :=
  let order := req_order input in
  let event := req_event input in
  let binding := req_binding input in
  _ ← act_lift (validateCandidateBoundOrderIntentRequestShape sha256 input);
  env ← act_gets environment;
  _ ← act_lift (throw_if (negb (env_has_bound_orders env))
        "In-memory candidate-bound order store is required.");
  found ← act_gets (fun r => find_decision (ord_strategyDecisionId order) (strategyDecisions r));
  prepared ← on_environment (env_prepareCandidateBoundOrderIntent binding);
  match found, pi_deployment prepared, pi_exactStateVersion prepared with
  | None, _, _ =>
      act_lift (Throw ("Persisted candidate strategy decision "
                       ++ default "none" (ord_strategyDecisionId order) ++ " is missing."))
  | Some decision, Some deployment, Some exactStateVersion =>
      _ ← act_lift (validateCandidateBoundOrderIntent sha256
            {| agg_request := input; agg_decision := decision; agg_deployment := deployment;
               agg_exactStateVersion := exactStateVersion |});
      known ← act_gets orders;
      events ← act_gets orderEvents;
      let ordersById := List.filter (fun candidate => ord_id candidate === ord_id order) known in
      let eventsById := List.filter (fun candidate => oe_id candidate === oe_id event) events in
      retry ← act_lift (classify_existing input ordersById eventsById
            {| known_order := head ordersById;
               known_orderEvents := events_of_order (ord_id order) events;
               known_eventById := head eventsById;
               known_bindingByOrder := pi_existingBindingByOrderId prepared;
               known_bindingById := pi_existingBindingById prepared |});
      if retry : bool then on_environment (pi_commitBinding prepared)
      else
        _ ← act_lift (validateNewOrderUniqueness known order);
        _ ← on_environment (pi_commitBinding prepared);
        act_modify (fun r => assign (known ++ [order])%list (events ++ [event])%list
                               (fills r) (riskEvents r) r)
  | Some _, _, _ =>
      act_lift (Throw ("Persisted candidate authority " ++ bind_deploymentId binding
                       ++ " is missing."))
  end.

(** *** The submission *)

Definition normalized_submission (input : PersistExchangeSubmissionInput)
    : PersistExchangeSubmissionInput := {|
  sub_order := sub_order input; sub_event := sub_event input;
  sub_fills := normalizeFillFeeProvenance <$> sub_fills input;
  sub_terminalEvent := sub_terminalEvent input |}.

(** No stored fill conflicts with a new one; every lookup comes first. *)
Definition assertNoConflictingFills (stored next : list FillRecord) : outcome unit :=
  existing ← mapM_outcome (findStoredFill stored) next;
  foldM_outcome
    (fun _ '(e, fill) => assertNoConflictingRecord e fill "fill" (fill_id fill))
    tt (combine existing next).

Definition persistExchangeSubmission (raw : PersistExchangeSubmissionInput)
    : action repository unit :=
  let input := normalized_submission raw in
  let order := sub_order input in
  _ ← act_lift (validateExchangeSubmissionInput input);
  found ← act_gets (fun r => find_order (ord_id order) (orders r));
  match found with
  | None => act_lift (Throw ("Cannot persist exchange submission for missing order "
                             ++ ord_id order ++ "."))
  | Some existingOrder =>
      _ ← act_lift (assertSameAccount existingOrder order);
      events ← act_gets orderEvents;
      stored ← act_gets fills;
      _ ← act_lift (assertNoConflictingRecord (find_event (oe_id (sub_event input)) events)
                      (sub_event input) "order event" (oe_id (sub_event input)));
      _ ← act_lift match sub_terminalEvent input with
                   | Some terminal =>
                       assertNoConflictingRecord (find_event (oe_id terminal) events) terminal
                         "terminal order event" (oe_id terminal)
                   | None => Ret tt
                   end;
      _ ← act_lift (assertNoConflictingFills stored (sub_fills input));
      completion ← act_lift (validateExchangeSubmissionCompletion existingOrder order input
                               (events_of_order (ord_id order) events)
                               (fills_of_order (ord_id order) stored));
      match completion with
      | RETRY => act_ret tt
      | APPLY =>
          act_modify (fun r => assign (replace_order order (orders r))
            (events ++ sub_event input :: option_list (sub_terminalEvent input))%list
            (stored ++ sub_fills input)%list (riskEvents r) r)
      end
  end.

Definition persistUncertainSubmission (input : PersistUncertainSubmissionInput)
    : action repository unit :=
  let order := unc_order input in
  _ ← act_lift (validateUncertainSubmissionInput input);
  found ← act_gets (fun r => find_order (ord_id order) (orders r));
  match found with
  | None => act_lift (Throw ("Cannot persist uncertain submission for missing order "
                             ++ ord_id order ++ "."))
  | Some existingOrder =>
      _ ← act_lift (assertSameAccount existingOrder order);
      events ← act_gets orderEvents;
      risks ← act_gets riskEvents;
      _ ← act_lift (assertNoConflictingRecord (find_event (oe_id (unc_event input)) events)
                      (unc_event input) "order event" (oe_id (unc_event input)));
      _ ← act_lift (assertNoConflictingRecord (find_risk_event (re_id (unc_riskEvent input)) risks)
                      (unc_riskEvent input) "risk event" (re_id (unc_riskEvent input)));
      completion ← act_lift (validateUncertainSubmissionCompletion existingOrder order input
                               (events_of_order (ord_id order) events)
                               (risk_events_of_order (ord_id order) risks));
      match completion with
      | RETRY => act_ret tt
      | APPLY =>
          act_modify (fun r => assign (replace_order order (orders r))
            (events ++ [unc_event input])%list (fills r) (risks ++ [unc_riskEvent input])%list r)
      end
  end.

(** *** Reconciliation *)

(** The fills that are not stored yet. *)
Definition insertedFills (stored next : list FillRecord) : outcome (list FillRecord) :=
  resolved ← mapM_outcome
    (fun fill =>
       existing ← findStoredFill stored fill;
       resolution ← resolveImmutableFillReplay existing fill;
       Ret (fill, resolution)) next;
  Ret (fst <$> List.filter (fun '(_, resolution) => resolution === INSERT) resolved).

Definition persistReconciledExchangeSnapshot (raw : PersistReconciledExchangeSnapshotInput)
    : action repository PersistReconciledExchangeSnapshotResult :=
  let input := {| snap_expectedOrder := snap_expectedOrder raw; snap_order := snap_order raw;
                  snap_event := snap_event raw;
                  snap_fills := normalizeFillFeeProvenance <$> snap_fills raw |} in
  let order := snap_order input in
  _ ← act_lift (validateReconciledExchangeSnapshotInput input);
  found ← act_gets (fun r => find_order (ord_id order) (orders r));
  match found with
  | None => act_lift (Throw ("Cannot persist reconciliation for missing order "
                             ++ ord_id order ++ "."))
  | Some currentOrder =>
      if currentOrder !== snap_expectedOrder input then
        act_ret {| snap_outcome := Persisted.CONFLICT; snap_insertedFillCount := 0 |}
      else
        events ← act_gets orderEvents;
        stored ← act_gets fills;
        let existingEvent := snap_event input ≫= fun event => find_event (oe_id event) events in
        _ ← act_lift match snap_event input with
                     | Some event => assertNoConflictingRecord existingEvent event
                                       "reconciliation order event" (oe_id event)
                     | None => Ret tt
                     end;
        inserted ← act_lift (insertedFills stored (snap_fills input));
        let orderChanged := currentOrder !== order in
        let newEvent := match existingEvent with
                        | None => option_list (snap_event input)
                        | Some _ => []
                        end in
        _ ← act_modify (fun r => assign (replace_order order (orders r))
              (events ++ newEvent)%list (stored ++ inserted)%list (riskEvents r) r);
        act_ret {| snap_outcome :=
                     if orderChanged || negb (length newEvent =? 0)%nat
                        || (0 <? length inserted)%nat
                     then Persisted.APPLIED else Persisted.DUPLICATE;
                   snap_insertedFillCount := length inserted |}
  end.

Definition persistReconciliationRecovery (input : PersistReconciliationRecoveryInput)
    : action repository Persisted.PersistOutcome :=
  let order := rec_order input in
  _ ← act_lift (validateReconciliationRecoveryInput input);
  found ← act_gets (fun r => find_order (ord_id order) (orders r));
  match found with
  | None => act_lift (Throw ("Cannot persist reconciliation recovery for missing order "
                             ++ ord_id order ++ "."))
  | Some currentOrder =>
      if currentOrder !== rec_expectedOrder input then act_ret Persisted.CONFLICT
      else
        _ ← act_lift (assertSameAccount currentOrder order);
        events ← act_gets orderEvents;
        risks ← act_gets riskEvents;
        _ ← act_lift (assertNoConflictingRecord (find_event (oe_id (rec_event input)) events)
              (rec_event input) "reconciliation recovery event" (oe_id (rec_event input)));
        _ ← act_lift (assertNoConflictingRecord
              (find_risk_event (re_id (rec_riskEvent input)) risks) (rec_riskEvent input)
              "reconciliation recovery risk event" (re_id (rec_riskEvent input)));
        completion ← act_lift (validateReconciliationRecoveryCompletion currentOrder order input
                                 (events_of_order (ord_id order) events)
                                 (risk_events_of_order (ord_id order) risks));
        match completion with
        | RETRY => act_ret Persisted.DUPLICATE
        | APPLY =>
            _ ← act_modify (fun r => assign (replace_order order (orders r))
                  (events ++ [rec_event input])%list (fills r)
                  (risks ++ [rec_riskEvent input])%list r);
            act_ret Persisted.APPLIED
        end
  end.

Definition saveFill (raw : FillRecord) : action repository unit :=
  let record := normalizeFillFeeProvenance raw in
  found ← act_gets (fun r => find_order (fill_orderId record) (orders r));
  match found with
  | None => act_lift (Throw ("Cannot persist fill for missing order " ++ fill_orderId record ++ "."))
  | Some order =>
      _ ← act_lift (validateFillForOrder order record);
      stored ← act_gets fills;
      existing ← act_lift (findStoredFill stored record);
      replay ← act_lift (resolveImmutableFillReplay existing record);
      match replay with
      | INSERT => act_modify (set_fills (stored ++ [record])%list)
      | PRESERVE => act_ret tt
      end
  end.

Definition saveOrderSubmissionRecoveryObservation
    (record : OrderSubmissionRecoveryObservationRecord) : action repository unit :=
  known ← act_gets orderSubmissionRecoveryObservations;
  match List.find (fun candidate => obs_id candidate === obs_id record) known with
  | Some existing =>
      act_lift (throw_if (existing !== record)
        ("Conflicting duplicate order submission recovery observation " ++ obs_id record ++ "."))
  | None => act_modify (set_observations (known ++ [record])%list)
  end.

(** *** Operations that pause trading *)

Definition finalizeBoundedSubmissionAbsence (input : FinalizeBoundedSubmissionAbsenceInput)
    : action repository bool :=
  found ← act_gets (fun r => find_order (fin_orderId input) (orders r));
  match found with
  | None => act_ret false
  | Some current =>
      if (ord_status current !== fin_expectedStatus input)
         || (ord_updatedAt current !== fin_expectedUpdatedAt input)
      then act_ret false
      else
        env ← act_gets environment;
        _ ← act_lift (throw_if (negb (env_has_fault_pause env))
              "In-memory bounded absence finalization requires an atomic fault-pause store.");
        events ← act_gets orderEvents;
        _ ← act_lift (throw_if ((oe_orderId (fin_event input) !== fin_orderId input)
                                || existsb (fun event => oe_id event === oe_id (fin_event input))
                                     events)
              "Bounded absence finalization event is invalid or conflicts with persisted evidence.");
        _ ← on_environment (env_applyFaultPauseAtomically (fin_faultPause input));
        _ ← act_modify (fun r => assign (replace_order (failed_order current input) (orders r))
              (events ++ [fin_event input])%list (fills r) (riskEvents r) r);
        act_ret true
  end.

Definition persistCandidateProjectionFault (input : PersistCandidateProjectionFaultInput)
    : action repository Persisted.PersistOutcome :=
  env ← act_gets environment;
  _ ← act_lift (throw_if (negb (env_has_fault_pause env))
        "In-memory candidate projection faults require an atomic fault-pause store.");
  found ← act_gets (fun r => find_order (proj_orderId input) (orders r));
  events ← act_gets orderEvents;
  let event := proj_event input in
  let fault := proj_faultPause input in
  _ ← act_lift
    match found with
    | Some order =>
        throw_if ((oe_orderId event !== ord_id order)
                  || (fp_exchangeAccountId fault !== ord_exchangeAccountId order))
          "Candidate projection fault provenance does not match a persisted order."
    | None => Throw "Candidate projection fault provenance does not match a persisted order."
    end;
  _ ← act_lift (throw_if (oe_createdAt event !== fp_occurredAt fault)
        "Candidate projection fault occurrence does not match its immutable event timestamp.");
  _ ← act_lift (validateFaultPauseInput fault);
  let existing := find_event (oe_id event) events in
  _ ← act_lift (throw_if (conflicts existing event)
        ("Conflicting candidate projection fault event " ++ oe_id event ++ "."));
  _ ← on_environment (env_applyFaultPauseAtomically fault);
  match existing with
  | None => _ ← act_modify (set_events (events ++ [event])%list); act_ret Persisted.APPLIED
  | Some _ => act_ret Persisted.DUPLICATE
  end.

(** *** Reading *)

Definition findOrderByIdempotencyKey (exchangeAccountId key : string)
    : action repository (option OrderRecord) :=
  act_gets (fun r => List.find (fun candidate =>
    (ord_exchangeAccountId candidate === exchangeAccountId)
    && (ord_idempotencyKey candidate === key)) (orders r)).

Definition findOrderById (exchangeAccountId orderId : string)
    : action repository (option OrderRecord) :=
  act_gets (fun r => List.find (fun candidate =>
    (ord_exchangeAccountId candidate === exchangeAccountId) && (ord_id candidate === orderId))
    (orders r)).

Definition findOrderByReference (exchangeAccountId reference : string)
    : action repository (option OrderRecord) :=
  act_gets (fun r => List.find (fun candidate =>
    (ord_exchangeAccountId candidate === exchangeAccountId)
    && ((ord_id candidate === reference) || (ord_identifier candidate === reference)
        || (ord_upbitUuid candidate === Some reference))) (orders r)).

(** [right.updatedAt.localeCompare(left.updatedAt)] *)
Definition compare_updated (left right : OrderRecord) : comparison :=
  localeCompare (ord_updatedAt right) (ord_updatedAt left).

Definition listActiveOrders (exchangeAccountId : string) (market : option SupportedMarket)
    (limit : option nat) : action repository (list OrderRecord) :=
  act_gets (fun r => take_limit limit (js_sort compare_updated
    (List.filter (fun candidate =>
       (ord_exchangeAccountId candidate === exchangeAccountId)
       && match market with Some m => ord_market candidate === m | None => true end
       && includes ACTIVE_ORDER_STATUSES (ord_status candidate)) (orders r)))).

Definition validateCandidateOrderReadLimit (limit : Z) : outcome unit :=
  throw_if (negb (isSafeInteger limit) || (limit <=? 0)%Z)
    "Candidate submission-blocking order read limit must be a positive safe integer.".

(** The order keeps its account from submitting. *)
Definition blocks (exchangeAccountId : string) (r : repository) (candidate : OrderRecord) : bool :=
  (ord_exchangeAccountId candidate === exchangeAccountId)
  && includes SUBMISSION_BLOCKING_CANDIDATE_STATUSES (ord_status candidate)
  && blocking (classifySubmissionBlockingOrder
       (blocking_evidence candidate (orderEvents r) (orderSubmissionRecoveryObservations r))).

Definition compare_blocking (left right : OrderRecord) : comparison :=
  match localeCompare (ord_updatedAt right) (ord_updatedAt left) with
  | Eq => localeCompare (ord_id right) (ord_id left)
  | c => c
  end.

Definition listSubmissionBlockingOrders (exchangeAccountId : string) (limit : Z)
    : action repository (list OrderRecord) :=
  _ ← act_lift (validateCandidateOrderReadLimit limit);
  act_gets (fun r => take (Z.to_nat limit)
    (js_sort compare_blocking (List.filter (blocks exchangeAccountId r) (orders r)))).

Definition listCandidateSubmissionBlockingOrders (exchangeAccountId : string) (limit : Z)
    : action repository (list OrderRecord) :=
  listSubmissionBlockingOrders exchangeAccountId limit.

Definition listOrders (exchangeAccountId : string) : action repository (list OrderRecord) :=
  act_gets (fun r => List.filter (fun candidate =>
    ord_exchangeAccountId candidate === exchangeAccountId) (orders r)).

Definition listOrderEvents (orderId : string) : action repository (list OrderEventRecord) :=
  act_gets (fun r => js_sort (fun left right => localeCompare (oe_createdAt left) (oe_createdAt right))
    (events_of_order orderId (orderEvents r))).

Definition listFills (orderId : option string) : action repository (list FillRecord) :=
  act_gets (fun r => match orderId with
                     | Some id => if id === "" then fills r else fills_of_order id (fills r)
                     | None => fills r
                     end).

(** [left.observedAtEpochMs - right.observedAtEpochMs || left.id.localeCompare(right.id)] *)
Definition compare_recovery (left right : OrderSubmissionRecoveryObservationRecord) : comparison :=
  match (obs_observedAtEpochMs left ?= obs_observedAtEpochMs right)%Z with
  | Eq => localeCompare (obs_id left) (obs_id right)
  | c => c
  end.

Definition listOrderSubmissionRecoveryObservations (orderId : string)
    : action repository (list OrderSubmissionRecoveryObservationRecord) :=
  act_gets (fun r => js_sort compare_recovery
    (List.filter (fun candidate => obs_orderId candidate === orderId)
       (orderSubmissionRecoveryObservations r))).

Definition listRiskEvents (exchangeAccountId : string) (limit : option nat)
    : action repository (list RiskEventRecord) :=
  act_gets (fun r => take_limit limit
    (js_sort (fun left right => localeCompare (re_createdAt right) (re_createdAt left))
       (List.filter (fun candidate => re_exchangeAccountId candidate === exchangeAccountId)
          (riskEvents r)))).

Definition getLatestStrategyDecision (exchangeAccountId : string) (market : SupportedMarket)
    (strategyKey : option string) : action repository (option StrategyDecisionRecord) :=
  act_gets (fun r => head
    (js_sort (fun left right => localeCompare (sd_createdAt right) (sd_createdAt left))
       (List.filter (fun candidate =>
          (sd_exchangeAccountId candidate === exchangeAccountId)
          && (sd_market candidate === market)
          && match strategyKey with Some key => sd_strategyKey candidate === key | None => true end)
          (strategyDecisions r)))).

Definition getStrategyDecisionById (id : string)
    : action repository (option StrategyDecisionRecord) :=
  act_gets (fun r => find_decision (Some id) (strategyDecisions r)).

End Repository.
