(* ===== verification/OrderTheory.v ===== *)
(** * OrderTheory: what the order repository keeps true

    Every operation of the repository is all or nothing and is one of a few
    steps ([order_step]); the steps keep orders, events and fills unique and
    consistent, and never change an order's identity.  The last section runs
    the operations in any sequence. *)

From Stdlib Require Import ZArith Lia Ascii.
From stdpp Require Import base option list strings gmap relations.
From S2P Require Import Prelude Num Types Text Timestamp NumText CandidateState.
From S2P Require Import ExactState SubmissionBlocking OperatorState PilotRecords PilotRepository.
From S2P Require Import OrderRecords OrderRepository.

Local Open Scope string_scope.
Local Open Scope js_scope.
Local Open Scope bool_scope.

(** ** The identity of an order *)

(** An order without what its life changes. *)
Definition identity (o : OrderRecord) : OrderRecord := {|
  ord_id := ord_id o;
  ord_strategyDecisionId := ord_strategyDecisionId o;
  ord_exchangeAccountId := ord_exchangeAccountId o;
  ord_market := ord_market o;
  ord_side := ord_side o;
  ord_ordType := ord_ordType o;
  ord_volume := ord_volume o;
  ord_price := ord_price o;
  ord_timeInForce := ord_timeInForce o;
  ord_smpType := ord_smpType o;
  ord_identifier := ord_identifier o;
  ord_idempotencyKey := ord_idempotencyKey o;
  ord_origin := ord_origin o;
  ord_requestedAt := ord_requestedAt o;
  ord_upbitUuid := None;
  ord_status := OrderStatus.INTENT_CREATED;
  ord_executionMode := ord_executionMode o;
  ord_exchangeResponseJson := None;
  ord_failureCode := None;
  ord_failureMessage := None;
  ord_createdAt := ord_createdAt o;
  ord_updatedAt := "";
|}.

Lemma validate_identity_iff a b : validateOrderIdentity a b = Ret tt <-> identity a = identity b.
Proof.
  destruct a, b. unfold validateOrderIdentity, changed_identity_fields, identity. cbn.
  rewrite throw_if_bind_Ret.
  repeat (rewrite throw_if_bind_Ret || setoid_rewrite throw_if_bind_Ret).
  split.
  - intros H. repeat match goal with H : _ /\ _ |- _ => destruct H as [? H] end.
    destruct_bools. by simplify_eq.
  - intros [=]. simplify_eq. by rewrite !bool_decide_eq_true_2 by done.
Qed.

(** What the identity determines. *)
Lemma identity_fields a b : identity a = identity b ->
  ord_id a = ord_id b /\ ord_identifier a = ord_identifier b /\
  ord_exchangeAccountId a = ord_exchangeAccountId b /\
  ord_idempotencyKey a = ord_idempotencyKey b /\
  ord_market a = ord_market b /\ ord_side a = ord_side b.
Proof. destruct a, b. intros [=]. by simplify_eq. Qed.

(** ** Lookups and replacement *)

Lemma find_some_iff {A} (p : A -> bool) l x : List.find p l = Some x -> x ∈ l /\ p x = true.
Proof. intros H. apply List.find_some in H. by rewrite list_elem_of_In. Qed.

Lemma find_none_iff {A} (p : A -> bool) l : List.find p l = None <-> forall x, x ∈ l -> p x = false.
Proof.
  split.
  - intros H x Hx. eapply List.find_none; [exact H|]. by apply list_elem_of_In.
  - intros H. destruct (List.find p l) as [x|] eqn:Hf; [|done].
    apply find_some_iff in Hf as [Hx Hp]. by rewrite (H _ Hx) in Hp.
Qed.

Lemma find_app_none {A} (p : A -> bool) l l' :
  List.find p l = None -> List.find p (l ++ l')%list = List.find p l'.
Proof.
  induction l as [|x l IH]; [done|]. cbn. destruct (p x); [done|]. apply IH.
Qed.

Lemma find_order_some id l o : find_order id l = Some o -> o ∈ l /\ ord_id o = id.
Proof. intros [Hx Hp]%find_some_iff. by apply bool_decide_eq_true in Hp. Qed.

Lemma find_order_none id l : find_order id l = None <-> id ∉ (ord_id <$> l).
Proof.
  unfold find_order. rewrite find_none_iff. split.
  - intros H (o & -> & Ho)%list_elem_of_fmap. specialize (H _ Ho).
    by apply bool_decide_eq_false in H.
  - intros H o Ho. apply bool_decide_eq_false. intros <-. apply H, list_elem_of_fmap. by exists o.
Qed.

Lemma find_event_none id l : find_event id l = None <-> id ∉ (oe_id <$> l).
Proof.
  unfold find_event. rewrite find_none_iff. split.
  - intros H (o & -> & Ho)%list_elem_of_fmap. specialize (H _ Ho).
    by apply bool_decide_eq_false in H.
  - intros H o Ho. apply bool_decide_eq_false. intros <-. apply H, list_elem_of_fmap. by exists o.
Qed.

(** Replacing an order by one that agrees on [g] keeps the values of [g]. *)
Lemma fmap_replace_order {A} (g : OrderRecord -> A) next l :
  (forall c, c ∈ l -> ord_id c = ord_id next -> g c = g next) ->
  g <$> replace_order next l = g <$> l.
Proof.
  unfold replace_order. induction l as [|c l IH]; intros H; [done|]. cbn.
  rewrite IH by (intros c' Hc'; apply H; by right). f_equal.
  destruct (bool_decide_reflect (ord_id c = ord_id next)) as [He|]; [|done].
  symmetry. apply H; [left|done].
Qed.

Lemma assign_order_replace next l :
  NoDup (ord_id <$> l) -> ord_id next ∈ (ord_id <$> l) ->
  assign_order next l = replace_order next l.
Proof.
  unfold replace_order. induction l as [|c l IH]; cbn.
  - by intros _ ?%elem_of_nil.
  - intros [Hc Hl]%NoDup_cons Hin.
    destruct (bool_decide_reflect (ord_id c = ord_id next)) as [He|Hne].
    + f_equal. symmetry. etransitivity; [|apply List.map_id]. apply List.map_ext_in.
      intros c' Hc'. rewrite bool_decide_eq_false_2; [done|]. intros He'. apply Hc.
      rewrite He, <- He'. apply list_elem_of_fmap. exists c'. by rewrite list_elem_of_In.
    + f_equal. apply IH; [done|]. apply elem_of_cons in Hin as [Heq|]; [by rewrite Heq in Hne|done].
Qed.

Lemma find_replace_order next l o :
  find_order (ord_id next) l = Some o -> find_order (ord_id next) (replace_order next l) = Some next.
Proof.
  unfold find_order, replace_order. induction l as [|c l IH]; [done|]. cbn.
  destruct (bool_decide_reflect (ord_id c = ord_id next)) as [He|Hne]; cbn.
  - by rewrite bool_decide_eq_true_2.
  - rewrite bool_decide_eq_false_2 by done. exact IH.
Qed.

Lemma find_replace_other next l id :
  id <> ord_id next -> find_order id (replace_order next l) = find_order id l.
Proof.
  unfold find_order, replace_order. intros Hne. induction l as [|c l IH]; [done|]. cbn.
  destruct (bool_decide_reflect (ord_id c = ord_id next)) as [He|Hn]; cbn.
  - rewrite !bool_decide_eq_false_2 by congruence. exact IH.
  - by rewrite IH.
Qed.

(** Distinct images come from distinct places. *)
Lemma NoDup_fmap_inj_in {A B} (g : A -> B) l x y :
  NoDup (g <$> l) -> x ∈ l -> y ∈ l -> g x = g y -> x = y.
Proof.
  induction l as [|z l IH]; cbn; [by intros _ ?%elem_of_nil|].
  intros [Hz Hl]%NoDup_cons [->|Hx]%elem_of_cons [->|Hy]%elem_of_cons He; [done| | |by apply IH].
  - exfalso. apply Hz. rewrite He. apply list_elem_of_fmap. by exists y.
  - exfalso. apply Hz. rewrite <- He. apply list_elem_of_fmap. by exists x.
Qed.

Lemma unique_order l o c : NoDup (ord_id <$> l) -> o ∈ l -> c ∈ l -> ord_id c = ord_id o -> c = o.
Proof. intros. by apply (NoDup_fmap_inj_in ord_id l). Qed.

(** A stored order is found by its identifier. *)
Lemma find_order_elem l o : NoDup (ord_id <$> l) -> o ∈ l -> find_order (ord_id o) l = Some o.
Proof.
  intros Hnd Ho. destruct (find_order (ord_id o) l) as [c|] eqn:Hf.
  - apply find_order_some in Hf as [Hc He]. f_equal. by apply (unique_order l).
  - exfalso. apply find_order_none in Hf. apply Hf, list_elem_of_fmap. by exists o.
Qed.

Lemma filter_nil_iff {A} (p : A -> bool) l : List.filter p l = [] <-> forall x, x ∈ l -> p x = false.
Proof.
  induction l as [|x l IH]; cbn.
  - split; [by intros _ ? ?%elem_of_nil|done].
  - destruct (p x) eqn:Hp; split.
    + done.
    + intros H. specialize (H x). rewrite H in Hp; [done|left].
    + intros H y [->|Hy]%elem_of_cons; [done|]. by apply IH.
    + intros H. apply IH. intros y Hy. apply H. by right.
Qed.

Lemma length_zero_nil {A} (l : list A) : (length l =? 0)%nat = true -> l = [].
Proof. by destruct l. Qed.

(** ** The uniqueness check *)

Lemma foldM_unit {A} (f : A -> outcome unit) l :
  foldM_outcome (fun _ x => f x) tt l = Ret tt <-> forall x, x ∈ l -> f x = Ret tt.
Proof.
  induction l as [|x l IH]; cbn.
  - split; [by intros _ ? ?%elem_of_nil|done].
  - rewrite bind_Ret. split.
    + intros ([] & Hx & Hl) y [->|Hy]%elem_of_cons; [done|]. by apply IH.
    + intros H. exists tt. split; [apply H; left|]. apply IH. intros y Hy. apply H. by right.
Qed.

Lemma uniqueness_iff l next : validateNewOrderUniqueness l next = Ret tt <->
  forall o, o ∈ l -> ord_id o <> ord_id next /\ ord_identifier o <> ord_identifier next /\
    (ord_exchangeAccountId o, ord_idempotencyKey o)
      <> (ord_exchangeAccountId next, ord_idempotencyKey next).
Proof.
  unfold validateNewOrderUniqueness. rewrite foldM_unit. apply forall_proper. intros o.
  rewrite !throw_if_bind_Ret, throw_if_Ret, andb_false_iff, !bool_decide_eq_false.
  assert (Hpair : (ord_exchangeAccountId o <> ord_exchangeAccountId next \/
                   ord_idempotencyKey o <> ord_idempotencyKey next) <->
    (ord_exchangeAccountId o, ord_idempotencyKey o)
      <> (ord_exchangeAccountId next, ord_idempotencyKey next)).
  { destruct (decide (ord_exchangeAccountId o = ord_exchangeAccountId next));
      split; [intros [?|?] [=]|intros H; right|intros _ [=]|by left]; congruence. }
  by rewrite Hpair.
Qed.

(** ** Fills *)

Definition fill_key (f : FillRecord) : string * string := (fill_orderId f, fill_exchangeFillId f).

(** Fills of one order, pairwise distinct, and no match for any stored fill. *)
Record fills_of (order : OrderRecord) (l stored : list FillRecord) : Prop := {
  fo_order : forall f, f ∈ l ->
    fill_orderId f = ord_id order /\ fill_market f = ord_market order /\ fill_side f = ord_side order;
  fo_ids : NoDup (fill_id <$> l);
  fo_keys : NoDup (fill_key <$> l);
  fo_new : forall f s, f ∈ l -> s ∈ stored -> same_fill f s = false;
}.

Lemma same_fill_false f s :
  same_fill f s = false <-> fill_id s <> fill_id f /\ fill_key s <> fill_key f.
Proof.
  unfold same_fill, fill_key. rewrite orb_false_iff, andb_false_iff, !bool_decide_eq_false.
  split.
  - intros [? H]. split; [done|]. intros [=]. by destruct H.
  - intros [? H]. split; [done|].
    destruct (decide (fill_orderId s = fill_orderId f)); [right|by left]. congruence.
Qed.

Lemma findStoredFill_none stored f :
  findStoredFill stored f = Ret None <-> forall s, s ∈ stored -> same_fill f s = false.
Proof.
  rewrite <- filter_nil_iff. unfold findStoredFill.
  by destruct (List.filter _ _) as [|? [|]].
Qed.

Lemma findStoredFill_some stored f s :
  findStoredFill stored f = Ret (Some s) -> s ∈ stored /\ same_fill f s = true.
Proof.
  unfold findStoredFill. destruct (List.filter _ _) as [|s' [|]] eqn:Hf; [done| |done].
  intros [= ->]. assert (Hin : In s (List.filter (same_fill f) stored)) by (rewrite Hf; by left).
  apply List.filter_In in Hin. by rewrite list_elem_of_In.
Qed.

(** Two fills of one order have one exchange identity when they have one key. *)
Lemma exchange_identity_key order f g :
  fill_orderId f = ord_id order -> fill_orderId g = ord_id order ->
  fill_key f = fill_key g -> fillExchangeIdentity f = fillExchangeIdentity g.
Proof. intros _ _ [= H1 H2]. unfold fillExchangeIdentity. by rewrite H1, H2. Qed.

Lemma includes_false (l : list string) x : includes l x = false <-> x ∉ l.
Proof. by rewrite <- (includes_true l x), not_true_iff_false. Qed.

(** The body of both loops over fills: what each lets through. *)
Lemma distinct_fills (loop : list string -> list string -> list FillRecord -> outcome unit) order :
  (forall ids exs, loop ids exs [] = Ret tt) ->
  (forall ids exs f rest, loop ids exs (f :: rest) = Ret tt ->
     fill_orderId f = ord_id order /\ fill_market f = ord_market order /\
     fill_side f = ord_side order /\ fill_id f ∉ ids /\ fillExchangeIdentity f ∉ exs /\
     loop (fill_id f :: ids) (fillExchangeIdentity f :: exs) rest = Ret tt) ->
  forall l ids exs, loop ids exs l = Ret tt ->
    fills_of order l [] /\
    (forall f, f ∈ l -> fill_id f ∉ ids /\ fillExchangeIdentity f ∉ exs).
Proof.
  intros Hnil Hcons. induction l as [|f l IH]; intros ids exs Hl.
  - split; [split|]; try (by intros ? ?%elem_of_nil); try apply NoDup_nil_2.
    by intros ? ? ?%elem_of_nil.
  - apply Hcons in Hl as (Ho & Hm & Hs & Hi & He & Hl).
    destruct (IH _ _ Hl) as [[Hord Hids Hkeys _] Hout]. split; [split|].
    + intros g [->|Hg]%elem_of_cons; [done|by apply Hord].
    + apply NoDup_cons. split; [|done]. intros (g & Heq & Hg)%list_elem_of_fmap.
      apply (proj1 (Hout g Hg)). rewrite <- Heq. left.
    + apply NoDup_cons. split; [|done]. intros (g & Heq & Hg)%list_elem_of_fmap.
      apply (proj2 (Hout g Hg)). destruct (Hord g Hg) as (Hgo & _).
      rewrite <- (exchange_identity_key order f g) by done. left.
    + by intros ? ? _ ?%elem_of_nil.
    + intros g [->|Hg]%elem_of_cons; [done|]. destruct (Hout g Hg) as [H1 H2].
      split; [intros H; apply H1; by right | intros H; apply H2; by right].
Qed.

Lemma validateFills_distinct order l : validateFills order l = Ret tt -> fills_of order l [].
Proof.
  intros H. refine (proj1 (distinct_fills (validateFills_from order) order
    _ _ l [] [] H)); [done|].
  intros ids exs f rest. cbn. rewrite throw_if_bind_Ret. intros [Hg Hrest]. destruct_bools.
  split_and!; try done; by apply includes_false.
Qed.

Lemma validateFillForOrder_fields order f :
  validateFillForOrder order f = Ret tt ->
  fill_orderId f = ord_id order /\ fill_market f = ord_market order /\ fill_side f = ord_side order.
Proof.
  unfold validateFillForOrder. rewrite throw_if_bind_Ret. intros [Hg _]. by destruct_bools.
Qed.

Lemma validateSnapshotFills_distinct order l :
  validateSnapshotFills order [] [] l = Ret tt -> fills_of order l [].
Proof.
  intros H. refine (proj1 (distinct_fills (validateSnapshotFills order) order
    _ _ l [] [] H)); [done|].
  intros ids exs f rest. cbn. intros ([] & Hf & Hg)%bind_Ret.
  apply validateFillForOrder_fields in Hf as (? & ? & ?).
  apply throw_if_bind_Ret in Hg as [Hg Hrest]. destruct_bools.
  split_and!; try done; by apply includes_false.
Qed.

(** ** Steps *)

(** The environment's promises: an operation of it that throws changed
    nothing, and preparing a binding changes nothing. *)
Class ExecutionEnvironmentLaws (E : Type) {HE : ExecutionEnvironment E} : Prop := {
  law_env_pause : forall input e e' m,
    env_applyFaultPauseAtomically input e = (e', Throw m) -> e' = e;
  law_env_prepare : forall b e, fst (env_prepareCandidateBoundOrderIntent b e) = e;
  law_env_commit : forall b e p e' m,
    snd (env_prepareCandidateBoundOrderIntent b e) = Ret p ->
    pi_commitBinding p e = (e', Throw m) -> e' = e;
}.

Section Steps.
Context (sha256 : string -> string).
Context {E : Type} {HE : ExecutionEnvironment E} {HL : ExecutionEnvironmentLaws E}.

Abbreviation repository := (InMemoryExecutionRepository E).

(** Events no stored event shares an identifier with. *)
Record events_new (l stored : list OrderEventRecord) : Prop := {
  en_ids : NoDup (oe_id <$> l);
  en_new : forall e, e ∈ l -> oe_id e ∉ (oe_id <$> stored);
}.

Inductive order_step (r : repository) : repository -> Prop :=
| step_environment env : order_step r (set_environment env r)
| step_decisions d : order_step r (set_decisions (strategyDecisions r ++ [d])%list r)
| step_observations o :
    order_step r (set_observations (orderSubmissionRecoveryObservations r ++ [o])%list r)
| step_risk_events e : order_step r (set_risk_events (riskEvents r ++ [e])%list r)
| step_new_order order events :
    validateNewOrderUniqueness (orders r) order = Ret tt ->
    events_new events (orderEvents r) ->
    order_step r (assign (orders r ++ [order])%list (orderEvents r ++ events)%list
                    (fills r) (riskEvents r) r)
| step_change order next events new_fills risks :
    find_order (ord_id next) (orders r) = Some order -> identity order = identity next ->
    events_new events (orderEvents r) -> fills_of order new_fills (fills r) ->
    order_step r (assign (replace_order next (orders r)) (orderEvents r ++ events)%list
                    (fills r ++ new_fills)%list (riskEvents r ++ risks)%list r)
| step_event event :
    events_new [event] (orderEvents r) ->
    order_step r (set_events (orderEvents r ++ [event])%list r).

Abbreviation order_steps := (rtc order_step).

(** What the steps keep true. *)
Record repository_ok (r : repository) : Prop := {
  ok_order_ids : NoDup (ord_id <$> orders r);
  ok_identifiers : NoDup (ord_identifier <$> orders r);
  ok_idempotency :
    NoDup ((fun o => (ord_exchangeAccountId o, ord_idempotencyKey o)) <$> orders r);
  ok_event_ids : NoDup (oe_id <$> orderEvents r);
  ok_fill_ids : NoDup (fill_id <$> fills r);
  ok_fill_keys : NoDup (fill_key <$> fills r);
  ok_fill_order : forall f, f ∈ fills r -> exists o,
    find_order (fill_orderId f) (orders r) = Some o /\
    fill_market f = ord_market o /\ fill_side f = ord_side o;
}.

Lemma NoDup_snoc {A} (l : list A) x : NoDup l -> x ∉ l -> NoDup (l ++ [x])%list.
Proof.
  intros Hl Hx. apply NoDup_app. split_and!; [done| |apply NoDup_singleton].
  intros y Hy Hyx%list_elem_of_singleton. by subst.
Qed.

Lemma NoDup_fmap_app {A B} (g : A -> B) (l l' : list A) :
  NoDup (g <$> l) -> NoDup (g <$> l') -> (forall x y, x ∈ l -> y ∈ l' -> g x <> g y) ->
  NoDup (g <$> (l ++ l')%list).
Proof.
  intros Hl Hl' Hne. rewrite fmap_app. apply NoDup_app. split_and!; [done| |done].
  intros b (x & -> & Hx)%list_elem_of_fmap (y & Heq & Hy)%list_elem_of_fmap.
  by apply (Hne x y).
Qed.

(** Replacing an order changes no value its identity determines. *)
Lemma replace_keeps {A} (g : OrderRecord -> A) (l : list OrderRecord) order next :
  (forall a b, identity a = identity b -> g a = g b) -> NoDup (ord_id <$> l) ->
  find_order (ord_id next) l = Some order -> identity order = identity next ->
  g <$> replace_order next l = g <$> l.
Proof.
  intros Hg Hnd Hf Hid. apply fmap_replace_order. intros c Hc He.
  apply find_order_some in Hf as [Ho Heo]. rewrite <- (Hg order next Hid). f_equal.
  apply (unique_order l); congruence.
Qed.

Lemma find_order_app id l l' o : find_order id l = Some o -> find_order id (l ++ l')%list = Some o.
Proof.
  unfold find_order. induction l as [|c l IH]; [done|]. cbn. by destruct (bool_decide _).
Qed.

Lemma repository_ok_new order events (r : repository) :
  validateNewOrderUniqueness (orders r) order = Ret tt -> events_new events (orderEvents r) ->
  repository_ok r ->
  repository_ok (assign (orders r ++ [order])%list (orderEvents r ++ events)%list
                   (fills r) (riskEvents r) r).
Proof.
  intros Hu [Hids Hnew] [H1 H2 H3 H4 H5 H6 H7].
  pose proof (proj1 (uniqueness_iff _ _) Hu) as Hu'. clear Hu. rename Hu' into Hu.
  split; cbn; try done.
  - apply NoDup_fmap_app; [done|apply NoDup_singleton|].
    intros o ? Ho ->%list_elem_of_singleton. by destruct (Hu o Ho).
  - apply NoDup_fmap_app; [done|apply NoDup_singleton|].
    intros o ? Ho ->%list_elem_of_singleton. by destruct (Hu o Ho) as (_ & ? & _).
  - apply NoDup_fmap_app; [done|apply NoDup_singleton|].
    intros o ? Ho ->%list_elem_of_singleton. by destruct (Hu o Ho) as (_ & _ & ?).
  - apply NoDup_fmap_app; [done..|]. intros x y Hx Hy Heq. apply (Hnew y Hy).
    rewrite <- Heq. apply list_elem_of_fmap. by exists x.
  - intros f Hf. destruct (H7 f Hf) as (o & Ho & Hrest). exists o. split; [|done].
    by apply find_order_app.
Qed.

Lemma repository_ok_change order next events new_fills risks (r : repository) :
  find_order (ord_id next) (orders r) = Some order -> identity order = identity next ->
  events_new events (orderEvents r) -> fills_of order new_fills (fills r) ->
  repository_ok r ->
  repository_ok (assign (replace_order next (orders r)) (orderEvents r ++ events)%list
                   (fills r ++ new_fills)%list (riskEvents r ++ risks)%list r).
Proof.
  intros Hf Hid [He Hnew] [Hfo Hids Hkeys Hfresh] [H1 H2 H3 H4 H5 H6 H7].
  assert (Hkeep : forall (A : Type) (g : OrderRecord -> A),
    (forall a b, identity a = identity b -> g a = g b) ->
    g <$> replace_order next (orders r) = g <$> orders r)
    by (intros A g Hg; by apply (replace_keeps g _ order)).
  split; cbn.
  - rewrite (Hkeep _ ord_id); [done|]. by intros a b (? & _)%identity_fields.
  - rewrite (Hkeep _ ord_identifier); [done|]. by intros a b (_ & ? & _)%identity_fields.
  - rewrite Hkeep; [done|]. intros a b (_ & _ & -> & -> & _)%identity_fields. done.
  - apply NoDup_fmap_app; [done..|]. intros x y Hx Hy Heq. apply (Hnew y Hy).
    rewrite <- Heq. apply list_elem_of_fmap. by exists x.
  - apply NoDup_fmap_app; [done..|]. intros x y Hx Hy.
    by apply (proj1 (same_fill_false y x)), Hfresh.
  - apply NoDup_fmap_app; [done..|]. intros x y Hx Hy.
    by apply (proj1 (same_fill_false y x)), Hfresh.
  - assert (Hmove : forall f o, find_order (fill_orderId f) (orders r) = Some o ->
      fill_market f = ord_market o -> fill_side f = ord_side o ->
      exists o', find_order (fill_orderId f) (replace_order next (orders r)) = Some o' /\
        fill_market f = ord_market o' /\ fill_side f = ord_side o').
    { intros f o Ho Hm Hs. destruct (decide (fill_orderId f = ord_id next)) as [Heq|Hne].
      - exists next. rewrite Heq in Ho |- *. rewrite Hf in Ho. injection Ho as <-.
        apply identity_fields in Hid as (_ & _ & _ & _ & ? & ?).
        split_and!; [by eapply find_replace_order|congruence..].
      - exists o. by rewrite find_replace_other. }
    intros f [Hin|Hin]%elem_of_app.
    + destruct (H7 f Hin) as (o & Ho & Hm & Hs). by apply (Hmove f o).
    + destruct (Hfo f Hin) as (Ho & Hm & Hs). apply (Hmove f order); [|done..].
      apply find_order_some in Hf as Hfe. by rewrite Ho, (proj2 Hfe).
Qed.

Lemma repository_ok_step (r r' : repository) : order_step r r' -> repository_ok r -> repository_ok r'.
Proof.
  intros Hs Hr. destruct Hs as [env|l|l|l|order event Hu He|order next events nf risks Hf Hid He Hfo|event He].
  1-4: by destruct Hr.
  - by apply repository_ok_new.
  - by eapply repository_ok_change.
  - destruct Hr as [H1 H2 H3 H4 H5 H6 H7], He as [_ Hnew]. split; cbn; try done.
    rewrite fmap_app. apply NoDup_snoc; [done|]. apply Hnew. left.
Qed.

Lemma repository_ok_steps (r r' : repository) : order_steps r r' -> repository_ok r -> repository_ok r'.
Proof. induction 1; eauto using repository_ok_step. Qed.

(** ** Every operation is a sequence of steps *)

Lemma set_environment_same (r : repository) : set_environment (environment r) r = r.
Proof. by destruct r. Qed.

Lemma on_environment_bind {A B} (f : action E A) (k : A -> action repository B) r :
  (x ← on_environment f; k x) r =
  match f (environment r) with
  | (e, Ret v) => k v (set_environment e r)
  | (e, Throw m) => (set_environment e r, Throw m)
  end.
Proof. rewrite act_bind_eq. unfold on_environment. by destruct (f (environment r)) as [e [v|m]]. Qed.

(** Preparing a binding does not change the repository. *)
Lemma prepare_bind {B} binding (k : PreparedIntent E -> action repository B) r :
  (x ← on_environment (env_prepareCandidateBoundOrderIntent binding); k x) r =
  match snd (env_prepareCandidateBoundOrderIntent binding (environment r)) with
  | Ret p => k p r
  | Throw m => (r, Throw m)
  end.
Proof.
  rewrite on_environment_bind. pose proof (law_env_prepare binding (environment r)) as H.
  destruct (env_prepareCandidateBoundOrderIntent binding (environment r)) as [e [p|m]].
  - cbn in *. subst e. by rewrite set_environment_same.
  - cbn in *. subst e. by rewrite set_environment_same.
Qed.

(** A conflict check that passes when no record of the type exists yet finds
    the identifier free. *)
Lemma no_conflict_new (event : OrderEventRecord) (stored : list OrderEventRecord) label id order
    (p : OrderEventRecord -> bool) :
  assertNoConflictingRecord (find_event (oe_id event) stored) event label id = Ret tt ->
  oe_orderId event = ord_id order -> p event = true ->
  List.filter p (events_of_order (ord_id order) stored) = [] ->
  oe_id event ∉ (oe_id <$> stored).
Proof.
  unfold assertNoConflictingRecord. rewrite throw_if_Ret. intros Hc Ho Hp Hnone.
  apply find_event_none. destruct (find_event (oe_id event) stored) as [e|] eqn:Hf; [|done].
  exfalso. apply negb_false_iff, bool_decide_eq_true in Hc. subst e.
  apply find_some_iff in Hf as [Hin _].
  assert (Hp' : p event = false); [|by rewrite Hp in Hp'].
  eapply filter_nil_iff; [exact Hnone|]. apply list_elem_of_In, List.filter_In.
  rewrite <- list_elem_of_In. by rewrite bool_decide_eq_true.
Qed.

Lemma events_new_singleton event (stored : list OrderEventRecord) :
  oe_id event ∉ (oe_id <$> stored) -> events_new [event] stored.
Proof.
  intros H. split; [apply NoDup_singleton|]. by intros e ->%list_elem_of_singleton.
Qed.

Lemma order_event_fields order event type source :
  validateOrderEvent order event type source = Ret tt ->
  oe_orderId event = ord_id order /\ oe_eventType event = type /\ oe_eventSource event = source.
Proof. unfold validateOrderEvent. rewrite throw_if_Ret. intros H. by destruct_bools. Qed.

Lemma no_fills_of order (stored : list FillRecord) : fills_of order [] stored.
Proof. split; try apply NoDup_nil_2; by intros ? ?%elem_of_nil || intros ? ? ?%elem_of_nil. Qed.

(** A step that changes one order, adds some events and no fills. *)
Lemma step_order order next events risks (r : repository) :
  find_order (ord_id next) (orders r) = Some order -> identity order = identity next ->
  events_new events (orderEvents r) ->
  order_step r (assign (replace_order next (orders r)) (orderEvents r ++ events)%list
                  (fills r) (riskEvents r ++ risks)%list r).
Proof.
  intros Hf Hid He. rewrite <- (app_nil_r (fills r)).
  eapply (step_change r order next events []); eauto using no_fills_of.
Qed.

Lemma persistOrderIntent_steps input (r : repository) :
  order_steps r (fst (persistOrderIntent input r)).
Proof.
  unfold persistOrderIntent. rewrite act_lift_bind.
  destruct (validateOrderIntentInput input); [|apply rtc_refl].
  rewrite !act_gets_bind. cbv beta. destruct (find_order _ _); [apply rtc_refl|].
  rewrite act_lift_bind. destruct (throw_if _ _) as [[]|] eqn:He in |- *; [|apply rtc_refl].
  rewrite act_gets_bind. cbv beta. rewrite act_lift_bind.
  destruct (validateNewOrderUniqueness _ _) as [[]|] eqn:Hu; [|apply rtc_refl].
  apply rtc_once, step_new_order; [done|]. apply events_new_singleton, find_event_none.
  apply throw_if_Ret, bool_decide_eq_false, eq_None_not_Some in He. done.
Qed.

(** The classification of what exists lets a new intent through only when its
    event is new. *)
Lemma classify_new input ordersById (events : list OrderEventRecord) k :
  classify_existing input ordersById
    (List.filter (fun candidate => oe_id candidate === oe_id (req_event input)) events)
    k = Ret false ->
  known_eventById k
    = head (List.filter (fun candidate => oe_id candidate === oe_id (req_event input)) events) ->
  oe_id (req_event input) ∉ (oe_id <$> events).
Proof.
  unfold classify_existing. intros H Hk. do 5 apply throw_if_bind_Ret in H as [_ H].
  destruct (_ && _) eqn:Hnone in H; [|by apply throw_if_bind_Ret in H as [_ [=]]].
  destruct_bools. apply find_event_none, find_none_iff, filter_nil_iff.
  destruct (List.filter _ events) as [|e l]; [done|]. cbn in Hk. congruence.
Qed.

Lemma persistCandidateBound_steps input (r : repository) :
  order_steps r (fst (persistCandidateBoundOrderIntent sha256 input r)).
Proof.
  unfold persistCandidateBoundOrderIntent. rewrite act_lift_bind.
  destruct (validateCandidateBoundOrderIntentRequestShape _ _); [|apply rtc_refl].
  rewrite act_gets_bind. cbv beta. rewrite act_lift_bind.
  destruct (throw_if _ _); [|apply rtc_refl].
  rewrite act_gets_bind. cbv beta. rewrite prepare_bind.
  destruct (snd _) as [p|]; [|apply rtc_refl].
  destruct (find_decision _ _) as [d|]; [|apply rtc_refl].
  destruct (pi_deployment p) as [dep|]; [|apply rtc_refl].
  destruct (pi_exactStateVersion p) as [v|]; [|apply rtc_refl].
  rewrite act_lift_bind. destruct (validateCandidateBoundOrderIntent _ _); [|apply rtc_refl].
  rewrite !act_gets_bind. cbv beta zeta. rewrite act_lift_bind.
  destruct (classify_existing _ _ _ _) as [retry|] eqn:Hc; [|apply rtc_refl].
  destruct retry.
  { unfold on_environment. destruct (pi_commitBinding p _) as [e out]. apply rtc_once, step_environment. }
  rewrite act_lift_bind.
  destruct (validateNewOrderUniqueness _ _) as [[]|] eqn:Hu; [|apply rtc_refl].
  rewrite on_environment_bind. destruct (pi_commitBinding p _) as [e [u|m]].
  - eapply rtc_l; [apply (step_environment r e)|]. apply rtc_once.
    apply (step_new_order (set_environment e r) (req_order input) [req_event input]); [done|].
    apply events_new_singleton. by eapply classify_new.
  - apply rtc_once, step_environment.
Qed.

(** *** Submissions *)

(** What the submission's validation says of the order and its events. *)
Record submission_shape (input : PersistExchangeSubmissionInput) : Prop := {
  ss_after : before_submission (ord_status (sub_order input)) = false;
  ss_order : oe_orderId (sub_event input) = ord_id (sub_order input);
  ss_type : is_submission_event (sub_event input) = true;
  ss_not_filled : has_type "ORDER_FILLED" (sub_event input) = false;
  ss_terminal : forall t, sub_terminalEvent input = Some t ->
    oe_id t <> oe_id (sub_event input) /\ oe_orderId t = ord_id (sub_order input) /\
    has_type "ORDER_FILLED" t = true /\ is_submission_event t = false;
  ss_fills : fills_of (sub_order input) (sub_fills input) [];
}.

Lemma submission_valid input :
  validateExchangeSubmissionInput input = Ret tt -> submission_shape input.
Proof.
  unfold validateExchangeSubmissionInput.
  intros (Hids & ([] & Hst & ([] & Hev & ([] & Hterm & Hfills)%bind_Ret)%bind_Ret)%bind_Ret)%throw_if_bind_Ret.
  apply order_event_fields in Hev as (Ho & Ht & _).
  assert (Hty : oe_eventType (sub_event input) = "ORDER_REJECTED" \/
                oe_eventType (sub_event input) = "ORDER_SUBMITTED")
    by (rewrite Ht; destruct (bool_decide _); auto).
  split; [|done| | | |by apply validateFills_distinct].
  - by destruct (ord_status (sub_order input)).
  - unfold is_submission_event, has_type. by destruct Hty as [-> | ->].
  - unfold has_type. by destruct Hty as [-> | ->].
  - intros t Hst'. rewrite Hst' in Hids, Hterm. apply bool_decide_eq_false in Hids.
    apply throw_if_bind_Ret in Hterm as [_ (? & Htt & _)%order_event_fields].
    unfold is_submission_event, has_type. by rewrite Htt.
Qed.

(** A lookup of every fill that finds nothing in conflict finds nothing at all
    when the order has no fills yet. *)
Lemma no_conflicting_fills order l (stored : list FillRecord) :
  assertNoConflictingFills stored l = Ret tt -> fills_of_order (ord_id order) stored = [] ->
  fills_of order l [] -> fills_of order l stored.
Proof.
  unfold assertNoConflictingFills. intros (existing & Hm & Hf)%bind_Ret Hnone [Ho Hi Hk _].
  split; try done. intros f s Hin Hs.
  assert (Hfind : findStoredFill stored f = Ret None); [|by eapply findStoredFill_none].
  clear Hi Hk. revert existing Hm Hf. induction l as [|g l IH]; [by apply elem_of_nil in Hin|].
  intros existing Hm Hf. cbn in Hm. apply bind_Ret in Hm as (e & He & Hm).
  apply bind_Ret in Hm as (es & Hes & [= <-]). cbn in Hf. apply bind_Ret in Hf as ([] & Hc & Hf).
  apply elem_of_cons in Hin as [->|Hin]; [|by apply (IH (fun f Hf => Ho f (list_elem_of_further _ _ _ Hf)) Hin es)].
  destruct e as [e|]; [|done]. exfalso.
  unfold assertNoConflictingRecord in Hc. apply throw_if_Ret, negb_false_iff, bool_decide_eq_true in Hc.
  subst e. apply findStoredFill_some in He as [He _].
  pose proof (proj1 (filter_nil_iff _ _) Hnone g He) as Hout.
  apply bool_decide_eq_false in Hout. apply Hout. by apply (Ho g); left.
Qed.

Lemma fills_of_same order order' l stored :
  ord_id order = ord_id order' -> ord_market order = ord_market order' ->
  ord_side order = ord_side order' -> fills_of order l stored -> fills_of order' l stored.
Proof. intros H1 H2 H3 [Ho Hi Hk Hn]. split; try done. by rewrite <- H1, <- H2, <- H3. Qed.

(** What a submission that applies found and writes. *)
Lemma submission_apply input existing (r : repository) :
  submission_shape input ->
  find_order (ord_id (sub_order input)) (orders r) = Some existing ->
  assertNoConflictingRecord (find_event (oe_id (sub_event input)) (orderEvents r))
    (sub_event input) "order event" (oe_id (sub_event input)) = Ret tt ->
  match sub_terminalEvent input with
  | Some t => assertNoConflictingRecord (find_event (oe_id t) (orderEvents r)) t
                "terminal order event" (oe_id t)
  | None => Ret tt
  end = Ret tt ->
  assertNoConflictingFills (fills r) (sub_fills input) = Ret tt ->
  validateExchangeSubmissionCompletion existing (sub_order input) input
    (events_of_order (ord_id (sub_order input)) (orderEvents r))
    (fills_of_order (ord_id (sub_order input)) (fills r)) = Ret APPLY ->
  identity existing = identity (sub_order input) /\
  events_new (sub_event input :: option_list (sub_terminalEvent input)) (orderEvents r) /\
  fills_of existing (sub_fills input) (fills r) /\
  List.filter is_submission_event (events_of_order (ord_id (sub_order input)) (orderEvents r)) = [] /\
  List.filter (has_type "ORDER_FILLED") (events_of_order (ord_id (sub_order input)) (orderEvents r)) = [] /\
  fills_of_order (ord_id (sub_order input)) (fills r) = [].
Proof.
  intros [Hafter Ho Hty Hnf Hterm Hfills] Hf Hev Htev Hfl.
  unfold validateExchangeSubmissionCompletion. intros ([] & Hid%validate_identity_iff & Hc)%bind_Ret.
  destruct (before_submission _) in Hc; [|by destruct (_ && _) in Hc].
  destruct (_ && _ && _) eqn:Hz in Hc; [|done]. destruct_bools.
  repeat match goal with H : (length _ =? 0)%nat = true |- _ => apply length_zero_nil in H end.
  split_and!; try done.
  - assert (Hnew : oe_id (sub_event input) ∉ (oe_id <$> orderEvents r))
      by (by eapply no_conflict_new).
    destruct (sub_terminalEvent input) as [t|] eqn:Ht; [|by apply events_new_singleton].
    destruct (Hterm t eq_refl) as (Hne & Hto & Htt & _).
    assert (Htnew : oe_id t ∉ (oe_id <$> orderEvents r)) by (by eapply no_conflict_new).
    split; cbn.
    + apply NoDup_cons. split; [by intros ?%list_elem_of_singleton|apply NoDup_singleton].
    + by intros e [->|[->|[]%elem_of_nil]%elem_of_cons]%elem_of_cons.
  - apply identity_fields in Hid as (Hi & _ & _ & _ & Hm & Hs).
    apply (fills_of_same (sub_order input)); [done..|]. by apply no_conflicting_fills.
Qed.

Lemma persistExchangeSubmission_steps raw (r : repository) :
  order_steps r (fst (persistExchangeSubmission raw r)).
Proof.
  unfold persistExchangeSubmission. cbv zeta. set (input := normalized_submission raw).
  rewrite act_lift_bind.
  destruct (validateExchangeSubmissionInput input) as [[]|] eqn:Hv; [|apply rtc_refl].
  rewrite act_gets_bind. cbv beta. destruct (find_order _ _) as [existing|] eqn:Hf; [|apply rtc_refl].
  rewrite act_lift_bind. destruct (assertSameAccount _ _); [|apply rtc_refl].
  rewrite !act_gets_bind. cbv beta. rewrite act_lift_bind.
  destruct (assertNoConflictingRecord _ (sub_event input) _ _) as [[]|] eqn:He; [|apply rtc_refl].
  rewrite act_lift_bind.
  destruct (match sub_terminalEvent input with Some _ => _ | None => _ end) as [[]|] eqn:Ht;
    [|apply rtc_refl].
  rewrite act_lift_bind.
  destruct (assertNoConflictingFills _ _) as [[]|] eqn:Hfl; [|apply rtc_refl].
  rewrite act_lift_bind.
  destruct (validateExchangeSubmissionCompletion _ _ _ _ _) as [[]|] eqn:Hc; [|apply rtc_refl..].
  destruct (submission_apply input existing r (submission_valid _ Hv) Hf He Ht Hfl Hc)
    as (Hid & Hen & Hfo & _).
  apply rtc_once. cbn [act_modify fst]. rewrite <- (app_nil_r (riskEvents r)).
  by eapply step_change.
Qed.

Lemma persistUncertainSubmission_steps input (r : repository) :
  order_steps r (fst (persistUncertainSubmission input r)).
Proof.
  unfold persistUncertainSubmission. cbv zeta. rewrite act_lift_bind.
  destruct (validateUncertainSubmissionInput input) as [[]|] eqn:Hv; [|apply rtc_refl].
  rewrite act_gets_bind. cbv beta. destruct (find_order _ _) as [existing|] eqn:Hf; [|apply rtc_refl].
  rewrite act_lift_bind. destruct (assertSameAccount _ _); [|apply rtc_refl].
  rewrite !act_gets_bind. cbv beta. rewrite act_lift_bind.
  destruct (assertNoConflictingRecord _ (unc_event input) _ _) as [[]|] eqn:He; [|apply rtc_refl].
  rewrite act_lift_bind.
  destruct (assertNoConflictingRecord _ (unc_riskEvent input) _ _); [|apply rtc_refl].
  rewrite act_lift_bind.
  destruct (validateUncertainSubmissionCompletion _ _ _ _ _) as [[]|] eqn:Hc; [|apply rtc_refl..].
  apply rtc_once. unfold validateUncertainSubmissionInput in Hv.
  do 2 apply throw_if_bind_Ret in Hv as [_ Hv]. apply bind_Ret in Hv as ([] & Hev & _).
  apply order_event_fields in Hev as (Ho & Hty & _).
  apply bind_Ret in Hc as ([] & Hid%validate_identity_iff & Hc).
  destruct (before_submission _) in Hc; [|by destruct (_ && _) in Hc].
  destruct (_ && _) eqn:Hz in Hc; [|done]. destruct_bools.
  apply (step_order existing); [done..|]. apply events_new_singleton.
  eapply (no_conflict_new _ _ _ _ _ (has_type "RECONCILIATION_RECOVERY_REQUIRED")); [done..| |].
  - unfold has_type. by apply bool_decide_eq_true.
  - by apply length_zero_nil.
Qed.

(** *** Reconciliation *)

(** The fills that are stored now: a part of the new ones, none of which had a
    stored match. *)
Lemma insertedFills_new order l (stored inserted : list FillRecord) :
  insertedFills stored l = Ret inserted -> fills_of order l [] -> fills_of order inserted stored.
Proof.
  unfold insertedFills. intros (resolved & Hm & [= <-])%bind_Ret.
  assert (Hsub : forall resolved, mapM_outcome (fun fill =>
      existing ← findStoredFill stored fill;
      resolution ← resolveImmutableFillReplay existing fill; Ret (fill, resolution)) l = Ret resolved ->
    sublist (fst <$> List.filter (fun '(_, resolution) => resolution === INSERT) resolved) l /\
    forall f, f ∈ (fst <$> List.filter (fun '(_, resolution) => resolution === INSERT) resolved) ->
      findStoredFill stored f = Ret None).
  { clear. induction l as [|f l IH]; cbn; intros resolved H.
    - injection H as <-. split; [constructor|by intros ? ?%elem_of_nil].
    - apply bind_Ret in H as (x & Hx & H). apply bind_Ret in Hx as (e & He & Hx).
      apply bind_Ret in Hx as (q & Hq & [= <-]). apply bind_Ret in H as (xs & Hxs & [= <-]).
      destruct (IH _ Hxs) as [Hs Hn]. cbn. destruct (bool_decide_reflect (q = INSERT)) as [->|]; cbn.
      + split; [by constructor|]. intros g [->|Hg]%elem_of_cons; [|by apply Hn].
        destruct e as [e|]; [|done]. cbn in Hq. by inv_outcome.
      + split; [by constructor|done]. }
  destruct (Hsub _ Hm) as [Hs Hn]. intros [Ho Hi Hk _]. split.
  - intros f Hf. apply Ho. by eapply elem_of_sublist.
  - eapply sublist_NoDup; [exact Hi|]. by apply fmap_sublist.
  - eapply sublist_NoDup; [exact Hk|]. by apply fmap_sublist.
  - intros f s Hf Hst. by eapply findStoredFill_none; [apply Hn|].
Qed.

Lemma persistReconciledSnapshot_steps raw (r : repository) :
  order_steps r (fst (persistReconciledExchangeSnapshot raw r)).
Proof.
  unfold persistReconciledExchangeSnapshot. cbv zeta. set (input := Build_PersistReconciledExchangeSnapshotInput _ _ _ _).
  rewrite act_lift_bind.
  destruct (validateReconciledExchangeSnapshotInput input) as [[]|] eqn:Hv; [|apply rtc_refl].
  rewrite act_gets_bind. cbv beta. destruct (find_order _ _) as [current|] eqn:Hf; [|apply rtc_refl].
  destruct (current !== _) eqn:Hcas; [apply rtc_refl|].
  apply negb_false_iff, bool_decide_eq_true in Hcas. subst current.
  rewrite !act_gets_bind. cbv beta. rewrite act_lift_bind.
  destruct (match snap_event input with Some _ => _ | None => _ end) as [[]|] eqn:He; [|apply rtc_refl].
  rewrite act_lift_bind.
  destruct (insertedFills _ _) as [inserted|] eqn:Hi; [|apply rtc_refl].
  rewrite act_modify_bind. cbn [act_ret fst mret action_ret].
  unfold validateReconciledExchangeSnapshotInput in Hv.
  apply bind_Ret in Hv as ([] & Hid%validate_identity_iff & Hv).
  apply throw_if_bind_Ret in Hv as [_ Hv]. apply bind_Ret in Hv as ([] & _ & Hfills).
  apply validateSnapshotFills_distinct in Hfills.
  apply rtc_once. rewrite <- (app_nil_r (riskEvents r)).
  eapply step_change; [done|done| |].
  - destruct (snap_event input) as [event|]; cbn; [|by split; [apply NoDup_nil_2|by intros ? ?%elem_of_nil]].
    destruct (find_event (oe_id event) (orderEvents r)) eqn:Hev;
      [by split; [apply NoDup_nil_2|by intros ? ?%elem_of_nil]|].
    by apply events_new_singleton, find_event_none.
  - apply identity_fields in Hid as (Hio & _ & _ & _ & Hm & Hs).
    eapply insertedFills_new; [exact Hi|]. by apply (fills_of_same (snap_order input)).
Qed.

Lemma persistRecovery_steps input (r : repository) :
  order_steps r (fst (persistReconciliationRecovery input r)).
Proof.
  unfold persistReconciliationRecovery. cbv zeta. rewrite act_lift_bind.
  destruct (validateReconciliationRecoveryInput input) as [[]|] eqn:Hv; [|apply rtc_refl].
  rewrite act_gets_bind. cbv beta. destruct (find_order _ _) as [current|] eqn:Hf; [|apply rtc_refl].
  destruct (current !== _); [apply rtc_refl|].
  rewrite act_lift_bind. destruct (assertSameAccount _ _); [|apply rtc_refl].
  rewrite !act_gets_bind. cbv beta. rewrite act_lift_bind.
  destruct (assertNoConflictingRecord _ (rec_event input) _ _) as [[]|] eqn:He; [|apply rtc_refl].
  rewrite act_lift_bind.
  destruct (assertNoConflictingRecord _ (rec_riskEvent input) _ _); [|apply rtc_refl].
  rewrite act_lift_bind.
  destruct (validateReconciliationRecoveryCompletion _ _ _ _ _) as [[]|] eqn:Hc; [|apply rtc_refl..].
  rewrite act_modify_bind. cbn [act_ret fst mret action_ret]. apply rtc_once.
  unfold validateReconciliationRecoveryInput in Hv.
  apply bind_Ret in Hv as ([] & _ & Hv). apply throw_if_bind_Ret in Hv as [_ Hv].
  apply bind_Ret in Hv as ([] & Hev & _). apply order_event_fields in Hev as (Ho & Hty & _).
  apply bind_Ret in Hc as ([] & Hid%validate_identity_iff & Hc).
  destruct (current !== _) in Hc; [|by destruct (_ && _) in Hc].
  destruct (_ && _) eqn:Hz in Hc; [|done]. destruct_bools.
  apply (step_order current); [done..|]. apply events_new_singleton.
  eapply (no_conflict_new _ _ _ _ _ (has_type "RECONCILIATION_RECOVERY_REQUIRED")); [done..| |].
  - unfold has_type. by apply bool_decide_eq_true.
  - by apply length_zero_nil.
Qed.

(** [set_fills] of some more fills is a change of their order to itself. *)
Lemma replace_same l order :
  NoDup (ord_id <$> l) -> find_order (ord_id order) l = Some order -> replace_order order l = l.
Proof.
  intros Hnd [Ho _]%find_order_some. unfold replace_order.
  etransitivity; [|apply List.map_id]. apply List.map_ext_in. intros c Hc.
  destruct (bool_decide_reflect (ord_id c = ord_id order)) as [He|]; [|done].
  symmetry. apply (unique_order l); [done|done|by apply list_elem_of_In|done].
Qed.

Lemma saveFill_steps raw (r : repository) :
  NoDup (ord_id <$> orders r) -> order_steps r (fst (saveFill raw r)).
Proof.
  intros Hnd. unfold saveFill. cbv zeta. set (record := normalizeFillFeeProvenance raw).
  rewrite act_gets_bind. cbv beta. destruct (find_order _ _) as [order|] eqn:Hf; [|apply rtc_refl].
  rewrite act_lift_bind. destruct (validateFillForOrder _ _) as [[]|] eqn:Hv; [|apply rtc_refl].
  rewrite act_gets_bind. cbv beta. rewrite act_lift_bind.
  destruct (findStoredFill _ _) as [existing|] eqn:He; [|apply rtc_refl].
  rewrite act_lift_bind. destruct (resolveImmutableFillReplay _ _) as [[]|] eqn:Hr; [|apply rtc_refl..].
  cbn [act_modify fst]. apply rtc_once.
  destruct existing as [e|]; [cbn in Hr; by inv_outcome|].
  pose proof (find_order_some _ _ _ Hf) as [Hin Hid]. rewrite <- Hid in Hf.
  assert (Heq : set_fills (fills r ++ [record])%list r
    = assign (replace_order order (orders r)) (orderEvents r ++ [])%list
        (fills r ++ [record])%list (riskEvents r ++ [])%list r)
    by (rewrite replace_same, !app_nil_r by done; done).
  rewrite Heq. eapply step_change; [exact Hf|done| |].
  - split; [apply NoDup_nil_2|by intros ? ?%elem_of_nil].
  - split; [|apply NoDup_singleton..|].
    + intros f ->%list_elem_of_singleton. by apply validateFillForOrder_fields.
    + intros f s ->%list_elem_of_singleton Hs. by eapply findStoredFill_none.
Qed.

Lemma saveObservation_steps record (r : repository) :
  order_steps r (fst (saveOrderSubmissionRecoveryObservation record r)).
Proof.
  unfold saveOrderSubmissionRecoveryObservation. rewrite act_gets_bind. cbv beta.
  destruct (List.find _ _); [apply rtc_refl|]. apply rtc_once, step_observations.
Qed.

(** *** Operations that pause trading *)

Lemma identity_failed o input : identity o = identity (failed_order o input).
Proof. done. Qed.

Lemma finalize_steps input (r : repository) :
  order_steps r (fst (finalizeBoundedSubmissionAbsence input r)).
Proof.
  unfold finalizeBoundedSubmissionAbsence. rewrite act_gets_bind. cbv beta.
  destruct (find_order _ _) as [current|] eqn:Hf; [|apply rtc_refl].
  destruct (_ || _); [apply rtc_refl|]. rewrite act_gets_bind. cbv beta. rewrite act_lift_bind.
  destruct (throw_if _ _); [|apply rtc_refl]. rewrite act_gets_bind. cbv beta. rewrite act_lift_bind.
  destruct (throw_if _ _) as [[]|] eqn:He in |- *; [|apply rtc_refl].
  apply throw_if_Ret in He. destruct_bools. rewrite on_environment_bind.
  destruct (env_applyFaultPauseAtomically _ _) as [e [s|m]]; [|apply rtc_once, step_environment].
  rewrite act_modify_bind. cbn [act_ret fst mret action_ret].
  eapply rtc_l; [apply (step_environment r e)|]. apply rtc_once.
  pose proof (find_order_some _ _ _ Hf) as [_ Hid]. rewrite <- Hid in Hf.
  pose proof (step_order current (failed_order current input) [fin_event input] []
    (set_environment e r)) as Hstep.
  rewrite app_nil_r in Hstep. apply Hstep; [exact Hf|apply identity_failed|].
  apply events_new_singleton. cbn.
  intros (ev & Hev & Hin)%list_elem_of_fmap. apply not_true_iff_false in H0. apply H0.
  apply existsb_exists. exists ev. rewrite bool_decide_eq_true.
  split; [by apply list_elem_of_In|done].
Qed.

Lemma projectionFault_steps input (r : repository) :
  order_steps r (fst (persistCandidateProjectionFault input r)).
Proof.
  unfold persistCandidateProjectionFault. rewrite act_gets_bind. cbv beta. rewrite act_lift_bind.
  destruct (throw_if _ _); [|apply rtc_refl]. rewrite !act_gets_bind. cbv beta zeta.
  rewrite act_lift_bind. destruct (match find_order _ _ with Some _ => _ | None => _ end);
    [|apply rtc_refl].
  rewrite act_lift_bind. destruct (throw_if _ _); [|apply rtc_refl].
  rewrite act_lift_bind. destruct (validateFaultPauseInput _); [|apply rtc_refl].
  rewrite act_lift_bind. destruct (throw_if _ _); [|apply rtc_refl].
  rewrite on_environment_bind.
  destruct (env_applyFaultPauseAtomically _ _) as [e [s|m]]; [|apply rtc_once, step_environment].
  eapply rtc_l; [apply (step_environment r e)|].
  destruct (find_event _ _) eqn:Hev; [apply rtc_refl|].
  rewrite act_modify_bind. apply rtc_once.
  apply (step_event (set_environment e r)), events_new_singleton. by apply find_event_none.
Qed.

(** ** Runs *)

(** The calls of the repository that write, and the environment's own. *)
Inductive order_call : Type :=
| CallIntent (input : PersistOrderIntentInput)
| CallBoundIntent (input : PersistCandidateBoundOrderIntentRequest)
| CallSubmission (input : PersistExchangeSubmissionInput)
| CallUncertain (input : PersistUncertainSubmissionInput)
| CallSnapshot (input : PersistReconciledExchangeSnapshotInput)
| CallRecovery (input : PersistReconciliationRecoveryInput)
| CallFill (record : FillRecord)
| CallObservation (record : OrderSubmissionRecoveryObservationRecord)
| CallFinalize (input : FinalizeBoundedSubmissionAbsenceInput)
| CallProjectionFault (input : PersistCandidateProjectionFaultInput)
| CallDecision (record : StrategyDecisionRecord)
| CallRisk (record : RiskEventRecord)
| CallSave (record : OrderRecord)
| CallUpdate (record : OrderRecord)
| CallAppend (record : OrderEventRecord)
| CallEnvironment (change : E -> E).

(** What an operation leaves, and the message if it threw. *)
Definition outcome_of {A} (result : repository * outcome A) : repository * option string :=
  (fst result, match snd result with Ret _ => None | Throw m => Some m end).

Definition perform_order (c : order_call) (r : repository) : repository * option string :=
  match c with
  | CallIntent input => outcome_of (persistOrderIntent input r)
  | CallBoundIntent input => outcome_of (persistCandidateBoundOrderIntent sha256 input r)
  | CallSubmission input => outcome_of (persistExchangeSubmission input r)
  | CallUncertain input => outcome_of (persistUncertainSubmission input r)
  | CallSnapshot input => outcome_of (persistReconciledExchangeSnapshot input r)
  | CallRecovery input => outcome_of (persistReconciliationRecovery input r)
  | CallFill record => outcome_of (saveFill record r)
  | CallObservation record => outcome_of (saveOrderSubmissionRecoveryObservation record r)
  | CallFinalize input => outcome_of (finalizeBoundedSubmissionAbsence input r)
  | CallProjectionFault input => outcome_of (persistCandidateProjectionFault input r)
  | CallDecision record => outcome_of (saveStrategyDecision record r)
  | CallRisk record => outcome_of (saveRiskEvent record r)
  | CallSave record => outcome_of (saveOrder record r)
  | CallUpdate record => outcome_of (updateOrder record r)
  | CallAppend record => outcome_of (appendOrderEvent record r)
  | CallEnvironment change => (set_environment (change (environment r)) r, None)
  end.

Definition run_orders (calls : list order_call) (r : repository) : repository :=
  foldl (fun r c => fst (perform_order c r)) r calls.

(** [saveOrder], [updateOrder] and [appendOrderEvent] check nothing.  Their
    callers owe what they leave to them: a saved order and an appended event are
    new, and an order is updated by a record of the same identity. *)
Definition honours (c : order_call) (r : repository) : Prop :=
  match c with
  | CallSave record => validateNewOrderUniqueness (orders r) record = Ret tt
  | CallUpdate record =>
      match find_order (ord_id record) (orders r) with
      | Some order => identity order = identity record
      | None => validateNewOrderUniqueness (orders r) record = Ret tt
      end
  | CallAppend record => find_event (oe_id record) (orderEvents r) = None
  | _ => True
  end.

Fixpoint honoured (calls : list order_call) (r : repository) : Prop :=
  match calls with
  | [] => True
  | c :: calls => honours c r /\ honoured calls (fst (perform_order c r))
  end.

Lemma events_new_nil (l : list OrderEventRecord) : events_new [] l.
Proof. split; [apply NoDup_nil_2|by intros ? ?%elem_of_nil]. Qed.

Lemma assign_order_new record (l : list OrderRecord) :
  find_order (ord_id record) l = None -> assign_order record l = (l ++ [record])%list.
Proof.
  unfold find_order. induction l as [|o l IH]; [done|]. cbn. case_bool_decide; [done|].
  intros Hf. by rewrite IH.
Qed.

Lemma saveOrder_steps record (r : repository) :
  validateNewOrderUniqueness (orders r) record = Ret tt ->
  order_steps r (set_orders (orders r ++ [record])%list r).
Proof.
  intros Hu. apply rtc_once. pose proof (step_new_order r record [] Hu (events_new_nil _)) as H.
  rewrite app_nil_r in H. exact H.
Qed.

Lemma updateOrder_steps record (r : repository) :
  repository_ok r -> honours (CallUpdate record) r ->
  order_steps r (fst (updateOrder record r)).
Proof.
  intros Hr. cbn [honours updateOrder act_modify fst].
  destruct (find_order (ord_id record) (orders r)) as [order|] eqn:Hf.
  - intros Hid. pose proof (find_order_some _ _ _ Hf) as [Hin Ho]. apply rtc_once.
    rewrite assign_order_replace; [|apply Hr|rewrite <- Ho; apply list_elem_of_fmap; by exists order].
    pose proof (step_change r order record [] [] [] Hf Hid (events_new_nil _)) as Hstep.
    rewrite !app_nil_r in Hstep. apply Hstep. by apply no_fills_of.
  - intros Hu. rewrite assign_order_new by done. by apply saveOrder_steps.
Qed.

Lemma perform_order_steps c (r : repository) :
  repository_ok r -> honours c r -> order_steps r (fst (perform_order c r)).
Proof.
  intros Hr Hc. destruct c; cbn [perform_order outcome_of fst];
    auto using persistOrderIntent_steps, persistCandidateBound_steps,
      persistExchangeSubmission_steps, persistUncertainSubmission_steps,
      persistReconciledSnapshot_steps, persistRecovery_steps, saveObservation_steps,
      finalize_steps, projectionFault_steps, updateOrder_steps, saveOrder_steps.
  - apply saveFill_steps, Hr.
  - apply rtc_once, step_decisions.
  - apply rtc_once, step_risk_events.
  - by apply saveOrder_steps.
  - apply rtc_once, step_event, events_new_singleton, find_event_none, Hc.
  - apply rtc_once, step_environment.
Qed.

Lemma run_orders_steps calls (r : repository) :
  repository_ok r -> honoured calls r ->
  order_steps r (run_orders calls r) /\ repository_ok (run_orders calls r).
Proof.
  revert r. induction calls as [|c calls IH]; intros r Hr; [by split; [apply rtc_refl|]|].
  intros [Hc Hcs]. pose proof (perform_order_steps c r Hr Hc) as Hs.
  destruct (IH _ (repository_ok_steps _ _ Hs Hr) Hcs) as [Hs' Hok].
  split; [|exact Hok]. etrans; [exact Hs|exact Hs'].
Qed.

Lemma new_repository_ok env : repository_ok (new_execution_repository env).
Proof. split; try apply NoDup_nil_2. by intros ? ?%elem_of_nil. Qed.

End Steps.
