(* ===== verification/OrderGuarantees.v ===== *)
(** * OrderGuarantees: what the order repository promises

    All or nothing, append-only evidence, idempotent submissions, intents that
    carry their binding, and when an account may submit again. *)

From Stdlib Require Import ZArith Lia Ascii.
From stdpp Require Import base option list strings gmap relations.
From S2P Require Import Prelude Num Types Text Timestamp NumText JsMap CandidateState.
From S2P Require Import ExactState SubmissionBlocking OperatorState PilotRecords PilotRepository.
From S2P Require Import PilotTheory OrderRecords OrderRepository OrderTheory.

Local Open Scope string_scope.
Local Open Scope js_scope.
Local Open Scope bool_scope.

(** ** The pilot repository is such an environment *)

Section PilotEnvironment.
Context (sha256 : string -> string).
Context {T : Type} {HT : AtomicFaultPauseStore T} {HL : AtomicFaultPauseLaws T}.

#[local] Instance pilot_env : ExecutionEnvironment (InMemoryCandidatePilotRepository T) :=
  pilot_environment sha256.

(** A commit that throws has stored no binding. *)
Lemma commitBinding_throws p (r r' : InMemoryCandidatePilotRepository T) used used' m :
  commitBinding p (used, r) = ((used', r'), Throw m) -> r' = r.
Proof.
  unfold commitBinding. rewrite act_gets_bind. cbv beta. rewrite act_lift_bind.
  destruct (throw_if _ _); [|by intros [=]]. rewrite act_modify_bind, act_gets_bind. cbv beta zeta.
  rewrite act_lift_bind. destruct (throw_if _ _); [|by intros [=]]. cbn [snd].
  destruct (map_get _ _), (find_binding _ _); by intros [=].
Qed.

Lemma pilot_environment_laws : ExecutionEnvironmentLaws (InMemoryCandidatePilotRepository T).
Proof.
  split.
  - intros input r r' m. cbn. rewrite require_store_bind.
    destruct (atomicFaultPauseStore r) as [t|] eqn:Ht; [|by intros [=]].
    unfold on_store. destruct (store_applyFaultPauseAtomically input t) as [t' out] eqn:Ha.
    intros [= <- ->]. apply law_pause_throws in Ha as ->. destruct r. cbn in *. by subst.
  - intros b r. cbn. unfold prepareCandidateBoundOrderIntent. rewrite act_bind_eq, act_lift_bind.
    by destruct (validateCandidateExecutionBinding sha256 b).
  - intros b r p r' m. cbn. unfold prepareCandidateBoundOrderIntent. rewrite act_bind_eq, act_lift_bind.
    destruct (validateCandidateExecutionBinding sha256 b); [|done]. cbn. intros [= <-].
    cbn. destruct (commitBinding _ _) as [[u r''] out] eqn:Hc. intros [= -> ->].
    by eapply commitBinding_throws.
Qed.

End PilotEnvironment.

Section Guarantees.
Context (sha256 : string -> string).
Context {E : Type} {HE : ExecutionEnvironment E} {HL : ExecutionEnvironmentLaws E}.

Abbreviation repository := (InMemoryExecutionRepository E).
Abbreviation runs calls r := (run_orders sha256 calls r).
Abbreviation order_steps := (rtc order_step).

(** ** All or nothing *)

(** An action that leaves the repository as it is when it throws. *)
Definition atomic {A} (f : action repository A) : Prop :=
  forall r r' m, f r = (r', Throw m) -> r' = r.

Lemma atomic_ret {A} (v : A) : atomic (act_ret v).
Proof. by intros r r' m [=]. Qed.

Lemma atomic_lift {A} (m : outcome A) : atomic (act_lift m).
Proof. intros r r' m' [= <- _]. done. Qed.

Lemma atomic_modify f : atomic (act_modify f).
Proof. by intros r r' m [=]. Qed.

(** Reading first keeps an action atomic, and so does checking first. *)
Lemma atomic_gets {A B} (g : repository -> A) (k : A -> action repository B) :
  (forall a, atomic (k a)) -> atomic (x ← act_gets g; k x).
Proof. intros Hk r r' m. rewrite act_gets_bind. apply Hk. Qed.

Lemma atomic_check {A B} (o : outcome A) (k : A -> action repository B) :
  (forall a, atomic (k a)) -> atomic (x ← act_lift o; k x).
Proof.
  intros Hk r r' m. rewrite act_lift_bind. destruct o; [apply Hk|by intros [= <-]].
Qed.

(** A write can only be followed by what cannot throw. *)
Lemma atomic_write {B} f (v : B) : atomic (_ ← act_modify f; act_ret v).
Proof. intros r r' m. rewrite act_modify_bind. by intros [=]. Qed.

Lemma atomic_pause {B} input (k : ExecutionStateRecord -> action repository B) :
  (forall s r r' m, k s r = (r', Throw m) -> False) ->
  atomic (x ← on_environment (env_applyFaultPauseAtomically input); k x).
Proof.
  intros Hk r r' m. rewrite on_environment_bind.
  destruct (env_applyFaultPauseAtomically input (environment r)) as [e [s|m']] eqn:He.
  - intros H. by destruct (Hk _ _ _ _ H).
  - intros [= <- _]. apply law_env_pause in He as ->. apply set_environment_same.
Qed.

Ltac atomic_step :=
  cbv beta zeta;
  match goal with
  | |- forall _, _ => intros
  | |- atomic (_ ← act_modify _; act_ret _) => apply atomic_write
  | |- atomic (act_gets _ ≫= _) => apply atomic_gets
  | |- atomic (act_lift _ ≫= _) => apply atomic_check
  | |- atomic (act_lift _) => apply atomic_lift
  | |- atomic (act_ret _) => apply atomic_ret
  | |- atomic (act_modify _) => apply atomic_modify
  | |- atomic (on_environment (env_applyFaultPauseAtomically _) ≫= _) => apply atomic_pause
  | |- atomic (match ?x with _ => _ end) => destruct x
  | |- atomic (fun r => _) => intros r r' m
  end.

Lemma atomic_bound_intent input : atomic (persistCandidateBoundOrderIntent sha256 input).
Proof.
  unfold persistCandidateBoundOrderIntent. cbv zeta. do 8 atomic_step.
  intros r r' m. rewrite prepare_bind.
  destruct (snd (env_prepareCandidateBoundOrderIntent _ _)) as [p|] eqn:Hp; [|by intros [= <-]].
  assert (Hcommit : forall e m', pi_commitBinding p (environment r) = (e, Throw m') ->
    set_environment e r = r).
  { intros e m' He. eapply law_env_commit in He; [|exact Hp]. subst. apply set_environment_same. }
  destruct a2; [|by intros [= <-]].
  destruct (pi_deployment p); [|by intros [= <-]].
  destruct (pi_exactStateVersion p); [|by intros [= <-]].
  rewrite act_lift_bind. destruct (validateCandidateBoundOrderIntent _ _); [|by intros [= <-]].
  rewrite !act_gets_bind. cbv beta zeta. rewrite act_lift_bind.
  destruct (classify_existing _ _ _ _) as [[|]|]; [| |by intros [= <-]].
  - unfold on_environment. destruct (pi_commitBinding p (environment r)) as [e out].
    intros [= <- ->]. by eapply Hcommit.
  - rewrite act_lift_bind. destruct (validateNewOrderUniqueness _ _); [|by intros [= <-]].
    rewrite on_environment_bind. destruct (pi_commitBinding p (environment r)) as [e [u|m']];
      [by intros [=]|]. intros [= <- _]. by eapply Hcommit.
Qed.

Lemma outcome_of_atomic {A} (f : action repository A) r r' m :
  atomic f -> outcome_of (f r) = (r', Some m) -> r' = r.
Proof.
  intros Hf. unfold outcome_of. destruct (f r) as [s [v|m']] eqn:H; cbn; [by intros [=]|].
  intros [= <- <-]. by eapply Hf.
Qed.

(** C31: every operation is all or nothing: an operation of the order
    repository that throws has left the repository, the pilot's bindings and
    the operator state exactly as they were. *)
Theorem failed_call_changes_nothing c (r r' : repository) message :
  perform_order sha256 c r = (r', Some message) -> r' = r.
Proof.
  destruct c; cbn [perform_order]; try (by intros [=]);
    try (apply outcome_of_atomic; unfold persistOrderIntent, persistExchangeSubmission,
      persistUncertainSubmission, persistReconciledExchangeSnapshot, persistReconciliationRecovery,
      saveFill, saveOrderSubmissionRecoveryObservation, finalizeBoundedSubmissionAbsence,
      persistCandidateProjectionFault, saveStrategyDecision, saveRiskEvent;
      repeat atomic_step; try (by intros [=]); done).
  - apply outcome_of_atomic, atomic_bound_intent.
  - apply outcome_of_atomic. unfold persistCandidateProjectionFault. repeat atomic_step.
    by destruct (find_event _ _).
Qed.

(** ** Consistency *)

(** C30: whatever sequence of calls a new repository serves, and whether or not
    some of them throw, its orders have distinct ids, exchange identifiers and
    idempotency keys per account, its events and fills have distinct ids, no two
    fills are the same execution of an order, and every fill belongs to a stored
    order of its market and side; provided the writers that check nothing are
    called as they are meant to: [saveOrder] and [appendOrderEvent] with records
    that are new, [updateOrder] with a record of the stored order's identity. *)
Theorem orders_stay_consistent calls env :
  honoured sha256 calls (new_execution_repository env) ->
  repository_ok (runs calls (new_execution_repository env)).
Proof.
  intros Hc. exact (proj2 (run_orders_steps sha256 calls _ (new_repository_ok env) Hc)).
Qed.

(** ** Evidence *)

(** Everything the repository had is still there, in its place; of an order,
    its identity. *)
Record extends (r r' : repository) : Prop := {
  ext_orders : (identity <$> orders r) `prefix_of` (identity <$> orders r');
  ext_events : orderEvents r `prefix_of` orderEvents r';
  ext_fills : fills r `prefix_of` fills r';
  ext_risks : riskEvents r `prefix_of` riskEvents r';
  ext_decisions : strategyDecisions r `prefix_of` strategyDecisions r';
  ext_observations :
    orderSubmissionRecoveryObservations r `prefix_of` orderSubmissionRecoveryObservations r';
}.

#[export] Instance extends_preorder : PreOrder extends.
Proof.
  split; [by split|]. intros a b c [] []. split; by etransitivity.
Qed.

Lemma extends_step (r r' : repository) : repository_ok r -> order_step r r' -> extends r r'.
Proof.
  intros Hr. destruct 1; split; cbn; try done; try by apply prefix_app_r.
  - rewrite fmap_app. by apply prefix_app_r.
  - rewrite (replace_keeps identity _ order next); try done. apply Hr.
Qed.

Lemma extends_steps (r r' : repository) : repository_ok r -> order_steps r r' -> extends r r'.
Proof.
  intros Hr Hs. induction Hs as [|r r1 r' Hstep Hs IH]; [done|].
  etransitivity; [by apply extends_step|]. apply IH. by eapply repository_ok_step.
Qed.

(** The persisted evidence is append-only: no sequence of calls on a consistent
    repository that honours the contract of the unchecked writers removes,
    reorders or rewrites an order event, a fill, a risk event, a decision or a
    recovery observation, and of a stored order it changes neither its place nor
    its identity (account, market, side, prices, identifier, idempotency key and
    origin). *)
Theorem evidence_append_only calls (r : repository) :
  repository_ok r -> honoured sha256 calls r -> extends r (runs calls r).
Proof.
  intros Hr Hc. exact (extends_steps _ _ Hr (proj1 (run_orders_steps sha256 calls r Hr Hc))).
Qed.

End Guarantees.

(** ** Retried submissions *)

Section Submissions.
Context {E : Type}.

Abbreviation repository := (InMemoryExecutionRepository E).

(** What a submission that returns has found. *)
Record submission_checks (input : PersistExchangeSubmissionInput) (existing : OrderRecord)
    (r : repository) (c : Completion) : Prop := {
  sc_valid : validateExchangeSubmissionInput input = Ret tt;
  sc_found : find_order (ord_id (sub_order input)) (orders r) = Some existing;
  sc_account : assertSameAccount existing (sub_order input) = Ret tt;
  sc_event : assertNoConflictingRecord (find_event (oe_id (sub_event input)) (orderEvents r))
    (sub_event input) "order event" (oe_id (sub_event input)) = Ret tt;
  sc_terminal : match sub_terminalEvent input with
    | Some t => assertNoConflictingRecord (find_event (oe_id t) (orderEvents r)) t
                  "terminal order event" (oe_id t)
    | None => Ret tt
    end = Ret tt;
  sc_fills : assertNoConflictingFills (fills r) (sub_fills input) = Ret tt;
  sc_completion : validateExchangeSubmissionCompletion existing (sub_order input) input
    (events_of_order (ord_id (sub_order input)) (orderEvents r))
    (fills_of_order (ord_id (sub_order input)) (fills r)) = Ret c;
}.

(** The repository it leaves. *)
Definition after_submission (input : PersistExchangeSubmissionInput) (c : Completion)
    (r : repository) : repository :=
  match c with
  | RETRY => r
  | APPLY => assign (replace_order (sub_order input) (orders r))
      (orderEvents r ++ sub_event input :: option_list (sub_terminalEvent input))%list
      (fills r ++ sub_fills input)%list (riskEvents r) r
  end.

Lemma submission_run raw (r : repository) existing c :
  submission_checks (normalized_submission raw) existing r c ->
  persistExchangeSubmission raw r = (after_submission (normalized_submission raw) c r, Ret tt).
Proof.
  intros [Hv Hf Ha He Ht Hl Hc]. unfold persistExchangeSubmission. cbv zeta.
  rewrite act_lift_bind, Hv, act_gets_bind. cbv beta. rewrite Hf, act_lift_bind, Ha.
  rewrite !act_gets_bind. cbv beta. rewrite act_lift_bind, He, act_lift_bind, Ht.
  rewrite act_lift_bind, Hl, act_lift_bind, Hc. by destruct c.
Qed.

Lemma submission_ran raw (r r' : repository) :
  persistExchangeSubmission raw r = (r', Ret tt) ->
  exists existing c, submission_checks (normalized_submission raw) existing r c /\
    r' = after_submission (normalized_submission raw) c r.
Proof.
  unfold persistExchangeSubmission. cbv zeta. set (input := normalized_submission raw).
  rewrite act_lift_bind.
  destruct (validateExchangeSubmissionInput input) as [[]|] eqn:Hv; [|by intros [=]].
  rewrite act_gets_bind. cbv beta. destruct (find_order _ _) as [existing|] eqn:Hf; [|by intros [=]].
  rewrite act_lift_bind. destruct (assertSameAccount _ _) as [[]|] eqn:Ha; [|by intros [=]].
  rewrite !act_gets_bind. cbv beta. rewrite act_lift_bind.
  destruct (assertNoConflictingRecord _ (sub_event input) _ _) as [[]|] eqn:He; [|by intros [=]].
  rewrite act_lift_bind.
  destruct (match sub_terminalEvent input with Some _ => _ | None => _ end) as [[]|] eqn:Ht;
    [|by intros [=]].
  rewrite act_lift_bind. destruct (assertNoConflictingFills _ _) as [[]|] eqn:Hl; [|by intros [=]].
  rewrite act_lift_bind.
  destruct (validateExchangeSubmissionCompletion _ _ _ _ _) as [c|] eqn:Hc; [|by intros [=]].
  intros H. exists existing, c. split; [done|]. by destruct c; injection H as <-.
Qed.

(** Composed identities tell their parts apart when the first has no NUL. *)
Definition no_nul (s : string) : Prop := ~ In "000"%char (String.list_ascii_of_string s).

Lemma nul_split a b s t : no_nul a -> no_nul b -> a ++ NUL ++ s = b ++ NUL ++ t -> a = b /\ s = t.
Proof.
  unfold no_nul, NUL. revert b. induction a as [|c a IH]; intros [|d b] Ha Hb; cbn in *.
  - by intros [=].
  - intros [= <- _]. tauto.
  - intros [= -> _]. tauto.
  - intros [= <- H]. destruct (IH b) as [-> ->]; tauto.
Qed.

Lemma fillIdentities_distinct l :
  (forall f, f ∈ l -> no_nul (fill_id f)) -> NoDup (fill_id <$> l) -> NoDup (fillIdentity <$> l).
Proof.
  induction l as [|f l IH]; intros Hn Hd; [apply NoDup_nil_2|].
  apply NoDup_cons in Hd as [Hf Hd]. apply NoDup_cons. split.
  - intros (g & Heq & Hg)%list_elem_of_fmap. apply Hf, list_elem_of_fmap. exists g. split; [|done].
    refine (proj1 (nul_split _ _ _ _ _ _ Heq)); apply Hn; [left|by right].
  - apply IH; [|done]. intros g Hg. apply Hn. by right.
Qed.

(** The only element of a filter. *)
Lemma filter_unique {A} (p : A -> bool) l x :
  NoDup l -> x ∈ l -> p x = true -> (forall y, y ∈ l -> p y = true -> y = x) ->
  List.filter p l = [x].
Proof.
  induction l as [|y l IH]; [by intros _ ?%elem_of_nil|].
  intros [Hy Hl]%NoDup_cons Hx Hp Hu. cbn. destruct (p y) eqn:Hpy.
  - assert (y = x) as -> by (apply Hu; [left|done]). f_equal. apply filter_nil_iff.
    intros z Hz. destruct (p z) eqn:Hpz; [|done]. apply Hu in Hpz as ->; [done|by right].
  - apply IH; [done| |done|]; [|intros z Hz; apply Hu; by right].
    apply elem_of_cons in Hx as [->|]; [by rewrite Hp in Hpy|done].
Qed.

Lemma recordsEqualSet_refl l : NoDup (fillIdentity <$> l) -> recordsEqualSet l l = true.
Proof.
  intros Hd. unfold recordsEqualSet, last_by.
  rewrite Nat.eqb_refl, bool_decide_eq_true_2 by done. cbn. apply forallb_forall.
  intros f Hf%list_elem_of_In. rewrite (filter_unique _ l f); cbn.
  - by apply bool_decide_eq_true.
  - by eapply NoDup_fmap_1.
  - done.
  - by apply bool_decide_eq_true.
  - intros g Hg He%bool_decide_eq_true. by apply (NoDup_fmap_inj_in fillIdentity l).
Qed.

Lemma same_record {A} `{EqDecision A} (x : A) label id :
  assertNoConflictingRecord (Some x) x label id = Ret tt.
Proof. unfold assertNoConflictingRecord. by rewrite bool_decide_eq_true_2. Qed.

Lemma find_event_new l l' id :
  id ∉ (oe_id <$> l) -> find_event id (l ++ l')%list = find_event id l'.
Proof. intros H. apply find_app_none. by apply find_event_none. Qed.

Lemma find_event_head e l : find_event (oe_id e) (e :: l) = Some e.
Proof. unfold find_event. cbn. by rewrite bool_decide_eq_true_2. Qed.

(** Every fill just stored is found again. *)
Lemma stored_fill_found order l (stored : list FillRecord) f :
  fills_of order l stored -> f ∈ l -> findStoredFill (stored ++ l)%list f = Ret (Some f).
Proof.
  intros [_ Hi Hk Hn] Hf. unfold findStoredFill. rewrite List.filter_app.
  rewrite (proj2 (filter_nil_iff (same_fill f) stored)) by (intros s Hs; by apply Hn). cbn.
  rewrite (filter_unique _ l f); [done|by eapply NoDup_fmap_1|done| |].
  - unfold same_fill. by rewrite (bool_decide_eq_true_2 (fill_id f = fill_id f)).
  - intros g Hg Hs. destruct (decide (g = f)) as [|Hne]; [done|exfalso].
    assert (Hfalse : same_fill f g = false); [|by rewrite Hfalse in Hs].
    apply same_fill_false. split; intros He; apply Hne.
    + by apply (NoDup_fmap_inj_in fill_id l).
    + by apply (NoDup_fmap_inj_in fill_key l).
Qed.

Lemma stored_fills_agree order l (stored : list FillRecord) :
  fills_of order l stored -> assertNoConflictingFills (stored ++ l)%list l = Ret tt.
Proof.
  intros Hl. unfold assertNoConflictingFills.
  assert (Hm : forall k, (forall f, f ∈ k -> f ∈ l) ->
    mapM_outcome (findStoredFill (stored ++ l)%list) k = Ret (Some <$> k)).
  { induction k as [|f k IH]; intros Hk; [done|]. cbn.
    rewrite (stored_fill_found order) by (done || apply Hk; left). cbn.
    by rewrite IH by (intros g Hg; apply Hk; by right). }
  rewrite Hm by done. cbn. clear Hm Hl.
  induction l as [|f l IH]; [done|]. cbn. by rewrite same_record.
Qed.

Lemma own_fills order l : (forall f, f ∈ l -> fill_orderId f = ord_id order) ->
  fills_of_order (ord_id order) l = l.
Proof.
  unfold fills_of_order. induction l as [|f l IH]; intros H; [done|]. cbn.
  rewrite (H f) by left. rewrite bool_decide_eq_true_2 by done. f_equal. apply IH.
  intros g Hg. apply H. by right.
Qed.

(** Once a submission is applied, its completion is a retry. *)
Lemma applied_completion input (r : repository) existing :
  submission_shape input -> (forall f, f ∈ sub_fills input -> no_nul (fill_id f)) ->
  List.filter is_submission_event (events_of_order (ord_id (sub_order input)) (orderEvents r)) = [] ->
  List.filter (has_type "ORDER_FILLED") (events_of_order (ord_id (sub_order input)) (orderEvents r)) = [] ->
  fills_of_order (ord_id (sub_order input)) (fills r) = [] ->
  fills_of existing (sub_fills input) (fills r) -> identity existing = identity (sub_order input) ->
  validateExchangeSubmissionCompletion (sub_order input) (sub_order input) input
    (events_of_order (ord_id (sub_order input)) (orderEvents (after_submission input APPLY r)))
    (fills_of_order (ord_id (sub_order input)) (fills (after_submission input APPLY r))) = Ret RETRY.
Proof.
  intros [Hafter Ho Hty Hnf Hterm Hff] Hn Hse Hte Hfe Hfo Hid.
  pose proof (own_fills (sub_order input) (sub_fills input)
    (fun f Hf => proj1 (fo_order _ _ _ Hff f Hf))) as Hown. cbn.
  unfold validateExchangeSubmissionCompletion.
  rewrite (proj2 (validate_identity_iff _ _) eq_refl). cbn. rewrite Hafter.
  rewrite bool_decide_eq_true_2 by done. cbn.
  unfold events_of_order, fills_of_order in *. rewrite !List.filter_app, Hse, Hte, Hfe. cbn.
  rewrite Hown.
  rewrite recordsEqualSet_refl by (apply fillIdentities_distinct; [done|apply Hfo]).
  rewrite andb_true_r. cbn.
  rewrite (bool_decide_eq_true_2 (oe_orderId (sub_event input) = _)) by done. cbn.
  rewrite Hty, Hnf. destruct (sub_terminalEvent input) as [t|]; cbn.
  - destruct (Hterm t eq_refl) as (_ & Hto & Htt & Hts).
    rewrite (bool_decide_eq_true_2 (oe_orderId t = _)) by done. cbn. rewrite Htt, Hts. cbn.
    by rewrite !bool_decide_eq_true_2.
  - by rewrite bool_decide_eq_true_2.
Qed.

Lemma submission_again input existing (r : repository) :
  submission_checks input existing r APPLY ->
  (forall f, f ∈ sub_fills input -> no_nul (fill_id f)) ->
  submission_checks input (sub_order input) (after_submission input APPLY r) RETRY.
Proof.
  intros [Hv Hf Ha He Ht Hl Hc] Hn. pose proof (submission_valid _ Hv) as Hs.
  destruct (submission_apply input existing r Hs Hf He Ht Hl Hc) as (Hid & Hen & Hfo & Hse & Hte & Hfe).
  destruct Hen as [Hids Hnew].
  split; [done|by eapply find_replace_order| | | | |by eapply applied_completion].
  - unfold assertSameAccount. by rewrite bool_decide_eq_true_2.
  - cbn [after_submission assign orderEvents].
    rewrite find_event_new by (apply Hnew; left). rewrite find_event_head. apply same_record.
  - cbn [after_submission assign orderEvents].
    destruct (sub_terminalEvent input) as [t|] eqn:Hterm; [|done].
    rewrite find_event_new by (apply Hnew; right; left).
    destruct (ss_terminal _ Hs t Hterm) as (Hne & _). unfold find_event. cbn.
    rewrite bool_decide_eq_false_2 by done. rewrite bool_decide_eq_true_2 by done. apply same_record.
  - cbn. by eapply stored_fills_agree.
Qed.

(** C32: an exchange submission can be retried: when persisting one has
    returned, persisting the same one again returns, and leaves the
    repository as it is: no second event, no second fill, no change to the
    order (for fill ids without the separator of the composed identities). *)
Theorem submission_retry_is_noop raw (r r' : repository) :
  (forall f, f ∈ sub_fills raw -> no_nul (fill_id f)) ->
  persistExchangeSubmission raw r = (r', Ret tt) ->
  persistExchangeSubmission raw r' = (r', Ret tt).
Proof.
  intros Hn H. destruct (submission_ran _ _ _ H) as (existing & [|] & Hc & ->).
  - refine (submission_run raw _ _ RETRY (submission_again _ existing r Hc _)).
    intros f (g & -> & Hg)%list_elem_of_fmap. exact (Hn g Hg).
  - exact (submission_run raw _ _ RETRY Hc).
Qed.

End Submissions.
