(* ===== verification/OrderAuthority.v ===== *)
(** * OrderAuthority: who may submit

    An intent persisted under the pilot carries the deployment's authority;
    an order whose submission is uncertain keeps its account from submitting
    until its absence is confirmed, which also halts trading. *)

From Stdlib Require Import ZArith Lia.
From stdpp Require Import base option list strings gmap relations.
From S2P Require Import Prelude Num Types Text Timestamp NumText JsMap CandidateState.
From S2P Require Import ExactState SubmissionBlocking OperatorState PilotRecords PilotRepository.
From S2P Require Import PilotTheory OrderRecords OrderRepository OrderTheory OrderGuarantees.

Local Open Scope string_scope.
Local Open Scope js_scope.
Local Open Scope bool_scope.

(** ** What the validation of a bound intent lets through *)

(** The order is the decision's, at the size it decided. *)
Record decided_order (d : StrategyDecisionRecord) (order : OrderRecord) : Prop := {
  do_ready : sd_status d = Decided.READY;
  do_account : sd_exchangeAccountId d = ord_exchangeAccountId order;
  do_market : sd_market d = ord_market order;
  do_entry : is_entry (sd_action d) = true ->
    ord_side order = Side.bid /\ ord_volume order = None /\ is_Some (ord_price order) /\
    ord_price order = sd_intendedNotionalKrw d;
  do_exit : is_entry (sd_action d) = false ->
    ord_side order = Side.ask /\ ord_price order = None /\ is_Some (ord_volume order) /\
    ord_volume order = sd_intendedQuantity d;
}.

(** The binding is the order's. *)
Record bound_order (b : CandidateExecutionBindingRecord) (order : OrderRecord) : Prop := {
  bo_order : bind_orderId b = ord_id order;
  bo_account : bind_exchangeAccountId b = ord_exchangeAccountId order;
  bo_side : bind_side b = ord_side order;
  bo_price : bind_boundPrice b = ord_price order;
  bo_volume : bind_boundVolume b = ord_volume order;
}.

(** The deployment authorises it, in the phase the caller expects. *)
Record authorised (d : PositionGuardPilotDeploymentRecord) (phase : BoundPhase)
    (b : CandidateExecutionBindingRecord) (order : OrderRecord) : Prop := {
  au_id : dep_id d = bind_deploymentId b;
  au_account : dep_exchangeAccountId d = bind_exchangeAccountId b;
  au_phase : dep_phase d = bound_phase phase;
  au_activation : dep_activationAt d = Some (bind_activationAt b);
  au_draining : phase = BOUND_DRAINING -> ord_side order = Side.ask;
}.

Lemma order_shape_sound phase d order :
  validateCandidateOrderShape phase d order = Ret tt ->
  (phase = BOUND_DRAINING -> is_entry (sd_action d) = false) /\
  (is_entry (sd_action d) = true ->
    ord_side order = Side.bid /\ ord_volume order = None /\ is_Some (ord_price order) /\
    ord_price order = sd_intendedNotionalKrw d) /\
  (is_entry (sd_action d) = false ->
    ord_side order = Side.ask /\ ord_price order = None /\ is_Some (ord_volume order) /\
    ord_volume order = sd_intendedQuantity d).
Proof.
  unfold validateCandidateOrderShape. intros [Hd H]%throw_if_bind_Ret. split_and!.
  - intros ->. by destruct (is_entry _).
  - intros He. rewrite He in H. destruct (ord_price order) as [price|]; [|done].
    apply throw_if_bind_Ret in H as [H _]. destruct_bools. by split_and!.
  - intros He. rewrite He in H. destruct (ord_volume order) as [volume|]; [|done].
    apply throw_if_bind_Ret in H as [H _]. destruct_bools. by split_and!.
Qed.

Section Validation.
Context (sha256 : string -> string).

Lemma bound_intent_sound input v :
  validateCandidateBoundOrderIntent sha256 input = Ret v ->
  exists d, validateCandidatePilotDeployment (agg_deployment input) = Ret d /\
  agg_exactStateVersion input = req_expectedStateVersion (agg_request input) /\
  decided_order (agg_decision input) (req_order (agg_request input)) /\
  bound_order (req_binding (agg_request input)) (req_order (agg_request input)) /\
  authorised d (req_expectedPhase (agg_request input)) (req_binding (agg_request input))
    (req_order (agg_request input)).
Proof.
  unfold validateCandidateBoundOrderIntent. cbv zeta. set (order := req_order (agg_request input)).
  intros ([] & _ & H)%bind_Ret. apply bind_Ret in H as (b & Hb & H).
  apply validate_binding_same in Hb as ->. set (b := req_binding (agg_request input)) in *.
  apply bind_Ret in H as (d & Hd & H). exists d. split; [done|].
  apply bind_Ret in H as ([] & _ & H). apply bind_Ret in H as ([] & _ & H).
  apply throw_if_bind_Ret in H as [Hv H]. apply bind_Ret in H as (z & _ & H).
  apply bind_Ret in H as ([] & Hdec & H). apply bind_Ret in H as ([] & Hdep & H).
  apply bind_Ret in H as ([] & Hord & H). apply bind_Ret in H as ([] & Hshape & _).
  apply order_shape_sound in Hshape as (Hdrain & Hentry & Hexit).
  apply throw_if_bind_Ret in Hdec as [Hm _]. unfold decision_mismatch in Hm.
  apply throw_if_Ret in Hdep. apply throw_if_bind_Ret in Hord as [Ho _].
  apply negb_false_iff, Z.eqb_eq in Hv. split; [done|]. destruct_bools. fold order in Hexit.
  split_and!; split; try done; try congruence.
  intros Hp. by apply Hexit, Hdrain.
Qed.

End Validation.

(** ** The repository over its environment *)

Section Authority.
Context (sha256 : string -> string).
Context {E : Type} {HE : ExecutionEnvironment E} {HL : ExecutionEnvironmentLaws E}.

Abbreviation repository := (InMemoryExecutionRepository E).

(** What of the intent the repository and the prepared authority know. *)
Definition known_intent (input : PersistCandidateBoundOrderIntentRequest) (p : PreparedIntent E)
    (r : repository) : ExistingIntent := {|
  known_order := head (List.filter (fun o => ord_id o === ord_id (req_order input)) (orders r));
  known_orderEvents := events_of_order (ord_id (req_order input)) (orderEvents r);
  known_eventById :=
    head (List.filter (fun e => oe_id e === oe_id (req_event input)) (orderEvents r));
  known_bindingByOrder := pi_existingBindingByOrderId p;
  known_bindingById := pi_existingBindingById p;
|}.

(** A bound intent that returns was validated against the decision and the
    deployment the repository has, and its binding was committed. *)
Lemma bound_intent_ran input (r r' : repository) :
  persistCandidateBoundOrderIntent sha256 input r = (r', Ret tt) ->
  exists decision p deployment version v retry e,
    find_decision (ord_strategyDecisionId (req_order input)) (strategyDecisions r) = Some decision /\
    snd (env_prepareCandidateBoundOrderIntent (req_binding input) (environment r)) = Ret p /\
    pi_deployment p = Some deployment /\ pi_exactStateVersion p = Some version /\
    validateCandidateBoundOrderIntent sha256 {| agg_request := input; agg_decision := decision;
      agg_deployment := deployment; agg_exactStateVersion := version |} = Ret v /\
    classify_existing input
      (List.filter (fun o => ord_id o === ord_id (req_order input)) (orders r))
      (List.filter (fun e => oe_id e === oe_id (req_event input)) (orderEvents r))
      (known_intent input p r) = Ret retry /\
    pi_commitBinding p (environment r) = (e, Ret tt) /\
    if retry : bool then r' = set_environment e r
    else validateNewOrderUniqueness (orders r) (req_order input) = Ret tt /\
      r' = assign (orders r ++ [req_order input])%list (orderEvents r ++ [req_event input])%list
             (fills r) (riskEvents r) (set_environment e r).
Proof.
  unfold persistCandidateBoundOrderIntent. cbv zeta. rewrite act_lift_bind.
  destruct (validateCandidateBoundOrderIntentRequestShape _ _); [|by intros [=]].
  rewrite act_gets_bind. cbv beta. rewrite act_lift_bind. destruct (throw_if _ _); [|by intros [=]].
  rewrite act_gets_bind. cbv beta. rewrite prepare_bind.
  destruct (snd (env_prepareCandidateBoundOrderIntent _ _)) as [p|] eqn:Hp; [|by intros [=]].
  destruct (find_decision _ _) as [decision|]; [|by intros [=]].
  destruct (pi_deployment p) as [deployment|] eqn:Hdep; [|by intros [=]].
  destruct (pi_exactStateVersion p) as [version|] eqn:Hver; [|by intros [=]].
  rewrite act_lift_bind.
  destruct (validateCandidateBoundOrderIntent _ _) as [v|] eqn:Hv; [|by intros [=]].
  rewrite !act_gets_bind. cbv beta zeta. rewrite act_lift_bind.
  change (Build_ExistingIntent _ _ _ _ _) with (known_intent input p r).
  destruct (classify_existing _ _ _ _) as [retry|] eqn:Hc; [|by intros [=]].
  intros H. exists decision, p, deployment, version, v, retry.
  destruct retry.
  - unfold on_environment in H. destruct (pi_commitBinding p (environment r)) as [e out].
    injection H as <- ->. by exists e.
  - rewrite act_lift_bind in H.
    destruct (validateNewOrderUniqueness _ _) as [[]|] eqn:Hu; [|by injection H as [=]].
    rewrite on_environment_bind in H.
    destruct (pi_commitBinding p (environment r)) as [e [[]|]]; [|by injection H as [=]].
    injection H as <-. by exists e.
Qed.

(** The classification of a retry found exactly the intent. *)
Lemma classify_retry input ordersById eventsById k :
  classify_existing input ordersById eventsById k = Ret true ->
  known_order k = Some (req_order input) /\ only (known_orderEvents k) (req_event input) = true /\
  known_bindingByOrder k = Some (req_binding input).
Proof.
  unfold classify_existing. intros H. do 5 apply throw_if_bind_Ret in H as [_ H].
  destruct (_ && _) in H; [done|]. apply throw_if_bind_Ret in H as [H _]. by destruct_bools.
Qed.

Lemma classify_fresh input ordersById eventsById k :
  classify_existing input ordersById eventsById k = Ret false ->
  known_order k = None /\ known_bindingByOrder k = None.
Proof.
  unfold classify_existing. intros H. do 5 apply throw_if_bind_Ret in H as [_ H].
  destruct (_ && _) eqn:Hn in H; [by destruct_bools|].
  by apply throw_if_bind_Ret in H as [_ [=]].
Qed.

Lemma find_head {A} (p : A -> bool) l : List.find p l = head (List.filter p l).
Proof. induction l as [|x l IH]; [done|]. cbn. by destruct (p x). Qed.

Lemma find_order_last l o : find_order (ord_id o) l = None -> find_order (ord_id o) (l ++ [o])%list = Some o.
Proof.
  intros H. unfold find_order. rewrite find_app_none by done. cbn. by rewrite bool_decide_eq_true_2.
Qed.

(** The order and its event are in the repository a bound intent leaves. *)
Lemma bound_intent_stored input (r r' : repository) :
  persistCandidateBoundOrderIntent sha256 input r = (r', Ret tt) ->
  find_order (ord_id (req_order input)) (orders r') = Some (req_order input) /\
  req_event input ∈ orderEvents r'.
Proof.
  intros (d & p & dep & v & w & retry & e & _ & _ & _ & _ & _ & Hc & _ & Hr')%bound_intent_ran.
  destruct retry.
  - subst r'. apply classify_retry in Hc as (Ho & He & _). cbn in Ho, He. cbn. split.
    + unfold find_order. by rewrite find_head.
    + unfold only in He. destruct (events_of_order _ _) as [|x [|]] eqn:Hev; try done.
      apply bool_decide_eq_true in He as ->.
      assert (Hin : In (req_event input) (events_of_order (ord_id (req_order input)) (orderEvents r)))
        by (rewrite Hev; by left).
      apply List.filter_In in Hin as [Hin _]. by apply list_elem_of_In.
  - destruct Hr' as [_ ->]. apply classify_fresh in Hc as [Ho _]. cbn in Ho. cbn. split.
    + apply find_order_last. unfold find_order. by rewrite find_head.
    + apply elem_of_app. right. left.
Qed.

End Authority.

(** ** Uncertain submissions *)

Section Absence.
Context {E : Type} {HE : ExecutionEnvironment E}.

Abbreviation repository := (InMemoryExecutionRepository E).

(** What an absence finalisation that returns [true] did. *)
Lemma finalize_ran input (r r' : repository) :
  finalizeBoundedSubmissionAbsence input r = (r', Ret true) ->
  exists current e s,
    find_order (fin_orderId input) (orders r) = Some current /\
    ord_status current = fin_expectedStatus input /\
    ord_updatedAt current = fin_expectedUpdatedAt input /\
    oe_orderId (fin_event input) = fin_orderId input /\
    env_applyFaultPauseAtomically (fin_faultPause input) (environment r) = (e, Ret s) /\
    r' = assign (replace_order (failed_order current input) (orders r))
           (orderEvents r ++ [fin_event input])%list (fills r) (riskEvents r) (set_environment e r).
Proof.
  unfold finalizeBoundedSubmissionAbsence. rewrite act_gets_bind. cbv beta.
  destruct (find_order _ _) as [current|]; [|by intros [=]].
  destruct (_ || _) eqn:Hcas; [by intros [=]|]. destruct_bools.
  rewrite act_gets_bind. cbv beta. rewrite act_lift_bind. destruct (throw_if _ _); [|by intros [=]].
  rewrite act_gets_bind. cbv beta. rewrite act_lift_bind.
  destruct (throw_if _ _) as [[]|] eqn:He in |- *; [|by intros [=]].
  apply throw_if_Ret in He. destruct_bools. rewrite on_environment_bind.
  destruct (env_applyFaultPauseAtomically _ _) as [e [s|m]] eqn:Hp; [|by intros [=]].
  rewrite act_modify_bind. intros [= <-]. by exists current, e, s.
Qed.

(** The observations of an order. *)
Definition observations_of (id : string) (r : repository)
    : list OrderSubmissionRecoveryObservationRecord :=
  List.filter (fun o => obs_orderId o === id) (orderSubmissionRecoveryObservations r).

(** An order without an exchange uuid and without an [ORDER_SUBMITTED] event,
    whose absence the recovery observations confirm under any policy the code
    accepts, is released by finalising it with the failure code and the event
    that reconciliation uses for this: when
    [finalizeBoundedSubmissionAbsence] returns [true], the order was still at
    the status and instant the caller read, trading has been paused first, the
    order is stored as failed, and it no longer keeps its account from
    submitting. *)
Theorem finalized_absence_unblocks policy p input (r r' : repository) order :
  validateIdentifierRecoveryPolicy policy = Ret p ->
  find_order (fin_orderId input) (orders r) = Some order ->
  absence_confirmed (evaluateBoundedAbsence (observations_of (ord_id order) r) p) = true ->
  ord_upbitUuid order = None ->
  (forall e, e ∈ orderEvents r -> oe_orderId e = ord_id order -> oe_eventType e <> "ORDER_SUBMITTED") ->
  fin_failureCode input = "ORDER_SUBMISSION_ABSENCE_CONFIRMED" ->
  oe_eventType (fin_event input) = "RECONCILIATION_IDENTIFIER_ABSENCE_CONFIRMED" ->
  oe_eventSource (fin_event input) = EventSource.RECONCILIATION ->
  finalizeBoundedSubmissionAbsence input r = (r', Ret true) ->
  ord_status order = fin_expectedStatus input /\
  ord_updatedAt order = fin_expectedUpdatedAt input /\
  (exists s, env_applyFaultPauseAtomically (fin_faultPause input) (environment r)
             = (environment r', Ret s)) /\
  find_order (fin_orderId input) (orders r') = Some (failed_order order input) /\
  blocks (ord_exchangeAccountId order) r' (failed_order order input) = false.
Proof.
  intros Hpol Hf Habs Huuid Hsub Hcode Hty Hsrc H.
  destruct (finalize_ran input r r' H) as (current & e & s & Hc & Hst & Hup & Heo & Hp & ->).
  rewrite Hf in Hc. injection Hc as <-. pose proof (find_order_some _ _ _ Hf) as [_ Hid].
  split_and!; [done|done|by exists s| |].
  - rewrite <- Hid in Hf |- *. by apply (find_replace_order (failed_order order input) _ order).
  - unfold blocks. rewrite (confirmed_absence_authority _ (observations_of (ord_id order) r) policy p);
      [by rewrite andb_false_r|done|done|done|cbn; by rewrite Hcode|done|done| |].
    + intros ev (e' & -> & He')%list_elem_of_fmap. cbn.
      apply list_elem_of_In, List.filter_In in He' as [He' Ho]. apply bool_decide_eq_true in Ho.
      apply list_elem_of_In, elem_of_app in He' as [He'|He'%list_elem_of_singleton].
      * by apply Hsub.
      * subst e'. by rewrite Hty.
    + exists {| event_eventType := oe_eventType (fin_event input);
                event_eventSource := oe_eventSource (fin_event input);
                event_createdAt := oe_createdAt (fin_event input) |}.
      split_and!; [|done..]. apply list_elem_of_fmap. exists (fin_event input). split; [done|].
      apply list_elem_of_In, List.filter_In. split; [|by rewrite Heo, bool_decide_eq_true].
      apply list_elem_of_In, elem_of_app. right. left.
Qed.

End Absence.

(** ** Over the pilot repository *)

Section Pilot.
Context (sha256 : string -> string).
Context {T : Type} {HT : AtomicFaultPauseStore T} {HL : AtomicFaultPauseLaws T}.

#[local] Instance authority_env : ExecutionEnvironment (InMemoryCandidatePilotRepository T) :=
  pilot_environment sha256.

#[local] Instance authority_laws : ExecutionEnvironmentLaws (InMemoryCandidatePilotRepository T) :=
  pilot_environment_laws sha256.

(** What preparing a binding reads. *)
Lemma pilot_prepared b (r : InMemoryCandidatePilotRepository T) p :
  snd (env_prepareCandidateBoundOrderIntent b r) = Ret p ->
  pi_deployment p = map_get (bind_deploymentId b) (deployments r) /\
  pi_exactStateVersion p = stateVersion <$> exactStates r !! bind_deploymentId b /\
  pi_existingBindingByOrderId p = map_get (bind_orderId b) (bindingsByOrderId r) /\
  forall e, pi_commitBinding p r = (e, Ret tt) ->
    deployments e = deployments r /\ exactStates e = exactStates r /\
    (pi_existingBindingByOrderId p = Some b \/ pi_existingBindingByOrderId p = None ->
     map_get (bind_orderId b) (bindingsByOrderId e) = Some b).
Proof.
  cbn. unfold prepareCandidateBoundOrderIntent. rewrite act_bind_eq, act_lift_bind.
  destruct (validateCandidateExecutionBinding sha256 b) as [b'|] eqn:Hb; [|by intros [=]].
  apply validate_binding_same in Hb as ->. cbn. intros [= <-]. cbn. split_and!; [done..|].
  intros e. destruct (commitBinding _ _) as [[u r''] out] eqn:Hc. intros [= -> ->].
  revert Hc. unfold commitBinding. rewrite act_gets_bind. cbv beta. rewrite act_lift_bind.
  destruct (throw_if _ _); [|by intros [=]]. rewrite act_modify_bind, act_gets_bind. cbv beta zeta.
  rewrite act_lift_bind. destruct (throw_if _ _); [|by intros [=]]. cbn [snd prep_binding].
  destruct (map_get (bind_orderId b) _) as [x|] eqn:Hx, (find_binding _ _) as [y|]; cbn.
  - intros [= _ <- _]. split_and!; [done..|]. rewrite Hx. by intros [|].
  - by intros [=].
  - by intros [=].
  - intros [= _ <-]. cbn. split_and!; [done..|]. intros _. apply map_get_set.
Qed.

(** An intent persisted under the pilot is bound: when the call returns,
    the order, its event and the execution binding are stored together and
    agree; the order is the one a READY decision of the repository asks for,
    at exactly its size; the account's deployment is in the expected phase,
    activated at the binding's instant, with the expected state version; and
    a draining pilot's order only sells. *)
Theorem candidate_intent_is_bound input
    (r r' : InMemoryExecutionRepository (InMemoryCandidatePilotRepository T)) :
  persistCandidateBoundOrderIntent sha256 input r = (r', Ret tt) ->
  find_order (ord_id (req_order input)) (orders r') = Some (req_order input) /\
  req_event input ∈ orderEvents r' /\
  map_get (ord_id (req_order input)) (bindingsByOrderId (environment r')) = Some (req_binding input) /\
  bound_order (req_binding input) (req_order input) /\
  (exists decision, decision ∈ strategyDecisions r' /\ decided_order decision (req_order input)) /\
  (exists d s, map_get (bind_deploymentId (req_binding input)) (deployments (environment r')) = Some d /\
    authorised d (req_expectedPhase input) (req_binding input) (req_order input) /\
    exactStates (environment r') !! bind_deploymentId (req_binding input) = Some s /\
    stateVersion s = req_expectedStateVersion input).
Proof.
  intros H. pose proof (bound_intent_stored sha256 input r r' H) as [Horder Hevent].
  destruct (bound_intent_ran sha256 input r r' H)
    as (decision & p & dep & v & w & retry & e & Hd & Hp & Hdep & Hv & Hw & Hc & He & Hr').
  apply pilot_prepared in Hp as (Hpd & Hpv & Hpb & Hcommit).
  destruct (Hcommit e He) as (Hed & Hee & Heb).
  assert (Henv : environment r' = e /\ strategyDecisions r' = strategyDecisions r)
    by (destruct retry; [by subst r'|by destruct Hr' as [_ ->]]).
  destruct Henv as [-> ->].
  destruct (bound_intent_sound sha256 _ _ Hw) as (d' & Hvd & Hver & Hdec & Hbo & Hau).
  cbn in Hvd, Hver, Hdec, Hbo, Hau.
  split_and!; [done|done| |done| |].
  - rewrite <- (bo_order _ _ Hbo). apply Heb.
    destruct retry; [left; by apply classify_retry in Hc as (_ & _ & ?)
                    |right; by apply classify_fresh in Hc as (_ & ?)].
  - exists decision. split; [|done]. by apply find_some_iff in Hd as [? _].
  - rewrite Hed, Hee, <- Hpd, Hdep. rewrite Hpv in Hv.
    destruct (exactStates _ !! _) as [s|]; [|done]. injection Hv as Hv.
    exists dep, s. split_and!; try done; [|congruence].
    apply validate_deployment_same in Hvd as [-> _]. done.
Qed.

End Pilot.
