(* ===== verification/OrderScenarios.v ===== *)
(** * OrderScenarios: the life of an order on concrete inputs

    The theorems about the order repository applied to a repository over the
    sample pilot: its intent is persisted under the active deployment, its
    submission is filled, or stays uncertain until its absence is confirmed. *)

From Stdlib Require Import ZArith Lia Ascii.
From stdpp Require Import base option list strings gmap relations.
From S2P Require Import Prelude Num Types Text Timestamp NumText JsMap Json Risk.
From S2P Require Import CandidateState ExactState SubmissionBlocking OperatorState PilotRecords.
From S2P Require Import PilotRepository PilotTheory PilotInvariants PilotGuarantees PilotScenarios.
From S2P Require Import OrderRecords OrderRepository OrderTheory OrderGuarantees OrderAuthority.

Local Open Scope string_scope.
Local Open Scope js_scope.
Local Open Scope bool_scope.

#[local] Instance sample_env : ExecutionEnvironment sample_repository :=
  pilot_environment sample_sha256.
#[local] Instance sample_env_laws : ExecutionEnvironmentLaws sample_repository :=
  pilot_environment_laws sample_sha256.

Abbreviation order_repository := (InMemoryExecutionRepository sample_repository).
Abbreviation sample_orders := (run_orders (E := sample_repository) sample_sha256).

(** ** The sample order *)

Definition sample_decision : StrategyDecisionRecord := {|
  sd_id := "decision-1"; sd_exchangeAccountId := "primary";
  sd_strategyKey := "position_guard.paper_core.v1"; sd_market := Market.KRW_BTC;
  sd_action := Action.ENTER; sd_status := Decided.READY; sd_decisionBasisJson := "{}";
  sd_intendedNotionalKrw := Some "4000000"; sd_intendedQuantity := None;
  sd_referencePrice := Some "100000000"; sd_createdAt := "2026-08-21T03:58:00Z";
|}.

Definition request_instant : string := "2026-08-21T03:59:00.000000001Z".

(** The order at a point of its life. *)
Definition order_at (status : OrderLifecycleStatus) (failure : option string) (at_ : string)
    : OrderRecord := {|
  ord_id := "order-1"; ord_strategyDecisionId := Some "decision-1";
  ord_exchangeAccountId := "primary"; ord_market := Market.KRW_BTC; ord_side := Side.bid;
  ord_ordType := OrdType.price; ord_volume := None; ord_price := Some "4000000";
  ord_timeInForce := None; ord_smpType := None; ord_identifier := "identifier-1";
  ord_idempotencyKey := "key-1"; ord_origin := Origin.STRATEGY; ord_requestedAt := request_instant;
  ord_upbitUuid := None; ord_status := status; ord_executionMode := Mode.DRY_RUN;
  ord_exchangeResponseJson := None; ord_failureCode := failure; ord_failureMessage := None;
  ord_createdAt := request_instant; ord_updatedAt := at_;
|}.

Definition event_of (id type : string) (source : EventSource.OrderEventSource) (at_ : string)
    : OrderEventRecord := {|
  oe_id := id; oe_orderId := "order-1"; oe_eventType := type; oe_eventSource := source;
  oe_payloadJson := "{}"; oe_createdAt := at_;
|}.

Definition bound_request : PersistCandidateBoundOrderIntentRequest := {|
  req_order := order_at OrderStatus.PERSISTED None request_instant;
  req_event := event_of "event-1" "ORDER_PERSISTED" EventSource.LOCAL request_instant;
  req_binding := sample_binding; req_expectedPhase := BOUND_ACTIVE;
  req_expectedDeploymentUpdatedAt := "2026-08-21T01:00:00Z"; req_expectedStateVersion := 0;
|}.

Definition empty_orders : order_repository :=
  new_execution_repository (sample_run opening (new_repository store)).

(** The decision is known. *)
Definition decided : order_repository := sample_orders [CallDecision sample_decision] empty_orders.

Definition bound : order_repository :=
  sample_orders [CallDecision sample_decision; CallBoundIntent bound_request] empty_orders.

Lemma bound_intent_returns :
  snd (persistCandidateBoundOrderIntent sample_sha256 bound_request decided) = Ret tt.
Proof. vm_compute. reflexivity. Qed.

(** An action that returns, with the state it leaves. *)
Lemma returned {S A} (f : action S A) s v : snd (f s) = Ret v -> f s = (fst (f s), Ret v).
Proof. intros <-. apply surjective_pairing. Qed.

Lemma candidate_intent_is_bound_witness :
  let r := fst (persistCandidateBoundOrderIntent sample_sha256 bound_request decided) in
  find_order "order-1" (orders r) = Some (req_order bound_request) /\
  map_get "order-1" (bindingsByOrderId (environment r)) = Some sample_binding.
Proof.
  pose proof (candidate_intent_is_bound sample_sha256 bound_request decided
    (fst (persistCandidateBoundOrderIntent sample_sha256 bound_request decided))) as H.
  cbv zeta. destruct (H (returned _ _ _ bound_intent_returns)) as (Ho & _ & Hb & _).
  split; [exact Ho|exact Hb].
Defined.

(** ** The submission *)

Definition sample_fill : FillRecord := {|
  fill_id := "fill-1"; fill_orderId := "order-1"; fill_exchangeFillId := "trade-1";
  fill_market := Market.KRW_BTC; fill_side := Side.bid; fill_price := "100000000";
  fill_volume := "0.04"; fill_feeCurrency := Some "KRW"; fill_feeAmount := Some "2000";
  fill_feeProvenance := None; fill_executionTimestampProvenance := None;
  fill_executionEpochNs := None; fill_filledAt := "2026-08-21T04:00:00Z";
  fill_rawPayloadJson := "{}";
|}.

Definition filled_submission : PersistExchangeSubmissionInput := {|
  sub_order := order_at OrderStatus.FILLED None "2026-08-21T04:00:00Z";
  sub_event := event_of "event-2" "ORDER_SUBMITTED" EventSource.LOCAL "2026-08-21T04:00:00Z";
  sub_fills := [sample_fill];
  sub_terminalEvent :=
    Some (event_of "event-3" "ORDER_FILLED" EventSource.LOCAL "2026-08-21T04:00:00Z");
|}.

Definition filled_calls : list (order_call (E := sample_repository)) :=
  [CallDecision sample_decision; CallBoundIntent bound_request; CallSubmission filled_submission].

Lemma submission_retry_is_noop_witness :
  let r := fst (persistExchangeSubmission filled_submission bound) in
  length (fills r) = 1%nat /\ persistExchangeSubmission filled_submission r = (r, Ret tt).
Proof.
  cbv zeta. split; [vm_compute; reflexivity|].
  apply (submission_retry_is_noop filled_submission bound).
  - intros f Hf. apply list_elem_of_singleton in Hf. subst f.
    intros Hin. vm_compute in Hin. repeat (destruct Hin as [Hin|Hin]; [discriminate Hin|]). exact Hin.
  - apply returned. vm_compute. reflexivity.
Defined.

(** The unchecked writers, called as they are meant to be. *)
Definition touched_calls : list (order_call (E := sample_repository)) :=
  (filled_calls ++
   [CallUpdate (order_at OrderStatus.FILLED None "2026-08-21T05:00:00Z");
    CallAppend (event_of "event-4" "ORDER_REVIEWED" EventSource.RECONCILIATION "2026-08-21T05:00:00Z")])%list.

Lemma orders_stay_consistent_witness :
  let r := sample_orders touched_calls empty_orders in
  (length (orders r), length (orderEvents r), length (fills r)) = (1, 4, 1)%nat /\
  (ord_updatedAt <$> orders r) = ["2026-08-21T05:00:00Z"] /\ repository_ok r.
Proof.
  cbv zeta. split; [vm_compute; reflexivity|]. split; [vm_compute; reflexivity|].
  apply (@orders_stay_consistent sample_sha256 sample_repository sample_env sample_env_laws
           touched_calls (sample_run opening (new_repository store))).
  do 3 (split; [exact I|]). split; [vm_compute; reflexivity|]. split; [vm_compute; reflexivity|].
  exact I.
Defined.

Lemma bound_is_consistent : repository_ok bound.
Proof.
  apply (run_orders_steps sample_sha256 [CallDecision sample_decision; CallBoundIntent bound_request]
           empty_orders (new_repository_ok _)). repeat constructor.
Qed.

Lemma evidence_append_only_witness :
  let r := sample_orders [CallSubmission filled_submission] bound in
  (ord_status <$> orders bound) = [OrderStatus.PERSISTED] /\
  (ord_status <$> orders r) = [OrderStatus.FILLED] /\ extends bound r.
Proof.
  cbv zeta. split; [vm_compute; reflexivity|]. split; [vm_compute; reflexivity|].
  apply (evidence_append_only sample_sha256 [CallSubmission filled_submission] bound
           bound_is_consistent). repeat constructor.
Defined.

(** A second intent of the same idempotency key is refused. *)
Definition duplicate_intent : PersistOrderIntentInput := {|
  intent_order := {|
    ord_id := "order-2"; ord_strategyDecisionId := None; ord_exchangeAccountId := "primary";
    ord_market := Market.KRW_BTC; ord_side := Side.bid; ord_ordType := OrdType.price;
    ord_volume := None; ord_price := Some "4000000"; ord_timeInForce := None; ord_smpType := None;
    ord_identifier := "identifier-2"; ord_idempotencyKey := "key-1"; ord_origin := Origin.STRATEGY;
    ord_requestedAt := request_instant; ord_upbitUuid := None; ord_status := OrderStatus.PERSISTED;
    ord_executionMode := Mode.DRY_RUN; ord_exchangeResponseJson := None; ord_failureCode := None;
    ord_failureMessage := None; ord_createdAt := request_instant; ord_updatedAt := request_instant |};
  intent_event := {| oe_id := "event-9"; oe_orderId := "order-2"; oe_eventType := "ORDER_PERSISTED";
    oe_eventSource := EventSource.LOCAL; oe_payloadJson := "{}"; oe_createdAt := request_instant |};
|}.

Lemma failed_call_changes_nothing_witness :
  exists message r',
    perform_order sample_sha256 (CallIntent duplicate_intent) bound = (r', Some message) /\ r' = bound.
Proof.
  assert (Hm : is_Some (snd (perform_order sample_sha256 (CallIntent duplicate_intent) bound)))
    by (vm_compute; eexists; reflexivity).
  destruct (perform_order sample_sha256 (CallIntent duplicate_intent) bound) as [r' [message|]] eqn:H.
  - exists message, r'. split; [reflexivity|].
    exact (failed_call_changes_nothing sample_sha256 (CallIntent duplicate_intent) bound r' message H).
  - destruct Hm as [? Hm]. discriminate Hm.
Defined.

(** ** An uncertain submission *)

Definition uncertain_order : OrderRecord :=
  order_at OrderStatus.RECONCILIATION_REQUIRED (Some "RECONCILIATION_REQUIRED")
    "2026-08-21T04:00:00Z".

Definition uncertain_submission : PersistUncertainSubmissionInput := {|
  unc_order := uncertain_order;
  unc_event := event_of "event-2" "RECONCILIATION_RECOVERY_REQUIRED" EventSource.LOCAL
    "2026-08-21T04:00:00Z";
  unc_riskEvent := {|
    re_id := "risk-1"; re_exchangeAccountId := "primary";
    re_strategyDecisionId := Some "decision-1"; re_orderId := Some "order-1";
    re_level := RiskLevelEvent.BLOCK; re_ruleCode := RiskRule.POSITION_GUARD_PILOT_UNCERTAIN_ORDER;
    re_message := "uncertain"; re_payloadJson := "{}"; re_createdAt := "2026-08-21T04:00:00Z" |};
|}.

Definition not_found (id : string) (t : Z) : OrderSubmissionRecoveryObservationRecord :=
  absent_observation id t.

Definition uncertain : order_repository :=
  sample_orders [CallUncertain uncertain_submission; CallObservation (absent_observation "a" 100000);
                 CallObservation (absent_observation "b" 160000)] bound.

Definition absence_input : FinalizeBoundedSubmissionAbsenceInput := {|
  fin_orderId := "order-1"; fin_expectedStatus := OrderStatus.RECONCILIATION_REQUIRED;
  fin_expectedUpdatedAt := "2026-08-21T04:00:00Z"; fin_failedAt := "2026-08-21T04:05:00Z";
  fin_failureCode := "ORDER_SUBMISSION_ABSENCE_CONFIRMED";
  fin_failureMessage := "Bounded identifier recovery confirmed persistent exchange absence.";
  fin_event := event_of "event-4" "RECONCILIATION_IDENTIFIER_ABSENCE_CONFIRMED"
    EventSource.RECONCILIATION "2026-08-21T04:05:00Z";
  fin_faultPause := {|
    fp_exchangeAccountId := "primary"; fp_faultId := "identifier-recovery-absence:order-1";
    fp_reason := "absence"; fp_occurredAt := "2026-08-21T04:05:00Z"; fp_transitionAt := None |};
|}.

(** The account is blocked before, and free after, with trading paused. *)
Lemma finalized_absence_unblocks_witness :
  let r := fst (finalizeBoundedSubmissionAbsence absence_input uncertain) in
  blocks "primary" uncertain uncertain_order = true /\
  blocks "primary" r (failed_order uncertain_order absence_input) = false /\
  ((fun t => es_systemStatus (state t)) <$> atomicFaultPauseStore (environment r))
  = Some SysStatus.PAUSED.
Proof.
  cbv zeta. split; [vm_compute; reflexivity|]. split; [|vm_compute; reflexivity].
  pose proof (finalized_absence_unblocks DEFAULT_IDENTIFIER_RECOVERY_POLICY
    DEFAULT_IDENTIFIER_RECOVERY_POLICY absence_input uncertain
    (fst (finalizeBoundedSubmissionAbsence absence_input uncertain)) uncertain_order) as H.
  apply H; [reflexivity|vm_compute; reflexivity|vm_compute; reflexivity|reflexivity| |reflexivity..|].
  - intros e He _. replace (orderEvents uncertain) with
      [req_event bound_request; unc_event uncertain_submission] in He by (vm_compute; reflexivity).
    apply elem_of_cons in He as [->|He]; [discriminate|].
    apply list_elem_of_singleton in He as ->. discriminate.
  - apply returned. vm_compute. reflexivity.
Defined.
