(* ===== verification/Effects.v ===== *)
(** * Effects: asynchronous code as programs over effects

    An [async] method talks to its dependencies through calls it awaits; other
    code runs while it waits.  It is a [prog]: either it is done, or it makes
    one call (an effect, indexed by the type of its answer) and goes on with
    whatever answer arrives, a value or an exception.  An answer is any that
    the call [may_answer], so what is proved of a program holds for every
    behaviour of its dependencies and every interleaving with other code.

    A [routine] is a program with the local variables of its method and
    JavaScript's exceptions: [throw], [try ... catch] and [finally].  [wp] is
    its weakest precondition over the history of calls, newest first: every
    call must be [permitted] after the calls before it. *)

From Stdlib Require Import Lia.
From stdpp Require Import base option list strings.
From S2P Require Import Prelude.

(** ** Programs *)

Section Programs.
Context {E : Type -> Type} {X : Type}.

(** What a call or a routine gives: a value or what is thrown. *)
Inductive result (A : Type) : Type :=
| Ok (value : A)
| Err (exception : X).
Arguments Ok {A} value.
Arguments Err {A} exception.

Inductive prog (A : Type) : Type :=
| Done (value : A)
| Ask {B : Type} (e : E B) (k : result B -> prog A).
Arguments Done {A} value.
Arguments Ask {A B} e k.

Fixpoint prog_bind {A B} (p : prog A) (k : A -> prog B) : prog B :=
  match p with
  | Done v => k v
  | Ask e k' => Ask e (fun r => prog_bind (k' r) k)
  end.

(** One call and its answer. *)
Inductive event : Type :=
| Asked {B : Type} (e : E B) (r : result B).

Abbreviation history := (list event).

(** What a call can be answered. *)
Context (may_answer : forall B, E B -> result B -> Prop).

(** The histories a program can have. *)
Inductive runs {A} : prog A -> history -> history -> A -> Prop :=
| runs_done v h : runs (Done v) h h v
| runs_ask {B} (e : E B) k r h h' v :
    may_answer B e r -> runs (k r) (Asked e r :: h) h' v -> runs (Ask e k) h h' v.

(** An environment that answers by what it has been asked so far; every one
    that answers as it may gives a run. *)
Fixpoint exec {A} (answer : history -> forall B, E B -> result B) (p : prog A) (h : history)
    : history * A :=
  match p with
  | Done v => (h, v)
  | Ask e k => let r := answer h _ e in exec answer (k r) (Asked e r :: h)
  end.

Lemma exec_runs {A} (answer : history -> forall B, E B -> result B) (p : prog A) h :
  (forall h B (e : E B), may_answer B e (answer h B e)) ->
  runs p h (fst (exec answer p h)) (snd (exec answer p h)).
Proof.
  intros Ha. revert h. induction p as [v|B e k IH]; intros h; cbn; [constructor|].
  eapply runs_ask; [apply Ha|apply IH].
Qed.

(** Every answer of the environment is one it gives. *)
Lemma exec_answers {A} (answer : history -> forall B, E B -> result B) (p : prog A) h :
  Forall (fun ev => match ev with Asked e r => exists h', r = answer h' _ e end) h ->
  Forall (fun ev => match ev with Asked e r => exists h', r = answer h' _ e end)
    (fst (exec answer p h)).
Proof.
  revert h. induction p as [v|B e k IH]; intros h Hh; cbn; [done|]. apply IH. constructor; [|done].
  by exists h.
Qed.

(** A call that was answered with a value of a kind. *)
Definition answered {B} (e : E B) (P : B -> Prop) (ev : event) : Prop :=
  exists v, ev = Asked e (Ok v) /\ P v.

(** A call that threw. *)
Definition failed {B} (e : E B) (ev : event) : Prop := exists x, ev = Asked e (Err x).

(** Events of these kinds, newest first, with any events between them. *)
Inductive happened : list (event -> Prop) -> history -> Prop :=
| happened_nothing h : happened [] h
| happened_now P Ps ev h : P ev -> happened Ps h -> happened (P :: Ps) (ev :: h)
| happened_before Ps ev h : happened Ps h -> happened Ps (ev :: h).

Lemma happened_app Ps t h : happened Ps h -> happened Ps (t ++ h)%list.
Proof. intros H. induction t as [|ev t IH]; [done|]. by apply happened_before. Qed.

Lemma happened_skip P Ps h : happened (P :: Ps) h -> happened Ps h.
Proof.
  intros H. remember (P :: Ps) as l eqn:Hl. revert P Ps Hl.
  induction H as [h|P' Ps' ev h HP H IH|Ps' ev h H IH]; intros P Ps Hl; [done| |].
  - injection Hl as [= -> ->]. by apply happened_before.
  - apply happened_before. by eapply IH.
Qed.

Lemma happened_mono Ps Qs h :
  Forall2 (fun P Q : event -> Prop => forall ev, P ev -> Q ev) Ps Qs ->
  happened Ps h -> happened Qs h.
Proof.
  intros HF H. revert Qs HF. induction H as [h|P Ps ev h HP H IH|Ps ev h H IH]; intros Qs HF.
  - inversion HF. constructor.
  - inversion HF as [|? Q ? Qs' HPQ HF']; subst. apply happened_now; auto.
  - apply happened_before. auto.
Qed.

Lemma happened_suffix Ps Qs h : happened (Ps ++ Qs)%list h -> happened Qs h.
Proof. induction Ps as [|P Ps IH]; [done|]. intros H%happened_skip. auto. Qed.

Lemma happened_prefix Ps Qs h : happened (Ps ++ Qs)%list h -> happened Ps h.
Proof.
  intros H. remember (Ps ++ Qs)%list as l eqn:Hl. revert Ps Hl.
  induction H as [h|P Ps' ev h HP H IH|Ps' ev h H IH]; intros Ps Hl.
  - destruct Ps; [constructor|done].
  - destruct Ps as [|P' Ps]; [constructor|]. injection Hl as [= <- ->]. by apply happened_now, IH.
  - by apply happened_before, IH.
Qed.

Lemma happened_drop_second P Q Ps h : happened (P :: Q :: Ps) h -> happened (P :: Ps) h.
Proof.
  intros H. remember (P :: Q :: Ps) as l eqn:Hl. revert P Q Ps Hl.
  induction H as [h|P' Ps' ev h HP H IH|Ps' ev h H IH]; intros P Q Ps Hl; [done| |].
  - injection Hl as [= -> ->]. apply happened_now; [done|]. by eapply happened_skip.
  - apply happened_before. by eapply IH.
Qed.

(** Any of the kinds is some event of the history. *)
Lemma happened_member P Ps h : happened Ps h -> P ∈ Ps -> happened [P] h.
Proof.
  intros H. induction H as [h|P' Ps ev h HP H IH|Ps ev h H IH].
  - by intros ?%elem_of_nil.
  - intros [->|Hin]%elem_of_cons; [|by apply happened_before, IH].
    apply happened_now; [done|constructor].
  - intros Hin. by apply happened_before, IH.
Qed.

Lemma same_kinds Ps : Forall2 (fun P Q : event -> Prop => forall ev, P ev -> Q ev) Ps Ps.
Proof. induction Ps; by constructor. Qed.

Lemma happened_head (P Q : event -> Prop) Ps h :
  (forall ev, P ev -> Q ev) -> happened (P :: Ps) h -> happened (Q :: Ps) h.
Proof.
  intros HPQ. apply happened_mono. constructor; [done|apply same_kinds].
Qed.

(** The newest of the kinds is some event of the history. *)
Lemma happened_in P Ps h : happened (P :: Ps) h -> exists ev, ev ∈ h /\ P ev.
Proof.
  intros H. remember (P :: Ps) as l eqn:Hl. revert P Ps Hl.
  induction H as [h|P' Ps' ev h HP H IH|Ps' ev h H IH]; intros P Ps Hl; [done| |].
  - injection Hl as [= -> ->]. exists ev. split; [left|done].
  - destruct (IH _ _ Hl) as (ev' & Hin & HP). exists ev'. split; [by right|done].
Qed.

Lemma happened_intro P ev h : ev ∈ h -> P ev -> happened [P] h.
Proof.
  intros Hin HP. induction Hin as [ev h|ev ev' h Hin IH].
  - apply happened_now; [done|constructor].
  - apply happened_before. auto.
Qed.

(** ** Routines *)

Section Routines.
Context {L : Type}.

Definition routine (A : Type) : Type := L -> prog (L * result A).

#[export] Instance routine_ret : MRet routine := fun A v l => Done (l, Ok v).

#[export] Instance routine_bind : MBind routine := fun A B k m l =>
  prog_bind (m l) (fun '(l', r) =>
    match r with Ok v => k v l' | Err x => Done (l', Err x) end).

Definition throw {A} (x : X) : routine A := fun l => Done (l, Err x).

(** [await] of a call. *)
Definition await {A} (e : E A) : routine A := fun l => Ask e (fun r => Done (l, r)).

(** The outcome of a body as a value. *)
Definition attempt {A} (m : routine A) : routine (result A) := fun l =>
  prog_bind (m l) (fun '(l', r) => Done (l', Ok r)).

(** [try { m } catch (x) { h x }] *)
Definition try_catch {A} (m : routine A) (h : X -> routine A) : routine A := fun l =>
  prog_bind (m l) (fun '(l', r) =>
    match r with Ok v => Done (l', Ok v) | Err x => h x l' end).

(** [try { m } finally { f }]: what [f] throws replaces the outcome of [m]. *)
Definition try_finally {A} (m : routine A) (f : routine unit) : routine A := fun l =>
  prog_bind (m l) (fun '(l', r) =>
    prog_bind (f l') (fun '(l'', r') =>
      match r' with Ok _ => Done (l'', r) | Err x => Done (l'', Err x) end)).

Definition get_local : routine L := fun l => Done (l, Ok l).
Definition set_local (l : L) : routine unit := fun _ => Done (l, Ok tt).

(** A throwing pure function, the message of its [Error] wrapped by [wrap]. *)
Definition lift_outcome {A} (wrap : string -> X) (o : outcome A) : routine A :=
  match o with Ret v => mret v | Throw m => throw (wrap m) end.

(** ** Weakest preconditions *)

Context (permitted : history -> forall B, E B -> Prop).

Fixpoint safe {A} (p : prog A) (Q : A -> history -> Prop) (h : history) : Prop :=
  match p with
  | Done v => Q v h
  | Ask e k => permitted h _ e /\ forall r, may_answer _ e r -> safe (k r) Q (Asked e r :: h)
  end.

Definition wp {A} (m : routine A) (Q : L -> result A -> history -> Prop) (l : L) (h : history)
    : Prop := safe (m l) (fun '(l', r) h' => Q l' r h') h.

Lemma safe_bind {A B} (p : prog A) (k : A -> prog B) Q h :
  safe p (fun v h' => safe (k v) Q h') h -> safe (prog_bind p k) Q h.
Proof.
  revert h. induction p as [v|B' e k' IH]; intros h; cbn; [done|].
  intros [Hp Hk]. split; [done|]. intros r Hr. by apply IH, Hk.
Qed.

Lemma safe_mono {A} (p : prog A) (Q Q' : A -> history -> Prop) h :
  (forall v h', Q v h' -> Q' v h') -> safe p Q h -> safe p Q' h.
Proof.
  intros HQ. revert h. induction p as [v|B e k IH]; intros h; cbn; [apply HQ|].
  intros [Hp Hk]. split; [done|]. intros r Hr. by apply IH, Hk.
Qed.

(** A history only grows. *)
Lemma safe_grows {A} (p : prog A) (Q : A -> history -> Prop) h :
  safe p Q h -> safe p (fun v h' => (exists t, h' = (t ++ h)%list) /\ Q v h') h.
Proof.
  revert h. induction p as [v|B e k IH]; intros h; cbn; [by split; [exists []|]|].
  intros [Hp Hk]. split; [done|]. intros r Hr. eapply safe_mono; [|by apply IH, Hk].
  intros v h' [[t ->] HQ]. split; [|done]. exists (t ++ [Asked e r])%list. by rewrite <- app_assoc.
Qed.

(** Every call of a history was permitted after the calls before it. *)
Definition all_permitted (h' h : history) : Prop :=
  forall newer older B (e : E B) r,
    h' = (newer ++ Asked e r :: older)%list -> length h <= length older -> permitted older B e.

Lemma runs_grows {A} (p : prog A) h h' v : runs p h h' v -> exists t, h' = (t ++ h)%list.
Proof.
  induction 1 as [v h|B e k r h h' v _ Hr [t ->]]; [by exists []|].
  exists (t ++ [Asked e r])%list. by rewrite <- app_assoc.
Qed.

Lemma safe_sound {A} (p : prog A) Q h h' v :
  safe p Q h -> runs p h h' v -> Q v h' /\ all_permitted h' h.
Proof.
  intros Hs Hr. induction Hr as [v h|B e k r h h' v Ha Hr IH]; cbn in Hs.
  - split; [done|]. intros newer older B e r -> Hl. rewrite length_app in Hl. cbn in Hl. lia.
  - destruct Hs as [Hp Hk]. destruct (IH (Hk r Ha)) as [HQ Hall]. split; [done|].
    intros newer older B' e' r' Heq Hl.
    destruct (decide (length (Asked e r :: h) <= length older)) as [Hle|Hgt].
    + by eapply Hall.
    + apply runs_grows in Hr as [t Ht]. cbn in Hgt.
      assert (Hlen : length older = length h) by lia.
      rewrite Ht in Heq. assert (H : t = newer /\ Asked e r :: h = Asked e' r' :: older).
      { apply app_inj_2 in Heq; [done|]. cbn. lia. }
      destruct H as [_ H]. pose proof (f_equal head H) as He. pose proof (f_equal tail H) as Ht'.
      cbn in He, Ht'. subst h.
      change (match Some (Asked e' r') with
              | Some (Asked e _) => permitted older _ e | None => True end).
      by rewrite <- He.
Qed.

Lemma wp_mono {A} (m : routine A) (Q Q' : L -> result A -> history -> Prop) l h :
  (forall l' r h', Q l' r h' -> Q' l' r h') -> wp m Q l h -> wp m Q' l h.
Proof. intros HQ. apply safe_mono. intros [l' r] h'. apply HQ. Qed.

Lemma wp_grows {A} (m : routine A) (Q : L -> result A -> history -> Prop) l h :
  wp m Q l h -> wp m (fun l' r h' => (exists t, h' = (t ++ h)%list) /\ Q l' r h') l h.
Proof. intros H. eapply safe_mono; [|by apply safe_grows, H]. by intros [l' r] h' [Ht HQ]. Qed.

Lemma wp_ret {A} (v : A) (Q : L -> result A -> history -> Prop) l h :
  Q l (Ok v) h -> wp (mret v) Q l h.
Proof. done. Qed.

Lemma wp_throw {A} x (Q : L -> result A -> history -> Prop) l h :
  Q l (Err x) h -> wp (throw x) Q l h.
Proof. done. Qed.

Lemma wp_bind {A B} (m : routine A) (k : A -> routine B) Q l h :
  wp m (fun l' r h' => match r with Ok v => wp (k v) Q l' h' | Err x => Q l' (Err x) h' end) l h ->
  wp (x ← m; k x) Q l h.
Proof.
  intros H. apply safe_bind. eapply safe_mono; [|exact H]. by intros [l' [v|x]] h'.
Qed.

Lemma wp_await {A} (e : E A) (Q : L -> result A -> history -> Prop) l h :
  permitted h A e -> (forall r, may_answer A e r -> Q l r (Asked e r :: h)) ->
  wp (await e) Q l h.
Proof. intros Hp HQ. by split. Qed.

Lemma wp_attempt {A} (m : routine A) Q l h :
  wp m (fun l' r h' => Q l' (Ok r) h') l h -> wp (attempt m) Q l h.
Proof. intros H. apply safe_bind. eapply safe_mono; [|exact H]. by intros [l' r] h'. Qed.

Lemma wp_try_catch {A} (m : routine A) (k : X -> routine A) Q l h :
  wp m (fun l' r h' => match r with Ok v => Q l' (Ok v) h' | Err x => wp (k x) Q l' h' end) l h ->
  wp (try_catch m k) Q l h.
Proof.
  intros H. apply safe_bind. eapply safe_mono; [|exact H]. by intros [l' [v|x]] h'.
Qed.

Lemma wp_try_finally {A} (m : routine A) f Q l h :
  wp m (fun l' r h' => wp f (fun l'' r' h'' =>
    match r' with Ok _ => Q l'' r h'' | Err x => Q l'' (Err x) h'' end) l' h') l h ->
  wp (try_finally m f) Q l h.
Proof.
  intros H. apply safe_bind. eapply safe_mono; [|exact H]. intros [l' r] h' Hf.
  apply safe_bind. eapply safe_mono; [|exact Hf]. by intros [l'' [v|x]] h''.
Qed.

Lemma wp_get_local (Q : L -> result L -> history -> Prop) l h : Q l (Ok l) h -> wp get_local Q l h.
Proof. done. Qed.

Lemma wp_set_local l' (Q : L -> result unit -> history -> Prop) l h :
  Q l' (Ok tt) h -> wp (set_local l') Q l h.
Proof. done. Qed.

Lemma wp_lift {A} wrap (o : outcome A) (Q : L -> result A -> history -> Prop) l h :
  (forall v, o = Ret v -> Q l (Ok v) h) -> (forall m, o = Throw m -> Q l (Err (wrap m)) h) ->
  wp (lift_outcome wrap o) Q l h.
Proof. intros Hr Ht. destruct o; [by apply Hr|by apply Ht]. Qed.

(** What holds of every run. *)
Lemma wp_sound {A} (m : routine A) Q l h h' l' r :
  wp m Q l h -> runs (m l) h h' (l', r) -> Q l' r h' /\ all_permitted h' h.
Proof. intros H Hr. exact (safe_sound _ _ _ _ _ H Hr). Qed.

End Routines.
End Programs.

Arguments result X A : clear implicits.
Arguments Ok {X A} value.
Arguments Err {X A} exception.
Arguments prog E X A : clear implicits.
Arguments event E X : clear implicits.
Arguments routine E X L A : clear implicits.

(** The events that are wanted are in the history that is known. *)
Ltac seen :=
  repeat first [assumption
               | apply happened_now; [hnf; reflexivity|]
               | apply happened_before
               | apply happened_nothing].
