(* ===== verification/CandidateAuthority.v ===== *)
(** * CandidateAuthority: what a candidate's order is bound to

    [modules/execution/candidate-execution-authority.ts] and
    [modules/execution/idempotency.ts]: the authority a route gives to the
    execution service, the timestamps of an attempt, the binding derived from
    both, and the keys of an order. *)

From Stdlib Require Import ZArith Lia Ascii.
From stdpp Require Import base option list strings.
From S2P Require Import Prelude Num Types Text Timestamp NumText CandidateState.
From S2P Require Import SubmissionBlocking PilotRecords OrderRecords.

Local Open Scope string_scope.
Local Open Scope js_scope.
Local Open Scope bool_scope.

(** ** Keys, [modules/execution/idempotency.ts] *)

Section Keys.
Context (sha256 : string -> string).

(** [shared/ids.ts] *)
Definition createFingerprint (input : string) : string := sha256 input.

Definition buildOrderIdempotencyKey (exchangeAccountId : string) (strategyDecisionId : option string)
    (market side ordType : string) (price volume : option string) : string :=
  createFingerprint (join "|"
    [exchangeAccountId; default "manual" strategyDecisionId; market; side; ordType;
     default "null" price; default "null" volume]).

(** [/[-:.TZ]/g] *)
Definition timestamp_mark (c : ascii) : bool :=
  bool_decide (c = "-"%char) || bool_decide (c = ":"%char) || bool_decide (c = "."%char)
  || bool_decide (c = "T"%char) || bool_decide (c = "Z"%char).

Fixpoint remove_marks (s : string) : string :=
  match s with
  | EmptyString => EmptyString
  | String c r => if timestamp_mark c then remove_marks r else String c (remove_marks r)
  end.

Definition buildOrderIdentifier (market side : string) (strategyDecisionId : option string)
    (requestedAt : string) : string :=
  let timestamp := remove_marks requestedAt in
  let suffix := String.substring 0 12 (createFingerprint
    (market ++ "|" ++ side ++ "|" ++ default "manual" strategyDecisionId ++ "|" ++ timestamp)) in
  market ++ "-" ++ side ++ "-" ++ suffix.

End Keys.

(** ** The authority *)

Module AuthorityReason.
Inductive RouteReason : Set :=
| CANDIDATE_ALLOWED | CANDIDATE_EARLY_THESIS_FAILURE | DRAINING_RISK_REDUCTION_PRESERVED.
#[export] Instance RouteReason_eq_dec : EqDecision RouteReason.
Proof. solve_decision. Defined.
End AuthorityReason.
Export (hints) AuthorityReason.

(** [CandidateExecutionAuthority], [modules/execution/interfaces.ts] *)
Record CandidateExecutionAuthority := {
  auth_kind : string;
  auth_deploymentId : string;
  auth_exchangeAccountId : string;
  auth_pilotId : string;
  auth_market : string;
  auth_strategyKey : string;
  auth_policyId : string;
  auth_policyVersion : string;
  auth_activationAt : string;
  auth_activationEpochNs : Z;
  auth_expectedPhase : BoundPhase;
  auth_expectedDeploymentUpdatedAt : string;
  auth_expectedStateVersion : Z;
  auth_routeReason : AuthorityReason.RouteReason;
}.

Definition require_authority_text (value label : string) : outcome unit :=
  throw_if (is_blank value)
    ("Candidate execution authority " ++ label ++ " must be a non-empty string.").

Definition validateRouteReason (phase : BoundPhase) (reason : AuthorityReason.RouteReason)
    : outcome unit :=
  match phase with
  | BOUND_ACTIVE =>
      throw_if ((reason !== AuthorityReason.CANDIDATE_ALLOWED)
                && (reason !== AuthorityReason.CANDIDATE_EARLY_THESIS_FAILURE))
        "ACTIVE candidate execution authority route reason is invalid."
  | BOUND_DRAINING =>
      throw_if (reason !== AuthorityReason.DRAINING_RISK_REDUCTION_PRESERVED)
        "DRAINING candidate execution authority route reason is invalid."
  end.

Definition validateCandidateExecutionAuthority (a : CandidateExecutionAuthority)
    : outcome CandidateExecutionAuthority :=
  _ ← require_authority_text (auth_deploymentId a) "deploymentId";
  _ ← require_authority_text (auth_exchangeAccountId a) "exchangeAccountId";
  _ ← throw_if ((auth_kind a !== "POSITION_GUARD_BTC_CANDIDATE")
                || (auth_pilotId a !== "BTC_COMBINED_CONSERVATIVE_PILOT_V1")
                || (auth_market a !== "KRW-BTC")
                || (auth_strategyKey a !== "position_guard.paper_core.v1")
                || (auth_policyId a !== "COMBINED_CONSERVATIVE")
                || (auth_policyVersion a !== "PCS-2026-001.DEPLOYMENT_READINESS_V1"))
        "Candidate execution authority must use the exact approved frozen identity.";
  activationEpochNs ← parseCandidatePilotTimestamp (auth_activationAt a)
        "execution authority activationAt";
  _ ← throw_if ((activationEpochNs <? 0)%Z || negb (activationEpochNs =? auth_activationEpochNs a)%Z)
        "Candidate execution authority activation epoch does not match its timestamp.";
  deploymentUpdatedAt ← parseCandidatePilotTimestamp (auth_expectedDeploymentUpdatedAt a)
        "execution authority expected deployment updatedAt";
  _ ← throw_if (deploymentUpdatedAt <? activationEpochNs)%Z
        "Candidate execution authority deployment chronology is invalid: updatedAt precedes activation.";
  _ ← throw_if (negb (isSafeInteger (auth_expectedStateVersion a))
                || (auth_expectedStateVersion a <? 0)%Z)
        "Candidate execution authority expected state version must be a non-negative safe integer.";
  _ ← validateRouteReason (auth_expectedPhase a) (auth_routeReason a);
  Ret a.

(** ** Timestamps *)

Definition formatCanonicalUtcIsoNanoseconds (epochNanoseconds : Z) : outcome string :=
  _ ← throw_if (epochNanoseconds <? 0)%Z "Cannot format a pre-epoch timestamp.";
  let wholeSeconds := (epochNanoseconds / 1000000000)%Z in
  let fractionalNanoseconds := (epochNanoseconds mod 1000000000)%Z in
  let wholeMilliseconds := (wholeSeconds * 1000)%Z in
  _ ← throw_if (8640000000000000 <? wholeMilliseconds)%Z
        "Epoch nanoseconds exceed the supported UTC calendar range.";
  _ ← throw_if (last_four_digit_second <? wholeSeconds)%Z
        "Epoch nanoseconds exceed the supported four-digit UTC year range.";
  Ret (iso_seconds wholeSeconds ++ "." ++ padStart0 9 (nonneg_to_string fractionalNanoseconds)
       ++ "Z").

Record CandidateExecutionAttemptTimestamps := {
  at_bindingCreatedAt : string;
  at_orderRequestedAt : string;
}.

Definition createCandidateExecutionAttemptTimestamps (activationEpochNs : Z)
    (bindingCreatedAt : string) : outcome CandidateExecutionAttemptTimestamps :=
  _ ← throw_if (activationEpochNs <? 0)%Z
        "Candidate execution activation epoch must be a non-negative bigint.";
  bindingEpochNs ← parseCandidatePilotTimestamp bindingCreatedAt "execution binding createdAt";
  _ ← throw_if (bindingEpochNs <? 0)%Z
        "Candidate execution binding createdAt cannot be pre-epoch.";
  _ ← throw_if (bindingEpochNs <=? activationEpochNs)%Z
        "Candidate execution binding createdAt must be after activation.";
  created ← formatCanonicalUtcIsoNanoseconds bindingEpochNs;
  requested ← formatCanonicalUtcIsoNanoseconds (bindingEpochNs + 1)%Z;
  Ret {| at_bindingCreatedAt := created; at_orderRequestedAt := requested |}.

(** ** The binding *)

Definition asExecutedAction (value : StrategyDecisionAction) : outcome Exec.ExecutedAction :=
  match value with
  | Action.ENTER => Ret Exec.ENTER
  | Action.ADD => Ret Exec.ADD
  | Action.REDUCE => Ret Exec.REDUCE
  | Action.EXIT => Ret Exec.EXIT
  | Action.HOLD => Throw "Candidate execution binding requires an executed strategy action."
  end.

Record DeriveCandidateExecutionBindingInput := {
  derive_authority : CandidateExecutionAuthority;
  derive_order : OrderRecord;
  derive_decision : StrategyDecisionRecord;
  derive_bindingId : string;
  derive_createdAt : string;
}.

(** The binding before its hash is known, and with it. *)
Definition binding_material (a : CandidateExecutionAuthority) (order : OrderRecord)
    (decision : StrategyDecisionRecord) (action : Exec.ExecutedAction) (bindingId createdAt hash : string)
    : CandidateExecutionBindingRecord := {|
  bind_id := bindingId;
  bind_deploymentId := auth_deploymentId a;
  bind_strategyDecisionId := sd_id decision;
  bind_orderId := ord_id order;
  bind_exchangeAccountId := auth_exchangeAccountId a;
  bind_activationAt := auth_activationAt a;
  bind_activationEpochNs := auth_activationEpochNs a;
  bind_market := auth_market a;
  bind_strategyKey := auth_strategyKey a;
  bind_policyId := auth_policyId a;
  bind_policyVersion := auth_policyVersion a;
  bind_executionMode := ord_executionMode order;
  bind_ordType := ord_ordType order;
  bind_action := action;
  bind_side := ord_side order;
  bind_intendedQuantity := sd_intendedQuantity decision;
  bind_intendedNotionalKrw := sd_intendedNotionalKrw decision;
  bind_boundPrice := ord_price order;
  bind_boundVolume := ord_volume order;
  bind_boundTimeInForce := Tif.to_string <$> ord_timeInForce order;
  bind_boundSmpType := Smp.to_string <$> ord_smpType order;
  bind_materialVersion := "BINDING_V2";
  bind_orderMaterialHash := hash;
  bind_createdAt := createdAt;
|}.

(** The deployment the authority speaks of. *)
Definition authority_deployment (a : CandidateExecutionAuthority)
    : PositionGuardPilotDeploymentRecord := {|
  dep_id := auth_deploymentId a;
  dep_exchangeAccountId := auth_exchangeAccountId a;
  dep_pilotId := auth_pilotId a;
  dep_market := auth_market a;
  dep_policyId := auth_policyId a;
  dep_policyVersion := auth_policyVersion a;
  dep_phase := bound_phase (auth_expectedPhase a);
  dep_activationAt := Some (auth_activationAt a);
  dep_activationEpochNs := Some (auth_activationEpochNs a);
  dep_createdAt := auth_activationAt a;
  dep_updatedAt := auth_expectedDeploymentUpdatedAt a;
|}.

Section Derivation.
Context (sha256 : string -> string).

Definition deriveCandidateExecutionBinding (input : DeriveCandidateExecutionBindingInput)
    : outcome CandidateExecutionBindingRecord :=
  authority ← validateCandidateExecutionAuthority (derive_authority input);
  _ ← require_authority_text (derive_bindingId input) "bindingId";
  timestamps ← createCandidateExecutionAttemptTimestamps (auth_activationEpochNs authority)
                 (derive_createdAt input);
  let order := derive_order input in
  let decision := derive_decision input in
  action ← asExecutedAction (sd_action decision);
  _ ← throw_if ((auth_routeReason authority === AuthorityReason.CANDIDATE_EARLY_THESIS_FAILURE)
                && (action !== Exec.EXIT))
        "Candidate early thesis failure authority permits only an EXIT action.";
  _ ← throw_if (ord_requestedAt order !== at_orderRequestedAt timestamps)
        "Candidate order requestedAt must be the exact canonical nanosecond successor.";
  let material := binding_material authority order decision action (derive_bindingId input)
                    (at_bindingCreatedAt timestamps) in
  binding ← validateCandidateExecutionBinding sha256
              (material (candidateExecutionBindingMaterialHash sha256 (material "")));
  _ ← validateCandidateBoundOrderIntent sha256 {|
        agg_request := {|
          req_order := order;
          req_event := {|
            oe_id := "candidate-binding-validation:" ++ bind_id binding;
            oe_orderId := ord_id order;
            oe_eventType := "ORDER_PERSISTED";
            oe_eventSource := EventSource.LOCAL;
            oe_payloadJson :=
              stringify (JObj [("decisionAction", JStr (Action.to_string (sd_action decision)))]);
            oe_createdAt := ord_requestedAt order |};
          req_binding := binding;
          req_expectedPhase := auth_expectedPhase authority;
          req_expectedDeploymentUpdatedAt := auth_expectedDeploymentUpdatedAt authority;
          req_expectedStateVersion := auth_expectedStateVersion authority |};
        agg_decision := decision;
        agg_deployment := authority_deployment authority;
        agg_exactStateVersion := auth_expectedStateVersion authority |};
  Ret binding.

End Derivation.
