(* ===== verification/ExecutionRecords.v ===== *)
(** * ExecutionRecords: what the execution service is told and asks

    The inputs and results of [modules/execution/interfaces.ts], the exchange
    records of [modules/exchange/interfaces.ts], the errors the service tells
    apart, and its calls: one constructor of [effect] per method of a
    dependency it uses, with the type of the answer.  The cause an error
    carries is never read and is left out. *)

From Stdlib Require Import ZArith Lia.
From stdpp Require Import base option list strings.
From S2P Require Import Prelude Num Types Text NumText Risk CandidateState Decimals ExactState.
From S2P Require Import SubmissionBlocking Lease OperatorState PilotRecords OrderRecords.
From S2P Require Import Effects CandidateAuthority StrategyCore.

Local Open Scope string_scope.
Local Open Scope js_scope.
Local Open Scope bool_scope.

(** ** Errors *)

(** [modules/exchange/errors.ts] *)
Module SubmissionError.
Inductive ExchangeOrderSubmissionErrorKind : Set := DEFINITIVE_REJECTION | UNCERTAIN.
Definition to_string (x : ExchangeOrderSubmissionErrorKind) : string :=
  match x with
  | DEFINITIVE_REJECTION => "DEFINITIVE_REJECTION"
  | UNCERTAIN => "UNCERTAIN"
  end.
#[export] Instance ExchangeOrderSubmissionErrorKind_eq_dec :
  EqDecision ExchangeOrderSubmissionErrorKind.
Proof. solve_decision. Defined.
End SubmissionError.
Export (hints) SubmissionError.

Module LookupError.
Inductive ExchangeOrderLookupErrorKind : Set := TRANSIENT | PERMANENT.
#[export] Instance ExchangeOrderLookupErrorKind_eq_dec : EqDecision ExchangeOrderLookupErrorKind.
Proof. solve_decision. Defined.
End LookupError.
Export (hints) LookupError.

Record ExchangeOrderLookupErrorOptions := {
  lookup_kind : LookupError.ExchangeOrderLookupErrorKind;
  lookup_status : option Z;
}.

Record ExchangeOrderSubmissionErrorOptions := {
  err_kind : SubmissionError.ExchangeOrderSubmissionErrorKind;
  err_status : option Z;
  err_exchangeCode : option string;
  err_exchangeName : option string;
  err_responseReceived : bool;
}.

(** The code of a [RuntimeOwnershipGuardError], [app/runtime-ownership-guard.ts] *)
Module OwnershipCode.
Inductive RuntimeOwnershipGuardCode : Set :=
| RUNTIME_OWNERSHIP_NOT_HELD | RUNTIME_OWNERSHIP_LOST | RUNTIME_OWNERSHIP_REACQUISITION_FORBIDDEN.
End OwnershipCode.

(** What can be thrown. *)
Inductive js_error : Set :=
| PlainError (message : string)
| CandidateExecutionSafetyError (message : string)
| AccountExecutionLeaseSafetyError (message : string)
| AutomaticFaultPauseSafetyError (message : string)
| LeaseBlockPersistenceSafetyError (message : string)
| PostSendPersistenceSafetyError (message : string)
| RuntimeOwnershipGuardError (code : OwnershipCode.RuntimeOwnershipGuardCode) (message : string)
| ExchangeOrderSubmissionError (options : ExchangeOrderSubmissionErrorOptions)
| ExchangeOrderLookupError (options : ExchangeOrderLookupErrorOptions)
| ExchangeOrderSnapshotBindingError
| NotAnError.

Definition submission_error_message (kind : SubmissionError.ExchangeOrderSubmissionErrorKind)
    : string :=
  if kind === SubmissionError.DEFINITIVE_REJECTION
  then "Upbit definitively rejected the order submission."
  else "Upbit order submission outcome is uncertain and requires recovery.".

Definition lookup_error_message (kind : LookupError.ExchangeOrderLookupErrorKind) : string :=
  if kind === LookupError.TRANSIENT
  then "Upbit order lookup failed transiently."
  else "Upbit order lookup failed permanently.".

Definition binding_error_message : string :=
  "Exchange order snapshot is not exactly bound to the lookup and local order intent.".

(** [error instanceof Error ? error.message : fallback] *)
Definition error_message (fallback : string) (x : js_error) : string :=
  match x with
  | PlainError m | CandidateExecutionSafetyError m | AccountExecutionLeaseSafetyError m
  | AutomaticFaultPauseSafetyError m | LeaseBlockPersistenceSafetyError m
  | PostSendPersistenceSafetyError m | RuntimeOwnershipGuardError _ m => m
  | ExchangeOrderSubmissionError options => submission_error_message (err_kind options)
  | ExchangeOrderLookupError options => lookup_error_message (lookup_kind options)
  | ExchangeOrderSnapshotBindingError => binding_error_message
  | NotAnError => fallback
  end.

(** ** Inputs and results *)

Record SubmitOrderFromDecisionInput := {
  in_exchangeAccountId : string;
  in_strategyDecisionId : option string;
  in_referencePriceCapturedAt : string;
  in_decision : StrategyDecision;
  in_side : OrderSide;
  in_ordType : OrderType;
  in_price : option string;
  in_volume : option string;
  in_origin : option Origin.OrderOrigin;
  in_market : option SupportedMarket;
  in_candidateAuthority : option CandidateExecutionAuthority;
}.

Module Submission.
Inductive SubmissionOutcome : Set :=
| SUBMITTED | SIMULATED_FILLED | REJECTED | DUPLICATE | LEASE_BLOCKED | RECONCILIATION_REQUIRED.
#[export] Instance SubmissionOutcome_eq_dec : EqDecision SubmissionOutcome.
Proof. solve_decision. Defined.
End Submission.
Export (hints) Submission.

Record SubmitOrderFromDecisionResult := {
  res_accepted : bool;
  res_outcome : Submission.SubmissionOutcome;
  res_order : option OrderRecord;
  res_reason : option string;
}.

(** ** The exchange *)

Record UpbitOrderRequest := {
  order_market : SupportedMarket;
  order_side : OrderSide;
  order_ordType : OrderType;
  order_volume : option string;
  order_price : option string;
  order_identifier : string;
  order_timeInForce : option Tif.TimeInForce;
  order_smpType : option Smp.UpbitSelfMatchPrevention;
}.

Record UpbitOrderChance := {
  chance_marketId : string;
  chance_askTypes : list string;
  chance_bidTypes : list string;
  chance_maxTotal : option string;
  chance_bidMinTotal : option num;
  chance_askMinTotal : option num;
  chance_bidFee : string;
  chance_askFee : string;
}.

Record ExchangeFillSnapshot := {
  xfill_tradeUuid : option string;
  xfill_side : OrderSide;
  xfill_price : string;
  xfill_volume : string;
  xfill_funds : option string;
  xfill_fee : option string;
  xfill_createdAt : option string;
  xfill_raw : json;
}.

(** An absent time in force or self-match prevention and a null one are treated
    alike; [xorder_json] is the object as JSON. *)
Record ExchangeOrderSnapshot := {
  xorder_uuid : string;
  xorder_identifier : option string;
  xorder_market : SupportedMarket;
  xorder_side : OrderSide;
  xorder_ordType : OrderType;
  xorder_state : string;
  xorder_price : option string;
  xorder_volume : option string;
  xorder_timeInForce : option Tif.TimeInForce;
  xorder_smpType : option Smp.UpbitSelfMatchPrevention;
  xorder_remainingVolume : option string;
  xorder_executedVolume : option string;
  xorder_paidFee : option string;
  xorder_createdAt : string;
  xorder_fills : list ExchangeFillSnapshot;
  xorder_raw : json;
  xorder_json : json;
}.

Record OrderValidationResult := {
  validation_accepted : bool;
  validation_marketOnline : bool;
  validation_reason : option string;
  validation_preview : option ExchangeOrderSnapshot;
}.

(** ** Notifications *)

Inductive ReportType : Set := ORDER_REJECTED | ORDER_SUBMISSION_FAILED.
Inductive ReportSeverity : Set := SEVERITY_WARN | SEVERITY_ERROR.

Record ReportInput := {
  report_exchangeAccountId : string;
  report_notificationType : ReportType;
  report_severity : ReportSeverity;
  report_title : string;
  report_message : string;
  report_payload : json;
}.

(** [AssertCurrentExecutionAuthorityInput], [app/runtime-ownership-guard.ts] *)
Record AssertCurrentExecutionAuthorityInput := {
  fence_atEpochMs : Z;
  fence_exchangeAccountId : string;
  fence_expectedExecutionMode : ExecutionMode;
  fence_expectedLiveExecutionGate : LiveExecutionGate;
}.

(** ** Calls *)

Inductive effect : Type -> Type :=
(* clocks and identifiers *)
| Now : effect string
| DateNow : effect Z
| NewDate : effect string
| CreateId (prefix : string) : effect string
(* runtime ownership: the check that is made before the callback runs (does it
   run?), and what follows it *)
| AssertLocallyHeld : effect unit
| AssertCurrent (atEpochMs : Z) : effect unit
| EnterFence (input : AssertCurrentExecutionAuthorityInput) : effect bool
| LeaveFence : effect unit
(* repositories *)
| FindOrderByIdempotencyKey (exchangeAccountId key : string) : effect (option OrderRecord)
| FindOrderById (exchangeAccountId id : string) : effect (option OrderRecord)
| ListActiveOrders (exchangeAccountId : string) : effect (list OrderRecord)
| ListSubmissionBlockingOrders (exchangeAccountId : string) (limit : Z) : effect (list OrderRecord)
| ListOrderEvents (orderId : string) : effect (list OrderEventRecord)
| GetStrategyDecisionById (id : string) : effect (option StrategyDecisionRecord)
| GetPortfolioExposure (exchangeAccountId : string) : effect PortfolioExposureSnapshot
| SaveRiskEvent (record : RiskEventRecord) : effect unit
| PersistOrderIntent (input : PersistOrderIntentInput) : effect unit
| PersistCandidateBoundOrderIntent (input : PersistCandidateBoundOrderIntentRequest) : effect unit
| UpdateOrder (record : OrderRecord) : effect unit
| PersistExchangeSubmission (input : PersistExchangeSubmissionInput) : effect unit
| PersistUncertainSubmission (input : PersistUncertainSubmissionInput) : effect unit
(* leases *)
| AcquireLease (input : AcquireAccountExecutionLeaseInput)
    : effect (option AccountExecutionLeaseRecord)
| RenewLease (input : RenewAccountExecutionLeaseInput)
    : effect (option AccountExecutionLeaseRecord)
| ReleaseLease (exchangeAccountId ownerToken : string) : effect bool
(* operator state *)
| GetState : effect ExecutionStateRecord
| PauseForFault (input : FaultPauseInput) : effect ExecutionStateRecord
(* pilots *)
| GetDeployment (id : string) : effect (option PositionGuardPilotDeploymentRecord)
| GetExactState (id : string) : effect (option ExactCandidateState)
| GetExecutionBindingForOrder (orderId : string) : effect (option CandidateExecutionBindingRecord)
| PauseForCandidateIntentFault (input : PauseCandidateIntentFaultInput) : effect unit
(* the exchange: an order is submitted when its promise is created *)
| GetOrderChance (market : SupportedMarket) : effect UpbitOrderChance
| TestOrder (request : UpbitOrderRequest) : effect OrderValidationResult
| CreateOrder (request : UpbitOrderRequest) : effect unit
| AwaitOrder : effect ExchangeOrderSnapshot
(* notifications *)
| Report (input : ReportInput) : effect unit.

(** ** Configuration *)

(** The dependencies of the service that are not calls, and which of the
    optional ones there are. *)
Record ExecutionDependencies := {
  dep_riskLimits : ExecutionRiskLimits;
  dep_sendPath : SendPath.ExecutionSendPath;
  dep_accountExecutionLeaseMs : Z;
  dep_hasCandidatePilots : bool;
  dep_hasDecisionById : bool;
  dep_hasReporter : bool;
  dep_hasFence : bool;
}.
