(* ===== verification/ExecutionHelpers.v ===== *)
(** * ExecutionHelpers: the pure functions of the execution service

    The functions of [modules/execution/execution-service.ts] that call
    nothing: statuses and authorities, the shape of a market-buy quote, the
    notional a request stands for, the fill a dry run makes up, lease windows,
    the last look at the persisted orders, and what makes a candidate's
    duplicate the same order. *)

From Stdlib Require Import ZArith Lia Ascii.
From Stdlib Require Import Floats.SpecFloat.
From stdpp Require Import base option list strings.
From S2P Require Import Prelude Num Types Text Timestamp NumText Json JsMap Risk CandidateState.
From S2P Require Import Decimals ExactState SubmissionBlocking Lease OperatorState PilotRecords.
From S2P Require Import StrategyCore OrderRecords Effects CandidateAuthority ExecutionRecords.

Local Open Scope string_scope.
Local Open Scope js_scope.
Local Open Scope bool_scope.

(** ** Statuses and authorities *)

(** [Boolean(executedVolume && Number(executedVolume) > 0)]; the number of the
    empty text is zero. *)
Definition hasExecutedVolume (executedVolume : option string) : bool :=
  match executedVolume with
  | Some v => nltb zero (Number_of_string v)
  | None => false
  end.

Definition mapExchangeOrderStatus (exchangeState : string) (executedVolume : option string)
    (ordType : OrderType) (side : OrderSide) : OrderLifecycleStatus :=
  if exchangeState === "done" then OrderStatus.FILLED
  else if exchangeState === "cancel" then
    if (side === Side.bid) && (ordType === OrdType.price) && hasExecutedVolume executedVolume
    then OrderStatus.FILLED else OrderStatus.CANCELED
  else if hasExecutedVolume executedVolume then OrderStatus.PARTIALLY_FILLED
  else OrderStatus.OPEN.

(** [ExecutionAuthorityTuple] *)
Abbreviation ExecutionAuthorityTuple := (ExecutionMode * LiveExecutionGate)%type.

Definition selectExecutionAuthority (state : ExecutionStateRecord) : ExecutionAuthorityTuple :=
  (es_executionMode state, es_liveExecutionGate state).

Definition executionAdapterAcceptsAuthority (sendPath : SendPath.ExecutionSendPath)
    (authority : ExecutionAuthorityTuple) : bool :=
  let fullyLive := (fst authority === Mode.LIVE) && (snd authority === Gate.ENABLED) in
  if sendPath === SendPath.LIVE_ADAPTER then fullyLive else negb fullyLive.

Definition eventSourceForAdapter (sendPath : SendPath.ExecutionSendPath)
    : EventSource.OrderEventSource :=
  if sendPath === SendPath.LIVE_ADAPTER then EventSource.EXCHANGE else EventSource.LOCAL.

Definition isTerminalOrderStatus (status : OrderLifecycleStatus) : bool :=
  (status === OrderStatus.FILLED) || (status === OrderStatus.CANCELED)
  || (status === OrderStatus.REJECTED).

(** ** Errors of a submission *)

Definition isDuplicateIdentifierError (error : ExchangeOrderSubmissionErrorOptions) : bool :=
  existsb (fun value => match value with
                        | Some v => toLowerCase (trim v) === "duplicate_identifier"
                        | None => false
                        end)
    [err_exchangeCode error; err_exchangeName error].

Definition opt_str_json (value : option string) : json := from_option JStr JNull value.

(** The message and the metadata, in the order they are written. *)
Definition describeSubmissionError (error : js_error) : string * list (string * json) :=
  match error with
  | ExchangeOrderSubmissionError e =>
      (submission_error_message (err_kind e),
       [("kind", JStr (SubmissionError.to_string (err_kind e)));
        ("status", from_option JInt JNull (err_status e));
        ("exchangeCode", opt_str_json (err_exchangeCode e));
        ("exchangeName", opt_str_json (err_exchangeName e));
        ("responseReceived", JBool (err_responseReceived e))])
  | _ =>
      ("Order submission outcome is uncertain and requires reconciliation.",
       [("kind", JStr "UNCERTAIN"); ("status", JNull); ("exchangeCode", JNull);
        ("exchangeName", JNull); ("responseReceived", JBool false)])
  end.

(** [error instanceof ExchangeOrderSubmissionError && error.kind ===
    "DEFINITIVE_REJECTION" && !isDuplicateIdentifierError(error)] *)
Definition definitiveRejection (error : js_error) : bool :=
  match error with
  | ExchangeOrderSubmissionError e =>
      (err_kind e === SubmissionError.DEFINITIVE_REJECTION) && negb (isDuplicateIdentifierError e)
  | _ => false
  end.

(** [/market_offline/iu.test(message)], for the letters of ASCII. *)
Fixpoint contains (w s : string) : bool :=
  String.prefix w s || match s with EmptyString => false | String _ s' => contains w s' end.

Definition is_market_offline (message : string) : bool :=
  contains "market_offline" (toLowerCase message).

(** ** The request *)

Definition assertCanonicalUpbitMarketBuyQuote (input : SubmitOrderFromDecisionInput)
    : outcome unit :=
  if (in_side input !== Side.bid) || (in_ordType input !== OrdType.price) then Ret tt
  else
    match in_price input, in_volume input, sd_requestedNotionalKrw (in_decision input) with
    | Some price, None, Some notional =>
        _ ← throw_if (negb (is_finite notional) || nleb notional zero)
          "Market-buy quote must have a positive decision notional, price, and no volume.";
        canonical ← canonicalizeUpbitOrderDecimal price "market-buy quote";
        expected ← serializeUpbitOrderDecimal notional "market-buy decision notional";
        throw_if ((price !== canonical) || (price !== expected))
          "Market-buy quote must exactly match the canonical decision notional."
    | _, _, _ =>
        Throw "Market-buy quote must have a positive decision notional, price, and no volume."
    end.

(** A nullable text that is not empty. *)
Definition non_empty (value : option string) : option string :=
  match value with Some s => if s === "" then None else Some s | None => None end.

Definition deriveRequestedNotionalKrw (decision : StrategyDecision) (price volume : option string)
    : option num :=
  let referencePrice := StrategyCore.sd_referencePrice decision in
  let from_price :=
    match non_empty price with
    | Some p => let priceNumber := Number_of_string p in
                if is_finite priceNumber then Some priceNumber else None
    | None => None
    end in
  let from_volume :=
    match non_empty volume with
    | Some v => let volumeNumber := Number_of_string v in
                if is_finite volumeNumber && is_finite referencePrice
                then Some (nmul referencePrice volumeNumber) else from_price
    | None => from_price
    end in
  match non_empty price, non_empty volume with
  | Some p, Some v =>
      let priceNumber := Number_of_string p in
      let volumeNumber := Number_of_string v in
      if is_finite priceNumber && is_finite volumeNumber
      then Some (nmul priceNumber volumeNumber) else from_volume
  | _, _ => from_volume
  end.

Definition nullableNumberString (value : option num) : option string := num_to_string <$> value.

Definition nullableDecisionNotionalString (decision : StrategyDecision) : outcome (option string) :=
  match sd_requestedNotionalKrw decision with
  | None => Ret None
  | Some notional =>
      text ← serializeUpbitOrderDecimal notional "candidate market-buy quote"; Ret (Some text)
  end.

Definition resolveChanceTypeToken (ordType : OrderType) (timeInForce : option Tif.TimeInForce)
    : string :=
  match timeInForce with
  | None => OrdType.to_string ordType
  | Some t => OrdType.to_string ordType ++ "_" ++ Tif.to_string t
  end.

(** What the risk guards see of an order. *)
Definition open_order (o : OrderRecord) : OpenOrder := {|
  Risk.order_market := ord_market o;
  Risk.order_side := ord_side o;
  Risk.order_ordType := ord_ordType o;
  Risk.order_price := ord_price o;
  Risk.order_volume := ord_volume o;
  Risk.order_status := ord_status o;
  Risk.order_identifier := ord_identifier o;
  Risk.order_idempotencyKey := ord_idempotencyKey o;
|}.

(** ** Fills *)

(** [x.toFixed(digits)]: the integer of [to_fixed_number] in digits, with a
    dot before the last [digits] of them. *)
Definition to_fixed_text (digits : nat) (x : num) : string :=
  match x with
  | S754_finite s m e =>
      if nleb (num_of_Z (10 ^ 21)) (nabs x) then num_to_string x
      else
        let scaled := (Zpos m * 10 ^ Z.of_nat digits)%Z in
        let n := (if 0 <=? e then scaled * 2 ^ e
                  else (2 * scaled + 2 ^ (- e)) / (2 * 2 ^ (- e)))%Z in
        let t := padStart0 (S digits) (nonneg_to_string n) in
        (if s then "-" else "") ++ slice_init digits t ++ "." ++ slice_last digits t
  | S754_zero _ => "0." ++ zeros digits
  | _ => num_to_string x
  end.

(** [.replace(/\.$/u, "")] *)
Fixpoint strip_trailing_dot (s : string) : string :=
  match s with
  | EmptyString => EmptyString
  | String c EmptyString => if Ascii.eqb c "." then EmptyString else s
  | String c s' => String c (strip_trailing_dot s')
  end.

Definition deriveDryRunVolume (requestedNotionalKrw : option num) (referencePrice : num)
    : option string :=
  match requestedNotionalKrw with
  | Some notional =>
      if negb (is_finite notional) || nleb notional zero
         || negb (is_finite referencePrice) || nleb referencePrice zero
      then None
      else Some (strip_trailing_dot (strip_trailing_zeros
                   (to_fixed_text 12 (ndiv notional referencePrice))))
  | None => None
  end.

Definition dry_run_price (ordType : OrderType) (price : option string) (referencePrice : num)
    : string :=
  match price with
  | Some p => if ordType === OrdType.price then num_to_string referencePrice else p
  | None => num_to_string referencePrice
  end.

(** The price and the volume of the fill a dry run makes up, if it makes one. *)
Definition dry_run_quantities (ordType : OrderType) (price volume : option string)
    (referencePrice : num) (requestedNotionalKrw : option num) : option (string * string) :=
  let price := dry_run_price ordType price referencePrice in
  let volume := match volume with
                | Some v => Some v
                | None => deriveDryRunVolume requestedNotionalKrw referencePrice
                end in
  match non_empty volume with
  | Some v => if nleb (Number_of_string v) zero || nleb (Number_of_string price) zero then None
              else Some (price, v)
  | None => None
  end.

(** Provenance, epoch and time of an exchange's fill. *)
Definition directExchangeFillTimestamp (createdAt : option string)
    : TimeProvenance.FillExecutionTimestampProvenance * option string * string :=
  match createdAt with
  | None => (TimeProvenance.LEGACY_UNVERIFIED, None, "")
  | Some t =>
      match parseCandidateEvidenceTimestamp t "exchange fill createdAt" with
      | Ret epoch => (TimeProvenance.EXCHANGE_FILL_CONFIRMED, Some (Z_to_string epoch), t)
      | Throw _ => (TimeProvenance.LEGACY_UNVERIFIED, None, t)
      end
  end.

(** ** Leases *)

Record lease_window := {
  win_atEpochMs : Z;
  win_expiresAtEpochMs : Z;
}.

(** [NaN] is no safe integer. *)
Definition leaseWindow (accountExecutionLeaseMs : Z) (timestamp operation : string)
    : outcome lease_window :=
  match Date_parse timestamp with
  | Some atEpochMs =>
      _ ← throw_if (negb (isSafeInteger atEpochMs) || (atEpochMs <? 0)%Z
                    || negb (isSafeInteger accountExecutionLeaseMs)
                    || (accountExecutionLeaseMs <=? 0)%Z)
            ("Account execution lease " ++ operation
             ++ " requires positive safe integer timestamps and duration.");
      let expiresAtEpochMs := (atEpochMs + accountExecutionLeaseMs)%Z in
      _ ← throw_if (negb (isSafeInteger expiresAtEpochMs) || (expiresAtEpochMs <=? atEpochMs)%Z)
            ("Account execution lease " ++ operation ++ " expiry is unsafe.");
      Ret {| win_atEpochMs := atEpochMs; win_expiresAtEpochMs := expiresAtEpochMs |}
  | None => Throw ("Account execution lease " ++ operation
                   ++ " requires positive safe integer timestamps and duration.")
  end.

Definition isOwnedLease (lease : option AccountExecutionLeaseRecord)
    (exchangeAccountId ownerToken : string) (atEpochMs : Z) : bool :=
  match lease with
  | Some l =>
      (lease_exchangeAccountId l === exchangeAccountId) && (lease_ownerToken l === ownerToken)
      && isSafeInteger (lease_acquiredAtEpochMs l) && isSafeInteger (lease_expiresAtEpochMs l)
      && (atEpochMs <? lease_expiresAtEpochMs l)%Z
  | None => false
  end.

(** ** The last look at the persisted orders *)

Definition CANDIDATE_FINAL_ORDER_SCAN_LIMIT : Z := 100.

(** Every field of an order record is listed. *)
Definition sameOrderRecord (left right : OrderRecord) : bool := left === right.

(** The loop over the active orders: has the expected order been seen, and a
    competing one? *)
Fixpoint scan_orders (orderId : string) (expectedOrder : OrderRecord)
    (expectedOrderIsActive hasCompetingOrder : bool) (activeOrders : list OrderRecord)
    : outcome (bool * bool) :=
  match activeOrders with
  | [] => Ret (expectedOrderIsActive, hasCompetingOrder)
  | activeOrder :: rest =>
      if ord_id activeOrder === orderId then
        if expectedOrderIsActive || negb (sameOrderRecord activeOrder expectedOrder)
        then Throw "final persisted order scan is ambiguous or mutated"
        else scan_orders orderId expectedOrder true hasCompetingOrder rest
      else scan_orders orderId expectedOrder expectedOrderIsActive true rest
  end.

Definition assertFinalPersistedSubmissionAuthority (orderId : string) (expectedOrder : OrderRecord)
    (activeOrders : list OrderRecord) (persistedOrder : option OrderRecord) : outcome unit :=
  _ ← throw_if (CANDIDATE_FINAL_ORDER_SCAN_LIMIT <? Z.of_nat (length activeOrders))%Z
        "final submission-blocking order scan exceeded its safety bound";
  '(expectedOrderIsActive, hasCompetingOrder) ←
    scan_orders orderId expectedOrder false false activeOrders;
  throw_if (hasCompetingOrder || negb expectedOrderIsActive
            || match persistedOrder with
               | Some o => (ord_status o !== OrderStatus.SUBMITTING)
                           || negb (sameOrderRecord o expectedOrder)
               | None => true
               end)
    "final persisted SUBMITTING order authority changed".

(** ** A candidate's duplicate *)

Definition matchesCandidateDuplicateOrder (order : OrderRecord) (decision : StrategyDecisionRecord)
    (idempotencyKey : string) : bool :=
  let action := OrderRecords.sd_action decision in
  (ord_exchangeAccountId order === sd_exchangeAccountId decision)
  && (ord_strategyDecisionId order === Some (sd_id decision))
  && (ord_market order === OrderRecords.sd_market decision)
  && (ord_origin order === Origin.STRATEGY)
  && (ord_idempotencyKey order === idempotencyKey)
  && negb (is_blank (ord_identifier order))
  && (ord_createdAt order === ord_requestedAt order)
  && (if (action === Action.ENTER) || (action === Action.ADD)
      then (ord_side order === Side.bid) && (ord_ordType order === OrdType.price)
           && (ord_price order === sd_intendedNotionalKrw decision)
           && (ord_volume order === None)
      else (ord_side order === Side.ask) && (ord_ordType order === OrdType.market)
           && (ord_price order === None)
           && (ord_volume order === sd_intendedQuantity decision))
  && (ord_timeInForce order === None) && (ord_smpType order === None).

Definition matchesCandidateDuplicateBinding (b : CandidateExecutionBindingRecord)
    (order : OrderRecord) (decision : StrategyDecisionRecord) (a : CandidateExecutionAuthority)
    : bool :=
  match (createdAt ← parseCandidateEvidenceTimestamp (bind_createdAt b)
                       "candidate duplicate binding createdAt";
         formatCanonicalUtcIsoNanoseconds (createdAt + 1)%Z) with
  | Throw _ => false
  | Ret expectedRequestedAt =>
      (bind_deploymentId b === auth_deploymentId a)
      && (bind_strategyDecisionId b === sd_id decision)
      && (bind_orderId b === ord_id order)
      && (bind_exchangeAccountId b === auth_exchangeAccountId a)
      && (bind_activationAt b === auth_activationAt a)
      && (bind_activationEpochNs b =? auth_activationEpochNs a)%Z
      && (bind_market b === auth_market a)
      && (bind_strategyKey b === auth_strategyKey a)
      && (bind_policyId b === auth_policyId a)
      && (bind_policyVersion b === auth_policyVersion a)
      && (bind_executionMode b === ord_executionMode order)
      && (bind_ordType b === ord_ordType order)
      && (Exec.to_action (bind_action b) === OrderRecords.sd_action decision)
      && (bind_side b === ord_side order)
      && (bind_intendedQuantity b === sd_intendedQuantity decision)
      && (bind_intendedNotionalKrw b === sd_intendedNotionalKrw decision)
      && (bind_boundPrice b === ord_price order)
      && (bind_boundVolume b === ord_volume order)
      && (bind_boundTimeInForce b === (Tif.to_string <$> ord_timeInForce order))
      && (bind_boundSmpType b === (Smp.to_string <$> ord_smpType order))
      && (ord_requestedAt order === expectedRequestedAt)
  end.

Definition matchesCandidateDuplicateDeployment (d : PositionGuardPilotDeploymentRecord)
    (exactStateVersion : Z) (a : CandidateExecutionAuthority) : bool :=
  (dep_id d === auth_deploymentId a)
  && (dep_exchangeAccountId d === auth_exchangeAccountId a)
  && (dep_pilotId d === auth_pilotId a)
  && (dep_market d === auth_market a)
  && (dep_policyId d === auth_policyId a)
  && (dep_policyVersion d === auth_policyVersion a)
  && (dep_phase d === bound_phase (auth_expectedPhase a))
  && (dep_updatedAt d === auth_expectedDeploymentUpdatedAt a)
  && (dep_activationAt d === Some (auth_activationAt a))
  && (dep_activationEpochNs d === Some (auth_activationEpochNs a))
  && (exactStateVersion =? auth_expectedStateVersion a)%Z.

Definition matchesCandidateDuplicatePersistedEvent (event : OrderEventRecord) (order : OrderRecord)
    (decision : StrategyDecisionRecord) : bool :=
  if (oe_orderId event !== ord_id order) || (oe_eventSource event !== EventSource.LOCAL)
     || (oe_createdAt event !== ord_requestedAt order)
  then false
  else match JSON_parse (oe_payloadJson event) with
       | Some (JObj fields) =>
           ((map_get "idempotencyKey" fields ≫= json_string) === Some (ord_idempotencyKey order))
           && ((map_get "decisionAction" fields ≫= json_string)
               === Some (Action.to_string (OrderRecords.sd_action decision)))
       | _ => false
       end.

(** The instant a fault of the candidate is dated at: the attempt's, unless it
    is unreadable or precedes the authority. *)
Definition candidateFaultOccurredAt (a : CandidateExecutionAuthority)
    (attemptedAt : option string) : outcome string :=
  updatedAt ← parseCandidateEvidenceTimestamp (auth_expectedDeploymentUpdatedAt a)
                "candidate authority expected deployment updatedAt";
  let minimumEpochNs :=
    if (auth_activationEpochNs a <? updatedAt)%Z then updatedAt else auth_activationEpochNs a in
  let fallback := formatCanonicalUtcIsoNanoseconds (minimumEpochNs + 1)%Z in
  match attemptedAt with
  | None => fallback
  | Some at_ =>
      match parseCandidateEvidenceTimestamp at_ "candidate fault attemptedAt" with
      | Ret attemptedEpochNs =>
          if (minimumEpochNs <=? attemptedEpochNs)%Z then
            match formatCanonicalUtcIsoNanoseconds attemptedEpochNs with
            | Ret text => Ret text
            | Throw _ => fallback
            end
          else fallback
      | Throw _ => fallback
      end
  end.

Example mapped_cancelled_market_buy :
  mapExchangeOrderStatus "cancel" (Some "0.001") OrdType.price Side.bid = OrderStatus.FILLED /\
  mapExchangeOrderStatus "cancel" (Some "0.001") OrdType.market Side.ask = OrderStatus.CANCELED.
Proof. split; vm_compute; reflexivity. Qed.
Example dry_run_volume_text :
  deriveDryRunVolume (Some (lit 4000000 0)) (lit 100000000 0) = Some "0.04" /\
  deriveDryRunVolume (Some (lit 10 0)) (lit 3 0) = Some "3.333333333333" /\
  deriveDryRunVolume (Some (lit 10 0)) (lit 5 0) = Some "2".
Proof. split_and!; vm_compute; reflexivity. Qed.
