(* ===== verification/ExecutionService.v ===== *)
(** * ExecutionService: submitting one order

    [ExecutionService.submitOrderFromDecision] of
    [modules/execution/execution-service.ts] with the methods it calls, as
    routines over the calls of [ExecutionRecords].  The method is cut into
    named parts in the order of the source; [locals] are the variables its
    [try] blocks assign.  [Promise.all] makes its calls in order and then
    throws what the first of them threw. *)

From Stdlib Require Import ZArith Lia.
From stdpp Require Import base option list strings.
From S2P Require Import Prelude Num Types Text Timestamp NumText CandidateState ExactState.
From S2P Require Import SubmissionBlocking Lease OperatorState PilotRecords StrategyCore.
From S2P Require Import OrderRecords Risk Effects CandidateAuthority ExecutionRecords.
From S2P Require Import ExecutionHelpers.

Local Open Scope string_scope.
Local Open Scope js_scope.
Local Open Scope bool_scope.

(** ** The variables of a call *)

Record locals := {
  releaseLease : bool;
  createOrderInvoked : bool;
  finalRuntimeExecutionAuthorityCheckStarted : bool;
  exchangeOrderPromise : bool;
  postAdapterOwnershipAssertionFailed : bool;
}.

Definition initial_locals : locals := {|
  releaseLease := true;
  createOrderInvoked := false;
  finalRuntimeExecutionAuthorityCheckStarted := false;
  exchangeOrderPromise := false;
  postAdapterOwnershipAssertionFailed := false;
|}.

Definition with_release (b : bool) (l : locals) : locals := {|
  releaseLease := b;
  createOrderInvoked := createOrderInvoked l;
  finalRuntimeExecutionAuthorityCheckStarted := finalRuntimeExecutionAuthorityCheckStarted l;
  exchangeOrderPromise := exchangeOrderPromise l;
  postAdapterOwnershipAssertionFailed := postAdapterOwnershipAssertionFailed l;
|}.

Definition with_invoked (l : locals) : locals := {|
  releaseLease := releaseLease l;
  createOrderInvoked := true;
  finalRuntimeExecutionAuthorityCheckStarted := finalRuntimeExecutionAuthorityCheckStarted l;
  exchangeOrderPromise := exchangeOrderPromise l;
  postAdapterOwnershipAssertionFailed := postAdapterOwnershipAssertionFailed l;
|}.

Definition with_check_started (l : locals) : locals := {|
  releaseLease := releaseLease l;
  createOrderInvoked := createOrderInvoked l;
  finalRuntimeExecutionAuthorityCheckStarted := true;
  exchangeOrderPromise := exchangeOrderPromise l;
  postAdapterOwnershipAssertionFailed := postAdapterOwnershipAssertionFailed l;
|}.

Definition with_promise (l : locals) : locals := {|
  releaseLease := releaseLease l;
  createOrderInvoked := createOrderInvoked l;
  finalRuntimeExecutionAuthorityCheckStarted := finalRuntimeExecutionAuthorityCheckStarted l;
  exchangeOrderPromise := true;
  postAdapterOwnershipAssertionFailed := postAdapterOwnershipAssertionFailed l;
|}.

Definition with_ownership_failed (l : locals) : locals := {|
  releaseLease := releaseLease l;
  createOrderInvoked := createOrderInvoked l;
  finalRuntimeExecutionAuthorityCheckStarted := finalRuntimeExecutionAuthorityCheckStarted l;
  exchangeOrderPromise := exchangeOrderPromise l;
  postAdapterOwnershipAssertionFailed := true;
|}.

Abbreviation service := (routine effect js_error locals).

Definition assign (f : locals -> locals) : service unit := l ← get_local; set_local (f l).

Definition throw_when (condition : bool) (x : js_error) : service unit :=
  if condition then throw x else mret tt.

(** A function that can throw an [Error]. *)
Definition lift {A} (o : outcome A) : service A := lift_outcome PlainError o.

(** ** Results *)

Definition not_submitted (outcome : Submission.SubmissionOutcome) (order : option OrderRecord)
    (reason : string) : SubmitOrderFromDecisionResult :=
  {| res_accepted := false; res_outcome := outcome; res_order := order; res_reason := Some reason |}.

(** ** What a call knows *)

Record CandidateContext := {
  ctx_authority : CandidateExecutionAuthority;
  ctx_decision : StrategyDecisionRecord;
}.

Record call_context := {
  cx_input : SubmitOrderFromDecisionInput;
  cx_attemptStartedAt : string;
  cx_market : SupportedMarket;
  cx_idempotencyKey : string;
  cx_candidate : option CandidateContext;
}.

Definition cx_account (cx : call_context) : string := in_exchangeAccountId (cx_input cx).

(** ** Records *)

Definition createRiskEvent (exchangeAccountId : string) (strategyDecisionId : option string)
    (ruleCode : RiskRuleCode) (message : string) (payload : list (string * json))
    (orderId : option string) : service RiskEventRecord :=
  id ← await (CreateId "risk_event");
  createdAt ← await NewDate;
  mret {|
    re_id := id;
    re_exchangeAccountId := exchangeAccountId;
    re_strategyDecisionId := strategyDecisionId;
    re_orderId := orderId;
    re_level := RiskLevelEvent.BLOCK;
    re_ruleCode := ruleCode;
    re_message := message;
    re_payloadJson := stringify (JObj payload);
    re_createdAt := createdAt;
  |}.

(** A submission's changes to an order. *)
Definition with_submission (o : OrderRecord) (status : OrderLifecycleStatus)
    (upbitUuid exchangeResponseJson failureCode failureMessage : option string) (updatedAt : string)
    : OrderRecord := {|
  ord_id := ord_id o;
  ord_strategyDecisionId := ord_strategyDecisionId o;
  ord_exchangeAccountId := ord_exchangeAccountId o;
  ord_market := ord_market o;
  ord_side := ord_side o;
  ord_ordType := ord_ordType o;
  ord_volume := ord_volume o;
  ord_price := ord_price o;
  ord_timeInForce := ord_timeInForce o;
  ord_smpType := ord_smpType o;
  ord_identifier := ord_identifier o;
  ord_idempotencyKey := ord_idempotencyKey o;
  ord_origin := ord_origin o;
  ord_requestedAt := ord_requestedAt o;
  ord_upbitUuid := upbitUuid;
  ord_status := status;
  ord_executionMode := ord_executionMode o;
  ord_exchangeResponseJson := exchangeResponseJson;
  ord_failureCode := failureCode;
  ord_failureMessage := failureMessage;
  ord_createdAt := ord_createdAt o;
  ord_updatedAt := updatedAt;
|}.

Definition with_state (o : OrderRecord) (status : OrderLifecycleStatus) (updatedAt : string)
    : OrderRecord :=
  with_submission o status (ord_upbitUuid o) (ord_exchangeResponseJson o) (ord_failureCode o)
    (ord_failureMessage o) updatedAt.

Definition order_event (id : string) (order : OrderRecord) (eventType : string)
    (source : EventSource.OrderEventSource) (payloadJson createdAt : string) : OrderEventRecord := {|
  oe_id := id;
  oe_orderId := ord_id order;
  oe_eventType := eventType;
  oe_eventSource := source;
  oe_payloadJson := payloadJson;
  oe_createdAt := createdAt;
|}.

Section Service.
(** [createHash("sha256").update(text, "utf8").digest("hex")] *)
Context (sha256 : string -> string).
(** [this.dependencies] *)
Context (deps : ExecutionDependencies).

(** ** Pauses and reports *)

Definition pauseForFault (input : FaultPauseInput) : service unit :=
  try_catch (_ ← await (PauseForFault input); mret tt)
    (fun _ => throw (AutomaticFaultPauseSafetyError
                       "Automatic fault pause could not be persisted.")).

Definition fault_pause (exchangeAccountId faultId reason occurredAt : string) : FaultPauseInput := {|
  fp_exchangeAccountId := exchangeAccountId;
  fp_faultId := faultId;
  fp_reason := reason;
  fp_occurredAt := occurredAt;
  fp_transitionAt := None;
|}.

Definition recordLeaseBlockedAndPause (cx : call_context) (occurredAt reason : string)
    (orderId : option string) : service unit :=
  riskEvidence ← attempt (
    event ← createRiskEvent (cx_account cx) (in_strategyDecisionId (cx_input cx))
              RiskRule.ACCOUNT_EXECUTION_LEASE_BLOCKED reason
              [("idempotencyKey", JStr (cx_idempotencyKey cx));
               ("market", JStr (Market.to_string (cx_market cx)));
               ("occurredAt", JStr occurredAt)] orderId;
    await (SaveRiskEvent event));
  pause ← attempt (pauseForFault (fault_pause (cx_account cx)
            ("account-execution-lease:" ++ cx_idempotencyKey cx) reason occurredAt));
  match riskEvidence, pause with
  | Err _, Err _ => throw (LeaseBlockPersistenceSafetyError
      "Account execution lease risk evidence and automatic fault pause could not be persisted.")
  | Ok _, Err pauseFailure => throw pauseFailure
  | Err _, Ok _ => throw (LeaseBlockPersistenceSafetyError
      "Account execution lease risk evidence could not be persisted after automatic pause.")
  | Ok _, Ok _ => mret tt
  end.

Definition releaseLeaseOrFail (cx : call_context) (occurredAt leaseOwnerToken : string)
    : service unit :=
  released ← attempt (await (ReleaseLease (cx_account cx) leaseOwnerToken));
  match released with
  | Ok true => mret tt
  | _ =>
      _ ← recordLeaseBlockedAndPause cx occurredAt
        "Account execution lease release is ambiguous; execution remains paused pending recovery."
        None;
      throw (AccountExecutionLeaseSafetyError "Account execution lease release is ambiguous.")
  end.

Definition throwPostSendPersistenceFailure {A} (order : OrderRecord)
    (exchangeAccountId occurredAt reason : string) : service A :=
  _ ← pauseForFault (fault_pause exchangeAccountId ("post-send-persistence:" ++ ord_id order)
        reason occurredAt);
  throw (PostSendPersistenceSafetyError reason).

Definition safeReport (input : ReportInput) : service unit :=
  if dep_hasReporter deps then try_catch (await (Report input)) (fun _ => mret tt) else mret tt.

Definition intent_provenance (a : CandidateExecutionAuthority) (decision : StrategyDecisionRecord)
    (input : SubmitOrderFromDecisionInput) (orderId bindingId : string)
    (stage : FaultStage.CandidateIntentFaultStage) : string :=
  stringify (JObj [
    ("schemaVersion", JStr "CANDIDATE_INTENT_FAULT_V1");
    ("stage", JStr (FaultStage.to_string stage));
    ("deploymentId", JStr (auth_deploymentId a));
    ("exchangeAccountId", JStr (auth_exchangeAccountId a));
    ("strategyDecisionId", JStr (sd_id decision));
    ("orderId", JStr orderId);
    ("bindingId", JStr bindingId);
    ("market", JStr (auth_market a));
    ("action", JStr (Action.to_string (OrderRecords.sd_action decision)));
    ("side", JStr (Side.to_string (in_side input)));
    ("ordType", JStr (OrdType.to_string (in_ordType input)));
    ("price", opt_str_json (in_price input));
    ("volume", opt_str_json (in_volume input));
    ("expectedPhase", JStr (Phase.to_string (bound_phase (auth_expectedPhase a))));
    ("expectedDeploymentUpdatedAt", JStr (auth_expectedDeploymentUpdatedAt a));
    ("expectedStateVersion", JInt (auth_expectedStateVersion a))]).

Definition pauseCandidateIntentFault (candidate : CandidateContext)
    (input : SubmitOrderFromDecisionInput) (orderId bindingId : string)
    (stage : FaultStage.CandidateIntentFaultStage) (occurredAt : string) : service unit :=
  _ ← throw_when (negb (dep_hasCandidatePilots deps)) (CandidateExecutionSafetyError
        "Candidate recovery dependency is unavailable; lease remains retained.");
  let a := ctx_authority candidate in
  let decision := ctx_decision candidate in
  let provenanceJson := intent_provenance a decision input orderId bindingId stage in
  try_catch
    (await (PauseForCandidateIntentFault {|
       intent_fault := {|
         fault_deploymentId := auth_deploymentId a;
         fault_exchangeAccountId := auth_exchangeAccountId a;
         fault_faultId := "candidate-intent:" ++ sha256 provenanceJson;
         fault_reasonCode := if stage === FaultStage.PERSISTENCE then "ACTIVATION_CAS_CONFLICT"
                             else "IDENTITY_MISMATCH";
         fault_provenanceJson := provenanceJson;
         fault_occurredAt := occurredAt |};
       intent_stage := stage;
       intent_strategyDecisionId := sd_id decision;
       intent_orderId := orderId;
       intent_bindingId := bindingId |}))
    (fun _ => throw (CandidateExecutionSafetyError
       "Candidate intent failure could not be atomically paused; lease remains retained.")).

(** A fault of the candidate: it is paused, and the call throws. *)
Definition candidate_fault {A} (candidate : CandidateContext) (input : SubmitOrderFromDecisionInput)
    (orderId bindingId : string) (stage : FaultStage.CandidateIntentFaultStage)
    (attemptedAt : option string) (message : string) : service A :=
  occurredAt ← lift (candidateFaultOccurredAt (ctx_authority candidate) attemptedAt);
  _ ← pauseCandidateIntentFault candidate input orderId bindingId stage occurredAt;
  throw (CandidateExecutionSafetyError message).

(** ** The candidate *)

Definition prepareCandidateContext (input : SubmitOrderFromDecisionInput) (market : SupportedMarket)
    : service (option CandidateContext) :=
  match in_candidateAuthority input with
  | None => mret None
  | Some given =>
      authority ← match validateCandidateExecutionAuthority given with
                  | Ret authority => mret authority
                  | Throw _ => throw (CandidateExecutionSafetyError
                                        "Candidate execution authority is malformed.")
                  end;
      _ ← throw_when (negb (dep_hasCandidatePilots deps) || negb (dep_hasDecisionById deps))
            (CandidateExecutionSafetyError
               "Candidate execution dependencies are not configured; order submission is blocked.");
      match in_strategyDecisionId input with
      | None => throw (CandidateExecutionSafetyError
                  "Candidate execution authority does not match the submitted route.")
      | Some strategyDecisionId =>
          let submitted := in_decision input in
          let mismatch := CandidateExecutionSafetyError
            "Persisted candidate strategy decision does not match the submitted authority and decision." in
          _ ← throw_when
                ((auth_exchangeAccountId authority !== in_exchangeAccountId input)
                 || (auth_market authority !== Market.to_string market)
                 || (StrategyCore.sd_strategyKey submitted !== auth_strategyKey authority)
                 || (default Origin.STRATEGY (in_origin input) !== Origin.STRATEGY))
                (CandidateExecutionSafetyError
                   "Candidate execution authority does not match the submitted route.");
          found ← await (GetStrategyDecisionById strategyDecisionId);
          match found with
          | None => throw mismatch
          | Some decision =>
              _ ← throw_when
                    ((sd_id decision !== strategyDecisionId)
                     || (sd_exchangeAccountId decision !== in_exchangeAccountId input)
                     || (Market.to_string (OrderRecords.sd_market decision)
                         !== auth_market authority)
                     || (OrderRecords.sd_strategyKey decision !== auth_strategyKey authority)
                     || (OrderRecords.sd_action decision !== StrategyCore.sd_action submitted)
                     || (sd_status decision !== Decided.READY)
                     || (OrderRecords.sd_referencePrice decision
                         !== Some (num_to_string (StrategyCore.sd_referencePrice submitted))))
                    mismatch;
              notional ← lift (nullableDecisionNotionalString submitted);
              _ ← throw_when
                    ((sd_intendedNotionalKrw decision !== notional)
                     || (sd_intendedQuantity decision
                         !== nullableNumberString (sd_requestedQuantity submitted)))
                    mismatch;
              mret (Some {| ctx_authority := authority; ctx_decision := decision |})
          end
      end
  end.

Definition value_or_throw {A} (r : result js_error A) : service A :=
  match r with Ok v => mret v | Err x => throw x end.

Definition assertExactCandidateDuplicate (candidate : CandidateContext) (duplicate : OrderRecord)
    (idempotencyKey : string) : service string :=
  let a := ctx_authority candidate in
  let decision := ctx_decision candidate in
  _ ← throw_when (negb (dep_hasCandidatePilots deps))
        (PlainError "Candidate duplicate validation requires the candidate repository.");
  found ← await (GetExecutionBindingForOrder (ord_id duplicate));
  match found with
  | None => throw (PlainError "Candidate duplicate order has no persisted execution binding.")
  | Some b =>
      _ ← lift (validateCandidateExecutionBinding sha256 b);
      deployment ← attempt (await (GetDeployment (auth_deploymentId a)));
      exactState ← attempt (await (GetExactState (auth_deploymentId a)));
      events ← attempt (await (ListOrderEvents (ord_id duplicate)));
      deployment ← value_or_throw deployment;
      exactState ← value_or_throw exactState;
      events ← value_or_throw events;
      match deployment, exactState, List.filter (has_type "ORDER_PERSISTED") events with
      | Some deployment, Some exactState, [persistedEvent] =>
          if matchesCandidateDuplicateOrder duplicate decision idempotencyKey
             && matchesCandidateDuplicateBinding b duplicate decision a
             && matchesCandidateDuplicateDeployment deployment (stateVersion exactState) a
             && matchesCandidateDuplicatePersistedEvent persistedEvent duplicate decision
          then mret (bind_id b)
          else throw (PlainError
            "Candidate duplicate order, binding, decision, deployment, or event does not match authority.")
      | _, _, _ => throw (PlainError
            "Candidate duplicate order, binding, decision, deployment, or event does not match authority.")
      end
  end.

(** The key is taken: nothing is sent. *)
Definition duplicate_order (cx : call_context) (duplicate : OrderRecord)
    : service SubmitOrderFromDecisionResult :=
  _ ← match cx_candidate cx with
      | None => mret tt
      | Some candidate =>
          try_catch
            (_ ← assertExactCandidateDuplicate candidate duplicate (cx_idempotencyKey cx); mret tt)
            (fun _ => candidate_fault candidate (cx_input cx) (ord_id duplicate)
               ("candidate-duplicate-binding:" ++ ord_id duplicate) FaultStage.DUPLICATE
               (Some (cx_attemptStartedAt cx))
               "Candidate duplicate authority or binding is missing or mismatched; execution is paused.")
      end;
  mret (not_submitted Submission.DUPLICATE (Some duplicate)
          "Duplicate order intent already exists for the same idempotency key.").

(** ** Pre-trade validation *)

Record PreTradeRequest := {
  pre_strategyDecisionId : option string;
  pre_requestedAt : string;
  pre_requestedNotionalKrw : option num;
  pre_request : UpbitOrderRequest;
}.

(** Rule code, message and payload of a rejection. *)
Abbreviation rejection := (RiskRuleCode * string * list (string * json))%type.

Definition base_payload (cx : call_context) (p : PreTradeRequest) : list (string * json) :=
  let request := pre_request p in
  [("exchangeAccountId", JStr (cx_account cx));
   ("strategyDecisionId", opt_str_json (pre_strategyDecisionId p));
   ("market", JStr (Market.to_string (order_market request)));
   ("side", JStr (Side.to_string (order_side request)));
   ("ordType", JStr (OrdType.to_string (order_ordType request)));
   ("identifier", JStr (order_identifier request));
   ("idempotencyKey", JStr (cx_idempotencyKey cx));
   ("requestedAt", JStr (pre_requestedAt p));
   ("requestedNotionalKrw", opt_num_json (pre_requestedNotionalKrw p));
   ("price", opt_str_json (order_price request));
   ("volume", opt_str_json (order_volume request))].

(** What the order chance forbids; a repeated [requestedNotionalKrw] keeps its
    place in the payload. *)
Definition chance_rejection (base : list (string * json)) (p : PreTradeRequest)
    (chance : UpbitOrderChance) : option rejection :=
  let request := pre_request p in
  let market := Market.to_string (order_market request) in
  let side := order_side request in
  let stage := [("stage", JStr "getOrderChance")] in
  let supportedTypes := if side === Side.bid then chance_bidTypes chance else chance_askTypes chance in
  let requiredType := resolveChanceTypeToken (order_ordType request) None in
  let exchangeMinTotal :=
    if side === Side.bid then chance_bidMinTotal chance else chance_askMinTotal chance in
  let exchangeMaxTotal := Number_of_string <$> chance_maxTotal chance in
  let notional_where (test : num -> num -> bool) (bound : option num) : option num :=
    match pre_requestedNotionalKrw p, bound with
    | Some notional, Some b => if is_finite b && test notional b then Some b else None
    | _, _ => None
    end in
  if chance_marketId chance !== market then
    Some (RiskRule.UNSUPPORTED_MARKET,
          "Exchange order chance returned mismatched market " ++ chance_marketId chance ++ " for "
          ++ market ++ ".",
          (base ++ stage ++ [("requestedMarket", JStr market);
                             ("responseMarket", JStr (chance_marketId chance))])%list)
  else if negb (bool_decide (requiredType ∈ supportedTypes)) then
    Some (RiskRule.UNSUPPORTED_ORDER_TYPE,
          "Exchange order chance does not allow " ++ requiredType ++ " orders for "
          ++ Side.to_string side ++ " on " ++ market ++ ".",
          (base ++ stage ++ [("supportedTypes", JArr (JStr <$> supportedTypes));
                             ("requiredType", JStr requiredType)])%list)
  else
    match notional_where nltb exchangeMinTotal with
    | Some b =>
        Some (RiskRule.EXCHANGE_MIN_TOTAL_GUARD,
              "Requested order value is below exchange min total " ++ num_to_string b ++ " KRW for "
              ++ market ++ ".",
              (base ++ stage ++ [("exchangeMinTotal", JNum b)])%list)
    | None =>
        match notional_where (fun notional b => nltb b notional) exchangeMaxTotal with
        | Some b =>
            Some (RiskRule.EXCHANGE_MAX_TOTAL_GUARD,
                  "Requested order value exceeds exchange max total " ++ num_to_string b
                  ++ " KRW for " ++ market ++ ".",
                  (base ++ stage ++ [("exchangeMaxTotal", JNum b)])%list)
        | None => None
        end
    end.

(** What a test of the order says against it. *)
Definition test_rejection (base : list (string * json))
    (validation : result js_error OrderValidationResult) : option rejection :=
  let stage := [("stage", JStr "testOrder")] in
  match validation with
  | Ok v =>
      if validation_accepted v then None
      else Some (if validation_marketOnline v then RiskRule.EXCHANGE_ORDER_TEST_FAILED
                 else RiskRule.MARKET_OFFLINE,
                 default "Exchange order test rejected the request." (validation_reason v),
                 (base ++ stage ++ [("marketOnline", JBool (validation_marketOnline v));
                                    ("reason", opt_str_json (validation_reason v));
                                    ("preview", from_option xorder_json JNull
                                                  (validation_preview v))])%list)
  | Err error =>
      let message := error_message "Unknown order test failure." error in
      Some (if is_market_offline message then RiskRule.MARKET_OFFLINE
            else RiskRule.EXCHANGE_ORDER_TEST_FAILED,
            "Exchange order test failed: " ++ message,
            (base ++ stage ++ [("reason", JStr message)])%list)
  end.

Definition runExchangePreTradeValidation (cx : call_context) (p : PreTradeRequest)
    : service (option rejection) :=
  let base := base_payload cx p in
  chance ← attempt (await (GetOrderChance (order_market (pre_request p))));
  match chance with
  | Err error =>
      let message := error_message "Unknown order chance failure." error in
      mret (Some (RiskRule.EXCHANGE_ORDER_CHANCE_FAILED,
                  "Exchange order chance precheck failed: " ++ message,
                  (base ++ [("stage", JStr "getOrderChance"); ("reason", JStr message)])%list))
  | Ok chance =>
      match chance_rejection base p chance with
      | Some r => mret (Some r)
      | None =>
          validation ← attempt (await (TestOrder (pre_request p)));
          mret (test_rejection base validation)
      end
  end.

(** ** The lease *)

Definition lease_unavailable : string :=
  "Account execution lease is unavailable; order submission is blocked pending recovery.".

(** [try { acquisitionWindow = ...; lease = await ... } catch { ... }] *)
Definition acquire_lease (cx : call_context) (leaseOwnerToken : string)
    : service (lease_window * option AccountExecutionLeaseRecord) :=
  try_catch
    (window ← lift (leaseWindow (dep_accountExecutionLeaseMs deps) (cx_attemptStartedAt cx)
                      "acquisition");
     lease ← await (AcquireLease {|
       acquire_exchangeAccountId := cx_account cx;
       acquire_ownerToken := leaseOwnerToken;
       acquire_purpose := Purpose.ORDER_SUBMISSION;
       acquire_acquiredAtEpochMs := win_atEpochMs window;
       acquire_expiresAtEpochMs := win_expiresAtEpochMs window |});
     mret (window, lease))
    (fun _ =>
       _ ← recordLeaseBlockedAndPause cx (cx_attemptStartedAt cx)
         "Account execution lease acquisition is ambiguous; order submission is blocked pending recovery."
         None;
       throw (AccountExecutionLeaseSafetyError "Account execution lease acquisition is ambiguous.")).

(** The order goes on only with a lease of its own: [None] is the result
    [LEASE_BLOCKED]. *)
Definition require_lease (cx : call_context) (leaseOwnerToken : string)
    : service (option lease_window) :=
  '(window, lease) ← acquire_lease cx leaseOwnerToken;
  match lease with
  | None =>
      _ ← recordLeaseBlockedAndPause cx (cx_attemptStartedAt cx) lease_unavailable None;
      mret None
  | Some _ =>
      if isOwnedLease lease (cx_account cx) leaseOwnerToken (win_atEpochMs window)
      then mret (Some window)
      else
        _ ← recordLeaseBlockedAndPause cx (cx_attemptStartedAt cx)
          "Account execution lease acquisition returned ambiguous ownership; order submission is blocked pending recovery."
          None;
        throw (AccountExecutionLeaseSafetyError "Account execution lease acquisition is ambiguous.")
  end.

Definition read_initial_authority (cx : call_context)
    : service (list OrderRecord * ExecutionStateRecord) :=
  try_catch
    (accountActiveOrders ← await (ListActiveOrders (cx_account cx));
     state ← await GetState;
     mret (accountActiveOrders, state))
    (fun _ =>
       _ ← assign (with_release false);
       at_ ← await Now;
       _ ← recordLeaseBlockedAndPause cx at_
         "Initial post-acquisition authority check is ambiguous; order submission is blocked pending recovery."
         None;
       throw (AccountExecutionLeaseSafetyError
                "Initial post-acquisition authority check failed.")).

(** The lease is released unless the block cannot be recorded. *)
Definition lease_blocked (cx : call_context) (message : string)
    : service SubmitOrderFromDecisionResult :=
  _ ← try_catch (recordLeaseBlockedAndPause cx (cx_attemptStartedAt cx) message None)
        (fun error => _ ← assign (with_release false); throw error);
  mret (not_submitted Submission.LEASE_BLOCKED None message).

(** ** Local and exchange rejections *)

Definition requested_notional (input : SubmitOrderFromDecisionInput) : option num :=
  match sd_requestedNotionalKrw (in_decision input) with
  | Some notional => Some notional
  | None => deriveRequestedNotionalKrw (in_decision input) (in_price input) (in_volume input)
  end.

Definition requested_quantity (input : SubmitOrderFromDecisionInput) : option num :=
  match sd_requestedQuantity (in_decision input) with
  | Some quantity => Some quantity
  | None => Number_of_string <$> non_empty (in_volume input)
  end.

Definition risk_context (cx : call_context) (state : ExecutionStateRecord)
    (openOrders : list OrderRecord) (portfolio : PortfolioExposureSnapshot)
    : RiskEvaluationContext :=
  let input := cx_input cx in {|
  policy := composeExecutionPolicy state (dep_riskLimits deps) (dep_sendPath deps);
  systemStatus := es_systemStatus state;
  market := cx_market cx;
  priceSnapshot := Some {| ps_market := cx_market cx;
                           tradePrice := StrategyCore.sd_referencePrice (in_decision input);
                           capturedAt := in_referencePriceCapturedAt input |};
  portfolio := portfolio;
  openOrders := open_order <$> openOrders;
  requestedSide := in_side input;
  requestedIdempotencyKey := cx_idempotencyKey cx;
  requestedPrice := in_price input;
  requestedVolume := in_volume input;
  requestedNotionalKrw := requested_notional input;
  requestedQuantity := requested_quantity input;
  now := cx_attemptStartedAt cx;
|}.

Definition order_request (cx : call_context) (identifier : string) : UpbitOrderRequest :=
  let input := cx_input cx in {|
  order_market := cx_market cx;
  order_side := in_side input;
  order_ordType := in_ordType input;
  order_volume := in_volume input;
  order_price := in_price input;
  order_identifier := identifier;
  order_timeInForce := None;
  order_smpType := None;
|}.

Definition rule_messages (rules : list TriggeredRule) : string := join "; " (message <$> rules).

Definition report_rejection (cx : call_context) (title text : string)
    (payload : list (string * json)) : service unit :=
  safeReport {|
    report_exchangeAccountId := cx_account cx;
    report_notificationType := ORDER_REJECTED;
    report_severity := SEVERITY_WARN;
    report_title := title;
    report_message := text;
    report_payload := JObj payload |}.

Definition request_fields (cx : call_context) : list (string * json) :=
  let input := cx_input cx in
  [("strategyDecisionId", opt_str_json (in_strategyDecisionId input));
   ("market", JStr (Market.to_string (cx_market cx)));
   ("side", JStr (Side.to_string (in_side input)));
   ("ordType", JStr (OrdType.to_string (in_ordType input)))].

Definition reject_by_risk (cx : call_context) (rules : list TriggeredRule)
    : service SubmitOrderFromDecisionResult :=
  saved ← mapM (fun rule =>
            event ← createRiskEvent (cx_account cx) (in_strategyDecisionId (cx_input cx))
                      (code rule) (message rule) [] None;
            attempt (await (SaveRiskEvent event))) rules;
  _ ← mapM value_or_throw saved;
  _ ← report_rejection cx "Order blocked by local risk policy" (rule_messages rules)
        (request_fields cx
         ++ [("reasonCodes", JArr ((fun r => JStr (RiskRule.to_string (code r))) <$> rules))])%list;
  mret (not_submitted Submission.REJECTED None (rule_messages rules)).

Definition reject_before_submission (cx : call_context) (identifier : string) (r : rejection)
    : service SubmitOrderFromDecisionResult :=
  let '(ruleCode, text, payload) := r in
  event ← createRiskEvent (cx_account cx) (in_strategyDecisionId (cx_input cx)) ruleCode text
            payload None;
  _ ← await (SaveRiskEvent event);
  _ ← report_rejection cx "Order rejected before submission" text
        (request_fields cx
         ++ [("identifier", JStr identifier); ("idempotencyKey", JStr (cx_idempotencyKey cx));
             ("ruleCode", JStr (RiskRule.to_string ruleCode))])%list;
  mret (not_submitted Submission.REJECTED None text).

(** ** The intent *)

(** The candidate's timestamps of this attempt, the identifier of its binding,
    and its order's request time. *)
Definition attempt_timestamps (cx : call_context) (candidate : CandidateContext)
    (orderId bindingId : string) : service CandidateExecutionAttemptTimestamps :=
  try_catch
    (bindingCreatedAt ← await Now;
     lift (createCandidateExecutionAttemptTimestamps
             (auth_activationEpochNs (ctx_authority candidate)) bindingCreatedAt))
    (fun _ =>
       _ ← assign (with_release false);
       candidate_fault candidate (cx_input cx) orderId bindingId FaultStage.DERIVATION None
         "Candidate execution timestamps could not be derived safely; execution is paused.").

Definition new_order (cx : call_context) (orderId identifier orderRequestedAt : string)
    : OrderRecord :=
  let input := cx_input cx in {|
  ord_id := orderId;
  ord_strategyDecisionId := in_strategyDecisionId input;
  ord_exchangeAccountId := in_exchangeAccountId input;
  ord_market := cx_market cx;
  ord_side := in_side input;
  ord_ordType := in_ordType input;
  ord_volume := in_volume input;
  ord_price := in_price input;
  ord_timeInForce := None;
  ord_smpType := None;
  ord_identifier := identifier;
  ord_idempotencyKey := cx_idempotencyKey cx;
  ord_origin := default Origin.STRATEGY (in_origin input);
  ord_requestedAt := orderRequestedAt;
  ord_upbitUuid := None;
  ord_status := OrderStatus.PERSISTED;
  ord_executionMode := executionModeForAdapter (dep_sendPath deps);
  ord_exchangeResponseJson := None;
  ord_failureCode := None;
  ord_failureMessage := None;
  ord_createdAt := orderRequestedAt;
  ord_updatedAt := orderRequestedAt;
|}.

Definition persisted_event (cx : call_context) (eventId : string) (order : OrderRecord)
    : OrderEventRecord :=
  order_event eventId order "ORDER_PERSISTED" EventSource.LOCAL
    (stringify (JObj
       [("idempotencyKey", JStr (cx_idempotencyKey cx));
        ("decisionAction",
         JStr (Action.to_string (StrategyCore.sd_action (in_decision (cx_input cx)))))]))
    (ord_requestedAt order).

(** The intent of a candidate is persisted with its binding. *)
Definition persist_candidate_intent (cx : call_context) (candidate : CandidateContext)
    (order : OrderRecord) (event : OrderEventRecord) (bindingId bindingCreatedAt : string)
    : service CandidateExecutionBindingRecord :=
  let a := ctx_authority candidate in
  binding ← try_catch
    (lift (deriveCandidateExecutionBinding sha256 {|
       derive_authority := a;
       derive_order := order;
       derive_decision := ctx_decision candidate;
       derive_bindingId := bindingId;
       derive_createdAt := bindingCreatedAt |}))
    (fun _ =>
       _ ← assign (with_release false);
       candidate_fault candidate (cx_input cx) (ord_id order) bindingId FaultStage.DERIVATION
         (Some bindingCreatedAt)
         "Candidate order binding could not be derived safely; execution is paused.");
  _ ← try_catch
    (await (PersistCandidateBoundOrderIntent {|
       req_order := order;
       req_event := event;
       req_binding := binding;
       req_expectedPhase := auth_expectedPhase a;
       req_expectedDeploymentUpdatedAt := auth_expectedDeploymentUpdatedAt a;
       req_expectedStateVersion := auth_expectedStateVersion a |}))
    (fun _ =>
       _ ← assign (with_release false);
       candidate_fault candidate (cx_input cx) (ord_id order) bindingId FaultStage.PERSISTENCE
         (Some bindingCreatedAt)
         "Candidate order intent could not be persisted atomically; execution is paused.");
  mret binding.

(** The order that was persisted, its event and the candidate's binding. *)
Record intent := {
  it_order : OrderRecord;
  it_event : OrderEventRecord;
  it_binding : option (CandidateContext * CandidateExecutionBindingRecord);
}.

Definition persist_intent (cx : call_context) (identifier : string) : service intent :=
  orderId ← await (CreateId "order");
  eventId ← await (CreateId "order_event");
  match cx_candidate cx with
  | Some candidate =>
      bindingId ← await (CreateId "candidate_execution_binding");
      timestamps ← attempt_timestamps cx candidate orderId bindingId;
      let order := new_order cx orderId identifier (at_orderRequestedAt timestamps) in
      let event := persisted_event cx eventId order in
      binding ← persist_candidate_intent cx candidate order event bindingId
                  (at_bindingCreatedAt timestamps);
      mret {| it_order := order; it_event := event; it_binding := Some (candidate, binding) |}
  | None =>
      let order := new_order cx orderId identifier (cx_attemptStartedAt cx) in
      let event := persisted_event cx eventId order in
      _ ← await (PersistOrderIntent {| intent_order := order; intent_event := event |});
      mret {| it_order := order; it_event := event; it_binding := None |}
  end.

Definition submitting (it : intent) : OrderRecord :=
  with_state (it_order it) OrderStatus.SUBMITTING (ord_requestedAt (it_order it)).

(** ** The last checks *)

Definition renew_lease (cx : call_context) (leaseOwnerToken : string) (acquisition : lease_window)
    (order : OrderRecord) : service unit :=
  renewalAt ← await Now;
  try_catch
    (window ← lift (leaseWindow (dep_accountExecutionLeaseMs deps) renewalAt "renewal");
     let renewedExpiry :=
       Z.max (win_expiresAtEpochMs window) (win_expiresAtEpochMs acquisition + 1) in
     _ ← throw_when (negb (isSafeInteger renewedExpiry)
                     || (renewedExpiry <=? win_atEpochMs window)%Z)
           (PlainError "lease renewal expiry is unsafe");
     renewedLease ← await (RenewLease {|
       renew_exchangeAccountId := cx_account cx;
       renew_ownerToken := leaseOwnerToken;
       renew_renewedAtEpochMs := win_atEpochMs window;
       renew_expiresAtEpochMs := renewedExpiry |});
     throw_when (negb (isOwnedLease renewedLease (cx_account cx) leaseOwnerToken
                         (win_atEpochMs window)))
       (PlainError "lease ownership was not renewed"))
    (fun _ =>
       _ ← assign (with_release false);
       _ ← recordLeaseBlockedAndPause cx renewalAt
         "Account execution lease renewal is ambiguous after SUBMITTING; reconciliation is required before any resend."
         (Some (ord_id order));
       throw (AccountExecutionLeaseSafetyError "Account execution lease renewal is ambiguous.")).

Definition assertFinalCandidatePreSendAuthority (it : intent) : service unit :=
  match it_binding it with
  | None => mret tt
  | Some (candidate, expectedBinding) =>
      let a := ctx_authority candidate in
      let expectedOrder := submitting it in
      _ ← throw_when (negb (dep_hasCandidatePilots deps) || negb (dep_hasDecisionById deps))
            (PlainError "candidate final pre-send dependencies are unavailable");
      events ← await (ListOrderEvents (ord_id expectedOrder));
      decision ← await (GetStrategyDecisionById (sd_id (ctx_decision candidate)));
      deployment ← await (GetDeployment (auth_deploymentId a));
      exactState ← await (GetExactState (auth_deploymentId a));
      binding ← await (GetExecutionBindingForOrder (ord_id expectedOrder));
      match events, decision, deployment, exactState, binding with
      | [firstEvent], Some decision, Some deployment, Some exactState, Some binding =>
          '(order, event, decision, binding) ← lift (projectCandidateFinalBoundOrderIntent sha256 {|
            persistedOrder := expectedOrder;
            expectedOrder := expectedOrder;
            persistedEvent := firstEvent;
            expectedEvent := it_event it;
            persistedDecision := decision;
            expectedDecision := ctx_decision candidate;
            persistedBinding := binding;
            expectedBinding := expectedBinding |});
          _ ← lift (validateCandidateBoundOrderIntent sha256 {|
            agg_request := {|
              req_order := order;
              req_event := event;
              req_binding := binding;
              req_expectedPhase := auth_expectedPhase a;
              req_expectedDeploymentUpdatedAt := auth_expectedDeploymentUpdatedAt a;
              req_expectedStateVersion := auth_expectedStateVersion a |};
            agg_decision := decision;
            agg_deployment := deployment;
            agg_exactStateVersion := stateVersion exactState |});
          mret tt
      | _, _, _, _, _ =>
          throw (PlainError "candidate final persisted authority or intent material changed")
      end
  end.

(** The state may still send under the authority the order was accepted with. *)
Definition final_state_allows (initialAuthority : ExecutionAuthorityTuple)
    (finalState : ExecutionStateRecord) : bool :=
  let finalAuthority := selectExecutionAuthority finalState in
  (es_systemStatus finalState === SysStatus.RUNNING)
  && negb (es_killSwitchActive finalState)
  && (finalAuthority === initialAuthority)
  && executionAdapterAcceptsAuthority (dep_sendPath deps) finalAuthority.

(** Inside the fence of the runtime ownership the order is handed over. *)
Definition send_order (cx : call_context) (initialAuthority : ExecutionAuthorityTuple)
    (order : OrderRecord) : service unit :=
  _ ← assign with_check_started;
  _ ← throw_when (negb (dep_hasFence deps)) (RuntimeOwnershipGuardError
        OwnershipCode.RUNTIME_OWNERSHIP_NOT_HELD
        "RUNTIME_OWNERSHIP_NOT_HELD: Persisted combined execution authority is unavailable.");
  atEpochMs ← await DateNow;
  entered ← await (EnterFence {|
    fence_atEpochMs := atEpochMs;
    fence_exchangeAccountId := cx_account cx;
    fence_expectedExecutionMode := fst initialAuthority;
    fence_expectedLiveExecutionGate := snd initialAuthority |});
  if (entered : bool) then
    _ ← assign with_invoked;
    _ ← await (CreateOrder (order_request cx (ord_identifier order)));
    _ ← assign with_promise;
    await LeaveFence
  else mret tt.

Definition final_checks_and_send (cx : call_context) (initialAuthority : ExecutionAuthorityTuple)
    (it : intent) : service unit :=
  let order := submitting it in
  _ ← assertFinalCandidatePreSendAuthority it;
  finalState ← await GetState;
  _ ← throw_when (negb (final_state_allows initialAuthority finalState))
        (PlainError "final pre-send authority is blocked");
  finalActiveOrders ← await (ListSubmissionBlockingOrders (cx_account cx)
                               (CANDIDATE_FINAL_ORDER_SCAN_LIMIT + 1));
  finalPersistedOrder ← await (FindOrderById (cx_account cx) (ord_id order));
  _ ← lift (assertFinalPersistedSubmissionAuthority (ord_id order) order finalActiveOrders
              finalPersistedOrder);
  send_order cx initialAuthority order.

(** [None], or what was thrown after [createOrder] was called: the
    [synchronousSubmissionError]. *)
Definition send_or_block (cx : call_context) (initialAuthority : ExecutionAuthorityTuple)
    (it : intent) : service (option js_error) :=
  try_catch (_ ← final_checks_and_send cx initialAuthority it; mret None)
    (fun error =>
       l ← get_local;
       if createOrderInvoked l then mret (Some error)
       else
         _ ← assign (with_release false);
         if finalRuntimeExecutionAuthorityCheckStarted l then throw error
         else
           match it_binding it with
           | Some (candidate, binding) =>
               _ ← pauseCandidateIntentFault candidate (cx_input cx) (ord_id (it_order it))
                     (bind_id binding) FaultStage.FINAL_REVALIDATION
                     (ord_requestedAt (it_order it));
               throw (CandidateExecutionSafetyError
                 "Candidate final pre-send authority or intent material changed; execution is paused.")
           | None =>
               at_ ← await Now;
               _ ← recordLeaseBlockedAndPause cx at_
                 "Final pre-send authority check is ambiguous or blocked; reconciliation is required before any send."
                 (Some (ord_id (it_order it)));
               throw (AccountExecutionLeaseSafetyError "Final pre-send authority check failed.")
           end).

(** ** After the send *)

(** [await this.runtimeOwnership.assertCurrent(Date.now())], its failure marked. *)
Definition assert_still_owned : service unit :=
  try_catch (atEpochMs ← await DateNow; await (AssertCurrent atEpochMs))
    (fun ownershipError => _ ← assign with_ownership_failed; throw ownershipError).

(** The ownership is asserted before the answer is looked at, whether the
    exchange answered or failed. *)
Definition await_exchange_order (synchronousSubmissionError : option js_error)
    : service ExchangeOrderSnapshot :=
  _ ← match synchronousSubmissionError with Some x => throw x | None => mret tt end;
  l ← get_local;
  _ ← throw_when (negb (exchangeOrderPromise l))
        (PlainError "Exchange order submission did not start.");
  answer ← attempt (await AwaitOrder);
  _ ← assert_still_owned;
  value_or_throw answer.

Definition exchange_fill (order : OrderRecord) (fill : ExchangeFillSnapshot) : service FillRecord :=
  let '(provenance, epochNanoseconds, filledAt) :=
    directExchangeFillTimestamp (xfill_createdAt fill) in
  id ← await (CreateId "fill");
  exchangeFillId ← match xfill_tradeUuid fill with
                   | Some uuid => mret uuid
                   | None => await (CreateId "exchange_fill")
                   end;
  mret {|
    fill_id := id;
    fill_orderId := ord_id order;
    fill_exchangeFillId := exchangeFillId;
    fill_market := ord_market order;
    fill_side := xfill_side fill;
    fill_price := xfill_price fill;
    fill_volume := xfill_volume fill;
    fill_feeCurrency := Some "KRW";
    fill_feeAmount := xfill_fee fill;
    fill_feeProvenance := Some (if xfill_fee fill === None then FeeProvenance.MISSING
                                else FeeProvenance.EXCHANGE_FILL_CONFIRMED);
    fill_executionTimestampProvenance := Some provenance;
    fill_executionEpochNs := epochNanoseconds;
    fill_filledAt := filledAt;
    fill_rawPayloadJson := stringify (xfill_raw fill);
  |}.

Definition createDryRunSyntheticFill (cx : call_context) (order : OrderRecord)
    (requestedNotionalKrw : option num) (filledAt : string) (exchangeOrderRaw : json)
    : service (option FillRecord) :=
  let input := cx_input cx in
  match dry_run_quantities (in_ordType input) (in_price input) (in_volume input)
          (StrategyCore.sd_referencePrice (in_decision input)) requestedNotionalKrw with
  | None => mret None
  | Some (price, volume) =>
      id ← await (CreateId "fill");
      exchangeFillId ← await (CreateId "dryrun_fill");
      executionEpochNs ← lift (parseCandidateEvidenceTimestamp filledAt
                                 "dry-run synthetic fill timestamp");
      mret (Some {|
        fill_id := id;
        fill_orderId := ord_id order;
        fill_exchangeFillId := exchangeFillId;
        fill_market := cx_market cx;
        fill_side := in_side input;
        fill_price := price;
        fill_volume := volume;
        fill_feeCurrency := Some "KRW";
        fill_feeAmount := Some "0";
        fill_feeProvenance := Some FeeProvenance.SIMULATED;
        fill_executionTimestampProvenance := Some TimeProvenance.LOCAL_SYNTHETIC;
        fill_executionEpochNs := Some (Z_to_string executionEpochNs);
        fill_filledAt := filledAt;
        fill_rawPayloadJson := stringify (JObj
          [("mode", JStr "DRY_RUN"); ("settlement", JStr "SIMULATED_IMMEDIATE_FILL");
           ("exchangeOrderRaw", exchangeOrderRaw)]);
      |})
  end.

(** A dry run is filled at once, with a fill of its own when the adapter gives
    none. *)
Definition settle_dry_run (cx : call_context) (order updatedOrder : OrderRecord)
    (fills : list FillRecord) (exchangeOrderRaw : json)
    : service (OrderRecord * list FillRecord) :=
  settledAt ← await Now;
  syntheticFill ← createDryRunSyntheticFill cx order (requested_notional (cx_input cx)) settledAt
                    exchangeOrderRaw;
  let fills := match fills, syntheticFill with
               | [], Some fill => [fill]
               | _, _ => fills
               end in
  match fills with
  | [] =>
      _ ← assign (with_release false);
      throwPostSendPersistenceFailure order (cx_account cx) settledAt
        "Dry-run submission could not produce terminal fill evidence."
  | _ => mret (with_state updatedOrder OrderStatus.FILLED settledAt, fills)
  end.

Definition terminal_payload (fills : list FillRecord) (exchangeOrderRaw : json) : json :=
  if dep_sendPath deps === SendPath.DRY_RUN_ADAPTER
  then JObj [("mode", JStr "DRY_RUN"); ("settlement", JStr "SIMULATED_IMMEDIATE_FILL");
             ("fillCount", JInt (Z.of_nat (length fills)))]
  else exchangeOrderRaw.

(** The answer of the exchange becomes the state of the order. *)
Definition record_submission (cx : call_context) (order : OrderRecord)
    (exchangeOrder : ExchangeOrderSnapshot) : service SubmitOrderFromDecisionResult :=
  let raw := xorder_raw exchangeOrder in
  let source := eventSourceForAdapter (dep_sendPath deps) in
  submittedAt ← await Now;
  let updatedOrder :=
    with_submission order
      (mapExchangeOrderStatus (xorder_state exchangeOrder) (xorder_executedVolume exchangeOrder)
         (xorder_ordType exchangeOrder) (xorder_side exchangeOrder))
      (Some (xorder_uuid exchangeOrder)) (Some (stringify raw)) (ord_failureCode order)
      (ord_failureMessage order) submittedAt in
  fills ← mapM (exchange_fill order) (xorder_fills exchangeOrder);
  '(updatedOrder, fills) ← (if dep_sendPath deps === SendPath.DRY_RUN_ADAPTER
                            then settle_dry_run cx order updatedOrder fills raw
                            else mret (updatedOrder, fills));
  _ ← assign (with_release false);
  _ ← try_catch
    (eventId ← await (CreateId "order_event");
     terminalEvent ← (if ord_status updatedOrder === OrderStatus.FILLED then
                        terminalId ← await (CreateId "order_event");
                        mret (Some (order_event terminalId order "ORDER_FILLED" source
                                      (stringify (terminal_payload fills raw))
                                      (ord_updatedAt updatedOrder)))
                      else mret None);
     await (PersistExchangeSubmission {|
       sub_order := updatedOrder;
       sub_event := order_event eventId order "ORDER_SUBMITTED" source (stringify raw)
                      (ord_updatedAt updatedOrder);
       sub_fills := fills;
       sub_terminalEvent := terminalEvent |}))
    (fun _ =>
       at_ ← await Now;
       throwPostSendPersistenceFailure order (cx_account cx) at_
         "Exchange submission response could not be persisted atomically.");
  _ ← assign (with_release (isTerminalOrderStatus (ord_status updatedOrder)));
  mret {|
    res_accepted := true;
    res_outcome := if dep_sendPath deps === SendPath.DRY_RUN_ADAPTER
                   then Submission.SIMULATED_FILLED else Submission.SUBMITTED;
    res_order := Some updatedOrder;
    res_reason := None;
  |}.

(** The exchange refused the order: it is terminal once that is persisted. *)
Definition record_rejection (cx : call_context) (order : OrderRecord) (error : js_error)
    : service SubmitOrderFromDecisionResult :=
  let '(text, metadata) := describeSubmissionError error in
  let metadataJson := stringify (JObj metadata) in
  updatedAt ← await Now;
  let rejectedOrder :=
    with_submission order OrderStatus.REJECTED (ord_upbitUuid order) (Some metadataJson)
      (Some "EXCHANGE_ORDER_REJECTED") (Some text) updatedAt in
  _ ← assign (with_release false);
  _ ← try_catch
    (eventId ← await (CreateId "order_event");
     await (PersistExchangeSubmission {|
       sub_order := rejectedOrder;
       sub_event := order_event eventId order "ORDER_REJECTED"
                      (eventSourceForAdapter (dep_sendPath deps)) metadataJson updatedAt;
       sub_fills := [];
       sub_terminalEvent := None |}))
    (fun _ =>
       at_ ← await Now;
       throwPostSendPersistenceFailure order (cx_account cx) at_
         "Definitive exchange rejection could not be persisted atomically.");
  _ ← assign (with_release true);
  _ ← report_rejection cx "Order rejected by exchange" text
        ([("orderId", JStr (ord_id rejectedOrder)); ("identifier", JStr (ord_identifier rejectedOrder))]
         ++ metadata)%list;
  mret (not_submitted Submission.REJECTED (Some rejectedOrder) text).

(** Nobody knows whether the exchange has the order: it waits for
    reconciliation, and execution is paused. *)
Definition record_uncertain (cx : call_context) (order : OrderRecord) (error : js_error)
    : service SubmitOrderFromDecisionResult :=
  let '(text, metadata) := describeSubmissionError error in
  let metadataJson := stringify (JObj metadata) in
  updatedAt ← await Now;
  let uncertainOrder :=
    with_submission order OrderStatus.RECONCILIATION_REQUIRED (ord_upbitUuid order)
      (Some metadataJson) (Some "RECONCILIATION_REQUIRED") (Some text) updatedAt in
  _ ← assign (with_release false);
  _ ← try_catch
    (eventId ← await (CreateId "order_event");
     riskEvent ← createRiskEvent (cx_account cx) (in_strategyDecisionId (cx_input cx))
                   RiskRule.POSITION_GUARD_PILOT_UNCERTAIN_ORDER text metadata
                   (Some (ord_id order));
     await (PersistUncertainSubmission {|
       unc_order := uncertainOrder;
       unc_event := order_event eventId order "RECONCILIATION_RECOVERY_REQUIRED"
                      (eventSourceForAdapter (dep_sendPath deps)) metadataJson updatedAt;
       unc_riskEvent := riskEvent |}))
    (fun _ =>
       at_ ← await Now;
       throwPostSendPersistenceFailure order (cx_account cx) at_
         "Uncertain exchange submission could not be persisted atomically.");
  _ ← pauseForFault (fault_pause (cx_account cx) ("uncertain-order:" ++ ord_id order) text updatedAt);
  mret (not_submitted Submission.RECONCILIATION_REQUIRED (Some uncertainOrder) text).

Definition is_ownership_error (error : js_error) : bool :=
  match error with RuntimeOwnershipGuardError _ _ => true | _ => false end.

Definition is_post_send_error (error : js_error) : bool :=
  match error with PostSendPersistenceSafetyError _ => true | _ => false end.

Definition on_submission_error (cx : call_context) (order : OrderRecord) (error : js_error)
    : service SubmitOrderFromDecisionResult :=
  l ← get_local;
  if postAdapterOwnershipAssertionFailed l || is_ownership_error error then
    _ ← assign (with_release false);
    throw error
  else if is_post_send_error error then throw error
  else if definitiveRejection error then record_rejection cx order error
  else record_uncertain cx order error.

Definition settle (cx : call_context) (order : OrderRecord)
    (synchronousSubmissionError : option js_error) : service SubmitOrderFromDecisionResult :=
  try_catch
    (exchangeOrder ← await_exchange_order synchronousSubmissionError;
     record_submission cx order exchangeOrder)
    (on_submission_error cx order).

(** ** The method *)

Definition submit_accepted (cx : call_context) (leaseOwnerToken identifier : string)
    (acquisition : lease_window) (initialAuthority : ExecutionAuthorityTuple)
    : service SubmitOrderFromDecisionResult :=
  it ← persist_intent cx identifier;
  let order := submitting it in
  _ ← await (UpdateOrder order);
  _ ← renew_lease cx leaseOwnerToken acquisition order;
  synchronousSubmissionError ← send_or_block cx initialAuthority it;
  settle cx order synchronousSubmissionError.

(** The body of the [try ... finally]. *)
Definition submit_under_lease (cx : call_context) (leaseOwnerToken : string)
    (acquisition : lease_window) : service SubmitOrderFromDecisionResult :=
  '(accountActiveOrders, state) ← read_initial_authority cx;
  let initialAuthority := selectExecutionAuthority state in
  if negb (bool_decide (accountActiveOrders = [])) then
    lease_blocked cx
      "Account execution lease is blocked by active or uncertain local orders pending recovery."
  else if negb (executionAdapterAcceptsAuthority (dep_sendPath deps) initialAuthority) then
    lease_blocked cx
      "The configured execution adapter is incompatible with initial persisted execution authority."
  else
    portfolio ← await (GetPortfolioExposure (cx_account cx));
    let input := cx_input cx in
    let identifier := buildOrderIdentifier sha256 (Market.to_string (cx_market cx))
      (Side.to_string (in_side input)) (in_strategyDecisionId input) (cx_attemptStartedAt cx) in
    let risk := evaluateRiskGuards (risk_context cx state accountActiveOrders portfolio) in
    if negb (accepted risk) then reject_by_risk cx (triggeredRules risk)
    else
      rejected ← runExchangePreTradeValidation cx {|
        pre_strategyDecisionId := in_strategyDecisionId input;
        pre_requestedAt := cx_attemptStartedAt cx;
        pre_requestedNotionalKrw := requested_notional input;
        pre_request := order_request cx identifier |};
      match rejected with
      | Some r => reject_before_submission cx identifier r
      | None => submit_accepted cx leaseOwnerToken identifier acquisition initialAuthority
      end.

(** [finally { if (releaseLease) ... }] *)
Definition release_on_exit (cx : call_context) (leaseOwnerToken : string) : service unit :=
  l ← get_local;
  if releaseLease l then
    at_ ← await Now;
    releaseLeaseOrFail cx at_ leaseOwnerToken
  else mret tt.

Definition submit_with_lease (cx : call_context) : service SubmitOrderFromDecisionResult :=
  leaseOwnerToken ← await (CreateId "account_execution_lease");
  acquired ← require_lease cx leaseOwnerToken;
  match acquired with
  | None => mret (not_submitted Submission.LEASE_BLOCKED None lease_unavailable)
  | Some acquisition =>
      try_finally (submit_under_lease cx leaseOwnerToken acquisition)
        (release_on_exit cx leaseOwnerToken)
  end.

Definition order_market_of (input : SubmitOrderFromDecisionInput) : SupportedMarket :=
  default (StrategyCore.sd_market (in_decision input)) (in_market input).

Definition idempotency_key_of (input : SubmitOrderFromDecisionInput) : string :=
  buildOrderIdempotencyKey sha256 (in_exchangeAccountId input) (in_strategyDecisionId input)
    (Market.to_string (order_market_of input)) (Side.to_string (in_side input))
    (OrdType.to_string (in_ordType input)) (in_price input) (in_volume input).

Definition submitOrderFromDecision (input : SubmitOrderFromDecisionInput)
    : service SubmitOrderFromDecisionResult :=
  _ ← await AssertLocallyHeld;
  _ ← lift (assertCanonicalUpbitMarketBuyQuote input);
  attemptStartedAt ← await Now;
  let idempotencyKey := idempotency_key_of input in
  duplicate ← await (FindOrderByIdempotencyKey (in_exchangeAccountId input) idempotencyKey);
  candidate ← prepareCandidateContext input (order_market_of input);
  let cx := {|
    cx_input := input;
    cx_attemptStartedAt := attemptStartedAt;
    cx_market := order_market_of input;
    cx_idempotencyKey := idempotencyKey;
    cx_candidate := candidate |} in
  match duplicate with
  | Some duplicate => duplicate_order cx duplicate
  | None => submit_with_lease cx
  end.

End Service.
