(* ===== verification/ExecutionTheory.v ===== *)
(** * ExecutionTheory: reasoning about the execution service

    What may be answered, the kinds of events the theorems speak of, and the
    rules for the parts of a call that send nothing: a [calm] routine leaves
    the local variables alone, neither sends an order nor releases a lease,
    and throws an error of the service only when the events justify it. *)

From Stdlib Require Import ZArith Lia.
From stdpp Require Import base option list strings.
From S2P Require Import Prelude Num Types Text Timestamp NumText CandidateState ExactState.
From S2P Require Import SubmissionBlocking Lease OperatorState PilotRecords StrategyCore.
From S2P Require Import OrderRecords Risk Effects CandidateAuthority ExecutionRecords.
From S2P Require Import ExecutionHelpers ExecutionService.

Local Open Scope string_scope.
Local Open Scope js_scope.
Local Open Scope bool_scope.

(** ** What may be answered *)

(** Clocks and identifiers do not throw. *)
Definition infallible {B} (e : effect B) : bool :=
  match e with
  | Now | DateNow | NewDate | CreateId _ => true
  | _ => false
  end.

(** The errors the execution service defines are thrown by it alone. *)
Definition foreign (x : js_error) : bool :=
  match x with
  | CandidateExecutionSafetyError _ | AccountExecutionLeaseSafetyError _
  | AutomaticFaultPauseSafetyError _ | LeaseBlockPersistenceSafetyError _
  | PostSendPersistenceSafetyError _ => false
  | _ => true
  end.

Definition may_answer (B : Type) (e : effect B) (r : result js_error B) : Prop :=
  match r with
  | Ok _ => True
  | Err x => infallible e = false /\ foreign x = true
  end.

Abbreviation event := (Effects.event effect js_error).
Abbreviation history := (list event).
Abbreviation service_runs m := (runs may_answer m).

(** ** Kinds of events *)

Definition is_send (ev : event) : bool :=
  match ev with Asked e _ => match e with CreateOrder _ => true | _ => false end end.

Definition is_release (ev : event) : bool :=
  match ev with Asked e _ => match e with ReleaseLease _ _ => true | _ => false end end.

Definition sent (h : history) : bool := existsb is_send h.
Definition released (h : history) : bool := existsb is_release h.

Definition created (ev : event) : Prop := is_send ev = true.

(** Execution, or the candidate, was paused. *)
Definition paused (ev : event) : Prop :=
  exists input, answered (PauseForFault input) (fun _ => True) ev.
Definition pause_failed (ev : event) : Prop := exists input, failed (PauseForFault input) ev.
Definition risk_unsaved (ev : event) : Prop := exists record, failed (SaveRiskEvent record) ev.
Definition ownership_gone (ev : event) : Prop := exists at_, failed (AssertCurrent at_) ev.

(** What has happened when the service throws an error of its own. *)
Definition justified_error (x : js_error) (h : history) : Prop :=
  match x with
  | AccountExecutionLeaseSafetyError _ | PostSendPersistenceSafetyError _ => happened [paused] h
  | AutomaticFaultPauseSafetyError _ => happened [pause_failed] h
  | LeaseBlockPersistenceSafetyError _ => happened [risk_unsaved] h
  | _ => True
  end.

Lemma foreign_justified x h : foreign x = true -> justified_error x h.
Proof. by destruct x. Qed.

Lemma justified_error_app x t h : justified_error x t -> justified_error x (t ++ h)%list.
Proof.
  assert (Happ : forall P, happened [P] t -> happened [P] (t ++ h)%list).
  { intros P (ev & Hin & HP)%happened_in. eapply happened_intro; [|exact HP].
    apply elem_of_app. by left. }
  destruct x; cbn; auto.
Qed.

Lemma justified_error_older x t h : justified_error x h -> justified_error x (t ++ h)%list.
Proof. destruct x; cbn; auto using @happened_app. Qed.

(** ** Quiet events *)

Definition quiet_event (ev : event) : bool := negb (is_send ev) && negb (is_release ev).

(** The history grew by events that neither send nor release. *)
Definition extends (h h' : history) : Prop :=
  exists t, h' = (t ++ h)%list /\ forallb quiet_event t = true.

#[export] Instance extends_preorder : PreOrder extends.
Proof.
  split.
  - intros h. by exists [].
  - intros h1 h2 h3 (t & -> & Ht) (u & -> & Hu). exists (u ++ t)%list.
    by rewrite <- app_assoc, forallb_app, Hu, Ht.
Qed.

Lemma extends_cons ev h : quiet_event ev = true -> extends h (ev :: h).
Proof. intros H. exists [ev]. cbn. by rewrite H. Qed.

Lemma extends_asked ev h h' : extends (ev :: h) h' -> quiet_event ev = true -> extends h h'.
Proof. intros H Hq. etrans; [by apply extends_cons|done]. Qed.

Lemma extends_sent h h' : extends h h' -> sent h' = sent h.
Proof.
  intros (t & -> & Ht). unfold sent. rewrite existsb_app.
  induction t as [|ev t IH]; [done|]. cbn in *.
  apply andb_true_iff in Ht as [[Hs%negb_true_iff _]%andb_true_iff Ht]. rewrite Hs. auto.
Qed.

Lemma extends_released h h' : extends h h' -> released h' = released h.
Proof.
  intros (t & -> & Ht). unfold released. rewrite existsb_app.
  induction t as [|ev t IH]; [done|]. cbn in *.
  apply andb_true_iff in Ht as [[_ Hs%negb_true_iff]%andb_true_iff Ht]. rewrite Hs. auto.
Qed.

Lemma extends_happened Ps h h' : extends h h' -> happened Ps h -> happened Ps h'.
Proof. intros (t & -> & _). apply happened_app. Qed.

Lemma extends_justified x h h' : extends h h' -> justified_error x h -> justified_error x h'.
Proof. intros He. destruct x; cbn; eauto using extends_happened. Qed.

Lemma happened_one (P : event -> Prop) ev h : P ev -> happened [P] (ev :: h).
Proof. intros H. apply happened_now; [done|constructor]. Qed.

(** ** Calm routines *)

(** The calls that are permitted at any time. *)
Definition plain {B} (e : effect B) : bool :=
  match e with
  | CreateOrder _ | ReleaseLease _ _ | UpdateOrder _ | PersistOrderIntent _
  | PersistCandidateBoundOrderIntent _ | PersistExchangeSubmission _
  | PersistUncertainSubmission _ => false
  | _ => true
  end.

Lemma plain_quiet {B} (e : effect B) r : plain e = true -> quiet_event (Asked e r) = true.
Proof. by destruct e. Qed.

Section Calm.
Context (permitted : history -> forall B, effect B -> Prop).
Context (plain_permitted : forall h B (e : effect B), plain e = true -> permitted h B e).

Abbreviation wp := (Effects.wp may_answer permitted).

(** [m] leaves the local variables alone and adds quiet events; then [Q] holds
    of its value, or [X] of what it throws. *)
Definition calm {A} (h : history) (m : service A) (Q : A -> history -> Prop)
    (X : js_error -> history -> Prop) : Prop :=
  forall l, wp m (fun l' r h' =>
    l' = l /\ extends h h' /\ match r with Ok v => Q v h' | Err x => X x h' end) l h.

Lemma calm_mono {A} (m : service A) h (Q Q' : A -> history -> Prop) (X X' : js_error -> history -> Prop) :
  (forall v h', extends h h' -> Q v h' -> Q' v h') ->
  (forall x h', extends h h' -> X x h' -> X' x h') ->
  calm h m Q X -> calm h m Q' X'.
Proof.
  intros HQ HX Hm l. eapply wp_mono; [|apply Hm]. intros l' [v|x] h' (-> & He & H); eauto.
Qed.

Lemma calm_ret {A} (v : A) h (Q : A -> history -> Prop) X : Q v h -> calm h (mret v) Q X.
Proof. intros H l. by apply wp_ret. Qed.

Lemma calm_throw {A} x h (Q : A -> history -> Prop) (X : js_error -> history -> Prop) :
  X x h -> calm h (throw x) Q X.
Proof. intros H l. by apply wp_throw. Qed.

Lemma calm_bind {A B} (m : service A) (k : A -> service B) h Q (Q' : B -> history -> Prop) X :
  calm h m Q X ->
  (forall v h', extends h h' -> Q v h' -> calm h' (k v) Q' X) ->
  calm h (x ← m; k x) Q' X.
Proof.
  intros Hm Hk l. apply wp_bind. eapply wp_mono; [|apply Hm].
  intros l' [v|x] h' (-> & He & H); [|done].
  eapply wp_mono; [|by apply Hk]. intros l'' r h'' (-> & He' & Hr). split; [done|].
  split; [by etrans|done].
Qed.

Lemma calm_await_permitted {A} (e : effect A) h (Q : A -> history -> Prop)
    (X : js_error -> history -> Prop) :
  permitted h A e -> (forall r, quiet_event (Asked e r) = true) ->
  (forall v, Q v (Asked e (Ok v) :: h)) ->
  (forall x, infallible e = false -> foreign x = true -> X x (Asked e (Err x) :: h)) ->
  calm h (await e) Q X.
Proof.
  intros Hp Hq HQ HX l. apply wp_await; [done|].
  intros r Hr. split; [done|]. split; [by apply extends_cons|].
  destruct r as [v|x]; [apply HQ|]. destruct Hr. by apply HX.
Qed.

Lemma calm_await {A} (e : effect A) h (Q : A -> history -> Prop) (X : js_error -> history -> Prop) :
  plain e = true ->
  (forall v, Q v (Asked e (Ok v) :: h)) ->
  (forall x, infallible e = false -> foreign x = true -> X x (Asked e (Err x) :: h)) ->
  calm h (await e) Q X.
Proof. intros Hp. apply calm_await_permitted; [by apply plain_permitted|]. intros. by apply plain_quiet. Qed.

Lemma calm_attempt {A} (m : service A) h (Q : result js_error A -> history -> Prop) X :
  calm h m (fun v => Q (Ok v)) (fun x => Q (Err x)) -> calm h (attempt m) Q X.
Proof.
  intros Hm l. apply wp_attempt. eapply wp_mono; [|apply Hm].
  by intros l' [v|x] h' (-> & He & H).
Qed.

Lemma calm_try_catch {A} (m : service A) (k : js_error -> service A) h (Q : A -> history -> Prop) X :
  calm h m Q (fun x h' => calm h' (k x) Q X) -> calm h (try_catch m k) Q X.
Proof.
  intros Hm l. apply wp_try_catch. eapply wp_mono; [|apply Hm].
  intros l' [v|x] h' (-> & He & H); [done|].
  eapply wp_mono; [|apply H]. intros l'' r h'' (-> & He' & Hr). split; [done|].
  split; [by etrans|done].
Qed.

Lemma calm_lift {A} (o : outcome A) h (Q : A -> history -> Prop) (X : js_error -> history -> Prop) :
  (forall v, o = Ret v -> Q v h) -> (forall m, X (PlainError m) h) -> calm h (lift o) Q X.
Proof. intros HQ HX l. apply wp_lift; intros; split_and!; auto; done. Qed.

Lemma calm_throw_when c x h (Q : unit -> history -> Prop) (X : js_error -> history -> Prop) :
  (c = false -> Q tt h) -> (c = true -> X x h) -> calm h (throw_when c x) Q X.
Proof. intros HQ HX. destruct c; [apply calm_throw; auto|apply calm_ret; auto]. Qed.

(** What had happened is not undone. *)
Lemma calm_frame {A} (m : service A) h Ps (Q : A -> history -> Prop) X :
  happened Ps h -> calm h m Q X ->
  calm h m (fun v h' => Q v h' /\ happened Ps h') (fun x h' => X x h' /\ happened Ps h').
Proof. intros HP. apply calm_mono; eauto using extends_happened. Qed.

(** A calm first part of a routine. *)
Lemma wp_calm_bind {A B} (m : service A) (k : A -> service B) h l Q X R :
  calm h m Q X ->
  (forall v h', extends h h' -> Q v h' -> wp (k v) R l h') ->
  (forall x h', extends h h' -> X x h' -> R l (Err x) h') ->
  wp (x ← m; k x) R l h.
Proof.
  intros Hm Hk HX. apply wp_bind. eapply wp_mono; [|apply Hm].
  intros l' [v|x] h' (-> & He & H); auto.
Qed.

(** ** Guarded routines *)

(** Like a calm routine, but it can assign the local variables when it throws. *)
Definition guarded {A} (l : locals) (h : history) (m : service A) (Q : A -> history -> Prop) : Prop :=
  wp m (fun l' r h' => extends h h' /\
    match r with Ok v => l' = l /\ Q v h' | Err x => justified_error x h' end) l h.

Lemma calm_guarded {A} (m : service A) l h Q : calm h m Q justified_error -> guarded l h m Q.
Proof. intros Hm. eapply wp_mono; [|apply Hm]. by intros l' [v|x] h' (-> & He & H). Qed.

Lemma wp_guarded_bind {A B} (m : service A) (k : A -> service B) h l Q R :
  guarded l h m Q ->
  (forall v h', extends h h' -> Q v h' -> wp (k v) R l h') ->
  (forall l' x h', extends h h' -> justified_error x h' -> R l' (Err x) h') ->
  wp (x ← m; k x) R l h.
Proof.
  intros Hm Hk HX. apply wp_bind. eapply wp_mono; [|apply Hm].
  intros l' [v|x] h' (He & H); [destruct H as [-> H]|]; auto.
Qed.

Lemma guarded_bind {A B} (m : service A) (k : A -> service B) h l Q (Q' : B -> history -> Prop) :
  guarded l h m Q ->
  (forall v h', extends h h' -> Q v h' -> guarded l h' (k v) Q') ->
  guarded l h (x ← m; k x) Q'.
Proof.
  intros Hm Hk. eapply wp_guarded_bind; [exact Hm| |done].
  intros v h' He H. eapply wp_mono; [|by apply Hk]. intros l' r h'' [He' Hr]. split; [by etrans|done].
Qed.

Lemma wp_assign f (Q : locals -> result js_error unit -> history -> Prop) l h :
  Q (f l) (Ok tt) h -> wp (assign f) Q l h.
Proof. intros H. unfold assign. by apply wp_bind, wp_get_local, wp_set_local. Qed.

(** [try { m } catch { this assignment; k }], where [k] throws. *)
Lemma guarded_try {A} (m : service A) f (k : service A) l h (Q : A -> history -> Prop) :
  calm h m Q (fun _ _ => True) ->
  (forall h', extends h h' -> calm h' k (fun _ _ => False) justified_error) ->
  guarded l h (try_catch m (fun _ => _ ← assign f; k)) Q.
Proof.
  intros Hm Hk. apply wp_try_catch. eapply wp_mono; [|apply Hm].
  intros l' [v|x] h' (-> & He & H); [done|]. apply wp_bind, wp_assign.
  eapply wp_mono; [|by apply Hk]. intros l'' [w|y] h'' (-> & He' & Hr); [done|].
  split; [by etrans|done].
Qed.

(** A loop, by an invariant and what holds of the values. *)
Lemma calm_mapM {A B} (f : A -> service B) (I : history -> Prop) (P : A -> Prop) (R : B -> Prop) X xs h :
  (forall a h, P a -> I h -> calm h (f a) (fun b h' => R b /\ I h') X) -> Forall P xs -> I h ->
  calm h (mapM f xs) (fun bs h' => Forall R bs /\ I h') X.
Proof.
  intros Hf HP. revert h. induction HP as [|a xs Ha HP IH]; intros h HI; cbn.
  - by apply calm_ret.
  - eapply calm_bind; [by apply Hf|]. intros v h' _ [Hv HI'].
    eapply calm_bind; [by apply IH|]. intros vs h'' _ [Hvs HI''].
    apply calm_ret. split; [by constructor|done].
Qed.

End Calm.

(** One rule for one construct; what is left are the conditions on values. *)
Ltac calm_step :=
  lazymatch goal with
  | |- calm _ _ (mret _) _ _ => apply calm_ret
  | |- calm _ _ (throw _) _ _ => apply calm_throw
  | |- calm _ _ (throw_when _ _) _ _ => apply calm_throw_when; intros
  | |- calm _ _ (lift _) _ _ => apply calm_lift; intros
  | |- calm _ _ (await _) _ _ => apply calm_await; [done|done|intros|intros]
  | |- calm _ _ (attempt _) _ _ => apply calm_attempt
  | |- calm _ _ (try_catch _ _) _ _ => apply calm_try_catch
  | |- calm _ _ (mbind _ (await _)) _ _ =>
      eapply (calm_bind _ _ _ _ (fun _ _ => True)); [apply calm_await; [done|done|done|by intros; auto]|intros ? ? _ _]
  | |- calm _ _ (match ?b with _ => _ end) _ _ => destruct b
  | |- calm _ _ (let _ := _ in _) _ _ => cbv zeta
  end.

(** A first part of which nothing is needed. *)
Ltac calm_skip := eapply (calm_bind _ _ _ _ (fun _ _ => True)).

Section Pieces.
Context (sha256 : string -> string) (deps : ExecutionDependencies).
Context (permitted : history -> forall B, effect B -> Prop).
Context (plain_permitted : forall h B (e : effect B), plain e = true -> permitted h B e).

Abbreviation calm := (calm permitted).
Abbreviation quietly h m := (calm h m (fun _ _ => True) justified_error).

#[local] Hint Resolve foreign_justified : core.

Lemma value_or_throw_calm {A} (r : result js_error A) h (X : js_error -> history -> Prop) :
  (forall x, r = Err x -> X x h) -> calm h (value_or_throw r) (fun v _ => r = Ok v) X.
Proof. intros HX. destruct r; [by apply calm_ret|apply calm_throw; auto]. Qed.

Lemma createRiskEvent_calm account decisionId rule text payload orderId h :
  calm h (createRiskEvent account decisionId rule text payload orderId)
    (fun e _ => re_exchangeAccountId e = account /\ re_strategyDecisionId e = decisionId /\
                re_orderId e = orderId /\ re_ruleCode e = rule /\ re_level e = RiskLevelEvent.BLOCK)
    (fun _ _ => False).
Proof. unfold createRiskEvent. repeat calm_step; done. Qed.

Lemma pauseForFault_calm Ps input h :
  happened Ps h ->
  calm h (pauseForFault input) (fun _ => happened (paused :: Ps))
    (fun x h' => (exists m, x = AutomaticFaultPauseSafetyError m) /\ happened (pause_failed :: Ps) h').
Proof.
  intros HP. unfold pauseForFault. apply calm_try_catch.
  eapply (calm_bind _ _ _ _ (fun _ => happened (paused :: Ps))).
  - apply calm_await; [done|done| |].
    + intros v. apply happened_now; [|done]. by exists input, v.
    + intros x _ _. apply calm_throw. split; [eauto|]. apply happened_now; [|done]. by exists input, x.
  - intros v h' _ Hh. by apply calm_ret.
Qed.

Lemma recordLeaseBlockedAndPause_calm cx at_ reason orderId h :
  calm h (recordLeaseBlockedAndPause cx at_ reason orderId) (fun _ => happened [paused])
    justified_error.
Proof.
  unfold recordLeaseBlockedAndPause.
  eapply (calm_bind _ _ _ _ (fun r h' => forall x, r = Err x -> happened [risk_unsaved] h')).
  { apply calm_attempt.
    eapply calm_bind; [eapply calm_mono; [| |apply createRiskEvent_calm]; done|].
    intros event h' _ _. apply calm_await; [done|done|done|].
    intros x _ _ y [= <-]. apply happened_one. by exists event, x. }
  intros evidence h1 _ Hev.
  eapply (calm_bind _ _ _ _ (fun r h' => match r with
    | Ok _ => happened [paused] h'
    | Err x => justified_error x h' end)).
  { apply calm_attempt. eapply calm_mono; [| |apply (pauseForFault_calm [])]; [done| |constructor].
    by intros x h' _ [[m ->] H]. }
  intros pause h2 He Hp. destruct evidence as [[]|x], pause as [[]|y]; calm_step; try done.
  - cbn. eapply extends_happened; [done|]. by eapply Hev.
  - cbn. eapply extends_happened; [done|]. by eapply Hev.
Qed.

(** A report cannot fail. *)
Lemma safeReport_calm input h :
  calm h (safeReport deps input) (fun _ _ => True) (fun _ _ => False).
Proof.
  unfold safeReport. calm_step; [|by calm_step].
  repeat calm_step; done.
Qed.

Lemma pauseCandidateIntentFault_calm candidate input orderId bindingId stage at_ h :
  quietly h (pauseCandidateIntentFault sha256 deps candidate input orderId bindingId stage at_).
Proof.
  unfold pauseCandidateIntentFault. calm_skip; [by calm_step|].
  intros [] h' _ _. cbv zeta. repeat calm_step; done.
Qed.

Lemma candidate_fault_calm {A} candidate input orderId bindingId stage at_ text h :
  calm h (candidate_fault (A := A) sha256 deps candidate input orderId bindingId stage at_ text)
    (fun _ _ => False) justified_error.
Proof.
  unfold candidate_fault. calm_skip; [by calm_step|]. intros occurredAt h' _ _.
  eapply calm_bind; [apply pauseCandidateIntentFault_calm|]. intros [] h'' _ _. by calm_step.
Qed.

Lemma quietly_any {A} (m : service A) h (Q : A -> history -> Prop) :
  calm h m Q justified_error -> quietly h m.
Proof. by apply calm_mono. Qed.

Lemma quietly_never {A} (m : service A) h (Q : A -> history -> Prop) :
  calm h m Q (fun _ _ => False) -> quietly h m.
Proof. by apply calm_mono. Qed.

Lemma prepareCandidateContext_calm input market h :
  quietly h (prepareCandidateContext deps input market).
Proof.
  unfold prepareCandidateContext. calm_step; [|by calm_step].
  calm_skip; [by destruct (validateCandidateExecutionAuthority _); calm_step|].
  intros authority h1 _ _. calm_skip; [by calm_step|]. intros _ h2 _ _.
  calm_step; [|by calm_step]. cbv zeta. calm_skip; [by calm_step|]. intros _ h3 _ _.
  calm_skip; [calm_step; auto|]. intros [decision|] h4 _ _; [|by calm_step].
  calm_skip; [by calm_step|]. intros _ h5 _ _.
  calm_skip; [by calm_step|]. intros notional h6 _ _.
  calm_skip; [by calm_step|]. intros _ h7 _ _. by calm_step.
Qed.

Lemma assertExactCandidateDuplicate_calm candidate duplicate key h :
  calm h (assertExactCandidateDuplicate sha256 deps candidate duplicate key)
    (fun _ _ => True) (fun _ _ => True).
Proof.
  unfold assertExactCandidateDuplicate. cbv zeta. calm_skip; [by calm_step|]. intros _ h1 _ _.
  calm_skip; [by calm_step|]. intros [b|] h2 _ _; [|by calm_step].
  calm_skip; [by calm_step|]. intros _ h3 _ _.
  do 3 (calm_skip; [by do 2 calm_step|]; intros ? ? _ _).
  do 3 (calm_skip; [by eapply calm_mono; [| |by apply (value_or_throw_calm _ _ (fun _ _ => True))]|];
        intros ? ? _ _).
  repeat calm_step; done.
Qed.

(** Neither a lease nor an order is asked for a duplicate. *)
Lemma duplicate_order_calm cx duplicate h :
  calm h (duplicate_order sha256 deps cx duplicate)
    (fun res _ => res_outcome res = Submission.DUPLICATE /\ res_accepted res = false /\
                  res_order res = Some duplicate) justified_error.
Proof.
  unfold duplicate_order. calm_skip; [|by intros [] h' _ _; calm_step].
  calm_step; [|by calm_step]. apply calm_try_catch.
  calm_skip; [|by intros ? ? _ _; calm_step].
  eapply calm_mono; [done| |apply assertExactCandidateDuplicate_calm].
  intros x h' _ _. by eapply calm_mono; [| |apply candidate_fault_calm].
Qed.

Definition tested (request : UpbitOrderRequest) : event -> Prop :=
  answered (TestOrder request) (fun v => validation_accepted v = true).

(** Only a tested order passes. *)
Lemma runExchangePreTradeValidation_calm Ps cx p h :
  happened Ps h ->
  calm h (runExchangePreTradeValidation cx p)
    (fun r h' => r = None -> happened (tested (pre_request p) :: Ps) h') justified_error.
Proof.
  intros HP. unfold runExchangePreTradeValidation. cbv zeta.
  eapply (calm_bind _ _ _ _ (fun _ => happened Ps)).
  { calm_step. calm_step; by apply happened_before. }
  intros [chance|x] h1 _ H1; [|by calm_step]. calm_step; [by calm_step|].
  eapply (calm_bind _ _ _ _ (fun v h' =>
    test_rejection (base_payload cx p) v = None -> happened (tested (pre_request p) :: Ps) h')).
  - calm_step. calm_step; [|done]. cbn in H. destruct (validation_accepted v) eqn:Hv; [|done].
    apply happened_now; [|done]. by exists v.
  - intros v h2 _ H2. by calm_step.
Qed.

Lemma report_rejection_calm cx title text payload h :
  calm h (report_rejection deps cx title text payload) (fun _ _ => True) (fun _ _ => False).
Proof. apply safeReport_calm. Qed.

(** The result of an order that was refused here. *)
Definition refused (res : SubmitOrderFromDecisionResult) : Prop :=
  res_outcome res = Submission.REJECTED /\ res_accepted res = false /\ res_order res = None.

(** What a call threw, if it threw. *)
Definition foreign_result {A} (r : result js_error A) : Prop :=
  forall x, r = Err x -> foreign x = true.

Lemma attempt_await_calm {A} (e : effect A) h :
  plain e = true ->
  calm h (attempt (await e)) (fun r _ => foreign_result r) (fun _ _ => False).
Proof.
  intros He. calm_step. apply calm_await; [done|done|by intros v y|].
  intros x _ Hx y. by intros [= <-].
Qed.

(** A loop that keeps no invariant. *)
Lemma calm_mapM_values {A B} (f : A -> service B) (P : A -> Prop) (R : B -> Prop) X xs h :
  (forall a h, P a -> calm h (f a) (fun b _ => R b) X) -> Forall P xs ->
  calm h (mapM f xs) (fun bs _ => Forall R bs) X.
Proof.
  intros Hf HP. eapply (calm_mono _ _ _ (fun bs _ => Forall R bs /\ True)); [by intros ? ? _ []|done|].
  apply (calm_mapM _ _ (fun _ => True) P); [|done|done].
  intros a h' Ha _. eapply calm_mono; [| |by apply Hf]; eauto.
Qed.

Lemma reject_by_risk_calm cx rules h :
  calm h (reject_by_risk deps cx rules) (fun res _ => refused res) justified_error.
Proof.
  unfold reject_by_risk.
  eapply calm_bind; [apply (calm_mapM_values _ (fun _ => True) foreign_result)|].
  { intros rule h' _. calm_skip; [eapply quietly_never, createRiskEvent_calm|].
    intros e h1 _ _. by eapply calm_mono; [| |by apply attempt_await_calm]. }
  { by apply Forall_true. }
  intros saved h1 _ Hsaved.
  calm_skip; [eapply quietly_any, (calm_mapM_values _ foreign_result (fun _ => True)); [|done]|].
  { intros r h' Hr. eapply calm_mono; [| |apply (value_or_throw_calm _ _ justified_error)]; [done|done|].
    eauto. }
  intros _ h2 _ _. calm_skip; [eapply quietly_never, report_rejection_calm|]. intros _ h3 _ _. by calm_step.
Qed.

Lemma reject_before_submission_calm cx identifier r h :
  calm h (reject_before_submission deps cx identifier r) (fun res _ => refused res) justified_error.
Proof.
  unfold reject_before_submission. destruct r as [[rule text] payload].
  calm_skip; [eapply quietly_never, createRiskEvent_calm|]. intros e h1 _ _.
  calm_skip; [calm_step; auto|]. intros _ h2 _ _.
  calm_skip; [eapply quietly_never, report_rejection_calm|]. intros _ h3 _ _. by calm_step.
Qed.

Lemma exchange_fill_calm order fill h :
  calm h (exchange_fill order fill) (fun f _ => fill_orderId f = ord_id order) (fun _ _ => False).
Proof.
  unfold exchange_fill. destruct (directExchangeFillTimestamp _) as [[provenance epoch] at_].
  calm_step. eapply (calm_bind _ _ _ _ (fun _ _ => True)); [by repeat calm_step|].
  intros fid h2 _ _. by calm_step.
Qed.

Lemma createDryRunSyntheticFill_calm cx order notional at_ raw h :
  calm h (createDryRunSyntheticFill cx order notional at_ raw)
    (fun f _ => forall f', f = Some f' -> fill_orderId f' = ord_id order)
    (fun x _ => exists m, x = PlainError m).
Proof.
  unfold createDryRunSyntheticFill. cbv zeta. calm_step; [|by calm_step].
  destruct p as [price volume]. do 2 calm_step.
  calm_skip; [calm_step; eauto|]. intros epoch h2 _ _. calm_step. by intros f' [= <-].
Qed.

End Pieces.
