(* ===== verification/ExecutionTimeline.v ===== *)
(** * ExecutionTimeline: what must have happened before an order is sent

    The calls a submission has made, newest first, at each of its stages; what
    each call of it that changes something may rely on ([permitted]); and what
    its result says about the calls it made ([justified], [accounted]).  The
    program is shown to keep to them in [ExecutionInvariant]. *)

From Stdlib Require Import ZArith Lia.
From stdpp Require Import base option list strings.
From S2P Require Import Prelude Num Types Text Timestamp NumText CandidateState ExactState.
From S2P Require Import SubmissionBlocking Lease OperatorState PilotRecords StrategyCore.
From S2P Require Import OrderRecords Risk Effects CandidateAuthority ExecutionRecords.
From S2P Require Import ExecutionHelpers ExecutionService ExecutionTheory.

Local Open Scope string_scope.
Local Open Scope js_scope.
Local Open Scope bool_scope.

Section Timeline.
Context (sha256 : string -> string) (deps : ExecutionDependencies).
Context (input : SubmitOrderFromDecisionInput).

Abbreviation account := (in_exchangeAccountId input).

(** ** Stages *)

Definition call_of (startedAt : string) (candidate : option CandidateContext) : call_context := {|
  cx_input := input;
  cx_attemptStartedAt := startedAt;
  cx_market := order_market_of input;
  cx_idempotencyKey := idempotency_key_of sha256 input;
  cx_candidate := candidate;
|}.

Definition identifier_of (cx : call_context) : string :=
  buildOrderIdentifier sha256 (Market.to_string (cx_market cx)) (Side.to_string (in_side input))
    (in_strategyDecisionId input) (cx_attemptStartedAt cx).

(** The runtime is owned, and the key is free. *)
Definition opened (cx : call_context) : list (event -> Prop) :=
  [answered (FindOrderByIdempotencyKey account (cx_idempotencyKey cx)) (fun order => order = None);
   answered Now (fun at_ => at_ = cx_attemptStartedAt cx);
   answered AssertLocallyHeld (fun _ => True)].

Definition lease_request (token : string) (window : lease_window)
    : AcquireAccountExecutionLeaseInput := {|
  acquire_exchangeAccountId := account;
  acquire_ownerToken := token;
  acquire_purpose := Purpose.ORDER_SUBMISSION;
  acquire_acquiredAtEpochMs := win_atEpochMs window;
  acquire_expiresAtEpochMs := win_expiresAtEpochMs window;
|}.

Definition acquired (token : string) (window : lease_window) : event -> Prop :=
  answered (AcquireLease (lease_request token window))
    (fun lease => isOwnedLease lease account token (win_atEpochMs window) = true).

(** No active order, and an authority the adapter accepts. *)
Definition authorised (cx : call_context) (token : string) (window : lease_window)
    (state : ExecutionStateRecord) : list (event -> Prop) :=
  answered GetState (fun s => s = state)
  :: answered (ListActiveOrders account) (fun orders => orders = [])
  :: acquired token window :: opened cx.

(** The risk guards accept the order in this state, and the exchange's test too. *)
Definition accepted_by_all (cx : call_context) (token : string) (window : lease_window)
    (state : ExecutionStateRecord) : list (event -> Prop) :=
  tested (order_request cx (identifier_of cx))
  :: answered (GetPortfolioExposure account) (fun portfolio =>
       accepted (evaluateRiskGuards (risk_context deps cx state [] portfolio)) = true)
  :: authorised cx token window state.

(** The intent is the order of the call; a candidate's binding is the derived one. *)
Definition intent_of (cx : call_context) (it : intent) : Prop :=
  exists orderId eventId requestedAt,
    it_order it = new_order deps cx orderId (identifier_of cx) requestedAt /\
    it_event it = persisted_event cx eventId (it_order it) /\
    match it_binding it with
    | None => cx_candidate cx = None /\ requestedAt = cx_attemptStartedAt cx
    | Some (candidate, binding) => cx_candidate cx = Some candidate /\
        exists bindingId createdAt,
          deriveCandidateExecutionBinding sha256 {|
            derive_authority := ctx_authority candidate;
            derive_order := it_order it;
            derive_decision := ctx_decision candidate;
            derive_bindingId := bindingId;
            derive_createdAt := createdAt |} = Ret binding
    end.

Definition bound_request (it : intent) (candidate : CandidateContext)
    (binding : CandidateExecutionBindingRecord) : PersistCandidateBoundOrderIntentRequest :=
  let a := ctx_authority candidate in {|
  req_order := it_order it;
  req_event := it_event it;
  req_binding := binding;
  req_expectedPhase := auth_expectedPhase a;
  req_expectedDeploymentUpdatedAt := auth_expectedDeploymentUpdatedAt a;
  req_expectedStateVersion := auth_expectedStateVersion a;
|}.

Definition intent_persisted (it : intent) : event -> Prop :=
  match it_binding it with
  | None => answered (PersistOrderIntent {| intent_order := it_order it; intent_event := it_event it |})
              (fun _ => True)
  | Some (candidate, binding) =>
      answered (PersistCandidateBoundOrderIntent (bound_request it candidate binding)) (fun _ => True)
  end.

Definition stored (order : OrderRecord) : event -> Prop :=
  answered (UpdateOrder order) (fun _ => True).

Definition renewed (token : string) (ev : event) : Prop :=
  exists at_ expiry, answered (RenewLease {|
    renew_exchangeAccountId := account;
    renew_ownerToken := token;
    renew_renewedAtEpochMs := at_;
    renew_expiresAtEpochMs := expiry |})
    (fun lease => isOwnedLease lease account token at_ = true) ev.

(** The intent is persisted, the order SUBMITTING, and the lease renewed. *)
Definition prepared (cx : call_context) (token : string) (window : lease_window)
    (state : ExecutionStateRecord) (it : intent) : list (event -> Prop) :=
  renewed token :: stored (submitting it) :: intent_persisted it
  :: accepted_by_all cx token window state.

(** The last reads: the state still allows the send, and the order is the one
    blocking order of the account, unchanged. *)
Definition last_read (cx : call_context) (token : string) (window : lease_window)
    (state : ExecutionStateRecord) (it : intent) : list (event -> Prop) :=
  answered (FindOrderById account (ord_id (submitting it)))
    (fun order => order = Some (submitting it))
  :: answered (ListSubmissionBlockingOrders account (CANDIDATE_FINAL_ORDER_SCAN_LIMIT + 1))
       (fun orders => orders = [submitting it])
  :: answered GetState (fun finalState =>
       final_state_allows deps (selectExecutionAuthority state) finalState = true)
  :: prepared cx token window state it.

Definition fence (state : ExecutionStateRecord) (atEpochMs : Z)
    : AssertCurrentExecutionAuthorityInput := {|
  fence_atEpochMs := atEpochMs;
  fence_exchangeAccountId := account;
  fence_expectedExecutionMode := es_executionMode state;
  fence_expectedLiveExecutionGate := es_liveExecutionGate state;
|}.

(** An order may be sent: everything above has happened in this order, and the
    last call entered the fence under the authority the order was accepted with. *)
Definition ready (h : history) (request : UpbitOrderRequest) : Prop :=
  exists startedAt candidate token window state it atEpochMs older,
    let cx := call_of startedAt candidate in
    h = Asked (EnterFence (fence state atEpochMs)) (Ok true) :: older /\
    happened (last_read cx token window state it) older /\
    executionAdapterAcceptsAuthority (dep_sendPath deps) (selectExecutionAuthority state) = true /\
    intent_of cx it /\
    request = order_request cx (ord_identifier (submitting it)).

(** ** What a call may rely on *)

(** The order continues the one that was stored as SUBMITTING. *)
Definition continues (h : history) (order : OrderRecord) : Prop :=
  exists before, happened [stored before] h /\ ord_status before = OrderStatus.SUBMITTING /\
    validateOrderIdentity before order = Ret tt.

Definition submission_stored (i : PersistExchangeSubmissionInput) : event -> Prop :=
  answered (PersistExchangeSubmission i) (fun _ => True).
Definition uncertain_stored (i : PersistUncertainSubmissionInput) : event -> Prop :=
  answered (PersistUncertainSubmission i) (fun _ => True).

(** The lease of the call can go: nothing was sent, or a terminal state of the
    order was stored after the send. *)
Definition releasable (h : history) : Prop :=
  sent h = true ->
  exists i, happened [submission_stored i; created] h /\
    isTerminalOrderStatus (ord_status (sub_order i)) = true.

Definition permitted (h : history) (B : Type) (e : effect B) : Prop :=
  match e with
  | CreateOrder request => sent h = false /\ ready h request
  | ReleaseLease acct token =>
      acct = account /\ releasable h /\ exists window, happened [acquired token window] h
  | UpdateOrder order => sent h = false /\ ord_status order = OrderStatus.SUBMITTING
  | PersistOrderIntent i => sent h = false /\ validateOrderIntentInput i = Ret tt
  | PersistCandidateBoundOrderIntent r =>
      sent h = false /\ exists d, derive_order d = req_order r /\
        deriveCandidateExecutionBinding sha256 d = Ret (req_binding r)
  | PersistExchangeSubmission i =>
      continues h (sub_order i) /\
      (ord_status (sub_order i) = OrderStatus.REJECTED -> validateExchangeSubmissionInput i = Ret tt)
  | PersistUncertainSubmission i =>
      continues h (unc_order i) /\ validateUncertainSubmissionInput i = Ret tt
  | _ => True
  end.

Lemma plain_permitted h B (e : effect B) : plain e = true -> permitted h B e.
Proof. by destruct e. Qed.

(** ** What a result says *)

Definition justified_result (res : SubmitOrderFromDecisionResult) (h : history) : Prop :=
  match res_outcome res with
  | Submission.SUBMITTED | Submission.SIMULATED_FILLED =>
      exists i, res_order res = Some (sub_order i) /\ res_accepted res = true /\
        happened [submission_stored i; created] h
  | Submission.REJECTED =>
      res_accepted res = false /\
      match res_order res with
      | None => sent h = false
      | Some order => ord_status order = OrderStatus.REJECTED /\
          exists i, sub_order i = order /\ happened [submission_stored i; created] h
      end
  | Submission.DUPLICATE =>
      res_accepted res = false /\ sent h = false /\
      exists order, res_order res = Some order /\
        happened [answered (FindOrderByIdempotencyKey account (idempotency_key_of sha256 input))
                    (fun found => found = Some order)] h
  | Submission.LEASE_BLOCKED =>
      res_accepted res = false /\ sent h = false /\ res_order res = None /\ happened [paused] h
  | Submission.RECONCILIATION_REQUIRED =>
      res_accepted res = false /\
      exists i, res_order res = Some (unc_order i) /\ happened [paused; uncertain_stored i] h
  end.

Definition justified (r : result js_error SubmitOrderFromDecisionResult) (h : history) : Prop :=
  match r with
  | Ok res => justified_result res h
  | Err x => justified_error x h
  end.

(** What became of the order after it was sent: it was stored, ... *)
Definition recorded (h : history) : Prop :=
  (exists i, happened [submission_stored i; created] h) \/
  (exists i, happened [paused; uncertain_stored i; created] h).

(** ... or the call threw after a pause, a pause that failed, or with the
    ownership of the runtime gone. *)
Definition halted_with (x : js_error) (h : history) : Prop :=
  happened [paused; created] h \/ happened [pause_failed; created] h \/
  happened [ownership_gone; created] h \/ is_ownership_error x = true.

Definition accounted (r : result js_error SubmitOrderFromDecisionResult) (h : history) : Prop :=
  sent h = true ->
  recorded h \/ (exists x, r = Err x /\ released h = false /\ halted_with x h).

End Timeline.
