(* ===== verification/ExecutionInvariant.v ===== *)
(** * ExecutionInvariant: the execution service keeps to its timeline

    The parts of [submitOrderFromDecision] in the order of the source, each
    with what has happened before and after it, up to the whole method:
    every call it makes is [permitted], and its result is [justified] and
    [accounted]. *)

From Stdlib Require Import ZArith Lia.
From stdpp Require Import base option list strings.
From S2P Require Import Prelude Num Types Text Timestamp NumText CandidateState ExactState.
From S2P Require Import SubmissionBlocking Lease OperatorState PilotRecords StrategyCore.
From S2P Require Import OrderRecords Risk Effects CandidateAuthority ExecutionRecords.
From S2P Require Import ExecutionHelpers ExecutionService ExecutionTheory ExecutionTimeline.

Local Open Scope string_scope.
Local Open Scope js_scope.
Local Open Scope bool_scope.

(** ** The pure functions *)

Lemma scan_orders_competing id expected seen orders seen' competing' :
  scan_orders id expected seen true orders = Ret (seen', competing') -> competing' = true.
Proof.
  revert seen. induction orders as [|o orders IH]; intros seen; cbn; [by intros [= _ <-]|].
  case_if; [|apply IH]. case_if; [done|apply IH].
Qed.

(** A scan that meets no other order met the expected one at most once. *)
Lemma scan_orders_alone expected seen orders seen' :
  scan_orders (ord_id expected) expected seen false orders = Ret (seen', false) ->
  if seen then orders = [] /\ seen' = true else seen' = true -> orders = [expected].
Proof.
  revert seen. induction orders as [|o orders IH]; intros seen; cbn.
  - intros [= ->]. destruct seen'; by eauto.
  - case_if; [|by intros ?%scan_orders_competing].
    case_if; [done|]. intros H. destruct seen; [done|]. unfold sameOrderRecord in *.
    destruct_bools. subst o. apply IH in H as [-> ->]. done.
Qed.

(** The order is alone, and both reads found it unchanged. *)
Lemma final_authority_exact expected orders persisted v :
  ord_status expected = OrderStatus.SUBMITTING ->
  assertFinalPersistedSubmissionAuthority (ord_id expected) expected orders persisted = Ret v ->
  orders = [expected] /\ persisted = Some expected.
Proof.
  intros Hs. unfold assertFinalPersistedSubmissionAuthority. intros H.
  apply throw_if_bind_Ret in H as [_ H]. apply bind_Ret in H as ([seen competing] & Hscan & H).
  apply throw_if_Ret in H. unfold sameOrderRecord in H. destruct_bools. subst.
  apply scan_orders_alone in Hscan. split; [by apply Hscan|].
  destruct persisted as [o|]; [|done]. destruct_bools. by subst.
Qed.

Section Invariant.
Context (sha256 : string -> string) (deps : ExecutionDependencies).

Lemma new_order_intent_valid cx orderId identifier at_ eventId :
  let order := new_order deps cx orderId identifier at_ in
  validateOrderIntentInput {| intent_order := order; intent_event := persisted_event cx eventId order |}
  = Ret tt.
Proof.
  cbv zeta. unfold validateOrderIntentInput, validateOrderEvent. cbn.
  by rewrite !bool_decide_eq_true_2 by done.
Qed.

Lemma with_submission_identity o status uuid response code text at_ :
  validateOrderIdentity o (with_submission o status uuid response code text at_) = Ret tt.
Proof.
  unfold validateOrderIdentity, changed_identity_fields. cbn.
  by rewrite !bool_decide_eq_true_2 by done.
Qed.

Lemma event_source_matches :
  eventSourceForExecutionMode (executionModeForAdapter (dep_sendPath deps))
  = eventSourceForAdapter (dep_sendPath deps).
Proof. unfold executionModeForAdapter. by destruct (dep_sendPath deps). Qed.

Lemma order_event_valid order id type source payload at_ order' :
  ord_id order = ord_id order' ->
  validateOrderEvent order' (order_event id order type source payload at_) type source = Ret tt.
Proof.
  intros Hid. unfold validateOrderEvent. cbn. rewrite Hid. by rewrite !bool_decide_eq_true_2 by done.
Qed.

(** The order of a call, in any state. *)
Definition of_adapter (order : OrderRecord) : Prop :=
  ord_executionMode order = executionModeForAdapter (dep_sendPath deps).

Lemma rejection_valid order uuid response text at_ eventId payload :
  of_adapter order ->
  let rejected := with_submission order OrderStatus.REJECTED uuid response
                    (Some "EXCHANGE_ORDER_REJECTED") text at_ in
  validateExchangeSubmissionInput {|
    sub_order := rejected;
    sub_event := order_event eventId order "ORDER_REJECTED"
                   (eventSourceForAdapter (dep_sendPath deps)) payload at_;
    sub_fills := []; sub_terminalEvent := None |} = Ret tt.
Proof.
  intros Hm. cbv zeta. unfold validateExchangeSubmissionInput. cbn. rewrite Hm, event_source_matches.
  by rewrite order_event_valid.
Qed.

Lemma uncertain_valid order uuid response text at_ eventId payload riskEvent :
  of_adapter order ->
  re_exchangeAccountId riskEvent = ord_exchangeAccountId order ->
  re_strategyDecisionId riskEvent = ord_strategyDecisionId order ->
  re_orderId riskEvent = Some (ord_id order) ->
  re_ruleCode riskEvent = RiskRule.POSITION_GUARD_PILOT_UNCERTAIN_ORDER ->
  re_level riskEvent = RiskLevelEvent.BLOCK ->
  validateUncertainSubmissionInput {|
    unc_order := with_submission order OrderStatus.RECONCILIATION_REQUIRED uuid response
                   (Some "RECONCILIATION_REQUIRED") text at_;
    unc_event := order_event eventId order "RECONCILIATION_RECOVERY_REQUIRED"
                   (eventSourceForAdapter (dep_sendPath deps)) payload at_;
    unc_riskEvent := riskEvent |} = Ret tt.
Proof.
  intros Hm Ha Hd Ho Hc Hl. unfold validateUncertainSubmissionInput. cbn.
  rewrite Hm, event_source_matches, order_event_valid by done. cbn.
  unfold links_order. cbn. rewrite Ha, Hd, Ho, Hc, Hl. by rewrite !bool_decide_eq_true_2 by done.
Qed.

(** ** Up to the intent *)

Context (input : SubmitOrderFromDecisionInput).

Abbreviation may := (permitted sha256 deps input).
Abbreviation wp := (Effects.wp may_answer may).
Abbreviation calm := (ExecutionTheory.calm may).
Abbreviation guarded := (ExecutionTheory.guarded may).
Abbreviation account := (in_exchangeAccountId input).

(** A call of this input. *)
Definition of_input (cx : call_context) : Prop :=
  exists startedAt candidate, cx = call_of sha256 input startedAt candidate.

Lemma of_input_account cx : of_input cx -> cx_account cx = account.
Proof. by intros (startedAt & candidate & ->). Qed.

Lemma of_input_input cx : of_input cx -> cx_input cx = input.
Proof. by intros (startedAt & candidate & ->). Qed.

Lemma happened_answered {B} (e : effect B) (P : B -> Prop) Ps v (h : history) :
  P v -> happened Ps h -> happened (answered e P :: Ps) (Asked e (Ok v) :: h).
Proof. intros HP Hh. apply happened_now; [|done]. by exists v. Qed.

(** A block that is recorded and then thrown. *)
Lemma block_and_throw_calm {A} cx at_ reason orderId text h :
  calm h (_ ← recordLeaseBlockedAndPause cx at_ reason orderId;
          throw (A := A) (AccountExecutionLeaseSafetyError text))
    (fun _ _ => False) justified_error.
Proof.
  eapply calm_bind; [apply recordLeaseBlockedAndPause_calm, plain_permitted|].
  intros ? h' _ Hp. by apply calm_throw.
Qed.

Lemma acquire_lease_calm cx token h :
  of_input cx -> happened (opened input cx) h ->
  calm h (acquire_lease deps cx token)
    (fun '(window, lease) => happened
       (answered (AcquireLease (lease_request input token window)) (fun l => l = lease)
        :: opened input cx)) justified_error.
Proof.
  intros Hcx Hh. unfold acquire_lease. apply calm_try_catch.
  eapply calm_mono with (Q := fun '(window, lease) => happened
    (answered (AcquireLease (lease_request input token window)) (fun l => l = lease)
     :: opened input cx)) (X := fun _ _ => True); [done| |].
  { intros x h' He _. eapply calm_mono; [| |apply block_and_throw_calm]; done. }
  eapply (calm_bind _ _ _ _ (fun _ => happened (opened input cx))); [by calm_step|].
  intros window h1 He H1. rewrite of_input_account by done.
  eapply (calm_bind _ _ _ _ (fun lease => happened
    (answered (AcquireLease (lease_request input token window)) (fun l => l = lease)
     :: opened input cx))).
  - apply calm_await; [apply plain_permitted|done| |done]. intros v. by apply happened_answered.
  - intros lease h2 _ H2. by apply calm_ret.
Qed.

Lemma require_lease_calm cx token h :
  of_input cx -> happened (opened input cx) h ->
  calm h (require_lease deps cx token)
    (fun window h' => match window with
       | Some window => happened (acquired input token window :: opened input cx) h'
       | None => happened [paused] h'
       end) justified_error.
Proof.
  intros Hcx Hh. unfold require_lease. eapply calm_bind; [by apply acquire_lease_calm|].
  intros [window [lease|]] h1 _ H1.
  - case_if; [apply calm_ret|].
    + rewrite of_input_account in Heqb by done. eapply happened_head; [|exact H1].
      intros ev (v & -> & ->). by exists (Some lease).
    + eapply calm_mono; [| |apply block_and_throw_calm]; done.
  - eapply calm_bind; [apply recordLeaseBlockedAndPause_calm, plain_permitted|].
    intros ? h2 _ H2. by apply calm_ret.
Qed.

Lemma read_initial_authority_guarded Ps cx l h :
  of_input cx -> happened Ps h ->
  guarded l h (read_initial_authority cx)
    (fun '(orders, state) => happened
       (answered GetState (fun s => s = state)
        :: answered (ListActiveOrders account) (fun o => o = orders) :: Ps)).
Proof.
  intros Hcx Hh. unfold read_initial_authority. apply guarded_try.
  - rewrite of_input_account by done.
    eapply (calm_bind _ _ _ _ (fun orders => happened
      (answered (ListActiveOrders account) (fun o => o = orders) :: Ps))).
    { apply calm_await; [apply plain_permitted|done| |done]. intros v. by apply happened_answered. }
    intros orders h1 _ H1.
    eapply (calm_bind _ _ _ _ (fun state => happened (answered GetState (fun s => s = state)
      :: answered (ListActiveOrders account) (fun o => o = orders) :: Ps))).
    { apply calm_await; [apply plain_permitted|done| |done]. intros v. by apply happened_answered. }
    intros state h2 _ H2. by apply calm_ret.
  - intros h' _. calm_skip; [apply calm_await; [apply plain_permitted|done|done|done]|].
    intros at_ h1 _ _. apply block_and_throw_calm.
Qed.

(** What a part that ends the call before the send must show. *)
Definition ends (l : locals) (h : history) (m : service SubmitOrderFromDecisionResult) : Prop :=
  wp m (fun _ r h' => extends h h' /\ justified sha256 input r h') l h.

Lemma calm_ends m l h :
  calm h m (justified_result sha256 input) justified_error -> ends l h m.
Proof. intros Hm. eapply wp_mono; [|apply Hm]. by intros l' [v|x] h' (-> & He & H). Qed.

Lemma lease_blocked_ends cx text l h : sent h = false -> ends l h (lease_blocked cx text).
Proof.
  intros Hs. unfold lease_blocked, ends.
  eapply (wp_guarded_bind _ _ _ _ _ (fun _ => happened [paused])).
  - apply wp_try_catch.
    eapply wp_mono; [|apply recordLeaseBlockedAndPause_calm, plain_permitted].
    intros l' [v|x] h' (-> & He & H); [done|]. apply wp_bind, wp_assign. by apply wp_throw.
  - intros ? h' He Hp. apply wp_ret. split; [done|]. cbn. split_and!; [done| |done|done].
    by rewrite (extends_sent _ _ He).
  - by intros l' x h' He H.
Qed.

Lemma refused_justified res h : sent h = false -> refused res -> justified_result sha256 input res h.
Proof.
  intros Hs (Ho & Ha & Hr). unfold justified_result. rewrite Ho, Hr. done.
Qed.

Lemma refused_ends m l h :
  sent h = false -> calm h m (fun res _ => refused res) justified_error -> ends l h m.
Proof.
  intros Hs Hm. apply calm_ends. eapply calm_mono; [| |exact Hm]; [|done].
  intros res h' He Hr. apply refused_justified; [|done]. by rewrite (extends_sent _ _ He).
Qed.

(** ** The intent, the order and the lease *)

Lemma candidate_fault_quiet {A} candidate orderId bindingId stage at_ text h :
  calm h (candidate_fault (A := A) sha256 deps candidate input orderId bindingId stage at_ text)
    (fun _ _ => False) justified_error.
Proof. apply candidate_fault_calm, plain_permitted. Qed.

Lemma now_calm h (X : js_error -> history -> Prop) : calm h (await Now) (fun _ _ => True) X.
Proof. apply calm_await; [apply plain_permitted|done..]. Qed.

Lemma create_id_calm prefix h (X : js_error -> history -> Prop) :
  calm h (await (CreateId prefix)) (fun _ _ => True) X.
Proof. apply calm_await; [apply plain_permitted|done..]. Qed.

Lemma attempt_timestamps_guarded cx candidate orderId bindingId l h :
  of_input cx ->
  guarded l h (attempt_timestamps sha256 deps cx candidate orderId bindingId) (fun _ _ => True).
Proof.
  intros Hcx. unfold attempt_timestamps. rewrite of_input_input by done. apply guarded_try.
  - calm_skip; [apply now_calm|]. intros at_ h1 _ _. by calm_step.
  - intros h' _. apply candidate_fault_quiet.
Qed.

Lemma persist_candidate_intent_guarded Ps cx candidate order event bindingId createdAt l h :
  of_input cx -> sent h = false -> happened Ps h ->
  guarded l h (persist_candidate_intent sha256 deps cx candidate order event bindingId createdAt)
    (fun binding h' =>
       deriveCandidateExecutionBinding sha256 {|
         derive_authority := ctx_authority candidate;
         derive_order := order;
         derive_decision := ctx_decision candidate;
         derive_bindingId := bindingId;
         derive_createdAt := createdAt |} = Ret binding /\
       happened (intent_persisted
         {| it_order := order; it_event := event; it_binding := Some (candidate, binding) |} :: Ps) h').
Proof.
  intros Hcx Hs Hh. unfold persist_candidate_intent. rewrite of_input_input by done. cbv zeta.
  set (derived := deriveCandidateExecutionBinding sha256 _).
  eapply (guarded_bind _ _ _ _ _ (fun binding h' => derived = Ret binding /\ happened Ps h')).
  { apply guarded_try; [|intros h' _; apply candidate_fault_quiet]. by apply calm_lift. }
  intros binding h1 He [Hb H1].
  eapply (guarded_bind _ _ _ _ _ (fun _ => happened (intent_persisted
    {| it_order := order; it_event := event; it_binding := Some (candidate, binding) |} :: Ps))).
  - apply guarded_try; [|intros h' _; apply candidate_fault_quiet].
    apply calm_await_permitted; [|done| |done].
    + split; [by rewrite (extends_sent _ _ He)|]. by eexists {| derive_order := order |}.
    + intros v. by apply happened_answered.
  - intros ? h2 _ H2. apply calm_guarded. by apply calm_ret.
Qed.

Lemma persist_intent_guarded Ps cx l h :
  of_input cx -> sent h = false -> happened Ps h ->
  guarded l h (persist_intent sha256 deps cx (identifier_of sha256 input cx))
    (fun it h' => intent_of sha256 deps input cx it /\ happened (intent_persisted it :: Ps) h').
Proof.
  intros Hcx Hs Hh. unfold persist_intent.
  eapply guarded_bind; [apply calm_guarded, create_id_calm|]. intros orderId h1 He1 _.
  eapply guarded_bind; [apply calm_guarded, create_id_calm|]. intros eventId h2 He2 _.
  destruct (cx_candidate cx) as [candidate|] eqn:Hc.
  - eapply guarded_bind; [apply calm_guarded, create_id_calm|]. intros bindingId h3 He3 _.
    eapply guarded_bind; [by apply attempt_timestamps_guarded|]. intros times h4 He4 _.
    assert (He : extends h h4) by (by do 3 (etrans; [eassumption|])). cbv zeta.
    eapply guarded_bind; [apply (persist_candidate_intent_guarded Ps); [done| |]|].
    + by rewrite (extends_sent _ _ He).
    + by eapply extends_happened.
    + intros binding h5 He5 [Hb H5]. apply calm_guarded, calm_ret. split; [|done].
      eexists orderId, eventId, (at_orderRequestedAt times). split_and!; [done..|].
      split; [done|]. by exists bindingId, (at_bindingCreatedAt times).
  - assert (He : extends h h2) by (by etrans). cbv zeta.
    set (it := {| it_order := new_order deps cx orderId (identifier_of sha256 input cx)
                    (cx_attemptStartedAt cx);
                  it_event := persisted_event cx eventId (new_order deps cx orderId
                    (identifier_of sha256 input cx) (cx_attemptStartedAt cx));
                  it_binding := None |}).
    eapply (guarded_bind _ _ _ _ _ (fun _ => happened (intent_persisted it :: Ps))).
    + apply calm_guarded, calm_await_permitted; [|done| |intros; by apply foreign_justified].
      * split; [by rewrite (extends_sent _ _ He)|apply new_order_intent_valid].
      * intros v. apply happened_answered; [done|]. by eapply extends_happened.
    + intros ? h3 _ H3. apply calm_guarded, calm_ret. split; [|done].
      by exists orderId, eventId, (cx_attemptStartedAt cx).
Qed.

Lemma renew_lease_guarded Ps cx token acquisition order l h :
  of_input cx -> happened Ps h ->
  guarded l h (renew_lease deps cx token acquisition order)
    (fun _ => happened (renewed input token :: Ps)).
Proof.
  intros Hcx Hh. unfold renew_lease.
  eapply guarded_bind; [apply calm_guarded, now_calm|]. intros at_ h1 He1 _.
  apply guarded_try.
  - calm_skip; [by calm_step|]. intros window h2 He2 _. cbv zeta.
    calm_skip; [by calm_step|]. intros _ h3 He3 _. rewrite of_input_account by done.
    assert (H3 : happened Ps h3) by (do 3 (eapply extends_happened; [eassumption|]); done).
    eapply calm_bind with (Q := fun lease h' => happened Ps h' /\
      (isOwnedLease lease account token (win_atEpochMs window) = true ->
       happened (renewed input token :: Ps) h')).
    + apply calm_await; [apply plain_permitted|done| |done]. intros v.
      split; [by apply happened_before|]. intros Hv. apply happened_now; [|done].
      eexists (win_atEpochMs window), _, v. by split.
    + intros lease h4 _ [_ H4]. apply calm_throw_when; [|done].
      intros Ho%negb_false_iff. by apply H4.
  - intros h' _. eapply calm_mono; [| |apply block_and_throw_calm]; done.
Qed.

(** ** The send *)

Lemma final_candidate_calm it h :
  calm h (assertFinalCandidatePreSendAuthority sha256 deps it) (fun _ _ => True)
    (fun x _ => justified_error x []).
Proof.
  unfold assertFinalCandidatePreSendAuthority.
  destruct (it_binding it) as [[candidate b]|]; [|by calm_step]. cbv zeta.
  calm_skip; [by calm_step|]. intros _ h1 _ _.
  do 5 (calm_skip; [apply calm_await; [apply plain_permitted|done|done|];
                    intros; by apply foreign_justified|]; intros ? ? _ _).
  repeat (calm_step; try done).
  calm_skip; [by calm_step|]. intros [[[order' event'] decision'] binding'] ? _ _.
  calm_skip; [by calm_step|]. intros _ ? _ _. by calm_step.
Qed.

(** The order is stored, and nothing is released. *)
Definition kept (order : OrderRecord) (h : history) : Prop :=
  happened [stored order] h /\ released h = false.

Lemma kept_extends order h h' : extends h h' -> kept order h -> kept order h'.
Proof.
  intros He [Hh Hr]. split; [by eapply extends_happened|]. by rewrite (extends_released _ _ He).
Qed.

Definition sent_after (order : OrderRecord) (h : history) : Prop := sent h = true /\ kept order h.

Lemma sent_after_extends order h h' : extends h h' -> sent_after order h -> sent_after order h'.
Proof.
  intros He [Hs Hk]. split; [by rewrite (extends_sent _ _ He)|by eapply kept_extends].
Qed.

Lemma sent_created (h : history) : sent h = true <-> happened [created] h.
Proof.
  split.
  - intros (ev & Hin & Hev)%existsb_exists. eapply happened_intro; [by apply list_elem_of_In|done].
  - intros (ev & Hin & Hev)%happened_in. apply existsb_exists. exists ev.
    by split; [apply list_elem_of_In|].
Qed.

Definition promised (l : locals) : Prop :=
  exchangeOrderPromise l = true /\ postAdapterOwnershipAssertionFailed l = false.

(** How the last checks and the send can end, from the initial variables. *)
Definition send_post (order : OrderRecord) (h : history) (l' : locals) (r : result js_error unit)
    (h' : history) : Prop :=
  postAdapterOwnershipAssertionFailed l' = false /\
  if createOrderInvoked l' then
    sent_after order h' /\
    match r with Ok _ => exchangeOrderPromise l' = true | Err x => foreign x = true end
  else
    extends h h' /\ exchangeOrderPromise l' = false /\
    match r with
    | Ok _ => True
    | Err x => finalRuntimeExecutionAuthorityCheckStarted l' = true -> justified_error x h'
    end.

Lemma sent_after_create order request r (h : history) :
  happened [stored order] h -> released h = false ->
  sent_after order (Asked (CreateOrder request) r :: h).
Proof. intros Hh Hr. split; [done|]. split; [by apply happened_before|done]. Qed.

Lemma send_order_wp cx token window state it h0 h :
  let order := submitting it in
  of_input cx -> intent_of sha256 deps input cx it ->
  executionAdapterAcceptsAuthority (dep_sendPath deps) (selectExecutionAuthority state) = true ->
  happened (last_read sha256 deps input cx token window state it) h ->
  extends h0 h -> sent h = false -> released h = false ->
  wp (send_order deps cx (selectExecutionAuthority state) order) (send_post order h0) initial_locals h.
Proof.
  cbv zeta. intros Hcx Hit Hauth Hh He Hs Hr. unfold send_order.
  assert (Hstored : happened [stored (submitting it)] h).
  { eapply happened_member; [exact Hh|]. do 4 right. left. }
  apply wp_bind, wp_assign, wp_bind. destruct (dep_hasFence deps); [apply wp_ret|by apply wp_throw].
  apply wp_bind, wp_await; [done|]. intros [at_|x] Hx; [|by destruct Hx].
  apply wp_bind, wp_await; [done|]. rewrite of_input_account by done.
  intros [[]|x] Hf; cycle 1.
  { apply wp_ret. split; [done|]. cbn. split_and!; [|done|done]. by do 2 (etrans; [|by apply extends_cons]). }
  { split; [done|]. cbn. split_and!; [|done|]. { by do 2 (etrans; [|by apply extends_cons]). }
    intros _. apply foreign_justified, Hf. }
  apply wp_bind, wp_assign, wp_bind, wp_await.
  { split; [done|]. destruct Hcx as (startedAt & candidate & ->).
    eexists startedAt, candidate, token, window, state, it, at_, _. cbv zeta.
    split_and!; [done| |done|done|done]. by apply happened_before. }
  intros [[]|x] Hx'.
  - apply wp_bind, wp_assign, wp_await; [done|]. intros r Hl. split; [done|]. cbn. split.
    + eapply sent_after_extends; [by apply extends_cons|]. apply sent_after_create; [|done].
      by do 2 apply happened_before.
    + destruct r as [[]|y]; [done|by destruct Hl].
  - split; [done|]. cbn. split; [|by destruct Hx'].
    apply sent_after_create; [|done]. by do 2 apply happened_before.
Qed.

Lemma final_checks_wp cx token window state it h :
  of_input cx -> intent_of sha256 deps input cx it ->
  executionAdapterAcceptsAuthority (dep_sendPath deps) (selectExecutionAuthority state) = true ->
  happened (prepared sha256 deps input cx token window state it) h ->
  sent h = false -> released h = false ->
  wp (final_checks_and_send sha256 deps cx (selectExecutionAuthority state) it)
    (send_post (submitting it) h) initial_locals h.
Proof.
  intros Hcx Hit Hauth Hh Hs Hr. unfold final_checks_and_send. cbv zeta.
  (* an error before the send *)
  assert (Hearly : forall x h', extends h h' -> send_post (submitting it) h initial_locals (Err x) h')
    by (intros x h' He; by split).
  eapply wp_calm_bind; [apply final_candidate_calm| |by intros x h' He _; apply Hearly].
  intros _ h1 He1 _.
  eapply (wp_calm_bind _ _ _ _ _ (fun s => happened (answered GetState (fun s' => s' = s)
    :: prepared sha256 deps input cx token window state it)) (fun _ _ => True)).
  { apply calm_await; [apply plain_permitted|done| |done]. intros s. apply happened_answered; [done|].
    by eapply extends_happened. }
  2: { intros x h' He _. apply Hearly. by etrans. }
  intros finalState h2 He2 H2. assert (Hh2 : extends h h2) by by etrans.
  apply wp_bind. destruct (final_state_allows deps _ finalState) eqn:Hfinal;
    [apply wp_ret|apply wp_throw, Hearly, Hh2].
  eapply (wp_calm_bind _ _ _ _ _ (fun orders => happened
    (answered (ListSubmissionBlockingOrders account (CANDIDATE_FINAL_ORDER_SCAN_LIMIT + 1))
       (fun l => l = orders) :: answered GetState (fun s' => s' = finalState)
     :: prepared sha256 deps input cx token window state it)) (fun _ _ => True)).
  { rewrite of_input_account by done. apply calm_await; [apply plain_permitted|done| |done].
    intros orders. by apply happened_answered. }
  2: { intros x h' He _. apply Hearly. by etrans. }
  intros orders h3 He3 H3. assert (Hh3 : extends h h3) by by etrans.
  eapply (wp_calm_bind _ _ _ _ _ (fun order => happened
    (answered (FindOrderById account (ord_id (submitting it))) (fun o => o = order)
     :: answered (ListSubmissionBlockingOrders account (CANDIDATE_FINAL_ORDER_SCAN_LIMIT + 1))
       (fun l => l = orders) :: answered GetState (fun s' => s' = finalState)
     :: prepared sha256 deps input cx token window state it)) (fun _ _ => True)).
  { rewrite of_input_account by done. apply calm_await; [apply plain_permitted|done| |done].
    intros order. by apply happened_answered. }
  2: { intros x h' He _. apply Hearly. by etrans. }
  intros order h4 He4 H4. assert (Hh4 : extends h h4) by by etrans.
  apply wp_bind, wp_lift; [|intros m _; by apply Hearly].
  intros v Hv. apply final_authority_exact in Hv as [-> ->]; [|done].
  eapply send_order_wp; [done|done|done| |done| |].
  - eapply happened_mono; [|exact H4].
    do 2 (constructor; [done|]). constructor; [by intros ev (s & -> & ->); exists finalState|].
    apply same_kinds.
  - by rewrite (extends_sent _ _ Hh4).
  - by rewrite (extends_released _ _ Hh4).
Qed.

(** How [send_or_block] can end: blocked, sent, or not let through the fence. *)
Definition handed_over (order : OrderRecord) (h : history) (l' : locals)
    (r : result js_error (option js_error)) (h' : history) : Prop :=
  match r with
  | Err x => extends h h' /\ justified_error x h'
  | Ok sync =>
      postAdapterOwnershipAssertionFailed l' = false /\
      ((sent_after order h' /\
        match sync with Some x => foreign x = true | None => exchangeOrderPromise l' = true end) \/
       (extends h h' /\ sync = None /\ exchangeOrderPromise l' = false))
  end.

Lemma send_or_block_wp cx token window state it h :
  of_input cx -> intent_of sha256 deps input cx it ->
  executionAdapterAcceptsAuthority (dep_sendPath deps) (selectExecutionAuthority state) = true ->
  happened (prepared sha256 deps input cx token window state it) h ->
  sent h = false -> released h = false ->
  wp (send_or_block sha256 deps cx (selectExecutionAuthority state) it)
    (handed_over (submitting it) h) initial_locals h.
Proof.
  intros Hcx Hit Hauth Hh Hs Hr. unfold send_or_block.
  apply wp_try_catch, wp_bind. eapply wp_mono; [|by eapply final_checks_wp].
  intros l' [[]|x] h' [Hp Hi].
  - apply wp_ret. split; [done|]. destruct (createOrderInvoked l'); [by left|].
    right. destruct Hi as (? & ? & _). done.
  - apply wp_bind, wp_get_local. destruct (createOrderInvoked l').
    { apply wp_ret. split; [done|]. by left. }
    destruct Hi as (He & _ & Hx). apply wp_bind, wp_assign.
    destruct (finalRuntimeExecutionAuthorityCheckStarted l').
    { apply wp_throw. split; [done|]. by apply Hx. }
    destruct (it_binding it) as [[candidate b]|].
    + eapply wp_calm_bind; [apply pauseCandidateIntentFault_calm, plain_permitted| |].
      * intros _ h2 He2 _. apply wp_throw. split; [by etrans|done].
      * intros y h2 He2 Hy. split; [by etrans|done].
    + eapply (wp_calm_bind _ _ _ _ _ (fun _ _ => True) (fun _ _ => False)); [apply now_calm| |done].
      intros at_ h2 He2 _. eapply wp_mono; [|apply block_and_throw_calm].
      intros l'' [v|y] h3 (_ & He3 & Hy); [done|]. split; [by do 2 (etrans; [eassumption|])|done].
Qed.

(** ** After the send *)

(** The order of the call, with the adapter's mode, stored as SUBMITTING. *)
Definition submitted_order (order : OrderRecord) : Prop :=
  of_adapter order /\ ord_status order = OrderStatus.SUBMITTING /\
  ord_exchangeAccountId order = account /\
  ord_strategyDecisionId order = in_strategyDecisionId input.

Lemma submitting_submitted cx it : of_input cx -> intent_of sha256 deps input cx it ->
  submitted_order (submitting it).
Proof.
  intros Hcx (orderId & eventId & at_ & Ho & _). unfold submitted_order, of_adapter, submitting, with_state.
  rewrite Ho. cbn. by rewrite of_input_input.
Qed.

Lemma kept_continues order status uuid response code text at_ h :
  submitted_order order -> kept order h ->
  continues h (with_submission order status uuid response code text at_).
Proof.
  intros (_ & Hs & _) [Hh _]. exists order. split_and!; [done|done|apply with_submission_identity].
Qed.

(** The call throws after a pause, or because it could not pause. *)
Lemma post_send_failure_calm {A} Ps order at_ text h :
  happened Ps h ->
  calm h (throwPostSendPersistenceFailure (A := A) order account at_ text) (fun _ _ => False)
    (fun x h' => justified_error x h' /\
       if is_post_send_error x then happened (paused :: Ps) h' else happened (pause_failed :: Ps) h').
Proof.
  intros Hh. unfold throwPostSendPersistenceFailure.
  eapply calm_bind.
  - eapply calm_mono; [| |apply (pauseForFault_calm _ (plain_permitted _ _ _) Ps); done].
    + intros ? h' _ H. exact H.
    + intros x h' _ [[m ->] H]. split; [|done]. cbn. by eapply (happened_member _ _ _ H), list_elem_of_here.
  - intros ? h' _ H. apply calm_throw. split; [|done]. cbn.
    by eapply (happened_member _ _ _ H), list_elem_of_here.
Qed.

(** A store after the send, or the failure of it. *)
Lemma store_or_fail_wp Ps order (m : service unit) text l h (Q : history -> Prop) :
  calm h m (fun _ => Q) (fun _ h' => happened Ps h') ->
  wp (try_catch m (fun _ => at_ ← await Now;
        throwPostSendPersistenceFailure order account at_ text))
    (fun l' r h' => l' = l /\ extends h h' /\
       match r with
       | Ok _ => Q h'
       | Err x => justified_error x h' /\
           if is_post_send_error x then happened (paused :: Ps) h'
           else happened (pause_failed :: Ps) h'
       end) l h.
Proof.
  intros Hm. enough (Hc : calm h (try_catch m (fun _ => at_ ← await Now;
        throwPostSendPersistenceFailure order account at_ text)) (fun _ => Q)
      (fun x h' => justified_error x h' /\
        if is_post_send_error x then happened (paused :: Ps) h'
        else happened (pause_failed :: Ps) h')) by exact (Hc l).
  apply calm_try_catch. eapply calm_mono; [| |exact Hm]; [done|].
  intros x h1 _ H1. calm_skip; [apply now_calm|]. intros at_ h2 He2 _.
  eapply calm_mono; [| |apply (post_send_failure_calm Ps)]; [done|done|]. by eapply extends_happened.
Qed.

Lemma record_uncertain_wp Ps cx order error l h :
  of_input cx -> submitted_order order -> kept order h -> happened Ps h ->
  wp (record_uncertain deps cx order error)
    (fun l' r h' => extends h h' /\ releaseLease l' = false /\
       match r with
       | Ok res => res_outcome res = Submission.RECONCILIATION_REQUIRED /\
           res_accepted res = false /\
           exists i, res_order res = Some (unc_order i) /\
             happened (paused :: uncertain_stored i :: Ps) h'
       | Err x => justified_error x h' /\
           (happened (paused :: Ps) h' \/ happened (pause_failed :: Ps) h')
       end) l h.
Proof.
  intros Hcx Ho Hk Hh. unfold record_uncertain. destruct (describeSubmissionError error) as [text metadata].
  cbv zeta. rewrite of_input_input, of_input_account by done.
  eapply (wp_calm_bind _ _ _ _ _ (fun _ _ => True) (fun _ _ => False)); [apply now_calm| |done].
  intros at_ h1 He1 _. apply wp_bind, wp_assign.
  set (uncertain := with_submission order _ _ _ _ _ _).
  apply wp_bind. eapply wp_mono; [|apply (store_or_fail_wp Ps _ _ _ _ _ (fun h' =>
    exists i, unc_order i = uncertain /\ happened (uncertain_stored i :: Ps) h'))].
  - intros l2 [[]|x] h2 (-> & He2 & H2).
    + destruct H2 as (i & Hi & H2).
      eapply wp_calm_bind; [by apply (pauseForFault_calm _ (plain_permitted _ _ _) (uncertain_stored i :: Ps))| |].
      * intros ? h3 He3 H3. apply wp_ret. split; [by do 2 (etrans; [eassumption|])|].
        split_and!; [done..|]. exists i. by rewrite Hi.
      * intros x h3 He3 [[m ->] H3]. split; [by do 2 (etrans; [eassumption|])|]. split; [done|].
        split; [by eapply (happened_member _ _ _ H3), list_elem_of_here|]. right.
        eapply happened_mono; [|eapply happened_drop_second, H3]. apply same_kinds.
    + split; [by etrans|]. split; [done|]. destruct H2 as [Hj H2]. split; [done|].
      destruct (is_post_send_error x); auto.
  - calm_skip; [apply create_id_calm|]. intros eventId h2 He2 _.
    eapply calm_bind; [eapply calm_mono; [| |apply createRiskEvent_calm, plain_permitted]; [|done]|].
    { intros v h' _ Hv. exact Hv. }
    intros riskEvent h3 He3 (Ha & Hd & Hi & Hc & Hl).
    assert (H3 : happened Ps h3 /\ kept order h3).
    { assert (He : extends h h3) by (do 2 (etrans; [eassumption|]); done).
      split; [by eapply extends_happened|by eapply kept_extends]. }
    destruct H3 as [H3 Hk3]. destruct Ho as (Hm & Hst & Hacc & Hdec).
    apply calm_await_permitted; [|done| |].
    + split; [by apply kept_continues|].
      apply uncertain_valid; [done|by rewrite Ha|by rewrite Hd|done..].
    + intros v. eexists. split; [|by apply happened_answered]. done.
    + intros x _ _. by apply happened_before.
Qed.

(** A result whose order was stored after the send. *)
Definition stored_result (res : SubmitOrderFromDecisionResult) (order : OrderRecord) (h : history)
    : Prop :=
  res_order res = Some order /\
  exists i, sub_order i = order /\ happened [submission_stored i; created] h.

Definition post_send_failed (x : js_error) (h : history) : Prop :=
  justified_error x h /\
  if is_post_send_error x then happened [paused; created] h else happened [pause_failed; created] h.

(** A submission is permitted when it continues the order and, if it is a
    rejection, is valid. *)
Lemma persist_submission_calm i h :
  continues h (sub_order i) -> happened [created] h ->
  (ord_status (sub_order i) = OrderStatus.REJECTED -> validateExchangeSubmissionInput i = Ret tt) ->
  calm h (await (PersistExchangeSubmission i))
    (fun _ => happened [submission_stored i; created]) (fun _ h' => happened [created] h').
Proof.
  intros Hc Hh Hv. apply calm_await_permitted; [done|done| |].
  - intros v. by apply happened_answered.
  - intros x _ _. by apply happened_before.
Qed.

Lemma record_rejection_wp cx order error l h :
  of_input cx -> submitted_order order -> sent_after order h ->
  wp (record_rejection deps cx order error)
    (fun l' r h' => extends h h' /\
       match r with
       | Ok res => res_outcome res = Submission.REJECTED /\ res_accepted res = false /\
           exists rejected, ord_status rejected = OrderStatus.REJECTED /\
             stored_result res rejected h'
       | Err x => releaseLease l' = false /\ post_send_failed x h'
       end) l h.
Proof.
  intros Hcx Ho [Hs Hk]. apply sent_created in Hs. unfold record_rejection.
  destruct (describeSubmissionError error) as [text metadata].
  cbv zeta. rewrite of_input_account by done.
  eapply (wp_calm_bind _ _ _ _ _ (fun _ _ => True) (fun _ _ => False)); [apply now_calm| |done].
  intros at_ h1 He1 _. apply wp_bind, wp_assign.
  set (rejected := with_submission order _ _ _ _ _ _).
  apply wp_bind. eapply wp_mono; [|apply (store_or_fail_wp [created] _ _ _ _ _ (fun h' =>
    exists i, sub_order i = rejected /\ happened [submission_stored i; created] h'))].
  - intros l2 [[]|x] h2 (-> & He2 & H2).
    + destruct H2 as (i & Hi & H2). apply wp_bind, wp_assign.
      eapply wp_calm_bind; [apply report_rejection_calm, plain_permitted| |done].
      intros _ h3 He3 _. apply wp_ret. split; [by do 2 (etrans; [eassumption|])|].
        split_and!; [done..|]. exists rejected. split; [done|]. split; [done|]. exists i. split; [done|].
        by eapply extends_happened.
    + split; [by etrans|]. by split.
  - calm_skip; [apply create_id_calm|]. intros eventId h2 He2 _.
    assert (He : extends h h2) by by etrans.
    eapply calm_mono; [| |apply persist_submission_calm].
    + intros v h' _ H. eexists. split; [|exact H]. done.
    + done.
    + apply kept_continues; [done|]. by eapply kept_extends.
    + by eapply extends_happened.
    + intros _. by apply rejection_valid, Ho.
Qed.

(** The state of an order moved on by the submission. *)
Definition moved_on (order order' : OrderRecord) : Prop :=
  exists status uuid response code text at_,
    order' = with_submission order status uuid response code text at_.

(** How a part after the send can throw. *)
Definition failed_after (l' : locals) (x : js_error) (h : history) : Prop :=
  postAdapterOwnershipAssertionFailed l' = false /\
  (is_post_send_error x = true -> releaseLease l' = false /\ post_send_failed x h).

Lemma settle_dry_run_wp cx order updated fills raw l h :
  of_input cx -> moved_on order updated -> happened [created] h ->
  postAdapterOwnershipAssertionFailed l = false ->
  wp (settle_dry_run cx order updated fills raw)
    (fun l' r h' => extends h h' /\
       match r with
       | Ok (updated', fills') => l' = l /\ moved_on order updated' /\
           ord_status updated' = OrderStatus.FILLED
       | Err x => failed_after l' x h'
       end) l h.
Proof.
  intros Hcx Hup Hc Hl. unfold settle_dry_run. rewrite of_input_input, of_input_account by done.
  eapply (wp_calm_bind _ _ _ _ _ (fun _ _ => True) (fun _ _ => False)); [apply now_calm| |done].
  intros at_ h1 He1 _. eapply wp_calm_bind; [apply createDryRunSyntheticFill_calm, plain_permitted| |].
  2: { intros x h2 He2 [m ->]. split; [by etrans|]. by split. }
  intros fill h2 He2 _. cbv zeta. assert (He : extends h h2) by by etrans.
  assert (Hup' : moved_on order (with_state updated OrderStatus.FILLED at_)).
  { destruct Hup as (status & uuid & response & code & text & at' & ->). by repeat eexists. }
  destruct (match fills, fill with [], Some fill => [fill] | _, _ => fills end) as [|f fs].
  - apply wp_bind, wp_assign. eapply wp_mono; [|apply (post_send_failure_calm [created])].
    + intros l' [v|x] h3 (-> & He3 & H3); [done|]. split; [by etrans|]. by split.
    + by eapply extends_happened.
  - apply wp_ret. split; [done|]. by split_and!.
Qed.

Lemma record_submission_wp cx order exchangeOrder l h :
  of_input cx -> submitted_order order -> sent_after order h ->
  postAdapterOwnershipAssertionFailed l = false ->
  wp (record_submission deps cx order exchangeOrder)
    (fun l' r h' => extends h h' /\
       match r with
       | Ok res =>
           (res_outcome res = Submission.SIMULATED_FILLED \/ res_outcome res = Submission.SUBMITTED) /\
           res_accepted res = true /\
           exists updated, stored_result res updated h' /\
             releaseLease l' = isTerminalOrderStatus (ord_status updated)
       | Err x => failed_after l' x h'
       end) l h.
Proof.
  intros Hcx Ho [Hs Hk] Hl. apply sent_created in Hs. unfold record_submission.
  cbv zeta. rewrite of_input_account by done.
  eapply (wp_calm_bind _ _ _ _ _ (fun _ _ => True) (fun _ _ => False)); [apply now_calm| |done].
  intros at_ h1 He1 _.
  eapply (wp_calm_bind _ _ _ _ _ (fun _ _ => True) (fun _ _ => False)); [| |done].
  { eapply calm_mono; [| |apply (calm_mapM_values _ _ (fun _ => True) (fun _ => True) (fun _ _ => False))]; [done|done| |by apply Forall_true].
    intros f h' _. eapply calm_mono; [| |apply exchange_fill_calm, plain_permitted]; done. }
  intros fills h2 He2 _. set (updated := with_submission order _ _ _ _ _ _).
  assert (Hh2 : extends h h2) by by etrans.
  apply wp_bind. eapply (wp_mono _ _ _ (fun l' r h' => extends h2 h' /\
    match r with
    | Ok (updated', fills') => l' = l /\ moved_on order updated' /\
        (ord_status updated' = OrderStatus.REJECTED -> False)
    | Err x => failed_after l' x h' end)).
  2: { case_if.
       - eapply wp_mono; [|apply settle_dry_run_wp; [done| |by eapply extends_happened|done]].
         + intros l' [[updated' fills']|x] h' [He H]; [|done]. destruct H as (-> & Hm & Hf).
           split_and!; [done..|]. by rewrite Hf.
         + by repeat eexists.
       - apply wp_ret. split; [done|]. split_and!; [done|by repeat eexists|].
         cbn. unfold mapExchangeOrderStatus. repeat case_match; done. }
  intros l3 [[updated' fills']|x] h3 [He3 H3]; [|by split; [etrans|]].
  destruct H3 as (-> & Hm & Hnr). clear updated. assert (Hh3 : extends h h3) by by etrans.
  apply wp_bind, wp_assign, wp_bind.
  eapply wp_mono; [|apply (store_or_fail_wp [created] _ _ _ _ _ (fun h' =>
    exists i, sub_order i = updated' /\ happened [submission_stored i; created] h'))].
  - intros l4 [[]|x] h4 (-> & He4 & H4).
    + apply wp_bind, wp_assign, wp_ret. split; [by etrans|]. cbn. split_and!; [case_if; auto|done|].
      exists updated'. by split.
    + split; [by etrans|]. by split.
  - calm_skip; [apply create_id_calm|]. intros eventId h4 He4 _.
    calm_skip.
    { case_if; [|by apply calm_ret]. calm_skip; [apply create_id_calm|]. intros; by apply calm_ret. }
    intros terminal h5 He5 _. assert (He : extends h h5) by (do 2 (etrans; [|eassumption]); done).
    destruct Hm as (status & uuid & response & code & text & at' & ->).
    eapply calm_mono; [| |apply persist_submission_calm].
    + intros v h' _ H. eexists. split; [|exact H]. done.
    + done.
    + apply kept_continues; [done|]. by eapply kept_extends.
    + by eapply extends_happened.
    + by intros ?%Hnr.
Qed.

(** ** The body of the [try ... finally] *)

(** What holds when the lease comes to be released. *)
Record body_post (l' : locals) (r : result js_error SubmitOrderFromDecisionResult) (h' : history)
    : Prop := {
  body_unreleased : released h' = false;
  body_justified : justified sha256 input r h';
  body_releasable : releaseLease l' = true -> releasable h';
  body_accounted : sent h' = true ->
    recorded h' \/ exists x, r = Err x /\ releaseLease l' = false /\ halted_with x h';
}.

Lemma body_unsent l' r h' :
  sent h' = false -> released h' = false -> justified sha256 input r h' -> body_post l' r h'.
Proof. intros Hs Hr Hj. split; [done|done|by intros _; unfold releasable; rewrite Hs|by rewrite Hs]. Qed.

(** The errors the last [catch] can see. *)
Record caught (l : locals) (x : js_error) (h : history) : Prop := {
  caught_ownership : postAdapterOwnershipAssertionFailed l = true ->
    foreign x = true /\ happened [ownership_gone; created] h;
  caught_post_send : is_post_send_error x = true -> releaseLease l = false /\ post_send_failed x h;
  caught_rejection : definitiveRejection x = true -> sent h = true;
}.

Lemma on_submission_error_wp cx order x l h :
  of_input cx -> submitted_order order -> kept order h -> caught l x h ->
  wp (on_submission_error deps cx order x) body_post l h.
Proof.
  intros Hcx Ho Hk [Hown Hpost Hrej]. unfold on_submission_error. apply wp_bind, wp_get_local.
  destruct (postAdapterOwnershipAssertionFailed l || is_ownership_error x) eqn:Howner.
  { apply wp_bind, wp_assign, wp_throw. split; [apply Hk| |done|].
    - cbn. apply orb_true_iff in Howner as [Hl|Hx]; [by apply foreign_justified, Hown|by destruct x].
    - intros _. right. exists x. split_and!; [done|done|].
      apply orb_true_iff in Howner as [Hl|Hx]; [|by do 3 right].
      right. right. left. by apply Hown. }
  destruct (is_post_send_error x) eqn:Hps.
  { destruct (Hpost eq_refl) as (Hrel & Hj & Hp). rewrite Hps in Hp. apply wp_throw.
    split; [apply Hk|done|by rewrite Hrel|]. intros _. right. exists x.
    split_and!; [done|done|by left]. }
  destruct (definitiveRejection x).
  - assert (Hs : sent_after order h) by (split; [by apply Hrej|done]).
    eapply wp_mono; [|by apply record_rejection_wp]. intros l' [res|y] h' [He H].
    + destruct H as (Hout & Hacc & rejected & Hst & Hro & i & Hi & Hh).
      split; [by eapply kept_extends| | |].
      * cbn. unfold justified_result. rewrite Hout, Hro. split_and!; [done|done|by exists i].
      * intros _ _. exists i. split; [done|]. by rewrite Hi, Hst.
      * intros _. left. left. by exists i.
    + destruct H as (Hrel & Hj & Hp). split; [by eapply kept_extends|done|by rewrite Hrel|].
      intros _. right. exists y. split_and!; [done|done|].
      destruct (is_post_send_error y); [by left|by right; left].
  - set (Ps := if sent h then [created] else []).
    assert (HPs : happened Ps h).
    { subst Ps. destruct (sent h) eqn:Hs; [by apply sent_created|constructor]. }
    eapply wp_mono; [|by apply (record_uncertain_wp Ps)]. intros l' [res|y] h' (He & Hrel & H).
    + destruct H as (Hout & Hacc & i & Hi & Hh). split; [by eapply kept_extends| |by rewrite Hrel|].
      * cbn. unfold justified_result. rewrite Hout. split; [done|]. exists i. split; [done|].
        by apply (happened_prefix [paused; uncertain_stored i] Ps).
      * rewrite (extends_sent _ _ He). intros Hs. left. right. exists i. subst Ps. by rewrite Hs in Hh.
    + destruct H as [Hj H]. split; [by eapply kept_extends|done|by rewrite Hrel|].
      rewrite (extends_sent _ _ He). intros Hs. right. exists y. split_and!; [done|done|].
      subst Ps. rewrite Hs in H. destruct H as [H|H]; [by left|by right; left].
Qed.

(** The answer of the exchange, or an error the last [catch] can see. *)
Lemma await_exchange_order_wp order sync l h :
  kept order h -> postAdapterOwnershipAssertionFailed l = false ->
  (sent h = true /\ match sync with Some x => foreign x = true | None => exchangeOrderPromise l = true end) \/
  (sent h = false /\ sync = None /\ exchangeOrderPromise l = false) ->
  wp (await_exchange_order sync)
    (fun l' r h' => extends h h' /\
       match r with Ok _ => l' = l /\ sent h' = true | Err x => caught l' x h' end) l h.
Proof.
  intros Hk Hl Hcase. unfold await_exchange_order.
  assert (Hcaught : forall x, foreign x = true -> (definitiveRejection x = true -> sent h = true) ->
                    caught l x h).
  { intros x Hx Hd. split; [by rewrite Hl| |done]. by destruct x. }
  destruct sync as [x|].
  { destruct Hcase as [[Hs Hx]|(_ & ? & _)]; [|done]. apply wp_bind, wp_throw. split; [done|]. by apply Hcaught. }
  apply wp_bind, wp_ret, wp_bind, wp_get_local, wp_bind.
  destruct Hcase as [[Hs Hp]|(Hs & _ & Hp)]; rewrite Hp; [apply wp_ret|apply wp_throw; split; [done|by apply Hcaught]].
  apply wp_bind, wp_attempt, wp_await; [done|]. intros answer Hans.
  set (h1 := Asked AwaitOrder answer :: h).
  assert (He1 : extends h h1) by by apply extends_cons.
  assert (Hs1 : happened [created] h1) by (by apply happened_before, sent_created).
  apply wp_bind. unfold assert_still_owned. apply wp_try_catch, wp_bind, wp_await; [done|].
  intros [at_|x] Hat; [|by destruct Hat].
  apply wp_await; [done|]. set (h2 := Asked DateNow (Ok at_) :: h1).
  assert (He2 : extends h h2) by (etrans; [exact He1|by apply extends_cons]).
  intros [[]|x] Hcur.
  - set (h3 := Asked (AssertCurrent at_) (Ok ()) :: h2).
    assert (He3 : extends h h3) by (etrans; [exact He2|by apply extends_cons]).
    destruct answer as [o|x].
    + apply wp_ret. split_and!; [done|done|]. by rewrite (extends_sent _ _ He3).
    + apply wp_throw. split; [done|]. destruct Hans as [_ Hx]. split; [by rewrite Hl|by destruct x|].
      intros _. by rewrite (extends_sent _ _ He3).
  - apply wp_bind, wp_assign, wp_throw.
    assert (He3 : extends h (Asked (AssertCurrent at_) (Err x) :: h2))
      by (etrans; [exact He2|by apply extends_cons]).
    split; [done|]. destruct Hcur as [_ Hx]. split; [|by destruct x|].
    + intros _. split; [done|]. apply happened_now; [by exists at_, x|]. by apply happened_before.
    + intros _. by rewrite (extends_sent _ _ He3).
Qed.

Lemma settle_wp cx order sync l h :
  of_input cx -> submitted_order order -> kept order h ->
  postAdapterOwnershipAssertionFailed l = false ->
  (sent h = true /\ match sync with Some x => foreign x = true | None => exchangeOrderPromise l = true end) \/
  (sent h = false /\ sync = None /\ exchangeOrderPromise l = false) ->
  wp (settle deps cx order sync) body_post l h.
Proof.
  intros Hcx Ho Hk Hl Hcase. unfold settle. apply wp_try_catch, wp_bind.
  eapply wp_mono; [|by eapply await_exchange_order_wp]. intros l1 [o|x] h1 [He1 H1].
  - destruct H1 as [-> Hs]. assert (Hk1 : kept order h1) by by eapply kept_extends.
    eapply wp_mono; [|by apply record_submission_wp]. intros l2 [res|x] h2 [He2 H2].
    + destruct H2 as (Hout & Hacc & updated & [Hro (i & Hi & Hh)] & Hrel).
      split; [by eapply kept_extends| | |].
      * cbn. unfold justified_result. destruct Hout as [-> | ->]; exists i; by rewrite Hi.
      * rewrite Hrel. intros Ht _. exists i. split; [done|]. by rewrite Hi.
      * intros _. left. left. by exists i.
    + apply on_submission_error_wp; [done|done|by eapply kept_extends|].
      destruct H2 as [Hown Hps]. split; [by rewrite Hown|done|].
      intros _. by rewrite (extends_sent _ _ He2).
  - apply on_submission_error_wp; [done|done|by eapply kept_extends|done].
Qed.

Lemma body_error l' x h h' :
  sent h = false -> released h = false -> extends h h' -> justified_error x h' ->
  body_post l' (Err x) h'.
Proof.
  intros Hs Hr He Hj. apply body_unsent; [|by rewrite (extends_released _ _ He)|done].
  by rewrite (extends_sent _ _ He).
Qed.

Lemma ends_body l h m :
  sent h = false -> released h = false -> ends l h m -> wp m body_post l h.
Proof.
  intros Hs Hr Hm. eapply wp_mono; [|exact Hm]. intros l' r h' [He Hj].
  apply body_unsent; [|by rewrite (extends_released _ _ He)|done]. by rewrite (extends_sent _ _ He).
Qed.

Lemma submit_accepted_wp cx token window state h :
  of_input cx ->
  executionAdapterAcceptsAuthority (dep_sendPath deps) (selectExecutionAuthority state) = true ->
  happened (accepted_by_all sha256 deps input cx token window state) h ->
  sent h = false -> released h = false ->
  wp (submit_accepted sha256 deps cx token (identifier_of sha256 input cx) window
        (selectExecutionAuthority state)) body_post initial_locals h.
Proof.
  intros Hcx Hauth Hh Hs Hr. unfold submit_accepted.
  eapply wp_guarded_bind; [by apply (persist_intent_guarded
    (accepted_by_all sha256 deps input cx token window state))| |].
  2: { intros l' x h' He Hj. by eapply body_error. }
  intros it h1 He1 [Hit H1]. cbv zeta.
  assert (Ho : submitted_order (submitting it)) by by eapply submitting_submitted.
  eapply (wp_calm_bind _ _ _ _ _ (fun _ => happened (stored (submitting it) :: intent_persisted it
    :: accepted_by_all sha256 deps input cx token window state)) justified_error).
  { apply calm_await_permitted; [|done| |intros; by apply foreign_justified].
    - split; [by rewrite (extends_sent _ _ He1)|apply Ho].
    - intros v. by apply happened_answered. }
  2: { intros x h' He Hj. eapply body_error; [exact Hs|done| |done]. by etrans. }
  intros ? h2 He2 H2.
  eapply wp_guarded_bind; [by apply (renew_lease_guarded (stored (submitting it)
    :: intent_persisted it :: accepted_by_all sha256 deps input cx token window state))| |].
  2: { intros l' x h' He Hj. eapply body_error; [exact Hs|done| |done]. by do 2 (etrans; [eassumption|]). }
  intros ? h3 He3 H3.
  assert (He : extends h h3) by (do 2 (etrans; [eassumption|]); done).
  assert (Hs3 : sent h3 = false) by by rewrite (extends_sent _ _ He).
  assert (Hr3 : released h3 = false) by by rewrite (extends_released _ _ He).
  apply wp_bind. eapply wp_mono; [|by eapply send_or_block_wp; [done| |done|exact H3| |]].
  intros l4 [sync|x] h4 H4; [|destruct H4 as [He4 Hj]; by eapply body_error; [exact Hs3| | |]].
  destruct H4 as [Hl Hcase]. apply settle_wp; [done|done| |done|].
  - destruct Hcase as [[[_ Hk] _]|(He4 & _)]; [done|]. split.
    + eapply extends_happened; [exact He4|].
      eapply happened_member; [exact H3|]. right. left.
    + by rewrite (extends_released _ _ He4).
  - destruct Hcase as [[[Hst _] Hx]|(He4 & Hy)]; [by left|right].
    split; [by rewrite (extends_sent _ _ He4)|done].
Qed.

Lemma submit_under_lease_wp cx token window h :
  of_input cx -> happened (acquired input token window :: opened input cx) h ->
  sent h = false -> released h = false ->
  wp (submit_under_lease sha256 deps cx token window) body_post initial_locals h.
Proof.
  intros Hcx Hh Hs Hr. unfold submit_under_lease.
  eapply wp_guarded_bind; [by apply (read_initial_authority_guarded
    (acquired input token window :: opened input cx))| |].
  2: { intros l' x h' He Hj. by eapply body_error. }
  intros [orders state] h1 He1 H1. cbv zeta.
  assert (Hs1 : sent h1 = false) by by rewrite (extends_sent _ _ He1).
  assert (Hr1 : released h1 = false) by by rewrite (extends_released _ _ He1).
  case_bool_decide as Horders; cbn [negb]; [subst orders|by apply ends_body, lease_blocked_ends].
  destruct (executionAdapterAcceptsAuthority _ _) eqn:Hauth; cbn [negb];
    [|by apply ends_body, lease_blocked_ends].
  rewrite of_input_account by done.
  eapply (wp_calm_bind _ _ _ _ _ (fun portfolio => happened
    (answered (GetPortfolioExposure account) (fun p => p = portfolio)
     :: authorised input cx token window state)) justified_error).
  { apply calm_await; [apply plain_permitted|done| |intros; by apply foreign_justified].
    intros portfolio. by apply happened_answered. }
  2: { intros x h' He Hj. eapply body_error; [exact Hs1|done|done|done]. }
  intros portfolio h2 He2 H2. rewrite of_input_input by done.
  assert (Hs2 : sent h2 = false) by by rewrite (extends_sent _ _ He2).
  assert (Hr2 : released h2 = false) by by rewrite (extends_released _ _ He2).
  destruct (accepted (evaluateRiskGuards _)) eqn:Hrisk; cbn [negb].
  2: { apply ends_body; [done..|]. apply refused_ends; [done|].
       apply reject_by_risk_calm, plain_permitted. }
  assert (Hall : happened (answered (GetPortfolioExposure account) (fun p =>
      accepted (evaluateRiskGuards (risk_context deps cx state [] p)) = true)
    :: authorised input cx token window state) h2).
  { eapply happened_head; [|exact H2]. intros ev (p & -> & ->). by exists portfolio. }
  eapply (wp_calm_bind _ _ _ _ _ (fun r h' => r = None ->
    happened (accepted_by_all sha256 deps input cx token window state) h') justified_error).
  { eapply calm_mono; [| |by apply runExchangePreTradeValidation_calm;
      [apply plain_permitted|exact Hall]]; [|done].
    intros r h' _ Hn Hr'. exact (Hn Hr'). }
  2: { intros x h' He Hj. eapply body_error; [exact Hs2|done|done|done]. }
  intros [r|] h3 He3 H3.
  - apply ends_body; [by rewrite (extends_sent _ _ He3)|by rewrite (extends_released _ _ He3)|].
    apply refused_ends; [by rewrite (extends_sent _ _ He3)|].
    apply reject_before_submission_calm, plain_permitted.
  - apply submit_accepted_wp; [done|done|by apply H3|by rewrite (extends_sent _ _ He3)|
      by rewrite (extends_released _ _ He3)].
Qed.

(** ** The end of the call *)

(** The history grew without a send. *)
Definition grew (h h' : history) : Prop := (exists t, h' = (t ++ h)%list) /\ sent h' = sent h.

Lemma extends_grew h h' : extends h h' -> grew h h'.
Proof. intros He. split; [|by apply extends_sent]. destruct He as (t & -> & _). by exists t. Qed.

Lemma grew_trans h1 h2 h3 : grew h1 h2 -> grew h2 h3 -> grew h1 h3.
Proof.
  intros [[t ->] Hs] [[u ->] Hs']. split; [|congruence]. exists (u ++ t)%list. by rewrite app_assoc.
Qed.

Lemma grew_happened Ps h h' : grew h h' -> happened Ps h -> happened Ps h'.
Proof. intros [[t ->] _]. apply happened_app. Qed.

Lemma justified_grew r h h' :
  grew h h' -> justified sha256 input r h -> justified sha256 input r h'.
Proof.
  intros Hg. pose proof (fun Ps => grew_happened Ps _ _ Hg) as Hh. destruct Hg as [_ Hs].
  destruct r as [res|x]; [|by destruct x; cbn; auto]. cbn. unfold justified_result. rewrite Hs.
  destruct (res_outcome res).
  - intros (i & Ho & Ha & H). exists i. auto.
  - intros (i & Ho & Ha & H). exists i. auto.
  - intros [Ha H]. split; [done|]. destruct (res_order res); [|done].
    destruct H as (Hst & i & Hi & H). split; [done|]. exists i. auto.
  - intros (Ha & Hn & order & Ho & H). split_and!; [done|done|]. exists order. auto.
  - intros (Ha & Hn & Ho & H). auto.
  - intros (Ha & i & Ho & H). split; [done|]. exists i. auto.
Qed.

Lemma recorded_grew h h' : grew h h' -> recorded h -> recorded h'.
Proof.
  intros Hg [[i H]|[i H]]; [left|right]; exists i; by eapply grew_happened.
Qed.

(** What the result of the call says. *)
Definition final (r : result js_error SubmitOrderFromDecisionResult) (h : history) : Prop :=
  justified sha256 input r h /\ accounted r h.

Lemma release_on_exit_wp cx token window r l h :
  of_input cx -> happened [acquired input token window] h -> body_post l r h ->
  wp (release_on_exit cx token)
    (fun _ r' h' => match r' with Ok _ => final r h' | Err x => final (Err x) h' end) l h.
Proof.
  intros Hcx Hacq [Hr Hj Hrel Hacc]. unfold release_on_exit. apply wp_bind, wp_get_local.
  destruct (releaseLease l) eqn:Hl.
  2: { apply wp_ret. split; [done|]. intros Hs. destruct (Hacc Hs) as [?|(x & -> & _ & Hx)]; [by left|].
       right. by exists x. }
  assert (Hrec : sent h = true -> recorded h).
  { intros Hs. by destruct (Hacc Hs) as [?|(x & _ & ? & _)]. }
  eapply (wp_calm_bind _ _ _ _ _ (fun _ _ => True) (fun _ _ => False)); [apply now_calm| |done].
  intros at_ h1 He1 _. unfold releaseLeaseOrFail. rewrite of_input_account by done.
  apply wp_bind, wp_attempt, wp_await.
  { split; [done|]. split; [|exists window; by eapply extends_happened].
    intros Hs. rewrite (extends_sent _ _ He1) in Hs. destruct (Hrel eq_refl Hs) as (i & Hi & Ht).
    exists i. split; [by eapply extends_happened|done]. }
  intros released Hans. set (h2 := Asked _ _ :: h1).
  assert (Hg : grew h h2).
  { apply (grew_trans _ h1); [by apply extends_grew|]. split; [by exists [Asked (ReleaseLease account token) released]|done]. }
  assert (Hfail : wp (_ ← recordLeaseBlockedAndPause cx at_
      "Account execution lease release is ambiguous; execution remains paused pending recovery." None;
      throw (A := unit) (AccountExecutionLeaseSafetyError "Account execution lease release is ambiguous."))
    (fun _ r' h' => match r' with Ok _ => final r h' | Err x => final (Err x) h' end) l h2).
  { eapply wp_mono; [|apply block_and_throw_calm].
    intros l' [v|x] h3 (_ & He3 & Hx); [done|]. split; [done|]. intros Hs. left.
    assert (Hg3 : grew h h3) by (eapply grew_trans; [exact Hg|by apply extends_grew]).
    eapply recorded_grew; [exact Hg3|]. apply Hrec. by rewrite <- (proj2 Hg3). }
  destruct released as [[]|x]; [|exact Hfail|exact Hfail].
  apply wp_ret. split; [by eapply justified_grew|]. intros Hs. left.
  eapply recorded_grew; [exact Hg|]. apply Hrec. by rewrite <- (proj2 Hg).
Qed.

Lemma submit_with_lease_wp cx l h :
  l = initial_locals -> of_input cx -> happened (opened input cx) h ->
  sent h = false -> released h = false ->
  wp (submit_with_lease sha256 deps cx) (fun _ => final) l h.
Proof.
  intros -> Hcx Hh Hs Hr. unfold submit_with_lease.
  eapply (wp_calm_bind _ _ _ _ _ (fun _ _ => True) (fun _ _ => False)); [apply create_id_calm| |done].
  intros token h1 He1 _.
  eapply wp_calm_bind; [apply require_lease_calm; [done|by eapply extends_happened]| |].
  2: { intros x h2 He2 Hx. split; [done|]. unfold accounted.
       by rewrite (extends_sent _ _ He2), (extends_sent _ _ He1), Hs. }
  intros [window|] h2 He2 H2.
  - assert (He : extends h h2) by by etrans. apply wp_try_finally.
    eapply wp_mono; [|by apply wp_grows, (submit_under_lease_wp _ token window); [done|done| |];
      [rewrite (extends_sent _ _ He)|rewrite (extends_released _ _ He)]].
    intros l' r h3 [[t ->] Hb]. eapply wp_mono; [|apply (release_on_exit_wp _ _ window r); [done| |done]].
    + by intros l'' [v|x] h4 Hf.
    + apply happened_app. by eapply happened_member; [exact H2|left].
  - assert (Hs2 : sent h2 = false) by by rewrite (extends_sent _ _ He2), (extends_sent _ _ He1).
    apply wp_ret. split; [by split_and!|]. unfold accounted. by rewrite Hs2.
Qed.

Lemma final_error x h h' :
  sent h = false -> extends h h' -> justified_error x h' -> final (Err x) h'.
Proof. intros Hs He Hx. split; [done|]. unfold accounted. by rewrite (extends_sent _ _ He), Hs. Qed.

(** From the answer to the lookup of the key. *)
Lemma looked_up_wp at_ found candidate h :
  happened
    [answered (FindOrderByIdempotencyKey account (idempotency_key_of sha256 input)) (fun d => d = found);
     answered Now (fun t => t = at_); answered AssertLocallyHeld (fun _ => True)] h ->
  sent h = false -> released h = false ->
  wp (let cx := call_of sha256 input at_ candidate in
      match found with
      | Some duplicate => duplicate_order sha256 deps cx duplicate
      | None => submit_with_lease sha256 deps cx
      end) (fun _ => final) initial_locals h.
Proof.
  intros Hh Hs Hr. cbv zeta. destruct found as [duplicate|].
  - eapply wp_mono; [|apply duplicate_order_calm, plain_permitted].
    intros l' [res|x] h' (_ & He & H); [|by eapply final_error].
    destruct H as (Ho & Ha & Hd). assert (Hs' : sent h' = false) by by rewrite (extends_sent _ _ He).
    split; [|unfold accounted; by rewrite Hs']. cbn. unfold justified_result. rewrite Ho.
    split_and!; [done|done|]. exists duplicate. split; [done|].
    eapply extends_happened; [exact He|]. eapply happened_member; [exact Hh|left].
  - by apply submit_with_lease_wp; [|by exists at_, candidate| | |].
Qed.

(** Every run of the method, whatever it is answered. *)
Lemma submitOrderFromDecision_wp :
  wp (submitOrderFromDecision sha256 deps input) (fun _ => final) initial_locals [].
Proof.
  unfold submitOrderFromDecision. pose proof (eq_refl : sent [] = false) as Hs.
  eapply (wp_calm_bind _ _ _ _ _ (fun _ => happened [answered AssertLocallyHeld (fun _ => True)])
    justified_error).
  { apply calm_await; [apply plain_permitted|done| |intros; by apply foreign_justified].
    intros v. apply happened_answered; [done|constructor]. }
  2: { intros x h' He Hx. by eapply final_error. }
  intros ? h1 He1 H1.
  eapply (wp_calm_bind _ _ _ _ _ (fun _ _ => True) justified_error); [by calm_step| |].
  2: { intros x h' He Hx. eapply final_error; [exact Hs| |done]. by etrans. }
  intros _ h2 He2 _. assert (He : extends [] h2) by by etrans.
  eapply (wp_calm_bind _ _ _ _ _ (fun at_ => happened
    [answered Now (fun t => t = at_); answered AssertLocallyHeld (fun _ => True)]) (fun _ _ => False)).
  { apply calm_await; [apply plain_permitted|done| |done]. intros at_. apply happened_answered; [done|].
    by apply (extends_happened _ _ _ He2). }
  2: done.
  intros at_ h3 He3 H3. cbv zeta.
  eapply (wp_calm_bind _ _ _ _ _ (fun found => happened
    [answered (FindOrderByIdempotencyKey account (idempotency_key_of sha256 input)) (fun d => d = found);
     answered Now (fun t => t = at_); answered AssertLocallyHeld (fun _ => True)]) justified_error).
  { apply calm_await; [apply plain_permitted|done| |intros; by apply foreign_justified].
    intros found. by apply happened_answered. }
  2: { intros x h' He' Hx. eapply final_error; [exact Hs| |done]. etrans; [exact He|by etrans]. }
  intros found h4 He4 H4. assert (Hall : extends [] h4) by (etrans; [exact He|by etrans]).
  eapply wp_calm_bind; [apply prepareCandidateContext_calm, plain_permitted| |].
  2: { intros x h' He' Hx. eapply final_error; [exact Hs| |done]. by etrans. }
  intros candidate h5 He5 _. assert (Hall5 : extends [] h5) by by etrans.
  apply looked_up_wp; [by apply (extends_happened _ _ _ He5)| |].
  - by rewrite (extends_sent _ _ Hall5).
  - by rewrite (extends_released _ _ Hall5).
Qed.

End Invariant.
