(* ===== verification/ExecutionGuarantees.v ===== *)
(** * ExecutionGuarantees: what every run of the execution service guarantees

    Theorems about every run of [submitOrderFromDecision]: whatever its
    dependencies answer or throw, and whatever else happens between its calls.
    The last section composes the service with the order repository. *)

From Stdlib Require Import ZArith Lia.
From stdpp Require Import base option list strings relations.
From S2P Require Import Prelude Num Types Text Timestamp NumText CandidateState ExactState.
From S2P Require Import SubmissionBlocking Lease OperatorState PilotRecords StrategyCore.
From S2P Require Import OrderRecords OrderRepository OrderTheory OrderGuarantees.
From S2P Require Import Risk Effects CandidateAuthority ExecutionRecords.
From S2P Require Import ExecutionHelpers ExecutionService ExecutionTheory ExecutionTimeline.
From S2P Require Import ExecutionInvariant.

Local Open Scope string_scope.
Local Open Scope js_scope.
Local Open Scope bool_scope.

Section Guarantees.
Context (sha256 : string -> string) (deps : ExecutionDependencies).
Context (input : SubmitOrderFromDecisionInput).

(** The calls a run made, newest first, and how it ended. *)
Definition submission_run (h : history) (r : result js_error SubmitOrderFromDecisionResult) : Prop :=
  exists l, service_runs (submitOrderFromDecision sha256 deps input initial_locals) [] h (l, r).

Lemma run_permitted h r newer older B (e : effect B) a :
  submission_run h r -> h = (newer ++ Asked e a :: older)%list ->
  permitted sha256 deps input older B e.
Proof.
  intros [l Hr] ->. pose proof (wp_sound _ _ _ _ _ _ _ _ _ (submitOrderFromDecision_wp sha256 deps input) Hr)
    as [_ Hall]. eapply Hall; [done|]. cbn. lia.
Qed.

Lemma run_final h r : submission_run h r -> final sha256 input r h.
Proof.
  intros [l Hr].
  exact (proj1 (wp_sound _ _ _ _ _ _ _ _ _ (submitOrderFromDecision_wp sha256 deps input) Hr)).
Qed.

(** An event of a kind in a history, and a send. *)
Lemma event_split (p : event -> bool) (h : history) : existsb p h = true ->
  exists newer ev older, h = (newer ++ ev :: older)%list /\ p ev = true.
Proof.
  intros (ev & Hin & Hev)%existsb_exists. apply list_elem_of_In, list_elem_of_split in Hin as (t & u & ->).
  by exists t, ev, u.
Qed.

Lemma sent_split (h : history) : sent h = true ->
  exists newer older request a, h = (newer ++ Asked (CreateOrder request) a :: older)%list.
Proof.
  intros (newer & [B e a] & older & -> & Hev)%event_split.
  destruct e; try discriminate Hev. by exists newer, older, request, a.
Qed.

Lemma sends_at_most_one (h : history) :
  (forall newer older request a, h = (newer ++ Asked (CreateOrder request) a :: older)%list ->
     sent older = false) ->
  length (List.filter is_send h) <= 1.
Proof.
  induction h as [|ev h IH]; intros Hall; cbn; [lia|].
  assert (Hh : length (List.filter is_send h) <= 1).
  { apply IH. intros newer older request a ->. by apply (Hall (ev :: newer) _ request a). }
  destruct (is_send ev) eqn:Hev; [|done]. cbn.
  destruct ev as [B e a]. destruct e; try discriminate Hev.
  pose proof (Hall [] h request a eq_refl) as Hs.
  assert (Hf : List.filter is_send h = []); [|rewrite Hf; cbn; lia].
  clear -Hs. induction h as [|ev h IH]; [done|]. cbn in *.
  apply orb_false_iff in Hs as [-> Hs]. by apply IH.
Qed.

(** C2: a call submits at most one order to the exchange. *)
Theorem one_order_per_call h r :
  submission_run h r -> length (List.filter is_send h) <= 1.
Proof.
  intros Hr. apply sends_at_most_one. intros newer older request a Heq.
  exact (proj1 (run_permitted _ _ _ _ _ _ _ Hr Heq)).
Qed.

(** C1: when an order is submitted, all of this has happened before, in this
    order and for this order: the runtime was owned; the idempotency key was
    free; a lease of the account was acquired; no order of the account was
    active, under an authority the adapter accepts; the risk guards accepted
    the order for that state and the portfolio; the exchange's test accepted
    the very request; the intent was persisted, the order stored as SUBMITTING,
    the lease renewed; the state still allowed the send under the same
    authority; the order was the only blocking order of the account, and both
    reads found it unchanged; and the call just before the submission entered
    the fence of the runtime ownership for that account and authority. *)
Theorem order_follows_protocol h r newer older request a :
  submission_run h r -> h = (newer ++ Asked (CreateOrder request) a :: older)%list ->
  ready sha256 deps input older request.
Proof. intros Hr Heq. exact (proj2 (run_permitted _ _ _ _ _ _ _ Hr Heq)). Qed.

(** An operator state that is not RUNNING, or whose kill switch is active,
    stops the order: when every state the call reads is such a state, nothing
    is submitted. *)
Theorem nothing_sent_unless_running h r :
  submission_run h r ->
  (forall s, Asked GetState (Ok s) ∈ h ->
     es_systemStatus s ≠ SysStatus.RUNNING \/ es_killSwitchActive s = true) ->
  sent h = false.
Proof.
  intros Hr Hstate. apply not_true_iff_false. intros Hs.
  destruct (sent_split _ Hs) as (newer & older & request & a & Heq).
  destruct (proj2 (run_permitted _ _ _ _ _ _ _ Hr Heq))
    as (at_ & candidate & token & window & state & it & ms & before & -> & Hb & _).
  eapply happened_skip, happened_skip, happened_in in Hb as (ev & Hin & s & -> & Hfinal).
  assert (Hsin : Asked GetState (Ok s) ∈ h).
  { rewrite Heq. apply elem_of_app. right. by do 2 right. }
  apply Hstate in Hsin. unfold final_state_allows in Hfinal. destruct_bools. by destruct Hsin; congruence.
Qed.

(** The lease is given up only by its owner, and, once an order was
    submitted, only after a terminal state of it was stored. *)
Theorem lease_released_only_when_settled h r newer older account token a :
  submission_run h r -> h = (newer ++ Asked (ReleaseLease account token) a :: older)%list ->
  account = in_exchangeAccountId input /\
  (exists window, happened [acquired input token window] older) /\
  (sent older = true -> exists i, happened [submission_stored i; created] older /\
     isTerminalOrderStatus (ord_status (sub_order i)) = true).
Proof.
  intros Hr Heq. destruct (run_permitted _ _ _ _ _ _ _ Hr Heq) as (Ha & Hrel & Hw). done.
Qed.


(** The result is true of the calls that were made: SUBMITTED and
    SIMULATED_FILLED carry the order that was stored after the submission;
    REJECTED is a refusal before any submission or a stored REJECTED order;
    DUPLICATE is the order found under the key, with nothing submitted;
    LEASE_BLOCKED comes with a pause and nothing submitted; and
    RECONCILIATION_REQUIRED with a stored uncertain order and then a pause. *)
Theorem result_is_justified h res :
  submission_run h (Ok res) -> justified_result sha256 input res h.
Proof. intros Hr. exact (proj1 (run_final _ _ Hr)). Qed.

(** C6: the service fails closed: an account lease error or a failure to store
    what followed a submission is thrown only after execution was paused, an
    automatic pause error only after a pause failed, and a lease block error
    only after a risk event could not be stored. *)
Theorem errors_fail_closed h x :
  submission_run h (Err x) ->
  match x with
  | AccountExecutionLeaseSafetyError _ | PostSendPersistenceSafetyError _ => happened [paused] h
  | AutomaticFaultPauseSafetyError _ => happened [pause_failed] h
  | LeaseBlockPersistenceSafetyError _ => happened [risk_unsaved] h
  | _ => True
  end.
Proof. intros Hr. exact (proj1 (run_final _ _ Hr)). Qed.

(** What the order repository requires of what it is asked to store. *)
Definition storable {B} (e : effect B) : Prop :=
  match e with
  | PersistOrderIntent i => validateOrderIntentInput i = Ret tt
  | PersistCandidateBoundOrderIntent r =>
      exists d, derive_order d = req_order r /\
        deriveCandidateExecutionBinding sha256 d = Ret (req_binding r)
  | UpdateOrder order => ord_status order = OrderStatus.SUBMITTING
  | PersistExchangeSubmission i =>
      ord_status (sub_order i) = OrderStatus.REJECTED -> validateExchangeSubmissionInput i = Ret tt
  | PersistUncertainSubmission i => validateUncertainSubmissionInput i = Ret tt
  | _ => True
  end.

(** What the service stores meets the repository's validators: intents,
    rejections and uncertain submissions are valid, a candidate's binding is the
    one derived for its order, and an order is updated only to SUBMITTING. *)
Theorem stores_are_valid h r B (e : effect B) a :
  submission_run h r -> Asked e a ∈ h -> storable e.
Proof.
  intros Hr (newer & older & Heq)%list_elem_of_split.
  pose proof (run_permitted _ _ _ _ _ _ _ Hr Heq) as Hp.
  destruct e; cbn in *; try done; by destruct Hp.
Qed.

End Guarantees.

(** ** With the order repository *)

Section Composition.
Context (sha256 : string -> string).
Context {E : Type} {HE : ExecutionEnvironment E} {HL : ExecutionEnvironmentLaws E}.

Abbreviation repository := (InMemoryExecutionRepository E).

(** A stored order is found by its key, whatever is called after. *)
Lemma key_found calls (r : repository) o :
  repository_ok r -> honoured sha256 calls r -> o ∈ orders r ->
  exists o', snd (findOrderByIdempotencyKey (ord_exchangeAccountId o) (ord_idempotencyKey o)
                    (run_orders sha256 calls r)) = Ret (Some o').
Proof.
  intros Hr Hc Ho.
  destruct (extends_steps _ _ Hr (proj1 (run_orders_steps sha256 calls r Hr Hc))) as [Hp _ _ _ _ _].
  assert (Hin : identity o ∈ identity <$> orders (run_orders sha256 calls r)).
  { destruct Hp as [k Hk]. rewrite Hk. apply elem_of_app. left. by apply list_elem_of_fmap_2. }
  apply list_elem_of_fmap in Hin as (o' & Hid & Hin). apply identity_fields in Hid as (_ & _ & Ha & Hk & _).
  unfold findOrderByIdempotencyKey, act_gets. cbn.
  destruct (List.find _ _) as [found|] eqn:Hf; [by exists found|].
  pose proof (proj1 (find_none_iff _ _) Hf _ Hin) as Hn. cbn in Hn.
  rewrite Ha, Hk in Hn. by rewrite !bool_decide_eq_true_2 in Hn.
Qed.

(** A decision is not submitted twice.  Once the repository holds an order
    with the account and the idempotency key of a call, then whatever calls the
    repository has served since (orders being updated by records of the same
    identity, and those saved being new), a call that looks its key up there
    submits nothing. *)
Theorem stored_key_is_never_sent_again deps input (r : repository) o calls h result :
  repository_ok r -> honoured sha256 calls r -> o ∈ orders r ->
  ord_exchangeAccountId o = in_exchangeAccountId input ->
  ord_idempotencyKey o = idempotency_key_of sha256 input ->
  submission_run sha256 deps input h result ->
  (forall account key found, Asked (FindOrderByIdempotencyKey account key) (Ok found) ∈ h ->
     snd (findOrderByIdempotencyKey account key (run_orders sha256 calls r)) = Ret found) ->
  sent h = false.
Proof.
  intros Hr Hcalls Ho Ha Hk Hrun Hfind. apply not_true_iff_false. intros Hs.
  destruct (sent_split _ Hs) as (newer & older & request & a & Heq).
  destruct (proj2 (run_permitted _ _ _ _ _ _ _ _ _ _ Hrun Heq))
    as (at_ & candidate & token & window & state & it & ms & before & -> & Hb & _).
  assert (Hopen : happened (opened input (call_of sha256 input at_ candidate)) before).
  { by apply (happened_suffix (take 11 (last_read sha256 deps input
      (call_of sha256 input at_ candidate) token window state it))). }
  apply happened_in in Hopen as (ev & Hin & found & -> & ->).
  assert (Hin' : Asked (FindOrderByIdempotencyKey (in_exchangeAccountId input)
                          (idempotency_key_of sha256 input)) (Ok None) ∈ h).
  { rewrite Heq. apply elem_of_app. right. by do 2 right. }
  apply Hfind in Hin'. destruct (key_found calls r o Hr Hcalls Ho) as [o' Ho'].
  rewrite Ha, Hk in Ho'. congruence.
Qed.

End Composition.
