(* ===== verification/ExecutionScenarios.v ===== *)
(** * ExecutionScenarios: calls of the execution service on concrete answers

    An environment that remembers the order it was told to store and answers
    every call; the theorems about the service applied to its runs: a dry run
    that is filled, a live order whose outcome stays unknown, a paused state, a
    lease that cannot be acquired, and a key that is taken. *)

From Stdlib Require Import ZArith Lia.
From stdpp Require Import base option list strings.
From S2P Require Import Prelude Num Types Text Timestamp NumText CandidateState ExactState.
From S2P Require Import SubmissionBlocking Lease OperatorState PilotRecords PilotRepository.
From S2P Require Import PilotTheory PilotInvariants PilotGuarantees PilotScenarios StrategyCore.
From S2P Require Import OrderRecords OrderRepository OrderTheory OrderGuarantees OrderScenarios.
From S2P Require Import Risk Effects CandidateAuthority ExecutionRecords.
From S2P Require Import ExecutionHelpers ExecutionService ExecutionTheory ExecutionTimeline.
From S2P Require Import ExecutionInvariant ExecutionGuarantees.

Local Open Scope string_scope.
Local Open Scope js_scope.
Local Open Scope bool_scope.

(** ** The environment *)

Record scenario := {
  sc_state : ExecutionStateRecord;
  sc_find : string -> string -> option OrderRecord;
  sc_acquired : bool;
  sc_exchange : result js_error ExchangeOrderSnapshot;
}.

(** The order the service stored last. *)
Fixpoint last_stored (h : history) : option OrderRecord :=
  match h with
  | [] => None
  | Asked e _ :: h' => match e with UpdateOrder order => Some order | _ => last_stored h' end
  end.

Definition scenario_instant : string := "2026-08-21T04:00:00.000Z".

Definition answers (s : scenario) (h : history) (B : Type) (e : effect B) : result js_error B :=
  match e in effect B return result js_error B with
  | Now | NewDate => Ok scenario_instant
  | DateNow => Ok 1787284800000%Z
  | CreateId prefix => Ok (prefix ++ "_" ++ Z_to_string (Z.of_nat (length h)))
  | AssertLocallyHeld | AssertCurrent _ | LeaveFence => Ok tt
  | EnterFence _ => Ok true
  | FindOrderByIdempotencyKey account key => Ok (sc_find s account key)
  | FindOrderById _ _ => Ok (last_stored h)
  | ListActiveOrders _ => Ok []
  | ListSubmissionBlockingOrders _ _ => Ok (option_list (last_stored h))
  | ListOrderEvents _ => Ok []
  | GetStrategyDecisionById _ => Ok None
  | GetPortfolioExposure _ =>
      Ok {| totalEquityKrw := num_of_Z 10000000; totalExposureKrw := zero;
            assetExposureKrw := fun _ => zero |}
  | SaveRiskEvent _ | PersistOrderIntent _ | PersistCandidateBoundOrderIntent _ | UpdateOrder _
  | PersistExchangeSubmission _ | PersistUncertainSubmission _ => Ok tt
  | AcquireLease i => if sc_acquired s then Ok (Some (granted i)) else Err (PlainError "offline")
  | RenewLease i =>
      Ok (Some {| lease_exchangeAccountId := renew_exchangeAccountId i;
                  lease_ownerToken := renew_ownerToken i;
                  lease_purpose := Purpose.ORDER_SUBMISSION;
                  lease_acquiredAtEpochMs := renew_renewedAtEpochMs i;
                  lease_expiresAtEpochMs := renew_expiresAtEpochMs i |})
  | ReleaseLease _ _ => Ok true
  | GetState => Ok (sc_state s)
  | PauseForFault _ => Ok (sc_state s)
  | GetDeployment _ => Ok None
  | GetExactState _ => Ok None
  | GetExecutionBindingForOrder _ => Ok None
  | PauseForCandidateIntentFault _ => Ok tt
  | GetOrderChance market =>
      Ok {| chance_marketId := Market.to_string market; chance_askTypes := ["market"];
            chance_bidTypes := ["limit"; "price"]; chance_maxTotal := Some "1000000000";
            chance_bidMinTotal := Some (num_of_Z 5000); chance_askMinTotal := None;
            chance_bidFee := "0.0005"; chance_askFee := "0.0005" |}
  | TestOrder _ =>
      Ok {| validation_accepted := true; validation_marketOnline := true;
            validation_reason := None; validation_preview := None |}
  | CreateOrder _ => Ok tt
  | AwaitOrder => sc_exchange s
  | Report _ => Ok tt
  end.

Definition foreign_exchange (s : scenario) : bool :=
  match sc_exchange s with Ok _ => true | Err x => foreign x end.

Lemma answers_may s : foreign_exchange s = true ->
  forall h B (e : effect B), may_answer B e (answers s h B e).
Proof.
  intros Hs h B e. destruct e; try exact I.
  - cbn. by destruct (sc_acquired s).
  - unfold foreign_exchange in Hs. cbn. by destruct (sc_exchange s).
Qed.

Definition scenario_input : SubmitOrderFromDecisionInput := {|
  in_exchangeAccountId := "primary"; in_strategyDecisionId := Some "decision-1";
  in_referencePriceCapturedAt := "2026-08-21T03:59:30.000Z";
  in_decision := {|
    StrategyCore.sd_strategyKey := "position_guard.paper_core.v1";
    StrategyCore.sd_market := Market.KRW_BTC; StrategyCore.sd_action := Action.ENTER;
    sd_reasonCodes := []; StrategyCore.sd_referencePrice := num_of_Z 100000000;
    sd_requestedNotionalKrw := Some (num_of_Z 4000000); sd_requestedQuantity := None;
    sd_metadata := [] |};
  in_side := Side.bid; in_ordType := OrdType.price; in_price := Some "4000000";
  in_volume := None; in_origin := None; in_market := None; in_candidateAuthority := None;
|}.

Definition scenario_deps (sendPath : SendPath.ExecutionSendPath) : ExecutionDependencies := {|
  dep_riskLimits := sample_limits; dep_sendPath := sendPath; dep_accountExecutionLeaseMs := 30000;
  dep_hasCandidatePilots := false; dep_hasDecisionById := false; dep_hasReporter := true;
  dep_hasFence := true;
|}.

Definition scenario_exec (sendPath : SendPath.ExecutionSendPath) (s : scenario)
    : history * (locals * result js_error SubmitOrderFromDecisionResult) :=
  exec (answers s)
    (submitOrderFromDecision sample_sha256 (scenario_deps sendPath) scenario_input initial_locals) [].

Definition calls_of (sendPath : SendPath.ExecutionSendPath) (s : scenario) : history :=
  fst (scenario_exec sendPath s).
Definition result_of (sendPath : SendPath.ExecutionSendPath) (s : scenario)
    : result js_error SubmitOrderFromDecisionResult := snd (snd (scenario_exec sendPath s)).

Lemma scenario_runs sendPath s : foreign_exchange s = true ->
  submission_run sample_sha256 (scenario_deps sendPath) scenario_input
    (calls_of sendPath s) (result_of sendPath s).
Proof.
  intros Hs. exists (fst (snd (scenario_exec sendPath s))). unfold calls_of, result_of.
  rewrite <- surjective_pairing. apply exec_runs, answers_may, Hs.
Qed.

(** ** The scenarios *)

Definition state_of (status : SystemStatus) (mode : ExecutionMode) (gate : LiveExecutionGate)
    : ExecutionStateRecord := {|
  es_id := "state"; es_exchangeAccountId := "primary"; es_executionMode := mode;
  es_liveExecutionGate := gate; es_systemStatus := status; es_killSwitchActive := false;
  es_pauseReason := None; es_degradedReason := None; es_degradedAt := None;
  es_updatedAt := "2026-08-21T00:00:00.000Z";
|}.

Definition dry_run_answer : ExchangeOrderSnapshot := {|
  xorder_uuid := "uuid-1"; xorder_identifier := None; xorder_market := Market.KRW_BTC;
  xorder_side := Side.bid; xorder_ordType := OrdType.price; xorder_state := "wait";
  xorder_price := Some "4000000"; xorder_volume := None; xorder_timeInForce := None;
  xorder_smpType := None; xorder_remainingVolume := None; xorder_executedVolume := Some "0";
  xorder_paidFee := None; xorder_createdAt := scenario_instant; xorder_fills := [];
  xorder_raw := JObj []; xorder_json := JNull;
|}.

(** A dry run that is filled at once. *)
Definition filled : scenario := {|
  sc_state := state_of SysStatus.RUNNING Mode.DRY_RUN Gate.DISABLED; sc_find _ _ := None;
  sc_acquired := true; sc_exchange := Ok dry_run_answer |}.

(** A live order of which the exchange says nothing. *)
Definition unknown : scenario := {|
  sc_state := state_of SysStatus.RUNNING Mode.LIVE Gate.ENABLED; sc_find _ _ := None;
  sc_acquired := true; sc_exchange := Err (PlainError "socket hang up") |}.

Definition halted_state : scenario := {|
  sc_state := state_of SysStatus.PAUSED Mode.DRY_RUN Gate.DISABLED; sc_find _ _ := None;
  sc_acquired := true; sc_exchange := Ok dry_run_answer |}.

(** The lease store is offline. *)
Definition no_lease : scenario := {|
  sc_state := state_of SysStatus.RUNNING Mode.DRY_RUN Gate.DISABLED; sc_find _ _ := None;
  sc_acquired := false; sc_exchange := Ok dry_run_answer |}.

Abbreviation dry := SendPath.DRY_RUN_ADAPTER.
Abbreviation live := SendPath.LIVE_ADAPTER.

(** Outcome, status and executed volume of the result. *)
Definition summary (r : result js_error SubmitOrderFromDecisionResult)
    : option (Submission.SubmissionOutcome * option OrderLifecycleStatus) :=
  match r with
  | Ok res => Some (res_outcome res, ord_status <$> res_order res)
  | Err _ => None
  end.

Example filled_summary :
  summary (result_of dry filled) = Some (Submission.SIMULATED_FILLED, Some OrderStatus.FILLED) /\
  sent (calls_of dry filled) = true /\ released (calls_of dry filled) = true.
Proof. vm_compute. by split_and!. Qed.

Example unknown_summary :
  summary (result_of live unknown)
  = Some (Submission.RECONCILIATION_REQUIRED, Some OrderStatus.RECONCILIATION_REQUIRED) /\
  sent (calls_of live unknown) = true /\ released (calls_of live unknown) = false.
Proof. vm_compute. by split_and!. Qed.

(** A call whose key an earlier one has stored. *)
#[local] Instance scenario_env : ExecutionEnvironment sample_repository :=
  pilot_environment sample_sha256.
#[local] Instance scenario_env_laws : ExecutionEnvironmentLaws sample_repository :=
  pilot_environment_laws sample_sha256.

Definition earlier_call : call_context :=
  call_of sample_sha256 scenario_input scenario_instant None.
Definition earlier_order : OrderRecord :=
  new_order (scenario_deps dry) earlier_call "order_7" "KRW-BTC-bid-1" scenario_instant.
Definition earlier_intent : PersistOrderIntentInput :=
  {| intent_order := earlier_order; intent_event := persisted_event earlier_call "event_8" earlier_order |}.
Definition after_intent : order_repository := fst (persistOrderIntent earlier_intent empty_orders).
Definition since_intent : order_repository := sample_orders [CallDecision sample_decision] after_intent.

Definition key_taken : scenario := {|
  sc_state := state_of SysStatus.RUNNING Mode.DRY_RUN Gate.DISABLED;
  sc_find account key :=
    match snd (findOrderByIdempotencyKey account key since_intent) with
    | Ret found => found
    | Throw _ => None
    end;
  sc_acquired := true; sc_exchange := Ok dry_run_answer |}.

(** ** The theorems at these runs *)

Lemma one_order_per_call_witness :
  sent (calls_of dry filled) = true /\ length (List.filter is_send (calls_of dry filled)) <= 1.
Proof.
  split; [vm_compute; reflexivity|].
  exact (one_order_per_call sample_sha256 (scenario_deps dry) scenario_input _ _
           (scenario_runs dry filled eq_refl)).
Defined.

Lemma order_follows_protocol_witness :
  exists newer older request a,
    calls_of dry filled = (newer ++ Asked (CreateOrder request) a :: older)%list /\
    ready sample_sha256 (scenario_deps dry) scenario_input older request.
Proof.
  assert (Hs : sent (calls_of dry filled) = true) by (vm_compute; reflexivity).
  destruct (sent_split _ Hs) as (newer & older & request & a & Heq).
  exists newer, older, request, a. split; [exact Heq|].
  exact (order_follows_protocol sample_sha256 (scenario_deps dry) scenario_input _ _ newer older
           request a (scenario_runs dry filled eq_refl) Heq).
Defined.

Lemma nothing_sent_unless_running_witness :
  summary (result_of dry halted_state) = Some (Submission.REJECTED, None) /\
  sent (calls_of dry halted_state) = false.
Proof.
  split; [vm_compute; reflexivity|].
  apply (nothing_sent_unless_running sample_sha256 (scenario_deps dry) scenario_input _ _
           (scenario_runs dry halted_state eq_refl)).
  intros s Hs. left.
  pose proof (proj1 (Forall_forall _ _) (exec_answers (answers halted_state) _ [] (List.Forall_nil _)) _ Hs)
    as [h Hh]. injection Hh as ->. discriminate.
Defined.

Lemma lease_released_only_when_settled_witness :
  exists newer older account token a,
    calls_of dry filled = (newer ++ Asked (ReleaseLease account token) a :: older)%list /\
    account = "primary".
Proof.
  assert (Hr : existsb is_release (calls_of dry filled) = true) by (vm_compute; reflexivity).
  destruct (event_split _ _ Hr) as (newer & [B e a] & older & Heq & Hev).
  destruct e; try discriminate Hev.
  exists newer, older, exchangeAccountId, ownerToken, a. split; [exact Heq|].
  exact (proj1 (lease_released_only_when_settled sample_sha256 (scenario_deps dry) scenario_input _ _
           newer older exchangeAccountId ownerToken a (scenario_runs dry filled eq_refl) Heq)).
Defined.


Lemma result_is_justified_witness :
  exists res, result_of dry filled = Ok res /\ res_outcome res = Submission.SIMULATED_FILLED /\
    justified_result sample_sha256 scenario_input res (calls_of dry filled).
Proof.
  assert (Ho : match result_of dry filled with
               | Ok res => res_outcome res = Submission.SIMULATED_FILLED
               | Err _ => False end) by (vm_compute; reflexivity).
  pose proof (scenario_runs dry filled eq_refl) as Hrun.
  destruct (result_of dry filled) as [res|x]; [|destruct Ho].
  exists res. split; [reflexivity|]. split; [exact Ho|].
  exact (result_is_justified sample_sha256 (scenario_deps dry) scenario_input _ res Hrun).
Defined.

Lemma errors_fail_closed_witness :
  exists text, result_of dry no_lease = Err (AccountExecutionLeaseSafetyError text) /\
    happened [paused] (calls_of dry no_lease).
Proof.
  assert (Ho : result_of dry no_lease = Err (AccountExecutionLeaseSafetyError
    "Account execution lease acquisition is ambiguous.")) by (vm_compute; reflexivity).
  pose proof (scenario_runs dry no_lease eq_refl) as Hrun. rewrite Ho in Hrun.
  eexists. split; [exact Ho|].
  exact (errors_fail_closed sample_sha256 (scenario_deps dry) scenario_input _ _ Hrun).
Defined.

Definition is_uncertain_store (ev : event) : bool :=
  match ev with Asked e _ => match e with PersistUncertainSubmission _ => true | _ => false end end.

Lemma stores_are_valid_witness :
  exists i a, Asked (PersistUncertainSubmission i) a ∈ calls_of live unknown /\
    validateUncertainSubmissionInput i = Ret tt.
Proof.
  assert (Hs : existsb is_uncertain_store (calls_of live unknown) = true)
    by (vm_compute; reflexivity).
  destruct (event_split _ _ Hs) as (newer & [B e a] & older & Heq & Hev).
  destruct e; try discriminate Hev. exists input, a.
  assert (Hin : Asked (PersistUncertainSubmission input) a ∈ calls_of live unknown).
  { rewrite Heq. apply elem_of_app. right. left. }
  split; [exact Hin|].
  exact (stores_are_valid sample_sha256 (scenario_deps live) scenario_input _ _ _ _ _
           (scenario_runs live unknown eq_refl) Hin).
Defined.

Lemma after_intent_ok : repository_ok after_intent.
Proof.
  eapply repository_ok_steps; [|apply new_repository_ok].
  apply persistOrderIntent_steps.
Qed.

Lemma stored_key_is_never_sent_again_witness :
  summary (result_of dry key_taken) = Some (Submission.DUPLICATE, Some OrderStatus.PERSISTED) /\
  sent (calls_of dry key_taken) = false.
Proof.
  split; [vm_compute; reflexivity|].
  assert (Hl : last (orders after_intent) = Some earlier_order) by (vm_compute; reflexivity).
  apply (stored_key_is_never_sent_again sample_sha256 (scenario_deps dry) scenario_input after_intent
           earlier_order [CallDecision sample_decision] _ _ after_intent_ok (conj I I)
           (last_Some_elem_of _ _ Hl) eq_refl eq_refl (scenario_runs dry key_taken eq_refl)).
  intros account key found Hin.
  pose proof (proj1 (Forall_forall _ _) (exec_answers (answers key_taken) _ [] (List.Forall_nil _)) _ Hin)
    as [h Hh]. injection Hh as ->. reflexivity.
Defined.
