(* ===== verification/OwnershipGuard.v ===== *)
(** * OwnershipGuard: the guard of a process over the ownership store

    [app/runtime-ownership-guard.ts].  A process holds a lock, acquires the
    ownership of the runtime once, and from then on asserts it: locally, against
    the store, and, around the submission of an order, against the store and the
    execution state in one synchronous step, the fence.  Once lost, the
    ownership stays lost.

    The store is an interface ([OwnershipStore], with [OwnershipStoreLaws]); the
    in-memory store implements it.  A method that awaits the store is two
    methods, before and after the wait; [held] and [nowEpochMs] are what the
    process lock and the clock answer while a method runs. *)

From Stdlib Require Import ZArith Lia.
From stdpp Require Import base option list strings relations.
From S2P Require Import Prelude Types Text RuntimeOwnership Effects ExecutionRecords.

Local Open Scope string_scope.
Local Open Scope Z_scope.
Local Open Scope js_scope.
Local Open Scope bool_scope.

(** ** Methods that throw errors with a class *)

Definition method (W A : Type) : Type := W -> W * result js_error A.

#[export] Instance method_ret {W} : MRet (method W) := fun A v w => (w, Ok v).
#[export] Instance method_bind {W} : MBind (method W) := fun A B k m w =>
  match m w with (w', Ok v) => k v w' | (w', Err x) => (w', Err x) end.

Definition raise {W A} (x : js_error) : method W A := fun w => (w, Err x).
Definition reads {W A} (f : W -> A) : method W A := fun w => (w, Ok (f w)).
Definition writes {W} (f : W -> W) : method W unit := fun w => (f w, Ok tt).
(** A callback that ends so. *)
Definition call_back {W} (r : result js_error unit) : method W unit := fun w => (w, r).
Definition plain {W A} (o : outcome A) : method W A := fun w =>
  match o with Ret v => (w, Ok v) | Throw m => (w, Err (PlainError m)) end.

(** ** The store *)

Class OwnershipStore (S : Type) := {
  store_getCurrent : action S (option RuntimeOwnershipRecord);
  store_getCurrentExecutionAuthority :
    option (string -> action S (option PersistedRuntimeExecutionAuthority));
  store_acquireAfterProcessLock :
    AcquireRuntimeOwnershipInput -> action S RuntimeOwnershipAcquisition;
}.

(** What the guard relies on: reads change nothing and show the owner of the
    moment, an acquisition makes its caller the owner, and whoever else uses the
    store ([store_step]), a generation that was passed does not come back. *)
Class OwnershipStoreLaws (S : Type) `{OwnershipStore S} := {
  owner : S -> option RuntimeOwnershipRecord;
  beyond_generation : Z -> S -> Prop;
  store_step : S -> S -> Prop;
  law_getCurrent s : fst (store_getCurrent s) = s;
  law_authority_reads read account s :
    store_getCurrentExecutionAuthority = Some read -> fst (read account s) = s;
  law_authority read account s a :
    store_getCurrentExecutionAuthority = Some read ->
    snd (read account s) = Ret (Some a) -> owner s = Some (auth_runtimeOwnership a);
  law_acquire input s s' a :
    store_acquireAfterProcessLock input s = (s', Ret a) ->
    owner s' = Some (acquisition_record a) /\
    own_ownerToken (acquisition_record a) = ao_ownerToken input /\
    beyond_generation (own_generation (acquisition_record a)) s' /\
    forall g, beyond_generation g s -> g < own_generation (acquisition_record a);
  law_acquire_step input s : store_step s (fst (store_acquireAfterProcessLock input s));
  law_beyond_owner g s r : beyond_generation g s -> owner s = Some r -> g <= own_generation r;
  law_beyond_step g s s' : beyond_generation g s -> store_step s s' -> beyond_generation g s';
}.

(** ** The guard *)

Module GuardStatus.
Inductive RuntimeOwnershipStatus : Set := UNOWNED | OWNED | LOST.
#[export] Instance RuntimeOwnershipStatus_eq_dec : EqDecision RuntimeOwnershipStatus.
Proof. solve_decision. Defined.
End GuardStatus.
Export (hints) GuardStatus.

(** [g_notified] is what the listeners have been called with. *)
Record RuntimeOwnershipGuard := {
  g_status : GuardStatus.RuntimeOwnershipStatus;
  g_acquisitionReserved : bool;
  g_record : option RuntimeOwnershipRecord;
  g_takeover : bool;
  g_lossReason : option string;
  g_lossListeners : list nat;
  g_notified : list (nat * string);
}.

Record RuntimeOwnershipSnapshot := {
  snap_status : GuardStatus.RuntimeOwnershipStatus;
  snap_generation : option Z;
  snap_executionMode : option ExecutionMode;
  snap_acquiredAtEpochMs : option Z;
  snap_heartbeatAtEpochMs : option Z;
  snap_expiresAtEpochMs : option Z;
  snap_takeover : bool;
  snap_lossReason : option string;
}.

Abbreviation guard := RuntimeOwnershipGuard.

Definition with_lost (reason : string) (g : guard) : guard := {|
  g_status := GuardStatus.LOST;
  g_acquisitionReserved := g_acquisitionReserved g;
  g_record := g_record g;
  g_takeover := g_takeover g;
  g_lossReason := Some reason;
  g_lossListeners := g_lossListeners g;
  g_notified := (g_notified g ++ ((fun listener => (listener, reason)) <$> g_lossListeners g))%list;
|}.

Definition with_status (status : GuardStatus.RuntimeOwnershipStatus) (g : guard) : guard := {|
  g_status := status;
  g_acquisitionReserved := g_acquisitionReserved g;
  g_record := g_record g;
  g_takeover := g_takeover g;
  g_lossReason := g_lossReason g;
  g_lossListeners := g_lossListeners g;
  g_notified := g_notified g;
|}.

Definition with_record (record : RuntimeOwnershipRecord) (takeover : bool) (g : guard) : guard := {|
  g_status := g_status g;
  g_acquisitionReserved := g_acquisitionReserved g;
  g_record := Some record;
  g_takeover := takeover;
  g_lossReason := g_lossReason g;
  g_lossListeners := g_lossListeners g;
  g_notified := g_notified g;
|}.

Definition reserve (g : guard) : guard := {|
  g_status := g_status g;
  g_acquisitionReserved := true;
  g_record := g_record g;
  g_takeover := g_takeover g;
  g_lossReason := g_lossReason g;
  g_lossListeners := g_lossListeners g;
  g_notified := g_notified g;
|}.

Definition with_listeners (listeners : list nat) (g : guard) : guard := {|
  g_status := g_status g;
  g_acquisitionReserved := g_acquisitionReserved g;
  g_record := g_record g;
  g_takeover := g_takeover g;
  g_lossReason := g_lossReason g;
  g_lossListeners := listeners;
  g_notified := g_notified g;
|}.

Definition RUNTIME_OWNERSHIP_TTL_MS : Z := 45000.

Definition isCleanupFenceReason (reason : option string) : bool :=
  bool_decide (reason ∈ [Some "RUNTIME_SHUTDOWN"; Some "SCOPED_WORK_COMPLETE";
                         Some "STARTUP_FAILED"]).

Definition sameOwnership (expected : RuntimeOwnershipRecord)
    (persisted : option RuntimeOwnershipRecord) : bool :=
  match persisted with
  | Some p => (own_ownerToken p === own_ownerToken expected)
              && (own_generation p === own_generation expected)
              && (own_executionMode p === own_executionMode expected)
              && (own_acquiredAtEpochMs p === own_acquiredAtEpochMs expected)
  | None => false
  end.

Definition validateEpochMs (value : Z) : outcome unit :=
  throw_if (negb (isSafeInteger value) || (value <? 0))
    "Runtime ownership assertion time must be a non-negative safe integer.".

Definition isExecutionAllowed (state : option ExecutionStateView)
    (expected : AssertCurrentExecutionAuthorityInput) : bool :=
  match state with
  | Some s => (view_exchangeAccountId s === fence_exchangeAccountId expected)
              && (view_systemStatus s === SysStatus.RUNNING)
              && negb (view_killSwitchActive s)
              && (view_executionMode s === fence_expectedExecutionMode expected)
              && (view_liveExecutionGate s === fence_expectedLiveExecutionGate expected)
  | None => false
  end.

Definition snapshot (g : guard) : RuntimeOwnershipSnapshot := {|
  snap_status := g_status g;
  snap_generation := own_generation <$> g_record g;
  snap_executionMode := own_executionMode <$> g_record g;
  snap_acquiredAtEpochMs := own_acquiredAtEpochMs <$> g_record g;
  snap_heartbeatAtEpochMs := own_heartbeatAtEpochMs <$> g_record g;
  snap_expiresAtEpochMs := own_expiresAtEpochMs <$> g_record g;
  snap_takeover := g_takeover g;
  snap_lossReason := g_lossReason g;
|}.

(** ** Loss *)

Definition markLost (reason : string) : method guard bool :=
  plain (throw_if (negb (REASON_CODE_PATTERN reason))
    "Runtime ownership loss reason must be a non-secret uppercase reason code.");;
  g ← reads id;
  if g_status g === GuardStatus.LOST then
    if negb (isCleanupFenceReason (g_lossReason g)) || isCleanupFenceReason (Some reason)
    then mret false
    else writes (with_lost reason);; mret true
  else writes (with_lost reason);; mret true.

Definition throwLost {A} : method guard A :=
  g ← reads id;
  raise (RuntimeOwnershipGuardError OwnershipCode.RUNTIME_OWNERSHIP_LOST
           ("RUNTIME_OWNERSHIP_LOST: " ++ default "UNKNOWN" (g_lossReason g))).

(** [this.markLost(reason); this.throwLost();] *)
Definition lose {A} (reason : string) : method guard A := markLost reason;; throwLost.

Definition not_held {A} : method guard A :=
  raise (RuntimeOwnershipGuardError OwnershipCode.RUNTIME_OWNERSHIP_NOT_HELD
    "RUNTIME_OWNERSHIP_NOT_HELD: Runtime ownership has not been acquired.").

Definition new_guard (held : bool) : guard :=
  let g := {| g_status := GuardStatus.UNOWNED; g_acquisitionReserved := false;
              g_record := None; g_takeover := false; g_lossReason := None;
              g_lossListeners := []; g_notified := [] |} in
  if held then g else with_lost "PROCESS_LOCK_LOST" g.

Definition onLost (listener : nat) : method guard unit :=
  g ← reads id;
  if bool_decide (listener ∈ g_lossListeners g) then mret tt
  else writes (with_listeners (g_lossListeners g ++ [listener])%list).

(** The function [onLost] returns. *)
Definition unsubscribe (listener : nat) : method guard unit :=
  writes (fun g => with_listeners
    (List.filter (fun other => negb (Nat.eqb other listener)) (g_lossListeners g)) g).

(** ** Assertions *)

Definition assertLocallyHeld (held : bool) (nowEpochMs : Z) : method guard unit :=
  g ← reads id;
  if g_status g === GuardStatus.LOST then throwLost
  else if negb held then lose "PROCESS_LOCK_LOST"
  else
    match g_status g, g_record g with
    | GuardStatus.OWNED, Some record =>
        plain (validateEpochMs nowEpochMs);;
        if own_expiresAtEpochMs record <=? nowEpochMs then lose "OWNERSHIP_EXPIRED" else mret tt
    | _, _ => not_held
    end.

Definition requireRecord : method guard RuntimeOwnershipRecord :=
  g ← reads id;
  match g_record g with
  | Some record => mret record
  | None => not_held
  end.

Definition acceptRenewal (record : RuntimeOwnershipRecord) : method guard unit :=
  g ← reads id;
  if g_status g !== GuardStatus.OWNED then mret tt
  else
    expected ← requireRecord;
    if negb (sameOwnership expected (Some record)) then lose "PERSISTED_OWNERSHIP_MISMATCH"
    else writes (with_record record (g_takeover g)).

Section WithStore.
Context {S : Type} {HS : OwnershipStore S}.

Abbreviation world := (RuntimeOwnershipGuard * S)%type.

Definition on_guard {A} (m : method guard A) : method world A := fun w =>
  let '(g', r) := m (fst w) in ((g', snd w), r).

Definition on_store {A} (m : action S A) : method world A := fun w =>
  let '(s', r) := m (snd w) in
  ((fst w, s'), match r with Ret v => Ok v | Throw e => Err (PlainError e) end).

(** [acquire], up to and after its wait for the store. *)
Definition acquire_begin (held : bool) (ownerToken : string) (executionMode : ExecutionMode)
    (acquiredAtEpochMs : Z) : method world RuntimeOwnershipAcquisition :=
  g ← reads fst;
  (if (g_status g !== GuardStatus.UNOWNED) || g_acquisitionReserved g then
     raise (RuntimeOwnershipGuardError OwnershipCode.RUNTIME_OWNERSHIP_REACQUISITION_FORBIDDEN
       "RUNTIME_OWNERSHIP_REACQUISITION_FORBIDDEN: A runtime ownership guard can acquire only once.")
   else mret tt);;
  on_guard (writes reserve);;
  (if negb held then on_guard (lose "PROCESS_LOCK_LOST") else mret tt);;
  on_store (store_acquireAfterProcessLock {|
    ao_ownerToken := ownerToken;
    ao_executionMode := executionMode;
    ao_acquiredAtEpochMs := acquiredAtEpochMs;
    ao_expiresAtEpochMs := acquiredAtEpochMs + RUNTIME_OWNERSHIP_TTL_MS |}).

Definition acquire_finish (held : bool) (acquisition : RuntimeOwnershipAcquisition)
    : method guard RuntimeOwnershipRecord :=
  writes (with_record (acquisition_record acquisition) (acquisition_takeover acquisition));;
  g ← reads id;
  (if (g_status g === GuardStatus.LOST) || negb held then lose "PROCESS_LOCK_LOST" else mret tt);;
  writes (with_status GuardStatus.OWNED);;
  mret (acquisition_record acquisition).

(** [assertCurrent], up to and after its wait for the store. *)
Definition assertCurrent_begin (held : bool) (nowEpochMs atEpochMs : Z)
    : method world (RuntimeOwnershipRecord * option RuntimeOwnershipRecord) :=
  plain (validateEpochMs atEpochMs);;
  on_guard (assertLocallyHeld held nowEpochMs);;
  expected ← on_guard requireRecord;
  persisted ← on_store store_getCurrent;
  mret (expected, persisted).

Definition assertCurrent_finish (held : bool) (nowEpochMs atEpochMs : Z)
    (expected : RuntimeOwnershipRecord) (persisted : option RuntimeOwnershipRecord)
    : method guard RuntimeOwnershipRecord :=
  assertLocallyHeld held nowEpochMs;;
  match persisted with
  | Some p =>
      if negb (sameOwnership expected persisted) then lose "PERSISTED_OWNERSHIP_MISMATCH"
      else if own_expiresAtEpochMs p <=? atEpochMs then lose "OWNERSHIP_EXPIRED"
      else
        g ← reads id;
        writes (with_record p (g_takeover g));; mret p
  | None => lose "PERSISTED_OWNERSHIP_MISMATCH"
  end.

(** What [runWithCurrentExecutionAuthority] checks before it calls the callback;
    the clock is read twice. *)
Definition enterFence (held : bool) (now1 now2 : Z) (input : AssertCurrentExecutionAuthorityInput)
    : method world PersistedRuntimeExecutionAuthority :=
  plain (validateEpochMs (fence_atEpochMs input));;
  plain (throw_if (fence_exchangeAccountId input === "")
    "Final runtime execution authority requires an exchange account id.");;
  on_guard (assertLocallyHeld held now1);;
  expectedOwnership ← on_guard requireRecord;
  match store_getCurrentExecutionAuthority with
  | None =>
      raise (RuntimeOwnershipGuardError OwnershipCode.RUNTIME_OWNERSHIP_NOT_HELD
        "RUNTIME_OWNERSHIP_NOT_HELD: Persisted combined execution authority is unavailable.")
  | Some readAuthority =>
      persisted ← on_store (readAuthority (fence_exchangeAccountId input));
      on_guard (assertLocallyHeld held now2);;
      match persisted with
      | Some p =>
          let ownership := auth_runtimeOwnership p in
          if negb (sameOwnership expectedOwnership (Some ownership)) then
            on_guard (lose "PERSISTED_OWNERSHIP_MISMATCH")
          else if own_expiresAtEpochMs ownership <=? fence_atEpochMs input then
            on_guard (lose "OWNERSHIP_EXPIRED")
          else
            plain (throw_if (negb (isExecutionAllowed (auth_executionState p) input))
              "final pre-send authority is blocked");;
            g ← reads fst;
            on_guard (writes (with_record ownership (g_takeover g)));;
            mret p
      | None => on_guard (lose "PERSISTED_OWNERSHIP_MISMATCH")
      end
  end.

(** The callback runs in the same step as the checks. *)
Definition runWithCurrentExecutionAuthority (held : bool) (now1 now2 : Z)
    (input : AssertCurrentExecutionAuthorityInput) (callback : result js_error unit)
    : method world PersistedRuntimeExecutionAuthority :=
  authority ← enterFence held now1 now2 input;
  call_back callback;;
  mret authority.

(** ** A process and the rest of the world

    A process with its guard, the store it shares with other processes, the
    acquisition it waits for and the assertions it waits for. *)

Context {HL : OwnershipStoreLaws S}.

Record system := {
  sy_guard : RuntimeOwnershipGuard;
  sy_store : S;
  sy_acquisition : option RuntimeOwnershipAcquisition;
  sy_assertions : list (RuntimeOwnershipRecord * option RuntimeOwnershipRecord);
}.

Definition on_system (w : world) (y : system) : system := {|
  sy_guard := fst w; sy_store := snd w;
  sy_acquisition := sy_acquisition y; sy_assertions := sy_assertions y |}.

Definition of_system (y : system) : world := (sy_guard y, sy_store y).

Definition guard_moves (g : guard) (y : system) : system := on_system (g, sy_store y) y.

Definition waits_acquisition (a : option RuntimeOwnershipAcquisition) (y : system) : system := {|
  sy_guard := sy_guard y; sy_store := sy_store y;
  sy_acquisition := a; sy_assertions := sy_assertions y |}.

Definition waits_assertion (a : RuntimeOwnershipRecord * option RuntimeOwnershipRecord)
    (y : system) : system := {|
  sy_guard := sy_guard y; sy_store := sy_store y;
  sy_acquisition := sy_acquisition y; sy_assertions := a :: sy_assertions y |}.

Inductive system_step (token : string) (y : system) : system -> Prop :=
| others_step s' : store_step (sy_store y) s' ->
    system_step token y (on_system (sy_guard y, s') y)
| acquire_begin_step held mode atEpochMs w r :
    acquire_begin held token mode atEpochMs (of_system y) = (w, r) ->
    system_step token y
      (match r with Ok a => waits_acquisition (Some a) | Err _ => id end (on_system w y))
| acquire_finish_step held a : sy_acquisition y = Some a ->
    system_step token y
      (waits_acquisition None (guard_moves (fst (acquire_finish held a (sy_guard y))) y))
| lost_step reason : system_step token y (guard_moves (fst (markLost reason (sy_guard y))) y)
| local_step held now :
    system_step token y (guard_moves (fst (assertLocallyHeld held now (sy_guard y))) y)
| assert_begin_step held now atEpochMs w r :
    assertCurrent_begin held now atEpochMs (of_system y) = (w, r) ->
    system_step token y
      (match r with Ok a => waits_assertion a | Err _ => id end (on_system w y))
| assert_finish_step held now atEpochMs expected persisted :
    (expected, persisted) ∈ sy_assertions y ->
    system_step token y
      (guard_moves (fst (assertCurrent_finish held now atEpochMs expected persisted (sy_guard y))) y)
| fence_step held now1 now2 input callback :
    system_step token y (on_system
      (fst (runWithCurrentExecutionAuthority held now1 now2 input callback (of_system y))) y)
| renewal_step record : system_step token y (guard_moves (fst (acceptRenewal record (sy_guard y))) y)
| listen_step listener : system_step token y (guard_moves (fst (onLost listener (sy_guard y))) y)
| unlisten_step listener :
    system_step token y (guard_moves (fst (unsubscribe listener (sy_guard y))) y).

Definition started (held : bool) (s : S) : system := {|
  sy_guard := new_guard held; sy_store := s; sy_acquisition := None; sy_assertions := [] |}.

Definition process_reaches (token : string) (y : system) : Prop :=
  exists held s, rtc (system_step token) (started held s) y.

(** ** What the methods keep *)

(** What makes an ownership the same one: [sameOwnership]. *)
Definition ownership (r : RuntimeOwnershipRecord) : string * Z * ExecutionMode * Z :=
  (own_ownerToken r, own_generation r, own_executionMode r, own_acquiredAtEpochMs r).

Lemma same_ownership e p : sameOwnership e (Some p) = true <-> ownership p = ownership e.
Proof.
  unfold sameOwnership, ownership. split.
  - intros H. destruct_bools. congruence.
  - intros [= -> -> -> ->]. by rewrite !bool_decide_eq_true_2.
Qed.

(** The guard's ownership stays, and its status does or becomes LOST. *)
Definition keeps (g g' : guard) : Prop :=
  ownership <$> g_record g' = ownership <$> g_record g /\
  g_acquisitionReserved g' = g_acquisitionReserved g /\
  (g_status g' = g_status g \/ g_status g' = GuardStatus.LOST).

#[export] Instance keeps_preorder : PreOrder keeps.
Proof.
  split; [by intros g; split_and!; auto|].
  intros g1 g2 g3 (Hr & Ha & Hs) (Hr' & Ha' & Hs'). split_and!; try congruence.
  destruct Hs' as [->|]; auto.
Qed.

Definition keeping {A} (m : method guard A) : Prop := forall g, keeps g (fst (m g)).

Lemma keeping_bind {A B} (m : method guard A) (k : A -> method guard B) :
  keeping m -> (forall v, keeping (k v)) -> keeping (x ← m; k x).
Proof.
  intros Hm Hk g. specialize (Hm g). cbn. unfold mbind, method_bind.
  destruct (m g) as [g' [v|x]]; cbn in *; [|done]. etransitivity; [exact Hm|apply Hk].
Qed.

Lemma keeping_raise {A} x : keeping (raise x : method guard A).
Proof. by intros g. Qed.

Lemma keeping_ret {A} (v : A) : keeping (mret v : method guard A).
Proof. by intros g. Qed.

Lemma keeping_plain {A} (o : outcome A) : keeping (plain o : method guard A).
Proof. by intros g; destruct o. Qed.

Lemma keeping_reads {A} (f : guard -> A) : keeping (reads f).
Proof. by intros g. Qed.

Lemma keeping_writes f : (forall g, keeps g (f g)) -> keeping (writes f).
Proof. intros H g. apply H. Qed.

Lemma keeps_lost reason g : keeps g (with_lost reason g).
Proof. split_and!; auto. Qed.

(** A method that reads the guard first goes on as one that was given it. *)
Lemma keeping_read {A B} (f : guard -> A) (k : A -> method guard B) :
  (forall g, keeps g (fst (k (f g) g))) -> keeping (x ← reads f; k x).
Proof. intros H g. apply H. Qed.

Ltac keeping_step :=
  match goal with
  | |- keeping (_ ≫= _) => apply keeping_bind; [|intros ?]
  | |- keeping (raise _) => apply keeping_raise
  | |- keeping (mret _) => apply keeping_ret
  | |- keeping (plain _) => apply keeping_plain
  | |- keeping (reads _) => apply keeping_reads
  | |- keeping (if ?b then _ else _) => destruct b
  | |- keeping (match ?x with _ => _ end) => destruct x
  end.

Lemma markLost_keeping reason : keeping (markLost reason).
Proof.
  unfold markLost. repeat keeping_step; apply keeping_writes, keeps_lost.
Qed.

Lemma lose_keeping {A} reason : keeping (lose reason : method guard A).
Proof. unfold lose, throwLost. repeat keeping_step. apply markLost_keeping. Qed.

Lemma assertLocallyHeld_keeping held now : keeping (assertLocallyHeld held now).
Proof.
  unfold assertLocallyHeld, throwLost, not_held. repeat keeping_step; apply lose_keeping.
Qed.

Lemma onLost_keeping listener : keeping (onLost listener).
Proof. unfold onLost. repeat keeping_step. apply keeping_writes. intros g. by split_and!; auto. Qed.

Lemma unsubscribe_keeping listener : keeping (unsubscribe listener).
Proof. apply keeping_writes. intros g. by split_and!; auto. Qed.

Lemma requireRecord_eq g :
  requireRecord g = (g, match g_record g with
                        | Some r => Ok r
                        | None => Err (RuntimeOwnershipGuardError OwnershipCode.RUNTIME_OWNERSHIP_NOT_HELD
                            "RUNTIME_OWNERSHIP_NOT_HELD: Runtime ownership has not been acquired.")
                        end).
Proof. unfold requireRecord, mbind, method_bind, reads. cbn. by destruct (g_record g). Qed.

Lemma keeps_record g r r' takeover :
  g_record g = Some r -> ownership r' = ownership r -> keeps g (with_record r' takeover g).
Proof. intros Hr Ho. split_and!; cbn; auto. by rewrite Hr; cbn; rewrite Ho. Qed.

Lemma acceptRenewal_keeping record : keeping (acceptRenewal record).
Proof.
  intros g. unfold acceptRenewal, mbind, method_bind, reads, id.
  destruct (g_status g !== GuardStatus.OWNED); [done|].
  rewrite requireRecord_eq. destruct (g_record g) as [r|] eqn:Hr; [|done].
  destruct (sameOwnership r (Some record)) eqn:Hs; [|apply lose_keeping].
  apply same_ownership in Hs. by eapply keeps_record.
Qed.

Lemma assertCurrent_finish_keeps held now atEpochMs expected persisted g r :
  g_record g = Some r -> ownership expected = ownership r ->
  keeps g (fst (assertCurrent_finish held now atEpochMs expected persisted g)).
Proof.
  intros Hr He. unfold assertCurrent_finish, mbind, method_bind.
  pose proof (assertLocallyHeld_keeping held now g) as Hk.
  destruct (assertLocallyHeld held now g) as [g' [[]|x]]; cbn in Hk; [|done].
  etransitivity; [exact Hk|]. destruct persisted as [p|]; [|apply lose_keeping].
  destruct (sameOwnership expected (Some p)) eqn:Hs; [|apply lose_keeping].
  apply same_ownership in Hs. destruct (_ <=? _); [apply lose_keeping|].
  destruct Hk as (Hk & _). rewrite Hr in Hk. cbn in Hk.
  destruct (g_record g') as [r'|] eqn:Hr'; [|discriminate Hk]. apply (inj Some) in Hk.
  eapply keeps_record; [done|]. unfold ownership in *. congruence.
Qed.

Lemma method_bind_Ok {W A B} (m : method W A) (k : A -> method W B) w w' v :
  (x ← m; k x) w = (w', Ok v) -> exists x w1, m w = (w1, Ok x) /\ k x w1 = (w', Ok v).
Proof.
  unfold mbind, method_bind. destruct (m w) as [w1 [x|x]]; [|discriminate].
  intros H. by exists x, w1.
Qed.

Lemma plain_Ok {W A} (o : outcome A) (w w' : W) v : plain o w = (w', Ok v) -> w' = w /\ o = Ret v.
Proof. destruct o; [|discriminate]. by intros [= -> ->]. Qed.

Lemma lose_Err {A} reason g : exists x, snd (lose reason g : guard * result js_error A) = Err x.
Proof.
  unfold lose, mbind, method_bind. destruct (markLost reason g) as [g' [b|x]]; by eexists.
Qed.

Lemma lose_not_Ok {A} reason g g' (v : A) : lose reason g = (g', Ok v) -> False.
Proof. intros H. destruct (lose_Err (A := A) reason g) as [x Hx]. by rewrite H in Hx. Qed.

(** What a local assertion that passes has seen. *)
Lemma assertLocallyHeld_Ok held now g g' u :
  assertLocallyHeld held now g = (g', Ok u) ->
  g' = g /\ held = true /\ g_status g = GuardStatus.OWNED /\
  exists r, g_record g = Some r /\ now < own_expiresAtEpochMs r.
Proof.
  unfold assertLocallyHeld, mbind, method_bind at 1, reads, id.
  destruct (g_status g === GuardStatus.LOST) eqn:Hl; [discriminate|].
  destruct held; cbn [negb]; [|by intros ?%lose_not_Ok].
  destruct (g_status g) eqn:Hs; [discriminate| |discriminate].
  destruct (g_record g) as [r|] eqn:Hr; [|discriminate].
  intros (y & w1 & Hv & H)%method_bind_Ok. apply plain_Ok in Hv as [-> _].
  destruct (own_expiresAtEpochMs r <=? now) eqn:He; [by apply lose_not_Ok in H|].
  injection H as <- <-. split_and!; [done..|]. exists r. split; [done|]. by apply Z.leb_gt.
Qed.

Lemma on_guard_Ok {A} (m : method guard A) (w w' : world) v :
  on_guard m w = (w', Ok v) -> snd w' = snd w /\ m (fst w) = (fst w', Ok v).
Proof. unfold on_guard. destruct (m (fst w)) as [g' r]. by intros [= <- ->]. Qed.

Lemma on_store_Ok {A} (m : action S A) (w w' : world) v :
  on_store m w = (w', Ok v) -> fst w' = fst w /\ m (snd w) = (snd w', Ret v).
Proof. unfold on_store. destruct (m (snd w)) as [s' [x|e]]; by intros [= <- ->]. Qed.

(** What the fence guarantees when it lets the callback run. *)
Lemma enterFence_Ok held now1 now2 input g s w p :
  enterFence held now1 now2 input (g, s) = (w, Ok p) ->
  held = true /\ g_status g = GuardStatus.OWNED /\
  (exists r, g_record g = Some r /\ ownership (auth_runtimeOwnership p) = ownership r /\
     now1 < own_expiresAtEpochMs r) /\
  owner s = Some (auth_runtimeOwnership p) /\
  fence_atEpochMs input < own_expiresAtEpochMs (auth_runtimeOwnership p) /\
  isExecutionAllowed (auth_executionState p) input = true.
Proof.
  unfold enterFence. intros (? & w1 & H1 & H)%method_bind_Ok. apply plain_Ok in H1 as [-> _].
  apply method_bind_Ok in H as (? & w1 & H1 & H). apply plain_Ok in H1 as [-> _].
  apply method_bind_Ok in H as (? & [g1 s1] & H1 & H).
  apply on_guard_Ok in H1 as [Hs H1]. cbn in Hs, H1. subst s1.
  apply assertLocallyHeld_Ok in H1 as (-> & -> & Hst & r & Hr & Hnow).
  apply method_bind_Ok in H as (e & [g1 s1] & H1 & H).
  apply on_guard_Ok in H1 as [Hs H1]. cbn in Hs, H1. subst s1.
  rewrite requireRecord_eq, Hr in H1. injection H1 as <- <-.
  destruct store_getCurrentExecutionAuthority as [read|] eqn:Hread; [|discriminate].
  apply method_bind_Ok in H as (a & [g1 s1] & H1 & H). apply on_store_Ok in H1 as [Hg H1].
  cbn in Hg, H1. subst g1. pose proof (law_authority_reads read (fence_exchangeAccountId input) s Hread)
    as Hsame. rewrite H1 in Hsame. cbn in Hsame. subst s1.
  apply method_bind_Ok in H as (? & [g1 s1] & H2 & H).
  apply on_guard_Ok in H2 as [Hs H2]. cbn in Hs, H2. subst s1.
  apply assertLocallyHeld_Ok in H2 as (-> & _ & _ & _).
  destruct a as [a|]; [|by apply on_guard_Ok in H as [_ H%lose_not_Ok]].
  destruct (sameOwnership r (Some (auth_runtimeOwnership a))) eqn:Hsame;
    [|by apply on_guard_Ok in H as [_ H%lose_not_Ok]]. apply same_ownership in Hsame.
  cbn [negb] in H. destruct (_ <=? _) eqn:Hexp in H; [by apply on_guard_Ok in H as [_ H%lose_not_Ok]|].
  apply Z.leb_gt in Hexp. apply method_bind_Ok in H as (? & w2 & H2 & H).
  apply plain_Ok in H2 as [-> Hallowed]. apply throw_if_Ret, negb_false_iff in Hallowed.
  assert (Hap : a = p).
  { apply method_bind_Ok in H as (? & ? & [= <- <-] & H).
    apply method_bind_Ok in H as (? & ? & _ & [= _ <-]). done. }
  subst a. split_and!; [done|done|by exists r| |done|done].
  eapply law_authority; [exact Hread|]. by rewrite H1.
Qed.

(** A method that keeps the guard's ownership and only reads the store. *)
Definition holds {A} (m : method world A) (w : world) : Prop :=
  keeps (fst w) (fst (fst (m w))) /\ snd (fst (m w)) = snd w.

Lemma holds_bind {A B} (m : method world A) (k : A -> method world B) w :
  holds m w -> (forall v w1, m w = (w1, Ok v) -> holds (k v) w1) -> holds (x ← m; k x) w.
Proof.
  unfold holds, mbind, method_bind. intros [Hg Hs] Hk. destruct (m w) as [w1 [v|x]]; [|done].
  cbn in Hg, Hs. destruct (Hk v w1 eq_refl) as [Hg' Hs']. split; [by etransitivity|congruence].
Qed.

Lemma holds_same {A} (m : method world A) w : fst (m w) = w -> holds m w.
Proof. unfold holds. by intros ->. Qed.

Lemma holds_guard {A} (m : method guard A) w : keeping m -> holds (on_guard m) w.
Proof.
  intros Hm. unfold holds, on_guard. specialize (Hm (fst w)). by destruct (m (fst w)).
Qed.

Lemma holds_store {A} (m : action S A) w : fst (m (snd w)) = snd w -> holds (on_store m) w.
Proof.
  unfold holds, on_store. destruct (m (snd w)) as [s' r]. by cbn; intros ->.
Qed.

Lemma holds_plain {A} (o : outcome A) w : holds (plain o) w.
Proof. by destruct o. Qed.

Lemma requireRecord_keeping : keeping requireRecord.
Proof. intros g. by rewrite requireRecord_eq. Qed.

Lemma enterFence_holds held now1 now2 input w : holds (enterFence held now1 now2 input) w.
Proof.
  unfold enterFence. apply holds_bind; [apply holds_plain|]. intros _ w1 _.
  apply holds_bind; [apply holds_plain|]. intros _ w2 _.
  apply holds_bind; [apply holds_guard, assertLocallyHeld_keeping|]. intros _ w3 _.
  apply holds_bind; [apply holds_guard, requireRecord_keeping|]. intros e w4 He.
  apply on_guard_Ok in He as [_ He]. rewrite requireRecord_eq in He.
  destruct (g_record (fst w3)) as [r|] eqn:Hr; [|discriminate]. injection He as Hw4 <-.
  destruct store_getCurrentExecutionAuthority as [read|] eqn:Hread; [|done].
  apply holds_bind; [by apply holds_store, law_authority_reads|]. intros a w5 Ha.
  apply on_store_Ok in Ha as [Hw5 _].
  apply holds_bind; [apply holds_guard, assertLocallyHeld_keeping|]. intros ? w6 Hw6.
  apply on_guard_Ok in Hw6 as [_ Hw6]. apply assertLocallyHeld_Ok in Hw6 as (Hw6 & _).
  assert (Hr6 : g_record (fst w6) = Some r) by congruence.
  destruct a as [a|]; [|apply holds_guard, lose_keeping].
  destruct (sameOwnership r _) eqn:Hs; [|apply holds_guard, lose_keeping].
  apply same_ownership in Hs. cbn [negb].
  destruct (_ <=? _); [apply holds_guard, lose_keeping|].
  apply holds_bind; [apply holds_plain|]. intros ? w7 Hw7. apply plain_Ok in Hw7 as [-> _].
  apply holds_bind; [by apply holds_same|]. intros g w8 Hw8. injection Hw8 as <- <-.
  apply holds_bind; [|intros ? w9 _; by apply holds_same]. split; [|done]. by eapply keeps_record.
Qed.

Lemma run_holds held now1 now2 input callback w :
  holds (runWithCurrentExecutionAuthority held now1 now2 input callback) w.
Proof.
  apply holds_bind; [apply enterFence_holds|]. intros p w1 _.
  apply holds_bind; [by apply holds_same|]. intros ? w2 _. by apply holds_same.
Qed.

Lemma assertCurrent_begin_holds held now atEpochMs w : holds (assertCurrent_begin held now atEpochMs) w.
Proof.
  unfold assertCurrent_begin. apply holds_bind; [apply holds_plain|]. intros ? w1 _.
  apply holds_bind; [apply holds_guard, assertLocallyHeld_keeping|]. intros ? w2 _.
  apply holds_bind; [apply holds_guard, requireRecord_keeping|]. intros e w3 _.
  apply holds_bind; [apply holds_store, law_getCurrent|]. intros p w4 _. by apply holds_same.
Qed.

Lemma assertCurrent_begin_Ok held now atEpochMs w w' e p :
  assertCurrent_begin held now atEpochMs w = (w', Ok (e, p)) -> g_record (fst w') = Some e.
Proof.
  unfold assertCurrent_begin. intros (? & w1 & H1 & H)%method_bind_Ok. apply plain_Ok in H1 as [-> _].
  apply method_bind_Ok in H as (? & w2 & _ & H). apply method_bind_Ok in H as (? & w3 & H3 & H).
  apply on_guard_Ok in H3 as [_ H3]. rewrite requireRecord_eq in H3.
  destruct (g_record (fst w2)) eqn:Hr; [|discriminate]. injection H3 as Hg <-.
  apply method_bind_Ok in H as (? & w4 & H4 & H). apply on_store_Ok in H4 as [H4 _].
  injection H as -> <- _. congruence.
Qed.

Lemma method_bind_eq {W A B} (m : method W A) (k : A -> method W B) w :
  (x ← m; k x) w = match m w with (w', Ok v) => k v w' | (w', Err x) => (w', Err x) end.
Proof. done. Qed.

Lemma markLost_eq reason g : REASON_CODE_PATTERN reason = true ->
  markLost reason g =
  if (g_status g === GuardStatus.LOST)
     && (negb (isCleanupFenceReason (g_lossReason g)) || isCleanupFenceReason (Some reason))
  then (g, Ok false) else (with_lost reason g, Ok true).
Proof.
  intros Hr. unfold markLost. rewrite Hr. cbn [negb throw_if]. rewrite !method_bind_eq.
  cbn [plain]. rewrite method_bind_eq. cbn [reads id].
  destruct (g_status g === GuardStatus.LOST); [|done]. by destruct (_ || _).
Qed.

Lemma lose_record {A} reason g : REASON_CODE_PATTERN reason = true ->
  g_record (fst (lose reason g : guard * result js_error A)) = g_record g.
Proof.
  intros Hr. unfold lose. rewrite method_bind_eq, markLost_eq by done. by destruct (_ && _).
Qed.

Lemma lose_unowned {A} g : g_status g = GuardStatus.UNOWNED ->
  exists x, (lose "PROCESS_LOCK_LOST" : method guard A) g = (with_lost "PROCESS_LOCK_LOST" g, Err x).
Proof.
  intros Hs. unfold lose. rewrite method_bind_eq, markLost_eq by done. rewrite Hs. cbn. by eexists.
Qed.

(** The one acquisition of a guard. *)
Lemma acquire_begin_cases held token mode atEpochMs w w' r :
  acquire_begin held token mode atEpochMs w = (w', r) ->
  (w' = w /\ exists x, r = Err x) \/
  (g_acquisitionReserved (fst w) = false /\ g_status (fst w) = GuardStatus.UNOWNED /\
   g_acquisitionReserved (fst w') = true /\ g_record (fst w') = g_record (fst w) /\
   g_status (fst w') ≠ GuardStatus.OWNED /\
   ((snd w' = snd w /\ exists x, r = Err x) \/
    (store_step (snd w) (snd w') /\ forall a, r = Ok a ->
       own_ownerToken (acquisition_record a) = token /\
       beyond_generation (own_generation (acquisition_record a)) (snd w')))).
Proof.
  destruct w as [g s]. unfold acquire_begin. rewrite method_bind_eq. cbn [reads fst snd].
  destruct (_ || _) eqn:Hg; rewrite method_bind_eq; cbn [raise mret method_ret].
  { intros [= <- <-]. left. eauto. }
  apply orb_false_iff in Hg as [Hst Hres]. destruct_bools.
  rewrite method_bind_eq. cbn [on_guard writes fst snd]. rewrite method_bind_eq.
  intros Hacq. right. destruct held; cbn [negb mret method_ret] in Hacq.
  - unfold on_store in Hacq. cbn [fst snd] in Hacq.
    pose proof (law_acquire_step {| ao_ownerToken := token; ao_executionMode := mode;
      ao_acquiredAtEpochMs := atEpochMs;
      ao_expiresAtEpochMs := atEpochMs + RUNTIME_OWNERSHIP_TTL_MS |} s) as Hstep.
    destruct (store_acquireAfterProcessLock _ s) as [s' o] eqn:Ha. injection Hacq as <- <-.
    cbn in *. split_and!; [done..|congruence|]. right. split; [exact Hstep|].
    intros a Ha'. destruct o as [a'|]; [|discriminate]. injection Ha' as ->.
    by apply law_acquire in Ha as (_ & Ht & Hb & _).
  - destruct (lose_unowned (A := unit) (reserve g)) as [x Hx]; [done|].
    unfold on_guard in Hacq. cbn [fst] in Hacq. rewrite Hx in Hacq. injection Hacq as <- <-. cbn.
    split_and!; [done..|]. left. eauto.
Qed.

Lemma acquire_finish_effect held a g :
  let g' := fst (acquire_finish held a g) in
  g_record g' = Some (acquisition_record a) /\
  g_acquisitionReserved g' = g_acquisitionReserved g /\
  (g_status g = GuardStatus.LOST -> g_status g' = GuardStatus.LOST).
Proof.
  unfold acquire_finish. rewrite method_bind_eq. cbn [writes]. rewrite method_bind_eq.
  cbn [reads id]. rewrite method_bind_eq.
  set (g1 := with_record _ _ g).
  destruct (_ || _) eqn:Hl.
  - pose proof (lose_keeping (A := unit) "PROCESS_LOCK_LOST" g1) as (_ & Hres & Hst).
    pose proof (lose_record (A := unit) "PROCESS_LOCK_LOST" g1 eq_refl) as Hrec.
    destruct (lose_Err (A := unit) "PROCESS_LOCK_LOST" g1) as [x Hx].
    destruct (lose "PROCESS_LOCK_LOST" g1) as [g2 r]. cbn [snd] in Hx. subst r. cbn [fst] in *.
    split_and!; [by rewrite Hrec|by rewrite Hres|].
    intros Hs. destruct Hst as [Hst|Hst]; [by rewrite Hst|done].
  - cbn. split_and!; [done..|]. intros Hs. destruct_bools. by cbn in *.
Qed.

(** ** The invariant of a process *)

Record process_ok (token : string) (y : system) : Prop := {
  ok_record r : g_record (sy_guard y) = Some r ->
    own_ownerToken r = token /\ beyond_generation (own_generation r) (sy_store y) /\
    g_acquisitionReserved (sy_guard y) = true /\ sy_acquisition y = None;
  ok_acquisition a : sy_acquisition y = Some a ->
    own_ownerToken (acquisition_record a) = token /\
    beyond_generation (own_generation (acquisition_record a)) (sy_store y) /\
    g_acquisitionReserved (sy_guard y) = true /\ g_record (sy_guard y) = None;
  ok_assertions e p : (e, p) ∈ sy_assertions y ->
    exists r, g_record (sy_guard y) = Some r /\ ownership e = ownership r;
}.

Lemma keeps_same_record g g' r' : keeps g g' -> g_record g' = Some r' ->
  exists r, g_record g = Some r /\ ownership r' = ownership r.
Proof.
  intros (Hr & _) Hr'. rewrite Hr' in Hr. destruct (g_record g) as [r|]; [|discriminate].
  apply (inj Some) in Hr. by exists r.
Qed.

(** Whatever keeps the guard's ownership while the store moves on keeps the
    invariant. *)
Lemma process_ok_keeps token y g' s' :
  process_ok token y -> keeps (sy_guard y) g' ->
  s' = sy_store y \/ store_step (sy_store y) s' ->
  process_ok token (on_system (g', s') y).
Proof.
  intros [Hrec Hacq Hass] Hk Hs.
  assert (Hb : forall g, beyond_generation g (sy_store y) -> beyond_generation g s').
  { intros g Hg. destruct Hs as [->|Hs]; [done|by eapply law_beyond_step]. }
  destruct Hk as (Hown & Hres & Hst). split; cbn.
  - intros r Hr. rewrite Hr in Hown. destruct (g_record (sy_guard y)) as [r0|]; [|discriminate].
    cbn in Hown. injection Hown as Ht Hg _ _. destruct (Hrec r0 eq_refl) as (Ht0 & Hb0 & Hr0 & Ha0).
    split_and!; [congruence|rewrite Hg; auto|congruence|done].
  - intros a Ha. destruct (Hacq a Ha) as (Ht & Hbg & Hr & Hn). rewrite Hn in Hown.
    split_and!; [done|auto|congruence|]. by destruct (g_record g'); [discriminate Hown|].
  - intros e p Hin. destruct (Hass e p Hin) as (r & Hr & He). rewrite Hr in Hown.
    destruct (g_record g') as [r'|]; [|discriminate]. apply (inj Some) in Hown.
    exists r'. split; [done|]. unfold ownership in *. congruence.
Qed.

Lemma process_ok_step token y y' :
  process_ok token y -> system_step token y y' -> process_ok token y'.
Proof.
  intros Hok. destruct 1 as [s' Hs|held mode atMs [g' s'] r Hb|held a Ha|reason|held now
    |held now atMs [g' s'] r Hb|held now atMs e p Hin|held now1 now2 input callback|record|l|l].
  - apply process_ok_keeps; auto. reflexivity.
  - apply acquire_begin_cases in Hb. cbn [of_system fst snd] in Hb.
    destruct Hb as [[[= -> ->] [x ->]]|(Hres & Hst & Hres' & Hrec' & _ & Hs)].
    { by destruct y. }
    assert (Hn : g_record (sy_guard y) = None).
    { destruct (g_record (sy_guard y)) as [r0|] eqn:Hr0; [|done].
      apply (ok_record _ _ Hok) in Hr0 as (_ & _ & Hc & _). congruence. }
    assert (Hno : sy_acquisition y = None).
    { destruct (sy_acquisition y) as [a|] eqn:Ha; [|done].
      apply (ok_acquisition _ _ Hok) in Ha as (_ & _ & Hc & _). congruence. }
    assert (Hnil : sy_assertions y = []).
    { destruct (sy_assertions y) as [|[e p] l] eqn:Hl; [done|].
      destruct (ok_assertions _ _ Hok e p) as (r0 & Hr0 & _); [rewrite Hl; left|congruence]. }
    destruct r as [a|x].
    + split; cbn; rewrite ?Hnil, ?Hrec', ?Hn; [done| |by intros ? ? ?%elem_of_nil].
      intros a' [= <-]. destruct Hs as [[_ [x Hx]]|[_ Ha]]; [discriminate|].
      by destruct (Ha a eq_refl).
    + split; cbn; rewrite ?Hnil, ?Hrec', ?Hn, ?Hno; [done..|by intros ? ? ?%elem_of_nil].
  - pose proof (acquire_finish_effect held a (sy_guard y)) as (Hr & Hres & _).
    destruct (ok_acquisition _ _ Hok a Ha) as (Ht & Hb & Hr0 & Hn).
    split; cbn; rewrite ?Hr, ?Hres; [|done|].
    + intros r [= <-]. done.
    + intros e p Hin. destruct (ok_assertions _ _ Hok e p Hin) as (r0 & Hr' & _). congruence.
  - apply process_ok_keeps; auto. apply markLost_keeping.
  - apply process_ok_keeps; auto. apply assertLocallyHeld_keeping.
  - pose proof (assertCurrent_begin_holds held now atMs (of_system y)) as [Hk Hs].
    rewrite Hb in Hk, Hs. cbn in Hk, Hs.
    assert (Hok' : process_ok token (on_system (g', s') y)) by (apply process_ok_keeps; auto).
    destruct r as [[e p]|x]; [|done]. apply assertCurrent_begin_Ok in Hb. cbn in Hb.
    destruct Hok' as [Hrec Hacq Hass]. split; cbn; [done..|].
    intros e' p' [[= -> ->]|Hin]%elem_of_cons; [by exists e|by apply (Hass e' p')].
  - apply process_ok_keeps; auto. destruct (ok_assertions _ _ Hok e p Hin) as (r & Hr & He).
    by eapply assertCurrent_finish_keeps.
  - pose proof (run_holds held now1 now2 input callback (of_system y)) as [Hk Hs].
    destruct (fst (runWithCurrentExecutionAuthority _ _ _ _ _ _)) as [g' s'].
    apply process_ok_keeps; auto.
  - apply process_ok_keeps; auto. apply acceptRenewal_keeping.
  - apply process_ok_keeps; auto. apply onLost_keeping.
  - apply process_ok_keeps; auto. apply unsubscribe_keeping.
Qed.

Lemma process_ok_started token held s : process_ok token (started held s).
Proof.
  split; cbn; [by destruct held|done|by intros ? ? ?%elem_of_nil].
Qed.

Lemma process_reaches_ok token y : process_reaches token y -> process_ok token y.
Proof.
  intros (held & s & Hr). pose proof (process_ok_started token held s) as Hok.
  induction Hr as [y|y y' y'' Hstep Hr IH]; [done|]. apply IH. by eapply process_ok_step.
Qed.

(** What a step does to the store and to the guard. *)
Lemma step_moves token y y' :
  process_ok token y -> system_step token y y' ->
  (sy_store y' = sy_store y \/ store_step (sy_store y) (sy_store y')) /\
  (keeps (sy_guard y) (sy_guard y') \/
   g_record (sy_guard y) = None /\
   (g_status (sy_guard y) = GuardStatus.LOST -> g_status (sy_guard y') = GuardStatus.LOST)).
Proof.
  intros Hok. destruct 1 as [s' Hs|held mode atMs [g' s'] r Hb|held a Ha|reason|held now
    |held now atMs [g' s'] r Hb|held now atMs e p Hin|held now1 now2 input callback|record|l|l].
  - split; [by right|]. left. reflexivity.
  - apply acquire_begin_cases in Hb. cbn [of_system fst snd] in Hb.
    assert (Hy : forall z, sy_guard (match r with Ok a => waits_acquisition (Some a) | Err _ => id end z)
                             = sy_guard z /\
                           sy_store (match r with Ok a => waits_acquisition (Some a) | Err _ => id end z)
                             = sy_store z) by (by destruct r).
    destruct (Hy (on_system (g', s') y)) as [-> ->]. cbn.
    destruct Hb as [[[= -> ->] _]|(Hres & Hst & _ & _ & _ & Hs)].
    { split; [by left|left; reflexivity]. }
    split; [destruct Hs as [[-> _]|[Hs _]]; auto|]. right. split; [|congruence].
    destruct (g_record (sy_guard y)) as [r0|] eqn:Hr0; [|done].
    apply (ok_record _ _ Hok) in Hr0 as (_ & _ & Hc & _). congruence.
  - split; [by left|]. right. destruct (ok_acquisition _ _ Hok a Ha) as (_ & _ & _ & Hn).
    split; [done|]. apply acquire_finish_effect.
  - split; [by left|]. left. apply markLost_keeping.
  - split; [by left|]. left. apply assertLocallyHeld_keeping.
  - pose proof (assertCurrent_begin_holds held now atMs (of_system y)) as [Hk Hs].
    rewrite Hb in Hk, Hs. cbn in Hk, Hs. destruct r; cbn; auto.
  - split; [by left|]. left. destruct (ok_assertions _ _ Hok e p Hin) as (r & Hr & He).
    by eapply assertCurrent_finish_keeps.
  - pose proof (run_holds held now1 now2 input callback (of_system y)) as [Hk Hs]. cbn. auto.
  - split; [by left|]. left. apply acceptRenewal_keeping.
  - split; [by left|]. left. apply onLost_keeping.
  - split; [by left|]. left. apply unsubscribe_keeping.
Qed.

Lemma reaches_lost token y y' :
  process_ok token y -> rtc (system_step token) y y' ->
  g_status (sy_guard y) = GuardStatus.LOST -> g_status (sy_guard y') = GuardStatus.LOST.
Proof.
  intros Hok Hr. induction Hr as [y|y y' y'' Hstep Hr IH]; [done|]. intros Hs.
  apply IH; [by eapply process_ok_step|].
  destruct (step_moves _ _ _ Hok Hstep) as [_ [(_ & _ & [Hk|Hk])|[_ Hl]]]; [congruence|done|auto].
Qed.

Lemma reaches_ownership token y y' r g :
  process_ok token y -> rtc (system_step token) y y' ->
  g_record (sy_guard y) = Some r -> beyond_generation g (sy_store y) ->
  beyond_generation g (sy_store y') /\
  exists r', g_record (sy_guard y') = Some r' /\ ownership r' = ownership r.
Proof.
  intros Hok Hr. revert r. induction Hr as [y|y y' y'' Hstep Hr IH]; intros r Hrec Hb; [by eauto|].
  destruct (step_moves _ _ _ Hok Hstep) as [Hs [Hk|[Hn _]]]; [|congruence].
  pose proof (process_ok_step _ _ _ Hok Hstep) as Hok'. destruct Hk as (Hown & _).
  rewrite Hrec in Hown. destruct (g_record (sy_guard y')) as [r'|] eqn:Hr'; [|discriminate].
  apply (inj Some) in Hown. destruct (IH Hok' r' eq_refl) as (Hb' & r'' & Hr'' & Ho).
  { destruct Hs as [->|Hs]; [done|by eapply law_beyond_step]. }
  split; [done|]. exists r''. split; [done|]. congruence.
Qed.

(** ** Theorems *)

(** The callback of [runWithCurrentExecutionAuthority] runs only while the
    process lock is held and the guard is OWNED, and in the very step in which
    the store shows this process, with the ownership it acquired, as the owner
    of the runtime, not expired, and the execution state as RUNNING, without
    kill switch, in the expected mode and gate, for the account. *)
Theorem fence_is_current token y held now1 now2 input w p :
  process_reaches token y ->
  enterFence held now1 now2 input (of_system y) = (w, Ok p) ->
  held = true /\ g_status (sy_guard y) = GuardStatus.OWNED /\
  owner (sy_store y) = Some (auth_runtimeOwnership p) /\
  own_ownerToken (auth_runtimeOwnership p) = token /\
  fence_atEpochMs input < own_expiresAtEpochMs (auth_runtimeOwnership p) /\
  exists state, auth_executionState p = Some state /\
    view_exchangeAccountId state = fence_exchangeAccountId input /\
    view_systemStatus state = SysStatus.RUNNING /\ view_killSwitchActive state = false /\
    view_executionMode state = fence_expectedExecutionMode input /\
    view_liveExecutionGate state = fence_expectedLiveExecutionGate input.
Proof.
  intros Hy (Hh & Hs & (r & Hr & Ho & _) & Hown & Hexp & Hall)%enterFence_Ok.
  destruct (ok_record _ _ (process_reaches_ok _ _ Hy) r Hr) as (Ht & _).
  split_and!; [done..| |done|]; [injection Ho; congruence|].
  destruct (auth_executionState p) as [st|]; [|discriminate]. exists st. unfold isExecutionAllowed in Hall.
  destruct_bools. by split_and!.
Qed.

(** A lost ownership stays lost: whatever happens to the process from then
    on, its guard is LOST, every local assertion fails as such, the fence lets
    nothing run and no new acquisition begins. *)
Theorem lost_is_final token y y' :
  process_reaches token y -> g_status (sy_guard y) = GuardStatus.LOST ->
  rtc (system_step token) y y' ->
  g_status (sy_guard y') = GuardStatus.LOST /\
  (forall held now, exists m, snd (assertLocallyHeld held now (sy_guard y'))
     = Err (RuntimeOwnershipGuardError OwnershipCode.RUNTIME_OWNERSHIP_LOST m)) /\
  (forall held now1 now2 input, exists x, snd (enterFence held now1 now2 input (of_system y')) = Err x) /\
  (forall held mode at_, exists x, snd (acquire_begin held token mode at_ (of_system y')) = Err x).
Proof.
  intros Hy Hs Hr. pose proof (reaches_lost _ _ _ (process_reaches_ok _ _ Hy) Hr Hs) as Hl.
  split_and!; [done| | |].
  - intros held now. unfold assertLocallyHeld. rewrite method_bind_eq. cbn [reads id].
    rewrite Hl. by eexists.
  - intros held now1 now2 input. destruct (enterFence _ _ _ _ _) as [w [p|x]] eqn:He; [|by eexists].
    apply enterFence_Ok in He as (_ & Hs' & _). congruence.
  - intros held mode at_. destruct (acquire_begin _ _ _ _ _) as [w r] eqn:Hb.
    apply acquire_begin_cases in Hb. destruct Hb as [[_ [x ->]]|(_ & Hst & _)]; [by exists x|].
    cbn in Hst. congruence.
Qed.

(** A process that was superseded sends nothing: once another process
    acquires the ownership that this one held, the fence of this one lets
    nothing run, whatever happens afterwards, even before it has noticed. *)
Theorem superseded_process_is_fenced_off token y r other s a y' held now1 now2 input :
  process_reaches token y -> g_record (sy_guard y) = Some r ->
  store_acquireAfterProcessLock other (sy_store y) = (s, Ret a) ->
  rtc (system_step token) (on_system (sy_guard y, s) y) y' ->
  exists x, snd (enterFence held now1 now2 input (of_system y')) = Err x.
Proof.
  intros Hy Hr Ha Hsteps. pose proof (process_reaches_ok _ _ Hy) as Hok.
  pose proof (law_acquire_step other (sy_store y)) as Hstep. rewrite Ha in Hstep.
  destruct (law_acquire _ _ _ _ Ha) as (_ & _ & Hb & Hlt).
  destruct (ok_record _ _ Hok r Hr) as (_ & Hbr & _). apply Hlt in Hbr.
  assert (Hok' : process_ok token (on_system (sy_guard y, s) y))
    by (apply process_ok_keeps; [done|reflexivity|by right]).
  destruct (reaches_ownership _ _ _ r _ Hok' Hsteps Hr Hb) as (Hb' & r' & Hr' & Ho).
  destruct (enterFence _ _ _ _ _) as [w [p|x]] eqn:He; [|by eexists].
  apply enterFence_Ok in He as (_ & _ & (r2 & Hr2 & Ho2 & _) & Hown & _).
  pose proof (law_beyond_owner _ _ _ Hb' Hown) as Hge.
  rewrite Hr' in Hr2. injection Hr2 as <-. injection Ho2 as _ Hg2 _ _. injection Ho as _ Hg _ _. lia.
Qed.

End WithStore.
