(* ===== verification/OwnershipFencing.v ===== *)
(** * OwnershipFencing: stores under the guard, and orders behind it

    The in-memory ownership store implements the interface of the guard, alone
    and with the execution state beside it.  The execution service, whose fence
    is a guard of this process, submits orders only as the current owner of the
    runtime.  The theorems of [OwnershipGuard] run on a sample process. *)

From Stdlib Require Import ZArith Lia.
From stdpp Require Import base option list strings relations.
From S2P Require Import Prelude Num Types Text OperatorState RuntimeOwnership Effects.
From S2P Require Import ExecutionRecords ExecutionHelpers ExecutionService ExecutionTheory.
From S2P Require Import ExecutionTimeline ExecutionGuarantees ExecutionScenarios PilotScenarios.
From S2P Require Import OwnershipGuard.

Local Open Scope string_scope.
Local Open Scope Z_scope.
Local Open Scope js_scope.
Local Open Scope bool_scope.

(** ** The in-memory store *)

#[export] Instance in_memory_ownership : OwnershipStore InMemoryRuntimeOwnershipStore := {|
  store_getCurrent := getCurrent;
  store_getCurrentExecutionAuthority := Some getCurrentExecutionAuthority;
  store_acquireAfterProcessLock := acquireAfterProcessLock;
|}.

Lemma getCurrent_reads s : fst (getCurrent s) = s.
Proof. unfold getCurrent. rewrite act_gets_bind, act_lift_bind. by destruct (validate_current _). Qed.

Lemma authority_reads account s : fst (getCurrentExecutionAuthority account s) = s.
Proof.
  unfold getCurrentExecutionAuthority. rewrite act_gets_bind, act_lift_bind.
  by destruct (validate_current _).
Qed.

Lemma authority_current account s a :
  snd (getCurrentExecutionAuthority account s) = Ret (Some a) ->
  current s = Some (auth_runtimeOwnership a) /\ auth_executionState a = None.
Proof.
  unfold getCurrentExecutionAuthority. rewrite act_gets_bind, act_lift_bind.
  destruct (validate_current _) as [u|e]; [|discriminate].
  destruct (current s) as [r|]; [|discriminate]. by intros [= <-].
Qed.

Lemma acquire_token input s s' a :
  acquireAfterProcessLock input s = (s', Ret a) ->
  own_ownerToken (acquisition_record a) = ao_ownerToken input.
Proof.
  unfold acquireAfterProcessLock. rewrite act_lift_bind.
  destruct (validateAcquireRuntimeOwnershipInput input); [|discriminate].
  rewrite act_gets_bind, act_lift_bind. destruct (validate_current _); [|discriminate].
  rewrite act_bind_eq. destruct (maximumEventTimestamp s) as [s1 [m|e]]; [|discriminate].
  rewrite act_lift_bind. destruct (assertNoTimestampRollback _ _); [|discriminate].
  rewrite act_gets_bind, act_lift_bind. destruct (max_over _ _ _); [|discriminate].
  rewrite act_lift_bind. destruct (throw_if _ _); [|discriminate].
  rewrite act_lift_bind. destruct (validateRuntimeOwnershipRecord _); [|discriminate].
  rewrite act_modify_bind, act_bind_eq.
  destruct (appendEvent _ _ _ _ _ _) as [s2 [u|e]]; [|discriminate]. by intros [= _ <-].
Qed.

(** Other processes call the store. *)
Definition store_used (s s' : InMemoryRuntimeOwnershipStore) : Prop :=
  exists calls, s' = performs calls s.

#[export] Program Instance in_memory_ownership_laws :
    OwnershipStoreLaws InMemoryRuntimeOwnershipStore := {|
  owner := current;
  beyond_generation := beyond;
  store_step := store_used;
|}.
Next Obligation. apply getCurrent_reads. Qed.
Next Obligation. intros read account s [= <-]. apply authority_reads. Qed.
Next Obligation. intros read account s a [= <-] Ha. by apply authority_current in Ha as [? _]. Qed.
Next Obligation.
  intros input s s' a Ha. pose proof (acquire_token _ _ _ _ Ha) as Ht.
  apply acquire_generation in Ha as (Hg & Hc & Hb). split_and!; [done..|].
  intros g [Hh _]. lia.
Qed.
Next Obligation. intros input s. by exists [CallAcquire input]. Qed.
Next Obligation. intros g s r [_ Hc]. apply Hc. Qed.
Next Obligation. intros g s s' Hb [calls ->]. by apply beyond_performs. Qed.

(** ** With the execution state *)

(** A store that shows the execution state of the moment with the owner, as the
    persistent store does in one read. *)
Record PersistedOwnership := {
  po_ownership : InMemoryRuntimeOwnershipStore;
  po_state : option ExecutionStateView;
}.

Definition persisted_action {A} (m : action InMemoryRuntimeOwnershipStore A)
    : action PersistedOwnership A := fun p =>
  let '(s, r) := m (po_ownership p) in ({| po_ownership := s; po_state := po_state p |}, r).

Definition persisted_authority (account : string)
    : action PersistedOwnership (option PersistedRuntimeExecutionAuthority) := fun p =>
  (p, match snd (getCurrentExecutionAuthority account (po_ownership p)) with
      | Ret a => Ret ((fun a => {| auth_runtimeOwnership := auth_runtimeOwnership a;
                                   auth_executionState := po_state p |}) <$> a)
      | Throw e => Throw e
      end).

#[export] Instance persisted_ownership : OwnershipStore PersistedOwnership := {|
  store_getCurrent := persisted_action getCurrent;
  store_getCurrentExecutionAuthority := Some persisted_authority;
  store_acquireAfterProcessLock := fun input => persisted_action (acquireAfterProcessLock input);
|}.

#[export] Program Instance persisted_ownership_laws : OwnershipStoreLaws PersistedOwnership := {|
  owner := fun p => current (po_ownership p);
  beyond_generation := fun g p => beyond g (po_ownership p);
  store_step := fun p p' => store_used (po_ownership p) (po_ownership p');
|}.
Next Obligation.
  intros p. cbn. unfold persisted_action. pose proof (getCurrent_reads (po_ownership p)) as H.
  destruct (getCurrent (po_ownership p)) as [s r]. cbn in *. subst s. by destruct p.
Qed.
Next Obligation. by intros read account p [= <-]. Qed.
Next Obligation.
  intros read account p a [= <-]. unfold persisted_authority. cbn.
  destruct (snd (getCurrentExecutionAuthority account (po_ownership p))) as [[b|]|e] eqn:Hb;
    [|discriminate..]. intros [= <-]. by apply authority_current in Hb as [? _].
Qed.
Next Obligation.
  intros input p p' a. cbn. unfold persisted_action.
  destruct (acquireAfterProcessLock input (po_ownership p)) as [s r] eqn:Hr. intros [= <- ->]. cbn.
  pose proof (acquire_token _ _ _ _ Hr) as Ht.
  apply acquire_generation in Hr as (Hg & Hc & Hb). split_and!; [done..|]. intros g [Hh _]. lia.
Qed.
Next Obligation.
  intros input p. cbn. unfold persisted_action.
  exists [CallAcquire input]. cbn. by destruct (acquireAfterProcessLock input (po_ownership p)).
Qed.
Next Obligation. intros g p r [_ Hc]. apply Hc. Qed.
Next Obligation. intros g p p' Hb [calls Hc]. cbn in *. rewrite Hc. by apply beyond_performs. Qed.

(** ** Orders behind the guard *)

Section Fenced.
Context {S : Type} {HS : OwnershipStore S} {HL : OwnershipStoreLaws S}.
Context (sha256 : string -> string) (deps : ExecutionDependencies).
Context (input : SubmitOrderFromDecisionInput).
(** The token of this process. *)
Context (token : string).

(** The service entered its fence through a guard of this process. *)
Definition fenced_by_guard (h : history) : Prop :=
  forall fence_input, Asked (EnterFence fence_input) (Ok true) ∈ h ->
  exists (y : system) held now1 now2 w p,
    process_reaches token y /\ enterFence held now1 now2 fence_input (of_system y) = (w, Ok p).


End Fenced.

(** ** A sample process *)

Definition running_view : ExecutionStateView := {|
  view_exchangeAccountId := "primary"; view_executionMode := Mode.DRY_RUN;
  view_liveExecutionGate := Gate.DISABLED; view_systemStatus := SysStatus.RUNNING;
  view_killSwitchActive := false;
|}.

Definition acquired_at : Z := 1787284790000.

Definition fresh_process : system := started true
  {| po_ownership := {| current := None; events := []; nextEventId := 1 |};
     po_state := Some running_view |}.

Definition sample_begin : (RuntimeOwnershipGuard * PersistedOwnership)
    * result js_error RuntimeOwnershipAcquisition :=
  Eval vm_compute in acquire_begin true token_a Mode.DRY_RUN acquired_at (of_system fresh_process).

Definition sample_acquisition : RuntimeOwnershipAcquisition :=
  match snd sample_begin with
  | Ok a => a
  | Err _ => Build_RuntimeOwnershipAcquisition
      (Build_RuntimeOwnershipRecord "" 0 Mode.DRY_RUN 0 0 0) false
  end.

Definition acquiring_process : system :=
  waits_acquisition (Some sample_acquisition) (on_system (fst sample_begin) fresh_process).

Definition owning_process : system :=
  waits_acquisition None
    (guard_moves (fst (acquire_finish true sample_acquisition (sy_guard acquiring_process)))
       acquiring_process).

Lemma owning_process_reached : process_reaches token_a owning_process.
Proof.
  exists true, (sy_store fresh_process).
  eapply rtc_l; [apply (acquire_begin_step token_a fresh_process true Mode.DRY_RUN acquired_at
                          (fst sample_begin) (snd sample_begin)); vm_compute; reflexivity|].
  eapply rtc_l; [apply (acquire_finish_step token_a acquiring_process true sample_acquisition);
                 vm_compute; reflexivity|]. apply rtc_refl.
Qed.

Definition sample_fence : AssertCurrentExecutionAuthorityInput := {|
  fence_atEpochMs := 1787284800000; fence_exchangeAccountId := "primary";
  fence_expectedExecutionMode := Mode.DRY_RUN; fence_expectedLiveExecutionGate := Gate.DISABLED;
|}.

Definition sample_entered : (RuntimeOwnershipGuard * PersistedOwnership)
    * result js_error PersistedRuntimeExecutionAuthority :=
  Eval vm_compute in
    enterFence true 1787284799999 1787284800001 sample_fence (of_system owning_process).

Definition sample_authority : PersistedRuntimeExecutionAuthority :=
  match snd sample_entered with
  | Ok p => p
  | Err _ => Build_PersistedRuntimeExecutionAuthority
      (Build_RuntimeOwnershipRecord "" 0 Mode.DRY_RUN 0 0 0) None
  end.

Lemma sample_enters :
  enterFence true 1787284799999 1787284800001 sample_fence (of_system owning_process)
  = (fst sample_entered, Ok sample_authority).
Proof. vm_compute. reflexivity. Qed.

Lemma fence_is_current_witness :
  owner (sy_store owning_process) = Some (auth_runtimeOwnership sample_authority) /\
  own_generation (auth_runtimeOwnership sample_authority) = 1.
Proof.
  split; [|vm_compute; reflexivity].
  apply (fence_is_current token_a owning_process true 1787284799999 1787284800001 sample_fence _ _
           owning_process_reached sample_enters).
Defined.

(** Its process lock is gone, and it shuts down. *)
Definition lost_process : system :=
  guard_moves (fst (markLost "PROCESS_LOCK_LOST" (sy_guard owning_process))) owning_process.

Lemma lost_process_reached : process_reaches token_a lost_process.
Proof.
  destruct owning_process_reached as (held & s & Hr). exists held, s.
  eapply rtc_r; [exact Hr|apply lost_step].
Qed.

Lemma lost_is_final_witness :
  g_status (sy_guard lost_process) = GuardStatus.LOST /\
  exists x, snd (enterFence true 0 0 sample_fence (of_system (guard_moves
    (fst (markLost "RUNTIME_SHUTDOWN" (sy_guard lost_process))) lost_process))) = Err x.
Proof.
  split; [vm_compute; reflexivity|].
  apply (lost_is_final token_a lost_process _ lost_process_reached (eq_refl _)
           (rtc_once _ _ (lost_step token_a lost_process "RUNTIME_SHUTDOWN"))).
Defined.

(** Another process takes the ownership over. *)
Definition taken_over : PersistedOwnership * outcome RuntimeOwnershipAcquisition :=
  Eval vm_compute in
    store_acquireAfterProcessLock (acquire_at token_b 1787284795000) (sy_store owning_process).

Lemma superseded_process_is_fenced_off_witness :
  g_status (sy_guard owning_process) = GuardStatus.OWNED /\
  exists x, snd (enterFence true 1787284799999 1787284800001 sample_fence
    (of_system (on_system (sy_guard owning_process, fst taken_over) owning_process))) = Err x.
Proof.
  split; [vm_compute; reflexivity|].
  apply (superseded_process_is_fenced_off token_a owning_process
           (acquisition_record sample_acquisition) (acquire_at token_b 1787284795000)
           (fst taken_over) (RuntimeOwnership.acquired (snd taken_over)) _ true 1787284799999 1787284800001
           sample_fence owning_process_reached).
  - vm_compute. reflexivity.
  - vm_compute. reflexivity.
  - apply rtc_refl.
Defined.

(** The fences a run entered. *)
Definition fence_of (ev : event) : option AssertCurrentExecutionAuthorityInput :=
  match ev with Asked e _ => match e with EnterFence i => Some i | _ => None end end.

Lemma sample_fenced : fenced_by_guard (S := PersistedOwnership) token_a (calls_of dry filled).
Proof.
  intros i Hin.
  assert (Hi : i ∈ omap fence_of (calls_of dry filled)).
  { apply list_elem_of_omap. eexists. split; [exact Hin|reflexivity]. }
  assert (Hf : omap fence_of (calls_of dry filled) = [sample_fence]) by (vm_compute; reflexivity).
  rewrite Hf in Hi. apply list_elem_of_singleton in Hi as ->.
  exists owning_process, true, 1787284799999, 1787284800001, (fst sample_entered), sample_authority.
  split; [apply owning_process_reached|apply sample_enters].
Qed.

