(* ===== verification/SnapshotBinding.v ===== *)
(** * SnapshotBinding: is what the exchange shows the order that was looked up?

    [modules/reconciliation/exchange-order-snapshot-binding.ts]: a snapshot is
    used only when it answers the query and agrees with the local order on
    everything the order fixed.  The snapshot has the type the reader gives it,
    so what is left of the shape checks are the texts that must not be empty,
    the decimals and the numbers of its raw JSON. *)

From Stdlib Require Import ZArith Lia Ascii.
From stdpp Require Import base option list strings.
From S2P Require Import Prelude Num Types Text NumText Decimals OrderRecords ExecutionRecords.

Local Open Scope string_scope.
Local Open Scope js_scope.
Local Open Scope bool_scope.

Record ExchangeOrderLookupIdentity := {
  query_uuid : option string;
  query_identifier : option string;
}.

(** ** Decimals *)

Definition normalizeNonNegativeDecimal (value label : string) : outcome string :=
  match match_digits_dot value with
  | None => Throw (label ++ " must be a non-negative decimal string.")
  | Some (integerPart, fractionalPart) =>
      let integer := strip_leading_zeros integerPart in
      let fractional := strip_trailing_zeros fractionalPart in
      Ret (if (0 <? String.length fractional)%nat then integer ++ "." ++ fractional else integer)
  end.

Definition sameNullableDecimal (left right : option string) (label : string) : outcome bool :=
  match left, right with
  | Some l, Some r =>
      normalizedLeft ← normalizeNonNegativeDecimal l ("exchange " ++ label);
      normalizedRight ← normalizeNonNegativeDecimal r ("local " ++ label);
      Ret (normalizedLeft === normalizedRight)
  | None, None => Ret true
  | _, _ => Ret false
  end.

(** ["price" | "volume"] *)
Inductive IntentField : Set := PRICE | VOLUME.
#[export] Instance IntentField_eq_dec : EqDecision IntentField.
Proof. solve_decision. Defined.

Definition usesUpbitEightDecimalCanonicalization (side : OrderSide) (ordType : OrderType)
    (field : IntentField) : bool :=
  ((side === Side.bid) && (ordType === OrdType.price) && (field === PRICE))
  || ((side === Side.ask) && (ordType === OrdType.market) && (field === VOLUME)).

Definition sameOrderIntentDecimal (left right : option string) (label : string)
    (side : OrderSide) (ordType : OrderType) (field : IntentField) : outcome bool :=
  match left, right with
  | Some l, Some r =>
      if negb (usesUpbitEightDecimalCanonicalization side ordType field)
      then sameNullableDecimal left right label
      else
        canonicalLeft ← canonicalizeUpbitOrderDecimal l ("exchange " ++ label);
        canonicalRight ← canonicalizeUpbitOrderDecimal r ("local " ++ label);
        Ret (canonicalLeft === canonicalRight)
  | None, None => Ret true
  | _, _ => Ret false
  end.

Definition decimal (value label : string) : outcome string :=
  _ ← normalizeNonNegativeDecimal value label; Ret value.

Definition nullableDecimal (value : option string) (label : string) : outcome (option string) :=
  match value with
  | Some v => v ← decimal v label; Ret (Some v)
  | None => Ret None
  end.

(** ** Projection *)

Definition nonEmptyString (value : string) : outcome string :=
  _ ← throw_if (value === "") "Expected a non-empty string."; Ret value.

(** JSON values are copied; their numbers must be finite. *)
Fixpoint cloneJsonValue (value : json) : outcome json :=
  match value with
  | JNum x => _ ← throw_if (negb (is_finite x)) "Exchange snapshot raw JSON numbers must be finite.";
              Ret (JNum x)
  | JArr elements =>
      clones ← (fix clone_all (l : list json) : outcome (list json) :=
                  match l with
                  | [] => Ret []
                  | v :: l' => c ← cloneJsonValue v; cs ← clone_all l'; Ret (c :: cs)
                  end) elements;
      Ret (JArr clones)
  | JObj fields =>
      clones ← (fix clone_fields (l : list (string * json)) : outcome (list (string * json)) :=
                  match l with
                  | [] => Ret []
                  | (key, v) :: l' => c ← cloneJsonValue v; cs ← clone_fields l'; Ret ((key, c) :: cs)
                  end) fields;
      Ret (JObj clones)
  | _ => Ret value
  end.

Definition project_fill (fill : ExchangeFillSnapshot) : outcome ExchangeFillSnapshot :=
  price ← decimal (xfill_price fill) "exchange fill price";
  volume ← decimal (xfill_volume fill) "exchange fill volume";
  funds ← nullableDecimal (xfill_funds fill) "exchange fill funds";
  fee ← nullableDecimal (xfill_fee fill) "exchange fill fee";
  raw ← cloneJsonValue (xfill_raw fill);
  Ret {| xfill_tradeUuid := xfill_tradeUuid fill; xfill_side := xfill_side fill;
         xfill_price := price; xfill_volume := volume; xfill_funds := funds; xfill_fee := fee;
         xfill_createdAt := xfill_createdAt fill; xfill_raw := raw |}.

Definition projectFills (fills : list ExchangeFillSnapshot) : outcome (list ExchangeFillSnapshot) :=
  mapM_outcome project_fill fills.

Definition contradicts (asked : option string) (answer : option string) : bool :=
  match asked with Some _ => answer !== asked | None => false end.

Definition projectAndValidateSnapshot (candidate : ExchangeOrderSnapshot)
    (query : ExchangeOrderLookupIdentity) (order : OrderRecord) : outcome ExchangeOrderSnapshot :=
  let side := xorder_side candidate in
  let ordType := xorder_ordType candidate in
  let identifier := xorder_identifier candidate in
  uuid ← nonEmptyString (xorder_uuid candidate);
  state ← nonEmptyString (xorder_state candidate);
  price ← nullableDecimal (xorder_price candidate) "exchange snapshot price";
  volume ← nullableDecimal (xorder_volume candidate) "exchange snapshot volume";
  remainingVolume ← nullableDecimal (xorder_remainingVolume candidate)
    "exchange snapshot remainingVolume";
  executedVolume ← nullableDecimal (xorder_executedVolume candidate)
    "exchange snapshot executedVolume";
  paidFee ← nullableDecimal (xorder_paidFee candidate) "exchange snapshot paidFee";
  createdAt ← nonEmptyString (xorder_createdAt candidate);
  fills ← projectFills (xorder_fills candidate);
  raw ← cloneJsonValue (xorder_raw candidate);
  _ ← throw_if (contradicts (query_uuid query) (Some uuid)
                || contradicts (query_identifier query) identifier
                || (identifier !== Some (ord_identifier order))
                || contradicts (ord_upbitUuid order) (Some uuid)
                || (xorder_market candidate !== ord_market order)
                || (side !== ord_side order) || (ordType !== ord_ordType order))
        binding_error_message;
  samePrice ← sameOrderIntentDecimal price (ord_price order) "order price" side ordType PRICE;
  _ ← throw_if (negb samePrice) binding_error_message;
  sameVolume ← sameOrderIntentDecimal volume (ord_volume order) "order volume" side ordType VOLUME;
  _ ← throw_if (negb sameVolume || (xorder_timeInForce candidate !== ord_timeInForce order)
                || (xorder_smpType candidate !== ord_smpType order)) binding_error_message;
  Ret {| xorder_uuid := uuid; xorder_identifier := identifier;
         xorder_market := xorder_market candidate; xorder_side := side; xorder_ordType := ordType;
         xorder_state := state; xorder_price := price; xorder_volume := volume;
         xorder_timeInForce := xorder_timeInForce candidate;
         xorder_smpType := xorder_smpType candidate; xorder_remainingVolume := remainingVolume;
         xorder_executedVolume := executedVolume; xorder_paidFee := paidFee;
         xorder_createdAt := createdAt; xorder_fills := fills; xorder_raw := raw;
         xorder_json := xorder_json candidate |}.

(** Whatever goes wrong, one error is thrown. *)
Definition bindExchangeOrderSnapshot (candidate : ExchangeOrderSnapshot)
    (query : ExchangeOrderLookupIdentity) (order : OrderRecord)
    : ExchangeOrderSnapshot + js_error :=
  match projectAndValidateSnapshot candidate query order with
  | Ret snapshot => inl snapshot
  | Throw _ => inr ExchangeOrderSnapshotBindingError
  end.
