(* ===== verification/ReconciliationRecords.v ===== *)
(** * ReconciliationRecords: what reconciliation reports and asks

    The issues and summaries of [modules/reconciliation/interfaces.ts] with
    their JSON, the snapshot, run and checkpoint records of [domain/types.ts],
    and the calls of [modules/reconciliation/reconciliation-service.ts]: one
    constructor of [Recon.call] per method of a dependency it uses. *)

From Stdlib Require Import ZArith Lia.
From stdpp Require Import base option list strings.
From S2P Require Import Prelude Num Types Text NumText SubmissionBlocking OperatorState.
From S2P Require Import OrderRecords OrderRepository Effects ExecutionRecords SnapshotBinding.

Local Open Scope string_scope.
Local Open Scope js_scope.
Local Open Scope bool_scope.

(** ** Issues *)

Module Trigger.
Inductive ReconciliationTrigger : Set :=
| DIRECT_RUN | OPERATOR_SYNC | STARTUP_RECOVERY | SCHEDULER_PREFLIGHT.
Definition to_string (x : ReconciliationTrigger) : string :=
  match x with
  | DIRECT_RUN => "DIRECT_RUN"
  | OPERATOR_SYNC => "OPERATOR_SYNC"
  | STARTUP_RECOVERY => "STARTUP_RECOVERY"
  | SCHEDULER_PREFLIGHT => "SCHEDULER_PREFLIGHT"
  end.
End Trigger.

Module Issue.
Inductive ReconciliationIssueCode : Set :=
| OPEN_ORDER_NEEDS_REVIEW | ORDER_MARKED_FOR_RECOVERY | ORDER_STATUS_RECONCILED
| ORDER_FILLS_BACKFILLED | BALANCE_DRIFT_DETECTED | POSITION_DRIFT_DETECTED
| TERMINAL_ORDER_RECHECKED | ORDER_REFERENCE_MISSING | ORDER_LOOKUP_TRANSIENT_FAILURE
| ORDER_LOOKUP_DEFERRED | ORDER_IDENTIFIER_RECOVERY_UNCERTAIN | ORDER_IDENTIFIER_RECOVERED
| ORDER_SUBMISSION_ABSENCE_CONFIRMED | CANDIDATE_EVIDENCE_PROJECTION_FAILED
| CANDIDATE_EVIDENCE_PROJECTION_DEFERRED | EXCHANGE_ORDER_RECOVERED
| ORDER_HISTORY_LOOKUP_FAILED | DRY_RUN_ORDER_REPAIRED.
Definition to_string (x : ReconciliationIssueCode) : string :=
  match x with
  | OPEN_ORDER_NEEDS_REVIEW => "OPEN_ORDER_NEEDS_REVIEW"
  | ORDER_MARKED_FOR_RECOVERY => "ORDER_MARKED_FOR_RECOVERY"
  | ORDER_STATUS_RECONCILED => "ORDER_STATUS_RECONCILED"
  | ORDER_FILLS_BACKFILLED => "ORDER_FILLS_BACKFILLED"
  | BALANCE_DRIFT_DETECTED => "BALANCE_DRIFT_DETECTED"
  | POSITION_DRIFT_DETECTED => "POSITION_DRIFT_DETECTED"
  | TERMINAL_ORDER_RECHECKED => "TERMINAL_ORDER_RECHECKED"
  | ORDER_REFERENCE_MISSING => "ORDER_REFERENCE_MISSING"
  | ORDER_LOOKUP_TRANSIENT_FAILURE => "ORDER_LOOKUP_TRANSIENT_FAILURE"
  | ORDER_LOOKUP_DEFERRED => "ORDER_LOOKUP_DEFERRED"
  | ORDER_IDENTIFIER_RECOVERY_UNCERTAIN => "ORDER_IDENTIFIER_RECOVERY_UNCERTAIN"
  | ORDER_IDENTIFIER_RECOVERED => "ORDER_IDENTIFIER_RECOVERED"
  | ORDER_SUBMISSION_ABSENCE_CONFIRMED => "ORDER_SUBMISSION_ABSENCE_CONFIRMED"
  | CANDIDATE_EVIDENCE_PROJECTION_FAILED => "CANDIDATE_EVIDENCE_PROJECTION_FAILED"
  | CANDIDATE_EVIDENCE_PROJECTION_DEFERRED => "CANDIDATE_EVIDENCE_PROJECTION_DEFERRED"
  | EXCHANGE_ORDER_RECOVERED => "EXCHANGE_ORDER_RECOVERED"
  | ORDER_HISTORY_LOOKUP_FAILED => "ORDER_HISTORY_LOOKUP_FAILED"
  | DRY_RUN_ORDER_REPAIRED => "DRY_RUN_ORDER_REPAIRED"
  end.
#[export] Instance ReconciliationIssueCode_eq_dec : EqDecision ReconciliationIssueCode.
Proof. solve_decision. Defined.
End Issue.
Export (hints) Issue.

Record ReconciliationIssue := {
  issue_code : Issue.ReconciliationIssueCode;
  issue_message : string;
}.

Definition issue (code : Issue.ReconciliationIssueCode) (message : string) : ReconciliationIssue :=
  {| issue_code := code; issue_message := message |}.

Definition issue_json (i : ReconciliationIssue) : json :=
  JObj [("code", JStr (Issue.to_string (issue_code i))); ("message", JStr (issue_message i))].

(** ** The recovery of the exchange's history *)

Module Retention.
Inductive RetentionStatus : Set := WITHIN_ASSUMED_RETENTION | BEYOND_ASSUMED_RETENTION.
Definition to_string (x : RetentionStatus) : string :=
  match x with
  | WITHIN_ASSUMED_RETENTION => "WITHIN_ASSUMED_RETENTION"
  | BEYOND_ASSUMED_RETENTION => "BEYOND_ASSUMED_RETENTION"
  end.
#[export] Instance RetentionStatus_eq_dec : EqDecision RetentionStatus.
Proof. solve_decision. Defined.
End Retention.
Export (hints) Retention.

Module Coverage.
Inductive CoverageStatus : Set := IN_PROGRESS | COMPLETE.
Definition to_string (x : CoverageStatus) : string :=
  match x with IN_PROGRESS => "IN_PROGRESS" | COMPLETE => "COMPLETE" end.
#[export] Instance CoverageStatus_eq_dec : EqDecision CoverageStatus.
Proof. solve_decision. Defined.
End Coverage.
Export (hints) Coverage.

(** Of a market only [HIGH] and [PARTIAL], and not [LOOKUP_FAILED]. *)
Module Confidence.
Inductive ConfidenceLevel : Set := HIGH | PARTIAL | FAILED.
Definition to_string (x : ConfidenceLevel) : string :=
  match x with HIGH => "HIGH" | PARTIAL => "PARTIAL" | FAILED => "FAILED" end.
#[export] Instance ConfidenceLevel_eq_dec : EqDecision ConfidenceLevel.
Proof. solve_decision. Defined.
End Confidence.
Export (hints) Confidence.

Module Reason.
Inductive ConfidenceReason : Set :=
| ARCHIVE_COMPLETE | ARCHIVE_IN_PROGRESS | PAGE_LIMIT_REACHED | BEYOND_ASSUMED_RETENTION
| LOOKUP_FAILED.
Definition to_string (x : ConfidenceReason) : string :=
  match x with
  | ARCHIVE_COMPLETE => "ARCHIVE_COMPLETE"
  | ARCHIVE_IN_PROGRESS => "ARCHIVE_IN_PROGRESS"
  | PAGE_LIMIT_REACHED => "PAGE_LIMIT_REACHED"
  | BEYOND_ASSUMED_RETENTION => "BEYOND_ASSUMED_RETENTION"
  | LOOKUP_FAILED => "LOOKUP_FAILED"
  end.
#[export] Instance ConfidenceReason_eq_dec : EqDecision ConfidenceReason.
Proof. solve_decision. Defined.
End Reason.
Export (hints) Reason.

Record ReconciliationHistoryRecoveryMarketProgress := {
  mp_market : SupportedMarket;
  mp_recentClosedWindowStartAt : string;
  mp_recentClosedWindowEndAt : string;
  mp_archivalWindowStartAt : string;
  mp_archivalWindowEndAt : string;
  mp_nextWindowEndAt : string;
  mp_archiveComplete : bool;
  mp_retentionStatus : Retention.RetentionStatus;
  mp_confidenceLevel : Confidence.ConfidenceLevel;
  mp_confidenceReason : Reason.ConfidenceReason;
  mp_openHistoryTruncated : bool;
  mp_recentClosedHistoryTruncated : bool;
  mp_archivalClosedHistoryTruncated : bool;
  mp_openPagesScanned : Z;
  mp_recentClosedPagesScanned : Z;
  mp_archivalClosedPagesScanned : Z;
  mp_snapshotCount : Z;
}.

Record ReconciliationHistoryRecoverySummary := {
  hr_closedOrderLookbackDays : Z;
  hr_stopBeforeDays : Z;
  hr_stopBeforeAt : string;
  hr_retentionAssumptionDays : Z;
  hr_retentionBoundaryAt : string;
  hr_retentionStatus : Retention.RetentionStatus;
  hr_coverageStatus : Coverage.CoverageStatus;
  hr_confidenceLevel : Confidence.ConfidenceLevel;
  hr_confidenceReason : Reason.ConfidenceReason;
  hr_failureMessage : option string;
  hr_scannedSnapshotCount : Z;
  hr_recoveredOrderCount : Z;
  hr_markets : list ReconciliationHistoryRecoveryMarketProgress;
}.

Definition market_progress_json (m : ReconciliationHistoryRecoveryMarketProgress) : json := JObj
  [("market", JStr (Market.to_string (mp_market m)));
   ("recentClosedWindowStartAt", JStr (mp_recentClosedWindowStartAt m));
   ("recentClosedWindowEndAt", JStr (mp_recentClosedWindowEndAt m));
   ("archivalWindowStartAt", JStr (mp_archivalWindowStartAt m));
   ("archivalWindowEndAt", JStr (mp_archivalWindowEndAt m));
   ("nextWindowEndAt", JStr (mp_nextWindowEndAt m));
   ("archiveComplete", JBool (mp_archiveComplete m));
   ("retentionStatus", JStr (Retention.to_string (mp_retentionStatus m)));
   ("confidenceLevel", JStr (Confidence.to_string (mp_confidenceLevel m)));
   ("confidenceReason", JStr (Reason.to_string (mp_confidenceReason m)));
   ("openHistoryTruncated", JBool (mp_openHistoryTruncated m));
   ("recentClosedHistoryTruncated", JBool (mp_recentClosedHistoryTruncated m));
   ("archivalClosedHistoryTruncated", JBool (mp_archivalClosedHistoryTruncated m));
   ("openPagesScanned", JInt (mp_openPagesScanned m));
   ("recentClosedPagesScanned", JInt (mp_recentClosedPagesScanned m));
   ("archivalClosedPagesScanned", JInt (mp_archivalClosedPagesScanned m));
   ("snapshotCount", JInt (mp_snapshotCount m))].

Definition history_recovery_json (h : ReconciliationHistoryRecoverySummary) : json := JObj
  [("closedOrderLookbackDays", JInt (hr_closedOrderLookbackDays h));
   ("stopBeforeDays", JInt (hr_stopBeforeDays h));
   ("stopBeforeAt", JStr (hr_stopBeforeAt h));
   ("retentionAssumptionDays", JInt (hr_retentionAssumptionDays h));
   ("retentionBoundaryAt", JStr (hr_retentionBoundaryAt h));
   ("retentionStatus", JStr (Retention.to_string (hr_retentionStatus h)));
   ("coverageStatus", JStr (Coverage.to_string (hr_coverageStatus h)));
   ("confidenceLevel", JStr (Confidence.to_string (hr_confidenceLevel h)));
   ("confidenceReason", JStr (Reason.to_string (hr_confidenceReason h)));
   ("failureMessage", from_option JStr JNull (hr_failureMessage h));
   ("scannedSnapshotCount", JInt (hr_scannedSnapshotCount h));
   ("recoveredOrderCount", JInt (hr_recoveredOrderCount h));
   ("markets", JArr (market_progress_json <$> hr_markets h))].

(** ** Runs *)

Module RunStatus.
Inductive ReconciliationStatus : Set := SUCCESS | DRIFT_DETECTED | ERROR.
Definition to_string (x : ReconciliationStatus) : string :=
  match x with
  | SUCCESS => "SUCCESS" | DRIFT_DETECTED => "DRIFT_DETECTED" | ERROR => "ERROR"
  end.
#[export] Instance ReconciliationStatus_eq_dec : EqDecision ReconciliationStatus.
Proof. solve_decision. Defined.
End RunStatus.
Export (hints) RunStatus.

Record ReconciliationSummary := {
  sum_source : Trigger.ReconciliationTrigger;
  sum_status : RunStatus.ReconciliationStatus;
  sum_issues : list ReconciliationIssue;
  sum_candidateCount : Z;
  sum_processedCount : Z;
  sum_deferredCount : Z;
  sum_maxOrderLookupsPerRun : Z;
  sum_historyRecovery : option ReconciliationHistoryRecoverySummary;
}.

Definition summary_json (s : ReconciliationSummary) : json := JObj
  ([("source", JStr (Trigger.to_string (sum_source s)));
    ("status", JStr (RunStatus.to_string (sum_status s)));
    ("issues", JArr (issue_json <$> sum_issues s));
    ("candidateCount", JInt (sum_candidateCount s));
    ("processedCount", JInt (sum_processedCount s));
    ("deferredCount", JInt (sum_deferredCount s));
    ("maxOrderLookupsPerRun", JInt (sum_maxOrderLookupsPerRun s))]
   ++ match sum_historyRecovery s with
      | Some h => [("historyRecovery", history_recovery_json h)]
      | None => []
      end)%list.

Record ReconciliationRunRecord := {
  run_id : string;
  run_exchangeAccountId : string;
  run_status : RunStatus.ReconciliationStatus;
  run_startedAt : string;
  run_completedAt : option string;
  run_summaryJson : string;
  run_errorMessage : option string;
}.

Record ReconciliationRunResult := {
  result_summary : ReconciliationSummary;
  result_reconciliationRun : ReconciliationRunRecord;
}.

(** ["EXCHANGE_POLL" | "RECONCILIATION"] *)
Inductive SnapshotSource : Set := SOURCE_EXCHANGE_POLL | SOURCE_RECONCILIATION.

Record BalanceSnapshotRecord := {
  bal_id : string;
  bal_exchangeAccountId : string;
  bal_capturedAt : string;
  bal_source : SnapshotSource;
  bal_totalKrwValue : option string;
  bal_balancesJson : string;
}.

Record PositionSnapshotRecord := {
  pos_id : string;
  pos_exchangeAccountId : string;
  pos_capturedAt : string;
  pos_source : SnapshotSource;
  pos_positionsJson : string;
}.

(** The one checkpoint type is ["CLOSED_ORDER_ARCHIVE"]. *)
Record HistoryRecoveryCheckpointRecord := {
  ckpt_id : string;
  ckpt_exchangeAccountId : string;
  ckpt_market : SupportedMarket;
  ckpt_nextWindowEndAt : string;
  ckpt_updatedAt : string;
}.

Record PortfolioSnapshots := {
  previousBalanceSnapshot : option BalanceSnapshotRecord;
  currentBalanceSnapshot : option BalanceSnapshotRecord;
  previousPositionSnapshot : option PositionSnapshotRecord;
  currentPositionSnapshot : option PositionSnapshotRecord;
}.

Record ReconciliationRunIdentity := {
  identity_id : string;
  identity_startedAt : string;
}.

Record ReconciliationRunOptions := {
  opt_source : option Trigger.ReconciliationTrigger;
  opt_portfolioSnapshots : option PortfolioSnapshots;
  opt_runIdentity : option ReconciliationRunIdentity;
}.

Module RecoveryResult.
Inductive IdentifierRecoveryOutcome : Set :=
| RECOVERED | RECOVERED_BUT_PROJECTION_FAILED | STILL_UNCERTAIN | ABSENCE_CONFIRMED
| TRANSIENT_FAILURE.
#[export] Instance IdentifierRecoveryOutcome_eq_dec : EqDecision IdentifierRecoveryOutcome.
Proof. solve_decision. Defined.
End RecoveryResult.
Export (hints) RecoveryResult.

Record IdentifierRecoverySummary := {
  idr_outcome : RecoveryResult.IdentifierRecoveryOutcome;
  idr_orderId : string;
  idr_detail : string;
}.

Record RecoveryTime := {
  observedAt : string;
  observedAtEpochMs : Z;
}.

(** ** Calls *)

(** [ExchangeOrderHistoryQuery] as the service fills it *)
Record HistoryQuery := {
  hq_market : SupportedMarket;
  hq_page : Z;
  hq_window : option (Z * Z);
}.

(** [TerminalCandidateSweepDisposition] and the results of the candidate
    evidence service the service reads *)
Inductive SweepDisposition : Set := ELIGIBLE | DISPOSED | PRE_ACTIVATION | OUTSIDE_SCOPE.
#[export] Instance SweepDisposition_eq_dec : EqDecision SweepDisposition.
Proof. solve_decision. Defined.

Record ProjectionResult := {
  projection_fault : bool;
  projection_detail : string;
}.

Record DriftReport := {
  drift_exchangeAccountId : string;
  drift_title : string;
  drift_message : string;
  drift_payload : json;
}.

Module Recon.
Inductive call : Type -> Type :=
(* clocks and identifiers *)
| NewDate : call string
| DateNow : call Z
| RecoveryClockNow : call RecoveryTime
| CreateId (prefix : string) : call string
(* runtime ownership *)
| AssertLocallyHeld : call unit
(* repositories *)
| ListActiveOrders (exchangeAccountId : string) : call (list OrderRecord)
| ListOrders (exchangeAccountId : string) : call (list OrderRecord)
| FindOrderById (exchangeAccountId id : string) : call (option OrderRecord)
| ListOrderEvents (orderId : string) : call (list OrderEventRecord)
| ListFills (orderId : option string) : call (list FillRecord)
| GetLatestPositionSnapshot (exchangeAccountId : string) : call (option PositionSnapshotRecord)
| GetHistoryRecoveryCheckpoint (exchangeAccountId : string) (market : SupportedMarket)
    : call (option HistoryRecoveryCheckpointRecord)
| ListOrderSubmissionRecoveryObservations (orderId : string)
    : call (list OrderSubmissionRecoveryObservationRecord)
| SaveOrder (record : OrderRecord) : call unit
| UpdateOrder (record : OrderRecord) : call unit
| AppendOrderEvent (record : OrderEventRecord) : call unit
| SaveFill (record : FillRecord) : call unit
| SaveRiskEvent (record : RiskEventRecord) : call unit
| SaveHistoryRecoveryCheckpoint (record : HistoryRecoveryCheckpointRecord) : call unit
| SaveOrderSubmissionRecoveryObservation (record : OrderSubmissionRecoveryObservationRecord)
    : call unit
| SaveReconciliationRun (record : ReconciliationRunRecord) : call unit
| PersistReconciledExchangeSnapshot (input : PersistReconciledExchangeSnapshotInput)
    : call PersistReconciledExchangeSnapshotResult
| PersistReconciliationRecovery (input : PersistReconciliationRecoveryInput)
    : call Persisted.PersistOutcome
| FinalizeBoundedSubmissionAbsence (input : FinalizeBoundedSubmissionAbsenceInput) : call bool
| PersistCandidateProjectionFault (input : PersistCandidateProjectionFaultInput)
    : call Persisted.PersistOutcome
(* operator state *)
| GetState : call ExecutionStateRecord
(* the exchange *)
| GetOrder (query : ExchangeOrderLookupIdentity) : call (option ExchangeOrderSnapshot)
| ListOpenOrders (query : HistoryQuery) : call (list ExchangeOrderSnapshot)
| ListClosedOrders (query : HistoryQuery) : call (list ExchangeOrderSnapshot)
(* candidate evidence and notifications *)
| ClassifyTerminalOrderForSweep (orderId : string) : call SweepDisposition
| ProcessTerminalOrder (orderId : string) : call ProjectionResult
| Report (input : DriftReport) : call unit.
End Recon.

(** ** Configuration *)

(** The dependencies of the service that are not calls, and which of the
    optional ones and of the optional methods there are.  The numbers are taken
    to be whole. *)
Record ReconciliationDependencies := {
  rdep_hasOrderReader : bool;
  rdep_hasOrderHistoryReader : bool;
  rdep_hasReporter : bool;
  rdep_hasCandidateEvidence : bool;
  rdep_hasSweepClassification : bool;
  rdep_hasRecoveryClock : bool;
  rdep_hasObservations : bool;
  rdep_hasPersistSnapshot : bool;
  rdep_hasPersistRecovery : bool;
  rdep_hasFinalizer : bool;
  rdep_hasProjectionFault : bool;
  rdep_maxOrderLookupsPerRun : option Z;
  rdep_historyMaxPagesPerMarket : option Z;
  rdep_closedOrderLookbackDays : option Z;
  rdep_historyStopBeforeDays : option Z;
  rdep_historyRetentionAssumptionDays : option Z;
  rdep_identifierRecovery : option BoundedAbsencePolicy;
  rdep_maxTerminalCandidateProjectionsPerRun : option Z;
}.
