(* ===== verification/ReconciliationHelpers.v ===== *)
(** * ReconciliationHelpers: the pure functions of the reconciliation service

    The functions of [modules/reconciliation/reconciliation-service.ts] and of
    [modules/reconciliation/terminal-candidate-sweep.ts] that call nothing:
    statuses, the artifacts of dry runs and their repair, the queue of orders
    to look up, the errors that are told apart and the records that are built. *)

From Stdlib Require Import ZArith Lia Ascii.
From stdpp Require Import base option list strings.
From S2P Require Import Prelude Num Types Text Timestamp NumText JsMap Json ExactState.
From S2P Require Import SubmissionBlocking OrderRecords Effects CandidateAuthority.
From S2P Require Import ExecutionRecords ExecutionHelpers ReconciliationRecords.

Local Open Scope string_scope.
Local Open Scope js_scope.
Local Open Scope bool_scope.

(** ** Statuses *)

Definition mapExchangeOrderToLifecycleStatus (snapshot : ExchangeOrderSnapshot)
    : OrderLifecycleStatus :=
  if xorder_state snapshot === "done" then OrderStatus.FILLED
  else if xorder_state snapshot === "cancel" then
    if (xorder_side snapshot === Side.bid) && (xorder_ordType snapshot === OrdType.price)
       && hasExecutedVolume (xorder_executedVolume snapshot)
    then OrderStatus.FILLED
    else OrderStatus.CANCELED
  else if hasExecutedVolume (xorder_executedVolume snapshot) then OrderStatus.PARTIALLY_FILLED
  else OrderStatus.OPEN.

Definition TERMINAL_RECONCILIATION_STATUSES : list OrderLifecycleStatus :=
  [OrderStatus.FILLED; OrderStatus.CANCELED; OrderStatus.REJECTED; OrderStatus.FAILED].

Definition isSubmissionAbsenceConfirmed (order : OrderRecord) : bool :=
  (ord_status order === OrderStatus.FAILED)
  && (ord_failureCode order === Some "ORDER_SUBMISSION_ABSENCE_CONFIRMED").

(** ** Stored JSON *)

(** The fields of a parsed object; an empty text is not parsed. *)
Definition parseJsonObject (value : option string) : option (jsmap string json) :=
  match non_empty value with
  | Some text => match JSON_parse text with Some (JObj fields) => Some fields | _ => None end
  | None => None
  end.

(** The first of the keys whose value is a text. *)
Fixpoint getStringField (value : jsmap string json) (keys : list string) : option string :=
  match keys with
  | [] => None
  | key :: keys' =>
      match map_get key value ≫= json_string with
      | Some candidate => Some candidate
      | None => getStringField value keys'
      end
  end.

Definition isFilledPriceBidDustCancelCandidate (order : OrderRecord) (fillCount : nat) : bool :=
  if (ord_side order !== Side.bid) || (ord_ordType order !== OrdType.price) then false
  else if (0 <? fillCount)%nat then true
  else
    match parseJsonObject (ord_exchangeResponseJson order) with
    | Some parsed =>
        ((map_get "state" parsed ≫= json_string) === Some "cancel")
        && hasExecutedVolume (getStringField parsed ["executed_volume"; "executedVolume"])
    | None => false
    end.

Definition shouldReconcileTerminalOrder (order : OrderRecord) (fillCount : nat) : bool :=
  match ord_status order with
  | OrderStatus.FILLED => (fillCount =? 0)%nat || (ord_exchangeResponseJson order === None)
  | OrderStatus.CANCELED =>
      (ord_exchangeResponseJson order === None)
      || isFilledPriceBidDustCancelCandidate order fillCount
  | OrderStatus.REJECTED | OrderStatus.FAILED =>
      (ord_exchangeResponseJson order === None)
      && (ord_failureCode order !== Some "TERMINAL_ORDER_CONFIRMED_ABSENT")
  | _ => false
  end.

(** ** Dry runs *)

Definition isLocalDryRunExchangeArtifact (order : OrderRecord) : bool :=
  match ord_upbitUuid order with Some uuid => String.prefix "dryrun_" uuid | None => false end
  || match parseJsonObject (ord_exchangeResponseJson order) with
     | Some parsed => (map_get "mode" parsed ≫= json_string) === Some "DRY_RUN"
     | None => false
     end.

Definition isPositiveNumericString (value : option string) : bool :=
  match non_empty value with
  | Some text => let parsed := Number_of_string text in is_finite parsed && nltb zero parsed
  | None => false
  end.

Definition resolveDryRunRepairVolume (order : OrderRecord) (price : option string)
    : option string :=
  if isPositiveNumericString (ord_volume order) then ord_volume order
  else
    match ord_price order, price with
    | Some notionalText, Some priceText =>
        if (ord_side order === Side.bid) && isPositiveNumericString (ord_price order)
           && isPositiveNumericString price
        then
          let notional := Number_of_string notionalText in
          let referencePrice := Number_of_string priceText in
          let derivedVolume := ndiv notional referencePrice in
          if is_finite derivedVolume && nltb zero derivedVolume
          then Some (to_fixed_text 8 derivedVolume) else None
        else None
    | _, _ => None
    end.

(** The fields a stored position is read for; an object whose other fields do
    not fit is dropped. *)
Record ParsedPosition := {
  parsed_market : string;
  parsed_markPrice : option string;
  parsed_averageEntryPrice : option string;
}.

Definition isPositionSnapshot (value : json) : option ParsedPosition :=
  match value with
  | JObj fields =>
      let text key := map_get key fields ≫= json_string in
      match text "asset", text "market", text "quantity", text "capturedAt" with
      | Some asset, Some market, Some _, Some _ =>
          if ((asset === "BTC") || (asset === "ETH"))
             && ((market === "KRW-BTC") || (market === "KRW-ETH"))
          then Some {| parsed_market := market; parsed_markPrice := text "markPrice";
                       parsed_averageEntryPrice := text "averageEntryPrice" |}
          else None
      | _, _, _, _ => None
      end
  | _ => None
  end.

Definition parsePositions (snapshot : option PositionSnapshotRecord) : list ParsedPosition :=
  match snapshot with
  | Some s => match JSON_parse (pos_positionsJson s) with
              | Some (JArr elements) => omap isPositionSnapshot elements
              | _ => []
              end
  | None => []
  end.

(** The price of a repair, from the order or from the latest positions. *)
Definition repair_price_of_positions (order : OrderRecord)
    (snapshot : option PositionSnapshotRecord) : option string :=
  match List.find (fun p => parsed_market p === Market.to_string (ord_market order))
          (parsePositions snapshot) with
  | Some position =>
      if isPositiveNumericString (parsed_markPrice position) then parsed_markPrice position
      else if isPositiveNumericString (parsed_averageEntryPrice position)
      then parsed_averageEntryPrice position else None
  | None => None
  end.

(** ** The queue of lookups *)

Inductive CandidateKind : Set := ACTIVE_CANDIDATE | TERMINAL_CANDIDATE.
#[export] Instance CandidateKind_eq_dec : EqDecision CandidateKind.
Proof. solve_decision. Defined.

Record ReconciliationCandidate := {
  cand_kind : CandidateKind;
  cand_order : OrderRecord;
  cand_priority : Z;
}.

Definition getActiveOrderPriority (status : OrderLifecycleStatus) : Z :=
  match status with
  | OrderStatus.RECONCILIATION_REQUIRED => 0
  | OrderStatus.CANCEL_REQUESTED => 1
  | OrderStatus.PARTIALLY_FILLED => 2
  | OrderStatus.OPEN => 3
  | OrderStatus.PERSISTED => 4
  | OrderStatus.SUBMITTING => 5
  | OrderStatus.INTENT_CREATED => 6
  | _ => 7
  end.

Definition getTerminalOrderPriority (status : OrderLifecycleStatus) : Z :=
  match status with
  | OrderStatus.FAILED => 7
  | OrderStatus.REJECTED => 8
  | OrderStatus.FILLED => 9
  | OrderStatus.CANCELED => 10
  | _ => 11
  end.

Definition active_candidate (order : OrderRecord) : ReconciliationCandidate :=
  {| cand_kind := ACTIVE_CANDIDATE; cand_order := order;
     cand_priority := getActiveOrderPriority (ord_status order) |}.

Definition terminal_candidate (order : OrderRecord) : ReconciliationCandidate :=
  {| cand_kind := TERMINAL_CANDIDATE; cand_order := order;
     cand_priority := getTerminalOrderPriority (ord_status order) |}.

Definition compare_candidates (localeCompare : string -> string -> comparison)
    (left right : ReconciliationCandidate) : comparison :=
  match (cand_priority left ?= cand_priority right)%Z with
  | Eq => localeCompare (ord_updatedAt (cand_order left)) (ord_updatedAt (cand_order right))
  | c => c
  end.

Definition buildReconciliationCandidates (localeCompare : string -> string -> comparison)
    (activeOrders terminalOrders : list OrderRecord) : list ReconciliationCandidate :=
  js_sort (compare_candidates localeCompare)
    ((active_candidate <$> activeOrders) ++ (terminal_candidate <$> terminalOrders))%list.

(** [l.slice(0, limit)]: a negative limit counts from the end. *)
Definition slice_to {A} (limit : Z) (l : list A) : list A :=
  take (Z.to_nat (if (limit <? 0)%Z then Z.of_nat (length l) + limit else limit)%Z) l.

(** ** Errors *)

Definition isTypedTransientLookupError (error : js_error) : bool :=
  match error with
  | ExchangeOrderLookupError options => lookup_kind options === LookupError.TRANSIENT
  | _ => false
  end.

(** [/^RUNTIME_OWNERSHIP_(?:LOST|NOT_HELD):/u.test(message)] *)
Definition ownership_failure_message (message : string) : bool :=
  String.prefix "RUNTIME_OWNERSHIP_LOST:" message
  || String.prefix "RUNTIME_OWNERSHIP_NOT_HELD:" message.

Definition isRuntimeOwnershipFailure (error : js_error) : bool :=
  match error with
  | RuntimeOwnershipGuardError _ _ => true
  | NotAnError => false
  | _ => ownership_failure_message (error_message "" error)
  end.

Definition is_binding_error (error : js_error) : bool :=
  match error with ExchangeOrderSnapshotBindingError => true | _ => false end.

Definition validateRecoveryObservationTime (value : RecoveryTime) : outcome unit :=
  let epoch := observedAtEpochMs value in
  _ ← throw_if (negb (isSafeInteger epoch) || (epoch <? 0)%Z)
        "Recovery observation time must include a non-negative integer epoch timestamp.";
  match Date_parse (observedAt value) with
  | None => Throw "Recovery observation time must include a valid persisted timestamp."
  | Some parsedObservedAt =>
      throw_if (negb (parsedObservedAt =? epoch)%Z)
        "Recovery observation ISO timestamp and epoch timestamp must identify the same instant."
  end.

Definition projectReconciliationRunIdentity (identity : ReconciliationRunIdentity)
    : outcome ReconciliationRunIdentity :=
  _ ← throw_if (is_blank (identity_id identity))
        "Reconciliation run identity id must be a non-empty string.";
  _ ← parseCandidateEvidenceTimestamp (identity_startedAt identity)
        "reconciliation run identity startedAt";
  Ret identity.

(** ** Records *)

Definition resolveExchangeFillId (order : OrderRecord) (fill : ExchangeFillSnapshot) : string :=
  match non_empty (xfill_tradeUuid fill) with
  | Some tradeUuid => tradeUuid
  | None =>
      join ":" ["reconciliation_fill"; ord_id order; Side.to_string (xfill_side fill);
                xfill_price fill; xfill_volume fill;
                default "unknown_created_at" (xfill_createdAt fill)]
  end.

Definition tryParseEpochNanoseconds (timestamp : string) : option string :=
  match parseCandidateEvidenceTimestamp timestamp "exchange fill createdAt" with
  | Ret epoch => Some (Z_to_string epoch)
  | Throw _ => None
  end.

Definition buildFillRecord (id : string) (order : OrderRecord) (fill : ExchangeFillSnapshot)
    (orderPaidFee : option string) : FillRecord := {|
  fill_id := id;
  fill_orderId := ord_id order;
  fill_exchangeFillId := resolveExchangeFillId order fill;
  fill_market := ord_market order;
  fill_side := xfill_side fill;
  fill_price := xfill_price fill;
  fill_volume := xfill_volume fill;
  fill_feeCurrency := Some "KRW";
  fill_feeAmount := xfill_fee fill;
  fill_feeProvenance := Some match xfill_fee fill, orderPaidFee with
                             | Some _, _ => FeeProvenance.EXCHANGE_FILL_CONFIRMED
                             | None, Some _ => FeeProvenance.ORDER_LEVEL_UNALLOCATED
                             | None, None => FeeProvenance.MISSING
                             end;
  fill_executionTimestampProvenance :=
    Some match xfill_createdAt fill with
         | None => TimeProvenance.LEGACY_UNVERIFIED
         | Some _ => TimeProvenance.EXCHANGE_FILL_CONFIRMED
         end;
  fill_executionEpochNs := xfill_createdAt fill ≫= tryParseEpochNanoseconds;
  fill_filledAt := default "" (xfill_createdAt fill);
  fill_rawPayloadJson := stringify (xfill_raw fill);
|}.

Definition recovery_risk_payload (order : OrderRecord) : json := JObj
  [("orderId", JStr (ord_id order));
   ("market", JStr (Market.to_string (ord_market order)));
   ("identifier", JStr (ord_identifier order));
   ("upbitUuid", opt_str_json (ord_upbitUuid order))].

Definition createRecoveryRiskEvent (id : string) (order : OrderRecord) (message createdAt : string)
    : RiskEventRecord := {|
  re_id := id;
  re_exchangeAccountId := ord_exchangeAccountId order;
  re_strategyDecisionId := ord_strategyDecisionId order;
  re_orderId := Some (ord_id order);
  re_level := RiskLevelEvent.WARN;
  re_ruleCode := RiskRule.ORDER_RECOVERY_REQUIRED;
  re_message := message;
  re_payloadJson := stringify (recovery_risk_payload order);
  re_createdAt := createdAt;
|}.

(** An order the exchange knows and this database does not. *)
Definition buildRecoveredOrderRecord (sha256 : string -> string) (id exchangeAccountId : string)
    (executionMode : ExecutionMode) (snapshot : ExchangeOrderSnapshot) (recoveredAt : string)
    : OrderRecord :=
  let identifier := default ("exchange_recovery:" ++ xorder_uuid snapshot)
                      (xorder_identifier snapshot) in
  {| ord_id := id;
     ord_strategyDecisionId := None;
     ord_exchangeAccountId := exchangeAccountId;
     ord_market := xorder_market snapshot;
     ord_side := xorder_side snapshot;
     ord_ordType := xorder_ordType snapshot;
     ord_volume := xorder_volume snapshot;
     ord_price := xorder_price snapshot;
     ord_timeInForce := None;
     ord_smpType := None;
     ord_identifier := identifier;
     ord_idempotencyKey := createFingerprint sha256
       ("exchange_recovery:" ++ exchangeAccountId ++ ":" ++ xorder_uuid snapshot ++ ":"
        ++ identifier);
     ord_origin := Origin.RECOVERY;
     ord_requestedAt := xorder_createdAt snapshot;
     ord_upbitUuid := Some (xorder_uuid snapshot);
     ord_status := mapExchangeOrderToLifecycleStatus snapshot;
     ord_executionMode := executionMode;
     ord_exchangeResponseJson := Some (stringify (xorder_raw snapshot));
     ord_failureCode := None;
     ord_failureMessage := None;
     ord_createdAt := xorder_createdAt snapshot;
     ord_updatedAt := recoveredAt |}.

(** ** The sweep of terminal candidate orders *)

Definition DEFAULT_MAX_TERMINAL_CANDIDATE_PROJECTIONS_PER_RUN : Z := 25.

Definition isTerminalBtcStrategyOrder (order : OrderRecord) : bool :=
  (ord_origin order === Origin.STRATEGY) && (ord_market order === Market.KRW_BTC)
  && (ord_failureCode order !== Some "ORDER_SUBMISSION_ABSENCE_CONFIRMED")
  && ((ord_status order === OrderStatus.FILLED) || (ord_status order === OrderStatus.CANCELED)).

(** Digits without a leading zero. *)
Definition canonical_natural (s : string) : bool :=
  match s with
  | EmptyString => false
  | String c s' => all_digits s && (negb (Ascii.eqb c "0") || (s' === ""))
  end.

(** The epoch of a fill whose time the exchange confirmed and whose text agrees. *)
Definition confirmed_epoch (fill : FillRecord) : option Z :=
  match fill_executionTimestampProvenance fill, non_empty (fill_executionEpochNs fill) with
  | Some TimeProvenance.EXCHANGE_FILL_CONFIRMED, Some text =>
      if canonical_natural text then
        match parseCandidateEvidenceTimestamp (fill_filledAt fill)
                "terminal sweep fill filledAt" with
        | Ret filledAt => if (filledAt =? digits_value text)%Z then Some filledAt else None
        | Throw _ => None
        end
      else None
  | _, _ => None
  end.

(** The latest of them; one that is not confirmed makes it unknown. *)
Fixpoint latest_epoch (latest : option Z) (fills : list FillRecord) : option Z :=
  match fills with
  | [] => latest
  | fill :: fills' =>
      match confirmed_epoch fill with
      | None => None
      | Some epoch =>
          latest_epoch (match latest with
                        | Some l => if (l <? epoch)%Z then Some epoch else Some l
                        | None => Some epoch
                        end) fills'
      end
  end.

Record SweepCandidate := {
  sweep_order : OrderRecord;
  sweep_disposition : SweepDisposition;
  sweep_latestFillEpochNanoseconds : option Z;
  sweep_evidenceId : string;
}.

Definition terminalSortKey (order : OrderRecord) (disposition : SweepDisposition)
    (fills : list FillRecord) : SweepCandidate := {|
  sweep_order := order;
  sweep_disposition := disposition;
  sweep_latestFillEpochNanoseconds := latest_epoch None fills;
  sweep_evidenceId := "terminal-order:" ++ ord_id order;
|}.

Definition compareTerminalCandidates (left right : SweepCandidate) : comparison :=
  let tie :=
    match compareDeterministicIdentifiers (ord_id (sweep_order left)) (ord_id (sweep_order right))
    with
    | Eq => compareDeterministicIdentifiers (sweep_evidenceId left) (sweep_evidenceId right)
    | c => c
    end in
  match sweep_latestFillEpochNanoseconds left, sweep_latestFillEpochNanoseconds right with
  | Some l, Some r => match (l ?= r)%Z with Eq => tie | c => c end
  | Some _, None => Lt
  | None, Some _ => Gt
  | None, None => tie
  end.

(** ** Agreement with the execution service *)

(** Submission and reconciliation read the exchange's state alike. *)
Lemma mapping_agrees snapshot :
  mapExchangeOrderToLifecycleStatus snapshot
  = mapExchangeOrderStatus (xorder_state snapshot) (xorder_executedVolume snapshot)
      (xorder_ordType snapshot) (xorder_side snapshot).
Proof. done. Qed.
