(* ===== verification/HistoryWindows.v ===== *)
(** * HistoryWindows: how far back the exchange's history has been read

    The windows of [listExchangeHistorySnapshots] in
    [modules/reconciliation/reconciliation-service.ts], what a run reports of
    them, and the readers that accept a stored report only if every field
    follows from the others: [modules/reconciliation/history-recovery-validation.ts]
    and [modules/reconciliation/reconciliation-summary-validation.ts].  The
    reports have their type, so the shape checks of the readers pass. *)

From Stdlib Require Import ZArith Lia.
From stdpp Require Import base option list strings.
From S2P Require Import Prelude Num Types Text Timestamp NumText JsMap OrderRecords.
From S2P Require Import Effects ExecutionRecords ReconciliationRecords.

Local Open Scope string_scope.
Local Open Scope Z_scope.
Local Open Scope js_scope.
Local Open Scope bool_scope.

(** ** Instants *)

(** [new Date(ms).toISOString()], with the [RangeError] of an invalid date and
    the signed years outside of 0 to 9999. *)
Definition dateToISOString (ms : Z) : outcome string :=
  _ ← throw_if (8640000000000000 <? Z.abs ms) "Invalid time value";
  let '(year, _, _) := civil_from_day (ms / 1000 / 86400) in
  Ret (if (0 <=? year) && (year <=? 9999) then toISOString ms
       else (if year <? 0 then "-" else "+") ++ digits_fixed 6 (Z.abs year)
            ++ String.substring 4 20 (toISOString ms)).

Definition MILLISECONDS_PER_DAY : Z := 86400000.

(** ** Limits *)

Definition MANAGED_MARKETS : list SupportedMarket := [Market.KRW_BTC; Market.KRW_ETH].
Definition EXCHANGE_HISTORY_PAGE_LIMIT : Z := 20.
Definition DEFAULT_HISTORY_MAX_PAGES_PER_MARKET : Z := 3.
Definition DEFAULT_CLOSED_ORDER_LOOKBACK_DAYS : Z := 7.
Definition DEFAULT_HISTORY_STOP_BEFORE_DAYS : Z := 365.
Definition DEFAULT_HISTORY_RETENTION_ASSUMPTION_DAYS : Z := 365.

Record HistoryLimits := {
  closedOrderLookbackDays : Z;
  historyStopBeforeDays : Z;
  historyRetentionAssumptionDays : Z;
}.

Definition history_limits (deps : ReconciliationDependencies) : HistoryLimits :=
  let lookback := Z.max 1
    (default DEFAULT_CLOSED_ORDER_LOOKBACK_DAYS (rdep_closedOrderLookbackDays deps)) in
  {| closedOrderLookbackDays := lookback;
     historyStopBeforeDays := Z.max lookback
       (default DEFAULT_HISTORY_STOP_BEFORE_DAYS (rdep_historyStopBeforeDays deps));
     historyRetentionAssumptionDays := Z.max lookback
       (default DEFAULT_HISTORY_RETENTION_ASSUMPTION_DAYS
          (rdep_historyRetentionAssumptionDays deps)) |}.

Definition history_max_pages (deps : ReconciliationDependencies) : Z :=
  Z.max 1 (default DEFAULT_HISTORY_MAX_PAGES_PER_MARKET (rdep_historyMaxPagesPerMarket deps)).

(** Days before the end of the recent window. *)
Definition days_before (closedOrderEndTimeMs days : Z) : Z :=
  closedOrderEndTimeMs - days * MILLISECONDS_PER_DAY.

(** The windows of a run as texts. *)
Record HistoryWindowTexts := {
  text_stopBeforeAt : string;
  text_retentionBoundaryAt : string;
  text_recentClosedWindowStartAt : string;
  text_recentClosedWindowEndAt : string;
}.

Definition history_window_texts (limits : HistoryLimits) (closedOrderEndTimeMs : Z)
    : outcome HistoryWindowTexts :=
  stopBeforeAt ← dateToISOString
    (days_before closedOrderEndTimeMs (historyStopBeforeDays limits));
  retentionBoundaryAt ← dateToISOString
    (days_before closedOrderEndTimeMs (historyRetentionAssumptionDays limits));
  recentClosedWindowStartAt ← dateToISOString
    (days_before closedOrderEndTimeMs (closedOrderLookbackDays limits));
  recentClosedWindowEndAt ← dateToISOString closedOrderEndTimeMs;
  Ret {| text_stopBeforeAt := stopBeforeAt; text_retentionBoundaryAt := retentionBoundaryAt;
         text_recentClosedWindowStartAt := recentClosedWindowStartAt;
         text_recentClosedWindowEndAt := recentClosedWindowEndAt |}.

(** ** The archive of a market *)

Record ArchivalWindow := {
  archiveAlreadyComplete : bool;
  archivalWindowStartTimeMs : Z;
  archivalWindowEndTimeMs : Z;
}.

(** The window that ends at an instant, down to the stop boundary. *)
Definition archival_window_from (limits : HistoryLimits) (closedOrderEndTimeMs end_ : Z)
    : ArchivalWindow :=
  let stopBeforeTimeMs := days_before closedOrderEndTimeMs (historyStopBeforeDays limits) in
  let complete := end_ <=? stopBeforeTimeMs in
  {| archiveAlreadyComplete := complete;
     archivalWindowStartTimeMs :=
       if complete then end_
       else Z.max (end_ - closedOrderLookbackDays limits * MILLISECONDS_PER_DAY) stopBeforeTimeMs;
     archivalWindowEndTimeMs := end_ |}.

(** Goes on where the last run stopped. *)
Definition archival_window (limits : HistoryLimits) (closedOrderEndTimeMs : Z)
    (checkpoint : option HistoryRecoveryCheckpointRecord) : ArchivalWindow :=
  archival_window_from limits closedOrderEndTimeMs
    (default (days_before closedOrderEndTimeMs (closedOrderLookbackDays limits))
       (checkpoint ≫= fun c => Date_parse (ckpt_nextWindowEndAt c))).

(** [paginateExchangeOrderHistory]'s result. *)
Record PageScan := {
  scan_snapshots : list ExchangeOrderSnapshot;
  scan_pagesScanned : Z;
  scan_pageLimitReached : bool;
}.

Definition no_scan : PageScan :=
  {| scan_snapshots := []; scan_pagesScanned := 0; scan_pageLimitReached := false |}.

Record MarketScans := {
  openSnapshots : PageScan;
  recentClosedSnapshots : PageScan;
  archivalClosedSnapshots : PageScan;
}.

Definition market_snapshots (s : MarketScans) : list ExchangeOrderSnapshot :=
  (scan_snapshots (openSnapshots s) ++ scan_snapshots (recentClosedSnapshots s)
   ++ scan_snapshots (archivalClosedSnapshots s))%list.

Definition page_limit_reached (s : MarketScans) : bool :=
  scan_pageLimitReached (openSnapshots s) || scan_pageLimitReached (recentClosedSnapshots s)
  || scan_pageLimitReached (archivalClosedSnapshots s).

Definition retention_status (archivalStartTimeMs retentionBoundaryTimeMs stopBeforeTimeMs : Z)
    : Retention.RetentionStatus :=
  if (archivalStartTimeMs <=? retentionBoundaryTimeMs)
     || (stopBeforeTimeMs <? retentionBoundaryTimeMs)
  then Retention.BEYOND_ASSUMED_RETENTION else Retention.WITHIN_ASSUMED_RETENTION.

Definition confidence_level (archiveComplete pageLimitReached : bool)
    (status : Retention.RetentionStatus) : Confidence.ConfidenceLevel :=
  if archiveComplete && negb pageLimitReached
     && (status === Retention.WITHIN_ASSUMED_RETENTION)
  then Confidence.HIGH else Confidence.PARTIAL.

Definition resolveHistoryRecoveryConfidenceReason (archiveComplete pageLimitReached : bool)
    (status : Retention.RetentionStatus) : Reason.ConfidenceReason :=
  if pageLimitReached then Reason.PAGE_LIMIT_REACHED
  else if status === Retention.BEYOND_ASSUMED_RETENTION then Reason.BEYOND_ASSUMED_RETENTION
  else if archiveComplete then Reason.ARCHIVE_COMPLETE else Reason.ARCHIVE_IN_PROGRESS.

(** What is reported of a market, after its checkpoint was written with
    [nextWindowEndAt]. *)
Definition market_progress (limits : HistoryLimits) (closedOrderEndTimeMs : Z)
    (texts : HistoryWindowTexts) (market : SupportedMarket) (w : ArchivalWindow)
    (nextWindowEndAt : string) (s : MarketScans)
    : outcome ReconciliationHistoryRecoveryMarketProgress :=
  let stopBeforeTimeMs := days_before closedOrderEndTimeMs (historyStopBeforeDays limits) in
  let archiveComplete := archivalWindowStartTimeMs w <=? stopBeforeTimeMs in
  let status := retention_status (archivalWindowStartTimeMs w)
    (days_before closedOrderEndTimeMs (historyRetentionAssumptionDays limits)) stopBeforeTimeMs in
  archivalWindowStartAt ← dateToISOString (archivalWindowStartTimeMs w);
  archivalWindowEndAt ← dateToISOString (archivalWindowEndTimeMs w);
  Ret {| mp_market := market;
         mp_recentClosedWindowStartAt := text_recentClosedWindowStartAt texts;
         mp_recentClosedWindowEndAt := text_recentClosedWindowEndAt texts;
         mp_archivalWindowStartAt := archivalWindowStartAt;
         mp_archivalWindowEndAt := archivalWindowEndAt;
         mp_nextWindowEndAt := nextWindowEndAt;
         mp_archiveComplete := archiveComplete;
         mp_retentionStatus := status;
         mp_confidenceLevel := confidence_level archiveComplete (page_limit_reached s) status;
         mp_confidenceReason :=
           resolveHistoryRecoveryConfidenceReason archiveComplete (page_limit_reached s) status;
         mp_openHistoryTruncated := scan_pageLimitReached (openSnapshots s);
         mp_recentClosedHistoryTruncated := scan_pageLimitReached (recentClosedSnapshots s);
         mp_archivalClosedHistoryTruncated := scan_pageLimitReached (archivalClosedSnapshots s);
         mp_openPagesScanned := scan_pagesScanned (openSnapshots s);
         mp_recentClosedPagesScanned := scan_pagesScanned (recentClosedSnapshots s);
         mp_archivalClosedPagesScanned := scan_pagesScanned (archivalClosedSnapshots s);
         mp_snapshotCount := Z.of_nat (length (market_snapshots s)) |}.

(** ** The report *)

Abbreviation progress := ReconciliationHistoryRecoveryMarketProgress.

Definition summarizeHistoryRecoveryConfidence (batches : list progress)
    : Confidence.ConfidenceLevel :=
  if forallb (fun batch => mp_confidenceLevel batch === Confidence.HIGH) batches
  then Confidence.HIGH else Confidence.PARTIAL.

Definition some_reason (reason : Reason.ConfidenceReason) (batches : list progress) : bool :=
  existsb (fun batch => mp_confidenceReason batch === reason) batches.

Definition summarizeHistoryRecoveryConfidenceReason (batches : list progress)
    : Reason.ConfidenceReason :=
  if some_reason Reason.PAGE_LIMIT_REACHED batches then Reason.PAGE_LIMIT_REACHED
  else if some_reason Reason.BEYOND_ASSUMED_RETENTION batches
  then Reason.BEYOND_ASSUMED_RETENTION
  else if some_reason Reason.ARCHIVE_IN_PROGRESS batches then Reason.ARCHIVE_IN_PROGRESS
  else Reason.ARCHIVE_COMPLETE.

Definition summarizeHistoryRetentionStatus (batches : list progress) : Retention.RetentionStatus :=
  if existsb (fun batch => mp_retentionStatus batch === Retention.BEYOND_ASSUMED_RETENTION) batches
  then Retention.BEYOND_ASSUMED_RETENTION else Retention.WITHIN_ASSUMED_RETENTION.

(** The key a snapshot is told apart by. *)
Definition snapshot_key (snapshot : ExchangeOrderSnapshot) : string :=
  if xorder_uuid snapshot !== "" then xorder_uuid snapshot
  else match xorder_identifier snapshot with
       | Some identifier => if identifier !== "" then identifier
                            else stringify (xorder_raw snapshot)
       | None => stringify (xorder_raw snapshot)
       end.

(** The first snapshot of every key, in order. *)
Definition dedupe (snapshots : list ExchangeOrderSnapshot) : jsmap string ExchangeOrderSnapshot :=
  foldl (fun deduped snapshot =>
           match map_get (snapshot_key snapshot) deduped with
           | Some _ => deduped
           | None => map_set (snapshot_key snapshot) snapshot deduped
           end) [] snapshots.

Definition history_recovery_summary (limits : HistoryLimits) (texts : HistoryWindowTexts)
    (batches : list progress) (scannedSnapshotCount recoveredOrderCount : Z)
    : ReconciliationHistoryRecoverySummary := {|
  hr_closedOrderLookbackDays := closedOrderLookbackDays limits;
  hr_stopBeforeDays := historyStopBeforeDays limits;
  hr_stopBeforeAt := text_stopBeforeAt texts;
  hr_retentionAssumptionDays := historyRetentionAssumptionDays limits;
  hr_retentionBoundaryAt := text_retentionBoundaryAt texts;
  hr_retentionStatus := summarizeHistoryRetentionStatus batches;
  hr_coverageStatus :=
    if forallb mp_archiveComplete batches then Coverage.COMPLETE else Coverage.IN_PROGRESS;
  hr_confidenceLevel := summarizeHistoryRecoveryConfidence batches;
  hr_confidenceReason := summarizeHistoryRecoveryConfidenceReason batches;
  hr_failureMessage := None;
  hr_scannedSnapshotCount := scannedSnapshotCount;
  hr_recoveredOrderCount := recoveredOrderCount;
  hr_markets := batches;
|}.

Definition buildFailedHistoryRecoverySummary (limits : HistoryLimits) (closedOrderEndTimeMs : Z)
    (failureMessage : string) : outcome ReconciliationHistoryRecoverySummary :=
  let stopBeforeTimeMs := days_before closedOrderEndTimeMs (historyStopBeforeDays limits) in
  let retentionBoundaryTimeMs :=
    days_before closedOrderEndTimeMs (historyRetentionAssumptionDays limits) in
  stopBeforeAt ← dateToISOString stopBeforeTimeMs;
  retentionBoundaryAt ← dateToISOString retentionBoundaryTimeMs;
  Ret {| hr_closedOrderLookbackDays := closedOrderLookbackDays limits;
         hr_stopBeforeDays := historyStopBeforeDays limits;
         hr_stopBeforeAt := stopBeforeAt;
         hr_retentionAssumptionDays := historyRetentionAssumptionDays limits;
         hr_retentionBoundaryAt := retentionBoundaryAt;
         hr_retentionStatus :=
           if stopBeforeTimeMs <? retentionBoundaryTimeMs
           then Retention.BEYOND_ASSUMED_RETENTION else Retention.WITHIN_ASSUMED_RETENTION;
         hr_coverageStatus := Coverage.IN_PROGRESS;
         hr_confidenceLevel := Confidence.FAILED;
         hr_confidenceReason := Reason.LOOKUP_FAILED;
         hr_failureMessage := Some failureMessage;
         hr_scannedSnapshotCount := 0;
         hr_recoveredOrderCount := 0;
         hr_markets := [] |}.

(** ** The strict readers of a stored report *)

Definition nonNegativeSafeInteger (value : Z) : bool := isSafeInteger value && (0 <=? value).

Definition timestampEpoch (value : string) : option Z :=
  match parseCandidatePilotTimestamp value "history recovery timestamp" with
  | Ret epoch => Some epoch
  | Throw _ => None
  end.

Definition timestampsAtOrBefore (values : list string) (boundaryEpoch : Z) : bool :=
  forallb (fun value => match timestampEpoch value with
                        | Some valueEpoch => valueEpoch <=? boundaryEpoch
                        | None => false
                        end) values.

Definition isoTimestamp (epochMilliseconds : Z) : option string :=
  if isSafeInteger epochMilliseconds then
    match dateToISOString epochMilliseconds with Ret text => Some text | Throw _ => None end
  else None.

Definition derivedTimestamp (startedAt : string) (days : Z) : option string :=
  startedAtMs ← Date_parse startedAt;
  let durationMs := days * MILLISECONDS_PER_DAY in
  if isSafeInteger startedAtMs && isSafeInteger durationMs
  then isoTimestamp (startedAtMs - durationMs) else None.

Definition countIssueCode (issueCodes : list Issue.ReconciliationIssueCode)
    (expected : Issue.ReconciliationIssueCode) : Z :=
  Z.of_nat (length (List.filter (fun code => code === expected) issueCodes)).

(** The instants every market is compared with. *)
Record ExpectedInstants := {
  expectedStopBeforeMs : Z;
  expectedRetentionBoundaryMs : Z;
  recentStartMs : Z;
  lookbackMs : Z;
}.

(** One round of the loop over the markets. *)
Definition strict_market (e : ExpectedInstants) (recentStartAt recentEndAt : string)
    (boundaryEpoch : Z) (m : progress) : bool :=
  match Date_parse (mp_archivalWindowStartAt m), Date_parse (mp_archivalWindowEndAt m) with
  | Some archivalStartMs, Some archivalEndMs =>
      let expectedArchivalStartMs :=
        if archivalEndMs <=? expectedStopBeforeMs e then archivalEndMs
        else Z.max (archivalEndMs - lookbackMs e) (expectedStopBeforeMs e) in
      let archiveComplete := archivalStartMs <=? expectedStopBeforeMs e in
      let retentionStatus := retention_status archivalStartMs (expectedRetentionBoundaryMs e)
                               (expectedStopBeforeMs e) in
      let pageLimitReached := mp_openHistoryTruncated m || mp_recentClosedHistoryTruncated m
                              || mp_archivalClosedHistoryTruncated m in
      let totalPages := mp_openPagesScanned m + mp_recentClosedPagesScanned m
                        + mp_archivalClosedPagesScanned m in
      nonNegativeSafeInteger (mp_openPagesScanned m)
      && nonNegativeSafeInteger (mp_recentClosedPagesScanned m)
      && nonNegativeSafeInteger (mp_archivalClosedPagesScanned m)
      && nonNegativeSafeInteger (mp_snapshotCount m)
      && timestampsAtOrBefore
           [mp_recentClosedWindowStartAt m; mp_recentClosedWindowEndAt m;
            mp_archivalWindowStartAt m; mp_archivalWindowEndAt m; mp_nextWindowEndAt m]
           boundaryEpoch
      && isSafeInteger archivalStartMs && isSafeInteger archivalEndMs
      && (Some (mp_archivalWindowStartAt m) === isoTimestamp expectedArchivalStartMs)
      && (mp_recentClosedWindowStartAt m === recentStartAt)
      && (mp_recentClosedWindowEndAt m === recentEndAt)
      && (archivalStartMs <=? archivalEndMs) && (archivalEndMs <=? recentStartMs e)
      && (mp_nextWindowEndAt m === mp_archivalWindowStartAt m)
      && (mp_archiveComplete m === archiveComplete)
      && (mp_retentionStatus m === retentionStatus)
      && (mp_confidenceReason m
          === resolveHistoryRecoveryConfidenceReason archiveComplete pageLimitReached
                retentionStatus)
      && (mp_confidenceLevel m === confidence_level archiveComplete pageLimitReached retentionStatus)
      && (1 <=? mp_openPagesScanned m) && (1 <=? mp_recentClosedPagesScanned m)
      && (archiveComplete || (1 <=? mp_archivalClosedPagesScanned m))
      && negb (mp_openHistoryTruncated m && (mp_openPagesScanned m =? 0))
      && negb (mp_recentClosedHistoryTruncated m && (mp_recentClosedPagesScanned m =? 0))
      && negb (mp_archivalClosedHistoryTruncated m && (mp_archivalClosedPagesScanned m =? 0))
      && isSafeInteger totalPages
      && negb ((0 <? mp_snapshotCount m) && (totalPages =? 0))
  | _, _ => false
  end.

(** The loop refuses a market it has seen. *)
Definition distinct_markets (markets : list progress) : bool :=
  bool_decide (NoDup (mp_market <$> markets)).

Definition total_snapshots (markets : list progress) : Z :=
  foldr Z.add 0 (mp_snapshotCount <$> markets).

(** What a failed recovery reports. *)
Definition strict_failure (s : ReconciliationHistoryRecoverySummary)
    (status : RunStatus.ReconciliationStatus) (lookupFailureIssueCount recoveredIssueCount : Z)
    (e : ExpectedInstants) : bool :=
  (status === RunStatus.DRIFT_DETECTED)
  && (lookupFailureIssueCount =? 1) && (recoveredIssueCount =? 0)
  && (hr_retentionStatus s
      === if expectedStopBeforeMs e <? expectedRetentionBoundaryMs e
          then Retention.BEYOND_ASSUMED_RETENTION else Retention.WITHIN_ASSUMED_RETENTION)
  && (hr_coverageStatus s === Coverage.IN_PROGRESS)
  && (hr_confidenceReason s === Reason.LOOKUP_FAILED)
  && bool_decide (is_Some (hr_failureMessage s))
  && (hr_scannedSnapshotCount s =? 0) && (hr_recoveredOrderCount s =? 0)
  && (length (hr_markets s) =? 0)%nat.

(** What a recovery that did not fail reports. *)
Definition strict_success (s : ReconciliationHistoryRecoverySummary)
    (status : RunStatus.ReconciliationStatus) (lookupFailureIssueCount recoveredIssueCount : Z)
    (e : ExpectedInstants) (recentStartAt recentEndAt : string) (boundaryEpoch : Z) : bool :=
  let markets := hr_markets s in
  let snapshotCount := total_snapshots markets in
  (status !== RunStatus.ERROR)
  && (lookupFailureIssueCount =? 0) && (hr_failureMessage s === None)
  && ((hr_confidenceLevel s === Confidence.HIGH) || (hr_confidenceLevel s === Confidence.PARTIAL))
  && (hr_confidenceReason s !== Reason.LOOKUP_FAILED)
  && (length markets =? 2)%nat
  && isSafeInteger (expectedStopBeforeMs e) && isSafeInteger (expectedRetentionBoundaryMs e)
  && isSafeInteger (recentStartMs e) && isSafeInteger (lookbackMs e)
  && distinct_markets markets
  && forallb (strict_market e recentStartAt recentEndAt boundaryEpoch) markets
  && isSafeInteger snapshotCount
  && (hr_coverageStatus s
      === if forallb mp_archiveComplete markets then Coverage.COMPLETE else Coverage.IN_PROGRESS)
  && (hr_retentionStatus s === summarizeHistoryRetentionStatus markets)
  && (hr_confidenceLevel s === summarizeHistoryRecoveryConfidence markets)
  && (hr_confidenceReason s === summarizeHistoryRecoveryConfidenceReason markets)
  && (hr_recoveredOrderCount s <=? hr_scannedSnapshotCount s)
  && (recoveredIssueCount =? hr_recoveredOrderCount s)
  && (hr_scannedSnapshotCount s <=? snapshotCount)
  && Bool.eqb (0 <? hr_scannedSnapshotCount s) (0 <? snapshotCount).

Definition isStrictHistoryRecoverySummary (s : ReconciliationHistoryRecoverySummary)
    (reconciliationStatus : RunStatus.ReconciliationStatus)
    (issueCodes : list Issue.ReconciliationIssueCode)
    (runStartedAt completedOrCheckedAt : string) : bool :=
  match timestampEpoch runStartedAt, timestampEpoch completedOrCheckedAt with
  | Some startedAtEpoch, Some boundaryEpoch =>
      (startedAtEpoch <=? boundaryEpoch)
      && nonNegativeSafeInteger (hr_closedOrderLookbackDays s)
      && (1 <=? hr_closedOrderLookbackDays s)
      && nonNegativeSafeInteger (hr_stopBeforeDays s)
      && (hr_closedOrderLookbackDays s <=? hr_stopBeforeDays s)
      && nonNegativeSafeInteger (hr_retentionAssumptionDays s)
      && (hr_closedOrderLookbackDays s <=? hr_retentionAssumptionDays s)
      && nonNegativeSafeInteger (hr_scannedSnapshotCount s)
      && nonNegativeSafeInteger (hr_recoveredOrderCount s)
      && match derivedTimestamp runStartedAt 0,
               derivedTimestamp runStartedAt (hr_closedOrderLookbackDays s),
               derivedTimestamp runStartedAt (hr_stopBeforeDays s),
               derivedTimestamp runStartedAt (hr_retentionAssumptionDays s) with
         | Some recentEndAt, Some recentStartAt, Some expectedStopBeforeAt,
           Some expectedRetentionBoundaryAt =>
             (hr_stopBeforeAt s === expectedStopBeforeAt)
             && (hr_retentionBoundaryAt s === expectedRetentionBoundaryAt)
             && timestampsAtOrBefore [hr_stopBeforeAt s; hr_retentionBoundaryAt s] boundaryEpoch
             && match Date_parse expectedStopBeforeAt, Date_parse expectedRetentionBoundaryAt,
                      Date_parse recentStartAt with
                | Some stopBeforeMs, Some retentionBoundaryMs, Some recentStart =>
                    let e := {| expectedStopBeforeMs := stopBeforeMs;
                                expectedRetentionBoundaryMs := retentionBoundaryMs;
                                recentStartMs := recentStart;
                                lookbackMs :=
                                  hr_closedOrderLookbackDays s * MILLISECONDS_PER_DAY |} in
                    let lookupFailures :=
                      countIssueCode issueCodes Issue.ORDER_HISTORY_LOOKUP_FAILED in
                    let recovered := countIssueCode issueCodes Issue.EXCHANGE_ORDER_RECOVERED in
                    if hr_confidenceLevel s === Confidence.FAILED
                    then strict_failure s reconciliationStatus lookupFailures recovered e
                    else strict_success s reconciliationStatus lookupFailures recovered e
                           recentStartAt recentEndAt boundaryEpoch
                | _, _, _ => false
                end
         | _, _, _, _ => false
         end
  | _, _ => false
  end.

Definition isValidBoundedReconciliationSweep (candidateCount processedCount deferredCount
    maxOrderLookupsPerRun : Z) (issueCodes : list Issue.ReconciliationIssueCode) : bool :=
  let completedCount := processedCount + deferredCount in
  isSafeInteger completedCount && (completedCount =? candidateCount)
  && (processedCount <=? maxOrderLookupsPerRun)
  && (countIssueCode issueCodes Issue.ORDER_LOOKUP_DEFERRED
      =? if 0 <? deferredCount then 1 else 0).

(** ** Instants that are printed and read back *)

Lemma Date_parse_toISOString ms : clock_in_range ms -> Date_parse (toISOString ms) = Some ms.
Proof.
  intros Hms. unfold clock_in_range in Hms.
  change last_four_digit_second with 253402300799 in *.
  pose proof (Z.mod_pos_bound ms 1000 ltac:(lia)). pose proof (Z.div_mod ms 1000 ltac:(lia)).
  unfold toISOString.
  destruct (iso_seconds_text (ms / 1000) ("." ++ digits_fixed 3 (ms mod 1000)))
    as (y & mo & d & h & mi & s & -> & ? & ? & ? & ? & ? & ? & Heq).
  { change last_four_digit_second with 253402300799. Z.to_euclidean_division_equations. lia. }
  pose proof (daysInMonth_31 y mo). set (f := digits_fixed 3 (ms mod 1000)).
  assert (Hf : all_digits f = true) by apply digits_fixed_digits.
  assert (Hlen : String.length f = 3%nat) by apply length_digits_fixed.
  assert (Hval : digits_value f = ms mod 1000) by (apply digits_value_fixed; simpl; lia).
  assert (Hpad : padEnd0 3 f = f) by (unfold padEnd0; rewrite Hlen; apply string_app_nil_r).
  assert (Hne : (f === "") = false) by (apply bool_decide_eq_false_2; intros E; by rewrite E in Hlen).
  clearbody f. unfold Date_parse, utc_text, parse_date, parse_seconds.
  repeat (rewrite ?take_digits_fixed; cbn -[digits_fixed]; rewrite ?take_char_app; cbn -[digits_fixed];
          rewrite ?digits_value_fixed by (simpl; lia); cbn -[digits_fixed];
          rewrite ?(proj2 (Z.ltb_ge _ _)) by lia; cbn -[digits_fixed]).
  rewrite <- (string_app_assoc "." f "Z"), take_char_app, span_digits_app by done. rewrite Hne, Hpad.
  destruct f as [|c1 [|c2 [|c3 [|]]]]; try discriminate Hlen. cbn -[digits_value].
  rewrite bool_decide_eq_true_2 by done. cbn -[digits_value].
  rewrite !(proj2 (Z.leb_le _ _)) by lia. cbn -[digits_value]. f_equal.
  rewrite Hval. unfold make_time in *. lia.
Qed.

Lemma dateToISOString_in_range ms : clock_in_range ms -> dateToISOString ms = Ret (toISOString ms).
Proof.
  intros Hms. unfold clock_in_range in Hms.
  change last_four_digit_second with (make_day 9999 12 31 * 86400 + 86399) in Hms.
  unfold dateToISOString. rewrite (proj2 (Z.ltb_ge _ _)).
  2: { change (make_day 9999 12 31) with 2932896 in Hms. lia. }
  destruct (civil_from_day (ms / 1000 / 86400)) as [[y mo] d] eqn:E. cbn.
  apply civil_from_day_spec in E as (Hy & _).
  - by rewrite !(proj2 (Z.leb_le _ _)) by lia.
  - change (make_day 9999 12 31) with 2932896 in *. rewrite Z.div_div by lia.
    split; [apply Z.div_pos; lia|apply Z.lt_succ_r, Z.div_lt_upper_bound; lia].
Qed.

Lemma timestampEpoch_toISOString ms :
  clock_in_range ms -> timestampEpoch (toISOString ms) = Some (ms * 1000000).
Proof.
  intros Hms. unfold timestampEpoch, parseCandidatePilotTimestamp.
  by rewrite (proj1 (parse_toISOString ms _ Hms)).
Qed.

Lemma clock_is_safe ms : clock_in_range ms -> isSafeInteger ms = true.
Proof.
  unfold clock_in_range. change last_four_digit_second with 253402300799. intros ?.
  unfold isSafeInteger, MAX_SAFE_INTEGER. apply andb_true_iff. split; apply Z.leb_le; lia.
Qed.

Lemma isoTimestamp_in_range ms : clock_in_range ms -> isoTimestamp ms = Some (toISOString ms).
Proof.
  intros Hms. unfold isoTimestamp. by rewrite clock_is_safe, dateToISOString_in_range.
Qed.

(** ** Coverage *)

Record limits_ok (limits : HistoryLimits) : Prop := {
  lookback_positive : 1 <= closedOrderLookbackDays limits;
  stop_after_lookback : closedOrderLookbackDays limits <= historyStopBeforeDays limits;
  retention_after_lookback :
    closedOrderLookbackDays limits <= historyRetentionAssumptionDays limits;
}.

Lemma history_limits_ok deps : limits_ok (history_limits deps).
Proof. split; cbn; lia. Qed.

(** The checkpoint a run leaves. *)
Definition next_checkpoint (id account : string) (market : SupportedMarket) (updatedAt : string)
    (w : ArchivalWindow) : HistoryRecoveryCheckpointRecord := {|
  ckpt_id := id; ckpt_exchangeAccountId := account; ckpt_market := market;
  ckpt_nextWindowEndAt := toISOString (archivalWindowStartTimeMs w);
  ckpt_updatedAt := updatedAt |}.

(** Runs at the given instants, each with its window, from a checkpoint. *)
Fixpoint archive_runs (limits : HistoryLimits)
    (checkpoint : option HistoryRecoveryCheckpointRecord) (ends : list Z)
    : list (Z * ArchivalWindow) :=
  match ends with
  | [] => []
  | e :: ends' =>
      let w := archival_window limits e checkpoint in
      (e, w) :: archive_runs limits
                  (Some (next_checkpoint "checkpoint" "account" Market.KRW_BTC "now" w)) ends'
  end.

(** A run looks at an instant in its recent or in its archival window. *)
Definition looks_at (limits : HistoryLimits) (t : Z) (run : Z * ArchivalWindow) : Prop :=
  (days_before (fst run) (closedOrderLookbackDays limits) <= t <= fst run) \/
  (archivalWindowStartTimeMs (snd run) <= t <= archivalWindowEndTimeMs (snd run)).

(** Runs go forward, at most a lookback apart, and stop after the epoch. *)
Fixpoint regular_runs (limits : HistoryLimits) (previous : Z) (ends : list Z) : Prop :=
  match ends with
  | [] => True
  | e :: ends' =>
      previous <= e <= previous + closedOrderLookbackDays limits * MILLISECONDS_PER_DAY /\
      clock_in_range e /\ regular_runs limits e ends'
  end.

Lemma window_next limits e end_ id account market now :
  clock_in_range (archivalWindowStartTimeMs (archival_window_from limits e end_)) ->
  forall e', archival_window limits e'
    (Some (next_checkpoint id account market now (archival_window_from limits e end_)))
  = archival_window_from limits e' (archivalWindowStartTimeMs (archival_window_from limits e end_)).
Proof.
  intros Hr e'. unfold archival_window. f_equal.
  cbn [mbind option_bind next_checkpoint ckpt_nextWindowEndAt]. by rewrite Date_parse_toISOString.
Qed.

Section Coverage.
Context (limits : HistoryLimits) (Hok : limits_ok limits).

Abbreviation lookback := (closedOrderLookbackDays limits * MILLISECONDS_PER_DAY).
Abbreviation stop e := (days_before e (historyStopBeforeDays limits)).

(** The same runs, from a position. *)
Fixpoint runs_from (p : Z) (ends : list Z) : list (Z * ArchivalWindow) :=
  match ends with
  | [] => []
  | e :: ends' =>
      let w := archival_window_from limits e p in
      (e, w) :: runs_from (archivalWindowStartTimeMs w) ends'
  end.

Fixpoint final_position (p : Z) (ends : list Z) : Z :=
  match ends with
  | [] => p
  | e :: ends' => final_position (archivalWindowStartTimeMs (archival_window_from limits e p)) ends'
  end.

(** A run moves the position back by a lookback or to the boundary. *)
Lemma window_start e p :
  let s := archivalWindowStartTimeMs (archival_window_from limits e p) in
  s <= p /\ (s <= stop e \/ s = p - lookback) /\ (stop e <= s \/ s = p).
Proof.
  pose proof (lookback_positive _ Hok). unfold archival_window_from, MILLISECONDS_PER_DAY.
  cbn [archivalWindowStartTimeMs]. cbv zeta. destruct (p <=? stop e) eqn:E; destruct_bools; lia.
Qed.

Lemma stop_monotone e e' : e <= e' -> stop e <= stop e'.
Proof. unfold days_before. lia. Qed.

Lemma last_cons (e e' : Z) ends : List.last (e' :: ends) e = List.last ends e'.
Proof. revert e e'. induction ends as [|x ends IH]; intros e e'; [done|]. cbn in *. by destruct ends. Qed.

Lemma last_run_after e ends : regular_runs limits e ends -> e <= List.last ends e.
Proof.
  revert e. induction ends as [|e' ends IH]; intros e; [done|]. intros (He & _ & Hr).
  specialize (IH e' Hr). rewrite last_cons. lia.
Qed.

Lemma final_position_le p ends : final_position p ends <= p.
Proof.
  revert p. induction ends as [|e ends IH]; intros p; [done|]. cbn [final_position].
  destruct (window_start e p) as (Hle & _). etransitivity; [apply IH|exact Hle].
Qed.

(** After enough runs the position is at the boundary. *)
Lemma final_position_bound p e ends :
  regular_runs limits e ends ->
  final_position p ends <= stop (List.last ends e) \/
  final_position p ends = p - Z.of_nat (length ends) * lookback.
Proof.
  revert p e. induction ends as [|e' ends IH]; intros p e; [right; cbn; lia|].
  intros (He & _ & Hr). rewrite last_cons. cbn [final_position].
  destruct (window_start e' p) as (_ & [Hs|Hs] & _).
  - left. etransitivity; [apply final_position_le|]. etransitivity; [exact Hs|].
    apply stop_monotone, last_run_after, Hr.
  - destruct (IH (archivalWindowStartTimeMs (archival_window_from limits e' p)) e' Hr)
      as [Hf|Hf]; [by left|]. right. rewrite Hf, Hs. cbn [length]. lia.
Qed.

Lemma recent_covered e ends t :
  regular_runs limits e ends ->
  days_before e (closedOrderLookbackDays limits) <= t <= List.last ends e ->
  exists e', e' ∈ e :: ends /\ days_before e' (closedOrderLookbackDays limits) <= t <= e'.
Proof.
  revert e. induction ends as [|e' ends IH]; intros e Hr Ht.
  - exists e. split; [left|done].
  - destruct (decide (t <= e)) as [Hte|Hte]; [exists e; split; [left|lia]|].
    destruct Hr as (He & _ & Hr). rewrite last_cons in Ht.
    destruct (IH e' Hr) as (e'' & Hin & Hcov).
    { unfold days_before in *. lia. }
    exists e''. split; [by right|done].
Qed.

Lemma archive_covered p ends t :
  final_position p ends <= t < p ->
  Exists (fun run => archivalWindowStartTimeMs (snd run) <= t <= archivalWindowEndTimeMs (snd run))
    (runs_from p ends).
Proof.
  revert p. induction ends as [|e ends IH]; intros p Ht; cbn [final_position runs_from] in *; [lia|].
  set (s := archivalWindowStartTimeMs (archival_window_from limits e p)) in *.
  destruct (decide (s <= t)) as [Hs|Hs].
  { left. cbn [snd]. fold s. change (archivalWindowEndTimeMs (archival_window_from limits e p)) with p.
    lia. }
  right. apply IH. lia.
Qed.

Lemma runs_from_ends p ends e : e ∈ ends -> exists w, (e, w) ∈ runs_from p ends.
Proof.
  revert p. induction ends as [|e' ends IH]; intros p; [by intros ?%elem_of_nil|].
  intros [->|Hin]%elem_of_cons; [eexists; left|].
  destruct (IH (archivalWindowStartTimeMs (archival_window_from limits e' p)) Hin) as [w Hw].
  exists w. by right.
Qed.

Lemma archive_runs_from p e ends checkpoint :
  regular_runs limits e ends -> clock_in_range e -> 0 <= stop e -> p <= e -> 0 <= p ->
  default (days_before (hd e ends) (closedOrderLookbackDays limits))
    (checkpoint ≫= fun c => Date_parse (ckpt_nextWindowEndAt c)) = p ->
  archive_runs limits checkpoint ends = runs_from p ends.
Proof.
  revert p e checkpoint. induction ends as [|e' ends IH]; intros p e checkpoint Hr He Hstop Hp Hp0 Hc;
    [done|].
  destruct Hr as ([Hle _] & He' & Hr). cbn [archive_runs runs_from].
  unfold archival_window. cbn [hd] in Hc. rewrite Hc. f_equal.
  destruct (window_start e' p) as (Hsp & _ & Hlow).
  pose proof (stop_monotone _ _ Hle).
  assert (Hin : clock_in_range (archivalWindowStartTimeMs (archival_window_from limits e' p))).
  { unfold clock_in_range in *. lia. }
  apply (IH _ e'); [done|done|lia|lia|lia|].
  cbn [mbind option_bind next_checkpoint ckpt_nextWindowEndAt]. by rewrite Date_parse_toISOString.
Qed.

End Coverage.


(** ** Reports are accepted *)

(** What pagination gives: at least one page of a window that is read. *)
Record scans_ok (w : ArchivalWindow) (s : MarketScans) : Prop := {
  open_scanned : 1 <= scan_pagesScanned (openSnapshots s);
  recent_scanned : 1 <= scan_pagesScanned (recentClosedSnapshots s);
  archive_scanned :
    if archiveAlreadyComplete w then archivalClosedSnapshots s = no_scan
    else 1 <= scan_pagesScanned (archivalClosedSnapshots s);
  pages_countable : scan_pagesScanned (openSnapshots s) + scan_pagesScanned (recentClosedSnapshots s)
    + scan_pagesScanned (archivalClosedSnapshots s) <= MAX_SAFE_INTEGER;
  snapshots_countable : Z.of_nat (length (market_snapshots s)) <= MAX_SAFE_INTEGER;
}.

(** The run starts at a printed clock time, with all boundaries after 1970. *)
Record clock_ok (limits : HistoryLimits) (startedAtMs : Z) : Prop := {
  started_in_range : clock_in_range startedAtMs;
  stop_in_range : 0 <= days_before startedAtMs (historyStopBeforeDays limits);
  retention_in_range : 0 <= days_before startedAtMs (historyRetentionAssumptionDays limits);
}.

(** The checkpoint of an archive lies before the recent window. *)
Definition checkpoint_ok (limits : HistoryLimits) (startedAtMs : Z)
    (checkpoint : option HistoryRecoveryCheckpointRecord) : Prop :=
  forall c t, checkpoint = Some c -> Date_parse (ckpt_nextWindowEndAt c) = Some t ->
  0 <= t <= days_before startedAtMs (closedOrderLookbackDays limits).

Definition expected_instants (limits : HistoryLimits) (startedAtMs : Z) : ExpectedInstants := {|
  expectedStopBeforeMs := days_before startedAtMs (historyStopBeforeDays limits);
  expectedRetentionBoundaryMs := days_before startedAtMs (historyRetentionAssumptionDays limits);
  recentStartMs := days_before startedAtMs (closedOrderLookbackDays limits);
  lookbackMs := closedOrderLookbackDays limits * MILLISECONDS_PER_DAY |}.

Lemma safe_between z : 0 <= z <= MAX_SAFE_INTEGER -> nonNegativeSafeInteger z = true.
Proof.
  unfold nonNegativeSafeInteger, isSafeInteger, MAX_SAFE_INTEGER. intros ?.
  repeat (apply andb_true_iff; split); apply Z.leb_le; lia.
Qed.

Lemma safe_integer z : 0 <= z <= MAX_SAFE_INTEGER -> isSafeInteger z = true.
Proof. intros H%safe_between. by apply andb_true_iff in H as [? _]. Qed.

Section Reports.
Context (limits : HistoryLimits) (Hok : limits_ok limits).
Context (startedAtMs : Z) (Hclock : clock_ok limits startedAtMs).

Abbreviation recent_start := (days_before startedAtMs (closedOrderLookbackDays limits)).
Abbreviation stop_before := (days_before startedAtMs (historyStopBeforeDays limits)).

Lemma boundaries_in_range :
  clock_in_range recent_start /\ clock_in_range stop_before /\
  clock_in_range (days_before startedAtMs (historyRetentionAssumptionDays limits)) /\
  stop_before <= recent_start /\ recent_start <= startedAtMs.
Proof.
  destruct Hclock as [Hs Hst Hre], Hok as [H1 H2 H3].
  unfold clock_in_range, days_before, MILLISECONDS_PER_DAY in *. lia.
Qed.

Definition printed_texts : HistoryWindowTexts := {|
  text_stopBeforeAt := toISOString stop_before;
  text_retentionBoundaryAt :=
    toISOString (days_before startedAtMs (historyRetentionAssumptionDays limits));
  text_recentClosedWindowStartAt := toISOString recent_start;
  text_recentClosedWindowEndAt := toISOString startedAtMs |}.

Lemma window_texts : history_window_texts limits startedAtMs = Ret printed_texts.
Proof.
  destruct boundaries_in_range as (Hr & Hst & Hre & _). unfold history_window_texts.
  rewrite !dateToISOString_in_range by (done || apply Hclock). done.
Qed.

(** The archival window of a run, below the recent one. *)
Lemma archival_window_bounds checkpoint :
  checkpoint_ok limits startedAtMs checkpoint ->
  let w := archival_window limits startedAtMs checkpoint in
  0 <= archivalWindowStartTimeMs w <= archivalWindowEndTimeMs w /\
  archivalWindowEndTimeMs w <= recent_start /\
  (archiveAlreadyComplete w = true -> archivalWindowStartTimeMs w <= stop_before) /\
  archivalWindowStartTimeMs w =
    if archivalWindowEndTimeMs w <=? stop_before then archivalWindowEndTimeMs w
    else Z.max (archivalWindowEndTimeMs w - closedOrderLookbackDays limits * MILLISECONDS_PER_DAY)
           stop_before.
Proof.
  intros Hc. destruct boundaries_in_range as (Hr & Hst & _ & Hle & _).
  assert (Hend : 0 <= archivalWindowEndTimeMs (archival_window limits startedAtMs checkpoint)
                 <= recent_start).
  { unfold archival_window, archival_window_from. cbn [archivalWindowEndTimeMs].
    destruct checkpoint as [c|]; cbn; [|unfold clock_in_range in Hr; lia].
    destruct (Date_parse _) as [t|] eqn:Ht; cbn; [by eapply Hc|unfold clock_in_range in Hr; lia]. }
  cbv zeta. revert Hend. unfold archival_window.
  destruct (default recent_start _) as [|p|p]; cbn [archivalWindowEndTimeMs archival_window_from];
    intros Hend; try lia; unfold archival_window_from; cbn [archivalWindowStartTimeMs archiveAlreadyComplete];
    (destruct (_ <=? _) eqn:E; destruct_bools; pose proof (lookback_positive _ Hok);
     unfold clock_in_range, MILLISECONDS_PER_DAY in *; split_and!; try lia; done).
Qed.

Lemma in_range_below t : 0 <= t <= startedAtMs -> clock_in_range t.
Proof. destruct Hclock as [Hs _ _]. unfold clock_in_range in *. lia. Qed.

Lemma printed_before boundary t :
  0 <= t <= startedAtMs -> startedAtMs * 1000000 <= boundary ->
  match timestampEpoch (toISOString t) with Some e => e <=? boundary | None => false end = true.
Proof.
  intros Ht Hb. rewrite timestampEpoch_toISOString by by apply in_range_below. apply Z.leb_le. lia.
Qed.

Lemma progress_is_strict checkpoint market s p boundary :
  let w := archival_window limits startedAtMs checkpoint in
  checkpoint_ok limits startedAtMs checkpoint -> scans_ok w s ->
  startedAtMs * 1000000 <= boundary ->
  market_progress limits startedAtMs printed_texts market w
    (toISOString (archivalWindowStartTimeMs w)) s = Ret p ->
  strict_market (expected_instants limits startedAtMs) (toISOString recent_start)
    (toISOString startedAtMs) boundary p = true.
Proof.
  intros w Hc Hs Hb. destruct (archival_window_bounds checkpoint Hc) as (Hstart & Hend & Hdone & Heq).
  fold w in Hstart, Hend, Hdone, Heq. clearbody w. clear Hc.
  destruct boundaries_in_range as (Hr & Hst & _ & _ & Hle). pose proof (proj1 Hr) as Hr0.
  destruct Hs as [Hopen Hrecent Harchive Hpages Hsnaps].
  assert (Harch : 0 <= scan_pagesScanned (archivalClosedSnapshots s)).
  { destruct (archiveAlreadyComplete w); [by rewrite Harchive|lia]. }
  assert (Hws : clock_in_range (archivalWindowStartTimeMs w)) by (apply in_range_below; lia).
  assert (Hwe : clock_in_range (archivalWindowEndTimeMs w)) by (apply in_range_below; lia).
  unfold market_progress. rewrite !dateToISOString_in_range by done. intros [= <-].
  unfold strict_market. cbn [mp_archivalWindowStartAt mp_archivalWindowEndAt].
  rewrite !Date_parse_toISOString by done.
  cbn [expected_instants expectedStopBeforeMs expectedRetentionBoundaryMs recentStartMs lookbackMs
       mp_recentClosedWindowStartAt mp_recentClosedWindowEndAt mp_nextWindowEndAt mp_archiveComplete
       mp_retentionStatus mp_confidenceLevel mp_confidenceReason mp_openHistoryTruncated
       mp_recentClosedHistoryTruncated mp_archivalClosedHistoryTruncated mp_openPagesScanned
       mp_recentClosedPagesScanned mp_archivalClosedPagesScanned mp_snapshotCount printed_texts
       text_recentClosedWindowStartAt text_recentClosedWindowEndAt].
  cbv zeta.
  rewrite <- Heq, isoTimestamp_in_range by done.
  unfold timestampsAtOrBefore. cbn [forallb].
  rewrite !printed_before by (lia || done).
  rewrite !safe_between, !clock_is_safe, !safe_integer by (done || lia).
  rewrite !bool_decide_eq_true_2 by done.
  rewrite !(proj2 (Z.eqb_neq (_ + _) _)), !(proj2 (Z.eqb_neq (scan_pagesScanned (openSnapshots s)) _)),
    !(proj2 (Z.eqb_neq (scan_pagesScanned (recentClosedSnapshots s)) _)), !andb_false_r by lia.
  rewrite (proj2 (Z.leb_le (archivalWindowStartTimeMs w) (archivalWindowEndTimeMs w))),
    (proj2 (Z.leb_le (archivalWindowEndTimeMs w) _)), (proj2 (Z.leb_le 1 (scan_pagesScanned (openSnapshots s)))),
    (proj2 (Z.leb_le 1 (scan_pagesScanned (recentClosedSnapshots s)))) by lia. cbn [negb].
  rewrite !andb_true_r. cbn [andb]. destruct (archiveAlreadyComplete w) eqn:Hcomplete.
  - rewrite Harchive, (proj2 (Z.leb_le _ stop_before)) by auto. done.
  - rewrite (proj2 (Z.leb_le 1 _)), orb_true_r, (proj2 (Z.eqb_neq _ 0)), andb_false_r by lia. done.
Qed.

Lemma derived_timestamp days :
  0 <= days -> 0 <= days_before startedAtMs days ->
  derivedTimestamp (toISOString startedAtMs) days = Some (toISOString (days_before startedAtMs days)).
Proof.
  intros Hd Hb. destruct Hclock as [Hs _ _]. unfold derivedTimestamp.
  rewrite Date_parse_toISOString by done. cbn [mbind option_bind].
  assert (Hin : clock_in_range (days_before startedAtMs days)).
  { unfold clock_in_range, days_before, MILLISECONDS_PER_DAY in *. lia. }
  rewrite clock_is_safe by done. rewrite safe_integer.
  - by apply isoTimestamp_in_range.
  - unfold clock_in_range, days_before, MILLISECONDS_PER_DAY, MAX_SAFE_INTEGER in *.
    change last_four_digit_second with 253402300799 in *. lia.
Qed.

(** The checks the reader makes before it looks at the kind of report. *)
Lemma strict_reader (s : ReconciliationHistoryRecoverySummary) status codes completedAt boundary :
  timestampEpoch completedAt = Some boundary -> startedAtMs * 1000000 <= boundary ->
  hr_closedOrderLookbackDays s = closedOrderLookbackDays limits ->
  hr_stopBeforeDays s = historyStopBeforeDays limits ->
  hr_retentionAssumptionDays s = historyRetentionAssumptionDays limits ->
  hr_stopBeforeAt s = text_stopBeforeAt printed_texts ->
  hr_retentionBoundaryAt s = text_retentionBoundaryAt printed_texts ->
  0 <= hr_scannedSnapshotCount s <= MAX_SAFE_INTEGER ->
  0 <= hr_recoveredOrderCount s <= MAX_SAFE_INTEGER ->
  isStrictHistoryRecoverySummary s status codes (toISOString startedAtMs) completedAt =
  let lookupFailures := countIssueCode codes Issue.ORDER_HISTORY_LOOKUP_FAILED in
  let recovered := countIssueCode codes Issue.EXCHANGE_ORDER_RECOVERED in
  if hr_confidenceLevel s === Confidence.FAILED
  then strict_failure s status lookupFailures recovered (expected_instants limits startedAtMs)
  else strict_success s status lookupFailures recovered (expected_instants limits startedAtMs)
         (toISOString recent_start) (toISOString startedAtMs) boundary.
Proof.
  intros Hc Hb Hlook Hstop Hret Hst Hrb Hscan Hrec.
  destruct boundaries_in_range as (Hr & Hs & Hre & _ & Hle).
  pose proof (proj1 Hr). pose proof (proj1 Hs). pose proof (proj1 Hre).
  destruct Hok as [Hl1 Hl2 Hl3]. pose proof (started_in_range _ _ Hclock) as Hin.
  unfold isStrictHistoryRecoverySummary. rewrite timestampEpoch_toISOString, Hc by done.
  rewrite Hlook, Hstop, Hret, Hst, Hrb. cbn [text_stopBeforeAt text_retentionBoundaryAt printed_texts].
  rewrite !derived_timestamp by lia || (unfold days_before; rewrite ?Z.mul_0_l; unfold clock_in_range in Hin; lia).
  rewrite !Date_parse_toISOString by done. rewrite !bool_decide_eq_true_2 by done.
  assert (Hday : forall d, 1 <= d -> 0 <= days_before startedAtMs d -> nonNegativeSafeInteger d = true).
  { intros d Hd Hdd. apply safe_between.
    unfold clock_in_range, days_before, MILLISECONDS_PER_DAY, MAX_SAFE_INTEGER in *.
    change last_four_digit_second with 253402300799 in *. lia. }
  rewrite !Hday by lia. rewrite !safe_between by done.
  unfold timestampsAtOrBefore. cbn [forallb]. rewrite !printed_before by (unfold days_before, MILLISECONDS_PER_DAY in *; lia).
  rewrite !(proj2 (Z.leb_le _ _)) by lia. cbn [andb].
  assert (Hz : days_before startedAtMs 0 = startedAtMs) by (unfold days_before; lia).
  by rewrite Hz.
Qed.

(** A report of a recovery that failed. *)
Lemma failed_report_is_strict message s codes completedAt boundary :
  timestampEpoch completedAt = Some boundary -> startedAtMs * 1000000 <= boundary ->
  buildFailedHistoryRecoverySummary limits startedAtMs message = Ret s ->
  countIssueCode codes Issue.ORDER_HISTORY_LOOKUP_FAILED = 1 ->
  countIssueCode codes Issue.EXCHANGE_ORDER_RECOVERED = 0 ->
  isStrictHistoryRecoverySummary s RunStatus.DRIFT_DETECTED codes (toISOString startedAtMs)
    completedAt = true.
Proof.
  intros Hc Hb Hs Hl Hr. destruct boundaries_in_range as (_ & Hst & Hre & _).
  unfold buildFailedHistoryRecoverySummary in Hs. rewrite !dateToISOString_in_range in Hs by done.
  injection Hs as <-. rewrite (strict_reader _ _ _ _ boundary) by (done || (cbn; unfold MAX_SAFE_INTEGER; lia)).
  cbn [hr_confidenceLevel]. rewrite bool_decide_eq_true_2 by done. cbv zeta. rewrite Hl, Hr.
  unfold strict_failure. cbn -[days_before bool_decide].
  rewrite !bool_decide_eq_true_2 by (done || by eexists). done.
Qed.

(** A report of both markets. *)
Lemma report_is_strict p1 p2 scanned recovered status codes completedAt boundary :
  timestampEpoch completedAt = Some boundary -> startedAtMs * 1000000 <= boundary ->
  mp_market p1 = Market.KRW_BTC -> mp_market p2 = Market.KRW_ETH ->
  Forall (fun p => strict_market (expected_instants limits startedAtMs) (toISOString recent_start)
                     (toISOString startedAtMs) boundary p = true) [p1; p2] ->
  Forall (fun p => mp_confidenceLevel p ≠ Confidence.FAILED /\
                   mp_confidenceReason p ≠ Reason.LOOKUP_FAILED /\ 0 <= mp_snapshotCount p) [p1; p2] ->
  mp_snapshotCount p1 + mp_snapshotCount p2 <= MAX_SAFE_INTEGER ->
  0 <= recovered <= scanned -> scanned <= mp_snapshotCount p1 + mp_snapshotCount p2 ->
  (0 < mp_snapshotCount p1 + mp_snapshotCount p2 -> 0 < scanned) ->
  status ≠ RunStatus.ERROR ->
  countIssueCode codes Issue.ORDER_HISTORY_LOOKUP_FAILED = 0 ->
  countIssueCode codes Issue.EXCHANGE_ORDER_RECOVERED = recovered ->
  isStrictHistoryRecoverySummary
    (history_recovery_summary limits printed_texts [p1; p2] scanned recovered)
    status codes (toISOString startedAtMs) completedAt = true.
Proof.
  intros Hc Hb Hm1 Hm2 Hstrict Hkind Htotal Hrec Hscan Hpos Hstatus Hl Hr.
  rewrite (strict_reader _ _ _ _ boundary) by (done || (cbn; unfold MAX_SAFE_INTEGER in *; lia)).
  cbv zeta. rewrite Hl, Hr.
  assert (Hconf : summarizeHistoryRecoveryConfidence [p1; p2] = Confidence.HIGH \/
                  summarizeHistoryRecoveryConfidence [p1; p2] = Confidence.PARTIAL).
  { unfold summarizeHistoryRecoveryConfidence. destruct (forallb _ _); auto. }
  assert (Hreason : summarizeHistoryRecoveryConfidenceReason [p1; p2] ≠ Reason.LOOKUP_FAILED).
  { unfold summarizeHistoryRecoveryConfidenceReason. by repeat destruct (some_reason _ _). }
  cbn [history_recovery_summary hr_confidenceLevel].
  rewrite bool_decide_eq_false_2 by (destruct Hconf as [-> | ->]; done).
  unfold strict_success. cbn [history_recovery_summary hr_markets hr_confidenceLevel hr_confidenceReason
    hr_failureMessage hr_coverageStatus hr_retentionStatus hr_recoveredOrderCount
    hr_scannedSnapshotCount expected_instants expectedStopBeforeMs expectedRetentionBoundaryMs
    recentStartMs lookbackMs].
  destruct boundaries_in_range as (Hrs & Hst & Hre & _). rewrite !clock_is_safe by done.
  apply Forall_cons in Hstrict as [Hs1 [Hs2 _]%Forall_cons].
  apply Forall_cons in Hkind as [(_ & _ & Hn1) [(_ & _ & Hn2) _]%Forall_cons].
  change ({| expectedStopBeforeMs := _ |}) with (expected_instants limits startedAtMs).
  cbn [forallb length]. rewrite Hs1, Hs2. change (2 =? 2)%nat with true.
  assert (Hdistinct : distinct_markets [p1; p2] = true).
  { apply bool_decide_eq_true_2. cbn. rewrite Hm1, Hm2. apply NoDup_cons. split; [|apply NoDup_singleton].
    by intros ?%list_elem_of_singleton. }
  rewrite Hdistinct.
  assert (Hsum : total_snapshots [p1; p2] = mp_snapshotCount p1 + mp_snapshotCount p2)
    by (cbn; lia). rewrite Hsum.
  assert (Hlook : 0 <= closedOrderLookbackDays limits * MILLISECONDS_PER_DAY <= MAX_SAFE_INTEGER).
  { pose proof (lookback_positive _ Hok). pose proof (started_in_range _ _ Hclock).
    unfold clock_in_range, days_before, MILLISECONDS_PER_DAY, MAX_SAFE_INTEGER in *.
    change last_four_digit_second with 253402300799 in *. lia. }
  rewrite (safe_integer _ Hlook), (safe_integer (_ + _)) by lia.
  rewrite (bool_decide_eq_false_2 (status = _)) by done.
  rewrite (bool_decide_eq_false_2 (_ = Reason.LOOKUP_FAILED)) by done.
  assert (Hlevels : (summarizeHistoryRecoveryConfidence [p1; p2] === Confidence.HIGH)
                    || (summarizeHistoryRecoveryConfidence [p1; p2] === Confidence.PARTIAL) = true).
  { destruct Hconf as [-> | ->]; done. }
  rewrite Hlevels, !bool_decide_eq_true_2, !(proj2 (Z.leb_le _ _)), Z.eqb_refl by (done || lia).
  cbn [negb andb]. apply Bool.eqb_true_iff.
  destruct (Z.ltb_spec 0 scanned), (Z.ltb_spec 0 (mp_snapshotCount p1 + mp_snapshotCount p2)); lia.
Qed.

End Reports.

(** ** Telling snapshots apart *)

Lemma dedupe_step_length snapshots deduped :
  let r := foldl (fun deduped snapshot =>
             match map_get (snapshot_key snapshot) deduped with
             | Some _ => deduped
             | None => map_set (snapshot_key snapshot) snapshot deduped
             end) deduped snapshots in
  (length deduped <= length r <= length deduped + length snapshots)%nat /\
  (deduped = [] -> snapshots = [] \/ (0 < length r)%nat).
Proof.
  revert deduped. induction snapshots as [|s l IH]; intros deduped; cbn; [split; [lia|by left]|].
  destruct (map_get (snapshot_key s) deduped) eqn:Hg.
  - destruct (IH deduped) as [Hl _]. split; [lia|]. intros ->. discriminate Hg.
  - rewrite (map_set_new _ _ _ Hg). destruct (IH (deduped ++ [(snapshot_key s, s)])%list) as [Hl _].
    rewrite length_app in Hl. cbn in Hl. split; [lia|]. right. lia.
Qed.

Lemma dedupe_length snapshots :
  (length (dedupe snapshots) <= length snapshots)%nat /\
  ((0 < length snapshots)%nat -> (0 < length (dedupe snapshots))%nat).
Proof.
  destruct (dedupe_step_length snapshots []) as [Hl Hpos]. unfold dedupe. cbn in Hl. split; [lia|].
  intros Hs. destruct (Hpos eq_refl) as [->|]; [cbn in Hs; lia|done].
Qed.

(** ** Confidence *)

Lemma market_progress_kind limits startedAtMs texts market w next s p :
  market_progress limits startedAtMs texts market w next s = Ret p ->
  mp_market p = market /\ mp_confidenceLevel p ≠ Confidence.FAILED /\
  mp_confidenceReason p ≠ Reason.LOOKUP_FAILED /\
  mp_snapshotCount p = Z.of_nat (length (market_snapshots s)).
Proof.
  unfold market_progress. intros (? & _ & H)%bind_Ret. apply bind_Ret in H as (? & _ & [= <-]).
  cbn [mp_market mp_confidenceLevel mp_confidenceReason mp_snapshotCount].
  unfold confidence_level, resolveHistoryRecoveryConfidenceReason. split_and!; [done| | |done].
  - by destruct (_ && _).
  - destruct (page_limit_reached s); [done|]. case_bool_decide; [done|]. by destruct (_ <=? _).
Qed.

(** A market is reported with high confidence exactly when its archive
    has reached the stop boundary, no page limit was hit in this run, and the
    archive lies wholly within the assumed retention; so never when the stop
    limit is not shorter than the assumed retention, as by default, where both
    are a year. *)
Theorem high_confidence_exactly limits startedAtMs texts market w next s p :
  market_progress limits startedAtMs texts market w next s = Ret p ->
  (mp_confidenceLevel p = Confidence.HIGH <->
     archivalWindowStartTimeMs w <= days_before startedAtMs (historyStopBeforeDays limits) /\
     page_limit_reached s = false /\
     days_before startedAtMs (historyRetentionAssumptionDays limits)
       < archivalWindowStartTimeMs w) /\
  (historyRetentionAssumptionDays limits <= historyStopBeforeDays limits ->
     mp_confidenceLevel p = Confidence.PARTIAL).
Proof.
  unfold market_progress. intros (? & _ & H)%bind_Ret. apply bind_Ret in H as (? & _ & [= <-]).
  cbn [mp_confidenceLevel]. unfold confidence_level, retention_status.
  set (start := archivalWindowStartTimeMs w).
  set (stop := days_before startedAtMs (historyStopBeforeDays limits)).
  set (keep := days_before startedAtMs (historyRetentionAssumptionDays limits)).
  assert (Hlimits : historyRetentionAssumptionDays limits <= historyStopBeforeDays limits ->
                    stop <= keep)
    by (subst stop keep; unfold days_before, MILLISECONDS_PER_DAY; lia).
  clearbody start stop keep.
  destruct (Z.leb_spec start stop), (page_limit_reached s), (Z.leb_spec start keep),
    (Z.ltb_spec stop keep); cbn [andb orb negb];
    rewrite ?bool_decide_eq_true_2, ?bool_decide_eq_false_2 by done;
    (split; [split; [first [discriminate | intros _; split_and!; done || lia]
                    |intros (? & ? & ?); done || lia]
            |intros; done || lia]).
Qed.

(** ** Samples *)

Definition default_limits : HistoryLimits :=
  {| closedOrderLookbackDays := 7; historyStopBeforeDays := 365;
     historyRetentionAssumptionDays := 365 |}.

Definition short_limits : HistoryLimits :=
  {| closedOrderLookbackDays := 7; historyStopBeforeDays := 21;
     historyRetentionAssumptionDays := 30 |}.

Definition sample_now : Z := 1787281704756.

Definition one_page (truncated : bool) : PageScan :=
  {| scan_snapshots := []; scan_pagesScanned := 1; scan_pageLimitReached := truncated |}.

Definition sample_scans (truncated : bool) : MarketScans :=
  {| openSnapshots := one_page false; recentClosedSnapshots := one_page false;
     archivalClosedSnapshots := one_page truncated |}.

Definition sample_texts (limits : HistoryLimits) : HistoryWindowTexts :=
  Eval cbv [printed_texts] in printed_texts limits sample_now.

(** What a run from a checkpoint reports of a market. *)
Definition sample_report (limits : HistoryLimits) (w : ArchivalWindow) (truncated : bool)
    : outcome progress :=
  market_progress limits sample_now (sample_texts limits) Market.KRW_BTC w
    (toISOString (archivalWindowStartTimeMs w)) (sample_scans truncated).

Definition report_of (o : outcome progress) : progress :=
  match o with
  | Ret p => p
  | Throw _ => Build_ReconciliationHistoryRecoveryMarketProgress Market.KRW_BTC "" "" "" "" "" false
      Retention.WITHIN_ASSUMED_RETENTION Confidence.PARTIAL Reason.ARCHIVE_IN_PROGRESS
      false false false 0 0 0 0
  end.

(** The window with which the default archive is complete. *)
Definition last_default_window : ArchivalWindow :=
  archival_window_from default_limits sample_now (days_before sample_now 364).

Lemma high_confidence_exactly_witness :
  mp_archiveComplete (report_of (sample_report default_limits last_default_window false)) = true /\
  mp_confidenceLevel (report_of (sample_report default_limits last_default_window false))
    = Confidence.PARTIAL.
Proof.
  split; [vm_compute; reflexivity|].
  apply (high_confidence_exactly default_limits sample_now (sample_texts default_limits)
           Market.KRW_BTC last_default_window
           (toISOString (archivalWindowStartTimeMs last_default_window)) (sample_scans false));
    [vm_compute; reflexivity|cbn; lia].
Defined.

(** Two runs of a short archive: the first cannot read its window to the end,
    the second reports high confidence in the whole archive. *)
Example truncated_window_is_forgotten :
  let first := archival_window short_limits sample_now None in
  let second := archival_window_from short_limits sample_now (archivalWindowStartTimeMs first) in
  mp_confidenceReason (report_of (sample_report short_limits first true))
    = Reason.PAGE_LIMIT_REACHED /\
  mp_confidenceLevel (report_of (sample_report short_limits second false)) = Confidence.HIGH /\
  mp_archiveComplete (report_of (sample_report short_limits second false)) = true.
Proof. split_and!; vm_compute; reflexivity. Qed.

(** Runs a month apart leave a gap that no window ever covers. *)
Example gap_between_distant_runs :
  let runs := archive_runs short_limits None
    [days_before sample_now 30; sample_now; sample_now; sample_now] in
  ~ Exists (looks_at short_limits (days_before sample_now 15)) runs.
Proof.
  cbn zeta. intros H. apply Exists_exists in H as ([e w] & Hin & Hl).
  repeat (apply elem_of_cons in Hin as [[= -> ->]|Hin];
          [unfold looks_at, archival_window in Hl; vm_compute in Hl; destruct Hl as [[? ?]|[? ?]]; congruence|]).
  by apply elem_of_nil in Hin.
Qed.

