(* ===== verification/PortfolioDrift.v ===== *)
(** * PortfolioDrift: do the fills explain how the portfolio changed?

    [modules/reconciliation/portfolio-drift.ts]: two snapshots of the balances
    and two of the positions are compared with the fills between them.  The
    stored snapshots are JSON, read as the code reads it: what is not an array
    of objects throws. *)

From Stdlib Require Import ZArith Lia Ascii.
From Stdlib Require Import Floats.SpecFloat.
From stdpp Require Import base option list strings.
From S2P Require Import Prelude Num Types Text Timestamp NumText JsMap Json OrderRecords.
From S2P Require Import ReconciliationRecords.

Local Open Scope string_scope.
Local Open Scope js_scope.
Local Open Scope bool_scope.

Definition FLOATING_POINT_EPSILON : num := lit 1 9.
Definition KRW_DUST_TOLERANCE : num := lit 1 0.
Definition FILL_SNAPSHOT_START_GRACE_MS : Z := 1000.

(** ["BALANCE_DRIFT_DETECTED" | "POSITION_DRIFT_DETECTED"] *)
Inductive DriftCode : Set := BALANCE_DRIFT | POSITION_DRIFT.

Definition drift_rule (code : DriftCode) : RiskRuleCode :=
  match code with
  | BALANCE_DRIFT => RiskRule.BALANCE_DRIFT_DETECTED
  | POSITION_DRIFT => RiskRule.POSITION_DRIFT_DETECTED
  end.

Definition drift_issue (code : DriftCode) : Issue.ReconciliationIssueCode :=
  match code with
  | BALANCE_DRIFT => Issue.BALANCE_DRIFT_DETECTED
  | POSITION_DRIFT => Issue.POSITION_DRIFT_DETECTED
  end.

Record PortfolioDriftFinding := {
  drift_code : DriftCode;
  finding_message : string;
  finding_payload : json;
}.

Record PortfolioDriftEvaluation := {
  findings : list PortfolioDriftFinding;
  comparedBalance : bool;
  comparedPositions : bool;
}.

(** The result of one comparison. *)
Record DriftComparison := {
  compared : bool;
  comparison_finding : option PortfolioDriftFinding;
}.

(** ** Values of parsed JSON *)

Definition truthy (value : json) : bool :=
  match value with
  | JNull => false
  | JBool b => b
  | JNum n => negb (is_nan n || neqb n zero)
  | JInt z => negb (z =? 0)%Z
  | JStr s => s !== ""
  | JArr _ | JObj _ => true
  end.

(** [String(value)] of an array element: null is empty, arrays join. *)
Fixpoint element_text (value : json) : string :=
  match value with
  | JNull => ""
  | JBool b => if b then "true" else "false"
  | JNum n => num_to_string n
  | JInt z => Z_to_string z
  | JStr s => s
  | JArr l => join "," (map element_text l)
  | JObj _ => "[object Object]"
  end.

(** [Number(value)]; a property that is not there is NaN. *)
Definition Number_of_json (value : option json) : num :=
  match value with
  | None => NaN
  | Some JNull => zero
  | Some (JBool b) => if b then num_of_Z 1 else zero
  | Some (JNum n) => n
  | Some (JInt z) => num_of_Z z
  | Some (JStr s) => Number_of_string s
  | Some (JArr l) => Number_of_string (join "," (map element_text l))
  | Some (JObj _) => NaN
  end.

(** [value.key], which throws on null. *)
Definition property (value : json) (key : string) : outcome (option json) :=
  match value with
  | JNull => Throw ("Cannot read properties of null (reading '" ++ key ++ "')")
  | JObj fields => Ret (map_get key fields)
  | _ => Ret None
  end.

(** [tryParseJson(text)], and whether what it gave is false. *)
Definition tryParseJson (rawJson : string) : option json :=
  match JSON_parse rawJson with
  | Some value => if truthy value then Some value else None
  | None => None
  end.

(** [parsed.reduce(step, start)] *)
Definition reduce {A} (step : A -> json -> outcome A) (start : A) (parsed : json) : outcome A :=
  match parsed with
  | JArr elements => foldM_outcome step start elements
  | _ => Throw "parsed.reduce is not a function"
  end.

(** ** Snapshots *)

Record Holdings := {
  KRW : num;
  BTC : num;
  ETH : num;
}.

Definition no_holdings : Holdings := {| KRW := zero; BTC := zero; ETH := zero |}.

(** [accumulator[currency] += amount] of a currency that is managed *)
Definition add_holding (h : Holdings) (currency : option json) (amount : num) : Holdings :=
  match currency with
  | Some (JStr c) =>
      if c === "KRW" then {| KRW := nadd (KRW h) amount; BTC := BTC h; ETH := ETH h |}
      else if c === "BTC" then {| KRW := KRW h; BTC := nadd (BTC h) amount; ETH := ETH h |}
      else if c === "ETH" then {| KRW := KRW h; BTC := BTC h; ETH := nadd (ETH h) amount |}
      else h
  | _ => h
  end.

Definition parseManagedBalances (snapshot : option BalanceSnapshotRecord)
    : outcome (option Holdings) :=
  match snapshot ≫= (fun s => tryParseJson (bal_balancesJson s)) with
  | None => Ret None
  | Some parsed =>
      holdings ← reduce (fun accumulator balance =>
        currency ← property balance "currency";
        amount ← property balance "balance";
        locked ← property balance "locked";
        Ret (add_holding accumulator currency
               (nadd (Number_of_json amount) (Number_of_json locked)))) no_holdings parsed;
      Ret (Some holdings)
  end.

(** The KRW of positions is not used. *)
Definition parseManagedPositionQuantities (snapshot : option PositionSnapshotRecord)
    : outcome (option Holdings) :=
  match snapshot ≫= (fun s => tryParseJson (pos_positionsJson s)) with
  | None => Ret None
  | Some parsed =>
      holdings ← reduce (fun accumulator position =>
        asset ← property position "asset";
        quantity ← property position "quantity";
        Ret (match asset with
             | Some (JStr a) =>
                 if (a === "BTC") || (a === "ETH")
                 then add_holding accumulator asset (Number_of_json quantity) else accumulator
             | _ => accumulator
             end)) no_holdings parsed;
      Ret (Some holdings)
  end.

(** ** Fills *)

Definition isExchangeBackedFill (fill : FillRecord) : bool :=
  if String.prefix "dryrun_" (fill_exchangeFillId fill) then false
  else match tryParseJson (fill_rawPayloadJson fill) with
       | Some (JObj fields) => (map_get "mode" fields ≫= json_string) !== Some "DRY_RUN"
       | _ => true
       end.

Definition isTimestampWithinSnapshotWindow (timestamp previousCapturedAt currentCapturedAt : string)
    (previousStartGraceMs : Z) : bool :=
  match Date_parse timestamp, Date_parse previousCapturedAt, Date_parse currentCapturedAt with
  | Some instant, Some previous, Some current =>
      ((previous - previousStartGraceMs <? instant) && (instant <=? current))%Z
  | _, _, _ => false
  end.

Definition selectFillsWithinSnapshotWindow (fills : list FillRecord)
    (previousCapturedAt currentCapturedAt : string) (previousStartGraceMs : Z) : list FillRecord :=
  List.filter (fun fill =>
    isExchangeBackedFill fill
    && isTimestampWithinSnapshotWindow (fill_filledAt fill) previousCapturedAt currentCapturedAt
         previousStartGraceMs) fills.

Definition fill_step (h : Holdings) (fill : FillRecord) : Holdings :=
  let quantity := Number_of_string (fill_volume fill) in
  let notionalKrw := nmul (Number_of_string (fill_price fill)) quantity in
  let feeKrw :=
    if (fill_feeCurrency fill === Some "KRW") || (fill_feeCurrency fill === None)
    then Number_of_string (default "0" (fill_feeAmount fill)) else zero in
  let isBtc := fill_market fill === Market.KRW_BTC in
  if fill_side fill === Side.bid then
    {| KRW := nsub (KRW h) (nadd notionalKrw feeKrw);
       BTC := if isBtc then nadd (BTC h) quantity else BTC h;
       ETH := if isBtc then ETH h else nadd (ETH h) quantity |}
  else
    {| KRW := nadd (KRW h) (nsub notionalKrw feeKrw);
       BTC := if isBtc then nsub (BTC h) quantity else BTC h;
       ETH := if isBtc then ETH h else nsub (ETH h) quantity |}.

Definition aggregateFillDeltas (fills : list FillRecord) : Holdings :=
  foldl fill_step no_holdings fills.

(** ** Findings *)

Definition isEffectivelyZero (value tolerance : num) : bool :=
  nleb (nabs value) (nadd tolerance FLOATING_POINT_EPSILON).

(** A negative zero is effectively zero. *)
Definition formatSignedNumber (value : num) : string :=
  if isEffectivelyZero value FLOATING_POINT_EPSILON then "0"
  else if nltb zero value then "+" ++ num_to_string value else num_to_string value.

Definition count_json (fills : list FillRecord) : json := JInt (Z.of_nat (length fills)).

Definition buildBalanceDriftFinding (previous current : Holdings) (fills : list FillRecord)
    (previousCapturedAt currentCapturedAt : string) : option PortfolioDriftFinding :=
  let explained := KRW (aggregateFillDeltas fills) in
  let actualKrwDelta := nsub (KRW current) (KRW previous) in
  let unexplainedKrwDelta := nsub actualKrwDelta explained in
  if isEffectivelyZero unexplainedKrwDelta KRW_DUST_TOLERANCE then None
  else Some {|
    drift_code := BALANCE_DRIFT;
    finding_message :=
      "KRW balance changed by " ++ formatSignedNumber actualKrwDelta
      ++ " while local fills explain " ++ formatSignedNumber explained
      ++ " between " ++ previousCapturedAt ++ " and " ++ currentCapturedAt ++ ".";
    finding_payload := JObj
      [("previousCapturedAt", JStr previousCapturedAt);
       ("currentCapturedAt", JStr currentCapturedAt);
       ("previousKrw", JNum (KRW previous));
       ("currentKrw", JNum (KRW current));
       ("actualKrwDelta", JNum actualKrwDelta);
       ("explainedKrwDelta", JNum explained);
       ("unexplainedKrwDelta", JNum unexplainedKrwDelta);
       ("fillsConsidered", count_json fills)] |}.

Definition MANAGED_ASSETS : list SupportedAsset := [Asset.BTC; Asset.ETH].

Definition holding (h : Holdings) (asset : SupportedAsset) : num :=
  match asset with Asset.BTC => BTC h | Asset.ETH => ETH h end.

Definition asset_residual (previous current explained : Holdings) (asset : SupportedAsset) : num :=
  nsub (nsub (holding current asset) (holding previous asset)) (holding explained asset).

Definition drifted_asset_json (previous current explained : Holdings) (asset : SupportedAsset)
    : json := JObj
  [("asset", JStr (Asset.to_string asset));
   ("previousQuantity", JNum (holding previous asset));
   ("currentQuantity", JNum (holding current asset));
   ("actualQuantityDelta", JNum (nsub (holding current asset) (holding previous asset)));
   ("explainedQuantityDelta", JNum (holding explained asset));
   ("unexplainedQuantityDelta", JNum (asset_residual previous current explained asset))].

Definition buildPositionDriftFinding (previous current : Holdings) (fills : list FillRecord)
    (previousCapturedAt currentCapturedAt : string) : option PortfolioDriftFinding :=
  let explained := aggregateFillDeltas fills in
  let driftedAssets := List.filter (fun asset =>
    negb (isEffectivelyZero (asset_residual previous current explained asset)
            FLOATING_POINT_EPSILON)) MANAGED_ASSETS in
  match driftedAssets with
  | [] => None
  | _ => Some {|
      drift_code := POSITION_DRIFT;
      finding_message :=
        "Managed position quantities drifted for " ++ join "," (Asset.to_string <$> driftedAssets)
        ++ " between " ++ previousCapturedAt ++ " and " ++ currentCapturedAt ++ ".";
      finding_payload := JObj
        [("previousCapturedAt", JStr previousCapturedAt);
         ("currentCapturedAt", JStr currentCapturedAt);
         ("fillsConsidered", count_json fills);
         ("assets", JArr (drifted_asset_json previous current explained <$> driftedAssets))] |}
  end.

(** Fills of the second before the first snapshot may be in it or not: a
    finding stands only if they do not explain it either. *)
Definition confirm (build : list FillRecord -> option PortfolioDriftFinding)
    (fills : list FillRecord) (previousCapturedAt currentCapturedAt : string) : DriftComparison :=
  match build (selectFillsWithinSnapshotWindow fills previousCapturedAt currentCapturedAt 0) with
  | None => {| compared := true; comparison_finding := None |}
  | Some _ => {| compared := true;
                 comparison_finding :=
                   build (selectFillsWithinSnapshotWindow fills previousCapturedAt
                            currentCapturedAt FILL_SNAPSHOT_START_GRACE_MS) |}
  end.

Definition not_compared : DriftComparison := {| compared := false; comparison_finding := None |}.

Definition detectBalanceDrift (snapshots : PortfolioSnapshots) (fills : list FillRecord)
    : outcome DriftComparison :=
  previous ← parseManagedBalances (previousBalanceSnapshot snapshots);
  current ← parseManagedBalances (currentBalanceSnapshot snapshots);
  Ret match previous, current, previousBalanceSnapshot snapshots, currentBalanceSnapshot snapshots
      with
      | Some p, Some c, Some before, Some after =>
          confirm (fun window => buildBalanceDriftFinding p c window (bal_capturedAt before)
                                   (bal_capturedAt after))
            fills (bal_capturedAt before) (bal_capturedAt after)
      | _, _, _, _ => not_compared
      end.

Definition detectPositionDrift (snapshots : PortfolioSnapshots) (fills : list FillRecord)
    : outcome DriftComparison :=
  previous ← parseManagedPositionQuantities (previousPositionSnapshot snapshots);
  current ← parseManagedPositionQuantities (currentPositionSnapshot snapshots);
  Ret match previous, current, previousPositionSnapshot snapshots,
            currentPositionSnapshot snapshots with
      | Some p, Some c, Some before, Some after =>
          confirm (fun window => buildPositionDriftFinding p c window (pos_capturedAt before)
                                   (pos_capturedAt after))
            fills (pos_capturedAt before) (pos_capturedAt after)
      | _, _, _, _ => not_compared
      end.

Definition detectPortfolioDrift (snapshots : PortfolioSnapshots) (fills : list FillRecord)
    : outcome PortfolioDriftEvaluation :=
  balance ← detectBalanceDrift snapshots fills;
  position ← detectPositionDrift snapshots fills;
  Ret {| findings := (option_list (comparison_finding balance)
                      ++ option_list (comparison_finding position))%list;
         comparedBalance := compared balance; comparedPositions := compared position |}.

(** ** Messages *)

Definition has_message (f : PortfolioDriftFinding) : Prop := is_blank (finding_message f) = false.

Lemma confirmed_has_message build fills from until :
  (forall l f, build l = Some f -> has_message f) ->
  Forall has_message (option_list (comparison_finding (confirm build fills from until))).
Proof.
  intros Hb. unfold confirm. destruct (build _); [|constructor]. cbn.
  destruct (build _) as [f|] eqn:E; repeat constructor. by eapply Hb.
Qed.

Lemma findings_have_messages snapshots fills e :
  detectPortfolioDrift snapshots fills = Ret e -> Forall has_message (findings e).
Proof.
  unfold detectPortfolioDrift. intros H. apply bind_Ret in H as (balance & Hb & H).
  apply bind_Ret in H as (position & Hp & [= <-]). apply Forall_app. split.
  - unfold detectBalanceDrift in Hb. apply bind_Ret in Hb as (p & _ & Hb).
    apply bind_Ret in Hb as (c & _ & [= <-]). repeat case_match; try constructor.
    apply confirmed_has_message. intros l f. unfold buildBalanceDriftFinding. cbv zeta.
    by case_match; intros [= <-].
  - unfold detectPositionDrift in Hp. apply bind_Ret in Hp as (p & _ & Hp).
    apply bind_Ret in Hp as (c & _ & [= <-]). repeat case_match; try constructor.
    apply confirmed_has_message. intros l f. unfold buildPositionDriftFinding. cbv zeta.
    by case_match; intros [= <-].
Qed.

(** ** Windows *)

Section Windows.
Context (first second third : string) (t1 t2 t3 : Z).
Context (Hfirst : Date_parse first = Some t1) (Hsecond : Date_parse second = Some t2).
Context (Hthird : Date_parse third = Some t3).

Lemma window_spec fill grace from until t t' :
  Date_parse from = Some t -> Date_parse until = Some t' ->
  isTimestampWithinSnapshotWindow (fill_filledAt fill) from until grace = true <->
  exists instant, Date_parse (fill_filledAt fill) = Some instant /\ (t - grace < instant <= t')%Z.
Proof.
  intros Hf Hu. unfold isTimestampWithinSnapshotWindow. rewrite Hf, Hu.
  destruct (Date_parse (fill_filledAt fill)) as [instant|].
  - rewrite andb_true_iff, Z.ltb_lt, Z.leb_le. split; [intros H; exists instant; (split; [done|lia])|].
    intros (i & [= <-] & H). lia.
  - split; [done|]. by intros (? & [=] & _).
Qed.

Lemma window_splits fill :
  (t1 <= t2 <= t3)%Z ->
  isTimestampWithinSnapshotWindow (fill_filledAt fill) first third 0
  = isTimestampWithinSnapshotWindow (fill_filledAt fill) first second 0
    || isTimestampWithinSnapshotWindow (fill_filledAt fill) second third 0.
Proof.
  intros Ht. apply eq_true_iff_eq. rewrite orb_true_iff.
  rewrite (window_spec _ 0 _ _ _ _ Hfirst Hthird), (window_spec _ 0 _ _ _ _ Hfirst Hsecond),
    (window_spec _ 0 _ _ _ _ Hsecond Hthird). split.
  - intros (i & Hi & H). destruct (Z.le_gt_cases i t2); [left|right]; exists i; (split; [done|lia]).
  - intros [(i & Hi & H)|(i & Hi & H)]; exists i; (split; [done|lia]).
Qed.

Lemma windows_disjoint fill :
  isTimestampWithinSnapshotWindow (fill_filledAt fill) first second 0 = true ->
  isTimestampWithinSnapshotWindow (fill_filledAt fill) second third 0 = false.
Proof.
  rewrite (window_spec _ 0 _ _ _ _ Hfirst Hsecond). intros (i & Hi & H).
  apply not_true_iff_false. rewrite (window_spec _ 0 _ _ _ _ Hsecond Hthird).
  intros (i' & Hi' & H'). rewrite Hi in Hi'. injection Hi' as <-. lia.
Qed.

(** Every fill counts once.  Of three snapshots in turn, the fills taken
    into account between the first and the last are, in some order, those
    between the first two and those between the last two, and none is both. *)
Theorem every_fill_counts_once fills :
  (t1 <= t2 <= t3)%Z ->
  selectFillsWithinSnapshotWindow fills first third 0
  ≡ₚ (selectFillsWithinSnapshotWindow fills first second 0
      ++ selectFillsWithinSnapshotWindow fills second third 0)%list /\
  (forall fill, fill ∈ selectFillsWithinSnapshotWindow fills first second 0 ->
     fill ∉ selectFillsWithinSnapshotWindow fills second third 0).
Proof.
  intros Ht. unfold selectFillsWithinSnapshotWindow. split.
  - induction fills as [|fill fills IH]; [done|]. cbn [List.filter].
    rewrite window_splits by done. destruct (isExchangeBackedFill fill); cbn [andb]; [|done].
    destruct (isTimestampWithinSnapshotWindow (fill_filledAt fill) first second 0) eqn:H1; cbn [orb].
    + rewrite windows_disjoint by done. cbn. by constructor.
    + destruct (isTimestampWithinSnapshotWindow _ second third 0); [|done].
      rewrite IH. apply Permutation_middle.
  - intros fill [_ [_ H1]%andb_true_iff]%list_elem_of_In%filter_In
      [_ [_ H2]%andb_true_iff]%list_elem_of_In%filter_In.
    by rewrite windows_disjoint in H2.
Qed.

End Windows.

(** ** Findings *)

(** What the fills leave of the change of the balance. *)
Definition krw_explained (previous current : Holdings) (fills : list FillRecord) : bool :=
  isEffectivelyZero (nsub (nsub (KRW current) (KRW previous)) (KRW (aggregateFillDeltas fills)))
    KRW_DUST_TOLERANCE.

(** What they leave of the change of every asset. *)
Definition assets_explained (previous current : Holdings) (fills : list FillRecord) : bool :=
  forallb (fun asset => isEffectivelyZero
    (asset_residual previous current (aggregateFillDeltas fills) asset) FLOATING_POINT_EPSILON)
    MANAGED_ASSETS.

Lemma balance_finding_spec p c fills before after :
  buildBalanceDriftFinding p c fills before after = None <-> krw_explained p c fills = true.
Proof. unfold buildBalanceDriftFinding, krw_explained. cbv zeta. by destruct (isEffectivelyZero _ _). Qed.

Lemma position_finding_spec p c fills before after :
  buildPositionDriftFinding p c fills before after = None <-> assets_explained p c fills = true.
Proof.
  unfold buildPositionDriftFinding, assets_explained, MANAGED_ASSETS. cbv zeta. cbn [List.filter forallb].
  by destruct (isEffectivelyZero _ _), (isEffectivelyZero _ _).
Qed.

Lemma confirm_spec build fills before after :
  comparison_finding (confirm build fills before after) = None <->
  build (selectFillsWithinSnapshotWindow fills before after 0) = None \/
  build (selectFillsWithinSnapshotWindow fills before after FILL_SNAPSHOT_START_GRACE_MS) = None.
Proof.
  unfold confirm. destruct (build (selectFillsWithinSnapshotWindow fills before after 0)) eqn:H; cbn.
  - split; [by right|]. by intros [?|?].
  - split; [by left|done].
Qed.

Lemma confirm_code build code fills before after f :
  (forall window f, build window = Some f -> drift_code f = code) ->
  comparison_finding (confirm build fills before after) = Some f -> drift_code f = code.
Proof.
  intros Hb. unfold confirm. destruct (build (selectFillsWithinSnapshotWindow fills before after 0));
    cbn; [apply Hb|done].
Qed.

Lemma balance_code snapshots fills b f :
  detectBalanceDrift snapshots fills = Ret b -> comparison_finding b = Some f ->
  drift_code f = BALANCE_DRIFT.
Proof.
  unfold detectBalanceDrift. intros Hb. inv_outcome. repeat case_match; try done.
  intros Hfinding. eapply confirm_code; [|exact Hfinding]. intros window f'. unfold buildBalanceDriftFinding.
  cbv zeta. destruct (isEffectivelyZero _ _); [done|]. by intros [= <-].
Qed.

Lemma position_code snapshots fills b f :
  detectPositionDrift snapshots fills = Ret b -> comparison_finding b = Some f ->
  drift_code f = POSITION_DRIFT.
Proof.
  unfold detectPositionDrift. intros Hb. inv_outcome. repeat case_match; try done.
  intros Hfinding. eapply confirm_code; [|exact Hfinding]. intros window f'. unfold buildPositionDriftFinding.
  cbv zeta. destruct (List.filter _ _); [done|]. by intros [= <-].
Qed.

Lemma finding_present (code : DriftCode) o :
  (forall f, o = Some f -> drift_code f = code) ->
  Exists (fun f => drift_code f = code) (option_list o) <-> o ≠ None.
Proof.
  intros Hc. destruct o as [f|]; cbn.
  - split; [done|]. intros _. apply Exists_cons_hd. by apply Hc.
  - split; [by intros H; inversion H|done].
Qed.

Lemma finding_elsewhere (code code' : DriftCode) o :
  code ≠ code' -> (forall f, o = Some f -> drift_code f = code') ->
  Exists (fun f => drift_code f = code) (option_list o) <-> False.
Proof.
  intros Hne Hc. destruct o as [f|]; cbn; [|by split; [intros H; inversion H|]].
  split; [|done]. intros H. inversion H as [? ? Hf|? ? Hf]; subst; [|by inversion Hf].
  rewrite (Hc f) in Hne by done. done.
Qed.

(** A finding stands when neither window explains the change. *)
Lemma finding_stands {P0 P1 : bool} (o b0 b1 : option PortfolioDriftFinding) :
  (o = None <-> b0 = None \/ b1 = None) -> (b0 = None <-> P0 = true) -> (b1 = None <-> P1 = true) ->
  o ≠ None <-> P0 = false /\ P1 = false.
Proof.
  intros Ho H0 H1. rewrite Ho, H0, H1, <- !not_true_iff_false. destruct P0, P1; naive_solver.
Qed.

(** A change that the fills explain is no drift.  Two snapshots of the
    balances that both can be read are compared, and a drift is found exactly
    when the change of the KRW balance is explained neither by the fills
    between them nor by those together with the fills of the second before the
    first; and likewise two snapshots of the positions, for the quantity of
    either asset. *)
Theorem explained_changes_are_no_drift snapshots fills e :
  detectPortfolioDrift snapshots fills = Ret e ->
  (forall before after p c,
     previousBalanceSnapshot snapshots = Some before ->
     currentBalanceSnapshot snapshots = Some after ->
     parseManagedBalances (Some before) = Ret (Some p) ->
     parseManagedBalances (Some after) = Ret (Some c) ->
     let window := selectFillsWithinSnapshotWindow fills (bal_capturedAt before) (bal_capturedAt after) in
     comparedBalance e = true /\
     (Exists (fun f => drift_code f = BALANCE_DRIFT) (findings e) <->
      krw_explained p c (window 0%Z) = false /\
      krw_explained p c (window FILL_SNAPSHOT_START_GRACE_MS) = false)) /\
  (forall before after p c,
     previousPositionSnapshot snapshots = Some before ->
     currentPositionSnapshot snapshots = Some after ->
     parseManagedPositionQuantities (Some before) = Ret (Some p) ->
     parseManagedPositionQuantities (Some after) = Ret (Some c) ->
     let window := selectFillsWithinSnapshotWindow fills (pos_capturedAt before) (pos_capturedAt after) in
     comparedPositions e = true /\
     (Exists (fun f => drift_code f = POSITION_DRIFT) (findings e) <->
      assets_explained p c (window 0%Z) = false /\
      assets_explained p c (window FILL_SNAPSHOT_START_GRACE_MS) = false)).
Proof.
  unfold detectPortfolioDrift. intros (balance & Hb & He)%bind_Ret.
  apply bind_Ret in He as (position & Hp & [= <-]).
  cbn [comparedBalance comparedPositions findings].
  pose proof (fun f => balance_code _ _ _ f Hb) as Hcb.
  pose proof (fun f => position_code _ _ _ f Hp) as Hcp.
  split; intros before after p c Hbefore Hafter Hparse Hparse'; cbv zeta; rewrite Exists_app.
  - unfold detectBalanceDrift in Hb. rewrite Hbefore, Hafter, Hparse, Hparse' in Hb.
    injection Hb as <-. split; [by unfold confirm; case_match|].
    rewrite (finding_present BALANCE_DRIFT) by exact Hcb.
    rewrite (finding_elsewhere _ POSITION_DRIFT) by done.
    pose proof (finding_stands _ _ _ (confirm_spec
      (fun window => buildBalanceDriftFinding p c window (bal_capturedAt before) (bal_capturedAt after))
      fills (bal_capturedAt before) (bal_capturedAt after))
      (balance_finding_spec p c _ _ _) (balance_finding_spec p c _ _ _)). tauto.
  - unfold detectPositionDrift in Hp. rewrite Hbefore, Hafter, Hparse, Hparse' in Hp.
    injection Hp as <-. split; [by unfold confirm; case_match|].
    rewrite (finding_elsewhere _ BALANCE_DRIFT) by done.
    rewrite (finding_present POSITION_DRIFT) by exact Hcp.
    pose proof (finding_stands _ _ _ (confirm_spec
      (fun window => buildPositionDriftFinding p c window (pos_capturedAt before) (pos_capturedAt after))
      fills (pos_capturedAt before) (pos_capturedAt after))
      (position_finding_spec p c _ _ _) (position_finding_spec p c _ _ _)). tauto.
Qed.
