(* ===== verification/ReconciliationService.v ===== *)
(** * ReconciliationService: settling what the exchange knows with what is stored

    [ReconciliationService.runWithRecord] and [recoverOrderByIdentifier] of
    [modules/reconciliation/reconciliation-service.ts] with the methods they
    call, and the sweep of [modules/reconciliation/terminal-candidate-sweep.ts],
    as routines over the calls of [Recon].

    Every repository, reader and reporter is behind [fenceAsyncBoundary]: the
    ownership is asserted before a call and after its answer.  [Promise.all]
    over [async] functions runs each of them to its end, in the order of the
    list, and then throws what the first of them threw; how their calls
    interleave is not modelled. *)

From Stdlib Require Import ZArith Lia.
From stdpp Require Import base option list strings.
From S2P Require Import Prelude Num Types Text Timestamp NumText JsMap SubmissionBlocking.
From S2P Require Import OperatorState OrderRecords OrderRepository Effects ExecutionRecords.
From S2P Require Import ExecutionHelpers SnapshotBinding ReconciliationRecords.
From S2P Require Import ReconciliationHelpers HistoryWindows PortfolioDrift.

Local Open Scope string_scope.
Local Open Scope js_scope.
Local Open Scope bool_scope.

(** The methods assign no variable across a wait that a later one reads. *)
Abbreviation reconciler := (routine Recon.call js_error unit).

Definition recon_throw {A} (x : js_error) : reconciler A := throw x.

Definition recon_when (condition : bool) (message : string) : reconciler unit :=
  if condition then throw (PlainError message) else mret tt.

Definition recon_lift {A} (o : outcome A) : reconciler A := lift_outcome PlainError o.

(** The two halves of a fenced call: before it is made, and after its answer. *)
Definition issue_call {A} (e : Recon.call A) : reconciler (result js_error A) :=
  _ ← await Recon.AssertLocallyHeld; attempt (await e).

Definition settle_call {A} (answer : result js_error A) : reconciler A :=
  match answer with
  | Ok settled => _ ← await Recon.AssertLocallyHeld; mret settled
  | Err error =>
      if isRuntimeOwnershipFailure error then throw error
      else _ ← await Recon.AssertLocallyHeld; throw error
  end.

(** A fenced call. *)
Definition fenced {A} (e : Recon.call A) : reconciler A :=
  answer ← issue_call e; settle_call answer.

(** The value a settled promise has, or what it was rejected with. *)
Definition unwrap {A} (settled : result js_error A) : reconciler A :=
  match settled with Ok v => mret v | Err error => throw error end.

(** [for (const x of list) results.push(await f(x))] *)
Fixpoint for_each {A B} (f : A -> reconciler B) (list : list A) : reconciler (Datatypes.list B) :=
  match list with
  | [] => mret []
  | x :: list' => y ← f x; ys ← for_each f list'; mret (y :: ys)
  end.

(** [Promise.all(list.map(f))] *)
Fixpoint promise_all {A B} (f : A -> reconciler B) (list : list A)
    : reconciler (Datatypes.list B) :=
  match list with
  | [] => mret []
  | x :: list' =>
      first ← attempt (f x);
      rest ← attempt (promise_all f list');
      match first, rest with
      | Ok y, Ok ys => mret (y :: ys)
      | Err error, _ | Ok _, Err error => throw error
      end
  end.

(** ** Records *)

(** What reconciliation changes of an order. *)
Definition reconciled_order (o : OrderRecord) (upbitUuid : option string)
    (status : OrderLifecycleStatus)
    (exchangeResponseJson failureCode failureMessage : option string) (updatedAt : string)
    : OrderRecord := {|
  ord_id := ord_id o;
  ord_strategyDecisionId := ord_strategyDecisionId o;
  ord_exchangeAccountId := ord_exchangeAccountId o;
  ord_market := ord_market o;
  ord_side := ord_side o;
  ord_ordType := ord_ordType o;
  ord_volume := ord_volume o;
  ord_price := ord_price o;
  ord_timeInForce := ord_timeInForce o;
  ord_smpType := ord_smpType o;
  ord_identifier := ord_identifier o;
  ord_idempotencyKey := ord_idempotencyKey o;
  ord_origin := ord_origin o;
  ord_requestedAt := ord_requestedAt o;
  ord_upbitUuid := upbitUuid;
  ord_status := status;
  ord_executionMode := ord_executionMode o;
  ord_exchangeResponseJson := exchangeResponseJson;
  ord_failureCode := failureCode;
  ord_failureMessage := failureMessage;
  ord_createdAt := ord_createdAt o;
  ord_updatedAt := updatedAt;
|}.

Definition recon_event (id orderId eventType : string) (payload : json) (createdAt : string)
    : OrderEventRecord := {|
  oe_id := id;
  oe_orderId := orderId;
  oe_eventType := eventType;
  oe_eventSource := EventSource.RECONCILIATION;
  oe_payloadJson := stringify payload;
  oe_createdAt := createdAt;
|}.

Definition outcome_text (outcome : Recovery.RecoveryOutcome) : string :=
  match outcome with
  | Recovery.FOUND => "FOUND"
  | Recovery.NOT_FOUND => "NOT_FOUND"
  | Recovery.TRANSIENT_FAILURE => "TRANSIENT_FAILURE"
  end.

(** [`Order ${order.id} ...`] *)
Definition order_text (o : OrderRecord) (rest : string) : string :=
  "Order " ++ ord_id o ++ " " ++ rest.

Definition status_text (o : OrderRecord) : string := OrderStatus.to_string (ord_status o).

Definition dry_run_repair_fill (id : string) (order : OrderRecord)
    (price volume repairedAt : string) : FillRecord := {|
  fill_id := id;
  fill_orderId := ord_id order;
  fill_exchangeFillId := "dryrun_repair:" ++ ord_id order;
  fill_market := ord_market order;
  fill_side := ord_side order;
  fill_price := price;
  fill_volume := volume;
  fill_feeCurrency := None;
  fill_feeAmount := None;
  fill_feeProvenance := None;
  fill_executionTimestampProvenance := Some TimeProvenance.LOCAL_SYNTHETIC;
  fill_executionEpochNs := tryParseEpochNanoseconds repairedAt;
  fill_filledAt := repairedAt;
  fill_rawPayloadJson := stringify (JObj
    [("mode", JStr "DRY_RUN"); ("settlement", JStr "LOCAL_DRY_RUN_REPAIR");
     ("orderId", JStr (ord_id order)); ("identifier", JStr (ord_identifier order));
     ("upbitUuid", opt_str_json (ord_upbitUuid order))]);
|}.

(** ** Lookups *)

(** The references an order is looked up by; empty ones are none. *)
Definition order_uuid (order : OrderRecord) : option string := non_empty (ord_upbitUuid order).
Definition order_identifier_reference (order : OrderRecord) : option string :=
  non_empty (Some (ord_identifier order)).

Definition has_reference (order : OrderRecord) : bool :=
  bool_decide (is_Some (order_uuid order)) || bool_decide (is_Some (order_identifier_reference order)).

(** One query per reference, the uuid first. *)
Definition recovery_queries (order : OrderRecord) : list ExchangeOrderLookupIdentity :=
  (match order_uuid order with
   | Some uuid => [{| query_uuid := Some uuid; query_identifier := None |}]
   | None => []
   end
   ++ match order_identifier_reference order with
      | Some identifier => [{| query_uuid := None; query_identifier := Some identifier |}]
      | None => []
      end)%list.

(** One query with every reference. *)
Definition lookup_query (order : OrderRecord) : ExchangeOrderLookupIdentity :=
  {| query_uuid := order_uuid order; query_identifier := order_identifier_reference order |}.

Definition query_json (query : ExchangeOrderLookupIdentity) : json := JObj
  (match query_uuid query with Some uuid => [("uuid", JStr uuid)] | None => [] end
   ++ match query_identifier query with
      | Some identifier => [("identifier", JStr identifier)]
      | None => []
      end)%list.

Definition queries_json (order : OrderRecord) : json := JArr (query_json <$> recovery_queries order).

(** [bindExchangeOrderSnapshot(...)], which throws *)
Definition bind_snapshot (candidate : ExchangeOrderSnapshot) (query : ExchangeOrderLookupIdentity)
    (order : OrderRecord) : reconciler ExchangeOrderSnapshot :=
  match bindExchangeOrderSnapshot candidate query order with
  | inl snapshot => mret snapshot
  | inr error => throw error
  end.

(** The first query that finds an order. *)
Fixpoint lookup_by (order : OrderRecord) (queries : list ExchangeOrderLookupIdentity)
    : reconciler (option (ExchangeOrderSnapshot * ExchangeOrderLookupIdentity)) :=
  match queries with
  | [] => mret None
  | query :: rest =>
      candidate ← fenced (Recon.GetOrder query);
      match candidate with
      | Some found => snapshot ← bind_snapshot found query order; mret (Some (snapshot, query))
      | None => lookup_by order rest
      end
  end.

Section Service.
(** SHA-256 in hexadecimal, and [String.prototype.localeCompare]. *)
Context (sha256 : string -> string) (localeCompare : string -> string -> comparison).
(** [this.dependencies] *)
Context (deps : ReconciliationDependencies).

(** ** One order *)

Definition classifyConcurrentOrderChange (order : OrderRecord) : reconciler ReconciliationIssue :=
  current ← fenced (Recon.FindOrderById (ord_exchangeAccountId order) (ord_id order));
  mret (issue Issue.OPEN_ORDER_NEEDS_REVIEW (order_text order
    match current with
    | None =>
        "changed concurrently and is no longer available for reconciliation classification."
    | Some c =>
        "changed concurrently to " ++ status_text c
        ++ "; stale reconciliation material was not persisted."
    end)).

Definition buildFillRecords (order : OrderRecord) (snapshot : ExchangeOrderSnapshot)
    : reconciler (list FillRecord) :=
  for_each (fun fill =>
    id ← await (Recon.CreateId "fill");
    mret (buildFillRecord id order fill (xorder_paidFee snapshot))) (xorder_fills snapshot).

(** The order as the exchange shows it. *)
Definition next_order (order : OrderRecord) (snapshot : ExchangeOrderSnapshot)
    (reconciledAt : string) : OrderRecord :=
  reconciled_order order (Some (xorder_uuid snapshot)) (mapExchangeOrderToLifecycleStatus snapshot)
    (Some (stringify (xorder_raw snapshot))) None None reconciledAt.

Definition order_changed (order next : OrderRecord) : bool :=
  (ord_status next !== ord_status order)
  || (ord_upbitUuid next !== ord_upbitUuid order)
  || (ord_exchangeResponseJson next !== ord_exchangeResponseJson order)
  || (ord_failureCode next !== ord_failureCode order)
  || (ord_failureMessage next !== ord_failureMessage order).

Definition status_updated_payload (order : OrderRecord) (snapshot : ExchangeOrderSnapshot) : json :=
  JObj [("previousStatus", JStr (status_text order));
        ("nextStatus",
         JStr (OrderStatus.to_string (mapExchangeOrderToLifecycleStatus snapshot)));
        ("exchangeState", JStr (xorder_state snapshot));
        ("executedVolume", opt_str_json (xorder_executedVolume snapshot));
        ("remainingVolume", opt_str_json (xorder_remainingVolume snapshot))].

Definition reconciliation_event (order : OrderRecord) (snapshot : ExchangeOrderSnapshot)
    (reconciledAt : string) : reconciler (option OrderEventRecord) :=
  if order_changed order (next_order order snapshot reconciledAt) then
    id ← await (Recon.CreateId "order_event");
    mret (Some (recon_event id (ord_id order) "RECONCILIATION_STATUS_UPDATED"
                  (status_updated_payload order snapshot) reconciledAt))
  else mret None.

(** The issues of a snapshot that was stored. *)
Definition snapshot_issues (order : OrderRecord) (snapshot : ExchangeOrderSnapshot)
    (insertedFillCount : nat) : list ReconciliationIssue :=
  let nextStatus := mapExchangeOrderToLifecycleStatus snapshot in
  ((if nextStatus !== ord_status order
    then [issue Issue.ORDER_STATUS_RECONCILED (order_text order
            ("reconciled from " ++ status_text order ++ " to " ++ OrderStatus.to_string nextStatus
             ++ " using exchange state " ++ xorder_state snapshot ++ "."))]
    else [])
   ++ (if (0 <? insertedFillCount)%nat
       then [issue Issue.ORDER_FILLS_BACKFILLED
               ("Backfilled " ++ Z_to_string (Z.of_nat insertedFillCount) ++ " fill(s) for order "
                ++ ord_id order ++ " from exchange snapshot.")]
       else []))%list.

(** The projection of a terminal order into the candidate's evidence. *)
Definition project_terminal (order : OrderRecord) (status : OrderLifecycleStatus)
    : reconciler (list ReconciliationIssue) :=
  if ((status === OrderStatus.FILLED) || (status === OrderStatus.CANCELED))
     && rdep_hasCandidateEvidence deps
  then
    projection ← fenced (Recon.ProcessTerminalOrder (ord_id order));
    mret (if projection_fault projection
          then [issue Issue.CANDIDATE_EVIDENCE_PROJECTION_FAILED
                  ("Candidate evidence projection failed for order " ++ ord_id order ++ ". "
                   ++ projection_detail projection)]
          else [])
  else mret [].

Definition applyExchangeSnapshot (order : OrderRecord) (snapshot : ExchangeOrderSnapshot)
    (reconciledAt : string) : reconciler (list ReconciliationIssue) :=
  let next := next_order order snapshot reconciledAt in
  let changed := order_changed order next in
  event ← reconciliation_event order snapshot reconciledAt;
  _ ← recon_when (negb (rdep_hasPersistSnapshot deps))
        "Atomic reconciled exchange snapshot persistence is unavailable.";
  fills ← buildFillRecords order snapshot;
  persistence ← fenced (Recon.PersistReconciledExchangeSnapshot
    {| snap_expectedOrder := order; snap_order := if changed then next else order;
       snap_event := event; snap_fills := fills |});
  if snap_outcome persistence === Persisted.CONFLICT then
    concurrent ← classifyConcurrentOrderChange order; mret [concurrent]
  else
    projected ← project_terminal order (mapExchangeOrderToLifecycleStatus snapshot);
    mret (snapshot_issues order snapshot (snap_insertedFillCount persistence) ++ projected)%list.

(** An order whose truth is not known. *)
Definition order_for_recovery (order : OrderRecord) (message reconciledAt : string) : OrderRecord :=
  reconciled_order order (ord_upbitUuid order) OrderStatus.RECONCILIATION_REQUIRED
    (ord_exchangeResponseJson order)
    (Some (default "RECONCILIATION_REQUIRED" (ord_failureCode order))) (Some message) reconciledAt.

Definition markOrderForRecovery (order : OrderRecord) (reconciledAt message : string)
    (issueCode : Issue.ReconciliationIssueCode) : reconciler ReconciliationIssue :=
  _ ← recon_when (negb (rdep_hasPersistRecovery deps))
        "Atomic reconciliation recovery persistence is unavailable.";
  eventId ← await (Recon.CreateId "order_event");
  riskId ← await (Recon.CreateId "risk_event");
  persistence ← fenced (Recon.PersistReconciliationRecovery
    {| rec_expectedOrder := order;
       rec_order := order_for_recovery order message reconciledAt;
       rec_event := recon_event eventId (ord_id order) "RECONCILIATION_RECOVERY_REQUIRED"
                      (JObj [("reason", JStr message)]) reconciledAt;
       rec_riskEvent := createRecoveryRiskEvent riskId order message reconciledAt |});
  if persistence === Persisted.CONFLICT then classifyConcurrentOrderChange order
  else mret (issue issueCode (order_text order ("marked RECONCILIATION_REQUIRED. " ++ message))).

(** ** Recovery by identifier *)

Definition recordRecoveryObservation (order : OrderRecord) (outcome : Recovery.RecoveryOutcome)
    (now : RecoveryTime) (detail : list (string * json)) : reconciler unit :=
  _ ← recon_when (negb (rdep_hasObservations deps))
        "Order submission recovery observation persistence is unavailable.";
  observationId ← await (Recon.CreateId "order_recovery_observation");
  _ ← fenced (Recon.SaveOrderSubmissionRecoveryObservation
    {| obs_id := observationId; obs_orderId := ord_id order; obs_outcome := outcome;
       obs_observedAt := observedAt now; obs_observedAtEpochMs := observedAtEpochMs now;
       obs_detailJson := stringify (JObj detail); obs_createdAt := observedAt now |});
  eventId ← await (Recon.CreateId "order_event");
  fenced (Recon.AppendOrderEvent
    (recon_event eventId (ord_id order) "RECONCILIATION_IDENTIFIER_RECOVERY_OBSERVED"
       (JObj ([("outcome", JStr (outcome_text outcome));
               ("observationId", JStr observationId)] ++ detail)%list) (observedAt now))).

Definition projection_failure_event (order : OrderRecord) (message occurredAt : string)
    : OrderEventRecord :=
  recon_event ("candidate-evidence-recovery-fault:" ++ ord_id order) (ord_id order)
    "CANDIDATE_EVIDENCE_PROJECTION_FAILED"
    (JObj [("code", JStr "RECOVERED_SNAPSHOT_PROJECTION_FAILED"); ("message", JStr message)])
    occurredAt.

Definition persistRecoveredProjectionFailure (order : OrderRecord) (occurredAt message : string)
    : reconciler unit :=
  let eventId := "candidate-evidence-recovery-fault:" ++ ord_id order in
  events ← fenced (Recon.ListOrderEvents (ord_id order));
  let event := default (projection_failure_event order message occurredAt)
                 (List.find (fun event => oe_id event === eventId) events) in
  _ ← recon_when (negb (rdep_hasProjectionFault deps))
        "Recovered candidate projection failures require atomic fault persistence.";
  _ ← fenced (Recon.PersistCandidateProjectionFault
    {| proj_orderId := ord_id order; proj_event := event;
       proj_faultPause :=
         {| fp_exchangeAccountId := ord_exchangeAccountId order; fp_faultId := eventId;
            fp_reason := "RECOVERED_SNAPSHOT_PROJECTION_FAILED: " ++ message;
            fp_occurredAt := oe_createdAt event; fp_transitionAt := Some occurredAt |} |});
  mret tt.

Definition recovery (outcome : RecoveryResult.IdentifierRecoveryOutcome) (order : OrderRecord)
    (detail : string) : IdentifierRecoverySummary :=
  {| idr_outcome := outcome; idr_orderId := ord_id order; idr_detail := detail |}.

(** A lookup that failed: an observation if the failure is understood. *)
Definition recovery_lookup_failed (order : OrderRecord) (now : RecoveryTime) (error : js_error)
    : reconciler IdentifierRecoverySummary :=
  if isRuntimeOwnershipFailure error then throw error
  else if is_binding_error error then
    _ ← recordRecoveryObservation order Recovery.TRANSIENT_FAILURE now
          [("attemptedQueries", queries_json order);
           ("reasonCode", JStr "EXCHANGE_SNAPSHOT_BINDING_MISMATCH")];
    mret (recovery RecoveryResult.TRANSIENT_FAILURE order
      "Exchange snapshot binding validation failed; manual reconciliation is required.")
  else if isTypedTransientLookupError error then
    let message := error_message "Unknown identifier recovery lookup failure." error in
    _ ← recordRecoveryObservation order Recovery.TRANSIENT_FAILURE now
          [("attemptedQueries", queries_json order); ("reason", JStr message)];
    mret (recovery RecoveryResult.TRANSIENT_FAILURE order
      ("Transient identifier recovery lookup failure: " ++ message))
  else throw error.

(** The order was found: its snapshot is applied, and what fails then pauses
    execution. *)
Definition recovered (order : OrderRecord) (now : RecoveryTime)
    (snapshot : ExchangeOrderSnapshot) (matchedQuery : ExchangeOrderLookupIdentity)
    : reconciler IdentifierRecoverySummary :=
  _ ← recordRecoveryObservation order Recovery.FOUND now
        [("query", query_json matchedQuery); ("attemptedQueries", queries_json order);
         ("uuid", JStr (xorder_uuid snapshot))];
  try_catch
    (issues ← applyExchangeSnapshot order snapshot (observedAt now);
     match List.find (fun i => issue_code i === Issue.CANDIDATE_EVIDENCE_PROJECTION_FAILED) issues
     with
     | Some projectionFailure =>
         _ ← persistRecoveredProjectionFailure order (observedAt now)
               (issue_message projectionFailure);
         mret (recovery RecoveryResult.RECOVERED_BUT_PROJECTION_FAILED order
           "Exchange order was recovered, but terminal candidate projection failed and paused execution.")
     | None =>
         mret (recovery RecoveryResult.RECOVERED order
           "Exchange order recovery lookup found a matching order.")
     end)
    (fun error =>
       if isRuntimeOwnershipFailure error then throw error
       else
         let message := error_message "Unknown recovered snapshot projection failure." error in
         _ ← persistRecoveredProjectionFailure order (observedAt now) message;
         mret (recovery RecoveryResult.RECOVERED_BUT_PROJECTION_FAILED order
           ("Exchange order was recovered, but local projection failed: " ++ message))).

Definition ABSENCE_MESSAGE : string :=
  "Bounded identifier recovery confirmed persistent exchange absence.".

Definition absence_finalization (order : OrderRecord) (now : RecoveryTime)
    (policy : BoundedAbsencePolicy) (absence : BoundedAbsenceEvaluation)
    : FinalizeBoundedSubmissionAbsenceInput := {|
  fin_orderId := ord_id order;
  fin_expectedStatus := ord_status order;
  fin_expectedUpdatedAt := ord_updatedAt order;
  fin_failedAt := observedAt now;
  fin_failureCode := "ORDER_SUBMISSION_ABSENCE_CONFIRMED";
  fin_failureMessage := ABSENCE_MESSAGE;
  fin_event := recon_event ("identifier-recovery-absence-event:" ++ ord_id order) (ord_id order)
    "RECONCILIATION_IDENTIFIER_ABSENCE_CONFIRMED"
    (JObj [("absenceObservationCount", JInt (notFoundObservationCount absence));
           ("elapsedMs", JInt (elapsedMs absence));
           ("minimumNotFoundObservations", JInt (minimumNotFoundObservations policy));
           ("minimumElapsedMs", JInt (minimumElapsedMs policy))]) (observedAt now);
  fin_faultPause := {|
    fp_exchangeAccountId := ord_exchangeAccountId order;
    fp_faultId := "identifier-recovery-absence:" ++ ord_id order;
    fp_reason := ABSENCE_MESSAGE; fp_occurredAt := observedAt now; fp_transitionAt := None |};
|}.

Definition below_bound_text (absence : BoundedAbsenceEvaluation) (policy : BoundedAbsencePolicy)
    : string :=
  "Persisted absence evidence is below the explicit recovery bound ("
  ++ Z_to_string (notFoundObservationCount absence) ++ "/"
  ++ Z_to_string (minimumNotFoundObservations policy) ++ "; " ++ Z_to_string (elapsedMs absence)
  ++ "/" ++ Z_to_string (minimumElapsedMs policy) ++ "ms).".

(** The order was not found: it is given up only on persisted evidence. *)
Definition not_found (order : OrderRecord) (now : RecoveryTime)
    : reconciler IdentifierRecoverySummary :=
  _ ← recordRecoveryObservation order Recovery.NOT_FOUND now
        [("attemptedQueries", queries_json order)];
  policy ← recon_lift (validateIdentifierRecoveryPolicy
    (default DEFAULT_IDENTIFIER_RECOVERY_POLICY (rdep_identifierRecovery deps)));
  persisted ← fenced (Recon.ListOrderSubmissionRecoveryObservations (ord_id order));
  let absence := evaluateBoundedAbsence persisted policy in
  if negb (absence_confirmed absence) then
    mret (recovery RecoveryResult.STILL_UNCERTAIN order (below_bound_text absence policy))
  else
    _ ← recon_when (negb (rdep_hasFinalizer deps))
          "Atomic bounded submission absence finalization is unavailable.";
    finalized ← fenced (Recon.FinalizeBoundedSubmissionAbsence
                          (absence_finalization order now policy absence));
    mret (if finalized : bool
          then recovery RecoveryResult.ABSENCE_CONFIRMED order ABSENCE_MESSAGE
          else recovery RecoveryResult.STILL_UNCERTAIN order
            "Bounded absence finalization lost its order compare-and-set and did not overwrite newer recovery evidence.").

Definition recoverOrderByIdentifier (order : OrderRecord)
    : reconciler IdentifierRecoverySummary :=
  if isSubmissionAbsenceConfirmed order then
    mret (recovery RecoveryResult.ABSENCE_CONFIRMED order
      "Bounded identifier recovery previously confirmed persistent exchange absence.")
  else if negb (isPotentiallyDispatchedRecoveryStatus (ord_status order)) then
    throw (PlainError (order_text order "is not eligible for submission recovery."))
  else if negb (rdep_hasOrderReader deps) || negb (has_reference order) then
    mret (recovery RecoveryResult.STILL_UNCERTAIN order
      "No exchange lookup reference is available for uncertain submission recovery.")
  else
    _ ← recon_when (negb (rdep_hasObservations deps))
          "Order submission recovery observation persistence is unavailable.";
    _ ← recon_when (negb (rdep_hasRecoveryClock deps))
          "Identifier recovery requires an injected persisted-observation clock.";
    now ← await Recon.RecoveryClockNow;
    _ ← recon_lift (validateRecoveryObservationTime now);
    looked ← attempt (lookup_by order (recovery_queries order));
    match looked with
    | Err error => recovery_lookup_failed order now error
    | Ok (Some (snapshot, matchedQuery)) => recovered order now snapshot matchedQuery
    | Ok None => not_found order now
    end.

(** The issue a recovery is reported as. *)
Definition recovery_issue_code (outcome : RecoveryResult.IdentifierRecoveryOutcome)
    : Issue.ReconciliationIssueCode :=
  match outcome with
  | RecoveryResult.RECOVERED => Issue.ORDER_IDENTIFIER_RECOVERED
  | RecoveryResult.RECOVERED_BUT_PROJECTION_FAILED => Issue.CANDIDATE_EVIDENCE_PROJECTION_FAILED
  | RecoveryResult.ABSENCE_CONFIRMED => Issue.ORDER_SUBMISSION_ABSENCE_CONFIRMED
  | _ => Issue.ORDER_IDENTIFIER_RECOVERY_UNCERTAIN
  end.

(** ** Lookups of one order *)

(** [getOrder] with every reference, and its answer bound to the order. *)
Definition lookup_snapshot (order : OrderRecord) : reconciler (option ExchangeOrderSnapshot) :=
  candidate ← fenced (Recon.GetOrder (lookup_query order));
  match candidate with
  | Some found => snapshot ← bind_snapshot found (lookup_query order) order; mret (Some snapshot)
  | None => mret None
  end.

(** A lookup that failed: waited out if the failure is transient. *)
Definition lookup_failed (order : OrderRecord) (reconciledAt unknown kind prefix : string)
    (detail : list (string * json)) (error : js_error) : reconciler (list ReconciliationIssue) :=
  if isRuntimeOwnershipFailure error then throw error
  else
    let message := error_message unknown error in
    if isTypedTransientLookupError error then
      id ← await (Recon.CreateId "order_event");
      _ ← fenced (Recon.AppendOrderEvent
            (recon_event id (ord_id order) "RECONCILIATION_LOOKUP_TRANSIENT_FAILURE"
               (JObj (("reason", JStr message) :: detail)) reconciledAt));
      mret [issue Issue.ORDER_LOOKUP_TRANSIENT_FAILURE
              ("Transient exchange lookup failure for " ++ kind ++ " " ++ ord_id order ++ ". "
               ++ message)]
    else
      marked ← markOrderForRecovery order reconciledAt (prefix ++ message)
                 Issue.ORDER_MARKED_FOR_RECOVERY;
      mret [marked].

(** A snapshot that could not be stored is reported. *)
Definition persistence_failed (order : OrderRecord) (kind : string) (error : js_error)
    : reconciler (list ReconciliationIssue) :=
  if isRuntimeOwnershipFailure error then throw error
  else mret [issue Issue.OPEN_ORDER_NEEDS_REVIEW
    ("Local reconciliation persistence failed for " ++ kind ++ " " ++ ord_id order ++ ". "
     ++ error_message "Unknown local reconciliation persistence failure." error)].

Definition reconcileActiveOrder (order : OrderRecord) (reconciledAt : string)
    : reconciler (list ReconciliationIssue) :=
  if negb (rdep_hasOrderReader deps) then
    mret [if ord_status order === OrderStatus.RECONCILIATION_REQUIRED
          then issue Issue.ORDER_MARKED_FOR_RECOVERY
                 (order_text order "is already marked for recovery.")
          else issue Issue.OPEN_ORDER_NEEDS_REVIEW
                 (order_text order "remains active and exchange order lookup is not wired.")]
  else if (ord_status order === OrderStatus.RECONCILIATION_REQUIRED)
          || (ord_status order === OrderStatus.SUBMITTING) then
    found ← recoverOrderByIdentifier order;
    mret [issue (recovery_issue_code (idr_outcome found))
            (order_text order ("identifier recovery: " ++ idr_detail found))]
  else if negb (has_reference order) then
    marked ← markOrderForRecovery order reconciledAt
               "Order has no exchange reference for reconciliation." Issue.ORDER_REFERENCE_MISSING;
    mret [marked]
  else
    looked ← attempt (lookup_snapshot order);
    match looked with
    | Err error =>
        lookup_failed order reconciledAt "Unknown reconciliation query failure." "order"
          "Exchange order lookup failed: " [] error
    | Ok None =>
        marked ← markOrderForRecovery order reconciledAt
                   "Exchange order snapshot could not be found." Issue.ORDER_MARKED_FOR_RECOVERY;
        mret [marked]
    | Ok (Some snapshot) =>
        try_catch (applyExchangeSnapshot order snapshot reconciledAt)
          (persistence_failed order "order")
    end.

Definition reconcileTerminalOrder (order : OrderRecord) (reconciledAt : string)
    : reconciler (list ReconciliationIssue) :=
  if negb (rdep_hasOrderReader deps) then mret []
  else if isPotentiallyDispatchedRecoveryStatus (ord_status order) then
    found ← recoverOrderByIdentifier order;
    mret [issue (recovery_issue_code (idr_outcome found))
            ("Terminal order " ++ ord_id order ++ " identifier recovery: " ++ idr_detail found)]
  else if negb (has_reference order) then mret []
  else
    looked ← attempt (lookup_snapshot order);
    match looked with
    | Err error =>
        lookup_failed order reconciledAt "Unknown terminal reconciliation query failure."
          "terminal order" "Terminal order lookup failed: "
          [("orderStatus", JStr (status_text order))] error
    | Ok None =>
        marked ← markOrderForRecovery order reconciledAt
                   "Terminal order snapshot could not be found during reconciliation."
                   Issue.ORDER_MARKED_FOR_RECOVERY;
        mret [marked]
    | Ok (Some snapshot) =>
        try_catch
          (issues ← applyExchangeSnapshot order snapshot reconciledAt;
           mret (issue Issue.TERMINAL_ORDER_RECHECKED
                   ("Terminal order " ++ ord_id order ++ " was rechecked against exchange state "
                    ++ xorder_state snapshot ++ ".") :: issues))
          (persistence_failed order "terminal order")
    end.

Definition reconcile_candidate (reconciledAt : string) (candidate : ReconciliationCandidate)
    : reconciler (list ReconciliationIssue) :=
  match cand_kind candidate with
  | ACTIVE_CANDIDATE => reconcileActiveOrder (cand_order candidate) reconciledAt
  | TERMINAL_CANDIDATE => reconcileTerminalOrder (cand_order candidate) reconciledAt
  end.

(** ** Orders of dry runs *)

(** [{ ...order, status, failureCode: null, failureMessage: null, updatedAt }] *)
Definition repaired_order (order : OrderRecord) (status : OrderLifecycleStatus)
    (repairedAt : string) : OrderRecord :=
  reconciled_order order (ord_upbitUuid order) status (ord_exchangeResponseJson order) None None
    repairedAt.

Definition resolveDryRunRepairPrice (order : OrderRecord) : reconciler (option string) :=
  if isPositiveNumericString (ord_price order) then mret (ord_price order)
  else
    snapshot ← fenced (Recon.GetLatestPositionSnapshot (ord_exchangeAccountId order));
    mret (repair_price_of_positions order snapshot).

Definition createDryRunRepairFill (order : OrderRecord) (repairedAt : string)
    : reconciler (option FillRecord) :=
  price ← resolveDryRunRepairPrice order;
  match non_empty price, non_empty (resolveDryRunRepairVolume order price) with
  | Some price, Some volume =>
      id ← await (Recon.CreateId "fill");
      mret (Some (dry_run_repair_fill id order price volume repairedAt))
  | _, _ => mret None
  end.

(** The order is updated and the event of the repair appended. *)
Definition record_repair (order : OrderRecord) (status : OrderLifecycleStatus)
    (eventType : string) (detail : list (string * json)) (repairedAt message : string)
    : reconciler ReconciliationIssue :=
  _ ← fenced (Recon.UpdateOrder (repaired_order order status repairedAt));
  id ← await (Recon.CreateId "order_event");
  _ ← fenced (Recon.AppendOrderEvent
        (recon_event id (ord_id order) eventType
           (JObj ([("previousStatus", JStr (status_text order));
                   ("nextStatus", JStr (OrderStatus.to_string status))] ++ detail)%list)
           repairedAt));
  mret (issue Issue.DRY_RUN_ORDER_REPAIRED
          ("Dry-run local order " ++ ord_id order ++ " was repaired to " ++ message)).

Definition SETTLEMENT : string * json := ("settlement", JStr "LOCAL_DRY_RUN_REPAIR").

Definition repair_dry_run_order (repairedAt : string) (order : OrderRecord)
    : reconciler ReconciliationIssue :=
  existingFills ← fenced (Recon.ListFills (Some (ord_id order)));
  if (0 <? length existingFills)%nat then
    record_repair order OrderStatus.FILLED "DRY_RUN_ORDER_REPAIRED"
      [("existingFillCount", JInt (Z.of_nat (length existingFills))); SETTLEMENT] repairedAt
      "FILLED using existing local fill evidence."
  else
    syntheticFill ← createDryRunRepairFill order repairedAt;
    match syntheticFill with
    | None =>
        record_repair order OrderStatus.CANCELED "DRY_RUN_ORDER_REPAIRED"
          [("syntheticFillCreated", JBool false); SETTLEMENT;
           ("reason", JStr "price_or_volume_unavailable")] repairedAt
          "CANCELED because price or volume evidence was unavailable."
    | Some fill =>
        _ ← fenced (Recon.SaveFill fill);
        record_repair order OrderStatus.FILLED "ORDER_FILLED"
          [("syntheticFillCreated", JBool true); SETTLEMENT;
           ("fillId", JStr (fill_exchangeFillId fill))] repairedAt
          "FILLED with a synthetic local fill."
    end.

Definition repairLocalDryRunOrders (orders : list OrderRecord) (repairedAt : string)
    : reconciler (list ReconciliationIssue) :=
  for_each (repair_dry_run_order repairedAt) (List.filter isLocalDryRunExchangeArtifact orders).

(** ** Terminal orders *)

Definition needs_backfill_check (order : OrderRecord) : bool :=
  negb (isLocalDryRunExchangeArtifact order) && negb (isSubmissionAbsenceConfirmed order)
  && bool_decide (ord_status order ∈ TERMINAL_RECONCILIATION_STATUSES) && has_reference order.

Definition listTerminalOrdersNeedingBackfill (orders : list OrderRecord)
    : reconciler (list OrderRecord) :=
  fillsByOrder ← promise_all (fun order =>
    fills ← fenced (Recon.ListFills (Some (ord_id order))); mret (order, fills))
    (List.filter needs_backfill_check orders);
  mret (fst <$> List.filter (fun '(order, fills) =>
                  shouldReconcileTerminalOrder order (length fills)) fillsByOrder).

Record TerminalCandidateProjectionSweepResult := {
  sweep_processedCount : Z;
  sweep_deferredCount : Z;
  sweep_failedOrderIds : list string;
}.

Definition sweep_classify (orderId : string) : reconciler SweepDisposition :=
  if rdep_hasSweepClassification deps then fenced (Recon.ClassifyTerminalOrderForSweep orderId)
  else mret ELIGIBLE.

Definition sweep_candidate (order : OrderRecord) : reconciler SweepCandidate :=
  disposition ← sweep_classify (ord_id order);
  fills ← fenced (Recon.ListFills (Some (ord_id order)));
  mret (terminalSortKey order disposition fills).

(** One projection, and the order if it failed. *)
Definition sweep_project (candidate : SweepCandidate) : reconciler (list string) :=
  result ← fenced (Recon.ProcessTerminalOrder (ord_id (sweep_order candidate)));
  mret (if projection_fault result then [ord_id (sweep_order candidate)] else []).

(** [TerminalCandidateProjectionSweep.run] *)
Definition TerminalCandidateProjectionSweep_run (exchangeAccountId : string)
    : reconciler TerminalCandidateProjectionSweepResult :=
  let maximumPerRun := default DEFAULT_MAX_TERMINAL_CANDIDATE_PROJECTIONS_PER_RUN
                         (rdep_maxTerminalCandidateProjectionsPerRun deps) in
  _ ← recon_when (negb (isSafeInteger maximumPerRun) || (maximumPerRun <? 0)%Z)
        "Terminal candidate projection sweep maximum must be a non-negative safe integer.";
  orders ← fenced (Recon.ListOrders exchangeAccountId);
  allCandidates ← promise_all sweep_candidate (List.filter isTerminalBtcStrategyOrder orders);
  let candidates := js_sort compareTerminalCandidates
    (List.filter (fun candidate => sweep_disposition candidate === ELIGIBLE) allCandidates) in
  let selected := slice_to maximumPerRun candidates in
  failed ← for_each sweep_project selected;
  mret {| sweep_processedCount := Z.of_nat (length selected);
          sweep_deferredCount :=
            Z.max 0 (Z.of_nat (length candidates) - Z.of_nat (length selected));
          sweep_failedOrderIds := mjoin failed |}.

Definition sweep_issues (sweep : TerminalCandidateProjectionSweepResult)
    : list ReconciliationIssue :=
  (((fun orderId => issue Issue.CANDIDATE_EVIDENCE_PROJECTION_FAILED
      ("Candidate evidence projection failed for terminal order " ++ orderId ++ "."))
     <$> sweep_failedOrderIds sweep)
   ++ (if (0 <? sweep_deferredCount sweep)%Z
       then [issue Issue.CANDIDATE_EVIDENCE_PROJECTION_DEFERRED
               ("Deferred " ++ Z_to_string (sweep_deferredCount sweep)
                ++ " terminal candidate projection(s) after the bounded sweep.")]
       else []))%list.

Definition project_terminal_candidates (exchangeAccountId : string)
    : reconciler (list ReconciliationIssue) :=
  if rdep_hasCandidateEvidence deps then
    sweep ← TerminalCandidateProjectionSweep_run exchangeAccountId; mret (sweep_issues sweep)
  else mret [].

(** ** The history of the exchange *)

(** The pages from one on, [fuel] of them left. *)
Fixpoint paginate_from (maxPages : Z) (fetchPage : Z -> reconciler (list ExchangeOrderSnapshot))
    (fuel : nat) (page : Z) (scan : PageScan) : reconciler PageScan :=
  match fuel with
  | O => mret scan
  | S fuel =>
      pageSnapshots ← fetchPage page;
      let scanned := {|
        scan_snapshots := (scan_snapshots scan ++ pageSnapshots)%list;
        scan_pagesScanned := scan_pagesScanned scan + 1;
        scan_pageLimitReached := scan_pageLimitReached scan |}%Z in
      if (Z.of_nat (length pageSnapshots) <? EXCHANGE_HISTORY_PAGE_LIMIT)%Z then mret scanned
      else
        paginate_from maxPages fetchPage fuel (page + 1)%Z
          {| scan_snapshots := scan_snapshots scanned;
             scan_pagesScanned := scan_pagesScanned scanned;
             scan_pageLimitReached := (page =? maxPages)%Z |}
  end.

Definition paginateExchangeOrderHistory (maxPages : Z)
    (fetchPage : Z -> reconciler (list ExchangeOrderSnapshot)) : reconciler PageScan :=
  paginate_from maxPages fetchPage (Z.to_nat maxPages) 1 no_scan.

Definition history_query (market : SupportedMarket) (window : option (Z * Z)) (page : Z)
    : HistoryQuery :=
  {| hq_market := market; hq_page := page; hq_window := window |}.

(** The three scans of a market, which run together. *)
Definition scan_market (closedOrderEndTimeMs : Z) (market : SupportedMarket) (w : ArchivalWindow)
    : reconciler MarketScans :=
  let maxPages := history_max_pages deps in
  let closed window := paginateExchangeOrderHistory maxPages (fun page =>
    fenced (Recon.ListClosedOrders (history_query market (Some window) page))) in
  open ← attempt (paginateExchangeOrderHistory maxPages (fun page =>
    fenced (Recon.ListOpenOrders (history_query market None page))));
  recent ← attempt (closed
    (days_before closedOrderEndTimeMs (closedOrderLookbackDays (history_limits deps)),
     closedOrderEndTimeMs));
  archival ← attempt
    (if archiveAlreadyComplete w then mret no_scan
     else closed (archivalWindowStartTimeMs w, archivalWindowEndTimeMs w));
  openSnapshots ← unwrap open;
  recentClosedSnapshots ← unwrap recent;
  archivalClosedSnapshots ← unwrap archival;
  mret {| openSnapshots := openSnapshots; recentClosedSnapshots := recentClosedSnapshots;
          archivalClosedSnapshots := archivalClosedSnapshots |}.

(** The id of a new checkpoint is made only for a market without one. *)
Definition checkpoint_id (checkpoint : option HistoryRecoveryCheckpointRecord)
    : reconciler string :=
  match checkpoint with
  | Some c => mret (ckpt_id c)
  | None => await (Recon.CreateId "history_recovery_checkpoint")
  end.

Definition recover_market (exchangeAccountId reconciledAt : string) (closedOrderEndTimeMs : Z)
    (texts : HistoryWindowTexts) (market : SupportedMarket)
    : reconciler (ReconciliationHistoryRecoveryMarketProgress * list ExchangeOrderSnapshot) :=
  checkpoint ← fenced (Recon.GetHistoryRecoveryCheckpoint exchangeAccountId market);
  let w := archival_window (history_limits deps) closedOrderEndTimeMs checkpoint in
  scans ← scan_market closedOrderEndTimeMs market w;
  nextWindowEndAt ← recon_lift (dateToISOString (archivalWindowStartTimeMs w));
  id ← checkpoint_id checkpoint;
  _ ← fenced (Recon.SaveHistoryRecoveryCheckpoint
    {| ckpt_id := id; ckpt_exchangeAccountId := exchangeAccountId; ckpt_market := market;
       ckpt_nextWindowEndAt := nextWindowEndAt; ckpt_updatedAt := reconciledAt |});
  progress ← recon_lift (market_progress (history_limits deps) closedOrderEndTimeMs texts market w
                           nextWindowEndAt scans);
  mret (progress, market_snapshots scans).

(** The end of the recent window. *)
Definition closed_order_end (reconciledAt : string) : reconciler Z :=
  match Date_parse reconciledAt with
  | Some parsedReconciledAt => mret parsedReconciledAt
  | None => await Recon.DateNow
  end.

Definition compare_created (left right : ExchangeOrderSnapshot) : comparison :=
  localeCompare (xorder_createdAt left) (xorder_createdAt right).

(** With an order history reader. *)
Definition listExchangeHistorySnapshots (exchangeAccountId reconciledAt : string)
    : reconciler (list ExchangeOrderSnapshot * ReconciliationHistoryRecoverySummary) :=
  closedOrderEndTimeMs ← closed_order_end reconciledAt;
  texts ← recon_lift (history_window_texts (history_limits deps) closedOrderEndTimeMs);
  batches ← promise_all (recover_market exchangeAccountId reconciledAt closedOrderEndTimeMs texts)
              MANAGED_MARKETS;
  let deduped := dedupe (mjoin (snd <$> batches)) in
  mret (js_sort compare_created (snd <$> deduped),
        history_recovery_summary (history_limits deps) texts (fst <$> batches)
          (Z.of_nat (length deduped)) 0).

(** The exchange's order is one that is stored. *)
Definition is_known (knownUuids knownIdentifiers : list string) (snapshot : ExchangeOrderSnapshot)
    : bool :=
  bool_decide (xorder_uuid snapshot ∈ knownUuids)
  || match non_empty (xorder_identifier snapshot) with
     | Some identifier => bool_decide (identifier ∈ knownIdentifiers)
     | None => false
     end.

(** An order of the exchange that is not stored is stored as it shows it. *)
Definition recover_exchange_order (exchangeAccountId : string) (executionMode : ExecutionMode)
    (reconciledAt : string) (snapshot : ExchangeOrderSnapshot)
    : reconciler (OrderRecord * list ReconciliationIssue) :=
  id ← await (Recon.CreateId "order");
  let recoveredOrder :=
    buildRecoveredOrderRecord sha256 id exchangeAccountId executionMode snapshot reconciledAt in
  _ ← fenced (Recon.SaveOrder recoveredOrder);
  eventId ← await (Recon.CreateId "order_event");
  _ ← fenced (Recon.AppendOrderEvent
    (recon_event eventId (ord_id recoveredOrder) "RECONCILIATION_HISTORY_RECOVERED"
       (JObj [("exchangeState", JStr (xorder_state snapshot));
              ("market", JStr (Market.to_string (xorder_market snapshot)));
              ("upbitUuid", JStr (xorder_uuid snapshot));
              ("identifier", opt_str_json (xorder_identifier snapshot))]) reconciledAt));
  applied ← applyExchangeSnapshot recoveredOrder snapshot reconciledAt;
  mret (recoveredOrder,
        issue Issue.EXCHANGE_ORDER_RECOVERED
          ("Recovered exchange order " ++ ord_id recoveredOrder ++ " for "
           ++ Market.to_string (xorder_market snapshot) ++ " from exchange history state "
           ++ xorder_state snapshot ++ ".") :: applied).

(** The snapshots in turn, and how many orders were recovered. *)
Fixpoint recover_snapshots (exchangeAccountId : string) (executionMode : ExecutionMode)
    (reconciledAt : string) (knownUuids knownIdentifiers : list string)
    (snapshots : list ExchangeOrderSnapshot) : reconciler (list ReconciliationIssue * Z) :=
  match snapshots with
  | [] => mret ([], 0%Z)
  | snapshot :: rest =>
      if is_known knownUuids knownIdentifiers snapshot then
        recover_snapshots exchangeAccountId executionMode reconciledAt knownUuids knownIdentifiers
          rest
      else
        one ← recover_exchange_order exchangeAccountId executionMode reconciledAt snapshot;
        more ← recover_snapshots exchangeAccountId executionMode reconciledAt
                 (xorder_uuid snapshot :: knownUuids) (ord_identifier (fst one) :: knownIdentifiers)
                 rest;
        mret ((snd one ++ fst more)%list, (snd more + 1)%Z)
  end.

Definition with_recovered_count (h : ReconciliationHistoryRecoverySummary) (count : Z)
    : ReconciliationHistoryRecoverySummary := {|
  hr_closedOrderLookbackDays := hr_closedOrderLookbackDays h;
  hr_stopBeforeDays := hr_stopBeforeDays h;
  hr_stopBeforeAt := hr_stopBeforeAt h;
  hr_retentionAssumptionDays := hr_retentionAssumptionDays h;
  hr_retentionBoundaryAt := hr_retentionBoundaryAt h;
  hr_retentionStatus := hr_retentionStatus h;
  hr_coverageStatus := hr_coverageStatus h;
  hr_confidenceLevel := hr_confidenceLevel h;
  hr_confidenceReason := hr_confidenceReason h;
  hr_failureMessage := hr_failureMessage h;
  hr_scannedSnapshotCount := hr_scannedSnapshotCount h;
  hr_recoveredOrderCount := count;
  hr_markets := hr_markets h;
|}.

Abbreviation history_recovery :=
  (list ReconciliationIssue * option ReconciliationHistoryRecoverySummary)%type.

Definition history_lookup_failed (reconciledAt : string) (error : js_error)
    : reconciler history_recovery :=
  if isRuntimeOwnershipFailure error then throw error
  else
    let message := error_message "Unknown exchange history lookup failure." error in
    closedOrderEndTimeMs ← closed_order_end reconciledAt;
    failed ← recon_lift (buildFailedHistoryRecoverySummary (history_limits deps)
                           closedOrderEndTimeMs message);
    mret ([issue Issue.ORDER_HISTORY_LOOKUP_FAILED
             ("Exchange order history lookup failed. " ++ message)], Some failed).

Definition recoverMissingExchangeOrders (exchangeAccountId : string)
    (localOrders : list OrderRecord) (executionMode : ExecutionMode) (reconciledAt : string)
    : reconciler history_recovery :=
  if negb (rdep_hasOrderHistoryReader deps) then mret ([], None)
  else
    try_catch
      (history ← listExchangeHistorySnapshots exchangeAccountId reconciledAt;
       recovered ← recover_snapshots exchangeAccountId executionMode reconciledAt
                     (omap ord_upbitUuid localOrders) (ord_identifier <$> localOrders)
                     (fst history);
       mret (fst recovered, Some (with_recovered_count (snd history) (snd recovered))))
      (history_lookup_failed reconciledAt).

(** ** A run *)

Definition drift_risk_event (id exchangeAccountId createdAt : string)
    (finding : PortfolioDriftFinding) : RiskEventRecord := {|
  re_id := id;
  re_exchangeAccountId := exchangeAccountId;
  re_strategyDecisionId := None;
  re_orderId := None;
  re_level := RiskLevelEvent.WARN;
  re_ruleCode := drift_rule (drift_code finding);
  re_message := finding_message finding;
  re_payloadJson := stringify (finding_payload finding);
  re_createdAt := createdAt;
|}.

Definition report_portfolio_drift (exchangeAccountId createdAt : string)
    (snapshots : option PortfolioSnapshots) : reconciler (list ReconciliationIssue) :=
  match snapshots with
  | None => mret []
  | Some snapshots =>
      fills ← fenced (Recon.ListFills None);
      evaluation ← recon_lift (detectPortfolioDrift snapshots fills);
      _ ← for_each (fun finding =>
            id ← await (Recon.CreateId "risk_event");
            fenced (Recon.SaveRiskEvent
                      (drift_risk_event id exchangeAccountId createdAt finding)))
            (findings evaluation);
      mret ((fun finding => issue (drift_issue (drift_code finding)) (finding_message finding))
              <$> findings evaluation)
  end.

(** A report that fails does not change the run. *)
Definition safeReport (input : DriftReport) : reconciler unit :=
  if negb (rdep_hasReporter deps) then mret tt
  else
    try_catch (fenced (Recon.Report input)) (fun error =>
      if isRuntimeOwnershipFailure error then throw error
      else await Recon.AssertLocallyHeld).

Definition run_identity (options : ReconciliationRunOptions)
    : reconciler ReconciliationRunIdentity :=
  match opt_runIdentity options with
  | None =>
      id ← await (Recon.CreateId "recon_run");
      startedAt ← await Recon.NewDate;
      mret {| identity_id := id; identity_startedAt := startedAt |}
  | Some identity => recon_lift (projectReconciliationRunIdentity identity)
  end.

(** The three reads a run starts with are made together. *)
Definition initial_reads (exchangeAccountId : string)
    : reconciler (list OrderRecord * list OrderRecord * ExecutionStateRecord) :=
  active ← issue_call (Recon.ListActiveOrders exchangeAccountId);
  all ← issue_call (Recon.ListOrders exchangeAccountId);
  state ← issue_call Recon.GetState;
  active ← attempt (settle_call active);
  all ← attempt (settle_call all);
  state ← attempt (settle_call state);
  openOrders ← unwrap active;
  allOrders ← unwrap all;
  stateRecord ← unwrap state;
  mret (openOrders, allOrders, stateRecord).

Definition DEFAULT_MAX_ORDER_LOOKUPS_PER_RUN : Z := 10.

Definition max_order_lookups : Z :=
  default DEFAULT_MAX_ORDER_LOOKUPS_PER_RUN (rdep_maxOrderLookupsPerRun deps).

Definition deferred_issues (deferredCount : Z) : list ReconciliationIssue :=
  if (0 <? deferredCount)%Z
  then [issue Issue.ORDER_LOOKUP_DEFERRED
          ("Deferred " ++ Z_to_string deferredCount
           ++ " reconciliation lookup(s) after reaching the per-run budget "
           ++ Z_to_string max_order_lookups ++ ".")]
  else [].

Definition run_summary (source : option Trigger.ReconciliationTrigger)
    (issues : list ReconciliationIssue) (candidateCount processedCount : Z)
    (historyRecovery : option ReconciliationHistoryRecoverySummary) : ReconciliationSummary := {|
  sum_source := default Trigger.DIRECT_RUN source;
  sum_status := match issues with [] => RunStatus.SUCCESS | _ => RunStatus.DRIFT_DETECTED end;
  sum_issues := issues;
  sum_candidateCount := candidateCount;
  sum_processedCount := processedCount;
  sum_deferredCount := Z.max 0 (candidateCount - processedCount);
  sum_maxOrderLookupsPerRun := max_order_lookups;
  sum_historyRecovery := historyRecovery;
|}.

Definition run_record (identity : ReconciliationRunIdentity) (exchangeAccountId completedAt : string)
    (summary : ReconciliationSummary) : ReconciliationRunRecord := {|
  run_id := identity_id identity;
  run_exchangeAccountId := exchangeAccountId;
  run_status := sum_status summary;
  run_startedAt := identity_startedAt identity;
  run_completedAt := Some completedAt;
  run_summaryJson := stringify (summary_json summary);
  run_errorMessage := None;
|}.

Definition drift_report (exchangeAccountId : string) (summary : ReconciliationSummary)
    : DriftReport := {|
  drift_exchangeAccountId := exchangeAccountId;
  drift_title := "Reconciliation drift detected";
  drift_message := "Detected " ++ Z_to_string (Z.of_nat (length (sum_issues summary)))
    ++ " reconciliation issue(s) during " ++ Trigger.to_string (sum_source summary) ++ ".";
  drift_payload := JObj
    [("source", JStr (Trigger.to_string (sum_source summary)));
     ("issueCount", JInt (Z.of_nat (length (sum_issues summary))));
     ("issueCodes",
      JArr ((fun i => JStr (Issue.to_string (issue_code i))) <$> sum_issues summary))];
|}.

(** Everything a run does before it has its summary. *)
Definition run_steps (exchangeAccountId : string) (options : ReconciliationRunOptions)
    (startedAt : string) : reconciler ReconciliationSummary :=
  reads ← initial_reads exchangeAccountId;
  let '(openOrders, allOrders, state) := reads in
  dryRunRepairIssues ← repairLocalDryRunOrders openOrders startedAt;
  sweepIssues ← project_terminal_candidates exchangeAccountId;
  terminalOrders ← listTerminalOrdersNeedingBackfill allOrders;
  let candidates := buildReconciliationCandidates localeCompare
    (List.filter (fun order => negb (isLocalDryRunExchangeArtifact order)) openOrders)
    terminalOrders in
  let selected := slice_to max_order_lookups candidates in
  historyRecovery ← recoverMissingExchangeOrders exchangeAccountId allOrders
                      (es_executionMode state) startedAt;
  candidateIssues ← for_each (reconcile_candidate startedAt) selected;
  portfolioIssues ← report_portfolio_drift exchangeAccountId startedAt
                      (opt_portfolioSnapshots options);
  let candidateCount := Z.of_nat (length candidates) in
  let processedCount := Z.of_nat (length selected) in
  mret (run_summary (opt_source options)
    (dryRunRepairIssues ++ sweepIssues ++ fst historyRecovery ++ mjoin candidateIssues
     ++ deferred_issues (Z.max 0 (candidateCount - processedCount)) ++ portfolioIssues)%list
    candidateCount processedCount (snd historyRecovery)).

Definition runWithRecord (exchangeAccountId : string) (options : ReconciliationRunOptions)
    : reconciler ReconciliationRunResult :=
  _ ← await Recon.AssertLocallyHeld;
  identity ← run_identity options;
  summary ← run_steps exchangeAccountId options (identity_startedAt identity);
  completedAt ← await Recon.NewDate;
  let record := run_record identity exchangeAccountId completedAt summary in
  _ ← fenced (Recon.SaveReconciliationRun record);
  _ ← (if sum_status summary === RunStatus.DRIFT_DETECTED
       then safeReport (drift_report exchangeAccountId summary) else mret tt);
  mret {| result_summary := summary; result_reconciliationRun := record |}.

Definition run (exchangeAccountId : string) (options : ReconciliationRunOptions)
    : reconciler ReconciliationSummary :=
  result ← runWithRecord exchangeAccountId options; mret (result_summary result).

End Service.
