(* ===== verification/ReconciliationTheory.v ===== *)
(** * ReconciliationTheory: reasoning about reconciliation

    What may be answered, what justifies a call, and the rules by which the
    routines of [ReconciliationService] are shown to make no other: every call
    of a dependency directly follows an assertion of ownership, and what is
    written about an order rests on what was read in the same run. *)

From Stdlib Require Import ZArith Lia.
From stdpp Require Import base option list strings.
From S2P Require Import Prelude Num Types Text Timestamp NumText JsMap SubmissionBlocking.
From S2P Require Import OperatorState OrderRecords OrderRepository Effects ExecutionRecords.
From S2P Require Import ExecutionHelpers SnapshotBinding ReconciliationRecords.
From S2P Require Import ReconciliationHelpers HistoryWindows PortfolioDrift.
From S2P Require Import ReconciliationService.

Local Open Scope string_scope.
Local Open Scope js_scope.
Local Open Scope bool_scope.

Abbreviation event := (Effects.event Recon.call js_error).
Abbreviation history := (list event).

(** ** What may be answered *)

(** Clocks and identifiers do not throw. *)
Definition infallible {B} (e : Recon.call B) : bool :=
  match e with
  | Recon.NewDate | Recon.DateNow | Recon.RecoveryClockNow | Recon.CreateId _ => true
  | _ => false
  end.

Definition is_assertion {B} (e : Recon.call B) : bool :=
  match e with Recon.AssertLocallyHeld => true | _ => false end.

(** The calls that are not made to a dependency behind the fence. *)
Definition dependency {B} (e : Recon.call B) : bool := negb (infallible e) && negb (is_assertion e).

(** An assertion that fails throws an ownership failure. *)
Definition may_answer (B : Type) (e : Recon.call B) (r : result js_error B) : Prop :=
  match r with
  | Ok _ => True
  | Err x => infallible e = false /\ (is_assertion e = true -> isRuntimeOwnershipFailure x = true)
  end.

(** ** Events *)

Definition is_ok {A} (r : result js_error A) : bool :=
  match r with Ok _ => true | Err _ => false end.

(** An assertion that succeeded, and one that failed. *)
Definition is_held (ev : event) : bool :=
  match ev with Asked e r => is_assertion e && is_ok r end.

Definition is_lost (ev : event) : bool :=
  match ev with Asked e r => is_assertion e && negb (is_ok r) end.

Definition is_dependency (ev : event) : bool := match ev with Asked e _ => dependency e end.

Definition held (h : history) : bool := match h with ev :: _ => is_held ev | [] => false end.

Abbreviation held_now := (Asked Recon.AssertLocallyHeld (Ok tt) : event).

Definition failed_with {B} (e : Recon.call B) (x : js_error) (ev : event) : Prop :=
  ev = Asked e (Err x).

Definition answered_as {B} (e : Recon.call B) (v : B) (ev : event) : Prop := ev = Asked e (Ok v).

(** The uuids of the orders a run has saved. *)
Definition saved_uuid (ev : event) : option string :=
  match ev with Asked e _ => match e with Recon.SaveOrder o => ord_upbitUuid o | _ => None end end.

Definition saves {B} (e : Recon.call B) : bool :=
  match e with Recon.SaveOrder _ => true | _ => false end.

Definition quiet_event (ev : event) : bool := match ev with Asked e _ => negb (saves e) end.

(** The history grew and, if [quietly], no order was saved. *)
Definition extends (quietly : bool) (h h' : history) : Prop :=
  exists t, h' = (t ++ h)%list /\ (quietly = true -> forallb quiet_event t = true).

#[export] Instance extends_preorder quietly : PreOrder (extends quietly).
Proof.
  split.
  - intros h. by exists [].
  - intros h1 h2 h3 (t & -> & Ht) (u & -> & Hu). exists (u ++ t)%list. split; [by rewrite app_assoc|].
    intros Hq. by rewrite forallb_app, Hu, Ht.
Qed.

Lemma extended_cons quietly ev h h' :
  quietly && negb (quiet_event ev) = false -> extends quietly h h' ->
  extends quietly h (ev :: h').
Proof.
  intros Hq (t & -> & Ht). exists (ev :: t). split; [done|]. intros ->. cbn.
  rewrite Ht by done. by destruct (quiet_event ev).
Qed.

Lemma extends_loudly quietly h h' : extends true h h' -> extends quietly h h'.
Proof. intros (t & -> & Ht). exists t. split; [done|]. auto. Qed.

Lemma extended_happened quietly Ps h h' : extends quietly h h' -> happened Ps h -> happened Ps h'.
Proof. intros (t & -> & _). apply happened_app. Qed.

Lemma extends_saved h h' : extends true h h' -> omap saved_uuid h' = omap saved_uuid h.
Proof.
  intros (t & -> & Ht). specialize (Ht eq_refl). induction t as [|[B e r] t IH]; [done|]. cbn in *.
  apply andb_true_iff in Ht as [Hq Ht]. by destruct e; cbn in *; auto.
Qed.

Lemma happened_newest (P : event -> Prop) ev h : P ev -> happened [P] (ev :: h).
Proof. intros H. apply happened_now; [done|constructor]. Qed.

Abbreviation anything := (fun _ _ => True).

(** ** What justifies a call *)

Section Justified.
Context (sha256 : string -> string) (deps : ReconciliationDependencies).
(** The orders a routine was given. *)
Context (given : OrderRecord -> Prop).

(** The orders the repository listed. *)
Definition listed (order : OrderRecord) (h : history) : Prop :=
  exists account,
    happened [answered (Recon.ListActiveOrders account) (fun l => order ∈ l)] h \/
    happened [answered (Recon.ListOrders account) (fun l => order ∈ l)] h.

(** A snapshot of a page of the exchange's history. *)
Definition on_page (snapshot : ExchangeOrderSnapshot) (h : history) : Prop :=
  exists query,
    happened [answered (Recon.ListOpenOrders query) (fun l => snapshot ∈ l)] h \/
    happened [answered (Recon.ListClosedOrders query) (fun l => snapshot ∈ l)] h.

(** An order and the snapshot it was made of. *)
Definition recovered_from (order : OrderRecord) (snapshot : ExchangeOrderSnapshot) (h : history)
    : Prop :=
  (exists id account mode at_,
     order = buildRecoveredOrderRecord sha256 id account mode snapshot at_) /\
  on_page snapshot h.

(** The orders of the repository a run may write about, and with them those it
    has made of the exchange's. *)
Definition known (order : OrderRecord) (h : history) : Prop := given order \/ listed order h.

Definition origin (order : OrderRecord) (h : history) : Prop :=
  known order h \/ exists snapshot, recovered_from order snapshot h.

(** What the exchange showed of an order: the answer to a lookup by one of its
    references that agrees with everything the order fixed, or the snapshot it
    was made of. *)
Definition shown (order : OrderRecord) (snapshot : ExchangeOrderSnapshot) (h : history) : Prop :=
  (exists query candidate,
     query ∈ lookup_query order :: recovery_queries order /\
     happened [answered_as (Recon.GetOrder query) (Some candidate)] h /\
     bindExchangeOrderSnapshot candidate query order = inl snapshot)
  \/ recovered_from order snapshot h.

(** The event of a change, and none without one. *)
Definition change_event (order : OrderRecord) (changed : bool) (event : option OrderEventRecord)
    : Prop :=
  match event with
  | Some e => changed = true /\ oe_orderId e = ord_id order /\
              oe_eventType e = "RECONCILIATION_STATUS_UPDATED" /\
              oe_eventSource e = EventSource.RECONCILIATION
  | None => changed = false
  end.

(** A snapshot is stored as the exchange showed it. *)
Definition snapshot_justified (input : PersistReconciledExchangeSnapshotInput) (h : history)
    : Prop :=
  let order := snap_expectedOrder input in
  origin order h /\
  exists snapshot at_,
    shown order snapshot h /\
    (snap_order input = if order_changed order (next_order order snapshot at_)
                        then next_order order snapshot at_ else order) /\
    change_event order (order_changed order (next_order order snapshot at_)) (snap_event input) /\
    Forall2 (fun fill record => exists id,
      record = buildFillRecord id order fill (xorder_paidFee snapshot))
      (xorder_fills snapshot) (snap_fills input).

(** The truth about an order could not be found out. *)
Definition unresolved (order : OrderRecord) (h : history) : Prop :=
  has_reference order = false \/
  happened [answered_as (Recon.GetOrder (lookup_query order)) None] h \/
  (exists x, isTypedTransientLookupError x = false /\
     happened [failed_with (Recon.GetOrder (lookup_query order)) x] h) \/
  (exists candidate x,
     happened [answered_as (Recon.GetOrder (lookup_query order)) (Some candidate)] h /\
     bindExchangeOrderSnapshot candidate (lookup_query order) order = inr x).

Definition recovery_justified (input : PersistReconciliationRecoveryInput) (h : history) : Prop :=
  let order := rec_expectedOrder input in
  known order h /\ unresolved order h /\
  exists message at_ eventId riskId,
    input = {| rec_expectedOrder := order; rec_order := order_for_recovery order message at_;
               rec_event := recon_event eventId (ord_id order) "RECONCILIATION_RECOVERY_REQUIRED"
                              (JObj [("reason", JStr message)]) at_;
               rec_riskEvent := createRecoveryRiskEvent riskId order message at_ |}.

(** The kinds of the answers that no reference found the order, newest first. *)
Definition no_reference_found (order : OrderRecord) : list (event -> Prop) :=
  (fun query => answered_as (Recon.GetOrder query) None) <$> rev (recovery_queries order).

(** What came of a lookup was recorded. *)
Definition observed (order : OrderRecord) (outcome : Recovery.RecoveryOutcome)
    (now : RecoveryTime) (ev : event) : Prop :=
  exists observation,
    obs_outcome observation = outcome /\ obs_orderId observation = ord_id order /\
    obs_observedAtEpochMs observation = observedAtEpochMs now /\
    answered (Recon.SaveOrderSubmissionRecoveryObservation observation) (fun _ => True) ev.

(** An order is given up when every lookup of this run found nothing, that was
    recorded, and the records read back confirm the absence. *)
Definition absence_justified (input : FinalizeBoundedSubmissionAbsenceInput) (h : history)
    : Prop :=
  exists order now policy observations,
    known order h /\
    isPotentiallyDispatchedRecoveryStatus (ord_status order) = true /\
    recovery_queries order ≠ [] /\
    validateIdentifierRecoveryPolicy
      (default DEFAULT_IDENTIFIER_RECOVERY_POLICY (rdep_identifierRecovery deps)) = Ret policy /\
    absence_confirmed (evaluateBoundedAbsence observations policy) = true /\
    input = absence_finalization order now policy (evaluateBoundedAbsence observations policy) /\
    happened (answered_as (Recon.ListOrderSubmissionRecoveryObservations (ord_id order))
                observations
              :: observed order Recovery.NOT_FOUND now :: no_reference_found order)%list h.

(** Orders are updated directly only to repair a dry run. *)
Definition repair_justified (record : OrderRecord) (h : history) : Prop :=
  exists order status at_,
    listed order h /\ isLocalDryRunExchangeArtifact order = true /\
    (status = OrderStatus.FILLED \/ status = OrderStatus.CANCELED) /\
    record = repaired_order order status at_.

(** Fills are made up only for a dry run without any. *)
Definition fill_justified (fill : FillRecord) (h : history) : Prop :=
  exists order id price volume at_,
    listed order h /\ isLocalDryRunExchangeArtifact order = true /\
    happened [answered_as (Recon.ListFills (Some (ord_id order))) []] h /\
    fill = dry_run_repair_fill id order price volume at_.

(** An order is created only for an order of the exchange that is not stored. *)
Definition creation_justified (record : OrderRecord) (h : history) : Prop :=
  exists snapshot account orders,
    recovered_from record snapshot h /\
    happened [answered_as (Recon.ListOrders account) orders] h /\
    xorder_uuid snapshot ∉ omap ord_upbitUuid orders /\
    (forall identifier, non_empty (xorder_identifier snapshot) = Some identifier ->
       identifier ∉ ord_identifier <$> orders) /\
    xorder_uuid snapshot ∉ omap saved_uuid h.

Definition justified {B} (e : Recon.call B) (h : history) : Prop :=
  match e with
  | Recon.PersistReconciledExchangeSnapshot input => snapshot_justified input h
  | Recon.PersistReconciliationRecovery input => recovery_justified input h
  | Recon.FinalizeBoundedSubmissionAbsence input => absence_justified input h
  | Recon.UpdateOrder record => repair_justified record h
  | Recon.SaveFill fill => fill_justified fill h
  | Recon.SaveOrder record => creation_justified record h
  | _ => True
  end.

Definition permitted (h : history) (B : Type) (e : Recon.call B) : Prop :=
  (dependency e = true -> held h = true) /\ justified e h.

(** ** Reasons are not undone *)

Section Quietly.
Context (quietly : bool).

Lemma listed_extends order h h' : extends quietly h h' -> listed order h -> listed order h'.
Proof. intros He (account & [H|H]); exists account; [left|right]; by eapply extended_happened. Qed.

Lemma on_page_extends snapshot h h' :
  extends quietly h h' -> on_page snapshot h -> on_page snapshot h'.
Proof. intros He (query & [H|H]); exists query; [left|right]; by eapply extended_happened. Qed.

Lemma recovered_from_extends order snapshot h h' :
  extends quietly h h' -> recovered_from order snapshot h -> recovered_from order snapshot h'.
Proof.
  intros He [Hb Hp]. split; [done|]. by eapply on_page_extends.
Qed.

Lemma known_extends order h h' : extends quietly h h' -> known order h -> known order h'.
Proof. intros He [H|H]; [by left|right; by eapply listed_extends]. Qed.

Lemma origin_extends order h h' : extends quietly h h' -> origin order h -> origin order h'.
Proof.
  intros He [H|(snapshot & H)]; [left; by eapply known_extends|].
  right. exists snapshot. by eapply recovered_from_extends.
Qed.

Lemma shown_extends order snapshot h h' :
  extends quietly h h' -> shown order snapshot h -> shown order snapshot h'.
Proof.
  intros He [(query & candidate & Hq & H & Hb)|H]; [left|right; by eapply recovered_from_extends].
  exists query, candidate. split_and!; [done|by eapply extended_happened|done].
Qed.

Lemma unresolved_extends order h h' : extends quietly h h' -> unresolved order h -> unresolved order h'.
Proof.
  intros He [H|[H|[(x & Ht & H)|(candidate & x & H & Hb)]]]; [by left| | |].
  - right. left. by eapply extended_happened.
  - right. right. left. exists x. split; [done|by eapply extended_happened].
  - right. right. right. exists candidate, x. split; [by eapply extended_happened|done].
Qed.

(** ** Rules *)

Abbreviation wp := (Effects.wp may_answer permitted).

(** [m] saves no order and makes only permitted calls; then [P]. *)
Definition works {A} (h : history) (m : reconciler A) (P : result js_error A -> history -> Prop)
    : Prop :=
  wp m (fun _ r h' => extends quietly h h' /\ P r h') tt h.

(** [Q] of what a routine returns. *)
Definition returning {A} (Q : A -> history -> Prop) (r : result js_error A) (h : history) : Prop :=
  match r with Ok v => Q v h | Err _ => True end.

Lemma works_mono {A} (m : reconciler A) h (P P' : result js_error A -> history -> Prop) :
  (forall r h', extends quietly h h' -> P r h' -> P' r h') -> works h m P -> works h m P'.
Proof. intros HP. apply wp_mono. intros l r h' [He H]. auto. Qed.

Lemma works_loudly {A} (m : reconciler A) h (P : result js_error A -> history -> Prop) :
  wp m (fun _ r h' => extends true h h' /\ P r h') tt h ->
  works h m (fun r h' => P r h' /\ omap saved_uuid h' = omap saved_uuid h).
Proof.
  apply wp_mono. intros l r h' [He HP]. split; [by apply extends_loudly|].
  split; [done|by apply extends_saved].
Qed.

Lemma works_ret {A} (v : A) h (P : result js_error A -> history -> Prop) :
  P (Ok v) h -> works h (mret v) P.
Proof. intros H. by apply wp_ret. Qed.

Lemma works_throw {A} x h (P : result js_error A -> history -> Prop) :
  P (Err x) h -> works h (throw x) P.
Proof. intros H. by apply wp_throw. Qed.

Lemma works_bind_any {A B} (m : reconciler A) (k : A -> reconciler B) h P Q :
  works h m P ->
  (forall v h', extends quietly h h' -> P (Ok v) h' -> works h' (k v) Q) ->
  (forall x h', extends quietly h h' -> P (Err x) h' -> Q (Err x) h') ->
  works h (x ← m; k x) Q.
Proof.
  intros Hm Hk HX. apply wp_bind. eapply wp_mono; [|exact Hm].
  intros [] [v|x] h' [He H]; [|auto].
  eapply wp_mono; [|by apply Hk]. intros l r h'' [He' Hr]. split; [by etrans|done].
Qed.

Lemma works_bind {A B} (m : reconciler A) (k : A -> reconciler B) h R Q :
  works h m (returning R) ->
  (forall v h', extends quietly h h' -> R v h' -> works h' (k v) (returning Q)) ->
  works h (x ← m; k x) (returning Q).
Proof. intros Hm Hk. by eapply works_bind_any. Qed.

Lemma works_attempt {A} (m : reconciler A) h (P : result js_error (result js_error A) -> history -> Prop) :
  works h m (fun r => P (Ok r)) -> works h (attempt m) P.
Proof. intros Hm. apply wp_attempt. eapply wp_mono; [|exact Hm]. by intros [] r h' H. Qed.

Lemma works_try_catch {A} (m : reconciler A) (k : js_error -> reconciler A) h Q :
  works h m (fun r h' => match r with
                         | Ok v => Q v h'
                         | Err x => works h' (k x) (returning Q)
                         end) ->
  works h (try_catch m k) (returning Q).
Proof.
  intros Hm. apply wp_try_catch. eapply wp_mono; [|exact Hm]. intros [] [v|x] h' [He H]; [done|].
  eapply wp_mono; [|exact H]. intros l r h'' [He' Hr]. split; [by etrans|done].
Qed.

Lemma works_lift {A} (o : outcome A) h (Q : A -> history -> Prop) :
  (forall v, o = Ret v -> Q v h) -> works h (recon_lift o) (returning Q).
Proof. intros H. apply wp_lift; intros; (split; [done|]); cbn; auto. Qed.

Lemma works_when c message h (Q : unit -> history -> Prop) :
  (c = false -> Q tt h) -> works h (recon_when c message) (returning Q).
Proof. intros H. destruct c; [by apply works_throw|apply works_ret; cbn; auto]. Qed.

(** A clock or an identifier. *)
Lemma works_local {A} (e : Recon.call A) h (Q : A -> history -> Prop) :
  infallible e = true -> (forall v, Q v (Asked e (Ok v) :: h)) ->
  works h (await e) (returning Q).
Proof.
  intros Hi HQ. apply wp_await.
  - split; [|by destruct e]. unfold dependency. by rewrite Hi.
  - intros r Hr. split; [apply extended_cons; [by destruct quietly, e|done]|].
    destruct r as [v|x]; [apply HQ|]. by destruct Hr; simplify_eq.
Qed.

Lemma works_assert h P :
  P (Ok tt) (held_now :: h) ->
  (forall x, isRuntimeOwnershipFailure x = true ->
     P (Err x) (Asked Recon.AssertLocallyHeld (Err x) :: h)) ->
  works h (await Recon.AssertLocallyHeld) P.
Proof.
  intros HQ HX. apply wp_await; [by split|]. intros r Hr. split; [by apply extended_cons; [destruct quietly|]|].
  destruct r as [[]|x]; [done|]. apply HX. by apply Hr.
Qed.

(** The first half of a fenced call. *)
Lemma works_issue {A} (e : Recon.call A) h (Q : result js_error A -> history -> Prop) :
  quietly && saves e = false -> justified e (held_now :: h) ->
  (forall r, may_answer A e r -> Q r (Asked e r :: held_now :: h)) ->
  works h (issue_call e) (returning Q).
Proof.
  intros Hs Hj HQ. unfold issue_call. eapply (works_bind_any _ _ _
    (fun r h' => r = Ok tt -> h' = held_now :: h)).
  - by apply works_assert.
  - intros [] h' He Hh. rewrite (Hh eq_refl). apply works_attempt, wp_await; [by split|].
    intros r Hr. split; [apply extended_cons; [cbn; by rewrite negb_involutive|done]|]. by apply HQ.
  - done.
Qed.

(** The second half. *)
Lemma works_settle {A} (r : result js_error A) h (P : result js_error A -> history -> Prop) :
  (forall v, r = Ok v -> P (Ok v) (held_now :: h)) ->
  (forall x h', extends quietly h h' -> isRuntimeOwnershipFailure x = true \/ r = Err x -> P (Err x) h') ->
  works h (settle_call r) P.
Proof.
  intros HQ HX. destruct r as [v|x]; cbn.
  - eapply (works_bind_any _ _ _ (fun r' h' => match r' with
      | Ok _ => h' = held_now :: h
      | Err x => isRuntimeOwnershipFailure x = true /\ extends quietly h h' end)).
    + apply works_assert; [done|]. intros x Hx. split; [done|by apply extended_cons; [destruct quietly|]].
    + intros [] h' _ ->. by apply works_ret, HQ.
    + intros x h' _ [Hx He]. auto.
  - destruct (isRuntimeOwnershipFailure x); [apply works_throw, HX; auto; reflexivity|].
    eapply (works_bind_any _ _ _ (fun r' h' => extends quietly h h' /\ match r' with
      | Ok _ => True | Err x => isRuntimeOwnershipFailure x = true end)).
    + apply works_assert; [split; [by apply extended_cons; [destruct quietly|]|done]|]. intros y Hy.
      split; [by apply extended_cons; [destruct quietly|]|done].
    + intros [] h' _ [He _]. apply works_throw, HX; auto.
    + intros y h' _ [He Hy]. auto.
Qed.

(** A fenced call. *)
Lemma works_fenced_any {A} (e : Recon.call A) h (P : result js_error A -> history -> Prop) :
  quietly && saves e = false -> justified e (held_now :: h) ->
  (forall v, P (Ok v) (held_now :: Asked e (Ok v) :: held_now :: h)) ->
  (forall x h', extends quietly h h' ->
     isRuntimeOwnershipFailure x = true \/ happened [failed_with e x] h' -> P (Err x) h') ->
  works h (fenced e) P.
Proof.
  intros Hs Hj HQ HX. unfold fenced. eapply (works_bind_any _ _ _ (fun r h' => match r with
    | Ok r => h' = Asked e r :: held_now :: h
    | Err x => isRuntimeOwnershipFailure x = true end)).
  - unfold issue_call. eapply (works_bind_any _ _ _ (fun r h' => match r with
      | Ok _ => h' = held_now :: h | Err x => isRuntimeOwnershipFailure x = true end)).
    + by apply works_assert.
    + intros [] h' _ ->. apply works_attempt, wp_await; [by split|].
      intros r Hr. split; [apply extended_cons; [cbn; by rewrite negb_involutive|done]|done].
    + done.
  - intros r h' He ->. apply works_settle.
    + intros v ->. apply HQ.
    + intros x h' He' [Hx| ->]; apply HX; (try by etrans); [by left|]. right.
      eapply extended_happened; [exact He'|]. by apply happened_newest.
  - intros x h' He Hx. apply HX; auto.
Qed.

Lemma works_fenced {A} (e : Recon.call A) h (Q : A -> history -> Prop) :
  quietly && saves e = false -> justified e (held_now :: h) ->
  (forall v, Q v (held_now :: Asked e (Ok v) :: held_now :: h)) ->
  works h (fenced e) (returning Q).
Proof. intros Hs Hj HQ. by apply works_fenced_any. Qed.

(** A loop, by an invariant. *)
Lemma works_for_each {A B} (f : A -> reconciler B) (I : history -> Prop) (P : A -> Prop)
    (R : A -> B -> Prop) xs h :
  (forall h h', extends quietly h h' -> I h -> I h') ->
  (forall a h, P a -> I h -> works h (f a) (returning (fun b _ => R a b))) ->
  Forall P xs -> I h ->
  works h (for_each f xs) (returning (fun bs _ => Forall2 R xs bs)).
Proof.
  intros HI Hf HP. revert h. induction HP as [|a xs Ha HP IH]; intros h Hh; cbn [for_each].
  - apply works_ret. constructor.
  - eapply works_bind; [by apply Hf|]. intros b h' He Hb.
    eapply works_bind; [by eapply IH, HI|]. intros bs h'' He' Hbs. apply works_ret.
    by constructor.
Qed.

Lemma works_promise_all {A B} (f : A -> reconciler B) (I : history -> Prop) (P : A -> Prop)
    (R : A -> B -> history -> Prop) xs h :
  (forall h h', extends quietly h h' -> I h -> I h') ->
  (forall a b h h', extends quietly h h' -> R a b h -> R a b h') ->
  (forall a h, P a -> I h -> works h (f a) (returning (R a))) ->
  Forall P xs -> I h ->
  works h (promise_all f xs) (returning (fun bs h' => Forall2 (fun a b => R a b h') xs bs)).
Proof.
  intros HI HR Hf HP. revert h. induction HP as [|a xs Ha HP IH]; intros h Hh; cbn [promise_all].
  - apply works_ret. constructor.
  - eapply (works_bind _ _ _ (fun r h' => returning (R a) r h')).
    { by apply works_attempt, Hf. }
    intros r h' He Hr. eapply (works_bind _ _ _ (fun r h' =>
      returning (fun bs h' => Forall2 (fun a b => R a b h') xs bs) r h')).
    { by eapply works_attempt, IH, HI. }
    intros rs h'' He' Hrs. destruct r as [b|x]; [|by apply works_throw].
    destruct rs as [bs|x]; [|by apply works_throw]. apply works_ret. cbn in *.
    constructor; [by eapply HR|done].
Qed.

End Quietly.
End Justified.

(** One rule for one construct; what is left are the conditions on values. *)
Ltac works_step :=
  lazymatch goal with
  | |- works _ _ _ _ _ (mret _) _ => apply works_ret; cbn [returning]
  | |- works _ _ _ _ _ (throw _) _ => by apply works_throw
  | |- works _ _ _ _ _ (recon_throw _) _ => by apply works_throw
  | |- works _ _ _ _ _ (await (Recon.CreateId _)) _ => apply works_local; [done|intros]
  | |- works _ _ _ _ _ (await Recon.RecoveryClockNow) _ => apply works_local; [done|intros]
  | |- works _ _ _ _ _ (await Recon.NewDate) _ => apply works_local; [done|intros]
  | |- works _ _ _ _ _ (await Recon.DateNow) _ => apply works_local; [done|intros]
  | |- works _ _ _ _ _ (fenced _) _ => apply works_fenced; [done|try done|intros]
  | |- works _ _ _ _ _ (recon_lift _) _ => apply works_lift; intros
  | |- works _ _ _ _ _ (recon_when _ _) _ => apply works_when; intros
  | |- works _ _ _ _ _ (attempt _) _ => apply works_attempt
  | |- works _ _ _ _ _ (try_catch _ _) _ => apply works_try_catch
  | |- works _ _ _ _ _ (let _ := _ in _) _ => cbv zeta
  | |- works _ _ _ _ _ (if ?b then _ else _) _ => destruct b eqn:?
  end.

(** The history grew step by step. *)
Ltac solve_extends :=
  repeat match goal with
  | |- extends _ ?a ?a => reflexivity
  | |- extends _ _ (_ :: _) => apply extended_cons; [done|]
  | H : extends true ?x ?b |- extends _ _ ?b => transitivity x; [|exact (extends_loudly _ _ _ H)]
  | H : extends _ ?x ?b |- extends _ _ ?b => transitivity x; [|exact H]
  end.

(** A first part of which nothing is needed. *)
Ltac works_skip :=
  eapply (works_bind _ _ _ _ _ _ _ (fun _ _ => True));
    [by repeat (works_step || exact I)|intros ? ? ? _].
