(* ===== verification/ReconciliationRules.v ===== *)
(** * ReconciliationRules: what each routine of reconciliation does

    Every routine of [ReconciliationService] makes only permitted calls, given
    what was read before it; with what the later ones need of the earlier ones'
    results. *)

From Stdlib Require Import ZArith Lia.
From stdpp Require Import base option list sets strings.
From S2P Require Import Prelude Num Types Text Timestamp NumText JsMap SubmissionBlocking.
From S2P Require Import OperatorState OrderRecords OrderRepository Effects ExecutionRecords.
From S2P Require Import ExecutionHelpers SnapshotBinding ReconciliationRecords.
From S2P Require Import ReconciliationHelpers HistoryWindows PortfolioDrift.
From S2P Require Import ReconciliationService ReconciliationTheory.

Local Open Scope string_scope.
Local Open Scope js_scope.
Local Open Scope bool_scope.

(** The issues a run counts are made by the recovery of the history and the
    budget of lookups alone. *)
Definition counted_code (code : Issue.ReconciliationIssueCode) : bool :=
  match code with
  | Issue.EXCHANGE_ORDER_RECOVERED | Issue.ORDER_HISTORY_LOOKUP_FAILED
  | Issue.ORDER_LOOKUP_DEFERRED => true
  | _ => false
  end.

(** The message is not blank. *)
Definition worded (i : ReconciliationIssue) : Prop := is_blank (issue_message i) = false.

Definition ordinary (i : ReconciliationIssue) : Prop :=
  counted_code (issue_code i) = false /\ worded i.

Lemma one_issue i : ordinary i -> Forall ordinary [i].
Proof. intros Hi. constructor; [done|constructor]. Qed.

Section Rules.
Context (sha256 : string -> string) (localeCompare : string -> string -> comparison).
Context (deps : ReconciliationDependencies).
Context (given : OrderRecord -> Prop).

Abbreviation extends := (extends true).
Abbreviation works := (works sha256 deps given true).
Abbreviation known := (known given).
Abbreviation origin := (origin sha256 given).
Abbreviation shown := (shown sha256).

(** ** One order *)

Lemma classify_works order h :
  works h (classifyConcurrentOrderChange order) (returning (fun i _ => ordinary i)).
Proof.
  unfold classifyConcurrentOrderChange.
  eapply (works_bind _ _ _ _ _ _ _ (fun _ _ => True)); [by works_step|]. intros current h' _ _.
  by works_step.
Qed.

Definition fills_of (order : OrderRecord) (snapshot : ExchangeOrderSnapshot)
    (fills : list FillRecord) : Prop :=
  Forall2 (fun fill record => exists id,
    record = buildFillRecord id order fill (xorder_paidFee snapshot))
    (xorder_fills snapshot) fills.

Lemma build_fills_works order snapshot h :
  works h (buildFillRecords order snapshot) (returning (fun fills _ => fills_of order snapshot fills)).
Proof.
  unfold buildFillRecords. eapply (works_for_each _ _ _ _ _ (fun _ => True) (fun _ => True)); try done.
  - intros fill h' _ _. works_skip. works_step. by eexists.
  - by apply Forall_true.
Qed.

Lemma event_works order snapshot at_ h :
  works h (reconciliation_event order snapshot at_) (returning (fun event _ =>
    change_event order (order_changed order (next_order order snapshot at_)) event)).
Proof. unfold reconciliation_event. works_step; [works_skip|]; by works_step. Qed.

Lemma project_works order status h :
  works h (project_terminal deps order status) (returning (fun l _ => Forall ordinary l)).
Proof.
  unfold project_terminal. works_step; [|by works_step; constructor].
  eapply (works_bind _ _ _ _ _ _ _ (fun _ _ => True)); [by works_step|]. intros projection h' _ _.
  works_step. destruct (projection_fault projection); by repeat constructor.
Qed.

Lemma snapshot_issues_ordinary order snapshot count :
  Forall ordinary (snapshot_issues order snapshot count).
Proof.
  unfold snapshot_issues. apply Forall_app. split; [case_bool_decide|destruct (_ <? _)%nat];
    by repeat constructor.
Qed.

Lemma apply_works order snapshot at_ h :
  origin order h -> shown order snapshot h ->
  works h (applyExchangeSnapshot deps order snapshot at_) (returning (fun l _ => Forall ordinary l)).
Proof.
  intros Ho Hs. unfold applyExchangeSnapshot. cbv zeta.
  eapply works_bind; [apply event_works|]. intros event h1 He1 Hevent.
  works_skip. eapply works_bind; [apply build_fills_works|]. intros fills h2 He2 Hfills.
  eapply (works_bind _ _ _ _ _ _ _ (fun _ _ => True)).
  { works_step; [|done]. split; [eapply (origin_extends _ _ true); [|eassumption]; solve_extends|].
    exists snapshot, at_. split; [eapply (shown_extends _ true); [|eassumption]; solve_extends|done]. }
  intros persistence h3 _ _. works_step.
  - eapply works_bind; [apply classify_works|]. intros i h4 _ Hi. works_step. by apply one_issue.
  - eapply works_bind; [apply project_works|]. intros projected h4 _ Hp. works_step.
    apply Forall_app. split; [apply snapshot_issues_ordinary|done].
Qed.

Lemma mark_works order at_ message code h :
  known order h -> unresolved order h -> counted_code code = false ->
  works h (markOrderForRecovery deps order at_ message code) (returning (fun i _ => ordinary i)).
Proof.
  intros Ho Hu Hc. unfold markOrderForRecovery. works_skip. works_skip. works_skip.
  eapply (works_bind _ _ _ _ _ _ _ (fun _ _ => True)).
  { works_step; [|done]. split_and!; [eapply (known_extends _ true); [|eassumption]; solve_extends|
      eapply (unresolved_extends true); [|eassumption]; solve_extends|by do 4 eexists]. }
  intros persistence h3 _ _. works_step; [apply classify_works|by works_step].
Qed.

(** ** Recovery by identifier *)

Lemma observation_works order outcome now detail h Ps :
  happened Ps h ->
  works h (recordRecoveryObservation deps order outcome now detail)
    (returning (fun _ h' => happened (observed order outcome now :: Ps) h')).
Proof.
  intros HP. unfold recordRecoveryObservation. works_skip. works_skip.
  eapply (works_bind _ _ _ _ _ _ _ (fun _ h' => happened (observed order outcome now :: Ps) h')).
  { works_step. apply happened_before, happened_now.
    - eexists {| obs_outcome := outcome |}. split_and!; [| | |by exists v1]; done.
    - apply happened_before. eapply (extended_happened true); [|exact HP]. solve_extends. }
  intros [] h3 _ Hobs. works_skip. works_step. do 3 apply happened_before.
  by eapply (extended_happened true).
Qed.

Lemma projection_failure_works order at_ message h :
  works h (persistRecoveredProjectionFailure deps order at_ message) (returning anything).
Proof.
  unfold persistRecoveredProjectionFailure. works_skip. works_skip. works_skip. by works_step.
Qed.

Lemma lookup_failed_works order now error h :
  works h (recovery_lookup_failed deps order now error) (returning anything).
Proof.
  unfold recovery_lookup_failed. works_step; [by works_step|]. works_step; [|works_step].
  - eapply works_bind; [apply observation_works, happened_nothing|]. intros. by works_step.
  - eapply works_bind; [apply observation_works, happened_nothing|]. intros. by works_step.
  - by works_step.
Qed.

Lemma recovered_works order now snapshot query h :
  origin order h -> shown order snapshot h ->
  works h (recovered deps order now snapshot query) (returning anything).
Proof.
  intros Ho Hs. unfold recovered.
  eapply works_bind; [apply observation_works, happened_nothing|]. intros _ h1 He1 _.
  works_step. eapply (works_bind_any _ _ _ _ _ _ _ anything).
  - eapply works_mono; [by intros|]. eapply apply_works;
      [eapply (origin_extends _ _ true); [exact He1|done]|eapply (shown_extends _ true); [exact He1|done]].
  - intros issues h2 He2 _. destruct (List.find _ issues) as [failure|]; [|by apply works_ret].
    eapply (works_bind_any _ _ _ _ _ _ _ anything).
    + eapply works_mono; [by intros|]. apply projection_failure_works.
    + intros [] h3 He3 _. by apply works_ret.
    + intros x h3 He3 _. works_step; [by works_step|].
      eapply works_bind; [apply projection_failure_works|]. intros. by works_step.
  - intros x h2 He2 _. works_step; [by works_step|].
    eapply works_bind; [apply projection_failure_works|]. intros. by works_step.
Qed.

(** Either a reference finds the order, or none does. *)
Lemma lookup_by_works order queries h Ps :
  Forall (fun query => query ∈ lookup_query order :: recovery_queries order) queries ->
  happened Ps h ->
  works h (lookup_by order queries) (returning (fun found h' =>
    match found with
    | Some (snapshot, _) => shown order snapshot h'
    | None => happened (((fun query => answered_as (Recon.GetOrder query) None)
                          <$> rev queries) ++ Ps)%list h'
    end)).
Proof.
  revert h Ps. induction queries as [|query rest IH]; intros h Ps HF HP; cbn [lookup_by].
  { by works_step. }
  inversion HF as [|? ? Hq HF']; subst.
  eapply (works_bind _ _ _ _ _ _ _ (fun candidate h' =>
    happened (answered_as (Recon.GetOrder query) candidate :: Ps) h')).
  { works_step. apply happened_before, happened_now; [done|]. by apply happened_before. }
  intros [candidate|] h1 He1 Hc.
  - unfold bind_snapshot. destruct (bindExchangeOrderSnapshot _ _ _) as [snapshot|x] eqn:Hb.
    + eapply (works_bind _ _ _ _ _ _ _ (fun v h' => v = snapshot /\ h' = h1)); [by apply works_ret|].
      intros ? ? _ [-> ->]. apply works_ret. left. exists query, candidate. split_and!; [done| |done].
      eapply (happened_prefix [_]). exact Hc.
    + eapply (works_bind _ _ _ _ _ _ _ (fun _ _ => False)); [by apply works_throw|done].
  - eapply works_mono; [|apply (IH h1 _ HF' Hc)]. intros [[[snapshot q]|]|x] h2 _ H; [done| |done].
    cbn in *. revert H. by rewrite fmap_app, <- app_assoc.
Qed.

Lemma not_found_works order now h :
  known order h -> isPotentiallyDispatchedRecoveryStatus (ord_status order) = true ->
  recovery_queries order ≠ [] -> happened (no_reference_found order) h ->
  works h (not_found deps order now) (returning anything).
Proof.
  intros Ho Hst Hq Hn. unfold not_found.
  eapply works_bind; [by apply observation_works|]. intros [] h1 He1 Hobs.
  eapply (works_bind _ _ _ _ _ _ _ (fun policy h' =>
    h' = h1 /\ validateIdentifierRecoveryPolicy (default DEFAULT_IDENTIFIER_RECOVERY_POLICY
                 (rdep_identifierRecovery deps)) = Ret policy)); [by works_step|].
  intros policy h2 _ [-> Hp].
  eapply (works_bind _ _ _ _ _ _ _ (fun observations h' => happened
    (answered_as (Recon.ListOrderSubmissionRecoveryObservations (ord_id order)) observations
     :: observed order Recovery.NOT_FOUND now :: no_reference_found order) h')).
  { works_step. apply happened_before, happened_now; [done|]. by apply happened_before. }
  intros observations h3 He3 Hlist. works_step; [by works_step|].
  works_skip. eapply (works_bind _ _ _ _ _ _ _ (fun _ _ => True)); [|intros; by works_step].
  works_step; [|done]. exists order, now, policy, observations. split_and!; try done.
  - eapply (known_extends _ true); [|exact Ho]. solve_extends.
  - by apply negb_false_iff.
  - apply happened_before. by eapply (extended_happened true).
Qed.

Lemma has_reference_queries order : has_reference order = true -> recovery_queries order ≠ [].
Proof.
  unfold has_reference, recovery_queries. intros H.
  by destruct (order_uuid order), (order_identifier_reference order).
Qed.

Lemma recover_works order h :
  known order h -> works h (recoverOrderByIdentifier deps order) (returning anything).
Proof.
  intros Ho. unfold recoverOrderByIdentifier. works_step; [by works_step|].
  works_step; [by works_step|]. works_step; [by works_step|]. works_skip. works_skip.
  works_skip. works_skip.
  assert (Hst : isPotentiallyDispatchedRecoveryStatus (ord_status order) = true) by by apply negb_false_iff.
  assert (Hr : has_reference order = true).
  { match goal with H : _ || _ = false |- _ => apply orb_false_iff in H as [_ H] end.
    by apply negb_false_iff. }
  eapply (works_bind _ _ _ _ _ _ _ (fun looked h' => match looked with
    | Ok (Some (snapshot, _)) => shown order snapshot h'
    | Ok None => happened (no_reference_found order) h'
    | Err _ => True end)).
  { works_step. eapply works_mono; [|apply (lookup_by_works order (recovery_queries order) _ [])].
    - intros [[[snapshot q]|]|x] h5 _ H5; cbn in *; [done| |done].
      unfold no_reference_found. by rewrite app_nil_r in H5.
    - apply Forall_forall. intros q Hq. by right.
    - apply happened_nothing. }
  intros [[[snapshot query]|]|x] h4 He4 Hlooked.
  - apply recovered_works; [|done]. left. eapply (known_extends _ true); [|exact Ho]. solve_extends.
  - apply not_found_works; [|done|by apply has_reference_queries|done].
    eapply (known_extends _ true); [|exact Ho]. solve_extends.
  - apply lookup_failed_works.
Qed.

(** ** Lookups of one order *)

(** The exchange shows the order, or does not know it, or nothing is known. *)
Definition looked_up (order : OrderRecord)
    (looked : result js_error (option ExchangeOrderSnapshot)) (h : history) : Prop :=
  match looked with
  | Ok (Some snapshot) => shown order snapshot h
  | Ok None => unresolved order h
  | Err x => isRuntimeOwnershipFailure x = true \/ isTypedTransientLookupError x = true \/
             unresolved order h
  end.

Lemma lookup_works order h : works h (lookup_snapshot order) (looked_up order).
Proof.
  unfold lookup_snapshot. eapply (works_bind_any _ _ _ _ _ _ _ (fun candidate h' => match candidate with
    | Ok candidate => happened [answered_as (Recon.GetOrder (lookup_query order)) candidate] h'
    | Err x => isRuntimeOwnershipFailure x = true \/
        happened [failed_with (Recon.GetOrder (lookup_query order)) x] h' end)).
  - apply works_fenced_any; [done|done| |done]. intros v. by apply happened_before, happened_newest.
  - intros [candidate|] h1 He1 Hc; [|apply works_ret; by right; left].
    unfold bind_snapshot. destruct (bindExchangeOrderSnapshot _ _ _) as [snapshot|x] eqn:Hb.
    + eapply (works_bind_any _ _ _ _ _ _ _ (fun v h' => v = Ok snapshot /\ h' = h1)); [by apply works_ret| |].
      * intros ? ? _ [[= ->] ->]. apply works_ret. left. exists (lookup_query order), candidate.
        split_and!; [by left|done|done].
      * by intros ? ? _ [? _].
    + eapply (works_bind_any _ _ _ _ _ _ _ (fun v h' => v = Err x /\ h' = h1)); [by apply works_throw| |].
      * by intros ? ? _ [? _].
      * intros ? ? _ [[= ->] ->]. right. right. right. right. right. by exists candidate, x.
  - intros x h1 _ [Hx|Hx]; [by left|]. destruct (isTypedTransientLookupError x) eqn:Ht.
    + by right; left.
    + right. right. right. right. left. by exists x.
Qed.

Lemma marked_works order at_ message code h :
  known order h -> unresolved order h -> counted_code code = false ->
  works h (marked ← markOrderForRecovery deps order at_ message code; mret [marked])
    (returning (fun l _ => Forall ordinary l)).
Proof.
  intros Ho Hu Hc. eapply works_bind; [by apply mark_works|]. intros i h1 _ Hi. works_step.
  by apply one_issue.
Qed.

Lemma query_failed_works order at_ unknown kind prefix detail error h :
  known order h -> looked_up order (Err error) h ->
  works h (lookup_failed deps order at_ unknown kind prefix detail error)
    (returning (fun l _ => Forall ordinary l)).
Proof.
  intros Ho Hl. unfold lookup_failed. works_step; [by works_step|]. cbv zeta. works_step.
  - works_skip. works_skip. works_step. by apply one_issue.
  - apply marked_works; [done| |done]. destruct Hl as [Hl|[Hl|Hl]]; congruence || done.
Qed.

Lemma persistence_failed_works order kind error h :
  works h (persistence_failed order kind error) (returning (fun l _ => Forall ordinary l)).
Proof.
  unfold persistence_failed. works_step; [by works_step|]. works_step. by apply one_issue.
Qed.

(** What follows a lookup. *)
Lemma settle_works order at_ unknown kind prefix detail message
    (store : ExchangeOrderSnapshot -> reconciler (list ReconciliationIssue)) h :
  (forall snapshot h', known order h' -> shown order snapshot h' ->
     works h' (store snapshot) (returning (fun l _ => Forall ordinary l))) -> known order h ->
  works h
    (looked ← attempt (lookup_snapshot order);
     match looked with
     | Err error => lookup_failed deps order at_ unknown kind prefix detail error
     | Ok None =>
         marked ← markOrderForRecovery deps order at_ message Issue.ORDER_MARKED_FOR_RECOVERY;
         mret [marked]
     | Ok (Some snapshot) => try_catch (store snapshot) (persistence_failed order kind)
     end) (returning (fun l _ => Forall ordinary l)).
Proof.
  intros Hs Ho. eapply (works_bind _ _ _ _ _ _ _ (looked_up order)).
  { apply works_attempt. eapply works_mono; [|apply lookup_works]. done. }
  intros [[snapshot|]|x] h1 He1 Hl; assert (Ho' : known order h1) by by eapply (known_extends _ true).
  - works_step. eapply works_mono; [|by apply Hs]. intros [l|x] h2 _ H; [done|].
    apply persistence_failed_works.
  - by apply marked_works.
  - by apply query_failed_works.
Qed.

Lemma active_works order at_ h :
  known order h ->
  works h (reconcileActiveOrder deps order at_) (returning (fun l _ => Forall ordinary l)).
Proof.
  intros Ho. unfold reconcileActiveOrder. works_step.
  { works_step. apply one_issue. by case_bool_decide. }
  works_step.
  { eapply works_bind; [by apply recover_works|]. intros found h1 _ _. works_step.
    apply one_issue. by destruct (idr_outcome found). }
  works_step; [apply marked_works; [done| |done]; left; by apply negb_true_iff|].
  apply settle_works; [|done]. intros snapshot h' Ho' Hs. apply apply_works; [by left|done].
Qed.

Lemma terminal_works order at_ h :
  known order h ->
  works h (reconcileTerminalOrder deps order at_) (returning (fun l _ => Forall ordinary l)).
Proof.
  intros Ho. unfold reconcileTerminalOrder. works_step; [by works_step; constructor|]. works_step.
  { eapply works_bind; [by apply recover_works|]. intros found h1 _ _. works_step.
    apply one_issue. by destruct (idr_outcome found). }
  works_step; [by works_step; constructor|].
  apply settle_works; [|done]. intros snapshot h' Ho' Hs.
  eapply works_bind; [apply apply_works; [by left|done]|]. intros l h1 _ Hl. works_step. by constructor.
Qed.

Lemma reconcile_candidate_works at_ candidate h :
  known (cand_order candidate) h ->
  works h (reconcile_candidate deps at_ candidate) (returning (fun l _ => Forall ordinary l)).
Proof.
  intros Ho. unfold reconcile_candidate.
  destruct (cand_kind candidate); [by apply active_works|by apply terminal_works].
Qed.

(** ** Orders of dry runs *)

Lemma record_repair_works order status eventType detail at_ message h :
  listed order h -> isLocalDryRunExchangeArtifact order = true ->
  (status = OrderStatus.FILLED \/ status = OrderStatus.CANCELED) ->
  works h (record_repair order status eventType detail at_ message)
    (returning (fun i _ => ordinary i)).
Proof.
  intros Hl Ha Hs. unfold record_repair.
  eapply (works_bind _ _ _ _ _ _ _ (fun _ _ => True)).
  { works_step; [|done]. exists order, status, at_. split_and!; [|done..].
    eapply (listed_extends true); [|exact Hl]. solve_extends. }
  intros _ h1 _ _. works_skip. works_skip. by works_step.
Qed.

Lemma repair_fill_works order at_ h :
  works h (createDryRunRepairFill order at_) (returning (fun fill _ =>
    match fill with
    | Some fill => exists id price volume, fill = dry_run_repair_fill id order price volume at_
    | None => True
    end)).
Proof.
  unfold createDryRunRepairFill. eapply (works_bind _ _ _ _ _ _ _ (fun _ _ => True)).
  { unfold resolveDryRunRepairPrice. works_step; [by works_step|]. works_skip. by works_step. }
  intros price h1 _ _. destruct (non_empty price) as [p|]; [|by works_step].
  destruct (non_empty _) as [v|]; [|by works_step]. works_skip. works_step. by do 3 eexists.
Qed.

Lemma repair_works order at_ h :
  listed order h -> isLocalDryRunExchangeArtifact order = true ->
  works h (repair_dry_run_order at_ order) (returning (fun i _ => ordinary i)).
Proof.
  intros Hl Ha. unfold repair_dry_run_order.
  eapply (works_bind _ _ _ _ _ _ _ (fun fills h' =>
    happened [answered_as (Recon.ListFills (Some (ord_id order))) fills] h')).
  { works_step. by apply happened_before, happened_newest. }
  intros fills h1 He1 Hf. assert (Hl1 : listed order h1) by by eapply (listed_extends true).
  works_step; [by apply record_repair_works; auto|].
  eapply works_bind; [apply repair_fill_works|]. intros [fill|] h2 He2 Hfill.
  - destruct Hfill as (id & price & volume & ->). eapply (works_bind _ _ _ _ _ _ _ (fun _ _ => True)).
    + works_step; [|done]. exists order, id, price, volume, at_. split_and!; [|done| |done].
      * eapply (listed_extends true); [|exact Hl1]. solve_extends.
      * eapply (extended_happened true); [apply extended_cons; [done|exact He2]|].
        by destruct fills.
    + intros _ h3 He3 _. apply record_repair_works; auto. eapply (listed_extends true); [|exact Hl1]. solve_extends.
  - apply record_repair_works; auto. by eapply (listed_extends true).
Qed.

Lemma repair_all_works orders at_ h :
  Forall (fun order => listed order h) orders ->
  works h (repairLocalDryRunOrders orders at_) (returning (fun l _ => Forall ordinary l)).
Proof.
  intros HF. unfold repairLocalDryRunOrders.
  eapply works_mono; [|eapply (works_for_each _ _ _ _ _ (extends h)
    (fun order => listed order h /\ isLocalDryRunExchangeArtifact order = true)
    (fun _ => ordinary))].
  - intros [l|x] h' _ H; [|done]. cbn in *. induction H; by constructor.
  - intros h1 h2 He He1. by etrans.
  - intros order h1 [Hl Ha] He1. apply repair_works; [by eapply (listed_extends true)|done].
  - apply Forall_forall. intros order [Hin Ha]%list_elem_of_In%filter_In. split; [|done].
    rewrite Forall_forall in HF. by apply HF, list_elem_of_In.
  - done.
Qed.

End Rules.
