(* ===== verification/ReconciliationRun.v ===== *)
(** * ReconciliationRun: what a whole run of reconciliation does

    The sweep of terminal orders, the recovery of the exchange's history and
    the run itself make only permitted calls, and what a run returns: its
    summary, the record it saved and that ownership was held at its end. *)

From Stdlib Require Import ZArith Lia.
From stdpp Require Import base option list sets strings.
From S2P Require Import Prelude Num Types Text Timestamp NumText JsMap SubmissionBlocking.
From S2P Require Import OperatorState OrderRecords OrderRepository Effects ExecutionRecords.
From S2P Require Import ExecutionHelpers SnapshotBinding ReconciliationRecords.
From S2P Require Import ReconciliationHelpers HistoryWindows PortfolioDrift.
From S2P Require Import ReconciliationService ReconciliationTheory ReconciliationRules.

Local Open Scope string_scope.
Local Open Scope js_scope.
Local Open Scope bool_scope.

Section Run.
Context (sha256 : string -> string) (localeCompare : string -> string -> comparison).
Context (deps : ReconciliationDependencies).
Context (given : OrderRecord -> Prop).

Abbreviation extends := (extends true).
Abbreviation works := (works sha256 deps given true).
Abbreviation known := (known given).
Abbreviation origin := (origin sha256 given).
Abbreviation shown := (shown sha256).


(** ** Terminal orders *)

Lemma backfill_works orders h :
  works h (listTerminalOrdersNeedingBackfill orders)
    (returning (fun l _ => forall order, order ∈ l -> order ∈ orders)).
Proof.
  unfold listTerminalOrdersNeedingBackfill.
  eapply (works_bind _ _ _ _ _ _ _ (fun l _ =>
    Forall2 (fun order pair => fst pair = order) (List.filter needs_backfill_check orders) l)).
  { eapply works_mono; [|eapply (works_promise_all _ _ _ _ _ (fun _ => True) (fun _ => True)
      (fun (order : OrderRecord) (pair : OrderRecord * list FillRecord) _ => fst pair = order))].
    - by intros [l|x] h' _ H.
    - done.
    - done.
    - intros order h' _ _. works_skip. by works_step.
    - by apply Forall_true.
    - done. }
  intros l h1 _ Hl. works_step. intros order (pair & -> & Hin)%list_elem_of_fmap.
  apply list_elem_of_In, filter_In in Hin as [Hin _]. apply list_elem_of_In in Hin.
  apply list_elem_of_lookup_1 in Hin as [i Hi].
  destruct (Forall2_lookup_r _ _ _ _ _ Hl Hi) as (order & Ho & ->).
  apply list_elem_of_lookup_2, list_elem_of_In, filter_In in Ho as [Ho _].
  by apply list_elem_of_In.
Qed.

Lemma sweep_works account h :
  works h (TerminalCandidateProjectionSweep_run deps account) (returning anything).
Proof.
  unfold TerminalCandidateProjectionSweep_run. cbv zeta. works_skip. works_skip.
  eapply (works_bind _ _ _ _ _ _ _ (fun _ _ => True)).
  { eapply works_mono; [|eapply (works_promise_all _ _ _ _ _ (fun _ => True) (fun _ => True)
      (fun _ _ _ => True))]; try done.
    - by intros [l|x].
    - intros order h2 _ _. unfold sweep_candidate.
      eapply (works_bind _ _ _ _ _ _ _ (fun _ _ => True)).
      + unfold sweep_classify. works_step; by works_step.
      + intros disposition h3 _ _. works_skip. by works_step.
    - by apply Forall_true. }
  intros candidates h2 _ _. eapply (works_bind _ _ _ _ _ _ _ (fun _ _ => True)).
  { eapply works_mono; [|eapply (works_for_each _ _ _ _ _ (fun _ => True) (fun _ => True)
      (fun _ _ => True))]; try done.
    - by intros [l|x].
    - intros candidate h3 _ _. unfold sweep_project. works_skip. by works_step.
    - by apply Forall_true. }
  intros failed h3 _ _. by works_step.
Qed.

Lemma sweep_issues_ordinary sweep : Forall ordinary (sweep_issues sweep).
Proof.
  unfold sweep_issues. apply Forall_app. split.
  - by apply Forall_fmap, Forall_true.
  - destruct (0 <? _)%Z; by repeat constructor.
Qed.

Lemma candidates_works account h :
  works h (project_terminal_candidates deps account) (returning (fun l _ => Forall ordinary l)).
Proof.
  unfold project_terminal_candidates. works_step; [|works_step; constructor].
  eapply works_bind; [apply sweep_works|]. intros sweep h1 _ _. works_step.
  apply sweep_issues_ordinary.
Qed.

(** ** The history of the exchange *)

(** The exchange's pages have at most the snapshots that were asked for. *)
Definition page_bounded (ev : event) : Prop :=
  match ev with
  | @Asked _ _ B e r =>
      match e in Recon.call T return result js_error T -> Prop with
      | Recon.ListOpenOrders _ | Recon.ListClosedOrders _ => fun r =>
          match r with
          | Ok page => (Z.of_nat (length page) <= EXCHANGE_HISTORY_PAGE_LIMIT)%Z
          | Err _ => True
          end
      | _ => fun _ => True
      end r
  end.

Lemma Forall_on_page_extends {quietly} l h h' :
  ReconciliationTheory.extends quietly h h' -> Forall (fun s => on_page s h) l -> Forall (fun s => on_page s h') l.
Proof. intros He H. eapply Forall_impl; [exact H|]. intros s. by apply (on_page_extends quietly). Qed.

Lemma bounded_extends {quietly} h h' :
  ReconciliationTheory.extends quietly h h' -> Forall page_bounded h' -> Forall page_bounded h.
Proof. intros (t & -> & _). by intros [_ H]%Forall_app. Qed.

(** What a page is. *)
Definition page_of (page : list ExchangeOrderSnapshot) (h : history) : Prop :=
  Forall (fun s => on_page s h) page /\
  (Forall page_bounded h -> (Z.of_nat (length page) <= EXCHANGE_HISTORY_PAGE_LIMIT)%Z).

Lemma open_page_works query h :
  works h (fenced (Recon.ListOpenOrders query)) (returning page_of).
Proof.
  works_step. split.
  - apply Forall_forall. intros s Hs. exists query. left. apply happened_before, happened_newest.
    by exists v.
  - rewrite !Forall_cons. by intros (_ & H & _).
Qed.

Lemma closed_page_works query h :
  works h (fenced (Recon.ListClosedOrders query)) (returning page_of).
Proof.
  works_step. split.
  - apply Forall_forall. intros s Hs. exists query. right. apply happened_before, happened_newest.
    by exists v.
  - rewrite !Forall_cons. by intros (_ & H & _).
Qed.

(** A scan of some pages. *)
Definition scan_of (pages : Z) (scan : PageScan) (h : history) : Prop :=
  Forall (fun s => on_page s h) (scan_snapshots scan) /\
  (0 <= scan_pagesScanned scan <= pages)%Z /\
  (Forall page_bounded h ->
     Z.of_nat (length (scan_snapshots scan)) <=
       EXCHANGE_HISTORY_PAGE_LIMIT * scan_pagesScanned scan)%Z.

Lemma scan_of_extends {quietly} pages scan h h' :
  ReconciliationTheory.extends quietly h h' -> scan_of pages scan h -> scan_of pages scan h'.
Proof.
  intros He (Hp & Hb & Hl). split_and!; [by eapply Forall_on_page_extends|lia|lia|].
  intros Hb'. apply Hl. by eapply bounded_extends.
Qed.

Lemma paginate_from_works maxPages fetchPage fuel page scan pages h :
  (forall n h', works h' (fetchPage n) (returning page_of)) -> scan_of pages scan h ->
  works h (paginate_from maxPages fetchPage fuel page scan) (returning (fun r h' =>
    scan_of (pages + Z.of_nat fuel) r h' /\
    (scan_pagesScanned scan + Z.min 1 (Z.of_nat fuel) <= scan_pagesScanned r)%Z)).
Proof.
  intros Hf. revert page scan pages h. induction fuel as [|fuel IH]; intros page scan pages h Hs;
    cbn [paginate_from].
  { works_step. split; [|lia]. destruct Hs as (? & ? & ?). by split_and!; try lia. }
  eapply works_bind; [apply Hf|]. intros snapshots h1 He1 [Hp Hl].
  set (scanned := {| scan_pagesScanned := scan_pagesScanned scan + 1 |}%Z).
  assert (Hs1 : forall b, scan_of (pages + 1) {| scan_snapshots := scan_snapshots scanned;
    scan_pagesScanned := scan_pagesScanned scanned; scan_pageLimitReached := b |} h1).
  { intros b. destruct (scan_of_extends _ _ _ _ He1 Hs) as (Ha & Hb & Hc). unfold scanned. split_and!;
      cbn [scan_snapshots scan_pagesScanned]; [by apply Forall_app|lia|lia|].
    intros Hbd. rewrite length_app. specialize (Hc Hbd). specialize (Hl Hbd). lia. }
  cbv zeta. fold scanned. works_step.
  - works_step. split; [|cbn; lia]. destruct (Hs1 false) as (? & ? & ?). by split_and!; cbn in *; try lia.
  - eapply works_mono; [|apply IH, Hs1]. intros [r|x] h2 _ H; [|done]. cbn in *.
    destruct H as [H H']. split; [|lia].
    replace (pages + Z.of_nat (S fuel))%Z with (pages + 1 + Z.of_nat fuel)%Z by lia. done.
Qed.

Lemma paginate_works maxPages fetchPage h :
  (1 <= maxPages)%Z -> (forall n h', works h' (fetchPage n) (returning page_of)) ->
  works h (paginateExchangeOrderHistory maxPages fetchPage)
    (returning (fun r h' => scan_of maxPages r h' /\ (1 <= scan_pagesScanned r)%Z)).
Proof.
  intros Hm Hf. unfold paginateExchangeOrderHistory.
  eapply works_mono; [|apply (paginate_from_works _ _ _ _ _ 0 _ Hf)].
  - intros [r|x] h' _ H; [|done]. cbn in *. destruct H as [H H']. rewrite Z2Nat.id in * by lia.
    split; [done|lia].
  - by split_and!; [constructor|cbn; lia..].
Qed.

(** The scans of a market's windows. *)
Definition scanned (w : ArchivalWindow) (s : MarketScans) (h : history) : Prop :=
  (scan_of (history_max_pages deps) (openSnapshots s) h /\
   (1 <= scan_pagesScanned (openSnapshots s))%Z) /\
  (scan_of (history_max_pages deps) (recentClosedSnapshots s) h /\
   (1 <= scan_pagesScanned (recentClosedSnapshots s))%Z) /\
  scan_of (history_max_pages deps) (archivalClosedSnapshots s) h /\
  (if archiveAlreadyComplete w then archivalClosedSnapshots s = no_scan
   else (1 <= scan_pagesScanned (archivalClosedSnapshots s))%Z).

Lemma scanned_extends {quietly} w s h h' :
  ReconciliationTheory.extends quietly h h' -> scanned w s h -> scanned w s h'.
Proof.
  intros He ([Ho Ho'] & [Hr Hr'] & Ha & Ha').
  split_and!; try done; by eapply scan_of_extends.
Qed.

Lemma max_pages_positive : (1 <= history_max_pages deps)%Z.
Proof. unfold history_max_pages. lia. Qed.

Lemma no_scan_of pages h : (0 <= pages)%Z -> scan_of pages no_scan h.
Proof. intros H. split_and!; [constructor|cbn; lia..]. Qed.

Lemma scan_market_works end_ market w h :
  works h (scan_market deps end_ market w) (returning (fun s h' => scanned w s h')).
Proof.
  pose proof max_pages_positive as Hm. unfold scan_market. cbv zeta.
  set (good := fun (r : result js_error PageScan) h' =>
    returning (fun s h' => scan_of (history_max_pages deps) s h' /\ (1 <= scan_pagesScanned s)%Z) r h').
  eapply (works_bind _ _ _ _ _ _ _ good).
  { works_step. eapply works_mono; [|apply paginate_works; [done|]].
    - by intros.
    - intros n h'. apply open_page_works. }
  intros open h1 He1 Ho. eapply (works_bind _ _ _ _ _ _ _ good).
  { works_step. eapply works_mono; [|apply paginate_works; [done|]].
    - by intros.
    - intros n h'. apply closed_page_works. }
  intros recent h2 He2 Hr. eapply (works_bind _ _ _ _ _ _ _ (fun (r : result js_error PageScan) h' =>
    returning (fun s h' => scan_of (history_max_pages deps) s h' /\
      if archiveAlreadyComplete w then s = no_scan else (1 <= scan_pagesScanned s)%Z) r h')).
  { works_step. destruct (archiveAlreadyComplete w).
    - apply works_ret. split; [by apply no_scan_of; lia|done].
    - eapply works_mono; [|apply paginate_works; [done|]].
      + by intros.
      + intros n h'. apply closed_page_works. }
  intros archival h3 He3 Ha.
  assert (Hunwrap : forall (r : result js_error PageScan) h', works h' (unwrap r)
    (returning (fun s h'' => r = Ok s /\ h'' = h'))).
  { intros [s|x] h'; [by apply works_ret|by apply works_throw]. }
  eapply works_bind; [apply Hunwrap|]. intros so ? _ [-> ->].
  eapply works_bind; [apply Hunwrap|]. intros sr ? _ [-> ->].
  eapply works_bind; [apply Hunwrap|]. intros sa ? _ [-> ->].
  works_step. cbn in Ho, Hr, Ha. destruct Ho as [Ho Ho'], Hr as [Hr Hr'], Ha as [Ha Ha'].
  split_and!; cbn; try done; (eapply (scan_of_extends (quietly := true)); [|eassumption]); solve_extends.
Qed.

(** What the recovery of a market gives. *)
Definition market_recovered (account : string) (end_ : Z) (texts : HistoryWindowTexts)
    (market : SupportedMarket)
    (r : ReconciliationHistoryRecoveryMarketProgress * list ExchangeOrderSnapshot)
    (h : history) : Prop :=
  exists checkpoint scans next,
    happened [answered_as (Recon.GetHistoryRecoveryCheckpoint account market) checkpoint] h /\
    let w := archival_window (history_limits deps) end_ checkpoint in
    scanned w scans h /\ dateToISOString (archivalWindowStartTimeMs w) = Ret next /\
    market_progress (history_limits deps) end_ texts market w next scans = Ret (fst r) /\
    snd r = market_snapshots scans.

Lemma market_recovered_extends {quietly} account end_ texts market r h h' :
  ReconciliationTheory.extends quietly h h' -> market_recovered account end_ texts market r h ->
  market_recovered account end_ texts market r h'.
Proof.
  intros He (checkpoint & scans & next & Hc & Hs & Hn). exists checkpoint, scans, next.
  split; [by eapply (extended_happened quietly)|]. split; [by eapply scanned_extends|done].
Qed.

Lemma recover_market_works account at_ end_ texts market h :
  works h (recover_market deps account at_ end_ texts market)
    (returning (market_recovered account end_ texts market)).
Proof.
  unfold recover_market. eapply (works_bind _ _ _ _ _ _ _ (fun checkpoint h' =>
    happened [answered_as (Recon.GetHistoryRecoveryCheckpoint account market) checkpoint] h')).
  { works_step. by apply happened_before, happened_newest. }
  intros checkpoint h1 He1 Hc. cbv zeta. eapply works_bind; [apply scan_market_works|].
  intros scans h2 He2 Hs. eapply (works_bind _ _ _ _ _ _ _ (fun next h' =>
    dateToISOString (archivalWindowStartTimeMs (archival_window (history_limits deps) end_ checkpoint))
    = Ret next)); [by works_step|]. intros next h3 He3 Hn.
  eapply (works_bind _ _ _ _ _ _ _ (fun _ _ => True)).
  { unfold checkpoint_id. destruct checkpoint; by works_step. }
  intros id h4 He4 _. works_skip. eapply (works_bind _ _ _ _ _ _ _ (fun p h' =>
    market_progress (history_limits deps) end_ texts market
      (archival_window (history_limits deps) end_ checkpoint) next scans = Ret p));
    [by works_step|]. intros p h5 He5 Hp. works_step. exists checkpoint, scans, next.
  split; [eapply (extended_happened true); [|exact Hc]; solve_extends|].
  split; [eapply (scanned_extends (quietly := true)); [|exact Hs]; solve_extends|done].
Qed.

Definition end_of (at_ : string) (end_ : Z) : Prop :=
  Date_parse at_ = Some end_ \/ Date_parse at_ = None.

Lemma closed_order_end_works at_ h :
  works h (closed_order_end at_) (returning (fun end_ _ => end_of at_ end_)).
Proof.
  unfold closed_order_end. destruct (Date_parse at_) eqn:He; works_step; unfold end_of; auto.
Qed.

Lemma dedupe_elem snapshots : forall s, s ∈ snd <$> dedupe snapshots -> s ∈ snapshots.
Proof.
  unfold dedupe. assert (H : forall l (deduped : jsmap string ExchangeOrderSnapshot) s,
    s ∈ snd <$> foldl (fun deduped snapshot =>
           match map_get (snapshot_key snapshot) deduped with
           | Some _ => deduped
           | None => map_set (snapshot_key snapshot) snapshot deduped
           end) deduped l -> s ∈ (snd <$> deduped) \/ s ∈ l).
  { induction l as [|x l IH]; intros deduped s; cbn [foldl]; [by left|]. intros [H|H]%IH.
    - destruct (map_get (snapshot_key x) deduped) eqn:Hg; [by left|].
      rewrite (map_set_new _ _ _ Hg), fmap_app, elem_of_app in H. destruct H as [H|H]; [by left|].
      apply list_elem_of_singleton in H as ->. right. by left.
    - right. by right. }
  intros s Hs. apply H in Hs as [Hs|Hs]; [|done]. by apply elem_of_nil in Hs.
Qed.

Definition history_listed (account at_ : string)
    (r : list ExchangeOrderSnapshot * ReconciliationHistoryRecoverySummary) (h : history) : Prop :=
  exists end_ texts btc eth,
    end_of at_ end_ /\ history_window_texts (history_limits deps) end_ = Ret texts /\
    market_recovered account end_ texts Market.KRW_BTC btc h /\
    market_recovered account end_ texts Market.KRW_ETH eth h /\
    let deduped := dedupe (snd btc ++ snd eth)%list in
    snd r = history_recovery_summary (history_limits deps) texts [fst btc; fst eth]
              (Z.of_nat (length deduped)) 0 /\
    fst r ≡ₚ snd <$> deduped.

Lemma list_history_works account at_ h :
  works h (listExchangeHistorySnapshots localeCompare deps account at_)
    (returning (history_listed account at_)).
Proof.
  unfold listExchangeHistorySnapshots. eapply works_bind; [apply closed_order_end_works|].
  intros end_ h1 He1 Hend. eapply (works_bind _ _ _ _ _ _ _ (fun texts _ =>
    history_window_texts (history_limits deps) end_ = Ret texts)); [by works_step|].
  intros texts h2 He2 Ht. eapply works_bind.
  { apply (works_promise_all _ _ _ _ _ (fun _ => True) (fun _ => True)
      (fun market => market_recovered account end_ texts market)); try done.
    - intros market r h3 h4. apply (market_recovered_extends (quietly := true)).
    - intros market h3 _ _. apply recover_market_works.
    - by apply Forall_true. }
  intros batches h3 He3 Hb. inversion Hb as [|? btc ? ? Hbtc Hrest]; subst.
  inversion Hrest as [|? eth ? ? Heth Hnil]; subst. inversion Hnil; subst. cbv zeta. works_step.
  exists end_, texts, btc, eth. split; [done|]. split; [done|]. split; [done|]. split; [done|].
  cbn [fst snd fmap list_fmap mjoin list_join].
  rewrite app_nil_r. split; [done|]. apply js_sort_perm.
Qed.

Lemma market_on_page account end_ texts market r h :
  market_recovered account end_ texts market r h -> Forall (fun s => on_page s h) (snd r).
Proof.
  intros (checkpoint & scans & next & _ & ((Ho & _) & (Hr & _) & Ha & _) & _ & _ & ->).
  unfold market_snapshots. rewrite !Forall_app. split_and!; [apply Ho|apply Hr|apply Ha].
Qed.

Lemma listed_on_page account at_ r h :
  history_listed account at_ r h -> Forall (fun s => on_page s h) (fst r).
Proof.
  intros (end_ & texts & btc & eth & _ & _ & Hb & He & _ & Hp). rewrite Hp. apply Forall_forall.
  intros s Hs%dedupe_elem. apply market_on_page in Hb, He. rewrite Forall_forall in Hb, He.
  apply elem_of_app in Hs as [Hs|Hs]; auto.
Qed.

(** ** Counting issues *)

Definition count (code : Issue.ReconciliationIssueCode) (l : list ReconciliationIssue) : Z :=
  countIssueCode (issue_code <$> l) code.

Lemma count_app code l1 l2 : count code (l1 ++ l2) = (count code l1 + count code l2)%Z.
Proof.
  unfold count, countIssueCode. rewrite fmap_app, List.filter_app, length_app. lia.
Qed.

Lemma count_nil code : count code [] = 0%Z.
Proof. done. Qed.

Lemma count_ordinary code l : counted_code code = true -> Forall ordinary l -> count code l = 0%Z.
Proof.
  intros Hc. induction 1 as [|i l Hi _ IH]; [done|].
  change (i :: l) with ([i] ++ l)%list. rewrite count_app, IH, Z.add_0_r.
  unfold count, countIssueCode. cbn. case_bool_decide as Heq; [|done]. subst code.
  destruct Hi as [Hi _]. congruence.
Qed.

Lemma count_singleton code code' message :
  count code [issue code' message] = (if bool_decide (code' = code) then 1 else 0)%Z.
Proof. unfold count, countIssueCode. cbn. by destruct (bool_decide _). Qed.

(** The issues of recovered orders: [n] of them, beside ordinary ones. *)
Definition recovers (n : Z) (l : list ReconciliationIssue) : Prop :=
  count Issue.EXCHANGE_ORDER_RECOVERED l = n /\ count Issue.ORDER_HISTORY_LOOKUP_FAILED l = 0%Z /\
  count Issue.ORDER_LOOKUP_DEFERRED l = 0%Z /\ Forall worded l.

Lemma ordinary_worded l : Forall ordinary l -> Forall worded l.
Proof. intros H. eapply Forall_impl; [exact H|]. by intros i [_ ?]. Qed.

Lemma recovers_app n m l1 l2 : recovers n l1 -> recovers m l2 -> recovers (n + m) (l1 ++ l2).
Proof.
  intros (? & ? & ? & ?) (? & ? & ? & ?). split_and!; [rewrite count_app; lia..|by apply Forall_app].
Qed.

Lemma recovers_ordinary l : Forall ordinary l -> recovers 0 l.
Proof. intros H. split_and!; [by apply count_ordinary..|by apply ordinary_worded]. Qed.

(** ** Orders the exchange knows *)

Abbreviation loud := (ReconciliationTheory.works sha256 deps given false).

Lemma recover_order_works account mode at_ snapshot orders h :
  on_page snapshot h -> happened [answered_as (Recon.ListOrders account) orders] h ->
  xorder_uuid snapshot ∉ omap ord_upbitUuid orders ->
  (forall identifier, non_empty (xorder_identifier snapshot) = Some identifier ->
     identifier ∉ ord_identifier <$> orders) ->
  xorder_uuid snapshot ∉ omap saved_uuid h ->
  loud h (recover_exchange_order sha256 deps account mode at_ snapshot) (returning (fun r h' =>
    recovers 1 (snd r) /\ omap saved_uuid h' = xorder_uuid snapshot :: omap saved_uuid h)).
Proof.
  intros Hp Hl Hu Hi Hs. unfold recover_exchange_order.
  eapply (works_bind _ _ _ _ _ _ _ (fun _ h' => omap saved_uuid h' = omap saved_uuid h));
    [by works_step|]. intros id h1 He1 Hs1. cbv zeta.
  set (order := buildRecoveredOrderRecord sha256 id account mode snapshot at_).
  assert (Hfrom : forall h', ReconciliationTheory.extends false h h' ->
    recovered_from sha256 order snapshot h').
  { intros h' He. split; [by exists id, account, mode, at_|by eapply (on_page_extends false)]. }
  eapply (works_bind _ _ _ _ _ _ _ (fun _ h' =>
    omap saved_uuid h' = xorder_uuid snapshot :: omap saved_uuid h)).
  { works_step; [|by cbn; rewrite Hs1]. exists snapshot, account, orders. split_and!; [| |done|done|].
    - apply Hfrom. solve_extends.
    - eapply (extended_happened false); [|exact Hl]. solve_extends.
    - cbn. by rewrite Hs1. }
  intros [] h2 He2 Hs2.
  eapply works_mono; [|apply (works_loudly _ _ _ _ _ _ (returning (fun r _ => recovers 1 (snd r))))].
  { intros [r|x] h3 _ H; [|done]. cbn in *. destruct H as [H ->]. done. }
  works_skip. works_skip. eapply works_bind.
  { apply (apply_works _ _ _ order snapshot at_); right; [exists snapshot|]; apply Hfrom; solve_extends. }
  intros applied h3 _ Ha. works_step. cbn [snd].
  change (recovers (1 + 0) ([issue Issue.EXCHANGE_ORDER_RECOVERED
    ("Recovered exchange order " ++ ord_id order ++ " for " ++ Market.to_string (xorder_market snapshot)
     ++ " from exchange history state " ++ xorder_state snapshot ++ ".")] ++ applied)%list).
  apply recovers_app; [|by apply recovers_ordinary].
  by split_and!; [rewrite count_singleton..|constructor; [|constructor]].
Qed.

Lemma recover_snapshots_works account mode at_ orders uuids identifiers snapshots h :
  Forall (fun s => on_page s h) snapshots ->
  happened [answered_as (Recon.ListOrders account) orders] h ->
  omap ord_upbitUuid orders ⊆ uuids -> ord_identifier <$> orders ⊆ identifiers ->
  omap saved_uuid h ⊆ uuids ->
  loud h (recover_snapshots sha256 deps account mode at_ uuids identifiers snapshots)
    (returning (fun r _ => recovers (snd r) (fst r) /\
                           (0 <= snd r <= Z.of_nat (length snapshots))%Z)).
Proof.
  intros Hp. revert uuids identifiers h Hp.
  induction snapshots as [|snapshot rest IH]; intros uuids identifiers h Hp Hl Hu Hi Hs;
    cbn [recover_snapshots].
  { by works_step. }
  apply Forall_cons in Hp as [Hp Hrest]. works_step.
  { eapply works_mono; [|by apply IH]. intros [r|x] h' _ H; [|done]. cbn in *. split; [apply H|lia]. }
  match goal with H : is_known _ _ _ = false |- _ => apply orb_false_iff in H as [Hnu Hni] end.
  apply bool_decide_eq_false in Hnu.
  eapply works_bind; [apply recover_order_works with (orders := orders); try done|].
  - set_solver.
  - intros identifier Hid Hin. rewrite Hid in Hni. apply bool_decide_eq_false in Hni. set_solver.
  - set_solver.
  - intros [order issues] h1 He1 [Hone Hs1]. cbn [fst snd] in *. eapply works_bind; [apply IH|].
    + eapply Forall_impl; [exact Hrest|]. intros s. by apply (on_page_extends false).
    + by eapply (extended_happened false).
    + set_solver.
    + set_solver.
    + rewrite Hs1. set_solver.
    + intros [more n] h2 He2 [Hmore Hn]. works_step. cbn [fst snd] in *.
      rewrite Z.add_comm. split; [by apply recovers_app|]. cbn [length]. lia.
Qed.

(** The recovery of missing orders: none is attempted, it succeeds, or it fails. *)
Inductive history_result (account at_ : string) (h : history)
    : list ReconciliationIssue * option ReconciliationHistoryRecoverySummary -> Prop :=
| history_not_read : history_result account at_ h ([], None)
| history_read r issues n :
    history_listed account at_ r h -> recovers n issues ->
    (0 <= n <= Z.of_nat (length (fst r)))%Z ->
    history_result account at_ h (issues, Some (with_recovered_count (snd r) n))
| history_failed end_ message failed text :
    end_of at_ end_ ->
    buildFailedHistoryRecoverySummary (history_limits deps) end_ message = Ret failed ->
    is_blank text = false ->
    history_result account at_ h ([issue Issue.ORDER_HISTORY_LOOKUP_FAILED text], Some failed).

Lemma history_listed_extends account at_ r h h' :
  ReconciliationTheory.extends false h h' -> history_listed account at_ r h ->
  history_listed account at_ r h'.
Proof.
  intros He (end_ & texts & btc & eth & Hend & Ht & Hb & Hh & H). exists end_, texts, btc, eth.
  split; [done|]. split; [done|]. split; [by eapply market_recovered_extends|].
  split; [by eapply market_recovered_extends|done].
Qed.

Lemma history_result_extends account at_ r h h' :
  ReconciliationTheory.extends false h h' -> history_result account at_ h r ->
  history_result account at_ h' r.
Proof.
  intros He [|r' issues n Hl Hn Hb|end_ message failed text Hend Hf Ht]; [constructor| |].
  - eapply history_read; [by eapply history_listed_extends|done|done].
  - by eapply history_failed.
Qed.

Lemma history_failure_works account at_ error h :
  loud h (history_lookup_failed deps at_ error)
    (returning (fun r h' => history_result account at_ h' r)).
Proof.
  unfold history_lookup_failed. works_step; [by works_step|]. cbv zeta.
  eapply (works_bind _ _ _ _ _ _ _ (fun end_ _ => end_of at_ end_)).
  { eapply works_mono; [|apply works_loudly, closed_order_end_works].
    intros [end_|x] h' _ [H _]; done. }
  intros end_ h1 He1 Hend. eapply (works_bind _ _ _ _ _ _ _ (fun failed _ =>
    buildFailedHistoryRecoverySummary (history_limits deps) end_
      (error_message "Unknown exchange history lookup failure." error) = Ret failed));
    [by works_step|]. intros failed h2 He2 Hf. works_step. by eapply history_failed.
Qed.

Lemma missing_works account orders mode at_ h :
  happened [answered_as (Recon.ListOrders account) orders] h -> omap saved_uuid h = [] ->
  loud h (recoverMissingExchangeOrders sha256 localeCompare deps account orders mode at_)
    (returning (fun r h' => history_result account at_ h' r)).
Proof.
  intros Hl Hs. unfold recoverMissingExchangeOrders. works_step; [works_step; constructor|].
  works_step. eapply works_mono; [|eapply (works_bind_any _ _ _ _ _ _ _ (fun r h' =>
    returning (history_listed account at_) r h' /\ omap saved_uuid h' = []))].
  - intros r h' _ H. exact H.
  - eapply works_mono; [|apply works_loudly, list_history_works]. intros r h' _ [H ->]. done.
  - intros r h1 He1 [Hr Hs1]. eapply (works_bind_any _ _ _ _ _ _ _ (returning (fun n _ =>
      recovers (snd n) (fst n) /\ (0 <= snd n <= Z.of_nat (length (fst r)))%Z))).
    + apply (recover_snapshots_works _ _ _ orders); [|by eapply (extended_happened false)|done|done|].
      * by eapply listed_on_page.
      * rewrite Hs1. set_solver.
    + intros [issues n] h2 He2 [Hn Hb]. apply works_ret. cbn [fst snd] in *.
      eapply history_read; [|done|done]. by eapply history_listed_extends.
    + intros x h2 He2 _. apply history_failure_works.
  - intros x h1 He1 _. apply history_failure_works.
Qed.

(** ** A run *)

Lemma drift_works account at_ snapshots h :
  works h (report_portfolio_drift account at_ snapshots) (returning (fun l _ => Forall ordinary l)).
Proof.
  unfold report_portfolio_drift. destruct snapshots as [snapshots|]; [|works_step; constructor].
  works_skip. eapply (works_bind _ _ _ _ _ _ _ (fun e _ => Forall has_message (findings e))).
  { works_step. by eapply findings_have_messages. }
  intros evaluation h1 _ He. eapply (works_bind _ _ _ _ _ _ _ (fun _ _ => True)).
  { eapply works_mono; [|eapply (works_for_each _ _ _ _ _ (fun _ => True) (fun _ => True)
      (fun _ _ => True))]; try done.
    - by intros [l|x].
    - intros finding h2 _ _. works_skip. by works_step.
    - by apply Forall_true. }
  intros _ h3 _ _. works_step. apply Forall_fmap. eapply Forall_impl; [exact He|].
  intros [[] ? ?] Hf; (split; [done|exact Hf]).
Qed.

Lemma report_works input h :
  held h = true -> works h (safeReport deps input) (returning (fun _ h' => held h' = true)).
Proof.
  intros Hh. unfold safeReport. works_step; [by works_step|]. works_step.
  apply works_fenced_any; [done|done|done|]. intros x h' He _. works_step; [by works_step|].
  apply works_assert; done.
Qed.

Lemma reads_works account h :
  works h (initial_reads account) (returning (fun reads h' =>
    happened [answered_as (Recon.ListActiveOrders account) (fst (fst reads))] h' /\
    happened [answered_as (Recon.ListOrders account) (snd (fst reads))] h')).
Proof.
  unfold initial_reads.
  eapply (works_bind _ _ _ _ _ _ _ (fun r h' =>
    happened [fun ev => ev = Asked (Recon.ListActiveOrders account) r] h')).
  { apply works_issue; [done|done|]. intros r _. by apply happened_newest. }
  intros active h1 He1 Ha. eapply (works_bind _ _ _ _ _ _ _ (fun r h' =>
    happened [fun ev => ev = Asked (Recon.ListOrders account) r] h')).
  { apply works_issue; [done|done|]. intros r _. by apply happened_newest. }
  intros all h2 He2 Hl.
  eapply (works_bind _ _ _ _ _ _ _ (fun _ _ => True)).
  { apply works_issue; [done|done|]. done. }
  intros state h3 He3 _.
  assert (Hsettle : forall B (r : result js_error B) h', works h' (attempt (settle_call r))
    (returning (fun s _ => forall v, s = Ok v -> r = Ok v))).
  { intros B r h'. apply works_attempt, works_settle.
    - intros v -> w [= ->]. done.
    - by intros x h'' _ _ v. }
  assert (Hunwrap : forall B (r : result js_error B) h', works h' (unwrap r)
    (returning (fun s _ => r = Ok s))).
  { intros B [s|x] h'; [by apply works_ret|by apply works_throw]. }
  eapply works_bind; [apply Hsettle|]. intros sa h4 He4 Hsa.
  eapply works_bind; [apply Hsettle|]. intros sl h5 He5 Hsl.
  eapply works_bind; [apply Hsettle|]. intros ss h6 He6 _.
  eapply works_bind; [apply Hunwrap|]. intros va h7 He7 ->.
  eapply works_bind; [apply Hunwrap|]. intros vl h8 He8 ->.
  eapply works_bind; [apply Hunwrap|]. intros vs h9 He9 _.
  specialize (Hsa _ eq_refl) as ->. specialize (Hsl _ eq_refl) as ->.
  works_step. split; (eapply (extended_happened true); [|eassumption]); solve_extends.
Qed.

(** What the summary of a run is. *)
Definition summary_of (account at_ : string) (source : option Trigger.ReconciliationTrigger)
    (s : ReconciliationSummary) (h : history) : Prop :=
  exists historyIssues issues (candidates : list ReconciliationCandidate) historyRecovery,
    let candidateCount := Z.of_nat (length candidates) in
    let processedCount := Z.of_nat (length (slice_to (max_order_lookups deps) candidates)) in
    s = run_summary deps source issues candidateCount processedCount historyRecovery /\
    history_result account at_ h (historyIssues, historyRecovery) /\
    (forall code, counted_code code = true -> code ≠ Issue.ORDER_LOOKUP_DEFERRED ->
       count code issues = count code historyIssues) /\
    count Issue.ORDER_LOOKUP_DEFERRED issues
    = (if 0 <? Z.max 0 (candidateCount - processedCount) then 1 else 0)%Z /\
    Forall worded issues.

Lemma history_not_deferred account at_ h r :
  history_result account at_ h r -> count Issue.ORDER_LOOKUP_DEFERRED (fst r) = 0%Z.
Proof. by destruct 1 as [|? ? ? ? (_ & _ & H & _) _|]. Qed.

Lemma history_worded account at_ h r : history_result account at_ h r -> Forall worded (fst r).
Proof.
  destruct 1 as [|? ? ? ? (_ & _ & _ & H) _|]; [constructor|done|].
  by constructor; [|constructor].
Qed.

Lemma deferred_worded n : Forall worded (deferred_issues deps n).
Proof. unfold deferred_issues. destruct (_ <? _)%Z; [|constructor]. by constructor; [|constructor]. Qed.

Lemma deferred_count code n :
  count code (deferred_issues deps n)
  = (if bool_decide (code = Issue.ORDER_LOOKUP_DEFERRED) && (0 <? n) then 1 else 0)%Z.
Proof.
  unfold deferred_issues. destruct (0 <? n)%Z; [|by rewrite andb_false_r].
  rewrite count_singleton, andb_true_r. by do 2 case_bool_decide.
Qed.

(** A quiet step of a run. *)
Lemma loud_step {A B} (m : reconciler A) (k : A -> reconciler B) h R Q :
  works h m (returning R) ->
  (forall v h', ReconciliationTheory.extends false h h' ->
     R v h' -> omap saved_uuid h' = omap saved_uuid h -> loud h' (k v) (returning Q)) ->
  loud h (x ← m; k x) (returning Q).
Proof.
  intros Hm Hk. eapply (works_bind _ _ _ _ _ _ _ (fun v h' => R v h' /\
    omap saved_uuid h' = omap saved_uuid h)).
  - eapply works_mono; [|by apply works_loudly]. by intros [v|x] h' _ [H Hs].
  - intros v h' He [Hv Hs]. by apply Hk.
Qed.

Lemma mjoin_ordinary ls : Forall (Forall ordinary) ls -> Forall ordinary (mjoin ls).
Proof. induction 1; cbn; [constructor|by apply Forall_app]. Qed.

Lemma slice_elem {A} limit (l : list A) x : x ∈ slice_to limit l -> x ∈ l.
Proof.
  unfold slice_to. intros Hx. rewrite <- (take_drop (Z.to_nat (if (limit <? 0)%Z
    then Z.of_nat (length l) + limit else limit)%Z) l). apply elem_of_app. by left.
Qed.

Lemma candidate_elem active terminal candidate :
  candidate ∈ buildReconciliationCandidates localeCompare active terminal ->
  cand_order candidate ∈ active \/ cand_order candidate ∈ terminal.
Proof.
  unfold buildReconciliationCandidates. rewrite js_sort_perm, elem_of_app.
  intros [(order & -> & H)%list_elem_of_fmap|(order & -> & H)%list_elem_of_fmap]; [by left|by right].
Qed.

Lemma filter_elem {A} (f : A -> bool) l x : x ∈ List.filter f l -> x ∈ l.
Proof. intros [H _]%list_elem_of_In%filter_In. by apply list_elem_of_In. Qed.

Lemma count_parts code repairs sweeps history results drifts n :
  counted_code code = true -> Forall ordinary repairs -> Forall ordinary sweeps ->
  Forall (Forall ordinary) results -> Forall ordinary drifts ->
  count code (repairs ++ sweeps ++ history ++ mjoin results ++ deferred_issues deps n ++ drifts)
  = (count code history
     + if bool_decide (code = Issue.ORDER_LOOKUP_DEFERRED) && (0 <? n)%Z then 1 else 0)%Z.
Proof.
  intros Hc Hr Hs Hj%mjoin_ordinary Hd. rewrite !count_app, deferred_count.
  rewrite (count_ordinary code repairs), (count_ordinary code sweeps),
    (count_ordinary code (mjoin results)), (count_ordinary code drifts) by done. lia.
Qed.

Lemma run_steps_works account options at_ h :
  omap saved_uuid h = [] ->
  loud h (run_steps sha256 localeCompare deps account options at_)
    (returning (summary_of account at_ (opt_source options))).
Proof.
  intros Hs. unfold run_steps. eapply loud_step; [apply reads_works|].
  intros [[openOrders allOrders] state] h1 He1 [Ha Hl] Hs1. cbn [fst snd] in Ha, Hl.
  assert (Hopen : forall h', ReconciliationTheory.extends false h1 h' ->
    Forall (fun order => listed order h') openOrders).
  { intros h' He. apply Forall_forall. intros order Hin. eapply (listed_extends false); [exact He|].
    exists account. left. eapply happened_head; [|exact Ha]. intros ev ->. by eexists. }
  assert (Hall : forall h' order, ReconciliationTheory.extends false h1 h' -> order ∈ allOrders ->
    listed order h').
  { intros h' order He Hin. eapply (listed_extends false); [exact He|]. exists account. right.
    eapply happened_head; [|exact Hl]. intros ev ->. by eexists. }
  eapply loud_step; [by apply repair_all_works, Hopen|]. intros repairs h2 He2 Hrepairs Hs2.
  eapply loud_step; [apply candidates_works|]. intros sweeps h3 He3 Hsweeps Hs3.
  eapply loud_step; [apply backfill_works|]. intros terminal h4 He4 Hterminal Hs4. cbv zeta.
  set (candidates := buildReconciliationCandidates _ _ _).
  eapply works_bind; [apply (missing_works account allOrders)|].
  { eapply (extended_happened false); [|exact Hl]. solve_extends. }
  { congruence. }
  intros history h5 He5 Hh.
  eapply (loud_step _ _ _ (fun l _ => Forall (Forall ordinary) l)).
  { eapply works_mono; [|eapply (works_for_each _ _ _ _ _ (ReconciliationTheory.extends false h1)
      (fun candidate => forall h', ReconciliationTheory.extends false h1 h' ->
         known (cand_order candidate) h') (fun _ => Forall ordinary))].
    - intros [results|x] h6 _ H; [|done]. cbn in *.
      induction H; by constructor.
    - intros h6 h7 He6 He7. transitivity h6; [done|]. by apply extends_loudly.
    - intros candidate h6 Hc He6. by apply reconcile_candidate_works, Hc.
    - apply Forall_forall. intros candidate Hc h6 He6. right.
      apply slice_elem, candidate_elem in Hc as [Hc%filter_elem|Hc]; [|by auto].
      specialize (Hopen _ He6). rewrite Forall_forall in Hopen. by apply Hopen.
    - solve_extends. }
  intros results h6 He6 Hresults Hs6.
  eapply loud_step; [apply drift_works|]. intros drifts h7 He7 Hdrifts Hs7. works_step.
  exists (fst history), (repairs ++ sweeps ++ fst history ++ mjoin results ++ deferred_issues deps
    (Z.max 0 (Z.of_nat (length candidates) - Z.of_nat (length (slice_to (max_order_lookups deps) candidates))))
    ++ drifts)%list, candidates, (snd history).
  cbv zeta. split; [done|]. split.
  { eapply history_result_extends; [|by destruct history]. solve_extends. }
  split.
  - intros code Hc Hne. rewrite count_parts by done. rewrite bool_decide_eq_false_2 by done. cbn. lia.
  - split.
    + rewrite count_parts by done. rewrite bool_decide_eq_true_2 by done.
      pose proof (history_not_deferred _ _ _ _ Hh) as ->. done.
    + rewrite !Forall_app. split_and!; [by apply ordinary_worded..|exact (history_worded _ _ _ _ Hh)| |
        apply deferred_worded|by apply ordinary_worded].
      by apply ordinary_worded, mjoin_ordinary.
Qed.

(** What a run gives when it does not throw. *)
Definition run_result (account : string) (options : ReconciliationRunOptions)
    (r : ReconciliationRunResult) (h : history) : Prop :=
  held h = true /\
  exists identity completedAt,
    (forall given_identity, opt_runIdentity options = Some given_identity ->
       identity = given_identity) /\
    result_reconciliationRun r = run_record identity account completedAt (result_summary r) /\
    summary_of account (identity_startedAt identity) (opt_source options) (result_summary r) h /\
    happened [answered_as (Recon.SaveReconciliationRun (result_reconciliationRun r)) tt] h.

Lemma identity_works options h :
  works h (run_identity options) (returning (fun identity _ =>
    forall given_identity, opt_runIdentity options = Some given_identity ->
      identity = given_identity)).
Proof.
  unfold run_identity. destruct (opt_runIdentity options) as [given_identity|].
  - apply works_lift. unfold projectReconciliationRunIdentity. intros identity H ? [= <-].
    by inv_outcome.
  - works_skip. works_skip. by works_step.
Qed.

Lemma summary_of_extends account at_ source s h h' :
  ReconciliationTheory.extends false h h' -> summary_of account at_ source s h ->
  summary_of account at_ source s h'.
Proof.
  intros He (hi & issues & candidates & recovery & Hs & Hh & Hc).
  exists hi, issues, candidates, recovery. split; [done|]. split; [|done].
  by eapply history_result_extends.
Qed.

Lemma run_works account options :
  loud [] (runWithRecord sha256 localeCompare deps account options)
    (returning (run_result account options)).
Proof.
  unfold runWithRecord.
  eapply (loud_step _ _ _ (fun _ _ => True)); [by apply works_assert|]. intros _ h1 He1 _ Hs1.
  eapply loud_step; [apply identity_works|]. intros identity h2 He2 Hi Hs2.
  eapply works_bind; [apply run_steps_works; by rewrite Hs2, Hs1|]. intros summary h3 He3 Hs.
  eapply (loud_step _ _ _ (fun _ _ => True)); [by works_step|]. intros completedAt h4 He4 _ _.
  cbv zeta. set (record := run_record identity account completedAt summary).
  eapply (loud_step _ _ _ (fun _ h' => held h' = true /\
    happened [answered_as (Recon.SaveReconciliationRun record) tt] h')).
  { works_step. split; [done|]. destruct v. by apply happened_before, happened_newest. }
  intros _ h5 He5 [Hh Hsaved] _. eapply (loud_step _ _ _ (fun _ h' => held h' = true)).
  { works_step; [by apply report_works|by works_step]. }
  intros _ h6 He6 Hh6 _. works_step. split; [done|]. exists identity, completedAt.
  split; [done|]. split; [done|]. split.
  - eapply summary_of_extends; [|exact Hs]. solve_extends.
  - eapply (extended_happened false); [|exact Hsaved]. solve_extends.
Qed.

Lemma run_summary_works account options :
  loud [] (run sha256 localeCompare deps account options)
    (returning (fun s h => exists r, s = result_summary r /\ run_result account options r h)).
Proof.
  unfold run. eapply works_bind; [apply run_works|]. intros r h1 _ Hr. works_step. by exists r.
Qed.

End Run.
