(* ===== verification/ReconciliationGuarantees.v ===== *)
(** * ReconciliationGuarantees: what every run of reconciliation keeps to

    Whatever the repositories, the exchange and the clock answer: nothing is
    done without ownership, an order is given up only on the evidence the policy
    asks for, an order is stored only as the exchange showed it, an order of the
    exchange is created once, and only dry runs are rewritten.  The repository's
    own checks accept what a run asks it to store. *)

From Stdlib Require Import ZArith Lia.
From stdpp Require Import base option list sets strings.
From S2P Require Import Prelude Num Types Text Timestamp NumText JsMap SubmissionBlocking.
From S2P Require Import OperatorState OrderRecords OrderRepository OrderTheory Effects.
From S2P Require Import ExecutionRecords ExecutionHelpers SnapshotBinding ReconciliationRecords.
From S2P Require Import ReconciliationHelpers HistoryWindows PortfolioDrift.
From S2P Require Import ReconciliationService ReconciliationTheory ReconciliationRules.
From S2P Require Import ReconciliationRun.

Local Open Scope string_scope.
Local Open Scope js_scope.
Local Open Scope bool_scope.

Abbreviation event := (Effects.event Recon.call js_error).
Abbreviation history := (list event).

Section Guarantees.
Context (sha256 : string -> string) (localeCompare : string -> string -> comparison).
Context (deps : ReconciliationDependencies).

(** A run that was answered [h], newest first. *)
Definition reconciles (account : string) (options : ReconciliationRunOptions) (h : history)
    (r : result js_error ReconciliationRunResult) : Prop :=
  runs may_answer (runWithRecord sha256 localeCompare deps account options tt) [] h (tt, r).

(** No order is given from outside. *)
Definition none_given (order : OrderRecord) : Prop := False.

Lemma reconciles_sound account options h r :
  reconciles account options h r ->
  returning (run_result deps account options) r h /\
  forall newer older B (e : Recon.call B) a,
    h = (newer ++ Asked e a :: older)%list -> permitted sha256 deps none_given older B e.
Proof.
  intros Hr. destruct (wp_sound _ _ _ _ _ _ _ _ _
    (run_works sha256 localeCompare deps none_given account options) Hr) as [[_ HQ] Hall].
  split; [done|]. intros newer older B e a ->. eapply Hall; [done|]. cbn. lia.
Qed.

Lemma known_listed order h : known none_given order h -> listed order h.
Proof. by intros [[]|H]. Qed.

(** ** Ownership *)

(** Once an assertion has failed none succeeds, as of a guard that has lost its
    ownership. *)
Definition ownership_final (h : history) : Prop :=
  forall newer lost older, h = (newer ++ lost :: older)%list -> is_lost lost = true ->
  existsb is_held newer = false.

Lemma held_not_lost ev : is_held ev = true -> is_lost ev = true -> False.
Proof. destruct ev as [B e r]. cbn. destruct (is_assertion e), r; done. Qed.

Lemma held_member h : held h = true -> exists ev h', h = ev :: h' /\ is_held ev = true.
Proof. destruct h as [|ev h']; [done|]. by exists ev, h'. Qed.

Lemma held_after_lost newer lost older :
  is_lost lost = true -> existsb is_held newer = false ->
  held (newer ++ lost :: older) = false.
Proof.
  intros Hl Hn. destruct newer as [|ev newer]; cbn in *.
  - destruct (is_held lost) eqn:Hh; [|done]. by destruct (held_not_lost lost).
  - by apply orb_false_iff in Hn as [? _].
Qed.

(** C22: reconciliation runs only while the runtime is owned.  Every call of a
    repository, the exchange, the candidate evidence or the reporter directly
    follows an assertion of ownership that succeeded; a run that returns a
    result held the ownership to its end; and once an assertion has failed, if
    none succeeds any more, no such call is made and the run throws. *)
Theorem reconciliation_is_fenced account options h r :
  reconciles account options h r ->
  (forall newer B (e : Recon.call B) a older,
     h = (newer ++ Asked e a :: older)%list -> dependency e = true -> held older = true) /\
  (is_ok r = true -> held h = true) /\
  (ownership_final h -> forall newer lost older,
     h = (newer ++ lost :: older)%list -> is_lost lost = true ->
     existsb is_dependency newer = false /\ is_ok r = false).
Proof.
  intros [HQ Hp]%reconciles_sound.
  assert (Hheld : is_ok r = true -> held h = true) by (destruct r; [intros _; apply HQ|done]).
  split; [|split; [done|]].
  { intros newer B e a older Hh. by apply (Hp _ _ _ _ _ Hh). }
  intros Hf newer lost older Hh Hl. pose proof (Hf _ _ _ Hh Hl) as Hn. split.
  - apply not_true_iff_false. intros ([B e a] & Hin & Hd)%existsb_exists.
    apply in_split in Hin as (n1 & n2 & ->).
    assert (Hn2 : existsb is_held n2 = false).
    { rewrite existsb_app in Hn. apply orb_false_iff in Hn as [_ Hn]. cbn in Hn.
      by apply orb_false_iff in Hn as [_ Hn]. }
    rewrite <- app_assoc in Hh. destruct (Hp n1 (n2 ++ lost :: older)%list B e a Hh) as [Ho _].
    by rewrite held_after_lost in Ho; [specialize (Ho Hd)|..].
  - destruct (is_ok r); [|done]. specialize (Hheld eq_refl). subst h.
    by rewrite held_after_lost in Hheld.
Qed.

(** ** Orders that are given up *)


(** ** Orders that are stored *)

Lemma next_or_same order snapshot at_ :
  let next := next_order order snapshot at_ in
  let stored := if order_changed order next then next else order in
  identity order = identity stored /\ ord_upbitUuid stored = Some (xorder_uuid snapshot) /\
  ord_status stored = mapExchangeOrderToLifecycleStatus snapshot /\
  ord_exchangeResponseJson stored = Some (stringify (xorder_raw snapshot)).
Proof.
  cbv zeta. destruct (order_changed _ _) eqn:Hc; [done|]. split; [done|].
  unfold order_changed in Hc. rewrite !orb_false_iff, !negb_false_iff, !bool_decide_eq_true in Hc.
  destruct Hc as ((((Hs & Hu) & Hj) & _) & _). by rewrite <- Hs, <- Hu, <- Hj.
Qed.

Lemma changed_differs order snapshot at_ :
  order_changed order (next_order order snapshot at_) = true ->
  order ≠ next_order order snapshot at_.
Proof.
  intros Hc Heq. unfold order_changed in Hc. rewrite <- Heq in Hc.
  by rewrite !bool_decide_eq_true_2 in Hc.
Qed.

Lemma snapshot_accepted input snapshot at_ :
  let order := snap_expectedOrder input in
  let changed := order_changed order (next_order order snapshot at_) in
  snap_order input = (if changed then next_order order snapshot at_ else order) ->
  change_event order changed (snap_event input) ->
  validateSnapshotFills (snap_order input) [] [] (snap_fills input) = Ret tt ->
  validateReconciledExchangeSnapshotInput input = Ret tt.
Proof.
  cbv zeta. intros Ho He Hf. unfold validateReconciledExchangeSnapshotInput.
  destruct (next_or_same (snap_expectedOrder input) snapshot at_) as [Hid _]. rewrite <- Ho in Hid.
  assert (Hi : ord_id (snap_order input) = ord_id (snap_expectedOrder input)) by by injection Hid.
  apply validate_identity_iff in Hid. rewrite Hid. cbn [mbind outcome_bind].
  rewrite throw_if_bind_Ret.
  destruct (order_changed _ _) eqn:Hc, (snap_event input) as [e|]; cbn in He; try done.
  - destruct He as (_ & He1 & He2 & He3). split.
    + rewrite Ho, bool_decide_eq_false_2 by by apply changed_differs. done.
    + rewrite He1, He2, He3, Hi. by rewrite !bool_decide_eq_true_2 by done.
  - by destruct He.
  - split; [|done]. by rewrite Ho, bool_decide_eq_true_2.
Qed.


Lemma recovery_accepted order message at_ eventId riskId :
  ord_failureCode order = None \/ ord_failureCode order = Some "RECONCILIATION_REQUIRED" ->
  validateReconciliationRecoveryInput
    {| rec_expectedOrder := order; rec_order := order_for_recovery order message at_;
       rec_event := recon_event eventId (ord_id order) "RECONCILIATION_RECOVERY_REQUIRED"
                      (JObj [("reason", JStr message)]) at_;
       rec_riskEvent := createRecoveryRiskEvent riskId order message at_ |} = Ret tt.
Proof.
  intros Hc. unfold validateReconciliationRecoveryInput. cbn [rec_order rec_riskEvent
    rec_expectedOrder rec_event].
  assert (Hid : validateOrderIdentity order (order_for_recovery order message at_) = Ret tt)
    by by apply validate_identity_iff.
  rewrite Hid. cbn [mbind outcome_bind]. rewrite throw_if_bind_Ret. split.
  { cbn. by destruct Hc as [-> | ->]. }
  unfold validateOrderEvent, links_order. cbn. rewrite throw_if_bind_Ret.
  rewrite !(bool_decide_eq_true_2 (_ = _)) by done. done.
Qed.

(** An order is marked for recovery only when the truth about it could not
    be found out: it was listed in this run and has no reference, or the exchange
    did not know it, or the lookup failed other than transiently, or what was
    found is not this order.  Its identity and uuid are unchanged, and the
    repository's own check accepts the input unless the order already failed for
    another reason. *)
Theorem marked_when_unresolved account options h r newer input a older :
  reconciles account options h r ->
  h = (newer ++ Asked (Recon.PersistReconciliationRecovery input) a :: older)%list ->
  let order := rec_expectedOrder input in
  listed order older /\ unresolved order older /\
  identity order = identity (rec_order input) /\
  ord_upbitUuid (rec_order input) = ord_upbitUuid order /\
  ord_status (rec_order input) = OrderStatus.RECONCILIATION_REQUIRED /\
  (ord_failureCode order = None \/ ord_failureCode order = Some "RECONCILIATION_REQUIRED" ->
   validateReconciliationRecoveryInput input = Ret tt).
Proof.
  intros [_ Hp]%reconciles_sound Hh. destruct (Hp _ _ _ _ _ Hh) as [_ Hj].
  destruct Hj as (Ho & Hu & message & at_ & eventId & riskId & Hin). cbv zeta.
  apply known_listed in Ho. split; [done|]. split; [done|]. rewrite Hin.
  cbn [rec_order rec_expectedOrder]. split_and!; try done. apply recovery_accepted.
Qed.

(** ** Orders that are created *)

Lemma saved_once (h : history) :
  (forall newer older record a, h = (newer ++ Asked (Recon.SaveOrder record) a :: older)%list ->
     creation_justified sha256 record older) ->
  NoDup (omap saved_uuid h).
Proof.
  induction h as [|[B e a] h IH]; intros Hj; [constructor|].
  assert (HIH : NoDup (omap saved_uuid h)).
  { apply IH. intros newer older record a' ->. by apply (Hj (Asked e a :: newer) older record a'). }
  destruct e; try exact HIH. destruct (Hj [] h record a eq_refl)
    as (snapshot & account & orders & [(id & acc & mode & at_ & ->) _] & _ & _ & _ & Hs).
  cbn. by constructor.
Qed.

(** C23: an order of the exchange is created once.  Every order a run saves is
    made of a snapshot on a page of the exchange's history, after the orders
    were listed, and neither its uuid nor its identifier is among those of the
    listed orders; no two orders a run saves have the same uuid. *)
Theorem orders_are_created_once account options h r :
  reconciles account options h r ->
  NoDup (omap saved_uuid h) /\
  forall newer record a older, h = (newer ++ Asked (Recon.SaveOrder record) a :: older)%list ->
  exists snapshot listed_account orders,
    recovered_from sha256 record snapshot older /\
    happened [answered_as (Recon.ListOrders listed_account) orders] older /\
    xorder_uuid snapshot ∉ omap ord_upbitUuid orders /\
    (forall identifier, non_empty (xorder_identifier snapshot) = Some identifier ->
       identifier ∉ ord_identifier <$> orders).
Proof.
  intros [_ Hp]%reconciles_sound.
  assert (Hj : forall newer older record a,
    h = (newer ++ Asked (Recon.SaveOrder record) a :: older)%list ->
    creation_justified sha256 record older).
  { intros newer older record a Hh. by destruct (Hp _ _ _ _ _ Hh). }
  split; [by apply saved_once|]. intros newer record a older Hh.
  destruct (Hj _ _ _ _ Hh) as (snapshot & account' & orders & Hf & Hl & Hu & Hi & _).
  by exists snapshot, account', orders.
Qed.

(** Only dry runs are rewritten.  An order is updated past the checks of
    the compare-and-set operations, or a fill made up, only for a listed order
    that is an artifact of a local dry run: it becomes filled or canceled with
    its identity unchanged, and a fill is made up only when it has none. *)
Theorem only_dry_runs_are_rewritten account options h r :
  reconciles account options h r ->
  (forall newer record a older, h = (newer ++ Asked (Recon.UpdateOrder record) a :: older)%list ->
     exists order, listed order older /\ isLocalDryRunExchangeArtifact order = true /\
       identity order = identity record /\
       (ord_status record = OrderStatus.FILLED \/ ord_status record = OrderStatus.CANCELED)) /\
  (forall newer fill a older, h = (newer ++ Asked (Recon.SaveFill fill) a :: older)%list ->
     exists order, listed order older /\ isLocalDryRunExchangeArtifact order = true /\
       fill_orderId fill = ord_id order /\
       happened [answered_as (Recon.ListFills (Some (ord_id order))) []] older).
Proof.
  intros [_ Hp]%reconciles_sound. split; intros newer x a older Hh;
    destruct (Hp _ _ _ _ _ Hh) as [_ Hj].
  - destruct Hj as (order & status & at_ & Hl & Ha & Hs & ->). by exists order.
  - destruct Hj as (order & id & price & volume & at_ & Hl & Ha & Hf & ->). by exists order.
Qed.

End Guarantees.
