(* ===== verification/ReconciliationReports.v ===== *)
(** * ReconciliationReports: what a run reports is what the readers accept

    The summary of a run that returns satisfies the strict readers of
    [reconciliation-summary-validation.ts] and [history-recovery-validation.ts],
    which decide whether the pilot may rely on it. *)

From Stdlib Require Import ZArith Lia.
From stdpp Require Import base option list strings.
From S2P Require Import Prelude Num Types Text Timestamp NumText JsMap OrderRecords Effects.
From S2P Require Import ExecutionRecords ReconciliationRecords ReconciliationHelpers.
From S2P Require Import HistoryWindows ReconciliationService ReconciliationTheory.
From S2P Require Import ReconciliationRules ReconciliationRun ReconciliationGuarantees.

Local Open Scope string_scope.
Local Open Scope Z_scope.
Local Open Scope js_scope.
Local Open Scope bool_scope.

Section Reports.
Context (deps : ReconciliationDependencies).

Abbreviation limits := (history_limits deps).

(** What a run is answered and when it ends. *)
Record report_conditions (account : string) (startedAtMs : Z) (completedAt : string)
    (boundary : Z) (h : history) : Prop := {
  report_clock : clock_ok limits startedAtMs;
  report_completed : timestampEpoch completedAt = Some boundary;
  report_order : startedAtMs * 1000000 <= boundary;
  report_pages : Forall page_bounded h;
  report_checkpoints : forall market checkpoint,
    happened [answered_as (Recon.GetHistoryRecoveryCheckpoint account market) checkpoint] h ->
    checkpoint_ok limits startedAtMs checkpoint;
  report_countable : 6 * EXCHANGE_HISTORY_PAGE_LIMIT * history_max_pages deps <= MAX_SAFE_INTEGER;
}.

Lemma scanned_ok w s h :
  scanned deps w s h -> Forall page_bounded h ->
  6 * EXCHANGE_HISTORY_PAGE_LIMIT * history_max_pages deps <= MAX_SAFE_INTEGER ->
  scans_ok w s /\
  Z.of_nat (length (market_snapshots s)) <= 3 * EXCHANGE_HISTORY_PAGE_LIMIT * history_max_pages deps.
Proof.
  intros ([(_ & Ho & Hol) Ho1] & [(_ & Hr & Hrl) Hr1] & (_ & Ha & Hal) & Ha1) Hb Hm.
  specialize (Hol Hb). specialize (Hrl Hb). specialize (Hal Hb). unfold EXCHANGE_HISTORY_PAGE_LIMIT in *.
  assert (Hl : Z.of_nat (length (market_snapshots s)) <= 3 * 20 * history_max_pages deps).
  { unfold market_snapshots. rewrite !length_app. lia. }
  split; [|done]. split; [done|done|done|lia|lia].
Qed.

(** A market of the report. *)
Lemma market_is_strict account startedAtMs completedAt boundary market r h :
  report_conditions account startedAtMs completedAt boundary h ->
  market_recovered deps account startedAtMs (printed_texts limits startedAtMs) market r h ->
  strict_market (expected_instants limits startedAtMs)
    (toISOString (days_before startedAtMs (closedOrderLookbackDays limits)))
    (toISOString startedAtMs) boundary (fst r) = true /\
  mp_market (fst r) = market /\ mp_confidenceLevel (fst r) ≠ Confidence.FAILED /\
  mp_confidenceReason (fst r) ≠ Reason.LOOKUP_FAILED /\
  mp_snapshotCount (fst r) = Z.of_nat (length (snd r)) /\
  Z.of_nat (length (snd r)) <= 3 * EXCHANGE_HISTORY_PAGE_LIMIT * history_max_pages deps.
Proof.
  intros [Hclock _ Hord Hpages Hckpt Hcount] (checkpoint & scans & next & Hc & Hs & Hn & Hp & Hsnd).
  apply Hckpt in Hc. destruct (scanned_ok _ _ _ Hs Hpages Hcount) as [Hok Hl].
  pose proof (history_limits_ok deps) as Hlim.
  destruct (archival_window_bounds _ Hlim _ Hclock _ Hc) as (Hstart & Hend & _).
  destruct (boundaries_in_range _ Hlim _ Hclock) as (_ & _ & _ & _ & Hrec).
  rewrite dateToISOString_in_range in Hn by (apply (in_range_below _ _ Hclock); lia).
  injection Hn as <-. split; [by eapply progress_is_strict|].
  apply market_progress_kind in Hp as (Hm & Hl1 & Hl2 & Hcnt). by rewrite Hsnd.
Qed.

Lemma slice_length {A} limit (l : list A) :
  0 <= limit -> Z.of_nat (length (slice_to limit l)) = Z.min limit (Z.of_nat (length l)).
Proof.
  intros Hl. unfold slice_to. destruct (Z.ltb_spec limit 0); [lia|]. rewrite length_take. lia.
Qed.

Lemma sweep_is_valid candidates source issues historyRecovery :
  let s := run_summary deps source issues (Z.of_nat (length candidates))
    (Z.of_nat (length (slice_to (max_order_lookups deps) (candidates : list ReconciliationCandidate))))
    historyRecovery in
  0 <= max_order_lookups deps -> Z.of_nat (length candidates) <= MAX_SAFE_INTEGER ->
  count Issue.ORDER_LOOKUP_DEFERRED issues
  = (if 0 <? Z.max 0 (sum_candidateCount s - sum_processedCount s) then 1 else 0) ->
  isValidBoundedReconciliationSweep (sum_candidateCount s) (sum_processedCount s)
    (sum_deferredCount s) (sum_maxOrderLookupsPerRun s) (issue_code <$> sum_issues s) = true.
Proof.
  cbv zeta. cbn [run_summary sum_candidateCount sum_processedCount sum_deferredCount
    sum_maxOrderLookupsPerRun sum_issues]. intros Hm Hc Hd.
  unfold isValidBoundedReconciliationSweep. change (countIssueCode (issue_code <$> issues)) with
    (fun code => count code issues). cbv beta. rewrite Hd. rewrite slice_length by done.
  assert (Hsum : Z.min (max_order_lookups deps) (Z.of_nat (length candidates))
    + Z.max 0 (Z.of_nat (length candidates)
               - Z.min (max_order_lookups deps) (Z.of_nat (length candidates)))
    = Z.of_nat (length candidates)) by lia.
  rewrite Hsum, safe_integer, !Z.eqb_refl by lia. rewrite (proj2 (Z.leb_le _ _)) by lia. done.
Qed.

Lemma end_is_start startedAtMs end_ :
  clock_ok limits startedAtMs -> end_of (toISOString startedAtMs) end_ -> end_ = startedAtMs.
Proof.
  intros Hc. unfold end_of. rewrite Date_parse_toISOString by apply Hc.
  intros [[= ->]|H]; [done|discriminate H].
Qed.

(** The report of a history that was read. *)
Lemma read_is_strict account startedAtMs completedAt boundary r n status codes h :
  report_conditions account startedAtMs completedAt boundary h ->
  history_listed deps account (toISOString startedAtMs) r h ->
  0 <= n <= Z.of_nat (length (fst r)) -> status ≠ RunStatus.ERROR ->
  countIssueCode codes Issue.ORDER_HISTORY_LOOKUP_FAILED = 0 ->
  countIssueCode codes Issue.EXCHANGE_ORDER_RECOVERED = n ->
  isStrictHistoryRecoverySummary (with_recovered_count (snd r) n) status codes
    (toISOString startedAtMs) completedAt = true.
Proof.
  intros Hcond (end_ & texts & btc & eth & Hend & Htexts & Hbtc & Heth & Hsnd & Hfst) Hn Hst Hf Hrec.
  pose proof Hcond as [Hclock Hdone Hord _ _ Hcount].
  apply end_is_start in Hend as ->; [|done].
  rewrite (window_texts _ (history_limits_ok deps) _ Hclock) in Htexts. injection Htexts as <-.
  destruct (market_is_strict _ _ _ _ _ _ _ Hcond Hbtc) as (Hs1 & Hm1 & Hl1 & Hr1 & Hc1 & Hb1).
  destruct (market_is_strict _ _ _ _ _ _ _ Hcond Heth) as (Hs2 & Hm2 & Hl2 & Hr2 & Hc2 & Hb2).
  destruct (dedupe_length (snd btc ++ snd eth)) as [Hd Hpos].
  rewrite length_app in Hd, Hpos. apply Permutation_length in Hfst. rewrite length_fmap in Hfst.
  rewrite Hsnd. unfold with_recovered_count. cbn [history_recovery_summary hr_closedOrderLookbackDays
    hr_stopBeforeDays hr_stopBeforeAt hr_retentionAssumptionDays hr_retentionBoundaryAt
    hr_retentionStatus hr_coverageStatus hr_confidenceLevel hr_confidenceReason hr_failureMessage
    hr_scannedSnapshotCount hr_recoveredOrderCount hr_markets].
  eapply (report_is_strict _ (history_limits_ok deps) _ Hclock (fst btc) (fst eth) _ n status codes
    completedAt boundary); try done.
  - by repeat constructor.
  - repeat constructor; try done; lia.
  - unfold EXCHANGE_HISTORY_PAGE_LIMIT in *. lia.
  - lia.
  - lia.
  - lia.
Qed.

Lemma slice_shorter {A} limit (l : list A) : (length (slice_to limit l) <= length l)%nat.
Proof. unfold slice_to. rewrite length_take. lia. Qed.

(** A run that returns and what it reports. *)
Lemma run_reports sha256 localeCompare account options h result startedAtMs
    completedAt boundary :
  let s := result_summary result in
  let record := result_reconciliationRun result in
  reconciles sha256 localeCompare deps account options h (Ok result) ->
  run_startedAt record = toISOString startedAtMs -> run_completedAt record = Some completedAt ->
  report_conditions account startedAtMs completedAt boundary h ->
  0 <= max_order_lookups deps -> sum_candidateCount s <= MAX_SAFE_INTEGER ->
  (sum_status s = run_status record /\ Forall worded (sum_issues s) /\
   exists candidateCount processedCount : nat, sum_candidateCount s = Z.of_nat candidateCount /\
     sum_processedCount s = Z.of_nat processedCount /\
     sum_deferredCount s = Z.max 0 (Z.of_nat candidateCount - Z.of_nat processedCount) /\
     sum_maxOrderLookupsPerRun s = max_order_lookups deps /\
     (processedCount <= candidateCount)%nat) /\
  happened [answered_as (Recon.SaveReconciliationRun record) tt] h /\
  run_summaryJson record = stringify (summary_json s) /\
  (run_status record = RunStatus.SUCCESS <-> sum_issues s = []) /\
  isValidBoundedReconciliationSweep (sum_candidateCount s) (sum_processedCount s)
    (sum_deferredCount s) (sum_maxOrderLookupsPerRun s) (issue_code <$> sum_issues s) = true /\
  (forall report, sum_historyRecovery s = Some report ->
     isStrictHistoryRecoverySummary report (run_status record) (issue_code <$> sum_issues s)
       (run_startedAt record) completedAt = true).
Proof.
  cbv zeta. intros Hrun Hstart Hdone Hcond Hmax Hsafe.
  destruct (reconciles_sound _ _ _ _ _ _ _ Hrun) as [(_ & identity & completed & _ & Hrec & Hsum & Hsave) _].
  rewrite Hrec in Hstart |- *. cbn [run_record run_startedAt] in Hstart.
  rewrite Hstart in Hsum. rewrite Hrec in Hdone. cbn [run_record run_completedAt] in Hdone.
  destruct Hsum as (historyIssues & issues & candidates & recovery & Hs & Hh & Hcounts & Hdef & Hworded).
  cbn [run_record run_status run_startedAt run_summaryJson]. rewrite Hs in Hsafe |- *.
  split; [split; [done|]; split; [done|]; do 2 eexists; split_and!; try reflexivity; apply slice_shorter|].
  split; [by rewrite <- Hs, <- Hrec|]. split; [done|].
  split; [by destruct issues|]. split; [by apply sweep_is_valid|].
  intros report Hreport. rewrite Hstart. cbn [run_summary sum_historyRecovery sum_issues sum_status] in *.
  subst recovery. pose proof (Hcounts Issue.ORDER_HISTORY_LOOKUP_FAILED eq_refl ltac:(done)) as Hf.
  pose proof (Hcounts Issue.EXCHANGE_ORDER_RECOVERED eq_refl ltac:(done)) as Hr.
  remember (historyIssues, Some report) as pair eqn:Hpair. destruct Hh as
    [|r l n Hl (Hn1 & Hn2 & _) Hb|end_ message failed text Hend Hfail]; [done| |];
    injection Hpair as <- <-.
  - eapply read_is_strict; try done; [by destruct issues|by rewrite <- Hn2|by rewrite <- Hn1].
  - pose proof Hcond as [Hclock Hcompleted Hord _ _ _].
    apply end_is_start in Hend as ->; [|done]. destruct issues as [|i issues]; [done|].
    by eapply (failed_report_is_strict _ (history_limits_ok deps) _ Hclock).
Qed.

(** What a run reports is what the readers accept.  A run that returns has
    saved its summary as the record's JSON; its counts are those of a bounded
    sweep, with one deferral reported exactly when candidates were deferred; it
    is a success exactly when it found no issue; and the report of the history
    it read, complete or failed, is accepted by the strict reader, provided the
    run is started at a printed clock time and ends later, the exchange's pages
    keep to their limit and the stored checkpoints lie before the recent
    window. *)
Theorem run_reports_are_accepted sha256 localeCompare account options h result startedAtMs
    completedAt boundary :
  let s := result_summary result in
  let record := result_reconciliationRun result in
  reconciles sha256 localeCompare deps account options h (Ok result) ->
  run_startedAt record = toISOString startedAtMs -> run_completedAt record = Some completedAt ->
  report_conditions account startedAtMs completedAt boundary h ->
  0 <= max_order_lookups deps -> sum_candidateCount s <= MAX_SAFE_INTEGER ->
  happened [answered_as (Recon.SaveReconciliationRun record) tt] h /\
  run_summaryJson record = stringify (summary_json s) /\
  (run_status record = RunStatus.SUCCESS <-> sum_issues s = []) /\
  isValidBoundedReconciliationSweep (sum_candidateCount s) (sum_processedCount s)
    (sum_deferredCount s) (sum_maxOrderLookupsPerRun s) (issue_code <$> sum_issues s) = true /\
  (forall report, sum_historyRecovery s = Some report ->
     isStrictHistoryRecoverySummary report (run_status record) (issue_code <$> sum_issues s)
       (run_startedAt record) completedAt = true).
Proof.
  cbv zeta. intros Hrun Hstart Hdone Hcond Hmax Hsafe.
  destruct (run_reports _ _ _ _ _ _ _ _ _ Hrun Hstart Hdone Hcond Hmax Hsafe) as [_ H]. exact H.
Qed.

End Reports.
