(* ===== verification/ReconciliationScenarios.v ===== *)
(** * ReconciliationScenarios: runs of reconciliation on concrete answers

    One run over a database with an order for every case: an open order the
    exchange has filled, an order whose submission left no trace, an open order
    the exchange does not know, an artifact of a dry run, and an order only the
    exchange knows; and the same run when the ownership is lost in the middle.
    The theorems of [ReconciliationGuarantees] and [ReconciliationReports] apply
    to them. *)

From Stdlib Require Import ZArith Lia.
From stdpp Require Import base option list strings.
From S2P Require Import Prelude Num Types Text Timestamp NumText JsMap Json SubmissionBlocking.
From S2P Require Import OperatorState PilotScenarios OrderRecords OrderRepository OrderTheory.
From S2P Require Import Effects ExecutionRecords ExecutionHelpers SnapshotBinding.
From S2P Require Import ReconciliationRecords ReconciliationHelpers HistoryWindows PortfolioDrift.
From S2P Require Import ReconciliationService ReconciliationTheory ReconciliationRules.
From S2P Require Import ReconciliationRun ReconciliationGuarantees ReconciliationReports.
From S2P Require Import ExecutionService ExecutionScenarios.

Local Open Scope string_scope.
Local Open Scope js_scope.
Local Open Scope bool_scope.

(** ** The database *)

Definition recon_instant : string := "2026-08-21T04:00:00.000Z".
Definition recon_instant_ms : Z := 1787284800000.

Definition stored_order (id identifier : string) (uuid : option string)
    (status : OrderLifecycleStatus) : OrderRecord := {|
  ord_id := id; ord_strategyDecisionId := None; ord_exchangeAccountId := "primary";
  ord_market := Market.KRW_BTC; ord_side := Side.bid; ord_ordType := OrdType.price;
  ord_volume := None; ord_price := Some "50000"; ord_timeInForce := None; ord_smpType := None;
  ord_identifier := identifier; ord_idempotencyKey := "key:" ++ id;
  ord_origin := Origin.OPERATOR; ord_requestedAt := "2026-08-21T03:00:00.000Z";
  ord_upbitUuid := uuid; ord_status := status; ord_executionMode := Mode.LIVE;
  ord_exchangeResponseJson := None; ord_failureCode := None; ord_failureMessage := None;
  ord_createdAt := "2026-08-21T03:00:00.000Z"; ord_updatedAt := "2026-08-21T03:00:00.000Z";
|}.

Definition filled_order := stored_order "filled" "i-filled" (Some "u-filled") OrderStatus.OPEN.
Definition lost_order := stored_order "lost" "i-lost" None OrderStatus.SUBMITTING.
Definition unknown_order := stored_order "unknown" "i-unknown" (Some "u-unknown") OrderStatus.OPEN.
Definition dry_run_order := stored_order "dry" "i-dry" (Some "dryrun_1") OrderStatus.OPEN.

Definition sample_database : list OrderRecord :=
  [filled_order; lost_order; unknown_order; dry_run_order].

(** ** The exchange *)

Definition sample_fill : ExchangeFillSnapshot := {|
  xfill_tradeUuid := Some "t-1"; xfill_side := Side.bid; xfill_price := "100000000";
  xfill_volume := "0.0005"; xfill_funds := Some "50000"; xfill_fee := None;
  xfill_createdAt := Some "2026-08-21T03:00:01.000Z"; xfill_raw := JObj [];
|}.

Definition exchange_order (uuid identifier : string) : ExchangeOrderSnapshot := {|
  xorder_uuid := uuid; xorder_identifier := Some identifier; xorder_market := Market.KRW_BTC;
  xorder_side := Side.bid; xorder_ordType := OrdType.price; xorder_state := "done";
  xorder_price := Some "50000"; xorder_volume := None; xorder_timeInForce := None;
  xorder_smpType := None; xorder_remainingVolume := None; xorder_executedVolume := Some "0.0005";
  xorder_paidFee := Some "25"; xorder_createdAt := "2026-08-21T03:00:00.000Z";
  xorder_fills := [sample_fill]; xorder_raw := JObj []; xorder_json := JNull;
|}.

Definition sample_lookup (query : ExchangeOrderLookupIdentity) : option ExchangeOrderSnapshot :=
  if query_uuid query === Some "u-filled" then Some (exchange_order "u-filled" "i-filled") else None.

(** Two absences, a minute and more apart. *)
Definition absence_at (id : string) (ms : Z) : OrderSubmissionRecoveryObservationRecord := {|
  obs_id := id; obs_orderId := "lost"; obs_outcome := Recovery.NOT_FOUND;
  obs_observedAt := toISOString ms; obs_observedAtEpochMs := ms; obs_detailJson := "{}";
  obs_createdAt := toISOString ms;
|}.

Definition sample_observations : list OrderSubmissionRecoveryObservationRecord :=
  [absence_at "o-1" (recon_instant_ms - 90000); absence_at "o-2" recon_instant_ms].

(** ** The environment *)

Definition sample_state : ExecutionStateRecord := {|
  es_id := "state"; es_exchangeAccountId := "primary"; es_executionMode := Mode.LIVE;
  es_liveExecutionGate := Gate.ENABLED; es_systemStatus := SysStatus.RUNNING;
  es_killSwitchActive := false; es_pauseReason := None; es_degradedReason := None;
  es_degradedAt := None; es_updatedAt := "2026-08-21T00:00:00.000Z";
|}.

(** The ownership is held for a number of calls; a remark may be refused. *)
Definition recon_answers (held_for : nat) (remark : result js_error Persisted.PersistOutcome)
    (h : history) (B : Type) (e : Recon.call B) : result js_error B :=
  match e in Recon.call B return result js_error B with
  | Recon.NewDate => Ok recon_instant
  | Recon.DateNow => Ok recon_instant_ms
  | Recon.RecoveryClockNow =>
      Ok {| observedAt := recon_instant; observedAtEpochMs := recon_instant_ms |}
  | Recon.CreateId prefix => Ok (prefix ++ "_" ++ Z_to_string (Z.of_nat (length h)))
  | Recon.AssertLocallyHeld =>
      if (length h <? held_for)%nat then Ok tt
      else Err (PlainError "RUNTIME_OWNERSHIP_LOST: heartbeat")
  | Recon.ListActiveOrders _ => Ok sample_database
  | Recon.ListOrders _ => Ok sample_database
  | Recon.FindOrderById _ _ => Ok None
  | Recon.ListOrderEvents _ => Ok []
  | Recon.ListFills _ => Ok []
  | Recon.GetLatestPositionSnapshot _ => Ok None
  | Recon.GetHistoryRecoveryCheckpoint _ _ => Ok None
  | Recon.ListOrderSubmissionRecoveryObservations _ => Ok sample_observations
  | Recon.SaveOrder _ | Recon.UpdateOrder _ | Recon.AppendOrderEvent _ | Recon.SaveFill _
  | Recon.SaveRiskEvent _ | Recon.SaveHistoryRecoveryCheckpoint _
  | Recon.SaveOrderSubmissionRecoveryObservation _ | Recon.SaveReconciliationRun _
  | Recon.Report _ => Ok tt
  | Recon.PersistReconciledExchangeSnapshot _ =>
      Ok {| snap_outcome := Persisted.APPLIED; snap_insertedFillCount := 1 |}
  | Recon.PersistReconciliationRecovery _ => remark
  | Recon.FinalizeBoundedSubmissionAbsence _ => Ok true
  | Recon.PersistCandidateProjectionFault _ => Ok Persisted.APPLIED
  | Recon.GetState => Ok sample_state
  | Recon.GetOrder query => Ok (sample_lookup query)
  | Recon.ListOpenOrders _ => Ok []
  | Recon.ListClosedOrders query =>
      Ok (if hq_market query === Market.KRW_BTC
          then [exchange_order "u-filled" "i-filled"; exchange_order "u-new" "i-new"] else [])
  | Recon.ClassifyTerminalOrderForSweep _ => Ok ELIGIBLE
  | Recon.ProcessTerminalOrder _ => Ok {| projection_fault := false; projection_detail := "" |}
  end.

Lemma recon_answers_may held_for remark h B (e : Recon.call B) :
  may_answer B e (recon_answers held_for remark h B e).
Proof.
  destruct e; try exact I.
  - unfold recon_answers. by destruct (length h <? held_for)%nat.
  - cbn. by destruct remark.
Qed.

Definition sample_dependencies : ReconciliationDependencies := {|
  rdep_hasOrderReader := true; rdep_hasOrderHistoryReader := true; rdep_hasReporter := true;
  rdep_hasCandidateEvidence := true; rdep_hasSweepClassification := true;
  rdep_hasRecoveryClock := true; rdep_hasObservations := true; rdep_hasPersistSnapshot := true;
  rdep_hasPersistRecovery := true; rdep_hasFinalizer := true; rdep_hasProjectionFault := true;
  rdep_maxOrderLookupsPerRun := None; rdep_historyMaxPagesPerMarket := None;
  rdep_closedOrderLookbackDays := None; rdep_historyStopBeforeDays := None;
  rdep_historyRetentionAssumptionDays := None; rdep_identifierRecovery := None;
  rdep_maxTerminalCandidateProjectionsPerRun := None;
|}.

Definition sample_options : ReconciliationRunOptions :=
  {| opt_source := None; opt_portfolioSnapshots := None; opt_runIdentity := None |}.

Definition recon_exec (held_for : nat) (remark : result js_error Persisted.PersistOutcome)
    : history * (unit * result js_error ReconciliationRunResult) :=
  exec (recon_answers held_for remark)
    (runWithRecord sample_sha256 string_compare sample_dependencies "primary" sample_options tt) [].

Definition recon_calls held_for remark : history := fst (recon_exec held_for remark).
Definition recon_result held_for remark : result js_error ReconciliationRunResult :=
  snd (snd (recon_exec held_for remark)).

Lemma recon_runs held_for remark :
  reconciles sample_sha256 string_compare sample_dependencies "primary" sample_options
    (recon_calls held_for remark) (recon_result held_for remark).
Proof.
  unfold reconciles, recon_calls, recon_result, recon_exec.
  set (p := runWithRecord _ _ _ _ _ _).
  pose proof (exec_runs may_answer (recon_answers held_for remark) p []
    (recon_answers_may held_for remark)) as H.
  destruct (exec _ p []) as [h [[] r]]. exact H.
Qed.

(** The run in which nothing goes wrong. *)
Abbreviation sample_calls := (recon_calls 1000 (Ok Persisted.APPLIED)).

(** What it reports. *)
Example sample_issues :
  match recon_result 1000 (Ok Persisted.APPLIED) with
  | Ok r => issue_code <$> sum_issues (result_summary r)
  | Err _ => []
  end
  = [Issue.DRY_RUN_ORDER_REPAIRED; Issue.EXCHANGE_ORDER_RECOVERED; Issue.ORDER_FILLS_BACKFILLED;
     Issue.ORDER_STATUS_RECONCILED; Issue.ORDER_FILLS_BACKFILLED; Issue.ORDER_MARKED_FOR_RECOVERY;
     Issue.ORDER_SUBMISSION_ABSENCE_CONFIRMED].
Proof. vm_compute. reflexivity. Qed.

(** ** The calls of a run *)

Section Split.
Context {I T : Type} (make : I -> Recon.call T).
Context (select : forall B, Recon.call B -> result js_error B -> option (I * result js_error T)).

(** The newest call of a kind, with the calls after and before it. *)
Fixpoint split_call (h : history) : option (history * (I * result js_error T) * history) :=
  match h with
  | [] => None
  | Asked e r as ev :: h' =>
      match select _ e r with
      | Some found => Some ([], found, h')
      | None => match split_call h' with
                | Some (newer, found, older) => Some (ev :: newer, found, older)
                | None => None
                end
      end
  end.

Context (Hselect : forall B (e : Recon.call B) r input a,
  select B e r = Some (input, a) -> (Asked e r : event) = Asked (make input) a).

Lemma split_call_eq h newer input a older :
  split_call h = Some (newer, (input, a), older) ->
  h = (newer ++ Asked (make input) a :: older)%list.
Proof.
  revert newer. induction h as [|[B e r] h IH]; intros newer H; [done|]. cbn in H.
  destruct (select B e r) as [found|] eqn:Hs.
  - injection H as <- -> <-. by rewrite (Hselect _ _ _ _ _ Hs).
  - destruct (split_call h) as [[[n f] o]|]; [|done]. injection H as <- -> ->.
    cbn. by rewrite (IH _ eq_refl).
Qed.

End Split.

Definition select_snapshot B (e : Recon.call B) (r : result js_error B)
    : option (PersistReconciledExchangeSnapshotInput
              * result js_error PersistReconciledExchangeSnapshotResult) :=
  match e in Recon.call B return result js_error B -> _ with
  | Recon.PersistReconciledExchangeSnapshot input => fun r => Some (input, r)
  | _ => fun _ => None
  end r.

Definition select_marking B (e : Recon.call B) (r : result js_error B)
    : option (PersistReconciliationRecoveryInput * result js_error Persisted.PersistOutcome) :=
  match e in Recon.call B return result js_error B -> _ with
  | Recon.PersistReconciliationRecovery input => fun r => Some (input, r)
  | _ => fun _ => None
  end r.

Definition select_absence B (e : Recon.call B) (r : result js_error B)
    : option (FinalizeBoundedSubmissionAbsenceInput * result js_error bool) :=
  match e in Recon.call B return result js_error B -> _ with
  | Recon.FinalizeBoundedSubmissionAbsence input => fun r => Some (input, r)
  | _ => fun _ => None
  end r.

Definition select_creation B (e : Recon.call B) (r : result js_error B)
    : option (OrderRecord * result js_error unit) :=
  match e in Recon.call B return result js_error B -> _ with
  | Recon.SaveOrder record => fun r => Some (record, r)
  | _ => fun _ => None
  end r.

Definition select_update B (e : Recon.call B) (r : result js_error B)
    : option (OrderRecord * result js_error unit) :=
  match e in Recon.call B return result js_error B -> _ with
  | Recon.UpdateOrder record => fun r => Some (record, r)
  | _ => fun _ => None
  end r.

Ltac solve_select := intros B e r input a; destruct e; try done; by intros [= -> ->].

Lemma select_snapshot_ok B (e : Recon.call B) r input a :
  select_snapshot B e r = Some (input, a) ->
  (Asked e r : event) = Asked (Recon.PersistReconciledExchangeSnapshot input) a.
Proof. revert B e r input a. solve_select. Qed.

Lemma select_marking_ok B (e : Recon.call B) r input a :
  select_marking B e r = Some (input, a) ->
  (Asked e r : event) = Asked (Recon.PersistReconciliationRecovery input) a.
Proof. revert B e r input a. solve_select. Qed.

Lemma select_absence_ok B (e : Recon.call B) r input a :
  select_absence B e r = Some (input, a) ->
  (Asked e r : event) = Asked (Recon.FinalizeBoundedSubmissionAbsence input) a.
Proof. revert B e r input a. solve_select. Qed.

Lemma select_creation_ok B (e : Recon.call B) r input a :
  select_creation B e r = Some (input, a) ->
  (Asked e r : event) = Asked (Recon.SaveOrder input) a.
Proof. revert B e r input a. solve_select. Qed.

Lemma select_update_ok B (e : Recon.call B) r input a :
  select_update B e r = Some (input, a) ->
  (Asked e r : event) = Asked (Recon.UpdateOrder input) a.
Proof. revert B e r input a. solve_select. Qed.

(** The found call of a split, or nothing. *)
Definition found_call {I T} (split : option (history * (I * result js_error T) * history))
    : option I := (fun '(_, (input, _), _) => input) <$> split.

Abbreviation snapshot_split := (split_call select_snapshot sample_calls).
Abbreviation marking_split := (split_call select_marking sample_calls).
Abbreviation absence_split := (split_call select_absence sample_calls).
Abbreviation creation_split := (split_call select_creation sample_calls).
Abbreviation update_split := (split_call select_update sample_calls).


Lemma marked_when_unresolved_witness :
  (fun input => ord_id (rec_order input)) <$> found_call marking_split = Some "unknown" /\
  match marking_split with
  | Some (_, (input, _), older) =>
      unresolved (rec_expectedOrder input) older /\
      ord_status (rec_order input) = OrderStatus.RECONCILIATION_REQUIRED
  | None => False
  end.
Proof.
  assert (Hid : (fun input => ord_id (rec_order input)) <$> found_call marking_split = Some "unknown")
    by (vm_compute; reflexivity).
  split; [exact Hid|].
  destruct marking_split as [[[newer [input a]] older]|] eqn:Hs; [|discriminate Hid].
  destruct (marked_when_unresolved sample_sha256 string_compare sample_dependencies "primary"
    sample_options sample_calls _ newer input a older (recon_runs 1000 (Ok Persisted.APPLIED))
    (split_call_eq _ _ select_marking_ok _ _ _ _ _ Hs)) as (_ & Hu & _ & _ & Hst & _).
  split; [exact Hu|exact Hst].
Defined.


Lemma orders_are_created_once_witness :
  ord_upbitUuid <$> found_call creation_split = Some (Some "u-new") /\
  NoDup (omap saved_uuid sample_calls) /\
  match creation_split with
  | Some (_, (record, _), older) =>
      exists snapshot, recovered_from sample_sha256 record snapshot older
  | None => False
  end.
Proof.
  assert (Hid : ord_upbitUuid <$> found_call creation_split = Some (Some "u-new"))
    by (vm_compute; reflexivity).
  destruct (orders_are_created_once sample_sha256 string_compare sample_dependencies "primary"
    sample_options sample_calls _ (recon_runs 1000 (Ok Persisted.APPLIED))) as [Hn Hc].
  split; [exact Hid|]. split; [exact Hn|].
  destruct creation_split as [[[newer [input a]] older]|] eqn:Hs; [|discriminate Hid].
  destruct (Hc newer input a older (split_call_eq _ _ select_creation_ok _ _ _ _ _ Hs))
    as (snapshot & _ & _ & Hf & _).
  exists snapshot. exact Hf.
Defined.

Lemma only_dry_runs_are_rewritten_witness :
  (fun record => (ord_id record, ord_status record)) <$> found_call update_split
    = Some ("dry", OrderStatus.FILLED) /\
  match update_split with
  | Some (_, (record, _), older) =>
      exists order, listed order older /\ isLocalDryRunExchangeArtifact order = true /\
        identity order = identity record
  | None => False
  end.
Proof.
  assert (Hid : (fun record => (ord_id record, ord_status record)) <$> found_call update_split
    = Some ("dry", OrderStatus.FILLED)) by (vm_compute; reflexivity).
  split; [exact Hid|].
  destruct update_split as [[[newer [input a]] older]|] eqn:Hs; [|discriminate Hid].
  destruct (only_dry_runs_are_rewritten sample_sha256 string_compare sample_dependencies "primary"
    sample_options sample_calls _ (recon_runs 1000 (Ok Persisted.APPLIED))) as [Hu _].
  destruct (Hu newer input a older (split_call_eq _ _ select_update_ok _ _ _ _ _ Hs))
    as (order & Hl & Ha & Hi & _).
  exists order. split_and!; [exact Hl|exact Ha|exact Hi].
Defined.

(** ** A run that loses its ownership *)

(** [ownership_final], computed. *)
Fixpoint stays_lost (h : history) : bool :=
  match h with
  | [] => true
  | ev :: h' => (negb (is_held ev) || negb (existsb is_lost h')) && stays_lost h'
  end.

Lemma stays_lost_final h : stays_lost h = true -> ownership_final h.
Proof.
  intros Hs newer. revert h Hs. induction newer as [|ev newer IH]; intros h Hs lost older -> Hl; [done|].
  cbn in *. apply andb_true_iff in Hs as [Hev Hs]. rewrite (IH _ Hs lost older eq_refl Hl), orb_false_r.
  rewrite existsb_app in Hev. cbn in Hev. rewrite Hl, orb_true_r in Hev. by destruct (is_held ev).
Qed.

Abbreviation lost_calls := (recon_calls 30 (Ok Persisted.APPLIED)).

(** The calls after the ownership was lost, and the others. *)
Fixpoint split_lost (h : history) : option (history * event * history) :=
  match h with
  | [] => None
  | ev :: h' =>
      if is_lost ev then Some ([], ev, h')
      else match split_lost h' with
           | Some (newer, lost, older) => Some (ev :: newer, lost, older)
           | None => None
           end
  end.

Lemma split_lost_eq h newer lost older :
  split_lost h = Some (newer, lost, older) ->
  h = (newer ++ lost :: older)%list /\ is_lost lost = true.
Proof.
  revert newer. induction h as [|ev h IH]; intros newer H; [done|]. cbn in H.
  destruct (is_lost ev) eqn:He; [by injection H as <- <- <-|].
  destruct (split_lost h) as [[[n l] o]|]; [|done]. injection H as <- -> ->.
  destruct (IH _ eq_refl) as [-> Hl]. done.
Qed.

Lemma reconciliation_is_fenced_witness :
  existsb is_lost lost_calls = true /\ existsb is_dependency lost_calls = true /\
  match split_lost lost_calls with
  | Some (newer, _, _) => existsb is_dependency newer = false
  | None => False
  end /\
  is_ok (recon_result 30 (Ok Persisted.APPLIED)) = false.
Proof.
  assert (Hl : existsb is_lost lost_calls = true) by (vm_compute; reflexivity).
  assert (Hf : ownership_final lost_calls) by (apply stays_lost_final; vm_compute; reflexivity).
  destruct (reconciliation_is_fenced sample_sha256 string_compare sample_dependencies "primary"
    sample_options lost_calls _ (recon_runs 30 (Ok Persisted.APPLIED))) as (_ & _ & Hnone).
  assert (Hsome : is_Some (split_lost lost_calls)) by (vm_compute; eexists; reflexivity).
  split; [exact Hl|]. split; [vm_compute; reflexivity|].
  destruct (split_lost lost_calls) as [[[newer lost] older]|] eqn:Hs;
    [|destruct Hsome as [? Hsome]; discriminate Hsome].
  destruct (split_lost_eq _ _ _ _ Hs) as [Hh Hlost].
  destruct (Hnone Hf newer lost older Hh Hlost) as [Hd Hr]. split; [exact Hd|exact Hr].
Defined.

(** ** The report *)

Definition default_result : ReconciliationRunResult :=
  let summary := run_summary sample_dependencies None [] 0 0 None in
  {| result_summary := summary;
     result_reconciliationRun :=
       run_record {| identity_id := ""; identity_startedAt := "" |} "" "" summary |}.

Definition sample_result : ReconciliationRunResult :=
  match recon_result 1000 (Ok Persisted.APPLIED) with Ok r => r | Err _ => default_result end.

Lemma sample_result_eq : recon_result 1000 (Ok Persisted.APPLIED) = Ok sample_result.
Proof.
  unfold sample_result. assert (H : is_ok (recon_result 1000 (Ok Persisted.APPLIED)) = true)
    by (vm_compute; reflexivity).
  by destruct (recon_result 1000 (Ok Persisted.APPLIED)).
Qed.

(** Every answer of a run is one the environment gives. *)
Lemma recon_answered held_for remark B (e : Recon.call B) r :
  (Asked e r : event) ∈ recon_calls held_for remark ->
  exists h, r = recon_answers held_for remark h B e.
Proof.
  intros Hin. pose proof (exec_answers (recon_answers held_for remark)
    (runWithRecord sample_sha256 string_compare sample_dependencies "primary" sample_options tt) []
    (Forall_nil_2 _)) as H.
  rewrite Forall_forall in H. exact (H _ Hin).
Qed.

Lemma answer_is_bounded held_for remark h B (e : Recon.call B) :
  page_bounded (Asked e (recon_answers held_for remark h B e)).
Proof. destruct e; try exact I; cbn; [done|]. by case_bool_decide. Qed.

Lemma recon_pages held_for remark : Forall page_bounded (recon_calls held_for remark).
Proof.
  apply Forall_forall. intros [B e r] Hin. apply recon_answered in Hin as [h ->].
  apply answer_is_bounded.
Qed.

Lemma recon_checkpoints held_for remark market checkpoint :
  happened [answered_as (Recon.GetHistoryRecoveryCheckpoint "primary" market) checkpoint]
    (recon_calls held_for remark) -> checkpoint = None.
Proof.
  intros (ev & Hin & ->)%happened_in. apply recon_answered in Hin as [h Hr]. by injection Hr.
Qed.

Lemma sample_conditions :
  report_conditions sample_dependencies "primary" recon_instant_ms recon_instant
    1787284800000000000 sample_calls.
Proof.
  split; [|vm_compute; reflexivity|vm_compute; discriminate
    |exact (recon_pages 1000 (Ok Persisted.APPLIED))| |vm_compute; discriminate].
  - split; vm_compute; try split; discriminate.
  - intros market checkpoint Hin.
    rewrite (recon_checkpoints 1000 (Ok Persisted.APPLIED) market checkpoint Hin). by intros c t.
Qed.

Lemma run_reports_are_accepted_witness :
  match sum_historyRecovery (result_summary sample_result) with
  | Some report =>
      hr_recoveredOrderCount report = 1%Z /\
      isStrictHistoryRecoverySummary report RunStatus.DRIFT_DETECTED
        (issue_code <$> sum_issues (result_summary sample_result)) recon_instant recon_instant = true
  | None => False
  end.
Proof.
  assert (Hs : run_startedAt (result_reconciliationRun sample_result) = recon_instant)
    by (vm_compute; reflexivity).
  assert (Hc : run_status (result_reconciliationRun sample_result) = RunStatus.DRIFT_DETECTED)
    by (vm_compute; reflexivity).
  pose proof (recon_runs 1000 (Ok Persisted.APPLIED)) as Hrun. rewrite sample_result_eq in Hrun.
  destruct (run_reports_are_accepted sample_dependencies sample_sha256 string_compare "primary"
    sample_options sample_calls sample_result recon_instant_ms recon_instant 1787284800000000000 Hrun
    ltac:(vm_compute; reflexivity) ltac:(vm_compute; reflexivity) sample_conditions
    ltac:(vm_compute; discriminate) ltac:(vm_compute; discriminate)) as (_ & _ & _ & _ & Hstrict).
  assert (Hn : hr_recoveredOrderCount <$> sum_historyRecovery (result_summary sample_result) = Some 1%Z)
    by (vm_compute; reflexivity).
  destruct (sum_historyRecovery (result_summary sample_result)) as [report|]; [|discriminate Hn].
  split; [injection Hn as Hn; exact Hn|]. rewrite <- Hc. rewrite <- Hs at 1. apply Hstrict. reflexivity.
Defined.

(** ** Where reconciliation and its neighbours disagree

    Concrete inputs on which the code does not do what it is for: an order that
    was marked for recovery once cannot be marked again, a fill that submission
    stored is refused when reconciliation reads it, and the volume a bid by price
    is repaired with; and the theorems about the portfolio on two snapshots. *)

(** ** Marking an order again *)

Definition corrupt_children (order : OrderRecord) : string :=
  "Corrupt partial reconciliation recovery children for order " ++ ord_id order ++ ".".

(** An order with an earlier recovery event, of whatever time, is not marked. *)
Lemma remark_is_refused order message at_ eventId riskId events risks earlier :
  ord_status order ≠ OrderStatus.RECONCILIATION_REQUIRED ->
  earlier ∈ events -> has_type "RECONCILIATION_RECOVERY_REQUIRED" earlier = true ->
  validateReconciliationRecoveryCompletion order (order_for_recovery order message at_)
    {| rec_expectedOrder := order; rec_order := order_for_recovery order message at_;
       rec_event := recon_event eventId (ord_id order) "RECONCILIATION_RECOVERY_REQUIRED"
                      (JObj [("reason", JStr message)]) at_;
       rec_riskEvent := createRecoveryRiskEvent riskId order message at_ |} events risks
  = Throw (corrupt_children order).
Proof.
  intros Hst Hin Ht. unfold validateReconciliationRecoveryCompletion.
  assert (Hid : validateOrderIdentity order (order_for_recovery order message at_) = Ret tt)
    by by apply validate_identity_iff.
  rewrite Hid. cbn [mbind outcome_bind]. cbv zeta.
  rewrite (bool_decide_eq_false_2 (order = _)); [|intros Heq; apply Hst; by rewrite Heq].
  destruct (List.filter (has_type "RECONCILIATION_RECOVERY_REQUIRED") events) eqn:Hf; [|done].
  apply list_elem_of_In in Hin. assert (Hn : In earlier []); [|done].
  rewrite <- Hf. by apply filter_In.
Qed.

(** The refusal is not caught: it ends the run, which saves no record. *)
Example refused_remark_aborts_the_run :
  let remark := Err (PlainError (corrupt_children unknown_order)) in
  recon_result 1000 remark = Err (PlainError (corrupt_children unknown_order)) /\
  existsb (fun ev => match ev with
                     | Asked e _ => match e with Recon.SaveReconciliationRun _ => true | _ => false end
                     end) (recon_calls 1000 remark) = false.
Proof. split; vm_compute; reflexivity. Qed.

(** ** Fills that submission stored *)

Definition stored_fill : result js_error FillRecord :=
  snd (snd (exec (ExecutionScenarios.answers ExecutionScenarios.filled)
              (exchange_fill filled_order sample_fill initial_locals) [])).

(** The same fill of the same order, read by reconciliation, conflicts with what
    submission stored when the exchange gives the fee of the order only. *)
Example stored_fill_conflicts :
  match stored_fill with
  | Ok stored =>
      resolveImmutableFillReplay (Some stored)
        (buildFillRecord "fill_2" filled_order sample_fill (Some "25"))
      = Throw "Conflicting duplicate fill t-1."
  | Err _ => False
  end.
Proof. vm_compute. reflexivity. Qed.

(** ** Repairs of bids by price *)

(** The price of a bid by price is the KRW it spends; the repair takes it for the
    price of the asset, so that the volume is one, at whatever it spent. *)
Example bid_by_price_is_repaired_with_one :
  match exec (recon_answers 1000 (Ok Persisted.APPLIED))
          (createDryRunRepairFill dry_run_order recon_instant tt) [] with
  | (_, (_, Ok (Some fill))) => fill_price fill = "50000" /\ fill_volume fill = "1.00000000"
  | _ => False
  end.
Proof. vm_compute. by split. Qed.

(** ** Snapshots of the portfolio *)

Definition balance_at (at_ : string) (krw : string) : BalanceSnapshotRecord := {|
  bal_id := at_; bal_exchangeAccountId := "primary"; bal_capturedAt := at_;
  bal_source := SOURCE_EXCHANGE_POLL; bal_totalKrwValue := None;
  bal_balancesJson := stringify (JArr
    [JObj [("currency", JStr "KRW"); ("balance", JStr krw); ("locked", JStr "0")]]);
|}.

Definition buy_at (id at_ : string) : FillRecord := {|
  fill_id := id; fill_orderId := "order"; fill_exchangeFillId := id; fill_market := Market.KRW_BTC;
  fill_side := Side.bid; fill_price := "100000000"; fill_volume := "0.0005";
  fill_feeCurrency := Some "KRW"; fill_feeAmount := Some "25"; fill_feeProvenance := None;
  fill_executionTimestampProvenance := None; fill_executionEpochNs := None; fill_filledAt := at_;
  fill_rawPayloadJson := "{}";
|}.

Definition sample_buys : list FillRecord :=
  [buy_at "early" "2026-08-21T02:59:59.500Z"; buy_at "first" "2026-08-21T03:30:00.000Z";
   buy_at "border" "2026-08-21T04:00:00.000Z"; buy_at "last" "2026-08-21T04:30:00.000Z"].

Lemma every_fill_counts_once_witness :
  selectFillsWithinSnapshotWindow sample_buys "2026-08-21T03:00:00.000Z" "2026-08-21T05:00:00.000Z" 0
  ≡ₚ (selectFillsWithinSnapshotWindow sample_buys "2026-08-21T03:00:00.000Z" recon_instant 0
      ++ selectFillsWithinSnapshotWindow sample_buys recon_instant "2026-08-21T05:00:00.000Z" 0)%list.
Proof.
  exact (proj1 (every_fill_counts_once "2026-08-21T03:00:00.000Z" recon_instant
    "2026-08-21T05:00:00.000Z" 1787281200000 1787284800000 1787288400000
    ltac:(vm_compute; reflexivity) ltac:(vm_compute; reflexivity) ltac:(vm_compute; reflexivity)
    sample_buys ltac:(lia))).
Defined.

(** Three bids are paid; the snapshots tell of two, and of one more. *)
Definition sample_snapshots (krw : string) : PortfolioSnapshots := {|
  previousBalanceSnapshot := Some (balance_at "2026-08-21T03:00:00.000Z" "1000000");
  currentBalanceSnapshot := Some (balance_at recon_instant krw);
  previousPositionSnapshot := None; currentPositionSnapshot := None;
|}.

Definition sample_evaluation (krw : string) : PortfolioDriftEvaluation :=
  match detectPortfolioDrift (sample_snapshots krw) sample_buys with
  | Ret e => e
  | Throw _ => {| findings := []; comparedBalance := false; comparedPositions := false |}
  end.

Definition sample_holdings (krw : string) : Holdings :=
  match parseManagedBalances (Some (balance_at recon_instant krw)) with
  | Ret (Some h) => h
  | _ => no_holdings
  end.

(** What two bids cost is explained; what three cost is, with the bid of the
    second before; what four cost is not. *)
Example drifts :
  (length (findings (sample_evaluation "899950")), length (findings (sample_evaluation "849925")),
   length (findings (sample_evaluation "799900"))) = (0, 0, 1)%nat.
Proof. vm_compute. reflexivity. Qed.

Lemma explained_changes_are_no_drift_witness :
  comparedBalance (sample_evaluation "799900") = true /\
  Exists (fun f => drift_code f = BALANCE_DRIFT) (findings (sample_evaluation "799900")).
Proof.
  destruct (explained_changes_are_no_drift (sample_snapshots "799900") sample_buys
    (sample_evaluation "799900") ltac:(vm_compute; reflexivity)) as [Hb _].
  destruct (Hb (balance_at "2026-08-21T03:00:00.000Z" "1000000") (balance_at recon_instant "799900")
    (sample_holdings "1000000") (sample_holdings "799900") ltac:(reflexivity) ltac:(reflexivity)
    ltac:(vm_compute; reflexivity) ltac:(vm_compute; reflexivity)) as [Hc Hd].
  split; [exact Hc|]. apply Hd. split; vm_compute; reflexivity.
Defined.
