(* ===== verification/ReportReader.v ===== *)
(** * ReportReader: stored reconciliation reports

    The readers of [modules/reconciliation/history-recovery-validation.ts] on
    values of any shape: a report is read into its record only if it has exactly
    the record's keys with values of their types.  The reader inverts the
    printer, so a report a run stores is the report that is read. *)

From Stdlib Require Import ZArith Lia.
From stdpp Require Import base option list strings.
From S2P Require Import Prelude Num Types Text Timestamp NumText JsMap Json JsonText.
From S2P Require Import OrderRecords ReconciliationRecords HistoryWindows.

Local Open Scope string_scope.
Local Open Scope js_scope.
Local Open Scope bool_scope.

(** ** Fields *)

(** The literal of the list a text is. *)
Definition oneOf {A} (to_string : A -> string) (allowed : list A) (text : string) : option A :=
  List.find (fun x => to_string x === text) allowed.

Definition enum_field {A} (to_string : A -> string) (allowed : list A) (key : string)
    (fields : jsmap string json) : option A :=
  (map_get key fields ≫= json_string) ≫= oneOf to_string allowed.

Definition text_field (key : string) (fields : jsmap string json) : option string :=
  map_get key fields ≫= json_string.

(** [null] or a text *)
Definition nullable_field (key : string) (fields : jsmap string json) : option (option string) :=
  match map_get key fields with
  | Some JNull => Some None
  | Some (JStr s) => Some (Some s)
  | _ => None
  end.

Definition bool_field (key : string) (fields : jsmap string json) : option bool :=
  match map_get key fields with Some (JBool b) => Some b | _ => None end.

(** [nonNegativeSafeInteger(fields[key])] *)
Definition count_field (key : string) (fields : jsmap string json) : option Z :=
  z ← map_get key fields ≫= json_integer;
  if nonNegativeSafeInteger z then Some z else None.

Definition exactDataRecord (value : json) (keys : list string) : option (jsmap string json) :=
  match value with
  | JObj fields => if exact_keys fields keys then Some fields else None
  | _ => None
  end.

Definition denseDataArray (value : json) : option (list json) :=
  match value with JArr l => Some l | _ => None end.

(** ** The report of a history *)

Definition retention_statuses : list Retention.RetentionStatus :=
  [Retention.WITHIN_ASSUMED_RETENTION; Retention.BEYOND_ASSUMED_RETENTION].

Definition coverage_statuses : list Coverage.CoverageStatus :=
  [Coverage.IN_PROGRESS; Coverage.COMPLETE].

Definition confidence_levels : list Confidence.ConfidenceLevel :=
  [Confidence.HIGH; Confidence.PARTIAL; Confidence.FAILED].

Definition confidence_reasons : list Reason.ConfidenceReason :=
  [Reason.ARCHIVE_COMPLETE; Reason.ARCHIVE_IN_PROGRESS; Reason.PAGE_LIMIT_REACHED;
   Reason.BEYOND_ASSUMED_RETENTION; Reason.LOOKUP_FAILED].

Definition TOP_KEYS : list string :=
  ["closedOrderLookbackDays"; "stopBeforeDays"; "stopBeforeAt"; "retentionAssumptionDays";
   "retentionBoundaryAt"; "retentionStatus"; "coverageStatus"; "confidenceLevel";
   "confidenceReason"; "failureMessage"; "scannedSnapshotCount"; "recoveredOrderCount"; "markets"].

Definition MARKET_KEYS : list string :=
  ["market"; "recentClosedWindowStartAt"; "recentClosedWindowEndAt"; "archivalWindowStartAt";
   "archivalWindowEndAt"; "nextWindowEndAt"; "archiveComplete"; "retentionStatus";
   "confidenceLevel"; "confidenceReason"; "openHistoryTruncated"; "recentClosedHistoryTruncated";
   "archivalClosedHistoryTruncated"; "openPagesScanned"; "recentClosedPagesScanned";
   "archivalClosedPagesScanned"; "snapshotCount"].

(** What the strict reader compares of a market. *)
Definition read_market (rawMarket : json) : option ReconciliationHistoryRecoveryMarketProgress :=
  f ← exactDataRecord rawMarket MARKET_KEYS;
  market ← enum_field Market.to_string MANAGED_MARKETS "market" f;
  recentStart ← text_field "recentClosedWindowStartAt" f;
  recentEnd ← text_field "recentClosedWindowEndAt" f;
  archivalStart ← text_field "archivalWindowStartAt" f;
  archivalEnd ← text_field "archivalWindowEndAt" f;
  nextEnd ← text_field "nextWindowEndAt" f;
  complete ← bool_field "archiveComplete" f;
  retention ← enum_field Retention.to_string retention_statuses "retentionStatus" f;
  confidence ← enum_field Confidence.to_string confidence_levels "confidenceLevel" f;
  reason ← enum_field Reason.to_string confidence_reasons "confidenceReason" f;
  openTruncated ← bool_field "openHistoryTruncated" f;
  recentTruncated ← bool_field "recentClosedHistoryTruncated" f;
  archivalTruncated ← bool_field "archivalClosedHistoryTruncated" f;
  openPages ← count_field "openPagesScanned" f;
  recentPages ← count_field "recentClosedPagesScanned" f;
  archivalPages ← count_field "archivalClosedPagesScanned" f;
  snapshots ← count_field "snapshotCount" f;
  Some {| mp_market := market;
          mp_recentClosedWindowStartAt := recentStart;
          mp_recentClosedWindowEndAt := recentEnd;
          mp_archivalWindowStartAt := archivalStart;
          mp_archivalWindowEndAt := archivalEnd;
          mp_nextWindowEndAt := nextEnd;
          mp_archiveComplete := complete;
          mp_retentionStatus := retention;
          mp_confidenceLevel := confidence;
          mp_confidenceReason := reason;
          mp_openHistoryTruncated := openTruncated;
          mp_recentClosedHistoryTruncated := recentTruncated;
          mp_archivalClosedHistoryTruncated := archivalTruncated;
          mp_openPagesScanned := openPages;
          mp_recentClosedPagesScanned := recentPages;
          mp_archivalClosedPagesScanned := archivalPages;
          mp_snapshotCount := snapshots |}.

Definition read_history (value : json) : option ReconciliationHistoryRecoverySummary :=
  f ← exactDataRecord value TOP_KEYS;
  lookback ← count_field "closedOrderLookbackDays" f;
  stopBefore ← count_field "stopBeforeDays" f;
  stopBeforeAt ← text_field "stopBeforeAt" f;
  assumption ← count_field "retentionAssumptionDays" f;
  boundaryAt ← text_field "retentionBoundaryAt" f;
  retention ← enum_field Retention.to_string retention_statuses "retentionStatus" f;
  coverage ← enum_field Coverage.to_string coverage_statuses "coverageStatus" f;
  confidence ← enum_field Confidence.to_string confidence_levels "confidenceLevel" f;
  reason ← enum_field Reason.to_string confidence_reasons "confidenceReason" f;
  failure ← nullable_field "failureMessage" f;
  scanned ← count_field "scannedSnapshotCount" f;
  recovered ← count_field "recoveredOrderCount" f;
  rawMarkets ← map_get "markets" f ≫= denseDataArray;
  markets ← mapM read_market rawMarkets;
  Some {| hr_closedOrderLookbackDays := lookback;
          hr_stopBeforeDays := stopBefore;
          hr_stopBeforeAt := stopBeforeAt;
          hr_retentionAssumptionDays := assumption;
          hr_retentionBoundaryAt := boundaryAt;
          hr_retentionStatus := retention;
          hr_coverageStatus := coverage;
          hr_confidenceLevel := confidence;
          hr_confidenceReason := reason;
          hr_failureMessage := failure;
          hr_scannedSnapshotCount := scanned;
          hr_recoveredOrderCount := recovered;
          hr_markets := markets |}.

(** [isStrictHistoryRecoverySummary] on a value of any shape. *)
Definition isStrictHistoryRecovery (value : json) (status : RunStatus.ReconciliationStatus)
    (issueCodes : list Issue.ReconciliationIssueCode) (runStartedAt completedOrCheckedAt : string)
    : bool :=
  match read_history value with
  | Some report =>
      isStrictHistoryRecoverySummary report status issueCodes runStartedAt completedOrCheckedAt
  | None => false
  end.

(** ** The reader inverts the printer *)

Definition progress_counts (m : ReconciliationHistoryRecoveryMarketProgress) : list Z :=
  [mp_openPagesScanned m; mp_recentClosedPagesScanned m; mp_archivalClosedPagesScanned m;
   mp_snapshotCount m].

Definition history_counts (h : ReconciliationHistoryRecoverySummary) : list Z :=
  [hr_closedOrderLookbackDays h; hr_stopBeforeDays h; hr_retentionAssumptionDays h;
   hr_scannedSnapshotCount h; hr_recoveredOrderCount h].

(** The numbers of a report are counts. *)
Definition countable (h : ReconciliationHistoryRecoverySummary) : bool :=
  forallb is_count (history_counts h)
  && forallb (fun m => forallb is_count (progress_counts m)) (hr_markets h).

Lemma is_count_nonNegative z : is_count z = nonNegativeSafeInteger z.
Proof.
  unfold is_count, nonNegativeSafeInteger, isSafeInteger, MAX_SAFE_INTEGER in *.
  apply eq_true_iff_eq. rewrite !andb_true_iff, !Z.leb_le. lia.
Qed.

Lemma reread_count z : is_count z = true -> json_integer (reread (JInt z)) = Some z.
Proof.
  unfold is_count. intros [H0 Hm]%andb_true_iff. cbn. apply num_of_Z_integer; [lia|].
  change (2 ^ prec)%Z with (MAX_SAFE_INTEGER + 1)%Z. lia.
Qed.

Lemma count_field_reread key fields z :
  map_get key fields = Some (reread (JInt z)) -> is_count z = true ->
  count_field key fields = Some z.
Proof.
  intros Hk Hz. unfold count_field. rewrite Hk. cbn [mbind option_bind].
  rewrite reread_count by done. cbn. by rewrite <- is_count_nonNegative, Hz.
Qed.

Lemma enum_field_found {A} (to_string : A -> string) allowed key fields x :
  map_get key fields = Some (JStr (to_string x)) ->
  oneOf to_string allowed (to_string x) = Some x ->
  enum_field to_string allowed key fields = Some x.
Proof. unfold enum_field. intros -> Hx. exact Hx. Qed.

Lemma nullable_field_found key fields (text : option string) :
  map_get key fields = Some (reread (from_option JStr JNull text)) ->
  nullable_field key fields = Some text.
Proof. unfold nullable_field. intros ->. by destruct text. Qed.

Lemma one_of_market x : oneOf Market.to_string MANAGED_MARKETS (Market.to_string x) = Some x.
Proof. by destruct x. Qed.
Lemma one_of_retention x : oneOf Retention.to_string retention_statuses (Retention.to_string x) = Some x.
Proof. by destruct x. Qed.
Lemma one_of_coverage x : oneOf Coverage.to_string coverage_statuses (Coverage.to_string x) = Some x.
Proof. by destruct x. Qed.
Lemma one_of_confidence x : oneOf Confidence.to_string confidence_levels (Confidence.to_string x) = Some x.
Proof. by destruct x. Qed.
Lemma one_of_reason x : oneOf Reason.to_string confidence_reasons (Reason.to_string x) = Some x.
Proof. by destruct x. Qed.

Create HintDb reading.
#[export] Hint Resolve one_of_market one_of_retention one_of_coverage one_of_confidence
  one_of_reason : reading.

(** One field of a record that was printed. *)
Ltac read_field :=
  lazymatch goal with
  | |- context [count_field ?key ?f] =>
      erewrite (count_field_reread key f) by (reflexivity || assumption)
  | |- context [enum_field ?t ?l ?key ?f] =>
      erewrite (enum_field_found t l key f) by (reflexivity || auto with reading)
  | |- context [nullable_field ?key ?f] =>
      erewrite (nullable_field_found key f) by reflexivity
  end; cbn [mbind option_bind].

Lemma read_market_printed m :
  forallb is_count (progress_counts m) = true ->
  read_market (reread (market_progress_json m)) = Some m.
Proof.
  unfold progress_counts. cbn [forallb]. rewrite !andb_true_iff. intros (? & ? & ? & ? & _).
  unfold read_market. cbn [exactDataRecord reread market_progress_json map fst snd].
  change (exact_keys _ _) with true. cbv iota. cbn [mbind option_bind].
  repeat read_field. by destruct m.
Qed.

Lemma read_markets_printed l :
  forallb (fun m => forallb is_count (progress_counts m)) l = true ->
  mapM read_market (map reread (market_progress_json <$> l)) = Some l.
Proof.
  induction l as [|m l IH]; [done|]. cbn [forallb]. intros [Hm Hl]%andb_true_iff.
  cbn [fmap list_fmap map mapM]. rewrite read_market_printed by done. cbn [mbind option_bind].
  change (list_fmap _ _ market_progress_json l) with (market_progress_json <$> l).
  by rewrite (IH Hl).
Qed.

(** A stored report is read as what was reported. *)
Lemma read_history_printed h :
  countable h = true -> read_history (reread (history_recovery_json h)) = Some h.
Proof.
  unfold countable, history_counts. cbn [forallb]. rewrite !andb_true_iff.
  intros [(? & ? & ? & ? & ? & _) Hm]. unfold read_history.
  cbn [exactDataRecord reread history_recovery_json map fst snd].
  change (exact_keys _ _) with true. cbv iota. cbn [mbind option_bind].
  repeat read_field.
  change (map_get "markets" _) with (Some (JArr (map reread (market_progress_json <$> hr_markets h)))).
  cbn [mbind option_bind denseDataArray]. rewrite read_markets_printed by done. by destruct h.
Qed.

Lemma plain_market m :
  forallb is_count (progress_counts m) = true -> plain (market_progress_json m) = true.
Proof.
  unfold progress_counts. cbn [forallb]. rewrite !andb_true_iff. intros (H1 & H2 & H3 & H4 & _).
  unfold market_progress_json. cbn [plain forallb snd]. rewrite H1, H2, H3, H4. reflexivity.
Qed.

Lemma plain_all {A} (print : A -> json) l :
  (forall x, x ∈ l -> plain (print x) = true) -> forallb plain (print <$> l) = true.
Proof.
  intros H. apply forallb_forall. intros j [x [-> Hx]]%list_elem_of_In%list_elem_of_fmap. auto.
Qed.

Lemma plain_history h : countable h = true -> plain (history_recovery_json h) = true.
Proof.
  unfold countable, history_counts. cbn [forallb]. rewrite !andb_true_iff.
  intros [(H1 & H2 & H3 & H4 & H5 & _) Hm]. rewrite forallb_forall in Hm.
  assert (Hf : plain (from_option JStr JNull (hr_failureMessage h)) = true)
    by by destruct (hr_failureMessage h).
  assert (Hl : forallb plain (market_progress_json <$> hr_markets h) = true).
  { apply plain_all. intros m Hin. apply plain_market, Hm, list_elem_of_In, Hin. }
  unfold history_recovery_json. cbn [plain forallb snd]. rewrite H1, H2, H3, H4, H5, Hf, Hl.
  reflexivity.
Qed.
