(* ===== verification/Preflight.v ===== *)
(** * Preflight: the checks before a live run

    [app/scheduler-preflight.ts]: whether a live run may start, from the
    configuration, the execution state, the latest snapshots, the latest
    reconciliation's stored report and the orders that are still open.  The
    checks themselves are functions; the two entry points are routines over the
    reads of [Preflight]. *)

From Stdlib Require Import ZArith.
From stdpp Require Import base option list strings.
From S2P Require Import Prelude Num Types Text Timestamp NumText JsMap Json OperatorState OrderRecords Effects.
From S2P Require Import ExecutionRecords ReconciliationRecords HistoryWindows ReportReader.

Local Open Scope string_scope.
Local Open Scope js_scope.
Local Open Scope bool_scope.

(** ** Data *)

Module Level.
Inductive CheckStatus : Set := PASS | WARN | BLOCK.
#[export] Instance CheckStatus_eq_dec : EqDecision CheckStatus.
Proof. solve_decision. Defined.
End Level.
Export (hints) Level.

Record StrategySchedulerStartupPreflightCheck := {
  check_name : string;
  check_status : Level.CheckStatus;
  check_detail : string;
}.

Record LiveStrategyRunPreflightEvaluation := {
  eval_status : Level.CheckStatus;
  eval_checks : list StrategySchedulerStartupPreflightCheck;
}.

(** What is used of [AppConfig]: the intervals are positive numbers. *)
Record PreflightConfig := {
  conf_strategySchedulerEnabled : bool;
  conf_executionMode : ExecutionMode;
  conf_liveExecutionGate : LiveExecutionGate;
  conf_strategySchedulerBtcIntervalMs : num;
  conf_strategySchedulerEthIntervalMs : num;
}.

Record LivePreflightInput := {
  live_config : PreflightConfig;
  live_executionState : ExecutionStateRecord;
  live_exchangeBackedReadEnabled : bool;
  live_liveSendPath : SendPath.ExecutionSendPath;
  live_checkedAt : string;
  live_balanceSnapshot : option BalanceSnapshotRecord;
  live_positionSnapshot : option PositionSnapshotRecord;
  live_reconciliationRun : option ReconciliationRunRecord;
  live_activeOrders : list OrderRecord;
}.

(** What is used of a stored report. *)
Record StoredSummary := {
  stored_source : Trigger.ReconciliationTrigger;
  stored_status : RunStatus.ReconciliationStatus;
  stored_issues : list ReconciliationIssue;
}.

Definition check (name : string) (status : Level.CheckStatus) (detail : string)
    : StrategySchedulerStartupPreflightCheck :=
  {| check_name := name; check_status := status; check_detail := detail |}.

(** A check that passes or blocks. *)
Definition gate (name : string) (passes : bool) (passed blocked : string)
    : StrategySchedulerStartupPreflightCheck :=
  check name (if passes then Level.PASS else Level.BLOCK) (if passes then passed else blocked).

(** ** The age of what is stored *)

Definition getStrategyRunFreshnessThresholdMs (config : PreflightConfig) : num :=
  nmin (conf_strategySchedulerBtcIntervalMs config) (conf_strategySchedulerEthIntervalMs config).

(** [BigInt(value)] of a number: a [RangeError] unless it is an integer. *)
Definition BigInt (value : num) : outcome Z :=
  match num_integer value with
  | Some z => Ret z
  | None => Throw ("The number " ++ num_to_string value
                   ++ " cannot be converted to a BigInt because it is not an integer")
  end.

Record Freshness := {
  fresh : bool;
  fresh_detail : string;
}.

Definition incomparable : Freshness :=
  {| fresh := false; fresh_detail := "timestamp is not comparable to preflight time" |}.

(** The age is in nanoseconds, its text in milliseconds. *)
Definition describeTimestampFreshness (timestamp : option string) (checkedAt : string)
    (maxAgeMs : num) : outcome Freshness :=
  match timestamp with
  | None => Ret {| fresh := false; fresh_detail := "missing timestamp" |}
  | Some timestamp =>
      match timestampEpoch checkedAt, timestampEpoch timestamp with
      | Some checked, Some captured =>
          let ageNs := (checked - captured)%Z in
          if (ageNs <? 0)%Z then Ret incomparable
          else
            maxAge ← BigInt maxAgeMs;
            let maxAgeNs := (maxAge * 1000000)%Z in
            let ages := num_to_string (num_of_Z (ageNs / 1000000)) ++ " max_age_ms="
                        ++ num_to_string maxAgeMs in
            Ret (if (ageNs <=? maxAgeNs)%Z
                 then {| fresh := true; fresh_detail := "fresh_age_ms=" ++ ages |}
                 else {| fresh := false; fresh_detail := "stale_age_ms=" ++ ages |})
      | _, _ => Ret incomparable
      end
  end.

(** ** The execution state *)

Definition isRunnableExecutionState (state : ExecutionStateRecord) : bool :=
  (es_executionMode state === Mode.LIVE) && (es_liveExecutionGate state === Gate.ENABLED)
  && (es_systemStatus state === SysStatus.RUNNING) && negb (es_killSwitchActive state)
  && (es_pauseReason state === None) && (es_degradedReason state === None)
  && (es_degradedAt state === None).

Definition execution_blockers (state : ExecutionStateRecord) : list string :=
  ((if es_executionMode state === Mode.LIVE then [] else ["execution_mode_not_live"])
   ++ (if es_liveExecutionGate state === Gate.ENABLED then [] else ["live_gate_disabled"])
   ++ (if es_systemStatus state === SysStatus.RUNNING then []
       else ["system_status_" ++ toLowerCase (SysStatus.to_string (es_systemStatus state))]%string)
   ++ (if es_killSwitchActive state then ["kill_switch_active"] else [])
   ++ match es_pauseReason state with Some r => ["paused:" ++ r]%string | None => [] end
   ++ match es_degradedReason state with Some r => ["degraded:" ++ r]%string | None => [] end
   ++ match es_degradedAt state with Some t => ["degraded_at:" ++ t]%string | None => [] end)%list.

Definition describeExecutionState (state : ExecutionStateRecord) : string :=
  match execution_blockers state with
  | [] => "Execution state is live, running, not degraded, and kill switch is off."
  | blockers =>
      "Execution state blocks live scheduler startup: " ++ join "," blockers ++ "."
  end.

(** ** The stored report *)

Definition trigger_sources : list Trigger.ReconciliationTrigger :=
  [Trigger.DIRECT_RUN; Trigger.OPERATOR_SYNC; Trigger.STARTUP_RECOVERY;
   Trigger.SCHEDULER_PREFLIGHT].

Definition run_statuses : list RunStatus.ReconciliationStatus :=
  [RunStatus.SUCCESS; RunStatus.DRIFT_DETECTED; RunStatus.ERROR].

Definition RECONCILIATION_ISSUE_CODES : list Issue.ReconciliationIssueCode :=
  [Issue.OPEN_ORDER_NEEDS_REVIEW; Issue.ORDER_MARKED_FOR_RECOVERY; Issue.ORDER_STATUS_RECONCILED;
   Issue.ORDER_FILLS_BACKFILLED; Issue.BALANCE_DRIFT_DETECTED; Issue.POSITION_DRIFT_DETECTED;
   Issue.TERMINAL_ORDER_RECHECKED; Issue.ORDER_REFERENCE_MISSING;
   Issue.ORDER_LOOKUP_TRANSIENT_FAILURE; Issue.ORDER_LOOKUP_DEFERRED;
   Issue.ORDER_IDENTIFIER_RECOVERY_UNCERTAIN; Issue.ORDER_IDENTIFIER_RECOVERED;
   Issue.ORDER_SUBMISSION_ABSENCE_CONFIRMED; Issue.CANDIDATE_EVIDENCE_PROJECTION_FAILED;
   Issue.CANDIDATE_EVIDENCE_PROJECTION_DEFERRED; Issue.EXCHANGE_ORDER_RECOVERED;
   Issue.ORDER_HISTORY_LOOKUP_FAILED; Issue.DRY_RUN_ORDER_REPAIRED].

Definition BLOCKING_RECONCILIATION_ISSUE_CODES : list Issue.ReconciliationIssueCode :=
  [Issue.BALANCE_DRIFT_DETECTED; Issue.POSITION_DRIFT_DETECTED; Issue.ORDER_MARKED_FOR_RECOVERY;
   Issue.ORDER_REFERENCE_MISSING; Issue.ORDER_LOOKUP_TRANSIENT_FAILURE;
   Issue.ORDER_LOOKUP_DEFERRED; Issue.ORDER_HISTORY_LOOKUP_FAILED].

Definition is_blocking (code : Issue.ReconciliationIssueCode) : bool :=
  bool_decide (code ∈ BLOCKING_RECONCILIATION_ISSUE_CODES).

(** Parsing gives only finite numbers or infinities. *)
Fixpoint isJsonData (value : json) : bool :=
  match value with
  | JNum n => is_finite n
  | JArr l => forallb isJsonData l
  | JObj fields => forallb (fun f => isJsonData (snd f)) fields
  | _ => true
  end.

Definition SUMMARY_KEYS : list string :=
  ["source"; "status"; "issues"; "candidateCount"; "processedCount"; "deferredCount";
   "maxOrderLookupsPerRun"].

(** The required keys, and [historyRecovery] or not. *)
Definition summary_keys (fields : jsmap string json) : bool :=
  (length SUMMARY_KEYS <=? length fields)%nat && (length fields <=? length SUMMARY_KEYS + 1)%nat
  && forallb (fun key => (key === "historyRecovery") || bool_decide (key ∈ SUMMARY_KEYS))
       (fst <$> fields)
  && forallb (fun key => bool_decide (is_Some (map_get key fields))) SUMMARY_KEYS.

Definition read_issue (value : json) : option ReconciliationIssue :=
  f ← exactDataRecord value ["code"; "message"];
  code ← enum_field Issue.to_string RECONCILIATION_ISSUE_CODES "code" f;
  message ← text_field "message" f;
  if is_blank message then None else Some (issue code message).

(** The fields of a report of any shape. *)
Definition read_summary (fields : jsmap string json) (runStartedAt completedOrCheckedAt : string)
    : option StoredSummary :=
  source ← enum_field Trigger.to_string trigger_sources "source" fields;
  status ← enum_field RunStatus.to_string run_statuses "status" fields;
  candidateCount ← count_field "candidateCount" fields;
  processedCount ← count_field "processedCount" fields;
  deferredCount ← count_field "deferredCount" fields;
  maxOrderLookupsPerRun ← count_field "maxOrderLookupsPerRun" fields;
  rawIssues ← map_get "issues" fields ≫= denseDataArray;
  issues ← mapM read_issue rawIssues;
  let codes := issue_code <$> issues in
  let history_valid :=
    match map_get "historyRecovery" fields with
    | Some value => isJsonData value
                    && isStrictHistoryRecovery value status codes runStartedAt completedOrCheckedAt
    | None => true
    end in
  if isValidBoundedReconciliationSweep candidateCount processedCount deferredCount
       maxOrderLookupsPerRun codes && history_valid
  then Some {| stored_source := source; stored_status := status; stored_issues := issues |}
  else None.

Definition parseReconciliationSummary (rawJson runStartedAt completedOrCheckedAt : string)
    : option StoredSummary :=
  match JSON_parse rawJson with
  | Some (JObj fields) =>
      if summary_keys fields then read_summary fields runStartedAt completedOrCheckedAt else None
  | _ => None
  end.

Definition formatIssueCodes (codes : list Issue.ReconciliationIssueCode) : string :=
  match codes with [] => "none" | _ => join "," (Issue.to_string <$> codes) end.

(** ** The checks *)

Definition reconciliation_check (status : Level.CheckStatus) (detail : string)
    : StrategySchedulerStartupPreflightCheck := check "latest_reconciliation" status detail.

(** What a report that was read says of the run. *)
Definition judge_reconciliation (run : ReconciliationRunRecord) (summary : StoredSummary)
    (described : string) : StrategySchedulerStartupPreflightCheck :=
  let codes := issue_code <$> stored_issues summary in
  match run_status run with
  | RunStatus.SUCCESS =>
      if (length codes =? 0)%nat then reconciliation_check Level.PASS described
      else reconciliation_check Level.BLOCK
             (described ++ " success_issue_codes=" ++ formatIssueCodes codes)
  | RunStatus.ERROR =>
      reconciliation_check Level.BLOCK (described ++ " is not eligible for live preflight.")
  | RunStatus.DRIFT_DETECTED =>
      let blocking := List.filter is_blocking codes in
      if (length codes =? 0)%nat
      then reconciliation_check Level.BLOCK
             "latest reconciliation DRIFT_DETECTED summary has no issues."
      else if (0 <? length blocking)%nat
      then reconciliation_check Level.BLOCK
             (described ++ " blocking_issue_codes=" ++ join "," (Issue.to_string <$> blocking)
              ++ " issue_codes=" ++ formatIssueCodes codes)
      else reconciliation_check Level.WARN
             (described ++ " non_blocking_issue_codes=" ++ formatIssueCodes codes)
  end.

(** The run started, then completed, and neither after the check. *)
Definition ordered_run (run : ReconciliationRunRecord) (checkedAt : string) : bool :=
  match timestampEpoch (run_startedAt run), timestampEpoch (default "" (run_completedAt run)),
        timestampEpoch checkedAt with
  | Some started, Some completed, Some checked =>
      negb ((completed <? started) || (checked <? started) || (checked <? completed))%Z
  | _, _, _ => false
  end.

Definition describeLatestReconciliation (run : option ReconciliationRunRecord)
    (checkedAt : string) (maxAgeMs : num) : outcome StrategySchedulerStartupPreflightCheck :=
  match run with
  | None => Ret (reconciliation_check Level.BLOCK "No reconciliation run is stored.")
  | Some run =>
      if ordered_run run checkedAt then
        freshness ← describeTimestampFreshness (run_completedAt run) checkedAt maxAgeMs;
        let described :=
          "latest reconciliation status=" ++ RunStatus.to_string (run_status run)
          ++ " completed_at=" ++ default "none" (run_completedAt run) ++ " "
          ++ fresh_detail freshness in
        Ret (if fresh freshness then
               match parseReconciliationSummary (run_summaryJson run) (run_startedAt run)
                       (default checkedAt (run_completedAt run)) with
               | Some summary =>
                   if stored_status summary === run_status run
                   then judge_reconciliation run summary described
                   else reconciliation_check Level.BLOCK
                          (described ++ " issue_evidence_malformed=true")
               | None => reconciliation_check Level.BLOCK
                           (described ++ " issue_evidence_malformed=true")
               end
             else reconciliation_check Level.BLOCK described)
      else Ret (reconciliation_check Level.BLOCK "latest reconciliation chronology is invalid.")
  end.

(** A snapshot's check, by the instant it was captured. *)
Definition snapshot_check (name words : string) (capturedAt : option string) (checkedAt : string)
    (maxAgeMs : num) : outcome StrategySchedulerStartupPreflightCheck :=
  freshness ← describeTimestampFreshness capturedAt checkedAt maxAgeMs;
  Ret (check name (if fresh freshness then Level.PASS else Level.BLOCK)
         match capturedAt with
         | Some captured => "latest " ++ words ++ " captured_at=" ++ captured ++ " "
                            ++ fresh_detail freshness
         | None => "No " ++ words ++ " is stored."
         end).

Definition buildLiveSchedulerChecks (i : LivePreflightInput)
    : outcome (list StrategySchedulerStartupPreflightCheck) :=
  let maxAgeMs := getStrategyRunFreshnessThresholdMs (live_config i) in
  let orders := length (live_activeOrders i) in
  balance ← snapshot_check "balance_snapshot" "balance snapshot"
              (bal_capturedAt <$> live_balanceSnapshot i) (live_checkedAt i) maxAgeMs;
  position ← snapshot_check "position_snapshot" "position snapshot"
               (pos_capturedAt <$> live_positionSnapshot i) (live_checkedAt i) maxAgeMs;
  reconciliation ← describeLatestReconciliation (live_reconciliationRun i) (live_checkedAt i)
                     maxAgeMs;
  Ret [gate "live_gate" (conf_liveExecutionGate (live_config i) === Gate.ENABLED)
         "ENABLE_LIVE_ORDERS=true is configured." "ENABLE_LIVE_ORDERS is not true.";
       gate "live_send_path" (live_liveSendPath i === SendPath.LIVE_ADAPTER)
         "Execution service is wired to the live exchange adapter."
         "Execution service is still wired to the dry-run adapter.";
       check "execution_state"
         (if isRunnableExecutionState (live_executionState i) then Level.PASS else Level.BLOCK)
         (describeExecutionState (live_executionState i));
       gate "upbit_read_credentials" (live_exchangeBackedReadEnabled i)
         "Upbit read credentials are configured."
         "Upbit read credentials are required before live scheduler startup.";
       balance;
       position;
       reconciliation;
       gate "active_orders" (orders =? 0)%nat
         "No active or reconciliation-required orders are stored."
         (Z_to_string (Z.of_nat orders)
          ++ " active or reconciliation-required order(s) must be resolved first.")].

Definition has_level (level : Level.CheckStatus) (checks : list StrategySchedulerStartupPreflightCheck)
    : bool :=
  existsb (fun check => check_status check === level) checks.

Definition evaluateLiveStrategyRunPreflight (i : LivePreflightInput)
    : outcome LiveStrategyRunPreflightEvaluation :=
  checks ← buildLiveSchedulerChecks i;
  Ret {| eval_status := if has_level Level.BLOCK checks then Level.BLOCK
                        else if has_level Level.WARN checks then Level.WARN else Level.PASS;
         eval_checks := checks |}.

(** The names of the checks that block. *)
Definition blocking_names (checks : list StrategySchedulerStartupPreflightCheck) : string :=
  join "," (check_name <$> List.filter (fun check => check_status check === Level.BLOCK) checks).

(** ** The entry points *)

Module Scope.
Inductive PreflightScope : Set := DISABLED | DRY_RUN | LIVE.
End Scope.

(** [NOT_REQUIRED] is [None]. *)
Record StrategySchedulerStartupPreflight := {
  start_checkedAt : string;
  start_scope : Scope.PreflightScope;
  start_status : option Level.CheckStatus;
  start_detail : string;
  start_checks : list StrategySchedulerStartupPreflightCheck;
}.

Module PreflightCall.
Inductive call : Type -> Type :=
| NewDate : call string
| GetLatestBalanceSnapshot (exchangeAccountId : string) : call (option BalanceSnapshotRecord)
| GetLatestPositionSnapshot (exchangeAccountId : string) : call (option PositionSnapshotRecord)
| ListActiveOrders (exchangeAccountId : string) (limit : Z) : call (list OrderRecord)
| ListReconciliationRuns (exchangeAccountId : string) (limit : Z)
    : call (list ReconciliationRunRecord).
End PreflightCall.

Record PreflightInput := {
  pre_config : PreflightConfig;
  pre_exchangeAccountId : string;
  pre_executionState : ExecutionStateRecord;
  pre_exchangeBackedReadEnabled : bool;
  pre_liveSendPath : SendPath.ExecutionSendPath;
  pre_checkedAt : option string;
}.

Abbreviation preflighter A := (routine PreflightCall.call js_error unit A).

Definition preflight_lift {A} (o : outcome A) : preflighter A := lift_outcome PlainError o.

(** The value of a promise that was settled. *)
Definition settled {A} (r : result js_error A) : preflighter A :=
  match r with Ok v => mret v | Err x => throw x end.

(** [input.checkedAt ?? new Date().toISOString()] *)
Definition checked_at (i : PreflightInput) : preflighter string :=
  match pre_checkedAt i with Some t => mret t | None => await PreflightCall.NewDate end.

(** The reads of [Promise.all] and the evaluation of what they gave. *)
Definition evaluate_stored (i : PreflightInput) (checkedAt : string)
    : preflighter LiveStrategyRunPreflightEvaluation :=
  let account := pre_exchangeAccountId i in
  balance ← attempt (await (PreflightCall.GetLatestBalanceSnapshot account));
  position ← attempt (await (PreflightCall.GetLatestPositionSnapshot account));
  orders ← attempt (await (PreflightCall.ListActiveOrders account 20));
  runs ← attempt (await (PreflightCall.ListReconciliationRuns account 1));
  balance ← settled balance;
  position ← settled position;
  orders ← settled orders;
  runs ← settled runs;
  preflight_lift (evaluateLiveStrategyRunPreflight {|
    live_config := pre_config i;
    live_executionState := pre_executionState i;
    live_exchangeBackedReadEnabled := pre_exchangeBackedReadEnabled i;
    live_liveSendPath := pre_liveSendPath i;
    live_checkedAt := checkedAt;
    live_balanceSnapshot := balance;
    live_positionSnapshot := position;
    live_reconciliationRun := head runs;
    live_activeOrders := orders |}).

(** The preflight of a live evaluation. *)
Definition live_preflight (checkedAt passed blocked : string)
    (evaluation : LiveStrategyRunPreflightEvaluation) : StrategySchedulerStartupPreflight := {|
  start_checkedAt := checkedAt;
  start_scope := Scope.LIVE;
  start_status := Some (eval_status evaluation);
  start_detail := if has_level Level.BLOCK (eval_checks evaluation)
                  then blocked ++ blocking_names (eval_checks evaluation) ++ "." else passed;
  start_checks := eval_checks evaluation |}.

(** The preflight of a dry run. *)
Definition dry_preflight (checkedAt detail boundary : string) : StrategySchedulerStartupPreflight := {|
  start_checkedAt := checkedAt;
  start_scope := Scope.DRY_RUN;
  start_status := Some Level.PASS;
  start_detail := detail;
  start_checks := [check "dry_run_boundary" Level.PASS boundary] |}.

Definition buildStrategySchedulerStartupPreflight (i : PreflightInput)
    : preflighter StrategySchedulerStartupPreflight :=
  checkedAt ← checked_at i;
  if negb (conf_strategySchedulerEnabled (pre_config i)) then
    mret {| start_checkedAt := checkedAt;
            start_scope := Scope.DISABLED;
            start_status := None;
            start_detail := "Strategy scheduler is disabled.";
            start_checks := [] |}
  else if conf_executionMode (pre_config i) !== Mode.LIVE then
    mret (dry_preflight checkedAt
      "Live scheduler preflight is not required in DRY_RUN; scheduler remains on the dry-run adapter."
      "APP_EXECUTION_MODE is DRY_RUN, so scheduled strategy cycles cannot transmit live orders.")
  else
    evaluation ← evaluate_stored i checkedAt;
    mret (live_preflight checkedAt "Live scheduler startup preflight passed."
            "Live scheduler startup blocked by " evaluation).

Definition buildManualStrategyRunPreflight (i : PreflightInput)
    : preflighter StrategySchedulerStartupPreflight :=
  checkedAt ← checked_at i;
  if conf_executionMode (pre_config i) !== Mode.LIVE then
    mret (dry_preflight checkedAt
      "Live manual run preflight is not required in DRY_RUN; /run remains on the dry-run adapter."
      "APP_EXECUTION_MODE is DRY_RUN, so manual strategy runs cannot transmit live orders.")
  else
    evaluation ← evaluate_stored i checkedAt;
    mret (live_preflight checkedAt "Live manual /run preflight passed."
            "Live manual /run blocked by " evaluation).
