(* ===== verification/PreflightTheory.v ===== *)
(** * PreflightTheory: when a live run may start

    The report that a reconciliation stores is read back as it was reported;
    and the evaluation passes or warns exactly when every condition of a live
    run holds. *)

From Stdlib Require Import ZArith Lia.
From stdpp Require Import base option list strings.
From S2P Require Import Prelude Num Types Text Timestamp NumText JsMap Json JsonText OperatorState PilotScenarios OrderRecords Effects.
From S2P Require Import OrderRepository OrderTheory ExecutionRecords ReconciliationRecords.
From S2P Require Import ReconciliationHelpers HistoryWindows.
From S2P Require Import ReconciliationService ReconciliationTheory ReconciliationRules ReconciliationRun.
From S2P Require Import ReconciliationGuarantees ReconciliationReports ReconciliationScenarios.
From S2P Require Import ReportReader Preflight.

Local Open Scope js_scope.

(** ** Reports are read back *)

Lemma strict_markets_countable e recentStartAt recentEndAt boundary markets :
  forallb (strict_market e recentStartAt recentEndAt boundary) markets = true ->
  forallb (fun m => forallb is_count (progress_counts m)) markets = true.
Proof.
  rewrite !forallb_forall. intros H m Hm. specialize (H m Hm). unfold strict_market in H.
  destruct (Date_parse _); [|done]. destruct (Date_parse _); [|done].
  rewrite !andb_true_iff in H. unfold progress_counts. cbn [forallb].
  rewrite !is_count_nonNegative, !andb_true_iff. tauto.
Qed.

(** The strict reader accepts only counts. *)
Lemma strict_countable h status codes started completed :
  isStrictHistoryRecoverySummary h status codes started completed = true -> countable h = true.
Proof.
  unfold isStrictHistoryRecoverySummary, countable, history_counts.
  destruct (timestampEpoch started); [|done]. destruct (timestampEpoch completed); [|done].
  cbn [forallb]. rewrite !is_count_nonNegative, !andb_true_iff.
  intros [Hcounts Hrest]. split; [tauto|].
  destruct (derivedTimestamp _ _); [|done]. destruct (derivedTimestamp _ _); [|done].
  destruct (derivedTimestamp _ _); [|done]. destruct (derivedTimestamp _ _); [|done].
  rewrite !andb_true_iff in Hrest. destruct Hrest as [_ Hrest].
  destruct (Date_parse _); [|done]. destruct (Date_parse _); [|done].
  destruct (Date_parse _); [|done]. cbv zeta in Hrest.
  destruct (_ === Confidence.FAILED).
  - unfold strict_failure in Hrest. rewrite !andb_true_iff, Nat.eqb_eq in Hrest.
    destruct Hrest as [_ Hrest]. by destruct (hr_markets h).
  - unfold strict_success in Hrest. rewrite !andb_true_iff in Hrest.
    eapply strict_markets_countable. apply Hrest.
Qed.

(** The parts of a report that are read. *)
Definition stored_summary (s : ReconciliationSummary) : StoredSummary := {|
  stored_source := sum_source s;
  stored_status := sum_status s;
  stored_issues := sum_issues s;
|}.

(** A report whose counts are those of a bounded sweep, whose messages are not
    blank and whose history the strict reader accepts. *)
Record reported (s : ReconciliationSummary) (started completed : string) : Prop := {
  reported_counts : forallb is_count [sum_candidateCount s; sum_processedCount s;
    sum_deferredCount s; sum_maxOrderLookupsPerRun s] = true;
  reported_sweep : isValidBoundedReconciliationSweep (sum_candidateCount s)
    (sum_processedCount s) (sum_deferredCount s) (sum_maxOrderLookupsPerRun s)
    (issue_code <$> sum_issues s) = true;
  reported_messages : forall i, i ∈ sum_issues s -> is_blank (issue_message i) = false;
  reported_history : forall h, sum_historyRecovery s = Some h ->
    isStrictHistoryRecoverySummary h (sum_status s) (issue_code <$> sum_issues s) started
      completed = true;
}.

Lemma one_of_trigger x : oneOf Trigger.to_string trigger_sources (Trigger.to_string x) = Some x.
Proof. by destruct x. Qed.
Lemma one_of_run_status x : oneOf RunStatus.to_string run_statuses (RunStatus.to_string x) = Some x.
Proof. by destruct x. Qed.
Lemma one_of_issue x :
  oneOf Issue.to_string RECONCILIATION_ISSUE_CODES (Issue.to_string x) = Some x.
Proof. by destruct x. Qed.

#[local] Hint Resolve one_of_trigger one_of_run_status one_of_issue : reading.

Lemma read_issue_printed i :
  is_blank (issue_message i) = false -> read_issue (reread (issue_json i)) = Some i.
Proof.
  intros Hm. unfold read_issue. cbn [exactDataRecord reread issue_json map fst snd].
  change (exact_keys _ _) with true. cbv iota. cbn [mbind option_bind]. read_field.
  change (text_field _ _) with (Some (issue_message i)). cbn. rewrite Hm. by destruct i.
Qed.

Lemma read_issues_printed l :
  (forall i, i ∈ l -> is_blank (issue_message i) = false) ->
  mapM read_issue (map reread (issue_json <$> l)) = Some l.
Proof.
  induction l as [|i l IH]; [done|]. intros H. cbn [fmap list_fmap map mapM].
  rewrite read_issue_printed by (apply H; left). cbn [mbind option_bind].
  change (list_fmap _ _ issue_json l) with (issue_json <$> l).
  rewrite IH by (intros; apply H; by right). done.
Qed.

Lemma integer_is_finite n z : num_integer n = Some z -> is_finite n = true.
Proof. by destruct n. Qed.

Lemma plain_is_data j : plain j = true -> isJsonData (reread j) = true.
Proof.
  revert j. fix IH 1. intros j Hj. destruct j as [|b|n|z|s|l|fields]; try done.
  - eapply integer_is_finite, (reread_count z), Hj.
  - cbn in Hj |- *. induction l as [|x l IHl]; [done|]. cbn in Hj |- *.
    apply andb_true_iff in Hj as [Hx Hl]. by rewrite (IH x Hx), (IHl Hl).
  - cbn in Hj |- *. apply andb_true_iff in Hj as [_ Hf].
    induction fields as [|[k x] fields IHf]; [done|]. cbn in Hf |- *.
    apply andb_true_iff in Hf as [Hx Hf]. by rewrite (IH x Hx), (IHf Hf).
Qed.

Lemma plain_summary s :
  forallb is_count [sum_candidateCount s; sum_processedCount s; sum_deferredCount s;
    sum_maxOrderLookupsPerRun s] = true ->
  (forall h, sum_historyRecovery s = Some h -> countable h = true) ->
  plain (summary_json s) = true.
Proof.
  cbn [forallb]. rewrite !andb_true_iff. intros (H1 & H2 & H3 & H4 & _) Hh.
  assert (Hi : forallb plain (issue_json <$> sum_issues s) = true)
    by by apply plain_all.
  unfold summary_json. destruct (sum_historyRecovery s) as [h|] eqn:E; cbn [plain app forallb snd];
    rewrite H1, H2, H3, H4, Hi; [rewrite (plain_history h) by auto|]; reflexivity.
Qed.

(** The text of a report is read as the report it was made from. *)
Lemma summary_read_back s started completed :
  reported s started completed ->
  parseReconciliationSummary (stringify (summary_json s)) started completed
  = Some (stored_summary s).
Proof.
  intros [Hc Hsweep Hm Hh].
  assert (Hcount : forall h, sum_historyRecovery s = Some h -> countable h = true)
    by (intros h E; eapply strict_countable, Hh, E).
  unfold parseReconciliationSummary. rewrite JSON_parse_plain by by apply plain_summary.
  cbn [forallb] in Hc. rewrite !andb_true_iff in Hc. destruct Hc as (? & ? & ? & ? & _).
  unfold summary_json.
  destruct (sum_historyRecovery s) as [h|] eqn:E; cbn [reread app map fst snd].
  all: change (summary_keys _) with true; cbv iota; unfold read_summary; repeat read_field.
  all: change (map_get "issues" _) with (Some (JArr (map reread (issue_json <$> sum_issues s)))).
  all: cbn [mbind option_bind denseDataArray]; rewrite read_issues_printed by done.
  all: cbn [mbind option_bind]; rewrite Hsweep.
  - change (map_get "historyRecovery" _) with (Some (reread (history_recovery_json h))).
    cbv iota beta. unfold isStrictHistoryRecovery.
    rewrite plain_is_data, read_history_printed, Hh by auto using plain_history. done.
  - done.
Qed.

(** ** The evaluation *)

(** An instant not after the check and at most [maxAge] milliseconds before it. *)
Definition within (maxAge : Z) (checkedAt captured : string) : Prop :=
  exists checked at_, timestampEpoch checkedAt = Some checked /\ timestampEpoch captured = Some at_ /\
    (0 <= checked - at_ <= maxAge * 1000000)%Z.

Lemma freshness_spec timestamp checkedAt maxAgeMs maxAge :
  num_integer maxAgeMs = Some maxAge ->
  exists f, describeTimestampFreshness timestamp checkedAt maxAgeMs = Ret f /\
    (fresh f = true <-> exists captured, timestamp = Some captured /\ within maxAge checkedAt captured).
Proof.
  intros Hmax. unfold describeTimestampFreshness, within.
  destruct timestamp as [captured|]; [|eexists; split; [done|]; split; [done|by intros (? & ? & _)]].
  assert (Hnone : forall f, fresh f = false ->
    (timestampEpoch checkedAt = None \/ timestampEpoch captured = None \/
     exists c a, timestampEpoch checkedAt = Some c /\ timestampEpoch captured = Some a /\
       ~ (0 <= c - a <= maxAge * 1000000)%Z) ->
    fresh f = true <-> (exists t, Some captured = Some t /\ exists c a,
      timestampEpoch checkedAt = Some c /\ timestampEpoch t = Some a /\
      (0 <= c - a <= maxAge * 1000000)%Z)).
  { intros f -> Hcase. split; [done|]. intros (t & [= <-] & c & a & Hc & Ha & Hle).
    destruct Hcase as [E|[E|(c' & a' & Ec & Ea & Hn)]]; [congruence|congruence|].
    rewrite Hc in Ec. rewrite Ha in Ea. by simplify_eq. }
  destruct (timestampEpoch checkedAt) as [checked|] eqn:Ec;
    [destruct (timestampEpoch captured) as [at_|] eqn:Ea|].
  2-3: eexists; split; [done|]; apply Hnone; auto.
  destruct (Z.ltb_spec (checked - at_) 0).
  { eexists. split; [done|]. apply Hnone; [done|]. right. right. exists checked, at_.
    split_and!; [done..|lia]. }
  unfold BigInt. rewrite Hmax. cbn [mbind outcome_bind]. eexists. split; [done|].
  destruct (Z.leb_spec (checked - at_) (maxAge * 1000000)).
  - split; [intros _|done]. exists captured. split; [done|]. exists checked, at_. split_and!; done || lia.
  - apply Hnone; [done|]. right. right. exists checked, at_. split_and!; [done..|lia].
Qed.

(** A report that agrees with its run: a success without issues, or a drift
    none of whose issues blocks. *)
Definition harmless (run : ReconciliationRunRecord) (summary : StoredSummary) : Prop :=
  stored_status summary = run_status run /\
  match run_status run with
  | RunStatus.SUCCESS => stored_issues summary = []
  | RunStatus.DRIFT_DETECTED =>
      stored_issues summary ≠ [] /\
      forall i, i ∈ stored_issues summary -> is_blocking (issue_code i) = false
  | RunStatus.ERROR => False
  end.

(** The latest run allows a live run. *)
Definition run_allows (maxAge : Z) (checkedAt : string) (run : ReconciliationRunRecord) : Prop :=
  exists completed summary,
    run_completedAt run = Some completed /\ ordered_run run checkedAt = true /\
    within maxAge checkedAt completed /\
    parseReconciliationSummary (run_summaryJson run) (run_startedAt run) completed = Some summary /\
    harmless run summary.

#[export] Instance harmless_dec run summary : Decision (harmless run summary).
Proof.
  unfold harmless. destruct (run_status run); try apply _.
  destruct (decide (Forall (fun i => is_blocking (issue_code i) = false) (stored_issues summary)))
    as [H|H].
  - apply and_dec; [apply _|]. apply and_dec; [destruct (stored_issues summary); [right|left]; congruence|].
    left. by apply Forall_forall.
  - right. intros (_ & _ & Hb). by apply H, Forall_forall.
Defined.

(** The level of a check of a run that allows. *)
Definition run_level (run : ReconciliationRunRecord) : Level.CheckStatus :=
  match run_status run with RunStatus.SUCCESS => Level.PASS | _ => Level.WARN end.

Lemma judged run summary described :
  stored_status summary = run_status run ->
  (harmless run summary ->
     check_status (judge_reconciliation run summary described) = run_level run) /\
  (~ harmless run summary ->
     check_status (judge_reconciliation run summary described) = Level.BLOCK).
Proof.
  intros Hst. unfold harmless, judge_reconciliation, run_level. destruct (run_status run).
  - destruct (stored_issues summary) as [|i l]; [by split; [|intros []]|].
    split; [by intros [_ ?]|done].
  - assert (Hf : List.filter is_blocking (issue_code <$> stored_issues summary) = [] <->
      forall i, i ∈ stored_issues summary -> is_blocking (issue_code i) = false).
    { rewrite filter_nil_iff. split; intros H; [intros i Hi; apply H, list_elem_of_fmap; eauto|].
      intros c (i & -> & Hi)%list_elem_of_fmap. auto. }
    destruct (stored_issues summary) as [|i l] eqn:E; [by split; [intros (_ & [] & _)|]|].
    rewrite <- E in *. assert (Hlen : (length (issue_code <$> stored_issues summary) =? 0)%nat = false)
      by by rewrite E.
    rewrite Hlen. split.
    + intros (_ & _ & Hb). by rewrite (proj2 Hf Hb).
    + intros Hn. destruct (List.filter is_blocking _) as [|c l']; [|done].
      exfalso. apply Hn. split; [done|]. split; [by rewrite E|]. by apply Hf.
  - by split; [intros [_ []]|].
Qed.

(** The check of the latest run. *)
Lemma reconciliation_spec run checkedAt maxAgeMs maxAge :
  num_integer maxAgeMs = Some maxAge ->
  exists c, describeLatestReconciliation run checkedAt maxAgeMs = Ret c /\
    ((exists r, run = Some r /\ run_allows maxAge checkedAt r /\ check_status c = run_level r) \/
     (~ (exists r, run = Some r /\ run_allows maxAge checkedAt r)) /\
     check_status c = Level.BLOCK).
Proof.
  intros Hmax. destruct run as [run|]; cbn [describeLatestReconciliation];
    [|eexists; split; [done|]; right; split; [by intros (? & ? & _)|done]].
  assert (Hblock : forall c, check_status c = Level.BLOCK -> ~ run_allows maxAge checkedAt run ->
    (exists r, Some run = Some r /\ run_allows maxAge checkedAt r /\ check_status c = run_level r) \/
     (~ (exists r, Some run = Some r /\ run_allows maxAge checkedAt r)) /\
     check_status c = Level.BLOCK).
  { intros c Hc Hn. right. split; [|done]. by intros (r & [= <-] & Hr). }
  destruct (ordered_run run checkedAt) eqn:Ho;
    [|eexists; split; [done|]; apply Hblock; [done|]; intros (? & ? & _ & ? & _); congruence].
  destruct (freshness_spec (run_completedAt run) checkedAt maxAgeMs maxAge Hmax) as (f & -> & Hf).
  cbn [mbind outcome_bind]. destruct (fresh f).
  2:{ eexists. split; [done|]. apply Hblock; [done|]. intros (completed & ? & Hc & _ & Hw & _).
      discriminate (proj2 Hf (ex_intro _ completed (conj Hc Hw))). }
  destruct (proj1 Hf eq_refl) as (completed & Hc & Hw). rewrite Hc. cbn [default].
  assert (Hallow : forall s, parseReconciliationSummary (run_summaryJson run) (run_startedAt run)
    completed = Some s -> run_allows maxAge checkedAt run <-> harmless run s).
  { intros s Hs. split; [|intros Hh; by exists completed, s].
    intros (completed' & s' & Hc' & _ & _ & Hp & Hh). by simplify_eq. }
  unfold default, from_option, id.
  destruct (parseReconciliationSummary _ _ _) as [s|] eqn:Hp.
  2:{ eexists. split; [done|]. apply Hblock; [done|].
      intros (completed' & s' & Hc' & _ & _ & Hp' & _). by simplify_eq. }
  specialize (Hallow s eq_refl).
  destruct (decide (stored_status s = run_status run)) as [Hst|Hst].
  - rewrite bool_decide_eq_true_2 by done. eexists. split; [done|].
    match goal with |- context [judge_reconciliation run s ?d] =>
      destruct (judged run s d Hst) as [Hyes Hno] end.
    destruct (decide (harmless run s)) as [Hh|Hh].
    + left. exists run. split; [done|]. by rewrite Hallow, Hyes.
    + apply Hblock; [by apply Hno|]. by rewrite Hallow.
  - rewrite bool_decide_eq_false_2 by done. eexists. split; [done|]. apply Hblock; [done|].
    rewrite Hallow. by intros [? _].
Qed.

(** The state, the wiring, the stored evidence and the orders of a live run. *)
Record live_conditions (maxAge : Z) (i : LivePreflightInput) : Prop := {
  live_gate : conf_liveExecutionGate (live_config i) = Gate.ENABLED;
  live_path : live_liveSendPath i = SendPath.LIVE_ADAPTER;
  live_mode : es_executionMode (live_executionState i) = Mode.LIVE;
  live_state_gate : es_liveExecutionGate (live_executionState i) = Gate.ENABLED;
  live_running : es_systemStatus (live_executionState i) = SysStatus.RUNNING;
  live_not_killed : es_killSwitchActive (live_executionState i) = false;
  live_not_paused : es_pauseReason (live_executionState i) = None;
  live_not_degraded : es_degradedReason (live_executionState i) = None /\
    es_degradedAt (live_executionState i) = None;
  live_reads : live_exchangeBackedReadEnabled i = true;
  live_balance : exists b, live_balanceSnapshot i = Some b /\
    within maxAge (live_checkedAt i) (bal_capturedAt b);
  live_position : exists p, live_positionSnapshot i = Some p /\
    within maxAge (live_checkedAt i) (pos_capturedAt p);
  live_reconciled : exists r, live_reconciliationRun i = Some r /\
    run_allows maxAge (live_checkedAt i) r;
  live_no_orders : live_activeOrders i = [];
}.

Lemma snapshot_check_spec name words capturedAt checkedAt maxAgeMs maxAge :
  num_integer maxAgeMs = Some maxAge ->
  exists c b, snapshot_check name words capturedAt checkedAt maxAgeMs = Ret c /\
    check_status c = (if b : bool then Level.PASS else Level.BLOCK) /\
    (b = true <-> exists captured, capturedAt = Some captured /\ within maxAge checkedAt captured).
Proof.
  intros Hmax. unfold snapshot_check.
  destruct (freshness_spec capturedAt checkedAt maxAgeMs maxAge Hmax) as (f & -> & Hf).
  eexists. by exists (fresh f).
Qed.

Lemma runnable_spec state :
  isRunnableExecutionState state = true <->
  es_executionMode state = Mode.LIVE /\ es_liveExecutionGate state = Gate.ENABLED /\
  es_systemStatus state = SysStatus.RUNNING /\ es_killSwitchActive state = false /\
  es_pauseReason state = None /\ es_degradedReason state = None /\ es_degradedAt state = None.
Proof.
  unfold isRunnableExecutionState. rewrite !andb_true_iff, !bool_decide_eq_true, negb_true_iff. tauto.
Qed.

(** The conditions as the booleans of the checks. *)
Lemma conditions_spec maxAge i (balance position : bool) :
  (balance = true <-> exists captured, bal_capturedAt <$> live_balanceSnapshot i = Some captured /\
     within maxAge (live_checkedAt i) captured) ->
  (position = true <-> exists captured, pos_capturedAt <$> live_positionSnapshot i = Some captured /\
     within maxAge (live_checkedAt i) captured) ->
  live_conditions maxAge i <->
  (conf_liveExecutionGate (live_config i) === Gate.ENABLED) = true /\
  (live_liveSendPath i === SendPath.LIVE_ADAPTER) = true /\
  isRunnableExecutionState (live_executionState i) = true /\
  live_exchangeBackedReadEnabled i = true /\ balance = true /\ position = true /\
  (exists r, live_reconciliationRun i = Some r /\ run_allows maxAge (live_checkedAt i) r) /\
  (length (live_activeOrders i) =? 0)%nat = true.
Proof.
  intros Hb Hp. rewrite Hb, Hp, runnable_spec, !bool_decide_eq_true, Nat.eqb_eq. split.
  - intros []. destruct live_balance0 as (b & -> & ?), live_position0 as (p & -> & ?).
    split_and!; try done; [naive_solver..|by rewrite live_no_orders0].
  - intros (? & ? & ? & ? & (c & Hc & ?) & (c' & Hc' & ?) & ? & Hl).
    apply fmap_Some in Hc as (b & ? & ->). apply fmap_Some in Hc' as (p & ? & ->).
    destruct_and?. apply nil_length_inv in Hl. split; by eauto.
Qed.

(** ** Guarantees *)

Definition overall (statuses : list Level.CheckStatus) : Level.CheckStatus :=
  if existsb (fun s => s === Level.BLOCK) statuses then Level.BLOCK
  else if existsb (fun s => s === Level.WARN) statuses then Level.WARN else Level.PASS.

Lemma has_level_statuses level checks :
  has_level level checks = existsb (fun s => s === level) (check_status <$> checks).
Proof. unfold has_level. induction checks as [|c l IH]; [done|]. cbn. by rewrite IH. Qed.

(** Seven checks that pass or block, and one of any level. *)
Lemma overall_level (g1 g2 g3 g4 g5 g6 g7 : bool) level :
  let status (g : bool) := if g then Level.PASS else Level.BLOCK in
  overall [status g1; status g2; status g3; status g4; status g5; status g6; level; status g7]
  = if g1 && g2 && g3 && g4 && g5 && g6 && g7 then level else Level.BLOCK.
Proof. by destruct g1, g2, g3, g4, g5, g6, level, g7. Qed.

(** The level of the evaluation is that of its run, or it blocks. *)
Lemma evaluation_spec maxAge i :
  num_integer (getStrategyRunFreshnessThresholdMs (live_config i)) = Some maxAge ->
  exists e, evaluateLiveStrategyRunPreflight i = Ret e /\
    ((live_conditions maxAge i /\
      exists r, live_reconciliationRun i = Some r /\ eval_status e = run_level r) \/
     (~ live_conditions maxAge i /\ eval_status e = Level.BLOCK)).
Proof.
  intros Hmax. unfold evaluateLiveStrategyRunPreflight, buildLiveSchedulerChecks.
  destruct (snapshot_check_spec "balance_snapshot" "balance snapshot"
    (bal_capturedAt <$> live_balanceSnapshot i) (live_checkedAt i) _ _ Hmax) as (cb & b & -> & Hcb & Hb).
  destruct (snapshot_check_spec "position_snapshot" "position snapshot"
    (pos_capturedAt <$> live_positionSnapshot i) (live_checkedAt i) _ _ Hmax) as (cp & p & -> & Hcp & Hp).
  destruct (reconciliation_spec (live_reconciliationRun i) (live_checkedAt i) _ _ Hmax)
    as (cr & -> & Hcr).
  cbn [mbind outcome_bind]. eexists. split; [done|]. cbn [eval_status].
  rewrite !has_level_statuses. unfold gate. cbn [fmap list_fmap check check_status].
  rewrite Hcb, Hcp. match goal with |- context [if existsb _ ?l then _ else _] =>
    change (if existsb (fun s => s === Level.BLOCK) l then _ else _) with (overall l) end.
  rewrite overall_level, !(conditions_spec maxAge i b p) by done.
  set (all := _ && _ && _ && _ && _ && _ && _).
  assert (Hall : all = true <-> _) by (unfold all; rewrite !andb_true_iff; reflexivity).
  destruct Hcr as [(r & Hr & Hallow & ->)|[Hno ->]].
  - destruct all; [left|right]; naive_solver.
  - right. split; [naive_solver|]. by destruct all.
Qed.

(** C24: the preflight lets a live run start exactly when the orders and the
    execution state are live, running, unpaused, not degraded and the kill
    switch is off, the service sends to the exchange and can read it, both
    snapshots are at most as old as the shorter interval, the latest
    reconciliation completed in that time with a stored report that is intact,
    agrees with its run and names no issue that blocks, and no order is open;
    it does not warn exactly when that run was a success.  With intervals that
    are whole numbers it always gives an answer. *)
Theorem live_preflight_decides maxAge i :
  num_integer (getStrategyRunFreshnessThresholdMs (live_config i)) = Some maxAge ->
  exists e, evaluateLiveStrategyRunPreflight i = Ret e /\
    (eval_status e ≠ Level.BLOCK <-> live_conditions maxAge i) /\
    (eval_status e = Level.PASS <-> live_conditions maxAge i /\
       exists r, live_reconciliationRun i = Some r /\ run_status r = RunStatus.SUCCESS).
Proof.
  intros (e & He & Hcase)%evaluation_spec. exists e. split; [done|].
  destruct Hcase as [(Hl & r & Hr & ->)|[Hl ->]].
  - unfold run_level. split; [by destruct (run_status r)|].
    split; [intros Hs; split; [done|]; exists r; by destruct (run_status r)|].
    intros (_ & r' & Hr' & Hs). simplify_eq. by rewrite Hs.
  - split; [done|]. split; [done|]. by intros [? _].
Qed.

Lemma count_of_nat n : (Z.of_nat n <= MAX_SAFE_INTEGER)%Z -> is_count (Z.of_nat n) = true.
Proof. intros H. unfold is_count. apply andb_true_iff. rewrite !Z.leb_le. lia. Qed.

(** What a run that returns reports and stores. *)
Lemma run_is_reported sha256 localeCompare deps account options h result startedAtMs
    completedAt boundary :
  let s := result_summary result in
  let record := result_reconciliationRun result in
  reconciles sha256 localeCompare deps account options h (Ok result) ->
  run_startedAt record = toISOString startedAtMs -> run_completedAt record = Some completedAt ->
  report_conditions deps account startedAtMs completedAt boundary h ->
  is_count (max_order_lookups deps) = true -> (sum_candidateCount s <= MAX_SAFE_INTEGER)%Z ->
  reported s (run_startedAt record) completedAt /\ sum_status s = run_status record /\
  run_summaryJson record = stringify (summary_json s).
Proof.
  cbv zeta. intros Hrun Hstart Hdone Hcond Hmax Hsafe.
  assert (Hlookups : (0 <= max_order_lookups deps)%Z)
    by (apply andb_true_iff in Hmax as [H _]; by apply Z.leb_le).
  destruct (run_reports deps sha256 localeCompare account options h result startedAtMs completedAt
    boundary Hrun Hstart Hdone Hcond Hlookups Hsafe)
    as ((Hst & Hworded & n & m & Hn & Hm & Hd & Hl & Hle) & _ & Hj & _ & Hsweep & Hhistory).
  split; [|done]. split.
  - cbn [forallb]. rewrite Hn in Hsafe. rewrite Hn, Hm, Hd, Hl, Hmax.
    replace (Z.max 0 (Z.of_nat n - Z.of_nat m)) with (Z.of_nat (n - m)) by lia.
    by rewrite !count_of_nat by lia.
  - exact Hsweep.
  - intros i Hi. rewrite Forall_forall in Hworded. by apply Hworded.
  - intros report Hreport. rewrite Hst. by apply Hhistory.
Qed.

(** C39: the report of every reconciliation is read back.  What a run that
    returns has stored as its summary's text is read, at any later preflight, as
    that run's source, status and issues; under the conditions of the strict
    reader: the run is started at a printed clock time and ends later, the
    exchange's pages keep to their limit, the stored checkpoints lie before the
    recent window and the counts are safe integers. *)
Theorem own_report_is_read_back sha256 localeCompare deps account options h result startedAtMs
    completedAt boundary :
  let s := result_summary result in
  let record := result_reconciliationRun result in
  reconciles sha256 localeCompare deps account options h (Ok result) ->
  run_startedAt record = toISOString startedAtMs -> run_completedAt record = Some completedAt ->
  report_conditions deps account startedAtMs completedAt boundary h ->
  is_count (max_order_lookups deps) = true -> (sum_candidateCount s <= MAX_SAFE_INTEGER)%Z ->
  parseReconciliationSummary (run_summaryJson record) (run_startedAt record) completedAt
  = Some (stored_summary s) /\ sum_status s = run_status record.
Proof.
  cbv zeta. intros Hrun Hstart Hdone Hcond Hmax Hsafe.
  destruct (run_is_reported _ _ _ _ _ _ _ _ _ _ Hrun Hstart Hdone Hcond Hmax Hsafe)
    as (Hreported & Hst & ->).
  split; [|done]. by apply summary_read_back.
Qed.

(** ** Scenarios *)

Lemma own_report_is_read_back_witness :
  match parseReconciliationSummary (run_summaryJson (result_reconciliationRun sample_result))
          recon_instant recon_instant with
  | Some s => stored_status s = RunStatus.DRIFT_DETECTED /\
              stored_issues s = sum_issues (result_summary sample_result)
  | None => False
  end.
Proof.
  pose proof (recon_runs 1000 (Ok Persisted.APPLIED)) as Hrun. rewrite sample_result_eq in Hrun.
  assert (Hs : run_startedAt (result_reconciliationRun sample_result) = recon_instant)
    by (vm_compute; reflexivity).
  assert (Hd : sum_status (result_summary sample_result) = RunStatus.DRIFT_DETECTED)
    by (vm_compute; reflexivity).
  destruct (own_report_is_read_back sample_sha256 string_compare sample_dependencies "primary"
    sample_options sample_calls sample_result recon_instant_ms recon_instant 1787284800000000000 Hrun
    ltac:(vm_compute; reflexivity) ltac:(vm_compute; reflexivity) sample_conditions
    ltac:(vm_compute; reflexivity) ltac:(vm_compute; discriminate)) as [Hread _].
  rewrite Hs in Hread. rewrite Hread. split; [exact Hd|reflexivity].
Defined.

Local Open Scope string_scope.

Definition checked_instant : string := "2026-08-21T00:30:00.000Z".
Definition sample_started : string := "2026-08-21T00:00:00.000Z".

Definition sample_config (intervalMs : num) : PreflightConfig := {|
  conf_strategySchedulerEnabled := true;
  conf_executionMode := Mode.LIVE;
  conf_liveExecutionGate := Gate.ENABLED;
  conf_strategySchedulerBtcIntervalMs := intervalMs;
  conf_strategySchedulerEthIntervalMs := lit 7200000 0;
|}.

Definition live_execution_state : ExecutionStateRecord := {|
  es_id := "state"; es_exchangeAccountId := "primary"; es_executionMode := Mode.LIVE;
  es_liveExecutionGate := Gate.ENABLED; es_systemStatus := SysStatus.RUNNING;
  es_killSwitchActive := false; es_pauseReason := None; es_degradedReason := None;
  es_degradedAt := None; es_updatedAt := sample_started;
|}.

Definition quiet_summary (issues : list ReconciliationIssue) : ReconciliationSummary := {|
  sum_source := Trigger.SCHEDULER_PREFLIGHT;
  sum_status := match issues with [] => RunStatus.SUCCESS | _ => RunStatus.DRIFT_DETECTED end;
  sum_issues := issues;
  sum_candidateCount := 2; sum_processedCount := 2; sum_deferredCount := 0;
  sum_maxOrderLookupsPerRun := 10; sum_historyRecovery := None;
|}.

Definition quiet_run (issues : list ReconciliationIssue) : ReconciliationRunRecord := {|
  run_id := "recon_run"; run_exchangeAccountId := "primary";
  run_status := sum_status (quiet_summary issues);
  run_startedAt := sample_started; run_completedAt := Some sample_started;
  run_summaryJson := stringify (summary_json (quiet_summary issues)); run_errorMessage := None;
|}.

Definition sample_live (intervalMs : num) (issues : list ReconciliationIssue) : LivePreflightInput := {|
  live_config := sample_config intervalMs;
  live_executionState := live_execution_state;
  live_exchangeBackedReadEnabled := true;
  live_liveSendPath := SendPath.LIVE_ADAPTER;
  live_checkedAt := checked_instant;
  live_balanceSnapshot := Some {|
    bal_id := "balance"; bal_exchangeAccountId := "primary"; bal_capturedAt := sample_started;
    bal_source := SOURCE_RECONCILIATION; bal_totalKrwValue := None; bal_balancesJson := "[]" |};
  live_positionSnapshot := Some {|
    pos_id := "position"; pos_exchangeAccountId := "primary"; pos_capturedAt := sample_started;
    pos_source := SOURCE_RECONCILIATION; pos_positionsJson := "[]" |};
  live_reconciliationRun := Some (quiet_run issues);
  live_activeOrders := [];
|}.

Definition evaluated (i : LivePreflightInput) : option (Level.CheckStatus * string) :=
  match evaluateLiveStrategyRunPreflight i with
  | Ret e => Some (eval_status e, blocking_names (eval_checks e))
  | Throw _ => None
  end.

Example preflight_passes : evaluated (sample_live (lit 3600000 0) []) = Some (Level.PASS, "").
Proof. vm_compute. reflexivity. Qed.
Example preflight_warns :
  evaluated (sample_live (lit 3600000 0) [issue Issue.ORDER_FILLS_BACKFILLED "backfilled"])
  = Some (Level.WARN, "").
Proof. vm_compute. reflexivity. Qed.
Example preflight_stale :
  evaluated (sample_live (lit 1000 0) [])
  = Some (Level.BLOCK, "balance_snapshot,position_snapshot,latest_reconciliation").
Proof. vm_compute. reflexivity. Qed.
Example preflight_drift :
  evaluated (sample_live (lit 3600000 0) [issue Issue.BALANCE_DRIFT_DETECTED "drift"])
  = Some (Level.BLOCK, "latest_reconciliation").
Proof. vm_compute. reflexivity. Qed.

Lemma sample_within : within 3600000 checked_instant sample_started.
Proof.
  exists 1787272200000000000%Z, 1787270400000000000%Z.
  split; [vm_compute; reflexivity|]. split; [vm_compute; reflexivity|lia].
Qed.

Lemma live_preflight_decides_witness :
  exists e, evaluateLiveStrategyRunPreflight (sample_live (lit 3600000 0) []) = Ret e /\
    eval_status e = Level.PASS.
Proof.
  destruct (live_preflight_decides 3600000 (sample_live (lit 3600000 0) [])
    ltac:(vm_compute; reflexivity)) as (e & He & _ & Hpass).
  exists e. split; [exact He|]. apply Hpass. split; [|by exists (quiet_run [])].
  split; try reflexivity; [by split| | |].
  - eexists. split; [reflexivity|apply sample_within].
  - eexists. split; [reflexivity|apply sample_within].
  - eexists. split; [reflexivity|]. exists sample_started. eexists.
    split; [reflexivity|]. split; [vm_compute; reflexivity|]. split; [apply sample_within|].
    split; [apply summary_read_back|done].
    split; [reflexivity|reflexivity|by intros i ?%elem_of_nil|done].
Defined.

(** The configuration accepts an interval that is not a whole number, and the
    preflight then throws where it should answer. *)
Lemma fractional_interval_throws i captured age :
  num_integer (getStrategyRunFreshnessThresholdMs (live_config i)) = None ->
  bal_capturedAt <$> live_balanceSnapshot i = Some captured ->
  within age (live_checkedAt i) captured ->
  exists message, evaluateLiveStrategyRunPreflight i = Throw message.
Proof.
  intros Hmax Hb (checked & at_ & Hc & Ha & Hle). eexists.
  unfold evaluateLiveStrategyRunPreflight, buildLiveSchedulerChecks, snapshot_check.
  rewrite Hb. unfold describeTimestampFreshness. rewrite Hc, Ha.
  destruct (Z.ltb_spec (checked - at_) 0); [lia|]. unfold BigInt. rewrite Hmax. reflexivity.
Qed.

Example fractional_interval :
  exists message, evaluateLiveStrategyRunPreflight (sample_live (lit 36000005 1) []) = Throw message.
Proof. eexists. vm_compute. reflexivity. Qed.
