(* ===== verification/EvidenceRecords.v ===== *)
(** * EvidenceRecords: what the candidate evidence service reports and asks

    The results of [modules/execution/candidate-evidence-service.ts], the error
    that names a fault, and its calls: one constructor of [Evid.call] per method
    of a dependency it uses, with the type of the answer. *)

From Stdlib Require Import ZArith Bool.
From stdpp Require Import base option list strings.
From S2P Require Import Prelude Types CandidateState ExactState PilotRecords PilotRepository.
From S2P Require Import OperatorState OrderRecords OrderRepository Effects.

Local Open Scope string_scope.
Local Open Scope bool_scope.

(** ** Results *)

Module Projection.
Inductive CandidateEvidenceProjectionOutcome : Set :=
| ADVANCED | DUPLICATE | NO_ACTIVE_DEPLOYMENT | NOT_CANDIDATE_ORDER | NOT_TERMINAL
| TERMINAL_NO_FILL | FAULT.
#[export] Instance CandidateEvidenceProjectionOutcome_eq_dec :
  EqDecision CandidateEvidenceProjectionOutcome.
Proof. solve_decision. Defined.
End Projection.
Export (hints) Projection.

Record CandidateEvidenceProjectionResult := {
  proj_outcome : Projection.CandidateEvidenceProjectionOutcome;
  proj_resultOrderId : string;
  proj_detail : string;
}.

(** [CandidateEvidenceClock.now()] *)
Record EvidenceTime := {
  occurredAt : string;
  occurredAtEpochMs : Z;
}.

(** ** Errors *)

(** What can be thrown: the service's own class, another [Error], or a value
    that is no [Error]. *)
Inductive evidence_error : Set :=
| CandidateEvidenceFault (code message : string)
| AnError (message : string)
| AValue.

(** Code that may throw one of them. *)
Abbreviation checked := (result evidence_error).

#[export] Instance checked_ret : MRet checked := fun A v => Ok v.
#[export] Instance checked_bind : MBind checked := fun A B k m =>
  match m with Ok v => k v | Err x => Err x end.

(** [if (condition) throw new CandidateEvidenceFault(code, message);] *)
Definition fault_if (condition : bool) (code message : string) : checked unit :=
  if condition then Err (CandidateEvidenceFault code message) else Ok tt.

(** A function that throws an [Error]. *)
Definition checking {A} (o : outcome A) : checked A :=
  match o with Ret v => Ok v | Throw m => Err (AnError m) end.

Fixpoint fold_checked {A S} (f : S -> A -> checked S) (s : S) (l : list A) : checked S :=
  match l with
  | [] => Ok s
  | x :: l' => s' ← f s x; fold_checked f s' l'
  end.

Lemma bind_Ok {A B} (m : checked A) (k : A -> checked B) v :
  (x ← m; k x) = Ok v <-> exists x, m = Ok x /\ k x = Ok v.
Proof.
  destruct m as [x|e]; cbn; split; [|by intros (y & [= <-] & H)|done|by intros (y & [=] & _)].
  intros H. by exists x.
Qed.

Lemma fault_if_Ok c code message u : fault_if c code message = Ok u <-> c = false.
Proof. destruct c, u; cbn; split; congruence. Qed.

Lemma checking_Ok {A} (o : outcome A) v : checking o = Ok v <-> o = Ret v.
Proof. destruct o; cbn; split; congruence. Qed.

Lemma mapM_Ok {A B} (f : A -> checked B) l k :
  mapM f l = Ok k <-> Forall2 (fun x y => f x = Ok y) l k.
Proof.
  revert k. induction l as [|x l IH]; intros k; cbn [mapM].
  - split; [intros [= <-]; constructor|]. intros H. by inversion H.
  - rewrite bind_Ok. split.
    + intros (y & Hy & H). apply bind_Ok in H as (k' & Hk & [= <-]). constructor; [done|by apply IH].
    + intros H. inversion H as [|? y ? k' Hy Hk]; subst. exists y. split; [done|].
      apply bind_Ok. exists k'. split; [by apply IH|done].
Qed.

(** Splits a checked computation that returned into its steps. *)
Ltac ok_steps H :=
  repeat match type of H with
  | (_ ≫= _) = Ok _ => let E := fresh "E" in apply bind_Ok in H as (? & E & H)
  end.

(** What a condition that did not hold says. *)
Ltac false_flags :=
  repeat match goal with
  | H : _ || _ = false |- _ => apply orb_false_iff in H as [? H]
  | H : negb (bool_decide _) = false |- _ => apply negb_false_iff, bool_decide_eq_true in H
  | H : negb _ = false |- _ => apply negb_false_iff in H
  | H : (_ <? _)%Z = false |- _ => apply Z.ltb_ge in H
  | H : (_ <=? _)%Z = false |- _ => apply Z.leb_gt in H
  | H : (_ =? _)%Z = false |- _ => apply Z.eqb_neq in H
  end.

(** ** Calls *)

Module Evid.
Inductive call : Type -> Type :=
(* repositories *)
| FindOrderByReference (exchangeAccountId reference : string) : call (option OrderRecord)
| ListOrderEvents (orderId : string) : call (list OrderEventRecord)
| ListFills (orderId : string) : call (list FillRecord)
| GetStrategyDecisionById (id : string) : call (option StrategyDecisionRecord)
| AppendOrderEvent (record : OrderEventRecord) : call unit
| PersistCandidateProjectionFault (input : PersistCandidateProjectionFaultInput)
    : call Persisted.PersistOutcome
(* pilots *)
| GetDeploymentForExchangeAccount (exchangeAccountId : string)
    : call (option PositionGuardPilotDeploymentRecord)
| GetExecutionBindingForOrder (orderId : string) : call (option CandidateExecutionBindingRecord)
| GetExactState (deploymentId : string) : call (option ExactCandidateState)
| ListEvidenceRecords (deploymentId : string) : call (list CandidateEvidenceRecord)
| GetEvidenceRecord (deploymentId evidenceId : string) : call (option CandidateEvidenceRecord)
| AdvanceStateWithEvidence (input : AdvanceCandidatePilotStateInput)
    : call AdvanceCandidatePilotStateResult
(* operator state *)
| GetTransitionById (id : string) : call (option ExecutionStateTransitionRecord)
| ListTransitions (limit : Z) : call (list ExecutionStateTransitionRecord)
(* the clock *)
| Now : call EvidenceTime.
End Evid.
