(* ===== verification/EvidenceHelpers.v ===== *)
(** * EvidenceHelpers: the pure functions of the candidate evidence service

    The functions of [modules/execution/candidate-evidence-service.ts] that call
    nothing: the sums over an order's fills, the provenance a decision and a
    binding must have, and the fault events and the pauses that answer them. *)

From Stdlib Require Import ZArith Lia Ascii.
From stdpp Require Import base option list strings.
From S2P Require Import Prelude Num Types Text Timestamp NumText JsMap Json StrategyCore.
From S2P Require Import CandidateState Decimals ExactState PilotRecords PilotRepository.
From S2P Require Import OperatorState OrderRecords OrderRepository Effects EvidenceRecords.

Local Open Scope string_scope.
Local Open Scope js_scope.
Local Open Scope bool_scope.

(** ** Timestamps *)

Definition parseTimestamp (value label : string) : checked Z :=
  match parsePositionGuardCandidateTimestamp value label with
  | Ret epoch => Ok epoch
  | Throw m => Err (CandidateEvidenceFault "TIMESTAMP_INVALID" m)
  end.

Definition validateClock (value : EvidenceTime) : outcome unit :=
  throw_if (negb (isSafeInteger (occurredAtEpochMs value)) || (occurredAtEpochMs value <? 0)%Z
            || (Date_parse (occurredAt value) !== Some (occurredAtEpochMs value)))
    "Candidate evidence clock must provide matching persisted ISO and epoch-millisecond values.".

(** ** Deployments *)

Definition hasVerifiedDeploymentActivation (d : PositionGuardPilotDeploymentRecord) : bool :=
  match dep_activationAt d, dep_activationEpochNs d with
  | Some activationAt, Some activationEpochNs =>
      match parseTimestamp activationAt "candidate deployment activationAt" with
      | Ok epoch => (epoch =? activationEpochNs)%Z
      | Err _ => false
      end
  | _, _ => false
  end.

Definition isPreActivationOrder (order : OrderRecord) (d : PositionGuardPilotDeploymentRecord)
    : bool :=
  hasVerifiedDeploymentActivation d
  && match parseTimestamp (ord_requestedAt order) "order requestedAt", dep_activationEpochNs d with
     | Ok requestedAt, Some activationEpochNs => (requestedAt <? activationEpochNs)%Z
     | _, _ => false
     end.

(** [phase === "ACTIVE" || phase === "DRAINING"] *)
Definition takes_evidence (d : PositionGuardPilotDeploymentRecord) : bool :=
  (dep_phase d === Phase.ACTIVE) || (dep_phase d === Phase.DRAINING).

(** ** Orders *)

Definition terminal_status (order : OrderRecord) : option TerminalStatus :=
  match ord_status order with
  | OrderStatus.FILLED => Some Terminal.FILLED
  | OrderStatus.CANCELED => Some Terminal.CANCELED
  | _ => None
  end.

Definition is_candidate_order (order : OrderRecord) : bool :=
  (ord_origin order === Origin.STRATEGY) && (ord_market order === Market.KRW_BTC).

(** ** The decision *)

(** [isCandidateAction(action)], and the action it is. *)
Definition candidate_action (a : StrategyDecisionAction) : option ExecutedAction :=
  match a with
  | Action.ENTER => Some Exec.ENTER
  | Action.ADD => Some Exec.ADD
  | Action.REDUCE => Some Exec.REDUCE
  | Action.EXIT => Some Exec.EXIT
  | _ => None
  end.

(** [isEntryPath(value)], and the path it is. *)
Definition entry_path_of (value : option json) : option StrategyEntryPath :=
  match value with
  | Some (JStr text) =>
      List.find (fun path => EntryPath.to_string path === text)
        [EntryPath.PULLBACK; EntryPath.RECLAIM; EntryPath.BREAKOUT_HOLD; EntryPath.NONE]
  | _ => None
  end.

Definition asRecord (value : option json) : option (jsmap string json) :=
  match value with Some (JObj fields) => Some fields | _ => None end.

(** [record?.key] *)
Definition member (record : option (jsmap string json)) (key : string) : option json :=
  record ≫= map_get key.

(** [left !== right] of two parsed values: objects and arrays are not shared. *)
Definition json_differs (left right : json) : bool :=
  match left, right with
  | JNull, JNull => false
  | JBool a, JBool b => negb (Bool.eqb a b)
  | JNum a, JNum b => negb (neqb a b)
  | JStr a, JStr b => a !== b
  | _, _ => true
  end.

Definition conflicting (left right : option json) : bool :=
  match left, right with Some l, Some r => json_differs l r | _, _ => false end.

(** [left ?? right] *)
Definition coalesce (left right : option json) : option json :=
  match left with Some JNull | None => right | _ => left end.

(** [value === text] *)
Definition is_text (value : option json) (text : string) : bool :=
  match value with Some (JStr s) => s === text | _ => false end.

Definition invalid_decision {A} (message : string) : checked A :=
  Err (CandidateEvidenceFault "STRATEGY_DECISION_INVALID" message).

Definition parseDecisionBasis (decision : StrategyDecisionRecord) : checked StrategyEntryPath :=
  match JSON_parse (sd_decisionBasisJson decision) with
  | None => invalid_decision "Strategy decision basis JSON is malformed."
  | Some (JObj record) =>
      let strategyDecision := asRecord (map_get "strategyDecision" record) in
      let engineDecision := asRecord (map_get "engineDecision" record) in
      let diagnostics := asRecord (member engineDecision "diagnostics") in
      let canonicalEntryPath := member diagnostics "entryPath" in
      let legacyEntryPath := member engineDecision "entryPath" in
      if conflicting canonicalEntryPath legacyEntryPath
      then invalid_decision "Strategy decision basis contains conflicting entry-path provenance."
      else
        match is_text (member strategyDecision "market") (Market.to_string (sd_market decision)),
              is_text (member strategyDecision "action") (Action.to_string (sd_action decision)),
              entry_path_of (coalesce canonicalEntryPath legacyEntryPath) with
        | true, true, Some entryPath => Ok entryPath
        | _, _, _ =>
            invalid_decision
              "Strategy decision basis does not match persisted decision provenance."
        end
  | Some _ => invalid_decision "Strategy decision basis JSON is invalid."
  end.

(** ** The binding *)

Definition binding_invalid (message : string) (condition : bool) : checked unit :=
  fault_if condition "CANDIDATE_EXECUTION_BINDING_INVALID" message.

Definition sameOptionalCanonicalDecimal (left right : option string) : checked bool :=
  match left, right with
  | Some l, Some r =>
      cl ← checking (canonicalNonNegativeDecimal l "candidate order binding decimal");
      cr ← checking (canonicalNonNegativeDecimal r "candidate order decimal");
      Ok (cl === cr)
  | None, None => Ok true
  | _, _ => Ok false
  end.

Definition assertSameOptionalExactDecimal (left right : option string) (label : string)
    : checked unit :=
  let differ := binding_invalid ("Binding " ++ label ++ " does not match strategy decision.") in
  match left, right with
  | Some l, Some r =>
      cl ← checking (canonicalNonNegativeDecimal l ("binding " ++ label));
      cr ← checking (canonicalNonNegativeDecimal r ("decision " ++ label));
      differ (cl !== cr)
  | None, None => Ok tt
  | _, _ => differ true
  end.

Record VerifiedDecision := {
  vd_action : ExecutedAction;
  vd_entryPath : StrategyEntryPath;
  vd_decision : StrategyDecisionRecord;
  vd_requestedAt : Z;
  vd_bindingCreatedAt : Z;
}.

(** The binding's identity, up to the decimals. *)
Definition binding_identity_differs (order : OrderRecord) (d : PositionGuardPilotDeploymentRecord)
    (b : CandidateExecutionBindingRecord) (decision : StrategyDecisionRecord) : bool :=
  (bind_deploymentId b !== dep_id d)
  || (bind_strategyDecisionId b !== sd_id decision)
  || (bind_orderId b !== ord_id order)
  || (bind_exchangeAccountId b !== ord_exchangeAccountId order)
  || (bind_market b !== Market.to_string (ord_market order))
  || (bind_strategyKey b !== POSITION_GUARD_STRATEGY_KEY)
  || (bind_policyId b !== dep_policyId d)
  || (bind_policyVersion b !== dep_policyVersion d)
  || (Some (bind_activationAt b) !== dep_activationAt d)
  || (Some (bind_activationEpochNs b) !== dep_activationEpochNs d)
  || (bind_executionMode b !== ord_executionMode order)
  || (bind_ordType b !== ord_ordType order).

Definition BINDING_MISMATCH : string :=
  "Persisted order binding does not match deployment provenance.".

Definition check_binding (order : OrderRecord) (d : PositionGuardPilotDeploymentRecord)
    (b : CandidateExecutionBindingRecord) (decision : StrategyDecisionRecord) : checked unit :=
  _ ← binding_invalid BINDING_MISMATCH (binding_identity_differs order d b decision);
  samePrice ← sameOptionalCanonicalDecimal (bind_boundPrice b) (ord_price order);
  _ ← binding_invalid BINDING_MISMATCH (negb samePrice);
  sameVolume ← sameOptionalCanonicalDecimal (bind_boundVolume b) (ord_volume order);
  binding_invalid BINDING_MISMATCH
    (negb sameVolume
     || (bind_boundTimeInForce b !== (Tif.to_string <$> ord_timeInForce order))
     || (bind_boundSmpType b !== (Smp.to_string <$> ord_smpType order))).

(** The decision's action, which the binding repeats. *)
Definition check_decision (order : OrderRecord) (b : CandidateExecutionBindingRecord)
    (decision : StrategyDecisionRecord) : checked ExecutedAction :=
  match candidate_action (sd_action decision) with
  | Some action =>
      if (sd_exchangeAccountId decision === ord_exchangeAccountId order)
         && (sd_strategyKey decision === POSITION_GUARD_STRATEGY_KEY)
         && (sd_market decision === ord_market order)
         && (sd_status decision === Decided.READY)
         && (bind_action b === action)
      then Ok action
      else invalid_decision "Persisted strategy decision is invalid for candidate evidence."
  | None => invalid_decision "Persisted strategy decision is invalid for candidate evidence."
  end.

Definition expected_side (action : ExecutedAction) : OrderSide :=
  match action with Exec.ENTER | Exec.ADD => Side.bid | _ => Side.ask end.

Definition check_amounts (order : OrderRecord) (b : CandidateExecutionBindingRecord)
    (decision : StrategyDecisionRecord) : checked unit :=
  _ ← assertSameOptionalExactDecimal (bind_intendedQuantity b) (sd_intendedQuantity decision)
        "intended quantity";
  _ ← assertSameOptionalExactDecimal (bind_intendedNotionalKrw b) (sd_intendedNotionalKrw decision)
        "intended notional";
  _ ← fault_if (bool_decide (bind_intendedQuantity b <> None)
                && (ord_volume order !== bind_intendedQuantity b))
        "ORDER_QUANTITY_INVALID" "Order volume does not match its bound intended quantity.";
  fault_if ((ord_ordType order === OrdType.price)
            && bool_decide (bind_intendedNotionalKrw b <> None)
            && (ord_price order !== bind_intendedNotionalKrw b))
    "ORDER_QUANTITY_INVALID" "Price order budget does not match its bound intended notional.".

(** [getVerifiedDecision] of a decision that was found. *)
Definition verify_decision (order : OrderRecord) (d : PositionGuardPilotDeploymentRecord)
    (b : CandidateExecutionBindingRecord) (decision : StrategyDecisionRecord)
    : checked VerifiedDecision :=
  _ ← check_binding order d b decision;
  action ← check_decision order b decision;
  _ ← fault_if ((ord_side order !== expected_side action) || (bind_side b !== expected_side action))
        "ORDER_SIDE_ACTION_MISMATCH" "Order side does not match persisted candidate action.";
  _ ← check_amounts order b decision;
  decisionAt ← parseTimestamp (sd_createdAt decision) "strategy decision createdAt";
  requestedAt ← parseTimestamp (ord_requestedAt order) "order requestedAt";
  match dep_activationEpochNs d with
  | None => Err (CandidateEvidenceFault "CANDIDATE_DEPLOYMENT_ACTIVATION_UNVERIFIED"
                   "Candidate deployment activation instant is unavailable.")
  | Some activationAt =>
      bindingCreatedAt ← parseTimestamp (bind_createdAt b) "candidate execution binding createdAt";
      _ ← fault_if ((requestedAt <? decisionAt) || (requestedAt <? activationAt)
                    || (requestedAt <=? bindingCreatedAt))%Z
            "ORDER_TIMESTAMP_INVALID"
            "Decision, activation, and order timestamps are inconsistent.";
      entryPath ← parseDecisionBasis decision;
      Ok {| vd_action := action; vd_entryPath := entryPath; vd_decision := decision;
            vd_requestedAt := requestedAt; vd_bindingCreatedAt := bindingCreatedAt |}
  end.

(** ** Fills *)

Record TerminalFillAggregate := {
  agg_executedAt : string;
  agg_executedQuantity : string;
  agg_grossQuoteValueKrw : string;
  agg_confirmedFeeKrw : string;
}.

(** Zero, or digits the first of which is not zero. *)
Definition is_canonical_natural (s : string) : bool :=
  match s with
  | EmptyString => false
  | String c rest =>
      all_digits s && (negb (Ascii.eqb c "0"%char) || bool_decide (rest = EmptyString))
  end.

Definition verifiedExchangeFillEpoch (fill : FillRecord) : checked Z :=
  match fill_executionEpochNs fill with
  | Some epochNs =>
      _ ← fault_if (fill_executionTimestampProvenance fill
                      !== Some TimeProvenance.EXCHANGE_FILL_CONFIRMED)
            "FILL_EXECUTION_TIMESTAMP_UNVERIFIED"
            "Every candidate fill requires an exchange-confirmed execution timestamp and epoch nanoseconds.";
      _ ← fault_if (negb (is_canonical_natural epochNs)) "FILL_EXECUTION_TIMESTAMP_UNVERIFIED"
            "Persisted fill execution epoch nanoseconds are invalid.";
      parsed ← parseTimestamp (fill_filledAt fill) "fill filledAt";
      _ ← fault_if (Z_to_string parsed !== epochNs) "FILL_EXECUTION_TIMESTAMP_UNVERIFIED"
            "Persisted fill execution timestamp and epoch nanoseconds disagree.";
      Ok parsed
  | None =>
      Err (CandidateEvidenceFault "FILL_EXECUTION_TIMESTAMP_UNVERIFIED"
        "Every candidate fill requires an exchange-confirmed execution timestamp and epoch nanoseconds.")
  end.

(** A fill with its instant. *)
Definition TimedFill : Type := Z * FillRecord.

Definition time_fill (fill : FillRecord) : checked TimedFill :=
  epoch ← verifiedExchangeFillEpoch fill; Ok (epoch, fill).

Definition compare_fills (left right : TimedFill) : comparison :=
  match (fst left ?= fst right)%Z with
  | Eq => compareDeterministicIdentifiers (fill_id (snd left)) (fill_id (snd right))
  | c => c
  end.

(** Executed quantity, gross quote value, confirmed fee. *)
Record FillSums := {
  sum_quantity : ExactDecimal;
  sum_gross : ExactDecimal;
  sum_fee : ExactDecimal;
}.

Definition ZERO_DECIMAL : ExactDecimal := parseCanonicalDecimal "0".

Definition no_fills : FillSums :=
  {| sum_quantity := ZERO_DECIMAL; sum_gross := ZERO_DECIMAL; sum_fee := ZERO_DECIMAL |}.

(** What a fill of the order must have. *)
Definition check_fill (order : OrderRecord) (decision : VerifiedDecision) (timed : TimedFill)
    : checked string :=
  let fill := snd timed in
  _ ← fault_if ((fill_orderId fill !== ord_id order) || (fill_market fill !== ord_market order)
                || (fill_side fill !== ord_side order))
        "FILL_ORDER_MISMATCH" "Persisted fill does not match terminal order identity.";
  _ ← fault_if (fst timed <? vd_requestedAt decision)%Z
        "FILL_TIMESTAMP_INVALID" "Persisted fill precedes the terminal order request.";
  _ ← fault_if (fst timed <=? vd_bindingCreatedAt decision)%Z
        "FILL_TIMESTAMP_INVALID"
        "Persisted fill does not occur strictly after candidate binding creation.";
  match fill_feeAmount fill with
  | Some feeAmount =>
      _ ← fault_if ((fill_feeCurrency fill !== Some "KRW")
                    || (fill_feeProvenance fill !== Some FeeProvenance.EXCHANGE_FILL_CONFIRMED))
            "UNVERIFIED_FEE_PROVENANCE"
            "Every terminal fill requires a confirmed per-fill KRW fee source.";
      Ok feeAmount
  | None =>
      Err (CandidateEvidenceFault "UNVERIFIED_FEE_PROVENANCE"
        "Every terminal fill requires a confirmed per-fill KRW fee source.")
  end.

Definition add_fill (order : OrderRecord) (decision : VerifiedDecision) (s : FillSums)
    (timed : TimedFill) : checked FillSums :=
  let fill := snd timed in
  feeAmount ← check_fill order decision timed;
  volume ← checking (parseCanonicalNonNegativeDecimal (fill_volume fill) "fill volume");
  price ← checking (parseCanonicalNonNegativeDecimal (fill_price fill) "fill price");
  fee ← checking (parseCanonicalNonNegativeDecimal feeAmount "fill feeAmount");
  _ ← fault_if ((coefficient volume =? 0) || (coefficient price =? 0))%Z
        "DECIMAL_INVALID" "Terminal fill volume and price must be positive.";
  Ok {| sum_quantity := addExactDecimals (sum_quantity s) volume;
        sum_gross := addExactDecimals (sum_gross s) (multiplyExactDecimals price volume);
        sum_fee := addExactDecimals (sum_fee s) fee |}.

(** The sums against what the order asked for. *)
Definition check_sums (order : OrderRecord) (s : FillSums) : checked unit :=
  _ ← fault_if (coefficient (sum_quantity s) =? 0)%Z
        "TERMINAL_FILL_ZERO" "Terminal order contains only zero fills.";
  _ ← match ord_volume order with
      | Some volume =>
          requestedQuantity ← checking (parseCanonicalNonNegativeDecimal volume "order volume");
          fault_if (0 <? compareExactDecimals (sum_quantity s) requestedQuantity)%Z
            "ORDER_QUANTITY_INVALID" "Terminal fills exceed persisted order quantity."
      | None => Ok tt
      end;
  if (ord_side order === Side.bid) && (ord_ordType order === OrdType.price) then
    quoteBudget ← checking (parseCanonicalNonNegativeDecimal (default "" (ord_price order))
                              "order price");
    fault_if (0 <? compareExactDecimals (sum_gross s) quoteBudget)%Z
      "ORDER_QUANTITY_INVALID" "Terminal bid fills exceed persisted quote budget."
  else Ok tt.

(** The list of fills is not empty where the source calls it. *)
Definition aggregateTerminalFills (order : OrderRecord) (decision : VerifiedDecision)
    (fills : list FillRecord) : checked TerminalFillAggregate :=
  timed ← mapM time_fill fills;
  let ordered := js_sort compare_fills timed in
  sums ← fold_checked (add_fill order decision) no_fills ordered;
  _ ← check_sums order sums;
  match last ordered with
  | Some latest =>
      Ok {| agg_executedAt := fill_filledAt (snd latest);
            agg_executedQuantity := formatExactDecimal (sum_quantity sums);
            agg_grossQuoteValueKrw := formatExactDecimal (sum_gross sums);
            agg_confirmedFeeKrw := formatExactDecimal (sum_fee sums) |}
  | None => Err (AnError "Cannot read properties of undefined (reading 'fill')")
  end.

(** ** Evidence *)

Definition evidence_id (order : OrderRecord) : string := "terminal-order:" ++ ord_id order.

Definition terminal_evidence (order : OrderRecord) (status : TerminalStatus)
    (decision : VerifiedDecision) (a : TerminalFillAggregate) (remaining : string)
    : PositionGuardCandidateExecutionEvidence := {|
  evidenceId := evidence_id order;
  executedAt := agg_executedAt a;
  ev_action := vd_action decision;
  ev_entryPath := vd_entryPath decision;
  terminalStatus := status;
  executedQuantity := DecimalText (agg_executedQuantity a);
  grossQuoteValueKrw := DecimalText (agg_grossQuoteValueKrw a);
  confirmedFeeKrw := DecimalText (agg_confirmedFeeKrw a);
  remainingQuantity := DecimalText remaining;
|}.

(** [left !== right] of two amounts of evidence. *)
Definition amount_differs (left right : PositionGuardCandidateDecimal) : bool :=
  match left, right with
  | DecimalText l, DecimalText r => l !== r
  | DecimalNumber l, DecimalNumber r => negb (neqb l r)
  | _, _ => true
  end.

Definition assertMatchingExistingEvidence (existing : CandidateEvidenceRecord)
    (expected : PositionGuardCandidateExecutionEvidence) : checked unit :=
  let evidence := rec_evidence existing in
  fault_if ((executedAt evidence !== executedAt expected)
            || (ev_action evidence !== ev_action expected)
            || (ev_entryPath evidence !== ev_entryPath expected)
            || (terminalStatus evidence !== terminalStatus expected)
            || amount_differs (executedQuantity evidence) (executedQuantity expected)
            || amount_differs (grossQuoteValueKrw evidence) (grossQuoteValueKrw expected)
            || amount_differs (confirmedFeeKrw evidence) (confirmedFeeKrw expected)
            || amount_differs (remainingQuantity evidence) (remainingQuantity expected))
    "CONFLICTING_TERMINAL_EVIDENCE"
    "Persisted candidate evidence conflicts with terminal order evidence.".

(** The text order of the language, on 8-bit characters. *)
Definition isBeforeEvidence (record : CandidateEvidenceRecord) (epoch : Z) (id : string)
    : checked bool :=
  recordEpoch ← parseTimestamp (executedAt (rec_evidence record))
                  "persisted candidate evidence executedAt";
  Ok ((recordEpoch <? epoch)%Z
      || ((recordEpoch =? epoch)%Z
          && bool_decide (string_compare (evidenceId (rec_evidence record)) id = Lt))).

(** [records.filter((record) => isBeforeEvidence(record, epoch, id))], whose
    test may throw. *)
Fixpoint records_before (epoch : Z) (id : string) (records : list CandidateEvidenceRecord)
    : checked (list CandidateEvidenceRecord) :=
  match records with
  | [] => Ok []
  | record :: rest =>
      before ← isBeforeEvidence record epoch id;
      kept ← records_before epoch id rest;
      Ok (if before : bool then record :: kept else kept)
  end.

(** The quantity the evidence leaves, from the evidence before it. *)
Definition derive_remaining (records : list CandidateEvidenceRecord) (order : OrderRecord)
    (decision : VerifiedDecision) (a : TerminalFillAggregate) : checked string :=
  evidenceEpoch ← parseTimestamp (agg_executedAt a) "terminal fill executedAt";
  before ← records_before evidenceEpoch (evidence_id order) records;
  stateBeforeEvidence ← checking (projectExactCandidateState (rec_evidence <$> before));
  checking (deriveExactRemainingQuantity
    (currentEpisodeInventoryQuantity stateBeforeEvidence) (vd_action decision)
    (agg_executedQuantity a)).

(** ** Fault events *)

Definition PROJECTION_FAILED : string := "CANDIDATE_EVIDENCE_PROJECTION_FAILED".

Definition is_fault_event (orderId : string) (event : OrderEventRecord) : bool :=
  (oe_eventType event === PROJECTION_FAILED)
  && (String.prefix ("candidate-evidence-fault:" ++ orderId ++ ":") (oe_id event)
      || String.prefix ("candidate-evidence-recovery-fault:" ++ orderId) (oe_id event)).

Definition candidateProjectionFaultEvents (events : list OrderEventRecord) (orderId : string)
    : list OrderEventRecord := List.filter (is_fault_event orderId) events.

(** [typeof value === "string" && value.trim() ? value.trim() : null] *)
Definition trimmed (value : option json) : option string :=
  match value with
  | Some (JStr s) => let t := trim s in if t === "" then None else Some t
  | _ => None
  end.

Definition persistedFaultReason (event : OrderEventRecord) : string :=
  let fallback := "Persisted candidate projection fault " ++ oe_id event ++ "." in
  match JSON_parse (oe_payloadJson event) with
  | Some (JObj record) =>
      match trimmed (map_get "code" record), trimmed (map_get "message" record) with
      | Some code, Some message => code ++ ": " ++ message
      | Some code, None => code
      | None, Some message => message
      | None, None => fallback
      end
  | _ => fallback
  end.

Definition fault_reason_text (event : OrderEventRecord) : string :=
  "faultId=" ++ oe_id event ++ "; reason=" ++ persistedFaultReason event.

Definition isMatchingFaultPauseTransition (transition : option ExecutionStateTransitionRecord)
    (order : OrderRecord) (event : OrderEventRecord) : bool :=
  match transition with
  | None => false
  | Some t =>
      (tr_id t === oe_id event)
      && (tr_exchangeAccountId t === ord_exchangeAccountId order)
      && (tr_command t === Command.AUTOMATIC_PAUSE)
      && ((tr_toSystemStatus t === SysStatus.PAUSED)
          || (tr_toSystemStatus t === SysStatus.KILL_SWITCHED))
      && match parsePositionGuardCandidateTimestamp (tr_createdAt t)
                 "automatic fault pause createdAt",
               parsePositionGuardCandidateTimestamp (oe_createdAt event)
                 "candidate fault event createdAt" with
         | Ret pausedAt, Ret faultedAt => (faultedAt <=? pausedAt)%Z
         | _, _ => false
         end
      && (tr_reason t === Some (fault_reason_text event))
  end.
