(* ===== verification/EvidenceService.v ===== *)
(** * EvidenceService: from a terminal order to the candidate's state

    [CandidateExecutionEvidenceService] of
    [modules/execution/candidate-evidence-service.ts]:
    [processTerminalOrder] turns the fills of a finished order into evidence and
    advances the candidate's state with it, or records a fault that pauses
    trading; [classifyTerminalOrderForSweep] says which orders a sweep still has
    to hand to it.  Both are routines over the calls of [Evid].

    The no-fill marker is written by a promise that is returned, not awaited,
    from the [try] block: what it throws is not caught ([NoFill]). *)

From Stdlib Require Import ZArith.
From stdpp Require Import base option list strings.
From S2P Require Import Prelude Num Types Text NumText SubmissionBlocking CandidateState ExactState.
From S2P Require Import PilotRecords PilotRepository OperatorState OrderRecords OrderRepository.
From S2P Require Import Effects ExecutionHelpers ReconciliationRecords EvidenceRecords EvidenceHelpers.

Local Open Scope string_scope.
Local Open Scope js_scope.
Local Open Scope bool_scope.

Abbreviation evidencer A := (routine Evid.call evidence_error unit A).

(** What the service was constructed with; the optional methods of its
    dependencies may be missing. *)
Record EvidenceDependencies := {
  edep_exchangeAccountId : string;
  edep_hasDecisions : bool;
  edep_hasProjectionFaults : bool;
  edep_hasTransitionById : bool;
}.

(** A checked computation, and a throwing one. *)
Definition run_checked {A} (c : checked A) : evidencer A :=
  match c with Ok v => mret v | Err x => throw x end.

Definition run_outcome {A} (o : outcome A) : evidencer A := lift_outcome AnError o.

Definition projection (outcome : Projection.CandidateEvidenceProjectionOutcome)
    (orderId detail : string) : CandidateEvidenceProjectionResult :=
  {| proj_outcome := outcome; proj_resultOrderId := orderId; proj_detail := detail |}.

(** What the [try] block ends with: a result, or the promise of the marker. *)
Inductive Step : Type :=
| Settled (result : CandidateEvidenceProjectionResult)
| NoFill (decision : VerifiedDecision).

Definition settled (outcome : Projection.CandidateEvidenceProjectionOutcome)
    (orderId detail : string) : evidencer Step := mret (Settled (projection outcome orderId detail)).

Definition raise {A} (code message : string) : evidencer A :=
  throw (CandidateEvidenceFault code message).

Section Service.
(** [String.prototype.localeCompare] *)
Context (localeCompare : string -> string -> comparison).
(** [this.dependencies] *)
Context (deps : EvidenceDependencies).

(** ** Faults *)

Definition hasMatchingFaultPauseTransition (order : OrderRecord) (event : OrderEventRecord)
    : evidencer bool :=
  transition ←
    (if edep_hasTransitionById deps then await (Evid.GetTransitionById (oe_id event))
     else
       transitions ← await (Evid.ListTransitions MAX_SAFE_INTEGER);
       mret (List.find (fun candidate => tr_id candidate === oe_id event) transitions));
  mret (isMatchingFaultPauseTransition transition order event).

(** The first of the events whose pause is not recorded. *)
Fixpoint first_unpaused (order : OrderRecord) (events : list OrderEventRecord)
    : evidencer (option OrderEventRecord) :=
  match events with
  | [] => mret None
  | event :: rest =>
      paused ← hasMatchingFaultPauseTransition order event;
      if negb paused then mret (Some event) else first_unpaused order rest
  end.

(** [left.createdAt.localeCompare(right.createdAt) || left.id.localeCompare(right.id)] *)
Definition compare_events (left right : OrderEventRecord) : comparison :=
  match localeCompare (oe_createdAt left) (oe_createdAt right) with
  | Eq => localeCompare (oe_id left) (oe_id right)
  | c => c
  end.

Definition findIncompleteFaultPause (order : OrderRecord)
    : evidencer (option OrderEventRecord) :=
  events ← await (Evid.ListOrderEvents (ord_id order));
  first_unpaused order
    (js_sort compare_events (candidateProjectionFaultEvents events (ord_id order))).

(** The clock, validated. *)
Definition now : evidencer EvidenceTime :=
  time ← await Evid.Now; _ ← run_outcome (validateClock time); mret time.

Definition require_projection_faults : evidencer unit :=
  if edep_hasProjectionFaults deps then mret tt
  else throw (AnError
    "Candidate projection fault persistence requires an atomic repository implementation.").

Definition fault_input (order : OrderRecord) (event : OrderEventRecord) (reason transitionAt : string)
    : PersistCandidateProjectionFaultInput := {|
  proj_orderId := ord_id order;
  proj_event := event;
  proj_faultPause := {|
    fp_exchangeAccountId := ord_exchangeAccountId order;
    fp_faultId := oe_id event;
    fp_reason := reason;
    fp_occurredAt := oe_createdAt event;
    fp_transitionAt := Some transitionAt |};
|}.

Definition repairPersistedFaultPause (order : OrderRecord) (event : OrderEventRecord)
    : evidencer CandidateEvidenceProjectionResult :=
  _ ← require_projection_faults;
  let reason := persistedFaultReason event in
  repairAttempt ← now;
  _ ← await (Evid.PersistCandidateProjectionFault
               (fault_input order event reason (occurredAt repairAttempt)));
  mret (projection Projection.FAULT (ord_id order)
          ("Repaired persisted candidate projection fault pause: " ++ reason)).

Definition fault_event_id (order : OrderRecord) (code : string) : string :=
  "candidate-evidence-fault:" ++ ord_id order ++ ":" ++ code.

Definition new_fault_event (order : OrderRecord) (code message createdAt : string)
    : OrderEventRecord := {|
  oe_id := fault_event_id order code;
  oe_orderId := ord_id order;
  oe_eventType := PROJECTION_FAILED;
  oe_eventSource := EventSource.RECONCILIATION;
  oe_payloadJson := stringify (JObj [("code", JStr code); ("message", JStr message)]);
  oe_createdAt := createdAt;
|}.

Definition fault (order : OrderRecord) (code message : string)
    : evidencer CandidateEvidenceProjectionResult :=
  time ← now;
  events ← await (Evid.ListOrderEvents (ord_id order));
  let event := default (new_fault_event order code message (occurredAt time))
                 (List.find (fun event => oe_id event === fault_event_id order code) events) in
  _ ← require_projection_faults;
  _ ← await (Evid.PersistCandidateProjectionFault
               {| proj_orderId := ord_id order;
                  proj_event := event;
                  proj_faultPause := {|
                    fp_exchangeAccountId := ord_exchangeAccountId order;
                    fp_faultId := fault_event_id order code;
                    fp_reason := code ++ ": " ++ message;
                    fp_occurredAt := oe_createdAt event;
                    fp_transitionAt := Some (occurredAt time) |} |});
  mret (projection Projection.FAULT (ord_id order) (code ++ ": " ++ message)).

(** The code and the message of what was caught. *)
Definition fault_of (error : evidence_error) : string * string :=
  match error with
  | CandidateEvidenceFault code message => (code, message)
  | AnError message => ("CANDIDATE_EVIDENCE_PROJECTION_FAILED", message)
  | AValue => ("CANDIDATE_EVIDENCE_PROJECTION_FAILED",
               "Unknown candidate evidence projection failure.")
  end.

(** ** Orders without fills *)

Definition no_fill_id (order : OrderRecord) : string := "candidate-evidence-no-fill:" ++ ord_id order.

Definition has_marker (order : OrderRecord) (events : list OrderEventRecord) : bool :=
  existsb (fun event => oe_id event === no_fill_id order) events.

Definition hasTerminalNoFillMarker (order : OrderRecord) : evidencer bool :=
  events ← await (Evid.ListOrderEvents (ord_id order)); mret (has_marker order events).

Definition no_fill_event (order : OrderRecord) (decision : VerifiedDecision) (createdAt : string)
    : OrderEventRecord := {|
  oe_id := no_fill_id order;
  oe_orderId := ord_id order;
  oe_eventType := "CANDIDATE_EVIDENCE_TERMINAL_NO_FILL";
  oe_eventSource := EventSource.RECONCILIATION;
  oe_payloadJson := stringify (JObj
    [("action", JStr (Action.to_string (Exec.to_action (vd_action decision))));
     ("entryPath", JStr (EntryPath.to_string (vd_entryPath decision)));
     ("terminalStatus", JStr (OrderStatus.to_string (ord_status order)))]);
  oe_createdAt := createdAt;
|}.

Definition MARKER_KNOWN : string := "Terminal no-fill cancellation was already recorded.".

Definition recordTerminalNoFill (order : OrderRecord) (decision : VerifiedDecision)
    : evidencer CandidateEvidenceProjectionResult :=
  marked ← hasTerminalNoFillMarker order;
  if marked : bool then mret (projection Projection.DUPLICATE (ord_id order) MARKER_KNOWN)
  else
    time ← now;
    _ ← await (Evid.AppendOrderEvent (no_fill_event order decision (occurredAt time)));
    mret (projection Projection.TERMINAL_NO_FILL (ord_id order)
      "Terminal no-fill cancellation was recorded without candidate state advancement.").

(** ** Projection *)

Definition getVerifiedDecision (order : OrderRecord) (d : PositionGuardPilotDeploymentRecord)
    (b : CandidateExecutionBindingRecord) : evidencer VerifiedDecision :=
  match non_empty (ord_strategyDecisionId order) with
  | None => raise "STRATEGY_DECISION_MISSING" "Terminal strategy order has no decision reference."
  | Some id =>
      found ← (if edep_hasDecisions deps then await (Evid.GetStrategyDecisionById id)
               else mret None);
      match found with
      | None => raise "STRATEGY_DECISION_MISSING"
                  "Terminal strategy order references no persisted decision."
      | Some decision => run_checked (verify_decision order d b decision)
      end
  end.

Definition is_exact (record : CandidateEvidenceRecord) : bool :=
  rec_materialVersion record === Material.EXACT_V2.

Definition KNOWN : string := "Terminal order evidence was already projected.".

(** The evidence of an order with fills. *)
Definition project_evidence (orderId : string) (order : OrderRecord) (status : TerminalStatus)
    (d : PositionGuardPilotDeploymentRecord) (decision : VerifiedDecision)
    (fills : list FillRecord) : evidencer Step :=
  aggregate ← run_checked (aggregateTerminalFills order decision fills);
  exactState ← await (Evid.GetExactState (dep_id d));
  match exactState with
  | None => raise "CANDIDATE_STATE_LEGACY_APPROXIMATE"
              "Candidate state has no authoritative exact decimal representation."
  | Some exact =>
      records ← await (Evid.ListEvidenceRecords (dep_id d));
      if negb (forallb is_exact records) then
        raise "LEGACY_CANDIDATE_EVIDENCE"
          "Candidate deployment contains legacy approximate evidence and cannot advance."
      else
        remaining ← run_checked (derive_remaining records order decision aggregate);
        let evidence := terminal_evidence order status decision aggregate remaining in
        existing ← await (Evid.GetEvidenceRecord (dep_id d) (evidence_id order));
        match existing with
        | Some record =>
            if negb (is_exact record) then
              raise "LEGACY_CANDIDATE_EVIDENCE"
                "Terminal order identity is occupied by legacy approximate candidate evidence."
            else
              _ ← run_checked (assertMatchingExistingEvidence record evidence);
              settled Projection.DUPLICATE orderId KNOWN
        | None =>
            advanced ← await (Evid.AdvanceStateWithEvidence
              {| adv_deploymentId := dep_id d;
                 adv_expectedStateVersion := ExactState.stateVersion exact;
                 adv_evidence := evidence |});
            if advance_duplicate advanced then settled Projection.DUPLICATE orderId KNOWN
            else settled Projection.ADVANCED orderId
                   "Terminal order evidence was projected atomically."
        end
  end.

(** An order bound to the deployment. *)
Definition project_bound (orderId : string) (order : OrderRecord) (status : TerminalStatus)
    (d : PositionGuardPilotDeploymentRecord) (b : CandidateExecutionBindingRecord)
    : evidencer Step :=
  decision ← getVerifiedDecision order d b;
  fills ← await (Evid.ListFills (ord_id order));
  match fills with
  | [] =>
      marked ← hasTerminalNoFillMarker order;
      if marked : bool then settled Projection.DUPLICATE (ord_id order) MARKER_KNOWN
      else mret (NoFill decision)
  | _ => project_evidence orderId order status d decision fills
  end.

(** The [try] block. *)
Definition project (orderId : string) (order : OrderRecord) (status : TerminalStatus)
    : evidencer Step :=
  incompleteFault ← findIncompleteFaultPause order;
  match incompleteFault with
  | Some event => repaired ← repairPersistedFaultPause order event; mret (Settled repaired)
  | None =>
      deployment ← await (Evid.GetDeploymentForExchangeAccount (ord_exchangeAccountId order));
      match deployment with
      | Some d =>
          if negb (takes_evidence d) then
            settled Projection.NO_ACTIVE_DEPLOYMENT orderId
              "No active candidate deployment is persisted."
          else if negb (hasVerifiedDeploymentActivation d) then
            raise "CANDIDATE_DEPLOYMENT_ACTIVATION_UNVERIFIED"
              "Active candidate deployment has no authoritative persisted activation instant."
          else
            binding ← await (Evid.GetExecutionBindingForOrder (ord_id order));
            match binding with
            | Some b => project_bound orderId order status d b
            | None =>
                if isPreActivationOrder order d then
                  settled Projection.NOT_CANDIDATE_ORDER (ord_id order)
                    "Terminal strategy order predates the persisted candidate deployment."
                else raise "CANDIDATE_EXECUTION_BINDING_MISSING"
                       "Terminal candidate order has no persisted deployment binding."
            end
      | None => settled Projection.NO_ACTIVE_DEPLOYMENT orderId
                  "No active candidate deployment is persisted."
      end
  end.

(** What follows the lookup of a candidate's finished order. *)
Definition process_terminal (orderId : string) (order : OrderRecord) (status : TerminalStatus)
    : evidencer CandidateEvidenceProjectionResult :=
  step ← try_catch (project orderId order status) (fun error =>
    faulted ← fault order (fst (fault_of error)) (snd (fault_of error));
    mret (Settled faulted));
  match step with
  | Settled result => mret result
  | NoFill decision => recordTerminalNoFill order decision
  end.

Definition processTerminalOrder (orderId : string)
    : evidencer CandidateEvidenceProjectionResult :=
  found ← await (Evid.FindOrderByReference (edep_exchangeAccountId deps) orderId);
  match found with
  | None => mret (projection Projection.NOT_CANDIDATE_ORDER orderId
                    "Order is not persisted for the candidate account.")
  | Some order =>
      if negb (is_candidate_order order) then
        mret (projection Projection.NOT_CANDIDATE_ORDER orderId
                "Order is outside candidate strategy provenance.")
      else match terminal_status order with
           | None => mret (projection Projection.NOT_TERMINAL orderId
               ("Order lifecycle " ++ OrderStatus.to_string (ord_status order)
                ++ " is not terminal."))
           | Some status => process_terminal orderId order status
           end
  end.

(** ** The sweep *)

(** What is known of an order without faults or a marker. *)
Definition classify_evidence (order : OrderRecord) : evidencer SweepDisposition :=
  looked ← attempt (await (Evid.GetDeploymentForExchangeAccount (ord_exchangeAccountId order)));
  match looked with
  | Err _ => mret ELIGIBLE
  | Ok None => mret OUTSIDE_SCOPE
  | Ok (Some d) =>
      if negb (takes_evidence d) then mret OUTSIDE_SCOPE
      else
        bound ← attempt (await (Evid.GetExecutionBindingForOrder (ord_id order)));
        match bound with
        | Err _ => mret ELIGIBLE
        | Ok binding =>
            if negb (hasVerifiedDeploymentActivation d) then mret ELIGIBLE
            else match binding with
                 | None => mret (if isPreActivationOrder order d then PRE_ACTIVATION else ELIGIBLE)
                 | Some b =>
                     if bind_deploymentId b !== dep_id d then mret ELIGIBLE
                     else
                       record ← await (Evid.GetEvidenceRecord (dep_id d) (evidence_id order));
                       mret (match record with Some _ => DISPOSED | None => ELIGIBLE end)
                 end
        end
  end.

(** An order whose faults are all paused. *)
Definition classify_unfaulted (order : OrderRecord) (events : list OrderEventRecord)
    : evidencer SweepDisposition :=
  match candidateProjectionFaultEvents events (ord_id order) with
  | _ :: _ => mret DISPOSED
  | [] =>
      if has_marker order events then
        fills ← await (Evid.ListFills (ord_id order));
        match fills with [] => mret DISPOSED | _ => classify_evidence order end
      else classify_evidence order
  end.

Definition classifyTerminalOrderForSweep (orderId : string) : evidencer SweepDisposition :=
  found ← await (Evid.FindOrderByReference (edep_exchangeAccountId deps) orderId);
  match found with
  | None => mret OUTSIDE_SCOPE
  | Some order =>
      if negb (is_candidate_order order) then mret OUTSIDE_SCOPE
      else match terminal_status order with
           | None => mret OUTSIDE_SCOPE
           | Some _ =>
               events ← await (Evid.ListOrderEvents (ord_id order));
               unpaused ← first_unpaused order
                            (candidateProjectionFaultEvents events (ord_id order));
               match unpaused with
               | Some _ => mret ELIGIBLE
               | None => classify_unfaulted order events
               end
           end
  end.

End Service.
