(* ===== verification/EvidenceSums.v ===== *)
(** * EvidenceSums: the sums over an order's fills

    What [aggregateTerminalFills] accepts and what it returns: the exact totals
    of fills that are all confirmed, the instant of the latest of them, within
    what the order asked for; whatever the order they are listed in. *)

From Stdlib Require Import ZArith QArith Lia.
From stdpp Require Import base option list strings sorting.
From S2P Require Import Prelude Num Types Text Timestamp NumText Json CandidateState Decimals.
From S2P Require Import ExactState PilotRecords OrderRecords OrderTheory Effects.
From S2P Require Import EvidenceRecords EvidenceHelpers.

Local Open Scope string_scope.
Local Open Scope js_scope.
Local Open Scope bool_scope.
Local Open Scope Q_scope.

(** ** Values *)

Definition total {A} (f : A -> Q) (l : list A) : Q := foldr (fun x acc => f x + acc) 0 l.

Lemma total_perm {A} (f : A -> Q) l1 l2 : l1 ≡ₚ l2 -> total f l1 == total f l2.
Proof. induction 1 as [|x l1 l2 _ IH|x y l|? ? ? _ IH1 _ IH2]; cbn; [done| | |]; [by rewrite IH|ring|].
  by rewrite IH1. Qed.

Lemma total_fmap {A B} (g : B -> A) (f : A -> Q) l : total f (g <$> l) = total (fun x => f (g x)) l.
Proof. induction l as [|x l IH]; [done|]. unfold total in *. cbn. by rewrite IH. Qed.

Definition fill_quantity (fill : FillRecord) : Q := text_value (fill_volume fill).
Definition fill_gross (fill : FillRecord) : Q :=
  text_value (fill_price fill) * text_value (fill_volume fill).
Definition fill_fee (fill : FillRecord) : Q := text_value (default "0" (fill_feeAmount fill)).

Lemma parse_nonneg_value text label d :
  parseCanonicalNonNegativeDecimal text label = Ret d ->
  dec_value d = text_value text /\ (0 <= coefficient d)%Z.
Proof.
  intros H. pose proof H as H'. apply parse_nonneg_Ret in H' as (_ & ? & _). split; [|done].
  unfold parseCanonicalNonNegativeDecimal in H. apply throw_if_bind_Ret in H as [_ [= <-]]. done.
Qed.

(** ** One fill *)

(** A fill of the order that counts: the exchange confirmed its time and fee,
    and it came after the order was bound and requested. *)
Record confirmed_fill (order : OrderRecord) (decision : VerifiedDecision) (fill : FillRecord)
    : Prop := {
  cf_order : fill_orderId fill = ord_id order;
  cf_market : fill_market fill = ord_market order;
  cf_side : fill_side fill = ord_side order;
  cf_time : exists epoch,
    parsePositionGuardCandidateTimestamp (fill_filledAt fill) "fill filledAt" = Ret epoch /\
    fill_executionEpochNs fill = Some (Z_to_string epoch) /\
    fill_executionTimestampProvenance fill = Some TimeProvenance.EXCHANGE_FILL_CONFIRMED /\
    (vd_requestedAt decision <= epoch)%Z /\ (vd_bindingCreatedAt decision < epoch)%Z;
  cf_fee : fill_feeCurrency fill = Some "KRW" /\
    fill_feeProvenance fill = Some FeeProvenance.EXCHANGE_FILL_CONFIRMED /\
    fill_feeAmount fill <> None;
  cf_positive : 0 < text_value (fill_volume fill) /\ 0 < text_value (fill_price fill);
}.

Lemma parseTimestamp_Ok value label epoch :
  parseTimestamp value label = Ok epoch <->
  parsePositionGuardCandidateTimestamp value label = Ret epoch.
Proof. unfold parseTimestamp. destruct (parsePositionGuardCandidateTimestamp _ _); split; congruence. Qed.

Lemma time_fill_Ok fill timed :
  time_fill fill = Ok timed ->
  snd timed = fill /\
  parsePositionGuardCandidateTimestamp (fill_filledAt fill) "fill filledAt" = Ret (fst timed) /\
  fill_executionEpochNs fill = Some (Z_to_string (fst timed)) /\
  fill_executionTimestampProvenance fill = Some TimeProvenance.EXCHANGE_FILL_CONFIRMED.
Proof.
  unfold time_fill, verifiedExchangeFillEpoch. intros H. ok_steps H. injection H as <-.
  destruct (fill_executionEpochNs fill) as [ns|]; [|done]. ok_steps E.
  injection E as <-. apply fault_if_Ok in E0, E1, E3. apply parseTimestamp_Ok in E2.
  false_flags.
  cbn. split_and!; congruence.
Qed.

Lemma add_fill_Ok order decision s timed s' :
  time_fill (snd timed) = Ok timed ->
  add_fill order decision s timed = Ok s' ->
  confirmed_fill order decision (snd timed) /\
  dec_value (sum_quantity s') == dec_value (sum_quantity s) + fill_quantity (snd timed) /\
  dec_value (sum_gross s') == dec_value (sum_gross s) + fill_gross (snd timed) /\
  dec_value (sum_fee s') == dec_value (sum_fee s) + fill_fee (snd timed).
Proof.
  intros Ht H. unfold add_fill in H. ok_steps H. injection H as <-.
  unfold check_fill in E. ok_steps E. apply fault_if_Ok in E3, E4, E5, E6.
  destruct (fill_feeAmount (snd timed)) as [feeAmount|] eqn:Hfee; [|done].
  ok_steps E. injection E as <-. apply fault_if_Ok in E7.
  apply checking_Ok, parse_nonneg_value in E0 as [Hv Hv0], E1 as [Hp Hp0], E2 as [Hf _].
  unfold fill_quantity, fill_gross, fill_fee. rewrite Hfee. cbn [default sum_quantity sum_gross sum_fee].
  rewrite !add_value, mul_value, Hv, Hp, Hf.
  apply time_fill_Ok in Ht as (_ & Ht & Hns & Hprov).
  false_flags.
  split; [|done]. constructor; try done.
  - by exists (fst timed).
  - rewrite Hfee. split_and!; done.
  - rewrite <- Hv, <- Hp. split; apply dec_value_pos; lia.
Qed.

(** ** All fills *)

Lemma mapM_perm {A B} (f : A -> checked B) l1 l2 k1 :
  l1 ≡ₚ l2 -> mapM f l1 = Ok k1 -> exists k2, mapM f l2 = Ok k2 /\ k1 ≡ₚ k2.
Proof.
  intros HP Hk. apply mapM_Ok in Hk.
  enough (exists k2, Forall2 (fun x y => f x = Ok y) l2 k2 /\ k1 ≡ₚ k2) as (k2 & H & HP2)
    by (exists k2; by rewrite mapM_Ok).
  revert k1 Hk. induction HP as [|x l1 l2 _ IH|x y l|l1 l2 l3 _ IH1 _ IH2]; intros k1 Hk.
  - inversion Hk. by exists [].
  - inversion Hk as [|? v ? k Hv Hk']; subst. destruct (IH _ Hk') as (k2 & ? & HP2).
    exists (v :: k2). split; [by constructor|by rewrite HP2].
  - inversion Hk as [|? v ? k Hv Hk']; subst. inversion Hk' as [|? w ? k'' Hw Hk'']; subst.
    exists (w :: v :: k''). split; [by repeat constructor|apply Permutation_swap].
  - destruct (IH1 _ Hk) as (k2 & H2 & P2), (IH2 _ H2) as (k3 & H3 & P3).
    exists k3. split; [done|by rewrite P2].
Qed.

Lemma timed_fills fills timed :
  mapM time_fill fills = Ok timed ->
  snd <$> timed = fills /\ Forall (fun t => time_fill (snd t) = Ok t) timed.
Proof.
  rewrite mapM_Ok. induction 1 as [|fill t fills timed Ht _ [IH1 IH2]]; [by split|].
  pose proof (time_fill_Ok _ _ Ht) as (Hs & _). cbn. rewrite Hs. split; [by f_equal|].
  constructor; [by rewrite Hs|done].
Qed.

(** The fills are ordered by instant, then by identifier. *)
Abbreviation fill_key := (fun t : TimedFill => (fst t, fill_id (snd t))).

#[export] Instance compare_fills_consistent : ConsistentComparator compare_fills.
Proof.
  split; unfold cmp_le; intros x y; [|intros z].
  - exact (compare_keys_antisym (fill_key x) (fill_key y)).
  - exact (compare_keys_trans (fill_key x) (fill_key y) (fill_key z)).
Qed.

Lemma compare_fills_le x y : compare_fills x y <> Gt -> (fst x <= fst y)%Z.
Proof.
  unfold compare_fills. destruct (Z.compare_spec (fst x) (fst y)); intros Hle; [lia|lia|done].
Qed.

Lemma last_latest timed latest :
  last (js_sort compare_fills timed) = Some latest ->
  latest ∈ timed /\ forall t, t ∈ timed -> (fst t <= fst latest)%Z.
Proof.
  intros Hl. split.
  - rewrite <- (js_sort_perm compare_fills timed). by apply last_Some_elem_of.
  - intros t Ht. rewrite <- (js_sort_perm compare_fills timed) in Ht.
    destruct (sorted_last compare_fills _ _ t (js_sort_sorted _ _) Hl Ht) as [->|Hle]; [lia|].
    by apply compare_fills_le.
Qed.

Section Aggregate.
Context (order : OrderRecord) (decision : VerifiedDecision).

Abbreviation add := (add_fill order decision).

Lemma add_normal_sums s t s' :
  normal (sum_quantity s) /\ normal (sum_gross s) /\ normal (sum_fee s) ->
  add s t = Ok s' ->
  normal (sum_quantity s') /\ normal (sum_gross s') /\ normal (sum_fee s').
Proof.
  intros _ H. unfold add_fill in H. ok_steps H. injection H as <-. cbn.
  split_and!; apply add_normal.
Qed.

Lemma fold_sums timed s s' :
  Forall (fun t => time_fill (snd t) = Ok t) timed ->
  normal (sum_quantity s) /\ normal (sum_gross s) /\ normal (sum_fee s) ->
  fold_checked add s timed = Ok s' ->
  Forall (confirmed_fill order decision) (snd <$> timed) /\
  (normal (sum_quantity s') /\ normal (sum_gross s') /\ normal (sum_fee s')) /\
  dec_value (sum_quantity s') == dec_value (sum_quantity s) + total fill_quantity (snd <$> timed) /\
  dec_value (sum_gross s') == dec_value (sum_gross s) + total fill_gross (snd <$> timed) /\
  dec_value (sum_fee s') == dec_value (sum_fee s) + total fill_fee (snd <$> timed).
Proof.
  intros HF. revert s. induction HF as [|t timed Ht HF IH]; intros s Hn; cbn [fold_checked].
  - intros [= <-]. split_and!; [constructor|apply Hn|apply Hn|apply Hn|..]; cbn; ring.
  - intros H. apply bind_Ok in H as (s1 & H1 & H).
    destruct (add_fill_Ok _ _ _ _ _ Ht H1) as (Hc & Eq1 & Eg1 & Ef1).
    destruct (IH s1 (add_normal_sums _ _ _ Hn H1) H) as (HFc & Hn' & Eq & Eg & Ef).
    split; [by constructor|]. split; [done|].
    cbn [fmap list_fmap total foldr]. fold (@total FillRecord).
    rewrite Eq, Eg, Ef, Eq1, Eg1, Ef1. split_and!; unfold total; cbn; ring.
Qed.

Lemma zero_value : dec_value ZERO_DECIMAL == 0.
Proof. by vm_compute. Qed.

(** The budget of the order: its quantity, and what a bid by price may spend. *)
Definition within_order (quantity gross : Q) : Prop :=
  (forall volume, ord_volume order = Some volume -> quantity <= text_value volume) /\
  (ord_side order = Side.bid -> ord_ordType order = OrdType.price ->
   exists price, ord_price order = Some price /\ gross <= text_value price).

Lemma not_more text label d e :
  parseCanonicalNonNegativeDecimal text label = Ret d ->
  (0 <? compareExactDecimals e d)%Z = false -> dec_value e <= text_value text.
Proof.
  intros Hd Hc. apply parse_nonneg_value in Hd as [<- _]. rewrite compare_value in Hc.
  apply Qle_alt. intros Hgt. by rewrite Hgt in Hc.
Qed.

Lemma check_sums_Ok s u :
  check_sums order s = Ok u -> within_order (dec_value (sum_quantity s)) (dec_value (sum_gross s)).
Proof.
  intros H. unfold check_sums in H. ok_steps H. split.
  - intros volume Hv. rewrite Hv in E0. apply bind_Ok in E0 as (d & Hd & E0).
    apply checking_Ok in Hd. apply fault_if_Ok in E0. by eapply not_more.
  - intros Hside Htype. rewrite Hside, Htype in H. apply bind_Ok in H as (d & Hd & H).
    apply checking_Ok in Hd. apply fault_if_Ok in H.
    destruct (ord_price order) as [price|]; [|by vm_compute in Hd].
    exists price. split; [done|]. by eapply not_more.
Qed.

Lemma check_sums_positive s u :
  check_sums order s = Ok u -> (coefficient (sum_quantity s) <> 0)%Z.
Proof. intros H. unfold check_sums in H. ok_steps H. apply fault_if_Ok in E. by false_flags. Qed.

Lemma aggregate_parts fills a :
  aggregateTerminalFills order decision fills = Ok a ->
  exists timed s latest,
    mapM time_fill fills = Ok timed /\
    fold_checked add no_fills (js_sort compare_fills timed) = Ok s /\
    check_sums order s = Ok tt /\
    last (js_sort compare_fills timed) = Some latest /\
    a = {| agg_executedAt := fill_filledAt (snd latest);
           agg_executedQuantity := formatExactDecimal (sum_quantity s);
           agg_grossQuoteValueKrw := formatExactDecimal (sum_gross s);
           agg_confirmedFeeKrw := formatExactDecimal (sum_fee s) |}.
Proof.
  intros H. unfold aggregateTerminalFills in H. ok_steps H.
  destruct (last _) as [latest|] eqn:Hl; [|done]. injection H as <-.
  eexists _, _, _. split_and!; [done|done| |done|done]. by destruct x1.
Qed.

Lemma sorted_fills fills timed :
  mapM time_fill fills = Ok timed ->
  snd <$> js_sort compare_fills timed ≡ₚ fills /\
  Forall (fun t => time_fill (snd t) = Ok t) (js_sort compare_fills timed).
Proof.
  intros (Hs & HF)%timed_fills. rewrite js_sort_perm. split; [by rewrite Hs|done].
Qed.

End Aggregate.

(** C26: the evidence of an order is exact.  Whatever fills are added up, every
    one is a fill of the order whose time and fee the exchange confirmed and
    which came after the order was bound and requested; quantity, gross value
    and fee are the sums over the fills as rational numbers, without rounding;
    the quantity is positive and not above the order's, a bid by price spends
    no more than its budget, and the evidence carries the instant of the latest
    fill. *)
Theorem aggregate_is_exact order decision fills a :
  aggregateTerminalFills order decision fills = Ok a ->
  Forall (confirmed_fill order decision) fills /\
  text_value (agg_executedQuantity a) == total fill_quantity fills /\
  text_value (agg_grossQuoteValueKrw a) == total fill_gross fills /\
  text_value (agg_confirmedFeeKrw a) == total fill_fee fills /\
  ~ text_value (agg_executedQuantity a) == 0 /\
  within_order order (text_value (agg_executedQuantity a)) (text_value (agg_grossQuoteValueKrw a)) /\
  exists latest epoch, latest ∈ fills /\ agg_executedAt a = fill_filledAt latest /\
    parsePositionGuardCandidateTimestamp (agg_executedAt a) "fill filledAt" = Ret epoch /\
    forall fill t, fill ∈ fills ->
      parsePositionGuardCandidateTimestamp (fill_filledAt fill) "fill filledAt" = Ret t ->
      (t <= epoch)%Z.
Proof.
  intros H. apply aggregate_parts in H as (timed & s & latest & Ht & Hs & Hc & Hl & ->).
  destruct (sorted_fills _ _ Ht) as [HP HF].
  apply fold_sums in Hs as (Hconf & (Nq & Ng & Nf) & Eq & Eg & Ef);
    [|done|by split_and!; left].
  cbn [agg_executedQuantity agg_grossQuoteValueKrw agg_confirmedFeeKrw agg_executedAt].
  rewrite !text_value_format by done.
  split; [by rewrite <- HP|].
  rewrite <- !(total_perm _ _ _ HP).
  cbn [no_fills sum_quantity sum_gross sum_fee] in Eq, Eg, Ef.
  rewrite zero_value, Qplus_0_l in Eq, Eg, Ef.
  split_and!; [done|done|done| | |].
  - intros Hz. apply (check_sums_positive _ _ _ Hc). unfold dec_value, Qeq in Hz. cbn in Hz. lia.
  - by eapply check_sums_Ok.
  - apply last_latest in Hl as [Hin Hmax].
    apply timed_fills in Ht as [Hs Htf]. rewrite Forall_forall in Htf.
    assert (Htime : forall t, t ∈ timed -> snd t ∈ fills /\
      parsePositionGuardCandidateTimestamp (fill_filledAt (snd t)) "fill filledAt" = Ret (fst t)).
    { intros t Hit. split; [rewrite <- Hs; by apply list_elem_of_fmap; exists t|].
      by apply (time_fill_Ok _ _ (Htf t Hit)). }
    destruct (Htime _ Hin) as [Hlin Hlt]. exists (snd latest), (fst latest).
    split_and!; [done|done|done|]. intros fill t Hfill Hft.
    rewrite <- Hs in Hfill. apply list_elem_of_fmap in Hfill as (t' & -> & Hin').
    destruct (Htime _ Hin') as [_ Hft']. rewrite Hft in Hft'. injection Hft' as ->. by apply Hmax.
Qed.

(** What an order's fills add up to does not depend on the order in which
    the store lists them, as long as their identifiers differ: the same
    amounts and the same instant, or no sum from either. *)
Theorem aggregate_order_independent order decision fills1 fills2 a :
  NoDup (fill_id <$> fills1) -> fills1 ≡ₚ fills2 ->
  aggregateTerminalFills order decision fills1 = Ok a ->
  aggregateTerminalFills order decision fills2 = Ok a.
Proof.
  intros Hnd HP H. apply bind_Ok in H as (timed1 & H1 & H).
  destruct (mapM_perm _ _ _ _ HP H1) as (timed2 & H2 & HPt).
  apply bind_Ok. exists timed2. split; [done|].
  rewrite <- (js_sort_permutation_invariant compare_fills timed1 timed2); [done| |done].
  apply timed_fills in H1 as [Hs Ht]. rewrite Forall_forall in Ht.
  intros x y Hx Hy Heq. apply (compare_keys_Eq (fill_key x) (fill_key y)) in Heq.
  injection Heq as Htime Hid. destruct x as [ex fx], y as [ey fy]. cbn in *. subst ey. f_equal.
  eapply NoDup_fmap_inj_in; [exact Hnd|..|done]; rewrite <- Hs; apply list_elem_of_fmap;
    [by exists (ex, fx)|by exists (ex, fy)].
Qed.
