(* ===== verification/EvidenceTheory.v ===== *)
(** * EvidenceTheory: what the candidate evidence service may do

    What has to have been read before the service writes anything, what its
    results say about what it wrote, and the proof that its routines keep to
    both, whatever the calls answer or throw. *)

From Stdlib Require Import ZArith Lia.
From stdpp Require Import base option list strings.
From S2P Require Import Prelude Num Types Text Timestamp NumText SubmissionBlocking CandidateState.
From S2P Require Import StrategyCore Decimals ExactState PilotRecords PilotRepository OperatorState.
From S2P Require Import OrderRecords OrderRepository Effects ExecutionHelpers EvidenceRecords.
From S2P Require Import EvidenceHelpers EvidenceSums EvidenceService.

Local Open Scope string_scope.
Local Open Scope js_scope.
Local Open Scope bool_scope.

(** ** Events *)

Abbreviation event := (Effects.event Evid.call evidence_error).
Abbreviation history := (list event).

(** Any call may return anything or throw anything. *)
Definition may_answer (B : Type) (e : Evid.call B) (r : result evidence_error B) : Prop := True.

Definition answered_as {B} (e : Evid.call B) (v : B) (ev : event) : Prop := ev = Asked e (Ok v).

Definition writes {B} (e : Evid.call B) : bool :=
  match e with
  | Evid.AppendOrderEvent _ | Evid.PersistCandidateProjectionFault _
  | Evid.AdvanceStateWithEvidence _ => true
  | _ => false
  end.

Definition is_write (ev : event) : bool := match ev with Asked e _ => writes e end.

Definition returned (ev : event) : bool :=
  match ev with Asked _ (Ok _) => true | Asked _ (Err _) => false end.

(** Everything was answered and nothing was written. *)
Definition clean (h : history) : Prop := Forall (fun ev => returned ev && negb (is_write ev) = true) h.

(** Nothing was written: what was tried threw. *)
Definition nothing_written (h : history) : Prop :=
  Forall (fun ev => is_write ev && returned ev = false) h.

Lemma clean_nothing h : clean h -> nothing_written h.
Proof. intros H. eapply Forall_impl; [exact H|]. intros ev; cbn. by destruct (is_write ev), (returned ev). Qed.

(** The newest call threw, or was answered. *)
Definition failed_as {B} (e : Evid.call B) (x : evidence_error) (h : history) : Prop :=
  exists older, h = Asked e (Err x) :: older.

Definition last_answer {B} (e : Evid.call B) (v : B) (h : history) : Prop :=
  exists older, h = Asked e (Ok v) :: older.

(** ** What a verified decision is *)

Record authorised (order : OrderRecord) (d : PositionGuardPilotDeploymentRecord)
    (b : CandidateExecutionBindingRecord) (decision : StrategyDecisionRecord)
    (vd : VerifiedDecision) : Prop := {
  au_decision : vd_decision vd = decision;
  au_ids : bind_orderId b = ord_id order /\ bind_deploymentId b = dep_id d /\
    bind_strategyDecisionId b = sd_id decision /\
    bind_exchangeAccountId b = ord_exchangeAccountId order /\
    sd_exchangeAccountId decision = ord_exchangeAccountId order;
  au_policy : bind_policyId b = dep_policyId d /\ bind_policyVersion b = dep_policyVersion d /\
    bind_strategyKey b = POSITION_GUARD_STRATEGY_KEY /\
    sd_strategyKey decision = POSITION_GUARD_STRATEGY_KEY;
  au_order : bind_executionMode b = ord_executionMode order /\ bind_ordType b = ord_ordType order /\
    bind_side b = ord_side order;
  au_action : sd_status decision = Decided.READY /\
    sd_action decision = Exec.to_action (vd_action vd) /\ bind_action b = vd_action vd /\
    ord_side order = expected_side (vd_action vd);
  au_path : parseDecisionBasis decision = Ok (vd_entryPath vd);
  au_times : exists activation,
    dep_activationEpochNs d = Some activation /\
    parsePositionGuardCandidateTimestamp (ord_requestedAt order) "order requestedAt"
      = Ret (vd_requestedAt vd) /\
    (activation <= vd_requestedAt vd)%Z /\ (vd_bindingCreatedAt vd < vd_requestedAt vd)%Z;
}.

Lemma candidate_action_spec a action :
  candidate_action a = Some action -> a = Exec.to_action action.
Proof. by destruct a; cbn; intros [= <-]. Qed.

Lemma check_binding_Ok order d b decision u :
  check_binding order d b decision = Ok u ->
  binding_identity_differs order d b decision = false.
Proof. intros H. unfold check_binding in H. ok_steps H. by apply fault_if_Ok in E. Qed.

Lemma check_decision_Ok order b decision action :
  check_decision order b decision = Ok action ->
  sd_action decision = Exec.to_action action /\ bind_action b = action /\
  sd_exchangeAccountId decision = ord_exchangeAccountId order /\
  sd_strategyKey decision = POSITION_GUARD_STRATEGY_KEY /\ sd_status decision = Decided.READY.
Proof.
  unfold check_decision. destruct (candidate_action _) as [a|] eqn:Ha; [|done].
  apply candidate_action_spec in Ha. intros H.
  repeat case_bool_decide; try done. injection H as <-. done.
Qed.

Lemma verify_decision_Ok order d b decision vd :
  verify_decision order d b decision = Ok vd -> authorised order d b decision vd.
Proof.
  intros H. unfold verify_decision in H. ok_steps H.
  apply check_binding_Ok in E. apply check_decision_Ok in E0 as (Ha & Hb & Hacc & Hkey & Hready).
  apply fault_if_Ok in E1. apply parseTimestamp_Ok in E3, E4.
  destruct (dep_activationEpochNs d) as [activation|] eqn:Hd; [|done].
  ok_steps H. injection H as <-. apply fault_if_Ok in E5. unfold binding_identity_differs in E.
  false_flags. constructor; cbn.
  all: try done.
  all: try by split_and!; congruence.
  exists activation. split_and!; [done|done|lia|lia].
Qed.

(** ** What a write rests on *)

Section Justified.
Context (deps : EvidenceDependencies) (orderId : string).

Abbreviation find_order_call := (Evid.FindOrderByReference (edep_exchangeAccountId deps) orderId).

(** The finished order of the candidate that was looked up. *)
Definition looked_up (order : OrderRecord) (status : TerminalStatus) (h : history) : Prop :=
  happened [answered_as find_order_call (Some order)] h /\
  is_candidate_order order = true /\ terminal_status order = Some status.

(** The deployment, its binding to the order and the decision behind it. *)
Definition bound (order : OrderRecord) (d : PositionGuardPilotDeploymentRecord)
    (vd : VerifiedDecision) (h : history) : Prop :=
  takes_evidence d = true /\ hasVerifiedDeploymentActivation d = true /\
  exists b decision,
    verify_decision order d b decision = Ok vd /\ authorised order d b decision vd /\
    happened [answered_as (Evid.GetExecutionBindingForOrder (ord_id order)) (Some b);
              answered_as (Evid.GetDeploymentForExchangeAccount (ord_exchangeAccountId order))
                (Some d)] h /\
    happened [answered_as (Evid.GetStrategyDecisionById
                (default "" (ord_strategyDecisionId order))) (Some decision)] h.

(** The state advances by the exact fills of the order. *)
Definition advance_justified (input : AdvanceCandidatePilotStateInput) (h : history) : Prop :=
  exists order status d vd fills exact records a remaining,
    looked_up order status h /\ bound order d vd h /\
    happened [answered_as (Evid.GetEvidenceRecord (dep_id d) (evidence_id order)) None;
              answered_as (Evid.ListEvidenceRecords (dep_id d)) records;
              answered_as (Evid.GetExactState (dep_id d)) (Some exact);
              answered_as (Evid.ListFills (ord_id order)) fills] h /\
    aggregateTerminalFills order vd fills = Ok a /\
    Forall (fun r => rec_materialVersion r = Material.EXACT_V2) records /\
    derive_remaining records order vd a = Ok remaining /\
    input = {| adv_deploymentId := dep_id d;
               adv_expectedStateVersion := ExactState.stateVersion exact;
               adv_evidence := terminal_evidence order status vd a remaining |}.

(** The marker of an order that was seen to have no fills. *)
Definition marker_justified (record : OrderEventRecord) (h : history) : Prop :=
  exists order status d vd time,
    looked_up order status h /\ bound order d vd h /\
    happened [answered_as (Evid.ListFills (ord_id order)) []] h /\
    happened [answered_as Evid.Now time] h /\
    record = no_fill_event order vd (occurredAt time).

(** A fault of the order that was looked up pauses its account. *)
Definition fault_justified (input : PersistCandidateProjectionFaultInput) (h : history) : Prop :=
  exists order status, looked_up order status h /\
    proj_orderId input = ord_id order /\
    fp_exchangeAccountId (proj_faultPause input) = ord_exchangeAccountId order /\
    fp_faultId (proj_faultPause input) = oe_id (proj_event input) /\
    fp_occurredAt (proj_faultPause input) = oe_createdAt (proj_event input).

Definition permitted (h : history) (B : Type) (e : Evid.call B) : Prop :=
  match e with
  | Evid.AdvanceStateWithEvidence input => advance_justified input h
  | Evid.AppendOrderEvent record => marker_justified record h
  | Evid.PersistCandidateProjectionFault input => fault_justified input h
  | _ => True
  end.

(** ** What a result says *)

(** What a call that returned says about what it wrote. *)
Definition accounted (r : CandidateEvidenceProjectionResult) (h : history) : Prop :=
  match proj_outcome r with
  | Projection.ADVANCED =>
      exists input advanced older,
        h = Asked (Evid.AdvanceStateWithEvidence input) (Ok advanced) :: older /\
        advance_duplicate advanced = false /\ clean older
  | Projection.DUPLICATE =>
      clean h \/
      exists input advanced older,
        h = Asked (Evid.AdvanceStateWithEvidence input) (Ok advanced) :: older /\
        advance_duplicate advanced = true /\ clean older
  | Projection.TERMINAL_NO_FILL =>
      exists record older,
        h = Asked (Evid.AppendOrderEvent record) (Ok tt) :: older /\ clean older
  | Projection.FAULT =>
      exists input outcome older,
        h = Asked (Evid.PersistCandidateProjectionFault input) (Ok outcome) :: older /\
        nothing_written older
  | _ => clean h
  end.

(** How a call can throw: the order could not be looked up, or the marker or
    the fault could not be stored. *)
Definition escapes (x : evidence_error) (h : history) : Prop :=
  nothing_written h /\
  (failed_as find_order_call x h \/
   (exists id, failed_as (Evid.ListOrderEvents id) x h) \/
   failed_as Evid.Now x h \/
   (exists time, last_answer Evid.Now time h /\ validateClock time <> Ret tt) \/
   edep_hasProjectionFaults deps = false \/
   (exists input, failed_as (Evid.PersistCandidateProjectionFault input) x h) \/
   (exists record, failed_as (Evid.AppendOrderEvent record) x h)).

End Justified.
