(* ===== verification/EvidenceRules.v ===== *)
(** * EvidenceRules: what each routine of the evidence service does

    The routines of [EvidenceService] in the order they call each other: each
    makes only permitted calls, and its result says what was written. *)

From Stdlib Require Import ZArith Lia.
From stdpp Require Import base option list strings.
From S2P Require Import Prelude Num Types Text SubmissionBlocking CandidateState ExactState.
From S2P Require Import PilotRecords PilotRepository OperatorState OrderRecords OrderRepository.
From S2P Require Import Effects ExecutionHelpers EvidenceRecords EvidenceHelpers EvidenceSums.
From S2P Require Import EvidenceService EvidenceTheory.

Local Open Scope string_scope.
Local Open Scope js_scope.
Local Open Scope bool_scope.

Section Rules.
Context (localeCompare : string -> string -> comparison) (deps : EvidenceDependencies).
Context (orderId : string).

(** What holds of every run of a routine that begins with a history. *)
Definition does {A} (m : evidencer A) (Q : result evidence_error A -> history -> Prop)
    (h : history) : Prop :=
  wp may_answer (permitted deps orderId) m (fun _ r h' => Q r h') tt h.

Lemma does_mono {A} (m : evidencer A) (Q Q' : result evidence_error A -> history -> Prop) h :
  (forall r h', Q r h' -> Q' r h') -> does m Q h -> does m Q' h.
Proof. intros HQ. apply wp_mono. intros _. apply HQ. Qed.

Lemma does_bind {A B} (m : evidencer A) (k : A -> evidencer B) Q h :
  does m (fun r h' => match r with Ok v => does (k v) Q h' | Err x => Q (Err x) h' end) h ->
  does (x ← m; k x) Q h.
Proof. intros H. apply wp_bind. eapply wp_mono; [|exact H]. by intros [] [v|x] h'. Qed.

Lemma does_await {A} (e : Evid.call A) (Q : result evidence_error A -> history -> Prop) h :
  permitted deps orderId h A e -> (forall r, Q r (Asked e r :: h)) -> does (await e) Q h.
Proof. intros Hp HQ. apply wp_await; [done|]. intros r _. apply HQ. Qed.

Lemma does_checked {A} (c : checked A) (Q : result evidence_error A -> history -> Prop) h :
  Q c h -> does (run_checked c) Q h.
Proof. by destruct c. Qed.

(** ** Routines that only read *)

(** Whatever was done before, nothing is written; and if a value is returned
    nothing threw. *)
Definition reads {A} (m : evidencer A) : Prop :=
  forall h, does m (fun r h' => exists t, h' = (t ++ h)%list /\
    match r with Ok _ => clean t | Err _ => nothing_written t end) h.

Lemma reads_ret {A} (v : A) : reads (mret v).
Proof. intros h. exists []. split; [done|constructor]. Qed.

Lemma reads_throw {A} x : reads (throw x : evidencer A).
Proof. intros h. exists []. split; [done|constructor]. Qed.

Lemma reads_checked {A} (c : checked A) : reads (run_checked c).
Proof. destruct c; [apply reads_ret|apply reads_throw]. Qed.

Lemma reads_outcome {A} (o : outcome A) : reads (run_outcome o).
Proof. destruct o; [apply reads_ret|apply reads_throw]. Qed.

Lemma reads_await {A} (e : Evid.call A) : writes e = false -> reads (await e).
Proof.
  intros He h. apply does_await; [by destruct e|]. intros r. exists [Asked e r]. split; [done|].
  by destruct r; repeat constructor; cbn; rewrite He.
Qed.

Lemma reads_bind {A B} (m : evidencer A) (k : A -> evidencer B) :
  reads m -> (forall v, reads (k v)) -> reads (x ← m; k x).
Proof.
  intros Hm Hk h. apply does_bind. eapply does_mono; [|apply Hm].
  intros [v|x] h' (t & -> & Ht); [|by exists t].
  eapply does_mono; [|apply Hk]. intros r h' (t' & -> & Ht'). exists (t' ++ t)%list.
  split; [by rewrite app_assoc|]. apply clean_nothing in Ht as Hn.
  by destruct r; apply Forall_app.
Qed.

(** After a routine that only reads. *)
Lemma does_reads {A B} (m : evidencer A) (k : A -> evidencer B) Q h :
  reads m ->
  (forall v t, clean t -> does (k v) Q (t ++ h)%list) ->
  (forall x t, nothing_written t -> Q (Err x) (t ++ h)%list) ->
  does (x ← m; k x) Q h.
Proof.
  intros Hm Hk Hx. apply does_bind. eapply does_mono; [|apply Hm].
  intros [v|x] h' (t & -> & Ht); auto.
Qed.

Lemma reads_if {A} (c : bool) (m1 m2 : evidencer A) :
  reads m1 -> reads m2 -> reads (if c then m1 else m2).
Proof. by destruct c. Qed.

Lemma reads_paused order event : reads (hasMatchingFaultPauseTransition deps order event).
Proof.
  apply reads_bind; [|intros; apply reads_ret]. apply reads_if; [by apply reads_await|].
  apply reads_bind; [by apply reads_await|intros; apply reads_ret].
Qed.

Lemma reads_first_unpaused order events : reads (first_unpaused deps order events).
Proof.
  induction events as [|event events IH]; [apply reads_ret|].
  apply reads_bind; [apply reads_paused|]. intros paused.
  apply reads_if; [apply reads_ret|exact IH].
Qed.

Lemma reads_incomplete order : reads (findIncompleteFaultPause localeCompare deps order).
Proof. apply reads_bind; [by apply reads_await|]. intros events. apply reads_first_unpaused. Qed.

Lemma reads_marker order : reads (hasTerminalNoFillMarker order).
Proof. apply reads_bind; [by apply reads_await|intros; apply reads_ret]. Qed.

(** ** Keeping what is known *)

Lemma looked_up_app order status t h :
  looked_up deps orderId order status h -> looked_up deps orderId order status (t ++ h)%list.
Proof. intros (H & ? & ?). split_and!; [by apply happened_app|done|done]. Qed.

Lemma looked_up_cons order status ev h :
  looked_up deps orderId order status h -> looked_up deps orderId order status (ev :: h).
Proof. apply (looked_up_app _ _ [ev]). Qed.

Lemma bound_app order d vd t h : bound order d vd h -> bound order d vd (t ++ h)%list.
Proof.
  intros (? & ? & b & decision & ? & ? & ? & ?). split_and!; [done|done|].
  exists b, decision. split_and!; [done|done|by apply happened_app..].
Qed.

Lemma bound_cons order d vd ev h : bound order d vd h -> bound order d vd (ev :: h).
Proof. apply (bound_app _ _ _ [ev]). Qed.

Lemma nothing_app t h : nothing_written (t ++ h)%list <-> nothing_written t /\ nothing_written h.
Proof. apply Forall_app. Qed.

Lemma clean_app t h : clean (t ++ h)%list <-> clean t /\ clean h.
Proof. apply Forall_app. Qed.

Lemma clean_read {B} (e : Evid.call B) v h : writes e = false -> clean h -> clean (Asked e (Ok v) :: h).
Proof. intros He Hh. constructor; [cbn; by rewrite He|done]. Qed.

Lemma nothing_read {B} (e : Evid.call B) r h :
  writes e = false -> nothing_written h -> nothing_written (Asked e r :: h).
Proof. intros He Hh. constructor; [cbn; by rewrite He|done]. Qed.

Lemma nothing_failed {B} (e : Evid.call B) x h :
  nothing_written h -> nothing_written (Asked e (Err x) :: h).
Proof. intros Hh. constructor; [cbn; by rewrite andb_false_r|done]. Qed.

Hint Resolve looked_up_cons bound_cons nothing_failed clean_nothing : core.
Hint Extern 2 (clean (Asked _ (Ok _) :: _)) => apply clean_read; [reflexivity|] : core.
Hint Extern 2 (nothing_written (Asked _ _ :: _)) => apply nothing_read; [reflexivity|] : core.

(** ** Faults *)

(** What a part of the method that ends the call guarantees. *)
Definition ends (r : result evidence_error CandidateEvidenceProjectionResult) (h : history) : Prop :=
  match r with Ok res => accounted res h | Err x => escapes deps orderId x h end.

Lemma fault_input_justified order status event reason at_ h :
  looked_up deps orderId order status h ->
  fault_justified deps orderId (fault_input order event reason at_) h.
Proof. intros H. by exists order, status. Qed.

Lemma find_event_id id events (default_event : OrderEventRecord) :
  oe_id default_event = id ->
  oe_id (default default_event (List.find (fun event => oe_id event === id) events)) = id.
Proof.
  intros H. destruct (List.find _ events) as [event|] eqn:E; [|done].
  apply List.find_some in E as [_ E]. by apply bool_decide_eq_true in E.
Qed.

Lemma does_fault order status code message h :
  nothing_written h -> looked_up deps orderId order status h ->
  does (fault deps order code message) ends h.
Proof.
  intros Hn Hl. unfold fault, now. apply does_bind, does_bind, does_await; [done|].
  intros [time|x]; [|split; [auto|right; right; left; by eexists]].
  apply does_bind. unfold run_outcome.
  destruct (validateClock time) as [[]|m] eqn:Hclock.
  2: { split; [auto|]. right; right; right; left. exists time. split; [by eexists|congruence]. }
  apply does_bind, does_await; [done|].
  intros [events|x]; [|split; [auto|right; left; by do 2 eexists]].
  apply does_bind. unfold require_projection_faults.
  destruct (edep_hasProjectionFaults deps) eqn:Hf; [|split; [auto|by do 4 right; left]].
  apply does_bind, does_await.
  - exists order, status. split; [auto|]. cbn. split_and!; [done|done| |done].
    symmetry. by apply find_event_id.
  - intros [outcome|x]; [by do 3 eexists; split; [done|auto]|].
    split; [auto|]. do 5 right; left. by do 2 eexists.
Qed.

Lemma does_repair order status event h :
  nothing_written h -> looked_up deps orderId order status h ->
  does (repairPersistedFaultPause deps order event)
    (fun r h' => match r with Ok res => accounted res h' | Err _ => nothing_written h' end /\
                 looked_up deps orderId order status h') h.
Proof.
  intros Hn Hl. unfold repairPersistedFaultPause, require_projection_faults, now.
  apply does_bind. destruct (edep_hasProjectionFaults deps); [|by split].
  apply does_bind, does_bind, does_await; [done|]. intros [time|x]; [|split; auto].
  apply does_bind. unfold run_outcome. destruct (validateClock time) as [[]|m]; [|split; auto].
  apply does_bind, does_await; [apply (fault_input_justified order status); auto|].
  intros [outcome|x]; [|split; auto]. split; [|auto]. by do 3 eexists; split; [done|auto].
Qed.

(** ** Orders without fills *)

Lemma does_record order status d vd h :
  clean h -> looked_up deps orderId order status h -> bound order d vd h ->
  happened [answered_as (Evid.ListFills (ord_id order)) []] h ->
  does (recordTerminalNoFill order vd) ends h.
Proof.
  intros Hc Hl Hb Hf. unfold recordTerminalNoFill, hasTerminalNoFillMarker.
  apply does_bind, does_bind, does_await; [done|].
  intros [events|x]; [|split; [auto|right; left; by do 2 eexists]].
  destruct (has_marker order events); [left; auto|].
  unfold now. apply does_bind, does_bind, does_await; [done|].
  intros [time|x]; [|split; [auto|right; right; left; by eexists]].
  apply does_bind. unfold run_outcome. destruct (validateClock time) as [[]|m] eqn:Hclock.
  2: { split; [auto|]. right; right; right; left. exists time. split; [by eexists|congruence]. }
  apply does_bind, does_await.
  - exists order, status, d, vd, time. split_and!; auto.
    + by do 2 apply happened_before.
    + by apply happened_now; [|constructor].
  - intros [[]|x]; [by do 2 eexists; split; [done|auto]|].
    split; [auto|]. do 6 right. by do 2 eexists.
Qed.

(** ** Projection *)

(** What the [try] block guarantees. *)
Definition steps (order : OrderRecord) (status : TerminalStatus)
    (r : result evidence_error Step) (h : history) : Prop :=
  looked_up deps orderId order status h /\
  match r with
  | Ok (Settled res) => accounted res h
  | Ok (NoFill vd) =>
      clean h /\ (exists d, bound order d vd h) /\
      happened [answered_as (Evid.ListFills (ord_id order)) []] h
  | Err _ => nothing_written h
  end.

Lemma does_decision order status d b h (Q : result evidence_error VerifiedDecision -> history -> Prop) :
  clean h ->
  looked_up deps orderId order status h -> takes_evidence d = true ->
  hasVerifiedDeploymentActivation d = true ->
  happened [answered_as (Evid.GetExecutionBindingForOrder (ord_id order)) (Some b);
            answered_as (Evid.GetDeploymentForExchangeAccount (ord_exchangeAccountId order))
              (Some d)] h ->
  (forall vd h', clean h' -> looked_up deps orderId order status h' -> bound order d vd h' ->
     Q (Ok vd) h') ->
  (forall x h', nothing_written h' -> looked_up deps orderId order status h' -> Q (Err x) h') ->
  does (getVerifiedDecision deps order d b) Q h.
Proof.
  intros Hc Hl Ht Hv Hb HQ Hx. unfold getVerifiedDecision.
  destruct (non_empty (ord_strategyDecisionId order)) as [id|] eqn:Hid; [|apply Hx; auto].
  assert (ord_strategyDecisionId order = Some id) as Hid'.
  { unfold non_empty in Hid. destruct (ord_strategyDecisionId order); [|done].
    by case_bool_decide; simplify_eq. }
  apply does_bind. destruct (edep_hasDecisions deps); [|apply Hx; auto].
  apply does_await; [done|]. intros [[decision|]|x]; [|apply Hx; auto..].
  apply does_checked. destruct (verify_decision order d b decision) as [vd|x] eqn:Hvd;
    [|apply Hx; auto].
  apply HQ; [auto..|]. split_and!; [done|done|]. exists b, decision.
  split_and!; [done|by apply verify_decision_Ok|by apply happened_before|].
  rewrite Hid'. apply happened_now; [done|constructor].
Qed.

Lemma does_evidence order status d vd fills h :
  clean h -> looked_up deps orderId order status h -> bound order d vd h ->
  happened [answered_as (Evid.ListFills (ord_id order)) fills] h ->
  does (project_evidence orderId order status d vd fills) (steps order status) h.
Proof.
  intros Hc Hl Hb Hf. unfold project_evidence. apply does_bind, does_checked.
  destruct (aggregateTerminalFills order vd fills) as [a|x] eqn:Ha; [|split; auto 10].
  apply does_bind, does_await; [done|]. intros [[exact|]|x]; [|split; auto 10..].
  apply does_bind, does_await; [done|]. intros [records|x]; [|split; auto 10].
  destruct (forallb is_exact records) eqn:Hexact; cbn [negb]; [|split; auto 10].
  apply does_bind, does_checked.
  destruct (derive_remaining records order vd a) as [remaining|x] eqn:Hr; [|split; auto 10].
  apply does_bind, does_await; [done|]. intros [[record|]|x]; [| |split; auto 10].
  - destruct (is_exact record); cbn [negb]; [|split; auto 10].
    apply does_bind, does_checked.
    destruct (assertMatchingExistingEvidence _ _); (split; [auto 10|]); [left; auto 10|auto 10].
  - apply does_bind, does_await.
    + exists order, status, d, vd, fills, exact, records, a, remaining.
      split_and!; [auto 10..|by repeat (apply happened_now; [done|])|done| |done|done].
      apply Forall_forall. intros r Hin. rewrite forallb_forall in Hexact.
      apply (bool_decide_eq_true (rec_materialVersion r = _)), Hexact. by apply list_elem_of_In.
    + intros [advanced|x]; [|split; auto 10].
      destruct (advance_duplicate advanced) eqn:Hd; (split; [auto 10|]).
      * right. by do 3 eexists; split_and!; [done|done|auto 10].
      * by do 3 eexists; split_and!; [done|done|auto 10].
Qed.

Lemma does_bound order status d b h :
  clean h -> looked_up deps orderId order status h -> takes_evidence d = true ->
  hasVerifiedDeploymentActivation d = true ->
  happened [answered_as (Evid.GetExecutionBindingForOrder (ord_id order)) (Some b);
            answered_as (Evid.GetDeploymentForExchangeAccount (ord_exchangeAccountId order))
              (Some d)] h ->
  does (project_bound deps orderId order status d b) (steps order status) h.
Proof.
  intros Hc Hl Ht Hv Hb. unfold project_bound. apply does_bind.
  apply (does_decision order status d b h); [done..| |by split].
  intros vd h' Hc' Hl' Hb'. apply does_bind, does_await; [done|].
  intros [[|fill fills]|x]; [| |split; auto 10].
  - apply does_reads; [apply reads_marker| |].
    + intros [] t Ht'.
      * split; [by apply looked_up_app; auto|]. left. apply clean_app. auto.
      * split; [by apply looked_up_app; auto|]. split; [apply clean_app; auto|].
        split; [exists d; apply bound_app; auto|].
        apply happened_app, happened_now; [done|constructor].
    + intros x t Ht'. split; [by apply looked_up_app; auto|]. apply nothing_app. auto.
  - apply does_evidence; [auto..|]. apply happened_now; [done|constructor].
Qed.

Lemma does_project order status h :
  clean h -> looked_up deps orderId order status h ->
  does (project localeCompare deps orderId order status) (steps order status) h.
Proof.
  intros Hc Hl. unfold project. apply does_reads; [apply reads_incomplete| |].
  2: { intros x t Ht. split; [by apply looked_up_app|]. apply nothing_app. auto. }
  intros incomplete t Ht. assert (Hc' : clean (t ++ h)%list) by by apply clean_app.
  apply (looked_up_app _ _ t) in Hl. revert Hc' Hl. generalize (t ++ h)%list. clear h t Hc Ht.
  intros h Hc Hl. destruct incomplete as [event|].
  - apply does_bind. eapply does_mono; [|apply (does_repair order status); auto].
    intros [res|x] h' [H ?]; by split.
  - apply does_bind, does_await; [done|]. intros [[d|]|x]; [|split; [auto|cbn; auto 10]..].
    destruct (takes_evidence d) eqn:Ht; cbn [negb]; [|split; [auto|cbn; auto 10]].
    destruct (hasVerifiedDeploymentActivation d) eqn:Hv; cbn [negb]; [|split; [auto|cbn; auto 10]].
    apply does_bind, does_await; [done|]. intros [[b|]|x]; [| |split; [auto|cbn; auto 10]].
    + apply does_bound; [auto..|done|done|].
      apply happened_now; [done|]. apply happened_now; [done|constructor].
    + destruct (isPreActivationOrder order d); (split; [auto|cbn; auto 10]).
Qed.

(** ** The whole method *)

Lemma does_terminal order status h :
  clean h -> looked_up deps orderId order status h ->
  does (process_terminal localeCompare deps orderId order status) ends h.
Proof.
  intros Hc Hl. unfold process_terminal. apply does_bind. apply wp_try_catch.
  eapply wp_mono; [|exact (does_project order status h Hc Hl)].
  intros [] [[res|vd]|x] h' [Hl' H]; [exact H| |].
  - destruct H as (Hc' & (d & Hb) & Hf). by apply (does_record order status d vd).
  - apply does_bind. eapply does_mono; [|apply (does_fault order status); auto].
    by intros [res|y] h''.
Qed.

Lemma does_process :
  does (processTerminalOrder localeCompare deps orderId) ends [].
Proof.
  unfold processTerminalOrder. apply does_bind, does_await; [done|].
  assert (Hc : forall v : option OrderRecord, clean [Asked
    (Evid.FindOrderByReference (edep_exchangeAccountId deps) orderId) (Ok v)]) by repeat constructor.
  intros [[order|]|x].
  - destruct (is_candidate_order order) eqn:Ho; cbn [negb]; [|apply Hc].
    destruct (terminal_status order) as [status|] eqn:Hs; [|apply Hc].
    apply does_terminal; [apply Hc|]. split_and!; [|done|done].
    apply happened_now; [done|constructor].
  - apply Hc.
  - split; [repeat constructor|]. left. by eexists.
Qed.

End Rules.
