(* ===== verification/EvidenceGuarantees.v ===== *)
(** * EvidenceGuarantees: what every run of the evidence service keeps to

    Whatever its dependencies answer or throw: a candidate's state advances only
    by the exact fills of a finished order bound to the deployment, a result
    says what was written, failures end in a stored fault that pauses trading,
    and the sweep leaves out no order that could still advance the state. *)

From Stdlib Require Import ZArith Lia.
From stdpp Require Import base option list strings.
From S2P Require Import Prelude Num Types Text Timestamp SubmissionBlocking CandidateState ExactState.
From S2P Require Import PilotRecords PilotRepository OperatorState OrderRecords OrderRepository.
From S2P Require Import Effects ExecutionHelpers ReconciliationRecords EvidenceRecords.
From S2P Require Import EvidenceHelpers EvidenceSums EvidenceService EvidenceTheory EvidenceRules.

Local Open Scope string_scope.
Local Open Scope js_scope.
Local Open Scope bool_scope.

(** ** Answers that do not change *)

Section Fixed.
Context (answer : forall B, Evid.call B -> result evidence_error B).

(** What a routine returns when every call is always answered alike. *)
Fixpoint eval_prog {A} (p : prog Evid.call evidence_error A) : A :=
  match p with Done _ v => v | Ask _ e k => eval_prog (k (answer _ e)) end.

Definition eval {A} (m : evidencer A) : result evidence_error A := snd (eval_prog (m tt)).

Lemma eval_exec {A} (m : evidencer A) h : snd (snd (exec (fun _ => answer) (m tt) h)) = eval m.
Proof.
  unfold eval. f_equal. generalize (m tt). intros p. revert h.
  induction p as [v|B e k IH]; intros h; [done|]. cbn. apply IH.
Qed.

Lemma eval_prog_bind {A B} (p : prog Evid.call evidence_error A)
    (k : A -> prog Evid.call evidence_error B) :
  eval_prog (prog_bind p k) = eval_prog (k (eval_prog p)).
Proof. induction p as [v|C e k' IH]; [done|]. cbn. apply IH. Qed.

Lemma eval_bind {A B} (m : evidencer A) (k : A -> evidencer B) :
  eval (x ← m; k x) = match eval m with Ok v => eval (k v) | Err x => Err x end.
Proof.
  unfold eval. unfold mbind, routine_bind. rewrite eval_prog_bind.
  by destruct (eval_prog (m tt)) as [[] [v|x]].
Qed.

Lemma eval_ret {A} (v : A) : eval (mret v) = Ok v.
Proof. done. Qed.

Lemma eval_throw {A} x : eval (throw x : evidencer A) = Err x.
Proof. done. Qed.

Lemma eval_await {A} (e : Evid.call A) : eval (await e) = answer _ e.
Proof. done. Qed.

Lemma eval_attempt {A} (m : evidencer A) : eval (attempt m) = Ok (eval m).
Proof. unfold eval, attempt. rewrite eval_prog_bind. by destruct (eval_prog (m tt)) as [[] r]. Qed.

Lemma eval_try {A} (m : evidencer A) (k : evidence_error -> evidencer A) :
  eval (try_catch m k) = match eval m with Ok v => Ok v | Err x => eval (k x) end.
Proof.
  unfold eval, try_catch. rewrite eval_prog_bind. by destruct (eval_prog (m tt)) as [[] [v|x]].
Qed.

Lemma eval_checked {A} (c : checked A) : eval (run_checked c) = c.
Proof. by destruct c. Qed.

End Fixed.

#[export] Hint Rewrite @eval_bind @eval_ret @eval_throw @eval_await @eval_attempt @eval_try
  @eval_checked : eval.

(** ** Theorems *)

Section Guarantees.
Context (localeCompare : string -> string -> comparison) (deps : EvidenceDependencies).

Abbreviation process orderId := (processTerminalOrder localeCompare deps orderId).

(** A run of [processTerminalOrder]. *)
Definition processed (orderId : string) (h : history)
    (r : result evidence_error CandidateEvidenceProjectionResult) : Prop :=
  runs may_answer (process orderId tt) [] h (tt, r).

Lemma process_sound orderId h r :
  processed orderId h r ->
  ends deps orderId r h /\ all_permitted (permitted deps orderId) h [].
Proof. intros Hr. exact (wp_sound _ _ _ _ _ _ _ _ _ (does_process localeCompare deps orderId) Hr). Qed.

(** C15: the state of a candidate advances only by a finished order of it.  In
    every run, when the repository is asked to advance a state, the order was
    looked up and is a strategy order of the market that is filled or canceled;
    the deployment takes evidence and its activation is verified; the order is
    bound to the deployment and to a decision that asked for it; the fills were
    read and the evidence carries their aggregate; no stored evidence is
    approximate, none has the order's identifier, and the remaining quantity
    and the expected version are those of the stored evidence and state. *)
Theorem evidence_is_authorised orderId h r newer older input answer :
  processed orderId h r ->
  h = (newer ++ Asked (Evid.AdvanceStateWithEvidence input) answer :: older)%list ->
  advance_justified deps orderId input older.
Proof.
  intros (_ & Hp)%process_sound Hh. exact (Hp _ _ _ _ _ Hh (Nat.le_0_l _)).
Qed.


End Guarantees.

(** ** The sweep *)

Section Sweep.
Context (localeCompare : string -> string -> comparison) (deps : EvidenceDependencies).
Context (answer : forall B, Evid.call B -> result evidence_error B).

Abbreviation ev := (eval answer).

Definition all_paused (order : OrderRecord) (events : list OrderEventRecord) : Prop :=
  Forall (fun event => ev (hasMatchingFaultPauseTransition deps order event) = Ok true) events.

Lemma eval_first_unpaused order events :
  ev (first_unpaused deps order events) = Ok None <-> all_paused order events.
Proof.
  induction events as [|event events IH]; cbn [first_unpaused].
  - split; [constructor|done].
  - rewrite eval_bind. split.
    + destruct (ev (hasMatchingFaultPauseTransition deps order event)) as [[]|x] eqn:E; [|done..].
      intros H. constructor; [done|by apply IH].
    + intros H. inversion H as [|? ? He Hrest]; subst. rewrite He. by apply IH.
Qed.

Lemma eval_incomplete order events :
  answer _ (Evid.ListOrderEvents (ord_id order)) = Ok events ->
  ev (findIncompleteFaultPause localeCompare deps order) = Ok None <->
  all_paused order (candidateProjectionFaultEvents events (ord_id order)).
Proof.
  intros He. unfold findIncompleteFaultPause. rewrite eval_bind, eval_await, He.
  rewrite eval_first_unpaused. unfold all_paused. by rewrite js_sort_perm.
Qed.

(** A sweep that leaves an order out. *)
Definition left_out (d : SweepDisposition) : Prop := d = OUTSIDE_SCOPE \/ d = PRE_ACTIVATION.

Definition untouched (o : Projection.CandidateEvidenceProjectionOutcome) : Prop :=
  o = Projection.NOT_CANDIDATE_ORDER \/ o = Projection.NOT_TERMINAL
  \/ o = Projection.NO_ACTIVE_DEPLOYMENT.

(** The order has fault events. *)
Definition faulted (orderId : string) : Prop :=
  exists order events,
    answer _ (Evid.FindOrderByReference (edep_exchangeAccountId deps) orderId) = Ok (Some order) /\
    answer _ (Evid.ListOrderEvents (ord_id order)) = Ok events /\
    candidateProjectionFaultEvents events (ord_id order) <> [].

Lemma eval_settled o id detail :
  ev (settled o id detail) = Ok (Settled (projection o id detail)).
Proof. done. Qed.

Lemma left_out_evidence orderId order status d :
  ev (findIncompleteFaultPause localeCompare deps order) = Ok None ->
  ev (classify_evidence order) = Ok d -> left_out d ->
  exists res, ev (process_terminal localeCompare deps orderId order status) = Ok res /\
    untouched (proj_outcome res).
Proof.
  intros Hi Hc Hd. unfold process_terminal, project. unfold classify_evidence in Hc.
  autorewrite with eval in *. rewrite Hi. autorewrite with eval.
  destruct (answer _ (Evid.GetDeploymentForExchangeAccount _)) as [[dep|]|x].
  - destruct (takes_evidence dep); cbn [negb] in *.
    + autorewrite with eval in *.
      destruct (answer _ (Evid.GetExecutionBindingForOrder _)) as [binding|x] eqn:Hb;
        [|injection Hc as <-; by destruct Hd].
      destruct (hasVerifiedDeploymentActivation dep); cbn [negb] in *;
        [|injection Hc as <-; by destruct Hd].
      autorewrite with eval in *. destruct binding as [b|].
      * destruct (bind_deploymentId b !== dep_id dep); [injection Hc as <-; by destruct Hd|].
        autorewrite with eval in Hc.
        destruct (answer _ (Evid.GetEvidenceRecord _ _)) as [[]|]; [..|done];
          autorewrite with eval in Hc; injection Hc as <-; by destruct Hd.
      * destruct (isPreActivationOrder order dep); [|injection Hc as <-; by destruct Hd].
        rewrite Hb. autorewrite with eval. eexists. split; [done|by left].
    + rewrite ?eval_settled. autorewrite with eval. eexists. split; [done|by right; right].
  - rewrite ?eval_settled. autorewrite with eval. eexists. split; [done|by right; right].
  - injection Hc as <-. by destruct Hd.
Qed.

(** Splits a routine that returned into the steps it took. *)
Ltac eval_steps H :=
  autorewrite with eval in H;
  repeat (match type of H with
          | context [match ?m with Ok _ => _ | Err _ => _ end] =>
              let E := fresh "E" in destruct m eqn:E; [|done]
          end; autorewrite with eval in H).

Lemma fault_outcome order code message res :
  ev (fault deps order code message) = Ok res -> proj_outcome res = Projection.FAULT.
Proof. unfold fault. intros H. eval_steps H. by injection H as <-. Qed.

Lemma repair_outcome order event res :
  ev (repairPersistedFaultPause deps order event) = Ok res -> proj_outcome res = Projection.FAULT.
Proof. unfold repairPersistedFaultPause. intros H. eval_steps H. by injection H as <-. Qed.

Lemma record_outcome order vd res :
  ev (recordTerminalNoFill order vd) = Ok res -> proj_outcome res <> Projection.ADVANCED.
Proof.
  unfold recordTerminalNoFill. intros H. rewrite eval_bind in H.
  destruct (ev (hasTerminalNoFillMarker order)) as [[]|]; [by injection H as <-| |done].
  eval_steps H. by injection H as <-.
Qed.

(** What was answered when the state was advanced. *)
Record advancing (order : OrderRecord) (d : PositionGuardPilotDeploymentRecord)
    (b : CandidateExecutionBindingRecord) (vd : VerifiedDecision) (fills : list FillRecord)
    (exact : ExactCandidateState) (records : list CandidateEvidenceRecord)
    (a : TerminalFillAggregate) (remaining : string) : Prop := {
  ad_complete : ev (findIncompleteFaultPause localeCompare deps order) = Ok None;
  ad_deployment : answer _ (Evid.GetDeploymentForExchangeAccount (ord_exchangeAccountId order))
    = Ok (Some d);
  ad_takes : takes_evidence d = true;
  ad_verified : hasVerifiedDeploymentActivation d = true;
  ad_binding : answer _ (Evid.GetExecutionBindingForOrder (ord_id order)) = Ok (Some b);
  ad_decision : ev (getVerifiedDecision deps order d b) = Ok vd;
  ad_fills : answer _ (Evid.ListFills (ord_id order)) = Ok fills;
  ad_some : fills <> [];
  ad_aggregate : aggregateTerminalFills order vd fills = Ok a;
  ad_exact : answer _ (Evid.GetExactState (dep_id d)) = Ok (Some exact);
  ad_records : answer _ (Evid.ListEvidenceRecords (dep_id d)) = Ok records;
  ad_versions : forallb is_exact records = true;
  ad_remaining : derive_remaining records order vd a = Ok remaining;
  ad_new : answer _ (Evid.GetEvidenceRecord (dep_id d) (evidence_id order)) = Ok None;
}.

Lemma evidence_advanced orderId order status d vd fills res :
  ev (project_evidence orderId order status d vd fills) = Ok (Settled res) ->
  proj_outcome res = Projection.ADVANCED ->
  exists exact records a remaining,
    aggregateTerminalFills order vd fills = Ok a /\
    answer _ (Evid.GetExactState (dep_id d)) = Ok (Some exact) /\
    answer _ (Evid.ListEvidenceRecords (dep_id d)) = Ok records /\
    forallb is_exact records = true /\ derive_remaining records order vd a = Ok remaining /\
    answer _ (Evid.GetEvidenceRecord (dep_id d) (evidence_id order)) = Ok None.
Proof.
  unfold project_evidence. intros H Ho. rewrite eval_bind, eval_checked in H.
  destruct (aggregateTerminalFills order vd fills) as [a|]; [|done].
  rewrite eval_bind, eval_await in H.
  destruct (answer _ (Evid.GetExactState _)) as [[exact|]|]; [|done..].
  rewrite eval_bind, eval_await in H.
  destruct (answer _ (Evid.ListEvidenceRecords _)) as [records|]; [|done].
  destruct (forallb is_exact records) eqn:Hx; cbn [negb] in H; [|done].
  rewrite eval_bind, eval_checked in H.
  destruct (derive_remaining records order vd a) as [remaining|] eqn:Hr; [|done].
  rewrite eval_bind, eval_await in H. destruct (answer _ _) as [[record|]|]; [| |done].
  - destruct (negb _); [done|]. rewrite eval_bind in H.
    destruct (ev _); [|done]. by injection H as <-.
  - by exists exact, records, a, remaining.
Qed.

Lemma decision_answered order d b vd :
  ev (getVerifiedDecision deps order d b) = Ok vd ->
  exists decision, edep_hasDecisions deps = true /\
    answer _ (Evid.GetStrategyDecisionById (default "" (ord_strategyDecisionId order)))
      = Ok (Some decision) /\ verify_decision order d b decision = Ok vd.
Proof.
  unfold getVerifiedDecision, non_empty. intros H.
  destruct (ord_strategyDecisionId order) as [id|]; [|done]. case_bool_decide; [done|].
  rewrite eval_bind in H. destruct (edep_hasDecisions deps); [|done]. rewrite eval_await in H.
  destruct (answer _ (Evid.GetStrategyDecisionById id)) as [[decision|]|] eqn:Hd; [|done..].
  rewrite eval_checked in H. by exists decision.
Qed.

(** An advance needs a deployment, a binding to it and no earlier evidence. *)
Lemma project_advanced orderId order status res :
  ev (project localeCompare deps orderId order status) = Ok (Settled res) ->
  proj_outcome res = Projection.ADVANCED ->
  exists d b vd fills exact records a remaining,
    advancing order d b vd fills exact records a remaining.
Proof.
  unfold project. intros H Ho. rewrite eval_bind in H.
  destruct (ev (findIncompleteFaultPause _ _ _)) as [[event|]|] eqn:Hi; [| |done].
  { rewrite eval_bind in H. destruct (ev (repairPersistedFaultPause _ _ _)) as [repaired|] eqn:Hr; [|done].
    apply repair_outcome in Hr. injection H as <-. congruence. }
  rewrite eval_bind, eval_await in H.
  destruct (answer _ (Evid.GetDeploymentForExchangeAccount _)) as [[d|]|] eqn:Hd;
    [|by injection H as <-|done].
  destruct (takes_evidence d) eqn:Ht; cbn [negb] in H; [|by injection H as <-].
  destruct (hasVerifiedDeploymentActivation d) eqn:Hv; cbn [negb] in H; [|done].
  rewrite eval_bind, eval_await in H.
  destruct (answer _ (Evid.GetExecutionBindingForOrder _)) as [[b|]|] eqn:Hb;
    [|by destruct (isPreActivationOrder order d); [injection H as <-|]|done].
  unfold project_bound in H. rewrite eval_bind in H.
  destruct (ev (getVerifiedDecision _ _ _ _)) as [vd|] eqn:Hvd; [|done].
  rewrite eval_bind, eval_await in H.
  destruct (answer _ (Evid.ListFills _)) as [[|fill fills]|] eqn:Hf; [| |done].
  - rewrite eval_bind in H. destruct (ev (hasTerminalNoFillMarker order)) as [[]|]; [|done..].
    by injection H as <-.
  - destruct (evidence_advanced _ _ _ _ _ _ _ H Ho) as (exact & records & a & remaining & ?).
    exists d, b, vd, (fill :: fills), exact, records, a, remaining. by constructor; destruct_and?.
Qed.

Lemma advancing_eligible order d b vd fills exact records a remaining :
  advancing order d b vd fills exact records a remaining ->
  ev (classify_evidence order) = Ok ELIGIBLE.
Proof.
  intros []. unfold classify_evidence. autorewrite with eval.
  rewrite ad_deployment0, ad_takes0. cbn [negb]. autorewrite with eval. rewrite ad_binding0, ad_verified0.
  cbn [negb]. destruct (decision_answered _ _ _ _ ad_decision0) as (decision & _ & _ & Hvd).
  apply verify_decision_Ok, au_ids in Hvd as (_ & -> & _).
  rewrite bool_decide_eq_true_2 by done. cbn [negb]. autorewrite with eval. by rewrite ad_new0.
Qed.

Lemma terminal_advanced orderId order status res :
  ev (process_terminal localeCompare deps orderId order status) = Ok res ->
  proj_outcome res = Projection.ADVANCED ->
  ev (project localeCompare deps orderId order status) = Ok (Settled res).
Proof.
  unfold process_terminal. intros H Ho. rewrite eval_bind, eval_try in H.
  destruct (ev (project _ _ _ _ _)) as [[r|vd]|x].
  - by injection H as <-.
  - by apply record_outcome in H.
  - rewrite eval_bind in H. destruct (ev (fault _ _ _ _)) as [r|] eqn:Hr; [|done].
    apply fault_outcome in Hr. injection H as <-. congruence.
Qed.

Lemma classified orderId order status events :
  answer _ (Evid.FindOrderByReference (edep_exchangeAccountId deps) orderId) = Ok (Some order) ->
  is_candidate_order order = true -> terminal_status order = Some status ->
  answer _ (Evid.ListOrderEvents (ord_id order)) = Ok events ->
  ev (classifyTerminalOrderForSweep deps orderId)
  = match ev (first_unpaused deps order (candidateProjectionFaultEvents events (ord_id order))) with
    | Ok (Some _) => Ok ELIGIBLE
    | Ok None => ev (classify_unfaulted order events)
    | Err x => Err x
    end.
Proof.
  intros Hf Ho Hs He. unfold classifyTerminalOrderForSweep. autorewrite with eval.
  rewrite Hf, Ho, Hs. cbn [negb]. autorewrite with eval. rewrite He. autorewrite with eval.
  by destruct (ev (first_unpaused _ _ _)) as [[]|].
Qed.

(** The method on an order that was found. *)
Lemma eval_process orderId order :
  answer _ (Evid.FindOrderByReference (edep_exchangeAccountId deps) orderId) = Ok (Some order) ->
  (exists res, ev (processTerminalOrder localeCompare deps orderId) = Ok res /\
     untouched (proj_outcome res)) \/
  exists status, is_candidate_order order = true /\ terminal_status order = Some status /\
    ev (processTerminalOrder localeCompare deps orderId)
    = ev (process_terminal localeCompare deps orderId order status).
Proof.
  intros Hf. unfold processTerminalOrder. rewrite eval_bind, eval_await, Hf.
  destruct (is_candidate_order order); cbn [negb]; [|left; eexists; split; [done|by left]].
  destruct (terminal_status order) as [status|]; [|left; eexists; split; [done|by right; left]].
  right. by exists status.
Qed.

Lemma unfaulted_left_out order events d :
  ev (classify_unfaulted order events) = Ok d -> d <> DISPOSED ->
  candidateProjectionFaultEvents events (ord_id order) = [] /\ ev (classify_evidence order) = Ok d.
Proof.
  unfold classify_unfaulted. destruct (candidateProjectionFaultEvents _ _); [|by intros [= <-]].
  destruct (has_marker order events); [|done]. rewrite eval_bind.
  destruct (ev _) as [[|fill fills]|]; [by intros [= <-]|done|done].
Qed.

(** The half about orders that are left out. *)
Lemma left_out_untouched orderId d :
  ev (classifyTerminalOrderForSweep deps orderId) = Ok d -> left_out d ->
  exists res, ev (processTerminalOrder localeCompare deps orderId) = Ok res /\
              untouched (proj_outcome res).
Proof.
  intros Hc Hd.
  destruct (answer _ (Evid.FindOrderByReference (edep_exchangeAccountId deps) orderId))
    as [[order|]|x] eqn:Hf.
  2: { unfold processTerminalOrder. rewrite eval_bind, eval_await, Hf. eexists. split; [done|by left]. }
  2: { unfold classifyTerminalOrderForSweep in Hc. by rewrite eval_bind, eval_await, Hf in Hc. }
  destruct (eval_process _ _ Hf) as [?|(status & Ho & Hs & Hp)]; [done|]. rewrite Hp.
  destruct (answer _ (Evid.ListOrderEvents (ord_id order))) as [events|x] eqn:He.
  2: { unfold classifyTerminalOrderForSweep in Hc. rewrite eval_bind, eval_await, Hf, Ho, Hs in Hc.
       cbn [negb] in Hc. by rewrite eval_bind, eval_await, He in Hc. }
  rewrite (classified _ _ _ _ Hf Ho Hs He) in Hc.
  destruct (ev (first_unpaused _ _ _)) as [[event|]|] eqn:Hu; [|clear Hp|done].
  { injection Hc as <-. by destruct Hd. }
  apply eval_first_unpaused in Hu. apply unfaulted_left_out in Hc as [_ Hc];
    [|by destruct Hd as [-> | ->]].
  apply (left_out_evidence _ _ _ d); [by apply (eval_incomplete order events)|done|done].
Qed.

(** The half about orders that would advance the state. *)
Lemma advanced_is_swept orderId res :
  ev (processTerminalOrder localeCompare deps orderId) = Ok res ->
  proj_outcome res = Projection.ADVANCED ->
  ev (classifyTerminalOrderForSweep deps orderId) = Ok ELIGIBLE \/
  (ev (classifyTerminalOrderForSweep deps orderId) = Ok DISPOSED /\ faulted orderId).
Proof.
  intros Hp Ho.
  destruct (answer _ (Evid.FindOrderByReference (edep_exchangeAccountId deps) orderId))
    as [[order|]|x] eqn:Hf.
  2,3: unfold processTerminalOrder in Hp; rewrite eval_bind, eval_await, Hf in Hp;
    try injection Hp as <-; done.
  destruct (eval_process _ _ Hf) as [(res' & Hp' & Hu)|(status & Hcand & Hs & Hp')].
  { rewrite Hp in Hp'. injection Hp' as <-. rewrite Ho in Hu. by destruct Hu as [|[|]]. }
  rewrite Hp' in Hp. pose proof (terminal_advanced _ _ _ _ Hp Ho) as Hproj.
  destruct (project_advanced _ _ _ _ Hproj Ho) as (d & b & vd & fills & exact & records & a & rem & Had).
  pose proof (ad_complete _ _ _ _ _ _ _ _ _ Had) as Hi.
  destruct (answer _ (Evid.ListOrderEvents (ord_id order))) as [events|x] eqn:Hev.
  2: { unfold findIncompleteFaultPause in Hi. by rewrite eval_bind, eval_await, Hev in Hi. }
  apply (eval_incomplete order events Hev), eval_first_unpaused in Hi.
  rewrite (classified _ _ _ _ Hf Hcand Hs Hev), Hi. unfold classify_unfaulted.
  destruct (candidateProjectionFaultEvents events (ord_id order)) as [|event rest] eqn:Hfaults.
  - left. rewrite <- (advancing_eligible _ _ _ _ _ _ _ _ _ Had).
    destruct (has_marker order events); [|done]. rewrite eval_bind, eval_await.
    rewrite (ad_fills _ _ _ _ _ _ _ _ _ Had). pose proof (ad_some _ _ _ _ _ _ _ _ _ Had).
    by destruct fills.
  - right. split; [done|]. exists order, events. by rewrite Hfaults.
Qed.

(** The sweep leaves out nothing that matters.  As long as the calls are
    answered alike, an order the sweep classifies as outside its scope or as
    older than the activation would not have been processed: the result is that
    it is no order of the candidate, not finished, or without a deployment,
    which writes nothing.  And an order whose processing would advance the
    state is eligible, unless it has fault events whose pauses are all
    recorded, which the sweep leaves to the operator. *)
Theorem sweep_is_complete orderId :
  (forall d, ev (classifyTerminalOrderForSweep deps orderId) = Ok d -> left_out d ->
     exists res, ev (processTerminalOrder localeCompare deps orderId) = Ok res /\
                 untouched (proj_outcome res)) /\
  (forall res, ev (processTerminalOrder localeCompare deps orderId) = Ok res ->
     proj_outcome res = Projection.ADVANCED ->
     ev (classifyTerminalOrderForSweep deps orderId) = Ok ELIGIBLE \/
     (ev (classifyTerminalOrderForSweep deps orderId) = Ok DISPOSED /\ faulted orderId)).
Proof. split; [apply left_out_untouched|apply advanced_is_swept]. Qed.

End Sweep.

(** ** Processing an order again *)

Section Again.
Context (localeCompare : string -> string -> comparison) (deps : EvidenceDependencies).
Context (before after : forall B, Evid.call B -> result evidence_error B).

(** The calls whose answers an advance of the state does not change. *)
Definition unaffected {B} (e : Evid.call B) : bool :=
  match e with
  | Evid.GetExactState _ | Evid.ListEvidenceRecords _ | Evid.GetEvidenceRecord _ _
  | Evid.AdvanceStateWithEvidence _ => false
  | _ => true
  end.

(** What the stores answer once they hold the evidence of an advance. *)
Record stored (input : AdvanceCandidatePilotStateInput) : Prop := {
  st_same : forall B (e : Evid.call B), unaffected e = true -> after B e = before B e;
  st_records : exists record records1 records2,
    rec_evidence record = adv_evidence input /\ rec_materialVersion record = Material.EXACT_V2 /\
    before _ (Evid.ListEvidenceRecords (adv_deploymentId input))
      = Ok (records1 ++ records2)%list /\
    after _ (Evid.ListEvidenceRecords (adv_deploymentId input))
      = Ok (records1 ++ record :: records2)%list /\
    after _ (Evid.GetEvidenceRecord (adv_deploymentId input) (evidenceId (adv_evidence input)))
      = Ok (Some record);
  st_state : exists exact,
    after _ (Evid.GetExactState (adv_deploymentId input)) = Ok (Some exact);
}.

(** The calls the method makes when every call is answered by [before]. *)
Definition calls (orderId : string) : history :=
  fst (exec (fun _ => before) (processTerminalOrder localeCompare deps orderId tt) []).

Lemma calls_answered orderId Ps B (e : Evid.call B) v :
  happened Ps (calls orderId) -> answered_as e v ∈ Ps -> before B e = Ok v.
Proof.
  intros H Hin. destruct (happened_in _ _ _ (happened_member _ _ _ H Hin)) as (ev & Hev & ->).
  pose proof (exec_answers (fun _ => before)
    (processTerminalOrder localeCompare deps orderId tt) [] (Forall_nil_2 _)) as Hall.
  rewrite Forall_forall in Hall. destruct (Hall _ Hev) as (_ & Hv). done.
Qed.

Lemma records_before_insert epoch id records1 records2 record kept :
  isBeforeEvidence record epoch id = Ok false ->
  records_before epoch id (records1 ++ records2) = Ok kept ->
  records_before epoch id (records1 ++ record :: records2) = Ok kept.
Proof.
  intros Hn. revert kept. induction records1 as [|r records1 IH]; intros kept H; cbn in *.
  - by rewrite Hn, H.
  - apply bind_Ok in H as (is_before & Hb & H). apply bind_Ok in H as (rest & Hr & H).
    rewrite Hb, (IH _ Hr). exact H.
Qed.

(** The evidence of an order is not before itself. *)
Lemma own_evidence_is_not_before order status vd a remaining record epoch :
  parseTimestamp (agg_executedAt a) "terminal fill executedAt" = Ok epoch ->
  rec_evidence record = terminal_evidence order status vd a remaining ->
  isBeforeEvidence record epoch (evidence_id order) = Ok false.
Proof.
  intros Hp Hr. unfold isBeforeEvidence. rewrite Hr. cbn [executedAt terminal_evidence evidenceId].
  apply parseTimestamp_Ok, (timestamp_relabel _ _ "persisted candidate evidence executedAt") in Hp.
  apply parseTimestamp_Ok in Hp. rewrite Hp. cbn. rewrite Z.ltb_irrefl, Z.eqb_refl.
  by rewrite string_compare_refl.
Qed.

Lemma derive_again order status vd a remaining record records1 records2 :
  rec_evidence record = terminal_evidence order status vd a remaining ->
  derive_remaining (records1 ++ records2) order vd a = Ok remaining ->
  derive_remaining (records1 ++ record :: records2) order vd a = Ok remaining.
Proof.
  unfold derive_remaining. intros Hr H. apply bind_Ok in H as (epoch & Hp & H).
  apply bind_Ok in H as (kept & Hk & H).
  rewrite Hp. cbn. rewrite (records_before_insert _ _ _ _ _ kept); [exact H| |exact Hk].
  by eapply own_evidence_is_not_before.
Qed.

Lemma amount_differs_refl text : amount_differs (DecimalText text) (DecimalText text) = false.
Proof. cbn. by rewrite bool_decide_eq_true_2. Qed.

Lemma matches_itself record order status vd a remaining :
  rec_evidence record = terminal_evidence order status vd a remaining ->
  assertMatchingExistingEvidence record (terminal_evidence order status vd a remaining) = Ok tt.
Proof.
  intros Hr. unfold assertMatchingExistingEvidence. rewrite Hr.
  cbn [executedAt ev_action ev_entryPath terminalStatus executedQuantity grossQuoteValueKrw
       confirmedFeeKrw remainingQuantity terminal_evidence].
  rewrite !amount_differs_refl, !bool_decide_eq_true_2 by done. done.
Qed.

Section Stored.
Context (input : AdvanceCandidatePilotStateInput) (Hstored : stored input).

Abbreviation same := (st_same _ Hstored).

Lemma eval_matching order event :
  eval after (hasMatchingFaultPauseTransition deps order event)
  = eval before (hasMatchingFaultPauseTransition deps order event).
Proof.
  unfold hasMatchingFaultPauseTransition. rewrite !eval_bind.
  destruct (edep_hasTransitionById deps); [by rewrite !eval_await, same|].
  rewrite !eval_bind, !eval_await, same by done. done.
Qed.

Lemma complete_again order :
  eval before (findIncompleteFaultPause localeCompare deps order) = Ok None ->
  eval after (findIncompleteFaultPause localeCompare deps order) = Ok None.
Proof.
  intros H. destruct (before _ (Evid.ListOrderEvents (ord_id order))) as [events|] eqn:He.
  2: { unfold findIncompleteFaultPause in H. by rewrite eval_bind, eval_await, He in H. }
  apply (eval_incomplete _ _ _ _ _ He) in H.
  apply (eval_incomplete _ _ _ order events); [by rewrite same|].
  unfold all_paused in *. eapply Forall_impl; [exact H|]. intros event Hev. cbn in *.
  by rewrite eval_matching.
Qed.

Lemma decision_again order d b :
  eval after (getVerifiedDecision deps order d b) = eval before (getVerifiedDecision deps order d b).
Proof.
  unfold getVerifiedDecision. destruct (non_empty _); [|done]. rewrite !eval_bind.
  destruct (edep_hasDecisions deps); [|done]. rewrite !eval_await, same by done.
  destruct (before _ _) as [[decision|]|]; [|done..]. by rewrite !eval_checked.
Qed.

(** The method on the order whose evidence was stored. *)
Lemma duplicate_again orderId order status d b vd fills exact records a remaining :
  advancing localeCompare deps before order d b vd fills exact records a remaining ->
  adv_deploymentId input = dep_id d ->
  adv_evidence input = terminal_evidence order status vd a remaining ->
  eval after (project localeCompare deps orderId order status)
  = Ok (Settled (projection Projection.DUPLICATE orderId KNOWN)).
Proof.
  intros Had Hd He. destruct (st_records _ Hstored) as (record & l1 & l2 & Hr & Hv & Hb & Ha & Hg).
  destruct (st_state _ Hstored) as (exact' & Hx). rewrite He in Hr, Hg. rewrite Hd in Hb, Ha, Hg, Hx.
  destruct Had. rewrite ad_records0 in Hb. injection Hb as ->.
  unfold project. rewrite eval_bind, complete_again by done.
  rewrite eval_bind, eval_await, same, ad_deployment0 by done.
  rewrite ad_takes0, ad_verified0. cbn [negb].
  rewrite eval_bind, eval_await, same, ad_binding0 by done.
  unfold project_bound. rewrite eval_bind, decision_again, ad_decision0.
  rewrite eval_bind, eval_await, same, ad_fills0 by done.
  destruct fills as [|fill fills]; [done|].
  unfold project_evidence. rewrite eval_bind, eval_checked, ad_aggregate0.
  rewrite eval_bind, eval_await, Hx. rewrite eval_bind, eval_await, Ha.
  replace (forallb is_exact (l1 ++ record :: l2)) with true; cycle 1.
  { rewrite forallb_app in *. cbn. unfold is_exact at 2. rewrite Hv.
    rewrite bool_decide_eq_true_2 by done. done. }
  cbn [negb]. rewrite eval_bind, eval_checked.
  rewrite (derive_again _ status _ _ remaining _ _ _ Hr ad_remaining0).
  cbn [evidenceId terminal_evidence] in Hg. rewrite eval_bind, eval_await, Hg.
  unfold is_exact at 1. rewrite Hv, bool_decide_eq_true_2 by done. cbn [negb].
  by rewrite eval_bind, eval_checked, (matches_itself _ _ _ _ _ _ Hr).
Qed.

End Stored.

(** The state was advanced by the order whose processing this is. *)
Lemma advanced_by orderId input older order d b vd fills exact records a remaining answer :
  calls orderId = Asked (Evid.AdvanceStateWithEvidence input) answer :: older ->
  advance_justified deps orderId input older ->
  before _ (Evid.FindOrderByReference (edep_exchangeAccountId deps) orderId) = Ok (Some order) ->
  advancing localeCompare deps before order d b vd fills exact records a remaining ->
  adv_deploymentId input = dep_id d /\
  exists status, terminal_status order = Some status /\
    adv_evidence input = terminal_evidence order status vd a remaining.
Proof.
  intros Hc Hj Hf Had.
  assert (Hans : forall Ps B (e : Evid.call B) v,
    happened Ps older -> answered_as e v ∈ Ps -> before B e = Ok v).
  { intros Ps B e v H. apply (calls_answered orderId). rewrite Hc. by apply happened_before. }
  destruct Hj as (order' & status & d' & vd' & fills' & exact' & records' & a' & remaining' &
    (Hl & _ & Hs) & (_ & _ & b' & decision' & Hv' & _ & Hbd & Hdec) & Hread & Ha' & _ & Hr' & ->).
  pose proof (Hans _ _ _ _ Hl ltac:(left)) as E1. rewrite Hf in E1. injection E1 as <-.
  pose proof (Hans _ _ _ _ Hbd ltac:(right; left)) as E2.
  rewrite (ad_deployment _ _ _ _ _ _ _ _ _ _ _ _ Had) in E2. injection E2 as <-.
  pose proof (Hans _ _ _ _ Hdec ltac:(left)) as E3.
  destruct (decision_answered _ _ _ _ _ _ (ad_decision _ _ _ _ _ _ _ _ _ _ _ _ Had))
    as (decision & _ & Hd & Hv). rewrite Hd in E3. injection E3 as <-.
  pose proof (Hans _ _ _ _ Hbd ltac:(left)) as E4.
  rewrite (ad_binding _ _ _ _ _ _ _ _ _ _ _ _ Had) in E4. injection E4 as <-.
  rewrite Hv in Hv'. injection Hv' as <-.
  pose proof (Hans _ _ _ _ Hread ltac:(do 3 right; left)) as E5.
  rewrite (ad_fills _ _ _ _ _ _ _ _ _ _ _ _ Had) in E5. injection E5 as <-.
  rewrite (ad_aggregate _ _ _ _ _ _ _ _ _ _ _ _ Had) in Ha'. injection Ha' as <-.
  pose proof (Hans _ _ _ _ Hread ltac:(right; left)) as E6.
  rewrite (ad_records _ _ _ _ _ _ _ _ _ _ _ _ Had) in E6. injection E6 as <-.
  rewrite (ad_remaining _ _ _ _ _ _ _ _ _ _ _ _ Had) in Hr'. injection Hr' as <-.
  split; [done|]. by exists status.
Qed.

(** Processing an order again changes nothing.  Once the stores hold the
    evidence of the order - the record among the others, wherever the store
    puts it - and everything else is answered as before, the order is a
    duplicate: its fills add up to the stored evidence and its own record does
    not count among the evidence before it. *)
Theorem processing_is_idempotent orderId res input answer older :
  eval before (processTerminalOrder localeCompare deps orderId) = Ok res ->
  proj_outcome res = Projection.ADVANCED ->
  calls orderId = Asked (Evid.AdvanceStateWithEvidence input) answer :: older ->
  stored input ->
  exists res', eval after (processTerminalOrder localeCompare deps orderId) = Ok res' /\
               proj_outcome res' = Projection.DUPLICATE.
Proof.
  intros Hp Ho Hc Hst.
  assert (Hj : advance_justified deps orderId input older).
  { assert (Hr : runs may_answer (processTerminalOrder localeCompare deps orderId tt) []
                   (calls orderId) (snd (exec (fun _ => before)
                     (processTerminalOrder localeCompare deps orderId tt) [])))
      by (by apply exec_runs).
    destruct (snd (exec _ _ _)) as [[] r]. apply process_sound in Hr as [_ Hall].
    exact (Hall [] _ _ _ _ Hc (Nat.le_0_l _)). }
  destruct (before _ (Evid.FindOrderByReference (edep_exchangeAccountId deps) orderId))
    as [[order|]|x] eqn:Hf.
  2,3: unfold processTerminalOrder in Hp; rewrite eval_bind, eval_await, Hf in Hp;
    try injection Hp as <-; done.
  destruct (eval_process localeCompare deps before _ _ Hf) as [(res' & Hp' & Hu)|(status & Hcand & Hs & Hp')].
  { rewrite Hp in Hp'. injection Hp' as <-. rewrite Ho in Hu. by destruct Hu as [|[|]]. }
  rewrite Hp' in Hp. pose proof (terminal_advanced _ _ _ _ _ _ _ Hp Ho) as Hproj.
  destruct (project_advanced _ _ _ _ _ _ _ Hproj Ho)
    as (d & b & vd & fills & exact & records & a & remaining & Had).
  destruct (advanced_by _ _ _ _ _ _ _ _ _ _ _ _ _ Hc Hj Hf Had) as (Hd & status' & Hs' & He).
  rewrite Hs in Hs'. injection Hs' as <-.
  exists (projection Projection.DUPLICATE orderId KNOWN). split; [|done].
  unfold processTerminalOrder. rewrite eval_bind, eval_await, (st_same _ Hst), Hf by done.
  rewrite Hcand, Hs. cbn [negb]. unfold process_terminal. rewrite eval_bind, eval_try.
  by rewrite (duplicate_again _ Hst _ _ _ _ _ _ _ _ _ _ _ Had Hd He).
Qed.

End Again.
