(* ===== verification/EvidenceScenarios.v ===== *)
(** * EvidenceScenarios: evidence of an order on the sample pilot

    The sample pilot with a filled order bound to it: the service is answered by
    the modelled pilot repository, advances its state by the order's two fills,
    and finds a duplicate once the repository holds the evidence.  The same with
    a fill whose fee is not confirmed, which ends in a fault.  The theorems of
    [EvidenceSums] and [EvidenceGuarantees] apply to them. *)

From Stdlib Require Import ZArith QArith Lia.
From stdpp Require Import base option list strings gmap.
From S2P Require Import Prelude Num Types Text Timestamp NumText JsMap Json SubmissionBlocking.
From S2P Require Import CandidateState Decimals ExactState OperatorState PilotRecords.
From S2P Require Import PilotRepository PilotTheory PilotScenarios OrderRecords OrderRepository.
From S2P Require Import OrderTheory Effects ExecutionHelpers ReconciliationRecords EvidenceRecords.
From S2P Require Import EvidenceHelpers EvidenceSums EvidenceService EvidenceTheory EvidenceRules.
From S2P Require Import EvidenceGuarantees.

Local Open Scope string_scope.
Local Open Scope js_scope.
Local Open Scope bool_scope.

(** ** The order, its decision and its fills *)

Definition buy_decision : StrategyDecisionRecord := {|
  sd_id := "decision-1"; sd_exchangeAccountId := "primary";
  sd_strategyKey := "position_guard.paper_core.v1"; sd_market := Market.KRW_BTC;
  sd_action := Action.ENTER; sd_status := Decided.READY;
  sd_decisionBasisJson := stringify (JObj
    [("strategyDecision", JObj [("market", JStr "KRW-BTC"); ("action", JStr "ENTER")]);
     ("engineDecision", JObj [("diagnostics", JObj [("entryPath", JStr "RECLAIM")])])]);
  sd_intendedNotionalKrw := Some "4000000"; sd_intendedQuantity := None;
  sd_referencePrice := Some "100000000"; sd_createdAt := "2026-08-21T03:58:00Z";
|}.

Definition bought_order : OrderRecord := {|
  ord_id := "order-1"; ord_strategyDecisionId := Some "decision-1";
  ord_exchangeAccountId := "primary"; ord_market := Market.KRW_BTC; ord_side := Side.bid;
  ord_ordType := OrdType.price; ord_volume := None; ord_price := Some "4000000";
  ord_timeInForce := None; ord_smpType := None; ord_identifier := "identifier-1";
  ord_idempotencyKey := "key-1"; ord_origin := Origin.STRATEGY;
  ord_requestedAt := "2026-08-21T03:59:00.000000001Z"; ord_upbitUuid := Some "uuid-1";
  ord_status := OrderStatus.FILLED; ord_executionMode := Mode.DRY_RUN;
  ord_exchangeResponseJson := None; ord_failureCode := None; ord_failureMessage := None;
  ord_createdAt := "2026-08-21T03:59:00Z"; ord_updatedAt := "2026-08-21T04:00:00Z";
|}.

Definition fill_of (id at_ epochNs price volume : string) (fee : option string) : FillRecord := {|
  fill_id := id; fill_orderId := "order-1"; fill_exchangeFillId := id;
  fill_market := Market.KRW_BTC; fill_side := Side.bid; fill_price := price;
  fill_volume := volume; fill_feeCurrency := Some "KRW"; fill_feeAmount := fee;
  fill_feeProvenance := Some FeeProvenance.EXCHANGE_FILL_CONFIRMED;
  fill_executionTimestampProvenance := Some TimeProvenance.EXCHANGE_FILL_CONFIRMED;
  fill_executionEpochNs := Some epochNs; fill_filledAt := at_; fill_rawPayloadJson := "{}";
|}.

Definition first_fill : FillRecord :=
  fill_of "fill-1" "2026-08-21T04:00:00Z" "1787284800000000000" "100000000" "0.03" (Some "1500.05").
Definition second_fill : FillRecord :=
  fill_of "fill-2" "2026-08-21T04:00:01Z" "1787284801000000000" "99999999" "0.01" (Some "500").
Definition unconfirmed_fill : FillRecord :=
  fill_of "fill-2" "2026-08-21T04:00:01Z" "1787284801000000000" "99999999" "0.01" None.

(** ** Answers *)

(** What a method of the pilot repository answers in a state. *)
Definition asked {A} (r : sample_repository) (m : action sample_repository A)
    : result evidence_error A :=
  match snd (m r) with Ret v => Ok v | Throw message => Err (AnError message) end.

(** An answer to the calls about one record. *)
Definition only {A} (id expected : string) (answer : result evidence_error (option A))
    : result evidence_error (option A) := if id === expected then answer else Ok None.

Definition sample_answers (r : sample_repository) (fills : list FillRecord) (B : Type)
    (e : Evid.call B) : result evidence_error B :=
  match e with
  | Evid.FindOrderByReference _ id => only id "order-1" (Ok (Some bought_order))
  | Evid.ListOrderEvents _ => Ok []
  | Evid.ListFills _ => Ok fills
  | Evid.GetStrategyDecisionById id => only id "decision-1" (Ok (Some buy_decision))
  | Evid.AppendOrderEvent _ => Ok tt
  | Evid.PersistCandidateProjectionFault _ => Ok Persisted.APPLIED
  | Evid.GetDeploymentForExchangeAccount id =>
      only id "primary" (asked r (getDeploymentForExchangeAccount string_compare "primary"))
  | Evid.GetExecutionBindingForOrder id =>
      only id "order-1" (asked r (getExecutionBindingForOrder "order-1"))
  | Evid.GetExactState id => only id "pilot-1" (asked r (getExactState "pilot-1"))
  | Evid.ListEvidenceRecords _ => asked r (listEvidenceRecords "pilot-1")
  | Evid.GetEvidenceRecord _ id => asked r (getEvidenceRecord "pilot-1" id)
  | Evid.AdvanceStateWithEvidence input => asked r (advanceStateWithEvidence sample_sha256 input)
  | Evid.GetTransitionById _ => Ok None
  | Evid.ListTransitions _ => Ok []
  | Evid.Now => Ok {| occurredAt := "2026-08-21T05:00:00Z"; occurredAtEpochMs := 1787288400000 |}
  end.

Definition sample_deps : EvidenceDependencies := {|
  edep_exchangeAccountId := "primary"; edep_hasDecisions := true;
  edep_hasProjectionFaults := true; edep_hasTransitionById := true;
|}.

(** The active pilot with its order bound. *)
Definition bound_pilot : sample_repository :=
  sample_run (opening ++ [CallBind sample_binding]) (new_repository store).

Abbreviation sample_fills := [second_fill; first_fill].

Abbreviation sample_process := (processTerminalOrder string_compare sample_deps "order-1").

Abbreviation sample_calls fills :=
  (exec (fun _ => sample_answers bound_pilot fills) (sample_process tt) []).

Definition outcome_of (r : result evidence_error CandidateEvidenceProjectionResult)
    : option Projection.CandidateEvidenceProjectionOutcome :=
  match r with Ok res => Some (proj_outcome res) | Err _ => None end.

Example order_advances :
  outcome_of (snd (snd (sample_calls sample_fills))) = Some Projection.ADVANCED.
Proof. vm_compute. reflexivity. Qed.

Example unconfirmed_fee_faults :
  outcome_of (snd (snd (sample_calls [first_fill; unconfirmed_fill]))) = Some Projection.FAULT.
Proof. vm_compute. reflexivity. Qed.

Lemma sample_processed fills :
  processed string_compare sample_deps "order-1" (fst (sample_calls fills))
    (snd (snd (sample_calls fills))).
Proof.
  unfold processed.
  assert (H : (tt, snd (snd (sample_calls fills))) = snd (sample_calls fills))
    by (by destruct (snd (sample_calls fills)) as [[] ?]).
  rewrite H. by apply exec_runs.
Qed.

(** ** Sums *)

Definition sample_verified : VerifiedDecision := {|
  vd_action := Exec.ENTER; vd_entryPath := EntryPath.RECLAIM; vd_decision := buy_decision;
  vd_requestedAt := 1787284740000000001; vd_bindingCreatedAt := 1787284740000000000;
|}.

Definition sample_aggregate : TerminalFillAggregate := {|
  agg_executedAt := "2026-08-21T04:00:01Z"; agg_executedQuantity := "0.04";
  agg_grossQuoteValueKrw := "3999999.99"; agg_confirmedFeeKrw := "2000.05";
|}.

Lemma aggregate_is_exact_witness :
  aggregateTerminalFills bought_order sample_verified sample_fills = Ok sample_aggregate /\
  (text_value "3999999.99" == total fill_gross sample_fills)%Q.
Proof.
  assert (H : aggregateTerminalFills bought_order sample_verified sample_fills = Ok sample_aggregate)
    by (vm_compute; reflexivity).
  split; [exact H|]. exact (proj1 (proj2 (proj2 (aggregate_is_exact _ _ _ _ H)))).
Defined.

Lemma aggregate_order_independent_witness :
  aggregateTerminalFills bought_order sample_verified [first_fill; second_fill] = Ok sample_aggregate.
Proof.
  apply (aggregate_order_independent bought_order sample_verified sample_fills).
  - apply (bool_decide_eq_true_1 _). vm_compute. reflexivity.
  - apply Permutation_swap.
  - vm_compute. reflexivity.
Defined.

(** ** Runs *)

Definition sample_input : AdvanceCandidatePilotStateInput := {|
  adv_deploymentId := "pilot-1"; adv_expectedStateVersion := 0;
  adv_evidence := fill "terminal-order:order-1" "2026-08-21T04:00:01Z" Exec.ENTER "0.04"
                    "3999999.99" "2000.05" "0.04";
|}.

Definition sample_older : history := tail (fst (sample_calls sample_fills)).

Lemma sample_calls_advance :
  fst (sample_calls sample_fills)
  = Asked (Evid.AdvanceStateWithEvidence sample_input)
      (sample_answers bound_pilot sample_fills _ (Evid.AdvanceStateWithEvidence sample_input))
    :: sample_older.
Proof. vm_compute. reflexivity. Qed.

Lemma evidence_is_authorised_witness :
  advance_justified sample_deps "order-1" sample_input sample_older.
Proof.
  apply (evidence_is_authorised string_compare sample_deps "order-1"
           (fst (sample_calls sample_fills)) (snd (snd (sample_calls sample_fills))) []
           sample_older sample_input
           (sample_answers bound_pilot sample_fills _ (Evid.AdvanceStateWithEvidence sample_input))).
  - exact (sample_processed sample_fills).
  - exact sample_calls_advance.
Defined.


(** ** Processing again *)

(** The pilot once it holds the evidence. *)
Definition advanced_pilot : sample_repository :=
  fst (advanceStateWithEvidence sample_sha256 sample_input bound_pilot).

Abbreviation bound_answers := (sample_answers bound_pilot sample_fills).
Abbreviation advanced_answers := (sample_answers advanced_pilot sample_fills).

(** Advancing leaves the deployment and the binding alone. *)
Lemma same_deployment :
  asked advanced_pilot (getDeploymentForExchangeAccount string_compare "primary")
  = asked bound_pilot (getDeploymentForExchangeAccount string_compare "primary").
Proof. vm_compute. reflexivity. Qed.

Lemma same_binding :
  asked advanced_pilot (getExecutionBindingForOrder "order-1")
  = asked bound_pilot (getExecutionBindingForOrder "order-1").
Proof. vm_compute. reflexivity. Qed.

(** The record the repository made of the evidence. *)
Definition sample_record : CandidateEvidenceRecord :=
  match asked advanced_pilot (getEvidenceRecord "pilot-1" "terminal-order:order-1") with
  | Ok (Some record) => record
  | _ => {| rec_evidence := enter; rec_materialHash := "";
            rec_materialVersion := Material.LEGACY_APPROXIMATE_V1 |}
  end.

Definition sample_exact : ExactCandidateState :=
  default createExactEmptyCandidateState (exactStates advanced_pilot !! "pilot-1").

Lemma sample_stored : stored bound_answers advanced_answers sample_input.
Proof.
  split.
  - intros B e He. destruct e; try discriminate He; cbn [sample_answers];
      rewrite ?same_deployment, ?same_binding; reflexivity.
  - exists sample_record, [], []. split_and!; vm_compute; reflexivity.
  - exists sample_exact. vm_compute. reflexivity.
Qed.

Lemma processing_is_idempotent_witness :
  exists res, eval advanced_answers sample_process = Ok res /\
              proj_outcome res = Projection.DUPLICATE.
Proof.
  assert (E : outcome_of (eval bound_answers sample_process) = Some Projection.ADVANCED)
    by (vm_compute; reflexivity).
  revert E. generalize (eq_refl (eval bound_answers sample_process)).
  generalize (eval bound_answers sample_process) at 1 3. intros r Hr E.
  destruct r as [res|]; [|discriminate E].
  apply (processing_is_idempotent string_compare sample_deps bound_answers advanced_answers
           "order-1" res sample_input
           (sample_answers bound_pilot sample_fills _ (Evid.AdvanceStateWithEvidence sample_input))
           sample_older).
  - symmetry. exact Hr.
  - by injection E.
  - exact sample_calls_advance.
  - exact sample_stored.
Defined.

(** ** A marker that cannot be stored *)

Definition store_fails : evidence_error := AnError "database is locked".

(** No fills, and no event can be appended. *)
Definition locked_answers (B : Type) (e : Evid.call B) : result evidence_error B :=
  match e with
  | Evid.AppendOrderEvent _ => Err store_fails
  | _ => sample_answers bound_pilot [] B e
  end.

(** Listing the fills fails. *)
Definition unread_answers (B : Type) (e : Evid.call B) : result evidence_error B :=
  match e with
  | Evid.ListFills _ => Err store_fails
  | _ => sample_answers bound_pilot [] B e
  end.

(** A store that fails while the fills are listed ends in a fault that pauses
    trading; the same failure while the marker is written is thrown at the
    caller, because its promise is returned from the [try] block and not
    awaited. *)
Example marker_failure_escapes :
  outcome_of (eval unread_answers sample_process) = Some Projection.FAULT /\
  eval locked_answers sample_process = Err store_fails.
Proof. split; vm_compute; reflexivity. Qed.
