(* ===== verification/StrategyContext.v ===== *)
(** * StrategyContext: what the decision engine is told

    The account and the market as the exchange describes them ([domain/types.ts]
    and [modules/exchange/upbit/contracts.ts]); the market a decision looks at
    ([modules/strategy/position-guard-snapshot.ts]: which candles are asked for,
    and the snapshot made of the ticker and the candles); and the context of a
    decision ([modules/strategy/position-guard-context.ts]), from the latest
    stored snapshots, the latest decision and the orders.  The stored texts are
    JSON, read as the code reads it.  The calls are those of the strategy
    runner, whose program awaits them. *)

From Stdlib Require Import ZArith Lia.
From Stdlib Require Import Floats.SpecFloat.
From stdpp Require Import base option list strings.
From S2P Require Import Prelude Num Types Text Timestamp NumText JsMap Json Risk StrategyCore.
From S2P Require Import MarketStructure OrderRecords ReconciliationRecords PortfolioDrift.

(** ** What the exchange says of the account and the market *)

Section ExchangeData.
Local Open Scope Z_scope.

Record ExchangeBalance := {
  eb_currency : string;
  eb_balance : string;
  eb_locked : string;
  eb_avgBuyPrice : string;
  eb_unitCurrency : string;
}.

Record UpbitTickerSnapshot := {
  tick_market : SupportedMarket;
  tick_trade_price : num;
  tick_trade_timestamp : num;
}.

Record UpbitCandleSnapshot := {
  uc_market : SupportedMarket;
  uc_candle_date_time_utc : string;
  uc_candle_date_time_kst : string;
  uc_opening_price : num;
  uc_high_price : num;
  uc_low_price : num;
  uc_trade_price : num;
  uc_timestamp : num;
  uc_candle_acc_trade_price : num;
  uc_candle_acc_trade_volume : num;
  uc_unit : option Z;
}.

Definition UPBIT_SPOT_MARKETS : list SupportedMarket := [Market.KRW_BTC; Market.KRW_ETH].

(** The integer part of a number, as [new Date(number)] takes it. *)
Definition integer_part (x : num) : option Z :=
  match x with
  | S754_zero _ => Some 0
  | S754_finite negative m e =>
      let n := if 0 <=? e then Zpos m * 2 ^ e else Zpos m / 2 ^ (- e) in
      Some (if negative then - n else n)
  | _ => None
  end.

(** [new Date(number).toISOString()], whose years here have four digits. *)
Definition number_toISOString (x : num) : outcome string :=
  match integer_part x with
  | Some ms =>
      if Z.abs ms <=? 8640000000000000 then Ret (toISOString ms) else Throw "Invalid time value"
  | None => Throw "Invalid time value"
  end.

End ExchangeData.

Local Open Scope string_scope.
Local Open Scope js_scope.
Local Open Scope bool_scope.

(** ** The market a decision looks at *)

Definition timeframeDurationMs (t : SupportedStrategyTimeframe) : Z :=
  match t with
  | Timeframe.H1 => 60 * 60 * 1000
  | Timeframe.H4 => 4 * 60 * 60 * 1000
  | Timeframe.D1 => 24 * 60 * 60 * 1000
  end.

(** ** Boundaries *)

Definition toBoundaryIso (timestampMs durationMs : Z) : string :=
  toISOString (timestampMs / durationMs * durationMs).

Definition getCompletedCandleBoundaries (fetchedAt : string) : outcome (PerTimeframe string) :=
  match Date_parse fetchedAt with
  | None => Throw ("Invalid PositionGuard snapshot time: " ++ fetchedAt)
  | Some ms =>
      let boundary t := toBoundaryIso ms (timeframeDurationMs t) in
      Ret {| h1 := boundary Timeframe.H1; h4 := boundary Timeframe.H4; d1 := boundary Timeframe.D1 |}
  end.

(** The end of the candles that are asked for. *)
Definition candle_end (fetchedAt : string) (to : option string) : outcome (PerTimeframe string) :=
  match to with
  | None => getCompletedCandleBoundaries fetchedAt
  | Some to => Ret {| h1 := to; h4 := to; d1 := to |}
  end.

(** ** Candles *)

(** The same texts are read as in [market-structure.ts]; what is not a time
    throws. *)
Definition candleUtcMs (value : string) : outcome Z :=
  match toUtcMs value with
  | Some ms => Ret ms
  | None => Throw ("Invalid Upbit candle timestamp: " ++ value)
  end.

Definition compare_candles (left right : Z * UpbitCandleSnapshot) : comparison :=
  Z.compare (fst left) (fst right).

Definition strategy_candle (market : SupportedMarket) (t : SupportedStrategyTimeframe)
    (candle : Z * UpbitCandleSnapshot) : StrategyMarketCandle :=
  let '(openMs, c) := candle in
  {| candle_market := market;
     candle_timeframe := t;
     openTime := toISOString openMs;
     closeTime := toISOString (openMs + timeframeDurationMs t);
     openPrice := uc_opening_price c;
     highPrice := uc_high_price c;
     lowPrice := uc_low_price c;
     closePrice := uc_trade_price c;
     volume := uc_candle_acc_trade_volume c;
     quoteVolume := uc_candle_acc_trade_price c |}.

(** Of several times that are not valid the sort may name another one. *)
Definition normalizeUpbitCandles (candles : list UpbitCandleSnapshot) (market : SupportedMarket)
    (t : SupportedStrategyTimeframe) : outcome (list StrategyMarketCandle) :=
  timed ← mapM_outcome (fun c => ms ← candleUtcMs (uc_candle_date_time_utc c); Ret (ms, c)) candles;
  Ret (strategy_candle market t <$> js_sort compare_candles timed).

(** ** The snapshot *)

Definition buildPositionGuardMarketSnapshot (market : SupportedMarket) (fetchedAt : string)
    (tick : UpbitTickerSnapshot) (oneHour fourHour oneDay : list UpbitCandleSnapshot)
    : outcome PositionGuardMarketSnapshot :=
  tradeTimeUtc ← number_toISOString (tick_trade_timestamp tick);
  oneHour ← normalizeUpbitCandles oneHour market Timeframe.H1;
  fourHour ← normalizeUpbitCandles fourHour market Timeframe.H4;
  oneDay ← normalizeUpbitCandles oneDay market Timeframe.D1;
  Ret {| snap_asset := getAssetForMarket market;
         snap_market := market;
         snap_fetchedAt := fetchedAt;
         ticker := {| ticker_tradePrice := tick_trade_price tick;
                      tradeTimeUtc := Some tradeTimeUtc;
                      tradeTimeKst := None;
                      exchangeTimestampMs := Some (tick_trade_timestamp tick);
                      ticker_fetchedAt := Some fetchedAt |};
         candles := {| h1 := oneHour; h4 := fourHour; d1 := oneDay |} |}.

(** The snapshot of what the exchange answered. *)
Definition snapshot_of_answers (market : SupportedMarket) (fetchedAt : string)
    (tickers : list UpbitTickerSnapshot) (oneHour fourHour oneDay : list UpbitCandleSnapshot)
    : outcome PositionGuardMarketSnapshot :=
  match List.find (fun t => tick_market t === market) tickers with
  | None => Throw ("Upbit ticker response did not include " ++ Market.to_string market ++ ".")
  | Some tick => buildPositionGuardMarketSnapshot market fetchedAt tick oneHour fourHour oneDay
  end.

(** ** The account a decision is made for *)

(** ** Reading JSON *)

(** An empty text is none. *)
Definition parseJsonArray (value : option string) : list json :=
  match value with
  | None => []
  | Some text =>
      if text === "" then []
      else match JSON_parse text with Some (JArr l) => l | _ => [] end
  end.

Definition readObject (value : option json) : list (string * json) :=
  match value with Some (JObj fields) => fields | _ => [] end.

Definition parseJsonObject (text : string) : list (string * json) := readObject (JSON_parse text).

(** [null] where the value is no text or not JSON. *)
Definition parseMaybeJsonObject (value : option json) : option (list (string * json)) :=
  match value with
  | Some (JStr text) => (fun parsed => readObject (Some parsed)) <$> JSON_parse text
  | _ => None
  end.

(** [a ?? b] *)
Definition nullish (a b : option json) : option json :=
  match a with None | Some JNull => b | _ => a end.

(** [parseFiniteNumber(value, fallback)] of a property. *)
Definition parseFiniteNumber (value : option json) (fallback : num) : num :=
  let parsed := match value with
                | None | Some JNull => NaN
                | Some _ => Number_of_json value
                end in
  if is_finite parsed then parsed else fallback.

Definition member_of {A} (to_string : A -> string) (all : list A) (value : option json) : option A :=
  match value with
  | Some (JStr s) => List.find (fun x => to_string x === s) all
  | _ => None
  end.

Definition asExecutionDisposition : option json -> option StrategyExecutionDisposition :=
  member_of Disposition.to_string
    [Disposition.IMMEDIATE; Disposition.DEFERRED_CONFIRMATION;
     Disposition.EXECUTED_AFTER_CONFIRMATION; Disposition.SKIPPED].

Definition asEntryPath : option json -> option StrategyEntryPath :=
  member_of EntryPath.to_string
    [EntryPath.PULLBACK; EntryPath.RECLAIM; EntryPath.BREAKOUT_HOLD; EntryPath.NONE].

Definition asQualityBucket : option json -> option StrategySignalQualityBucket :=
  member_of Bucket.to_string [Bucket.HIGH; Bucket.MEDIUM; Bucket.BORDERLINE; Bucket.LOW].

(** ** The latest decision *)

Definition toPreviousPositionGuardDecision (record : option StrategyDecisionRecord)
    : option PreviousPositionGuardDecision :=
  record ← record;
  let basis := parseJsonObject (sd_decisionBasisJson record) in
  let metadata := readObject (map_get "metadata" basis) in
  let diagnostics := default (readObject (map_get "diagnostics" basis))
                       (parseMaybeJsonObject (map_get "diagnosticsJson" metadata)) in
  let signalQuality := readObject (map_get "signalQuality" basis) in
  executionDisposition ← asExecutionDisposition
    (nullish (map_get "executionDisposition" metadata) (map_get "executionDisposition" basis));
  entryPath ← asEntryPath
    (nullish (map_get "entryPath" diagnostics)
       (nullish (map_get "entryPath" metadata) (map_get "entryPath" basis)));
  qualityBucket ← asQualityBucket
    (nullish (map_get "signalQualityBucket" metadata)
       (nullish (map_get "bucket" signalQuality) (map_get "qualityBucket" basis)));
  Some {| prev_action := OrderRecords.sd_action record;
          prev_executionDisposition := executionDisposition;
          prev_entryPath := entryPath;
          prev_qualityBucket := qualityBucket;
          prev_createdAt := sd_createdAt record |}.

(** ** The latest exit *)

Section Exit.
(** [String.prototype.localeCompare] *)
Context (localeCompare : string -> string -> comparison).

Definition no_exit : RecentExitContext :=
  {| exit_createdAt := None; hoursSinceExit := None; realizedPnl := None |}.

(** [right.updatedAt.localeCompare(left.updatedAt)] *)
Definition compare_exits (left right : OrderRecord) : comparison :=
  localeCompare (ord_updatedAt right) (ord_updatedAt left).

Definition is_exit_of (market : SupportedMarket) (order : OrderRecord) : bool :=
  (ord_market order === market) && (ord_side order === Side.ask)
  && (ord_status order === OrderStatus.FILLED).

Definition hours_between (exitAt generatedAt : Z) : num :=
  nmax zero (ndiv (num_of_Z (generatedAt - exitAt)) (num_of_Z (60 * 60 * 1000))).

Definition deriveRecentExitContext (orders : list OrderRecord) (market : SupportedMarket)
    (generatedAt : string) : RecentExitContext :=
  match js_sort compare_exits (List.filter (is_exit_of market) orders) with
  | [] => no_exit
  | latestExit :: _ =>
      {| exit_createdAt := Some (ord_updatedAt latestExit);
         hoursSinceExit :=
           match Date_parse generatedAt, Date_parse (ord_updatedAt latestExit) with
           | Some generatedAtMs, Some exitAtMs => Some (hours_between exitAtMs generatedAtMs)
           | _, _ => None
           end;
         realizedPnl := None |}
  end.

(** ** The context *)

(** [elements.find(...)] on a property or two that have given texts; an element
    that is null throws. *)
Fixpoint find_element (test : json -> outcome bool) (elements : list json)
    : outcome (option json) :=
  match elements with
  | [] => Ret None
  | element :: rest =>
      found ← test element; if found : bool then Ret (Some element) else find_element test rest
  end.

Definition has_text (key text : string) (element : json) : outcome bool :=
  value ← property element key;
  Ret match value with Some (JStr s) => s === text | _ => false end.

Definition is_position_of (asset : SupportedAsset) (market : SupportedMarket) (element : json)
    : outcome bool :=
  same_asset ← has_text "asset" (Asset.to_string asset) element;
  if same_asset : bool then has_text "market" (Market.to_string market) element else Ret false.

(** [element?.key] *)
Definition optional_property (element : option json) (key : string) : outcome (option json) :=
  match element with None => Ret None | Some e => property e key end.

Definition getAvailableKrw (balances : list json) : outcome num :=
  krw ← find_element (has_text "currency" "KRW") balances;
  balance ← optional_property krw "balance";
  Ret (parseFiniteNumber balance zero).

Definition pnl_of (averageEntryPrice currentPrice : num) : num :=
  if nltb zero averageEntryPrice
  then ndiv (nsub currentPrice averageEntryPrice) averageEntryPrice else zero.

(** [{ ...analysis, averageEntryPrice, pnlPct }] *)
Definition with_entry_price (a : PositionGuardStructureAnalysis) (averageEntryPrice : num)
    : PositionGuardStructureAnalysis := {|
  regime := regime a; riskLevel := riskLevel a; invalidationState := invalidationState a;
  invalidationLevel := invalidationLevel a; pullbackZone := pullbackZone a;
  reclaimStructure := reclaimStructure a; breakoutHoldStructure := breakoutHoldStructure a;
  upperRangeChase := upperRangeChase a; currentPrice := currentPrice a; entryPath := entryPath a;
  trendAlignmentScore := trendAlignmentScore a; recoveryQualityScore := recoveryQualityScore a;
  breakdownPressureScore := breakdownPressureScore a; weakeningStage := weakeningStage a;
  breakdown1d := breakdown1d a; breakdown4h := breakdown4h a; failedReclaim := failedReclaim a;
  bearishMomentumExpansion := bearishMomentumExpansion a; volumeRecovery := volumeRecovery a;
  macdImproving := macdImproving a; rsiRecovery := rsiRecovery a; atrShock := atrShock a;
  averageEntryPrice := averageEntryPrice;
  pnlPct := pnl_of averageEntryPrice (currentPrice a);
  oneHourLocation := oneHourLocation a; fourHourLocation := fourHourLocation a;
|}.

Record ContextInput := {
  ci_market : SupportedMarket;
  ci_generatedAt : string;
  ci_analysis : PositionGuardStructureAnalysis;
  ci_settings : option PositionGuardStrategySettings;
  ci_balanceSnapshotJson : option string;
  ci_positionSnapshotJson : option string;
  ci_portfolio : PortfolioExposureSnapshot;
  ci_latestDecisionRecord : option StrategyDecisionRecord;
  ci_orders : list OrderRecord;
}.

Definition buildPositionGuardStrategyContext (i : ContextInput)
    : outcome PositionGuardStrategyContext :=
  let market := ci_market i in
  let asset := getAssetForMarket market in
  position ← find_element (is_position_of asset market) (parseJsonArray (ci_positionSnapshotJson i));
  availableKrw ← getAvailableKrw (parseJsonArray (ci_balanceSnapshotJson i));
  quantity ← optional_property position "quantity";
  entryPrice ← optional_property position "averageEntryPrice";
  marketValue ← optional_property position "marketValue";
  let positionQuantity := parseFiniteNumber quantity zero in
  let averageEntryPrice := parseFiniteNumber entryPrice (averageEntryPrice (ci_analysis i)) in
  Ret {|
    asset := asset;
    market := market;
    generatedAt := ci_generatedAt i;
    availableKrw := availableKrw;
    positionQuantity := positionQuantity;
    ctx_averageEntryPrice := averageEntryPrice;
    portfolio := {|
      StrategyCore.totalEquityKrw := Risk.totalEquityKrw (ci_portfolio i);
      assetMarketValueKrw :=
        parseFiniteNumber marketValue (nmul positionQuantity (currentPrice (ci_analysis i)));
      StrategyCore.totalExposureKrw := Risk.totalExposureKrw (ci_portfolio i) |};
    latestDecision := toPreviousPositionGuardDecision (ci_latestDecisionRecord i);
    recentExit := deriveRecentExitContext (ci_orders i) market (ci_generatedAt i);
    settings := default DEFAULT_POSITION_GUARD_STRATEGY_SETTINGS (ci_settings i);
    analysis := with_entry_price (ci_analysis i) averageEntryPrice |}.

End Exit.
