(* ===== verification/StrategyJson.v ===== *)
(** * StrategyJson: decisions as the JSON that is stored

    [JSON.stringify] of the values the strategy runner stores with a decision:
    the members of each object in the order its literal gives them. *)

From Stdlib Require Import ZArith.
From stdpp Require Import base option list strings.
From S2P Require Import Prelude Num Types NumText StrategyCore MarketStructure CandidatePolicy.
From S2P Require Import PolicyRouter.

Local Open Scope string_scope.

Definition texts_json (l : list string) : json := JArr (JStr <$> l).
Definition opt_text_json (x : option string) : json := from_option JStr JNull x.
Definition opt_int_json (x : option Z) : json := from_option JInt JNull x.

(** ** Decisions *)

Definition strategy_decision_json (d : StrategyDecision) : json := JObj [
  ("strategyKey", JStr (sd_strategyKey d));
  ("market", JStr (Market.to_string (sd_market d)));
  ("action", JStr (Action.to_string (sd_action d)));
  ("reasonCodes", texts_json (sd_reasonCodes d));
  ("referencePrice", JNum (sd_referencePrice d));
  ("requestedNotionalKrw", opt_num_json (sd_requestedNotionalKrw d));
  ("requestedQuantity", opt_num_json (sd_requestedQuantity d));
  ("metadata", JObj (sd_metadata d))].

Definition signal_quality_json (q : SignalQuality) : json := JObj [
  ("score", JInt (score q));
  ("bucket", JStr (Bucket.to_string (bucket q)));
  ("confirmationRequired", JBool (confirmationRequired q));
  ("confirmationSatisfied", JBool (confirmationSatisfied q));
  ("reentryPenaltyApplied", JBool (reentryPenaltyApplied q))].

Definition engine_decision_json (d : PositionGuardEngineDecision) : json := JObj [
  ("action", JStr (Action.to_string (action d)));
  ("summary", JStr (summary d));
  ("reasons", texts_json (reasons d));
  ("targetNotionalKrw", JNum (targetNotionalKrw d));
  ("targetQuantityFraction", opt_num_json (targetQuantityFraction d));
  ("referencePrice", JNum (referencePrice d));
  ("executionDisposition", JStr (Disposition.to_string (executionDisposition d)));
  ("signalQuality", signal_quality_json (signalQuality d));
  ("exposureGuardrails", guardrails_json (exposureGuardrails d));
  ("diagnostics", diagnostics_json (diagnostics d))].

(** ** The context *)

Definition portfolio_json (p : PortfolioValues) : json := JObj [
  ("totalEquityKrw", JNum (totalEquityKrw p));
  ("assetMarketValueKrw", JNum (assetMarketValueKrw p));
  ("totalExposureKrw", JNum (totalExposureKrw p))].

Definition previous_decision_json (d : PreviousPositionGuardDecision) : json := JObj [
  ("action", JStr (Action.to_string (prev_action d)));
  ("executionDisposition", JStr (Disposition.to_string (prev_executionDisposition d)));
  ("entryPath", JStr (EntryPath.to_string (prev_entryPath d)));
  ("qualityBucket", JStr (Bucket.to_string (prev_qualityBucket d)));
  ("createdAt", JStr (prev_createdAt d))].

Definition recent_exit_json (x : RecentExitContext) : json := JObj [
  ("createdAt", opt_text_json (exit_createdAt x));
  ("hoursSinceExit", opt_num_json (hoursSinceExit x));
  ("realizedPnl", opt_num_json (realizedPnl x))].

Definition settings_json (s : PositionGuardStrategySettings) : json := JObj [
  ("minimumTradeValueKrw", JNum (minimumTradeValueKrw s));
  ("entryAllocation", JNum (entryAllocation s));
  ("addAllocation", JNum (addAllocation s));
  ("reduceFraction", JNum (reduceFraction s));
  ("perAssetMaxAllocation", JNum (perAssetMaxAllocation s));
  ("strongTrendPerAssetMaxAllocation", JNum (strongTrendPerAssetMaxAllocation s));
  ("totalPortfolioMaxExposure", JNum (totalPortfolioMaxExposure s))].

Definition indicators_json (i : TimeframeIndicatorState) : json := JObj [
  ("ema20", opt_num_json (ema20 i)); ("ema50", opt_num_json (ema50 i));
  ("ema200", opt_num_json (ema200 i)); ("atr14", opt_num_json (atr14 i));
  ("rsi14", opt_num_json (rsi14 i)); ("macdLine", opt_num_json (macdLine i));
  ("macdSignal", opt_num_json (macdSignal i)); ("macdHistogram", opt_num_json (macdHistogram i));
  ("previousMacdHistogram", opt_num_json (previousMacdHistogram i));
  ("volumeRatio", opt_num_json (volumeRatio i))].

Definition timeframe_json (s : TimeframeStructure) : json := JObj [
  ("timeframe", JStr (Timeframe.to_string (timeframe s)));
  ("trend", JStr (Trend.to_string (trend s)));
  ("rangeHigh", JNum (rangeHigh s)); ("rangeLow", JNum (rangeLow s));
  ("previousRangeHigh", JNum (previousRangeHigh s)); ("previousRangeLow", JNum (previousRangeLow s));
  ("location", JStr (Location.to_string (location s)));
  ("changePct", JNum (changePct s));
  ("latestClose", JNum (latestClose s)); ("previousClose", JNum (previousClose s));
  ("swingHigh", JNum (swingHigh s)); ("swingLow", JNum (swingLow s));
  ("support", JNum (support s)); ("resistance", JNum (resistance s));
  ("indicators", indicators_json (indicators s));
  ("aboveEma20", JBool (aboveEma20 s)); ("aboveEma50", JBool (aboveEma50 s));
  ("aboveEma200", JBool (aboveEma200 s));
  ("emaStackBullish", JBool (emaStackBullish s)); ("emaStackBearish", JBool (emaStackBearish s));
  ("macdHistogramImproving", JBool (macdHistogramImproving s));
  ("rsiOverbought", JBool (rsiOverbought s)); ("rsiOversold", JBool (rsiOversold s))].

Definition location_fields (key : string) (l : option StrategyRangeLocation) : list (string * json) :=
  match l with Some l => [(key, JStr (Location.to_string l))] | None => [] end.

(** The analysis of a context is the object the market analysis returned, its
    entry price and profit replaced: its JSON shows all of that object. *)
Definition analysis_json (m : PositionGuardMarketStructureAnalysis)
    (a : PositionGuardStructureAnalysis) : json := JObj ([
  ("asset", JStr (Asset.to_string (ms_asset m)));
  ("market", JStr (Market.to_string (ms_market m)));
  ("currentPrice", JNum (currentPrice a));
  ("timeframes", JObj [("1h", timeframe_json (h1 (timeframes m)));
                       ("4h", timeframe_json (h4 (timeframes m)));
                       ("1d", timeframe_json (d1 (timeframes m)))]);
  ("bearishTrendCount", JInt (bearishTrendCount m));
  ("bullishTrendCount", JInt (bullishTrendCount m));
  ("lowerLocationCount", JInt (lowerLocationCount m));
  ("upperLocationCount", JInt (upperLocationCount m));
  ("regime", JStr (Regime.to_string (regime a)));
  ("riskLevel", JStr (RiskLevel.to_string (riskLevel a)));
  ("invalidationState", JStr (Invalidation.to_string (invalidationState a)));
  ("invalidationLevel", opt_num_json (invalidationLevel a));
  ("pullbackZone", JBool (pullbackZone a));
  ("reclaimLevel", opt_num_json (reclaimLevel m));
  ("reclaimStructure", JBool (reclaimStructure a));
  ("breakoutHoldStructure", JBool (breakoutHoldStructure a));
  ("upperRangeChase", JBool (upperRangeChase a));
  ("entryPath", JStr (EntryPath.to_string (entryPath a)));
  ("trendAlignmentScore", JInt (trendAlignmentScore a));
  ("recoveryQualityScore", JInt (recoveryQualityScore a));
  ("breakdownPressureScore", JInt (breakdownPressureScore a));
  ("weakeningStage", JStr (Weakening.to_string (weakeningStage a)));
  ("breakdown1d", JBool (breakdown1d a));
  ("breakdown4h", JBool (breakdown4h a));
  ("failedReclaim", JBool (failedReclaim a));
  ("bearishMomentumExpansion", JBool (bearishMomentumExpansion a));
  ("volumeRecovery", JBool (volumeRecovery a));
  ("macdImproving", JBool (macdImproving a));
  ("rsiRecovery", JBool (rsiRecovery a));
  ("atrShock", JBool (atrShock a));
  ("averageEntryPrice", JNum (averageEntryPrice a));
  ("pnlPct", JNum (pnlPct a))]
  ++ location_fields "oneHourLocation" (oneHourLocation a)
  ++ location_fields "fourHourLocation" (fourHourLocation a))%list.

Definition context_json (m : PositionGuardMarketStructureAnalysis)
    (c : PositionGuardStrategyContext) : json := JObj [
  ("asset", JStr (Asset.to_string (asset c)));
  ("market", JStr (Market.to_string (market c)));
  ("generatedAt", JStr (generatedAt c));
  ("positionQuantity", JNum (positionQuantity c));
  ("averageEntryPrice", JNum (ctx_averageEntryPrice c));
  ("portfolio", portfolio_json (portfolio c));
  ("latestDecision", from_option previous_decision_json JNull (latestDecision c));
  ("recentExit", recent_exit_json (recentExit c));
  ("settings", settings_json (settings c));
  ("analysis", analysis_json m (analysis c))].

(** ** Routes *)

Definition outcome_text (o : Outcome.PositionGuardCandidateOutcome) : string :=
  match o with
  | Outcome.ALLOW => "ALLOW"
  | Outcome.SUPPRESS => "SUPPRESS"
  | Outcome.OVERRIDE_EXIT => "OVERRIDE_EXIT"
  end.

Definition precedence_text (p : Precedence.PositionGuardCandidatePrecedence) : string :=
  match p with
  | Precedence.PRESERVE_RISK_REDUCTION => "PRESERVE_RISK_REDUCTION"
  | Precedence.EARLY_THESIS_FAILURE => "EARLY_THESIS_FAILURE"
  | Precedence.COOLDOWN_CONTROL => "COOLDOWN_CONTROL"
  | Precedence.HTF_TREND_GATE => "HTF_TREND_GATE"
  | Precedence.ADD_LIMITED => "ADD_LIMITED"
  | Precedence.NO_INTERVENTION => "NO_INTERVENTION"
  end.

Definition route_reason_text (r : RouteReason) : string :=
  match r with
  | Route.BASELINE_SELECTION => "BASELINE_SELECTION"
  | Route.ETH_BASELINE => "ETH_BASELINE"
  | Route.PILOT_DISABLED => "PILOT_DISABLED"
  | Route.PENDING_FLAT_NEW_RISK_SUPPRESSED => "PENDING_FLAT_NEW_RISK_SUPPRESSED"
  | Route.PENDING_FLAT_RISK_REDUCTION_PRESERVED => "PENDING_FLAT_RISK_REDUCTION_PRESERVED"
  | Route.PENDING_FLAT_BASELINE_HOLD_PRESERVED => "PENDING_FLAT_BASELINE_HOLD_PRESERVED"
  | Route.DRAINING_NEW_RISK_SUPPRESSED => "DRAINING_NEW_RISK_SUPPRESSED"
  | Route.DRAINING_RISK_REDUCTION_PRESERVED => "DRAINING_RISK_REDUCTION_PRESERVED"
  | Route.DRAINING_BASELINE_HOLD_PRESERVED => "DRAINING_BASELINE_HOLD_PRESERVED"
  | Route.PAUSED_FAULT_BLOCKED => "PAUSED_FAULT_BLOCKED"
  | Route.CANDIDATE_ALLOWED => "CANDIDATE_ALLOWED"
  | Route.CANDIDATE_SUPPRESSED => "CANDIDATE_SUPPRESSED"
  | Route.CANDIDATE_EARLY_THESIS_FAILURE => "CANDIDATE_EARLY_THESIS_FAILURE"
  end.

Definition selection_text (s : SelectionName) : string :=
  match s with
  | BASELINE => "BASELINE"
  | BTC_COMBINED_CONSERVATIVE_PILOT_V1 => "BTC_COMBINED_CONSERVATIVE_PILOT_V1"
  end.

(** A selection as the object it is configured with. *)
Definition selection_json (s : PositionGuardPolicySelection) : json :=
  match s with
  | SelectBaseline => JObj [("kind", JStr "BASELINE"); ("pilotId", JNull)]
  | SelectBtcCandidatePilot => JObj
      [("kind", JStr "BTC_CANDIDATE_PILOT"); ("pilotId", JStr "BTC_COMBINED_CONSERVATIVE_PILOT_V1");
       ("market", JStr "KRW-BTC"); ("policyId", JStr "COMBINED_CONSERVATIVE");
       ("policyVersion", JStr "PCS-2026-001.DEPLOYMENT_READINESS_V1");
       ("liveOperatorConfirmed", JBool true)]
  end.

Definition evaluation_json (e : PositionGuardCandidateEvaluation) : json := JObj [
  ("policyId", JStr (PolicyId.to_string (ev_policyId e)));
  ("policyVersion", JStr (ev_policyVersion e));
  ("generatedAt", JStr (ev_generatedAt e));
  ("originalAction", JStr (Action.to_string (originalAction e)));
  ("effectiveAction", JStr (Action.to_string (effectiveAction e)));
  ("outcome", JStr (outcome_text (ev_outcome e)));
  ("reason", JStr (Reason.to_string (ev_reason e)));
  ("precedence", JStr (precedence_text (ev_precedence e)));
  ("effectiveDecision", engine_decision_json (effectiveDecision e))].
