(* ===== verification/Runner.v ===== *)
(** * Runner: one run of the strategy

    [PositionGuardStrategyRunner.runOnce] and [previewOnce] of
    [modules/strategy/position-guard-runner.ts] as routines over the calls of
    [Run]: the market and the account are read, the engine decides, the policy
    router says what is executed, the decision is stored and its order is
    submitted.

    [Promise.all] makes its calls in order, waits for all of them and throws what
    the first that failed threw. *)

From Stdlib Require Import ZArith Ascii.
From stdpp Require Import base option list strings.
From S2P Require Import Prelude Num Types Text Timestamp NumText JsMap Json Decimals Risk.
From S2P Require Import CandidateState ExactState PilotRecords OrderRecords CandidateAuthority.
From S2P Require Import Effects ExecutionRecords ExecutionHelpers ReconciliationRecords ReconciliationHelpers.
From S2P Require Import StrategyCore MarketStructure CandidatePolicy PolicyRouter.
From S2P Require Import StrategyContext StrategyJson.

Local Open Scope string_scope.
Local Open Scope js_scope.
Local Open Scope bool_scope.

(** ** Data *)

(** Its [reconciliationSource] is ["SCHEDULER_PREFLIGHT"]. *)
Record PositionGuardPilotRefreshReceipt := {
  rcp_exchangeAccountId : string;
  rcp_requestedAt : string;
  rcp_balanceSnapshotId : string;
  rcp_balanceCapturedAt : string;
  rcp_positionSnapshotId : string;
  rcp_positionCapturedAt : string;
  rcp_reconciliationRunId : string;
  rcp_reconciliationStartedAt : string;
  rcp_reconciliationCompletedAt : string;
}.

#[export] Instance PositionGuardPilotRefreshReceipt_eq_dec :
  EqDecision PositionGuardPilotRefreshReceipt.
Proof. solve_decision. Defined.

Record CandidateActivation := {
  act_activationAt : string;
  act_activationEpochNs : Z;
}.

(** The result with status ["READY"]. *)
Record ReadyVerification := {
  ver_deployment : PositionGuardPilotDeploymentRecord;
  ver_phase : PositionGuardPilotPhase;
  ver_activation : option CandidateActivation;
  ver_state : ExactCandidateState;
  ver_stateVersion : Z;
  ver_refreshProvenance : PositionGuardPilotRefreshReceipt;
}.

Inductive PositionGuardRunnerPilotVerificationResult : Type :=
| READY (verification : ReadyVerification)
| BLOCKED_FAULT (reasonCode faultId : string).

Record PositionGuardRunnerConfig := {
  cfg_exchangeAccountId : string;
  cfg_candleCount : Z;
  cfg_settings : PositionGuardStrategySettings;
}.

Record PositionGuardRunInput := {
  run_market : SupportedMarket;
  run_generatedAt : string;
  run_candleTo : option string;
  run_refreshReceipt : option PositionGuardPilotRefreshReceipt;
}.

Record PositionGuardRunResult := {
  ran_strategyDecisionRecord : StrategyDecisionRecord;
  ran_strategyDecision : StrategyDecision;
  ran_engineDecision : PositionGuardEngineDecision;
  ran_context : PositionGuardStrategyContext;
  ran_submission : option SubmitOrderFromDecisionResult;
}.

Record PositionGuardOrderPreview := {
  pre_side : OrderSide;
  pre_ordType : OrderType;
  pre_price : option string;
  pre_volume : option string;
  pre_requestedNotionalKrw : option num;
  pre_requestedQuantity : option num;
}.

(** What can be thrown. *)
Inductive run_error : Set :=
| JsError (error : js_error)
| PositionGuardCandidateRunBlockedError (reasonCode faultId : string).

Definition blocked_message (reasonCode : string) : string :=
  "PositionGuard BTC candidate verification blocked: " ++ reasonCode ++ ".".

(** ** Calls *)

Module Run.
Inductive call : Type -> Type :=
| AssertLocallyHeld : call unit
| CreateId (prefix : string) : call string
(* the market *)
| GetTickers (markets : list SupportedMarket) : call (list UpbitTickerSnapshot)
| GetMinuteCandles (market : SupportedMarket) (unit count : Z) (to : string)
    : call (list UpbitCandleSnapshot)
| GetDayCandles (market : SupportedMarket) (count : Z) (to : string)
    : call (list UpbitCandleSnapshot)
(* the account *)
| GetLatestBalanceSnapshot (exchangeAccountId : string) : call (option BalanceSnapshotRecord)
| GetLatestPositionSnapshot (exchangeAccountId : string) : call (option PositionSnapshotRecord)
| GetPortfolioExposure (exchangeAccountId : string) : call PortfolioExposureSnapshot
| GetLatestStrategyDecision (exchangeAccountId : string) (market : SupportedMarket)
    (strategyKey : string) : call (option StrategyDecisionRecord)
| ListOrders (exchangeAccountId : string) : call (list OrderRecord)
(* the pilot *)
| VerifyAndPrepareBtcRun (receipt : PositionGuardPilotRefreshReceipt)
    : call PositionGuardRunnerPilotVerificationResult
(* the decision *)
| SaveStrategyDecision (record : StrategyDecisionRecord) : call unit
| SubmitOrderFromDecision (input : SubmitOrderFromDecisionInput)
    : call SubmitOrderFromDecisionResult.
End Run.

(** Which optional dependencies there are; the router may be replaced. *)
Record RunnerDependencies := {
  rn_config : PositionGuardRunnerConfig;
  rn_policySelection : option PositionGuardPolicySelection;
  rn_hasCandidateRunVerifier : bool;
  rn_policyRouter : option (PositionGuardPolicyRouteInput -> outcome PositionGuardPolicyRouteResult);
  rn_hasRuntimeOwnership : bool;
}.

Abbreviation runner A := (routine Run.call run_error unit A).

Definition fail {A} (message : string) : runner A := throw (JsError (PlainError message)).

Definition run_lift {A} (o : outcome A) : runner A :=
  lift_outcome (fun message => JsError (PlainError message)) o.

(** ** Orders *)

Definition formatDecimal (value : num) : string :=
  match num_integer value with
  | Some _ => num_to_string value
  | None => strip_trailing_dot (strip_trailing_zeros (to_fixed_text 12 value))
  end.

Definition formatUpbitMarketBuyQuote (value : num) : outcome string :=
  serializeUpbitOrderDecimal value "Upbit market-buy quote".

(** [metadata.executionDisposition === "DEFERRED_CONFIRMATION"] *)
Definition is_deferred (d : StrategyDecision) : bool :=
  match map_get "executionDisposition" (sd_metadata d) with
  | Some (JStr s) => s === "DEFERRED_CONFIRMATION"
  | _ => false
  end.

Definition submission_input (exchangeAccountId strategyDecisionId referencePriceCapturedAt : string)
    (d : StrategyDecision) (authority : option CandidateExecutionAuthority) (side : OrderSide)
    (ordType : OrderType) (price volume : option string) : SubmitOrderFromDecisionInput := {|
  ExecutionRecords.in_exchangeAccountId := exchangeAccountId;
  in_strategyDecisionId := Some strategyDecisionId;
  in_referencePriceCapturedAt := referencePriceCapturedAt;
  in_decision := d;
  in_side := side;
  in_ordType := ordType;
  in_price := price;
  in_volume := volume;
  in_origin := None;
  in_market := None;
  in_candidateAuthority := authority;
|}.

Definition toOrderSubmissionInput (exchangeAccountId strategyDecisionId : string)
    (d : StrategyDecision) (referencePriceCapturedAt : string)
    (authority : option CandidateExecutionAuthority) : outcome (option SubmitOrderFromDecisionInput) :=
  let order := submission_input exchangeAccountId strategyDecisionId referencePriceCapturedAt d
                 authority in
  if is_deferred d then Ret None
  else
    match StrategyCore.sd_action d with
    | Action.ENTER | Action.ADD =>
        match sd_requestedNotionalKrw d with
        | None => Ret None
        | Some notional =>
            if nleb notional zero then Ret None
            else price ← formatUpbitMarketBuyQuote notional;
                 Ret (Some (order Side.bid OrdType.price (Some price) None))
        end
    | Action.REDUCE | Action.EXIT =>
        Ret match sd_requestedQuantity d with
            | None => None
            | Some quantity =>
                if nleb quantity zero then None
                else Some (order Side.ask OrdType.market None (Some (formatDecimal quantity)))
            end
    | Action.HOLD => Ret None
    end.

(** The number a text stands for, where it is finite. *)
Definition finite_number (text : string) : option num :=
  let n := Number_of_string text in if is_finite n then Some n else None.

(** An empty text is none. *)
Definition nonempty_text (text : option string) : option string :=
  t ← text; if t === "" then None else Some t.

Definition derivePreviewNotionalKrw (d : StrategyDecision) (price volume : option string)
    : option num :=
  match sd_requestedNotionalKrw d with
  | Some notional => Some notional
  | None =>
      match nonempty_text volume ≫= finite_number with
      | Some volumeNumber => Some (nmul (sd_referencePrice d) volumeNumber)
      | None => nonempty_text price ≫= finite_number
      end
  end.

Definition toOrderPreview (i : SubmitOrderFromDecisionInput) : PositionGuardOrderPreview := {|
  pre_side := in_side i;
  pre_ordType := in_ordType i;
  pre_price := in_price i;
  pre_volume := in_volume i;
  pre_requestedNotionalKrw := derivePreviewNotionalKrw (in_decision i) (in_price i) (in_volume i);
  pre_requestedQuantity :=
    match sd_requestedQuantity (in_decision i) with
    | Some quantity => Some quantity
    | None => Number_of_string <$> nonempty_text (in_volume i)
    end;
|}.

Definition resolveReferencePriceCapturedAt (snapshot : PositionGuardMarketSnapshot)
    : outcome string :=
  let none := Throw ("No valid exchange reference-price timestamp is available for "
                     ++ Market.to_string (snap_market snapshot) ++ ".") in
  let by_text := match nonempty_text (tradeTimeUtc (ticker snapshot)) ≫= Date_parse with
                 | Some ms => Ret (toISOString ms)
                 | None => none
                 end in
  match exchangeTimestampMs (ticker snapshot) with
  | Some ms => if is_finite ms then number_toISOString ms else by_text
  | None => by_text
  end.

(** ** Receipts and states *)

Definition requireTimestamp (value label : string) : outcome unit :=
  _ ← requireNonEmpty value label; _ ← parseCandidatePilotTimestamp value label; Ret tt.

(** The keys of a record are those of its type. *)
Definition canonicalRefreshReceipt (r : PositionGuardPilotRefreshReceipt) (label : string)
    : outcome PositionGuardPilotRefreshReceipt :=
  _ ← requireNonEmpty (rcp_exchangeAccountId r) (label ++ " exchangeAccountId");
  _ ← requireTimestamp (rcp_requestedAt r) (label ++ " requestedAt");
  _ ← requireNonEmpty (rcp_balanceSnapshotId r) (label ++ " balanceSnapshotId");
  _ ← requireTimestamp (rcp_balanceCapturedAt r) (label ++ " balanceCapturedAt");
  _ ← requireNonEmpty (rcp_positionSnapshotId r) (label ++ " positionSnapshotId");
  _ ← requireTimestamp (rcp_positionCapturedAt r) (label ++ " positionCapturedAt");
  _ ← requireNonEmpty (rcp_reconciliationRunId r) (label ++ " reconciliationRunId");
  _ ← requireTimestamp (rcp_reconciliationStartedAt r) (label ++ " reconciliationStartedAt");
  _ ← requireTimestamp (rcp_reconciliationCompletedAt r) (label ++ " reconciliationCompletedAt");
  Ret r.

Definition requireNonNegativeSafeInteger (value : Z) (label : string) : outcome Z :=
  _ ← throw_if (negb (isSafeInteger value) || (value <? 0)%Z)
        (label ++ " must be a non-negative safe integer.");
  Ret value.

Definition requireNullableString (value : option string) (label : string) : outcome unit :=
  match value with None => Ret tt | Some text => requireNonEmpty text label end.

Definition canonicalExactCandidateState (s : ExactCandidateState) : outcome ExactCandidateState :=
  addCount ← requireNonNegativeSafeInteger (currentEpisodeAddCount s)
               "candidate currentEpisodeAddCount";
  costBasis ← canonicalNonNegativeDecimal (currentEpisodeCostBasisKrw s)
                "candidate currentEpisodeCostBasisKrw";
  inventory ← canonicalNonNegativeDecimal (currentEpisodeInventoryQuantity s)
                "candidate currentEpisodeInventoryQuantity";
  pnl ← canonicalSignedDecimal (currentEpisodeRealizedPnlKrw s)
          "candidate currentEpisodeRealizedPnlKrw";
  _ ← requireNullableString (lastFullExitAt s) "candidate lastFullExitAt";
  exitPnl ← match lastFullExitRealizedPnlKrw s with
            | None => Ret None
            | Some value => text ← canonicalSignedDecimal value "candidate lastFullExitRealizedPnlKrw";
                            Ret (Some text)
            end;
  _ ← requireNullableString (lastEvidenceAt s) "candidate lastEvidenceAt";
  _ ← requireNullableString (lastEvidenceId s) "candidate lastEvidenceId";
  version ← requireNonNegativeSafeInteger (stateVersion s) "candidate stateVersion";
  let state := {| currentEpisodeAddCount := addCount;
                  currentEpisodeCostBasisKrw := costBasis;
                  currentEpisodeInventoryQuantity := inventory;
                  currentEpisodeRealizedPnlKrw := pnl;
                  lastFullExitAt := lastFullExitAt s;
                  lastFullExitRealizedPnlKrw := exitPnl;
                  lastEntryPath := lastEntryPath s;
                  lastEvidenceAt := lastEvidenceAt s;
                  lastEvidenceId := lastEvidenceId s;
                  stateVersion := version |} in
  _ ← toPositionGuardCandidateRoutingState state;
  Ret state.

Definition canonicalActivation (value : option CandidateActivation)
    : outcome (option CandidateActivation) :=
  match value with
  | None => Ret None
  | Some activation =>
      _ ← requireNonEmpty (act_activationAt activation) "candidate activationAt";
      epochNs ← parseCandidatePilotTimestamp (act_activationAt activation) "candidate activationAt";
      _ ← throw_if (negb (epochNs =? act_activationEpochNs activation)%Z)
            "Candidate activation epoch does not match its timestamp.";
      Ret (Some activation)
  end.

Definition requirePilotReadyPhase (phase : PositionGuardPilotPhase)
    : outcome PositionGuardPilotPhase :=
  _ ← throw_if (phase === Phase.PAUSED_FAULT)
        "Verified BTC candidate phase must be PENDING_FLAT, ACTIVE, DRAINING, or DISABLED.";
  Ret phase.

(** [deployment] has the activation. *)
Definition same_activation (d : PositionGuardPilotDeploymentRecord) (a : CandidateActivation)
    : bool :=
  (dep_activationAt d === Some (act_activationAt a))
  && (dep_activationEpochNs d === Some (act_activationEpochNs a)).

Definition check_activation (d : PositionGuardPilotDeploymentRecord)
    (phase : PositionGuardPilotPhase) (activation : option CandidateActivation) : outcome unit :=
  let invalid := "Verified DISABLED BTC candidate authority activation provenance is invalid." in
  match phase with
  | Phase.ACTIVE | Phase.DRAINING =>
      throw_if (negb (from_option (same_activation d) false activation))
        ("Verified " ++ Phase.to_string phase
         ++ " BTC candidate authority requires exact activation provenance.")
  | Phase.PENDING_FLAT =>
      throw_if (activation !== None)
        "PENDING_FLAT BTC candidate authority cannot carry activation provenance."
  | Phase.DISABLED =>
      match activation with
      | None => throw_if ((dep_activationAt d !== None) || (dep_activationEpochNs d !== None)) invalid
      | Some a => throw_if (negb (same_activation d a)) invalid
      end
  | Phase.PAUSED_FAULT => Ret tt
  end.

(** The verification is of the configured pilot, which is of one identity. *)
Definition canonicalReadyVerification (v : ReadyVerification)
    (selection : PositionGuardPolicySelection) (exchangeAccountId : string)
    (runReceipt : PositionGuardPilotRefreshReceipt) : outcome ReadyVerification :=
  _ ← throw_if (match selection with SelectBaseline => true | SelectBtcCandidatePilot => false end)
        "Candidate verification requires the exact BTC candidate selection.";
  deployment ← validateCandidatePilotDeployment (ver_deployment v);
  phase ← requirePilotReadyPhase (ver_phase v);
  activation ← canonicalActivation (ver_activation v);
  state ← canonicalExactCandidateState (ver_state v);
  stateVersion ← requireNonNegativeSafeInteger (ver_stateVersion v)
                   "verified BTC candidate stateVersion";
  receipt ← canonicalRefreshReceipt runReceipt "candidate run refresh receipt";
  refreshProvenance ← canonicalRefreshReceipt (ver_refreshProvenance v)
                        "verified BTC candidate refresh provenance";
  _ ← throw_if
        ((dep_exchangeAccountId deployment !== exchangeAccountId)
         || (dep_exchangeAccountId deployment !== rcp_exchangeAccountId receipt)
         || (dep_pilotId deployment !== "BTC_COMBINED_CONSERVATIVE_PILOT_V1")
         || (dep_market deployment !== "KRW-BTC")
         || (dep_policyId deployment !== "COMBINED_CONSERVATIVE")
         || (dep_policyVersion deployment !== "PCS-2026-001.DEPLOYMENT_READINESS_V1")
         || (dep_phase deployment !== phase)
         || negb (stateVersion =? ExactState.stateVersion state)%Z)
        "Verified BTC candidate authority does not match the configured run identity.";
  _ ← throw_if (receipt !== refreshProvenance)
        "Verified BTC candidate refresh provenance does not match the exact run receipt.";
  _ ← check_activation deployment phase activation;
  Ret {| ver_deployment := deployment; ver_phase := phase; ver_activation := activation;
         ver_state := state; ver_stateVersion := stateVersion;
         ver_refreshProvenance := refreshProvenance |}.

(** ** The authority of a candidate's order *)

Definition authority_reason (r : RouteReason) : AuthorityReason.RouteReason :=
  match r with
  | Route.CANDIDATE_EARLY_THESIS_FAILURE => AuthorityReason.CANDIDATE_EARLY_THESIS_FAILURE
  | Route.DRAINING_RISK_REDUCTION_PRESERVED => AuthorityReason.DRAINING_RISK_REDUCTION_PRESERVED
  | _ => AuthorityReason.CANDIDATE_ALLOWED
  end.

Definition verified_in (verification : option ReadyVerification) (phase : PositionGuardPilotPhase)
    (route : PositionGuardPolicyRouteResult) : bool :=
  ((ver_phase <$> verification) === Some phase) && (rr_pilotPhase route === phase).

Definition activeAuthority (verification : option ReadyVerification)
    (route : PositionGuardPolicyRouteResult) (d : StrategyDecision) : bool :=
  verified_in verification Phase.ACTIVE route
  && ((rr_reasonCode route === Route.CANDIDATE_ALLOWED)
      || (rr_reasonCode route === Route.CANDIDATE_EARLY_THESIS_FAILURE))
  && ((rr_reasonCode route !== Route.CANDIDATE_EARLY_THESIS_FAILURE)
      || (StrategyCore.sd_action d === Action.EXIT)).

Definition drainingAuthority (verification : option ReadyVerification)
    (route : PositionGuardPolicyRouteResult) (d : StrategyDecision) : bool :=
  verified_in verification Phase.DRAINING route
  && (rr_reasonCode route === Route.DRAINING_RISK_REDUCTION_PRESERVED)
  && ((StrategyCore.sd_action d === Action.REDUCE) || (StrategyCore.sd_action d === Action.EXIT)).

Definition authority_of (v : ReadyVerification) (a : CandidateActivation) (phase : BoundPhase)
    (reason : AuthorityReason.RouteReason) : CandidateExecutionAuthority :=
  let deployment := ver_deployment v in
  {| auth_kind := "POSITION_GUARD_BTC_CANDIDATE";
     auth_deploymentId := dep_id deployment;
     auth_exchangeAccountId := dep_exchangeAccountId deployment;
     auth_pilotId := dep_pilotId deployment;
     auth_market := dep_market deployment;
     auth_strategyKey := "position_guard.paper_core.v1";
     auth_policyId := dep_policyId deployment;
     auth_policyVersion := dep_policyVersion deployment;
     auth_activationAt := act_activationAt a;
     auth_activationEpochNs := act_activationEpochNs a;
     auth_expectedPhase := phase;
     auth_expectedDeploymentUpdatedAt := dep_updatedAt deployment;
     auth_expectedStateVersion := ver_stateVersion v;
     auth_routeReason := reason |}.

Definition candidateExecutionAuthority (verification : option ReadyVerification)
    (route : PositionGuardPolicyRouteResult) (d : StrategyDecision)
    : option CandidateExecutionAuthority :=
  v ← verification;
  activation ← ver_activation v;
  let draining := drainingAuthority verification route d in
  if executionBlocked route || (StrategyCore.sd_action d === Action.HOLD) || is_deferred d
     || (negb (activeAuthority verification route d) && negb draining)
  then None
  else Some (if draining
             then authority_of v activation BOUND_DRAINING
                    AuthorityReason.DRAINING_RISK_REDUCTION_PRESERVED
             else authority_of v activation BOUND_ACTIVE (authority_reason (rr_reasonCode route))).

(** ** What is stored *)

(** The decision of the engine with what it was made from. *)
Record BuiltDecision := {
  bd_strategyDecision : StrategyDecision;
  bd_engineDecision : PositionGuardEngineDecision;
  bd_context : PositionGuardStrategyContext;
  bd_market_analysis : PositionGuardMarketStructureAnalysis;
  bd_referencePriceCapturedAt : string;
}.

Definition receipt_json (r : PositionGuardPilotRefreshReceipt) : json := JObj [
  ("exchangeAccountId", JStr (rcp_exchangeAccountId r));
  ("requestedAt", JStr (rcp_requestedAt r));
  ("balanceSnapshotId", JStr (rcp_balanceSnapshotId r));
  ("balanceCapturedAt", JStr (rcp_balanceCapturedAt r));
  ("positionSnapshotId", JStr (rcp_positionSnapshotId r));
  ("positionCapturedAt", JStr (rcp_positionCapturedAt r));
  ("reconciliationRunId", JStr (rcp_reconciliationRunId r));
  ("reconciliationStartedAt", JStr (rcp_reconciliationStartedAt r));
  ("reconciliationCompletedAt", JStr (rcp_reconciliationCompletedAt r));
  ("reconciliationSource", JStr "SCHEDULER_PREFLIGHT")].

Definition route_audit_json (selection : PositionGuardPolicySelection)
    (baseline effective : StrategyDecision) (route : PositionGuardPolicyRouteResult)
    (verification : option ReadyVerification) : json :=
  let deployment_text (f : PositionGuardPilotDeploymentRecord -> string) :=
    opt_text_json ((fun v => f (ver_deployment v)) <$> verification) in
  JObj [
  ("schemaVersion", JStr "POSITION_GUARD_POLICY_ROUTE_AUDIT_V1");
  ("configuredSelection", selection_json selection);
  ("resolvedSelection", JStr (selection_text (rr_selection route)));
  ("baselineDecision", engine_decision_json (rr_baselineDecision route));
  ("baselineStrategyDecision", strategy_decision_json baseline);
  ("candidateEvaluation", from_option evaluation_json JNull (rr_candidateEvaluation route));
  ("effectiveDecision", engine_decision_json (rr_effectiveDecision route));
  ("effectiveStrategyDecision", strategy_decision_json effective);
  ("executionBlocked", JBool (executionBlocked route));
  ("executionDecision", from_option engine_decision_json JNull (executionDecision route));
  ("deploymentId", deployment_text dep_id);
  ("pilotId", deployment_text dep_pilotId);
  ("policyId", deployment_text dep_policyId);
  ("policyVersion", deployment_text dep_policyVersion);
  ("phase", JStr (Phase.to_string (rr_pilotPhase route)));
  ("activationAt", opt_text_json (act_activationAt <$> (verification ≫= ver_activation)));
  ("stateVersion", opt_int_json (rr_stateVersion route));
  ("reasonCode", JStr (route_reason_text (rr_reasonCode route)));
  ("refreshProvenance", from_option receipt_json JNull (ver_refreshProvenance <$> verification))].

(** [JSON.parse(JSON.stringify(audit))] *)
Definition createPolicyRouteAudit (audit : json) : outcome json :=
  match JSON_parse (stringify audit) with
  | Some copy => Ret copy
  | None => Throw "Unexpected token in JSON"
  end.

Definition decision_status (d : StrategyDecision) (engine : PositionGuardEngineDecision)
    : Decided.StrategyDecisionStatus :=
  if executionDisposition engine === Disposition.DEFERRED_CONFIRMATION
  then Decided.PENDING_CONFIRMATION
  else if StrategyCore.sd_action d === Action.HOLD then Decided.NO_ACTION else Decided.READY.

Definition decision_basis (d : StrategyDecision) (engine : PositionGuardEngineDecision)
    (m : PositionGuardMarketStructureAnalysis) (c : PositionGuardStrategyContext)
    (policyRoute : option json) : json := JObj
  ([("strategyDecision", strategy_decision_json d);
    ("engineDecision", engine_decision_json engine);
    ("context", context_json m c);
    ("metadata", JObj (sd_metadata d))]
   ++ match policyRoute with Some audit => [("policyRoute", audit)] | None => [] end)%list.

(** The record with its identifier. *)
Definition createStrategyDecisionRecord (exchangeAccountId generatedAt : string)
    (d : StrategyDecision) (engine : PositionGuardEngineDecision)
    (m : PositionGuardMarketStructureAnalysis) (c : PositionGuardStrategyContext)
    (policyRoute : option json) (id : string) : outcome StrategyDecisionRecord :=
  intendedNotionalKrw ← match sd_requestedNotionalKrw d with
                        | None => Ret None
                        | Some notional => text ← formatUpbitMarketBuyQuote notional; Ret (Some text)
                        end;
  Ret {| sd_id := id;
         sd_exchangeAccountId := exchangeAccountId;
         OrderRecords.sd_strategyKey := StrategyCore.sd_strategyKey d;
         OrderRecords.sd_market := StrategyCore.sd_market d;
         OrderRecords.sd_action := StrategyCore.sd_action d;
         sd_status := decision_status d engine;
         sd_decisionBasisJson := stringify (decision_basis d engine m c policyRoute);
         sd_intendedNotionalKrw := intendedNotionalKrw;
         sd_intendedQuantity := num_to_string <$> sd_requestedQuantity d;
         OrderRecords.sd_referencePrice := Some (num_to_string (StrategyCore.sd_referencePrice d));
         sd_createdAt := generatedAt |}.

(** ** The runner *)

Section Runner.
Context (localeCompare : string -> string -> comparison) (deps : RunnerDependencies).

Definition account : string := cfg_exchangeAccountId (rn_config deps).

Definition assertLocallyHeld : runner unit :=
  if rn_hasRuntimeOwnership deps then await Run.AssertLocallyHeld
  else throw (JsError (RuntimeOwnershipGuardError OwnershipCode.RUNTIME_OWNERSHIP_NOT_HELD
    "RUNTIME_OWNERSHIP_NOT_HELD: Runtime ownership is unavailable in this composition.")).

(** The value of a promise that was settled. *)
Definition settled {A} (r : result run_error A) : runner A :=
  match r with Ok v => mret v | Err x => throw x end.

Definition fetchPositionGuardMarketSnapshot (input : PositionGuardRunInput)
    : runner PositionGuardMarketSnapshot :=
  let market := run_market input in
  let count := cfg_candleCount (rn_config deps) in
  candleTo ← run_lift (candle_end (run_generatedAt input) (run_candleTo input));
  tickers ← attempt (await (Run.GetTickers [market]));
  oneHour ← attempt (await (Run.GetMinuteCandles market 60 count (h1 candleTo)));
  fourHour ← attempt (await (Run.GetMinuteCandles market 240 count (h4 candleTo)));
  oneDay ← attempt (await (Run.GetDayCandles market count (d1 candleTo)));
  tickers ← settled tickers;
  oneHour ← settled oneHour;
  fourHour ← settled fourHour;
  oneDay ← settled oneDay;
  run_lift (snapshot_of_answers market (run_generatedAt input) tickers oneHour fourHour oneDay).

Definition loadPositionGuardStrategyContext (input : PositionGuardRunInput)
    (analysis : PositionGuardStructureAnalysis) : runner PositionGuardStrategyContext :=
  let market := run_market input in
  balanceSnapshot ← attempt (await (Run.GetLatestBalanceSnapshot account));
  positionSnapshot ← attempt (await (Run.GetLatestPositionSnapshot account));
  portfolio ← attempt (await (Run.GetPortfolioExposure account));
  latestDecision ← attempt (await (Run.GetLatestStrategyDecision account market
                                     POSITION_GUARD_STRATEGY_KEY));
  orders ← attempt (await (Run.ListOrders account));
  balanceSnapshot ← settled balanceSnapshot;
  positionSnapshot ← settled positionSnapshot;
  portfolio ← settled portfolio;
  latestDecision ← settled latestDecision;
  orders ← settled orders;
  run_lift (buildPositionGuardStrategyContext localeCompare {|
    ci_market := market;
    ci_generatedAt := run_generatedAt input;
    ci_analysis := analysis;
    ci_settings := Some (cfg_settings (rn_config deps));
    ci_balanceSnapshotJson := bal_balancesJson <$> balanceSnapshot;
    ci_positionSnapshotJson := pos_positionsJson <$> positionSnapshot;
    ci_portfolio := portfolio;
    ci_latestDecisionRecord := latestDecision;
    ci_orders := orders |}).

Definition buildDecision (input : PositionGuardRunInput) : runner BuiltDecision :=
  snapshot ← fetchPositionGuardMarketSnapshot input;
  _ ← assertLocallyHeld;
  let preliminary := analyzePositionGuardMarketStructure snapshot zero in
  context ← loadPositionGuardStrategyContext input (structure_analysis preliminary);
  _ ← assertLocallyHeld;
  let engineDecision := decidePositionGuardCore context in
  referencePriceCapturedAt ← run_lift (resolveReferencePriceCapturedAt snapshot);
  mret {| bd_strategyDecision := toStrategyDecision context engineDecision;
          bd_engineDecision := engineDecision;
          bd_context := context;
          bd_market_analysis := preliminary;
          bd_referencePriceCapturedAt := referencePriceCapturedAt |}.

Definition verifyCandidateRun (input : PositionGuardRunInput)
    (selection : PositionGuardPolicySelection) : runner ReadyVerification :=
  match run_refreshReceipt input with
  | None => fail "A verified BTC candidate run requires an exact refresh receipt."
  | Some receipt =>
      _ ← (if rn_hasCandidateRunVerifier deps then mret tt
           else fail "A verified BTC candidate run requires a candidate verifier.");
      verification ← await (Run.VerifyAndPrepareBtcRun receipt);
      match verification with
      | BLOCKED_FAULT reasonCode faultId =>
          throw (PositionGuardCandidateRunBlockedError reasonCode faultId)
      | READY v => run_lift (canonicalReadyVerification v selection account receipt)
      end
  end.

(** The decision is stored and, where it has an order, submitted. *)
Definition persist_and_submit (input : PositionGuardRunInput) (built : BuiltDecision)
    (strategyDecision : StrategyDecision) (engineDecision : PositionGuardEngineDecision)
    (policyRoute : option json) (executed : option StrategyDecision)
    (authority : option CandidateExecutionAuthority) : runner PositionGuardRunResult :=
  id ← await (Run.CreateId "strategy_decision");
  record ← run_lift (createStrategyDecisionRecord account (run_generatedAt input) strategyDecision
                       engineDecision (bd_market_analysis built) (bd_context built) policyRoute id);
  _ ← await (Run.SaveStrategyDecision record);
  _ ← assertLocallyHeld;
  orderInput ← run_lift
    match executed with
    | None => Ret None
    | Some d => toOrderSubmissionInput account (sd_id record) d (bd_referencePriceCapturedAt built)
                  authority
    end;
  submission ← match orderInput with
               | None => mret None
               | Some order =>
                   answer ← await (Run.SubmitOrderFromDecision order); mret (Some answer)
               end;
  mret {| ran_strategyDecisionRecord := record;
          ran_strategyDecision := strategyDecision;
          ran_engineDecision := engineDecision;
          ran_context := bd_context built;
          ran_submission := submission |}.

Definition persistAndExecuteBaseline (input : PositionGuardRunInput) (built : BuiltDecision)
    : runner PositionGuardRunResult :=
  persist_and_submit input built (bd_strategyDecision built) (bd_engineDecision built) None
    (Some (bd_strategyDecision built)) None.

(** What the router is asked. *)
Definition route_input (input : PositionGuardRunInput) (built : BuiltDecision)
    (selection : PositionGuardPolicySelection) (verification : option ReadyVerification)
    (state : option CandidateState.PositionGuardCandidateState) : PositionGuardPolicyRouteInput := {|
  ri_market := run_market input;
  ri_generatedAt := run_generatedAt input;
  ri_baselineDecision := bd_engineDecision built;
  ri_selection := selection_json selection;
  ri_pilotPhase := default Phase.DISABLED (ver_phase <$> verification);
  ri_candidateState := state;
  ri_positionQuantity := positionQuantity (bd_context built);
  ri_averageEntryPrice := ctx_averageEntryPrice (bd_context built);
  ri_analysis := analysis (bd_context built);
|}.

Definition routing_state (verification : option ReadyVerification)
    : outcome (option CandidateState.PositionGuardCandidateState) :=
  match verification with
  | None => Ret None
  | Some v => state ← toPositionGuardCandidateRoutingState (ver_state v); Ret (Some state)
  end.

(** A run under the selection of the pilot. *)
Definition run_pilot (input : PositionGuardRunInput) (built : BuiltDecision)
    (selection : PositionGuardPolicySelection) : runner PositionGuardRunResult :=
  verification ← (if run_market input === Market.KRW_BTC
                  then v ← verifyCandidateRun input selection; mret (Some v) else mret None);
  _ ← assertLocallyHeld;
  state ← run_lift (routing_state verification);
  route ← run_lift (default routePositionGuardPolicy (rn_policyRouter deps)
                      (route_input input built selection verification state));
  let effective := toStrategyDecision (bd_context built) (rr_effectiveDecision route) in
  let executed := toStrategyDecision (bd_context built) <$> executionDecision route in
  let authority := executed ≫= candidateExecutionAuthority verification route in
  audit ← run_lift (createPolicyRouteAudit
    (route_audit_json selection (bd_strategyDecision built) effective route verification));
  persist_and_submit input built effective (rr_effectiveDecision route) (Some audit)
    (if executionBlocked route then None else executed) authority.

Definition runOnce (input : PositionGuardRunInput) : runner PositionGuardRunResult :=
  _ ← assertLocallyHeld;
  built ← buildDecision input;
  _ ← assertLocallyHeld;
  match default SelectBaseline (rn_policySelection deps) with
  | SelectBaseline => persistAndExecuteBaseline input built
  | SelectBtcCandidatePilot => run_pilot input built SelectBtcCandidatePilot
  end.

(** The decision of a preview and its order, which is not submitted. *)
Definition previewOnce (input : PositionGuardRunInput)
    : runner (BuiltDecision * option PositionGuardOrderPreview) :=
  built ← buildDecision input;
  order ← run_lift (toOrderSubmissionInput account "preview" (bd_strategyDecision built)
                      (bd_referencePriceCapturedAt built) None);
  mret (built, toOrderPreview <$> order).

End Runner.
