(* ===== verification/RunnerTheory.v ===== *)
(** * RunnerTheory: what every run of the strategy keeps to

    Whatever the market, the account and the verifier answer: a run submits at
    most one order, last, for the decision it stored, which is the engine's on
    the data read in this run or what the route of the pilot makes of it; its
    buys fit the capacities of that data; and an order of the pilot carries the
    authority of the verified deployment. *)

From Stdlib Require Import ZArith Lia.
From stdpp Require Import base option list strings.
From S2P Require Import Prelude Num Types Text Timestamp NumText JsMap Json Decimals Risk.
From S2P Require Import CandidateState ExactState PilotRecords OrderRecords CandidateAuthority.
From S2P Require Import Effects ExecutionRecords ReconciliationRecords ReconciliationHelpers.
From S2P Require Import StrategyCore MarketStructure CandidatePolicy PolicyRouter.
From S2P Require Import StrategyContext StrategyJson Runner.

Local Open Scope string_scope.
Local Open Scope js_scope.
Local Open Scope bool_scope.

(** ** Calls *)

Abbreviation event := (Effects.event Run.call run_error).
Abbreviation history := (list event).

Definition is_identifier {B} (e : Run.call B) : bool :=
  match e with Run.CreateId _ => true | _ => false end.

Definition is_assertion {B} (e : Run.call B) : bool :=
  match e with Run.AssertLocallyHeld => true | _ => false end.

(** The calls that prepare the pilot, store the decision or trade. *)
Definition guarded {B} (e : Run.call B) : bool :=
  match e with
  | Run.VerifyAndPrepareBtcRun _ | Run.SaveStrategyDecision _ | Run.SubmitOrderFromDecision _ => true
  | _ => false
  end.

Definition is_submission (ev : event) : bool :=
  match ev with Asked (Run.SubmitOrderFromDecision _) _ => true | _ => false end.

(** Identifiers do not throw. *)
Definition may_answer (B : Type) (e : Run.call B) (r : result run_error B) : Prop :=
  match r with Ok _ => True | Err _ => is_identifier e = false end.

(** The newest call but identifiers was an assertion that succeeded. *)
Fixpoint held (h : history) : bool :=
  match h with
  | [] => false
  | Asked e r :: h' =>
      if is_identifier e then held h'
      else is_assertion e && match r with Ok _ => true | Err _ => false end
  end.

Definition answered_as {B} (e : Run.call B) (v : B) (ev : event) : Prop := ev = Asked e (Ok v).

Abbreviation held_now := (Asked Run.AssertLocallyHeld (Ok tt) : event).

Definition no_submission (h : history) : Prop := Forall (fun ev => is_submission ev = false) h.

(** ** What a run reads *)

Section Guarantees.
Context (localeCompare : string -> string -> comparison) (deps : RunnerDependencies).
Context (input : PositionGuardRunInput).

Abbreviation account := (Runner.account deps).
Abbreviation count := (cfg_candleCount (rn_config deps)).

(** The snapshot of the ticker and the candles that were answered. *)
Definition market_read (snapshot : PositionGuardMarketSnapshot) (h : history) : Prop :=
  exists candleTo tickers oneHour fourHour oneDay,
    candle_end (run_generatedAt input) (run_candleTo input) = Ret candleTo /\
    happened [answered_as (Run.GetDayCandles (run_market input) count (d1 candleTo)) oneDay;
              answered_as (Run.GetMinuteCandles (run_market input) 240 count (h4 candleTo)) fourHour;
              answered_as (Run.GetMinuteCandles (run_market input) 60 count (h1 candleTo)) oneHour;
              answered_as (Run.GetTickers [run_market input]) tickers] h /\
    snapshot_of_answers (run_market input) (run_generatedAt input) tickers oneHour fourHour oneDay
    = Ret snapshot.

(** The context of the account that was read. *)
Definition account_read (analysis : PositionGuardStructureAnalysis)
    (context : PositionGuardStrategyContext) (h : history) : Prop :=
  exists balance position portfolio latest orders,
    happened [answered_as (Run.ListOrders account) orders;
              answered_as (Run.GetLatestStrategyDecision account (run_market input)
                             POSITION_GUARD_STRATEGY_KEY) latest;
              answered_as (Run.GetPortfolioExposure account) portfolio;
              answered_as (Run.GetLatestPositionSnapshot account) position;
              answered_as (Run.GetLatestBalanceSnapshot account) balance] h /\
    buildPositionGuardStrategyContext localeCompare {|
      ci_market := run_market input;
      ci_generatedAt := run_generatedAt input;
      ci_analysis := analysis;
      ci_settings := Some (cfg_settings (rn_config deps));
      ci_balanceSnapshotJson := bal_balancesJson <$> balance;
      ci_positionSnapshotJson := pos_positionsJson <$> position;
      ci_portfolio := portfolio;
      ci_latestDecisionRecord := latest;
      ci_orders := orders |} = Ret context.

(** The decision the engine makes on the market and the account. *)
Definition built_from (built : BuiltDecision) (h : history) : Prop :=
  exists snapshot,
    market_read snapshot h /\
    bd_market_analysis built = analyzePositionGuardMarketStructure snapshot zero /\
    account_read (structure_analysis (bd_market_analysis built)) (bd_context built) h /\
    bd_engineDecision built = decidePositionGuardCore (bd_context built) /\
    bd_strategyDecision built = toStrategyDecision (bd_context built) (bd_engineDecision built) /\
    resolveReferencePriceCapturedAt snapshot = Ret (bd_referencePriceCapturedAt built).

(** The verification of this run's receipt. *)
Definition verified (v : ReadyVerification) (h : history) : Prop :=
  exists receipt answer,
    run_refreshReceipt input = Some receipt /\
    happened [answered_as (Run.VerifyAndPrepareBtcRun receipt) (READY answer)] h /\
    canonicalReadyVerification answer SelectBtcCandidatePilot account receipt = Ret v.

(** What the pilot's route makes of the engine's decision. *)
Definition routed (built : BuiltDecision) (verification : option ReadyVerification)
    (route : PositionGuardPolicyRouteResult) (h : history) : Prop :=
  match verification with
  | Some v => run_market input = Market.KRW_BTC /\ verified v h
  | None => run_market input = Market.KRW_ETH
  end /\
  exists state, routing_state verification = Ret state /\
    default routePositionGuardPolicy (rn_policyRouter deps)
      (route_input input built SelectBtcCandidatePilot verification state) = Ret route.

(** The decision that is stored, the one that is executed, if any, and under
    which authority. *)
Inductive decides (h : history) (built : BuiltDecision) : StrategyDecision ->
    PositionGuardEngineDecision -> option StrategyDecision -> option CandidateExecutionAuthority ->
    Prop :=
| decides_baseline :
    default SelectBaseline (rn_policySelection deps) = SelectBaseline ->
    decides h built (bd_strategyDecision built) (bd_engineDecision built)
      (Some (bd_strategyDecision built)) None
| decides_pilot verification route :
    default SelectBaseline (rn_policySelection deps) = SelectBtcCandidatePilot ->
    routed built verification route h ->
    let executed := toStrategyDecision (bd_context built) <$> executionDecision route in
    decides h built (toStrategyDecision (bd_context built) (rr_effectiveDecision route))
      (rr_effectiveDecision route) (if executionBlocked route then None else executed)
      (executed ≫= candidateExecutionAuthority verification route).

Lemma decides_later h h' built d e x a :
  (forall Ps : list (event -> Prop), happened Ps h -> happened Ps h') ->
  decides h built d e x a -> decides h' built d e x a.
Proof.
  intros Hh H. destruct H as [Hs|verification route Hs Hr]; [by apply decides_baseline|].
  apply decides_pilot; [done|]. destruct Hr as [Hv Hr]. split; [|done].
  destruct verification as [v|]; [|done]. destruct Hv as [Hm (receipt & answer & Hin & Hhap & Hc)].
  split; [done|]. exists receipt, answer. auto.
Qed.

Lemma built_later h h' built :
  (forall Ps : list (event -> Prop), happened Ps h -> happened Ps h') ->
  built_from built h -> built_from built h'.
Proof.
  intros Hh (s & (cT & t & oh & fh & od & Hc & Hhap & Hs) & Hm & (b & p & pf & l & o & Hhap' & Ha) & Hr).
  exists s. split; [exists cT, t, oh, fh, od; auto|]. split; [done|]. split; [|done].
  exists b, p, pf, l, o. auto.
Qed.

(** ** What a call is made for *)

(** The record of the decision, of whatever audit of its route. *)
Definition recorded (built : BuiltDecision) (d : StrategyDecision)
    (engine : PositionGuardEngineDecision) (record : StrategyDecisionRecord) : Prop :=
  exists policyRoute id,
    createStrategyDecisionRecord account (run_generatedAt input) d engine (bd_market_analysis built)
      (bd_context built) policyRoute id = Ret record.

Definition justified {B} (e : Run.call B) (h : history) : Prop :=
  match e with
  | Run.SaveStrategyDecision record => exists built d engine x a,
      built_from built h /\ decides h built d engine x a /\ recorded built d engine record
  | Run.SubmitOrderFromDecision order => no_submission h /\ exists built d engine x a record,
      built_from built h /\ decides h built d engine (Some x) a /\ recorded built d engine record /\
      happened [answered_as (Run.SaveStrategyDecision record) tt] h /\
      toOrderSubmissionInput account (sd_id record) x (bd_referencePriceCapturedAt built) a
      = Ret (Some order)
  | _ => True
  end.

Definition permitted (h : history) (B : Type) (e : Run.call B) : Prop :=
  (guarded e = true -> held h = true) /\ justified e h.

(** What holds when a value is returned. *)
Definition returning {A} (P : A -> history -> Prop) (r : result run_error A) (h : history) : Prop :=
  match r with Ok v => P v h | Err _ => True end.

Abbreviation works m P h :=
  (wp may_answer permitted m (fun _ r h' => returning P r h') tt h).

(** ** Steps *)

Lemma step_bind {A B} (m : runner A) (k : A -> runner B) (P : A -> history -> Prop)
    (Q : B -> history -> Prop) h :
  works m P h -> (forall v h', P v h' -> works (k v) Q h') -> works (v ← m; k v) Q h.
Proof.
  intros Hm Hk. apply wp_bind. eapply wp_mono; [|exact Hm]. intros [] [v|x] h'; [apply Hk|done].
Qed.

Lemma works_weaken {A} (m : runner A) (P Q : A -> history -> Prop) h :
  (forall v h', P v h' -> Q v h') -> works m P h -> works m Q h.
Proof. intros HPQ. apply wp_mono. intros [] [v|x] h'; [apply HPQ|done]. Qed.

Lemma step_await {A B} (e : Run.call A) (k : A -> runner B) (Q : B -> history -> Prop) h :
  permitted h A e -> (forall v, works (k v) Q (Asked e (Ok v) :: h)) ->
  works (v ← await e; k v) Q h.
Proof. intros Hp Hk. apply wp_bind, wp_await; [done|]. intros [v|x] _; [apply Hk|done]. Qed.

Lemma step_attempt {A B} (e : Run.call A) (k : result run_error A -> runner B)
    (Q : B -> history -> Prop) h :
  permitted h A e -> (forall r, works (k r) Q (Asked e r :: h)) ->
  works (r ← attempt (await e); k r) Q h.
Proof. intros Hp Hk. apply wp_bind, wp_attempt, wp_await; [done|]. intros r _. apply Hk. Qed.

Lemma step_settled {A B} (r : result run_error A) (k : A -> runner B) (Q : B -> history -> Prop) h :
  (forall v, r = Ok v -> works (k v) Q h) -> works (v ← settled r; k v) Q h.
Proof. intros Hk. apply wp_bind. destruct r as [v|x]; [by apply Hk|done]. Qed.

Lemma step_lift {A B} (o : outcome A) (k : A -> runner B) (Q : B -> history -> Prop) h :
  (forall v, o = Ret v -> works (k v) Q h) -> works (v ← run_lift o; k v) Q h.
Proof. intros Hk. apply wp_bind, wp_lift; [intros v Hv; by apply Hk|done]. Qed.

Lemma step_held {B} (k : runner B) (Q : B -> history -> Prop) h :
  works k Q (held_now :: h) -> works (_ ← assertLocallyHeld deps; k) Q h.
Proof.
  intros Hk. unfold assertLocallyHeld. destruct (rn_hasRuntimeOwnership deps); [|done].
  apply step_await; [by split|]. by intros [].
Qed.

Ltac quiet := repeat first [assumption | apply Forall_cons_2; [reflexivity|]].

(** ** Reading *)

Lemma fetch_works h :
  no_submission h ->
  works (fetchPositionGuardMarketSnapshot deps input)
    (fun snapshot h' => no_submission h' /\ market_read snapshot h') h.
Proof.
  intros Hn. unfold fetchPositionGuardMarketSnapshot. cbv zeta.
  apply step_lift. intros candleTo Hc.
  apply step_attempt; [by split|]. intros tickers.
  apply step_attempt; [by split|]. intros oneHour.
  apply step_attempt; [by split|]. intros fourHour.
  apply step_attempt; [by split|]. intros oneDay.
  apply step_settled. intros t ->. apply step_settled. intros oh ->.
  apply step_settled. intros fh ->. apply step_settled. intros od ->.
  apply wp_lift; [|done]. intros snapshot Hs. split; [quiet|].
  exists candleTo, t, oh, fh, od. split; [done|]. split; [|done]. seen.
Qed.

Lemma load_works analysis h :
  no_submission h ->
  works (loadPositionGuardStrategyContext localeCompare deps input analysis)
    (fun context h' => no_submission h' /\ account_read analysis context h') h.
Proof.
  intros Hn. unfold loadPositionGuardStrategyContext. cbv zeta.
  apply step_attempt; [by split|]. intros balance.
  apply step_attempt; [by split|]. intros position.
  apply step_attempt; [by split|]. intros portfolio.
  apply step_attempt; [by split|]. intros latest.
  apply step_attempt; [by split|]. intros orders.
  apply step_settled. intros b ->. apply step_settled. intros p ->.
  apply step_settled. intros pf ->. apply step_settled. intros l ->. apply step_settled. intros o ->.
  apply wp_lift; [|done]. intros context Hctx. split; [quiet|].
  exists b, p, pf, l, o. split; [|done]. seen.
Qed.

(** What was read stays read. *)
Lemma grows_keeps {A} (m : runner A) (P : A -> history -> Prop) h :
  works m P h ->
  works m (fun v h' => (forall Ps : list (event -> Prop), happened Ps h -> happened Ps h') /\ P v h') h.
Proof.
  intros H. eapply wp_mono; [|apply wp_grows, H]. intros [] [v|x] h' [[t ->] HP]; [|done].
  split; [|done]. intros Ps. apply happened_app.
Qed.

Lemma build_works h :
  no_submission h ->
  works (buildDecision localeCompare deps input)
    (fun built h' => no_submission h' /\ built_from built h') h.
Proof.
  intros Hn. unfold buildDecision. eapply step_bind; [by apply fetch_works|].
  intros snapshot h1 [Hn1 Hm]. apply step_held. cbv zeta.
  eapply step_bind; [apply grows_keeps, load_works; quiet|].
  intros context h2 [Hg [Hn2 Ha]]. apply step_held. apply step_lift. intros captured Hcap.
  apply wp_ret. split; [quiet|].
  apply (built_later h2); [intros Ps; apply happened_before|].
  exists snapshot. cbn. split_and!; try done.
  destruct Hm as (cT & t & oh & fh & od & Hc & Hhap & Hs). exists cT, t, oh, fh, od.
  split; [done|]. split; [|done]. by apply Hg, happened_before.
Qed.

(** ** Storing and submitting *)

Definition submitted (built : BuiltDecision) (res : PositionGuardRunResult) (h : history) : Prop :=
  built_from built h /\
  exists x a, decides h built (ran_strategyDecision res) (ran_engineDecision res) x a /\
    recorded built (ran_strategyDecision res) (ran_engineDecision res) (ran_strategyDecisionRecord res) /\
    happened [answered_as (Run.SaveStrategyDecision (ran_strategyDecisionRecord res)) tt] h /\
    ran_context res = bd_context built /\
    match ran_submission res with
    | None => no_submission h /\
        match x with
        | None => True
        | Some d => toOrderSubmissionInput account (sd_id (ran_strategyDecisionRecord res)) d
                      (bd_referencePriceCapturedAt built) a = Ret None
        end
    | Some answer => exists order d, x = Some d /\
        toOrderSubmissionInput account (sd_id (ran_strategyDecisionRecord res)) d
          (bd_referencePriceCapturedAt built) a = Ret (Some order) /\
        head h = Some (Asked (Run.SubmitOrderFromDecision order) (Ok answer))
    end.

Lemma persist_works built d engine policyRoute x a h :
  held h = true -> no_submission h -> built_from built h -> decides h built d engine x a ->
  works (persist_and_submit deps input built d engine policyRoute x a)
    (fun res h' => submitted built res h') h.
Proof.
  intros Hh Hn Hb Hd. unfold persist_and_submit.
  apply step_await; [by split|]. intros id.
  apply step_lift. intros record Hrec.
  assert (Hrecd : recorded built d engine record) by (by exists policyRoute, id).
  set (h1 := _ :: h).
  assert (Hg1 : forall Ps : list (event -> Prop), happened Ps h -> happened Ps h1)
    by (intros Ps; apply happened_before).
  apply step_await.
  { split; [done|]. exists built, d, engine, x, a. split_and!; [by eapply built_later| |done].
    by eapply decides_later. }
  intros []. apply step_held. set (h2 := _ :: _ :: h1).
  assert (Hg2 : forall Ps : list (event -> Prop), happened Ps h -> happened Ps h2)
    by (intros Ps HP; by apply happened_before, happened_before, Hg1).
  assert (Hsave : happened [answered_as (Run.SaveStrategyDecision record) tt] h2)
    by (apply happened_before, happened_now; [done|constructor]).
  assert (Hn2 : no_submission h2) by quiet.
  apply step_lift. intros [order|] Horder.
  - destruct x as [xd|]; [|discriminate].
    apply wp_bind, wp_bind, wp_await.
    + split; [done|]. split; [done|]. exists built, d, engine, xd, a, record.
      split_and!; [by eapply built_later|by eapply decides_later|done..].
    + intros [answer|err] _; [|done]. apply wp_ret, wp_ret. cbn.
      set (h3 := _ :: h2).
      assert (Hg3 : forall Ps : list (event -> Prop), happened Ps h -> happened Ps h3)
        by (intros Ps HP; by apply happened_before, Hg2).
      split; [by eapply built_later|]. exists (Some xd), a. cbn.
      split_and!; [by eapply decides_later|done|by apply happened_before|done|].
      by exists order, xd.
  - apply wp_bind, wp_ret, wp_ret. cbn. split; [by eapply built_later|]. exists x, a. cbn.
    split_and!; [by eapply decides_later|done..|]. by destruct x.
Qed.

Lemma verify_works h :
  held h = true -> no_submission h ->
  works (verifyCandidateRun deps input SelectBtcCandidatePilot)
    (fun v h' => no_submission h' /\ verified v h') h.
Proof.
  intros Hh Hn. unfold verifyCandidateRun. destruct (run_refreshReceipt input) as [receipt|] eqn:Hr; [|done].
  apply wp_bind. destruct (rn_hasCandidateRunVerifier deps); [|done]. apply wp_ret.
  apply step_await; [by split|]. intros [v0|c f]; [|done].
  apply wp_lift; [|done]. intros v Hv. split; [quiet|].
  exists receipt, v0. split; [done|]. split; [|done]. apply happened_now; [done|constructor].
Qed.

Lemma pilot_works built h :
  default SelectBaseline (rn_policySelection deps) = SelectBtcCandidatePilot ->
  held h = true -> no_submission h -> built_from built h ->
  works (run_pilot deps input built SelectBtcCandidatePilot)
    (fun res h' => submitted built res h') h.
Proof.
  intros Hsel Hh Hn Hb. unfold run_pilot.
  eapply (step_bind _ _ (fun verification h' => no_submission h' /\ built_from built h' /\
    match verification with
    | Some v => run_market input = Market.KRW_BTC /\ verified v h'
    | None => run_market input = Market.KRW_ETH
    end)).
  { case_bool_decide as Hm.
    - eapply step_bind; [by apply grows_keeps, verify_works|]. intros v h' [Hg [Hn' Hv]].
      apply wp_ret. split; [done|]. split; [by eapply built_later|done].
    - apply wp_ret. split; [done|]. split; [done|]. by destruct (run_market input). }
  intros verification h1 (Hn1 & Hb1 & Hv). apply step_held.
  apply step_lift. intros state Hs. apply step_lift. intros route Hroute. cbv zeta.
  apply step_lift. intros audit _.
  assert (Hg : forall Ps : list (event -> Prop), happened Ps h1 -> happened Ps (held_now :: h1))
    by (intros Ps; apply happened_before).
  apply persist_works; [done|quiet|by eapply built_later|].
  apply (decides_later h1); [done|]. apply decides_pilot; [done|]. split; [done|]. by exists state.
Qed.

Lemma runOnce_works :
  works (runOnce localeCompare deps input)
    (fun res h' => exists built, submitted built res h') [].
Proof.
  unfold runOnce. apply step_held. eapply step_bind; [apply build_works; quiet; constructor|].
  intros built h [Hn Hb]. apply step_held.
  assert (Hg : forall Ps : list (event -> Prop), happened Ps h -> happened Ps (held_now :: h))
    by (intros Ps; apply happened_before).
  assert (Hb' : built_from built (held_now :: h)) by (by eapply built_later).
  destruct (default SelectBaseline (rn_policySelection deps)) eqn:Hsel.
  - eapply works_weaken; [|apply (persist_works built); [done|quiet|done|by apply decides_baseline]].
    intros res h' Hs. by exists built.
  - eapply works_weaken; [|apply (pilot_works built); [done|done|quiet|done]].
    intros res h' Hs. by exists built.
Qed.

(** A run that was answered [h], newest first. *)
Definition ran (h : history) (r : result run_error PositionGuardRunResult) : Prop :=
  runs may_answer (runOnce localeCompare deps input tt) [] h (tt, r).

Lemma ran_sound h r :
  ran h r ->
  returning (fun res h' => exists built, submitted built res h') r h /\
  forall newer older B (e : Run.call B) a,
    h = (newer ++ Asked e a :: older)%list -> permitted older B e.
Proof.
  intros Hr. destruct (wp_sound _ _ _ _ _ _ _ _ _ runOnce_works Hr) as [HQ Hall].
  split; [done|]. intros newer older B e a ->. eapply Hall; [done|]. cbn. lia.
Qed.

(** C19: a run submits at most one order, and only while it holds the runtime:
    the order is the one its stored decision asks for, and that decision is what
    the engine made of the market and the account read in this run, or what the
    pilot's route makes of it for this run's verification.  Nothing is submitted
    before it, nothing after it. *)
Theorem submitted_orders_are_decided h r newer older order a :
  ran h r -> h = (newer ++ Asked (Run.SubmitOrderFromDecision order) a :: older)%list ->
  held older = true /\ no_submission older /\ no_submission newer /\
  exists built d engine x auth record,
    built_from built older /\ decides older built d engine (Some x) auth /\
    recorded built d engine record /\
    happened [answered_as (Run.SaveStrategyDecision record) tt] older /\
    toOrderSubmissionInput account (sd_id record) x (bd_referencePriceCapturedAt built) auth
    = Ret (Some order).
Proof.
  intros Hr Hh. destruct (ran_sound h r Hr) as [_ Hall].
  destruct (Hall newer older _ _ a Hh) as [Hg [Hn Hj]].
  split; [by apply Hg|]. split; [done|]. split; [|done].
  apply Forall_forall. intros ev (l1 & l2 & ->)%list_elem_of_split.
  destruct ev as [B e b]. destruct e as [| | | | | | | | | | | |order']; try done. exfalso.
  rewrite <- app_assoc in Hh. destruct (Hall l1 _ _ _ b Hh) as [_ [Hn' _]].
  apply Forall_app in Hn' as [_ Hn']. by apply Forall_cons in Hn' as [? _].
Qed.

End Guarantees.
