(* ===== verification/RunnerGuarantees.v ===== *)
(** * RunnerGuarantees: what a run may order, and under which authority

    With the policy router of the code: a run buys only what the engine decided,
    for an amount within the capacities of the account it read, and sells a
    fraction of the position it read; and an order of the pilot is bound to the
    deployment and the phase that were verified for this very run. *)

From Stdlib Require Import ZArith Lia.
From stdpp Require Import base option list strings.
From S2P Require Import Prelude Num Types Text Timestamp NumText JsMap Json Decimals Risk.
From S2P Require Import CandidateState ExactState PilotRecords PilotTheory OrderRecords CandidateAuthority.
From S2P Require Import Effects ExecutionRecords ReconciliationRecords ReconciliationHelpers.
From S2P Require Import StrategyCore MarketStructure CandidatePolicy PolicyRouter.
From S2P Require Import StrategyContext StrategyJson Runner RunnerTheory.

Local Open Scope string_scope.
Local Open Scope js_scope.
Local Open Scope bool_scope.

(** ** Orders of a decision *)

Lemma deferred_decision c e :
  is_deferred (toStrategyDecision c e)
  = (executionDisposition e === Disposition.DEFERRED_CONFIRMATION).
Proof. unfold is_deferred. cbn. by destruct (executionDisposition e). Qed.

(** The amounts of an order are those of its decision. *)
Definition order_of (d : StrategyDecision) (order : SubmitOrderFromDecisionInput) : Prop :=
  match in_side order with
  | Side.bid =>
      (sd_action d = Action.ENTER \/ sd_action d = Action.ADD) /\
      in_ordType order = OrdType.price /\ in_volume order = None /\
      exists notional price,
        sd_requestedNotionalKrw d = Some notional /\ nleb notional zero = false /\
        in_price order = Some price /\ formatUpbitMarketBuyQuote notional = Ret price
  | Side.ask =>
      (sd_action d = Action.REDUCE \/ sd_action d = Action.EXIT) /\
      in_ordType order = OrdType.market /\ in_price order = None /\
      exists quantity,
        sd_requestedQuantity d = Some quantity /\ nleb quantity zero = false /\
        in_volume order = Some (formatDecimal quantity)
  end.

Lemma submission_of_decision account id d captured authority order :
  toOrderSubmissionInput account id d captured authority = Ret (Some order) ->
  is_deferred d = false /\ in_decision order = d /\ in_candidateAuthority order = authority /\
  order_of d order.
Proof.
  unfold toOrderSubmissionInput, order_of. destruct (is_deferred d); [done|].
  destruct (sd_action d) eqn:Ha; [| | | |done].
  1,2: destruct (sd_requestedNotionalKrw d) as [n|]; [|done];
       destruct (nleb n zero) eqn:Hn; [done|]; intros (p & Hp & [= <-])%bind_Ret;
       cbn; split_and!; eauto 10.
  all: destruct (sd_requestedQuantity d) as [q|]; [|done];
       destruct (nleb q zero) eqn:Hn; [done|]; intros [= <-]; cbn; split_and!; eauto 10.
Qed.

(** ** Decisions *)

Section Guarantees.
Context (localeCompare : string -> string -> comparison) (deps : RunnerDependencies).
Context (input : PositionGuardRunInput).
Hypothesis default_router : rn_policyRouter deps = None.

Abbreviation built_from := (built_from localeCompare deps input).
Abbreviation decides := (decides deps input).
Abbreviation ran := (ran localeCompare deps input).

(** What the pilot may make of the engine's decision: nothing, or the exit of a
    position that the engine would hold or add to. *)
Definition admitted (built : BuiltDecision) (e : PositionGuardEngineDecision) : Prop :=
  e = bd_engineDecision built \/
  (isRiskReducing (bd_engineDecision built) = false /\
   (action e = Action.HOLD \/ action e = Action.EXIT)).

Lemma suppressed_is_held (d : PositionGuardEngineDecision) :
  is_buy d -> isRiskReducing d = false.
Proof. unfold is_buy, isRiskReducing. by intros [-> | ->]. Qed.

Lemma gate_admitted i p e :
  executionDecision (phaseGateRoute i p) = Some e ->
  e = ri_baselineDecision i \/
  (isRiskReducing (ri_baselineDecision i) = false /\ (action e = Action.HOLD \/ action e = Action.EXIT)).
Proof.
  destruct (gate_decision i p) as (_ & -> & Hh & Hk). intros [= <-].
  destruct (decide (action (ri_baselineDecision i) = Action.ENTER \/
                    action (ri_baselineDecision i) = Action.ADD)) as [Hb|Hb].
  - right. split; [by apply suppressed_is_held|]. left. by apply Hh.
  - left. by apply Hk.
Qed.

Lemma decided_by_engine h built d engine x a :
  decides h built d engine (Some x) a -> built_from built h ->
  exists e, x = toStrategyDecision (bd_context built) e /\ admitted built e.
Proof.
  intros Hd (snapshot & _ & _ & _ & _ & Hs & _). inversion Hd as [Hsel|v route Hsel Hr]; subst.
  { exists (bd_engineDecision built). rewrite Hs. split; [done|by left]. }
  destruct (executionBlocked route) eqn:Hb; [discriminate|].
  destruct (executionDecision route) as [e|] eqn:He; [|discriminate].
  exists e. split; [match goal with H : _ = Some x |- _ => cbn in H; by injection H end|].
  destruct Hr as [_ (state & _ & Hroute)]. rewrite default_router in Hroute. cbn [default] in Hroute.
  destruct (route_cases _ _ Hroute) as [(_ & c & ->)|[_ Hc]]; [injection He as <-; by left|].
  destruct (ri_pilotPhase _); try subst route.
  - injection He as <-. by left.
  - by apply gate_admitted in He.
  - destruct (active_decision _ _ Hc) as (_ & Hex & Hcase). rewrite Hex in He. injection He as <-.
    exact Hcase.
  - discriminate He.
  - by apply gate_admitted in He.
Qed.

Lemma admitted_buy built e : admitted built e -> is_buy e -> e = bd_engineDecision built.
Proof. intros [->|[_ [H|H]]] [Hb|Hb]; congruence. Qed.


(** ** Authority *)

Lemma receipt_same r label r' : canonicalRefreshReceipt r label = Ret r' -> r' = r.
Proof. unfold canonicalRefreshReceipt. intros H. by inv_outcome. Qed.

Lemma version_same n label n' :
  requireNonNegativeSafeInteger n label = Ret n' -> n' = n /\ isSafeInteger n = true /\ (0 <= n)%Z.
Proof. unfold requireNonNegativeSafeInteger. intros H. inv_outcome. by destruct_bools. Qed.

(** What the verification of a run says, once it is accepted. *)
Record accepted (v : ReadyVerification) : Prop := {
  acc_valid : valid (ver_deployment v);
  acc_account : dep_exchangeAccountId (ver_deployment v) = Runner.account deps;
  acc_phase : dep_phase (ver_deployment v) = ver_phase v;
  acc_running : ver_phase v ≠ Phase.PAUSED_FAULT;
  acc_version : isSafeInteger (ver_stateVersion v) = true /\ (0 <= ver_stateVersion v)%Z;
  acc_receipt : run_refreshReceipt input = Some (ver_refreshProvenance v);
  acc_activation : check_activation (ver_deployment v) (ver_phase v) (ver_activation v) = Ret tt;
}.

Lemma verified_accepted v h : verified deps input v h -> accepted v.
Proof.
  intros (receipt & answer & Hreceipt & _ & Hc).
  unfold canonicalReadyVerification, requirePilotReadyPhase in Hc. inv_outcome. destruct_bools.
  repeat match goal with
  | H : canonicalRefreshReceipt _ _ = Ret _ |- _ => apply receipt_same in H; subst
  | H : validateCandidatePilotDeployment _ = Ret _ |- _ => apply validate_deployment_same in H as [-> ?]
  | H : requireNonNegativeSafeInteger _ _ = Ret _ |- _ => apply version_same in H as (-> & ? & ?)
  | H : check_activation _ _ _ = Ret ?u |- _ => destruct u
  end.
  by constructor; cbn.
Qed.

(** An order's authority is the verified deployment in the phase, at the
    version of its state; and the execution service accepts it. *)
Definition bound_to (v : ReadyVerification) (phase : BoundPhase)
    (authority : option CandidateExecutionAuthority) : Prop :=
  let d := ver_deployment v in
  exists a, authority = Some a /\
    auth_deploymentId a = dep_id d /\ auth_exchangeAccountId a = Runner.account deps /\
    dep_activationAt d = Some (auth_activationAt a) /\
    dep_activationEpochNs d = Some (auth_activationEpochNs a) /\
    auth_expectedPhase a = phase /\ auth_expectedDeploymentUpdatedAt a = dep_updatedAt d /\
    auth_expectedStateVersion a = ver_stateVersion v /\
    forall updated label,
      parsePositionGuardCandidateTimestamp (dep_updatedAt d) label = Ret updated ->
      (auth_activationEpochNs a <= updated)%Z -> validateCandidateExecutionAuthority a = Ret a.

Lemma authority_bound v activation phase reason :
  accepted v -> same_activation (ver_deployment v) activation = true ->
  validateRouteReason phase reason = Ret tt ->
  bound_to v phase (Some (authority_of v activation phase reason)).
Proof.
  intros [Hvalid Hacc _ _ [Hs Hp] _ _] Hact Hreason. unfold same_activation in Hact. destruct_bools.
  apply valid_iff in Hvalid as [Hid Hab Hpilot Hmarket Hpolicy Hversion _ Ha _].
  unfold validateActivation in Ha.
  repeat match goal with H : _ = Some _ |- _ => rewrite H in Ha end.
  apply bind_Ret in Ha as (epoch & Hepoch & Ha). unfold throw_if in Ha.
  destruct (_ || _) eqn:Hz in Ha; [discriminate|]. destruct_bools. subst epoch.
  eexists. split; [reflexivity|]. do 7 (split; [done|]). cbn. intros updated label Hu Hle.
  unfold validateCandidateExecutionAuthority, require_authority_text.
  cbn [auth_kind auth_deploymentId auth_exchangeAccountId auth_pilotId auth_market auth_strategyKey
       auth_policyId auth_policyVersion auth_activationAt auth_activationEpochNs auth_expectedPhase
       auth_expectedDeploymentUpdatedAt auth_expectedStateVersion auth_routeReason authority_of].
  rewrite Hid, Hab, Hpilot, Hmarket, Hpolicy, Hversion. cbn.
  unfold parseCandidatePilotTimestamp.
  rewrite (timestamp_relabel _ _ "execution authority activationAt" _ Hepoch). cbn.
  rewrite Z.eqb_refl, (proj2 (Z.ltb_ge _ _)) by done. cbn.
  rewrite (timestamp_relabel _ _ "execution authority expected deployment updatedAt" _ Hu). cbn.
  rewrite (proj2 (Z.ltb_ge _ _)) by done. cbn.
  by rewrite Hs, (proj2 (Z.ltb_ge _ _)), Hreason by done.
Qed.

Lemma active_reason i r :
  activeCandidateRoute i = Ret r ->
  rr_pilotPhase r = ri_pilotPhase i /\
  (rr_reasonCode r = Route.CANDIDATE_ALLOWED \/
   (rr_reasonCode r = Route.CANDIDATE_EARLY_THESIS_FAILURE /\
    action (rr_effectiveDecision r) = Action.EXIT) \/
   action (rr_effectiveDecision r) = Action.HOLD).
Proof.
  unfold activeCandidateRoute. destruct (ri_candidateState i) as [s|]; [|done].
  intros (e & He & [= <-])%bind_Ret. split; [done|].
  destruct (evaluate_cases _ _ He); cbn; auto.
Qed.

(** The phase gates let a sale through, unchanged, and no buy. *)
Lemma gate_route i p e :
  executionDecision (phaseGateRoute i p) = Some e -> action e ≠ Action.HOLD ->
  isRiskReducing e = true /\ rr_pilotPhase (phaseGateRoute i p) = ri_pilotPhase i /\
  rr_reasonCode (phaseGateRoute i p)
  = gate_reason p Route.PENDING_FLAT_RISK_REDUCTION_PRESERVED Route.DRAINING_RISK_REDUCTION_PRESERVED.
Proof.
  unfold phaseGateRoute. cbv zeta. case_bool_decide as Hh; [by intros [= <-]|].
  destruct (isRiskReducing (ri_baselineDecision i)) eqn:Hr; intros [= <-] Ha; done.
Qed.

Lemma active_authority v activation route d :
  ver_activation v = Some activation -> executionBlocked route = false ->
  sd_action d ≠ Action.HOLD -> is_deferred d = false -> ver_phase v = Phase.ACTIVE ->
  rr_pilotPhase route = Phase.ACTIVE ->
  rr_reasonCode route = Route.CANDIDATE_ALLOWED \/
  (rr_reasonCode route = Route.CANDIDATE_EARLY_THESIS_FAILURE /\ sd_action d = Action.EXIT) ->
  candidateExecutionAuthority (Some v) route d
  = Some (authority_of v activation BOUND_ACTIVE (authority_reason (rr_reasonCode route))).
Proof.
  intros Hact Hb Hh Hd Hp Hr Hreason.
  unfold candidateExecutionAuthority, activeAuthority, drainingAuthority, verified_in. cbn.
  rewrite Hact, Hb, Hd, Hp, Hr. cbn. rewrite (bool_decide_eq_false_2 _ Hh).
  by destruct Hreason as [-> |[-> ->]].
Qed.

Lemma draining_authority v activation route d :
  ver_activation v = Some activation -> executionBlocked route = false ->
  is_deferred d = false -> ver_phase v = Phase.DRAINING -> rr_pilotPhase route = Phase.DRAINING ->
  rr_reasonCode route = Route.DRAINING_RISK_REDUCTION_PRESERVED ->
  sd_action d = Action.REDUCE \/ sd_action d = Action.EXIT ->
  candidateExecutionAuthority (Some v) route d
  = Some (authority_of v activation BOUND_DRAINING AuthorityReason.DRAINING_RISK_REDUCTION_PRESERVED).
Proof.
  intros Hact Hb Hd Hp Hr Hreason Ha.
  unfold candidateExecutionAuthority, activeAuthority, drainingAuthority, verified_in. cbn.
  rewrite Hact, Hb, Hd, Hp, Hr, Hreason. cbn. by destruct Ha as [-> | ->].
Qed.

Lemma no_authority v route d :
  ver_phase v ≠ Phase.ACTIVE -> ver_phase v ≠ Phase.DRAINING ->
  candidateExecutionAuthority (Some v) route d = None.
Proof.
  intros Ha Hd. unfold candidateExecutionAuthority, activeAuthority, drainingAuthority, verified_in.
  cbn. destruct (ver_activation v) as [activation|]; [|done]. cbn.
  destruct (ver_phase v); try done; cbn; by rewrite orb_true_r.
Qed.

(** What the verified phase admits of an order. *)
Definition phase_admits (v : ReadyVerification) (side : OrderSide)
    (authority : option CandidateExecutionAuthority) : Prop :=
  match ver_phase v with
  | Phase.DISABLED => authority = None
  | Phase.PENDING_FLAT => side = Side.ask /\ authority = None
  | Phase.ACTIVE => bound_to v BOUND_ACTIVE authority
  | Phase.DRAINING => side = Side.ask /\ bound_to v BOUND_DRAINING authority
  | Phase.PAUSED_FAULT => False
  end.

Lemma active_verification v :
  accepted v -> ver_phase v = Phase.ACTIVE \/ ver_phase v = Phase.DRAINING ->
  exists activation, ver_activation v = Some activation /\
    same_activation (ver_deployment v) activation = true.
Proof.
  intros [_ _ _ _ _ _ Hact] Hp. unfold check_activation, throw_if in Hact.
  destruct (ver_activation v) as [activation|]; [|by destruct Hp as [Hp|Hp]; rewrite Hp in Hact].
  exists activation. split; [done|].
  destruct Hp as [Hp|Hp]; rewrite Hp in Hact; cbn in Hact; by destruct (same_activation _ activation).
Qed.

Lemma order_not_held d order : order_of d order -> sd_action d ≠ Action.HOLD.
Proof. unfold order_of. by destruct (in_side order); intros [[-> | ->] _]. Qed.

Lemma reducing_is_ask d order :
  order_of d order -> sd_action d = Action.REDUCE \/ sd_action d = Action.EXIT -> in_side order = Side.ask.
Proof. unfold order_of. by destruct (in_side order); [|done]; intros [[-> | ->] _] [?|?]. Qed.

Lemma route_authority built v state route e order :
  run_market input = Market.KRW_BTC -> accepted v ->
  routePositionGuardPolicy (route_input input built SelectBtcCandidatePilot (Some v) state) = Ret route ->
  executionBlocked route = false -> executionDecision route = Some e ->
  let d := toStrategyDecision (bd_context built) e in
  order_of d order -> is_deferred d = false ->
  phase_admits v (in_side order) (candidateExecutionAuthority (Some v) route d).
Proof.
  intros Hm Hacc Hroute Hb He d Horder Hdef.
  pose proof (order_not_held _ _ Horder) as Hh. unfold phase_admits.
  destruct (route_cases _ _ Hroute) as [(Hno & _)|[_ Hc]].
  { destruct Hno. by split. }
  change (ri_pilotPhase (route_input _ _ _ (Some v) _)) with (ver_phase v) in Hc.
  destruct (ver_phase v) eqn:Hp.
  - apply no_authority; by rewrite Hp.
  - subst route. destruct (gate_route _ _ _ He Hh) as (Hred & _).
    split; [|by apply no_authority; rewrite Hp]. eapply reducing_is_ask; [exact Horder|].
    unfold isRiskReducing in Hred. apply orb_true_iff in Hred. by rewrite !bool_decide_eq_true in Hred.
  - destruct (active_verification v Hacc) as (activation & Hact & Hsame); [by left|].
    destruct (active_reason _ _ Hc) as [Hphase Hreason].
    destruct (active_decision _ _ Hc) as (_ & Hex & _). rewrite Hex in He. injection He as He.
    rewrite (active_authority v activation); try done.
    + apply authority_bound; [done|done|].
      by destruct Hreason as [-> |[[-> _]|Hhold]]; [| |destruct Hh; cbn; congruence].
    + rewrite Hphase. cbn. by rewrite Hp.
    + destruct Hreason as [->|[[-> Ha]|Hhold]]; [by left| |destruct Hh; cbn; congruence].
      right. split; [done|]. cbn. congruence.
  - by destruct Hacc.
  - destruct (active_verification v Hacc) as (activation & Hact & Hsame); [by right|].
    subst route. destruct (gate_route _ _ _ He Hh) as (Hred & Hphase & Hreason).
    unfold isRiskReducing in Hred. apply orb_true_iff in Hred. rewrite !bool_decide_eq_true in Hred.
    split; [by eapply reducing_is_ask|].
    rewrite (draining_authority v activation); try done; [by apply authority_bound|].
    rewrite Hphase. cbn. by rewrite Hp.
Qed.

(** C20: an order is the pilot's exactly when it should be.  Outside the pilot's
    selection, and in the market it does not trade, an order carries no
    authority.  In its market this run verified the deployment against the
    receipt of its own refresh, and the phase that was verified decides: disabled
    orders nothing in the pilot's name; pending, only sales, and none in its name;
    active, every order is bound to the deployment, its activation and the
    version of its state; draining, only sales, bound as draining; paused, no
    order.  The execution service accepts such an authority, the deployment's last
    update not being earlier than its activation. *)
Theorem pilot_orders_are_bound h r newer older order a :
  ran h r -> h = (newer ++ Asked (Run.SubmitOrderFromDecision order) a :: older)%list ->
  match default SelectBaseline (rn_policySelection deps), run_market input with
  | SelectBtcCandidatePilot, Market.KRW_BTC =>
      exists v, verified deps input v older /\
        run_refreshReceipt input = Some (ver_refreshProvenance v) /\
        phase_admits v (in_side order) (in_candidateAuthority order)
  | _, _ => in_candidateAuthority order = None
  end.
Proof.
  intros Hr Hh. destruct (ran_sound _ _ _ h r Hr) as [_ Hall].
  destruct (Hall newer older _ _ a Hh) as [_ [_ (built & d & engine & x & auth & record & Hb & Hd & _ & _ & Ho)]].
  destruct (submission_of_decision _ _ _ _ _ _ Ho) as (Hdef & _ & -> & Horder).
  inversion Hd as [Hsel|v route Hsel Hroute executed]; subst; rewrite Hsel.
  { by destruct (run_market input). }
  destruct (executionBlocked route) eqn:Hblocked; [discriminate|].
  destruct (executionDecision route) as [e|] eqn:He; [|discriminate].
  assert (x = toStrategyDecision (bd_context built) e) as ->
    by (match goal with H : _ = Some x |- _ => cbn in H; by injection H end).
  destruct Hroute as [Hv (state & _ & Hroute)]. rewrite default_router in Hroute.
  destruct v as [v|]; [|by rewrite Hv].
  destruct Hv as [Hm Hv]. rewrite Hm. exists v. split; [done|].
  pose proof (verified_accepted v older Hv) as Hacc. split; [by destruct Hacc|].
  by apply (route_authority built v state route e order).
Qed.

End Guarantees.
