(* ===== verification/RunnerScenarios.v ===== *)
(** * RunnerScenarios: runs of a sample strategy

    A falling market in which the account holds bitcoin, run with the baseline
    and with the pilot active; and a rising one in which it holds won.  The
    theorems of [RunnerTheory] and [RunnerGuarantees] apply to these runs. *)

From Stdlib Require Import ZArith Lia.
From stdpp Require Import base option list strings.
From S2P Require Import Prelude Num Types Text Timestamp NumText JsMap Json Decimals Risk.
From S2P Require Import CandidateState ExactState PilotRecords OrderRecords CandidateAuthority.
From S2P Require Import Effects ExecutionRecords ReconciliationRecords ReconciliationHelpers.
From S2P Require Import StrategyCore MarketStructure CandidatePolicy PolicyRouter.
From S2P Require Import StrategyContext StrategyJson Runner.
From S2P Require Import RunnerTheory RunnerGuarantees.

Local Open Scope string_scope.
Local Open Scope js_scope.
Local Open Scope bool_scope.

(** ** The market *)

(** Candles that open at the hours of two days. *)
Definition hour_text (n : nat) : string :=
  let day := if (n <? 24)%nat then "20" else "21" in
  "2026-08-" ++ day ++ "T" ++ padStart0 2 (nonneg_to_string (Z.of_nat (n mod 24))) ++ ":00:00".

Definition traded_candle (n : nat) (price : Z) (volume : Z) : UpbitCandleSnapshot := {|
  uc_market := Market.KRW_BTC; uc_candle_date_time_utc := hour_text n;
  uc_candle_date_time_kst := hour_text n; uc_opening_price := num_of_Z price;
  uc_high_price := num_of_Z price; uc_low_price := num_of_Z price; uc_trade_price := num_of_Z price;
  uc_timestamp := zero; uc_candle_acc_trade_price := num_of_Z (price * volume);
  uc_candle_acc_trade_volume := num_of_Z volume; uc_unit := None;
|}.

Definition market_of (prices : list Z) : list UpbitCandleSnapshot :=
  imap (fun n price => traded_candle n price (1 + Z.of_nat n)) prices.

Record sample_market_state := {
  sm_candles : list UpbitCandleSnapshot;
  sm_price : Z;
  sm_positions : string;
  sm_verification : option ReadyVerification;
}.

Definition run_answers (m : sample_market_state) (h : history) (B : Type) (e : Run.call B)
    : result run_error B :=
  match e in Run.call B return result run_error B with
  | Run.AssertLocallyHeld => Ok tt
  | Run.CreateId prefix => Ok (prefix ++ "_1")
  | Run.GetTickers _ => Ok [{| tick_market := Market.KRW_BTC; tick_trade_price := num_of_Z (sm_price m);
                               tick_trade_timestamp := num_of_Z 1787293800000 |}]
  | Run.GetMinuteCandles _ _ _ _ | Run.GetDayCandles _ _ _ => Ok (sm_candles m)
  | Run.GetLatestBalanceSnapshot _ => Ok (Some {|
      bal_id := "balance-1"; bal_exchangeAccountId := "primary";
      bal_capturedAt := "2026-08-21T06:29:00.000Z"; bal_source := SOURCE_RECONCILIATION;
      bal_totalKrwValue := Some "2000000";
      bal_balancesJson := stringify (JArr [JObj [("currency", JStr "KRW"); ("balance", JStr "1000000")]]) |})
  | Run.GetLatestPositionSnapshot _ => Ok (Some {|
      pos_id := "position-1"; pos_exchangeAccountId := "primary";
      pos_capturedAt := "2026-08-21T06:29:00.000Z"; pos_source := SOURCE_RECONCILIATION;
      pos_positionsJson := sm_positions m |})
  | Run.GetPortfolioExposure _ => Ok {|
      Risk.totalEquityKrw := num_of_Z 2000000; Risk.totalExposureKrw := zero; assetExposureKrw := fun _ => zero |}
  | Run.GetLatestStrategyDecision _ _ _ => Ok None
  | Run.ListOrders _ => Ok []
  | Run.VerifyAndPrepareBtcRun _ =>
      match sm_verification m with
      | Some v => Ok (READY v)
      | None => Err (JsError (PlainError "No deployment."))
      end
  | Run.SaveStrategyDecision _ => Ok tt
  | Run.SubmitOrderFromDecision _ => Ok {|
      res_accepted := true; res_outcome := Submission.SUBMITTED; res_order := None;
      res_reason := None |}
  end.

Lemma run_answers_may m h B (e : Run.call B) : may_answer B e (run_answers m h B e).
Proof. destruct e; try exact I. cbn. by destruct (sm_verification m). Qed.

(** ** The runner *)

Definition sample_runner (selection : option PositionGuardPolicySelection) : RunnerDependencies := {|
  rn_config := {| cfg_exchangeAccountId := "primary"; cfg_candleCount := 200;
                  cfg_settings := DEFAULT_POSITION_GUARD_STRATEGY_SETTINGS |};
  rn_policySelection := selection;
  rn_hasCandidateRunVerifier := true;
  rn_policyRouter := None;
  rn_hasRuntimeOwnership := true;
|}.

Definition sample_receipt : PositionGuardPilotRefreshReceipt := {|
  rcp_exchangeAccountId := "primary"; rcp_requestedAt := "2026-08-21T06:29:00Z";
  rcp_balanceSnapshotId := "balance-1"; rcp_balanceCapturedAt := "2026-08-21T06:29:00Z";
  rcp_positionSnapshotId := "position-1"; rcp_positionCapturedAt := "2026-08-21T06:29:00Z";
  rcp_reconciliationRunId := "run-1"; rcp_reconciliationStartedAt := "2026-08-21T06:29:00Z";
  rcp_reconciliationCompletedAt := "2026-08-21T06:29:30Z";
|}.

Definition sample_run_input : PositionGuardRunInput := {|
  run_market := Market.KRW_BTC; run_generatedAt := "2026-08-21T06:30:01.000Z";
  run_candleTo := None; run_refreshReceipt := Some sample_receipt;
|}.

Abbreviation run_in m selection :=
  (exec (run_answers m) (runOnce string_compare (sample_runner selection) sample_run_input tt) []).

Lemma run_in_ran m selection :
  ran string_compare (sample_runner selection) sample_run_input
    (fst (run_in m selection)) (snd (snd (run_in m selection))).
Proof.
  pose proof (exec_runs may_answer (run_answers m)
    (runOnce string_compare (sample_runner selection) sample_run_input tt) [] (run_answers_may m)) as H.
  unfold ran. revert H. by destruct (run_in m selection) as [h [[] r]].
Qed.

(** ** Runs *)

Definition held_position (quantity : string) : string :=
  stringify (JArr [JObj [("asset", JStr "BTC"); ("market", JStr "KRW-BTC");
                         ("quantity", JStr quantity); ("averageEntryPrice", JStr "100")]]).

Definition rising_market : sample_market_state := {|
  sm_candles := market_of ((fun n => 1000 + 10 * Z.of_nat n)%Z <$> seq 0 24);
  sm_price := 1230; sm_positions := "[]"; sm_verification := None;
|}.

(** The deployment in a phase, activated unless it is pending. *)
Definition deployment_in (phase : PositionGuardPilotPhase) (activation : option CandidateActivation)
    : ReadyVerification := {|
  ver_deployment := {|
    dep_id := "pilot-1"; dep_exchangeAccountId := "primary"; dep_pilotId := PILOT_ID;
    dep_market := "KRW-BTC"; dep_policyId := "COMBINED_CONSERVATIVE";
    dep_policyVersion := "PCS-2026-001.DEPLOYMENT_READINESS_V1"; dep_phase := phase;
    dep_activationAt := act_activationAt <$> activation;
    dep_activationEpochNs := act_activationEpochNs <$> activation;
    dep_createdAt := "2026-08-21T00:00:00Z"; dep_updatedAt := "2026-08-21T02:00:00Z" |};
  ver_phase := phase;
  ver_activation := activation;
  ver_state := createExactEmptyCandidateState;
  ver_stateVersion := 0;
  ver_refreshProvenance := sample_receipt;
|}.

Definition sample_activation : CandidateActivation := {|
  act_activationAt := "2026-08-21T01:00:00Z"; act_activationEpochNs := 1787274000000000000;
|}.

Definition falling_market (verification : option ReadyVerification) : sample_market_state := {|
  sm_candles := market_of [100; 101; 99; 101; 100; 100; 90]%Z; sm_price := 90;
  sm_positions := held_position "1000.5"; sm_verification := verification;
|}.

Definition active_pilot : ReadyVerification := deployment_in Phase.ACTIVE (Some sample_activation).
Definition pending_pilot : ReadyVerification := deployment_in Phase.PENDING_FLAT None.
Definition draining_pilot : ReadyVerification :=
  deployment_in Phase.DRAINING (Some sample_activation).

(** The order a run submitted last. *)
Definition ordered (h : history) : option SubmitOrderFromDecisionInput :=
  match h with Asked (Run.SubmitOrderFromDecision order) _ :: _ => Some order | _ => None end.

Lemma ordered_first h order :
  ordered h = Some order ->
  exists a older, h = ([] ++ Asked (Run.SubmitOrderFromDecision order) a :: older)%list.
Proof.
  destruct h as [|[B e r] older]; [done|]. destruct e; try done. intros [= <-]. by exists r, older.
Qed.

(** The route of an order, where it was submitted: its side, the amount and the
    phase it is bound in. *)
Definition shown (order : SubmitOrderFromDecisionInput)
    : OrderSide * option string * option string * option BoundPhase :=
  (in_side order, in_price order, in_volume order, auth_expectedPhase <$> in_candidateAuthority order).

Abbreviation pilot := (Some SelectBtcCandidatePilot).

Example baseline_buys :
  shown <$> ordered (fst (run_in rising_market None)) = Some (Side.bid, Some "546000", None, None).
Proof. vm_compute. reflexivity. Qed.

Example pending_pilot_buys_nothing :
  ordered (fst (run_in {| sm_candles := sm_candles rising_market; sm_price := 1230;
                          sm_positions := "[]"; sm_verification := Some pending_pilot |} pilot)) = None.
Proof. vm_compute. reflexivity. Qed.

Example pilot_exits :
  (fun v => shown <$> ordered (fst (run_in (falling_market (Some v)) pilot)))
  <$> [pending_pilot; active_pilot; draining_pilot]
  = [Some (Side.ask, None, Some "1000.5", None);
     Some (Side.ask, None, Some "1000.5", Some BOUND_ACTIVE);
     Some (Side.ask, None, Some "1000.5", Some BOUND_DRAINING)].
Proof. vm_compute. reflexivity. Qed.

(** The verification of another run's receipt stops the run. *)
Example stale_receipt_orders_nothing :
  snd (snd (run_in (falling_market (Some {|
    ver_deployment := ver_deployment active_pilot; ver_phase := Phase.ACTIVE;
    ver_activation := Some sample_activation; ver_state := createExactEmptyCandidateState;
    ver_stateVersion := 0;
    ver_refreshProvenance := {|
      rcp_exchangeAccountId := "primary"; rcp_requestedAt := "2026-08-21T05:29:00Z";
      rcp_balanceSnapshotId := "balance-1"; rcp_balanceCapturedAt := "2026-08-21T06:29:00Z";
      rcp_positionSnapshotId := "position-1"; rcp_positionCapturedAt := "2026-08-21T06:29:00Z";
      rcp_reconciliationRunId := "run-1"; rcp_reconciliationStartedAt := "2026-08-21T06:29:00Z";
      rcp_reconciliationCompletedAt := "2026-08-21T06:29:30Z" |} |})) pilot))
  = Err (JsError (PlainError
      "Verified BTC candidate refresh provenance does not match the exact run receipt.")).
Proof. vm_compute. reflexivity. Qed.

Lemma submitted_orders_are_decided_witness :
  exists order a older,
    fst (run_in rising_market None)
    = ([] ++ Asked (Run.SubmitOrderFromDecision order) a :: older)%list /\
    held older = true /\ no_submission older.
Proof.
  destruct (ordered (fst (run_in rising_market None))) as [order|] eqn:E; [|by vm_compute in E].
  destruct (ordered_first _ _ E) as (a & older & Hh).
  destruct (submitted_orders_are_decided string_compare (sample_runner None) sample_run_input
              _ _ [] older order a (run_in_ran rising_market None) Hh) as (Hheld & Hno & _).
  exists order, a, older. split; [exact Hh|]. split; [exact Hheld|exact Hno].
Defined.


Lemma pilot_orders_are_bound_witness :
  exists order v, ordered (fst (run_in (falling_market (Some active_pilot)) pilot)) = Some order /\
    phase_admits (sample_runner pilot) v (in_side order) (in_candidateAuthority order).
Proof.
  destruct (ordered (fst (run_in (falling_market (Some active_pilot)) pilot))) as [order|] eqn:E;
    [|by vm_compute in E].
  destruct (ordered_first _ _ E) as (a & older & Hh).
  destruct (pilot_orders_are_bound string_compare (sample_runner pilot) sample_run_input
              eq_refl _ _ [] older order a (run_in_ran (falling_market (Some active_pilot)) pilot) Hh)
    as (v & _ & _ & Hv).
  exists order, v. split; [reflexivity|exact Hv].
Defined.
