(* ===== verification/PortfolioSync.v ===== *)
(** * PortfolioSync: reading the account and reconciling it

    [modules/reconciliation/snapshot-service.ts], the snapshots of balances and
    positions and the prices they are valued at, and [PortfolioSyncService.run]
    of [modules/reconciliation/portfolio-sync-service.ts] as a routine over the
    calls of [Sync]. *)

From Stdlib Require Import ZArith.
From stdpp Require Import base option list strings.
From S2P Require Import Prelude Num Types Text Timestamp NumText JsMap Json OrderRecords Effects.
From S2P Require Import ExecutionRecords ReconciliationRecords ReconciliationHelpers StrategyContext.

Local Open Scope string_scope.
Local Open Scope js_scope.
Local Open Scope bool_scope.

(** ** Data *)

Record PositionSnapshot := {
  ps_asset : SupportedAsset;
  ps_market : SupportedMarket;
  ps_quantity : string;
  ps_averageEntryPrice : option string;
  ps_markPrice : option string;
  ps_marketValue : option string;
  ps_exposureRatio : option string;
  ps_capturedAt : string;
}.

(** [Partial<Record<SupportedAsset, number>>] *)
Record PriceByAsset := {
  price_BTC : option num;
  price_ETH : option num;
}.

Definition no_prices : PriceByAsset := {| price_BTC := None; price_ETH := None |}.

(** [prices[asset]] and [prices[asset] = price] *)
Definition price_of (prices : PriceByAsset) (asset : SupportedAsset) : option num :=
  match asset with Asset.BTC => price_BTC prices | Asset.ETH => price_ETH prices end.

Definition set_price (asset : SupportedAsset) (price : num) (prices : PriceByAsset)
    : PriceByAsset :=
  match asset with
  | Asset.BTC => {| price_BTC := Some price; price_ETH := price_ETH prices |}
  | Asset.ETH => {| price_BTC := price_BTC prices; price_ETH := Some price |}
  end.

(** [{ ...prices, ...overriding }] *)
Definition spread_prices (prices overriding : PriceByAsset) : PriceByAsset := {|
  price_BTC := match price_BTC overriding with Some p => Some p | None => price_BTC prices end;
  price_ETH := match price_ETH overriding with Some p => Some p | None => price_ETH prices end;
|}.

(** [balance.currency === "BTC" || balance.currency === "ETH"], as an asset *)
Definition managed_asset (balance : ExchangeBalance) : option SupportedAsset :=
  if eb_currency balance === "BTC" then Some Asset.BTC
  else if eb_currency balance === "ETH" then Some Asset.ETH else None.

(** [Number(balance.balance) + Number(balance.locked)] *)
Definition balance_quantity (balance : ExchangeBalance) : num :=
  nadd (Number_of_string (eb_balance balance)) (Number_of_string (eb_locked balance)).

(** [Number.isFinite(price) && price > 0] *)
Definition positive_price (price : num) : bool := is_finite price && nltb zero price.

(** ** Prices *)

Definition balance_price_step (prices : PriceByAsset) (balance : ExchangeBalance) : PriceByAsset :=
  match managed_asset balance with
  | None => prices
  | Some asset =>
      let avgBuyPrice := Number_of_string (eb_avgBuyPrice balance) in
      if positive_price avgBuyPrice then set_price asset avgBuyPrice prices else prices
  end.

Definition buildPriceByAssetFromExchangeBalances (balances : list ExchangeBalance) : PriceByAsset :=
  foldl balance_price_step no_prices balances.

Definition ticker_price_step (prices : PriceByAsset) (ticker : UpbitTickerSnapshot) : PriceByAsset :=
  let asset := getAssetForMarket (tick_market ticker) in
  if positive_price (tick_trade_price ticker)
  then set_price asset (tick_trade_price ticker) prices else prices.

Definition buildPriceByAssetFromTickerSnapshots (tickers : list UpbitTickerSnapshot)
    : PriceByAsset :=
  foldl ticker_price_step no_prices tickers.

(** ** Snapshots *)

Definition krw_value_step (priceByAsset : PriceByAsset) (sum : num) (balance : ExchangeBalance)
    : num :=
  if eb_currency balance === "KRW"
  then nadd (nadd sum (Number_of_string (eb_balance balance))) (Number_of_string (eb_locked balance))
  else match managed_asset balance with
       | Some asset =>
           nadd sum (nmul (balance_quantity balance) (default zero (price_of priceByAsset asset)))
       | None => sum
       end.

Definition calculateTotalKrwValue (balances : list ExchangeBalance) (priceByAsset : PriceByAsset)
    : num :=
  foldl (krw_value_step priceByAsset) zero balances.

Definition balance_json (balance : ExchangeBalance) : json := JObj
  [("currency", JStr (eb_currency balance)); ("balance", JStr (eb_balance balance));
   ("locked", JStr (eb_locked balance)); ("avgBuyPrice", JStr (eb_avgBuyPrice balance));
   ("unitCurrency", JStr (eb_unitCurrency balance))].

(** The record with its identifier. *)
Definition buildBalanceSnapshotRecord (exchangeAccountId : string)
    (balances : list ExchangeBalance) (priceByAsset : PriceByAsset) (source : SnapshotSource)
    (capturedAt id : string) : BalanceSnapshotRecord := {|
  bal_id := id;
  bal_exchangeAccountId := exchangeAccountId;
  bal_capturedAt := capturedAt;
  bal_source := source;
  bal_totalKrwValue := Some (num_to_string (calculateTotalKrwValue balances priceByAsset));
  bal_balancesJson := stringify (JArr (balance_json <$> balances));
|}.

Definition position_snapshot (priceByAsset : PriceByAsset) (capturedAt : string)
    (asset : SupportedAsset) (balance : ExchangeBalance) : PositionSnapshot :=
  let quantity := balance_quantity balance in
  let markPrice := price_of priceByAsset asset in
  let marketValue := nmul quantity <$> markPrice in
  {| ps_asset := asset;
     ps_market := if asset === Asset.BTC then Market.KRW_BTC else Market.KRW_ETH;
     ps_quantity := num_to_string quantity;
     ps_averageEntryPrice :=
       if nltb zero (Number_of_string (eb_avgBuyPrice balance))
       then Some (eb_avgBuyPrice balance) else None;
     ps_markPrice := num_to_string <$> markPrice;
     ps_marketValue := num_to_string <$> marketValue;
     ps_exposureRatio := None;
     ps_capturedAt := capturedAt |}.

Definition position_snapshots (balances : list ExchangeBalance) (priceByAsset : PriceByAsset)
    (capturedAt : string) : list PositionSnapshot :=
  omap (fun balance =>
    asset ← managed_asset balance; Some (position_snapshot priceByAsset capturedAt asset balance))
    balances.

Definition nullable_json (text : option string) : json := from_option JStr JNull text.

Definition position_json (p : PositionSnapshot) : json := JObj
  [("asset", JStr (Asset.to_string (ps_asset p)));
   ("market", JStr (Market.to_string (ps_market p)));
   ("quantity", JStr (ps_quantity p));
   ("averageEntryPrice", nullable_json (ps_averageEntryPrice p));
   ("markPrice", nullable_json (ps_markPrice p));
   ("marketValue", nullable_json (ps_marketValue p));
   ("exposureRatio", nullable_json (ps_exposureRatio p));
   ("capturedAt", JStr (ps_capturedAt p))].

Definition buildPositionSnapshotRecord (exchangeAccountId : string)
    (balances : list ExchangeBalance) (priceByAsset : PriceByAsset) (source : SnapshotSource)
    (capturedAt id : string) : PositionSnapshotRecord := {|
  pos_id := id;
  pos_exchangeAccountId := exchangeAccountId;
  pos_capturedAt := capturedAt;
  pos_source := source;
  pos_positionsJson :=
    stringify (JArr (position_json <$> position_snapshots balances priceByAsset capturedAt));
|}.

(** ** Calls *)

Module Sync.
Inductive call : Type -> Type :=
| Now : call string
| NewDate : call string
| CreateId (prefix : string) : call string
| AssertLocallyHeld : call unit
| GetLatestBalanceSnapshot (exchangeAccountId : string) : call (option BalanceSnapshotRecord)
| GetLatestPositionSnapshot (exchangeAccountId : string) : call (option PositionSnapshotRecord)
| GetBalances : call (list ExchangeBalance)
| GetTickers (markets : list SupportedMarket) : call (list UpbitTickerSnapshot)
| SaveBalanceSnapshot (record : BalanceSnapshotRecord) : call unit
| SavePositionSnapshot (record : PositionSnapshotRecord) : call unit
| RunWithRecord (exchangeAccountId : string) (options : ReconciliationRunOptions)
    : call ReconciliationRunResult
| UpdateReconciliationRun (record : ReconciliationRunRecord) : call unit.
End Sync.

(** The optional dependencies there are. *)
Record PortfolioSyncDependencies := {
  sdep_hasMarketPriceReader : bool;
  sdep_hasRuntimeOwnership : bool;
  sdep_hasNow : bool;
}.

Record PortfolioSyncInput := {
  sync_exchangeAccountId : string;
  sync_source : Trigger.ReconciliationTrigger;
  sync_requestedAt : option string;
}.

Module Valuation.
Inductive ValuationSource : Set :=
| public_ticker | public_ticker_and_avg_buy_price_fallback | avg_buy_price_fallback.
#[export] Instance ValuationSource_eq_dec : EqDecision ValuationSource.
Proof. solve_decision. Defined.
End Valuation.
Export (hints) Valuation.

Record ValuationPrices := {
  val_priceByAsset : PriceByAsset;
  val_source : Valuation.ValuationSource;
}.

Record PortfolioSyncRunResult := {
  synced_requestedAt : string;
  synced_valuationSource : Valuation.ValuationSource;
  synced_balanceSnapshot : BalanceSnapshotRecord;
  synced_positionSnapshot : PositionSnapshotRecord;
  synced_previousBalanceSnapshot : option BalanceSnapshotRecord;
  synced_previousPositionSnapshot : option PositionSnapshotRecord;
  synced_reconciliationSummary : ReconciliationSummary;
  synced_reconciliationRun : ReconciliationRunRecord;
}.

Abbreviation syncer A := (routine Sync.call js_error unit A).

(** ** The input *)

Definition requiredStringDataProperty (value key : string) : outcome unit :=
  throw_if (is_blank value) ("Portfolio sync input " ++ key ++ " must not be empty.").

(** The checks of the shape of the input are the model's types. *)
Definition snapshotRunInput (input : PortfolioSyncInput) : outcome PortfolioSyncInput :=
  _ ← requiredStringDataProperty (sync_exchangeAccountId input) "exchangeAccountId";
  _ ← match sync_requestedAt input with
      | None => Ret tt
      | Some requestedAt =>
          _ ← requiredStringDataProperty requestedAt "requestedAt";
          _ ← parseCandidatePilotTimestamp requestedAt "portfolio sync requestedAt";
          Ret tt
      end;
  Ret input.

(** ** Valuation *)

Definition isPositiveNumber (value : option num) : bool := from_option positive_price false value.

Definition listHeldManagedAssets (balances : list ExchangeBalance) : list SupportedAsset :=
  omap managed_asset
    (List.filter (fun balance => nltb zero (balance_quantity balance))
       (List.filter (fun balance => bool_decide (is_Some (managed_asset balance))) balances)).

Definition usesFallback (market fallback : PriceByAsset) (asset : SupportedAsset) : bool :=
  negb (isPositiveNumber (price_of market asset)) && isPositiveNumber (price_of fallback asset).

Definition valuation_source (heldAssets : list SupportedAsset) (market fallback : PriceByAsset)
    : Valuation.ValuationSource :=
  let usedFallback := existsb (usesFallback market fallback) heldAssets in
  let usedMarketPrice := existsb (fun asset => isPositiveNumber (price_of market asset)) heldAssets in
  if usedMarketPrice && usedFallback then Valuation.public_ticker_and_avg_buy_price_fallback
  else if usedMarketPrice then Valuation.public_ticker
  else Valuation.avg_buy_price_fallback.

(** The prices of what the market reader gave, or its error. *)
Definition valuation (balances : list ExchangeBalance) (market : PriceByAsset)
    (marketPriceError : option string) : outcome ValuationPrices :=
  let fallback := buildPriceByAssetFromExchangeBalances balances in
  let priceByAsset := spread_prices fallback market in
  let heldAssets := listHeldManagedAssets balances in
  let missingAssets :=
    List.filter (fun asset => negb (isPositiveNumber (price_of priceByAsset asset))) heldAssets in
  let suffix := match marketPriceError with
                | Some e => if e === "" then "" else " Public ticker error: " ++ e
                | None => ""
                end in
  _ ← throw_if (negb (length missingAssets =? 0)%nat)
        ("Unable to determine valuation prices for held assets: "
         ++ join "," (Asset.to_string <$> missingAssets) ++ "." ++ suffix);
  Ret {| val_priceByAsset := priceByAsset; val_source := valuation_source heldAssets market fallback |}.

(** ** The service *)

Section Service.
(** [this.dependencies] *)
Context (deps : PortfolioSyncDependencies).

Definition throwRuntimeOwnershipNotHeld {A} : syncer A :=
  throw (RuntimeOwnershipGuardError OwnershipCode.RUNTIME_OWNERSHIP_NOT_HELD
    "RUNTIME_OWNERSHIP_NOT_HELD: Runtime ownership is unavailable in this composition.").

(** [dependencies.runtimeOwnership.assertLocallyHeld()] *)
Definition assertLocallyHeld : syncer unit :=
  if sdep_hasRuntimeOwnership deps then await Sync.AssertLocallyHeld
  else throwRuntimeOwnershipNotHeld.

Definition sync_lift {A} (o : outcome A) : syncer A := lift_outcome PlainError o.

Definition resolve_requestedAt (input : PortfolioSyncInput) : syncer string :=
  match sync_requestedAt input with
  | Some requestedAt => mret requestedAt
  | None => if sdep_hasNow deps then await Sync.Now else await Sync.NewDate
  end.

(** The prices of the tickers, and the message of what was thrown instead. *)
Definition market_prices : syncer (PriceByAsset * option string) :=
  if sdep_hasMarketPriceReader deps then
    try_catch
      (tickers ← await (Sync.GetTickers UPBIT_SPOT_MARKETS);
       mret (buildPriceByAssetFromTickerSnapshots tickers, None))
      (fun error =>
         if isRuntimeOwnershipFailure error then throw error
         else mret (no_prices, Some (error_message "Unknown public ticker failure." error)))
  else mret (no_prices, None).

Definition resolveValuationPrices (balances : list ExchangeBalance) : syncer ValuationPrices :=
  '(market, marketPriceError) ← market_prices;
  sync_lift (valuation balances market marketPriceError).

Definition run_options (input : PortfolioSyncInput) (identity : ReconciliationRunIdentity)
    (snapshots : PortfolioSnapshots) : ReconciliationRunOptions := {|
  opt_source := Some (sync_source input);
  opt_portfolioSnapshots := Some snapshots;
  opt_runIdentity := Some identity;
|}.

(** The body of the [try]. *)
Definition sync_steps (input : PortfolioSyncInput) (identity : ReconciliationRunIdentity)
    : syncer PortfolioSyncRunResult :=
  let account := sync_exchangeAccountId input in
  let requestedAt := identity_startedAt identity in
  previousBalance ← await (Sync.GetLatestBalanceSnapshot account);
  _ ← assertLocallyHeld;
  previousPosition ← await (Sync.GetLatestPositionSnapshot account);
  _ ← assertLocallyHeld;
  balances ← await Sync.GetBalances;
  _ ← assertLocallyHeld;
  valuation ← resolveValuationPrices balances;
  _ ← assertLocallyHeld;
  balanceId ← await (Sync.CreateId "balance_snapshot");
  let balanceSnapshot := buildBalanceSnapshotRecord account balances (val_priceByAsset valuation)
                           SOURCE_RECONCILIATION requestedAt balanceId in
  positionId ← await (Sync.CreateId "position_snapshot");
  let positionSnapshot := buildPositionSnapshotRecord account balances (val_priceByAsset valuation)
                            SOURCE_RECONCILIATION requestedAt positionId in
  _ ← await (Sync.SaveBalanceSnapshot balanceSnapshot);
  _ ← assertLocallyHeld;
  _ ← await (Sync.SavePositionSnapshot positionSnapshot);
  _ ← assertLocallyHeld;
  let snapshots := {| previousBalanceSnapshot := previousBalance;
                      currentBalanceSnapshot := Some balanceSnapshot;
                      previousPositionSnapshot := previousPosition;
                      currentPositionSnapshot := Some positionSnapshot |} in
  result ← await (Sync.RunWithRecord account (run_options input identity snapshots));
  _ ← assertLocallyHeld;
  mret {| synced_requestedAt := requestedAt;
          synced_valuationSource := val_source valuation;
          synced_balanceSnapshot := balanceSnapshot;
          synced_positionSnapshot := positionSnapshot;
          synced_previousBalanceSnapshot := previousBalance;
          synced_previousPositionSnapshot := previousPosition;
          synced_reconciliationSummary := result_summary result;
          synced_reconciliationRun := result_reconciliationRun result |}.

Definition failed_summary (source : Trigger.ReconciliationTrigger) : ReconciliationSummary := {|
  sum_source := source;
  sum_status := RunStatus.ERROR;
  sum_issues := [];
  sum_candidateCount := 0;
  sum_processedCount := 0;
  sum_deferredCount := 0;
  sum_maxOrderLookupsPerRun := 0;
  sum_historyRecovery := None;
|}.

Definition failed_run (input : PortfolioSyncInput) (identity : ReconciliationRunIdentity)
    (error : js_error) : ReconciliationRunRecord := {|
  run_id := identity_id identity;
  run_exchangeAccountId := sync_exchangeAccountId input;
  run_status := RunStatus.ERROR;
  run_startedAt := identity_startedAt identity;
  run_completedAt := Some (identity_startedAt identity);
  run_summaryJson := stringify (summary_json (failed_summary (sync_source input)));
  run_errorMessage := Some (error_message "Unknown portfolio sync failure." error);
|}.

(** The body of the [catch]. *)
Definition record_failure {A} (input : PortfolioSyncInput) (identity : ReconciliationRunIdentity)
    (error : js_error) : syncer A :=
  if isRuntimeOwnershipFailure error then throw error
  else
    _ ← assertLocallyHeld;
    _ ← await (Sync.UpdateReconciliationRun (failed_run input identity error));
    throw error.

Definition sync_run (input : PortfolioSyncInput) : syncer PortfolioSyncRunResult :=
  runInput ← sync_lift (snapshotRunInput input);
  _ ← assertLocallyHeld;
  requestedAt ← resolve_requestedAt runInput;
  _ ← sync_lift (parseCandidatePilotTimestamp requestedAt "portfolio sync requestedAt");
  runId ← await (Sync.CreateId "recon_run");
  let identity := {| identity_id := runId; identity_startedAt := requestedAt |} in
  try_catch (sync_steps runInput identity) (record_failure runInput identity).

End Service.
