(* ===== verification/PortfolioSyncTheory.v ===== *)
(** * PortfolioSyncTheory: what every synchronisation keeps to

    Whatever its dependencies answer or throw: every call follows an assertion of
    ownership, reconciliation is given the snapshots that were stored, of the
    balances that were read, and a run that fails is recorded.  Of the snapshots:
    what is held is valued, and what is stored is read back by the drift
    detection of [PortfolioDrift]. *)

From Stdlib Require Import ZArith Lia.
From Stdlib Require Import Floats.SpecFloat.
From stdpp Require Import base option list strings.
From S2P Require Import Prelude Num Types Text Timestamp NumText JsMap Json JsonText.
From S2P Require Import OrderRecords Effects ExecutionRecords ReconciliationRecords.
From S2P Require Import ReconciliationHelpers PortfolioDrift StrategyContext.
From S2P Require Import PortfolioSync.

Local Open Scope string_scope.
Local Open Scope js_scope.
Local Open Scope bool_scope.

(** ** Valuation *)

Lemma price_of_spread prices overriding asset :
  price_of (spread_prices prices overriding) asset
  = match price_of overriding asset with Some p => Some p | None => price_of prices asset end.
Proof. by destruct asset. Qed.

Lemma price_of_set asset price prices asset' :
  price_of (set_price asset price prices) asset'
  = if decide (asset' = asset) then Some price else price_of prices asset'.
Proof. by destruct asset, asset'. Qed.

(** Every price there is, is positive. *)
Definition positive_prices (prices : PriceByAsset) : Prop :=
  forall asset p, price_of prices asset = Some p -> positive_price p = true.

Lemma positive_set asset price prices :
  positive_price price = true -> positive_prices prices -> positive_prices (set_price asset price prices).
Proof. intros Hp Hall asset' p. rewrite price_of_set. case_decide; [naive_solver|apply Hall]. Qed.

Lemma positive_fold {A} (step : PriceByAsset -> A -> PriceByAsset) l :
  (forall prices x, positive_prices prices -> positive_prices (step prices x)) ->
  forall prices, positive_prices prices -> positive_prices (foldl step prices l).
Proof. intros Hs. induction l as [|x l IH]; [done|]. intros prices Hp. cbn. auto. Qed.

Lemma no_prices_positive : positive_prices no_prices.
Proof. by intros []. Qed.

Lemma balance_prices_positive balances :
  positive_prices (buildPriceByAssetFromExchangeBalances balances).
Proof.
  apply positive_fold, no_prices_positive. intros prices b Hp. unfold balance_price_step.
  destruct (managed_asset b); [|done]. cbv zeta. destruct (positive_price _) eqn:E; [|done].
  by apply positive_set.
Qed.

Lemma ticker_prices_positive tickers :
  positive_prices (buildPriceByAssetFromTickerSnapshots tickers).
Proof.
  apply positive_fold, no_prices_positive. intros prices t Hp. unfold ticker_price_step. cbv zeta.
  destruct (positive_price _) eqn:E; [|done]. by apply positive_set.
Qed.

Lemma isPositiveNumber_some prices asset :
  positive_prices prices ->
  isPositiveNumber (price_of prices asset) = bool_decide (is_Some (price_of prices asset)).
Proof.
  intros Hp. specialize (Hp asset). destruct (price_of prices asset) as [p|]; [|done].
  cbn. by apply Hp.
Qed.

(** The price of the market, and without one the average price paid. *)
Definition best_price (market fallback : PriceByAsset) (asset : SupportedAsset) : option num :=
  match price_of market asset with Some p => Some p | None => price_of fallback asset end.

Lemma none_counted_iff {A} (f : A -> bool) l :
  (length (List.filter f l) =? 0)%nat = true <-> forall x, x ∈ l -> f x = false.
Proof.
  rewrite Nat.eqb_eq, length_zero_iff_nil. induction l as [|x l IH]; cbn.
  - split; [|done]. by intros _ x ?%elem_of_nil.
  - destruct (f x) eqn:E.
    + split; [done|]. intros H. specialize (H x ltac:(left)). congruence.
    + rewrite IH. split; [|by intros H y Hy; apply H; right].
      intros H y [->|Hy]%elem_of_cons; [done|by apply H].
Qed.

Lemma existsb_elem {A} (f : A -> bool) l : existsb f l = true <-> exists x, x ∈ l /\ f x = true.
Proof. rewrite existsb_exists. by setoid_rewrite list_elem_of_In. Qed.

Lemma valuation_source_spec heldAssets market fallback :
  positive_prices market -> positive_prices fallback ->
  let source := valuation_source heldAssets market fallback in
  let from_market asset := is_Some (price_of market asset) in
  let from_average asset := price_of market asset = None /\ is_Some (price_of fallback asset) in
  (source = Valuation.avg_buy_price_fallback <-> ~ exists a, a ∈ heldAssets /\ from_market a) /\
  (source = Valuation.public_ticker_and_avg_buy_price_fallback <->
   (exists a, a ∈ heldAssets /\ from_market a) /\ (exists a, a ∈ heldAssets /\ from_average a)) /\
  (source = Valuation.public_ticker <->
   (exists a, a ∈ heldAssets /\ from_market a) /\ ~ (exists a, a ∈ heldAssets /\ from_average a)).
Proof.
  intros Hm Hf source from_market from_average.
  assert (HM : existsb (fun a => isPositiveNumber (price_of market a)) heldAssets = true
               <-> exists a, a ∈ heldAssets /\ from_market a).
  { rewrite existsb_elem. apply exist_proper. intros a. apply and_iff_compat_l.
    rewrite isPositiveNumber_some by done. apply bool_decide_eq_true. }
  assert (HF : existsb (usesFallback market fallback) heldAssets = true
               <-> exists a, a ∈ heldAssets /\ from_average a).
  { rewrite existsb_elem. apply exist_proper. intros a. apply and_iff_compat_l.
    unfold usesFallback, from_average. rewrite !isPositiveNumber_some by done.
    rewrite andb_true_iff, negb_true_iff, bool_decide_eq_false, bool_decide_eq_true.
    by rewrite eq_None_not_Some. }
  unfold source, valuation_source. cbv zeta. rewrite <- HM, <- HF.
  destruct (existsb _ heldAssets), (existsb _ heldAssets); cbn; split_and!; split; intros; naive_solver.
Qed.

(** What is held is valued.  The account is valued exactly when every
    asset held has a positive price from the market or a positive average price
    paid; the price used is the market's where there is one, else the average;
    and the source that is reported says which of the two were used for the
    assets held. *)
Theorem held_assets_are_valued balances market error :
  positive_prices market ->
  let fallback := buildPriceByAssetFromExchangeBalances balances in
  let held := listHeldManagedAssets balances in
  match valuation balances market error with
  | Ret v =>
      (forall asset, asset ∈ held -> exists p,
         price_of (val_priceByAsset v) asset = Some p /\ positive_price p = true) /\
      (forall asset, price_of (val_priceByAsset v) asset = best_price market fallback asset) /\
      (val_source v = Valuation.avg_buy_price_fallback <->
       forall asset, asset ∈ held -> price_of market asset = None) /\
      (val_source v = Valuation.public_ticker <->
       held ≠ [] /\ forall asset, asset ∈ held -> is_Some (price_of market asset))
  | Throw _ => exists asset, asset ∈ held /\ best_price market fallback asset = None
  end.
Proof.
  intros Hm fallback held. unfold valuation. fold fallback held. cbv zeta.
  pose proof (balance_prices_positive balances) as Hf. fold fallback in Hf.
  assert (Hs : positive_prices (spread_prices fallback market)).
  { intros a p. rewrite price_of_spread. specialize (Hm a). specialize (Hf a).
    destruct (price_of market a); [apply Hm|apply Hf]. }
  destruct (length _ =? 0)%nat eqn:Hmissing.
  2: { cbn [negb]. apply not_true_iff_false in Hmissing. rewrite none_counted_iff in Hmissing.
       destruct (decide (Exists (fun a => best_price market fallback a = None) held)) as [He|He].
       - apply Exists_exists in He as (a & Ha & Hb). by exists a.
       - exfalso. apply Hmissing. intros a Ha. apply negb_false_iff.
         rewrite isPositiveNumber_some, price_of_spread by done. fold (best_price market fallback a).
         apply bool_decide_eq_true, not_eq_None_Some. intros Hn. apply He, Exists_exists. by exists a. }
  cbn [negb throw_if mbind outcome_bind]. rewrite none_counted_iff in Hmissing. cbn [val_priceByAsset val_source].
  assert (Hpos : forall a, a ∈ held -> is_Some (best_price market fallback a)).
  { intros a Ha. specialize (Hmissing a Ha). apply negb_false_iff in Hmissing.
    rewrite isPositiveNumber_some, price_of_spread in Hmissing by done.
    by apply bool_decide_eq_true in Hmissing. }
  pose proof (valuation_source_spec held market fallback Hm Hf) as (Havg & _ & Hpub). cbv zeta in Havg, Hpub.
  split_and!.
  - intros a Ha. rewrite price_of_spread. fold (best_price market fallback a).
    destruct (Hpos a Ha) as [p Hp]. exists p. split; [done|]. apply (Hs a). by rewrite price_of_spread.
  - intros a. apply price_of_spread.
  - rewrite Havg. split.
    + intros H a Ha. apply eq_None_not_Some. naive_solver.
    + intros H (a & Ha & Hsome). apply eq_None_not_Some in Hsome; [done|]. by apply H.
  - rewrite Hpub. split.
    + intros [(a & Ha & _) Hn]. split; [by intros ->; apply elem_of_nil in Ha|]. intros a' Ha'.
      apply not_eq_None_Some. intros Hnone. apply Hn. exists a'. split; [done|]. split; [done|].
      pose proof (Hpos a' Ha') as Hp. unfold best_price in Hp. by rewrite Hnone in Hp.
    + intros [Hne Hall]. split.
      * destruct held as [|a held']; [done|]. exists a. split; [left|]. apply Hall. left.
      * intros (a & Ha & Hnone & _). specialize (Hall a Ha). rewrite Hnone in Hall. by destruct Hall.
Qed.

(** ** Reading the snapshots back *)

(** The sum of the quantities of a currency, in the order of the balances. *)
Definition currency_total (amount : ExchangeBalance -> num) (currency : string)
    (balances : list ExchangeBalance) : num :=
  foldl nadd zero (amount <$> List.filter (fun b => eb_currency b === currency) balances).

(** A quantity as the text of a position gives it. *)
Definition printed_quantity (b : ExchangeBalance) : num :=
  Number_of_string (num_to_string (balance_quantity b)).

Lemma balances_textual balances : textual (JArr (balance_json <$> balances)) = true.
Proof. cbn. induction balances as [|b balances IH]; [done|]. cbn. exact IH. Qed.

Lemma positions_textual positions : textual (JArr (position_json <$> positions)) = true.
Proof.
  cbn. induction positions as [|p positions IH]; [done|]. cbn [fmap list_fmap forallb].
  rewrite IH. destruct p as [? ? ? a m v e ?]. by destruct a, m, v, e.
Qed.

Lemma tryParseJson_array l : textual (JArr l) = true -> tryParseJson (stringify (JArr l)) = Some (JArr l).
Proof. intros H. unfold tryParseJson. by rewrite JSON_parse_textual. Qed.

(** An amount is added to the holding of its currency. *)
Lemma add_holding_currency h c amount :
  add_holding h (Some (JStr c)) amount = {|
    KRW := if c === "KRW" then nadd (KRW h) amount else KRW h;
    BTC := if c === "BTC" then nadd (BTC h) amount else BTC h;
    ETH := if c === "ETH" then nadd (ETH h) amount else ETH h |}.
Proof. unfold add_holding. destruct h. repeat case_bool_decide; simplify_eq/=; done. Qed.

Lemma filter_cons_currency b balances currency amount start :
  foldl nadd start (amount <$> List.filter (fun b => eb_currency b === currency) (b :: balances))
  = foldl nadd (if eb_currency b === currency then nadd start (amount b) else start)
      (amount <$> List.filter (fun b => eb_currency b === currency) balances).
Proof. cbn [List.filter]. by destruct (eb_currency b === currency). Qed.

(** The balances that are read back from a stored snapshot. *)
Lemma stored_balances_read_back account balances prices source at_ id :
  parseManagedBalances (Some (buildBalanceSnapshotRecord account balances prices source at_ id))
  = Ret (Some {| KRW := currency_total balance_quantity "KRW" balances;
                 BTC := currency_total balance_quantity "BTC" balances;
                 ETH := currency_total balance_quantity "ETH" balances |}).
Proof.
  unfold parseManagedBalances. cbn [mbind option_bind buildBalanceSnapshotRecord bal_balancesJson].
  rewrite tryParseJson_array by apply balances_textual. cbn [reduce].
  match goal with |- context [foldM_outcome ?f ?s _] => set (step := f) end.
  assert (H : forall l h, foldM_outcome step h (balance_json <$> l) = Ret {|
    KRW := foldl nadd (KRW h) (balance_quantity <$> List.filter (fun b => eb_currency b === "KRW") l);
    BTC := foldl nadd (BTC h) (balance_quantity <$> List.filter (fun b => eb_currency b === "BTC") l);
    ETH := foldl nadd (ETH h) (balance_quantity <$> List.filter (fun b => eb_currency b === "ETH") l) |}).
  { induction l as [|b l IH]; intros h; [by destruct h|]. cbn [fmap list_fmap foldM_outcome].
    assert (Hstep : step h (balance_json b)
                    = Ret (add_holding h (Some (JStr (eb_currency b))) (balance_quantity b))) by done.
    rewrite Hstep. cbn [mbind outcome_bind]. rewrite IH, add_holding_currency. cbn [KRW BTC ETH].
    by rewrite !filter_cons_currency. }
  by rewrite H.
Qed.

(** Of the balances those that a position is made of. *)
Lemma position_step h b prices at_ l :
  position_snapshots (b :: l) prices at_
  = (option_list ((fun asset => position_snapshot prices at_ asset b) <$> managed_asset b)
     ++ position_snapshots l prices at_)%list /\
  match managed_asset b with
  | None => eb_currency b ≠ "BTC" /\ eb_currency b ≠ "ETH"
  | Some asset => eb_currency b = Asset.to_string asset /\
      add_holding h (Some (JStr (Asset.to_string asset))) (printed_quantity b)
      = {| KRW := KRW h;
           BTC := if eb_currency b === "BTC" then nadd (BTC h) (printed_quantity b) else BTC h;
           ETH := if eb_currency b === "ETH" then nadd (ETH h) (printed_quantity b) else ETH h |}
  end.
Proof.
  unfold position_snapshots. cbn [omap list_omap]. unfold managed_asset.
  destruct (eb_currency b === "BTC") eqn:E1; cbn; [|destruct (eb_currency b === "ETH") eqn:E2; cbn].
  - apply bool_decide_eq_true in E1. rewrite E1. by destruct h.
  - apply bool_decide_eq_true in E2. rewrite E2. by destruct h.
  - by apply bool_decide_eq_false in E1, E2.
Qed.

(** The quantities that are read back from stored positions. *)
Lemma stored_positions_read_back account balances prices source at_ id :
  parseManagedPositionQuantities
    (Some (buildPositionSnapshotRecord account balances prices source at_ id))
  = Ret (Some {| KRW := zero;
                 BTC := currency_total printed_quantity "BTC" balances;
                 ETH := currency_total printed_quantity "ETH" balances |}).
Proof.
  unfold parseManagedPositionQuantities.
  cbn [mbind option_bind buildPositionSnapshotRecord pos_positionsJson].
  rewrite tryParseJson_array by apply positions_textual. cbn [reduce].
  match goal with |- context [foldM_outcome ?f ?s _] => set (step := f) end.
  assert (H : forall l h, foldM_outcome step h (position_json <$> position_snapshots l prices at_)
    = Ret {|
    KRW := KRW h;
    BTC := foldl nadd (BTC h) (printed_quantity <$> List.filter (fun b => eb_currency b === "BTC") l);
    ETH := foldl nadd (ETH h) (printed_quantity <$> List.filter (fun b => eb_currency b === "ETH") l) |}).
  { induction l as [|b l IH]; intros h; [by destruct h|].
    destruct (position_step h b prices at_ l) as [-> Hb]. rewrite !filter_cons_currency.
    destruct (managed_asset b) as [asset|]; cbn [fmap option_fmap option_map].
    - destruct Hb as [_ Hb].
      change (option_list (Some ?x) ++ ?l')%list with (x :: l'). rewrite fmap_cons.
      cbn [foldM_outcome].
      assert (Hstep : step h (position_json (position_snapshot prices at_ asset b))
        = Ret (add_holding h (Some (JStr (Asset.to_string asset))) (printed_quantity b)))
        by (by destruct asset).
      rewrite Hstep, Hb. cbn [mbind outcome_bind]. by rewrite IH.
    - destruct Hb as [H1 H2]. change (option_list None ++ ?l')%list with l'. rewrite IH. by rewrite (bool_decide_eq_false_2 _ H1), (bool_decide_eq_false_2 _ H2). }
  by rewrite H.
Qed.

(** ** An unchanged portfolio *)

Lemma nsub_self x : is_finite x = true -> nsub x x = zero.
Proof.
  destruct x as [s|s| |s m e]; try done; intros _; [by destruct s|].
  unfold nsub, SFsub. rewrite Z.min_id. unfold binary_normalize.
  match goal with |- context [match ?z with Z0 => _ | _ => _ end] => assert (Hz : z = 0%Z) end.
  { destruct s; cbn; lia. }
  by rewrite Hz.
Qed.

(** No fill is taken into account. *)
Lemma no_fill_explains fills before after grace :
  selectFillsWithinSnapshotWindow fills before after grace = [] ->
  aggregateFillDeltas (selectFillsWithinSnapshotWindow fills before after grace) = no_holdings.
Proof. by intros ->. Qed.

(** An unchanged portfolio is no drift.  What a synchronisation stores of
    the balances it read is read back by the drift detection as the sums of the
    free and the locked amounts of each currency, whatever else the snapshots
    hold; so when a second synchronisation reads the same balances and no fill
    of the exchange falls between the two, both comparisons are made and find
    nothing, at whatever prices the two were valued. *)
Theorem unchanged_portfolio_is_no_drift account balances prices prices' at_ at' ids fills :
  forallb (fun currency => is_finite (currency_total balance_quantity currency balances))
    ["KRW"; "BTC"; "ETH"] = true ->
  forallb (fun currency => is_finite (currency_total printed_quantity currency balances))
    ["BTC"; "ETH"] = true ->
  selectFillsWithinSnapshotWindow fills at_ at' 0 = [] ->
  let balanceSnapshot prices at_ id :=
    Some (buildBalanceSnapshotRecord account balances prices SOURCE_RECONCILIATION at_ id) in
  let positionSnapshot prices at_ id :=
    Some (buildPositionSnapshotRecord account balances prices SOURCE_RECONCILIATION at_ id) in
  let '(id1, id2, id3, id4) := ids in
  parseManagedBalances (balanceSnapshot prices at_ id1) = Ret (Some {|
    KRW := currency_total balance_quantity "KRW" balances;
    BTC := currency_total balance_quantity "BTC" balances;
    ETH := currency_total balance_quantity "ETH" balances |}) /\
  detectPortfolioDrift
    {| previousBalanceSnapshot := balanceSnapshot prices at_ id1;
       currentBalanceSnapshot := balanceSnapshot prices' at' id2;
       previousPositionSnapshot := positionSnapshot prices at_ id3;
       currentPositionSnapshot := positionSnapshot prices' at' id4 |} fills
  = Ret {| findings := []; comparedBalance := true; comparedPositions := true |}.
Proof.
  intros Hb Hp Hfills balanceSnapshot positionSnapshot. destruct ids as [[[id1 id2] id3] id4].
  split; [apply stored_balances_read_back|]. cbn in Hb, Hp. destruct_bools.
  unfold detectPortfolioDrift, detectBalanceDrift, detectPositionDrift.
  cbn [previousBalanceSnapshot currentBalanceSnapshot previousPositionSnapshot currentPositionSnapshot].
  unfold balanceSnapshot, positionSnapshot. rewrite !stored_balances_read_back, !stored_positions_read_back.
  cbn [mbind outcome_bind bal_capturedAt pos_capturedAt buildBalanceSnapshotRecord
    buildPositionSnapshotRecord]. unfold confirm. rewrite Hfills.
  unfold buildBalanceDriftFinding, buildPositionDriftFinding, asset_residual, MANAGED_ASSETS.
  cbn [aggregateFillDeltas foldl List.filter KRW BTC ETH holding no_holdings].
  by rewrite !nsub_self by done.
Qed.

(** ** Calls *)

Abbreviation event := (Effects.event Sync.call js_error).
Abbreviation history := (list event).

(** Clocks and identifiers. *)
Definition local_call {B} (e : Sync.call B) : bool :=
  match e with Sync.Now | Sync.NewDate | Sync.CreateId _ => true | _ => false end.

Definition is_assertion {B} (e : Sync.call B) : bool :=
  match e with Sync.AssertLocallyHeld => true | _ => false end.

(** The calls of a repository, the exchange or reconciliation. *)
Definition dependency {B} (e : Sync.call B) : bool := negb (local_call e) && negb (is_assertion e).

(** Clocks and identifiers do not throw, and an assertion that fails throws an
    ownership failure. *)
Definition may_answer (B : Type) (e : Sync.call B) (r : result js_error B) : Prop :=
  match r with
  | Ok _ => True
  | Err x => local_call e = false /\ (is_assertion e = true -> isRuntimeOwnershipFailure x = true)
  end.

(** The newest call but clocks and identifiers was an assertion that succeeded. *)
Fixpoint held (h : history) : bool :=
  match h with
  | [] => false
  | Asked e r :: h' =>
      if local_call e then held h'
      else is_assertion e && match r with Ok _ => true | Err _ => false end
  end.

Definition answered_as {B} (e : Sync.call B) (v : B) (ev : event) : Prop := ev = Asked e (Ok v).

Abbreviation held_now := (Asked Sync.AssertLocallyHeld (Ok tt) : event).

(** ** What a synchronisation reads *)

Section Guarantees.
Context (deps : PortfolioSyncDependencies) (input : PortfolioSyncInput).

(** What was read of the account, and the identifiers it was stored under. *)
Record Reading := {
  rd_identity : ReconciliationRunIdentity;
  rd_previousBalance : option BalanceSnapshotRecord;
  rd_previousPosition : option PositionSnapshotRecord;
  rd_balances : list ExchangeBalance;
  rd_market : PriceByAsset;
  rd_marketError : option string;
  rd_valuation : ValuationPrices;
  rd_balanceId : string;
  rd_positionId : string;
}.

(** What the market reader answered, as prices. *)
Definition priced (market : PriceByAsset) (error : option string) (ev : event) : Prop :=
  (exists tickers, answered_as (Sync.GetTickers UPBIT_SPOT_MARKETS) tickers ev /\
     market = buildPriceByAssetFromTickerSnapshots tickers /\ error = None) \/
  (exists x, ev = Asked (Sync.GetTickers UPBIT_SPOT_MARKETS) (Err x) /\
     market = no_prices /\ error = Some (error_message "Unknown public ticker failure." x)).

Definition market_reads (rd : Reading) : list (event -> Prop) :=
  if sdep_hasMarketPriceReader deps then [priced (rd_market rd) (rd_marketError rd)] else [].

Definition account_reads (rd : Reading) : list (event -> Prop) :=
  [answered_as Sync.GetBalances (rd_balances rd);
   answered_as (Sync.GetLatestPositionSnapshot (sync_exchangeAccountId input)) (rd_previousPosition rd);
   answered_as (Sync.GetLatestBalanceSnapshot (sync_exchangeAccountId input)) (rd_previousBalance rd);
   answered_as (Sync.CreateId "recon_run") (identity_id (rd_identity rd))].

(** The balances, the previous snapshots and the prices were read, and the
    account can be valued at them. *)
Definition was_read (rd : Reading) (h : history) : Prop :=
  happened (market_reads rd ++ account_reads rd)%list h /\
  (sdep_hasMarketPriceReader deps = false -> rd_market rd = no_prices) /\
  valuation (rd_balances rd) (rd_market rd) (rd_marketError rd) = Ret (rd_valuation rd).

Definition balance_record (rd : Reading) : BalanceSnapshotRecord :=
  buildBalanceSnapshotRecord (sync_exchangeAccountId input) (rd_balances rd)
    (val_priceByAsset (rd_valuation rd)) SOURCE_RECONCILIATION (identity_startedAt (rd_identity rd))
    (rd_balanceId rd).

Definition position_record (rd : Reading) : PositionSnapshotRecord :=
  buildPositionSnapshotRecord (sync_exchangeAccountId input) (rd_balances rd)
    (val_priceByAsset (rd_valuation rd)) SOURCE_RECONCILIATION (identity_startedAt (rd_identity rd))
    (rd_positionId rd).

Definition reconciliation_options (rd : Reading) : ReconciliationRunOptions :=
  run_options input (rd_identity rd) {|
    previousBalanceSnapshot := rd_previousBalance rd;
    currentBalanceSnapshot := Some (balance_record rd);
    previousPositionSnapshot := rd_previousPosition rd;
    currentPositionSnapshot := Some (position_record rd) |}.

(** The two snapshots were stored after everything was read. *)
Definition was_stored (rd : Reading) (h : history) : Prop :=
  was_read rd h /\
  happened ([answered_as (Sync.SavePositionSnapshot (position_record rd)) tt;
             answered_as (Sync.SaveBalanceSnapshot (balance_record rd)) tt]
            ++ market_reads rd ++ account_reads rd)%list h.

(** What has to have been done before a call is made. *)
Definition justified {B} (e : Sync.call B) (h : history) : Prop :=
  match e with
  | Sync.SaveBalanceSnapshot record => exists rd, record = balance_record rd /\ was_read rd h
  | Sync.SavePositionSnapshot record => exists rd, record = position_record rd /\ was_read rd h /\
      happened [answered_as (Sync.SaveBalanceSnapshot (balance_record rd)) tt] h
  | Sync.RunWithRecord account options => exists rd,
      account = sync_exchangeAccountId input /\ options = reconciliation_options rd /\
      was_stored rd h
  | Sync.UpdateReconciliationRun record => exists identity error,
      record = failed_run input identity error /\ isRuntimeOwnershipFailure error = false /\
      happened [answered_as (Sync.CreateId "recon_run") (identity_id identity)] h
  | _ => True
  end.

Definition permitted (h : history) (B : Type) (e : Sync.call B) : Prop :=
  (dependency e = true -> held h = true) /\ justified e h.

Definition not_update (ev : event) : Prop :=
  match ev with Asked (Sync.UpdateReconciliationRun _) _ => False | _ => True end.

(** A result is that of the reconciliation over the stored snapshots. *)
Definition completed (res : PortfolioSyncRunResult) (h : history) : Prop :=
  Forall not_update h /\ held h = true /\
  exists rd result,
    was_stored rd h /\
    happened [answered_as (Sync.RunWithRecord (sync_exchangeAccountId input)
                             (reconciliation_options rd)) result] h /\
    res = {| synced_requestedAt := identity_startedAt (rd_identity rd);
             synced_valuationSource := val_source (rd_valuation rd);
             synced_balanceSnapshot := balance_record rd;
             synced_positionSnapshot := position_record rd;
             synced_previousBalanceSnapshot := rd_previousBalance rd;
             synced_previousPositionSnapshot := rd_previousPosition rd;
             synced_reconciliationSummary := result_summary result;
             synced_reconciliationRun := result_reconciliationRun result |}.

(** ** Steps *)

Abbreviation works m Q h :=
  (wp may_answer permitted m (fun _ r h' => Q r h') tt h).

Lemma step_call {A B} (e : Sync.call A) (k : A -> syncer B)
    (Q : result js_error B -> history -> Prop) h :
  permitted h A e ->
  (forall v, works (k v) Q (Asked e (Ok v) :: h)) ->
  (forall x, may_answer A e (Err x) -> Q (Err x) (Asked e (Err x) :: h)) ->
  works (v ← await e; k v) Q h.
Proof.
  intros Hp Hok Herr. apply wp_bind, wp_await; [done|]. intros [v|x] Hr; [apply Hok|by apply Herr].
Qed.

(** An assertion, which throws nothing but an ownership failure. *)
Lemma step_assert {B} (k : syncer B) (Q : result js_error B -> history -> Prop) h :
  Forall not_update h ->
  works k Q (held_now :: h) ->
  (forall x h', isRuntimeOwnershipFailure x = true -> Forall not_update h' -> Q (Err x) h') ->
  works (_ ← assertLocallyHeld deps; k) Q h.
Proof.
  intros Hn Hok Herr. unfold assertLocallyHeld. destruct (sdep_hasRuntimeOwnership deps).
  - apply step_call; [by split|by intros []|]. intros x [_ Hx].
    apply Herr; [by apply Hx|by constructor].
  - by apply Herr.
Qed.

Lemma local_permitted h {B} (e : Sync.call B) : local_call e = true -> permitted h B e.
Proof. intros H. split; [|by destruct e]. unfold dependency. by rewrite H. Qed.

Lemma local_may_not_throw {B} (e : Sync.call B) x :
  local_call e = true -> may_answer B e (Err x) -> False.
Proof. intros H [H' _]. congruence. Qed.

(** The events of a list, one after another. *)
Ltac seen :=
  repeat first [eassumption
               | apply happened_now; [unfold answered_as; reflexivity|]
               | apply happened_before].

Ltac no_update := intros; cbn; repeat first [assumption | apply Forall_cons_2; [exact I|]].

Lemma market_prices_reads h rd0 :
  held h = true -> Forall not_update h -> happened (account_reads rd0) h ->
  works (market_prices deps)
    (fun r h' => Forall not_update h' /\
       match r with
       | Ok (market, error) =>
           (sdep_hasMarketPriceReader deps = false -> market = no_prices) /\
           forall v balanceId positionId,
           let rd := {| rd_identity := rd_identity rd0;
             rd_previousBalance := rd_previousBalance rd0;
             rd_previousPosition := rd_previousPosition rd0; rd_balances := rd_balances rd0;
             rd_market := market; rd_marketError := error; rd_valuation := v;
             rd_balanceId := balanceId; rd_positionId := positionId |} in
           happened (market_reads rd ++ account_reads rd)%list h'
       | Err _ => True
       end) h.
Proof.
  intros Hh Hn Hr. unfold market_prices, market_reads.
  destruct (sdep_hasMarketPriceReader deps); [|by split].
  apply wp_try_catch, wp_bind, wp_await; [by split|]. intros [tickers|x] _.
  - apply wp_ret. split; [by constructor|]. split; [done|]. intros v b p.
    apply happened_now; [left; by eexists|exact Hr].
  - destruct (isRuntimeOwnershipFailure x); [apply wp_throw|apply wp_ret];
      (split; [by constructor|]); [done|]. split; [done|]. intros v b p.
    apply happened_now; [right; by eexists|exact Hr].
Qed.

(** ** The body *)

Definition steps_post (r : result js_error PortfolioSyncRunResult) (h : history) : Prop :=
  match r with Ok res => completed res h | Err _ => Forall not_update h end.

(** From the valued account to the result. *)
Lemma store_and_reconcile rd h :
  held h = true -> Forall not_update h -> was_read rd h ->
  works
    (_ ← await (Sync.SaveBalanceSnapshot (balance_record rd));
     _ ← assertLocallyHeld deps;
     _ ← await (Sync.SavePositionSnapshot (position_record rd));
     _ ← assertLocallyHeld deps;
     result ← await (Sync.RunWithRecord (sync_exchangeAccountId input) (reconciliation_options rd));
     _ ← assertLocallyHeld deps;
     mret {| synced_requestedAt := identity_startedAt (rd_identity rd);
             synced_valuationSource := val_source (rd_valuation rd);
             synced_balanceSnapshot := balance_record rd;
             synced_positionSnapshot := position_record rd;
             synced_previousBalanceSnapshot := rd_previousBalance rd;
             synced_previousPositionSnapshot := rd_previousPosition rd;
             synced_reconciliationSummary := result_summary result;
             synced_reconciliationRun := result_reconciliationRun result |})
    steps_post h.
Proof.
  intros Hh Hn Hr. assert (Hread := Hr). destruct Hread as (Hreads & Hreader & Hval).
  apply (step_call _ _ steps_post); [by split; [|exists rd]| |no_update]. intros [].
  apply (step_assert _ steps_post); [no_update| |no_update].
  set (h1 := _ :: _ :: h).
  assert (H1 : was_read rd h1) by (by split; [seen|]).
  assert (Hs1 : happened ([answered_as (Sync.SaveBalanceSnapshot (balance_record rd)) tt]
                 ++ market_reads rd ++ account_reads rd)%list h1) by (unfold h1; seen).
  assert (Hn1 : Forall not_update h1) by (by repeat constructor).
  apply (step_call _ _ steps_post); [split; [done|]| |no_update].
  { exists rd. split_and!; [done|done|]. by eapply happened_prefix. }
  intros []. apply (step_assert _ steps_post); [no_update| |no_update].
  set (h2 := _ :: _ :: h1).
  assert (H2 : was_stored rd h2) by (by split; [split; [unfold h2; seen; apply H1|]|unfold h2; seen]).
  apply (step_call _ _ steps_post); [by split; [|exists rd]| |no_update]. intros result.
  apply (step_assert _ steps_post); [no_update| |done]. apply wp_ret. split; [|split; [done|]].
  - by repeat constructor.
  - exists rd, result. split_and!; [|by seen; constructor|done].
    destruct H2 as [[Hr2 Hv2] Hs2]. by split; [split; [seen|]|seen].
Qed.

Lemma sync_steps_works identity h :
  held h = true -> Forall not_update h ->
  happened [answered_as (Sync.CreateId "recon_run") (identity_id identity)] h ->
  works (sync_steps deps input identity) steps_post h.
Proof.
  intros Hh Hn Hid. unfold sync_steps. cbv zeta.
  apply (step_call _ _ steps_post); [by split| |no_update]. intros previousBalance.
  apply (step_assert _ steps_post); [no_update| |no_update].
  apply (step_call _ _ steps_post); [by split| |no_update]. intros previousPosition.
  apply (step_assert _ steps_post); [no_update| |no_update].
  apply (step_call _ _ steps_post); [by split| |no_update]. intros balances.
  apply (step_assert _ steps_post); [no_update| |no_update].
  set (h1 := _ :: _ :: _ :: _ :: _ :: _ :: h).
  set (rd0 := {| rd_identity := identity; rd_previousBalance := previousBalance;
    rd_previousPosition := previousPosition; rd_balances := balances; rd_market := no_prices;
    rd_marketError := None;
    rd_valuation := {| val_priceByAsset := no_prices; val_source := Valuation.public_ticker |};
    rd_balanceId := ""; rd_positionId := "" |}).
  assert (H1 : happened (account_reads rd0) h1) by (unfold h1, account_reads; cbn; seen).
  apply wp_bind. unfold resolveValuationPrices. apply wp_bind.
  eapply wp_mono; [|apply (market_prices_reads h1 rd0); [done|by repeat constructor|done]].
  intros [] [[market error]|x] h2 [Hn2 Hp]; [|exact Hn2]. destruct Hp as [Hreader Hp].
  apply wp_lift; [|intros; exact Hn2]. intros v Hv. apply (step_assert _ steps_post); [no_update| |no_update].
  apply (step_call _ _ steps_post); [by apply local_permitted| |no_update]. intros balanceId.
  apply (step_call _ _ steps_post); [by apply local_permitted| |no_update]. intros positionId.
  pose proof (store_and_reconcile {| rd_identity := identity; rd_previousBalance := previousBalance;
    rd_previousPosition := previousPosition; rd_balances := balances; rd_market := market;
    rd_marketError := error; rd_valuation := v; rd_balanceId := balanceId;
    rd_positionId := positionId |}) as Hsr.
  apply Hsr; [done|by repeat constructor|]. split; [|done]. do 3 apply happened_before. apply Hp.
Qed.

(** ** The whole run *)

(** Nothing was asked of a dependency. *)
Definition nothing_asked (h : history) : Prop :=
  Forall (fun ev => match ev with Asked e _ => dependency e = false end) h.

(** How a run that ends with an error accounts for it: the ownership was lost,
    the input was refused, or the failure of the run was recorded, last. *)
Definition accounted (x : js_error) (h : history) : Prop :=
  (isRuntimeOwnershipFailure x = true /\ Forall not_update h) \/
  (exists message, x = PlainError message /\ nothing_asked h) \/
  (exists identity error answer older,
     h = Asked (Sync.UpdateReconciliationRun (failed_run input identity error)) answer :: older /\
     isRuntimeOwnershipFailure error = false /\ Forall not_update older /\
     happened [answered_as (Sync.CreateId "recon_run") (identity_id identity)] older /\
     (answer = Ok tt /\ x = error \/ answer = Err x)).

Definition run_post (r : result js_error PortfolioSyncRunResult) (h : history) : Prop :=
  match r with Ok res => completed res h | Err x => accounted x h end.

Lemma record_failure_works identity x h :
  Forall not_update h ->
  happened [answered_as (Sync.CreateId "recon_run") (identity_id identity)] h ->
  works (record_failure deps input identity x) run_post h.
Proof.
  intros Hn Hid. unfold record_failure. destruct (isRuntimeOwnershipFailure x) eqn:Hx; [by left|].
  apply (step_assert _ run_post); [done| |by left].
  assert (Hid' : happened [answered_as (Sync.CreateId "recon_run") (identity_id identity)] (held_now :: h))
    by (by apply happened_before).
  assert (Hn' : Forall not_update (held_now :: h)) by (by constructor).
  apply (step_call _ _ run_post); [by split; [|exists identity, x]|..].
  - intros []. apply wp_throw. right. right. exists identity, x, (Ok tt), (held_now :: h). auto 10.
  - intros x' _. right. right. exists identity, x, (Err x'), (held_now :: h). auto 10.
Qed.

Lemma snapshotRunInput_same i i' : snapshotRunInput i = Ret i' -> i' = i.
Proof.
  unfold snapshotRunInput. intros (? & _ & H)%bind_Ret. apply bind_Ret in H as (? & _ & H).
  by injection H.
Qed.

Lemma sync_run_works : works (sync_run deps input) run_post [].
Proof.
  unfold sync_run. apply wp_bind, wp_lift.
  2: { intros m _. right. left. exists m. split; [done|constructor]. }
  intros i Hi%snapshotRunInput_same. subst i. apply (step_assert _ run_post); [constructor| |left; by split].
  apply wp_bind.
  assert (Ht : forall h, held h = true -> Forall not_update h ->
    nothing_asked h -> forall requestedAt,
    works (_ ← sync_lift (parseCandidatePilotTimestamp requestedAt "portfolio sync requestedAt");
      runId ← await (Sync.CreateId "recon_run");
      let identity := {| identity_id := runId; identity_startedAt := requestedAt |} in
      try_catch (sync_steps deps input identity) (record_failure deps input identity)) run_post h).
  { intros h Hh Hn Hd requestedAt. apply wp_bind, wp_lift; [|intros m _; right; left; by exists m].
    intros _ _. apply (step_call _ _ run_post); [by apply local_permitted| |].
    2: { intros x Hx. by apply local_may_not_throw in Hx. }
    intros runId. cbv zeta. apply wp_try_catch.
    set (h' := _ :: h).
    assert (Hid : happened [answered_as (Sync.CreateId "recon_run")
      (identity_id {| identity_id := runId; identity_startedAt := requestedAt |})] h')
      by (apply happened_now; [done|constructor]).
    eapply wp_mono; [|apply wp_grows, sync_steps_works; [done|by constructor|exact Hid]].
    intros [] [res|x] h'' [[t ->] Hpost]; [done|].
    apply record_failure_works; [exact Hpost|by apply happened_app]. }
  unfold resolve_requestedAt. destruct (sync_requestedAt input) as [requestedAt|].
  - apply wp_ret. apply Ht; [done|by repeat constructor..].
  - destruct (sdep_hasNow deps); (apply wp_await; [by apply local_permitted|]); intros [t|x] Hr;
      try (by apply local_may_not_throw in Hr); apply Ht; try done; by repeat constructor.
Qed.

(** A synchronisation that was answered [h], newest first. *)
Definition synchronises (h : history) (r : result js_error PortfolioSyncRunResult) : Prop :=
  runs may_answer (sync_run deps input tt) [] h (tt, r).

Lemma synchronises_sound h r :
  synchronises h r ->
  run_post r h /\
  forall newer older B (e : Sync.call B) a,
    h = (newer ++ Asked e a :: older)%list -> permitted older B e.
Proof.
  intros Hr. destruct (wp_sound _ _ _ _ _ _ _ _ _ sync_run_works Hr) as [HQ Hall].
  split; [done|]. intros newer older B e a ->. eapply Hall; [done|]. cbn. lia.
Qed.



End Guarantees.

(** ** Synchronisations of a sample account

    An account that holds won, bitcoin and ether is synchronised with and without
    tickers; the exchange fails in another run. *)

Local Open Scope string_scope.
Local Open Scope js_scope.
Local Open Scope bool_scope.

(** ** The account *)

Definition held_balance (currency balance locked avgBuyPrice : string) : ExchangeBalance := {|
  eb_currency := currency; eb_balance := balance; eb_locked := locked;
  eb_avgBuyPrice := avgBuyPrice; eb_unitCurrency := "KRW";
|}.

Definition sample_balances : list ExchangeBalance :=
  [held_balance "KRW" "1000000.5" "5000" "0"; held_balance "BTC" "0.015" "0.005" "90000000";
   held_balance "ETH" "0.3" "0" "0"; held_balance "XRP" "12" "0" "700"].

Definition sample_tickers : list UpbitTickerSnapshot :=
  [{| tick_market := Market.KRW_BTC; tick_trade_price := num_of_Z 100000000;
      tick_trade_timestamp := num_of_Z 1787284799000 |};
   {| tick_market := Market.KRW_ETH; tick_trade_price := num_of_Z 5000000;
      tick_trade_timestamp := num_of_Z 1787284799000 |}].

Definition sample_market : PriceByAsset := buildPriceByAssetFromTickerSnapshots sample_tickers.

(** The account is worth its won, and its coins at the prices of the market. *)
Example sample_value :
  num_to_string (calculateTotalKrwValue sample_balances sample_market) = "4505000.5".
Proof. vm_compute. reflexivity. Qed.

(** Without tickers ether has no price. *)
Example sample_unvalued :
  throws (valuation sample_balances no_prices (Some "429")) = true.
Proof. vm_compute. reflexivity. Qed.

Lemma held_assets_are_valued_witness :
  exists v, valuation sample_balances sample_market None = Ret v /\
            val_source v = Valuation.public_ticker.
Proof.
  pose proof (held_assets_are_valued sample_balances sample_market None
                (ticker_prices_positive sample_tickers)) as H.
  eexists. split; [reflexivity|].
  refine (proj2 (proj2 (proj2 (proj2 H))) (conj _ _)); [discriminate|].
  intros asset _. destruct asset; vm_compute; by eexists.
Defined.

Lemma unchanged_portfolio_is_no_drift_witness :
  detectPortfolioDrift
    {| previousBalanceSnapshot := Some (buildBalanceSnapshotRecord "primary" sample_balances
         sample_market SOURCE_RECONCILIATION "2026-08-21T03:00:00.000Z" "balance-1");
       currentBalanceSnapshot := Some (buildBalanceSnapshotRecord "primary" sample_balances
         no_prices SOURCE_RECONCILIATION "2026-08-21T04:00:00.000Z" "balance-2");
       previousPositionSnapshot := Some (buildPositionSnapshotRecord "primary" sample_balances
         sample_market SOURCE_RECONCILIATION "2026-08-21T03:00:00.000Z" "position-1");
       currentPositionSnapshot := Some (buildPositionSnapshotRecord "primary" sample_balances
         no_prices SOURCE_RECONCILIATION "2026-08-21T04:00:00.000Z" "position-2") |} []
  = Ret {| findings := []; comparedBalance := true; comparedPositions := true |}.
Proof.
  apply (unchanged_portfolio_is_no_drift "primary" sample_balances sample_market no_prices
           "2026-08-21T03:00:00.000Z" "2026-08-21T04:00:00.000Z"
           ("balance-1", "balance-2", "position-1", "position-2") []); vm_compute; reflexivity.
Defined.

(** ** Runs *)

Definition sync_instant : string := "2026-08-21T04:00:00.000Z".

Definition sample_run_result : ReconciliationRunResult := {|
  result_summary := failed_summary Trigger.OPERATOR_SYNC;
  result_reconciliationRun := {|
    run_id := "run"; run_exchangeAccountId := "primary"; run_status := RunStatus.SUCCESS;
    run_startedAt := sync_instant; run_completedAt := Some sync_instant; run_summaryJson := "{}";
    run_errorMessage := None |};
|}.

(** The exchange answers the balances or fails. *)
Definition sync_answers (balances : result js_error (list ExchangeBalance)) (h : history)
    (B : Type) (e : Sync.call B) : result js_error B :=
  match e in Sync.call B return result js_error B with
  | Sync.Now | Sync.NewDate => Ok sync_instant
  | Sync.CreateId prefix => Ok (prefix ++ "_" ++ Z_to_string (Z.of_nat (length h)))
  | Sync.AssertLocallyHeld => Ok tt
  | Sync.GetLatestBalanceSnapshot _ => Ok None
  | Sync.GetLatestPositionSnapshot _ => Ok None
  | Sync.GetBalances => balances
  | Sync.GetTickers _ => Ok sample_tickers
  | Sync.SaveBalanceSnapshot _ | Sync.SavePositionSnapshot _
  | Sync.UpdateReconciliationRun _ => Ok tt
  | Sync.RunWithRecord _ _ => Ok sample_run_result
  end.

Lemma sync_answers_may balances h B (e : Sync.call B) : may_answer B e (sync_answers balances h B e).
Proof. destruct e; try exact I. cbn. by destruct balances. Qed.

Definition sync_deps : PortfolioSyncDependencies := {|
  sdep_hasMarketPriceReader := true; sdep_hasRuntimeOwnership := true; sdep_hasNow := true;
|}.

Definition sync_input : PortfolioSyncInput := {|
  sync_exchangeAccountId := "primary"; sync_source := Trigger.OPERATOR_SYNC;
  sync_requestedAt := None;
|}.

Abbreviation run_over balances :=
  (exec (sync_answers balances) (sync_run sync_deps sync_input tt) []).

Lemma run_over_synchronises balances :
  synchronises sync_deps sync_input (fst (run_over balances)) (snd (snd (run_over balances))).
Proof.
  pose proof (exec_runs may_answer (sync_answers balances)
    (sync_run sync_deps sync_input tt) [] (sync_answers_may balances)) as H.
  unfold synchronises. revert H. by destruct (run_over balances) as [h [[] r]].
Qed.



(** The failed run reads its error back. *)
Example failed_run_message :
  match fst (run_over (Err (PlainError "502"))) with
  | Asked (Sync.UpdateReconciliationRun record) _ :: _ => run_errorMessage record
  | _ => None
  end = Some "502".
Proof. vm_compute. reflexivity. Qed.
