(* ===== verification/RunPreparation.v ===== *)
(** * RunPreparation: the evidence of a candidate run

    [app/candidate-btc-run-preparation.ts]: before a run of the pilot's market
    the account is synchronised, and the run is let through only if what that
    synchronisation stored is exactly what it reported, the execution state is
    runnable and no order is open.  The receipt handed on names the records. *)

From Stdlib Require Import ZArith Ascii.
From stdpp Require Import base option list strings.
From S2P Require Import Prelude Num Types Text Timestamp NumText JsMap Json OperatorState OrderRecords Effects.
From S2P Require Import ExecutionRecords ReconciliationRecords HistoryWindows ReportReader Preflight.
From S2P Require Import PortfolioSync Runner.

Local Open Scope string_scope.
Local Open Scope js_scope.
Local Open Scope bool_scope.

(** ** Data *)

#[export] Instance SnapshotSource_eq_dec : EqDecision SnapshotSource.
Proof. solve_decision. Defined.

Module Requester.
Inductive RequestedBy : Set := TELEGRAM | SCHEDULER.
#[export] Instance RequestedBy_eq_dec : EqDecision RequestedBy.
Proof. solve_decision. Defined.
End Requester.
Export (hints) Requester.

Record PreparationRequest := {
  prep_exchangeAccountId : string;
  prep_requestedAt : string;
  prep_requestedBy : Requester.RequestedBy;
}.

(** [canonicalJson] stands for the whole report. *)
Record CandidateReconciliationSummary := {
  cand_status : RunStatus.ReconciliationStatus;
  cand_canonicalJson : string;
}.

Module Preparation.
Inductive CandidateBtcRunPreparationResult : Type :=
| READY (refreshReceipt : PositionGuardPilotRefreshReceipt)
| BLOCKED (detail : string).
End Preparation.

Record SyncEvidence := {
  ev_refreshReceipt : PositionGuardPilotRefreshReceipt;
  ev_balanceSnapshot : BalanceSnapshotRecord;
  ev_positionSnapshot : PositionSnapshotRecord;
  ev_reconciliationRun : ReconciliationRunRecord;
}.

Record PreparationDependencies := {
  pdep_config : PreflightConfig;
  pdep_exchangeBackedReadEnabled : bool;
  pdep_liveSendPath : SendPath.ExecutionSendPath;
  pdep_hasNow : bool;
}.

Module Prep.
Inductive call : Type -> Type :=
| RunPortfolioSync (input : PortfolioSyncInput) : call PortfolioSyncRunResult
| GetState : call ExecutionStateRecord
| ListActiveOrders (exchangeAccountId : string) (limit : Z) : call (list OrderRecord)
| Now : call string
| NewDate : call string.
End Prep.

Abbreviation preparer A := (routine Prep.call js_error unit A).

(** ** Fields *)

Definition requiredString (value label : string) : outcome string :=
  _ ← throw_if (is_blank value) (label ++ " must be a non-empty string."); Ret value.

Definition requiredTimestamp (value label : string) : outcome string :=
  timestamp ← requiredString value label;
  _ ← parseCandidatePilotTimestamp timestamp label;
  Ret timestamp.

(** [null] is not a string. *)
Definition required_completion (value : option string) (label : string) : outcome string :=
  match value with
  | Some text => requiredTimestamp text label
  | None => Throw (label ++ " must be a non-empty string.")
  end.

Definition requiredNullableString (value : option string) (label : string)
    : outcome (option string) :=
  match value with
  | None => Ret None
  | Some text => text ← requiredString text label; Ret (Some text)
  end.

Definition requiredNullableTimestamp (value : option string) (label : string)
    : outcome (option string) :=
  match value with
  | None => Ret None
  | Some text => text ← requiredTimestamp text label; Ret (Some text)
  end.

(** A field that has to have a value of its type. *)
Definition required {A} (value : option A) (message : string) : outcome A :=
  match value with Some v => Ret v | None => Throw message end.

Definition requiredEnum {A} (to_string : A -> string) (allowed : list A) (key label : string)
    (fields : jsmap string json) : outcome A :=
  required (enum_field to_string allowed key fields) (label ++ " is unsupported.").

Definition requiredNonNegativeSafeInteger (key label : string) (fields : jsmap string json)
    : outcome Z :=
  required (count_field key fields) (label ++ " must be a non-negative safe integer.").

(** ** The canonical text of a report *)

(** The text of a number does not depend on how it is represented: a safe
    integer is its digits. *)
Definition number_text (value : json) : string :=
  match json_integer value with
  | Some z => if isSafeInteger z then Z_to_string z else stringify value
  | None => stringify value
  end.

Definition canonical_member (member : string * string) : string :=
  (quoted (fst member) ++ ":" ++ snd member)%string.

(** The members are sorted by their keys, texts whose order is that of their
    code units; those of a report are ASCII. *)
Fixpoint canonicalizeJsonSnapshot (value : json) : string :=
  match value with
  | JArr l => ("[" ++ join "," (map canonicalizeJsonSnapshot l) ++ "]")%string
  | JObj fields =>
      ("{" ++ join "," (map canonical_member
                (js_sort (fun a b : string * string => String.compare (fst a) (fst b))
                   (map (fun f => (fst f, canonicalizeJsonSnapshot (snd f))) fields)))
       ++ "}")%string
  | JNum _ | JInt _ => number_text value
  | _ => stringify value
  end.

(** The place of the first number that is not finite. *)
Fixpoint non_finite (value : json) (label : string) : option string :=
  match value with
  | JNum n => if is_finite n then None else Some label
  | JArr l =>
      (fix go (index : Z) (l : list json) : option string :=
         match l with
         | [] => None
         | x :: l' => match non_finite x (label ++ " " ++ Z_to_string index) with
                      | Some place => Some place
                      | None => go (index + 1)%Z l'
                      end
         end) 0%Z l
  | JObj fields =>
      (fix go (fields : list (string * json)) : option string :=
         match fields with
         | [] => None
         | (key, x) :: fields' => match non_finite x (label ++ " " ++ key) with
                                  | Some place => Some place
                                  | None => go fields'
                                  end
         end) fields
  | _ => None
  end.

(** The other checks of [snapshotJsonValue] are of the shape of the value. *)
Definition snapshotJsonValue (value : json) (label : string) : outcome json :=
  match non_finite value label with
  | Some place => Throw (place ++ " must contain only finite JSON numbers.")
  | None => Ret value
  end.

(** ** Reports *)

Definition dataRecordWithOptionalKey (value : json) (label : string) : outcome (jsmap string json) :=
  match value with
  | JObj fields =>
      let allowed key := (key === "historyRecovery") || bool_decide (key ∈ SUMMARY_KEYS) in
      _ ← throw_if ((length fields <? length SUMMARY_KEYS)%nat
                    || (length SUMMARY_KEYS + 1 <? length fields)%nat
                    || negb (forallb allowed (fst <$> fields)))
            (label ++ " has an invalid key set.");
      _ ← mapM_outcome (fun key =>
            required (map_get key fields)
              (label ++ " " ++ key ++ " must be an enumerable data property.")) SUMMARY_KEYS;
      Ret fields
  | _ => Throw (label ++ " must be a plain object.")
  end.

Definition snapshot_issue (label : string) (index : nat) (value : json)
    : outcome ReconciliationIssue :=
  let label := label ++ " " ++ Z_to_string (Z.of_nat index) in
  issue ← match value with
          | JObj fields =>
              if exact_keys fields ["code"; "message"] then Ret fields
              else Throw (label ++ " has an invalid key set.")
          | _ => Throw (label ++ " must be a plain object.")
          end;
  code ← requiredEnum Issue.to_string RECONCILIATION_ISSUE_CODES "code" (label ++ " code") issue;
  message ← required (text_field "message" issue) (label ++ " message must be a non-empty string.");
  message ← requiredString message (label ++ " message");
  Ret (ReconciliationRecords.issue code message).

Definition snapshotReconciliationIssues (value : option json) (label : string)
    : outcome (list ReconciliationIssue) :=
  match value with
  | Some (JArr l) =>
      mapM_outcome (fun '(index, item) => snapshot_issue label index item)
        (zip (seq 0 (length l)) l)
  | _ => Throw (label ++ " must be an array.")
  end.

Definition issues_json (issues : list ReconciliationIssue) : json := JArr (issue_json <$> issues).

Definition prepared_statuses : list RunStatus.ReconciliationStatus :=
  [RunStatus.SUCCESS; RunStatus.DRIFT_DETECTED].

Definition snapshotReconciliationSummary (value : json) (label : string)
    (historyContext : option (string * string)) : outcome CandidateReconciliationSummary :=
  fields ← dataRecordWithOptionalKey value label;
  source ← requiredEnum Trigger.to_string [Trigger.SCHEDULER_PREFLIGHT] "source"
             (label ++ " source") fields;
  status ← requiredEnum RunStatus.to_string prepared_statuses "status" (label ++ " status") fields;
  issues ← snapshotReconciliationIssues (map_get "issues" fields) (label ++ " issues");
  let codes := issue_code <$> issues in
  candidateCount ← requiredNonNegativeSafeInteger "candidateCount" (label ++ " candidateCount") fields;
  processedCount ← requiredNonNegativeSafeInteger "processedCount" (label ++ " processedCount") fields;
  deferredCount ← requiredNonNegativeSafeInteger "deferredCount" (label ++ " deferredCount") fields;
  maxOrderLookupsPerRun ← requiredNonNegativeSafeInteger "maxOrderLookupsPerRun"
                            (label ++ " maxOrderLookupsPerRun") fields;
  _ ← throw_if (negb (isValidBoundedReconciliationSweep candidateCount processedCount deferredCount
                        maxOrderLookupsPerRun codes))
        (label ++ " bounded sweep evidence is invalid.");
  _ ← match map_get "historyRecovery" fields, historyContext with
      | Some history, Some (runStartedAt, completedOrCheckedAt) =>
          throw_if (negb (isStrictHistoryRecovery history status codes runStartedAt
                            completedOrCheckedAt))
            (label ++ " historyRecovery is invalid.")
      | _, _ => Ret tt
      end;
  let snapshot :=
    [("source", JStr (Trigger.to_string source)); ("status", JStr (RunStatus.to_string status));
     ("issues", issues_json issues); ("candidateCount", JInt candidateCount);
     ("processedCount", JInt processedCount); ("deferredCount", JInt deferredCount);
     ("maxOrderLookupsPerRun", JInt maxOrderLookupsPerRun)] in
  snapshot ← match map_get "historyRecovery" fields with
             | Some history =>
                 history ← snapshotJsonValue history (label ++ " historyRecovery");
                 Ret (snapshot ++ [("historyRecovery", history)])%list
             | None => Ret snapshot
             end;
  Ret {| cand_status := status; cand_canonicalJson := canonicalizeJsonSnapshot (JObj snapshot) |}.

Definition snapshotReconciliationSummaryJson (value runStartedAt completedOrCheckedAt : string)
    : outcome CandidateReconciliationSummary :=
  match (if is_blank value then None else JSON_parse value) with
  | Some parsed =>
      snapshotReconciliationSummary parsed "candidate BTC reconciliation run persisted summary"
        (Some (runStartedAt, completedOrCheckedAt))
  | None => Throw "Candidate BTC reconciliation run summaryJson must be valid JSON."
  end.


(** ** The evidence of a synchronisation *)

Definition assertSnapshotCorrelation (exchangeAccountId capturedAt : string)
    (request : PreparationRequest) (label : string) : outcome unit :=
  _ ← throw_if (exchangeAccountId !== prep_exchangeAccountId request)
        ("Candidate BTC " ++ label ++ " exchangeAccountId must match the request.");
  capturedAt ← requiredTimestamp capturedAt ("candidate BTC " ++ label ++ " capturedAt");
  throw_if (capturedAt !== prep_requestedAt request)
    ("Candidate BTC " ++ label ++ " capturedAt must match the request.").

Definition snapshotBalanceSnapshot (b : BalanceSnapshotRecord) (request : PreparationRequest)
    : outcome BalanceSnapshotRecord :=
  _ ← assertSnapshotCorrelation (bal_exchangeAccountId b) (bal_capturedAt b) request
        "balance snapshot";
  _ ← throw_if (bal_source b !== SOURCE_RECONCILIATION)
        "Candidate BTC balance snapshot has invalid exact evidence.";
  id ← requiredString (bal_id b) "candidate BTC balance snapshot id";
  balancesJson ← requiredString (bal_balancesJson b) "candidate BTC balance snapshot balancesJson";
  Ret {| bal_id := id;
         bal_exchangeAccountId := prep_exchangeAccountId request;
         bal_capturedAt := prep_requestedAt request;
         bal_source := SOURCE_RECONCILIATION;
         bal_totalKrwValue := bal_totalKrwValue b;
         bal_balancesJson := balancesJson |}.

Definition snapshotPositionSnapshot (p : PositionSnapshotRecord) (request : PreparationRequest)
    : outcome PositionSnapshotRecord :=
  _ ← assertSnapshotCorrelation (pos_exchangeAccountId p) (pos_capturedAt p) request
        "position snapshot";
  _ ← throw_if (pos_source p !== SOURCE_RECONCILIATION)
        "Candidate BTC position snapshot has invalid exact evidence.";
  id ← requiredString (pos_id p) "candidate BTC position snapshot id";
  positionsJson ← requiredString (pos_positionsJson p)
                    "candidate BTC position snapshot positionsJson";
  Ret {| pos_id := id;
         pos_exchangeAccountId := prep_exchangeAccountId request;
         pos_capturedAt := prep_requestedAt request;
         pos_source := SOURCE_RECONCILIATION;
         pos_positionsJson := positionsJson |}.

(** The record that is returned has completed. *)
Definition snapshotReconciliationRun (run : ReconciliationRunRecord) (request : PreparationRequest)
    (reconciliationSummary : CandidateReconciliationSummary)
    : outcome (ReconciliationRunRecord * string) :=
  _ ← throw_if (run_exchangeAccountId run !== prep_exchangeAccountId request)
        "Candidate BTC reconciliation run exchangeAccountId must match the request.";
  startedAt ← requiredTimestamp (run_startedAt run) "candidate BTC reconciliation run startedAt";
  startedAtEpoch ← parseCandidatePilotTimestamp startedAt
                     "candidate BTC reconciliation run startedAt";
  requestedAtEpoch ← parseCandidatePilotTimestamp (prep_requestedAt request)
                       "candidate BTC preparation requestedAt";
  _ ← throw_if ((startedAt !== prep_requestedAt request)
                || negb (startedAtEpoch =? requestedAtEpoch)%Z)
        "Candidate BTC reconciliation run startedAt must match the request.";
  completedAt ← required_completion (run_completedAt run)
                  "candidate BTC reconciliation run completedAt";
  completedAtEpoch ← parseCandidatePilotTimestamp completedAt
                       "candidate BTC reconciliation run completedAt";
  _ ← throw_if (completedAtEpoch <? startedAtEpoch)%Z
        "Candidate BTC reconciliation run completedAt must not precede its exact startedAt.";
  _ ← throw_if ((run_status run === RunStatus.ERROR) || (run_errorMessage run !== None))
        "Candidate BTC reconciliation run must be a successful or non-blocking drift exact record.";
  persistedSummary ← snapshotReconciliationSummaryJson (run_summaryJson run) startedAt completedAt;
  _ ← throw_if ((cand_status reconciliationSummary !== run_status run)
                || (cand_status persistedSummary !== cand_status reconciliationSummary))
        "Candidate BTC reconciliation run summary source or status does not match the exact record.";
  _ ← throw_if (cand_canonicalJson persistedSummary !== cand_canonicalJson reconciliationSummary)
        "Candidate BTC reconciliation summary evidence must match the persisted reconciliation run.";
  id ← requiredString (run_id run) "candidate BTC reconciliation run id";
  summaryJson ← requiredString (run_summaryJson run) "candidate BTC reconciliation run summaryJson";
  Ret ({| run_id := id;
          run_exchangeAccountId := prep_exchangeAccountId request;
          run_status := run_status run;
          run_startedAt := startedAt;
          run_completedAt := Some completedAt;
          run_summaryJson := summaryJson;
          run_errorMessage := None |}, completedAt).

Definition receipt_of (request : PreparationRequest) (balance : BalanceSnapshotRecord)
    (position : PositionSnapshotRecord) (run : ReconciliationRunRecord) (completedAt : string)
    : PositionGuardPilotRefreshReceipt := {|
  rcp_exchangeAccountId := prep_exchangeAccountId request;
  rcp_requestedAt := prep_requestedAt request;
  rcp_balanceSnapshotId := bal_id balance;
  rcp_balanceCapturedAt := bal_capturedAt balance;
  rcp_positionSnapshotId := pos_id position;
  rcp_positionCapturedAt := pos_capturedAt position;
  rcp_reconciliationRunId := run_id run;
  rcp_reconciliationStartedAt := run_startedAt run;
  rcp_reconciliationCompletedAt := completedAt;
|}.

Definition snapshotExactSyncEvidence (result : PortfolioSyncRunResult)
    (request : PreparationRequest) : outcome SyncEvidence :=
  requestedAt ← requiredTimestamp (synced_requestedAt result)
                  "candidate BTC portfolio sync requestedAt";
  _ ← throw_if (requestedAt !== prep_requestedAt request)
        "Candidate BTC portfolio sync requestedAt must match the request.";
  balance ← snapshotBalanceSnapshot (synced_balanceSnapshot result) request;
  position ← snapshotPositionSnapshot (synced_positionSnapshot result) request;
  summary ← snapshotReconciliationSummary (summary_json (synced_reconciliationSummary result))
              "candidate BTC portfolio sync reconciliationSummary" None;
  '(run, completedAt) ← snapshotReconciliationRun (synced_reconciliationRun result) request summary;
  Ret {| ev_refreshReceipt := receipt_of request balance position run completedAt;
         ev_balanceSnapshot := balance;
         ev_positionSnapshot := position;
         ev_reconciliationRun := run |}.

Definition snapshotExecutionState (s : ExecutionStateRecord) (exchangeAccountId : string)
    : outcome ExecutionStateRecord :=
  let label := "candidate BTC execution state " in
  account ← requiredString (es_exchangeAccountId s) (label ++ "exchangeAccountId");
  _ ← throw_if (account !== exchangeAccountId)
        "Candidate BTC execution state exchangeAccountId must match the request.";
  pauseReason ← requiredNullableString (es_pauseReason s) (label ++ "pauseReason");
  degradedReason ← requiredNullableString (es_degradedReason s) (label ++ "degradedReason");
  degradedAt ← requiredNullableTimestamp (es_degradedAt s) (label ++ "degradedAt");
  _ ← throw_if ((es_systemStatus s === SysStatus.RUNNING)
                && ((pauseReason !== None) || (degradedReason !== None) || (degradedAt !== None)))
        "Candidate BTC execution state RUNNING state must not carry pause or degraded authority.";
  id ← requiredString (es_id s) (label ++ "id");
  updatedAt ← requiredTimestamp (es_updatedAt s) (label ++ "updatedAt");
  Ret {| es_id := id;
         es_exchangeAccountId := account;
         es_executionMode := es_executionMode s;
         es_liveExecutionGate := es_liveExecutionGate s;
         es_systemStatus := es_systemStatus s;
         es_killSwitchActive := es_killSwitchActive s;
         es_pauseReason := pauseReason;
         es_degradedReason := degradedReason;
         es_degradedAt := degradedAt;
         es_updatedAt := updatedAt |}.

(** ** The service *)

Definition snapshotRequest (request : PreparationRequest) : outcome PreparationRequest :=
  account ← requiredString (prep_exchangeAccountId request)
              "candidate BTC preparation exchangeAccountId";
  requestedAt ← requiredTimestamp (prep_requestedAt request) "candidate BTC preparation requestedAt";
  Ret {| prep_exchangeAccountId := account; prep_requestedAt := requestedAt;
         prep_requestedBy := prep_requestedBy request |}.

Section Service.
(** [this.dependencies] *)
Context (deps : PreparationDependencies).

Definition prep_lift {A} (o : outcome A) : preparer A := lift_outcome PlainError o.

Definition sync_request (request : PreparationRequest) : PortfolioSyncInput := {|
  sync_exchangeAccountId := prep_exchangeAccountId request;
  sync_source := Trigger.SCHEDULER_PREFLIGHT;
  sync_requestedAt := Some (prep_requestedAt request);
|}.

Definition preflight_of (evidence : SyncEvidence) (state : ExecutionStateRecord)
    (activeOrders : list OrderRecord) (checkedAt : string) : LivePreflightInput := {|
  live_config := pdep_config deps;
  live_executionState := state;
  live_exchangeBackedReadEnabled := pdep_exchangeBackedReadEnabled deps;
  live_liveSendPath := pdep_liveSendPath deps;
  live_checkedAt := checkedAt;
  live_balanceSnapshot := Some (ev_balanceSnapshot evidence);
  live_positionSnapshot := Some (ev_positionSnapshot evidence);
  live_reconciliationRun := Some (ev_reconciliationRun evidence);
  live_activeOrders := activeOrders;
|}.

Definition prepare (input : PreparationRequest)
    : preparer Preparation.CandidateBtcRunPreparationResult :=
  request ← prep_lift (snapshotRequest input);
  syncResult ← await (Prep.RunPortfolioSync (sync_request request));
  evidence ← prep_lift (snapshotExactSyncEvidence syncResult request);
  state ← await Prep.GetState;
  executionState ← prep_lift (snapshotExecutionState state (prep_exchangeAccountId request));
  activeOrders ← await (Prep.ListActiveOrders (prep_exchangeAccountId request) 20);
  checkedAt ← (if pdep_hasNow deps then await Prep.Now else await Prep.NewDate);
  _ ← prep_lift (parseCandidatePilotTimestamp checkedAt "candidate BTC preparation checkedAt");
  evaluation ← prep_lift (evaluateLiveStrategyRunPreflight
                            (preflight_of evidence executionState activeOrders checkedAt));
  if eval_status evaluation === Level.BLOCK
  then mret (Preparation.BLOCKED
               ("Candidate BTC run blocked by " ++ blocking_names (eval_checks evaluation) ++ "."))
  else mret (Preparation.READY (ev_refreshReceipt evidence)).

End Service.
