(* ===== verification/RunEvidence.v ===== *)
(** * RunEvidence: what a preparation lets through

    Of [RunPreparation]: a receipt is handed on only for the evidence of this
    synchronisation, under the conditions of a live run; and what a
    synchronisation and its reconciliation produce is accepted. *)

From Stdlib Require Import ZArith Lia.
From stdpp Require Import base option list strings.
From S2P Require Import Prelude Num Types Text Timestamp NumText JsMap Json JsonText OperatorState OrderRecords Effects.
From S2P Require Import ExecutionRecords ExecutionHelpers ReconciliationRecords ReconciliationHelpers.
From S2P Require Import HistoryWindows ReconciliationService ReconciliationTheory ReconciliationRules ReconciliationRun.
From S2P Require Import PilotScenarios OrderRepository ReconciliationGuarantees ReconciliationReports ReconciliationScenarios.
From S2P Require Import ReportReader Preflight PreflightTheory PortfolioSync PortfolioSyncTheory Runner.
From S2P Require Import RunPreparation.

Local Open Scope string_scope.
Local Open Scope js_scope.
Local Open Scope bool_scope.

(** ** The evidence of a run *)

Lemma some_unchanged value label text :
  requiredString value label = Ret text -> text = value /\ is_blank value = false.
Proof. unfold requiredString. intros H. by inv_outcome. Qed.

Lemma instant_unchanged value label text :
  requiredTimestamp value label = Ret text -> text = value.
Proof.
  unfold requiredTimestamp. intros H. inv_outcome.
  by match goal with H : requiredString _ _ = _ |- _ => apply some_unchanged in H as [-> _] end.
Qed.

Lemma completion_unchanged value label text :
  required_completion value label = Ret text -> value = Some text.
Proof. destruct value as [v|]; [|done]. cbn. intros H. by apply instant_unchanged in H as ->. Qed.

Lemma nullable_unchanged value label text :
  requiredNullableString value label = Ret text -> text = value.
Proof. destruct value as [v|]; cbn; intros H; inv_outcome; [|done]. by apply some_unchanged in Hx as [-> _]. Qed.

Lemma nullable_instant_unchanged value label text :
  requiredNullableTimestamp value label = Ret text -> text = value.
Proof. destruct value as [v|]; cbn; intros H; inv_outcome; [|done]. by apply instant_unchanged in Hx as ->. Qed.

Ltac unchanged :=
  inv_outcome; destruct_bools;
  repeat match goal with
    | H : requiredString _ _ = Ret _ |- _ => apply some_unchanged in H as [-> _]
    | H : requiredTimestamp _ _ = Ret _ |- _ => apply instant_unchanged in H as ->
    | H : required_completion _ _ = Ret _ |- _ => apply completion_unchanged in H
    | H : requiredNullableString _ _ = Ret _ |- _ => apply nullable_unchanged in H as ->
    | H : requiredNullableTimestamp _ _ = Ret _ |- _ => apply nullable_instant_unchanged in H as ->
    end; simplify_eq/=.

(** The record is of the account and the instant of the request. *)
Definition correlated (request : PreparationRequest) (account instant : string) : Prop :=
  account = prep_exchangeAccountId request /\ instant = prep_requestedAt request.

Lemma correlation account instant request label u :
  assertSnapshotCorrelation account instant request label = Ret u ->
  correlated request account instant.
Proof. unfold assertSnapshotCorrelation. intros H. by unchanged. Qed.

Lemma balance_unchanged b request b' :
  snapshotBalanceSnapshot b request = Ret b' ->
  b' = b /\ correlated request (bal_exchangeAccountId b) (bal_capturedAt b).
Proof.
  unfold snapshotBalanceSnapshot. intros H. unchanged.
  match goal with H : assertSnapshotCorrelation _ _ _ _ = _ |- _ =>
    apply correlation in H as [Ha Hc] end.
  split; [|done]. destruct b; cbn in *. by subst.
Qed.

Lemma position_unchanged p request p' :
  snapshotPositionSnapshot p request = Ret p' ->
  p' = p /\ correlated request (pos_exchangeAccountId p) (pos_capturedAt p).
Proof.
  unfold snapshotPositionSnapshot. intros H. unchanged.
  match goal with H : assertSnapshotCorrelation _ _ _ _ = _ |- _ =>
    apply correlation in H as [Ha Hc] end.
  split; [|done]. destruct p; cbn in *. by subst.
Qed.

Lemma run_unchanged run request summary run' completedAt :
  snapshotReconciliationRun run request summary = Ret (run', completedAt) ->
  run' = run /\ run_completedAt run = Some completedAt /\
  correlated request (run_exchangeAccountId run) (run_startedAt run) /\
  exists persisted, cand_status summary = run_status run /\
    snapshotReconciliationSummaryJson (run_summaryJson run) (run_startedAt run) completedAt
      = Ret persisted /\
    cand_canonicalJson persisted = cand_canonicalJson summary.
Proof.
  unfold snapshotReconciliationRun. intros H. unchanged. split_and!; [|done..|by eexists].
  destruct run; cbn in *. by subst.
Qed.

Lemma state_unchanged s account s' :
  snapshotExecutionState s account = Ret s' -> s' = s /\ es_exchangeAccountId s = account.
Proof. unfold snapshotExecutionState. intros H. unchanged. split; [by destruct s|done]. Qed.

Lemma request_unchanged request request' : snapshotRequest request = Ret request' -> request' = request.
Proof. unfold snapshotRequest. intros H. unchanged. by destruct request. Qed.

(** What a synchronisation returned is of the request's account and instant,
    and the report it returned is the one its run stored. *)
Record own_evidence (request : PreparationRequest) (sync : PortfolioSyncRunResult)
    (completedAt : string) : Prop := {
  own_instant : synced_requestedAt sync = prep_requestedAt request;
  own_balance : correlated request (bal_exchangeAccountId (synced_balanceSnapshot sync))
    (bal_capturedAt (synced_balanceSnapshot sync));
  own_position : correlated request (pos_exchangeAccountId (synced_positionSnapshot sync))
    (pos_capturedAt (synced_positionSnapshot sync));
  own_run : correlated request (run_exchangeAccountId (synced_reconciliationRun sync))
    (run_startedAt (synced_reconciliationRun sync));
  own_completion : run_completedAt (synced_reconciliationRun sync) = Some completedAt;
  own_report : exists returned stored,
    snapshotReconciliationSummary (summary_json (synced_reconciliationSummary sync))
      "candidate BTC portfolio sync reconciliationSummary" None = Ret returned /\
    snapshotReconciliationSummaryJson (run_summaryJson (synced_reconciliationRun sync))
      (run_startedAt (synced_reconciliationRun sync)) completedAt = Ret stored /\
    cand_status returned = run_status (synced_reconciliationRun sync) /\
    cand_canonicalJson stored = cand_canonicalJson returned;
}.

Definition evidence_of (request : PreparationRequest) (sync : PortfolioSyncRunResult)
    (completedAt : string) : SyncEvidence := {|
  ev_refreshReceipt := receipt_of request (synced_balanceSnapshot sync)
    (synced_positionSnapshot sync) (synced_reconciliationRun sync) completedAt;
  ev_balanceSnapshot := synced_balanceSnapshot sync;
  ev_positionSnapshot := synced_positionSnapshot sync;
  ev_reconciliationRun := synced_reconciliationRun sync;
|}.

Lemma evidence_unchanged sync request evidence :
  snapshotExactSyncEvidence sync request = Ret evidence ->
  exists completedAt, own_evidence request sync completedAt /\
    evidence = evidence_of request sync completedAt.
Proof.
  unfold snapshotExactSyncEvidence. intros H. unchanged.
  match goal with H : snapshotReconciliationRun _ _ _ = Ret ?r |- _ =>
    destruct r as [run completedAt]; apply run_unchanged in H as (-> & Hc & Hr & Hreport) end.
  injection H as <-.
  match goal with H : snapshotBalanceSnapshot _ _ = _ |- _ => apply balance_unchanged in H as [-> ?] end.
  match goal with H : snapshotPositionSnapshot _ _ = _ |- _ => apply position_unchanged in H as [-> ?] end.
  exists completedAt. split; [|done]. destruct Hreport as (stored & ? & ? & ?).
  split; try done. by eexists _, stored.
Qed.

(** ** Reports are the same when they are read back *)

Lemma no_number_is_infinite j :
  plain j = true -> forall label, non_finite j label = None /\ non_finite (reread j) label = None.
Proof.
  revert j. fix IH 1. intros j Hj label. destruct j as [|b|n|z|s|l|fields]; try done.
  - split; [done|]. cbn. by rewrite (integer_is_finite _ z (reread_count z Hj)).
  - cbn in Hj |- *. generalize 0%Z. induction l as [|x l IHl]; intros index; [done|].
    cbn in Hj |- *. apply andb_true_iff in Hj as [Hx Hl].
    destruct (IH x Hx (label ++ " " ++ Z_to_string index)) as [-> ->]. by apply IHl.
  - cbn in Hj |- *. apply andb_true_iff in Hj as [_ Hf].
    induction fields as [|[k x] fields IHf]; [done|]. cbn in Hf |- *.
    apply andb_true_iff in Hf as [Hx Hf].
    destruct (IH x Hx (label ++ " " ++ k)) as [-> ->]. by apply IHf.
Qed.

Lemma count_is_safe z : is_count z = true -> isSafeInteger z = true.
Proof. rewrite is_count_nonNegative. unfold nonNegativeSafeInteger. by intros [? _]%andb_true_iff. Qed.

Lemma canonical_reread j :
  plain j = true -> canonicalizeJsonSnapshot (reread j) = canonicalizeJsonSnapshot j.
Proof.
  revert j. fix IH 1. intros j Hj. destruct j as [|b|n|z|s|l|fields]; try done.
  - cbn in Hj. pose proof (reread_count z Hj) as Hz. cbn [reread] in Hz |- *.
    cbn [canonicalizeJsonSnapshot]. unfold number_text. rewrite Hz. cbn [json_integer].
    by rewrite count_is_safe.
  - cbn in Hj |- *. do 3 f_equal. rewrite map_map. induction l as [|x l IHl]; [done|].
    cbn in Hj |- *. apply andb_true_iff in Hj as [Hx Hl]. by rewrite (IH x Hx), (IHl Hl).
  - cbn in Hj |- *. apply andb_true_iff in Hj as [_ Hf]. do 5 f_equal. rewrite map_map. cbn [fst snd].
    induction fields as [|[k x] fields IHf]; [done|]. cbn in Hf |- *.
    apply andb_true_iff in Hf as [Hx Hf]. by rewrite (IH x Hx), (IHf Hf).
Qed.

(** A value as it was made, or as it is read back. *)
Definition as_read (g : json -> json) : Prop := g = id \/ g = reread.

Lemma issue_is_read g label index i :
  as_read g -> is_blank (issue_message i) = false ->
  snapshot_issue label index (g (issue_json i)) = Ret i.
Proof.
  intros [->| ->] Hm; unfold snapshot_issue, requiredEnum, issue_json;
    cbn [id reread map fst snd]; change (exact_keys _ _) with true; cbn [mbind outcome_bind].
  all: rewrite (enum_field_found Issue.to_string RECONCILIATION_ISSUE_CODES "code" _ (issue_code i))
    by (done || apply one_of_issue).
  all: cbn [required mbind outcome_bind]; change (text_field _ _) with (Some (issue_message i)).
  all: cbn [required mbind outcome_bind]; unfold requiredString; rewrite Hm; by destruct i.
Qed.

Lemma issues_are_read g label l :
  as_read g -> (forall i, i ∈ l -> is_blank (issue_message i) = false) ->
  snapshotReconciliationIssues (Some (JArr (map g (issue_json <$> l)))) label = Ret l.
Proof.
  intros Hg. cbn [snapshotReconciliationIssues]. rewrite length_map, length_fmap. generalize 0%nat.
  induction l as [|i l IH]; intros start Hm; [done|]. cbn.
  rewrite issue_is_read by (done || apply Hm; left). cbn [mbind outcome_bind].
  change (list_fmap _ _ issue_json l) with (issue_json <$> l).
  rewrite IH by (intros; apply Hm; by right). done.
Qed.

Lemma count_is_read g key label fields z :
  as_read g -> map_get key fields = Some (g (JInt z)) -> is_count z = true ->
  requiredNonNegativeSafeInteger key label fields = Ret z.
Proof.
  intros Hg Hk Hz. unfold requiredNonNegativeSafeInteger.
  enough (count_field key fields = Some z) as -> by done.
  destruct Hg as [->| ->]; [|by apply count_field_reread].
  unfold count_field. rewrite Hk. cbn. by rewrite <- is_count_nonNegative, Hz.
Qed.

Lemma enum_is_read {A} (to_string : A -> string) allowed key label fields x :
  map_get key fields = Some (JStr (to_string x)) -> oneOf to_string allowed (to_string x) = Some x ->
  requiredEnum to_string allowed key label fields = Ret x.
Proof. intros Hk Hx. unfold requiredEnum. by rewrite (enum_field_found _ _ _ _ x Hk Hx). Qed.

(** What is read of a report: its status and its text. *)
Definition summary_read (s : ReconciliationSummary) : CandidateReconciliationSummary := {|
  cand_status := sum_status s;
  cand_canonicalJson := canonicalizeJsonSnapshot (summary_json s);
|}.

(** The members of a report. *)
Definition summary_members (g : json -> json) (s : ReconciliationSummary) : jsmap string json :=
  ([("source", JStr (Trigger.to_string (sum_source s)));
    ("status", JStr (RunStatus.to_string (sum_status s)));
    ("issues", JArr (map g (issue_json <$> sum_issues s)));
    ("candidateCount", g (JInt (sum_candidateCount s)));
    ("processedCount", g (JInt (sum_processedCount s)));
    ("deferredCount", g (JInt (sum_deferredCount s)));
    ("maxOrderLookupsPerRun", g (JInt (sum_maxOrderLookupsPerRun s)))]
   ++ match sum_historyRecovery s with
      | Some h => [("historyRecovery", g (history_recovery_json h))]
      | None => []
      end)%list.

Lemma summary_has_members g s : as_read g -> g (summary_json s) = JObj (summary_members g s).
Proof.
  intros Hg. unfold summary_json, summary_members.
  destruct Hg as [->| ->]; destruct (sum_historyRecovery s); cbn [id reread app map fst snd];
    by rewrite ?map_id.
Qed.

Lemma members_are_a_record g s label :
  dataRecordWithOptionalKey (JObj (summary_members g s)) label = Ret (summary_members g s).
Proof. unfold summary_members. by destruct (sum_historyRecovery s). Qed.

Lemma member_source g s :
  map_get "source" (summary_members g s) = Some (JStr (Trigger.to_string (sum_source s))).
Proof. by unfold summary_members. Qed.
Lemma member_status g s :
  map_get "status" (summary_members g s) = Some (JStr (RunStatus.to_string (sum_status s))).
Proof. by unfold summary_members. Qed.
Lemma member_issues g s :
  map_get "issues" (summary_members g s) = Some (JArr (map g (issue_json <$> sum_issues s))).
Proof. by unfold summary_members. Qed.
Lemma member_history g s :
  map_get "historyRecovery" (summary_members g s)
  = (fun h => g (history_recovery_json h)) <$> sum_historyRecovery s.
Proof. unfold summary_members. by destruct (sum_historyRecovery s). Qed.

(** What is made of the members has the text of the report. *)
Lemma canonical_members s history :
  canonicalizeJsonSnapshot <$> history
    = (fun h => canonicalizeJsonSnapshot (history_recovery_json h)) <$> sum_historyRecovery s ->
  canonicalizeJsonSnapshot (JObj
    ([("source", JStr (Trigger.to_string (sum_source s)));
      ("status", JStr (RunStatus.to_string (sum_status s)));
      ("issues", issues_json (sum_issues s)); ("candidateCount", JInt (sum_candidateCount s));
      ("processedCount", JInt (sum_processedCount s));
      ("deferredCount", JInt (sum_deferredCount s));
      ("maxOrderLookupsPerRun", JInt (sum_maxOrderLookupsPerRun s))]
     ++ match history with Some h => [("historyRecovery", h)] | None => [] end)%list)
  = canonicalizeJsonSnapshot (summary_json s).
Proof.
  intros Hh. unfold summary_json, issues_json.
  destruct (sum_historyRecovery s) as [r|], history as [h|]; try discriminate Hh; [|done].
  injection Hh as Hh. cbn [canonicalizeJsonSnapshot app map fst snd]. by rewrite Hh.
Qed.

Lemma history_is_read g h label :
  as_read g -> countable h = true ->
  exists history, snapshotJsonValue (g (history_recovery_json h)) label = Ret history /\
    canonicalizeJsonSnapshot history = canonicalizeJsonSnapshot (history_recovery_json h).
Proof.
  intros Hg Hh%plain_history. destruct (no_number_is_infinite _ Hh label) as [Hn Hn'].
  exists (g (history_recovery_json h)). unfold snapshotJsonValue.
  destruct Hg as [->| ->]; cbn [id]; [by rewrite Hn|]. by rewrite Hn', canonical_reread.
Qed.

Lemma history_is_strict h status codes started completed :
  isStrictHistoryRecoverySummary h status codes started completed = true ->
  isStrictHistoryRecovery (reread (history_recovery_json h)) status codes started completed = true.
Proof.
  intros Hs. pose proof (strict_countable _ _ _ _ _ Hs) as Hc.
  unfold isStrictHistoryRecovery. by rewrite read_history_printed.
Qed.

Lemma summary_is_read g s label context started completed :
  as_read g -> reported s started completed ->
  sum_source s = Trigger.SCHEDULER_PREFLIGHT -> sum_status s ≠ RunStatus.ERROR ->
  context = None \/ g = reread /\ context = Some (started, completed) ->
  snapshotReconciliationSummary (g (summary_json s)) label context = Ret (summary_read s).
Proof.
  intros Hg [Hc Hsweep Hm Hh] Hsource Hstatus Hcontext.
  cbn [forallb] in Hc. rewrite !andb_true_iff in Hc. destruct Hc as (H1 & H2 & H3 & H4 & _).
  rewrite summary_has_members by done. unfold snapshotReconciliationSummary.
  rewrite members_are_a_record. cbn [mbind outcome_bind].
  rewrite (enum_is_read Trigger.to_string _ "source" _ _ (sum_source s) (member_source g s))
    by by rewrite Hsource. cbn [mbind outcome_bind].
  rewrite (enum_is_read RunStatus.to_string _ "status" _ _ (sum_status s) (member_status g s))
    by by destruct (sum_status s). cbn [mbind outcome_bind].
  rewrite member_issues, issues_are_read by done. cbn [mbind outcome_bind].
  rewrite (count_is_read g "candidateCount" _ _ (sum_candidateCount s)) by done. cbn [mbind outcome_bind].
  rewrite (count_is_read g "processedCount" _ _ (sum_processedCount s)) by done. cbn [mbind outcome_bind].
  rewrite (count_is_read g "deferredCount" _ _ (sum_deferredCount s)) by done. cbn [mbind outcome_bind].
  rewrite (count_is_read g "maxOrderLookupsPerRun" _ _ (sum_maxOrderLookupsPerRun s)) by done.
  cbn [mbind outcome_bind]. rewrite Hsweep. cbn [negb throw_if mbind outcome_bind].
  rewrite member_history. destruct (sum_historyRecovery s) as [h|] eqn:Hr; cbn [fmap option_fmap option_map].
  - specialize (Hh h eq_refl). pose proof (strict_countable _ _ _ _ _ Hh) as Hcount.
    destruct (history_is_read g h (label ++ " historyRecovery") Hg Hcount) as (history & -> & Hcanon).
    assert (Hstrict : match context with
      | Some (runStartedAt, completedOrCheckedAt) =>
          throw_if (negb (isStrictHistoryRecovery (g (history_recovery_json h)) (sum_status s)
            (issue_code <$> sum_issues s) runStartedAt completedOrCheckedAt))
            (label ++ " historyRecovery is invalid.")
      | None => Ret tt
      end = Ret tt).
    { destruct Hcontext as [->|[-> ->]]; [done|]. by rewrite history_is_strict. }
    rewrite Hstrict. cbn [mbind outcome_bind].
    unfold summary_read. f_equal. f_equal.
    apply (canonical_members s (Some history)). rewrite Hr. cbn. by rewrite Hcanon.
  - cbn [mbind outcome_bind]. unfold summary_read. f_equal. f_equal.
    rewrite <- (canonical_members s None) by by rewrite Hr. by rewrite app_nil_r.
Qed.

(** ** What a synchronisation returns is accepted *)

Lemma digit_is_no_space c : is_digit c = true -> is_space c = false.
Proof. destruct c as [[] [] [] [] [] [] [] []]; vm_compute; congruence. Qed.

Lemma some_is_read value label :
  is_blank value = false -> requiredString value label = Ret value.
Proof. unfold requiredString. by intros ->. Qed.

Lemma digits_are_not_blank n s digits rest :
  take_digits (S n) s = Some (digits, rest) -> is_blank s = false.
Proof.
  destruct s as [|c s]; [done|]. unfold take_digits, is_blank. cbn [take_chars string_forallb].
  destruct (take_chars n s) as [[a r]|]; cbn; [|done].
  destruct (is_digit c) eqn:Hc; [by rewrite digit_is_no_space|done].
Qed.

Lemma instant_is_not_blank value m : exec_iso value = Some m -> is_blank value = false.
Proof.
  unfold exec_iso. destruct (take_digits 4 value) as [[y r]|] eqn:Hy; [|done].
  intros _. by eapply digits_are_not_blank.
Qed.

(** A timestamp that denotes an instant is read under every label. *)
Lemma instant_is_read value e label :
  timestampEpoch value = Some e ->
  parseCandidatePilotTimestamp value label = Ret e /\ requiredTimestamp value label = Ret value.
Proof.
  unfold timestampEpoch, requiredTimestamp, parseCandidatePilotTimestamp. rewrite !parse_eq.
  destruct (exec_iso value) as [m|] eqn:Hm; [|done]. destruct (iso_out_of_range m) eqn:Hr; [done|].
  intros [= <-]. split; [done|]. rewrite some_is_read by by eapply instant_is_not_blank.
  cbn [mbind outcome_bind]. by rewrite parse_eq, Hm, Hr.
Qed.

Section Synchronised.
Context (deps : PortfolioSyncDependencies) (input : PortfolioSyncInput).

Abbreviation sync_any m t :=
  (forall h, wp PortfolioSyncTheory.may_answer
     (fun (h : list (Effects.event Sync.call js_error)) B (e : Sync.call B) => True) m
     (fun (_ : unit) x _ => match x with Ok v => synced_requestedAt v = t | Err _ => True end) tt h).

Lemma any_step {A} (m : syncer A) k t :
  (forall v, sync_any (k v) t) -> sync_any (v ← m; k v) t.
Proof.
  intros Hk h. apply wp_bind. unfold wp. remember (m tt) as p eqn:Hp. clear Hp m. revert h.
  induction p as [[[] [v|x]]|B e k' IH]; intros h; [apply Hk|done|].
  split; [done|]. intros r _. apply IH.
Qed.

Lemma steps_keep_instant identity :
  sync_any (sync_steps deps input identity) (identity_startedAt identity).
Proof. unfold sync_steps. repeat (apply any_step; intros ?). intros h. by apply wp_ret. Qed.

Lemma sync_keeps_instant h res t :
  synchronises deps input h (Ok res) -> sync_requestedAt input = Some t ->
  synced_requestedAt res = t.
Proof.
  intros Hr Ht. enough (Hw : sync_any (sync_run deps input) t)
    by exact (proj1 (wp_sound _ _ _ _ _ _ _ _ _ (Hw []) Hr)).
  clear h Hr. intros h. unfold sync_run. apply wp_bind, wp_lift; [|done].
  intros i ->%snapshotRunInput_same. revert h. apply any_step. intros _.
  unfold resolve_requestedAt. rewrite Ht. intros h. apply wp_bind, wp_ret. revert h.
  do 2 (apply any_step; intros ?). intros h. apply wp_try_catch.
  eapply wp_mono; [|apply steps_keep_instant]. intros [] [res'|x] h' Hres; [exact Hres|].
  unfold record_failure. destruct (isRuntimeOwnershipFailure x); [by apply wp_throw|].
  revert h'. do 2 (apply any_step; intros ?). intros h'. by apply wp_throw.
Qed.

End Synchronised.

Lemma differs_not {A} `{EqDecision A} (x : A) : (x !== x) = false.
Proof. by rewrite bool_decide_eq_true_2. Qed.

Lemma correlation_accepted request account instant e label :
  timestampEpoch (prep_requestedAt request) = Some e -> correlated request account instant ->
  assertSnapshotCorrelation account instant request label = Ret tt.
Proof.
  intros He [-> ->]. unfold assertSnapshotCorrelation. rewrite differs_not. cbn [throw_if mbind outcome_bind].
  rewrite (proj2 (instant_is_read _ _ _ He)). cbn [mbind outcome_bind]. by rewrite differs_not.
Qed.

Lemma balance_accepted b request e :
  timestampEpoch (prep_requestedAt request) = Some e ->
  correlated request (bal_exchangeAccountId b) (bal_capturedAt b) ->
  bal_source b = SOURCE_RECONCILIATION -> is_blank (bal_id b) = false ->
  is_blank (bal_balancesJson b) = false -> snapshotBalanceSnapshot b request = Ret b.
Proof.
  intros He Hc Hs Hid Hj. unfold snapshotBalanceSnapshot.
  rewrite (correlation_accepted _ _ _ _ _ He Hc), Hs, differs_not, !some_is_read by done.
  destruct Hc, b; cbn in *. by subst.
Qed.

Lemma position_accepted p request e :
  timestampEpoch (prep_requestedAt request) = Some e ->
  correlated request (pos_exchangeAccountId p) (pos_capturedAt p) ->
  pos_source p = SOURCE_RECONCILIATION -> is_blank (pos_id p) = false ->
  is_blank (pos_positionsJson p) = false -> snapshotPositionSnapshot p request = Ret p.
Proof.
  intros He Hc Hs Hid Hj. unfold snapshotPositionSnapshot.
  rewrite (correlation_accepted _ _ _ _ _ He Hc), Hs, differs_not, !some_is_read by done.
  destruct Hc, p; cbn in *. by subst.
Qed.

Lemma summary_text_not_blank s : is_blank (stringify (summary_json s)) = false.
Proof. done. Qed.

(** The report of a run that is stored is the one that was returned. *)
Lemma stored_report_is_read s started completed :
  reported s started completed ->
  sum_source s = Trigger.SCHEDULER_PREFLIGHT -> sum_status s ≠ RunStatus.ERROR ->
  snapshotReconciliationSummaryJson (stringify (summary_json s)) started completed
  = Ret (summary_read s).
Proof.
  intros Hr Hs Hst. unfold snapshotReconciliationSummaryJson. rewrite summary_text_not_blank.
  pose proof Hr as [Hc _ _ Hh]. rewrite JSON_parse_plain.
  - eapply summary_is_read; try done; [by right|by right].
  - apply plain_summary; [done|]. intros h E. eapply strict_countable, Hh, E.
Qed.

Lemma returned_report_is_read s label started completed :
  reported s started completed ->
  sum_source s = Trigger.SCHEDULER_PREFLIGHT -> sum_status s ≠ RunStatus.ERROR ->
  snapshotReconciliationSummary (summary_json s) label None = Ret (summary_read s).
Proof.
  intros Hr Hs Hst. by apply (summary_is_read id s label None started completed); [left|..|left].
Qed.

Lemma run_accepted request id completedAt s e e' :
  timestampEpoch (prep_requestedAt request) = Some e ->
  timestampEpoch completedAt = Some e' -> (e <= e')%Z -> is_blank id = false ->
  reported s (prep_requestedAt request) completedAt ->
  sum_source s = Trigger.SCHEDULER_PREFLIGHT -> sum_status s ≠ RunStatus.ERROR ->
  let run := run_record {| identity_id := id; identity_startedAt := prep_requestedAt request |}
               (prep_exchangeAccountId request) completedAt s in
  snapshotReconciliationRun run request (summary_read s) = Ret (run, completedAt).
Proof.
  intros He He' Hle Hid Hr Hs Hst run. unfold snapshotReconciliationRun, run.
  cbn [run_record run_exchangeAccountId run_startedAt run_completedAt run_status run_errorMessage
       run_summaryJson run_id identity_startedAt identity_id].
  rewrite !differs_not. cbn [throw_if mbind outcome_bind].
  rewrite (proj2 (instant_is_read _ _ _ He)). cbn [mbind outcome_bind].
  do 2 (rewrite (proj1 (instant_is_read _ _ _ He)); cbn [mbind outcome_bind]).
  rewrite differs_not, Z.eqb_refl. cbn [orb negb throw_if mbind outcome_bind required_completion].
  rewrite (proj2 (instant_is_read _ _ _ He')). cbn [mbind outcome_bind].
  rewrite (proj1 (instant_is_read _ _ _ He')). cbn [mbind outcome_bind].
  rewrite (proj2 (Z.ltb_ge e' e)) by done. cbn [throw_if mbind outcome_bind].
  rewrite bool_decide_eq_false_2 by done. cbn [orb throw_if mbind outcome_bind].
  rewrite stored_report_is_read by done. cbn [mbind outcome_bind summary_read cand_status cand_canonicalJson].
  rewrite !differs_not. cbn [orb throw_if mbind outcome_bind].
  by rewrite !some_is_read.
Qed.

Lemma evidence_is_accepted request sync completedAt runId e e' :
  let balance := synced_balanceSnapshot sync in
  let position := synced_positionSnapshot sync in
  let s := synced_reconciliationSummary sync in
  synced_requestedAt sync = prep_requestedAt request ->
  timestampEpoch (prep_requestedAt request) = Some e ->
  timestampEpoch completedAt = Some e' -> (e <= e')%Z -> is_blank runId = false ->
  snapshotBalanceSnapshot balance request = Ret balance ->
  snapshotPositionSnapshot position request = Ret position ->
  synced_reconciliationRun sync
    = run_record {| identity_id := runId; identity_startedAt := prep_requestedAt request |}
        (prep_exchangeAccountId request) completedAt s ->
  reported s (prep_requestedAt request) completedAt ->
  sum_source s = Trigger.SCHEDULER_PREFLIGHT -> sum_status s ≠ RunStatus.ERROR ->
  snapshotExactSyncEvidence sync request = Ret (evidence_of request sync completedAt).
Proof.
  cbv zeta. intros Hat He He' Hle Hid Hb Hp Hrun Hr Hs Hst. unfold snapshotExactSyncEvidence.
  rewrite Hat, (proj2 (instant_is_read _ _ _ He)). cbn [mbind outcome_bind].
  rewrite differs_not. cbn [throw_if mbind outcome_bind]. rewrite Hb. cbn [mbind outcome_bind].
  rewrite Hp. cbn [mbind outcome_bind].
  erewrite returned_report_is_read by done.
  cbn [mbind outcome_bind]. rewrite Hrun, (run_accepted _ _ _ _ e e') by done.
  cbn [mbind outcome_bind]. unfold evidence_of. by rewrite Hrun.
Qed.

Section Own.
Context (sha256 : string -> string) (localeCompare : string -> string -> comparison).
Context (sync_deps : PortfolioSyncDependencies) (deps : ReconciliationDependencies).

(** The reconciliation of a synchronisation is one of the service, whose report
    the strict readers accept. *)
Definition reconciled (startedAtMs : Z) (completedAt : string) (boundary : Z)
    (h : list (Effects.event Sync.call js_error)) : Prop :=
  forall account options result,
    happened [PortfolioSyncTheory.answered_as (Sync.RunWithRecord account options) result] h ->
    exists calls, reconciles sha256 localeCompare deps account options calls (Ok result) /\
      report_conditions deps account startedAtMs completedAt boundary calls /\
      (sum_candidateCount (result_summary result) <= MAX_SAFE_INTEGER)%Z.

(** The record of the run, and whose report it is. *)
Lemma record_of_run account options calls result identity :
  reconciles sha256 localeCompare deps account options calls (Ok result) ->
  opt_runIdentity options = Some identity ->
  exists completedAt, result_reconciliationRun result
      = run_record identity account completedAt (result_summary result) /\
    sum_source (result_summary result) = default Trigger.DIRECT_RUN (opt_source options) /\
    sum_status (result_summary result) ≠ RunStatus.ERROR.
Proof.
  intros [(_ & identity' & completedAt & Hid & Hrec & Hsum & _) _]%reconciles_sound Hopt.
  rewrite (Hid _ Hopt) in Hrec. exists completedAt. split; [done|].
  destruct Hsum as (historyIssues & issues & candidates & recovery & Hs & _). cbv zeta in Hs.
  rewrite Hs. by destruct issues.
Qed.

(** What a synchronisation returns is accepted.  The evidence check of a
    preparation accepts, unchanged, what its own synchronisation returned:
    whatever the exchange and the repositories answered, if the reconciliation
    it awaited is a run of the service under the conditions of the strict
    readers, and the identifiers are not blank.  In particular the report that
    was stored as text is read back with the text of the one that was
    returned. *)
Theorem own_sync_is_accepted request h sync startedAtMs completedAt boundary :
  prep_requestedAt request = toISOString startedAtMs ->
  synchronises sync_deps (sync_request request) h (Ok sync) ->
  reconciled startedAtMs completedAt boundary h ->
  run_completedAt (synced_reconciliationRun sync) = Some completedAt ->
  is_count (max_order_lookups deps) = true ->
  Forall (fun id => is_blank id = false) [bal_id (synced_balanceSnapshot sync);
    pos_id (synced_positionSnapshot sync); run_id (synced_reconciliationRun sync)] ->
  snapshotExactSyncEvidence sync request = Ret (evidence_of request sync completedAt).
Proof.
  intros Hms Hsync Hreal Hdone Hmax Hids.
  pose proof (sync_keeps_instant _ _ _ _ _ Hsync eq_refl) as Hat.
  apply synchronises_sound in Hsync as [(_ & _ & rd & result & _ & Hran & Hres) _].
  assert (Hid : identity_startedAt (rd_identity rd) = prep_requestedAt request) by by rewrite <- Hat, Hres.
  destruct (Hreal _ _ _ Hran) as (calls & Hrec & Hcond & Hsafe).
  destruct (record_of_run _ _ _ _ _ Hrec eq_refl) as (completedAt' & Hrun & Hsource & Hstatus).
  assert (completedAt' = completedAt) as ->.
  { rewrite Hres in Hdone. cbn in Hdone. rewrite Hrun in Hdone. by injection Hdone. }
  assert (Hstart : run_startedAt (result_reconciliationRun result) = toISOString startedAtMs)
    by (rewrite Hrun, <- Hms; exact Hid).
  destruct (run_is_reported _ _ _ _ _ _ _ _ _ _ Hrec Hstart ltac:(by rewrite Hrun) Hcond Hmax Hsafe)
    as (Hreported & _).
  rewrite Hstart, <- Hms in Hreported.
  pose proof Hcond as [Hclock Hcompleted Horder _ _ _].
  assert (He : timestampEpoch (prep_requestedAt request) = Some (startedAtMs * 1000000)%Z)
    by (rewrite Hms; apply timestampEpoch_toISOString, Hclock).
  rewrite !Forall_cons in Hids. destruct Hids as (Hb & Hp & Hr & _).
  rewrite Hres in Hb, Hp, Hr |- *. cbn in Hb, Hp, Hr. rewrite Hrun in Hr.
  eapply (evidence_is_accepted _ _ _ (identity_id (rd_identity rd))); try done.
  - eapply balance_accepted; [done|by split|done..].
  - eapply position_accepted; [done|by split|done..].
  - cbn. rewrite Hrun. by destruct (rd_identity rd); cbn in *; subst.
Qed.

End Own.

Abbreviation prep_event := (Effects.event Prep.call js_error).

Definition prepared_as {B} (e : Prep.call B) (v : B) (ev : prep_event) : Prop := ev = Asked e (Ok v).

Section Prepared.
Context (deps : PreparationDependencies) (request : PreparationRequest).

Definition any_reply (B : Type) (e : Prep.call B) (r : Effects.result js_error B) : Prop := True.
Definition any_call (h : list prep_event) (B : Type) (e : Prep.call B) : Prop := True.

Abbreviation prepares m P h :=
  (wp any_reply any_call m (fun _ x h' => match x with Ok v => P v h' | Err _ => True end) tt h).

Lemma prep_await {A B} (e : Prep.call A) (k : A -> preparer B) Q h :
  (forall v, prepares (k v) Q (Asked e (Ok v) :: h)) -> prepares (v ← await e; k v) Q h.
Proof. intros Hk. apply wp_bind, wp_await; [done|]. intros [v|x] _; [apply Hk|done]. Qed.

Lemma prep_pure {A B} (o : outcome A) (k : A -> preparer B) Q h :
  (forall v, o = Ret v -> prepares (k v) Q h) -> prepares (v ← prep_lift o; k v) Q h.
Proof. intros Hk. apply wp_bind, wp_lift; [intros v Hv; by apply Hk|done]. Qed.

(** The calls of a preparation, newest first. *)
Definition asked (sync : PortfolioSyncRunResult) (state : ExecutionStateRecord)
    (activeOrders : list OrderRecord) (checkedAt : string) : list (prep_event -> Prop) :=
  [prepared_as (if pdep_hasNow deps then Prep.Now else Prep.NewDate) checkedAt;
   prepared_as (Prep.ListActiveOrders (prep_exchangeAccountId request) 20) activeOrders;
   prepared_as Prep.GetState state;
   prepared_as (Prep.RunPortfolioSync (sync_request request)) sync].

(** What the answer of a preparation says. *)
Definition decided (maxAge : Z) (result : Preparation.CandidateBtcRunPreparationResult)
    (h : list prep_event) : Prop :=
  exists sync state activeOrders checkedAt completedAt,
    happened (asked sync state activeOrders checkedAt) h /\
    own_evidence request sync completedAt /\
    es_exchangeAccountId state = prep_exchangeAccountId request /\
    let evidence := evidence_of request sync completedAt in
    let conditions := live_conditions maxAge (preflight_of deps evidence state activeOrders checkedAt) in
    match result with
    | Preparation.READY receipt =>
        receipt = receipt_of request (synced_balanceSnapshot sync) (synced_positionSnapshot sync)
                    (synced_reconciliationRun sync) completedAt /\ conditions
    | Preparation.BLOCKED _ => ~ conditions
    end.

Lemma prepare_works maxAge :
  num_integer (getStrategyRunFreshnessThresholdMs (pdep_config deps)) = Some maxAge ->
  prepares (prepare deps request) (decided maxAge) [].
Proof.
  intros Hmax. unfold prepare. apply prep_pure. intros request' ->%request_unchanged.
  apply prep_await. intros sync. apply prep_pure.
  intros evidence (completedAt & Hown & ->)%evidence_unchanged.
  apply prep_await. intros state. apply prep_pure. intros state' [-> Hstate]%state_unchanged.
  apply prep_await. intros activeOrders. apply wp_bind.
  assert (Hfinish : forall checkedAt h, happened (asked sync state activeOrders checkedAt) h ->
    prepares (_ ← prep_lift (parseCandidatePilotTimestamp checkedAt "candidate BTC preparation checkedAt");
      evaluation ← prep_lift (evaluateLiveStrategyRunPreflight
        (preflight_of deps (evidence_of request sync completedAt) state activeOrders checkedAt));
      if eval_status evaluation === Level.BLOCK
      then mret (Preparation.BLOCKED
        ("Candidate BTC run blocked by " ++ blocking_names (eval_checks evaluation) ++ "."))
      else mret (Preparation.READY (ev_refreshReceipt (evidence_of request sync completedAt))))
      (decided maxAge) h).
  { intros checkedAt h Hh. apply prep_pure. intros _ _. apply prep_pure. intros e He.
    destruct (evaluation_spec maxAge
      (preflight_of deps (evidence_of request sync completedAt) state activeOrders checkedAt) Hmax)
      as (e' & He' & Hcase).
    rewrite He' in He. injection He as <-.
    destruct Hcase as [(Hl & r & _ & Hs)|[Hl Hs]]; rewrite Hs.
    - rewrite bool_decide_eq_false_2 by (unfold run_level; by destruct (run_status r)).
      apply wp_ret. by exists sync, state, activeOrders, checkedAt, completedAt.
    - rewrite bool_decide_eq_true_2 by done.
      apply wp_ret. by exists sync, state, activeOrders, checkedAt, completedAt. }
  unfold asked in Hfinish. destruct (pdep_hasNow deps); apply wp_await; try done;
    intros [checkedAt|x] _; try done; apply Hfinish; seen.
Qed.


End Prepared.

(** ** A preparation, and a synchronisation with its reconciliation *)

Local Open Scope string_scope.

Definition quiet_sync (issues : list ReconciliationIssue) : PortfolioSyncRunResult := {|
  synced_requestedAt := sample_started;
  synced_valuationSource := Valuation.public_ticker;
  synced_balanceSnapshot := {|
    bal_id := "balance"; bal_exchangeAccountId := "primary"; bal_capturedAt := sample_started;
    bal_source := SOURCE_RECONCILIATION; bal_totalKrwValue := None; bal_balancesJson := "[]" |};
  synced_positionSnapshot := {|
    pos_id := "position"; pos_exchangeAccountId := "primary"; pos_capturedAt := sample_started;
    pos_source := SOURCE_RECONCILIATION; pos_positionsJson := "[]" |};
  synced_previousBalanceSnapshot := None;
  synced_previousPositionSnapshot := None;
  synced_reconciliationSummary := quiet_summary issues;
  synced_reconciliationRun := quiet_run issues;
|}.

Definition prep_answers (sync : PortfolioSyncRunResult) (h : list prep_event) (B : Type)
    (e : Prep.call B) : Effects.result js_error B :=
  match e in Prep.call B return Effects.result js_error B with
  | Prep.RunPortfolioSync _ => Ok sync
  | Prep.GetState => Ok live_execution_state
  | Prep.ListActiveOrders _ _ => Ok []
  | Prep.Now | Prep.NewDate => Ok checked_instant
  end.

Definition prep_deps : PreparationDependencies := {|
  pdep_config := sample_config (lit 3600000 0);
  pdep_exchangeBackedReadEnabled := true;
  pdep_liveSendPath := SendPath.LIVE_ADAPTER;
  pdep_hasNow := true;
|}.

Definition prep_request : PreparationRequest := {|
  prep_exchangeAccountId := "primary"; prep_requestedAt := sample_started;
  prep_requestedBy := Requester.SCHEDULER;
|}.

Abbreviation prepare_with sync := (exec (prep_answers sync) (prepare prep_deps prep_request tt) []).

Lemma prepared_runs sync :
  runs any_reply (prepare prep_deps prep_request tt) [] (fst (prepare_with sync))
    (tt, snd (snd (prepare_with sync))).
Proof.
  pose proof (exec_runs any_reply (prep_answers sync) (prepare prep_deps prep_request tt) []
    (fun _ _ _ => I)) as H.
  by destruct (prepare_with sync) as [h [[] r]].
Qed.

Definition quiet_receipt : PositionGuardPilotRefreshReceipt :=
  receipt_of prep_request (synced_balanceSnapshot (quiet_sync [])) (synced_positionSnapshot (quiet_sync []))
    (quiet_run []) sample_started.

Example quiet_sync_is_ready :
  snd (snd (prepare_with (quiet_sync []))) = Ok (Preparation.READY quiet_receipt).
Proof. vm_compute. reflexivity. Qed.
Example drift_is_blocked :
  snd (snd (prepare_with (quiet_sync [issue Issue.BALANCE_DRIFT_DETECTED "drift"])))
  = Ok (Preparation.BLOCKED "Candidate BTC run blocked by latest_reconciliation.").
Proof. vm_compute. reflexivity. Qed.
(** A report that was stored with another count than the one returned. *)
Example altered_report_is_refused :
  match snapshotReconciliationRun {|
      run_id := "run"; run_exchangeAccountId := "primary"; run_status := RunStatus.SUCCESS;
      run_startedAt := sample_started; run_completedAt := Some sample_started;
      run_summaryJson := stringify (summary_json {|
        sum_source := Trigger.SCHEDULER_PREFLIGHT; sum_status := RunStatus.SUCCESS; sum_issues := [];
        sum_candidateCount := 3; sum_processedCount := 3; sum_deferredCount := 0;
        sum_maxOrderLookupsPerRun := 10; sum_historyRecovery := None |});
      run_errorMessage := None |} prep_request (summary_read (quiet_summary [])) with
  | Throw message => message
  | Ret _ => ""
  end = "Candidate BTC reconciliation summary evidence must match the persisted reconciliation run.".
Proof. vm_compute. reflexivity. Qed.


(** The reconciliation that serves the synchronisations of the account. *)
Definition serving (options : ReconciliationRunOptions)
    : list (Effects.event Recon.call js_error)
      * (unit * Effects.result js_error ReconciliationRunResult) :=
  exec (recon_answers 1000 (Ok Persisted.APPLIED))
    (runWithRecord sample_sha256 string_compare sample_dependencies "primary" options tt) [].

Definition served (options : ReconciliationRunOptions) : ReconciliationRunResult :=
  match snd (snd (serving options)) with Ok r => r | Err _ => default_result end.

Definition served_answers (h : list (Effects.event Sync.call js_error)) (B : Type) (e : Sync.call B)
    : Effects.result js_error B :=
  match e in Sync.call B return Effects.result js_error B -> Effects.result js_error B with
  | Sync.RunWithRecord _ options => fun _ => Ok (served options)
  | _ => fun answer => answer
  end (sync_answers (Ok sample_balances) h B e).

Lemma served_answers_may h B (e : Sync.call B) :
  PortfolioSyncTheory.may_answer B e (served_answers h B e).
Proof. by destruct e. Qed.

Definition own_request : PreparationRequest := {|
  prep_exchangeAccountId := "primary"; prep_requestedAt := recon_instant;
  prep_requestedBy := Requester.TELEGRAM;
|}.

Definition own_exec : list (Effects.event Sync.call js_error)
    * (unit * Effects.result js_error PortfolioSyncRunResult) :=
  exec served_answers (sync_run sync_deps (sync_request own_request) tt) [].

Definition own_calls := fst own_exec.

Definition asked_run (ev : Effects.event Sync.call js_error)
    : option (string * ReconciliationRunOptions) :=
  match ev with
  | Asked e _ => match e with
                 | Sync.RunWithRecord account options => Some (account, options)
                 | _ => None
                 end
  end.

Definition own_options : ReconciliationRunOptions :=
  match omap asked_run own_calls with [(_, options)] => options | _ => sample_options end.

Definition own_sync : PortfolioSyncRunResult :=
  match snd (snd own_exec) with Ok sync => sync | Err _ => quiet_sync [] end.

Lemma own_sync_runs : synchronises sync_deps (sync_request own_request) own_calls (Ok own_sync).
Proof.
  assert (Hok : is_ok (snd (snd own_exec)) = true) by (vm_compute; reflexivity).
  pose proof (exec_runs PortfolioSyncTheory.may_answer served_answers
    (sync_run sync_deps (sync_request own_request) tt) [] served_answers_may) as H.
  unfold synchronises, own_calls, own_sync. fold own_exec in H.
  destruct own_exec as [h [[] [sync|x]]]; [exact H|discriminate Hok].
Qed.

Lemma serving_own : snd (snd (serving own_options)) = Ok (served own_options).
Proof.
  unfold served. assert (H : is_ok (snd (snd (serving own_options))) = true) by (vm_compute; reflexivity).
  by destruct (snd (snd (serving own_options))).
Qed.

Lemma serving_answered options B (e : Recon.call B) r :
  Asked e r ∈ fst (serving options) -> exists h, r = recon_answers 1000 (Ok Persisted.APPLIED) h B e.
Proof.
  intros Hin. pose proof (exec_answers (recon_answers 1000 (Ok Persisted.APPLIED))
    (runWithRecord sample_sha256 string_compare sample_dependencies "primary" options tt) []
    (Forall_nil_2 _)) as H.
  rewrite Forall_forall in H. exact (H _ Hin).
Qed.

Lemma serving_conditions options :
  report_conditions sample_dependencies "primary" recon_instant_ms recon_instant
    1787284800000000000 (fst (serving options)).
Proof.
  destruct sample_conditions as [Hclock Hcompleted Horder _ _ Hcount].
  split; [exact Hclock|exact Hcompleted|exact Horder| | |exact Hcount].
  - apply Forall_forall. intros [B e r] [h ->]%serving_answered. apply answer_is_bounded.
  - intros market checkpoint (ev & Hin & ->)%happened_in c t Hc.
    apply serving_answered in Hin as [h Hr]. injection Hr as ->. discriminate Hc.
Qed.

Lemma serving_reconciles options :
  reconciles sample_sha256 string_compare sample_dependencies "primary" options
    (fst (serving options)) (snd (snd (serving options))).
Proof.
  unfold reconciles, serving. set (p := runWithRecord _ _ _ _ _ _).
  pose proof (exec_runs ReconciliationTheory.may_answer (recon_answers 1000 (Ok Persisted.APPLIED))
    p [] (recon_answers_may 1000 (Ok Persisted.APPLIED))) as H.
  destruct (exec _ p []) as [h [[] r]]. exact H.
Qed.

Lemma own_run_served account options result :
  Asked (Sync.RunWithRecord account options) (Ok result) ∈ own_calls -> result = served options.
Proof.
  intros Hin. pose proof (exec_answers served_answers
    (sync_run sync_deps (sync_request own_request) tt) [] (Forall_nil_2 _)) as H.
  rewrite Forall_forall in H. destruct (H _ Hin) as [h Hr].
  exact (f_equal (fun r => match r with Ok v => v | Err _ => default_result end) Hr).
Qed.

Lemma own_reconciled :
  reconciled sample_sha256 string_compare sample_dependencies recon_instant_ms recon_instant
    1787284800000000000 own_calls.
Proof.
  intros account options result (ev & Hin & ->)%happened_in.
  assert (Hrun : omap asked_run own_calls = [("primary", own_options)]) by (vm_compute; reflexivity).
  assert (Ha : (account, options) ∈ omap asked_run own_calls).
  { apply list_elem_of_omap. exists (Asked (Sync.RunWithRecord account options) (Ok result)).
    split; [exact Hin|reflexivity]. }
  rewrite Hrun, list_elem_of_singleton in Ha. injection Ha as -> ->.
  rewrite (own_run_served _ _ _ Hin).
  exists (fst (serving own_options)). split; [|split; [apply serving_conditions|vm_compute; discriminate]].
  pose proof (serving_reconciles own_options) as Hruns. rewrite serving_own in Hruns. exact Hruns.
Qed.

Lemma own_sync_is_accepted_witness :
  snapshotExactSyncEvidence own_sync own_request = Ret (evidence_of own_request own_sync recon_instant).
Proof.
  apply (own_sync_is_accepted sample_sha256 string_compare sync_deps sample_dependencies own_request
    own_calls own_sync recon_instant_ms recon_instant 1787284800000000000).
  - vm_compute. reflexivity.
  - exact own_sync_runs.
  - exact own_reconciled.
  - vm_compute. reflexivity.
  - vm_compute. reflexivity.
  - repeat constructor.
Defined.
