(* ===== verification/RunController.v ===== *)
(** * RunController: one run at a time

    [app/strategy-run-controller.ts]: the operator's and the scheduler's
    requests for a run or a preview.  A request is refused while another is in
    flight; a run of the pilot's market needs the receipt of its preparation,
    another run that the operator asked for its preflight.  The flag [running]
    is read and written by calls that are answered at once, so requests that
    interleave at their awaits are a step relation over their programs. *)

From Stdlib Require Import ZArith.
From stdpp Require Import base option list strings.
From S2P Require Import Prelude Num Types Text Timestamp NumText JsMap Json OrderRecords Effects.
From S2P Require Import ExecutionRecords ExecutionHelpers ReconciliationRecords ReconciliationHelpers.
From S2P Require Import StrategyCore Preflight PortfolioSync Runner RunPreparation.

Local Open Scope string_scope.
Local Open Scope js_scope.
Local Open Scope bool_scope.

(** ** Data *)

(** [requestedCommand] follows the requester. *)
Record TelegramStrategyRunRequest := {
  req_exchangeAccountId : string;
  req_market : SupportedMarket;
  req_requestedBy : Requester.RequestedBy;
}.

Record TelegramStrategyPreviewRequest := {
  view_exchangeAccountId : string;
  view_market : SupportedMarket;
}.

Module RunStatusOf.
Inductive StrategyRunStatus : Set := COMPLETED | ALREADY_RUNNING | SKIPPED | NOT_CONNECTED | FAILED.
#[export] Instance StrategyRunStatus_eq_dec : EqDecision StrategyRunStatus.
Proof. solve_decision. Defined.
End RunStatusOf.
Export (hints) RunStatusOf.

Record TelegramStrategyRunResult := {
  done_status : RunStatusOf.StrategyRunStatus;
  done_requestedAt : string;
  done_market : SupportedMarket;
  done_strategyDecisionId : option string;
  done_action : option StrategyDecisionAction;
  done_orderId : option string;
  done_orderStatus : option OrderLifecycleStatus;
  done_submissionAccepted : option bool;
  done_submissionOutcome : option Submission.SubmissionOutcome;
  done_detail : string;
}.

Record TelegramStrategyPreviewResult := {
  shown_status : RunStatusOf.StrategyRunStatus;
  shown_requestedAt : string;
  shown_market : SupportedMarket;
  shown_action : option StrategyDecisionAction;
  shown_executionDisposition : option StrategyExecutionDisposition;
  shown_referencePrice : option num;
  shown_requestedNotionalKrw : option num;
  shown_requestedQuantity : option num;
  shown_order : option PositionGuardOrderPreview;
  shown_detail : string;
}.

(** Which optional dependencies there are. *)
Record ControllerDependencies := {
  cdep_hasCandidateBtcRunPreparation : bool;
  cdep_hasBeforeManualRunPreflight : bool;
  cdep_hasRuntimeOwnership : bool;
  cdep_hasNow : bool;
}.

Module Ctl.
Inductive call : Type -> Type :=
| AssertLocallyHeld : call unit
| Now : call string
| NewDate : call string
(* [this.running] *)
| ReadRunning : call bool
| WriteRunning (value : bool) : call unit
| Prepare (request : PreparationRequest) : call Preparation.CandidateBtcRunPreparationResult
| BeforeManualRunPreflight : call (option StrategySchedulerStartupPreflight)
| RunOnce (input : PositionGuardRunInput) : call PositionGuardRunResult
| PreviewOnce (input : PositionGuardRunInput)
    : call (BuiltDecision * option PositionGuardOrderPreview).
End Ctl.

Abbreviation controller A := (routine Ctl.call run_error unit A).

(** ** Errors *)

Definition is_ownership_failure (error : run_error) : bool :=
  match error with
  | JsError e => isRuntimeOwnershipFailure e
  | PositionGuardCandidateRunBlockedError _ _ => false
  end.

(** [error instanceof Error ? error.message : fallback] *)
Definition run_error_message (fallback : string) (error : run_error) : string :=
  match error with
  | JsError e => error_message fallback e
  | PositionGuardCandidateRunBlockedError reasonCode _ => blocked_message reasonCode
  end.

(** ** Receipts *)

Definition snapshotCandidateRefreshReceipt (r : PositionGuardPilotRefreshReceipt)
    (exchangeAccountId requestedAt : string) : outcome PositionGuardPilotRefreshReceipt :=
  let label := "Candidate BTC refresh receipt " in
  let not_empty value key := throw_if (is_blank value) (label ++ key ++ " must not be empty.") in
  let timestamp value key := parseCandidatePilotTimestamp value (label ++ key) in
  _ ← not_empty (rcp_exchangeAccountId r) "exchangeAccountId";
  _ ← not_empty (rcp_balanceSnapshotId r) "balanceSnapshotId";
  _ ← not_empty (rcp_positionSnapshotId r) "positionSnapshotId";
  _ ← not_empty (rcp_reconciliationRunId r) "reconciliationRunId";
  _ ← timestamp (rcp_requestedAt r) "requestedAt";
  _ ← timestamp (rcp_balanceCapturedAt r) "balanceCapturedAt";
  _ ← timestamp (rcp_positionCapturedAt r) "positionCapturedAt";
  _ ← timestamp (rcp_reconciliationStartedAt r) "reconciliationStartedAt";
  _ ← timestamp (rcp_reconciliationCompletedAt r) "reconciliationCompletedAt";
  _ ← throw_if (rcp_exchangeAccountId r !== exchangeAccountId)
        "Candidate BTC refresh receipt exchange account does not match the run request.";
  _ ← throw_if (rcp_requestedAt r !== requestedAt)
        "Candidate BTC refresh receipt requestedAt does not match the run request.";
  Ret r.

(** ** Results *)

Definition failedRunResult (requestedAt : string) (market : SupportedMarket) (detail : string)
    : TelegramStrategyRunResult := {|
  done_status := RunStatusOf.FAILED;
  done_requestedAt := requestedAt;
  done_market := market;
  done_strategyDecisionId := None;
  done_action := None;
  done_orderId := None;
  done_orderStatus := None;
  done_submissionAccepted := None;
  done_submissionOutcome := None;
  done_detail := detail;
|}.

(** A request that was refused. *)
Definition already_running (r : TelegramStrategyRunRequest) (requestedAt : string)
    : TelegramStrategyRunResult := {|
  done_status := RunStatusOf.ALREADY_RUNNING;
  done_requestedAt := requestedAt;
  done_market := req_market r;
  done_strategyDecisionId := None;
  done_action := None;
  done_orderId := None;
  done_orderStatus := None;
  done_submissionAccepted := None;
  done_submissionOutcome := None;
  done_detail := "A strategy run is already running for " ++ req_exchangeAccountId r ++ ".";
|}.

Definition buildManualRunPreflightBlockDetail (preflight : StrategySchedulerStartupPreflight)
    : string :=
  if has_level Level.BLOCK (start_checks preflight)
  then "Manual strategy run blocked before decision: " ++ start_detail preflight
       ++ " blocking_checks=" ++ blocking_names (start_checks preflight)
  else "Manual strategy run blocked before decision: " ++ start_detail preflight.

Definition buildStrategyRunDetail (result : PositionGuardRunResult) : string :=
  let decision := "Decision " ++ Action.to_string (StrategyCore.sd_action (ran_strategyDecision result))
                  ++ " persisted" in
  match ran_submission result with
  | None => decision ++ "; no order submission was requested."
  | Some submission =>
      if res_accepted submission
      then decision ++ " and submitted through the configured execution path."
      else match res_outcome submission with
           | Submission.RECONCILIATION_REQUIRED =>
               decision ++ "; order outcome is uncertain and requires reconciliation: "
               ++ default "null" (res_reason submission) ++ "."
           | Submission.LEASE_BLOCKED =>
               decision ++ "; order submission was blocked by the account execution lease."
           | Submission.DUPLICATE =>
               decision ++ "; duplicate order intent was identified and not resent."
           | _ => decision ++ "; order submission rejected: "
                  ++ default "unknown reason" (res_reason submission) ++ "."
           end
  end.

Definition outcome_status (submissionOutcome : option Submission.SubmissionOutcome)
    : RunStatusOf.StrategyRunStatus :=
  match submissionOutcome with
  | Some Submission.RECONCILIATION_REQUIRED | Some Submission.LEASE_BLOCKED => RunStatusOf.FAILED
  | Some Submission.DUPLICATE => RunStatusOf.SKIPPED
  | _ => RunStatusOf.COMPLETED
  end.

(** The result of a run that returned. *)
Definition completed_run (r : TelegramStrategyRunRequest) (requestedAt : string)
    (result : PositionGuardRunResult) : TelegramStrategyRunResult :=
  let submissionOutcome := res_outcome <$> ran_submission result in
  {| done_status := outcome_status submissionOutcome;
     done_requestedAt := requestedAt;
     done_market := req_market r;
     done_strategyDecisionId := Some (sd_id (ran_strategyDecisionRecord result));
     done_action := Some (StrategyCore.sd_action (ran_strategyDecision result));
     done_orderId := ord_id <$> (ran_submission result ≫= res_order);
     done_orderStatus := ord_status <$> (ran_submission result ≫= res_order);
     done_submissionAccepted := res_accepted <$> ran_submission result;
     done_submissionOutcome := submissionOutcome;
     done_detail := buildStrategyRunDetail result |}.

Definition empty_preview (status : RunStatusOf.StrategyRunStatus) (market : SupportedMarket)
    (requestedAt detail : string) : TelegramStrategyPreviewResult := {|
  shown_status := status;
  shown_requestedAt := requestedAt;
  shown_market := market;
  shown_action := None;
  shown_executionDisposition := None;
  shown_referencePrice := None;
  shown_requestedNotionalKrw := None;
  shown_requestedQuantity := None;
  shown_order := None;
  shown_detail := detail;
|}.

Definition buildStrategyPreviewDetail (action : StrategyDecisionAction)
    (orderPreview : option PositionGuardOrderPreview) : string :=
  match orderPreview with
  | None => "Decision " ++ Action.to_string action
            ++ " computed; no order submission would be requested."
  | Some order => "Decision " ++ Action.to_string action ++ " computed; order intent "
                  ++ Side.to_string (pre_side order) ++ " " ++ OrdType.to_string (pre_ordType order)
                  ++ " would require /run to persist and submit through the configured path."
  end.

Definition option_else {A} (first second : option A) : option A :=
  match first with Some x => Some x | None => second end.

Definition completed_preview (r : TelegramStrategyPreviewRequest) (requestedAt : string)
    (built : BuiltDecision) (orderPreview : option PositionGuardOrderPreview)
    : TelegramStrategyPreviewResult :=
  let d := bd_strategyDecision built in
  {| shown_status := RunStatusOf.COMPLETED;
     shown_requestedAt := requestedAt;
     shown_market := view_market r;
     shown_action := Some (StrategyCore.sd_action d);
     shown_executionDisposition := Some (executionDisposition (bd_engineDecision built));
     shown_referencePrice := Some (sd_referencePrice d);
     shown_requestedNotionalKrw :=
       option_else (orderPreview ≫= pre_requestedNotionalKrw) (sd_requestedNotionalKrw d);
     shown_requestedQuantity :=
       option_else (orderPreview ≫= pre_requestedQuantity) (sd_requestedQuantity d);
     shown_order := orderPreview;
     shown_detail := buildStrategyPreviewDetail (StrategyCore.sd_action d) orderPreview |}.

(** ** The controller *)

Section Controller.
(** [this.dependencies] *)
Context (deps : ControllerDependencies).

Definition ctl_lift {A} (o : outcome A) : controller A :=
  lift_outcome (fun message => JsError (PlainError message)) o.

Definition assertLocallyHeld : controller unit :=
  if cdep_hasRuntimeOwnership deps then await Ctl.AssertLocallyHeld
  else throw (JsError (RuntimeOwnershipGuardError OwnershipCode.RUNTIME_OWNERSHIP_NOT_HELD
    "RUNTIME_OWNERSHIP_NOT_HELD: Runtime ownership is unavailable in this composition.")).

(** [this.dependencies.now?.() ?? new Date().toISOString()] *)
Definition requested_at : controller string :=
  if cdep_hasNow deps then await Ctl.Now else await Ctl.NewDate.

Definition run_input (market : SupportedMarket) (requestedAt : string)
    (refreshReceipt : option PositionGuardPilotRefreshReceipt) : PositionGuardRunInput := {|
  run_market := market;
  run_generatedAt := requestedAt;
  run_candleTo := None;
  run_refreshReceipt := refreshReceipt;
|}.

(** Either a detail that blocks the run, or the receipt it is given. *)
Definition before_run (r : TelegramStrategyRunRequest) (requestedAt : string)
    : controller (string + option PositionGuardPilotRefreshReceipt) :=
  if (req_market r === Market.KRW_BTC) && cdep_hasCandidateBtcRunPreparation deps then
    preparation ← await (Ctl.Prepare {|
      prep_exchangeAccountId := req_exchangeAccountId r;
      prep_requestedAt := requestedAt;
      prep_requestedBy := req_requestedBy r |});
    _ ← assertLocallyHeld;
    match preparation with
    | Preparation.BLOCKED detail =>
        mret (inl ("Candidate BTC run blocked before decision: " ++ detail))
    | Preparation.READY receipt =>
        refreshReceipt ← ctl_lift (snapshotCandidateRefreshReceipt receipt
                                     (req_exchangeAccountId r) requestedAt);
        mret (inr (Some refreshReceipt))
    end
  else if (req_requestedBy r === Requester.TELEGRAM) && cdep_hasBeforeManualRunPreflight deps then
    preflight ← await Ctl.BeforeManualRunPreflight;
    _ ← assertLocallyHeld;
    match preflight with
    | Some p => if start_status p === Some Level.BLOCK
                then mret (inl (buildManualRunPreflightBlockDetail p)) else mret (inr None)
    | None => mret (inr None)
    end
  else mret (inr None).

(** The body of the [try]. *)
Definition run_steps (r : TelegramStrategyRunRequest) (requestedAt : string)
    : controller TelegramStrategyRunResult :=
  gate ← before_run r requestedAt;
  match gate with
  | inl detail => mret (failedRunResult requestedAt (req_market r) detail)
  | inr refreshReceipt =>
      result ← await (Ctl.RunOnce (run_input (req_market r) requestedAt refreshReceipt));
      _ ← assertLocallyHeld;
      mret (completed_run r requestedAt result)
  end.

(** The bodies of the [catch] blocks. *)
Definition failed_run (r : TelegramStrategyRunRequest) (requestedAt : string) (error : run_error)
    : controller TelegramStrategyRunResult :=
  if is_ownership_failure error then throw error
  else
    _ ← assertLocallyHeld;
    mret (failedRunResult requestedAt (req_market r)
            ("Strategy run failed: " ++ run_error_message "Unknown strategy run failure." error)).

Definition failed_preview (r : TelegramStrategyPreviewRequest) (requestedAt : string)
    (error : run_error) : controller TelegramStrategyPreviewResult :=
  if is_ownership_failure error then throw error
  else
    _ ← assertLocallyHeld;
    mret (empty_preview RunStatusOf.FAILED (view_market r) requestedAt
            ("Strategy preview failed: "
             ++ run_error_message "Unknown strategy preview failure." error)).

Definition preview_steps (r : TelegramStrategyPreviewRequest) (requestedAt : string)
    : controller TelegramStrategyPreviewResult :=
  '(built, orderPreview) ← await (Ctl.PreviewOnce (run_input (view_market r) requestedAt None));
  _ ← assertLocallyHeld;
  mret (completed_preview r requestedAt built orderPreview).

(** [this.running = true; try { body } finally { this.running = false; }], or
    the answer to a request while another is in flight. *)
Definition exclusively {A} (refused : A) (body : controller A) : controller A :=
  running ← await Ctl.ReadRunning;
  if running : bool then mret refused
  else
    _ ← await (Ctl.WriteRunning true);
    try_finally body (await (Ctl.WriteRunning false)).

Definition requestRun (r : TelegramStrategyRunRequest) : controller TelegramStrategyRunResult :=
  _ ← assertLocallyHeld;
  requestedAt ← requested_at;
  exclusively (already_running r requestedAt)
    (try_catch (run_steps r requestedAt) (failed_run r requestedAt)).

Definition requestPreview (r : TelegramStrategyPreviewRequest)
    : controller TelegramStrategyPreviewResult :=
  _ ← assertLocallyHeld;
  requestedAt ← requested_at;
  exclusively
    (empty_preview RunStatusOf.ALREADY_RUNNING (view_market r) requestedAt
       ("A strategy run or preview is already running for " ++ view_exchangeAccountId r ++ "."))
    (try_catch (preview_steps r requestedAt) (failed_preview r requestedAt)).

(** ** Requests that interleave *)

Inductive request : Type :=
| RunRequest (r : TelegramStrategyRunRequest)
| PreviewRequest (r : TelegramStrategyPreviewRequest).

Inductive response : Type :=
| RunResponse (result : TelegramStrategyRunResult)
| PreviewResponse (result : TelegramStrategyPreviewResult).

Definition handle (q : request) : controller response :=
  match q with
  | RunRequest r => result ← requestRun r; mret (RunResponse result)
  | PreviewRequest r => result ← requestPreview r; mret (PreviewResponse result)
  end.

Abbreviation thread := (prog Ctl.call run_error (unit * result run_error response)).

(** The flag, and the requests that were made, in order. *)
Record controller_state := {
  flag_running : bool;
  threads : list thread;
}.

(** What the flag answers, and its value afterwards. *)
Definition flag_answer (running : bool) {B} (e : Ctl.call B) : option (result run_error B * bool) :=
  match e in Ctl.call B return option (result run_error B * bool) with
  | Ctl.ReadRunning => Some (Ok running, running)
  | Ctl.WriteRunning value => Some (Ok tt, value)
  | _ => None
  end.

(** Code runs to its next call of something else. *)
Fixpoint settle (running : bool) (p : thread) : bool * thread :=
  match p with
  | Done _ v => (running, p)
  | Ask _ e k => match flag_answer running e with
               | Some (r, running') => settle running' (k r)
               | None => (running, p)
               end
  end.

(** A new request, or the answer to a call of one that waits. *)
Inductive controller_step : controller_state -> controller_state -> Prop :=
| step_request s q running' p' :
    settle (flag_running s) (handle q tt) = (running', p') ->
    controller_step s {| flag_running := running'; threads := (threads s ++ [p'])%list |}
| step_answer s i B (e : Ctl.call B) k r running' p' :
    threads s !! i = Some (Ask _ e k) -> flag_answer (flag_running s) e = None ->
    settle (flag_running s) (k r) = (running', p') ->
    controller_step s {| flag_running := running'; threads := <[i := p']> (threads s) |}.

Definition controller_start : controller_state := {| flag_running := false; threads := [] |}.

End Controller.
