(* ===== verification/RunGate.v ===== *)
(** * RunGate: what stands in front of a run

    Of [RunController]: however requests interleave, one run or preview is in
    flight at a time, and the flag that says so is given back; a run starts only
    behind its gate. *)

From Stdlib Require Import ZArith Lia.
From stdpp Require Import base option list strings relations.
From S2P Require Import Prelude Num Types Text Timestamp NumText JsMap Json JsonText OperatorState OrderRecords Effects.
From S2P Require Import ExecutionRecords ExecutionHelpers ReconciliationRecords ReconciliationHelpers.
From S2P Require Import HistoryWindows ReportReader Preflight PreflightTheory PortfolioSync Runner.
From S2P Require Import RunPreparation RunController.

Local Open Scope js_scope.

(** ** One at a time *)

(** The calls of a run or a preview, or of what comes before a run. *)
Definition in_flight {B} (e : Ctl.call B) : bool :=
  match e with
  | Ctl.Prepare _ | Ctl.BeforeManualRunPreflight | Ctl.RunOnce _ | Ctl.PreviewOnce _ => true
  | _ => false
  end.

Section Programs.
Context {A : Type}.
Abbreviation program := (prog Ctl.call run_error A).

(** A program that does not touch the flag. *)
Fixpoint flagless (p : program) : Prop :=
  match p with
  | Done _ _ => True
  | Ask _ e k => flag_answer false e = None /\ forall r, flagless (k r)
  end.

(** Neither the flag nor anything of a run. *)
Fixpoint idle (p : program) : Prop :=
  match p with
  | Done _ _ => True
  | Ask _ e k => flag_answer false e = None /\ in_flight e = false /\ forall r, idle (k r)
  end.

(** A program that holds the flag: it gives it back and is idle after that. *)
Fixpoint inside (p : program) : Prop :=
  match p with
  | Done _ _ => False
  | Ask _ e k => match flag_answer true e with
                 | Some (r, running) => running = false /\ idle (k r)
                 | None => forall r, inside (k r)
                 end
  end.

(** It takes the flag that it found free. *)
Definition entering (p : program) : Prop :=
  match p with
  | Done _ _ => False
  | Ask _ e k => match flag_answer false e with
                 | Some (r, true) => inside (k r)
                 | _ => False
                 end
  end.

(** A program that does not hold the flag. *)
Fixpoint outside (p : program) : Prop :=
  match p with
  | Done _ _ => True
  | Ask _ e k =>
      in_flight e = false /\
      match flag_answer true e, flag_answer false e with
      | Some (taken, running), Some (free, running') =>
          running = true /\ idle (k taken) /\ running' = false /\ entering (k free)
      | _, _ => forall r, outside (k r)
      end
  end.

Lemma flag_answers {B} (e : Ctl.call B) :
  flag_answer false e = None -> flag_answer true e = None.
Proof. by destruct e. Qed.

Lemma idle_outside p : idle p -> outside p.
Proof.
  induction p as [v|B e k IH]; [done|]. cbn. intros (Hf & Hi & Hk). split; [done|].
  rewrite (flag_answers e Hf). auto.
Qed.
End Programs.

Lemma idle_bind {A A'} (p : prog Ctl.call run_error A) (k : A -> prog Ctl.call run_error A') :
  idle p -> (forall v, idle (k v)) -> idle (prog_bind p k).
Proof. intros Hp Hk. induction p as [v|B e k' IH]; cbn in *; naive_solver. Qed.

Lemma flagless_bind {A A'} (p : prog Ctl.call run_error A) (k : A -> prog Ctl.call run_error A') :
  flagless p -> (forall v, flagless (k v)) -> flagless (prog_bind p k).
Proof. intros Hp Hk. induction p as [v|B e k' IH]; cbn in *; naive_solver. Qed.

Lemma inside_bind {A A'} (p : prog Ctl.call run_error A) (k : A -> prog Ctl.call run_error A') :
  flagless p -> (forall v, inside (k v)) -> inside (prog_bind p k).
Proof.
  intros Hp Hk. induction p as [v|B e k' IH]; cbn in *; [done|]. destruct Hp as [Hf Hp].
  rewrite (flag_answers e Hf). auto.
Qed.

(** What follows a program that gave the flag back. *)
Lemma inside_then {A A'} (p : prog Ctl.call run_error A) (k : A -> prog Ctl.call run_error A') :
  inside p -> (forall v, idle (k v)) -> inside (prog_bind p k).
Proof.
  intros Hp Hk. induction p as [v|B e k' IH]; cbn in *; [done|].
  destruct (flag_answer true e) as [[r running]|]; [|auto].
  destruct Hp as [-> Hp]. split; [done|]. by apply idle_bind.
Qed.

Lemma outside_after {A A'} (p : prog Ctl.call run_error A) (k : A -> prog Ctl.call run_error A') :
  idle p -> (forall v, outside (k v)) -> outside (prog_bind p k).
Proof.
  intros Hp Hk. induction p as [v|B e k' IH]; cbn in *; [done|]. destruct Hp as (Hf & Hi & Hp).
  split; [done|]. rewrite (flag_answers e Hf). auto.
Qed.

Lemma outside_then {A A'} (p : prog Ctl.call run_error A) (k : A -> prog Ctl.call run_error A') :
  outside p -> (forall v, idle (k v)) -> outside (prog_bind p k).
Proof.
  intros Hp Hk. induction p as [v|B e k' IH]; [apply idle_outside, Hk|]. cbn in *.
  destruct Hp as [Hi Hp]. split; [done|].
  destruct (flag_answer true e) as [[taken running]|]; [|auto].
  destruct (flag_answer false e) as [[free running']|]; [|auto].
  destruct Hp as (-> & Ht & -> & He). split; [done|]. split; [by apply idle_bind|]. split; [done|].
  destruct (k' free) as [v|B' e' k'']; [done|]. cbn in *.
  destruct (flag_answer false e') as [[r [|]]|]; [|done|done]. by apply inside_then.
Qed.

(** ** Routines that do not touch the flag *)

Section Controller.
Context (deps : ControllerDependencies).

Definition silent {A} (m : controller A) : Prop := forall l, flagless (m l).

Lemma silent_bind {A B} (m : controller A) (k : A -> controller B) :
  silent m -> (forall v, silent (k v)) -> silent (x ← m; k x).
Proof. intros Hm Hk l. apply flagless_bind; [apply Hm|]. intros [l' [v|x]]; [apply Hk|done]. Qed.

Lemma silent_try_catch {A} (m : controller A) (k : run_error -> controller A) :
  silent m -> (forall x, silent (k x)) -> silent (try_catch m k).
Proof. intros Hm Hk l. apply flagless_bind; [apply Hm|]. intros [l' [v|x]]; [done|apply Hk]. Qed.

Lemma silent_await {B} (e : Ctl.call B) : flag_answer false e = None -> silent (await e).
Proof. by intros He l. Qed.

Lemma silent_lift {A} (o : outcome A) : silent (ctl_lift o).
Proof. by intros l; destruct o. Qed.

Lemma silent_assert : silent (assertLocallyHeld deps).
Proof. unfold assertLocallyHeld. by destruct (cdep_hasRuntimeOwnership deps). Qed.

Hint Resolve silent_lift silent_assert : upbit.

Ltac silence :=
  repeat first
    [ progress auto with upbit
    | apply silent_bind; [|intros]
    | apply silent_await; reflexivity
    | case_match
    | done ].

Lemma silent_run r requestedAt :
  silent (try_catch (run_steps deps r requestedAt) (failed_run deps r requestedAt)).
Proof.
  apply silent_try_catch; [unfold run_steps, before_run|intros x; unfold failed_run]; silence.
Qed.

Lemma silent_preview r requestedAt :
  silent (try_catch (preview_steps deps r requestedAt) (failed_preview deps r requestedAt)).
Proof.
  apply silent_try_catch; [unfold preview_steps|intros x; unfold failed_preview]; silence.
Qed.

(** The flag is taken before the body and given back after it. *)
Lemma outside_exclusively {A} (refused : A) (body : controller A) l :
  silent body -> outside (exclusively refused body l).
Proof.
  intros Hb. split; [done|]. split; [done|]. split; [exact I|]. split; [done|].
  change (inside (try_finally body (await (Ctl.WriteRunning false)) l)). unfold try_finally.
  apply inside_bind; [apply Hb|]. intros [l' r]. split; [done|]. by destruct r.
Qed.

Lemma idle_assert l : idle (assertLocallyHeld deps l).
Proof. unfold assertLocallyHeld. by destruct (cdep_hasRuntimeOwnership deps). Qed.

Lemma idle_requested_at l : idle (requested_at deps l).
Proof. unfold requested_at. by destruct (cdep_hasNow deps). Qed.

Lemma outside_bind {A B} (m : controller A) (k : A -> controller B) l :
  idle (m l) -> (forall v l', outside (k v l')) -> outside ((x ← m; k x) l).
Proof. intros Hm Hk. apply outside_after; [done|]. intros [l' [v|x]]; [apply Hk|done]. Qed.

(** No request holds the flag when it is made. *)
Lemma outside_handle q l : outside (handle deps q l).
Proof.
  destruct q as [r|r]; (apply outside_then; [|by intros [l' [v|x]]]).
  - apply outside_bind; [apply idle_assert|]. intros _ l1.
    apply outside_bind; [apply idle_requested_at|]. intros requestedAt l2.
    apply outside_exclusively, silent_run.
  - apply outside_bind; [apply idle_assert|]. intros _ l1.
    apply outside_bind; [apply idle_requested_at|]. intros requestedAt l2.
    apply outside_exclusively, silent_preview.
Qed.

Abbreviation program := (prog Ctl.call run_error (unit * result run_error response)).

Lemma settle_idle running p : idle p -> settle running p = (running, p).
Proof.
  destruct p as [v|B e k]; [done|]. cbn. intros (Hf & _ & _).
  assert (H : flag_answer running e = None) by (destruct running; [by apply flag_answers|done]).
  by rewrite H.
Qed.

Lemma settle_inside p :
  inside p ->
  (exists p', settle true p = (true, p') /\ inside p') \/
  (exists p', settle true p = (false, p') /\ outside p').
Proof.
  destruct p as [v|B e k]; cbn; [done|]. intros H. destruct (flag_answer true e) as [[r running]|] eqn:E.
  - destruct H as [-> Hi]. right. exists (k r). rewrite settle_idle by done.
    split; [done|]. by apply idle_outside.
  - left. eexists. split; [done|]. cbn. by rewrite E.
Qed.

(** What a program that does not hold the flag makes of it. *)
Lemma settle_outside running p :
  outside p ->
  (exists p', settle running p = (running, p') /\ outside p') \/
  (running = false /\ exists p', settle running p = (true, p') /\ inside p').
Proof.
  destruct p as [v|B e k]; cbn; [intros _; left; by eexists|]. intros [Hi H].
  destruct (flag_answer true e) as [[taken b]|] eqn:Et.
  - destruct (flag_answer false e) as [[free b']|] eqn:Ef; [|by apply flag_answers in Ef; rewrite Ef in Et].
    destruct H as (-> & Hidle & -> & Hent). destruct running.
    + left. rewrite Et, settle_idle by done. eexists. split; [done|]. by apply idle_outside.
    + rewrite Ef. destruct (k free) as [v|B' e' k']; [done|]. cbn in Hent |- *.
      destruct (flag_answer false e') as [[r [|]]|]; [|done|done].
      destruct (settle_inside _ Hent) as [(p' & Hp & Hin)|(p' & Hp & Hout)].
      * right. split; [done|]. by exists p'.
      * left. by exists p'.
  - left. assert (Hr : flag_answer running e = None).
    { destruct running; [done|]. by destruct e. }
    rewrite Hr. eexists. split; [done|]. cbn. split; [done|]. by rewrite Et.
Qed.

(** Either no request is in flight, or one holds the flag. *)
Inductive exclusive : controller_state -> Prop :=
| nobody ts : Forall outside ts -> exclusive {| flag_running := false; threads := ts |}
| somebody ts ts' p : Forall outside ts -> Forall outside ts' -> inside p ->
    exclusive {| flag_running := true; threads := (ts ++ p :: ts')%list |}.

Lemma flag_answer_none running {B} (e : Ctl.call B) :
  flag_answer running e = None -> forall running', flag_answer running' e = None.
Proof. by destruct e. Qed.

(** The thread that holds the flag, or another, gets the answer it waits for. *)
Lemma answered_inside {B} (e : Ctl.call B) (k : result run_error B -> program) r :
  inside (Ask _ e k) -> flag_answer true e = None -> inside (k r).
Proof. cbn. intros H E. rewrite E in H. apply H. Qed.

Lemma answered_outside {B} (e : Ctl.call B) (k : result run_error B -> program) r :
  outside (Ask _ e k) -> flag_answer true e = None -> outside (k r).
Proof. cbn. intros [_ H] E. rewrite E in H. apply H. Qed.

Lemma exclusive_step s s' : controller_step deps s s' -> exclusive s -> exclusive s'.
Proof.
  intros [s1 q running' p' Hs|s1 i B e k r running' p' Hi He Hs] Hinv.
  - pose proof (outside_handle q tt) as Hq. destruct Hinv as [ts Hts|ts ts' p Hts Hts' Hp]; cbn in *.
    + destruct (settle_outside false _ Hq) as [(p1 & Heq & Ho)|(_ & p1 & Heq & Hin)];
        rewrite Heq in Hs; injection Hs as <- <-.
      * constructor. apply Forall_app. split; [done|]. by constructor.
      * by apply (somebody ts []).
    + destruct (settle_outside true _ Hq) as [(p1 & Heq & Ho)|(? & _)]; [|done].
      rewrite Heq in Hs. injection Hs as <- <-. rewrite <- app_assoc. cbn. constructor; try done.
      apply Forall_app. split; [done|]. by constructor.
  - pose proof (flag_answer_none _ _ He true) as Ht.
    destruct Hinv as [ts Hts|ts ts' p Hts Hts' Hp]; cbn in *.
    + assert (Ho : outside (k r)).
      { eapply answered_outside; [|exact Ht]. by eapply (Forall_lookup_1 _ _ _ _ Hts). }
      destruct (settle_outside false _ Ho) as [(p1 & Heq & Ho1)|(_ & p1 & Heq & Hin)];
        rewrite Heq in Hs; injection Hs as <- <-.
      * constructor. by apply Forall_insert.
      * pose proof (lookup_lt_Some _ _ _ Hi) as Hlt.
        rewrite insert_take_drop by done. constructor; [by apply Forall_take|by apply Forall_drop|done].
    + destruct (decide (i = length ts)) as [->|Hne].
      * rewrite list_lookup_middle in Hi by done. injection Hi as ->.
        rewrite insert_app_r_alt, Nat.sub_diag by done. cbn.
        destruct (settle_inside _ (answered_inside _ _ r Hp Ht)) as [(p1 & Heq & Hin)|(p1 & Heq & Ho)];
          rewrite Heq in Hs; injection Hs as <- <-; [by constructor|].
        constructor. apply Forall_app. split; [done|]. by constructor.
      * assert (Ho : outside (k r)).
        { eapply answered_outside; [|exact Ht].
          apply lookup_app_Some in Hi as [Hi|[Hl Hi]]; [by eapply (Forall_lookup_1 _ _ _ _ Hts)|].
          destruct (i - length ts) as [|j] eqn:Ej; [lia|]. by eapply (Forall_lookup_1 _ _ _ _ Hts'). }
        destruct (settle_outside true _ Ho) as [(p1 & Heq & Ho1)|(? & _)]; [|done].
        rewrite Heq in Hs. injection Hs as <- <-.
        destruct (decide (i < length ts)) as [Hlt|Hge].
        -- rewrite insert_app_l by done. constructor; [by apply Forall_insert|done|done].
        -- rewrite insert_app_r_alt by lia. destruct (i - length ts) as [|j] eqn:Ej; [lia|]. cbn.
           constructor; [done|by apply Forall_insert|done].
Qed.

Lemma exclusive_reachable s s' : rtc (controller_step deps) s s' -> exclusive s -> exclusive s'.
Proof. induction 1; eauto using exclusive_step. Qed.

(** The request waits for its run, its preview or what comes before a run. *)
Definition waits_for_a_run (p : program) : Prop :=
  match p with Done _ _ => False | Ask _ e _ => in_flight e = true end.

(** C9: one run at a time.  However requests for runs and previews interleave,
    and whatever the calls they wait for answer or throw, at most one of them
    waits for a preparation, a preflight, a run or a preview at any time; while
    one does, the controller says it is running; and when every request has been
    answered, it does not: the flag is never left behind. *)
Theorem one_run_at_a_time s :
  rtc (controller_step deps) controller_start s ->
  (forall i j p p', threads s !! i = Some p -> threads s !! j = Some p' ->
     waits_for_a_run p -> waits_for_a_run p' -> i = j) /\
  (forall i p, threads s !! i = Some p -> waits_for_a_run p -> flag_running s = true) /\
  ((forall i p, threads s !! i = Some p -> exists v, p = Done _ v) -> flag_running s = false).
Proof.
  intros Hreach. apply exclusive_reachable in Hreach; [|constructor; constructor].
  assert (Hwait : forall p, outside p -> ~ waits_for_a_run p).
  { intros [v|B e k]; cbn; [by intros _ []|]. intros [Hi _] H. congruence. }
  destruct Hreach as [ts Hts|ts ts' q Hts Hts' Hq]; cbn; rewrite Forall_lookup in Hts.
  - split_and!; [|intros i p Hi Hp; by destruct (Hwait p (Hts _ _ Hi))|done].
    intros i j p p' Hi _ Hp. by destruct (Hwait p (Hts _ _ Hi)).
  - rewrite Forall_lookup in Hts'.
    assert (Hone : forall i p, (ts ++ q :: ts')%list !! i = Some p -> waits_for_a_run p -> i = length ts).
    { intros i p Hi Hp. apply lookup_app_Some in Hi as [Hi|[Hl Hi]]; [by destruct (Hwait p (Hts _ _ Hi))|].
      destruct (i - length ts) as [|j] eqn:Ej; [lia|]. by destruct (Hwait p (Hts' _ _ Hi)). }
    split_and!; [|done|].
    + intros i j p p' Hi Hj Hp Hp'. by rewrite (Hone i p), (Hone j p').
    + intros Hall. destruct (Hall (length ts) q) as [v ->]; [by apply list_lookup_middle|done].
Qed.

End Controller.

(** ** Behind the gate *)

Abbreviation event := (Effects.event Ctl.call run_error).
Abbreviation history := (list event).

Definition answered_as {B} (e : Ctl.call B) (v : B) (ev : event) : Prop := ev = Asked e (Ok v).

Definition is_run (ev : event) : bool :=
  match ev with Asked e _ => match e with Ctl.RunOnce _ => true | _ => false end end.

Abbreviation held_now := (answered_as Ctl.AssertLocallyHeld tt).

Section Gate.
Context (deps : ControllerDependencies) (r : TelegramStrategyRunRequest).

Definition preparation_request (requestedAt : string) : PreparationRequest := {|
  prep_exchangeAccountId := req_exchangeAccountId r;
  prep_requestedAt := requestedAt;
  prep_requestedBy := req_requestedBy r;
|}.

(** The run's instant was read, no request was in flight, and the flag was
    taken. *)
Definition flag_taken (requestedAt : string) : list (event -> Prop) :=
  [answered_as (Ctl.WriteRunning true) tt; answered_as Ctl.ReadRunning false;
   answered_as (if cdep_hasNow deps then Ctl.Now else Ctl.NewDate) requestedAt; held_now].

(** A run of the pilot's market has the receipt of its preparation, and a run
    the operator asked for has passed its preflight, where these are wired. *)
Definition gate_passed (requestedAt : string)
    (receipt : option PositionGuardPilotRefreshReceipt) (h : history) : Prop :=
  if (req_market r === Market.KRW_BTC) && cdep_hasCandidateBtcRunPreparation deps then
    exists rc, receipt = Some rc /\
      snapshotCandidateRefreshReceipt rc (req_exchangeAccountId r) requestedAt = Ret rc /\
      happened (held_now :: answered_as (Ctl.Prepare (preparation_request requestedAt))
                              (Preparation.READY rc) :: flag_taken requestedAt) h
  else
    receipt = None /\ happened (flag_taken requestedAt) h /\
    ((req_requestedBy r === Requester.TELEGRAM) && cdep_hasBeforeManualRunPreflight deps = true ->
     exists preflight,
       happened (held_now :: answered_as Ctl.BeforeManualRunPreflight preflight
                 :: flag_taken requestedAt) h /\
       forall p, preflight = Some p -> start_status p ≠ Some Level.BLOCK).

(** The only run, of the request's market at the request's instant. *)
Definition permitted (h : history) (B : Type) (e : Ctl.call B) : Prop :=
  match e with
  | Ctl.RunOnce input =>
      List.filter is_run h = [] /\ exists requestedAt receipt,
        input = run_input (req_market r) requestedAt receipt /\ gate_passed requestedAt receipt h
  | Ctl.PreviewOnce _ => False
  | _ => True
  end.

(** A result either is that of the run, or names no decision. *)
Definition reported (result : TelegramStrategyRunResult) (h : history) : Prop :=
  (exists requestedAt receipt ran,
     happened [answered_as (Ctl.RunOnce (run_input (req_market r) requestedAt receipt)) ran] h /\
     result = completed_run r requestedAt ran) \/
  (done_strategyDecisionId result = None /\ done_action result = None /\
   done_orderId result = None /\ done_submissionOutcome result = None /\
   (done_status result = RunStatusOf.ALREADY_RUNNING \/ done_status result = RunStatusOf.FAILED)).

Definition any_answer (B : Type) (e : Ctl.call B) (answer : Effects.result run_error B) : Prop := True.

Definition returning {A} (P : A -> history -> Prop) (x : Effects.result run_error A) (h : history)
    : Prop := match x with Ok v => P v h | Err _ => True end.

Abbreviation works m P h :=
  (wp any_answer permitted m (fun _ x h' => returning P x h') tt h).

Lemma ctl_bind {A B} (m : controller A) (k : A -> controller B) (P : A -> history -> Prop)
    (Q : B -> history -> Prop) h :
  works m P h -> (forall v h', P v h' -> works (k v) Q h') -> works (v ← m; k v) Q h.
Proof.
  intros Hm Hk. apply wp_bind. eapply wp_mono; [|exact Hm]. intros [] [v|x] h'; [apply Hk|done].
Qed.

Lemma ctl_await {A B} (e : Ctl.call A) (k : A -> controller B) (Q : B -> history -> Prop) h :
  permitted h A e -> (forall v, works (k v) Q (Asked e (Ok v) :: h)) -> works (v ← await e; k v) Q h.
Proof. intros Hp Hk. apply wp_bind, wp_await; [done|]. intros [v|x] _; [apply Hk|done]. Qed.

Lemma ctl_held {B} (k : controller B) (Q : B -> history -> Prop) h :
  works k Q (Asked Ctl.AssertLocallyHeld (Ok tt) :: h) ->
  works (_ ← assertLocallyHeld deps; k) Q h.
Proof.
  intros Hk. unfold assertLocallyHeld. destruct (cdep_hasRuntimeOwnership deps); [|done].
  apply ctl_await; [done|]. by intros [].
Qed.

Lemma ctl_pure {A B} (o : outcome A) (k : A -> controller B) (Q : B -> history -> Prop) h :
  (forall v, o = Ret v -> works (k v) Q h) -> works (v ← ctl_lift o; k v) Q h.
Proof. intros Hk. apply wp_bind, wp_lift; [intros v Hv; by apply Hk|done]. Qed.

Lemma ctl_catch {A} (m : controller A) (k : run_error -> controller A)
    (Q : A -> history -> Prop) h :
  works m Q h -> (forall x h', works (k x) Q h') -> works (try_catch m k) Q h.
Proof.
  intros Hm Hk. apply wp_try_catch. eapply wp_mono; [|exact Hm]. intros [] [v|x] h' H; [exact H|apply Hk].
Qed.

Lemma receipt_unchanged rc account requestedAt rc' :
  snapshotCandidateRefreshReceipt rc account requestedAt = Ret rc' -> rc' = rc.
Proof. unfold snapshotCandidateRefreshReceipt. intros H. by inv_outcome. Qed.

Lemma before_run_works requestedAt h :
  List.filter is_run h = [] -> happened (flag_taken requestedAt) h ->
  works (before_run deps r requestedAt) (fun gate h' =>
    List.filter is_run h' = [] /\
    match gate with inl _ => True | inr receipt => gate_passed requestedAt receipt h' end) h.
Proof.
  intros Hn Ht. unfold before_run, gate_passed. destruct (_ && cdep_hasCandidateBtcRunPreparation deps).
  - apply ctl_await; [done|]. intros preparation. apply ctl_held. destruct preparation as [rc|detail].
    + apply ctl_pure. intros rc' Hrc. pose proof (receipt_unchanged _ _ _ _ Hrc) as ->.
      apply wp_ret. split; [done|]. exists rc. split; [done|]. split; [done|]. seen.
    + by apply wp_ret.
  - destruct (_ && cdep_hasBeforeManualRunPreflight deps).
    + apply ctl_await; [done|]. intros preflight. apply ctl_held.
      destruct preflight as [p|]; [case_bool_decide|]; apply wp_ret; (split; [done|]); try done.
      all: split; [done|]; split; [seen|]; intros _; eexists; split; [seen|naive_solver].
    + apply wp_ret. by split_and!.
Qed.

Lemma gated_steps_work requestedAt h :
  List.filter is_run h = [] -> happened (flag_taken requestedAt) h ->
  works (try_catch (run_steps deps r requestedAt) (RunController.failed_run deps r requestedAt))
    reported h.
Proof.
  intros Hn Ht. apply ctl_catch; [|intros x h'; unfold RunController.failed_run;
    destruct (is_ownership_failure x); [by apply wp_throw|by apply ctl_held, wp_ret; right; cbn; auto 7]].
  unfold run_steps. eapply ctl_bind; [by apply before_run_works|].
  intros [detail|receipt] h1 [Hn1 Hgate]; [apply wp_ret; right; cbn; auto 7|].
  apply ctl_await; [split; [done|]; by exists requestedAt, receipt|]. intros ran.
  apply ctl_held, wp_ret. left. exists requestedAt, receipt, ran. split; [seen|done].
Qed.

Lemma request_works :
  works (requestRun deps r) reported [].
Proof.
  unfold requestRun. apply ctl_held.
  eapply (ctl_bind _ _ (fun requestedAt h => List.filter is_run h = [] /\
    happened [answered_as (if cdep_hasNow deps then Ctl.Now else Ctl.NewDate) requestedAt; held_now] h)).
  { unfold requested_at. destruct (cdep_hasNow deps); (apply wp_await; [done|]; intros [v|x] _; [|done]);
      (split; [done|seen]). }
  intros requestedAt h [Hn Hat]. unfold exclusively. apply ctl_await; [done|]. intros [|].
  - apply wp_ret. right. cbn. auto 7.
  - apply ctl_await; [done|]. intros []. apply wp_try_finally.
    eapply wp_mono; [|apply gated_steps_work; [done|unfold flag_taken; seen]].
    intros [] x h' H. apply wp_await; [done|]. intros [[]|y] _; [|done]. destruct x as [v|x]; [|done].
    destruct H as [(a & rc & ran & Hran & ->)|H]; [left|by right]. exists a, rc, ran. split; [|done].
    by apply happened_before.
Qed.

(** C18: runs are gated.  In every run of a request, whatever its calls answer or
    throw, the runner is asked at most once, after the instant was read while
    no other request was in flight and the flag was taken: with the receipt that
    the preparation of this account and instant gave, for the pilot's market, or
    else without one, after a preflight that does not block where the operator
    asked.  A result either reports what that run returned, or says that the
    request was refused or failed and names no decision and no order. *)
Theorem runs_are_gated h x :
  runs any_answer (requestRun deps r tt) [] h (tt, x) ->
  (forall newer older input answer,
     h = (newer ++ Asked (Ctl.RunOnce input) answer :: older)%list ->
     List.filter is_run older = [] /\ exists requestedAt receipt,
       input = run_input (req_market r) requestedAt receipt /\
       gate_passed requestedAt receipt older) /\
  returning reported x h.
Proof.
  intros Hr. destruct (wp_sound _ _ _ _ _ _ _ _ _ request_works Hr) as [HQ Hall].
  split; [|exact HQ]. intros newer older input answer Hh. exact (Hall _ _ _ _ _ Hh (Nat.le_0_l _)).
Qed.

End Gate.

(** ** Requests of a sample account *)

Local Open Scope string_scope.

Definition gate_instant : string := "2026-08-21T00:00:00.000Z".

Definition gate_receipt : PositionGuardPilotRefreshReceipt := {|
  rcp_exchangeAccountId := "primary"; rcp_requestedAt := gate_instant;
  rcp_balanceSnapshotId := "balance"; rcp_balanceCapturedAt := gate_instant;
  rcp_positionSnapshotId := "position"; rcp_positionCapturedAt := gate_instant;
  rcp_reconciliationRunId := "run"; rcp_reconciliationStartedAt := gate_instant;
  rcp_reconciliationCompletedAt := gate_instant;
|}.

Definition gate_deps : ControllerDependencies := {|
  cdep_hasCandidateBtcRunPreparation := true; cdep_hasBeforeManualRunPreflight := true;
  cdep_hasRuntimeOwnership := true; cdep_hasNow := true;
|}.

Definition gate_request : TelegramStrategyRunRequest := {|
  req_exchangeAccountId := "primary"; req_market := Market.KRW_BTC;
  req_requestedBy := Requester.TELEGRAM;
|}.

(** The runner throws; everything else works. *)
Definition gate_answers (h : history) (B : Type) (e : Ctl.call B) : Effects.result run_error B :=
  match e in Ctl.call B return Effects.result run_error B with
  | Ctl.AssertLocallyHeld => Ok tt
  | Ctl.Now | Ctl.NewDate => Ok gate_instant
  | Ctl.ReadRunning => Ok false
  | Ctl.WriteRunning _ => Ok tt
  | Ctl.Prepare _ => Ok (Preparation.READY gate_receipt)
  | Ctl.BeforeManualRunPreflight => Ok None
  | Ctl.RunOnce _ | Ctl.PreviewOnce _ => Err (JsError (PlainError "exchange is down"))
  end.

Definition gate_exec := exec gate_answers (requestRun gate_deps gate_request tt) [].

Lemma gate_runs :
  runs any_answer (requestRun gate_deps gate_request tt) [] (fst gate_exec) (tt, snd (snd gate_exec)).
Proof.
  pose proof (exec_runs any_answer gate_answers (requestRun gate_deps gate_request tt) []
    (fun _ _ _ => I)) as H.
  fold gate_exec in H. by destruct gate_exec as [h [[] x]].
Qed.

Example failed_run_is_reported :
  match snd (snd gate_exec) with
  | Ok result => Some (done_status result, done_detail result)
  | Err _ => None
  end = Some (RunStatusOf.FAILED, "Strategy run failed: exchange is down").
Proof. vm_compute. reflexivity. Qed.

(** The calls around the run. *)
Fixpoint split_run (h : history) : option (history * PositionGuardRunInput * history) :=
  match h with
  | [] => None
  | ev :: h' =>
      match ev with
      | Asked e _ =>
          match e with
          | Ctl.RunOnce input => Some ([], input, h')
          | _ => match split_run h' with
                 | Some (newer, input, older) => Some (ev :: newer, input, older)
                 | None => None
                 end
          end
      end
  end.

Lemma split_run_eq h newer input older :
  split_run h = Some (newer, input, older) ->
  exists a, h = (newer ++ Asked (Ctl.RunOnce input) a :: older)%list.
Proof.
  revert newer. induction h as [|[B e r] h IH]; intros newer Hs; [done|]. cbn in Hs.
  destruct e; try (destruct (split_run h) as [[[n i] o]|]; [|discriminate Hs];
    injection Hs as <- <- <-; destruct (IH n eq_refl) as [a ->]; by exists a).
  injection Hs as <- <- <-. by exists r.
Qed.

Lemma runs_are_gated_witness :
  match split_run (fst gate_exec) with
  | Some (_, input, older) =>
      run_refreshReceipt input = Some gate_receipt /\ List.filter is_run older = [] /\
      exists requestedAt receipt, gate_passed gate_deps gate_request requestedAt receipt older
  | None => False
  end.
Proof.
  assert (Hr : (fun '(_, input, _) => run_refreshReceipt input) <$> split_run (fst gate_exec)
    = Some (Some gate_receipt)) by (vm_compute; reflexivity).
  destruct (split_run (fst gate_exec)) as [[[newer input] older]|] eqn:Hs; [|discriminate Hr].
  injection Hr as Hr. destruct (split_run_eq _ _ _ _ Hs) as [a Ha].
  destruct (runs_are_gated gate_deps gate_request _ _ gate_runs) as [Hgate _].
  destruct (Hgate newer older input a Ha) as (Hnone & requestedAt & receipt & _ & Hp).
  split; [exact Hr|]. split; [exact Hnone|]. exists requestedAt, receipt. exact Hp.
Defined.

(** *** Two requests at once *)

Inductive command : Type :=
| Request (q : request)
| Answer (i : nat).

(** A request, or the answer to what a request waits for. *)
Definition obey (c : command) (s : controller_state) : controller_state :=
  match c with
  | Request q =>
      let '(running, p) := settle (flag_running s) (handle gate_deps q tt) in
      {| flag_running := running; threads := (threads s ++ [p])%list |}
  | Answer i =>
      match threads s !! i with
      | Some (Ask _ e k) =>
          match flag_answer (flag_running s) e with
          | None => let '(running, p) := settle (flag_running s) (k (gate_answers [] _ e)) in
                    {| flag_running := running; threads := <[i := p]> (threads s) |}
          | Some _ => s
          end
      | _ => s
      end
  end.

Lemma obey_steps c s : rtc (controller_step gate_deps) s (obey c s).
Proof.
  destruct c as [q|i]; cbn.
  - destruct (settle _ _) as [running p] eqn:Hs. apply rtc_once. by eapply step_request.
  - destruct (threads s !! i) as [[v|B e k]|] eqn:Hi; [done| |done].
    destruct (flag_answer (flag_running s) e) as [[a running]|] eqn:He; [done|].
    destruct (settle _ _) as [running p] eqn:Hs. apply rtc_once. by eapply step_answer.
Qed.

Definition obeyed (cs : list command) : controller_state :=
  foldl (fun s c => obey c s) controller_start cs.

Lemma obeyed_reachable cs : rtc (controller_step gate_deps) controller_start (obeyed cs).
Proof.
  unfold obeyed. generalize controller_start. induction cs as [|c cs IH]; intros s; [done|].
  cbn. etrans; [apply obey_steps|apply IH].
Qed.

(** The first request waits for its preparation while the second asks. *)
Definition two_requests : list command :=
  [Request (RunRequest gate_request); Answer 0; Answer 0;
   Request (RunRequest gate_request); Answer 1; Answer 1].

Definition refused (p : prog Ctl.call run_error (unit * Effects.result run_error response)) : bool :=
  match p with
  | Done _ (_, Ok (RunResponse result)) => done_status result === RunStatusOf.ALREADY_RUNNING
  | _ => false
  end.

Example second_request_is_refused : refused <$> threads (obeyed two_requests) = [false; true].
Proof. vm_compute. reflexivity. Qed.

(** Both are answered in the end, and the next request runs again. *)
Example flag_is_given_back :
  (fun s => (flag_running s, refused <$> threads s))
    (obeyed (two_requests ++ [Answer 0; Answer 0; Answer 0; Answer 0; Request (RunRequest gate_request);
                              Answer 2; Answer 2])%list)
  = (true, [false; true; false]).
Proof. vm_compute. reflexivity. Qed.

Lemma one_run_at_a_time_witness :
  flag_running (obeyed two_requests) = true /\
  forall j p, threads (obeyed two_requests) !! j = Some p -> waits_for_a_run p -> j = 0%nat.
Proof.
  destruct (one_run_at_a_time gate_deps _ (obeyed_reachable two_requests)) as (Hone & Hflag & _).
  assert (Hw : exists p, threads (obeyed two_requests) !! 0%nat = Some p /\ waits_for_a_run p)
    by (eexists; split; [reflexivity|vm_compute; reflexivity]).
  destruct Hw as (p0 & Hp0 & Hw0). split; [exact (Hflag _ _ Hp0 Hw0)|].
  intros j p Hp Hw. exact (Hone _ _ _ _ Hp Hp0 Hw Hw0).
Defined.
